(* ===== verification/_CoqProject ===== *)
-Q . S2P
Prelude.v
Config.v
Queue.v
Kernel.v
ReadyQueue.v
KInv.v
KCheck.v
Task.v
Timer.v
Wait.v
TaskSync.v
Mem.v
Bitop.v
FreeArea.v
Heap.v
Memory.v
MemPool.v
Rendezvous.v
Klock.v
Semaphore.v
EventFlag.v
Mailbox.v
MessageBuf.v
MemPoolFix.v
Mutex.v
Hooks.v
TaskManage.v
System.v
TimeCalls.v
Interrupt.v
Startup.v
Prog.v
Threads.v
FastLock.v
Device.v
DeviceIO.v
Monitor.v
Msdi.v
Serial.v
Adc.v
Shim.v
ShimQueue.v
ShimEvtGrp.v
ShimTask.v
ShimTimer.v
ShimPort.v
