(* ===== verification/Prelude.v ===== *)
(** * µT-Kernel 3.0 on the ESP32-C3: a verification development

    The repository is a port of the µT-Kernel 3.0 real-time kernel to the ESP32-C3, with
    a layer that offers the FreeRTOS API on top of it.  This development models the
    kernel proper (kernel/tkernel), the parts of the RISC-V port that switch tasks, manage
    interrupts and keep time, the queues and the allocator they are built on, and the
    locks, drivers and FreeRTOS objects built on top of the system calls.  Paths are relative to src/.

    ** How the parts interact

    A control block is an entry of a table; every QUEUE member links it into rings: free
    lists, wait queues, the ready queue, the timer queue.  A system call runs with
    interrupts disabled: it takes the running task out of the ready queue and puts
    it into the wait queue of an object (wait.c), or takes tasks out of a wait queue and
    makes them ready (task.c), which selects [knl_schedtsk].  The end of the critical
    section asks the dispatcher (cpu_cntl.c) for a switch when [knl_schedtsk] is not
    the running task.  The timer interrupt (timer.c) moves the clock and runs the
    events that are due: time-outs of waits, cyclic and alarm handlers.  The port calls it
    as often as the hardware counter says (sys_timer.c, interrupt.c).

    Above the system calls there is code that runs in tasks and is interleaved with that
    of other tasks between its system calls: the fast locks (lib/libtk), the device
    manager, which calls the functions of the drivers (device.c, deviceio.c) through the
    layer for simple drivers (msdrvif.c), the serial and the A/D driver, and the
    FreeRTOS objects (components/freertos_shim).  The monitor (lib/libtm) prints to the
    serial line.

    ** Files

    - Prelude: machine integers ([u32], [s32], ...), loops ([ploop]), updates of
      functions at a point with the tactics [upd_simpl] and [upd_case], generic lemmas.
    - Config: constants of config/config.h, include/sys/knldef.h, include/tk/errno.h and
      the bits of include/tk/syscall.h.
    - Queue: include/sys/queue.h on a memory of links, and its abstraction: [ring m h l]
      and [qwf m Q], the links are exactly the rings of the finite map [Q].
    - Kernel: control blocks as records; [SCH] is the state of task.c, wait.c and timer.c
      (links, TCBs, ready queue, timer events, the global variables), [K] adds the
      tables of the objects, the byte memory and the heap.  A pointer to a control block
      is its index, a pointer into memory an address.
    - ReadyQueue (ready_queue.h), Task (task.c, task.h, cpu_task.h), Timer (timer.c,
      timer.h), Wait (wait.c, wait.h), Hooks (the hooks of winfo.h and the routines
      that run them), Klock (klock.c): the machinery all calls share.
    - KInv: the invariant [kinv s Q] of the machinery; KCheck: a decision procedure for it
      on concrete states, which the witnesses use.
    - TaskSync (task_sync.c), TaskManage (task_manage.c), Semaphore, EventFlag, Mailbox,
      MessageBuf, MemPoolFix (mempfix.c), MemPool (mempool.c), Mutex, Rendezvous,
      TimeCalls (time_calls.c and the timer interrupt): one file per object manager,
      one definition per call, with the C names.
    - Interrupt (int.c, interrupt.c, sys_timer.c): the table of interrupt handlers over the
      vendor's allocator, and the system timer.
    - Mem: byte memory, knl_memcpy and knl_memset, and the interface [Allocator].
      FreeArea and Heap: the areas of a heap and its free queue; Memory (memory.c).
      Bitop (tstdlib/bitop.c): bit strings.
    - System: interrupt nesting, the latched dispatch interrupt, the masking of
      interrupts, the dispatcher, and the running system as a step relation.
    - Startup (tkinit.c, sysinit.c, inittask.c): from the initialization of the heap and of
      the tables to the start of the initial task, whose stack is the first block of the
      heap of Memory.
    - Prog: code of tasks as a tree of steps, sequences and loops, over any state that
      contains that of the kernel; Threads: pools of tasks that run such code, and their
      interleavings.
    - FastLock: fastlock.c and fastmlock.c.
    - Device (device.c: registration, names, references) and DeviceIO (deviceio.c: opening,
      closing, requests, suspension, start-up).
    - Monitor: libtm.c and libtm_printf.c.
    - Msdi (device/common/drvif/msdrvif.c), Serial (device/ser: ser.c and ser_esp32c3.c) and
      Adc (device/adc): the drivers.
    - Shim (the state all FreeRTOS objects share), ShimQueue (shim_queue.c), ShimEvtGrp
      (shim_evtgrp.c), ShimTask (shim_task.c), ShimTimer (shim_timer.c) and ShimPort
      (shim_port.c).

    ** State and operations

    A call is a function from the state to its result and the next state.  A call that
    makes the task wait returns what its variable [ercd] holds, E_TMOUT; the real result is
    what [s_ercd] (and [s_rcvsz]) of the task hold when it runs again, since a release
    writes them through the pointer [wercd] of the TCB.  Interrupt-disabled sections are
    single steps.  Object attributes, wait factors ([WINFO]) and callbacks are
    inductive types; the two wait factors of a rendezvous share their words as the union
    does ([Rendezvous.to_rdv]).

    Code that makes several system calls is a [prog]: its steps are the system calls and the
    accesses to shared variables, and other tasks may run between any two of them.
    [yields p s a s'] says that it runs alone from [s] to [s'] with the result [a];
    [pool_reaches] is the closure of the steps of all tasks that are ready.  The device
    manager's sections under its lock are single steps, since the lock excludes the other
    tasks that look at its state.  Handles of the FreeRTOS objects are their addresses.

    Code outside the repository is a parameter: the handlers a user registers
    ([TimeCalls.UserHandlers]), the functions of the drivers ([DeviceIO.Drivers]), of the
    simple drivers ([Msdi.SimpleDrivers]), the interrupt allocator and the counter
    ([Interrupt.EspIntr], [Interrupt.Systimer], with their laws), the registers of the UART and the converter
    ([Serial.Uart] with the laws [Serial.UartLaws], [Adc.AdcHal]), the call-backs of
    FreeRTOS timers and the vendor's heap.  The object managers see the allocator through
    [Mem.Allocator]; Memory defines and verifies the allocator itself.

    ** What the theorems show

    - The start-up takes memory that holds nothing to the invariant, with one ready task
      and its stack as the only block of the heap (Startup).
    - The scheduler: every state that the nine calls of the step relation of System (see
      below), interrupts and task switches reach satisfies the invariant, and the task
      that runs with dispatching enabled is the first one of the highest priority level
      in use; what happens when a handler suspends the only ready task.
    - The link memory refines lists (Queue), the timer queue is kept in the order of
      expiry across the wrap-around of the clock and a timer interrupt runs all due
      events (Timer, TimeCalls).
    - For each object manager, what its calls do on every branch: who is released, in
      which order, with which result, what is returned, and that the invariant holds
      again: [wait_post] (a task went to wait) and [rel_post] (tasks were released) in
      Wait state the shared part.  Semaphores and event flags refine an abstract service
      discipline ([sem_serve], [flg_serve]).
    - Data: the ring buffer of a message buffer returns messages in order and unchanged,
      blocks of a fixed-size pool are disjoint and inside the pool, from its creation on and
      when a block goes to a task that waits; the heap never hands out overlapping areas
      for sizes up to [MAX_ALLOCATE] (and what it does beyond), best fit, merging of neighbours, the two directions of the
      search for a free area agree, rendezvous numbers name their task and differ.
    - Errors: the refused calls change nothing, and the states in which the code does
      not do what it means to, as theorems about it.
    - Interleaving (FastLock): over a semaphore that keeps the contract [unit_sem], a fast
      lock excludes, and a task that waits is served when the holder leaves.
    - Devices: names of units are taken apart as they are put together; an opening is
      refused exactly for the reasons the code gives, the openings of a device never
      clash, and a refused opening or a closing leaves nothing behind, neither a block
      nor a semaphore; the drivers may run under locks of their own.
    - Interrupts and time: each handle of the vendor's allocator is in the table exactly as
      long as it is claimed; the periods credited to the kernel and those dropped are
      those the counter counted, and the handler runs once for each credited one.
    - Printing: numbers are printed as the C standard asks but for two cases of %#o, and
      decimal numbers read back.
    - The serial line: in every interleaving of readers, writers, the interrupt handler and
      the UART, bytes keep their order, none is stranded in the send buffer, and one that
      arrived is lost only if the overflow is noted; what a read returns and how the
      counts of free and waiting bytes relate to the buffers.
    - FreeRTOS objects: a queue is a bounded first-in first-out list, critical sections
      and any number of spinlocks nest; and where the layer departs from the FreeRTOS
      contract.

    ** Loops and fuel

    [ploop] runs a loop at most a given (binary) number of rounds; Fixpoints with fuel
    take [QFUEL] = NUM_TSKID + 1 (a wait queue holds at most all tasks), [TFUEL] (at most
    one timer event per task, cyclic and alarm handler), [MFUEL] = NUM_MTXID + 1 (the
    mutexes of a task), [PFUEL] = NUM_TSKID * NUM_TSKPRI + 1 (raises of priorities along
    a chain of owners: each raises the priority of one task) and [SFUEL] = 2^31 + 1 (areas
    of a 32-bit heap); in the device manager [OFUEL] and [RFUEL] are one more than the open
    and request blocks there are.  That they suffice is proved where a theorem depends on it:
    [length_wait_queue], [holds_length], [search_fuel], [length_blocks],
    [timer_handler_expires], [bitsearch1_spec].  The
    theorems about mutexes need two rounds of [PFUEL] at most: where the owner inherits a
    priority they take it not to be waiting itself.

    ** Not modelled

    - Saving and restoring registers, the panic handler, the stack switch of interrupts,
      gp and tp of a new task; [y_mie] and [y_level] are those of the interrupted task, so
      an interrupt handler's own masking is not part of the state.
    - The step relation of System has the calls tk_sta_tsk, tk_rot_rdq, tk_sus_tsk,
      tk_rsm_tsk, tk_frsm_tsk, tk_slp_tsk, tk_wup_tsk, tk_can_wup and tk_dly_tsk, the control
      of dispatching, and interrupts, whose handlers make these calls without tk_sus_tsk;
      creation, exit and termination of tasks, the calls on objects and the timer interrupt
      are not in it.
    - [kinv] is the invariant while no object lock (klock.c) is held; the calls on fixed
      pools are specified from states where their lock is free ([Klock.lock_free]).
    - The timer interrupt is specified for time-outs of waits without a release hook, and
      locking a mutex except where the priority of an owner that waits itself is raised.
    - The sections of the device manager are not split into the system calls they make while
      they hold its lock; its call-backs run outside the lock, as steps of their own.
    - The FreeRTOS objects without their printing, their names and the output parameter
      that says whether a task of higher priority woke up.
    - Object names (disabled in this configuration), the initialization of the hardware,
      the registration of the serial and the A/D device and the set-up of their pins, the
      I2C driver (whose low-level part is not in the repository), the network and Bluetooth
      glue and the sample programs. *)
From stdpp Require Export base tactics functions list gmap sorting.
From Stdlib Require Export ZArith Lia.
#[global] Open Scope Z_scope.
#[global] Set Default Goal Selector "!".

(** ** Machine integers

    [INT], [W], [TMO] are 32-bit two's complement, [UINT], [UW], [ABSTIM] and
    [RELTIM] are 32-bit unsigned, [UB] is an unsigned byte and [D] is a 64-bit
    two's complement number. *)

Definition u32 (x : Z) : Z := x mod 2 ^ 32.
Definition u8 (x : Z) : Z := x mod 2 ^ 8.
Definition s32 (x : Z) : Z := (x + 2 ^ 31) mod 2 ^ 32 - 2 ^ 31.
Definition s64 (x : Z) : Z := (x + 2 ^ 63) mod 2 ^ 64 - 2 ^ 63.

Lemma u32_range x : 0 <= u32 x < 2 ^ 32.
Proof. apply Z.mod_pos_bound; lia. Qed.

Lemma u32_small x : 0 <= x < 2 ^ 32 → u32 x = x.
Proof. apply Z.mod_small. Qed.

Lemma u32_idemp x : u32 (u32 x) = u32 x.
Proof. apply u32_small, u32_range. Qed.

Lemma u32_add_l x y : u32 (u32 x + y) = u32 (x + y).
Proof. unfold u32. apply Zplus_mod_idemp_l. Qed.

Lemma u32_add_r x y : u32 (x + u32 y) = u32 (x + y).
Proof. unfold u32. apply Zplus_mod_idemp_r. Qed.

Lemma u32_sub_l x y : u32 (u32 x - y) = u32 (x - y).
Proof. unfold u32. apply Zminus_mod_idemp_l. Qed.

Lemma u32_sub_r x y : u32 (x - u32 y) = u32 (x - y).
Proof. unfold u32. apply Zminus_mod_idemp_r. Qed.

Lemma s32_small x : - 2 ^ 31 <= x < 2 ^ 31 → s32 x = x.
Proof. intros ?. unfold s32. rewrite Z.mod_small; lia. Qed.

Lemma s32_range x : - 2 ^ 31 <= s32 x < 2 ^ 31.
Proof. unfold s32. pose proof (Z.mod_pos_bound (x + 2 ^ 31) (2 ^ 32)). lia. Qed.

Lemma s64_small x : - 2 ^ 63 <= x < 2 ^ 63 → s64 x = x.
Proof. intros ?. unfold s64. rewrite Z.mod_small; lia. Qed.

Create Rewrite HintDb u32.
#[export] Hint Rewrite u32_idemp u32_add_l u32_add_r u32_sub_l u32_sub_r : u32.

(** ** Tables

    A C array of control blocks is a total map from its index; the checks of the
    code keep every index it uses inside the array.  [upd_simpl] reads through
    the updates whose indices it can tell apart. *)

Ltac upd_simpl :=
  repeat first
    [ rewrite fn_lookup_insert
    | rewrite fn_lookup_insert_ne by congruence ].

Ltac upd_case k k' :=
  destruct (decide (k = k')) as [?|?]; [subst|]; upd_simpl.

(** Equalities of bit patterns, bit by bit. *)
Ltac bitwise :=
  apply Z.bits_inj'; intros ? ?;
  rewrite ?Z.land_spec, ?Z.lor_spec, ?Z.lnot_spec, ?Z.bits_0 by lia;
  repeat match goal with |- context [Z.testbit ?a ?b] => destruct (Z.testbit a b); simpl end; try done.

(** ** Insertion into an ordered list

    The kernel's ordered insertions walk a queue to the first element that has to
    stay behind the new one and insert in front of it. *)

Section ins_before.
Context {A : Type}.

Fixpoint ins_before (stop : A → bool) (x : A) (l : list A) : list A :=
  match l with
  | [] => [x]
  | y :: l' => if stop y then x :: l else y :: ins_before stop x l'
  end.

Lemma ins_before_Permutation stop x l : ins_before stop x l ≡ₚ x :: l.
Proof.
  induction l as [|y l IH]; simpl; [done|].
  destruct (stop y); [done|]. rewrite IH. apply Permutation_swap.
Qed.

Lemma elem_of_ins_before stop x y l : y ∈ ins_before stop x l ↔ y = x ∨ y ∈ l.
Proof. rewrite ins_before_Permutation. apply elem_of_cons. Qed.

Lemma ins_before_ext stop stop' x l :
  (∀ y, y ∈ l → stop y = stop' y) → ins_before stop x l = ins_before stop' x l.
Proof.
  intros Hl. induction l as [|y l IH]; simpl; [done|].
  rewrite (Hl y) by left. destruct (stop' y); [done|]. f_equal. apply IH. intros. apply Hl. by right.
Qed.

(** The insertion point: the elements before it do not stop the walk, the one
    after it does. *)
Lemma ins_before_split stop x l :
  ∃ l1 l2, l = l1 ++ l2 ∧ ins_before stop x l = l1 ++ x :: l2 ∧
    Forall (λ y, stop y = false) l1 ∧ (∀ y l', l2 = y :: l' → stop y = true).
Proof.
  induction l as [|y l IH]; simpl.
  - exists [], []. by repeat split.
  - destruct (stop y) eqn:Hy.
    + exists [], (y :: l). repeat split; [done|]. intros ? ? [= <- <-]. done.
    + destruct IH as (l1 & l2 & -> & -> & Hl1 & Hl2).
      exists (y :: l1), l2. repeat split; [by constructor|done].
Qed.

(** Inserting behind every element with a key at most the new one keeps a list
    sorted by key. *)
Lemma ins_before_sorted (key : A → Z) x l :
  StronglySorted (λ a b, key a <= key b) l →
  StronglySorted (λ a b, key a <= key b) (ins_before (λ y, key x <? key y) x l).
Proof.
  induction 1 as [|y l Hs IH Hall]; simpl; [by repeat constructor|].
  destruct (Z.ltb_spec (key x) (key y)).
  - constructor; [by constructor|]. constructor; [lia|].
    eapply Forall_impl; [exact Hall|]. intros; simpl in *; lia.
  - constructor; [done|]. rewrite ins_before_Permutation.
    constructor; [lia|done].
Qed.
End ins_before.

(** ** Removing one element of a duplicate-free list *)

Section ldel.
Context {A : Type} `{!EqDecision A}.

Definition ldel (e : A) (l : list A) : list A := filter (λ x, x ≠ e) l.

Lemma ldel_notin e l : e ∉ l → ldel e l = l.
Proof.
  unfold ldel. induction l as [|x l IH]; [done|]. rewrite not_elem_of_cons. intros [??].
  rewrite filter_cons_True by done. by rewrite IH.
Qed.

Lemma ldel_app e l1 l2 : NoDup (l1 ++ e :: l2) → ldel e (l1 ++ e :: l2) = l1 ++ l2.
Proof.
  intros Hnd. apply NoDup_app in Hnd as (Hn1 & Hdis & Hn2).
  apply NoDup_cons in Hn2 as [??].
  unfold ldel. rewrite filter_app, filter_cons_False by naive_solver.
  change (ldel e l1 ++ ldel e l2 = l1 ++ l2).
  rewrite !ldel_notin; [done|done|]. intros ?. eapply Hdis; [done|left].
Qed.

Lemma elem_of_ldel e x l : x ∈ ldel e l ↔ x ≠ e ∧ x ∈ l.
Proof. unfold ldel. by rewrite list_elem_of_filter. Qed.
End ldel.

(** ** Loops over memory

    [ploop p f s] runs the loop body [f] from [s] at most [p] times; [inl] goes on,
    [inr] leaves the loop.  The bound is binary, so that a bound as large as the
    address space costs nothing when the loop ends early. *)

Section ploop.
Context {S R : Type}.

Fixpoint ploop (p : positive) (f : S → S + R) (s : S) : S + R :=
  match p with
  | xH => f s
  | xO q => match ploop q f s with inl s' => ploop q f s' | r => r end
  | xI q =>
      match f s with
      | inl s' => match ploop q f s' with inl s'' => ploop q f s'' | r => r end
      | r => r
      end
  end.

(** The same loop with a unary bound. *)
Fixpoint nloop (n : nat) (f : S → S + R) (s : S) : S + R :=
  match n with
  | O => inl s
  | Datatypes.S n => match f s with inl s' => nloop n f s' | r => r end
  end.

Lemma nloop_add n m f s :
  nloop (n + m) f s = match nloop n f s with inl s' => nloop m f s' | r => r end.
Proof. revert s. induction n as [|n IH]; intros s; simpl; [done|]. destruct (f s); [apply IH|done]. Qed.

Lemma ploop_nloop p f s : ploop p f s = nloop (Pos.to_nat p) f s.
Proof.
  revert s. induction p as [p IH|p IH|]; intros s; simpl ploop.
  - rewrite Pos2Nat.inj_xI. replace (Datatypes.S (2 * Pos.to_nat p)) with (1 + (Pos.to_nat p + Pos.to_nat p))%nat by lia.
    rewrite nloop_add. simpl. destruct (f s) as [s'|]; [|done]. rewrite nloop_add, <- IH.
    destruct (ploop p f s'); [apply IH|done].
  - rewrite Pos2Nat.inj_xO. replace (2 * Pos.to_nat p)%nat with (Pos.to_nat p + Pos.to_nat p)%nat by lia.
    rewrite nloop_add, <- IH. destruct (ploop p f s); [apply IH|done].
  - simpl. by destruct (f s).
Qed.

(** A loop that ends within [n] rounds ends within any larger bound. *)
Lemma nloop_mono n m f s r : (n ≤ m)%nat → nloop n f s = inr r → nloop m f s = inr r.
Proof.
  intros Hle Hr. replace m with (n + (m - n))%nat by lia. by rewrite nloop_add, Hr.
Qed.

Lemma ploop_enough n p f s r : (n ≤ Pos.to_nat p)%nat → nloop n f s = inr r → ploop p f s = inr r.
Proof. intros ? ?. rewrite ploop_nloop. by eapply nloop_mono. Qed.
End ploop.

Lemma NoDup_mid {A : Type} (l1 l2 : list A) (x : A) : NoDup (l1 ++ x :: l2) → x ∉ l1 ++ l2 ∧ NoDup (l1 ++ l2).
Proof. by rewrite <- Permutation_middle, NoDup_cons. Qed.

Lemma mid_unique {A : Type} (x : A) (l1 l2 k1 k2 : list A) :
  NoDup (l1 ++ x :: l2) → l1 ++ x :: l2 = k1 ++ x :: k2 → l1 ++ l2 = k1 ++ k2.
Proof.
  intros Hnd E. revert k1 E Hnd. induction l1 as [|y l1 IH]; intros [|z k1] E Hnd; simplify_eq/=;
    apply NoDup_cons in Hnd as [Hn Hnd]; [done| | |f_equal; auto];
    exfalso; apply Hn, elem_of_app; right; left.
Qed.
