(* ===== verification/Config.v ===== *)
(** * Constants

    The configuration (config/config.h), the object ranges (include/sys/knldef.h),
    the error codes (include/tk/errno.h) and the attribute and mode bits
    (include/tk/syscall.h) the kernel sources use. *)
From S2P Require Import Prelude.

(** ** Configuration: config/config.h *)

(* src: config/config.h 39-39 CNF_MAX_TSKPRI *)
Definition CNF_MAX_TSKPRI : Z := 32.

(* src: config/config.h 41-41 CNF_TIMER_PERIOD *)
Definition CNF_TIMER_PERIOD : Z := 1.

(* src: config/config.h 46-46 CNF_MAX_TSKID *)
Definition CNF_MAX_TSKID : Z := 64.

(* src: config/config.h 47-47 CNF_MAX_SEMID *)
Definition CNF_MAX_SEMID : Z := 128.

(* src: config/config.h 50-50 CNF_MAX_FLGID *)
Definition CNF_MAX_FLGID : Z := 32.

(* src: config/config.h 51-51 CNF_MAX_MBXID *)
Definition CNF_MAX_MBXID : Z := 8.

(* src: config/config.h 52-52 CNF_MAX_MTXID *)
Definition CNF_MAX_MTXID : Z := 64.

(* src: config/config.h 53-53 CNF_MAX_MBFID *)
Definition CNF_MAX_MBFID : Z := 32.

(* src: config/config.h 54-54 CNF_MAX_MPLID *)
Definition CNF_MAX_MPLID : Z := 4.

(* src: config/config.h 81-81 CNF_MAX_PORID *)
Definition CNF_MAX_PORID : Z := 2.

(* src: config/config.h 55-55 CNF_MAX_MPFID *)
Definition CNF_MAX_MPFID : Z := 8.

(* src: config/config.h 56-56 CNF_MAX_CYCID *)
Definition CNF_MAX_CYCID : Z := 16.

(* src: config/config.h 57-57 CNF_MAX_ALMID *)
Definition CNF_MAX_ALMID : Z := 32.

(** ** Object ranges: include/sys/knldef.h *)

(* src: include/sys/knldef.h 57-57 MIN_TSKPRI *)
Definition MIN_TSKPRI : Z := 1.

(* src: include/sys/knldef.h 58-58 MAX_TSKPRI *)
Definition MAX_TSKPRI : Z := CNF_MAX_TSKPRI.

(* src: include/sys/knldef.h 59-59 NUM_TSKPRI *)
Definition NUM_TSKPRI : Z := CNF_MAX_TSKPRI.

(* src: include/sys/knldef.h 66-66 TIMER_PERIOD *)
Definition TIMER_PERIOD : Z := CNF_TIMER_PERIOD.

(* src: include/sys/knldef.h 60-60 CHK_PRI *)
Definition CHK_PRI (pri : Z) : bool := (MIN_TSKPRI <=? pri) && (pri <=? MAX_TSKPRI).

(* src: include/sys/knldef.h 74-74 MIN_TSKID *)
Definition MIN_TSKID : Z := 1.

(* src: include/sys/knldef.h 76-76 NUM_TSKID *)
Definition NUM_TSKID : Z := CNF_MAX_TSKID.

(* src: include/sys/knldef.h 77-77 CHK_TSKID *)
Definition CHK_TSKID (id : Z) : bool := (MIN_TSKID <=? id) && (id <=? NUM_TSKID).

(* src: include/sys/knldef.h 78-78 INDEX_TSK *)
Definition INDEX_TSK (id : Z) : Z := id - MIN_TSKID.

(* src: include/sys/knldef.h 79-79 ID_TSK *)
Definition ID_TSK (index : Z) : Z := index + MIN_TSKID.

(* src: include/sys/knldef.h 84-84 MIN_SEMID *)
Definition MIN_SEMID : Z := 1.

(* src: include/sys/knldef.h 85-85 NUM_SEMID *)
Definition NUM_SEMID : Z := CNF_MAX_SEMID.

(* src: include/sys/knldef.h 86-86 CHK_SEMID *)
Definition CHK_SEMID (id : Z) : bool := (MIN_SEMID <=? id) && (id <=? NUM_SEMID).

(* src: include/sys/knldef.h 87-87 INDEX_SEM *)
Definition INDEX_SEM (id : Z) : Z := id - MIN_SEMID.

(* src: include/sys/knldef.h 88-88 ID_SEM *)
Definition ID_SEM (index : Z) : Z := index + MIN_SEMID.

(* src: include/sys/knldef.h 95-95 MIN_FLGID *)
Definition MIN_FLGID : Z := 1.

(* src: include/sys/knldef.h 97-97 NUM_FLGID *)
Definition NUM_FLGID : Z := CNF_MAX_FLGID.

(* src: include/sys/knldef.h 98-98 CHK_FLGID *)
Definition CHK_FLGID (id : Z) : bool := (MIN_FLGID <=? id) && (id <=? NUM_FLGID).

(* src: include/sys/knldef.h 99-99 INDEX_FLG *)
Definition INDEX_FLG (id : Z) : Z := id - MIN_FLGID.

(* src: include/sys/knldef.h 100-100 ID_FLG *)
Definition ID_FLG (index : Z) : Z := index + MIN_FLGID.

(* src: include/sys/knldef.h 107-107 MIN_MBXID *)
Definition MIN_MBXID : Z := 1.

(* src: include/sys/knldef.h 109-109 NUM_MBXID *)
Definition NUM_MBXID : Z := CNF_MAX_MBXID.

(* src: include/sys/knldef.h 110-110 CHK_MBXID *)
Definition CHK_MBXID (id : Z) : bool := (MIN_MBXID <=? id) && (id <=? NUM_MBXID).

(* src: include/sys/knldef.h 111-111 INDEX_MBX *)
Definition INDEX_MBX (id : Z) : Z := id - MIN_MBXID.

(* src: include/sys/knldef.h 112-112 ID_MBX *)
Definition ID_MBX (index : Z) : Z := index + MIN_MBXID.

(* src: include/sys/knldef.h 119-119 MIN_MTXID *)
Definition MIN_MTXID : Z := 1.

(* src: include/sys/knldef.h 121-121 NUM_MTXID *)
Definition NUM_MTXID : Z := CNF_MAX_MTXID.

(* src: include/sys/knldef.h 122-122 CHK_MTXID *)
Definition CHK_MTXID (id : Z) : bool := (MIN_MTXID <=? id) && (id <=? NUM_MTXID).

(* src: include/sys/knldef.h 123-123 INDEX_MTX *)
Definition INDEX_MTX (id : Z) : Z := id - MIN_MTXID.

(* src: include/sys/knldef.h 124-124 ID_MTX *)
Definition ID_MTX (index : Z) : Z := index + MIN_MTXID.

(* src: include/sys/knldef.h 131-131 MIN_MBFID *)
Definition MIN_MBFID : Z := 1.

(* src: include/sys/knldef.h 133-133 NUM_MBFID *)
Definition NUM_MBFID : Z := CNF_MAX_MBFID.

(* src: include/sys/knldef.h 134-134 CHK_MBFID *)
Definition CHK_MBFID (id : Z) : bool := (MIN_MBFID <=? id) && (id <=? NUM_MBFID).

(* src: include/sys/knldef.h 135-135 INDEX_MBF *)
Definition INDEX_MBF (id : Z) : Z := id - MIN_MBFID.

(* src: include/sys/knldef.h 136-136 ID_MBF *)
Definition ID_MBF (index : Z) : Z := index + MIN_MBFID.

(* src: include/sys/knldef.h 143-143 MIN_MPLID *)
Definition MIN_MPLID : Z := 1.

(* src: include/sys/knldef.h 145-145 NUM_MPLID *)
Definition NUM_MPLID : Z := CNF_MAX_MPLID.

(* src: include/sys/knldef.h 146-146 CHK_MPLID *)
Definition CHK_MPLID (id : Z) : bool := (MIN_MPLID <=? id) && (id <=? NUM_MPLID).

(* src: include/sys/knldef.h 147-147 INDEX_MPL *)
Definition INDEX_MPL (id : Z) : Z := id - MIN_MPLID.

(* src: include/sys/knldef.h 148-148 ID_MPL *)
Definition ID_MPL (index : Z) : Z := index + MIN_MPLID.

(* src: include/sys/knldef.h 155-155 MIN_MPFID *)
Definition MIN_MPFID : Z := 1.

(* src: include/sys/knldef.h 157-157 NUM_MPFID *)
Definition NUM_MPFID : Z := CNF_MAX_MPFID.

(* src: include/sys/knldef.h 158-158 CHK_MPFID *)
Definition CHK_MPFID (id : Z) : bool := (MIN_MPFID <=? id) && (id <=? NUM_MPFID).

(* src: include/sys/knldef.h 159-159 INDEX_MPF *)
Definition INDEX_MPF (id : Z) : Z := id - MIN_MPFID.

(* src: include/sys/knldef.h 160-160 ID_MPF *)
Definition ID_MPF (index : Z) : Z := index + MIN_MPFID.

(* src: include/sys/knldef.h 192-192 MIN_PORID *)
Definition MIN_PORID : Z := 1.

(* src: include/sys/knldef.h 194-194 NUM_PORID *)
Definition NUM_PORID : Z := CNF_MAX_PORID.

(* src: include/sys/knldef.h 195-195 CHK_PORID *)
Definition CHK_PORID (id : Z) : bool := (MIN_PORID <=? id) && (id <=? NUM_PORID).

(* src: include/sys/knldef.h 196-196 INDEX_POR *)
Definition INDEX_POR (id : Z) : Z := id - MIN_PORID.

(* src: include/sys/knldef.h 197-197 ID_POR *)
Definition ID_POR (index : Z) : Z := index + MIN_PORID.

(* src: include/sys/knldef.h 167-167 MIN_CYCID *)
Definition MIN_CYCID : Z := 1.

(* src: include/sys/knldef.h 169-169 NUM_CYCID *)
Definition NUM_CYCID : Z := CNF_MAX_CYCID.

(* src: include/sys/knldef.h 170-170 CHK_CYCID *)
Definition CHK_CYCID (id : Z) : bool := (MIN_CYCID <=? id) && (id <=? NUM_CYCID).

(* src: include/sys/knldef.h 171-171 INDEX_CYC *)
Definition INDEX_CYC (id : Z) : Z := id - MIN_CYCID.

(* src: include/sys/knldef.h 172-172 ID_CYC *)
Definition ID_CYC (index : Z) : Z := index + MIN_CYCID.

(* src: include/sys/knldef.h 180-180 MIN_ALMID *)
Definition MIN_ALMID : Z := 1.

(* src: include/sys/knldef.h 182-182 NUM_ALMID *)
Definition NUM_ALMID : Z := CNF_MAX_ALMID.

(* src: include/sys/knldef.h 183-183 CHK_ALMID *)
Definition CHK_ALMID (id : Z) : bool := (MIN_ALMID <=? id) && (id <=? NUM_ALMID).

(* src: include/sys/knldef.h 184-184 INDEX_ALM *)
Definition INDEX_ALM (id : Z) : Z := id - MIN_ALMID.

(* src: include/sys/knldef.h 185-185 ID_ALM *)
Definition ID_ALM (index : Z) : Z := index + MIN_ALMID.

(** ** Error codes: include/tk/errno.h (TK_SUPPORT_SERCD is FALSE) *)

(* src: include/tk/errno.h 76-76 E_OK *)
Definition E_OK : Z := 0.

(* src: include/tk/errno.h 78-78 E_SYS *)
Definition E_SYS : Z := -5.

(* src: include/tk/errno.h 80-80 E_NOSPT *)
Definition E_NOSPT : Z := -9.

(* src: include/tk/errno.h 82-82 E_RSATR *)
Definition E_RSATR : Z := -11.

(* src: include/tk/errno.h 83-83 E_PAR *)
Definition E_PAR : Z := -17.

(* src: include/tk/errno.h 84-84 E_ID *)
Definition E_ID : Z := -18.

(* src: include/tk/errno.h 85-85 E_CTX *)
Definition E_CTX : Z := -25.

(* src: include/tk/errno.h 88-88 E_ILUSE *)
Definition E_ILUSE : Z := -28.

(* src: include/tk/errno.h 89-89 E_NOMEM *)
Definition E_NOMEM : Z := -33.

(* src: include/tk/errno.h 90-90 E_LIMIT *)
Definition E_LIMIT : Z := -34.

(* src: include/tk/errno.h 91-91 E_OBJ *)
Definition E_OBJ : Z := -41.

(* src: include/tk/errno.h 92-92 E_NOEXS *)
Definition E_NOEXS : Z := -42.

(* src: include/tk/errno.h 93-93 E_QOVR *)
Definition E_QOVR : Z := -43.

(* src: include/tk/errno.h 94-94 E_RLWAI *)
Definition E_RLWAI : Z := -49.

(* src: include/tk/errno.h 95-95 E_TMOUT *)
Definition E_TMOUT : Z := -50.

(* src: include/tk/errno.h 96-96 E_DLT *)
Definition E_DLT : Z := -51.

(** ** Attributes, states and modes: include/tk/syscall.h, include/tk/typedef.h *)

(* src: include/tk/typedef.h 125-125 TMO_POL *)
Definition TMO_POL : Z := 0.

(* src: include/tk/typedef.h 126-126 TMO_FEVR *)
Definition TMO_FEVR : Z := -1.

(* src: include/tk/syscall.h 24-24 TSK_SELF *)
Definition TSK_SELF : Z := 0.

(* src: include/tk/syscall.h 25-25 TPRI_INI *)
Definition TPRI_INI : Z := 0.

(* src: include/tk/syscall.h 26-26 TPRI_RUN *)
Definition TPRI_RUN : Z := 0.

(* src: include/tk/syscall.h 29-29 TA_HLNG *)
Definition TA_HLNG : Z := 0x1.

(* src: include/tk/syscall.h 30-30 TA_USERBUF *)
Definition TA_USERBUF : Z := 0x20.

(* src: include/tk/syscall.h 31-31 TA_DSNAME *)
Definition TA_DSNAME : Z := 0x40.

(* src: include/tk/syscall.h 33-33 TA_RNG0 *)
Definition TA_RNG0 : Z := 0x0.
(* src: include/tk/syscall.h 36-36 TA_RNG3 *)
Definition TA_RNG3 : Z := 0x300.

(* src: include/tk/syscall.h 44-44 TTS_RUN *)
Definition TTS_RUN : Z := 0x1.

(* src: include/tk/syscall.h 53-53 TTW_SLP *)
Definition TTW_SLP : Z := 0x1.

(* src: include/tk/syscall.h 54-54 TTW_DLY *)
Definition TTW_DLY : Z := 0x2.

(* src: include/tk/syscall.h 55-55 TTW_SEM *)
Definition TTW_SEM : Z := 0x4.

(* src: include/tk/syscall.h 56-56 TTW_FLG *)
Definition TTW_FLG : Z := 0x8.

(* src: include/tk/syscall.h 57-57 TTW_MBX *)
Definition TTW_MBX : Z := 0x40.

(* src: include/tk/syscall.h 58-58 TTW_MTX *)
Definition TTW_MTX : Z := 0x80.

(* src: include/tk/syscall.h 59-59 TTW_SMBF *)
Definition TTW_SMBF : Z := 0x100.

(* src: include/tk/syscall.h 60-60 TTW_RMBF *)
Definition TTW_RMBF : Z := 0x200.

(* src: include/tk/syscall.h 61-61 TTW_CAL *)
Definition TTW_CAL : Z := 0x400.

(* src: include/tk/syscall.h 62-62 TTW_ACP *)
Definition TTW_ACP : Z := 0x800.

(* src: include/tk/syscall.h 63-63 TTW_RDV *)
Definition TTW_RDV : Z := 0x1000.

(* src: include/tk/syscall.h 65-65 TTW_MPL *)
Definition TTW_MPL : Z := 0x4000.

(* src: include/tk/syscall.h 64-64 TTW_MPF *)
Definition TTW_MPF : Z := 0x2000.

(* src: include/tk/syscall.h 68-68 TA_TFIFO *)
Definition TA_TFIFO : Z := 0x0.

(* src: include/tk/syscall.h 69-69 TA_TPRI *)
Definition TA_TPRI : Z := 0x1.

(* src: include/tk/syscall.h 71-71 TA_CNT *)
Definition TA_CNT : Z := 0x2.

(* src: include/tk/syscall.h 77-77 TA_INHERIT *)
Definition TA_INHERIT : Z := 0x2.

(* src: include/tk/syscall.h 78-78 TA_CEILING *)
Definition TA_CEILING : Z := 0x3.

(* src: include/tk/syscall.h 85-85 TA_WMUL *)
Definition TA_WMUL : Z := 0x8.

(* src: include/tk/syscall.h 89-89 TWF_ANDW *)
Definition TWF_ANDW : Z := 0x0.

(* src: include/tk/syscall.h 90-90 TWF_ORW *)
Definition TWF_ORW : Z := 0x1.

(* src: include/tk/syscall.h 91-91 TWF_CLR *)
Definition TWF_CLR : Z := 0x10.

(* src: include/tk/syscall.h 92-92 TWF_BITCLR *)
Definition TWF_BITCLR : Z := 0x20.

(* src: include/tk/syscall.h 98-98 TA_MPRI *)
Definition TA_MPRI : Z := 0x2.

(* src: include/tk/syscall.h 139-139 TA_STA *)
Definition TA_STA : Z := 0x2.

(* src: include/tk/syscall.h 140-140 TA_PHS *)
Definition TA_PHS : Z := 0x4.

(* src: include/tk/syscall.h 143-143 TCYC_STP *)
Definition TCYC_STP : Z := 0x0.

(* src: include/tk/syscall.h 144-144 TCYC_STA *)
Definition TCYC_STA : Z := 0x1.

(* src: include/tk/syscall.h 151-151 TALM_STP *)
Definition TALM_STP : Z := 0x0.

(* src: include/tk/syscall.h 152-152 TALM_STA *)
Definition TALM_STA : Z := 0x1.

(* src: include/tk/sysdepend/cpu/core/riscv_esp/cpudef.h 17-17 TA_COPS *)
Definition TA_COPS : Z := 0.

(* src: include/sys/sysdepend/cpu/core/riscv_esp/sysdef.h 29-29 MIN_SYS_STACK_SIZE *)
Definition MIN_SYS_STACK_SIZE : Z := 256.

(* src: include/sys/sysdepend/cpu/core/riscv_esp/sysdef.h 30-30 DEFAULT_SYS_STKSZ *)
Definition DEFAULT_SYS_STKSZ : Z := MIN_SYS_STACK_SIZE.

(* src: kernel/knlinc/limits.h 50-50 INT_MAX *)
Definition INT_MAX : Z := 2 ^ 31 - 1.

(** Testing an attribute bit: the code's [(atr & bit) != 0]. *)
Definition has (atr bit : Z) : bool := negb (Z.land atr bit =? 0).

(** [CHECK_RSATR(atr, maxatr)] of check.h: some bit of [atr] is not in [maxatr]. *)
(* src: kernel/tkernel/check.h 180-184 CHECK_RSATR *)
Definition RSATR_ERR (atr maxatr : Z) : bool := negb (Z.land atr (Z.lnot maxatr) =? 0).

(* src: kernel/tkernel/check.h 148-152 CHECK_TMOUT *)
Definition TMOUT_ERR (tmout : Z) : bool := negb (TMO_FEVR <=? tmout).

(* src: kernel/tkernel/check.h 153-157 CHECK_RELTIM *)
Definition RELTIM_ERR (tmout : Z) : bool := 0x80000000 <=? tmout.

(** An error code is negative. *)
Lemma E_codes_negative :
  Forall (λ e, e < 0) [E_SYS; E_NOSPT; E_RSATR; E_PAR; E_ID; E_CTX; E_ILUSE; E_NOMEM; E_LIMIT;
    E_OBJ; E_NOEXS; E_QOVR; E_RLWAI; E_TMOUT; E_DLT].
Proof. repeat constructor. Qed.

(** A table index and its ID. *)
Lemma INDEX_ID_TSK i : INDEX_TSK (ID_TSK i) = i.
Proof. unfold INDEX_TSK, ID_TSK. lia. Qed.
Lemma ID_INDEX_TSK i : ID_TSK (INDEX_TSK i) = i.
Proof. unfold INDEX_TSK, ID_TSK. lia. Qed.
Lemma CHK_TSKID_range i : CHK_TSKID i = true → 0 <= INDEX_TSK i < NUM_TSKID ∧ i ≠ 0.
Proof. unfold CHK_TSKID, INDEX_TSK, MIN_TSKID. intros [?%Z.leb_le ?%Z.leb_le]%andb_prop. lia. Qed.
Lemma INDEX_ID_SEM i : INDEX_SEM (ID_SEM i) = i.
Proof. unfold INDEX_SEM, ID_SEM. lia. Qed.
Lemma ID_INDEX_SEM i : ID_SEM (INDEX_SEM i) = i.
Proof. unfold INDEX_SEM, ID_SEM. lia. Qed.
Lemma CHK_SEMID_range i : CHK_SEMID i = true → 0 <= INDEX_SEM i < NUM_SEMID ∧ i ≠ 0.
Proof. unfold CHK_SEMID, INDEX_SEM, MIN_SEMID. intros [?%Z.leb_le ?%Z.leb_le]%andb_prop. lia. Qed.
Lemma INDEX_ID_FLG i : INDEX_FLG (ID_FLG i) = i.
Proof. unfold INDEX_FLG, ID_FLG. lia. Qed.
Lemma ID_INDEX_FLG i : ID_FLG (INDEX_FLG i) = i.
Proof. unfold INDEX_FLG, ID_FLG. lia. Qed.
Lemma CHK_FLGID_range i : CHK_FLGID i = true → 0 <= INDEX_FLG i < NUM_FLGID ∧ i ≠ 0.
Proof. unfold CHK_FLGID, INDEX_FLG, MIN_FLGID. intros [?%Z.leb_le ?%Z.leb_le]%andb_prop. lia. Qed.
Lemma INDEX_ID_MBX i : INDEX_MBX (ID_MBX i) = i.
Proof. unfold INDEX_MBX, ID_MBX. lia. Qed.
Lemma ID_INDEX_MBX i : ID_MBX (INDEX_MBX i) = i.
Proof. unfold INDEX_MBX, ID_MBX. lia. Qed.
Lemma CHK_MBXID_range i : CHK_MBXID i = true → 0 <= INDEX_MBX i < NUM_MBXID ∧ i ≠ 0.
Proof. unfold CHK_MBXID, INDEX_MBX, MIN_MBXID. intros [?%Z.leb_le ?%Z.leb_le]%andb_prop. lia. Qed.
Lemma INDEX_ID_MTX i : INDEX_MTX (ID_MTX i) = i.
Proof. unfold INDEX_MTX, ID_MTX. lia. Qed.
Lemma ID_INDEX_MTX i : ID_MTX (INDEX_MTX i) = i.
Proof. unfold INDEX_MTX, ID_MTX. lia. Qed.
Lemma CHK_MTXID_range i : CHK_MTXID i = true → 0 <= INDEX_MTX i < NUM_MTXID ∧ i ≠ 0.
Proof. unfold CHK_MTXID, INDEX_MTX, MIN_MTXID. intros [?%Z.leb_le ?%Z.leb_le]%andb_prop. lia. Qed.
Lemma INDEX_ID_MBF i : INDEX_MBF (ID_MBF i) = i.
Proof. unfold INDEX_MBF, ID_MBF. lia. Qed.
Lemma ID_INDEX_MBF i : ID_MBF (INDEX_MBF i) = i.
Proof. unfold INDEX_MBF, ID_MBF. lia. Qed.
Lemma CHK_MBFID_range i : CHK_MBFID i = true → 0 <= INDEX_MBF i < NUM_MBFID ∧ i ≠ 0.
Proof. unfold CHK_MBFID, INDEX_MBF, MIN_MBFID. intros [?%Z.leb_le ?%Z.leb_le]%andb_prop. lia. Qed.
Lemma INDEX_ID_MPF i : INDEX_MPF (ID_MPF i) = i.
Proof. unfold INDEX_MPF, ID_MPF. lia. Qed.
Lemma ID_INDEX_MPF i : ID_MPF (INDEX_MPF i) = i.
Proof. unfold INDEX_MPF, ID_MPF. lia. Qed.
Lemma CHK_MPFID_range i : CHK_MPFID i = true → 0 <= INDEX_MPF i < NUM_MPFID ∧ i ≠ 0.
Proof. unfold CHK_MPFID, INDEX_MPF, MIN_MPFID. intros [?%Z.leb_le ?%Z.leb_le]%andb_prop. lia. Qed.
Lemma INDEX_ID_MPL i : INDEX_MPL (ID_MPL i) = i.
Proof. unfold INDEX_MPL, ID_MPL. lia. Qed.
Lemma ID_INDEX_MPL i : ID_MPL (INDEX_MPL i) = i.
Proof. unfold INDEX_MPL, ID_MPL. lia. Qed.
Lemma CHK_MPLID_range i : CHK_MPLID i = true → 0 <= INDEX_MPL i < NUM_MPLID ∧ i ≠ 0.
Proof. unfold CHK_MPLID, INDEX_MPL, MIN_MPLID. intros [?%Z.leb_le ?%Z.leb_le]%andb_prop. lia. Qed.
Lemma INDEX_ID_POR i : INDEX_POR (ID_POR i) = i.
Proof. unfold INDEX_POR, ID_POR. lia. Qed.
Lemma ID_INDEX_POR i : ID_POR (INDEX_POR i) = i.
Proof. unfold INDEX_POR, ID_POR. lia. Qed.
Lemma CHK_PORID_range i : CHK_PORID i = true → 0 <= INDEX_POR i < NUM_PORID ∧ i ≠ 0.
Proof. unfold CHK_PORID, INDEX_POR, MIN_PORID. intros [?%Z.leb_le ?%Z.leb_le]%andb_prop. lia. Qed.
Lemma INDEX_ID_CYC i : INDEX_CYC (ID_CYC i) = i.
Proof. unfold INDEX_CYC, ID_CYC. lia. Qed.
Lemma ID_INDEX_CYC i : ID_CYC (INDEX_CYC i) = i.
Proof. unfold INDEX_CYC, ID_CYC. lia. Qed.
Lemma CHK_CYCID_range i : CHK_CYCID i = true → 0 <= INDEX_CYC i < NUM_CYCID ∧ i ≠ 0.
Proof. unfold CHK_CYCID, INDEX_CYC, MIN_CYCID. intros [?%Z.leb_le ?%Z.leb_le]%andb_prop. lia. Qed.
Lemma INDEX_ID_ALM i : INDEX_ALM (ID_ALM i) = i.
Proof. unfold INDEX_ALM, ID_ALM. lia. Qed.
Lemma ID_INDEX_ALM i : ID_ALM (INDEX_ALM i) = i.
Proof. unfold INDEX_ALM, ID_ALM. lia. Qed.
Lemma CHK_ALMID_range i : CHK_ALMID i = true → 0 <= INDEX_ALM i < NUM_ALMID ∧ i ≠ 0.
Proof. unfold CHK_ALMID, INDEX_ALM, MIN_ALMID. intros [?%Z.leb_le ?%Z.leb_le]%andb_prop. lia. Qed.
