(* ===== verification/Queue.v ===== *)
(** * The intrusive queues of include/sys/queue.h

    A [QUEUE] is a pair of pointers embedded in a control block; a queue is a ring
    of such nodes through a head node.  The links of all nodes live in one memory
    [qmem], and the four operations of the header are translated on it store by
    store.  The second half of the file is the abstraction the rest of the
    development works with: [ring m h l] says that the nodes reached from the
    head [h] are the list [l], and [qwf m Q] that the memory [m] holds exactly
    the disjoint rings of the finite map [Q]. *)
From S2P Require Import Prelude.

Section queue.
Context {A : Type} `{!EqDecision A}.
Implicit Types (e h q x : A) (l : list A).

Record qmem := Qmem { qnext : A → A; qprev : A → A }.

Definition set_qnext (x v : A) (m : qmem) : qmem := Qmem (<[x:=v]> (qnext m)) (qprev m).
Definition set_qprev (x v : A) (m : qmem) : qmem := Qmem (qnext m) (<[x:=v]> (qprev m)).

(* src: include/sys/queue.h 40-44 QueInit *)
Definition QueInit (que : A) (m : qmem) : qmem :=
  let m := set_qnext que que m in
  set_qprev que que m.

(* src: include/sys/queue.h 49-52 isQueEmpty *)
Definition isQueEmpty (que : A) (m : qmem) : bool := bool_decide (qnext m que = que).

(* src: include/sys/queue.h 58-64 QueInsert *)
Definition QueInsert (entry que : A) (m : qmem) : qmem :=
  let m := set_qprev entry (qprev m que) m in
  let m := set_qnext entry que m in
  let m := set_qnext (qprev m que) entry m in
  set_qprev que entry m.

(* src: include/sys/queue.h 71-77 QueRemove *)
Definition QueRemove (entry : A) (m : qmem) : qmem :=
  if decide (qnext m entry = entry) then m
  else
    let m := set_qnext (qprev m entry) (qnext m entry) m in
    set_qprev (qnext m entry) (qprev m entry) m.

(* src: include/sys/queue.h 85-98 QueRemoveNext *)
Definition QueRemoveNext (que : A) (m : qmem) : option A * qmem :=
  if decide (qnext m que = que) then (None, m)
  else
    let entry := qnext m que in
    let m := set_qnext que (qnext m entry) m in
    let m := set_qprev (qnext m entry) que m in
    (Some entry, m).

(** ** What the operations store *)

Lemma QueInit_next que m x : qnext (QueInit que m) x = if decide (que = x) then que else qnext m x.
Proof. done. Qed.

Lemma QueInit_prev que m x : qprev (QueInit que m) x = if decide (que = x) then que else qprev m x.
Proof. done. Qed.

Lemma QueInsert_next e q m x :
  e ≠ q → qprev m q ≠ e →
  qnext (QueInsert e q m) x =
    if decide (qprev m q = x) then e else if decide (e = x) then q else qnext m x.
Proof.
  intros Hne Hp. unfold QueInsert, set_qnext, set_qprev; simpl.
  rewrite (fn_lookup_insert_ne _ e q) by done. done.
Qed.

Lemma QueInsert_prev e q m x :
  e ≠ q →
  qprev (QueInsert e q m) x =
    if decide (q = x) then e else if decide (e = x) then qprev m q else qprev m x.
Proof. intros Hne. done. Qed.

Lemma QueRemove_next e m x :
  qnext m e ≠ e →
  qnext (QueRemove e m) x = if decide (qprev m e = x) then qnext m e else qnext m x.
Proof. intros Hne. unfold QueRemove. by rewrite decide_False by done. Qed.

Lemma QueRemove_prev e m x :
  qnext m e ≠ e → qprev m e ≠ e →
  qprev (QueRemove e m) x = if decide (qnext m e = x) then qprev m e else qprev m x.
Proof.
  intros Hne Hp. unfold QueRemove. rewrite decide_False by done.
  unfold set_qnext, set_qprev; simpl. rewrite (fn_lookup_insert_ne _ (qprev m e) e) by done. done.
Qed.

(** ** Rings *)

(** [lnk m l]: neighbours of [l] point at each other. *)
Fixpoint lnk (m : qmem) (l : list A) : Prop :=
  match l with
  | x :: ((y :: _) as l') => qnext m x = y ∧ qprev m y = x ∧ lnk m l'
  | _ => True
  end.

Definition ring (m : qmem) (h : A) (l : list A) : Prop :=
  NoDup (h :: l) ∧ lnk m (h :: l ++ [h]).

Lemma lnk_cons m x y l : lnk m (x :: y :: l) ↔ qnext m x = y ∧ qprev m y = x ∧ lnk m (y :: l).
Proof. done. Qed.

Lemma lnk_app m k p q r :
  lnk m ((k ++ [p]) ++ (q :: r)) ↔
  lnk m (k ++ [p]) ∧ (qnext m p = q ∧ qprev m q = p) ∧ lnk m (q :: r).
Proof.
  induction k as [|a k IH]; [simpl; naive_solver|].
  destruct k as [|b k]; [simpl in *; naive_solver|].
  change ((a :: b :: k) ++ [p]) with (a :: b :: (k ++ [p])).
  change ((a :: b :: (k ++ [p])) ++ (q :: r)) with (a :: b :: (k ++ [p]) ++ (q :: r)).
  rewrite !lnk_cons. change (b :: (k ++ [p]) ++ (q :: r)) with (((b :: k) ++ [p]) ++ (q :: r)).
  rewrite IH. change ((b :: k) ++ [p]) with (b :: k ++ [p]). naive_solver.
Qed.

(** [lnk] reads [next] of all nodes but the last and [prev] of all but the first. *)
Lemma lnk_frame m m' k p :
  (∀ x, x ∈ k → qnext m' x = qnext m x) →
  (∀ x, x ∈ tail (k ++ [p]) → qprev m' x = qprev m x) →
  lnk m (k ++ [p]) → lnk m' (k ++ [p]).
Proof.
  induction k as [|a k IH]; [done|]. intros Hn Hp.
  change ((a :: k) ++ [p]) with (a :: (k ++ [p])) in *.
  destruct (k ++ [p]) as [|b t] eqn:E; [by destruct k|].
  rewrite !lnk_cons. intros (? & ? & ?).
  rewrite Hn by left. rewrite Hp by left. repeat split; [done|done|].
  apply IH; [intros; apply Hn; by right|intros; apply Hp; by right|done].
Qed.

Lemma snoc_inv (a : A) l : ∃ k p, a :: l = k ++ [p].
Proof.
  revert a. induction l as [|b l IH]; intros a; [by exists [], a|].
  destruct (IH b) as (k & p & ->). by exists (a :: k), p.
Qed.

(** The neighbourhood of a position of a ring: [p] is the node before it, [q] the
    one after it. *)
Lemma ring_open m h l1 l2 :
  ring m h (l1 ++ l2) →
  ∃ k p q r, h :: l1 = k ++ [p] ∧ l2 ++ [h] = q :: r ∧ q = hd h l2 ∧
    lnk m (k ++ [p]) ∧ qnext m p = q ∧ qprev m q = p ∧ lnk m (q :: r) ∧
    q ∉ tail (k ++ [p]) ∧ p ∉ k ∧ (∀ k' b, q :: r = k' ++ [b] → p ∉ k') ∧ q ∉ r.
Proof.
  intros [Hnd Hl]. destruct (snoc_inv h l1) as (k & p & Hk).
  destruct (l2 ++ [h]) as [|q r] eqn:Hr; [by destruct l2|].
  exists k, p, q, r.
  assert (Hq : q = hd h l2) by (destruct l2; simplify_eq/=; done).
  rewrite <- app_assoc, Hr, app_comm_cons, Hk in Hl.
  apply lnk_app in Hl as (? & (? & ?) & ?). rewrite app_comm_cons, Hk in Hnd.
  assert (Htl : tail (k ++ [p]) = l1) by (by rewrite <- Hk).
  rewrite Htl. repeat split; try done.
  - rewrite <- Hk in Hnd. destruct l2 as [|y l2]; simplify_eq/=.
    + apply NoDup_cons in Hnd as [Hnd _]. set_solver.
    + apply NoDup_cons in Hnd as [_ Hnd]. apply NoDup_app in Hnd as (_ & Hd & _).
      intros ?. eapply Hd; [done|left].
  - apply NoDup_app in Hnd as (Hnd & _). apply NoDup_app in Hnd as (_ & Hd & _).
    intros ?. eapply Hd; [done|left].
  - intros k' b Hkb Hin. rewrite <- Hr in Hkb. apply app_inj_tail in Hkb as [<- _].
    apply NoDup_app in Hnd as (_ & Hd & _). eapply Hd; [|exact Hin]. set_solver.
  - rewrite <- Hk in Hnd. destruct l2 as [|y l2]; simplify_eq/=; [set_solver|].
    apply NoDup_cons in Hnd as [Hh Hnd]. apply NoDup_app in Hnd as (_ & _ & Hy).
    apply NoDup_cons in Hy. set_solver.
Qed.

(** Insertion in front of the node [hd h l2]: the first node of [l2], or the head
    itself for an insertion at the tail. *)
Lemma ring_insert m h l1 l2 e :
  ring m h (l1 ++ l2) → e ∉ h :: l1 ++ l2 →
  ring (QueInsert e (hd h l2) m) h (l1 ++ (e :: l2)).
Proof.
  intros Hr He. pose proof Hr as [Hnd _].
  destruct (ring_open _ _ _ _ Hr) as (k & p & q & r & Hk & Hl2 & <- & L1 & N1 & P1 & L2 & Hq & Hp & Hp' & Hqr).
  assert (e ≠ q ∧ e ≠ p ∧ e ∉ k ++ [p] ∧ e ∉ q :: r) as (Heq & Hep & He1 & He2).
  { rewrite <- Hk, <- Hl2. repeat split; [| |set_solver|set_solver].
    - intros ->. assert (q ∈ l2 ++ [h]) by (rewrite Hl2; left). set_solver.
    - intros ->. assert (p ∈ h :: l1) by (rewrite Hk; set_solver). set_solver. }
  split.
  - rewrite app_comm_cons. rewrite app_comm_cons in Hnd.
    apply NoDup_app in Hnd as (? & Hd & ?). apply NoDup_app. repeat split; [done| |].
    + intros x Hx. rewrite not_elem_of_cons. split; [set_solver|by apply Hd].
    + apply NoDup_cons. split; [set_solver|done].
  - rewrite <- app_assoc. change ((e :: l2) ++ [h]) with (e :: (l2 ++ [h])).
    rewrite Hl2, app_comm_cons, Hk. rewrite lnk_app, lnk_cons.
    rewrite !QueInsert_next, !QueInsert_prev by congruence. rewrite P1.
    repeat split.
    + eapply lnk_frame; [| |exact L1]; intros x Hx.
      * rewrite QueInsert_next by congruence. rewrite P1. rewrite !decide_False; [done|set_solver|set_solver].
      * assert (x ∈ k ++ [p]) by (destruct (k ++ [p]); [done|by right]).
        rewrite QueInsert_prev by done. rewrite !decide_False; [done|set_solver|set_solver].
    + by rewrite decide_True.
    + rewrite decide_False by done. by rewrite decide_True.
    + rewrite decide_False by done. by rewrite decide_True.
    + by rewrite decide_True.
    + destruct (snoc_inv q r) as (k' & b & Hkb). pose proof (Hp' _ _ Hkb) as Hpk.
      rewrite Hkb in L2, He2 |- *. eapply lnk_frame; [| |exact L2]; intros x Hx.
      * rewrite QueInsert_next by congruence. rewrite P1.
        rewrite !decide_False; [done|set_solver|set_solver].
      * rewrite <- Hkb in Hx. simpl in Hx. rewrite QueInsert_prev by done.
        rewrite <- Hkb in He2. rewrite !decide_False; [done|set_solver|set_solver].
Qed.

Lemma ring_remove m h l1 e l2 :
  ring m h (l1 ++ e :: l2) → ring (QueRemove e m) h (l1 ++ l2).
Proof.
  intros Hr. pose proof Hr as [Hnd _].
  assert (He : e ∉ h :: l1 ++ l2).
  { rewrite app_comm_cons in Hnd. apply NoDup_app in Hnd as (? & Hd & ?%NoDup_cons).
    rewrite app_comm_cons, elem_of_app. intros [Hin|Hin]; [eapply Hd; [exact Hin|left]|naive_solver]. }
  destruct (ring_open _ _ _ _ Hr) as (k & p & e' & r' & Hk & Hl2 & He' & L1 & N1 & P1 & L2 & _ & Hp & Hp' & Hqr).
  simpl in He'; subst e'. simpl in Hl2. injection Hl2 as Hl2.
  destruct (l2 ++ [h]) as [|q r] eqn:Hl2'; [by destruct l2|]. subst r'.
  rewrite lnk_cons in L2. destruct L2 as (N2 & P2 & L2).
  assert (e ≠ q ∧ e ≠ p ∧ e ∉ k ++ [p] ∧ e ∉ q :: r) as (Heq & Hep & He1 & He2).
  { rewrite <- Hk, <- Hl2'. repeat split; [| |set_solver|set_solver].
    - intros ->. assert (q ∈ l2 ++ [h]) by (rewrite Hl2'; left). set_solver.
    - intros ->. assert (p ∈ h :: l1) by (rewrite Hk; set_solver). set_solver. }
  assert (Hnd' : NoDup (h :: l1 ++ l2)).
  { rewrite app_comm_cons in Hnd |- *. apply NoDup_app in Hnd as (? & Hd & ?%NoDup_cons).
    apply NoDup_app. repeat split; [done| |naive_solver]. intros x Hx ?. eapply Hd; [done|by right]. }
  split; [done|].
  rewrite <- app_assoc, Hl2', app_comm_cons, Hk. rewrite lnk_app.
  rewrite !QueRemove_next, !QueRemove_prev by congruence. rewrite N2, P1.
  rewrite !decide_True by done. repeat split.
  - eapply lnk_frame; [| |exact L1]; intros x Hx.
    + rewrite QueRemove_next by congruence. rewrite P1. rewrite decide_False; [done|set_solver].
    + rewrite QueRemove_prev by congruence. rewrite N2, decide_False; [done|].
      intros ->. assert (x ∈ l1) by (rewrite <- Hk in Hx; exact Hx).
      destruct l2 as [|y l2]; simplify_eq/=; [apply NoDup_cons in Hnd'; set_solver|].
      apply NoDup_cons in Hnd' as [_ Hnd']. apply NoDup_app in Hnd' as (_ & Hd & _).
      eapply Hd; [done|left].
  - destruct (snoc_inv q r) as (k' & b & Hkb).
    assert (Hpk : p ∉ k').
    { assert (e :: q :: r = (e :: k') ++ [b]) as E by (simpl; by rewrite <- Hkb).
      pose proof (Hp' _ _ E). set_solver. }
    assert (Hqr' : q ∉ r).
    { destruct l2 as [|y l2]; simplify_eq/=; [set_solver|].
      apply NoDup_cons in Hnd' as [Hh Hnd']. apply NoDup_app in Hnd' as (_ & _ & Hy%NoDup_cons).
      set_solver. }
    rewrite Hkb in L2 |- *. eapply lnk_frame; [| |exact L2]; intros x Hx.
    + rewrite QueRemove_next by congruence. rewrite P1. rewrite decide_False; [done|set_solver].
    + rewrite <- Hkb in Hx. simpl in Hx. rewrite QueRemove_prev by congruence.
      rewrite N2, decide_False; [done|set_solver].
Qed.

(** *** Links of ring members *)

Lemma ring_next m h l1 x l2 : ring m h (l1 ++ x :: l2) → qnext m x = hd h l2.
Proof.
  intros [_ Hl]. rewrite <- app_assoc, app_comm_cons in Hl. simpl in Hl.
  destruct (l2 ++ [h]) as [|q r] eqn:E; [by destruct l2|].
  assert (q = hd h l2) as <- by (destruct l2; by simplify_eq/=).
  assert (lnk m (((h :: l1) ++ [x]) ++ (q :: r))) as Hl'%lnk_app by (by rewrite <- app_assoc).
  naive_solver.
Qed.

Lemma ring_head m h l : ring m h l → qnext m h = hd h l.
Proof. intros [_ Hl]. destruct l; simpl in *; naive_solver. Qed.

Lemma ring_linked m h l x :
  ring m h l → x ∈ h :: l →
  qnext m x ∈ h :: l ∧ qprev m x ∈ h :: l ∧ qnext m (qprev m x) = x ∧ qprev m (qnext m x) = x.
Proof.
  intros Hr Hx.
  assert (Hp : ∀ y, y ∈ h :: l → ∃ z, z ∈ h :: l ∧ qnext m z = y ∧ qprev m y = z).
  { intros y Hy.
    assert (∃ l1 l2, l = l1 ++ l2 ∧ y = hd h l2) as (l1 & l2 & -> & ->).
    { apply elem_of_cons in Hy as [->|Hy]; [exists l, []; by rewrite app_nil_r|].
      apply list_elem_of_split in Hy as (l1 & l2 & ->). by exists l1, (y :: l2). }
    destruct (ring_open _ _ _ _ Hr) as (k & p & q & r & Hk & Hl2 & <- & L1 & N1 & P1 & _).
    exists p. repeat split; [|done|done]. rewrite app_comm_cons, Hk. set_solver. }
  assert (Hn : qnext m x ∈ h :: l ∧ qprev m (qnext m x) = x).
  { apply elem_of_cons in Hx as [->|Hx].
    - destruct Hr as [_ Hl]. destruct l as [|y l]; simpl in Hl.
      + destruct Hl as (-> & ? & _). split; [left|done].
      + destruct Hl as (-> & ? & _). split; [right; left|done].
    - apply list_elem_of_split in Hx as (l1 & l2 & ->).
      replace (l1 ++ x :: l2) with ((l1 ++ [x]) ++ l2) in Hr |- * by (by rewrite <- app_assoc).
      destruct (ring_open _ _ _ _ Hr) as (k & p & q & r & Hk & Hl2 & Hq & L1 & N1 & P1 & _).
      rewrite app_comm_cons in Hk. apply app_inj_tail in Hk as [_ <-]. rewrite N1. split; [|done].
      rewrite Hq. destruct l2; [left|]. simpl. set_solver. }
  destruct (Hp x Hx) as (z & Hz & Hnz & Hpz). rewrite Hpz. naive_solver.
Qed.

Lemma ring_frame m m' h l :
  (∀ x, x ∈ h :: l → qnext m' x = qnext m x ∧ qprev m' x = qprev m x) →
  ring m h l → ring m' h l.
Proof.
  intros Hf [Hnd Hl]. split; [done|]. rewrite app_comm_cons in Hl |- *.
  eapply lnk_frame; [| |exact Hl]; intros x Hx; [by apply Hf|].
  apply Hf. simpl in Hx. set_solver.
Qed.
End queue.

Arguments qmem : clear implicits.

(** ** The rings of a memory

    [Q] maps each head to the nodes of its ring, in queue order.  [qwf] says that
    the memory holds these rings and that no node is in two of them. *)
Section rings.
Context {A : Type} `{!EqDecision A} `{!Countable A}.
Implicit Types (e h x : A) (l : list A) (m : qmem A) (Q : gmap A (list A)).

Definition in_ring Q x h : Prop := ∃ l, Q !! h = Some l ∧ x ∈ h :: l.
Definition unplaced Q x : Prop := ∀ h, ¬ in_ring Q x h.

Definition qwf m Q : Prop :=
  (∀ h l, Q !! h = Some l → ring m h l) ∧
  (∀ h h' x, in_ring Q x h → in_ring Q x h' → h = h').

Lemma qwf_ring m Q h l : qwf m Q → Q !! h = Some l → ring m h l.
Proof. intros [Hr _]. apply Hr. Qed.

Lemma qwf_NoDup m Q h l : qwf m Q → Q !! h = Some l → NoDup l.
Proof. intros [Hr _] ?. by edestruct Hr as [[_ ?]%NoDup_cons _]. Qed.

Lemma qwf_disjoint m Q h h' x : qwf m Q → in_ring Q x h → in_ring Q x h' → h = h'.
Proof. intros [_ Hd]. apply Hd. Qed.

Lemma in_ring_head Q h l : Q !! h = Some l → in_ring Q h h.
Proof. intros ?. exists l. split; [done|left]. Qed.

Lemma in_ring_elem Q h l x : Q !! h = Some l → x ∈ l → in_ring Q x h.
Proof. intros ??. exists l. split; [done|by right]. Qed.

Lemma qwf_next m Q h l1 x l2 : qwf m Q → Q !! h = Some (l1 ++ x :: l2) → qnext m x = hd h l2.
Proof. intros [Hr _] HQ. by eapply ring_next, Hr. Qed.

Lemma qwf_head m Q h l : qwf m Q → Q !! h = Some l → qnext m h = hd h l.
Proof. intros [Hr _] HQ. by apply ring_head, Hr. Qed.

Lemma qwf_isQueEmpty m Q h l :
  qwf m Q → Q !! h = Some l → isQueEmpty h m = bool_decide (l = []).
Proof.
  intros Hw HQ. unfold isQueEmpty. rewrite (qwf_head _ _ _ _ Hw HQ).
  apply bool_decide_ext. destruct l as [|x l]; [done|]. split; [|done]. simpl. intros ->.
  destruct (qwf_ring _ _ _ _ Hw HQ) as [Hnd _]. apply NoDup_cons in Hnd. set_solver.
Qed.

(** Rings that share no node with the ring being changed keep their shape. *)
Lemma QueInsert_frame m e q h l h' l' :
  ring m h l → q ∈ h :: l → e ∉ h :: l → ring m h' l' →
  (∀ x, x ∈ h :: l → x ∉ h' :: l') → e ∉ h' :: l' → ring (QueInsert e q m) h' l'.
Proof.
  intros Hr Hq He Hr' Hd He'. eapply ring_frame; [|exact Hr'].
  destruct (ring_linked _ _ _ _ Hr Hq) as (_ & Hp & _).
  assert (e ≠ q) by congruence. assert (qprev m q ≠ e) by congruence.
  intros x Hx. rewrite QueInsert_next, QueInsert_prev by done.
  rewrite !decide_False; [done|..]; intros <-; naive_solver.
Qed.

Lemma QueRemove_frame m e h l h' l' :
  ring m h l → e ∈ h :: l → ring m h' l' →
  (∀ x, x ∈ h :: l → x ∉ h' :: l') → ring (QueRemove e m) h' l'.
Proof.
  intros Hr He Hr' Hd. destruct (decide (qnext m e = e)) as [E|E].
  { unfold QueRemove. by rewrite decide_True. }
  destruct (ring_linked _ _ _ _ Hr He) as (Hn & Hp & Hnp & _).
  eapply ring_frame; [|exact Hr']. intros x Hx.
  rewrite QueRemove_next, QueRemove_prev by congruence.
  rewrite !decide_False; [done|..]; intros <-; naive_solver.
Qed.

Lemma in_ring_insert Q h l x h' :
  in_ring (<[h:=l]> Q) x h' ↔ (h' = h ∧ x ∈ h :: l) ∨ (h' ≠ h ∧ in_ring Q x h').
Proof.
  unfold in_ring. destruct (decide (h' = h)) as [->|].
  - rewrite lookup_insert_eq. naive_solver.
  - rewrite lookup_insert_ne by done. naive_solver.
Qed.

Lemma in_ring_delete Q h x h' : in_ring (delete h Q) x h' ↔ h' ≠ h ∧ in_ring Q x h'.
Proof.
  unfold in_ring. destruct (decide (h' = h)) as [->|].
  - rewrite lookup_delete_eq. naive_solver.
  - rewrite lookup_delete_ne by done. naive_solver.
Qed.

Lemma qwf_insert m Q h l1 l2 e :
  qwf m Q → Q !! h = Some (l1 ++ l2) → unplaced Q e →
  qwf (QueInsert e (hd h l2) m) (<[h := l1 ++ e :: l2]> Q).
Proof.
  intros [Hr Hd] HQ He. pose proof (Hr _ _ HQ) as Hrh.
  assert (Heh : e ∉ h :: l1 ++ l2) by (intros ?; by apply (He h); exists (l1 ++ l2)).
  split.
  - intros h' l'. destruct (decide (h' = h)) as [->|Hne].
    + rewrite lookup_insert_eq. intros [= <-]. by apply ring_insert.
    + rewrite lookup_insert_ne by done. intros HQ'.
      eapply QueInsert_frame; [exact Hrh| |done|by apply Hr| |].
      * destruct l2; [left|]. simpl. set_solver.
      * intros x ??. apply Hne. symmetry. eapply Hd; by eexists.
      * intros ?. by apply (He h'); exists l'.
  - intros h' h'' x. rewrite !in_ring_insert.
    assert (∀ h0, h0 ≠ h → in_ring Q x h0 → x ∉ h :: l1 ++ e :: l2).
    { intros h0 Hne Hin Hx. assert (x = e ∨ x ∈ h :: l1 ++ l2) as [->|?] by set_solver.
      - by apply (He h0).
      - apply Hne. eapply Hd; [done|]. by exists (l1 ++ l2). }
    naive_solver.
Qed.

Lemma qwf_remove m Q h l1 e l2 :
  qwf m Q → Q !! h = Some (l1 ++ e :: l2) → qwf (QueRemove e m) (<[h := l1 ++ l2]> Q).
Proof.
  intros [Hr Hd] HQ. pose proof (Hr _ _ HQ) as Hrh. split.
  - intros h' l'. destruct (decide (h' = h)) as [->|Hne].
    + rewrite lookup_insert_eq. intros [= <-]. by apply ring_remove.
    + rewrite lookup_insert_ne by done. intros HQ'.
      eapply QueRemove_frame; [exact Hrh|set_solver|by apply Hr|].
      intros x ??. apply Hne. symmetry. eapply Hd; by eexists.
  - intros h' h'' x. rewrite !in_ring_insert.
    assert (∀ h0, h0 ≠ h → in_ring Q x h0 → x ∉ h :: l1 ++ l2).
    { intros h0 Hne Hin Hx. apply Hne. eapply Hd; [done|].
      exists (l1 ++ e :: l2). split; [done|set_solver]. }
    naive_solver.
Qed.

Lemma qwf_remove_unplaced m Q h l1 e l2 :
  qwf m Q → Q !! h = Some (l1 ++ e :: l2) → unplaced (<[h := l1 ++ l2]> Q) e.
Proof.
  intros [Hr Hd] HQ h'. rewrite in_ring_insert. intros [[-> Hin]|[Hne Hin]].
  - destruct (Hr _ _ HQ) as [Hnd _]. rewrite app_comm_cons in Hnd.
    apply NoDup_app in Hnd as (_ & Hdis & ?%NoDup_cons).
    rewrite app_comm_cons, elem_of_app in Hin. destruct Hin as [Hin|Hin]; [|naive_solver].
    eapply Hdis; [exact Hin|left].
  - apply Hne. eapply Hd; [done|]. exists (l1 ++ e :: l2). split; [done|set_solver].
Qed.

(** A node in a ring of its own: removal leaves the memory as it is. *)
Lemma QueRemove_self m Q e : qwf m Q → Q !! e = Some [] → QueRemove e m = m.
Proof.
  intros Hw HQ. unfold QueRemove. rewrite decide_True; [done|]. by rewrite (qwf_head _ _ _ _ Hw HQ).
Qed.

Lemma qwf_drop m Q h : qwf m Q → qwf m (delete h Q).
Proof.
  intros [Hr Hd]. split.
  - intros h' l' [_ HQ]%lookup_delete_Some. by apply Hr.
  - intros h' h'' x. rewrite !in_ring_delete. naive_solver.
Qed.

Lemma qwf_drop_unplaced m Q e : qwf m Q → Q !! e = Some [] → unplaced (delete e Q) e.
Proof.
  intros [_ Hd] HQ h. rewrite in_ring_delete. intros [Hne Hin]. apply Hne.
  eapply Hd; [done|]. exists []. split; [done|left].
Qed.

Lemma qwf_init m Q e : qwf m Q → unplaced Q e → qwf (QueInit e m) (<[e := []]> Q).
Proof.
  intros [Hr Hd] He. split.
  - intros h l. destruct (decide (h = e)) as [->|Hne].
    + rewrite lookup_insert_eq. intros [= <-]. split; [apply NoDup_singleton|].
      simpl. by rewrite !fn_lookup_insert.
    + rewrite lookup_insert_ne by done. intros HQ. eapply ring_frame; [|by apply Hr].
      intros x Hx. rewrite QueInit_next, QueInit_prev, !decide_False; [done|..];
        intros <-; by apply (He h); exists l.
  - intros h h' x. rewrite !in_ring_insert.
    assert (∀ h0, in_ring Q x h0 → x ∉ [e]) by (intros h0 Hx ->%list_elem_of_singleton; by apply (He h0)).
    naive_solver.
Qed.

Lemma QueRemoveNext_empty m Q h : qwf m Q → Q !! h = Some [] → QueRemoveNext h m = (None, m).
Proof.
  intros Hw HQ. unfold QueRemoveNext. rewrite decide_True; [done|].
  by rewrite (qwf_head _ _ _ _ Hw HQ).
Qed.

Lemma QueRemoveNext_cons m Q h e l :
  qwf m Q → Q !! h = Some (e :: l) → QueRemoveNext h m = (Some e, QueRemove e m).
Proof.
  intros Hw HQ. pose proof (qwf_ring _ _ _ _ Hw HQ) as Hr.
  destruct Hr as [Hnd Hl]. simpl in Hl. destruct Hl as (Hn & Hp & Hl).
  apply NoDup_cons in Hnd as [Hh Hnd].
  assert (qnext m e ≠ e).
  { rewrite (qwf_next _ _ _ [] e l Hw HQ). destruct l as [|y l]; simpl; [set_solver|].
    apply NoDup_cons in Hnd. set_solver. }
  unfold QueRemoveNext, QueRemove. rewrite Hn, Hp.
  rewrite (decide_False (P := e = h)) by set_solver. rewrite decide_False by done.
  unfold set_qprev, set_qnext; simpl. rewrite Hp. done.
Qed.

(** ** Walking a queue

    The loop [for ( q = head->next; q != head && !stop(q); q = q->next )], run for
    at most [fuel] steps; it ends at the first node that stops it, or at the
    head. *)
Fixpoint que_find (stop : A → bool) (fuel : nat) (m : qmem A) (h q : A) : A :=
  match fuel with
  | O => q
  | S fuel =>
      if decide (q = h) then q
      else if stop q then q
      else que_find stop fuel m h (qnext m q)
  end.

Lemma que_find_ring stop fuel m Q h l0 l1 l2 :
  qwf m Q → Q !! h = Some (l0 ++ l1 ++ l2) →
  Forall (λ y, stop y = false) l1 → (∀ y l', l2 = y :: l' → stop y = true) →
  (length (l1 ++ l2) ≤ fuel)%nat →
  que_find stop fuel m h (hd h (l1 ++ l2)) = hd h l2.
Proof.
  intros Hw. revert fuel l0. induction l1 as [|x l1 IH]; intros fuel l0 HQ Hl1 Hl2 Hf.
  - destruct l2 as [|y l2]; simpl in *.
    + destruct fuel; simpl; [done|]. by rewrite decide_True.
    + destruct fuel; [lia|]. simpl. rewrite (Hl2 _ _ eq_refl). by destruct (decide (y = h)).
  - destruct fuel as [|fuel]; simpl in *; [lia|].
    inversion Hl1; subst. destruct (decide (x = h)) as [->|Hne].
    { destruct (qwf_ring _ _ _ _ Hw HQ) as [Hnd _]. apply NoDup_cons in Hnd. set_solver. }
    rewrite H1. rewrite (qwf_next _ _ _ l0 x (l1 ++ l2) Hw HQ).
    apply (IH fuel (l0 ++ [x])); [by rewrite <- app_assoc|done|done|lia].
Qed.
End rings.

(** ** What the queue operations do to the lists *)

(** C4: The pointer code of queue.h implements lists.  In any memory whose rings are
    the lists [Q], QueInsert puts a free node in front of the chosen element (behind
    all others when that is the head), QueRemove deletes a node and leaves it free,
    isQueEmpty tells whether the list is empty, and QueRemoveNext returns the first
    element and deletes it; all other lists stay as they are. *)
Theorem queue_refines_lists {A : Type} `{!EqDecision A} `{!Countable A}
    (m : qmem A) (Q : gmap A (list A)) (h e : A) (l1 l2 : list A) :
  qwf m Q →
  (Q !! h = Some (l1 ++ l2) → unplaced Q e →
   qwf (QueInsert e (hd h l2) m) (<[h := l1 ++ e :: l2]> Q)) ∧
  (Q !! h = Some (l1 ++ e :: l2) →
   qwf (QueRemove e m) (<[h := l1 ++ l2]> Q) ∧ unplaced (<[h := l1 ++ l2]> Q) e) ∧
  (Q !! h = Some l1 → isQueEmpty h m = bool_decide (l1 = [])) ∧
  (Q !! h = Some [] → QueRemoveNext h m = (None, m)) ∧
  (Q !! h = Some (e :: l2) →
   ∃ m', QueRemoveNext h m = (Some e, m') ∧ qwf m' (<[h := l2]> Q)).
Proof.
  intros Hw. split_and!.
  - intros HQ He. by apply qwf_insert.
  - intros HQ. split; [by apply qwf_remove|by eapply qwf_remove_unplaced].
  - by apply qwf_isQueEmpty.
  - by eapply QueRemoveNext_empty.
  - intros HQ. exists (QueRemove e m). split; [by eapply QueRemoveNext_cons|].
    by apply (qwf_remove _ _ _ []).
Qed.

(** Two elements in the queue of the head 0. *)
Lemma queue_refines_lists_witness :
  let m := QueInsert 2 0 (QueInsert 1 0 (QueInit 0 (Qmem (λ x : Z, x) (λ x, x)))) in
  ∃ m', QueRemoveNext 0 m = (Some 1, m') ∧ qwf m' (<[0 := [2]]> {[ 0 := [1; 2] ]}).
Proof.
  intros m.
  assert (Hw : qwf m ({[ 0 := [1; 2] ]} : gmap Z (list Z))).
  { split.
    - intros h l [<- <-]%lookup_singleton_Some. split; [|by repeat split].
      repeat (apply NoDup_cons; split; [set_solver|]). apply NoDup_nil_2.
    - intros h h' x (l & [<- <-]%lookup_singleton_Some & _) (l' & [<- <-]%lookup_singleton_Some & _). done. }
  apply (queue_refines_lists m _ 0 1 [] [2] Hw). by apply lookup_singleton_eq.
Defined.
