(* ===== verification/Kernel.v ===== *)
(** * The kernel's data

    The control blocks, the ready queue, the timer events and the global variables
    of the kernel, one record field per C field.  Every [QUEUE] embedded in a
    control block is a [node] of one link memory; a pointer to a control block is
    its index in its table, and NULL is [None].  [SCH] holds what task.c, wait.c
    and timer.c work on, [K] adds the tables of the synchronization objects. *)
From S2P Require Import Prelude Config Queue.

(** ** Queue nodes *)

(** The [QUEUE] fields of the kernel: [KTsk] is [tcb->tskque], [KTmebTsk], [KTmebCyc]
    and [KTmebAlm] are the [queue] of the timer event blocks embedded in a TCB, a
    CYCCB and an ALMCB, [KRdy] is [knl_ready_queue.tskque[]], [KTimer] is
    [knl_timer_queue], [KSem] .. [KAcp] are the wait queues of the objects (and, for
    a block that is not in use, its link in the free list; the two queues of a
    rendezvous port are [KCal] and [KAcp]), [KLock] is the wait queue
    of an object lock, [KCyc] and [KAlm] are the control blocks read as a [QUEUE],
    and [KFree..] are the heads of the free lists.  [KNull] is NULL. *)
Inductive kind :=
  | KTsk | KTmebTsk | KTmebCyc | KTmebAlm | KRdy | KTimer
  | KSem | KFlg | KMbx | KMtx | KSmbf | KRmbf | KMpf | KMpl | KCal | KAcp | KLock | KCyc | KAlm
  | KFreeTcb | KFreeSem | KFreeFlg | KFreeMbx | KFreeMtx | KFreeMbf | KFreeMpf
  | KFreeMpl | KFreePor | KFreeCyc | KFreeAlm | KNull.

#[export] Instance kind_eq_dec : EqDecision kind.
Proof. solve_decision. Defined.

Definition kind_to_nat (k : kind) : nat :=
  match k with
  | KTsk => 0 | KTmebTsk => 1 | KTmebCyc => 2 | KTmebAlm => 3 | KRdy => 4 | KTimer => 5
  | KSem => 6 | KFlg => 7 | KMbx => 8 | KMtx => 9 | KSmbf => 10 | KRmbf => 11 | KMpf => 12
  | KLock => 13 | KCyc => 14 | KAlm => 15 | KFreeTcb => 16 | KFreeSem => 17 | KFreeFlg => 18
  | KFreeMbx => 19 | KFreeMtx => 20 | KFreeMbf => 21 | KFreeMpf => 22 | KFreeCyc => 23
  | KFreeAlm => 24 | KNull => 25 | KMpl => 26 | KCal => 27 | KAcp => 28 | KFreeMpl => 29
  | KFreePor => 30
  end%nat.

Definition nat_to_kind (n : nat) : kind :=
  nth n [KTsk; KTmebTsk; KTmebCyc; KTmebAlm; KRdy; KTimer; KSem; KFlg; KMbx; KMtx; KSmbf; KRmbf;
    KMpf; KLock; KCyc; KAlm; KFreeTcb; KFreeSem; KFreeFlg; KFreeMbx; KFreeMtx; KFreeMbf; KFreeMpf;
    KFreeCyc; KFreeAlm; KNull; KMpl; KCal; KAcp; KFreeMpl; KFreePor] KNull.

#[export] Instance kind_countable : Countable kind.
Proof. refine (inj_countable' kind_to_nat nat_to_kind _). by intros []. Defined.

(* src: include/sys/queue.h 32-35 QUEUE *)
Record node := Nd { nd_kind : kind; nd_idx : Z }.

#[export] Instance node_eq_dec : EqDecision node.
Proof. solve_decision. Defined.

#[export] Instance node_countable : Countable node.
Proof.
  refine (inj_countable' (λ n, (nd_kind n, nd_idx n)) (λ p, Nd p.1 p.2) _). by intros [].
Defined.

Abbreviation TSKQ := (Nd KTsk).
Abbreviation TMEBT := (Nd KTmebTsk).
Abbreviation TMEBC := (Nd KTmebCyc).
Abbreviation TMEBA := (Nd KTmebAlm).
Abbreviation RDYQ := (Nd KRdy).
Abbreviation TIMERQ := (Nd KTimer 0).
Abbreviation SEMQ := (Nd KSem).
Abbreviation FLGQ := (Nd KFlg).
Abbreviation MBXQ := (Nd KMbx).
Abbreviation MTXQ := (Nd KMtx).
Abbreviation SMBFQ := (Nd KSmbf).
Abbreviation RMBFQ := (Nd KRmbf).
Abbreviation MPFQ := (Nd KMpf).
Abbreviation MPLQ := (Nd KMpl).
Abbreviation CALQ := (Nd KCal).
Abbreviation ACPQ := (Nd KAcp).
Abbreviation MPFLOCK := (Nd KLock).
Abbreviation CYCQ := (Nd KCyc).
Abbreviation ALMQ := (Nd KAlm).
Abbreviation FREE_TCB := (Nd KFreeTcb 0).
Abbreviation FREE_SEM := (Nd KFreeSem 0).
Abbreviation FREE_FLG := (Nd KFreeFlg 0).
Abbreviation FREE_MBX := (Nd KFreeMbx 0).
Abbreviation FREE_MTX := (Nd KFreeMtx 0).
Abbreviation FREE_MBF := (Nd KFreeMbf 0).
Abbreviation FREE_MPF := (Nd KFreeMpf 0).
Abbreviation FREE_MPL := (Nd KFreeMpl 0).
Abbreviation FREE_POR := (Nd KFreePor 0).
Abbreviation FREE_CYC := (Nd KFreeCyc 0).
Abbreviation FREE_ALM := (Nd KFreeAlm 0).
Abbreviation NULLQ := (Nd KNull 0).

(** The cast [(TCB* )q]: [tskque] is the first field of a TCB. *)
Definition as_tcb (q : node) : Z := nd_idx q.

(** ** Task states *)

(* src: kernel/tkernel/task.h 29-29 TS_NONEXIST *)
Definition TS_NONEXIST : Z := 0.
(* src: kernel/tkernel/task.h 30-30 TS_READY *)
Definition TS_READY : Z := 1.
(* src: kernel/tkernel/task.h 31-31 TS_WAIT *)
Definition TS_WAIT : Z := 2.
(* src: kernel/tkernel/task.h 32-32 TS_SUSPEND *)
Definition TS_SUSPEND : Z := 4.
(* src: kernel/tkernel/task.h 33-33 TS_WAITSUS *)
Definition TS_WAITSUS : Z := 6.
(* src: kernel/tkernel/task.h 34-34 TS_DORMANT *)
Definition TS_DORMANT : Z := 8.

(* src: kernel/tkernel/task.h 40-43 knl_task_alive *)
Definition knl_task_alive (state : Z) : bool :=
  negb (Z.land state (Z.lor TS_READY (Z.lor TS_WAIT TS_SUSPEND)) =? 0).

(* src: kernel/tkernel/task.h 49-49 int_priority *)
Definition int_priority (x : Z) : Z := x - MIN_TSKPRI.
(* src: kernel/tkernel/task.h 50-50 ext_tskpri *)
Definition ext_tskpri (x : Z) : Z := x + MIN_TSKPRI.

(** ** Wait specifications and wait information *)

(** The [WSPEC] constants of the kernel; [tcb->wspec] points at one of them. *)
Inductive wspec :=
  | knl_wspec_slp | knl_wspec_dly
  | knl_wspec_sem_tfifo | knl_wspec_sem_tpri
  | knl_wspec_flg_tfifo | knl_wspec_flg_tpri
  | knl_wspec_mbx_tfifo | knl_wspec_mbx_tpri
  | knl_wspec_smbf_tfifo | knl_wspec_smbf_tpri | knl_wspec_rmbf
  | knl_wspec_cal_tfifo | knl_wspec_cal_tpri | knl_wspec_acp | knl_wspec_rdv
  | knl_wspec_mpl_tfifo | knl_wspec_mpl_tpri
  | knl_wspec_mpf_tfifo | knl_wspec_mpf_tpri
  | knl_wspec_mtx_tfifo | knl_wspec_mtx_tpri | knl_wspec_mtx_inherit.

#[export] Instance wspec_eq_dec : EqDecision wspec.
Proof. solve_decision. Defined.

(** The wait factor, [wspec->tskwait]. *)
Definition ws_tskwait (w : wspec) : Z :=
  match w with
  | knl_wspec_slp => TTW_SLP
  | knl_wspec_dly => TTW_DLY
  | knl_wspec_sem_tfifo | knl_wspec_sem_tpri => TTW_SEM
  | knl_wspec_flg_tfifo | knl_wspec_flg_tpri => TTW_FLG
  | knl_wspec_mbx_tfifo | knl_wspec_mbx_tpri => TTW_MBX
  | knl_wspec_smbf_tfifo | knl_wspec_smbf_tpri => TTW_SMBF
  | knl_wspec_rmbf => TTW_RMBF
  | knl_wspec_cal_tfifo | knl_wspec_cal_tpri => TTW_CAL
  | knl_wspec_acp => TTW_ACP
  | knl_wspec_rdv => TTW_RDV
  | knl_wspec_mpl_tfifo | knl_wspec_mpl_tpri => TTW_MPL
  | knl_wspec_mpf_tfifo | knl_wspec_mpf_tpri => TTW_MPF
  | knl_wspec_mtx_tfifo | knl_wspec_mtx_tpri | knl_wspec_mtx_inherit => TTW_MTX
  end.

(** The union [WINFO]; one constructor per member that is in use. *)
(* src: kernel/tkernel/winfo.h 106-131 WINFO *)
Inductive WINFO :=
  | WI_none
  | WI_sem (cnt : Z)
  | WI_flg (waiptn wfmode p_flgptn : Z)
  | WI_mbx (ppk_msg : Z)
  | WI_rmbf (msg : Z) (p_msgsz : option Z)
  | WI_smbf (msg msgsz : Z)
  | WI_cal (calptn msg cmsgsz : Z) (p_rmsgsz : option Z)
  | WI_acp (acpptn msg p_rdvno : Z) (p_cmsgsz : option Z)
  | WI_rdv (rdvno msg maxrmsz : Z) (p_rmsgsz : option Z)
  | WI_mpl (blksz p_blk : Z)
  | WI_mpf (p_blf : Z).

(* src: kernel/tkernel/winfo.h 25-27 WINFO_SEM *)
Definition wi_sem_cnt (w : WINFO) : Z := match w with WI_sem c => c | _ => 0 end.
(* src: kernel/tkernel/winfo.h 32-37 WINFO_FLG *)
Definition wi_flg (w : WINFO) : Z * Z * Z := match w with WI_flg p m a => (p, m, a) | _ => (0, 0, 0) end.
(* src: kernel/tkernel/winfo.h 42-45 WINFO_MBX *)
Definition wi_mbx (w : WINFO) : Z := match w with WI_mbx p => p | _ => 0 end.
(* src: kernel/tkernel/winfo.h 50-53 WINFO_RMBF *)
Definition wi_rmbf (w : WINFO) : Z * option Z := match w with WI_rmbf m p => (m, p) | _ => (0, None) end.
(* src: kernel/tkernel/winfo.h 55-58 WINFO_SMBF *)
Definition wi_smbf (w : WINFO) : Z * Z := match w with WI_smbf m z => (m, z) | _ => (0, 0) end.
(** [WINFO_CAL] and [WINFO_RDV] lie over each other word by word, and a task goes from
    one to the other while it waits: reading one reads the words of the other. *)
(* src: kernel/tkernel/winfo.h 63-69 WINFO_CAL *)
Definition wi_cal (w : WINFO) : Z * Z * Z * option Z :=
  match w with
  | WI_cal p m z r => (p, m, z, r)
  | WI_rdv n m z r => (u32 n, m, z, r)
  | _ => (0, 0, 0, None)
  end.
(* src: kernel/tkernel/winfo.h 71-77 WINFO_ACP *)
Definition wi_acp (w : WINFO) : Z * Z * Z * option Z :=
  match w with WI_acp p m n z => (p, m, n, z) | _ => (0, 0, 0, None) end.
(* src: kernel/tkernel/winfo.h 79-84 WINFO_RDV *)
Definition wi_rdv (w : WINFO) : Z * Z * Z * option Z :=
  match w with
  | WI_rdv n m z r => (n, m, z, r)
  | WI_cal p m z r => (s32 p, m, z, r)
  | _ => (0, 0, 0, None)
  end.
(* src: kernel/tkernel/winfo.h 89-93 WINFO_MPL *)
Definition wi_mpl (w : WINFO) : Z * Z := match w with WI_mpl b p => (b, p) | _ => (0, 0) end.
(* src: kernel/tkernel/winfo.h 98-101 WINFO_MPF *)
Definition wi_mpf (w : WINFO) : Z := match w with WI_mpf p => p | _ => 0 end.

(** ** Timer events *)

(** A callback with its argument: the timeout of a waiting task, a cyclic handler
    or an alarm handler. *)
Inductive CBACK :=
  | CB_NULL
  | CB_tmout (tcb : Z)
  | CB_cyc (cyccb : Z)
  | CB_alm (almcb : Z).

(** The fields of a timer event block other than its queue links. *)
(* src: kernel/tkernel/timer.h 64-69 TMEB *)
Record TMEB := mkTMEB {
  tm_time : Z;
  tm_callback : CBACK
}.

Definition set_tm_time (v : Z) (r : TMEB) : TMEB :=
  mkTMEB v (tm_callback r).
Definition set_tm_callback (v : CBACK) (r : TMEB) : TMEB :=
  mkTMEB (tm_time r) v.

(** ** Control blocks *)

(** The task context block: the initial stack frame knl_setup_context writes (entry
    point and the two arguments) and the saved interrupt level. *)

(* src: kernel/sysdepend/cpu/core/riscv_esp/cpu_task.h 30-63 SStackFrame *)
Record CTXB := mkCTXB {
  cx_mepc : Z;
  cx_a0 : Z;
  cx_a1 : Z;
  cx_intlevel : Z
}.

Definition set_cx_mepc (v : Z) (r : CTXB) : CTXB :=
  mkCTXB v (cx_a0 r) (cx_a1 r) (cx_intlevel r).
Definition set_cx_a0 (v : Z) (r : CTXB) : CTXB :=
  mkCTXB (cx_mepc r) v (cx_a1 r) (cx_intlevel r).
Definition set_cx_a1 (v : Z) (r : CTXB) : CTXB :=
  mkCTXB (cx_mepc r) (cx_a0 r) v (cx_intlevel r).
Definition set_cx_intlevel (v : Z) (r : CTXB) : CTXB :=
  mkCTXB (cx_mepc r) (cx_a0 r) (cx_a1 r) v.

(** The task control block.  [t_wercd] names the task whose local variable [ercd] it
    points at, [t_mtxlist] the mutex at the head of the list of held mutexes. *)
(* src: kernel/knlinc/kernel.h 52-98 task_control_block *)
Record TCB := mkTCB {
  t_tskid : Z;
  t_exinf : Z;
  t_tskatr : Z;
  t_task : Z;
  t_tskctxb : CTXB;
  t_sstksz : Z;
  t_isysmode : Z;
  t_sysmode : Z;
  t_ipriority : Z;
  t_bpriority : Z;
  t_priority : Z;
  t_state : Z;
  t_klockwait : bool;
  t_klocked : bool;
  t_wspec : wspec;
  t_wid : Z;
  t_wupcnt : Z;
  t_suscnt : Z;
  t_wercd : option Z;
  t_winfo : WINFO;
  t_isstack : Z;
  t_wrdvno : Z;
  t_mtxlist : option Z;
  t_stime : Z;
  t_utime : Z
}.

Definition set_t_tskid (v : Z) (r : TCB) : TCB :=
  mkTCB v (t_exinf r) (t_tskatr r) (t_task r) (t_tskctxb r) (t_sstksz r) (t_isysmode r) (t_sysmode r) (t_ipriority r) (t_bpriority r) (t_priority r) (t_state r) (t_klockwait r) (t_klocked r) (t_wspec r) (t_wid r) (t_wupcnt r) (t_suscnt r) (t_wercd r) (t_winfo r) (t_isstack r) (t_wrdvno r) (t_mtxlist r) (t_stime r) (t_utime r).
Definition set_t_exinf (v : Z) (r : TCB) : TCB :=
  mkTCB (t_tskid r) v (t_tskatr r) (t_task r) (t_tskctxb r) (t_sstksz r) (t_isysmode r) (t_sysmode r) (t_ipriority r) (t_bpriority r) (t_priority r) (t_state r) (t_klockwait r) (t_klocked r) (t_wspec r) (t_wid r) (t_wupcnt r) (t_suscnt r) (t_wercd r) (t_winfo r) (t_isstack r) (t_wrdvno r) (t_mtxlist r) (t_stime r) (t_utime r).
Definition set_t_tskatr (v : Z) (r : TCB) : TCB :=
  mkTCB (t_tskid r) (t_exinf r) v (t_task r) (t_tskctxb r) (t_sstksz r) (t_isysmode r) (t_sysmode r) (t_ipriority r) (t_bpriority r) (t_priority r) (t_state r) (t_klockwait r) (t_klocked r) (t_wspec r) (t_wid r) (t_wupcnt r) (t_suscnt r) (t_wercd r) (t_winfo r) (t_isstack r) (t_wrdvno r) (t_mtxlist r) (t_stime r) (t_utime r).
Definition set_t_task (v : Z) (r : TCB) : TCB :=
  mkTCB (t_tskid r) (t_exinf r) (t_tskatr r) v (t_tskctxb r) (t_sstksz r) (t_isysmode r) (t_sysmode r) (t_ipriority r) (t_bpriority r) (t_priority r) (t_state r) (t_klockwait r) (t_klocked r) (t_wspec r) (t_wid r) (t_wupcnt r) (t_suscnt r) (t_wercd r) (t_winfo r) (t_isstack r) (t_wrdvno r) (t_mtxlist r) (t_stime r) (t_utime r).
Definition set_t_tskctxb (v : CTXB) (r : TCB) : TCB :=
  mkTCB (t_tskid r) (t_exinf r) (t_tskatr r) (t_task r) v (t_sstksz r) (t_isysmode r) (t_sysmode r) (t_ipriority r) (t_bpriority r) (t_priority r) (t_state r) (t_klockwait r) (t_klocked r) (t_wspec r) (t_wid r) (t_wupcnt r) (t_suscnt r) (t_wercd r) (t_winfo r) (t_isstack r) (t_wrdvno r) (t_mtxlist r) (t_stime r) (t_utime r).
Definition set_t_sstksz (v : Z) (r : TCB) : TCB :=
  mkTCB (t_tskid r) (t_exinf r) (t_tskatr r) (t_task r) (t_tskctxb r) v (t_isysmode r) (t_sysmode r) (t_ipriority r) (t_bpriority r) (t_priority r) (t_state r) (t_klockwait r) (t_klocked r) (t_wspec r) (t_wid r) (t_wupcnt r) (t_suscnt r) (t_wercd r) (t_winfo r) (t_isstack r) (t_wrdvno r) (t_mtxlist r) (t_stime r) (t_utime r).
Definition set_t_isysmode (v : Z) (r : TCB) : TCB :=
  mkTCB (t_tskid r) (t_exinf r) (t_tskatr r) (t_task r) (t_tskctxb r) (t_sstksz r) v (t_sysmode r) (t_ipriority r) (t_bpriority r) (t_priority r) (t_state r) (t_klockwait r) (t_klocked r) (t_wspec r) (t_wid r) (t_wupcnt r) (t_suscnt r) (t_wercd r) (t_winfo r) (t_isstack r) (t_wrdvno r) (t_mtxlist r) (t_stime r) (t_utime r).
Definition set_t_sysmode (v : Z) (r : TCB) : TCB :=
  mkTCB (t_tskid r) (t_exinf r) (t_tskatr r) (t_task r) (t_tskctxb r) (t_sstksz r) (t_isysmode r) v (t_ipriority r) (t_bpriority r) (t_priority r) (t_state r) (t_klockwait r) (t_klocked r) (t_wspec r) (t_wid r) (t_wupcnt r) (t_suscnt r) (t_wercd r) (t_winfo r) (t_isstack r) (t_wrdvno r) (t_mtxlist r) (t_stime r) (t_utime r).
Definition set_t_ipriority (v : Z) (r : TCB) : TCB :=
  mkTCB (t_tskid r) (t_exinf r) (t_tskatr r) (t_task r) (t_tskctxb r) (t_sstksz r) (t_isysmode r) (t_sysmode r) v (t_bpriority r) (t_priority r) (t_state r) (t_klockwait r) (t_klocked r) (t_wspec r) (t_wid r) (t_wupcnt r) (t_suscnt r) (t_wercd r) (t_winfo r) (t_isstack r) (t_wrdvno r) (t_mtxlist r) (t_stime r) (t_utime r).
Definition set_t_bpriority (v : Z) (r : TCB) : TCB :=
  mkTCB (t_tskid r) (t_exinf r) (t_tskatr r) (t_task r) (t_tskctxb r) (t_sstksz r) (t_isysmode r) (t_sysmode r) (t_ipriority r) v (t_priority r) (t_state r) (t_klockwait r) (t_klocked r) (t_wspec r) (t_wid r) (t_wupcnt r) (t_suscnt r) (t_wercd r) (t_winfo r) (t_isstack r) (t_wrdvno r) (t_mtxlist r) (t_stime r) (t_utime r).
Definition set_t_priority (v : Z) (r : TCB) : TCB :=
  mkTCB (t_tskid r) (t_exinf r) (t_tskatr r) (t_task r) (t_tskctxb r) (t_sstksz r) (t_isysmode r) (t_sysmode r) (t_ipriority r) (t_bpriority r) v (t_state r) (t_klockwait r) (t_klocked r) (t_wspec r) (t_wid r) (t_wupcnt r) (t_suscnt r) (t_wercd r) (t_winfo r) (t_isstack r) (t_wrdvno r) (t_mtxlist r) (t_stime r) (t_utime r).
Definition set_t_state (v : Z) (r : TCB) : TCB :=
  mkTCB (t_tskid r) (t_exinf r) (t_tskatr r) (t_task r) (t_tskctxb r) (t_sstksz r) (t_isysmode r) (t_sysmode r) (t_ipriority r) (t_bpriority r) (t_priority r) v (t_klockwait r) (t_klocked r) (t_wspec r) (t_wid r) (t_wupcnt r) (t_suscnt r) (t_wercd r) (t_winfo r) (t_isstack r) (t_wrdvno r) (t_mtxlist r) (t_stime r) (t_utime r).
Definition set_t_klockwait (v : bool) (r : TCB) : TCB :=
  mkTCB (t_tskid r) (t_exinf r) (t_tskatr r) (t_task r) (t_tskctxb r) (t_sstksz r) (t_isysmode r) (t_sysmode r) (t_ipriority r) (t_bpriority r) (t_priority r) (t_state r) v (t_klocked r) (t_wspec r) (t_wid r) (t_wupcnt r) (t_suscnt r) (t_wercd r) (t_winfo r) (t_isstack r) (t_wrdvno r) (t_mtxlist r) (t_stime r) (t_utime r).
Definition set_t_klocked (v : bool) (r : TCB) : TCB :=
  mkTCB (t_tskid r) (t_exinf r) (t_tskatr r) (t_task r) (t_tskctxb r) (t_sstksz r) (t_isysmode r) (t_sysmode r) (t_ipriority r) (t_bpriority r) (t_priority r) (t_state r) (t_klockwait r) v (t_wspec r) (t_wid r) (t_wupcnt r) (t_suscnt r) (t_wercd r) (t_winfo r) (t_isstack r) (t_wrdvno r) (t_mtxlist r) (t_stime r) (t_utime r).
Definition set_t_wspec (v : wspec) (r : TCB) : TCB :=
  mkTCB (t_tskid r) (t_exinf r) (t_tskatr r) (t_task r) (t_tskctxb r) (t_sstksz r) (t_isysmode r) (t_sysmode r) (t_ipriority r) (t_bpriority r) (t_priority r) (t_state r) (t_klockwait r) (t_klocked r) v (t_wid r) (t_wupcnt r) (t_suscnt r) (t_wercd r) (t_winfo r) (t_isstack r) (t_wrdvno r) (t_mtxlist r) (t_stime r) (t_utime r).
Definition set_t_wid (v : Z) (r : TCB) : TCB :=
  mkTCB (t_tskid r) (t_exinf r) (t_tskatr r) (t_task r) (t_tskctxb r) (t_sstksz r) (t_isysmode r) (t_sysmode r) (t_ipriority r) (t_bpriority r) (t_priority r) (t_state r) (t_klockwait r) (t_klocked r) (t_wspec r) v (t_wupcnt r) (t_suscnt r) (t_wercd r) (t_winfo r) (t_isstack r) (t_wrdvno r) (t_mtxlist r) (t_stime r) (t_utime r).
Definition set_t_wupcnt (v : Z) (r : TCB) : TCB :=
  mkTCB (t_tskid r) (t_exinf r) (t_tskatr r) (t_task r) (t_tskctxb r) (t_sstksz r) (t_isysmode r) (t_sysmode r) (t_ipriority r) (t_bpriority r) (t_priority r) (t_state r) (t_klockwait r) (t_klocked r) (t_wspec r) (t_wid r) v (t_suscnt r) (t_wercd r) (t_winfo r) (t_isstack r) (t_wrdvno r) (t_mtxlist r) (t_stime r) (t_utime r).
Definition set_t_suscnt (v : Z) (r : TCB) : TCB :=
  mkTCB (t_tskid r) (t_exinf r) (t_tskatr r) (t_task r) (t_tskctxb r) (t_sstksz r) (t_isysmode r) (t_sysmode r) (t_ipriority r) (t_bpriority r) (t_priority r) (t_state r) (t_klockwait r) (t_klocked r) (t_wspec r) (t_wid r) (t_wupcnt r) v (t_wercd r) (t_winfo r) (t_isstack r) (t_wrdvno r) (t_mtxlist r) (t_stime r) (t_utime r).
Definition set_t_wercd (v : option Z) (r : TCB) : TCB :=
  mkTCB (t_tskid r) (t_exinf r) (t_tskatr r) (t_task r) (t_tskctxb r) (t_sstksz r) (t_isysmode r) (t_sysmode r) (t_ipriority r) (t_bpriority r) (t_priority r) (t_state r) (t_klockwait r) (t_klocked r) (t_wspec r) (t_wid r) (t_wupcnt r) (t_suscnt r) v (t_winfo r) (t_isstack r) (t_wrdvno r) (t_mtxlist r) (t_stime r) (t_utime r).
Definition set_t_winfo (v : WINFO) (r : TCB) : TCB :=
  mkTCB (t_tskid r) (t_exinf r) (t_tskatr r) (t_task r) (t_tskctxb r) (t_sstksz r) (t_isysmode r) (t_sysmode r) (t_ipriority r) (t_bpriority r) (t_priority r) (t_state r) (t_klockwait r) (t_klocked r) (t_wspec r) (t_wid r) (t_wupcnt r) (t_suscnt r) (t_wercd r) v (t_isstack r) (t_wrdvno r) (t_mtxlist r) (t_stime r) (t_utime r).
Definition set_t_isstack (v : Z) (r : TCB) : TCB :=
  mkTCB (t_tskid r) (t_exinf r) (t_tskatr r) (t_task r) (t_tskctxb r) (t_sstksz r) (t_isysmode r) (t_sysmode r) (t_ipriority r) (t_bpriority r) (t_priority r) (t_state r) (t_klockwait r) (t_klocked r) (t_wspec r) (t_wid r) (t_wupcnt r) (t_suscnt r) (t_wercd r) (t_winfo r) v (t_wrdvno r) (t_mtxlist r) (t_stime r) (t_utime r).
Definition set_t_wrdvno (v : Z) (r : TCB) : TCB :=
  mkTCB (t_tskid r) (t_exinf r) (t_tskatr r) (t_task r) (t_tskctxb r) (t_sstksz r) (t_isysmode r) (t_sysmode r) (t_ipriority r) (t_bpriority r) (t_priority r) (t_state r) (t_klockwait r) (t_klocked r) (t_wspec r) (t_wid r) (t_wupcnt r) (t_suscnt r) (t_wercd r) (t_winfo r) (t_isstack r) v (t_mtxlist r) (t_stime r) (t_utime r).
Definition set_t_mtxlist (v : option Z) (r : TCB) : TCB :=
  mkTCB (t_tskid r) (t_exinf r) (t_tskatr r) (t_task r) (t_tskctxb r) (t_sstksz r) (t_isysmode r) (t_sysmode r) (t_ipriority r) (t_bpriority r) (t_priority r) (t_state r) (t_klockwait r) (t_klocked r) (t_wspec r) (t_wid r) (t_wupcnt r) (t_suscnt r) (t_wercd r) (t_winfo r) (t_isstack r) (t_wrdvno r) v (t_stime r) (t_utime r).
Definition set_t_stime (v : Z) (r : TCB) : TCB :=
  mkTCB (t_tskid r) (t_exinf r) (t_tskatr r) (t_task r) (t_tskctxb r) (t_sstksz r) (t_isysmode r) (t_sysmode r) (t_ipriority r) (t_bpriority r) (t_priority r) (t_state r) (t_klockwait r) (t_klocked r) (t_wspec r) (t_wid r) (t_wupcnt r) (t_suscnt r) (t_wercd r) (t_winfo r) (t_isstack r) (t_wrdvno r) (t_mtxlist r) v (t_utime r).
Definition set_t_utime (v : Z) (r : TCB) : TCB :=
  mkTCB (t_tskid r) (t_exinf r) (t_tskatr r) (t_task r) (t_tskctxb r) (t_sstksz r) (t_isysmode r) (t_sysmode r) (t_ipriority r) (t_bpriority r) (t_priority r) (t_state r) (t_klockwait r) (t_klocked r) (t_wspec r) (t_wid r) (t_wupcnt r) (t_suscnt r) (t_wercd r) (t_winfo r) (t_isstack r) (t_wrdvno r) (t_mtxlist r) (t_stime r) v.

(** The ready queue, without the heads of its task queues, which are the nodes [RDYQ p]. *)
(* src: kernel/tkernel/ready_queue.h 43-49 RDYQUE *)
Record RDYQUE := mkRDYQUE {
  top_priority : Z;
  bitmap : Z;
  klocktsk : option Z
}.

Definition set_top_priority (v : Z) (r : RDYQUE) : RDYQUE :=
  mkRDYQUE v (bitmap r) (klocktsk r).
Definition set_bitmap (v : Z) (r : RDYQUE) : RDYQUE :=
  mkRDYQUE (top_priority r) v (klocktsk r).
Definition set_klocktsk (v : option Z) (r : RDYQUE) : RDYQUE :=
  mkRDYQUE (top_priority r) (bitmap r) v.

(** Semaphore control block. *)
(* src: kernel/tkernel/semaphore.h 25-35 SEMCB *)
Record SEMCB := mkSEMCB {
  semid : Z;
  sem_exinf : Z;
  sematr : Z;
  semcnt : Z;
  maxsem : Z
}.

Definition set_semid (v : Z) (r : SEMCB) : SEMCB :=
  mkSEMCB v (sem_exinf r) (sematr r) (semcnt r) (maxsem r).
Definition set_sem_exinf (v : Z) (r : SEMCB) : SEMCB :=
  mkSEMCB (semid r) v (sematr r) (semcnt r) (maxsem r).
Definition set_sematr (v : Z) (r : SEMCB) : SEMCB :=
  mkSEMCB (semid r) (sem_exinf r) v (semcnt r) (maxsem r).
Definition set_semcnt (v : Z) (r : SEMCB) : SEMCB :=
  mkSEMCB (semid r) (sem_exinf r) (sematr r) v (maxsem r).
Definition set_maxsem (v : Z) (r : SEMCB) : SEMCB :=
  mkSEMCB (semid r) (sem_exinf r) (sematr r) (semcnt r) v.

(** Event flag control block. *)
(* src: kernel/tkernel/eventflag.h 25-34 FLGCB *)
Record FLGCB := mkFLGCB {
  flgid : Z;
  flg_exinf : Z;
  flgatr : Z;
  flgptn : Z
}.

Definition set_flgid (v : Z) (r : FLGCB) : FLGCB :=
  mkFLGCB v (flg_exinf r) (flgatr r) (flgptn r).
Definition set_flg_exinf (v : Z) (r : FLGCB) : FLGCB :=
  mkFLGCB (flgid r) v (flgatr r) (flgptn r).
Definition set_flgatr (v : Z) (r : FLGCB) : FLGCB :=
  mkFLGCB (flgid r) (flg_exinf r) v (flgptn r).
Definition set_flgptn (v : Z) (r : FLGCB) : FLGCB :=
  mkFLGCB (flgid r) (flg_exinf r) (flgatr r) v.

(** Mailbox control block.  Messages are addresses in user memory; [mbx_head] is
    [mq_head.msgque[0]] and 0 is NULL. *)
(* src: kernel/tkernel/mailbox.h 33-43 MBXCB *)
Record MBXCB := mkMBXCB {
  mbxid : Z;
  mbx_exinf : Z;
  mbxatr : Z;
  mbx_head : Z;
  mbx_tail : Z
}.

Definition set_mbxid (v : Z) (r : MBXCB) : MBXCB :=
  mkMBXCB v (mbx_exinf r) (mbxatr r) (mbx_head r) (mbx_tail r).
Definition set_mbx_exinf (v : Z) (r : MBXCB) : MBXCB :=
  mkMBXCB (mbxid r) v (mbxatr r) (mbx_head r) (mbx_tail r).
Definition set_mbxatr (v : Z) (r : MBXCB) : MBXCB :=
  mkMBXCB (mbxid r) (mbx_exinf r) v (mbx_head r) (mbx_tail r).
Definition set_mbx_head (v : Z) (r : MBXCB) : MBXCB :=
  mkMBXCB (mbxid r) (mbx_exinf r) (mbxatr r) v (mbx_tail r).
Definition set_mbx_tail (v : Z) (r : MBXCB) : MBXCB :=
  mkMBXCB (mbxid r) (mbx_exinf r) (mbxatr r) (mbx_head r) v.

(** Mutex control block. *)
(* src: kernel/tkernel/mutex.h 27-38 MTXCB *)
Record MTXCB := mkMTXCB {
  mtxid : Z;
  mtx_exinf : Z;
  mtxatr : Z;
  ceilpri : Z;
  mtxtsk : option Z;
  mtxlist : option Z
}.

Definition set_mtxid (v : Z) (r : MTXCB) : MTXCB :=
  mkMTXCB v (mtx_exinf r) (mtxatr r) (ceilpri r) (mtxtsk r) (mtxlist r).
Definition set_mtx_exinf (v : Z) (r : MTXCB) : MTXCB :=
  mkMTXCB (mtxid r) v (mtxatr r) (ceilpri r) (mtxtsk r) (mtxlist r).
Definition set_mtxatr (v : Z) (r : MTXCB) : MTXCB :=
  mkMTXCB (mtxid r) (mtx_exinf r) v (ceilpri r) (mtxtsk r) (mtxlist r).
Definition set_ceilpri (v : Z) (r : MTXCB) : MTXCB :=
  mkMTXCB (mtxid r) (mtx_exinf r) (mtxatr r) v (mtxtsk r) (mtxlist r).
Definition set_mtxtsk (v : option Z) (r : MTXCB) : MTXCB :=
  mkMTXCB (mtxid r) (mtx_exinf r) (mtxatr r) (ceilpri r) v (mtxlist r).
Definition set_mtxlist (v : option Z) (r : MTXCB) : MTXCB :=
  mkMTXCB (mtxid r) (mtx_exinf r) (mtxatr r) (ceilpri r) (mtxtsk r) v.

(** Message buffer control block; [mbf_buffer] is the address of the buffer. *)
(* src: kernel/tkernel/messagebuf.h 32-47 MBFCB *)
Record MBFCB := mkMBFCB {
  mbfid : Z;
  mbf_exinf : Z;
  mbfatr : Z;
  bufsz : Z;
  maxmsz : Z;
  frbufsz : Z;
  mbf_head : Z;
  mbf_tail : Z;
  mbf_buffer : Z
}.

Definition set_mbfid (v : Z) (r : MBFCB) : MBFCB :=
  mkMBFCB v (mbf_exinf r) (mbfatr r) (bufsz r) (maxmsz r) (frbufsz r) (mbf_head r) (mbf_tail r) (mbf_buffer r).
Definition set_mbf_exinf (v : Z) (r : MBFCB) : MBFCB :=
  mkMBFCB (mbfid r) v (mbfatr r) (bufsz r) (maxmsz r) (frbufsz r) (mbf_head r) (mbf_tail r) (mbf_buffer r).
Definition set_mbfatr (v : Z) (r : MBFCB) : MBFCB :=
  mkMBFCB (mbfid r) (mbf_exinf r) v (bufsz r) (maxmsz r) (frbufsz r) (mbf_head r) (mbf_tail r) (mbf_buffer r).
Definition set_bufsz (v : Z) (r : MBFCB) : MBFCB :=
  mkMBFCB (mbfid r) (mbf_exinf r) (mbfatr r) v (maxmsz r) (frbufsz r) (mbf_head r) (mbf_tail r) (mbf_buffer r).
Definition set_maxmsz (v : Z) (r : MBFCB) : MBFCB :=
  mkMBFCB (mbfid r) (mbf_exinf r) (mbfatr r) (bufsz r) v (frbufsz r) (mbf_head r) (mbf_tail r) (mbf_buffer r).
Definition set_frbufsz (v : Z) (r : MBFCB) : MBFCB :=
  mkMBFCB (mbfid r) (mbf_exinf r) (mbfatr r) (bufsz r) (maxmsz r) v (mbf_head r) (mbf_tail r) (mbf_buffer r).
Definition set_mbf_head (v : Z) (r : MBFCB) : MBFCB :=
  mkMBFCB (mbfid r) (mbf_exinf r) (mbfatr r) (bufsz r) (maxmsz r) (frbufsz r) v (mbf_tail r) (mbf_buffer r).
Definition set_mbf_tail (v : Z) (r : MBFCB) : MBFCB :=
  mkMBFCB (mbfid r) (mbf_exinf r) (mbfatr r) (bufsz r) (maxmsz r) (frbufsz r) (mbf_head r) v (mbf_buffer r).
Definition set_mbf_buffer (v : Z) (r : MBFCB) : MBFCB :=
  mkMBFCB (mbfid r) (mbf_exinf r) (mbfatr r) (bufsz r) (maxmsz r) (frbufsz r) (mbf_head r) (mbf_tail r) v.

(** Fixed size memory pool control block; the lock is the node [MPFLOCK i]. *)
(* src: kernel/tkernel/mempfix.h 29-45 MPFCB *)
Record MPFCB := mkMPFCB {
  mpfid : Z;
  mpf_exinf : Z;
  mpfatr : Z;
  mpfcnt : Z;
  blfsz : Z;
  mpfsz : Z;
  frbcnt : Z;
  mempool : Z;
  unused : Z;
  freelist : Z
}.

Definition set_mpfid (v : Z) (r : MPFCB) : MPFCB :=
  mkMPFCB v (mpf_exinf r) (mpfatr r) (mpfcnt r) (blfsz r) (mpfsz r) (frbcnt r) (mempool r) (unused r) (freelist r).
Definition set_mpf_exinf (v : Z) (r : MPFCB) : MPFCB :=
  mkMPFCB (mpfid r) v (mpfatr r) (mpfcnt r) (blfsz r) (mpfsz r) (frbcnt r) (mempool r) (unused r) (freelist r).
Definition set_mpfatr (v : Z) (r : MPFCB) : MPFCB :=
  mkMPFCB (mpfid r) (mpf_exinf r) v (mpfcnt r) (blfsz r) (mpfsz r) (frbcnt r) (mempool r) (unused r) (freelist r).
Definition set_mpfcnt (v : Z) (r : MPFCB) : MPFCB :=
  mkMPFCB (mpfid r) (mpf_exinf r) (mpfatr r) v (blfsz r) (mpfsz r) (frbcnt r) (mempool r) (unused r) (freelist r).
Definition set_blfsz (v : Z) (r : MPFCB) : MPFCB :=
  mkMPFCB (mpfid r) (mpf_exinf r) (mpfatr r) (mpfcnt r) v (mpfsz r) (frbcnt r) (mempool r) (unused r) (freelist r).
Definition set_mpfsz (v : Z) (r : MPFCB) : MPFCB :=
  mkMPFCB (mpfid r) (mpf_exinf r) (mpfatr r) (mpfcnt r) (blfsz r) v (frbcnt r) (mempool r) (unused r) (freelist r).
Definition set_frbcnt (v : Z) (r : MPFCB) : MPFCB :=
  mkMPFCB (mpfid r) (mpf_exinf r) (mpfatr r) (mpfcnt r) (blfsz r) (mpfsz r) v (mempool r) (unused r) (freelist r).
Definition set_mempool (v : Z) (r : MPFCB) : MPFCB :=
  mkMPFCB (mpfid r) (mpf_exinf r) (mpfatr r) (mpfcnt r) (blfsz r) (mpfsz r) (frbcnt r) v (unused r) (freelist r).
Definition set_unused (v : Z) (r : MPFCB) : MPFCB :=
  mkMPFCB (mpfid r) (mpf_exinf r) (mpfatr r) (mpfcnt r) (blfsz r) (mpfsz r) (frbcnt r) (mempool r) v (freelist r).
Definition set_freelist (v : Z) (r : MPFCB) : MPFCB :=
  mkMPFCB (mpfid r) (mpf_exinf r) (mpfatr r) (mpfcnt r) (blfsz r) (mpfsz r) (frbcnt r) (mempool r) (unused r) v.

(** Variable size memory pool control block.  The cells [areaque], [freeque] and
    [areaque_end] are in the memory of [QUEUE] cells, at their addresses. *)
(* src: kernel/tkernel/mempool.h 30-43 MPLCB *)
Record MPLCB := mkMPLCB {
  mplid : Z;
  mpl_exinf : Z;
  mplatr : Z;
  mplsz : Z;
  mpl_mempool : Z
}.

Definition set_mplid (v : Z) (r : MPLCB) : MPLCB :=
  mkMPLCB v (mpl_exinf r) (mplatr r) (mplsz r) (mpl_mempool r).
Definition set_mpl_exinf (v : Z) (r : MPLCB) : MPLCB :=
  mkMPLCB (mplid r) v (mplatr r) (mplsz r) (mpl_mempool r).
Definition set_mplatr (v : Z) (r : MPLCB) : MPLCB :=
  mkMPLCB (mplid r) (mpl_exinf r) v (mplsz r) (mpl_mempool r).
Definition set_mplsz (v : Z) (r : MPLCB) : MPLCB :=
  mkMPLCB (mplid r) (mpl_exinf r) (mplatr r) v (mpl_mempool r).
Definition set_mpl_mempool (v : Z) (r : MPLCB) : MPLCB :=
  mkMPLCB (mplid r) (mpl_exinf r) (mplatr r) (mplsz r) v.

(** Rendezvous port control block. *)
(* src: kernel/tkernel/rendezvous.h 25-36 PORCB *)
Record PORCB := mkPORCB {
  porid : Z;
  por_exinf : Z;
  poratr : Z;
  maxcmsz : Z;
  maxrmsz : Z
}.

Definition set_porid (v : Z) (r : PORCB) : PORCB :=
  mkPORCB v (por_exinf r) (poratr r) (maxcmsz r) (maxrmsz r).
Definition set_por_exinf (v : Z) (r : PORCB) : PORCB :=
  mkPORCB (porid r) v (poratr r) (maxcmsz r) (maxrmsz r).
Definition set_poratr (v : Z) (r : PORCB) : PORCB :=
  mkPORCB (porid r) (por_exinf r) v (maxcmsz r) (maxrmsz r).
Definition set_maxcmsz (v : Z) (r : PORCB) : PORCB :=
  mkPORCB (porid r) (por_exinf r) (poratr r) v (maxrmsz r).
Definition set_maxrmsz (v : Z) (r : PORCB) : PORCB :=
  mkPORCB (porid r) (por_exinf r) (poratr r) (maxcmsz r) v.

(** Cyclic handler control block, without its timer event block. *)
(* src: kernel/tkernel/time_calls.h 27-37 CYCCB *)
Record CYCCB := mkCYCCB {
  cyc_exinf : Z;
  cycatr : Z;
  cychdr : Z;
  cycstat : Z;
  cyctim : Z
}.

Definition set_cyc_exinf (v : Z) (r : CYCCB) : CYCCB :=
  mkCYCCB v (cycatr r) (cychdr r) (cycstat r) (cyctim r).
Definition set_cycatr (v : Z) (r : CYCCB) : CYCCB :=
  mkCYCCB (cyc_exinf r) v (cychdr r) (cycstat r) (cyctim r).
Definition set_cychdr (v : Z) (r : CYCCB) : CYCCB :=
  mkCYCCB (cyc_exinf r) (cycatr r) v (cycstat r) (cyctim r).
Definition set_cycstat (v : Z) (r : CYCCB) : CYCCB :=
  mkCYCCB (cyc_exinf r) (cycatr r) (cychdr r) v (cyctim r).
Definition set_cyctim (v : Z) (r : CYCCB) : CYCCB :=
  mkCYCCB (cyc_exinf r) (cycatr r) (cychdr r) (cycstat r) v.

(** Alarm handler control block, without its timer event block. *)
(* src: kernel/tkernel/time_calls.h 77-86 ALMCB *)
Record ALMCB := mkALMCB {
  alm_exinf : Z;
  almatr : Z;
  almhdr : Z;
  almstat : Z
}.

Definition set_alm_exinf (v : Z) (r : ALMCB) : ALMCB :=
  mkALMCB v (almatr r) (almhdr r) (almstat r).
Definition set_almatr (v : Z) (r : ALMCB) : ALMCB :=
  mkALMCB (alm_exinf r) v (almhdr r) (almstat r).
Definition set_almhdr (v : Z) (r : ALMCB) : ALMCB :=
  mkALMCB (alm_exinf r) (almatr r) v (almstat r).
Definition set_almstat (v : Z) (r : ALMCB) : ALMCB :=
  mkALMCB (alm_exinf r) (almatr r) (almhdr r) v.

(** ** The state *)

(** What the scheduler, the wait routines and the timer work on.  [s_ercd t] is the
    local variable [ercd] of the system call task [t] is in, and [s_rcvsz t] the local
    that receives a size: [rcvsz] of tk_rcv_mbf, [rmsgsz] of tk_cal_por, [cmsgsz] of
    tk_acp_por; [s_masked] is what [knl_is_dispatch_masked] reads from the
    CPU. *)

(* src: kernel/tkernel/task.c 30-44 knl_ctxtsk *)
Record SCH := mkSCH {
  s_q : qmem node;
  s_tcb : Z → TCB;
  s_rq : RDYQUE;
  s_ctxtsk : option Z;
  s_schedtsk : option Z;
  s_dispatch_disabled : Z;
  s_taskindp : Z;
  s_masked : bool;
  s_tmeb : node → TMEB;
  s_current_time : Z;
  s_real_time_ofs : Z;
  s_ercd : Z → Z;
  s_rcvsz : Z → Z
}.

Definition set_s_q (v : qmem node) (r : SCH) : SCH :=
  mkSCH v (s_tcb r) (s_rq r) (s_ctxtsk r) (s_schedtsk r) (s_dispatch_disabled r) (s_taskindp r) (s_masked r) (s_tmeb r) (s_current_time r) (s_real_time_ofs r) (s_ercd r) (s_rcvsz r).
Definition set_s_tcb (v : Z → TCB) (r : SCH) : SCH :=
  mkSCH (s_q r) v (s_rq r) (s_ctxtsk r) (s_schedtsk r) (s_dispatch_disabled r) (s_taskindp r) (s_masked r) (s_tmeb r) (s_current_time r) (s_real_time_ofs r) (s_ercd r) (s_rcvsz r).
Definition set_s_rq (v : RDYQUE) (r : SCH) : SCH :=
  mkSCH (s_q r) (s_tcb r) v (s_ctxtsk r) (s_schedtsk r) (s_dispatch_disabled r) (s_taskindp r) (s_masked r) (s_tmeb r) (s_current_time r) (s_real_time_ofs r) (s_ercd r) (s_rcvsz r).
Definition set_s_ctxtsk (v : option Z) (r : SCH) : SCH :=
  mkSCH (s_q r) (s_tcb r) (s_rq r) v (s_schedtsk r) (s_dispatch_disabled r) (s_taskindp r) (s_masked r) (s_tmeb r) (s_current_time r) (s_real_time_ofs r) (s_ercd r) (s_rcvsz r).
Definition set_s_schedtsk (v : option Z) (r : SCH) : SCH :=
  mkSCH (s_q r) (s_tcb r) (s_rq r) (s_ctxtsk r) v (s_dispatch_disabled r) (s_taskindp r) (s_masked r) (s_tmeb r) (s_current_time r) (s_real_time_ofs r) (s_ercd r) (s_rcvsz r).
Definition set_s_dispatch_disabled (v : Z) (r : SCH) : SCH :=
  mkSCH (s_q r) (s_tcb r) (s_rq r) (s_ctxtsk r) (s_schedtsk r) v (s_taskindp r) (s_masked r) (s_tmeb r) (s_current_time r) (s_real_time_ofs r) (s_ercd r) (s_rcvsz r).
Definition set_s_taskindp (v : Z) (r : SCH) : SCH :=
  mkSCH (s_q r) (s_tcb r) (s_rq r) (s_ctxtsk r) (s_schedtsk r) (s_dispatch_disabled r) v (s_masked r) (s_tmeb r) (s_current_time r) (s_real_time_ofs r) (s_ercd r) (s_rcvsz r).
Definition set_s_masked (v : bool) (r : SCH) : SCH :=
  mkSCH (s_q r) (s_tcb r) (s_rq r) (s_ctxtsk r) (s_schedtsk r) (s_dispatch_disabled r) (s_taskindp r) v (s_tmeb r) (s_current_time r) (s_real_time_ofs r) (s_ercd r) (s_rcvsz r).
Definition set_s_tmeb (v : node → TMEB) (r : SCH) : SCH :=
  mkSCH (s_q r) (s_tcb r) (s_rq r) (s_ctxtsk r) (s_schedtsk r) (s_dispatch_disabled r) (s_taskindp r) (s_masked r) v (s_current_time r) (s_real_time_ofs r) (s_ercd r) (s_rcvsz r).
Definition set_s_current_time (v : Z) (r : SCH) : SCH :=
  mkSCH (s_q r) (s_tcb r) (s_rq r) (s_ctxtsk r) (s_schedtsk r) (s_dispatch_disabled r) (s_taskindp r) (s_masked r) (s_tmeb r) v (s_real_time_ofs r) (s_ercd r) (s_rcvsz r).
Definition set_s_real_time_ofs (v : Z) (r : SCH) : SCH :=
  mkSCH (s_q r) (s_tcb r) (s_rq r) (s_ctxtsk r) (s_schedtsk r) (s_dispatch_disabled r) (s_taskindp r) (s_masked r) (s_tmeb r) (s_current_time r) v (s_ercd r) (s_rcvsz r).
Definition set_s_ercd (v : Z → Z) (r : SCH) : SCH :=
  mkSCH (s_q r) (s_tcb r) (s_rq r) (s_ctxtsk r) (s_schedtsk r) (s_dispatch_disabled r) (s_taskindp r) (s_masked r) (s_tmeb r) (s_current_time r) (s_real_time_ofs r) v (s_rcvsz r).
Definition set_s_rcvsz (v : Z → Z) (r : SCH) : SCH :=
  mkSCH (s_q r) (s_tcb r) (s_rq r) (s_ctxtsk r) (s_schedtsk r) (s_dispatch_disabled r) (s_taskindp r) (s_masked r) (s_tmeb r) (s_current_time r) (s_real_time_ofs r) (s_ercd r) v.

(** The whole kernel: the scheduler part, the object tables, the byte-addressed
    memory that user buffers, messages and memory pools live in, and the [QUEUE] cells
    of the memory areas and of the control blocks that head them, at their addresses
    ([k_mplcb_table] is the address of that table, which the linker chooses). *)

Record K := mkK {
  k_s : SCH;
  k_sem : Z → SEMCB;
  k_flg : Z → FLGCB;
  k_mbx : Z → MBXCB;
  k_mtx : Z → MTXCB;
  k_mbf : Z → MBFCB;
  k_mpf : Z → MPFCB;
  k_mpl : Z → MPLCB;
  k_por : Z → PORCB;
  k_cyc : Z → CYCCB;
  k_alm : Z → ALMCB;
  k_mem : Z → Z;
  k_heap : qmem Z;
  k_mplcb_table : Z
}.

Definition set_k_s (v : SCH) (r : K) : K :=
  mkK v (k_sem r) (k_flg r) (k_mbx r) (k_mtx r) (k_mbf r) (k_mpf r) (k_mpl r) (k_por r) (k_cyc r) (k_alm r) (k_mem r) (k_heap r) (k_mplcb_table r).
Definition set_k_sem (v : Z → SEMCB) (r : K) : K :=
  mkK (k_s r) v (k_flg r) (k_mbx r) (k_mtx r) (k_mbf r) (k_mpf r) (k_mpl r) (k_por r) (k_cyc r) (k_alm r) (k_mem r) (k_heap r) (k_mplcb_table r).
Definition set_k_flg (v : Z → FLGCB) (r : K) : K :=
  mkK (k_s r) (k_sem r) v (k_mbx r) (k_mtx r) (k_mbf r) (k_mpf r) (k_mpl r) (k_por r) (k_cyc r) (k_alm r) (k_mem r) (k_heap r) (k_mplcb_table r).
Definition set_k_mbx (v : Z → MBXCB) (r : K) : K :=
  mkK (k_s r) (k_sem r) (k_flg r) v (k_mtx r) (k_mbf r) (k_mpf r) (k_mpl r) (k_por r) (k_cyc r) (k_alm r) (k_mem r) (k_heap r) (k_mplcb_table r).
Definition set_k_mtx (v : Z → MTXCB) (r : K) : K :=
  mkK (k_s r) (k_sem r) (k_flg r) (k_mbx r) v (k_mbf r) (k_mpf r) (k_mpl r) (k_por r) (k_cyc r) (k_alm r) (k_mem r) (k_heap r) (k_mplcb_table r).
Definition set_k_mbf (v : Z → MBFCB) (r : K) : K :=
  mkK (k_s r) (k_sem r) (k_flg r) (k_mbx r) (k_mtx r) v (k_mpf r) (k_mpl r) (k_por r) (k_cyc r) (k_alm r) (k_mem r) (k_heap r) (k_mplcb_table r).
Definition set_k_mpf (v : Z → MPFCB) (r : K) : K :=
  mkK (k_s r) (k_sem r) (k_flg r) (k_mbx r) (k_mtx r) (k_mbf r) v (k_mpl r) (k_por r) (k_cyc r) (k_alm r) (k_mem r) (k_heap r) (k_mplcb_table r).
Definition set_k_mpl (v : Z → MPLCB) (r : K) : K :=
  mkK (k_s r) (k_sem r) (k_flg r) (k_mbx r) (k_mtx r) (k_mbf r) (k_mpf r) v (k_por r) (k_cyc r) (k_alm r) (k_mem r) (k_heap r) (k_mplcb_table r).
Definition set_k_por (v : Z → PORCB) (r : K) : K :=
  mkK (k_s r) (k_sem r) (k_flg r) (k_mbx r) (k_mtx r) (k_mbf r) (k_mpf r) (k_mpl r) v (k_cyc r) (k_alm r) (k_mem r) (k_heap r) (k_mplcb_table r).
Definition set_k_cyc (v : Z → CYCCB) (r : K) : K :=
  mkK (k_s r) (k_sem r) (k_flg r) (k_mbx r) (k_mtx r) (k_mbf r) (k_mpf r) (k_mpl r) (k_por r) v (k_alm r) (k_mem r) (k_heap r) (k_mplcb_table r).
Definition set_k_alm (v : Z → ALMCB) (r : K) : K :=
  mkK (k_s r) (k_sem r) (k_flg r) (k_mbx r) (k_mtx r) (k_mbf r) (k_mpf r) (k_mpl r) (k_por r) (k_cyc r) v (k_mem r) (k_heap r) (k_mplcb_table r).
Definition set_k_mem (v : Z → Z) (r : K) : K :=
  mkK (k_s r) (k_sem r) (k_flg r) (k_mbx r) (k_mtx r) (k_mbf r) (k_mpf r) (k_mpl r) (k_por r) (k_cyc r) (k_alm r) v (k_heap r) (k_mplcb_table r).
Definition set_k_heap (v : qmem Z) (r : K) : K :=
  mkK (k_s r) (k_sem r) (k_flg r) (k_mbx r) (k_mtx r) (k_mbf r) (k_mpf r) (k_mpl r) (k_por r) (k_cyc r) (k_alm r) (k_mem r) v (k_mplcb_table r).

(** ** Updates *)

Definition upd_q (f : qmem node → qmem node) (s : SCH) : SCH := set_s_q (f (s_q s)) s.
Definition upd_tcb (t : Z) (f : TCB → TCB) (s : SCH) : SCH :=
  set_s_tcb (<[t := f (s_tcb s t)]> (s_tcb s)) s.
Definition upd_rq (f : RDYQUE → RDYQUE) (s : SCH) : SCH := set_s_rq (f (s_rq s)) s.
Definition upd_tmeb (e : node) (f : TMEB → TMEB) (s : SCH) : SCH :=
  set_s_tmeb (<[e := f (s_tmeb s e)]> (s_tmeb s)) s.
Definition upd_s (f : SCH → SCH) (k : K) : K := set_k_s (f (k_s k)) k.
Definition upd_sem (i : Z) (f : SEMCB → SEMCB) (k : K) : K := set_k_sem (<[i := f (k_sem k i)]> (k_sem k)) k.
Definition upd_flg (i : Z) (f : FLGCB → FLGCB) (k : K) : K := set_k_flg (<[i := f (k_flg k i)]> (k_flg k)) k.
Definition upd_mbx (i : Z) (f : MBXCB → MBXCB) (k : K) : K := set_k_mbx (<[i := f (k_mbx k i)]> (k_mbx k)) k.
Definition upd_mtx (i : Z) (f : MTXCB → MTXCB) (k : K) : K := set_k_mtx (<[i := f (k_mtx k i)]> (k_mtx k)) k.
Definition upd_mbf (i : Z) (f : MBFCB → MBFCB) (k : K) : K := set_k_mbf (<[i := f (k_mbf k i)]> (k_mbf k)) k.
Definition upd_mpf (i : Z) (f : MPFCB → MPFCB) (k : K) : K := set_k_mpf (<[i := f (k_mpf k i)]> (k_mpf k)) k.
Definition upd_mpl (i : Z) (f : MPLCB → MPLCB) (k : K) : K := set_k_mpl (<[i := f (k_mpl k i)]> (k_mpl k)) k.
Definition upd_por (i : Z) (f : PORCB → PORCB) (k : K) : K := set_k_por (<[i := f (k_por k i)]> (k_por k)) k.
Definition upd_cyc (i : Z) (f : CYCCB → CYCCB) (k : K) : K := set_k_cyc (<[i := f (k_cyc k i)]> (k_cyc k)) k.
Definition upd_alm (i : Z) (f : ALMCB → ALMCB) (k : K) : K := set_k_alm (<[i := f (k_alm k i)]> (k_alm k)) k.

(** ** Accessors of the running context *)

(** [knl_ctxtsk] where the code dereferences it; the context checks that precede
    every dereference exclude NULL. *)
Definition ctx (s : SCH) : Z := default 0 (s_ctxtsk s).

(* src: kernel/sysdepend/cpu/core/riscv_esp/cpu_status.h 92-92 in_indp *)
Definition in_indp (s : SCH) : bool := (0 <? s_taskindp s) || bool_decide (s_ctxtsk s = None).

(* src: kernel/sysdepend/cpu/core/riscv_esp/cpu_status.h 94-96 in_ddsp *)
Definition in_ddsp (s : SCH) : bool :=
  negb (s_dispatch_disabled s =? 0) || in_indp s || s_masked s.

(* src: kernel/knlinc/kernel.h 118-118 DDS_ENABLE *)
Definition DDS_ENABLE : Z := 0.
(* src: kernel/knlinc/kernel.h 120-120 DDS_DISABLE *)
Definition DDS_DISABLE : Z := 2.

(* src: kernel/tkernel/check.h 26-32 CHECK_TSKID *)
Definition CHECK_TSKID (tskid : Z) (s : SCH) : option Z :=
  if negb (in_indp s) && (tskid =? TSK_SELF) then Some E_OBJ
  else if negb (CHK_TSKID tskid) then Some E_ID
  else None.

(* src: kernel/tkernel/check.h 33-38 CHECK_TSKID_SELF *)
Definition CHECK_TSKID_SELF (tskid : Z) (s : SCH) : option Z :=
  if (negb (in_indp s) && (tskid =? TSK_SELF)) || CHK_TSKID tskid then None else Some E_ID.

(* src: kernel/tkernel/task.h 62-62 get_tcb *)
Definition get_tcb (id : Z) : Z := INDEX_TSK id.

(* src: kernel/tkernel/task.h 63-63 get_tcb_self *)
Definition get_tcb_self (id : Z) (s : SCH) : Z := if id =? TSK_SELF then ctx s else get_tcb id.

(** [*tcb->wercd = ercd]. *)
Definition write_wercd (t : Z) (ercd : Z) (s : SCH) : SCH :=
  match t_wercd (s_tcb s t) with
  | Some c => set_s_ercd (<[c := ercd]> (s_ercd s)) s
  | None => s
  end.

(** ** Words in memory: 32-bit little endian *)

Definition ld32 (m : Z → Z) (a : Z) : Z :=
  m a + 2 ^ 8 * m (a + 1) + 2 ^ 16 * m (a + 2) + 2 ^ 24 * m (a + 3).

Definition st32 (a v : Z) (m : Z → Z) : Z → Z :=
  <[a + 3 := Z.shiftr v 24 mod 2 ^ 8]> (<[a + 2 := Z.shiftr v 16 mod 2 ^ 8]>
    (<[a + 1 := Z.shiftr v 8 mod 2 ^ 8]> (<[a := v mod 2 ^ 8]> m))).

Lemma ld32_st32 m a v : 0 <= v < 2 ^ 32 → ld32 (st32 a v m) a = v.
Proof.
  intros Hv. unfold ld32, st32.
  repeat first [rewrite fn_lookup_insert | rewrite fn_lookup_insert_ne by lia].
  rewrite !Z.shiftr_div_pow2 by lia.
  change (2 ^ 24) with (2 ^ 8 * (2 ^ 8 * 2 ^ 8)). change (2 ^ 16) with (2 ^ 8 * 2 ^ 8).
  rewrite <- !Z.div_div by lia.
  assert (v / 2 ^ 8 / 2 ^ 8 / 2 ^ 8 < 2 ^ 8).
  { rewrite !Z.div_div by lia. apply Z.div_lt_upper_bound; lia. }
  pose proof (Z.div_mod v (2 ^ 8)). pose proof (Z.div_mod (v / 2 ^ 8) (2 ^ 8)).
  pose proof (Z.div_mod (v / 2 ^ 8 / 2 ^ 8) (2 ^ 8)).
  rewrite (Z.mod_small (v / 2 ^ 8 / 2 ^ 8 / 2 ^ 8)); [lia|].
  split; [|done]. repeat apply Z.div_pos; lia.
Qed.

Lemma ld32_st32_ne m a b v : a + 4 <= b ∨ b + 4 <= a → ld32 (st32 a v m) b = ld32 m b.
Proof. intros Hab. unfold ld32, st32. by repeat rewrite fn_lookup_insert_ne by lia. Qed.

Definition upd_mem (f : (Z → Z) → Z → Z) (k : K) : K := set_k_mem (f (k_mem k)) k.
Definition upd_heap (f : qmem Z → qmem Z) (k : K) : K := set_k_heap (f (k_heap k)) k.
