(* ===== verification/ReadyQueue.v ===== *)
(** * The ready queue: kernel/tkernel/ready_queue.h

    One FIFO queue per priority, a bitmap of the non-empty ones and the highest
    priority in use.  The configuration has NUM_TSKPRI = 32 levels, so the bitmap
    is the single word of the NUM_TSKPRI <= INT_BITWIDTH branches. *)
From S2P Require Import Prelude Config Queue Kernel.

(** The loop of [knl_ready_queue_calc_top_priority] from [pos], for [fuel] rounds;
    NUM_TSKPRI - pos rounds reach its end. *)
(* src: kernel/tkernel/ready_queue.h 56-61 knl_ready_queue_calc_top_priority *)
Fixpoint calc_top_loop (fuel : nat) (bitmap pos : Z) : Z :=
  match fuel with
  | O => NUM_TSKPRI
  | S fuel =>
      if pos <? NUM_TSKPRI then
        if negb (Z.land bitmap (Z.shiftl 1 pos) =? 0) then pos
        else calc_top_loop fuel bitmap (pos + 1)
      else NUM_TSKPRI
  end.

(* src: kernel/tkernel/ready_queue.h 54-62 knl_ready_queue_calc_top_priority *)
Definition knl_ready_queue_calc_top_priority (bitmap pos : Z) : Z :=
  calc_top_loop (Z.to_nat (NUM_TSKPRI - pos)) bitmap pos.

(* src: kernel/tkernel/ready_queue.h 68-79 knl_ready_queue_initialize *)
Definition knl_ready_queue_initialize (s : SCH) : SCH :=
  let s := upd_rq (set_top_priority NUM_TSKPRI) s in
  let s := foldl (λ s i, upd_q (QueInit (RDYQ i)) s) s (seqZ 0 NUM_TSKPRI) in
  let s := upd_rq (set_klocktsk None) s in
  upd_rq (set_bitmap 0) s.

(** When the queue is empty [top_priority] is NUM_TSKPRI and the code reads the field
    [null] that follows the array [tskque]. *)
(* src: kernel/tkernel/ready_queue.h 84-92 knl_ready_queue_top *)
Definition knl_ready_queue_top (s : SCH) : option Z :=
  match klocktsk (s_rq s) with
  | Some t => Some t
  | None =>
      if top_priority (s_rq s) =? NUM_TSKPRI then None
      else Some (as_tcb (qnext (s_q s) (RDYQ (top_priority (s_rq s)))))
  end.

(* src: kernel/tkernel/ready_queue.h 97-100 knl_ready_queue_top_priority *)
Definition knl_ready_queue_top_priority (s : SCH) : Z := top_priority (s_rq s).

Definition set_bit (p : Z) (rq : RDYQUE) : RDYQUE :=
  set_bitmap (Z.lor (bitmap rq) (Z.shiftl 1 p)) rq.
Definition clr_bit (p : Z) (rq : RDYQUE) : RDYQUE :=
  set_bitmap (Z.land (bitmap rq) (Z.lnot (Z.shiftl 1 p))) rq.

(** [TRUE] when the task became the one with the highest priority. *)
(* src: kernel/tkernel/ready_queue.h 109-129 knl_ready_queue_insert *)
Definition knl_ready_queue_insert (tcb : Z) (s : SCH) : bool * SCH :=
  let priority := t_priority (s_tcb s tcb) in
  let s := upd_q (QueInsert (TSKQ tcb) (RDYQ priority)) s in
  let s := upd_rq (set_bit priority) s in
  let s := if t_klocked (s_tcb s tcb) then upd_rq (set_klocktsk (Some tcb)) s else s in
  if priority <? top_priority (s_rq s) then (true, upd_rq (set_top_priority priority) s)
  else (false, s).

(* src: kernel/tkernel/ready_queue.h 134-152 knl_ready_queue_insert_top *)
Definition knl_ready_queue_insert_top (tcb : Z) (s : SCH) : SCH :=
  let priority := t_priority (s_tcb s tcb) in
  let s := upd_q (QueInsert (TSKQ tcb) (qnext (s_q s) (RDYQ priority))) s in
  let s := upd_rq (set_bit priority) s in
  let s := if t_klocked (s_tcb s tcb) then upd_rq (set_klocktsk (Some tcb)) s else s in
  if priority <? top_priority (s_rq s) then upd_rq (set_top_priority priority) s else s.

(* src: kernel/tkernel/ready_queue.h 162-202 knl_ready_queue_delete *)
Definition knl_ready_queue_delete (tcb : Z) (s : SCH) : SCH :=
  let priority := t_priority (s_tcb s tcb) in
  let s := if bool_decide (klocktsk (s_rq s) = Some tcb) then upd_rq (set_klocktsk None) s else s in
  let s := upd_q (QueRemove (TSKQ tcb)) s in
  if t_klockwait (s_tcb s tcb) then upd_tcb tcb (set_t_klockwait false) s
  else if negb (isQueEmpty (RDYQ priority) (s_q s)) then s
  else
    let s := upd_rq (clr_bit priority) s in
    if negb (priority =? top_priority (s_rq s)) then s
    else
      upd_rq (λ rq, set_top_priority (knl_ready_queue_calc_top_priority (bitmap rq) priority) rq) s.

(* src: kernel/tkernel/ready_queue.h 208-217 knl_ready_queue_rotate *)
Definition knl_ready_queue_rotate (priority : Z) (s : SCH) : SCH :=
  let tskque := RDYQ priority in
  match QueRemoveNext tskque (s_q s) with
  | (Some tcb, q) => set_s_q (QueInsert tcb tskque q) s
  | (None, q) => set_s_q q s
  end.

(* src: kernel/tkernel/ready_queue.h 222-230 knl_ready_queue_move_last *)
Definition knl_ready_queue_move_last (tcb : Z) (s : SCH) : Z * SCH :=
  let tskque := RDYQ (t_priority (s_tcb s tcb)) in
  let s := upd_q (QueRemove (TSKQ tcb)) s in
  let s := upd_q (QueInsert (TSKQ tcb) tskque) s in
  (as_tcb (qnext (s_q s) tskque), s).

(** ** Bits *)

Lemma testbit_set b p i : 0 <= p → 0 <= i →
  Z.testbit (Z.lor b (Z.shiftl 1 p)) i = Z.testbit b i || (p =? i).
Proof.
  intros Hp Hi. rewrite Z.lor_spec, Z.shiftl_spec by done. f_equal.
  destruct (Z.eqb_spec p i) as [->|]; [by rewrite Z.sub_diag|].
  destruct (Z.lt_ge_cases i p); [by rewrite Z.testbit_neg_r by lia|].
  rewrite Z.bits_above_log2; [done|lia|simpl; lia].
Qed.

Lemma testbit_clr b p i : 0 <= p → 0 <= i →
  Z.testbit (Z.land b (Z.lnot (Z.shiftl 1 p))) i = Z.testbit b i && negb (p =? i).
Proof.
  intros Hp Hi. rewrite Z.land_spec, Z.lnot_spec, Z.shiftl_spec by done. f_equal. f_equal.
  destruct (Z.eqb_spec p i) as [->|]; [by rewrite Z.sub_diag|].
  destruct (Z.lt_ge_cases i p); [by rewrite Z.testbit_neg_r by lia|].
  rewrite Z.bits_above_log2; [done|lia|simpl; lia].
Qed.

Lemma land_bit b p : 0 <= p → negb (Z.land b (Z.shiftl 1 p) =? 0) = Z.testbit b p.
Proof.
  intros Hp. rewrite Z.shiftl_1_l. destruct (Z.testbit b p) eqn:Hb.
  - apply negb_true_iff, Z.eqb_neq. intros E.
    assert (Z.testbit (Z.land b (2 ^ p)) p = true) as Ht.
    { rewrite Z.land_spec, Hb, Z.pow2_bits_true by lia. done. }
    by rewrite E, Z.bits_0 in Ht.
  - apply negb_false_iff, Z.eqb_eq, Z.bits_inj'. intros n Hn.
    rewrite Z.land_spec, Z.pow2_bits_eqb, Z.bits_0 by lia.
    destruct (Z.eqb_spec p n) as [->|]; [by rewrite Hb|]. by rewrite andb_false_r.
Qed.

(** The bit scan: the first set bit from [pos], NUM_TSKPRI when there is none. *)
Lemma calc_top_spec b pos :
  0 <= pos <= NUM_TSKPRI →
  let r := knl_ready_queue_calc_top_priority b pos in
  pos <= r <= NUM_TSKPRI ∧ (∀ i, pos <= i < r → Z.testbit b i = false) ∧
  (r < NUM_TSKPRI → Z.testbit b r = true).
Proof.
  unfold knl_ready_queue_calc_top_priority. remember (Z.to_nat (NUM_TSKPRI - pos)) as n eqn:Hn.
  revert pos Hn. induction n as [|n IH]; intros pos Hn Hpos; simpl.
  - repeat split; [lia|lia| |lia]. intros; lia.
  - rewrite land_bit by lia. destruct (Z.ltb_spec pos NUM_TSKPRI).
    + destruct (Z.testbit b pos) eqn:Hb.
      * repeat split; [lia|lia| |done]. intros; lia.
      * destruct (IH (pos + 1)) as (? & Hlo & ?); [lia|lia|].
        repeat split; [lia|lia| |done]. intros i Hi.
        destruct (decide (i = pos)) as [->|]; [done|]. apply Hlo. lia.
    + repeat split; [lia|lia| |lia]. intros; lia.
Qed.
