(* ===== verification/KInv.v ===== *)
(** * The scheduler invariant

    [kinvx b x s Q]: the links of [s] are the rings [Q], the ready queue, its bitmap
    and its top priority agree with the task states, so does [knl_schedtsk] when [b]
    is true, and every task other than the one in hand ([x]) is linked where its state
    says.  [kinv] is [kinvx true None].  The operations of the kernel take one task out of its place,
    change it and put it back; their lemmas go from [kinv] to [kinvx b (Some t)]
    and back.

    The invariant is the one of a kernel in which no object lock is held (no task is
    in [klocked] or [klockwait]); Klock.v says what holds while one is. *)
From S2P Require Import Prelude Config Queue Kernel ReadyQueue.

(** ** Where a task is linked *)

Definition waiting (tc : TCB) : bool := has (t_state tc) TS_WAIT.

(** The head of the wait queue a wait specification and a wait object name: the
    queue of the object, or the task's own node for a wait on no object. *)
Definition wait_home (w : wspec) (wid : Z) (t : Z) : node :=
  match w with
  | knl_wspec_slp | knl_wspec_dly => TSKQ t
  | knl_wspec_sem_tfifo | knl_wspec_sem_tpri => SEMQ (INDEX_SEM wid)
  | knl_wspec_flg_tfifo | knl_wspec_flg_tpri => FLGQ (INDEX_FLG wid)
  | knl_wspec_mbx_tfifo | knl_wspec_mbx_tpri => MBXQ (INDEX_MBX wid)
  | knl_wspec_smbf_tfifo | knl_wspec_smbf_tpri => SMBFQ (INDEX_MBF wid)
  | knl_wspec_rmbf => RMBFQ (INDEX_MBF wid)
  | knl_wspec_cal_tfifo | knl_wspec_cal_tpri => CALQ (INDEX_POR wid)
  | knl_wspec_acp => ACPQ (INDEX_POR wid)
  | knl_wspec_rdv => TSKQ t
  | knl_wspec_mpl_tfifo | knl_wspec_mpl_tpri => MPLQ (INDEX_MPL wid)
  | knl_wspec_mpf_tfifo | knl_wspec_mpf_tpri => MPFQ (INDEX_MPF wid)
  | knl_wspec_mtx_tfifo | knl_wspec_mtx_tpri | knl_wspec_mtx_inherit => MTXQ (INDEX_MTX wid)
  end.

(** The number of blocks of a kind; the nodes of a kind with a smaller index exist. *)
Definition kind_num (k : kind) : Z :=
  match k with
  | KTsk | KTmebTsk => NUM_TSKID
  | KTmebCyc | KCyc => NUM_CYCID
  | KTmebAlm | KAlm => NUM_ALMID
  | KSem => NUM_SEMID | KFlg => NUM_FLGID | KMbx => NUM_MBXID | KMtx => NUM_MTXID
  | KSmbf | KRmbf => NUM_MBFID | KMpf | KLock => NUM_MPFID
  | KMpl => NUM_MPLID | KCal | KAcp => NUM_PORID
  | KRdy => NUM_TSKPRI
  | _ => 0
  end.

Definition idx_ok (x : node) : bool := (0 <=? nd_idx x) && (nd_idx x <? kind_num (nd_kind x)).

(** Entries outside the table count as not in use and linked nowhere. *)
Definition home (tc : TCB) (t : Z) : option node :=
  if t_state tc =? TS_READY then Some (RDYQ (t_priority tc))
  else if t_state tc =? TS_NONEXIST then (if idx_ok (TSKQ t) then Some FREE_TCB else None)
  else if waiting tc then Some (wait_home (t_wspec tc) (t_wid tc) t)
  else None.

Definition placed (Q : gmap node (list node)) (e : node) (h : option node) : Prop :=
  match h with Some h => in_ring Q e h | None => unplaced Q e end.

(** The timer event of a task: queued or in a ring of its own while it waits. *)
Definition tmeb_placed (Q : gmap node (list node)) (tc : TCB) (t : Z) : Prop :=
  if waiting tc then in_ring Q (TMEBT t) TIMERQ ∨ in_ring Q (TMEBT t) (TMEBT t)
  else unplaced Q (TMEBT t).

(** ** Which nodes a ring may hold *)

(** The kinds of nodes a queue of some kind holds. *)
Definition kind_ok (h x : node) : bool :=
  match nd_kind h, nd_kind x with
  | (KRdy | KSem | KFlg | KMbx | KMtx | KSmbf | KRmbf | KMpf | KMpl | KCal | KAcp
    | KLock | KFreeTcb), KTsk => true
  | KTimer, (KTmebTsk | KTmebCyc | KTmebAlm) => true
  | KFreeSem, KSem | KFreeFlg, KFlg | KFreeMbx, KMbx | KFreeMtx, KMtx | KFreeMbf, KSmbf
  | KFreeMpf, KMpf | KFreeMpl, KMpl | KFreePor, KCal | KFreeCyc, KCyc | KFreeAlm, KAlm => true
  | _, _ => false
  end.

Definition elem_ok (h x : node) : bool := kind_ok h x && idx_ok x.

Definition perm_head (h : node) : Prop :=
  (nd_kind h = KRdy ∧ 0 <= nd_idx h < NUM_TSKPRI) ∨ h = TIMERQ ∨ h = FREE_TCB.

(** ** The fields of a TCB *)

Record task_ok (tc : TCB) (t : Z) : Prop := {
  tk_state : t_state tc ∈ [TS_NONEXIST; TS_READY; TS_WAIT; TS_SUSPEND; TS_WAITSUS; TS_DORMANT];
  tk_range : t_state tc ≠ TS_NONEXIST → 0 <= t < NUM_TSKID;
  tk_tskid : 0 <= t < NUM_TSKID → t_tskid tc = ID_TSK t;
  tk_pri : t_state tc ≠ TS_NONEXIST → 0 <= t_priority tc < NUM_TSKPRI;
  tk_bpri : t_state tc ≠ TS_NONEXIST → 0 <= t_bpriority tc < NUM_TSKPRI;
  tk_ipri : t_state tc ≠ TS_NONEXIST → 0 <= t_ipriority tc < NUM_TSKPRI;
  tk_klock : t_klockwait tc = false ∧ t_klocked tc = false;
  tk_wercd : waiting tc = true → t_wercd tc = Some t;
  tk_wup : t_state tc ≠ TS_NONEXIST → 0 <= t_wupcnt tc <= INT_MAX;
  tk_sus : t_state tc ≠ TS_NONEXIST → 0 <= t_suscnt tc <= INT_MAX;
  tk_sus_iff : t_state tc ≠ TS_NONEXIST →
    (0 < t_suscnt tc ↔ t_state tc = TS_SUSPEND ∨ t_state tc = TS_WAITSUS)
}.

(** ** The ready queue *)

(** The first task of the queue of priority [top]. *)
Definition rdy_head (Q : gmap node (list node)) (top : Z) : option Z :=
  if top =? NUM_TSKPRI then None else Q !! RDYQ top ≫= λ l, as_tcb <$> head l.

Record rdy_ok (rq : RDYQUE) (Q : gmap node (list node)) : Prop := {
  ro_bit : ∀ p, 0 <= p < NUM_TSKPRI → Z.testbit (bitmap rq) p = true ↔ Q !! RDYQ p ≠ Some [];
  ro_top : 0 <= top_priority rq <= NUM_TSKPRI;
  ro_below : ∀ p, 0 <= p < top_priority rq → Q !! RDYQ p = Some [];
  ro_at : top_priority rq < NUM_TSKPRI → Q !! RDYQ (top_priority rq) ≠ Some [];
  ro_klock : klocktsk rq = None
}.

(** ** The invariant *)

Record kinvx (b : bool) (x : option Z) (s : SCH) (Q : gmap node (list node)) : Prop := {
  ki_qwf : qwf (s_q s) Q;
  ki_typed : ∀ h l y, Q !! h = Some l → y ∈ l → elem_ok h y = true;
  ki_heads : ∀ h, perm_head h → is_Some (Q !! h);
  ki_rdy : rdy_ok (s_rq s) Q;
  ki_sched : b = true → s_schedtsk s = rdy_head Q (top_priority (s_rq s));
  ki_home : ∀ t, x ≠ Some t → placed Q (TSKQ t) (home (s_tcb s t) t);
  ki_tmeb : ∀ t, x ≠ Some t → tmeb_placed Q (s_tcb s t) t;
  ki_task : ∀ t, x ≠ Some t → task_ok (s_tcb s t) t
}.

Abbreviation kinv := (kinvx true None).

(** Nodes that belong to the task in hand, or to no task. *)
Definition loose (x : option Z) (e : node) : Prop :=
  ∀ t, e = TSKQ t ∨ e = TMEBT t → x = Some t.

(** ** Rings and positions *)

Implicit Types (Q : gmap node (list node)) (e h : node) (l : list node).

Lemma in_ring_insert_ne Q (h e x h' : node) l l' :
  Q !! h = Some l → (∀ y, y ≠ e → y ∈ l' ↔ y ∈ l) → x ≠ e →
  in_ring (<[h:=l']> Q) x h' ↔ in_ring Q x h'.
Proof.
  intros HQ Hl Hne. rewrite in_ring_insert. destruct (decide (h' = h)) as [->|].
  - unfold in_ring. rewrite HQ. setoid_rewrite elem_of_cons. split.
    + intros [[_ [->|Hx]]|[? _]]; [exists l; by split; [|left]| |done].
      exists l. split; [done|]. right. by apply Hl.
    + intros (? & [= <-] & [->|Hx]); left; (split; [done|]); [by left|right; by apply Hl].
  - naive_solver.
Qed.

Lemma in_ring_init_ne Q (e x h' : node) :
  Q !! e = None → x ≠ e → in_ring (<[e:=[]]> Q) x h' ↔ in_ring Q x h'.
Proof.
  intros HQ Hne. rewrite in_ring_insert. split; [|intros Hin; right; split; [|done]].
  - intros [[_ ?]|[_ ?]]; [set_solver|done].
  - intros ->. destruct Hin as (l & ? & _). congruence.
Qed.

Lemma in_ring_drop_ne Q (e x h' : node) :
  Q !! e = Some [] → x ≠ e → in_ring (delete e Q) x h' ↔ in_ring Q x h'.
Proof.
  intros HQ Hne. rewrite in_ring_delete. split; [naive_solver|]. intros Hin. split; [|done].
  intros ->. destruct Hin as (l & Hl & Hx). rewrite HQ in Hl. simplify_eq. set_solver.
Qed.

Lemma unplaced_lookup Q e : unplaced Q e → Q !! e = None.
Proof.
  intros He. destruct (Q !! e) as [l|] eqn:E; [|done]. exfalso. apply (He e). exists l.
  split; [done|left].
Qed.

(** Changes of the rings that move no node but [e]. *)
Definition moves (e : node) (Q Q' : gmap node (list node)) : Prop :=
  ∀ x h, x ≠ e → in_ring Q' x h ↔ in_ring Q x h.

Lemma placed_moves e Q Q' x (oh : option node) :
  moves e Q Q' → x ≠ e → placed Q x oh → placed Q' x oh.
Proof.
  unfold moves. intros Hm Hne. destruct oh as [h|]; simpl.
  - by apply Hm.
  - intros Hu h. rewrite Hm by done. apply Hu.
Qed.

Lemma tmeb_placed_moves e Q Q' tc t :
  moves e Q Q' → TMEBT t ≠ e → tmeb_placed Q tc t → tmeb_placed Q' tc t.
Proof.
  unfold moves. intros Hm Hne. unfold tmeb_placed. destruct (waiting tc).
  - by rewrite !Hm by done.
  - intros Hu h. rewrite Hm by done. apply Hu.
Qed.

Lemma rdy_ok_frame rq Q Q' :
  (∀ p, 0 <= p < NUM_TSKPRI → Q' !! RDYQ p = Q !! RDYQ p) → rdy_ok rq Q → rdy_ok rq Q'.
Proof.
  intros Hf []. constructor; try done.
  - intros. by rewrite Hf by done; auto.
  - intros. rewrite Hf by lia. auto.
  - intros. rewrite Hf by lia. auto.
Qed.

Lemma rdy_head_frame Q Q' top :
  (∀ p, 0 <= p < NUM_TSKPRI → Q' !! RDYQ p = Q !! RDYQ p) → 0 <= top <= NUM_TSKPRI →
  rdy_head Q' top = rdy_head Q top.
Proof.
  intros Hf Ht. unfold rdy_head. destruct (Z.eqb_spec top NUM_TSKPRI); [done|]. by rewrite Hf by lia.
Qed.

Section rings_of_state.
Context (b : bool) (x : option Z) (s : SCH) (Q : gmap node (list node)).
Hypothesis Hk : kinvx b x s Q.

(** A change of the links and rings outside the ready queues that moves one node of
    the task in hand or of an object. *)
Lemma kinvx_relink (m' : qmem node) (Q' : gmap node (list node)) (e : node) :
  loose x e → qwf m' Q' → moves e Q Q' →
  (∀ h l y, Q' !! h = Some l → y ∈ l → elem_ok h y = true) →
  (∀ h, perm_head h → is_Some (Q' !! h)) →
  (∀ p, 0 <= p < NUM_TSKPRI → Q' !! RDYQ p = Q !! RDYQ p) →
  kinvx b x (set_s_q m' s) Q'.
Proof.
  intros Hx Hw Hm Hty Hh Hr. destruct Hk. constructor; simpl; try done.
  - by eapply rdy_ok_frame.
  - intros Hb. rewrite (rdy_head_frame Q Q' _ Hr); [auto|]. by destruct ki_rdy0.
  - intros t Ht. eapply placed_moves; [done| |auto]. intros <-. apply Ht, Hx. by left.
  - intros t Ht. eapply tmeb_placed_moves; [done| |auto]. intros <-. apply Ht, Hx. by right.
Qed.

Lemma kinvx_elem h l y : Q !! h = Some l → y ∈ l → elem_ok h y = true.
Proof. apply (ki_typed _ _ _ _ Hk). Qed.

Lemma kinvx_remove h l1 e l2 :
  loose x e → nd_kind h ≠ KRdy → Q !! h = Some (l1 ++ e :: l2) →
  kinvx b x (upd_q (QueRemove e) s) (<[h := l1 ++ l2]> Q) ∧ unplaced (<[h := l1 ++ l2]> Q) e.
Proof.
  intros Hx Hh HQ. pose proof (ki_qwf _ _ _ _ Hk) as Hw. split; [|by eapply qwf_remove_unplaced].
  apply (kinvx_relink _ _ e); [done|by eapply qwf_remove|..].
  - intros y h' Hne. eapply in_ring_insert_ne; [done|set_solver|done].
  - intros h' l y. destruct (decide (h' = h)) as [->|].
    + rewrite lookup_insert_eq. intros [= <-] ?. eapply kinvx_elem; [done|set_solver].
    + rewrite lookup_insert_ne by done. apply kinvx_elem.
  - intros h' Hp. destruct (decide (h' = h)) as [->|].
    + rewrite lookup_insert_eq. done.
    + rewrite lookup_insert_ne by done. by apply (ki_heads _ _ _ _ Hk).
  - intros p _. rewrite lookup_insert_ne; [done|]. intros ->. done.
Qed.

Lemma kinvx_insert h l1 l2 e :
  loose x e → nd_kind h ≠ KRdy → Q !! h = Some (l1 ++ l2) → unplaced Q e → elem_ok h e = true →
  kinvx b x (upd_q (QueInsert e (hd h l2)) s) (<[h := l1 ++ e :: l2]> Q).
Proof.
  intros Hx Hh HQ He Hty. pose proof (ki_qwf _ _ _ _ Hk) as Hw.
  apply (kinvx_relink _ _ e); [done|by eapply qwf_insert|..].
  - intros y h' Hne. eapply in_ring_insert_ne; [done|set_solver|done].
  - intros h' l y. destruct (decide (h' = h)) as [->|].
    + rewrite lookup_insert_eq. intros [= <-] Hy.
      assert (y = e ∨ y ∈ l1 ++ l2) as [->|?] by set_solver; [done|]. by eapply kinvx_elem.
    + rewrite lookup_insert_ne by done. apply kinvx_elem.
  - intros h' Hp. destruct (decide (h' = h)) as [->|].
    + rewrite lookup_insert_eq. done.
    + rewrite lookup_insert_ne by done. by apply (ki_heads _ _ _ _ Hk).
  - intros p _. rewrite lookup_insert_ne; [done|]. intros ->. done.
Qed.

Lemma kinvx_QueInit e :
  loose x e → nd_kind e ≠ KRdy → unplaced Q e → kinvx b x (upd_q (QueInit e) s) (<[e := []]> Q).
Proof.
  intros Hx Hh He. pose proof (unplaced_lookup _ _ He) as HN.
  apply (kinvx_relink _ _ e); [done|by apply qwf_init, He; apply (ki_qwf _ _ _ _ Hk)|..].
  - intros y h' Hne. by eapply in_ring_init_ne.
  - intros h' l y. destruct (decide (h' = e)) as [->|].
    + rewrite lookup_insert_eq. intros [= <-]. set_solver.
    + rewrite lookup_insert_ne by done. apply kinvx_elem.
  - intros h' Hp. destruct (decide (h' = e)) as [->|].
    + rewrite lookup_insert_eq. done.
    + rewrite lookup_insert_ne by done. by apply (ki_heads _ _ _ _ Hk).
  - intros p _. rewrite lookup_insert_ne; [done|]. intros ->. done.
Qed.

(** Forgetting an empty ring; its head becomes a loose node. *)
Lemma kinvx_drop e :
  loose x e → ¬ perm_head e → nd_kind e ≠ KRdy → Q !! e = Some [] →
  kinvx b x s (delete e Q) ∧ unplaced (delete e Q) e.
Proof.
  intros Hx Hp Hh HQ. pose proof (ki_qwf _ _ _ _ Hk) as Hw. split; [|by eapply qwf_drop_unplaced].
  replace s with (set_s_q (s_q s) s) by (by destruct s).
  apply (kinvx_relink _ _ e); [done|by apply qwf_drop|..].
  - intros y h' Hne. by eapply in_ring_drop_ne.
  - intros h' l y [_ ?]%lookup_delete_Some. by apply kinvx_elem.
  - intros h' Hp'. rewrite lookup_delete_ne; [by apply (ki_heads _ _ _ _ Hk)|]. by intros <-.
  - intros p _. rewrite lookup_delete_ne; [done|]. intros ->. done.
Qed.

(** Removing a node from a ring of its own is no work. *)
Lemma kinvx_remove_self e :
  loose x e → ¬ perm_head e → nd_kind e ≠ KRdy → Q !! e = Some [] →
  kinvx b x (upd_q (QueRemove e) s) (delete e Q) ∧ unplaced (delete e Q) e.
Proof.
  intros Hx Hp Hh HQ. unfold upd_q.
  rewrite (QueRemove_self _ _ _ (ki_qwf _ _ _ _ Hk) HQ).
  replace (set_s_q (s_q s) s) with s by (by destruct s). by apply kinvx_drop.
Qed.
End rings_of_state.

(** ** The task in hand *)

Lemma kinvx_take b t s Q : kinvx b None s Q → kinvx b (Some t) s Q.
Proof. intros []. by constructor; auto. Qed.

Lemma kinvx_put b t s Q :
  kinvx b (Some t) s Q → placed Q (TSKQ t) (home (s_tcb s t) t) → tmeb_placed Q (s_tcb s t) t →
  task_ok (s_tcb s t) t → kinvx b None s Q.
Proof.
  intros [] Hh Ht Hok. constructor; try done; intros t' _;
    destruct (decide (t = t')) as [<-|]; auto; (first [apply ki_home0|apply ki_tmeb0|apply ki_task0]); congruence.
Qed.

Lemma kinvx_upd_tcb b t f s Q : kinvx b (Some t) s Q → kinvx b (Some t) (upd_tcb t f s) Q.
Proof.
  intros []. constructor; simpl; try done; intros t' Ht; rewrite fn_lookup_insert_ne by congruence; auto.
Qed.

(** A change of fields the place of the task does not depend on. *)
Lemma kinv_upd_tcb b x t f s Q :
  kinvx b x s Q → home (f (s_tcb s t)) t = home (s_tcb s t) t →
  waiting (f (s_tcb s t)) = waiting (s_tcb s t) → (task_ok (s_tcb s t) t → task_ok (f (s_tcb s t)) t) →
  kinvx b x (upd_tcb t f s) Q.
Proof.
  intros [] Hh Hw Hok. constructor; simpl; try done; intros t' Ht; upd_case t t'; auto.
  - rewrite Hh. auto.
  - unfold tmeb_placed. rewrite Hw. by apply ki_tmeb0.
Qed.

(** The parts of the state the invariant does not read. *)
Lemma kinvx_ext b x s s' Q :
  s_q s' = s_q s → s_tcb s' = s_tcb s → s_rq s' = s_rq s → s_schedtsk s' = s_schedtsk s →
  kinvx b x s Q → kinvx b x s' Q.
Proof. intros E1 E2 E3 E4 []. constructor; rewrite ?E1, ?E2, ?E3, ?E4; done. Qed.

Lemma loose_tskq t : loose (Some t) (TSKQ t).
Proof. intros t' [[= ->]|[=]]. done. Qed.
Lemma loose_tmebt t : loose (Some t) (TMEBT t).
Proof. intros t' [[=]|[= ->]]. done. Qed.
Lemma loose_other x e : nd_kind e ≠ KTsk → nd_kind e ≠ KTmebTsk → loose x e.
Proof. intros ?? t [->| ->]; done. Qed.

Create HintDb kinv.
#[export] Hint Resolve loose_tskq loose_tmebt loose_other : kinv.

(** ** Reading places *)

Lemma ring_self_nil b x s Q e l :
  kinvx b x s Q → Q !! e = Some l → (nd_kind e = KTsk ∨ nd_kind e = KTmebTsk) → l = [].
Proof.
  intros Hk HQ Hke. destruct l as [|y l]; [done|].
  pose proof (ki_typed _ _ _ _ Hk _ _ y HQ ltac:(left)) as Hty.
  apply andb_prop in Hty as [Hty _]. unfold kind_ok in Hty. destruct Hke as [E|E]; by rewrite E in Hty.
Qed.

Lemma kinv_rdyq b x s Q p : kinvx b x s Q → 0 <= p < NUM_TSKPRI → ∃ l, Q !! RDYQ p = Some l.
Proof. intros Hk Hp. apply (ki_heads _ _ _ _ Hk). by left. Qed.

Lemma elem_ok_tsk h y :
  elem_ok h y = true →
  nd_kind h ∈ [KRdy; KSem; KFlg; KMbx; KMtx; KSmbf; KRmbf; KMpf; KMpl; KCal; KAcp; KLock; KFreeTcb] → y = TSKQ (nd_idx y).
Proof.
  intros [Hty _]%andb_prop Hin. destruct h as [hk hi], y as [yk yi]. simpl in *. f_equal.
  unfold kind_ok in Hty; simpl in Hty.
  repeat (apply elem_of_cons in Hin as [->|Hin]; [by destruct yk|]). set_solver.
Qed.

(** ** Queues are short

    A queue holds different nodes of the kinds that fit it, so its length is bounded
    by the number of control blocks. *)

Definition nodes_of (k : kind) : list node := Nd k <$> seqZ 0 (kind_num k).

Lemma elem_of_nodes_of x : idx_ok x = true → x ∈ nodes_of (nd_kind x).
Proof.
  intros [?%Z.leb_le ?%Z.ltb_lt]%andb_prop. apply list_elem_of_fmap. exists (nd_idx x).
  split; [by destruct x|]. apply elem_of_seqZ. lia.
Qed.

Lemma length_nodes_of k : length (nodes_of k) = Z.to_nat (kind_num k).
Proof. unfold nodes_of. by rewrite length_fmap, length_seqZ. Qed.

Lemma NoDup_length_nodes (ks : list kind) l :
  NoDup l → (∀ y, y ∈ l → nd_kind y ∈ ks ∧ idx_ok y = true) →
  (length l ≤ sum_list_with (λ k, Z.to_nat (kind_num k)) ks)%nat.
Proof.
  intros Hnd Hl. assert (l ⊆ (ks ≫= nodes_of)) as Hsub.
  { intros y [??]%Hl. apply list_elem_of_bind. exists (nd_kind y). split; [by apply elem_of_nodes_of|done]. }
  etrans; [by apply submseteq_length, NoDup_submseteq|].
  clear. induction ks as [|k ks IH]; [done|].
  rewrite bind_cons, length_app, length_nodes_of.
  set (f := λ k, Z.to_nat (kind_num k)) in *. change (sum_list_with f (k :: ks)) with (f k + sum_list_with f ks)%nat.
  unfold f at 1. lia.
Qed.

Section queue_length.
Context (b : bool) (x : option Z) (s : SCH) (Q : gmap node (list node)).
Hypothesis Hk : kinvx b x s Q.

(** A queue of tasks. *)
Lemma kinvx_length_tsk h l :
  Q !! h = Some l → nd_kind h ∈ [KRdy; KSem; KFlg; KMbx; KMtx; KSmbf; KRmbf; KMpf; KMpl; KCal; KAcp; KLock; KFreeTcb] →
  (length l ≤ Z.to_nat NUM_TSKID)%nat.
Proof.
  intros HQ Hh. etrans; [apply (NoDup_length_nodes [KTsk])|done].
  - eapply qwf_NoDup; [apply Hk|done].
  - intros y Hy. pose proof (ki_typed _ _ _ _ Hk _ _ _ HQ Hy) as Hty.
    rewrite (elem_ok_tsk _ _ Hty Hh) at 1. split; [left|]. by apply andb_prop in Hty as [_ ?].
Qed.

(** The timer queue. *)
Lemma kinvx_length_timer l :
  Q !! TIMERQ = Some l → (length l ≤ Z.to_nat (NUM_TSKID + NUM_CYCID + NUM_ALMID))%nat.
Proof.
  intros HQ. etrans; [apply (NoDup_length_nodes [KTmebTsk; KTmebCyc; KTmebAlm])|done].
  - eapply qwf_NoDup; [apply Hk|done].
  - intros y Hy. pose proof (ki_typed _ _ _ _ Hk _ _ _ HQ Hy) as [Hty ?]%andb_prop. split; [|done].
    unfold kind_ok in Hty. simpl in Hty. destruct (nd_kind y); try done; rewrite !elem_of_cons; auto.
Qed.
End queue_length.

Lemma idx_ok_task k t : kind_num k = NUM_TSKID → 0 <= t < NUM_TSKID → idx_ok (Nd k t) = true.
Proof.
  intros E [??]. unfold idx_ok. simpl. rewrite E.
  apply andb_true_intro. split; [by apply Z.leb_le|by apply Z.ltb_lt].
Qed.

(** A task in a queue has a valid index. *)
Lemma kinvx_elem_range b x s Q h l t :
  kinvx b x s Q → Q !! h = Some l → TSKQ t ∈ l → 0 <= t < NUM_TSKID.
Proof.
  intros Hk HQ Hin. pose proof (ki_typed _ _ _ _ Hk _ _ _ HQ Hin) as [_ Hi]%andb_prop.
  apply andb_prop in Hi as [?%Z.leb_le ?%Z.ltb_lt]. done.
Qed.

(** ** Ordered insertion *)

(** The kernel's ordered insertion: walk from the head to the first node that stops
    the walk and insert in front of it. *)
Lemma kinvx_que_insert b x s Q stop fuel h l e :
  kinvx b x s Q → loose x e → nd_kind h ≠ KRdy → Q !! h = Some l → unplaced Q e →
  elem_ok h e = true → (length l ≤ fuel)%nat →
  kinvx b x (upd_q (QueInsert e (que_find stop fuel (s_q s) h (qnext (s_q s) h))) s)
    (<[h := ins_before stop e l]> Q).
Proof.
  intros Hk Hx Hh HQ He Hty Hf. destruct (ins_before_split stop e l) as (l1 & l2 & -> & -> & Hl1 & Hl2).
  pose proof (ki_qwf _ _ _ _ Hk) as Hw. rewrite (qwf_head _ _ _ _ Hw HQ).
  rewrite (que_find_ring stop fuel _ Q h [] l1 l2 Hw HQ Hl1 Hl2 Hf). by apply kinvx_insert.
Qed.

(** The heads of the queues tasks wait in. *)
Definition wait_head (h : node) : bool :=
  match nd_kind h with KSem | KFlg | KMbx | KMtx | KSmbf | KRmbf | KMpf | KMpl | KCal | KAcp => true | _ => false end.

(** The heads of the object queues and free lists. *)
Definition obj_head (h : node) : bool :=
  match nd_kind h with KTsk | KTmebTsk | KTimer | KRdy => false | _ => true end.

Lemma wait_head_obj h : wait_head h = true → obj_head h = true.
Proof. unfold wait_head, obj_head. by destruct (nd_kind h). Qed.

Lemma wait_head_kinds h : wait_head h = true →
  nd_kind h ∈ [KRdy; KSem; KFlg; KMbx; KMtx; KSmbf; KRmbf; KMpf; KMpl; KCal; KAcp; KLock; KFreeTcb].
Proof. unfold wait_head. destruct (nd_kind h); try done; rewrite !elem_of_cons; auto 15. Qed.

(** The members of a wait queue are the tasks that wait there. *)
Lemma kinv_in_wait_queue b s Q h l y :
  kinvx b None s Q → wait_head h = true → Q !! h = Some l → y ∈ l →
  ∃ t, y = TSKQ t ∧ waiting (s_tcb s t) = true ∧
    wait_home (t_wspec (s_tcb s t)) (t_wid (s_tcb s t)) t = h.
Proof.
  intros Hk Hh HQ Hin. pose proof (ki_typed _ _ _ _ Hk _ _ _ HQ Hin) as Hty.
  rewrite (elem_ok_tsk _ _ Hty (wait_head_kinds _ Hh)) in Hin |- *. set (t := nd_idx y) in *.
  exists t. split; [done|]. pose proof (ki_home _ _ _ _ Hk t ltac:(done)) as Hp.
  assert (in_ring Q (TSKQ t) h) as Hr by (exists l; split; [done|by right]).
  assert (∀ h', in_ring Q (TSKQ t) h' → h' = h) as Huniq
    by (intros h' ?; eapply qwf_disjoint; [apply Hk|done|done]).
  unfold home in Hp. repeat case_match; simpl in Hp;
    first [by apply Huniq in Hp as <-|split; [done|by apply Huniq]|by apply Hp in Hr].
Qed.
