(* ===== verification/KCheck.v ===== *)
(** * Checking the scheduler invariant on concrete states

    [kinv_check] decides [kinv] for a state whose table entries outside the task table
    are unused; [kinv_check_sound] is what the examples of the development use to
    show that their states satisfy the invariant. *)
From S2P Require Import Prelude Config Queue Kernel ReadyQueue KInv.

Lemma NoDup_bind_disjoint {A B : Type} (f : A → list B) (l : list A) a a' x :
  NoDup (l ≫= f) → a ∈ l → a' ∈ l → x ∈ f a → x ∈ f a' → a = a'.
Proof.
  induction l as [|b l IH]; [set_solver|]. rewrite bind_cons. intros (Hn1 & Hd & Hn2)%NoDup_app.
  intros [->|Ha]%elem_of_cons [->|Ha']%elem_of_cons Hx Hx'; [done|..|by apply IH].
  - exfalso. apply (Hd x Hx). apply list_elem_of_bind. by exists a'.
  - exfalso. apply (Hd x Hx'). apply list_elem_of_bind. by exists a.
Qed.

Section rings.
Context `{Countable A}.

Definition in_ring_b (Q : gmap A (list A)) (x h : A) : bool :=
  match Q !! h with Some l => bool_decide (x ∈ h :: l) | None => false end.

Definition unplaced_b (Q : gmap A (list A)) (x : A) : bool :=
  forallb (λ p, negb (bool_decide (x ∈ p.1 :: p.2))) (map_to_list Q).

Fixpoint lnk_b (m : qmem A) (l : list A) : bool :=
  match l with
  | x :: ((y :: _) as l') => bool_decide (qnext m x = y) && bool_decide (qprev m y = x) && lnk_b m l'
  | _ => true
  end.

Definition qwf_b (m : qmem A) (Q : gmap A (list A)) : bool :=
  forallb (λ p, bool_decide (NoDup (p.1 :: p.2)) && lnk_b m (p.1 :: p.2 ++ [p.1])) (map_to_list Q) &&
  bool_decide (NoDup (map_to_list Q ≫= λ p, p.1 :: p.2)).

Lemma in_ring_b_spec Q x h : in_ring_b Q x h = true → in_ring Q x h.
Proof.
  unfold in_ring_b, in_ring. destruct (Q !! h) as [l|]; [|done]. intros ?%bool_decide_eq_true. by exists l.
Qed.

Lemma unplaced_b_spec Q x : unplaced_b Q x = true → unplaced Q x.
Proof.
  intros Hu h (l & HQ & Hin). unfold unplaced_b in Hu. rewrite forallb_forall in Hu.
  specialize (Hu (h, l)). rewrite <- list_elem_of_In, elem_of_map_to_list in Hu.
  specialize (Hu HQ). apply negb_true_iff, bool_decide_eq_false in Hu. done.
Qed.

Lemma lnk_b_spec m l : lnk_b m l = true → lnk m l.
Proof.
  induction l as [|x [|y l] IH]; [done..|]. simpl lnk_b. intros [[?%bool_decide_eq_true ?%bool_decide_eq_true]%andb_prop ?]%andb_prop.
  simpl lnk. split_and!; [done|done|by apply IH].
Qed.

Lemma qwf_b_spec m Q : qwf_b m Q = true → qwf m Q.
Proof.
  intros [Hr Hd%bool_decide_eq_true]%andb_prop. rewrite forallb_forall in Hr. split.
  - intros h l HQ. specialize (Hr (h, l)). rewrite <- list_elem_of_In, elem_of_map_to_list in Hr.
    specialize (Hr HQ). apply andb_prop in Hr as [?%bool_decide_eq_true ?%lnk_b_spec]. done.
  - intros h h' x (l & HQ & Hin) (l' & HQ' & Hin').
    assert ((h, l) = (h', l')) as [= -> _]; [|done].
    eapply (NoDup_bind_disjoint (λ p, p.1 :: p.2)); [exact Hd|by apply elem_of_map_to_list..|exact Hin|exact Hin'].
Qed.
End rings.

Definition placed_b (Q : gmap node (list node)) (e : node) (h : option node) : bool :=
  match h with Some h => in_ring_b Q e h | None => unplaced_b Q e end.

Lemma placed_b_spec Q e oh : placed_b Q e oh = true → placed Q e oh.
Proof. destruct oh; [apply in_ring_b_spec|apply unplaced_b_spec]. Qed.

Definition tmeb_placed_b (Q : gmap node (list node)) (tc : TCB) (t : Z) : bool :=
  if waiting tc then in_ring_b Q (TMEBT t) TIMERQ || in_ring_b Q (TMEBT t) (TMEBT t)
  else unplaced_b Q (TMEBT t).

Definition in_range (lo x hi : Z) : bool := (lo <=? x) && (x <=? hi).

Definition task_ok_b (tc : TCB) (t : Z) : bool :=
  let used := negb (t_state tc =? TS_NONEXIST) in
  bool_decide (t_state tc ∈ [TS_NONEXIST; TS_READY; TS_WAIT; TS_SUSPEND; TS_WAITSUS; TS_DORMANT]) &&
  (t_tskid tc =? ID_TSK t) && negb (t_klockwait tc) && negb (t_klocked tc) &&
  implb used
    (in_range 0 (t_priority tc) (NUM_TSKPRI - 1) && in_range 0 (t_bpriority tc) (NUM_TSKPRI - 1) &&
     in_range 0 (t_ipriority tc) (NUM_TSKPRI - 1) && in_range 0 (t_wupcnt tc) INT_MAX &&
     in_range 0 (t_suscnt tc) INT_MAX &&
     Bool.eqb (0 <? t_suscnt tc) ((t_state tc =? TS_SUSPEND) || (t_state tc =? TS_WAITSUS))) &&
  implb (waiting tc) (bool_decide (t_wercd tc = Some t)).

Definition rdy_ok_b (rq : RDYQUE) (Q : gmap node (list node)) : bool :=
  forallb (λ p, Bool.eqb (Z.testbit (bitmap rq) p) (negb (bool_decide (Q !! RDYQ p = Some [])))) (seqZ 0 NUM_TSKPRI) &&
  in_range 0 (top_priority rq) NUM_TSKPRI &&
  forallb (λ p, bool_decide (Q !! RDYQ p = Some [])) (seqZ 0 (top_priority rq)) &&
  ((top_priority rq =? NUM_TSKPRI) || negb (bool_decide (Q !! RDYQ (top_priority rq) = Some []))) &&
  bool_decide (klocktsk rq = None).

Definition kinv_check (s : SCH) (Q : gmap node (list node)) : bool :=
  qwf_b (s_q s) Q &&
  forallb (λ p, forallb (elem_ok p.1) p.2 && (idx_ok p.1 || negb (bool_decide (nd_kind p.1 ∈ [KTsk; KTmebTsk]))))
    (map_to_list Q) &&
  forallb (λ h, bool_decide (is_Some (Q !! h))) (TIMERQ :: FREE_TCB :: (RDYQ <$> seqZ 0 NUM_TSKPRI)) &&
  rdy_ok_b (s_rq s) Q && bool_decide (s_schedtsk s = rdy_head Q (top_priority (s_rq s))) &&
  forallb (λ t, placed_b Q (TSKQ t) (home (s_tcb s t) t) && tmeb_placed_b Q (s_tcb s t) t &&
                task_ok_b (s_tcb s t) t) (seqZ 0 NUM_TSKID).

Lemma in_range_spec lo x hi : in_range lo x hi = true → lo <= x <= hi.
Proof. by intros [?%Z.leb_le ?%Z.leb_le]%andb_prop. Qed.

Lemma task_ok_b_spec tc t : 0 <= t < NUM_TSKID → task_ok_b tc t = true → task_ok tc t.
Proof.
  intros Ht. unfold task_ok_b. intros [[[[[Hst%bool_decide_eq_true Hid%Z.eqb_eq]%andb_prop Hk%negb_true_iff]%andb_prop
    Hl%negb_true_iff]%andb_prop Hu]%andb_prop Hw]%andb_prop.
  assert (t_state tc ≠ TS_NONEXIST → 0 <= t_priority tc <= NUM_TSKPRI - 1 ∧ 0 <= t_bpriority tc <= NUM_TSKPRI - 1 ∧
    0 <= t_ipriority tc <= NUM_TSKPRI - 1 ∧ 0 <= t_wupcnt tc <= INT_MAX ∧ 0 <= t_suscnt tc <= INT_MAX ∧
    (0 < t_suscnt tc ↔ t_state tc = TS_SUSPEND ∨ t_state tc = TS_WAITSUS)) as Hf.
  { intros HN. destruct (Z.eqb_spec (t_state tc) TS_NONEXIST); [done|]. cbn [negb implb] in Hu.
    do 5 (apply andb_prop in Hu; destruct Hu as [Hu ?]).
    repeat match goal with H : in_range _ _ _ = true |- _ => apply in_range_spec in H end.
    match goal with H : eqb _ _ = true |- _ => apply eqb_prop in H; rename H into H6 end.
    do 5 (split; [done|]). split; intros Hs.
    - rewrite (proj2 (Z.ltb_lt _ _) Hs) in H6. symmetry in H6.
      apply orb_prop in H6 as [?%Z.eqb_eq|?%Z.eqb_eq]; auto.
    - apply Z.ltb_lt. rewrite H6. destruct Hs as [-> | ->]; done. }
  constructor; try done; try (intros HN; specialize (Hf HN); lia || tauto).
  intros E. rewrite E in Hw. by apply bool_decide_eq_true in Hw.
Qed.

Lemma rdy_ok_b_spec rq Q : rdy_ok_b rq Q = true → rdy_ok rq Q.
Proof.
  intros [[[[Hb Ht%in_range_spec]%andb_prop Hlo]%andb_prop Ha]%andb_prop Hk%bool_decide_eq_true]%andb_prop.
  rewrite forallb_forall in Hb, Hlo. constructor; try done.
  - intros p Hp. specialize (Hb p). rewrite <- list_elem_of_In, elem_of_seqZ in Hb.
    specialize (Hb ltac:(lia)). apply eqb_prop in Hb. rewrite Hb, negb_true_iff. apply bool_decide_eq_false.
  - intros p Hp. specialize (Hlo p). rewrite <- list_elem_of_In, elem_of_seqZ in Hlo.
    specialize (Hlo ltac:(lia)). by apply bool_decide_eq_true in Hlo.
  - intros Hp. destruct (Z.eqb_spec (top_priority rq) NUM_TSKPRI); [lia|]. simpl in Ha.
    apply negb_true_iff, bool_decide_eq_false in Ha. done.
Qed.

(** What a table entry that is not in use looks like. *)
Definition unused_tcb (tc : TCB) : Prop :=
  t_state tc = TS_NONEXIST ∧ t_klockwait tc = false ∧ t_klocked tc = false.

Lemma kinv_check_sound s Q :
  (∀ t, ¬ 0 <= t < NUM_TSKID → unused_tcb (s_tcb s t)) → kinv_check s Q = true → kinv s Q.
Proof.
  intros Hout. intros [[[[[Hw%qwf_b_spec Hty]%andb_prop Hh]%andb_prop Hr%rdy_ok_b_spec]%andb_prop
    Hs%bool_decide_eq_true]%andb_prop Ht]%andb_prop.
  rewrite forallb_forall in Hty, Hh, Ht.
  assert (Htyped : ∀ h l, Q !! h = Some l → (∀ y, y ∈ l → elem_ok h y = true) ∧
    (nd_kind h ∈ [KTsk; KTmebTsk] → idx_ok h = true)).
  { intros h l HQ. specialize (Hty (h, l)). rewrite <- list_elem_of_In, elem_of_map_to_list in Hty.
    specialize (Hty HQ). apply andb_prop in Hty as [Hty Hi]. simpl in *. split.
    - intros y Hy. rewrite forallb_forall in Hty. by apply Hty, list_elem_of_In.
    - intros Hkd. apply orb_prop in Hi as [?|Hi]; [done|]. by apply negb_true_iff, bool_decide_eq_false in Hi. }
  assert (Hin : ∀ k t, k ∈ [KTsk; KTmebTsk] → ¬ 0 <= t < NUM_TSKID → unplaced Q (Nd k t)).
  { intros k t Hk Hn h (l & HQ & Hin). destruct (Htyped _ _ HQ) as [Hl Hhd].
    assert (idx_ok (Nd k t) = true) as Hi.
    { apply elem_of_cons in Hin as [<-|Hin]; [by apply Hhd|]. by apply Hl, andb_prop in Hin as [_ ?]. }
    apply Hn. apply andb_prop in Hi as [?%Z.leb_le Hi%Z.ltb_lt]. simpl in *.
    apply elem_of_cons in Hk as [->|Hk]; [done|]. apply list_elem_of_singleton in Hk as ->. done. }
  assert (Hrng : ∀ t, 0 <= t < NUM_TSKID → placed Q (TSKQ t) (home (s_tcb s t) t) ∧
    tmeb_placed Q (s_tcb s t) t ∧ task_ok (s_tcb s t) t).
  { intros t Hr'. specialize (Ht t). rewrite <- list_elem_of_In, elem_of_seqZ in Ht.
    specialize (Ht ltac:(lia)). revert Ht. intros [[H1 H2]%andb_prop H3]%andb_prop.
    split_and!; [by apply placed_b_spec| |by apply task_ok_b_spec].
    unfold tmeb_placed, tmeb_placed_b in *. destruct (waiting _); [|by apply unplaced_b_spec].
    apply orb_prop in H2 as [?|?]; [left|right]; by apply in_ring_b_spec. }
  constructor; try done.
  - intros h l y HQ. by apply (Htyped h l).
  - intros h Hp. specialize (Hh h). rewrite <- list_elem_of_In in Hh.
    assert (bool_decide (is_Some (Q !! h)) = true) as Hb; [|by apply bool_decide_eq_true in Hb].
    apply Hh. destruct Hp as [[E ?]|[->| ->]]; [|left|right; left]. do 2 right.
    apply list_elem_of_fmap. exists (nd_idx h). split; [by destruct h; simpl in *; subst|].
    apply elem_of_seqZ. lia.
  - intros t _. destruct (decide (0 <= t < NUM_TSKID)) as [Hr'|Hn]; [by apply Hrng|].
    destruct (Hout t Hn) as (E & _). unfold home, idx_ok. rewrite E. simpl.
    destruct (Z.leb_spec 0 t), (Z.ltb_spec t NUM_TSKID); try (exfalso; lia); simpl; apply Hin; auto; left.
  - intros t _. destruct (decide (0 <= t < NUM_TSKID)) as [Hr'|Hn]; [by apply Hrng|].
    destruct (Hout t Hn) as (E & _). unfold tmeb_placed, waiting. rewrite E. simpl. apply Hin; auto. right; left.
  - intros t _. destruct (decide (0 <= t < NUM_TSKID)) as [Hr'|Hn]; [by apply Hrng|].
    destruct (Hout t Hn) as (E & E1 & E2). constructor; unfold waiting; rewrite ?E; simpl; try done; left.
Qed.

(** ** Concrete kernels

    [ex_sch tasks objs] is a kernel with the given tasks (the rest of the table is in
    the free list) and the given wait queues, in which the ready tasks are queued in
    the order of their numbers and task 0 runs. *)

Definition tcb0 : TCB :=
  mkTCB 0 0 0 0 (mkCTXB 0 0 0 0) 0 0 0 0 0 0 TS_NONEXIST false false knl_wspec_slp 0 0 0 None WI_none 0 0 None 0 0.

(** A ready task of priority [p], and one that waits. *)
Definition ex_ready (p : Z) : TCB :=
  set_t_state TS_READY (set_t_priority p (set_t_bpriority p (set_t_ipriority p tcb0))).

Definition ex_waits (t p : Z) (w : wspec) (wid : Z) (wi : WINFO) : TCB :=
  set_t_state TS_WAIT (set_t_wspec w (set_t_wid wid (set_t_winfo wi (set_t_wercd (Some t) (ex_ready p))))).

Definition ex_tcb (tasks : list TCB) (t : Z) : TCB :=
  set_t_tskid (ID_TSK t) (default tcb0 (if 0 <=? t then tasks !! Z.to_nat t else None)).

Definition ex_rings (tasks : list TCB) (objs : list (node * list node)) : list (node * list node) :=
  let n := Z.of_nat (length tasks) in
  (FREE_TCB, TSKQ <$> seqZ n (NUM_TSKID - n)) ::
  ((λ p, (RDYQ p, TSKQ <$> filter (λ t, (t_state (ex_tcb tasks t) =? TS_READY) && (t_priority (ex_tcb tasks t) =? p))
                             (seqZ 0 n))) <$> seqZ 0 NUM_TSKPRI) ++ objs.

Definition links {A : Type} `{EqDecision A} (null : A) (rings : list (A * list A)) : qmem A :=
  foldl (λ m r, foldl (λ m e, QueInsert e r.1 m) (QueInit r.1 m) r.2) (Qmem (λ _, null) (λ _, null)) rings.
Definition ex_links : list (node * list node) → qmem node := links NULLQ.

Definition ex_Q (tasks : list TCB) (objs : list (node * list node)) : gmap node (list node) :=
  list_to_map (ex_rings tasks objs).

Definition ex_sch (tasks : list TCB) (objs : list (node * list node)) : SCH :=
  let bits := foldl (λ b tc, if t_state tc =? TS_READY then Z.lor b (Z.shiftl 1 (t_priority tc)) else b) 0 tasks in
  let top := foldl (λ p tc, if t_state tc =? TS_READY then Z.min p (t_priority tc) else p) NUM_TSKPRI tasks in
  mkSCH (ex_links (ex_rings tasks objs)) (ex_tcb tasks) (mkRDYQUE top bits None) (Some 0)
    (rdy_head (ex_Q tasks objs) top) 0 0 false (λ _, mkTMEB 0 CB_NULL) 0 0 (λ _, 0) (λ _, 0).

Definition ex_k (s : SCH) : K :=
  mkK s (λ _, mkSEMCB 0 0 0 0 0) (λ _, mkFLGCB 0 0 0 0) (λ _, mkMBXCB 0 0 0 0 0)
    (λ _, mkMTXCB 0 0 0 0 None None) (λ _, mkMBFCB 0 0 0 0 0 0 0 0 0) (λ _, mkMPFCB 0 0 0 0 0 0 0 0 0 0)
    (λ _, mkMPLCB 0 0 0 0 0) (λ _, mkPORCB 0 0 0 0 0)
    (λ _, mkCYCCB 0 0 0 0 0) (λ _, mkALMCB 0 0 0 0) (λ _, 0) (Qmem (λ _, 0) (λ _, 0)) 4096.

Lemma ex_kinv tasks objs :
  (Z.of_nat (length tasks) <=? NUM_TSKID) && kinv_check (ex_sch tasks objs) (ex_Q tasks objs) = true →
  kinv (ex_sch tasks objs) (ex_Q tasks objs).
Proof.
  intros [Hlen%Z.leb_le Hc]%andb_prop. apply kinv_check_sound; [|done]. intros t Ht.
  assert (ex_tcb tasks t = set_t_tskid (ID_TSK t) tcb0) as E; [|simpl; rewrite E; done].
  unfold ex_tcb. destruct (Z.leb_spec 0 t); [|done]. rewrite lookup_ge_None_2; [done|]. lia.
Qed.

(** Task 0 runs, task 1 has a lower priority, task 2 waits for two of semaphore 1. *)
Example ex_semaphore_kinv :
  let tasks := [ex_ready 3; ex_ready 5; ex_waits 2 4 knl_wspec_sem_tfifo 1 (WI_sem 2)] in
  let objs := [(TIMERQ, [TMEBT 2]); (SEMQ 0, [TSKQ 2]); (FREE_SEM, [SEMQ 1])] in
  kinv (ex_sch tasks objs) (ex_Q tasks objs).
Proof. intros tasks objs. apply ex_kinv. by vm_compute. Qed.
