(* ===== verification/Task.v ===== *)
(** * Task control: kernel/tkernel/task.h, kernel/tkernel/task.c, cpu_task.h

    The transitions of a task into and out of the ready queue, and the selection of
    [knl_schedtsk]. *)
From S2P Require Import Prelude Config Queue Kernel ReadyQueue KInv.

(** INTLEVEL_EI: all interrupt levels enabled. *)
(* src: include/tk/sysdepend/cpu/core/riscv_esp/syslib.h 51-51 INTLEVEL_EI *)
Definition INTLEVEL_EI : Z := 1.

(** The words of the initial stack frame the task starts from; [gp] and [tp], which
    are copied from the CPU, are not modelled. *)
(* src: kernel/sysdepend/cpu/core/riscv_esp/cpu_task.h 69-90 knl_setup_context *)
Definition knl_setup_context (tcb : Z) (s : SCH) : SCH :=
  upd_tcb tcb (λ t, set_t_tskctxb (mkCTXB (t_task t) 0 0 INTLEVEL_EI) t) s.

(* src: kernel/sysdepend/cpu/core/riscv_esp/cpu_task.h 92-97 knl_setup_stacd *)
Definition knl_setup_stacd (tcb stacd : Z) (s : SCH) : SCH :=
  upd_tcb tcb (λ t, set_t_tskctxb (set_cx_a1 (u32 (t_exinf t)) (set_cx_a0 (u32 stacd) (t_tskctxb t))) t) s.

(* src: kernel/sysdepend/cpu/core/riscv_esp/cpu_task.h 99-102 knl_cleanup_context *)
Definition knl_cleanup_context (tcb : Z) (s : SCH) : SCH := s.

(* src: kernel/tkernel/task.h 110-118 knl_reschedule *)
Definition knl_reschedule (s : SCH) : SCH :=
  let toptsk := knl_ready_queue_top s in
  if decide (s_schedtsk s = toptsk) then s else set_s_schedtsk toptsk s.

(* src: kernel/tkernel/task.c 49-79 knl_task_initialize *)
Definition knl_task_initialize (s : SCH) : Z * SCH :=
  if NUM_TSKID <? 1 then (E_SYS, s)
  else
    let s := set_s_schedtsk None (set_s_ctxtsk None s) in
    let s := knl_ready_queue_initialize s in
    let s := set_s_dispatch_disabled DDS_ENABLE s in
    let s := upd_q (QueInit FREE_TCB) s in
    let s := foldl (λ s i,
      let s := upd_tcb i (λ t, set_t_wrdvno (ID_TSK i) (set_t_state TS_NONEXIST (set_t_tskid (ID_TSK i) t))) s in
      upd_q (QueInsert (TSKQ i) FREE_TCB) s) s (seqZ 0 NUM_TSKID) in
    (E_OK, s).

(* src: kernel/tkernel/task.c 84-109 knl_make_dormant *)
Definition knl_make_dormant (tcb : Z) (s : SCH) : SCH :=
  let s := upd_tcb tcb (λ t,
    let t := set_t_state TS_DORMANT t in
    let t := set_t_bpriority (t_ipriority t) t in
    let t := set_t_priority (t_bpriority t) t in
    let t := set_t_sysmode (t_isysmode t) t in
    let t := set_t_wupcnt 0 t in
    let t := set_t_suscnt 0 t in
    let t := set_t_klockwait false t in
    let t := set_t_klocked false t in
    let t := set_t_stime 0 t in
    let t := set_t_utime 0 t in
    let t := set_t_wercd None t in
    set_t_mtxlist None t) s in
  knl_setup_context tcb s.

(* src: kernel/tkernel/task.c 118-124 knl_make_ready *)
Definition knl_make_ready (tcb : Z) (s : SCH) : SCH :=
  let s := upd_tcb tcb (set_t_state TS_READY) s in
  let '(top, s) := knl_ready_queue_insert tcb s in
  if top then set_s_schedtsk (Some tcb) s else s.

(* src: kernel/tkernel/task.c 133-139 knl_make_non_ready *)
Definition knl_make_non_ready (tcb : Z) (s : SCH) : SCH :=
  let s := knl_ready_queue_delete tcb s in
  if decide (s_schedtsk s = Some tcb) then set_s_schedtsk (knl_ready_queue_top s) s else s.

(** The branch of [knl_change_task_priority] for a task in the ready queue. *)
(* src: kernel/tkernel/task.c 155-158 knl_change_task_priority *)
Definition change_ready_priority (tcb priority : Z) (s : SCH) : SCH :=
  let s := knl_ready_queue_delete tcb s in
  let s := upd_tcb tcb (set_t_priority (u8 priority)) s in
  let '(_, s) := knl_ready_queue_insert tcb s in
  knl_reschedule s.

(** [hook] runs [wspec->chg_pri_hook] of a waiting task. *)
(* src: kernel/tkernel/task.c 144-169 knl_change_task_priority *)
Definition knl_change_task_priority_with (hook : wspec → option (Z → Z → K → K))
    (tcb priority : Z) (k : K) : K :=
  if t_state (s_tcb (k_s k) tcb) =? TS_READY then upd_s (change_ready_priority tcb priority) k
  else
    let oldpri := t_priority (s_tcb (k_s k) tcb) in
    let k := upd_s (upd_tcb tcb (set_t_priority (u8 priority))) k in
    if has (t_state (s_tcb (k_s k) tcb)) TS_WAIT then
      match hook (t_wspec (s_tcb (k_s k) tcb)) with
      | Some h => h tcb oldpri k
      | None => k
      end
    else k.

(* src: kernel/tkernel/task.c 174-178 knl_rotate_ready_queue *)
Definition knl_rotate_ready_queue (priority : Z) (s : SCH) : SCH :=
  knl_reschedule (knl_ready_queue_rotate priority s).

(* src: kernel/tkernel/task.c 183-190 knl_rotate_ready_queue_run *)
Definition knl_rotate_ready_queue_run (s : SCH) : SCH :=
  match s_schedtsk s with
  | Some _ => knl_reschedule (knl_ready_queue_rotate (knl_ready_queue_top_priority s) s)
  | None => s
  end.

(** The loop of the [td_.._que] calls: count the tasks of a queue and store the first
    [nent] IDs.  At most NUM_TSKID tasks are in a queue, so [QFUEL] rounds suffice. *)
Definition QFUEL : nat := S (Z.to_nat NUM_TSKID).

(* src: kernel/tkernel/task.c 211-215 td_rdy_que *)
Fixpoint td_que_loop (fuel : nat) (s : SCH) (h q : node) (n nent : Z) (out : list Z) : Z * list Z :=
  match fuel with
  | O => (n, out)
  | S fuel =>
      if decide (q = h) then (n, out)
      else
        let out := if n <? nent then out ++ [t_tskid (s_tcb s (as_tcb q))] else out in
        td_que_loop fuel s h (qnext (s_q s) q) (n + 1) nent out
  end.

Definition td_que (h : node) (nent : Z) (s : SCH) : Z * list Z :=
  td_que_loop QFUEL s h (qnext (s_q s) h) 0 nent [].

(* src: kernel/tkernel/task.c 202-219 td_rdy_que *)
Definition td_rdy_que (pri nent : Z) (s : SCH) : Z * list Z :=
  if negb (CHK_PRI pri) then (E_PAR, [])
  else td_que (RDYQ (int_priority pri)) nent s.

(** The loop of the [td_lst_..] calls over a table of [num] blocks: count the blocks
    in use and store the first [nent] IDs. *)
Definition td_lst (used : Z → bool) (id : Z → Z) (num nent : Z) : Z * list Z :=
  foldl (λ '(n, out) i,
    if negb (used i) then (n, out)
    else (n + 1, if n <? nent then out ++ [id i] else out)) (0, []) (seqZ 0 num).

(** ** The ready queue operations on the invariant *)

Lemma ready_top_spec b x s Q :
  kinvx b x s Q → knl_ready_queue_top s = rdy_head Q (top_priority (s_rq s)).
Proof.
  intros Hk. unfold knl_ready_queue_top, rdy_head. destruct (ki_rdy _ _ _ _ Hk) as [_ Ht _ Ha ->].
  destruct (Z.eqb_spec (top_priority (s_rq s)) NUM_TSKPRI); [done|].
  destruct (kinv_rdyq _ _ _ _ (top_priority (s_rq s)) Hk) as [l HQ]; [lia|]. rewrite HQ.
  rewrite (qwf_head _ _ _ _ (ki_qwf _ _ _ _ Hk) HQ). destruct l; [|done]. by specialize (Ha ltac:(lia)).
Qed.

(** [knl_reschedule] restores the part of the invariant about [knl_schedtsk]. *)
Lemma kinvx_reschedule b x s Q : kinvx b x s Q → kinvx true x (knl_reschedule s) Q.
Proof.
  intros Hk. pose proof (ready_top_spec _ _ _ _ Hk) as Ht. unfold knl_reschedule. rewrite Ht.
  destruct Hk. case_decide; by constructor.
Qed.

Lemma kinvx_weaken b x s Q : kinvx b x s Q → kinvx false x s Q.
Proof. intros []. by constructor. Qed.

(** Changing the ready queue of one priority. *)
Lemma kinvx_rdy_change b t s Q m' rq' p l l' :
  kinvx b (Some t) s Q → 0 <= t < NUM_TSKID → 0 <= p < NUM_TSKPRI → Q !! RDYQ p = Some l →
  qwf m' (<[RDYQ p := l']> Q) → (∀ y, y ≠ TSKQ t → y ∈ l' ↔ y ∈ l) →
  rdy_ok rq' (<[RDYQ p := l']> Q) →
  kinvx false (Some t) (set_s_rq rq' (set_s_q m' s)) (<[RDYQ p := l']> Q).
Proof.
  intros Hk Hrg Hp HQ Hw Hl Hrdy.
  assert (moves (TSKQ t) Q (<[RDYQ p:=l']> Q)) as Hm
    by (intros y h Hne; by eapply in_ring_insert_ne).
  pose proof (ki_typed _ _ _ _ Hk) as Hty. destruct Hk. constructor; simpl; try done.
  - intros h k y. destruct (decide (h = RDYQ p)) as [->|].
    + rewrite lookup_insert_eq. intros [= <-] Hy. destruct (decide (y = TSKQ t)) as [->|];
        [by apply idx_ok_task|].
      eapply Hty; [done|]. by apply Hl.
    + rewrite lookup_insert_ne by done. apply Hty.
  - intros h Hh. destruct (decide (h = RDYQ p)) as [->|].
    + by rewrite lookup_insert_eq.
    + rewrite lookup_insert_ne by done. auto.
  - intros t' Ht. eapply placed_moves; [done|congruence|auto].
  - intros t' Ht. eapply tmeb_placed_moves; [done|done|auto].
Qed.

Lemma rdy_ok_insert rq Q p l e :
  rdy_ok rq Q → 0 <= p < NUM_TSKPRI → Q !! RDYQ p = Some l →
  let rq' := set_bit p rq in
  rdy_ok (if p <? top_priority rq then set_top_priority p rq' else rq') (<[RDYQ p := l ++ [e]]> Q).
Proof.
  intros [Hb Ht Hlo Ha Hk] Hp HQ rq'.
  set (rq'' := if p <? top_priority rq then set_top_priority p rq' else rq').
  assert (top_priority rq'' = Z.min p (top_priority rq)) as Et
    by (unfold rq''; destruct (Z.ltb_spec p (top_priority rq)); simpl; lia).
  assert (bitmap rq'' = Z.lor (bitmap rq) (Z.shiftl 1 p)) as Eb
    by (unfold rq''; by destruct (p <? top_priority rq)).
  assert (Hne : l ++ [e] ≠ []) by (by destruct l).
  constructor; rewrite ?Et, ?Eb; [|lia|..].
  - intros i Hi. rewrite testbit_set by lia. destruct (decide (i = p)) as [->|].
    + rewrite lookup_insert_eq, Z.eqb_refl, orb_true_r. naive_solver.
    + rewrite lookup_insert_ne by congruence. rewrite <- Hb by done.
      destruct (Z.eqb_spec p i); [congruence|]. by rewrite orb_false_r.
  - intros i Hi. rewrite lookup_insert_ne by (injection; lia). apply Hlo. lia.
  - destruct (decide (Z.min p (top_priority rq) = p)) as [->|].
    + rewrite lookup_insert_eq. naive_solver.
    + intros Hlt. rewrite lookup_insert_ne by (injection; lia).
      replace (Z.min p (top_priority rq)) with (top_priority rq) by lia. apply Ha. lia.
  - unfold rq''. by destruct (p <? top_priority rq).
Qed.

(** Insertion of the task in hand at the tail of the queue of its priority. *)
Lemma rq_insert_spec b t s Q l :
  let p := t_priority (s_tcb s t) in
  let Q' := <[RDYQ p := l ++ [TSKQ t]]> Q in
  kinvx b (Some t) s Q → unplaced Q (TSKQ t) → 0 <= t < NUM_TSKID → 0 <= p < NUM_TSKPRI →
  t_klocked (s_tcb s t) = false → Q !! RDYQ p = Some l →
  ∃ m' rq', knl_ready_queue_insert t s = (p <? top_priority (s_rq s), set_s_rq rq' (set_s_q m' s)) ∧
    top_priority rq' = Z.min p (top_priority (s_rq s)) ∧
    kinvx false (Some t) (set_s_rq rq' (set_s_q m' s)) Q'.
Proof.
  intros p Q' Hk Hu Hrg Hp Hkl HQ. pose proof (ki_rdy _ _ _ _ Hk) as Hrdy.
  pose proof (rdy_ok_insert _ _ p l (TSKQ t) Hrdy Hp HQ) as Hrdy'. simpl in Hrdy'.
  set (rq' := if p <? top_priority (s_rq s) then set_top_priority p (set_bit p (s_rq s)) else set_bit p (s_rq s)) in *.
  exists (QueInsert (TSKQ t) (RDYQ p) (s_q s)), rq'. split; [|split].
  - unfold knl_ready_queue_insert. simpl. fold p. rewrite Hkl. simpl. unfold rq'.
    by destruct (p <? top_priority (s_rq s)).
  - unfold rq'. destruct (Z.ltb_spec p (top_priority (s_rq s))); simpl; lia.
  - eapply kinvx_rdy_change; [done|done|done|done| |set_solver|done].
    apply (qwf_insert _ _ _ l [] _ (ki_qwf _ _ _ _ Hk)); [by rewrite app_nil_r|done].
Qed.

Lemma rdy_ok_delete rq Q p l :
  rdy_ok rq Q → 0 <= p < NUM_TSKPRI → Q !! RDYQ p ≠ Some [] → 
  let rq' := clr_bit p rq in
  rdy_ok (match l with
          | _ :: _ => rq
          | [] => if p =? top_priority rq
                  then set_top_priority (knl_ready_queue_calc_top_priority (bitmap rq') p) rq' else rq'
          end) (<[RDYQ p := l]> Q).
Proof.
  intros [Hb Ht Hlo Ha Hk] Hp Hne rq'.
  assert (Hother : ∀ i, i ≠ p → (<[RDYQ p:=l]> Q : gmap node (list node)) !! RDYQ i = Q !! RDYQ i)
    by (intros; by rewrite lookup_insert_ne by congruence).
  assert (Htp : top_priority rq <= p) by (destruct (Z.lt_ge_cases p (top_priority rq)); [|done]; exfalso; apply Hne, Hlo; lia).
  destruct l as [|y l].
  - assert (Hbit : ∀ i, 0 <= i < NUM_TSKPRI → Z.testbit (bitmap rq') i = true ↔ (<[RDYQ p:=[]]> Q : gmap node (list node)) !! RDYQ i ≠ Some []).
    { intros i Hi. simpl. rewrite testbit_clr by lia. destruct (decide (i = p)) as [->|].
      - rewrite lookup_insert_eq, Z.eqb_refl, andb_false_r. naive_solver.
      - rewrite Hother, <- Hb by done. destruct (Z.eqb_spec p i); [congruence|]. by rewrite andb_true_r. }
    destruct (Z.eqb_spec p (top_priority rq)) as [Ep|Ep].
    + destruct (calc_top_spec (bitmap rq') p) as (Hr & Hlow & Hhi); [lia|].
      set (r := knl_ready_queue_calc_top_priority (bitmap rq') p) in *.
      constructor; [exact Hbit|simpl; lia|..|done].
      * intros i Hi. simpl in Hi. destruct (decide (i < p)).
        -- rewrite Hother by lia. apply Hlo. lia.
        -- destruct ((<[RDYQ p:=[]]> Q : gmap node (list node)) !! RDYQ i) as [[|]|] eqn:E; [done|..]; exfalso.
           ++ specialize (Hlow i ltac:(lia)). assert (Z.testbit (bitmap rq') i = true); [|congruence].
              apply Hbit; [lia|]. congruence.
           ++ specialize (Hlow i ltac:(lia)). assert (Z.testbit (bitmap rq') i = true); [|congruence].
              apply Hbit; [lia|]. congruence.
      * simpl. intros. apply Hbit; [lia|]. by apply Hhi.
    + constructor; [exact Hbit|simpl; lia|..|done]; simpl.
      * intros i Hi. rewrite Hother by lia. auto.
      * intros. rewrite Hother by lia. auto.
  - constructor; [|done|..|done].
    + intros i Hi. destruct (decide (i = p)) as [->|].
      * rewrite lookup_insert_eq. split; [done|]. intros _. by apply Hb.
      * rewrite Hother by done. auto.
    + intros i Hi. rewrite Hother by lia. auto.
    + intros. destruct (decide (top_priority rq = p)) as [->|].
      * rewrite lookup_insert_eq. done.
      * rewrite Hother by done. auto.
Qed.

(** Removal of a task from the queue of its priority; it becomes the task in hand. *)
Lemma rq_delete_spec b t s Q l1 l2 :
  let p := t_priority (s_tcb s t) in
  let Q' := <[RDYQ p := l1 ++ l2]> Q in
  kinvx b (Some t) s Q → 0 <= p < NUM_TSKPRI → t_klockwait (s_tcb s t) = false →
  Q !! RDYQ p = Some (l1 ++ TSKQ t :: l2) →
  ∃ m' rq', knl_ready_queue_delete t s = set_s_rq rq' (set_s_q m' s) ∧
    kinvx false (Some t) (set_s_rq rq' (set_s_q m' s)) Q' ∧ unplaced Q' (TSKQ t) ∧
    (rdy_head Q (top_priority (s_rq s)) ≠ Some t →
     rdy_head Q' (top_priority rq') = rdy_head Q (top_priority (s_rq s))).
Proof.
  intros p Q' Hk Hp Hkw HQ. pose proof (ki_rdy _ _ _ _ Hk) as Hrdy. pose proof (ki_qwf _ _ _ _ Hk) as Hw.
  assert (Hne : Q !! RDYQ p ≠ Some []) by (rewrite HQ; by destruct l1).
  pose proof (rdy_ok_delete _ _ p (l1 ++ l2) Hrdy Hp Hne) as Hrdy'. simpl in Hrdy'.
  pose proof (qwf_remove _ _ _ _ _ _ Hw HQ) as Hw'. fold Q' in Hw', Hrdy'.
  set (rq' := match l1 ++ l2 with [] => _ | _ => _ end) in Hrdy'.
  exists (QueRemove (TSKQ t) (s_q s)), rq'. split; [|split; [|split]].
  - unfold knl_ready_queue_delete. simpl. fold p. rewrite bool_decide_eq_false_2
      by (destruct Hrdy; congruence). simpl. rewrite Hkw.
    rewrite (qwf_isQueEmpty _ Q' (RDYQ p) (l1 ++ l2) Hw') by apply lookup_insert_eq.
    unfold rq'. destruct (l1 ++ l2) as [|y l]; simpl; [|by destruct s].
    destruct (Z.eqb_spec p (top_priority (s_rq s))); done.
  - eapply kinvx_rdy_change; [done|eapply kinvx_elem_range; [exact Hk|exact HQ|set_solver]|done|done|done|set_solver|done].
  - by eapply qwf_remove_unplaced.
  - intros Hh. destruct Hrdy as [_ Ht Hlo Ha _].
    assert (top_priority (s_rq s) <= p)
      by (destruct (Z.lt_ge_cases p (top_priority (s_rq s))); [|done]; exfalso; apply Hne, Hlo; lia).
    unfold rdy_head in *. destruct (Z.eqb_spec (top_priority (s_rq s)) NUM_TSKPRI); [lia|].
    destruct (decide (top_priority (s_rq s) = p)) as [Ep|Ep].
    + rewrite Ep, HQ in Hh |- *. destruct l1 as [|y l1]; [done|]. simpl in *.
      unfold rq'. rewrite Ep. destruct (Z.eqb_spec p NUM_TSKPRI); [lia|].
      unfold Q'. rewrite lookup_insert_eq. done.
    + assert (top_priority rq' = top_priority (s_rq s)) as ->.
      { unfold rq'. destruct (l1 ++ l2); [|done]. destruct (Z.eqb_spec p (top_priority (s_rq s))); [lia|done]. }
      destruct (Z.eqb_spec (top_priority (s_rq s)) NUM_TSKPRI); [lia|].
      unfold Q'. by rewrite lookup_insert_ne by congruence.
Qed.

(** ** What a transition leaves alone *)

(** Everything but the links, the TCBs, the ready queue and [knl_schedtsk]. *)
Record same_ctx (s s' : SCH) : Prop := {
  sc_ctxtsk : s_ctxtsk s' = s_ctxtsk s;
  sc_dispatch : s_dispatch_disabled s' = s_dispatch_disabled s;
  sc_indp : s_taskindp s' = s_taskindp s;
  sc_masked : s_masked s' = s_masked s;
  sc_time : s_current_time s' = s_current_time s;
  sc_ofs : s_real_time_ofs s' = s_real_time_ofs s
}.

#[export] Instance same_ctx_preorder : PreOrder same_ctx.
Proof.
  split; [by intros s; constructor|].
  intros s1 s2 s3 [E1 E2 E3 E4 E5 E6] [F1 F2 F3 F4 F5 F6]. constructor; congruence.
Qed.

(** ... and the timer events and the result variables. *)
Record same_rest (s s' : SCH) : Prop := {
  sr_ctx : same_ctx s s';
  sr_tmeb : s_tmeb s' = s_tmeb s;
  sr_ercd : s_ercd s' = s_ercd s;
  sr_rcvsz : s_rcvsz s' = s_rcvsz s
}.

#[export] Instance same_rest_preorder : PreOrder same_rest.
Proof.
  split; [by intros s; constructor|].
  intros s1 s2 s3 [E1 E2 E3 E4] [F1 F2 F3 F4]. constructor; [by etrans|congruence..].
Qed.

Lemma same_rest_insert t s : same_rest s (knl_ready_queue_insert t s).2.
Proof.
  unfold knl_ready_queue_insert. simpl. destruct (t_klocked _); case_match; by constructor.
Qed.

Lemma same_rest_delete t s : same_rest s (knl_ready_queue_delete t s).
Proof. unfold knl_ready_queue_delete. repeat case_match; by constructor. Qed.

Lemma same_rest_reschedule s : same_rest s (knl_reschedule s).
Proof. unfold knl_reschedule. case_decide; by constructor. Qed.

Lemma same_rest_make_ready t s : same_rest s (knl_make_ready t s).
Proof.
  unfold knl_make_ready. pose proof (same_rest_insert t (upd_tcb t (set_t_state TS_READY) s)) as Hs.
  destruct (knl_ready_queue_insert _ _) as [b s']. simpl in Hs.
  destruct Hs as [[] ]. by destruct b.
Qed.

Lemma same_rest_make_non_ready t s : same_rest s (knl_make_non_ready t s).
Proof.
  unfold knl_make_non_ready. pose proof (same_rest_delete t s) as [[] ].
  case_decide; by constructor.
Qed.

(** ** The transitions on the invariant *)

Lemma kinv_make_ready t s Q :
  let tc := set_t_state TS_READY (s_tcb s t) in
  kinvx true (Some t) s Q → unplaced Q (TSKQ t) → unplaced Q (TMEBT t) → task_ok tc t →
  ∃ l, Q !! RDYQ (t_priority tc) = Some l ∧
    kinv (knl_make_ready t s) (<[RDYQ (t_priority tc) := l ++ [TSKQ t]]> Q) ∧
    s_tcb (knl_make_ready t s) = <[t := tc]> (s_tcb s).
Proof.
  intros tc Hk Hu Hut Hok. pose proof (tk_pri _ _ Hok ltac:(done)) as Hp.
  set (s1 := upd_tcb t (set_t_state TS_READY) s).
  assert (Hk1 : kinvx true (Some t) s1 Q) by (by apply kinvx_upd_tcb).
  assert (E1 : s_tcb s1 t = tc) by (unfold s1; simpl; by upd_simpl).
  destruct (kinv_rdyq _ _ _ _ _ Hk Hp) as [l HQ]. exists l. split; [done|].
  destruct (rq_insert_spec true t s1 Q l) as (m' & rq' & Hins & Htop & Hk2);
    rewrite ?E1; [done|done|by apply (tk_range _ _ Hok)|done|by apply Hok|done|]. rewrite E1 in *.
  unfold knl_make_ready. fold s1. rewrite Hins.
  set (b := t_priority tc <? top_priority (s_rq s1)) in *.
  set (s2 := set_s_rq rq' (set_s_q m' s1)) in *.
  set (Q' := <[RDYQ (t_priority tc) := l ++ [TSKQ t]]> Q) in *.
  assert (Hsched : (if b then Some t else s_schedtsk s) = rdy_head Q' (top_priority rq')).
  { pose proof (ki_sched _ _ _ _ Hk eq_refl) as Hs. destruct (ki_rdy _ _ _ _ Hk) as [_ Ht Hlo Ha _].
    change (top_priority (s_rq s1)) with (top_priority (s_rq s)) in *. rewrite Htop.
    unfold b, rdy_head, Q' in *. destruct (Z.ltb_spec (t_priority tc) (top_priority (s_rq s))).
    - rewrite Z.min_l by lia. destruct (Z.eqb_spec (t_priority tc) NUM_TSKPRI); [lia|].
      rewrite lookup_insert_eq. rewrite Hlo in HQ by lia. by simplify_eq.
    - rewrite Z.min_r, Hs by lia. destruct (Z.eqb_spec (top_priority (s_rq s)) NUM_TSKPRI); [lia|].
      destruct (decide (top_priority (s_rq s) = t_priority tc)) as [E|Hne].
      + rewrite E in *. rewrite lookup_insert_eq, HQ. destruct l; [|done]. exfalso.
        by apply Ha; [lia|].
      + by rewrite lookup_insert_ne by congruence. }
  assert (Hk3 : kinvx true (Some t) (if b then set_s_schedtsk (Some t) s2 else s2) Q').
  { destruct Hk2, b; constructor; done. }
  assert (E3 : s_tcb (if b then set_s_schedtsk (Some t) s2 else s2) = <[t := tc]> (s_tcb s))
    by (by destruct b).
  split; [|done]. apply (kinvx_put _ t); [done|..]; rewrite E3, fn_lookup_insert.
  - simpl. exists (l ++ [TSKQ t]). unfold Q'. rewrite lookup_insert_eq. split; [done|set_solver].
  - unfold tmeb_placed. simpl. intros h. unfold Q'. rewrite in_ring_insert.
    intros [[_ Hin]|[_ Hin]]; [|by apply (Hut h)].
    apply (Hut (RDYQ (t_priority tc))). exists l. split; [done|]. set_solver.
  - done.
Qed.

(** A ready task is somewhere in the queue of its priority. *)
Lemma kinv_ready_split b x t s Q :
  kinvx b x s Q → x ≠ Some t → t_state (s_tcb s t) = TS_READY →
  0 <= t_priority (s_tcb s t) < NUM_TSKPRI ∧
  ∃ l1 l2, Q !! RDYQ (t_priority (s_tcb s t)) = Some (l1 ++ TSKQ t :: l2).
Proof.
  intros Hk Hx Hst. pose proof (ki_home _ _ _ _ Hk t Hx) as Hh. unfold home in Hh. rewrite Hst in Hh.
  destruct Hh as (l & HQ & Hin). apply elem_of_cons in Hin as [[=]|Hin].
  apply list_elem_of_split in Hin as (l1 & l2 & ->). split; [|eauto].
  pose proof (ki_task _ _ _ _ Hk t Hx) as Hok. apply Hok. rewrite Hst. done.
Qed.

Lemma kinv_make_non_ready t s Q :
  kinv s Q → t_state (s_tcb s t) = TS_READY →
  ∃ l1 l2, Q !! RDYQ (t_priority (s_tcb s t)) = Some (l1 ++ TSKQ t :: l2) ∧
    let Q' := <[RDYQ (t_priority (s_tcb s t)) := l1 ++ l2]> Q in
    kinvx true (Some t) (knl_make_non_ready t s) Q' ∧ unplaced Q' (TSKQ t) ∧ unplaced Q' (TMEBT t) ∧
    s_tcb (knl_make_non_ready t s) = s_tcb s.
Proof.
  intros Hk Hst. destruct (kinv_ready_split _ _ t _ _ Hk ltac:(done) Hst) as (Hp & l1 & l2 & HQ).
  exists l1, l2. split; [done|]. simpl.
  pose proof (ki_task _ _ _ _ Hk t ltac:(done)) as Hok.
  destruct (rq_delete_spec true t s Q l1 l2) as (m' & rq' & Hdel & Hk2 & Hu & Hhd);
    [by apply kinvx_take|done|by apply Hok|done|].
  set (Q' := <[RDYQ (t_priority (s_tcb s t)) := l1 ++ l2]> Q) in *.
  assert (Hut : unplaced Q' (TMEBT t)).
  { intros h. unfold Q'. pose proof (ki_tmeb _ _ _ _ Hk t ltac:(done)) as Ht.
    unfold tmeb_placed, waiting in Ht. rewrite Hst in Ht. rewrite in_ring_insert_ne;
      [apply Ht|exact HQ|set_solver|done]. }
  unfold knl_make_non_ready. rewrite Hdel.
  pose proof (ready_top_spec _ _ _ _ Hk2) as Htop.
  set (s2 := set_s_rq rq' (set_s_q m' s)) in *.
  pose proof (ki_sched _ _ _ _ Hk eq_refl) as Hs. change (s_schedtsk s) with (s_schedtsk s2) in Hs.
  split; [|split; [done|split; [done|by case_decide]]].
  case_decide as Hd.
  - rewrite Htop. destruct Hk2. by constructor.
  - rewrite <- Hs in Hhd. specialize (Hhd Hd).
    destruct Hk2. by constructor.
Qed.

Lemma u8_small x : 0 <= x < NUM_TSKPRI → u8 x = x.
Proof. unfold NUM_TSKPRI, CNF_MAX_TSKPRI. intros. apply Z.mod_small. lia. Qed.

Lemma task_ok_priority tc t p :
  task_ok tc t → 0 <= p < NUM_TSKPRI → task_ok (set_t_priority p tc) t.
Proof. intros [] Hp. by constructor. Qed.

(** A ready task moves to the tail of the queue of its new priority. *)
Lemma kinv_change_ready_priority t s Q p :
  kinv s Q → t_state (s_tcb s t) = TS_READY → 0 <= p < NUM_TSKPRI →
  ∃ l1 l2 l, Q !! RDYQ (t_priority (s_tcb s t)) = Some (l1 ++ TSKQ t :: l2) ∧
    let Q1 := <[RDYQ (t_priority (s_tcb s t)) := l1 ++ l2]> Q in
    Q1 !! RDYQ p = Some l ∧
    kinv (change_ready_priority t p s) (<[RDYQ p := l ++ [TSKQ t]]> Q1) ∧
    s_tcb (change_ready_priority t p s) = <[t := set_t_priority p (s_tcb s t)]> (s_tcb s) ∧
    same_rest s (change_ready_priority t p s).
Proof.
  intros Hk Hst Hp. destruct (kinv_ready_split _ _ t _ _ Hk ltac:(done) Hst) as (Hp0 & l1 & l2 & HQ).
  pose proof (ki_task _ _ _ _ Hk t ltac:(done)) as Hok.
  destruct (rq_delete_spec true t s Q l1 l2) as (m' & rq' & Hdel & Hk2 & Hu & _);
    [by apply kinvx_take|done|by apply Hok|done|].
  set (Q1 := <[RDYQ (t_priority (s_tcb s t)) := l1 ++ l2]> Q) in *.
  set (s2 := set_s_rq rq' (set_s_q m' s)) in *.
  set (s3 := upd_tcb t (set_t_priority (u8 p)) s2).
  assert (Hk3 : kinvx false (Some t) s3 Q1) by (by apply kinvx_upd_tcb).
  assert (E3 : s_tcb s3 t = set_t_priority p (s_tcb s t))
    by (unfold s3; simpl; upd_simpl; by rewrite u8_small).
  destruct (kinv_rdyq _ _ _ _ p Hk3 Hp) as [l HQ1].
  exists l1, l2, l. split; [done|]. split; [done|].
  destruct (rq_insert_spec false t s3 Q1 l) as (m4 & rq4 & Hins & _ & Hk4);
    rewrite ?E3; [done|done|apply (tk_range _ _ Hok); by rewrite Hst|done|by apply Hok|done|].
  rewrite E3 in *. simpl in Hins.
  unfold change_ready_priority. rewrite Hdel. fold s2 s3. rewrite Hins.
  set (s4 := set_s_rq rq4 (set_s_q m4 s3)) in *.
  assert (E5 : s_tcb (knl_reschedule s4) = <[t := set_t_priority p (s_tcb s t)]> (s_tcb s)).
  { unfold knl_reschedule. rewrite <- (u8_small p) by done. case_decide; done. }
  split; [|split; [done|]].
  - apply (kinvx_put _ t); [by eapply kinvx_reschedule|..]; rewrite E5, fn_lookup_insert.
    + unfold home. simpl. rewrite Hst. simpl. exists (l ++ [TSKQ t]).
      rewrite lookup_insert_eq. split; [done|set_solver].
    + unfold tmeb_placed, waiting. simpl. rewrite Hst. simpl. intros h.
      pose proof (ki_tmeb _ _ _ _ Hk t ltac:(done)) as Ht. unfold tmeb_placed, waiting in Ht. rewrite Hst in Ht.
      rewrite (in_ring_insert_ne _ _ (TSKQ t)); [|exact HQ1|set_solver|done].
      unfold Q1. rewrite (in_ring_insert_ne _ _ (TSKQ t)); [apply Ht|exact HQ|set_solver|done].
    + by apply task_ok_priority.
  - etrans; [|apply same_rest_reschedule]. by constructor.
Qed.

(** ** Which task is to run *)

(** The members of a ready queue are the ready tasks of its priority. *)
Lemma kinv_in_rdyq b s Q p l y :
  kinvx b None s Q → Q !! RDYQ p = Some l → y ∈ l →
  ∃ t, y = TSKQ t ∧ t_state (s_tcb s t) = TS_READY ∧ t_priority (s_tcb s t) = p.
Proof.
  intros Hk HQ Hin. pose proof (ki_typed _ _ _ _ Hk _ _ _ HQ Hin) as Hty.
  rewrite (elem_ok_tsk _ _ Hty ltac:(left)) in Hin |- *. set (t := nd_idx y) in *.
  exists t. split; [done|]. pose proof (ki_home _ _ _ _ Hk t ltac:(done)) as Hp.
  assert (in_ring Q (TSKQ t) (RDYQ p)) as Hr by (exists l; split; [done|by right]).
  assert (∀ h', in_ring Q (TSKQ t) h' → h' = RDYQ p) as Huniq
    by (intros h' ?; eapply qwf_disjoint; [apply Hk|done|done]).
  unfold home in Hp. destruct (Z.eqb_spec (t_state (s_tcb s t)) TS_READY) as [E|_].
  - simpl in Hp. apply Huniq in Hp as [= ?]. done.
  - repeat case_match; simpl in Hp;
      first [apply Huniq in Hp; unfold wait_home in Hp; by repeat case_match|by apply Hp in Hr].
Qed.

(** [t] is the ready task the rules of the kernel choose: no ready task has a higher
    priority (a smaller number), and of those of its priority it is the first. *)
Definition top_ready (s : SCH) (Q : gmap node (list node)) (t : Z) : Prop :=
  t_state (s_tcb s t) = TS_READY ∧
  (∀ t', t_state (s_tcb s t') = TS_READY → t_priority (s_tcb s t) <= t_priority (s_tcb s t')) ∧
  ∃ l, Q !! RDYQ (t_priority (s_tcb s t)) = Some (TSKQ t :: l).

Definition sched_ok (s : SCH) (Q : gmap node (list node)) : Prop :=
  match s_schedtsk s with
  | Some t => top_ready s Q t
  | None => ∀ t, t_state (s_tcb s t) ≠ TS_READY
  end.

Lemma kinv_sched_ok s Q : kinv s Q → sched_ok s Q.
Proof.
  intros Hk. unfold sched_ok. rewrite (ki_sched _ _ _ _ Hk eq_refl). unfold rdy_head.
  destruct (ki_rdy _ _ _ _ Hk) as [_ Ht Hlo Ha _].
  assert (Hmin : ∀ t, t_state (s_tcb s t) = TS_READY →
    top_priority (s_rq s) <= t_priority (s_tcb s t) < NUM_TSKPRI).
  { intros t Hst. destruct (kinv_ready_split _ _ t _ _ Hk ltac:(done) Hst) as (Hp & l1 & l2 & HQ).
    destruct (Z.lt_ge_cases (t_priority (s_tcb s t)) (top_priority (s_rq s))); [|lia].
    rewrite Hlo in HQ by lia. by destruct l1. }
  destruct (Z.eqb_spec (top_priority (s_rq s)) NUM_TSKPRI) as [E|Hne].
  - intros t Hst. specialize (Hmin t Hst). lia.
  - destruct (kinv_rdyq _ _ _ _ (top_priority (s_rq s)) Hk) as [l HQ]; [lia|].
    specialize (Ha ltac:(lia)). rewrite HQ in Ha |- *. destruct l as [|y l]; [done|].
    destruct (kinv_in_rdyq _ _ _ _ _ y Hk HQ ltac:(left)) as (t & -> & Hst & Hp). simpl.
    split_and!; [done| |rewrite Hp; eauto]. intros t' Ht'. rewrite Hp. by apply Hmin.
Qed.

(** The queue after its first element went to the tail. *)
Definition rotated (l : list node) : list node := match l with [] => [] | x :: l' => l' ++ [x] end.

Lemma elem_of_rotated l y : y ∈ rotated l ↔ y ∈ l.
Proof. destruct l; simpl; [done|]. set_solver. Qed.

Lemma rdy_ok_same rq Q p l l' :
  rdy_ok rq Q → Q !! RDYQ p = Some l → (l = [] ↔ l' = []) → rdy_ok rq (<[RDYQ p := l']> Q).
Proof.
  intros [Hb Ht Hlo Ha Hk] HQ Hl.
  assert (H : ∀ i, (<[RDYQ p := l']> Q : gmap node (list node)) !! RDYQ i = Some [] ↔ Q !! RDYQ i = Some []).
  { intros i. destruct (decide (i = p)) as [->|]; [rewrite lookup_insert_eq, HQ|by rewrite lookup_insert_ne by congruence].
    naive_solver. }
  constructor; try done.
  - intros i Hi. unfold not. rewrite H. by apply Hb.
  - intros i Hi. apply H. by apply Hlo.
  - intros Hlt. unfold not. rewrite H. by apply Ha.
Qed.

Lemma kinv_rotate s Q p l :
  kinv s Q → 0 <= p < NUM_TSKPRI → Q !! RDYQ p = Some l →
  kinv (knl_rotate_ready_queue p s) (<[RDYQ p := rotated l]> Q).
Proof.
  intros Hk Hp HQ. unfold knl_rotate_ready_queue, knl_ready_queue_rotate.
  pose proof (ki_qwf _ _ _ _ Hk) as Hw. destruct l as [|y l].
  - rewrite (QueRemoveNext_empty _ _ _ Hw HQ). replace (set_s_q (s_q s) s) with s by (by destruct s).
    simpl. rewrite (insert_id Q) by done. by eapply kinvx_reschedule.
  - rewrite (QueRemoveNext_cons _ _ _ _ _ Hw HQ).
    pose proof (qwf_remove _ _ _ [] _ _ Hw HQ) as Hw1.
    pose proof (qwf_remove_unplaced _ _ _ [] _ _ Hw HQ) as Hu. simpl in Hw1, Hu.
    pose proof (qwf_insert _ _ (RDYQ p) l [] y Hw1 ltac:(by rewrite lookup_insert_eq, app_nil_r) Hu) as Hw2.
    simpl in Hw2. rewrite insert_insert_eq in Hw2.
    eapply (kinvx_reschedule false). simpl. set (m' := QueInsert y _ _) in *.
    assert (Hin : ∀ x h, in_ring (<[RDYQ p := l ++ [y]]> Q) x h ↔ in_ring Q x h).
    { intros x h. destruct (decide (h = RDYQ p)) as [->|].
      - unfold in_ring. rewrite lookup_insert_eq, HQ. split; intros (? & [= <-] & Hx); eexists; (split; [done|]); set_solver.
      - unfold in_ring. by rewrite lookup_insert_ne by done. }
    assert (Hun : ∀ x, unplaced (<[RDYQ p := l ++ [y]]> Q) x ↔ unplaced Q x)
      by (intros x; unfold unplaced; by setoid_rewrite Hin).
    pose proof (ki_typed _ _ _ _ Hk) as Hty. pose proof (ki_home _ _ _ _ Hk) as Hhome.
    pose proof (ki_tmeb _ _ _ _ Hk) as Htmeb. destruct Hk. constructor; simpl; try done.
    + intros h k z. destruct (decide (h = RDYQ p)) as [->|].
      * rewrite lookup_insert_eq. intros [= <-] Hz. eapply Hty; [done|]. set_solver.
      * rewrite lookup_insert_ne by done. apply Hty.
    + intros h Hh. destruct (decide (h = RDYQ p)) as [->|]; [by rewrite lookup_insert_eq|].
      rewrite lookup_insert_ne by done. auto.
    + eapply rdy_ok_same; [done|done|]. by destruct l.
    + intros t Ht. specialize (Hhome t Ht). unfold placed in *. case_match; [by apply Hin|by apply Hun].
    + intros t Ht. specialize (Htmeb t Ht). unfold tmeb_placed in *. case_match; [by rewrite !Hin|by apply Hun].
Qed.

(** ** A task in the ready queue changes its TCB first *)

Definition sched_fields (f : TCB → TCB) : Prop :=
  ∀ tc, t_priority (f tc) = t_priority tc ∧ t_klocked (f tc) = t_klocked tc ∧
        t_klockwait (f tc) = t_klockwait tc.

Lemma make_non_ready_upd t f s :
  sched_fields f → t_klockwait (s_tcb s t) = false →
  knl_make_non_ready t (upd_tcb t f s) = upd_tcb t f (knl_make_non_ready t s).
Proof.
  intros Hf Hw. destruct (Hf (s_tcb s t)) as (Ep & Ek & Ew).
  assert (E : knl_ready_queue_delete t (upd_tcb t f s) = upd_tcb t f (knl_ready_queue_delete t s)).
  { unfold knl_ready_queue_delete. cbn zeta. change (s_rq (upd_tcb t f s)) with (s_rq s).
    destruct (bool_decide (klocktsk (s_rq s) = Some t)); simpl; upd_simpl; rewrite Ep, Ew, Hw;
      repeat case_match; done. }
  unfold knl_make_non_ready. rewrite E. change (s_schedtsk (upd_tcb t f (knl_ready_queue_delete t s)))
    with (s_schedtsk (knl_ready_queue_delete t s)).
  case_decide; done.
Qed.
