(* ===== verification/Timer.v ===== *)
(** * The timer queue: kernel/tkernel/timer.h, kernel/tkernel/timer.c

    Times are 32-bit counters that wrap around.  The queue is kept in the order of
    the events' distance from [ofs], the oldest time that still counts as past.  The
    interrupt handler, which runs the callbacks, is in Hooks.v. *)
From S2P Require Import Prelude Config Queue Kernel KInv KCheck Task.

(* src: kernel/tkernel/timer.h 52-52 ABSTIM_DIFF_MIN *)
Definition ABSTIM_DIFF_MIN : Z := 0x7FFFFFFF.

(* src: kernel/tkernel/timer.h 54-57 knl_abstim_reached *)
Definition knl_abstim_reached (curtim evttim : Z) : bool := u32 (curtim - evttim) <=? ABSTIM_DIFF_MIN.

(** [hilo_ll] and [ll_hilo]: a SYSTIM is a signed high and an unsigned low word. *)
(* src: kernel/tkernel/timer.h 29-36 knl_toLSYSTIM *)
Definition knl_toLSYSTIM (time : Z * Z) : Z := Z.lor (s64 (Z.shiftl time.1 32)) time.2.

(* src: kernel/tkernel/timer.h 38-45 knl_toSYSTIM *)
Definition knl_toSYSTIM (ltime : Z) : Z * Z := (s32 (Z.shiftr ltime 32), u32 ltime).

(* src: kernel/knlinc/longlong.h 29-29 lltoul *)
Definition lltoul (a : Z) : Z := u32 a.

(* src: kernel/tkernel/timer.c 45-54 knl_timer_startup *)
Definition knl_timer_startup (s : SCH) : Z * SCH :=
  let s := set_s_current_time 0 (set_s_real_time_ofs 0 s) in
  (E_OK, upd_q (QueInit TIMERQ) s).

(** At most one event per task, cyclic handler and alarm handler is queued. *)
Definition TFUEL : nat := S (Z.to_nat (NUM_TSKID + NUM_CYCID + NUM_ALMID)).

Definition time_ofs (s : SCH) : Z := u32 (lltoul (s_current_time s) - ABSTIM_DIFF_MIN).

(** The order of the queue: the distance of an event from [ofs]. *)
(* src: kernel/tkernel/timer.c 76-76 knl_enqueue_tmeb *)
Definition time_key (ofs : Z) (s : SCH) (q : node) : Z := u32 (tm_time (s_tmeb s q) - ofs).

(* src: kernel/tkernel/timer.c 70-81 knl_enqueue_tmeb *)
Definition knl_enqueue_tmeb (event : node) (s : SCH) : SCH :=
  let ofs := time_ofs s in
  let q := que_find (λ q, time_key ofs s event <? time_key ofs s q) TFUEL (s_q s)
             TIMERQ (qnext (s_q s) TIMERQ) in
  upd_q (QueInsert event q) s.

(* src: kernel/tkernel/timer.c 97-110 knl_timer_insert *)
Definition knl_timer_insert (event : node) (tmout : Z) (callback : CBACK) (s : SCH) : SCH :=
  let s := upd_tmeb event (set_tm_callback callback) s in
  if tmout =? TMO_FEVR then upd_q (QueInit event) s
  else
    let s := upd_tmeb event (set_tm_time (u32 (lltoul (s_current_time s) + tmout + TIMER_PERIOD))) s in
    knl_enqueue_tmeb event s.

(* src: kernel/tkernel/timer.c 112-121 knl_timer_insert_reltim *)
Definition knl_timer_insert_reltim (event : node) (tmout : Z) (callback : CBACK) (s : SCH) : SCH :=
  let s := upd_tmeb event (set_tm_callback callback) s in
  let s := upd_tmeb event (set_tm_time (u32 (lltoul (s_current_time s) + tmout + TIMER_PERIOD))) s in
  knl_enqueue_tmeb event s.

(* src: kernel/tkernel/timer.c 129-135 knl_timer_insert_abs *)
Definition knl_timer_insert_abs (event : node) (time : Z) (callback : CBACK) (s : SCH) : SCH :=
  let s := upd_tmeb event (set_tm_callback callback) s in
  let s := upd_tmeb event (set_tm_time time) s in
  knl_enqueue_tmeb event s.

(* src: kernel/tkernel/timer.h 92-95 knl_timer_delete *)
Definition knl_timer_delete (event : node) (s : SCH) : SCH := upd_q (QueRemove event) s.

(** ** Wrapped time

    [T] is a real time in milliseconds, [u32 T] what a 32-bit counter shows of it. *)

Lemma u32_diff a b : - 2 ^ 31 <= a - b < 2 ^ 31 →
  u32 (u32 a - u32 b) = if b <=? a then a - b else a - b + 2 ^ 32.
Proof.
  intros Hd. autorewrite with u32. unfold u32. destruct (Z.leb_spec b a).
  - apply Z.mod_small. lia.
  - rewrite <- (Z.mod_add _ 1) by lia. rewrite Z.mod_small; lia.
Qed.

(** The comparison is exact for events up to 2^31 - 1 ms in the past and 2^31 ms in
    the future, which is the whole range of a 32-bit counter. *)
Lemma abstim_reached_spec cur evt :
  cur - 2 ^ 31 < evt <= cur + 2 ^ 31 →
  knl_abstim_reached (u32 cur) (u32 evt) = (evt <=? cur).
Proof.
  intros He. unfold knl_abstim_reached, ABSTIM_DIFF_MIN. rewrite u32_diff by lia.
  destruct (Z.leb_spec evt cur), (Z.leb_spec (if evt <=? cur then cur - evt else cur - evt + 2 ^ 32) 0x7FFFFFFF);
    destruct (Z.leb_spec evt cur); try done; lia.
Qed.

(** In that range the key orders events by their real times. *)
Lemma time_key_spec cur evt :
  cur - 2 ^ 31 < evt <= cur + 2 ^ 31 →
  u32 (u32 evt - u32 (u32 cur - ABSTIM_DIFF_MIN)) = evt - (cur - ABSTIM_DIFF_MIN).
Proof.
  intros He. rewrite (u32_sub_l cur ABSTIM_DIFF_MIN). autorewrite with u32.
  unfold ABSTIM_DIFF_MIN. rewrite u32_small; lia.
Qed.

(** ** The timer queue on the invariant *)

(** The event goes behind every event that is due no later. *)
Lemma kinvx_enqueue b x s Q e l :
  kinvx b x s Q → loose x e → Q !! TIMERQ = Some l → unplaced Q e → elem_ok TIMERQ e = true →
  kinvx b x (knl_enqueue_tmeb e s)
    (<[TIMERQ := ins_before (λ q, time_key (time_ofs s) s e <? time_key (time_ofs s) s q) e l]> Q).
Proof.
  intros Hk Hx HQ He Hty. apply kinvx_que_insert; try done.
  etrans; [by eapply kinvx_length_timer|]. unfold TFUEL. lia.
Qed.

(** Starting the timer of the task in hand: queued, or in a ring of its own. *)
Lemma kinv_timer_insert b t tmout cb s Q :
  kinvx b (Some t) s Q → unplaced Q (TMEBT t) → 0 <= t < NUM_TSKID →
  let s' := knl_timer_insert (TMEBT t) tmout cb s in
  ∃ Q', kinvx b (Some t) s' Q' ∧ moves (TMEBT t) Q Q' ∧
    (in_ring Q' (TMEBT t) TIMERQ ∨ in_ring Q' (TMEBT t) (TMEBT t)) ∧
    (∀ h, h ≠ TIMERQ → h ≠ TMEBT t → Q' !! h = Q !! h).
Proof.
  intros Hk Hu Ht. simpl. unfold knl_timer_insert. destruct (tmout =? TMO_FEVR).
  - exists (<[TMEBT t := []]> Q). split_and!.
    + eapply kinvx_QueInit; [by eapply kinvx_ext; [..|exact Hk]|auto with kinv|done|done].
    + intros y h Hne. apply in_ring_init_ne; [by apply unplaced_lookup|done].
    + right. exists []. rewrite lookup_insert_eq. split; [done|left].
    + intros. by rewrite lookup_insert_ne.
  - destruct (ki_heads _ _ _ _ Hk TIMERQ) as [l HQ]; [right; by left|].
    eexists. split_and!.
    + eapply kinvx_enqueue; [by eapply kinvx_ext; [..|exact Hk]|auto with kinv|exact HQ|done|].
      by apply idx_ok_task.
    + intros y h Hne. eapply in_ring_insert_ne; [exact HQ| |done].
      intros z Hz. rewrite elem_of_ins_before. naive_solver.
    + left. eexists. rewrite lookup_insert_eq. split; [done|]. right. apply elem_of_ins_before. by left.
    + intros. by rewrite lookup_insert_ne.
Qed.

(** Stopping it. *)
Lemma kinv_timer_delete b t s Q :
  kinvx b (Some t) s Q → (in_ring Q (TMEBT t) TIMERQ ∨ in_ring Q (TMEBT t) (TMEBT t)) →
  ∃ Q', kinvx b (Some t) (knl_timer_delete (TMEBT t) s) Q' ∧ moves (TMEBT t) Q Q' ∧
    unplaced Q' (TMEBT t) ∧ (∀ h, h ≠ TIMERQ → h ≠ TMEBT t → Q' !! h = Q !! h) ∧
    (∀ l1 l2, Q !! TIMERQ = Some (l1 ++ TMEBT t :: l2) → Q' !! TIMERQ = Some (l1 ++ l2)).
Proof.
  intros Hk [(l & HQ & Hin)|(l & HQ & Hin)].
  - apply elem_of_cons in Hin as [[=]|Hin]. apply list_elem_of_split in Hin as (l1 & l2 & ->).
    destruct (kinvx_remove _ _ _ _ Hk TIMERQ l1 (TMEBT t) l2) as [Hk' Hu]; [auto with kinv|done|done|].
    exists (<[TIMERQ := l1 ++ l2]> Q). split_and!; [done| |done| |].
    + intros y h Hne. eapply in_ring_insert_ne; [exact HQ|set_solver|done].
    + intros. by rewrite lookup_insert_ne.
    + intros k1 k2 E. rewrite E in HQ. injection HQ as E'. rewrite lookup_insert_eq. f_equal.
      symmetry. eapply (mid_unique (TMEBT t)); [eapply qwf_NoDup; [apply Hk|exact E]|exact E'].
  - rewrite (ring_self_nil _ _ _ _ _ _ Hk HQ) in HQ by (by right).
    destruct (kinvx_remove_self _ _ _ _ Hk (TMEBT t)) as [Hk' Hu];
      [auto with kinv|intros [[? _]|[?|?]]; done|done|done|].
    exists (delete (TMEBT t) Q). split_and!; [done| |done| |].
    + intros y h Hne. by apply in_ring_drop_ne.
    + intros. by rewrite lookup_delete_ne.
    + intros k1 k2 E. enough (TIMERQ = TMEBT t) by done. eapply (qwf_disjoint _ _ _ _ (TMEBT t)); [apply Hk| |].
      * eexists. split; [exact E|]. right. apply elem_of_app. right. left.
      * eexists. split; [exact HQ|]. left.
Qed.

(** ** The order of the timer queue *)

(** [due y] is the real time of event [y]; the 32-bit clock tells times apart that are
    at most 2^31 - 1 ms in the past or 2^31 ms in the future of [cur]. *)
Definition due_range (cur : Z) (due : node → Z) (s : SCH) (y : node) : Prop :=
  tm_time (s_tmeb s y) = u32 (due y) ∧ cur - 2 ^ 31 < due y <= cur + 2 ^ 31.

Lemma time_key_due cur due s y :
  lltoul (s_current_time s) = u32 cur → due_range cur due s y →
  time_key (time_ofs s) s y = due y - (cur - ABSTIM_DIFF_MIN).
Proof.
  intros Hc [Ht Hr]. unfold time_key, time_ofs. rewrite Ht, Hc. by apply time_key_spec.
Qed.

Lemma enqueue_due b x s Q e l cur due :
  kinvx b x s Q → loose x e → Q !! TIMERQ = Some l → unplaced Q e → elem_ok TIMERQ e = true →
  lltoul (s_current_time s) = u32 cur → (∀ y, y ∈ e :: l → due_range cur due s y) →
  let l' := ins_before (λ q, due e <? due q) e l in
  kinvx b x (knl_enqueue_tmeb e s) (<[TIMERQ := l']> Q).
Proof.
  intros Hk Hx HQ Hu He Hc Hd l'. pose proof (kinvx_enqueue b x s Q e l Hk Hx HQ Hu He) as Hk'.
  assert (E : ins_before (λ q, time_key (time_ofs s) s e <? time_key (time_ofs s) s q) e l = l'); [|by rewrite E in Hk'].
  apply ins_before_ext. intros y Hy.
  rewrite !(time_key_due cur due) by first [done|apply Hd; rewrite elem_of_cons; auto].
  destruct (Z.ltb_spec (due e) (due y)); [apply Z.ltb_lt; lia|apply Z.ltb_ge; lia].
Qed.

Definition sorted_due (due : node → Z) : list node → Prop := StronglySorted (λ a b, due a <= due b).

Lemma StronglySorted_ext (d d' : node → Z) l :
  (∀ y, y ∈ l → d y = d' y) → sorted_due d l → sorted_due d' l.
Proof.
  intros E. unfold sorted_due. induction 1 as [|y l Hs IH Hall]; [constructor|]. constructor.
  - apply IH. intros. apply E. by right.
  - rewrite Forall_forall in Hall |- *. intros z Hz. rewrite <- !E by first [by left|by right]. auto.
Qed.

(** C12: The timer queue is ordered by due time, across the wrap-around of the clock.
    Starting the time-out of a task, with any number of milliseconds a TMO can hold,
    puts its event behind every event that is due no later and in front of every one that
    is due later, so that equal times fire in the order they were started and the
    queue stays sorted by real due time; the event is due one timer period after the
    time-out, never early. *)
Theorem timer_insert_order (b : bool) (s : SCH) (Q : gmap node (list node)) (t tmout cur : Z)
    (cb : CBACK) (due : node → Z) (l : list node) :
  let s' := knl_timer_insert (TMEBT t) tmout cb s in
  let due' := <[TMEBT t := cur + tmout + TIMER_PERIOD]> due in
  kinvx b (Some t) s Q → Q !! TIMERQ = Some l → unplaced Q (TMEBT t) → 0 <= t < NUM_TSKID →
  0 <= tmout <= INT_MAX → lltoul (s_current_time s) = u32 cur →
  (∀ y, y ∈ l → due_range cur due s y) → sorted_due due l →
  ∃ l1 l2, l = l1 ++ l2 ∧
    kinvx b (Some t) s' (<[TIMERQ := l1 ++ TMEBT t :: l2]> Q) ∧
    (∀ y, y ∈ l1 → due y <= due' (TMEBT t)) ∧ (∀ y, y ∈ l2 → due' (TMEBT t) < due y) ∧
    sorted_due due' (l1 ++ TMEBT t :: l2) ∧
    ∀ y, y ∈ l1 ++ TMEBT t :: l2 → due_range cur due' s' y.
Proof.
  intros s' due' Hk HQ Hu Ht Htm Hc Hd Hs. set (e := TMEBT t) in *.
  set (s1 := upd_tmeb e (set_tm_time (u32 (lltoul (s_current_time s) + tmout + TIMER_PERIOD)))
               (upd_tmeb e (set_tm_callback cb) s)).
  assert (Es : s' = knl_enqueue_tmeb e s1)
    by (unfold s', knl_timer_insert; destruct (Z.eqb_spec tmout TMO_FEVR) as [E|]; [unfold TMO_FEVR in E; lia|done]).
  assert (He : e ∉ l) by (intros Hin; apply (Hu TIMERQ); by eapply in_ring_elem).
  assert (Hold : ∀ y, y ∈ l → due' y = due y)
    by (intros y Hy; unfold due'; rewrite fn_lookup_insert_ne; [done|by intros ->]).
  assert (Hd' : ∀ y, y ∈ e :: l → due_range cur due' s1 y).
  { intros y [->|Hy]%elem_of_cons.
    - split.
      + simpl. unfold due'. upd_simpl. simpl. rewrite Hc, <- (Z.add_assoc (u32 cur)), u32_add_l. f_equal. lia.
      + unfold due'. rewrite fn_lookup_insert. unfold TIMER_PERIOD, CNF_TIMER_PERIOD, INT_MAX in *. lia.
    - destruct (Hd y Hy) as [H1 H2]. split; [|by rewrite Hold].
      rewrite Hold by done. simpl. rewrite !fn_lookup_insert_ne; [done|by intros ->..]. }
  assert (Hk1 : kinvx b (Some t) s1 Q) by (by eapply kinvx_ext; [..|exact Hk]).
  pose proof (enqueue_due b (Some t) s1 Q e l cur due' Hk1 (loose_tmebt t) HQ Hu
    (idx_ok_task KTmebTsk t eq_refl Ht) Hc Hd') as Hk'. cbv zeta in Hk'.
  pose proof (ins_before_sorted due' e l (StronglySorted_ext due due' l ltac:(intros; by rewrite Hold) Hs)) as Hs'.
  destruct (ins_before_split (λ q, due' e <? due' q) e l) as (l1 & l2 & El & Ei & Hl1 & Hl2).
  rewrite Ei in Hk', Hs'. exists l1, l2. rewrite <- Es in Hk'.
  assert (Hsub : ∀ y, y ∈ l1 ∨ y ∈ l2 → y ∈ l) by (intros y; by rewrite El, elem_of_app).
  split_and!; [done|done|..|done|].
  - intros y Hy. rewrite <- Hold by auto. rewrite Forall_forall in Hl1. specialize (Hl1 y Hy). simpl in Hl1.
    by apply Z.ltb_ge in Hl1.
  - intros y Hy. rewrite <- Hold by auto. destruct l2 as [|z l2]; [by apply not_elem_of_nil in Hy|].
    specialize (Hl2 z l2 eq_refl). simpl in Hl2. apply Z.ltb_lt in Hl2.
    assert (due' z <= due' y); [|lia].
    rewrite El in Hs, Hold. assert (sorted_due due (z :: l2)) as Hsz by (by eapply StronglySorted_app_1_r).
    apply StronglySorted_inv in Hsz as [_ Hall]. rewrite Forall_forall in Hall.
    apply elem_of_cons in Hy as [->|Hy]; [done|].
    rewrite !Hold by (rewrite elem_of_app, elem_of_cons; auto). by apply Hall.
  - intros y Hy. rewrite Es. change (due_range cur due' s1 y). apply Hd'.
    rewrite El. revert Hy. rewrite !elem_of_app, !elem_of_cons, elem_of_app. tauto.
Qed.

Lemma timer_insert_order_witness :
  let tasks := [ex_ready 3; ex_waits 1 2 knl_wspec_slp 0 WI_none] in
  let Q := ex_Q tasks [(TIMERQ, [TMEBT 1]); (TSKQ 1, [])] in
  let s := upd_tmeb (TMEBT 1) (set_tm_time 4) (set_s_current_time (2 ^ 32 - 1)
             (ex_sch tasks [(TIMERQ, [TMEBT 1]); (TSKQ 1, [])])) in
  kinvx true (Some 0) (knl_timer_insert (TMEBT 0) 10 CB_NULL s) (<[TIMERQ := [TMEBT 1; TMEBT 0]]> Q).
Proof.
  intros tasks Q s.
  assert (Hk : kinv (ex_sch tasks [(TIMERQ, [TMEBT 1]); (TSKQ 1, [])]) Q) by (apply ex_kinv; by vm_compute).
  destruct (timer_insert_order true s Q 0 10 (2 ^ 32 - 1) CB_NULL (λ _, 2 ^ 32 + 4) [TMEBT 1])
    as (l1 & l2 & E & H & _ & H2 & _).
  - apply kinvx_take. eapply kinvx_ext; [..|exact Hk]; done.
  - by vm_compute.
  - apply unplaced_b_spec. by vm_compute.
  - done.
  - done.
  - done.
  - intros y ->%list_elem_of_singleton. by split; vm_compute.
  - by repeat constructor.
  - destruct l1 as [|y l1]; simpl in E.
    + subst l2. specialize (H2 (TMEBT 1) ltac:(left)). rewrite fn_lookup_insert in H2. vm_compute in H2. done.
    + injection E as <- E. symmetry in E. apply app_nil in E as [-> ->]. exact H.
Defined.
