(* ===== verification/Wait.v ===== *)
(** * Common wait routines: kernel/tkernel/wait.h, kernel/tkernel/wait.c

    How a task leaves the ready queue for the wait queue of an object and comes back.
    The two routines that run a release hook are in Hooks.v. *)
From S2P Require Import Prelude Config Queue Kernel ReadyQueue KInv Task Timer.

(** The part all control blocks share; the interface of the objects to these
    routines. *)
(* src: kernel/tkernel/wait.h 109-116 GCB *)
Record GCB := mkGCB { wait_queue : node; objid : Z; objatr : Z }.

(** A control block type whose head is a GCB: [gcb i cb] reads block number [i]. *)
Class HasGCB (CB : Type) := gcb : Z → CB → GCB.

#[export] Instance semcb_gcb : HasGCB SEMCB := λ i cb, mkGCB (SEMQ i) (semid cb) (sematr cb).
#[export] Instance flgcb_gcb : HasGCB FLGCB := λ i cb, mkGCB (FLGQ i) (flgid cb) (flgatr cb).
#[export] Instance mbxcb_gcb : HasGCB MBXCB := λ i cb, mkGCB (MBXQ i) (mbxid cb) (mbxatr cb).
#[export] Instance mtxcb_gcb : HasGCB MTXCB := λ i cb, mkGCB (MTXQ i) (mtxid cb) (mtxatr cb).
#[export] Instance mbfcb_gcb : HasGCB MBFCB := λ i cb, mkGCB (SMBFQ i) (mbfid cb) (mbfatr cb).
#[export] Instance mpfcb_gcb : HasGCB MPFCB := λ i cb, mkGCB (MPFQ i) (mpfid cb) (mpfatr cb).
#[export] Instance mplcb_gcb : HasGCB MPLCB := λ i cb, mkGCB (MPLQ i) (mplid cb) (mplatr cb).
#[export] Instance porcb_gcb : HasGCB PORCB := λ i cb, mkGCB (CALQ i) (porid cb) (poratr cb).

(* src: kernel/tkernel/wait.h 49-53 knl_wait_cancel *)
Definition knl_wait_cancel (tcb : Z) (s : SCH) : SCH :=
  let s := knl_timer_delete (TMEBT tcb) s in
  upd_q (QueRemove (TSKQ tcb)) s.

(* src: kernel/tkernel/wait.h 78-96 knl_queue_insert_tpri *)
Definition knl_queue_insert_tpri (tcb : Z) (queue : node) (s : SCH) : SCH :=
  let val := t_priority (s_tcb s tcb) in
  let q := que_find (λ q, val <? t_priority (s_tcb s (as_tcb q))) QFUEL (s_q s)
             queue (qnext (s_q s) queue) in
  upd_q (QueInsert (TSKQ tcb) q) s.

(* src: kernel/tkernel/wait.h 143-150 knl_make_non_wait *)
Definition knl_make_non_wait (tcb : Z) (s : SCH) : SCH :=
  if t_state (s_tcb s tcb) =? TS_WAIT then knl_make_ready tcb s
  else upd_tcb tcb (set_t_state TS_SUSPEND) s.

(* src: kernel/tkernel/wait.h 155-160 knl_wait_release *)
Definition knl_wait_release (tcb : Z) (s : SCH) : SCH :=
  let s := knl_timer_delete (TMEBT tcb) s in
  let s := upd_q (QueRemove (TSKQ tcb)) s in
  knl_make_non_wait tcb s.

(* src: kernel/tkernel/wait.c 22-26 knl_wait_release_ok *)
Definition knl_wait_release_ok (tcb : Z) (s : SCH) : SCH :=
  let s := knl_wait_release tcb s in
  write_wercd tcb E_OK s.

(* src: kernel/tkernel/wait.c 28-32 knl_wait_release_ok_ercd *)
Definition knl_wait_release_ok_ercd (tcb ercd : Z) (s : SCH) : SCH :=
  let s := knl_wait_release tcb s in
  write_wercd tcb ercd s.

(** The state change both [knl_make_wait] routines start with. *)
Definition ctx_to_wait (s : SCH) : SCH :=
  let c := ctx s in
  if t_state (s_tcb s c) =? TS_READY then
    upd_tcb c (set_t_state TS_WAIT) (knl_make_non_ready c s)
  else if t_state (s_tcb s c) =? TS_SUSPEND then
    upd_tcb c (set_t_state TS_WAITSUS) s
  else s.

(* src: kernel/tkernel/wait.c 65-77 knl_make_wait *)
Definition knl_make_wait (tmout atr : Z) (s : SCH) : SCH :=
  let s := ctx_to_wait s in
  knl_timer_insert (TMEBT (ctx s)) tmout (CB_tmout (ctx s)) s.

(* src: kernel/tkernel/wait.c 79-91 knl_make_wait_reltim *)
Definition knl_make_wait_reltim (tmout atr : Z) (s : SCH) : SCH :=
  let s := ctx_to_wait s in
  knl_timer_insert_reltim (TMEBT (ctx s)) tmout (CB_tmout (ctx s)) s.

(** The loop of [knl_wait_delete]; every round removes a task from the queue, so
    [QFUEL] rounds empty it. *)
(* src: kernel/tkernel/wait.c 101-105 knl_wait_delete *)
Fixpoint wait_delete_loop (fuel : nat) (h : node) (s : SCH) : SCH :=
  match fuel with
  | O => s
  | S fuel =>
      if isQueEmpty h (s_q s) then s
      else
        let tcb := as_tcb (qnext (s_q s) h) in
        let s := knl_wait_release tcb s in
        let s := write_wercd tcb E_DLT s in
        wait_delete_loop fuel h s
  end.

(* src: kernel/tkernel/wait.c 97-106 knl_wait_delete *)
Definition knl_wait_delete (h : node) (s : SCH) : SCH := wait_delete_loop QFUEL h s.

(* src: kernel/tkernel/wait.c 111-118 knl_wait_tskid *)
Definition knl_wait_tskid (h : node) (s : SCH) : Z :=
  if isQueEmpty h (s_q s) then 0 else t_tskid (s_tcb s (as_tcb (qnext (s_q s) h))).

(* src: kernel/tkernel/wait.c 124-136 knl_gcb_make_wait *)
Definition knl_gcb_make_wait (g : GCB) (tmout : Z) (s : SCH) : SCH :=
  let s := write_wercd (ctx s) E_TMOUT s in
  if negb (tmout =? TMO_POL) then
    let s := upd_tcb (ctx s) (set_t_wid (objid g)) s in
    let s := knl_make_wait tmout (objatr g) s in
    if has (objatr g) TA_TPRI then knl_queue_insert_tpri (ctx s) (wait_queue g) s
    else upd_q (QueInsert (TSKQ (ctx s)) (wait_queue g)) s
  else s.

(* src: kernel/tkernel/wait.c 143-147 knl_gcb_change_priority *)
Definition knl_gcb_change_priority (g : GCB) (tcb : Z) (s : SCH) : SCH :=
  let s := upd_q (QueRemove (TSKQ tcb)) s in
  knl_queue_insert_tpri tcb (wait_queue g) s.

(* src: kernel/tkernel/wait.c 154-168 knl_gcb_top_of_wait_queue *)
Definition knl_gcb_top_of_wait_queue (g : GCB) (tcb : Z) (s : SCH) : Z :=
  if isQueEmpty (wait_queue g) (s_q s) then tcb
  else
    let q := as_tcb (qnext (s_q s) (wait_queue g)) in
    if negb (has (objatr g) TA_TPRI) then q
    else if t_priority (s_tcb s tcb) <? t_priority (s_tcb s q) then tcb else q.

(** ** Leaving a wait queue *)

Lemma home_waiting tc t : waiting tc = true → t_state tc ≠ TS_READY → t_state tc ≠ TS_NONEXIST →
  home tc t = Some (wait_home (t_wspec tc) (t_wid tc) t).
Proof.
  intros Hw ??. unfold home. rewrite Hw.
  by destruct (Z.eqb_spec (t_state tc) TS_READY), (Z.eqb_spec (t_state tc) TS_NONEXIST).
Qed.

Lemma waiting_states tc t :
  task_ok tc t → waiting tc = true → t_state tc = TS_WAIT ∨ t_state tc = TS_WAITSUS.
Proof.
  intros [Hst _] Hw. rewrite !elem_of_cons, elem_of_nil in Hst. unfold waiting in Hw.
  destruct Hst as [E|[E|[E|[E|[E|[E|[]]]]]]]; rewrite E in Hw; try done; auto.
Qed.

(** Where a waiting task is. *)
Lemma kinv_waiting_split b x t s Q :
  kinvx b x s Q → x ≠ Some t → waiting (s_tcb s t) = true →
  let h := wait_home (t_wspec (s_tcb s t)) (t_wid (s_tcb s t)) t in
  (h = TSKQ t ∧ Q !! TSKQ t = Some []) ∨ (obj_head h = true ∧ ∃ l1 l2, Q !! h = Some (l1 ++ TSKQ t :: l2)).
Proof.
  intros Hk Hx Hw h. pose proof (ki_home _ _ _ _ Hk t Hx) as Hh.
  pose proof (ki_task _ _ _ _ Hk t Hx) as Hok.
  rewrite home_waiting in Hh; [|done|by destruct (waiting_states _ _ Hok Hw) as [-> | ->]..].
  fold h in Hh. destruct Hh as (l & HQ & Hin).
  destruct (decide (h = TSKQ t)) as [E|Hne].
  - left. split; [done|]. rewrite E in HQ. by rewrite (ring_self_nil _ _ _ _ _ _ Hk HQ) in HQ by (by left).
  - right. apply elem_of_cons in Hin as [?|Hin]; [congruence|].
    apply list_elem_of_split in Hin as (l1 & l2 & ->). split; [|eauto].
    unfold h, wait_home in *. by destruct (t_wspec (s_tcb s t)).
Qed.

(** A change of the object queues at one head only. *)
Definition same_heads (h : node) (Q Q' : gmap node (list node)) : Prop :=
  ∀ h', obj_head h' = true → h' ≠ h → Q' !! h' = Q !! h'.

Lemma obj_head_kind h : obj_head h = true → nd_kind h ≠ KRdy ∧ ∀ t, h ≠ TIMERQ ∧ h ≠ TSKQ t ∧ h ≠ TMEBT t.
Proof. intros Ho. split; [by intros E; unfold obj_head in Ho; rewrite E in Ho|]. intros t. by split_and!; intros ->. Qed.

(** Timer stop and removal from the wait queue: the task is in hand, linked nowhere. *)
Lemma kinv_wait_cancel t s Q :
  kinv s Q → waiting (s_tcb s t) = true →
  let h := wait_home (t_wspec (s_tcb s t)) (t_wid (s_tcb s t)) t in
  ∃ Q', kinvx true (Some t) (knl_wait_cancel t s) Q' ∧ unplaced Q' (TSKQ t) ∧ unplaced Q' (TMEBT t) ∧
    same_heads h Q Q' ∧ (∀ l1 l2, h ≠ TSKQ t → Q !! h = Some (l1 ++ TSKQ t :: l2) → Q' !! h = Some (l1 ++ l2)) ∧
    (∀ l1 l2, Q !! TIMERQ = Some (l1 ++ TMEBT t :: l2) → Q' !! TIMERQ = Some (l1 ++ l2)).
Proof.
  intros Hk Hw h. pose proof (ki_tmeb _ _ _ _ Hk t ltac:(done)) as Ht.
  unfold tmeb_placed in Ht. rewrite Hw in Ht.
  destruct (kinv_waiting_split _ _ t _ _ Hk ltac:(done) Hw) as [[Eh Hself]|(Ho & l1 & l2 & HQ)];
    destruct (kinv_timer_delete _ t _ _ (kinvx_take _ t _ _ Hk) Ht) as (Q1 & Hk1 & Hm1 & Hu1 & Hf1 & Hti);
    fold h in Eh || fold h in Ho, HQ.
  - destruct (kinvx_remove_self _ _ _ _ Hk1 (TSKQ t)) as [Hk2 Hu2];
      [auto with kinv|intros [[? _]|[?|?]]; done|done|by rewrite Hf1|].
    exists (delete (TSKQ t) Q1). split_and!; [done|done|..].
    + intros h'. rewrite in_ring_delete. intros [_ Hin]. by apply (Hu1 h').
    + intros h' Ho' Hne. destruct (obj_head_kind _ Ho') as [_ Hn]. destruct (Hn t) as (?&?&?).
      rewrite lookup_delete_ne by done. by apply Hf1.
    + done.
    + intros. rewrite lookup_delete_ne by done. by apply Hti.
  - destruct (obj_head_kind _ Ho) as [Hrdy Hn]. destruct (Hn t) as (?&?&?).
    assert (Q1 !! h = Some (l1 ++ TSKQ t :: l2)) as HQ1 by (by rewrite Hf1).
    destruct (kinvx_remove _ _ _ _ Hk1 h l1 (TSKQ t) l2) as [Hk2 Hu2]; [auto with kinv|done|done|].
    exists (<[h := l1 ++ l2]> Q1). split_and!; [done|done|..].
    + intros h'. rewrite (in_ring_insert_ne _ _ (TSKQ t)); [apply Hu1|exact HQ1|set_solver|done].
    + intros h' Ho' Hne. destruct (obj_head_kind _ Ho') as [_ Hn']. destruct (Hn' t) as (?&?&?).
      rewrite lookup_insert_ne by done. by apply Hf1.
    + intros k1 k2 _ HQ'. rewrite HQ in HQ'. injection HQ' as E.
      assert (NoDup (l1 ++ TSKQ t :: l2)) as Hnd by (eapply qwf_NoDup; [apply Hk|done]).
      pose proof (ldel_app (TSKQ t) l1 l2 Hnd) as E1. rewrite E in Hnd, E1.
      rewrite (ldel_app (TSKQ t) k1 k2 Hnd) in E1. by rewrite lookup_insert_eq, <- E1.
    + intros. rewrite lookup_insert_ne by done. by apply Hti.
Qed.

(** The TCB of a released task. *)
Definition released (tc : TCB) : TCB :=
  set_t_state (if t_state tc =? TS_WAIT then TS_READY else TS_SUSPEND) tc.

Lemma task_ok_released tc t : task_ok tc t → waiting tc = true → task_ok (released tc) t.
Proof.
  intros Hok Hw. pose proof (waiting_states _ _ Hok Hw) as Hst. unfold released.
  destruct Hok, Hst as [E|E]; rewrite E in *; constructor; simpl; try done;
    try (intros _; auto; fail); try set_solver.
  all: intros _; rewrite tk_sus_iff0 by done; set_solver.
Qed.

(** A released task becomes ready, behind the tasks of its priority, or stays
    suspended; only its own queue, its timer and its state change. *)
Lemma kinv_wait_release t s Q :
  kinv s Q → waiting (s_tcb s t) = true →
  let h := wait_home (t_wspec (s_tcb s t)) (t_wid (s_tcb s t)) t in
  let s' := knl_wait_release t s in
  ∃ Q', kinv s' Q' ∧ s_tcb s' = <[t := released (s_tcb s t)]> (s_tcb s) ∧ same_rest s s' ∧
    same_heads h Q Q' ∧ (∀ l1 l2, h ≠ TSKQ t → Q !! h = Some (l1 ++ TSKQ t :: l2) → Q' !! h = Some (l1 ++ l2)) ∧
    (∀ l1 l2, Q !! TIMERQ = Some (l1 ++ TMEBT t :: l2) → Q' !! TIMERQ = Some (l1 ++ l2)).
Proof.
  intros Hk Hw h s'.
  pose proof (ki_task _ _ _ _ Hk t ltac:(done)) as Hok.
  pose proof (task_ok_released _ _ Hok Hw) as Hok'.
  destruct (kinv_wait_cancel t s Q Hk Hw) as (Q1 & Hk1 & Hu & Hut & Hf & Hh & Hti). fold h in Hf, Hh.
  change s' with (knl_make_non_wait t (knl_wait_cancel t s)).
  set (s1 := knl_wait_cancel t s) in *. unfold knl_make_non_wait. change (s_tcb s1) with (s_tcb s).
  unfold released in Hok'. unfold released. destruct (t_state (s_tcb s t) =? TS_WAIT) eqn:E.
  - destruct (kinv_make_ready t s1 Q1 Hk1 Hu Hut Hok') as (l & HQ & Hk2 & Htcb).
    eexists. split_and!; [exact Hk2|done|..].
    + etrans; [|apply same_rest_make_ready]. by constructor.
    + intros h' Ho Hne. destruct (obj_head_kind _ Ho) as [Hr _].
      rewrite lookup_insert_ne; [by apply Hf|]. intros <-. done.
    + intros l1 l2 Hne HQ'. rewrite lookup_insert_ne; [by apply Hh|].
      intros Eh. clear Hh Hf. unfold h, wait_home in Eh. destruct (t_wspec (s_tcb s t)); done.
    + intros. rewrite lookup_insert_ne by done. by apply Hti.
  - exists Q1. split_and!; [|done|by constructor|done|done|done].
    apply (kinvx_put _ t); [by apply kinvx_upd_tcb|..]; simpl; rewrite fn_lookup_insert; done.
Qed.

(** ** Entering a wait queue *)

(** Everything but the links, the TCBs, the ready queue, [knl_schedtsk] and the timer
    events. *)
Record same_vars (s s' : SCH) : Prop := {
  sv_ctx : same_ctx s s';
  sv_ercd : s_ercd s' = s_ercd s;
  sv_rcvsz : s_rcvsz s' = s_rcvsz s
}.

#[export] Instance same_vars_preorder : PreOrder same_vars.
Proof.
  split; [by intros s; constructor|].
  intros s1 s2 s3 [E1 E2 E3] [F1 F2 F3]. constructor; [by etrans|congruence..].
Qed.

Lemma same_rest_vars s s' : same_rest s s' → same_vars s s'.
Proof. by intros []. Qed.

Lemma same_vars_timer_insert e tmout cb s : same_vars s (knl_timer_insert e tmout cb s).
Proof. unfold knl_timer_insert. by case_match. Qed.

Lemma task_ok_to_wait tc t :
  task_ok tc t → t_state tc = TS_READY → t_wercd tc = Some t → task_ok (set_t_state TS_WAIT tc) t.
Proof.
  intros Hok Hst Hwe. assert (t_state tc ≠ TS_NONEXIST) as HN by (by rewrite Hst).
  constructor; simpl; intros; try done; try (by apply Hok); [set_solver|].
  rewrite (tk_sus_iff _ _ Hok HN), Hst. split; intros [?|?]; done.
Qed.

(** The running task leaves the ready queue and its timer starts; it is in hand. *)
Lemma kinv_make_wait tmout atr s Q :
  let c := ctx s in
  let s' := knl_make_wait tmout atr s in
  kinv s Q → t_state (s_tcb s c) = TS_READY →
  ∃ Q', kinvx true (Some c) s' Q' ∧ unplaced Q' (TSKQ c) ∧
    (in_ring Q' (TMEBT c) TIMERQ ∨ in_ring Q' (TMEBT c) (TMEBT c)) ∧
    (∀ h, obj_head h = true → Q' !! h = Q !! h) ∧
    s_tcb s' = <[c := set_t_state TS_WAIT (s_tcb s c)]> (s_tcb s) ∧ same_vars s s'.
Proof.
  intros c s' Hk Hst. destruct (kinv_make_non_ready c s Q Hk Hst) as (l1 & l2 & HQ & Hk1 & Hu & Hut & Htcb).
  set (Q1 := <[RDYQ (t_priority (s_tcb s c)) := l1 ++ l2]> Q) in *.
  set (s1 := upd_tcb c (set_t_state TS_WAIT) (knl_make_non_ready c s)).
  pose proof (same_rest_make_non_ready c s) as Hs1.
  assert (ctx_to_wait s = s1) as E1 by (unfold ctx_to_wait; fold c; by rewrite Hst).
  assert (ctx s1 = c) as Ec by (unfold c, ctx, s1; simpl; by rewrite (sc_ctxtsk _ _ (sr_ctx _ _ Hs1))).
  assert (Hk2 : kinvx true (Some c) s1 Q1) by (by apply kinvx_upd_tcb).
  unfold s', knl_make_wait. rewrite E1, Ec.
  destruct (kinv_timer_insert true c tmout (CB_tmout c) s1 Q1) as (Q2 & Hk3 & Hm & Hp & Hf); [done|done| |].
  { apply (tk_range _ _ (ki_task _ _ _ _ Hk c ltac:(done))). by rewrite Hst. }
  exists Q2. split_and!; [done|..|done| | |].
  - intros h. rewrite (Hm (TSKQ c) h) by done. apply Hu.
  - intros h Ho. destruct (obj_head_kind _ Ho) as [Hr Hn]. destruct (Hn c) as (?&?&?).
    rewrite Hf by done. unfold Q1. rewrite lookup_insert_ne; [done|]. intros <-. done.
  - unfold knl_timer_insert. transitivity (s_tcb s1); [by case_match|]. unfold s1. simpl. by rewrite Htcb.
  - etrans; [|apply same_vars_timer_insert]. etrans; [apply same_rest_vars; exact Hs1|]. by constructor.
Qed.

(** The task in hand waits on no object: its node is in a ring of its own. *)
Lemma kinv_put_alone t s Q :
  kinvx true (Some t) s Q → unplaced Q (TSKQ t) →
  (in_ring Q (TMEBT t) TIMERQ ∨ in_ring Q (TMEBT t) (TMEBT t)) →
  waiting (s_tcb s t) = true → wait_home (t_wspec (s_tcb s t)) (t_wid (s_tcb s t)) t = TSKQ t →
  task_ok (s_tcb s t) t → kinv (upd_q (QueInit (TSKQ t)) s) (<[TSKQ t := []]> Q).
Proof.
  intros Hk Hu Hp Hw Hh Hok. apply (kinvx_put _ t).
  - by apply kinvx_QueInit; [|apply loose_tskq| |].
  - change (s_tcb (upd_q (QueInit (TSKQ t)) s)) with (s_tcb s).
    rewrite home_waiting by (first [done|by destruct (waiting_states _ _ Hok Hw) as [-> | ->]]). rewrite Hh.
    exists []. rewrite lookup_insert_eq. split; [done|left].
  - change (s_tcb (upd_q (QueInit (TSKQ t)) s)) with (s_tcb s). unfold tmeb_placed. rewrite Hw.
    rewrite !(in_ring_init_ne Q (TSKQ t) (TMEBT t)); [done|by apply unplaced_lookup|done|by apply unplaced_lookup|done].
  - done.
Qed.

(** The running task, prepared to wait on no object, goes to wait. *)
Lemma kinv_own_wait tmout atr s Q :
  let c := ctx s in
  let s2 := knl_make_wait tmout atr s in
  kinv s Q → t_state (s_tcb s c) = TS_READY → t_wercd (s_tcb s c) = Some c →
  wait_home (t_wspec (s_tcb s c)) (t_wid (s_tcb s c)) c = TSKQ c →
  ∃ Q', kinv (upd_q (QueInit (TSKQ c)) s2) Q' ∧ ctx s2 = c ∧ Q' !! TSKQ c = Some [] ∧
    (∀ h, obj_head h = true → Q' !! h = Q !! h) ∧
    s_tcb s2 = <[c := set_t_state TS_WAIT (s_tcb s c)]> (s_tcb s) ∧ same_vars s s2.
Proof.
  intros c s2 Hk Hst Hwe Hh.
  destruct (kinv_make_wait tmout atr s Q Hk Hst) as (Q2 & Hk2 & Hu & Hp & Hf & Htcb & Hsame).
  fold c s2 in Hk2, Hu, Hp, Htcb, Hsame.
  assert (E2 : s_tcb s2 c = set_t_state TS_WAIT (s_tcb s c)) by (by rewrite Htcb, fn_lookup_insert).
  exists (<[TSKQ c := []]> Q2). split_and!; [| | | |done|done].
  - apply kinv_put_alone; try done; rewrite E2; [done|done|].
    apply task_ok_to_wait; [|done|done]. apply (ki_task _ _ _ _ Hk c ltac:(done)).
  - unfold ctx. by rewrite (sc_ctxtsk _ _ (sv_ctx _ _ Hsame)).
  - by rewrite lookup_insert_eq.
  - intros h Ho. destruct (obj_head_kind _ Ho) as [_ Hn]. destruct (Hn c) as (?&?&?).
    rewrite lookup_insert_ne by done. by apply Hf.
Qed.

Lemma wait_home_kind w wid t : wait_home w wid t = TSKQ t ∨
  (obj_head (wait_home w wid t) = true ∧ kind_ok (wait_home w wid t) (TSKQ t) = true).
Proof. destruct w; simpl; auto. Qed.

Section enqueue_wait.
Context (t : Z) (s : SCH) (Q : gmap node (list node)) (h : node) (l : list node).
Hypothesis Hk : kinvx true (Some t) s Q.
Hypothesis Hu : unplaced Q (TSKQ t).
Hypothesis Ht : in_ring Q (TMEBT t) TIMERQ ∨ in_ring Q (TMEBT t) (TMEBT t).
Hypothesis Hst : t_state (s_tcb s t) = TS_WAIT.
Hypothesis Hok : task_ok (s_tcb s t) t.
Hypothesis Hh : wait_home (t_wspec (s_tcb s t)) (t_wid (s_tcb s t)) t = h.
Hypothesis Ho : obj_head h = true.
Hypothesis HQ : Q !! h = Some l.

Lemma wait_elem_ok : elem_ok h (TSKQ t) = true.
Proof.
  apply andb_true_intro. split.
  - destruct (wait_home_kind (t_wspec (s_tcb s t)) (t_wid (s_tcb s t)) t) as [E|[_ E]]; rewrite Hh in E; [|done].
    by rewrite E in Ho.
  - apply idx_ok_task; [done|]. apply (tk_range _ _ Hok). by rewrite Hst.
Qed.

Lemma put_wait s' l' :
  s_tcb s' = s_tcb s → (∀ y, y ∈ l' ↔ y = TSKQ t ∨ y ∈ l) →
  kinvx true (Some t) s' (<[h := l']> Q) → kinv s' (<[h := l']> Q).
Proof.
  intros E Hl Hk'. apply (kinvx_put _ t); [done|..]; rewrite E; [| |done].
  - rewrite home_waiting by (by unfold waiting; rewrite Hst). rewrite Hh. simpl.
    exists l'. rewrite lookup_insert_eq. split; [done|]. right. apply Hl. by left.
  - unfold tmeb_placed, waiting. rewrite Hst. simpl.
    assert (∀ y, y ≠ TSKQ t → y ∈ l' ↔ y ∈ l) by (intros y ?; rewrite Hl; naive_solver).
    rewrite !(in_ring_insert_ne _ _ (TSKQ t) (TMEBT t) _ _ _ HQ); done.
Qed.

Lemma kinv_enqueue_fifo : kinv (upd_q (QueInsert (TSKQ t) h) s) (<[h := l ++ [TSKQ t]]> Q).
Proof.
  destruct (obj_head_kind _ Ho) as [Hr _]. apply put_wait; [done|set_solver|].
  apply (kinvx_insert _ _ _ _ Hk h l []); [auto with kinv|done|by rewrite app_nil_r|done|apply wait_elem_ok].
Qed.

Definition tpri_stop (s : SCH) (q : node) : bool :=
  t_priority (s_tcb s t) <? t_priority (s_tcb s (as_tcb q)).

Lemma kinv_enqueue_tpri :
  kinv (knl_queue_insert_tpri t h s) (<[h := ins_before (tpri_stop s) (TSKQ t) l]> Q).
Proof.
  destruct (obj_head_kind _ Ho) as [Hr _]. apply put_wait; [done|intros y; apply elem_of_ins_before|].
  apply kinvx_que_insert; [done|auto with kinv|done|done|done|apply wait_elem_ok|].
  etrans; [eapply kinvx_length_tsk; [exact Hk|exact HQ|]|unfold QFUEL; lia].
  rewrite <- Hh. destruct (t_wspec (s_tcb s t)); cbn [wait_home nd_kind]; try (rewrite !elem_of_cons; auto 15; fail);
    rewrite <- Hh in Ho; done.
Qed.
End enqueue_wait.

(** ** The generic wait *)

(** The queue [l] with the task [c] in it, behind those of its priority or last. *)
Definition queued_at (tpri : bool) (s : SCH) (c : Z) (l : list node) : list node :=
  if tpri then ins_before (tpri_stop c s) (TSKQ c) l else l ++ [TSKQ c].

Definition wait_order (s : SCH) (atr : Z) (c : Z) (l : list node) : list node :=
  queued_at (has atr TA_TPRI) s c l.

Lemma queued_at_ext tpri s s' c l :
  (∀ t, t = c ∨ TSKQ t ∈ l → t_priority (s_tcb s' t) = t_priority (s_tcb s t)) →
  (∀ y, y ∈ l → y = TSKQ (as_tcb y)) → queued_at tpri s' c l = queued_at tpri s c l.
Proof.
  intros E Hl. unfold queued_at. destruct tpri; [|done]. apply ins_before_ext. intros y Hy.
  unfold tpri_stop. rewrite !E; [done|right; by rewrite <- Hl|by left].
Qed.

Lemma kinv_queue_nodes s Q h l :
  kinv s Q → wait_head h = true → Q !! h = Some l → ∀ y, y ∈ l → y = TSKQ (as_tcb y).
Proof. intros Hk Hh HQ y Hy. by destruct (kinv_in_wait_queue _ _ _ _ _ y Hk Hh HQ Hy) as (t & -> & _). Qed.

(** The running task, prepared to wait in the queue [h], goes to wait there. *)
Lemma kinv_wait_enqueue (tpri : bool) (h : node) tmout atr s Q l :
  let c := ctx s in
  let s2 := knl_make_wait tmout atr s in
  let s' := if tpri then knl_queue_insert_tpri c h s2 else upd_q (QueInsert (TSKQ c) h) s2 in
  kinv s Q → t_state (s_tcb s c) = TS_READY → t_wercd (s_tcb s c) = Some c →
  wait_home (t_wspec (s_tcb s c)) (t_wid (s_tcb s c)) c = h → wait_head h = true → Q !! h = Some l →
  ∃ Q', kinv s' Q' ∧ Q' !! h = Some (queued_at tpri s c l) ∧ same_heads h Q Q' ∧
    (∀ t, s_tcb s' t = (<[c := set_t_state TS_WAIT (s_tcb s c)]> (s_tcb s)) t) ∧ same_vars s s' ∧ ctx s2 = c.
Proof.
  intros c s2 s' Hk Hst Hwe Hhome Hwh HQ. pose proof (wait_head_obj _ Hwh) as Ho.
  destruct (obj_head_kind _ Ho) as [Hr _].
  destruct (kinv_make_wait tmout atr s Q Hk Hst) as (Q2 & Hk2 & Hu & Hp & Hf & Htcb & Hsame).
  fold c s2 in Hk2, Hu, Hp, Htcb, Hsame.
  assert (Ec : ctx s2 = c) by (unfold ctx; by rewrite (sc_ctxtsk _ _ (sv_ctx _ _ Hsame))).
  assert (E2 : s_tcb s2 c = set_t_state TS_WAIT (s_tcb s c)) by (by rewrite Htcb, fn_lookup_insert).
  assert (HQ2 : Q2 !! h = Some l) by (by rewrite Hf).
  assert (Hok2 : task_ok (s_tcb s2 c) c).
  { rewrite E2. apply task_ok_to_wait; [|done|done]. apply (ki_task _ _ _ _ Hk c ltac:(done)). }
  assert (Hhome2 : wait_home (t_wspec (s_tcb s2 c)) (t_wid (s_tcb s2 c)) c = h) by (by rewrite E2).
  assert (Hst2 : t_state (s_tcb s2 c) = TS_WAIT) by (by rewrite E2).
  assert (Hord : queued_at tpri s2 c l = queued_at tpri s c l).
  { apply queued_at_ext; [intros t _; rewrite Htcb; by upd_case c t|by eapply (kinv_queue_nodes s Q)]. }
  exists (<[h := queued_at tpri s2 c l]> Q2). split_and!; [| |..|done].
  - unfold s', queued_at. destruct tpri; [by apply kinv_enqueue_tpri|by apply kinv_enqueue_fifo].
  - by rewrite lookup_insert_eq, Hord.
  - intros h' Hh Hne. rewrite lookup_insert_ne by done. by apply Hf.
  - intros t. rewrite <- Htcb. unfold s'. by case_match.
  - etrans; [exact Hsame|]. unfold s'. by case_match; constructor.
Qed.

Lemma kinv_gcb_make_wait g tmout s Q l :
  let c := ctx s in
  let s' := knl_gcb_make_wait g tmout s in
  kinv s Q → t_state (s_tcb s c) = TS_READY → t_wercd (s_tcb s c) = Some c →
  wait_home (t_wspec (s_tcb s c)) (objid g) c = wait_queue g → wait_head (wait_queue g) = true →
  Q !! wait_queue g = Some l → tmout ≠ TMO_POL →
  ∃ Q', kinv s' Q' ∧ Q' !! wait_queue g = Some (wait_order s (objatr g) c l) ∧
    same_heads (wait_queue g) Q Q' ∧
    (∀ t, s_tcb s' t = (<[c := set_t_state TS_WAIT (set_t_wid (objid g) (s_tcb s c))]> (s_tcb s)) t) ∧
    s_ercd s' = <[c := E_TMOUT]> (s_ercd s) ∧ same_ctx s s' ∧ s_rcvsz s' = s_rcvsz s.
Proof.
  intros c s' Hk Hst Hwe Hhome Hwh HQ Htm.
  set (s1 := upd_tcb c (set_t_wid (objid g)) (set_s_ercd (<[c := E_TMOUT]> (s_ercd s)) s)).
  assert (Hk1 : kinv s1 Q).
  { apply kinv_upd_tcb; simpl; [by eapply kinvx_ext; [..|exact Hk]|by unfold home; simpl; rewrite Hst|done|].
    intros []. by constructor. }
  assert (E1 : s_tcb s1 c = set_t_wid (objid g) (s_tcb s c)) by (unfold s1; simpl; by upd_simpl).
  destruct (kinv_wait_enqueue (has (objatr g) TA_TPRI) (wait_queue g) tmout (objatr g) s1 Q l Hk1)
    as (Q2 & Hk2 & HQ2 & Hheads & Htcb & Hsame & Ec);
    [by change (ctx s1) with c; rewrite E1..|done|done|]. change (ctx s1) with c in *.
  assert (Hw : write_wercd c E_TMOUT s = set_s_ercd (<[c := E_TMOUT]> (s_ercd s)) s)
    by (unfold write_wercd; by rewrite Hwe).
  assert (Hs' : s' = if has (objatr g) TA_TPRI then knl_queue_insert_tpri c (wait_queue g) (knl_make_wait tmout (objatr g) s1)
                     else upd_q (QueInsert (TSKQ c) (wait_queue g)) (knl_make_wait tmout (objatr g) s1)).
  { unfold s', knl_gcb_make_wait. fold c. rewrite Hw. destruct (Z.eqb_spec tmout TMO_POL); [done|]. simpl negb.
    cbv beta iota zeta. change (ctx (set_s_ercd (<[c:=E_TMOUT]> (s_ercd s)) s)) with c. fold s1. by rewrite Ec. }
  rewrite <- Hs' in *. exists Q2. split_and!; [done| |done| |..].
  - rewrite HQ2. f_equal. apply queued_at_ext; [|by eapply (kinv_queue_nodes s Q)]. intros t _. unfold s1. simpl. by upd_case c t.
  - intros t. rewrite Htcb, E1. unfold s1. simpl. by upd_case c t.
  - apply Hsame.
  - etrans; [|apply Hsame]. by constructor.
  - apply Hsame.
Qed.

(** ** Releasing waiting tasks *)

(** What has changed when the tasks [rel] of the queue [h] have been released with
    the result [e]: their TCBs and results, the ready queues and the timer queue. *)
Record rel_post (h : node) (rel : list node) (e : Z) (s s' : SCH) (Q Q' : gmap node (list node)) : Prop := {
  rp_kinv : kinv s' Q';
  rp_heads : same_heads h Q Q';
  rp_ctx : same_ctx s s';
  rp_tcb : ∀ t, s_tcb s' t = if decide (TSKQ t ∈ rel) then released (s_tcb s t) else s_tcb s t;
  rp_ercd : ∀ t, s_ercd s' t = if decide (TSKQ t ∈ rel) then e else s_ercd s t;
  rp_rcvsz : s_rcvsz s' = s_rcvsz s;
  rp_tmeb : s_tmeb s' = s_tmeb s
}.

Lemma rel_post_nil h e s Q : kinv s Q → rel_post h [] e s s Q Q.
Proof. by constructor. Qed.

Lemma decide_nodes_app (P : Type) t (r1 r2 : list node) (a b : P) :
  (if decide (TSKQ t ∈ r1 ++ r2) then a else b) =
  if decide (TSKQ t ∈ r2) then a else if decide (TSKQ t ∈ r1) then a else b.
Proof.
  destruct (decide (TSKQ t ∈ r1)), (decide (TSKQ t ∈ r2)), (decide (TSKQ t ∈ r1 ++ r2)) as [Hi|Hi];
    first [done|exfalso; rewrite elem_of_app in Hi; tauto].
Qed.

Lemma rel_post_app h r1 r2 e s1 s2 s3 Q1 Q2 Q3 :
  rel_post h r1 e s1 s2 Q1 Q2 → rel_post h r2 e s2 s3 Q2 Q3 → (∀ y, y ∈ r1 → y ∉ r2) →
  rel_post h (r1 ++ r2) e s1 s3 Q1 Q3.
Proof.
  intros [K1 H1 C1 T1 E1 R1 M1] [K2 H2 C2 T2 E2 R2 M2] Hd. constructor; [done|..|congruence|congruence].
  - intros h' ??. by rewrite H2, H1.
  - by transitivity s2.
  - intros t. rewrite decide_nodes_app, T2, T1. do 2 case_decide; [|done..]. by exfalso; eapply Hd.
  - intros t. by rewrite decide_nodes_app, E2, E1.
Qed.

Lemma kinv_release_ercd t e s Q :
  kinv s Q → waiting (s_tcb s t) = true →
  let h := wait_home (t_wspec (s_tcb s t)) (t_wid (s_tcb s t)) t in
  let s' := knl_wait_release_ok_ercd t e s in
  ∃ Q', rel_post h [TSKQ t] e s s' Q Q' ∧
    (∀ l1 l2, h ≠ TSKQ t → Q !! h = Some (l1 ++ TSKQ t :: l2) → Q' !! h = Some (l1 ++ l2)).
Proof.
  intros Hk Hw h s'. destruct (kinv_wait_release t s Q Hk Hw) as (Q1 & Hk1 & Htcb & Hsame & Hheads & Hq & _).
  fold h in Hheads, Hq. exists Q1. split; [|done].
  unfold s', knl_wait_release_ok_ercd, write_wercd. set (s1 := knl_wait_release t s) in *.
  assert (Hwe : t_wercd (s_tcb s1 t) = Some t).
  { rewrite Htcb, fn_lookup_insert. simpl. by apply (ki_task _ _ _ _ Hk t ltac:(done)). }
  rewrite Hwe. constructor; simpl.
  - by eapply kinvx_ext; [..|exact Hk1].
  - done.
  - etrans; [apply Hsame|]. by constructor.
  - intros t'. rewrite Htcb. upd_case t t'; [by rewrite decide_True by left|].
    rewrite decide_False; [done|]. intros [[=]|[]%not_elem_of_nil]%elem_of_cons. congruence.
  - intros t'. rewrite (sr_ercd _ _ Hsame). upd_case t t'; [by rewrite decide_True by left|].
    rewrite decide_False; [done|]. intros [[=]|[]%not_elem_of_nil]%elem_of_cons. congruence.
  - apply Hsame.
  - apply Hsame.
Qed.

(** Releasing a task out of the middle of a wait queue. *)
Lemma kinv_release_at h l1 l2 y e s Q :
  kinv s Q → wait_head h = true → Q !! h = Some (l1 ++ y :: l2) →
  ∃ Q', y = TSKQ (as_tcb y) ∧ waiting (s_tcb s (as_tcb y)) = true ∧
    rel_post h [y] e s (knl_wait_release_ok_ercd (as_tcb y) e s) Q Q' ∧ Q' !! h = Some (l1 ++ l2) ∧
    y ∉ l1 ++ l2.
Proof.
  intros Hk Hwh HQ.
  destruct (kinv_in_wait_queue _ _ _ _ _ y Hk Hwh HQ ltac:(set_solver)) as (t & -> & Hw & Hh).
  destruct (obj_head_kind _ (wait_head_obj _ Hwh)) as [_ Hn]. destruct (Hn t) as (_&Hne&_).
  destruct (kinv_release_ercd t e s Q Hk Hw) as (Q' & Hr & Hq). rewrite Hh in Hr, Hq.
  exists Q'. split_and!; [done|done|done|by apply Hq|].
  assert (Hnd : NoDup (l1 ++ TSKQ t :: l2)) by (eapply qwf_NoDup; [apply Hk|done]).
  rewrite <- (ldel_app _ _ _ Hnd), elem_of_ldel. naive_solver.
Qed.

(** ** Deleting a wait object *)

Lemma wait_delete_loop_spec h l fuel s Q :
  kinv s Q → wait_head h = true → Q !! h = Some l → (length l ≤ fuel)%nat →
  ∃ Q', rel_post h l E_DLT s (wait_delete_loop fuel h s) Q Q' ∧ Q' !! h = Some [].
Proof.
  revert l s Q. induction fuel as [|fuel IH]; intros l s Q Hk Hwh HQ Hf; simpl wait_delete_loop.
  - destruct l as [|y l]; [|simpl in Hf; lia]. exists Q. split; [by apply rel_post_nil|done].
  - rewrite (qwf_isQueEmpty _ _ _ _ (ki_qwf _ _ _ _ Hk) HQ).
    rewrite (qwf_head _ _ _ _ (ki_qwf _ _ _ _ Hk) HQ).
    destruct l as [|y l]; [exists Q; split; [by apply rel_post_nil|done]|]. simpl.
    destruct (kinv_release_at h [] l y E_DLT s Q Hk Hwh HQ) as (Q1 & _ & _ & Hr & HQ1 & Hnin).
    destruct (IH l _ Q1 (rp_kinv _ _ _ _ _ _ _ Hr) Hwh HQ1) as (Q2 & Hr2 & HQ2); [simpl in Hf; lia|].
    exists Q2. split; [|done]. apply (rel_post_app _ [y] _ _ _ _ _ _ _ _ Hr Hr2). set_solver.
Qed.

Lemma kinv_wait_delete h l s Q :
  kinv s Q → wait_head h = true → Q !! h = Some l →
  ∃ Q', rel_post h l E_DLT s (knl_wait_delete h s) Q Q' ∧ Q' !! h = Some [].
Proof.
  intros Hk Hwh HQ. apply (wait_delete_loop_spec h l QFUEL s Q Hk Hwh HQ).
  etrans; [by eapply kinvx_length_tsk, wait_head_kinds|unfold QFUEL; lia].
Qed.

(** ** Walking a wait queue *)

(** The head of a queue is not one of its nodes. *)
Lemma kinvx_head_ne b x s Q h l0 y l :
  kinvx b x s Q → Q !! h = Some (l0 ++ y :: l) → y ≠ h.
Proof.
  intros Hk HQ ->. destruct (qwf_ring _ _ _ _ (ki_qwf _ _ _ _ Hk) HQ) as [Hnd _].
  apply NoDup_cons in Hnd as [Hn _]. apply Hn. set_solver.
Qed.

Lemma kinvx_next b x s Q h l0 y l :
  kinvx b x s Q → Q !! h = Some (l0 ++ y :: l) → qnext (s_q s) y = hd h l.
Proof. intros Hk HQ. eapply qwf_next; [apply Hk|done]. Qed.

Lemma kinvx_first b x s Q h l : kinvx b x s Q → Q !! h = Some l → qnext (s_q s) h = hd h l.
Proof. intros Hk HQ. eapply qwf_head; [apply Hk|done]. Qed.

Lemma kinvx_empty b x s Q h l :
  kinvx b x s Q → Q !! h = Some l → isQueEmpty h (s_q s) = bool_decide (l = []).
Proof. intros Hk HQ. eapply qwf_isQueEmpty; [apply Hk|done]. Qed.

Lemma length_wait_queue s Q h l :
  kinv s Q → wait_head h = true → Q !! h = Some l → (length l ≤ QFUEL)%nat.
Proof.
  intros Hk Hwh HQ. etrans; [by eapply kinvx_length_tsk, wait_head_kinds|unfold QFUEL; lia].
Qed.

(** Fields of a TCB a release does not change. *)
Lemma rp_tcb_field {A : Type} (f : TCB → A) h rel e s s' Q Q' t :
  (∀ tc, f (released tc) = f tc) → rel_post h rel e s s' Q Q' → f (s_tcb s' t) = f (s_tcb s t).
Proof. intros Hf Hr. rewrite (rp_tcb _ _ _ _ _ _ _ Hr). by case_decide. Qed.

(** ** The running task prepares its wait *)

(** The running task is ready: the state in which a call may wait. *)
Definition running (s : SCH) : Prop := in_ddsp s = false ∧ t_state (s_tcb s (ctx s)) = TS_READY.

Definition set_wait (w : wspec) (wi : WINFO) (c : Z) (t : TCB) : TCB :=
  set_t_winfo wi (set_t_wercd (Some c) (set_t_wspec w t)).

Lemma kinv_set_wait w wi s Q :
  kinv s Q → t_state (s_tcb s (ctx s)) = TS_READY → kinv (upd_tcb (ctx s) (set_wait w wi (ctx s)) s) Q.
Proof.
  intros Hk Hst. apply kinv_upd_tcb; [done| |done|].
  - unfold home. simpl. by rewrite Hst.
  - intros []. by constructor.
Qed.

(** The wait of the running task on an object, from the checks on: it sits in the
    object's queue, in the order of the object's attribute, with the result E_TMOUT. *)
Record wait_post (g : GCB) (w : wspec) (wi : WINFO) (l : list node) (s s' : SCH)
    (Q Q' : gmap node (list node)) : Prop := {
  wp_kinv : kinv s' Q';
  wp_que : Q' !! wait_queue g = Some (wait_order s (objatr g) (ctx s) l);
  wp_heads : same_heads (wait_queue g) Q Q';
  wp_tcb : ∀ t, s_tcb s' t = (<[ctx s := set_t_state TS_WAIT (set_t_wid (objid g)
                                (set_wait w wi (ctx s) (s_tcb s (ctx s))))]> (s_tcb s)) t;
  wp_ercd : s_ercd s' = <[ctx s := E_TMOUT]> (s_ercd s);
  wp_ctx : same_ctx s s';
  wp_rcvsz : s_rcvsz s' = s_rcvsz s
}.

Lemma kinv_wait_on g w wi tmout s Q l :
  let s' := knl_gcb_make_wait g tmout (upd_tcb (ctx s) (set_wait w wi (ctx s)) s) in
  kinv s Q → t_state (s_tcb s (ctx s)) = TS_READY →
  wait_home w (objid g) (ctx s) = wait_queue g → wait_head (wait_queue g) = true →
  Q !! wait_queue g = Some l → tmout ≠ TMO_POL →
  ∃ Q', wait_post g w wi l s s' Q Q'.
Proof.
  intros s' Hk Hst Hh Hwh HQ Htm. set (s1 := upd_tcb (ctx s) (set_wait w wi (ctx s)) s) in *.
  assert (E1 : s_tcb s1 (ctx s) = set_wait w wi (ctx s) (s_tcb s (ctx s))) by (unfold s1; simpl; by upd_simpl).
  destruct (kinv_gcb_make_wait g tmout s1 Q l) as (Q' & H1 & H2 & H3 & H4 & H5 & H6 & H7);
    change (ctx s1) with (ctx s); rewrite ?E1; try done; [by apply kinv_set_wait|].
  change (ctx s1) with (ctx s) in *. exists Q'. constructor; try done.
  - fold s1 in H2. rewrite H2. f_equal. apply queued_at_ext; [|by eapply (kinv_queue_nodes s Q)]. intros t _. unfold s1. simpl. by upd_case (ctx s) t.
  - intros t. rewrite H4, E1. unfold s1. simpl. upd_case (ctx s) t; done.
  - etrans; [|exact H6]. by constructor.
Qed.

(** Polling: nothing but the result changes. *)
Lemma wait_on_poll g w wi s :
  knl_gcb_make_wait g TMO_POL (upd_tcb (ctx s) (set_wait w wi (ctx s)) s) =
  set_s_ercd (<[ctx s := E_TMOUT]> (s_ercd s)) (upd_tcb (ctx s) (set_wait w wi (ctx s)) s).
Proof.
  unfold knl_gcb_make_wait. simpl. unfold write_wercd.
  change (ctx (upd_tcb (ctx s) (set_wait w wi (ctx s)) s)) with (ctx s). simpl. by upd_simpl.
Qed.

(** The members of a wait queue, seen through the wait of a running task. *)
Lemma running_not_queued s Q h l :
  kinv s Q → wait_head h = true → Q !! h = Some l → waiting (s_tcb s (ctx s)) = false → TSKQ (ctx s) ∉ l.
Proof.
  intros Hk Hh HQ Hw Hin. destruct (kinv_in_wait_queue _ _ _ _ _ _ Hk Hh HQ Hin) as (t & [= <-] & ? & _).
  congruence.
Qed.

Lemma queued_ne_running s Q h l y :
  kinv s Q → wait_head h = true → Q !! h = Some l → waiting (s_tcb s (ctx s)) = false → y ∈ l →
  ctx s ≠ as_tcb y.
Proof.
  intros Hk Hh HQ Hw Hy E. destruct (kinv_in_wait_queue _ _ _ _ _ _ Hk Hh HQ Hy) as (t & -> & ? & _).
  simpl in E. congruence.
Qed.

Lemma elem_of_wait_order s atr c l y : y ∈ wait_order s atr c l ↔ y = TSKQ c ∨ y ∈ l.
Proof. unfold wait_order, queued_at. destruct (has _ _); [apply elem_of_ins_before|]. set_solver. Qed.

(** The running task stands in front of the queue: nobody waits, or only tasks of a lower
    priority do and the queue is in the order of the priorities. *)
Definition first_in_line (atr : Z) (s : SCH) (c : Z) (l : list node) : bool :=
  match l with
  | [] => true
  | y :: _ => has atr TA_TPRI && tpri_stop c s y
  end.

Lemma top_of_wait_queue_spec (g : GCB) s Q l c :
  kinv s Q → wait_head (wait_queue g) = true → Q !! wait_queue g = Some l → waiting (s_tcb s c) = false →
  (knl_gcb_top_of_wait_queue g c s =? c) = first_in_line (objatr g) s c l.
Proof.
  intros Hk Hh HQ Hw. unfold knl_gcb_top_of_wait_queue.
  rewrite (kinvx_empty _ _ _ _ _ _ Hk HQ), (kinvx_first _ _ _ _ _ _ Hk HQ).
  destruct l as [|y l]; [simpl; by rewrite Z.eqb_refl|]. simpl.
  destruct (kinv_in_wait_queue _ _ _ _ _ y Hk Hh HQ ltac:(left)) as (t & -> & Hwt & _).
  assert ((t =? c) = false) as E by (apply Z.eqb_neq; intros ->; congruence).
  unfold tpri_stop. change (as_tcb (TSKQ t)) with t. destruct (has (objatr g) TA_TPRI); simpl; [|done].
  by destruct (t_priority (s_tcb s c) <? t_priority (s_tcb s t)); [rewrite Z.eqb_refl|].
Qed.

(** The head of the queue after the running task has joined it. *)
Lemma wait_order_head atr s c l : ∃ y l', wait_order s atr c l = y :: l' ∧
  if first_in_line atr s c l then y = TSKQ c else Some y = head l.
Proof.
  unfold wait_order, queued_at, first_in_line. destruct l as [|y l]; simpl.
  - exists (TSKQ c), []. split; [by destruct (has atr TA_TPRI)|done].
  - destruct (has atr TA_TPRI); simpl; [|eauto]. destruct (tpri_stop c s y); simpl; eauto.
Qed.

(** ** Control blocks in and out of use *)

Definition free_head (f : node) : bool :=
  match nd_kind f with
  | KFreeSem | KFreeFlg | KFreeMbx | KFreeMtx | KFreeMbf | KFreeMpf | KFreeMpl | KFreePor => true
  | _ => false
  end.

Lemma free_elem f y : free_head f = true → elem_ok f y = true →
  nd_kind y ≠ KRdy ∧ nd_kind y ≠ KTsk ∧ nd_kind y ≠ KTmebTsk ∧ ¬ perm_head y ∧ f ≠ y ∧ 0 <= nd_idx y < kind_num (nd_kind y).
Proof.
  unfold free_head, elem_ok, idx_ok, kind_ok. rewrite !andb_true_iff, Z.leb_le, Z.ltb_lt. intros Hf [Hk Hi].
  split_and!; try (intros E; rewrite E in Hk; by destruct (nd_kind f)); try lia; [|by intros ->; destruct (nd_kind y)].
  intros [[E _]|[->| ->]]; [rewrite E in Hk|..]; by destruct (nd_kind f).
Qed.

(** The first free block is taken, and its wait queue is empty. *)
Lemma kinv_take_block f y l s Q :
  kinv s Q → free_head f = true → Q !! f = Some (y :: l) →
  kinv (upd_q (QueInit y) (set_s_q (QueRemove y (s_q s)) s)) (<[y := []]> (<[f := l]> Q)) ∧ elem_ok f y = true.
Proof.
  intros Hk Hf HQ. assert (He : elem_ok f y = true) by (eapply (ki_typed _ _ _ _ Hk); [exact HQ|left]).
  destruct (free_elem f y Hf He) as (H1 & H2 & H3 & _). split; [|done].
  assert (nd_kind f ≠ KRdy) by (intros E; unfold free_head in Hf; by rewrite E in Hf).
  destruct (kinvx_remove _ _ _ _ Hk f [] y l) as [Hk1 Hu]; [by apply loose_other|done|done|].
  change (set_s_q (QueRemove y (s_q s)) s) with (upd_q (QueRemove y) s).
  by apply kinvx_QueInit; [|apply loose_other| |].
Qed.

(** A block with an empty wait queue is put back. *)
Lemma kinv_free_block f y l s Q :
  kinv s Q → free_head f = true → Q !! f = Some l → elem_ok f y = true → Q !! y = Some [] →
  kinv (upd_q (QueInsert y f) s) (<[f := l ++ [y]]> (delete y Q)).
Proof.
  intros Hk Hf HQ He Hy. destruct (free_elem f y Hf He) as (H1 & H2 & H3 & H4 & H5 & _).
  assert (nd_kind f ≠ KRdy) by (intros E; unfold free_head in Hf; by rewrite E in Hf).
  destruct (kinvx_drop _ _ _ _ Hk y) as [Hk1 Hu]; [by apply loose_other|done|done|done|].
  apply (kinvx_insert _ _ _ _ Hk1 f l []); [by apply loose_other|done| |done|done].
  by rewrite app_nil_r, lookup_delete_ne.
Qed.
