(* ===== verification/TaskSync.v ===== *)
(** * Task synchronization: kernel/tkernel/task_sync.c *)
From S2P Require Import Prelude Config Queue Kernel ReadyQueue KInv KCheck Task Timer Wait.

(* src: kernel/tkernel/task_sync.c 28-70 tk_sus_tsk *)
Definition tk_sus_tsk (tskid : Z) (s : SCH) : Z * SCH :=
  match CHECK_TSKID tskid s with
  | Some ercd => (ercd, s)
  | None =>
      let tcb := get_tcb tskid in
      let state := t_state (s_tcb s tcb) in
      if negb (knl_task_alive state) then
        (if state =? TS_NONEXIST then E_NOEXS else E_OBJ, s)
      else if bool_decide (Some tcb = s_ctxtsk s) && (DDS_DISABLE <=? s_dispatch_disabled s) then (E_CTX, s)
      else if t_suscnt (s_tcb s tcb) =? INT_MAX then (E_QOVR, s)
      else
        let s := upd_tcb tcb (λ t, set_t_suscnt (t_suscnt t + 1) t) s in
        if state =? TS_READY then
          let s := knl_make_non_ready tcb s in
          (E_OK, upd_tcb tcb (set_t_state TS_SUSPEND) s)
        else if state =? TS_WAIT then (E_OK, upd_tcb tcb (set_t_state TS_WAITSUS) s)
        else (E_OK, s)
  end.

(* src: kernel/tkernel/task_sync.c 77-117 tk_rsm_tsk *)
Definition tk_rsm_tsk (tskid : Z) (s : SCH) : Z * SCH :=
  match CHECK_TSKID tskid s with
  | Some ercd => (ercd, s)
  | None =>
      let tcb := get_tcb tskid in
      let state := t_state (s_tcb s tcb) in
      if state =? TS_NONEXIST then (E_NOEXS, s)
      else if (state =? TS_DORMANT) || (state =? TS_READY) || (state =? TS_WAIT) then (E_OBJ, s)
      else if state =? TS_SUSPEND then
        let s := upd_tcb tcb (λ t, set_t_suscnt (t_suscnt t - 1) t) s in
        (E_OK, if t_suscnt (s_tcb s tcb) =? 0 then knl_make_ready tcb s else s)
      else if state =? TS_WAITSUS then
        let s := upd_tcb tcb (λ t, set_t_suscnt (t_suscnt t - 1) t) s in
        (E_OK, if t_suscnt (s_tcb s tcb) =? 0 then upd_tcb tcb (set_t_state TS_WAIT) s else s)
      else (E_SYS, s)
  end.

(* src: kernel/tkernel/task_sync.c 124-162 tk_frsm_tsk *)
Definition tk_frsm_tsk (tskid : Z) (s : SCH) : Z * SCH :=
  match CHECK_TSKID tskid s with
  | Some ercd => (ercd, s)
  | None =>
      let tcb := get_tcb tskid in
      let state := t_state (s_tcb s tcb) in
      if state =? TS_NONEXIST then (E_NOEXS, s)
      else if (state =? TS_DORMANT) || (state =? TS_READY) || (state =? TS_WAIT) then (E_OBJ, s)
      else if state =? TS_SUSPEND then
        let s := upd_tcb tcb (set_t_suscnt 0) s in
        (E_OK, knl_make_ready tcb s)
      else if state =? TS_WAITSUS then
        let s := upd_tcb tcb (set_t_suscnt 0) s in
        (E_OK, upd_tcb tcb (set_t_state TS_WAIT) s)
      else (E_SYS, s)
  end.

(** A wait on no object: the task's node is in a ring of its own. *)
Definition wait_alone (w : wspec) (make_wait : SCH → SCH) (s : SCH) : SCH :=
  let c := ctx s in
  let s := upd_tcb c (λ t, set_t_wercd (Some c) (set_t_wid 0 (set_t_wspec w t))) s in
  let s := make_wait s in
  upd_q (QueInit (TSKQ (ctx s))) s.

(* src: kernel/tkernel/task_sync.c 176-201 tk_slp_tsk *)
Definition tk_slp_tsk (tmout : Z) (s : SCH) : Z * SCH :=
  if TMOUT_ERR tmout then (E_PAR, s)
  else if in_ddsp s then (E_CTX, s)
  else
    let c := ctx s in
    if 0 <? t_wupcnt (s_tcb s c) then
      (E_OK, upd_tcb c (λ t, set_t_wupcnt (t_wupcnt t - 1) t) s)
    else if negb (tmout =? TMO_POL) then
      let s := set_s_ercd (<[c := E_TMOUT]> (s_ercd s)) s in
      let s := wait_alone knl_wspec_slp (knl_make_wait tmout 0) s in
      (s_ercd s c, s)
    else (E_TMOUT, s).

(* src: kernel/tkernel/task_sync.c 208-235 tk_wup_tsk *)
Definition tk_wup_tsk (tskid : Z) (s : SCH) : Z * SCH :=
  match CHECK_TSKID tskid s with
  | Some ercd => (ercd, s)
  | None =>
      let tcb := get_tcb tskid in
      let state := t_state (s_tcb s tcb) in
      if negb (knl_task_alive state) then
        (if state =? TS_NONEXIST then E_NOEXS else E_OBJ, s)
      else if has state TS_WAIT && bool_decide (t_wspec (s_tcb s tcb) = knl_wspec_slp) then
        (E_OK, knl_wait_release_ok tcb s)
      else if t_wupcnt (s_tcb s tcb) =? INT_MAX then (E_QOVR, s)
      else (E_OK, upd_tcb tcb (λ t, set_t_wupcnt (t_wupcnt t + 1) t) s)
  end.

(* src: kernel/tkernel/task_sync.c 242-267 tk_can_wup *)
Definition tk_can_wup (tskid : Z) (s : SCH) : Z * SCH :=
  match CHECK_TSKID_SELF tskid s with
  | Some ercd => (ercd, s)
  | None =>
      let tcb := get_tcb_self tskid s in
      let state := t_state (s_tcb s tcb) in
      if state =? TS_NONEXIST then (E_NOEXS, s)
      else if state =? TS_DORMANT then (E_OBJ, s)
      else (t_wupcnt (s_tcb s tcb), upd_tcb tcb (set_t_wupcnt 0) s)
  end.

(** The variable [ercd] of the call starts as E_OK and the time-out does not change it. *)
(* src: kernel/tkernel/task_sync.c 279-298 tk_dly_tsk *)
Definition tk_dly_tsk (dlytim : Z) (s : SCH) : Z * SCH :=
  if RELTIM_ERR dlytim then (E_PAR, s)
  else if in_ddsp s then (E_CTX, s)
  else if 0 <? dlytim then
    let c := ctx s in
    let s := set_s_ercd (<[c := E_OK]> (s_ercd s)) s in
    let s := wait_alone knl_wspec_dly (knl_make_wait_reltim dlytim 0) s in
    (s_ercd s c, s)
  else (E_OK, s).

(** ** Suspending and resuming *)

(** A state change that leaves the queue of a waiting task alone. *)
Definition same_queues (Q Q' : gmap node (list node)) : Prop :=
  ∀ h, nd_kind h ≠ KRdy → Q' !! h = Q !! h.

(** What a task-level call did: TCB [t] became [tc], the ready queues and
    [knl_schedtsk] follow, nothing else changed. *)
Record task_post (t : Z) (tc : TCB) (s s' : SCH) (Q Q' : gmap node (list node)) : Prop := {
  tp_kinv : kinv s' Q';
  tp_queues : same_queues Q Q';
  tp_tcb : ∀ t', s_tcb s' t' = (<[t := tc]> (s_tcb s)) t';
  tp_rest : same_rest s s'
}.

Lemma same_queues_insert Q p l : same_queues Q (<[RDYQ p := l]> Q).
Proof. intros h Hh. rewrite lookup_insert_ne; [done|]. by intros <-. Qed.

(** A ready task leaves the ready queue for a state in which it is linked nowhere. *)
Lemma kinv_leave_ready t f g s Q :
  let tc := g (f (s_tcb s t)) in
  let s' := upd_tcb t g (knl_make_non_ready t (upd_tcb t f s)) in
  kinv s Q → t_state (s_tcb s t) = TS_READY → sched_fields f →
  home tc t = None → waiting tc = false → task_ok tc t →
  ∃ Q', task_post t tc s s' Q Q'.
Proof.
  intros tc s' Hk Hst Hf Hh Hw Hok.
  destruct (kinv_make_non_ready t s Q Hk Hst) as (l1 & l2 & HQ & Hk1 & Hu & Hut & Htcb).
  pose proof (tk_klock _ _ (ki_task _ _ _ _ Hk t ltac:(done))) as [Hkw _].
  unfold s'. rewrite make_non_ready_upd by done. eexists.
  assert (E : s_tcb (upd_tcb t g (upd_tcb t f (knl_make_non_ready t s))) t = tc)
    by (simpl; upd_simpl; by rewrite Htcb).
  constructor.
  - apply (kinvx_put _ t); [by apply kinvx_upd_tcb, kinvx_upd_tcb|..]; rewrite E; [by rewrite Hh| |done].
    unfold tmeb_placed. by rewrite Hw.
  - apply same_queues_insert.
  - intros t'. simpl. rewrite Htcb. by upd_case t t'.
  - etrans; [apply same_rest_make_non_ready|]. by constructor.
Qed.

(** A change of the TCB alone. *)
Lemma task_post_upd t f s Q :
  kinv s Q → home (f (s_tcb s t)) t = home (s_tcb s t) t →
  waiting (f (s_tcb s t)) = waiting (s_tcb s t) → task_ok (f (s_tcb s t)) t →
  task_post t (f (s_tcb s t)) s (upd_tcb t f s) Q Q.
Proof. intros. constructor; [by apply kinv_upd_tcb|done|done|by constructor]. Qed.

(** A task that is linked nowhere becomes ready. *)
Lemma kinv_enter_ready t f s Q :
  let tc := set_t_state TS_READY (f (s_tcb s t)) in
  let s' := knl_make_ready t (upd_tcb t f s) in
  kinv s Q → home (s_tcb s t) t = None → waiting (s_tcb s t) = false → task_ok tc t →
  ∃ l, Q !! RDYQ (t_priority tc) = Some l ∧
    task_post t tc s s' Q (<[RDYQ (t_priority tc) := l ++ [TSKQ t]]> Q).
Proof.
  intros tc s' Hk Hh Hw Hok.
  pose proof (ki_home _ _ _ _ Hk t ltac:(done)) as Hu. rewrite Hh in Hu.
  pose proof (ki_tmeb _ _ _ _ Hk t ltac:(done)) as Hut. unfold tmeb_placed in Hut. rewrite Hw in Hut.
  set (s1 := upd_tcb t f s) in *.
  assert (E : s_tcb s1 t = f (s_tcb s t)) by (unfold s1; simpl; by upd_simpl).
  destruct (kinv_make_ready t s1 Q) as (l & HQ & Hk' & Htcb);
    rewrite ?E; [by apply kinvx_upd_tcb, kinvx_take|done|done|done|]. rewrite E in *.
  exists l. split; [done|]. constructor; [done|apply same_queues_insert| |].
  - intros t'. unfold s'. rewrite Htcb. unfold s1. simpl. by upd_case t t'.
  - etrans; [|apply same_rest_make_ready]. by constructor.
Qed.

Definition suspended (tc : TCB) : TCB :=
  set_t_suscnt (t_suscnt tc + 1)
    (set_t_state (if t_state tc =? TS_READY then TS_SUSPEND
                  else if t_state tc =? TS_WAIT then TS_WAITSUS else t_state tc) tc).

Lemma task_states tc t : task_ok tc t → knl_task_alive (t_state tc) = true →
  t_state tc = TS_READY ∨ t_state tc = TS_WAIT ∨ t_state tc = TS_SUSPEND ∨ t_state tc = TS_WAITSUS.
Proof.
  intros [Hst _] Ha. rewrite !elem_of_cons, elem_of_nil in Hst.
  destruct Hst as [E|[E|[E|[E|[E|[E|[]]]]]]]; rewrite E in *; try done; auto.
Qed.

Lemma task_ok_suspended tc t :
  task_ok tc t → knl_task_alive (t_state tc) = true → t_suscnt tc < INT_MAX → task_ok (suspended tc) t.
Proof.
  intros Hok Ha Hs. pose proof (task_states _ _ Hok Ha) as Hst. unfold suspended.
  assert (Hne : t_state tc ≠ TS_NONEXIST) by (intros E; by rewrite E in Ha).
  destruct Hok as [Hs1 Hr Hid Hp Hb Hi Hkl Hwe Hwu Hsu _].
  specialize (Hsu Hne). constructor; simpl; intros; try (by eauto).
  - destruct Hst as [E|[E|[E|E]]]; rewrite E; simpl; rewrite !elem_of_cons; tauto.
  - apply Hwe. revert H. unfold waiting. simpl. destruct Hst as [E|[E|[E|E]]]; by rewrite E.
  - lia.
  - destruct Hst as [E|[E|[E|E]]]; rewrite E; simpl; split; intros; auto; lia.
Qed.

Lemma tk_sus_tsk_post (s : SCH) (Q : gmap node (list node)) (tskid : Z) :
  let t := get_tcb tskid in
  let tc := s_tcb s t in
  kinv s Q → CHECK_TSKID tskid s = None → knl_task_alive (t_state tc) = true →
  bool_decide (Some t = s_ctxtsk s) && (DDS_DISABLE <=? s_dispatch_disabled s) = false →
  t_suscnt tc < INT_MAX →
  ∃ s' Q', tk_sus_tsk tskid s = (E_OK, s') ∧ task_post t (suspended tc) s s' Q Q'.
Proof.
  intros t tc Hk Hc Ha Hd Hs. assert (Hok : task_ok tc t) by (by apply (ki_task _ _ _ _ Hk)).
  pose proof (task_ok_suspended _ _ Hok Ha Hs) as Hok'.
  unfold tk_sus_tsk. rewrite Hc. fold t tc. rewrite Ha, Hd. cbn [negb].
  destruct (Z.eqb_spec (t_suscnt tc) INT_MAX); [lia|].
  unfold suspended in *. destruct (task_states _ _ Hok Ha) as [E|[E|[E|E]]];
    rewrite E in Hok' |- *; simpl Z.eqb in Hok' |- *; cbv iota in Hok' |- *.
  - destruct (kinv_leave_ready t (λ t, set_t_suscnt (t_suscnt t + 1) t) (set_t_state TS_SUSPEND) s Q) as (Q' & Hp);
      try done. by eexists _, Q'.
  - eexists _, Q. split; [done|]. constructor; [|done| |by constructor].
    + apply (kinvx_put _ t); [by apply kinvx_upd_tcb, kinvx_upd_tcb, kinvx_take|..]; simpl; upd_simpl; fold tc; [| |done].
      * pose proof (ki_home _ _ _ _ Hk t ltac:(done)) as Hh. fold tc in Hh. unfold home, waiting in *. by rewrite E in Hh.
      * pose proof (ki_tmeb _ _ _ _ Hk t ltac:(done)) as Hh. fold tc in Hh. unfold tmeb_placed, waiting in *. by rewrite E in Hh.
    + intros t'. simpl. by upd_case t t'.
  - eexists _, Q. split; [done|].
    assert (Eq : set_t_suscnt (t_suscnt tc + 1) (set_t_state TS_SUSPEND tc) = set_t_suscnt (t_suscnt tc + 1) tc)
      by (rewrite <- E; by destruct tc).
    rewrite Eq in *. by apply (task_post_upd t (λ t, set_t_suscnt (t_suscnt t + 1) t)).
  - eexists _, Q. split; [done|].
    assert (Eq : set_t_suscnt (t_suscnt tc + 1) (set_t_state TS_WAITSUS tc) = set_t_suscnt (t_suscnt tc + 1) tc)
      by (rewrite <- E; by destruct tc).
    rewrite Eq in *. by apply (task_post_upd t (λ t, set_t_suscnt (t_suscnt t + 1) t)).
Qed.

(** The TCB of a task whose suspension count became [n]. *)
Definition resumed (n : Z) (tc : TCB) : TCB :=
  set_t_suscnt n
    (set_t_state (if negb (n =? 0) then t_state tc
                  else if t_state tc =? TS_SUSPEND then TS_READY
                  else if t_state tc =? TS_WAITSUS then TS_WAIT else t_state tc) tc).

Lemma task_ok_resumed tc t n :
  task_ok tc t → t_state tc = TS_SUSPEND ∨ t_state tc = TS_WAITSUS → 0 <= n < t_suscnt tc →
  task_ok (resumed n tc) t.
Proof.
  intros Hok Hst Hn. assert (Hne : t_state tc ≠ TS_NONEXIST) by (by destruct Hst as [-> | ->]).
  destruct Hok as [Hs1 Hr Hid Hp Hb Hi Hkl Hwe Hwu Hsu Hiff]. unfold resumed.
  specialize (Hsu Hne). constructor; simpl; intros; try (by eauto).
  - destruct (n =? 0), Hst as [E|E]; rewrite E; simpl; rewrite !elem_of_cons; tauto.
  - apply Hwe. revert H. unfold waiting. simpl. destruct (n =? 0), Hst as [E|E]; by rewrite E.
  - lia.
  - destruct (Z.eqb_spec n 0) as [->|]; destruct Hst as [E|E]; rewrite E; simpl; split; intros Hx; auto; try lia; by destruct Hx.
Qed.

Lemma task_post_twice t f g s Q :
  kinv s Q → home (g (f (s_tcb s t))) t = home (s_tcb s t) t →
  waiting (g (f (s_tcb s t))) = waiting (s_tcb s t) → task_ok (g (f (s_tcb s t))) t →
  task_post t (g (f (s_tcb s t))) s (upd_tcb t g (upd_tcb t f s)) Q Q.
Proof.
  intros Hk Hh Hw Hok. constructor; [|done| |by constructor].
  - apply (kinvx_put _ t); [by apply kinvx_upd_tcb, kinvx_upd_tcb, kinvx_take|..]; simpl; upd_simpl; [| |done].
    + rewrite Hh. by apply (ki_home _ _ _ _ Hk).
    + unfold tmeb_placed. rewrite Hw. by apply (ki_tmeb _ _ _ _ Hk).
  - intros t'. simpl. by upd_case t t'.
Qed.

(** What both resuming calls do once the count is [n]. *)
Lemma resume_post t f n s Q :
  let tc := s_tcb s t in
  let s1 := upd_tcb t f s in
  kinv s Q → t_state tc = TS_SUSPEND ∨ t_state tc = TS_WAITSUS → 0 <= n < t_suscnt tc →
  f tc = set_t_suscnt n tc →
  ∃ Q', task_post t (resumed n tc) s
    (if negb (n =? 0) then s1
     else if t_state tc =? TS_SUSPEND then knl_make_ready t s1 else upd_tcb t (set_t_state TS_WAIT) s1) Q Q'.
Proof.
  intros tc s1 Hk Hst Hn Hf. assert (Hok : task_ok tc t) by (by apply (ki_task _ _ _ _ Hk)).
  pose proof (task_ok_resumed _ _ _ Hok Hst Hn) as Hok'. unfold resumed in *.
  destruct (n =? 0); cbn [negb] in Hok' |- *.
  - destruct Hst as [E|E]; rewrite E in Hok' |- *; simpl Z.eqb in Hok' |- *; cbv iota in Hok' |- *.
    + pose proof (kinv_enter_ready t f s Q Hk) as Hp. cbv zeta in Hp. fold tc in Hp. rewrite Hf in Hp.
      destruct Hp as (l & _ & Hp); [unfold home, waiting; by rewrite E|unfold waiting; by rewrite E|done|]. eauto.
    + exists Q. assert (Eq : set_t_suscnt n (set_t_state TS_WAIT tc) = set_t_state TS_WAIT (f tc)) by (by rewrite Hf).
      rewrite Eq in *. apply task_post_twice; fold tc; try done; rewrite Hf; unfold home, waiting; by rewrite E.
  - exists Q. assert (Eq : set_t_suscnt n (set_t_state (t_state tc) tc) = f tc) by (rewrite Hf; by destruct tc).
    rewrite Eq in *. apply task_post_upd; fold tc; try done; by rewrite Hf.
Qed.

Lemma tk_rsm_tsk_post s Q tskid :
  let t := get_tcb tskid in
  let tc := s_tcb s t in
  kinv s Q → CHECK_TSKID tskid s = None → t_state tc = TS_SUSPEND ∨ t_state tc = TS_WAITSUS →
  ∃ s' Q', tk_rsm_tsk tskid s = (E_OK, s') ∧ task_post t (resumed (t_suscnt tc - 1) tc) s s' Q Q'.
Proof.
  intros t tc Hk Hc Hst. assert (Hok : task_ok tc t) by (by apply (ki_task _ _ _ _ Hk)).
  assert (Hne : t_state tc ≠ TS_NONEXIST) by (by destruct Hst as [-> | ->]).
  assert (0 < t_suscnt tc) by (by apply Hok).
  destruct (resume_post t (λ t, set_t_suscnt (t_suscnt t - 1) t) (t_suscnt tc - 1) s Q Hk Hst) as (Q' & Hp);
    [fold tc; lia|done|]. fold tc in Hp.
  eexists _, Q'. split; [|exact Hp].
  unfold tk_rsm_tsk. rewrite Hc. fold t tc. simpl. upd_simpl. fold tc. simpl t_suscnt.
  destruct Hst as [E|E]; rewrite E; simpl; by destruct (t_suscnt tc - 1 =? 0).
Qed.

Lemma tk_frsm_tsk_post s Q tskid :
  let t := get_tcb tskid in
  let tc := s_tcb s t in
  kinv s Q → CHECK_TSKID tskid s = None → t_state tc = TS_SUSPEND ∨ t_state tc = TS_WAITSUS →
  ∃ s' Q', tk_frsm_tsk tskid s = (E_OK, s') ∧ task_post t (resumed 0 tc) s s' Q Q'.
Proof.
  intros t tc Hk Hc Hst. assert (Hok : task_ok tc t) by (by apply (ki_task _ _ _ _ Hk)).
  assert (Hne : t_state tc ≠ TS_NONEXIST) by (by destruct Hst as [-> | ->]).
  assert (0 < t_suscnt tc) by (by apply Hok).
  destruct (resume_post t (set_t_suscnt 0) 0 s Q Hk Hst) as (Q' & Hp);
    [fold tc; lia|done|]. fold tc in Hp.
  eexists _, Q'. split; [|exact Hp]. unfold tk_frsm_tsk. rewrite Hc. fold t tc.
  by destruct Hst as [E|E]; rewrite E.
Qed.

(** ** Suspension nests *)

Lemma in_indp_same s s' : same_ctx s s' → in_indp s' = in_indp s.
Proof. intros [E _ Ei _ _ _]. unfold in_indp. by rewrite E, Ei. Qed.

Lemma CHECK_TSKID_same id s s' : same_ctx s s' → CHECK_TSKID id s' = CHECK_TSKID id s.
Proof. intros Hs. unfold CHECK_TSKID. by rewrite (in_indp_same _ _ Hs). Qed.

Lemma suspended_alive tc : knl_task_alive (t_state tc) = true → knl_task_alive (t_state (suspended tc)) = true.
Proof.
  unfold suspended. simpl. destruct (Z.eqb_spec (t_state tc) TS_READY); [done|].
  by destruct (Z.eqb_spec (t_state tc) TS_WAIT).
Qed.

Lemma suspended_state tc t :
  task_ok tc t → knl_task_alive (t_state tc) = true →
  t_state (suspended tc) = TS_SUSPEND ∨ t_state (suspended tc) = TS_WAITSUS.
Proof.
  intros Hok Ha. unfold suspended. simpl. destruct (task_states _ _ Hok Ha) as [E|[E|[E|E]]]; rewrite E; auto.
Qed.

Lemma resumed_suspended tc t :
  task_ok tc t → knl_task_alive (t_state tc) = true →
  resumed (t_suscnt (suspended tc) - 1) (suspended tc) = tc.
Proof.
  intros Hok Ha. assert (Hne : t_state tc ≠ TS_NONEXIST) by (intros E; by rewrite E in Ha).
  pose proof (tk_sus_iff _ _ Hok Hne) as Hiff. pose proof (tk_sus _ _ Hok Hne) as Hsu.
  unfold resumed, suspended. cbn [t_suscnt t_state set_t_suscnt set_t_state].
  replace (t_suscnt tc + 1 - 1) with (t_suscnt tc) by lia.
  destruct (task_states _ _ Hok Ha) as [E|[E|[E|E]]]; rewrite E in Hiff |- *; simpl;
    destruct (Z.eqb_spec (t_suscnt tc) 0) as [E0|]; simpl;
    try (destruct (proj1 Hiff ltac:(lia)); discriminate);
    try (assert (0 < t_suscnt tc) by (apply Hiff; auto); lia);
    rewrite <- E; by destruct tc.
Qed.

Definition sus (tskid : Z) (s : SCH) : SCH := (tk_sus_tsk tskid s).2.
Definition rsm (tskid : Z) (s : SCH) : SCH := (tk_rsm_tsk tskid s).2.

Lemma iter_sus_rsm n : ∀ s Q tskid,
  let t := get_tcb tskid in
  let tc := s_tcb s t in
  kinv s Q → CHECK_TSKID tskid s = None → knl_task_alive (t_state tc) = true →
  bool_decide (Some t = s_ctxtsk s) && (DDS_DISABLE <=? s_dispatch_disabled s) = false →
  t_suscnt tc + Z.of_nat n <= INT_MAX →
  let s1 := Nat.iter n (sus tskid) s in
  let s2 := Nat.iter n (rsm tskid) s1 in
  ∃ Q1 Q2, task_post t (Nat.iter n suspended tc) s s1 Q Q1 ∧ task_post t tc s s2 Q Q2.
Proof.
  induction n as [|n IH]; intros s Q tskid t tc Hk Hc Ha Hd Hn; cbv zeta.
  { exists Q, Q. assert (task_post t tc s s Q Q); [|done]. constructor; [done|done| |by constructor].
    intros t'. unfold tc. upd_case t t'; done. }
  destruct (tk_sus_tsk_post s Q tskid Hk Hc Ha Hd) as (s' & Q' & E & Hp); [fold t tc; lia|].
  fold t tc in Hp. assert (Hok : task_ok tc t) by (by apply (ki_task _ _ _ _ Hk)).
  destruct Hp as [Hk' Hq' Ht' Hr']. assert (E' : s_tcb s' t = suspended tc) by (by rewrite Ht', fn_lookup_insert).
  pose proof (sr_ctx _ _ Hr') as Hctx.
  destruct (IH s' Q' tskid) as (Q1 & Q2 & [K1 H1 T1 R1] & [K2 H2 T2 R2]);
    fold t; rewrite ?E'; [done|by rewrite (CHECK_TSKID_same _ _ _ Hctx)|by apply suspended_alive| | |].
  { by rewrite (sc_ctxtsk _ _ Hctx), (sc_dispatch _ _ Hctx). }
  { unfold suspended. simpl. lia. }
  fold t in T1, T2. rewrite E' in T1, T2.
  assert (Es : Nat.iter (S n) (sus tskid) s = Nat.iter n (sus tskid) s').
  { rewrite Nat.iter_succ_r. unfold sus at 2. by rewrite E. }
  rewrite Es. set (s1 := Nat.iter n (sus tskid) s') in *. set (s2 := Nat.iter n (rsm tskid) s1) in *.
  assert (E2 : s_tcb s2 t = suspended tc) by (by rewrite T2, fn_lookup_insert).
  destruct (tk_rsm_tsk_post s2 Q2 tskid K2) as (s3 & Q3 & E3 & [K3 H3 T3 R3]); fold t; rewrite ?E2.
  { rewrite (CHECK_TSKID_same _ _ _ (sr_ctx _ _ R2)). by rewrite (CHECK_TSKID_same _ _ _ Hctx). }
  { by eapply suspended_state. }
  fold t in T3. rewrite E2, (resumed_suspended _ _ Hok Ha) in T3.
  assert (Nat.iter (S n) (rsm tskid) s1 = s3) as -> by (simpl; fold s2; unfold rsm; by rewrite E3).
  exists Q1, Q3. split; constructor; [done|intros h Hh; by rewrite H1, Hq'| |by etrans|
    done|intros h Hh; by rewrite H3, H2, Hq'| |etrans; [exact Hr'|]; by etrans].
  - intros t'. rewrite T1. change (Nat.iter (S n) suspended tc) with (suspended (Nat.iter n suspended tc)).
    rewrite <- Nat.iter_succ, Nat.iter_succ_r. upd_case t t'; [done|]. rewrite Ht'. by upd_simpl.
  - intros t'. rewrite T3. upd_case t t'; [done|]. rewrite T2. upd_simpl. rewrite Ht'. by upd_simpl.
Qed.

(** Suspension nests.  [n] calls of tk_sus_tsk on a live task leave it suspended
    (or waiting and suspended) with its count raised by [n], so it is not chosen to
    run; as many calls of tk_rsm_tsk give every task its old control block back:
    the task is ready or waiting again exactly if it was before, and the task chosen to
    run is the first of the highest-priority ready tasks. *)
Theorem suspension_nests (n : nat) (s : SCH) (Q : gmap node (list node)) (tskid : Z) :
  let t := get_tcb tskid in
  let tc := s_tcb s t in
  let s1 := Nat.iter n (λ s, (tk_sus_tsk tskid s).2) s in
  let s2 := Nat.iter n (λ s, (tk_rsm_tsk tskid s).2) s1 in
  kinv s Q → CHECK_TSKID tskid s = None → knl_task_alive (t_state tc) = true →
  bool_decide (Some t = s_ctxtsk s) && (DDS_DISABLE <=? s_dispatch_disabled s) = false →
  (0 < n)%nat → t_suscnt tc + Z.of_nat n <= INT_MAX →
  ∃ Q1 Q2,
    kinv s1 Q1 ∧ sched_ok s1 Q1 ∧ s_schedtsk s1 ≠ Some t ∧
    t_suscnt (s_tcb s1 t) = t_suscnt tc + Z.of_nat n ∧
    (t_state (s_tcb s1 t) = TS_SUSPEND ∨ t_state (s_tcb s1 t) = TS_WAITSUS) ∧
    kinv s2 Q2 ∧ sched_ok s2 Q2 ∧ same_queues Q Q2 ∧ ∀ t', s_tcb s2 t' = s_tcb s t'.
Proof.
  intros t tc s1 s2 Hk Hc Ha Hd Hn Hm.
  destruct (iter_sus_rsm n s Q tskid Hk Hc Ha Hd Hm) as (Q1 & Q2 & [K1 H1 T1 R1] & [K2 H2 T2 R2]).
  change (Nat.iter n (sus tskid) s) with s1 in *. change (Nat.iter n (rsm tskid) s1) with s2 in *.
  exists Q1, Q2. fold t tc in T1, T2. assert (E1 : s_tcb s1 t = Nat.iter n suspended tc) by (by rewrite T1, fn_lookup_insert).
  assert (Hcnt : ∀ m, t_suscnt (Nat.iter m suspended tc) = t_suscnt tc + Z.of_nat m).
  { induction m as [|m IHm]; [simpl; lia|]. rewrite Nat.iter_succ. unfold suspended at 1.
    cbn [t_suscnt set_t_suscnt]. rewrite IHm. lia. }
  assert (Hal : ∀ m, knl_task_alive (t_state (Nat.iter m suspended tc)) = true)
    by (induction m as [|m IHm]; [done|by apply suspended_alive]).
  assert (Hst : t_state (s_tcb s1 t) = TS_SUSPEND ∨ t_state (s_tcb s1 t) = TS_WAITSUS).
  { pose proof (ki_task _ _ _ _ K1 t ltac:(done)) as Hok. rewrite E1 in Hok |- *.
    assert (Hne : t_state (Nat.iter n suspended tc) ≠ TS_NONEXIST) by (intros E; specialize (Hal n); by rewrite E in Hal).
    apply (tk_sus_iff _ _ Hok Hne). rewrite Hcnt. 
    pose proof (ki_task _ _ _ _ Hk t ltac:(done)) as Hok0. fold tc in Hok0.
    assert (0 <= t_suscnt tc); [|lia]. apply Hok0. intros E. by rewrite E in Ha. }
  split_and!; [done|by apply kinv_sched_ok| |by rewrite E1, Hcnt|done|done|by apply kinv_sched_ok|done|].
  - intros E. pose proof (kinv_sched_ok _ _ K1) as Hs. unfold sched_ok in Hs. rewrite E in Hs.
    destruct Hs as [Hr _]. destruct Hst as [E2|E2]; by rewrite E2 in Hr.
  - intros t'. rewrite T2. unfold tc. upd_case t t'; done.
Qed.

Lemma suspension_nests_witness :
  let tasks := [ex_ready 3; ex_ready 5; ex_waits 2 4 knl_wspec_sem_tfifo 1 (WI_sem 2)] in
  let objs := [(TIMERQ, [TMEBT 2]); (SEMQ 0, [TSKQ 2])] in
  let s := ex_sch tasks objs in
  t_suscnt (s_tcb (Nat.iter 2 (λ s, (tk_sus_tsk 3 s).2) s) 2) = 2 ∧
  ∃ Q2, kinv (Nat.iter 2 (λ s, (tk_rsm_tsk 3 s).2) (Nat.iter 2 (λ s, (tk_sus_tsk 3 s).2) s)) Q2.
Proof.
  intros tasks objs s.
  assert (Hk : kinv s (ex_Q tasks objs)) by (apply ex_kinv; by vm_compute).
  destruct (suspension_nests 2 s (ex_Q tasks objs) 3 Hk ltac:(by vm_compute) ltac:(by vm_compute)
    ltac:(by vm_compute) ltac:(lia) ltac:(by vm_compute)) as (Q1 & Q2 & _ & _ & _ & H1 & _ & H2 & _).
  split; [|by exists Q2]. exact H1.
Defined.

(** ** Sleeping and waking up *)

Lemma make_wait_reltim_eq tmout atr s : tmout ≠ TMO_FEVR → knl_make_wait_reltim tmout atr s = knl_make_wait tmout atr s.
Proof.
  intros Hne. unfold knl_make_wait_reltim, knl_make_wait, knl_timer_insert.
  by destruct (Z.eqb_spec tmout TMO_FEVR).
Qed.

Definition to_alone (w : wspec) (c : Z) (tc : TCB) : TCB :=
  set_t_state TS_WAIT (set_t_wercd (Some c) (set_t_wid 0 (set_t_wspec w tc))).

(** What a call that waits on no object did. *)
Record alone_post (w : wspec) (s s' : SCH) (Q Q' : gmap node (list node)) : Prop := {
  ap_kinv : kinv s' Q';
  ap_self : Q' !! TSKQ (ctx s) = Some [];
  ap_heads : ∀ h, obj_head h = true → Q' !! h = Q !! h;
  ap_tcb : ∀ t, s_tcb s' t = (<[ctx s := to_alone w (ctx s) (s_tcb s (ctx s))]> (s_tcb s)) t;
  ap_vars : same_vars s s'
}.

Lemma kinv_wait_alone w tmout s Q :
  w = knl_wspec_slp ∨ w = knl_wspec_dly → kinv s Q → t_state (s_tcb s (ctx s)) = TS_READY →
  ∃ Q', alone_post w s (wait_alone w (knl_make_wait tmout 0) s) Q Q'.
Proof.
  intros Hw Hk Hst. unfold wait_alone. set (c := ctx s) in *.
  set (s1 := upd_tcb c (λ t, set_t_wercd (Some c) (set_t_wid 0 (set_t_wspec w t))) s).
  assert (E1 : s_tcb s1 c = set_t_wercd (Some c) (set_t_wid 0 (set_t_wspec w (s_tcb s c))))
    by (unfold s1; simpl; by upd_simpl).
  assert (Hk1 : kinv s1 Q).
  { apply kinv_upd_tcb; [done|unfold home; simpl; by rewrite Hst|done|]. intros []. by constructor. }
  destruct (kinv_own_wait tmout 0 s1 Q Hk1) as (Q2 & Hk2 & Ec & Hself & Hf & Htcb & Hsame);
    [by change (ctx s1) with c; rewrite E1; try done; destruct Hw as [-> | ->]..|]. change (ctx s1) with c in *.
  rewrite Ec. exists Q2. constructor; [done|done|done| |].
  - intros t. change (s_tcb (upd_q (QueInit (TSKQ c)) ?s2)) with (s_tcb s2). fold c. rewrite Htcb, E1.
    unfold s1. simpl. by upd_case c t.
  - transitivity (knl_make_wait tmout 0 s1); [|by constructor]. etrans; [|exact Hsame]. by constructor.
Qed.

Lemma kinv_set_ercd v s Q : kinv s Q → kinv (set_s_ercd v s) Q.
Proof. intros Hk. by eapply kinvx_ext; [..|exact Hk]. Qed.

(** Sleeping.  A pending wake-up is consumed and the call returns E_OK at once; with
    no wake-up pending a poll returns E_TMOUT and changes nothing, and any other
    time-out puts the running task, and no other, into the sleep state with E_TMOUT as
    its result, linked only to its own node and its timer; the kernel then chooses the
    next task to run. *)
Theorem tk_slp_tsk_spec (s : SCH) (Q : gmap node (list node)) (tmout : Z) :
  let c := ctx s in
  let tc := s_tcb s c in
  let s' := (tk_slp_tsk tmout s).2 in
  let r := (tk_slp_tsk tmout s).1 in
  kinv s Q → running s → TMOUT_ERR tmout = false →
  if 0 <? t_wupcnt tc then
    r = E_OK ∧ task_post c (set_t_wupcnt (t_wupcnt tc - 1) tc) s s' Q Q
  else if tmout =? TMO_POL then r = E_TMOUT ∧ s' = s
  else r = E_TMOUT ∧ ∃ Q', alone_post knl_wspec_slp (set_s_ercd (<[c := E_TMOUT]> (s_ercd s)) s) s' Q Q' ∧
         sched_ok s' Q' ∧ s_schedtsk s' ≠ Some c.
Proof.
  intros c tc s' r Hk [Hdd Hst] Htm.
  assert (E : tk_slp_tsk tmout s =
    if 0 <? t_wupcnt tc then (E_OK, upd_tcb c (λ t, set_t_wupcnt (t_wupcnt t - 1) t) s)
    else if tmout =? TMO_POL then (E_TMOUT, s)
    else let s := wait_alone knl_wspec_slp (knl_make_wait tmout 0) (set_s_ercd (<[c := E_TMOUT]> (s_ercd s)) s) in
         (s_ercd s c, s)).
  { unfold tk_slp_tsk. rewrite Htm, Hdd. fold c tc. by destruct (tmout =? TMO_POL). }
  unfold r, s'. rewrite E. clear E r s'.
  assert (Hok : task_ok tc c) by (by apply (ki_task _ _ _ _ Hk)).
  destruct (Z.ltb_spec 0 (t_wupcnt tc)).
  { split; [done|]. cbn [snd]. apply (task_post_upd c (λ t, set_t_wupcnt (t_wupcnt t - 1) t)); try done.
    fold tc. destruct Hok. constructor; simpl; try done. intros. specialize (tk_wup ltac:(done)). lia. }
  destruct (tmout =? TMO_POL); [done|]. cbv zeta. cbn [fst snd].
  set (s1 := set_s_ercd (<[c := E_TMOUT]> (s_ercd s)) s).
  destruct (kinv_wait_alone knl_wspec_slp tmout s1 Q) as (Q' & Hp); [by left|by apply kinv_set_ercd|done|].
  split; [rewrite (sv_ercd _ _ (ap_vars _ _ _ _ _ Hp)); unfold s1; simpl; by upd_simpl|].
  exists Q'. pose proof (kinv_sched_ok _ _ (ap_kinv _ _ _ _ _ Hp)) as Hs. split_and!; [done|done|].
  intros E. unfold sched_ok in Hs. rewrite E in Hs. destruct Hs as [Hr _].
  rewrite (ap_tcb _ _ _ _ _ Hp) in Hr. change (ctx s1) with c in Hr. by rewrite fn_lookup_insert in Hr.
Qed.

Lemma tk_slp_tsk_spec_witness :
  let tasks := [ex_ready 3; ex_ready 5] in
  let s := ex_sch tasks [(TIMERQ, [])] in
  (tk_slp_tsk 100 s).1 = E_TMOUT ∧ s_schedtsk (tk_slp_tsk 100 s).2 ≠ Some 0.
Proof.
  intros tasks s. assert (Hk : kinv s (ex_Q tasks [(TIMERQ, [])])) by (apply ex_kinv; by vm_compute).
  destruct (tk_slp_tsk_spec s _ 100 Hk ltac:(by vm_compute) eq_refl) as (H1 & Q' & _ & _ & H2). by split.
Defined.

Definition woken (tc : TCB) : TCB := set_t_wupcnt (t_wupcnt tc + 1) tc.

(** Waking a task up.  A task that sleeps is released with E_OK, and is then ready
    (or still suspended); for a live task that does not sleep the request is counted,
    up to INT_MAX, where it is refused with E_QOVR; a dormant or unused task is an
    error, and every error leaves the kernel as it was. *)
Theorem tk_wup_tsk_spec (s : SCH) (Q : gmap node (list node)) (tskid : Z) :
  let t := get_tcb tskid in
  let tc := s_tcb s t in
  let s' := (tk_wup_tsk tskid s).2 in
  let r := (tk_wup_tsk tskid s).1 in
  kinv s Q → CHECK_TSKID tskid s = None →
  if negb (knl_task_alive (t_state tc)) then (r = E_NOEXS ∨ r = E_OBJ) ∧ s' = s
  else if waiting tc && bool_decide (t_wspec tc = knl_wspec_slp) then
    r = E_OK ∧ ∃ Q', rel_post (TSKQ t) [TSKQ t] E_OK s s' Q Q' ∧ sched_ok s' Q'
  else if t_wupcnt tc =? INT_MAX then r = E_QOVR ∧ s' = s
  else r = E_OK ∧ task_post t (woken tc) s s' Q Q.
Proof.
  intros t tc s' r Hk Hc. unfold r, s', tk_wup_tsk. rewrite Hc. fold t tc.
  assert (Hok : task_ok tc t) by (by apply (ki_task _ _ _ _ Hk)).
  destruct (knl_task_alive (t_state tc)) eqn:Ha; simpl.
  2: { destruct (t_state tc =? TS_NONEXIST); auto. }
  change (has (t_state tc) TS_WAIT) with (waiting tc).
  destruct (waiting tc && bool_decide (t_wspec tc = knl_wspec_slp)) eqn:Hw.
  - apply andb_prop in Hw as [Hw Hsp%bool_decide_eq_true]. split; [done|]. cbn [snd].
    destruct (kinv_release_ercd t E_OK s Q Hk Hw) as (Q' & Hr & _). fold tc in Hr. rewrite Hsp in Hr.
    exists Q'. split; [exact Hr|]. by apply kinv_sched_ok, (rp_kinv _ _ _ _ _ _ _ Hr).
  - destruct (Z.eqb_spec (t_wupcnt tc) INT_MAX) as [|Hne]; [done|]. split; [done|]. cbn [snd].
    apply (task_post_upd t woken); try done. fold tc. destruct Hok. unfold woken.
    constructor; simpl; try done. intros. specialize (tk_wup ltac:(done)). lia.
Qed.

Lemma tk_wup_tsk_spec_witness :
  let tasks := [ex_ready 3; ex_waits 1 2 knl_wspec_slp 0 WI_none] in
  let objs := [(TIMERQ, [TMEBT 1]); (TSKQ 1, [])] in
  let s := ex_sch tasks objs in
  (tk_wup_tsk 2 s).1 = E_OK ∧ ∃ Q', kinv (tk_wup_tsk 2 s).2 Q' ∧ t_state (s_tcb (tk_wup_tsk 2 s).2 1) = TS_READY.
Proof.
  intros tasks objs s. assert (Hk : kinv s (ex_Q tasks objs)) by (apply ex_kinv; by vm_compute).
  pose proof (tk_wup_tsk_spec s (ex_Q tasks objs) 2 Hk ltac:(by vm_compute)) as H. cbv zeta in H.
  change (negb (knl_task_alive (t_state (s_tcb s (get_tcb 2))))) with false in H. cbv iota in H.
  change (waiting (s_tcb s (get_tcb 2)) && bool_decide (t_wspec (s_tcb s (get_tcb 2)) = knl_wspec_slp))
    with true in H. destruct H as (H1 & Q' & [Hk' _ _ Ht _ _ _] & _). split; [done|]. exists Q'. split; [done|].
  change (get_tcb 2) with 1 in Ht. rewrite Ht. by vm_compute.
Defined.
