(* ===== verification/Mem.v ===== *)
(** * Memory: kernel/tstdlib/string.c, and the interface of the allocator

    [knl_memcpy] as the byte loop it is, the list of bytes of an area, and the two
    routines of kernel/tkernel/memory.c the object managers call. *)
From S2P Require Import Prelude Config Queue Kernel.

(* src: kernel/tstdlib/string.c 63-74 knl_memcpy *)
Definition knl_memcpy (dst src n : Z) (m : Z → Z) : Z → Z :=
  foldl (λ m i, <[dst + i := m (src + i)]> m) m (seqZ 0 n).

(** A loop that stores [n] bytes, and one that stores [n] words. *)
Definition fill_bytes (a v n : Z) (m : Z → Z) : Z → Z := foldl (λ m i, <[a + i := v]> m) m (seqZ 0 n).
Definition fill_words (a v n : Z) (m : Z → Z) : Z → Z := foldl (λ m i, st32 (a + 4 * i) v m) m (seqZ 0 n).

(** Short areas byte by byte; long ones byte by byte up to an aligned address, then
    word by word, then the rest. *)
(* src: kernel/tstdlib/string.c 24-60 knl_memset *)
Definition knl_memset (s c n : Z) (m : Z → Z) : Z → Z :=
  let cval := c mod 2 ^ 8 in
  if n <? 8 then fill_bytes s cval n m
  else
    let k := (- s) mod 4 in
    let m := fill_bytes s cval k m in
    let n := n - k in
    let lp := s + k in
    let lval := Z.lor (Z.lor (Z.lor cval (Z.shiftl cval 8)) (Z.shiftl cval 16)) (Z.shiftl cval 24) in
    let m := fill_words lp lval (n / 4) m in
    fill_bytes (lp + 4 * (n / 4)) cval (n mod 4) m.

(** The kernel's allocator, as the object managers see it: [Imalloc] returns an
    address or NULL (0). *)
Class Allocator := {
  Imalloc : Z → K → Z * K;
  Ifree : Z → K → K
}.

(** Clearing the two low bits rounds down to whole words. *)
Lemma land_words x : 0 <= x < 2 ^ 32 → Z.land x (2 ^ 32 - 4) = 4 * (x / 4).
Proof.
  intros Hx. change (2 ^ 32 - 4) with (Z.ldiff (Z.ones 32) (Z.ones 2)).
  assert (E : Z.land x (Z.ldiff (Z.ones 32) (Z.ones 2)) = Z.ldiff (Z.land x (Z.ones 32)) (Z.ones 2)).
  { apply Z.bits_inj'. intros i Hi. rewrite Z.land_spec, !Z.ldiff_spec, Z.land_spec. by rewrite andb_assoc. }
  rewrite E, Z.land_ones, Z.mod_small, Z.ldiff_ones_r, Z.shiftl_mul_pow2, Z.shiftr_div_pow2 by lia.
  change (2 ^ 2) with 4. lia.
Qed.

(** The bytes of an area. *)
Definition bytes (a n : Z) (m : Z → Z) : list Z := (λ i, m (a + i)) <$> seqZ 0 n.

Lemma foldl_ext_in {A B : Type} (f g : A → B → A) (l : list B) a :
  (∀ a b, b ∈ l → f a b = g a b) → foldl f a l = foldl g a l.
Proof.
  revert a. induction l as [|b l IH]; intros a Hl; simpl; [done|].
  rewrite Hl by left. apply IH. intros a' b' Hb. apply Hl. by right.
Qed.

(** Outside the destination nothing changes; a copy between disjoint areas copies. *)
Lemma memcpy_spec dst src n m a :
  dst + n <= src ∨ src + n <= dst ∨ n <= 0 →
  knl_memcpy dst src n m a = if decide (dst <= a < dst + n) then m (src + (a - dst)) else m a.
Proof.
  intros Hd. destruct (Z.le_gt_cases n 0) as [Hn|Hn].
  { unfold knl_memcpy. rewrite seqZ_nil by lia. simpl. by rewrite decide_False by lia. }
  assert (Hd' : dst + n <= src ∨ src + n <= dst) by lia. clear Hd.
  unfold knl_memcpy. remember (Z.to_nat n) as k eqn:Hk. assert (n = Z.of_nat k) as -> by lia. clear Hk Hn.
  revert a Hd'. induction k as [|k IH]; intros a Hd.
  { rewrite seqZ_nil by lia. simpl. by rewrite decide_False by lia. }
  rewrite seqZ_S, foldl_app. rewrite Nat2Z.inj_succ in *. cbn [foldl]. rewrite Z.add_0_l.
  assert (∀ a, foldl (λ m i, <[dst + i := m (src + i)]> m) m (seqZ 0 (Z.of_nat k)) a =
    if decide (dst <= a < dst + Z.of_nat k) then m (src + (a - dst)) else m a) as E by (intros; apply IH; lia).
  destruct (decide (dst + Z.of_nat k = a)) as [<-|Hne].
  - rewrite fn_lookup_insert, E, decide_False by lia. rewrite decide_True by lia. f_equal. lia.
  - rewrite fn_lookup_insert_ne, E by done.
    destruct (decide (dst <= a < dst + Z.of_nat k)); [rewrite decide_True by lia|rewrite decide_False by lia]; done.
Qed.

Lemma fill_bytes_spec a v n m x :
  fill_bytes a v n m x = if decide (a <= x < a + n) then v else m x.
Proof.
  destruct (Z.le_gt_cases n 0) as [Hn|Hn].
  { unfold fill_bytes. rewrite seqZ_nil by lia. simpl. by rewrite decide_False by lia. }
  unfold fill_bytes. remember (Z.to_nat n) as k eqn:Hk. assert (n = Z.of_nat k) as -> by lia. clear Hk Hn.
  revert x. induction k as [|k IH]; intros x; [by rewrite decide_False by lia|].
  rewrite seqZ_S, foldl_app, Nat2Z.inj_succ. cbn [foldl]. rewrite Z.add_0_l.
  destruct (decide (a + Z.of_nat k = x)) as [<-|]; upd_simpl; [by rewrite decide_True by lia|].
  rewrite IH. destruct (decide (a <= x < a + Z.of_nat k)); [rewrite decide_True by lia|rewrite decide_False by lia]; done.
Qed.

(** The four bytes of the word [knl_memset] stores. *)
Lemma word_of_bytes v : 0 <= v < 2 ^ 8 →
  let w := Z.lor (Z.lor (Z.lor v (Z.shiftl v 8)) (Z.shiftl v 16)) (Z.shiftl v 24) in
  w mod 2 ^ 8 = v ∧ Z.shiftr w 8 mod 2 ^ 8 = v ∧ Z.shiftr w 16 mod 2 ^ 8 = v ∧ Z.shiftr w 24 mod 2 ^ 8 = v.
Proof.
  intros Hv. set (f := λ v, let w := Z.lor (Z.lor (Z.lor v (Z.shiftl v 8)) (Z.shiftl v 16)) (Z.shiftl v 24) in
    (w mod 2 ^ 8 =? v) && (Z.shiftr w 8 mod 2 ^ 8 =? v) && (Z.shiftr w 16 mod 2 ^ 8 =? v) && (Z.shiftr w 24 mod 2 ^ 8 =? v)).
  assert (Hall : forallb f (seqZ 0 256) = true) by (vm_compute; reflexivity).
  rewrite forallb_forall in Hall. specialize (Hall v).
  assert (Hf : f v = true) by (apply Hall, list_elem_of_In, elem_of_seqZ; lia).
  unfold f in Hf. rewrite !andb_true_iff, !Z.eqb_eq in Hf. cbv zeta in *. tauto.
Qed.

Lemma fill_words_spec a v n m x : 0 <= v < 2 ^ 8 → 0 <= n →
  fill_words a (Z.lor (Z.lor (Z.lor v (Z.shiftl v 8)) (Z.shiftl v 16)) (Z.shiftl v 24)) n m x =
    if decide (a <= x < a + 4 * n) then v else m x.
Proof.
  intros Hv Hn. destruct (word_of_bytes v Hv) as (E0 & E1 & E2 & E3). set (w := Z.lor _ _) in *.
  assert (Hst : ∀ b m x, st32 b w m x = if decide (b <= x < b + 4) then v else m x).
  { intros b m' y. unfold st32. rewrite E0, E1, E2, E3. destruct (decide (b <= y < b + 4)) as [Hy|Hy].
    - assert (y = b ∨ y = b + 1 ∨ y = b + 2 ∨ y = b + 3) as [->|[->|[->| ->]]] by lia;
        repeat first [rewrite fn_lookup_insert|rewrite fn_lookup_insert_ne by lia]; done.
    - by rewrite !fn_lookup_insert_ne by lia. }
  unfold fill_words. remember (Z.to_nat n) as k eqn:Hk. assert (n = Z.of_nat k) as -> by lia. clear Hk Hn.
  revert x. induction k as [|k IH]; intros x; [by rewrite decide_False by lia|].
  rewrite seqZ_S, foldl_app, Nat2Z.inj_succ. cbn [foldl]. rewrite Z.add_0_l, Hst, IH.
  repeat case_decide; lia || done.
Qed.

(** The word loop of [knl_memset] does what a loop over the bytes does. *)
Lemma memset_spec s c n m x :
  knl_memset s c n m x = if decide (s <= x < s + n) then c mod 2 ^ 8 else m x.
Proof.
  assert (Hv : 0 <= c mod 2 ^ 8 < 2 ^ 8) by (apply Z.mod_pos_bound; lia).
  unfold knl_memset. destruct (Z.ltb_spec n 8); [apply fill_bytes_spec|]. cbv zeta.
  pose proof (Z.mod_pos_bound (- s) 4). set (k := (- s) mod 4) in *.
  pose proof (Z.div_mod (n - k) 4). pose proof (Z.mod_pos_bound (n - k) 4).
  rewrite fill_bytes_spec, fill_words_spec, fill_bytes_spec by lia. repeat case_decide; lia || done.
Qed.

Lemma length_bytes a n m : 0 <= n → length (bytes a n m) = Z.to_nat n.
Proof. intros. unfold bytes. by rewrite length_fmap, length_seqZ. Qed.

Lemma bytes_ext a b n m m' :
  (∀ i, 0 <= i < n → m (a + i) = m' (b + i)) → bytes a n m = bytes b n m'.
Proof.
  intros H. unfold bytes. apply list_fmap_ext. intros i x Hx. apply H.
  apply lookup_seqZ in Hx. lia.
Qed.

Lemma bytes_app a n1 n2 m : 0 <= n1 → 0 <= n2 → bytes a (n1 + n2) m = bytes a n1 m ++ bytes (a + n1) n2 m.
Proof.
  intros. unfold bytes. rewrite seqZ_app by lia. rewrite fmap_app. f_equal.
  replace (seqZ (0 + n1) n2) with (Z.add n1 <$> seqZ 0 n2) by (rewrite fmap_add_seqZ; f_equal; lia).
  rewrite <- list_fmap_compose. apply list_fmap_ext. intros i x _. simpl. f_equal. lia.
Qed.

Lemma bytes_memcpy dst src n m :
  dst + n <= src ∨ src + n <= dst → bytes dst n (knl_memcpy dst src n m) = bytes src n m.
Proof.
  intros. apply bytes_ext. intros i Hi. rewrite memcpy_spec by lia. rewrite decide_True by lia. f_equal. lia.
Qed.

Lemma bytes_memcpy_ne a k dst src n m :
  dst + n <= src ∨ src + n <= dst ∨ n <= 0 → a + k <= dst ∨ dst + n <= a →
  bytes a k (knl_memcpy dst src n m) = bytes a k m.
Proof.
  intros. apply bytes_ext. intros i Hi. rewrite memcpy_spec by lia. by rewrite decide_False by lia.
Qed.

(** ** Linked lists in memory *)

(** NULL is the address 0. *)
Definition NULL : Z := 0.

(** [xs] are the areas linked from [h] through their first words. *)
Fixpoint mlist (m : Z → Z) (h : Z) (xs : list Z) : Prop :=
  match xs with
  | [] => h = NULL
  | x :: xs' => h = x ∧ mlist m (ld32 m x) xs'
  end.

(** Writing to a word that is no link of the list keeps the list. *)
Lemma mlist_ext m m' h xs : (∀ x, x ∈ xs → ld32 m' x = ld32 m x) → mlist m h xs → mlist m' h xs.
Proof.
  revert h. induction xs as [|x xs IH]; intros h Hf; simpl; [done|]. intros [-> Hl].
  split; [done|]. rewrite Hf by left. apply IH; [|done]. intros. apply Hf. by right.
Qed.

Lemma mlist_frame m a v h xs :
  Forall (λ x, a + 4 <= x ∨ x + 4 <= a) xs → mlist m h xs → mlist (st32 a v m) h xs.
Proof.
  intros Hf. apply mlist_ext. intros x Hx. rewrite Forall_forall in Hf. apply ld32_st32_ne. by apply Hf.
Qed.

Lemma mlist_split m h l1 x l2 : mlist m h (l1 ++ x :: l2) → mlist m (ld32 m x) l2.
Proof. revert h. induction l1 as [|y l1 IH]; intros h; simpl; intros [_ H]; [done|by eapply IH]. Qed.
