(* ===== verification/Bitop.v ===== *)
(** * Bit strings: kernel/tstdlib/bitop.c

    The functions the ready queue uses when it has more priorities than a word has bits
    (little-endian: bit [i] is bit [i mod 8] of byte [i / 8]). *)
From S2P Require Import Prelude Config Queue Kernel Mem.

(** Bit [i] of the string at [base]. *)
Definition bit (m : Z → Z) (base i : Z) : bool := Z.testbit (m (base + i / 8)) (i mod 8).

(* src: kernel/tstdlib/bitop.c 28-28 _BIT_SET_N *)
Definition _BIT_SET_N (n : Z) : Z := Z.shiftl 1 (Z.land n 7).
(* src: kernel/tstdlib/bitop.c 29-29 _BIT_SHIFT *)
Definition _BIT_SHIFT (n : Z) : Z := u8 (Z.shiftl n 1).

(* src: kernel/tstdlib/bitop.c 35-50 knl_bitclr *)
Definition knl_bitclr (base offset : Z) (m : Z → Z) : Z → Z :=
  if offset <? 0 then m
  else
    let cp := base + offset / 8 in
    let mask := _BIT_SET_N offset in
    <[cp := u8 (Z.land (m cp) (Z.lnot mask))]> m.

(* src: kernel/tstdlib/bitop.c 55-70 knl_bitset *)
Definition knl_bitset (base offset : Z) (m : Z → Z) : Z → Z :=
  if offset <? 0 then m
  else
    let cp := base + offset / 8 in
    let mask := _BIT_SET_N offset in
    <[cp := Z.lor (m cp) mask]> m.

(** The search of a byte [b] that is not zero; [None] when it does not end within [fuel]
    rounds. *)
(* src: kernel/tstdlib/bitop.c 92-102 knl_bitsearch1 *)
Fixpoint search_byte (fuel : nat) (b mask position width : Z) : option Z :=
  match fuel with
  | O => None
  | S fuel =>
      if negb (Z.land b mask =? 0) then Some (if position <? width then position else -1)
      else search_byte fuel b (_BIT_SHIFT mask) (position + 1) width
  end.

(* src: kernel/tstdlib/bitop.c 90-112 knl_bitsearch1 *)
Fixpoint search_bytes (fuel : nat) (m : Z → Z) (offset cp mask position width : Z) : option Z :=
  match fuel with
  | O => None
  | S fuel =>
      if position <? width then
        if negb (m cp =? 0) then search_byte fuel (m cp) mask position width
        else if negb (position =? 0) then search_bytes fuel m offset (cp + 1) mask (position + 8) width
        else search_bytes fuel m offset (cp + 1) (_BIT_SET_N 0) (8 - Z.land offset 7) width
      else Some (-1)
  end.

(* src: kernel/tstdlib/bitop.c 75-116 knl_bitsearch1 *)
Definition knl_bitsearch1 (fuel : nat) (m : Z → Z) (base offset width : Z) : option Z :=
  if (offset <? 0) || (width <? 0) then Some (-1)
  else search_bytes fuel m offset (base + offset / 8) (_BIT_SET_N offset) 0 width.

(** ** Setting and clearing *)

Lemma bit_set_n_spec n : _BIT_SET_N n = 2 ^ (n mod 8).
Proof.
  unfold _BIT_SET_N. change 7 with (Z.ones 3). rewrite Z.land_ones by lia. rewrite Z.shiftl_mul_pow2, Z.mul_1_l; [done|].
  by apply Z.mod_pos_bound.
Qed.

Lemma testbit_pow2 j i : 0 <= j → Z.testbit (2 ^ j) i = bool_decide (i = j).
Proof. intros ?. rewrite Z.pow2_bits_eqb by done. case_bool_decide; [subst; apply Z.eqb_refl|by apply Z.eqb_neq]. Qed.

Lemma same_byte i j : i / 8 = j / 8 → i mod 8 = j mod 8 → i = j.
Proof. intros E1 E2. rewrite (Z.div_mod i 8), (Z.div_mod j 8) by lia. lia. Qed.

(** The bit at [offset], and no other, is set or cleared. *)
Lemma bitset_spec base offset m i : 0 <= offset →
  bit (knl_bitset base offset m) base i = bit m base i || bool_decide (i = offset).
Proof.
  intros Ho. unfold bit, knl_bitset. rewrite (proj2 (Z.ltb_ge _ _)) by lia. rewrite bit_set_n_spec.
  pose proof (Z.mod_pos_bound offset 8). pose proof (Z.mod_pos_bound i 8).
  destruct (decide (i / 8 = offset / 8)) as [E|Hne].
  - rewrite E. upd_simpl. rewrite Z.lor_spec, testbit_pow2 by lia. f_equal. apply bool_decide_ext.
    split; [|congruence]. by apply same_byte.
  - rewrite fn_lookup_insert_ne by lia. rewrite (bool_decide_eq_false_2 (i = offset)) by congruence. by rewrite orb_false_r.
Qed.

Lemma bitclr_spec base offset m i : 0 <= offset →
  bit (knl_bitclr base offset m) base i = bit m base i && negb (bool_decide (i = offset)).
Proof.
  intros Ho. unfold bit, knl_bitclr. rewrite (proj2 (Z.ltb_ge _ _)) by lia. rewrite bit_set_n_spec.
  pose proof (Z.mod_pos_bound offset 8). pose proof (Z.mod_pos_bound i 8).
  destruct (decide (i / 8 = offset / 8)) as [E|Hne].
  - rewrite E. upd_simpl. unfold u8. rewrite Z.mod_pow2_bits_low, Z.land_spec, Z.lnot_spec, testbit_pow2 by lia. do 2 f_equal.
    apply bool_decide_ext. split; [|congruence]. by apply same_byte.
  - rewrite fn_lookup_insert_ne by lia. rewrite (bool_decide_eq_false_2 (i = offset)) by congruence. by rewrite andb_true_r.
Qed.

(** ** Searching *)

(** With an empty mask the loop does not end. *)
Lemma search_byte_empty fuel : ∀ b p w, search_byte fuel b 0 p w = None.
Proof. induction fuel as [|fuel IH]; intros b p w; [done|]. simpl. rewrite Z.land_0_r. apply IH. Qed.

Lemma land_pow2 b j : 0 <= j → (Z.land b (2 ^ j) =? 0) = negb (Z.testbit b j).
Proof.
  intros Hj. destruct (Z.testbit b j) eqn:E; simpl.
  - apply Z.eqb_neq. intros E0. assert (Z.testbit (Z.land b (2 ^ j)) j = false) by (by rewrite E0, Z.bits_0).
    rewrite Z.land_spec, E, testbit_pow2, bool_decide_eq_true_2 in H; done.
  - apply Z.eqb_eq, Z.bits_inj'. intros i _. rewrite Z.land_spec, testbit_pow2, Z.bits_0 by done.
    case_bool_decide; [subst; by rewrite E|by rewrite andb_false_r].
Qed.

Lemma bit_shift_pow2 j : 0 <= j < 8 → _BIT_SHIFT (2 ^ j) = if j =? 7 then 0 else 2 ^ (j + 1).
Proof.
  intros Hj. unfold _BIT_SHIFT, u8. rewrite Z.shiftl_mul_pow2, <- Z.pow_add_r by lia.
  destruct (Z.eqb_spec j 7) as [->|]; [done|]. apply Z.mod_small. split; [lia|]. apply Z.pow_lt_mono_r; lia.
Qed.

(** From bit [j] on, the first set bit of the byte ends the search; without one it does not
    end. *)
Lemma search_byte_found i : ∀ (n : nat) fuel b j p w, i = j + Z.of_nat n → 0 <= j → i < 8 → (n < fuel)%nat →
  Z.testbit b i = true → (∀ q, j <= q < i → Z.testbit b q = false) →
  search_byte fuel b (2 ^ j) p w = Some (if p + (i - j) <? w then p + (i - j) else -1).
Proof.
  induction n as [|n IH]; intros fuel b j p w -> Hj Hi Hf Hb Hq; (destruct fuel as [|fuel]; [lia|]); cbn [search_byte];
    rewrite land_pow2, negb_involutive by done.
  - rewrite Z.add_0_r in *. rewrite Hb. by rewrite Z.sub_diag, Z.add_0_r.
  - rewrite (Hq j) by lia. rewrite bit_shift_pow2, (proj2 (Z.eqb_neq j 7)) by lia.
    rewrite (IH fuel b (j + 1)); [|lia|lia|lia|lia|done|intros; apply Hq; lia].
    by replace (p + 1 + (j + Z.of_nat (S n) - (j + 1))) with (p + (j + Z.of_nat (S n) - j)) by lia.
Qed.

Lemma search_byte_none : ∀ (n : nat) fuel b j p w, 8 = j + Z.of_nat n → 0 <= j → j < 8 →
  (∀ q, j <= q < 8 → Z.testbit b q = false) → search_byte fuel b (2 ^ j) p w = None.
Proof.
  induction n as [|n IH]; intros fuel b j p w En Hj Hj8 Hq; [lia|]. destruct fuel as [|fuel]; [done|]. simpl.
  rewrite land_pow2, negb_involutive, Hq by lia. rewrite bit_shift_pow2 by lia.
  destruct (Z.eqb_spec j 7); [apply search_byte_empty|]. apply IH; [lia..|]. intros; apply Hq; lia.
Qed.

Lemma first_bit b (n : nat) : ∀ j, 8 = j + Z.of_nat n → 0 <= j →
  (∃ i, j <= i < 8 ∧ Z.testbit b i = true ∧ ∀ q, j <= q < i → Z.testbit b q = false) ∨
  (∀ q, j <= q < 8 → Z.testbit b q = false).
Proof.
  induction n as [|n IH]; intros j E Hj; [right; lia|].
  destruct (Z.testbit b j) eqn:Hb; [left; exists j; split; [lia|]; split; [done|]; lia|].
  destruct (IH (j + 1)) as [(i & Hi & Hbi & Hq)|Hq]; [lia|lia| |].
  - left. exists i. split; [lia|]. split; [done|]. intros q ?. destruct (decide (q = j)) as [->|]; [done|]. apply Hq. lia.
  - right. intros q ?. destruct (decide (q = j)) as [->|]; [done|]. apply Hq. lia.
Qed.

Lemma byte_zero b : 0 <= b < 2 ^ 8 → (∀ q, 0 <= q < 8 → Z.testbit b q = false) → b = 0.
Proof.
  intros Hb Hq. apply Z.bits_inj'. intros i Hi. rewrite Z.bits_0. destruct (Z.lt_ge_cases i 8); [apply Hq; lia|].
  rewrite <- (Z.mod_small b (2 ^ 8)) by done. by apply Z.mod_pow2_bits_high.
Qed.

(** The bits of the byte of bit [a]. *)
Lemma bit_byte m base a x : 8 * (a / 8) <= x < 8 * (a / 8) + 8 →
  bit m base x = Z.testbit (m (base + a / 8)) (x - 8 * (a / 8)).
Proof.
  intros Hx. unfold bit. assert (x / 8 = a / 8 ∧ x mod 8 = x - 8 * (a / 8)) as [-> ->]; [|done].
  Z.to_euclidean_division_equations. lia.
Qed.

(** [r] is the number of the first set bit of the [width] ones from [offset] on, or -1. *)
Definition first_set (m : Z → Z) (base offset width r : Z) : Prop :=
  0 <= r < width ∧ bit m base (offset + r) = true ∧ (∀ q, 0 <= q < r → bit m base (offset + q) = false) ∨
  r = -1 ∧ ∀ q, 0 <= q < width → bit m base (offset + q) = false.

Section search.
Context (m : Z → Z) (base offset width : Z).
Hypothesis Hbytes : ∀ x, 0 <= m x < 2 ^ 8.
Hypothesis Ho : 0 <= offset.

(** One byte, from bit [a] of the string on. *)
Lemma search_byte_spec fuel a : (8 <= fuel)%nat → offset <= a → a - offset < width →
  (∀ x, offset <= x < a → bit m base x = false) →
  m (base + a / 8) ≠ 0 →
  (∀ x, 8 * (a / 8) <= x < a → bit m base x = false) →
  ∃ r, search_byte fuel (m (base + a / 8)) (2 ^ (a mod 8)) (a - offset) width = Some r ∧ first_set m base offset width r.
Proof.
  intros Hf Ha Hw Hbefore Hb Hlow. pose proof (Z.mod_pos_bound a 8 ltac:(lia)) as Hm. pose proof (Z.div_mod a 8 ltac:(lia)) as Ea.
  destruct (first_bit (m (base + a / 8)) (Z.to_nat (8 - a mod 8)) (a mod 8)) as [(i & Hi & Hbi & Hq)|Hq]; [lia|lia| |].
  - eexists. split; [apply (search_byte_found i (Z.to_nat (i - a mod 8))); [lia..|done|done]|].
    assert (Hset : bit m base (8 * (a / 8) + i) = true) by (rewrite (bit_byte m base a) by lia; rewrite <- Hbi; f_equal; lia).
    assert (Hcl : ∀ x, offset <= x < 8 * (a / 8) + i → bit m base x = false).
    { intros x Hx. destruct (Z.lt_ge_cases x a); [apply Hbefore; lia|]. rewrite (bit_byte m base a) by lia. apply Hq. lia. }
    destruct (Z.ltb_spec (a - offset + (i - a mod 8)) width).
    + left. split; [lia|]. split; [|intros q ?; apply Hcl; lia]. rewrite <- Hset. f_equal. lia.
    + right. split; [done|]. intros q ?. apply Hcl. lia.
  - destruct Hb. apply byte_zero; [done|]. intros q Hq'. destruct (Z.lt_ge_cases q (a mod 8)); [|apply Hq; lia].
    rewrite <- (Hlow (8 * (a / 8) + q)) by lia. rewrite (bit_byte m base a) by lia. f_equal. lia.
Qed.

Lemma search_bytes_spec (n : nat) : ∀ a,
  width + offset - 8 * (a / 8) <= 8 * Z.of_nat n → offset <= a → (a = offset ∨ a mod 8 = 0) →
  (∀ x, offset <= x < a → bit m base x = false) →
  (∀ x, 8 * (a / 8) <= x < a → bit m base x = false) →
  ∃ r, search_bytes (n + 9) m offset (base + a / 8) (2 ^ (a mod 8)) (a - offset) width = Some r ∧
       first_set m base offset width r.
Proof.
  induction n as [|n IH]; intros a Hn Ha Hal Hbefore Hlow; cbn [search_bytes Nat.add].
  { pose proof (Z.mul_div_le a 8 ltac:(lia)). rewrite (proj2 (Z.ltb_ge _ _)) by lia. exists (-1). split; [done|]. right. split; [done|]. intros q ?. apply Hbefore. lia. }
  destruct (Z.ltb_spec (a - offset) width).
  2: { exists (-1). split; [done|]. right. split; [done|]. intros q ?. apply Hbefore. lia. }
  destruct (Z.eqb_spec (m (base + a / 8)) 0) as [Ez|Hnz]; cbn [negb]; [|by apply search_byte_spec; [lia|..]].
  set (a' := 8 * (a / 8) + 8). assert (E1 : a' / 8 = a / 8 + 1 ∧ a' mod 8 = 0) by (subst a'; Z.to_euclidean_division_equations; lia).
  pose proof (Z.mod_pos_bound a 8 ltac:(lia)). pose proof (Z.div_mod a 8 ltac:(lia)) as Ea.
  destruct (IH a') as (r & Hr & Hs); [lia|lia|right; apply E1| | |].
  - intros x Hx. destruct (Z.lt_ge_cases x a); [apply Hbefore; lia|]. rewrite (bit_byte m base a), Ez by lia. apply Z.bits_0.
  - intros x Hx. lia.
  - exists r. split; [|done]. rewrite <- Hr. destruct E1 as [-> ->]. rewrite Z.add_assoc. change (2 ^ 0) with 1.
    destruct (Z.eqb_spec (a - offset) 0) as [E0|Hne]; cbn [negb].
    + change 7 with (Z.ones 3). rewrite Z.land_ones by lia. change (_BIT_SET_N 0) with 1.
      replace (8 - offset mod 2 ^ 3) with (a' - offset); [done|]. replace offset with a by lia. change (2 ^ 3) with 8. lia.
    + assert (E8 : a mod 8 = 0) by (destruct Hal; [lia|done]). rewrite E8. change (2 ^ 0) with 1.
      replace (a - offset + 8) with (a' - offset) by lia. done.
Qed.

(** Searching a bit string.  If the bits before [offset] in its byte are clear, the search
    returns, with the number of the first set bit from [offset] on, counted from [offset], or
    -1 if there is none among [width].  Otherwise it need not return: when one of them is set
    and none of the byte from [offset] on, the mask is shifted out and the loop never ends. *)
Theorem bitsearch1_spec : 0 <= width →
  ((∀ x, 8 * (offset / 8) <= x < offset → bit m base x = false) →
     ∃ fuel r, knl_bitsearch1 fuel m base offset width = Some r ∧ first_set m base offset width r) ∧
  (0 < width → (∃ x, 8 * (offset / 8) <= x < offset ∧ bit m base x = true) →
     (∀ x, offset <= x < 8 * (offset / 8) + 8 → bit m base x = false) →
     ∀ fuel, knl_bitsearch1 fuel m base offset width = None).
Proof.
  intros Hw. unfold knl_bitsearch1. rewrite (proj2 (Z.ltb_ge offset 0)), (proj2 (Z.ltb_ge width 0)), bit_set_n_spec by lia. cbn [orb].
  split.
  - intros Hlow. pose proof (Z.mul_succ_div_gt offset 8 ltac:(lia)).
    exists (S (Z.to_nat width) + 9)%nat.
    destruct (search_bytes_spec (S (Z.to_nat width)) offset) as (r & Hr & Hs); [lia|lia|by left|lia|done|].
    exists r. by rewrite <- (Z.sub_diag offset).
  - intros Hw' (x & Hx & Hb) Hnone fuel. destruct fuel as [|fuel]; [done|]. cbn [search_bytes].
    rewrite (proj2 (Z.ltb_lt 0 width)) by lia.
    pose proof (Z.mod_pos_bound offset 8 ltac:(lia)). pose proof (Z.div_mod offset 8 ltac:(lia)).
    rewrite (bit_byte m base offset) in Hb by lia.
    destruct (Z.eqb_spec (m (base + offset / 8)) 0) as [E|_]; cbn [negb]; [by rewrite E, Z.bits_0 in Hb|].
    apply (search_byte_none (Z.to_nat (8 - offset mod 8))); [lia..|]. intros q Hq.
    rewrite <- (Hnone (8 * (offset / 8) + q)) by lia. rewrite (bit_byte m base offset) by lia. f_equal. lia.
Qed.
End search.
