(* ===== verification/FreeArea.v ===== *)
(** * Free areas: kernel/tkernel/memory.h and the queue routines of kernel/tkernel/memory.c

    The heap of the kernel and every variable-size memory pool keep their areas in two
    queues that live in the areas themselves.  Memory is seen as [QUEUE] cells at
    addresses ([qmem Z]; a cell is 8 bytes).  An area has a header cell, linked into
    the area queue; the lowest bit of its [prev] says whether the area is in use.  The
    first two cells of a free area's body link it into the free queue: the areas of
    different sizes form a ring in ascending order of size, and each member of that
    ring heads a NULL-terminated list of areas of its own size.

    The second half shows what the routines do to the set of free areas: [freeq m h S]
    says that the free queue with head [h] holds exactly the areas [S], each given by
    the addresses where its body begins and ends. *)
From S2P Require Import Prelude Config Queue Mem.

(** ** Definitions *)

(** [imacb] is the address of the [IMACB]; its two queue heads follow the size. *)
(* src: kernel/tkernel/memory.h 30-40 IMACB *)
Record IMACB := mkIMACB { imacb : Z; memsz : Z }.

Definition areaque (im : IMACB) : Z := imacb im + 4.
Definition freeque (im : IMACB) : Z := imacb im + 12.

(* src: kernel/tkernel/memory.h 53-53 ROUNDSZ *)
Definition MEM_ROUNDSZ : Z := 8.
(* src: kernel/tkernel/memory.h 54-54 ROUND *)
Definition ROUND (sz : Z) : Z := Z.land (u32 (u32 sz + (MEM_ROUNDSZ - 1))) (Z.lnot (MEM_ROUNDSZ - 1)).
(* src: kernel/tkernel/memory.h 57-57 MIN_FRAGMENT *)
Definition MIN_FRAGMENT : Z := 16.
(* src: kernel/tkernel/memory.h 62-62 MAX_ALLOCATE *)
Definition MAX_ALLOCATE : Z := Z.land (2 ^ 31 - 1) (Z.lnot (MEM_ROUNDSZ - 1)).
(* src: kernel/tkernel/memory.h 67-73 roundSize *)
Definition roundSize (sz : Z) : Z := s32 (ROUND (if sz <? MIN_FRAGMENT then MIN_FRAGMENT else sz)).

(* src: kernel/tkernel/memory.h 79-79 AREA_USE *)
Definition AREA_USE : Z := 1.
(* src: kernel/tkernel/memory.h 80-80 AREA_MASK *)
Definition AREA_MASK : Z := 1.
(* src: kernel/tkernel/memory.h 82-82 setAreaFlag *)
Definition setAreaFlag (q f : Z) (m : qmem Z) : qmem Z := set_qprev q (Z.lor (qprev m q) f) m.
(* src: kernel/tkernel/memory.h 83-83 clrAreaFlag *)
Definition clrAreaFlag (q f : Z) (m : qmem Z) : qmem Z := set_qprev q (Z.land (qprev m q) (Z.lnot f)) m.
(* src: kernel/tkernel/memory.h 84-84 chkAreaFlag *)
Definition chkAreaFlag (q f : Z) (m : qmem Z) : bool := negb (Z.land (qprev m q) f =? 0).
(* src: kernel/tkernel/memory.h 86-86 Mask *)
Definition Mask (x : Z) : Z := Z.land x (Z.lnot AREA_MASK).
(* src: kernel/tkernel/memory.h 87-87 Assign *)
Definition Assign (x y : Z) : Z := Z.lor (Z.land x AREA_MASK) y.
(* src: kernel/tkernel/memory.h 91-91 AreaSize *)
Definition AreaSize (aq : Z) (m : qmem Z) : Z := qnext m aq - (aq + 8).
(* src: kernel/tkernel/memory.h 92-92 FreeSize *)
Definition FreeSize (fq : Z) (m : qmem Z) : Z := s32 (qprev m (fq + 8)).

(** The bound of the search loops: the areas of the ring have different sizes below
    [2 ^ 31]. *)
Definition SFUEL : positive := 2147483649.

(** The loop from the larger sizes; the state is [q] and [fsz]. *)
(* src: kernel/tkernel/memory.c 29-55 knl_searchFreeArea *)
Definition search_larger (h blksz : Z) (m : qmem Z) (st : Z * Z) : (Z * Z) + Z :=
  let '(q, fsz) := st in
  let q := qprev m q in
  if q =? h then inr (if blksz <=? fsz then qnext m q else q)
  else
    let fsz := FreeSize q m in
    if fsz <=? blksz then inr (if fsz <? blksz then qnext m q else q) else inl (q, fsz).

(** The loop from the smaller sizes. *)
(* src: kernel/tkernel/memory.c 29-55 knl_searchFreeArea *)
Definition search_smaller (h blksz : Z) (m : qmem Z) (q : Z) : Z + Z :=
  let q := qnext m q in
  if q =? h then inr q else if blksz <=? FreeSize q m then inr q else inl q.

(* src: kernel/tkernel/memory.c 29-55 knl_searchFreeArea *)
Definition knl_searchFreeArea (im : IMACB) (blksz : Z) (m : qmem Z) : Z :=
  let q := freeque im in
  if Z.quot (memsz im) 4 <? blksz then
    match ploop SFUEL (search_larger (freeque im) blksz m) (q, 0) with inr q => q | inl (q, _) => q end
  else
    match ploop SFUEL (search_smaller (freeque im) blksz m) q with inr q => q | inl q => q end.

(** The registration of the area with header [aq] and body [f] of [size] bytes: the
    part that [knl_appendFreeArea] (where [f] is [aq + 1]) and
    [knl_appendFreeAreaBound] have in common. *)
(* src: kernel/tkernel/memory.c 77-106 knl_appendFreeArea *)
Definition append_at (im : IMACB) (aq f size : Z) (m : qmem Z) : qmem Z :=
  let fq := knl_searchFreeArea im size m in
  let m := clrAreaFlag aq AREA_USE m in
  if negb (fq =? freeque im) && (FreeSize fq m =? size) then
    let m := set_qnext (f + 8) (qnext m (fq + 8)) m in
    let m := set_qnext (fq + 8) (f + 8) m in
    let m := set_qprev (f + 8) (fq + 8) m in
    let m := if negb (qnext m (f + 8) =? NULL) then set_qprev (qnext m (f + 8)) (f + 8) m else m in
    set_qnext f NULL m
  else
    let m := QueInsert f fq m in
    let m := set_qnext (f + 8) NULL m in
    set_qprev (f + 8) size m.

(* src: kernel/tkernel/memory.c 77-106 knl_appendFreeArea *)
Definition knl_appendFreeArea (im : IMACB) (aq : Z) (m : qmem Z) : qmem Z :=
  append_at im aq (aq + 8) (AreaSize aq m) m.

(* src: kernel/tkernel/memory.c 111-125 knl_removeFreeQue *)
Definition knl_removeFreeQue (fq : Z) (m : qmem Z) : qmem Z :=
  if qnext m fq =? NULL then
    let m := set_qnext (qprev m (fq + 8)) (qnext m (fq + 8)) m in
    if negb (qnext m (fq + 8) =? NULL)
    then set_qprev (qnext m (fq + 8)) (qprev m (fq + 8)) m else m
  else
    let m :=
      if negb (qnext m (fq + 8) =? NULL) then
        let m := QueInsert (qnext m (fq + 8) - 8) fq m in
        set_qprev (qnext m (fq + 8)) (qprev m (fq + 8)) m
      else m in
    QueRemove fq m.

(* src: kernel/tkernel/memory.c 131-137 knl_insertAreaQue *)
Definition knl_insertAreaQue (que ent : Z) (m : qmem Z) : qmem Z :=
  let m := set_qprev ent que m in
  let m := set_qnext ent (qnext m que) m in
  let m := set_qprev (qnext m que) (Assign (qprev m (qnext m que)) ent) m in
  set_qnext que ent m.

(* src: kernel/tkernel/memory.c 142-146 knl_removeAreaQue *)
Definition knl_removeAreaQue (aq : Z) (m : qmem Z) : qmem Z :=
  let m := set_qnext (Mask (qprev m aq)) (qnext m aq) m in
  set_qprev (qnext m aq) (Assign (qprev m (qnext m aq)) (Mask (qprev m aq))) m.

(** ** The shape of the free queue *)

(** An area by the addresses where its body begins and ends. *)
Abbreviation area := (Z * Z)%type.
Definition asize (p : area) : Z := p.2 - p.1.

(** [cs] are the areas listed from the second cell [p] of the head of their class. *)
Fixpoint chain (m : qmem Z) (p : Z) (cs : list area) : Prop :=
  match cs with
  | [] => qnext m p = NULL
  | c :: cs => qnext m p = c.1 + 8 ∧ qprev m (c.1 + 8) = p ∧ qnext m c.1 = NULL ∧ chain m (c.1 + 8) cs
  end.

(** A class: the area in the ring, and the others of its size. *)
Definition cls (m : qmem Z) (c : area * list area) : Prop :=
  qprev m (c.1.1 + 8) = asize c.1 ∧ chain m (c.1.1 + 8) c.2 ∧ Forall (λ g, asize g = asize c.1) c.2.

Definition heads (F : list (area * list area)) : list Z := (λ c, c.1.1) <$> F.
Definition sizes (F : list (area * list area)) : list Z := (λ c, asize c.1) <$> F.
Definition members (F : list (area * list area)) : list area := F ≫= λ c, c.1 :: c.2.

Definition freeF (m : qmem Z) (h : Z) (F : list (area * list area)) : Prop :=
  ring m h (heads F) ∧ Forall (cls m) F ∧ StronglySorted Z.lt (sizes F).

Definition freeq (m : qmem Z) (h : Z) (S : list area) : Prop := ∃ F, members F ≡ₚ S ∧ freeF m h F.

(** The cells of the head and of the areas are apart, the sizes are those of a [W]. *)
Definition apart (h : Z) (S : list area) : Prop :=
  0 < h ∧ NoDup S ∧
  (∀ p, p ∈ S → 0 < p.1 ∧ 0 < asize p < 2 ^ 31 ∧ p.1 ≠ h ∧ p.1 + 8 ≠ h) ∧
  (∀ p q, p ∈ S → q ∈ S → (p.1 = q.1 → p = q) ∧ p.1 + 8 ≠ q.1).

Lemma apart_perm h S S' : S ≡ₚ S' → apart h S → apart h S'.
Proof.
  intros HP (Hh & Hnd & Hp & Hpq). split_and!; [done|by rewrite <- HP| |].
  - intros p. rewrite <- HP. apply Hp.
  - intros p q. rewrite <- HP. apply Hpq.
Qed.

Lemma apart_cons h f S : apart h (f :: S) → apart h S ∧ f ∉ S.
Proof.
  intros (Hh & [? ?]%NoDup_cons & Hp & Hpq). split; [|done].
  split_and!; [done|done| |]; intros; [apply Hp|apply Hpq]; by right.
Qed.

Lemma members_app F1 F2 : members (F1 ++ F2) = members F1 ++ members F2.
Proof. apply bind_app. Qed.

Lemma members_cons c F : members (c :: F) = c.1 :: c.2 ++ members F.
Proof. done. Qed.

Lemma elem_of_members F p : p ∈ members F ↔ ∃ c, c ∈ F ∧ p ∈ c.1 :: c.2.
Proof. unfold members. rewrite list_elem_of_bind. naive_solver. Qed.

Lemma head_member F c : c ∈ F → c.1 ∈ members F.
Proof. intros. apply elem_of_members. exists c. split; [done|left]. Qed.

Lemma elem_of_heads F x : x ∈ heads F ↔ ∃ c, c ∈ F ∧ x = c.1.1.
Proof. unfold heads. rewrite list_elem_of_fmap. naive_solver. Qed.

(** The cells outside of the free queue keep their contents. *)
Definition untouched (h : Z) (S : list area) (m m' : qmem Z) : Prop :=
  ∀ x, x ≠ NULL → x ≠ h → (∀ p, p ∈ S → x ≠ p.1 ∧ x ≠ p.1 + 8) →
    qnext m' x = qnext m x ∧ qprev m' x = qprev m x.

Lemma untouched_perm h S S' m m' : S ≡ₚ S' → untouched h S m m' → untouched h S' m m'.
Proof. intros HP Hu x ? ? Hx. apply Hu; [done|done|]. intros p. rewrite HP. apply Hx. Qed.

#[export] Instance apart_Proper h : Proper ((≡ₚ) ==> iff) (apart h).
Proof. intros S S' HP. split; apply apart_perm; [done|by symmetry]. Qed.

#[export] Instance untouched_Proper h : Proper ((≡ₚ) ==> (=) ==> (=) ==> iff) (untouched h).
Proof. intros S S' HP m ? <- m' ? <-. split; apply untouched_perm; [done|by symmetry]. Qed.

#[export] Instance freeq_Proper m h : Proper ((≡ₚ) ==> iff) (freeq m h).
Proof. intros S S' HP. unfold freeq. by setoid_rewrite HP. Qed.

(** ** Frames *)

Lemma chain_frame m m' p cs :
  qnext m' p = qnext m p →
  (∀ c, c ∈ cs → qnext m' c.1 = qnext m c.1 ∧ qnext m' (c.1 + 8) = qnext m (c.1 + 8) ∧
                 qprev m' (c.1 + 8) = qprev m (c.1 + 8)) →
  chain m p cs → chain m' p cs.
Proof.
  revert p. induction cs as [|c cs IH]; intros p Hp Hc; simpl; [congruence|].
  destruct (Hc c) as (E1 & E2 & E3); [left|]. rewrite Hp, E1, E3. intros (? & ? & ? & ?).
  split_and!; try done. apply IH; [done| |done]. intros. apply Hc. by right.
Qed.

Lemma cls_frame m m' c :
  (∀ p, p ∈ c.1 :: c.2 → qnext m' (p.1 + 8) = qnext m (p.1 + 8) ∧ qprev m' (p.1 + 8) = qprev m (p.1 + 8)) →
  (∀ p, p ∈ c.2 → qnext m' p.1 = qnext m p.1) →
  cls m c → cls m' c.
Proof.
  intros H1 H2 (? & Hch & ?). destruct (H1 c.1) as [E1 E2]; [left|].
  split_and!; [by rewrite E2| |done]. eapply chain_frame; [done| |exact Hch].
  intros p Hp. destruct (H1 p); [by right|]. auto.
Qed.

(** The free queue does not depend on the cells outside of it. *)
Lemma freeF_frame m m' h F :
  (∀ x, x = h ∨ (∃ p, p ∈ members F ∧ (x = p.1 ∨ x = p.1 + 8)) →
        qnext m' x = qnext m x ∧ qprev m' x = qprev m x) →
  freeF m h F → freeF m' h F.
Proof.
  intros Hf (Hr & Hc & Hs). split_and!; [| |done].
  - eapply ring_frame; [|exact Hr]. intros x [->|Hx]%elem_of_cons; apply Hf; [by left|right].
    apply elem_of_heads in Hx as (c & Hc' & ->). exists c.1. split; [|by left].
    apply elem_of_members. exists c. split; [done|left].
  - rewrite Forall_forall in Hc |- *. intros c HcF.
    assert (∀ p, p ∈ c.1 :: c.2 → p ∈ members F) by (intros; apply elem_of_members; eauto).
    eapply cls_frame; [| |by apply Hc]; intros p Hp.
    + apply Hf. right. exists p. auto.
    + apply (Hf p.1). right. exists p. split; [|by left]. auto using list_elem_of_further.
Qed.

Lemma freeq_frame m m' h S :
  (∀ x, x = h ∨ (∃ p, p ∈ S ∧ (x = p.1 ∨ x = p.1 + 8)) → qnext m' x = qnext m x ∧ qprev m' x = qprev m x) →
  freeq m h S → freeq m' h S.
Proof.
  intros Hf (F & HP & HF). exists F. split; [done|]. eapply freeF_frame; [|exact HF].
  intros x Hx. apply Hf. by setoid_rewrite <- HP.
Qed.

(** ** The search *)

Lemma ring_prev (m : qmem Z) h l1 l2 : ring m h (l1 ++ l2) → qprev m (hd h l2) = default h (last l1).
Proof.
  intros Hr. destruct (ring_open _ _ _ _ Hr) as (k & p & q & r & Hk & _ & <- & _ & _ & -> & _).
  destruct l1 as [|x l1 _] using rev_ind; simpl.
  - destruct k as [|? [|]]; simplify_eq/=; done.
  - rewrite app_comm_cons in Hk. apply app_inj_tail in Hk as [_ ->]. by rewrite last_snoc.
Qed.

Lemma heads_app F1 F2 : heads (F1 ++ F2) = heads F1 ++ heads F2.
Proof. apply fmap_app. Qed.

Lemma heads_snoc F c : heads (F ++ [c]) = heads F ++ [c.1.1].
Proof. apply heads_app. Qed.

(** Strictly increasing numbers below [N] are at most [N]. *)
Lemma sorted_length N (l : list Z) :
  StronglySorted Z.lt l → (∀ x, x ∈ l → 0 < x < N) → Z.of_nat (length l) <= Z.max 0 (N - 1).
Proof.
  revert N. induction l as [|x l IH] using rev_ind; intros N Hs Hb; [simpl; lia|].
  assert (0 < x < N) by (apply Hb; set_solver).
  rewrite length_app. simpl. enough (Z.of_nat (length l) <= Z.max 0 (x - 1)) by lia.
  apply StronglySorted_app in Hs as (Hx & Hs & _). apply IH; [done|].
  intros y Hy. split; [apply Hb; set_solver|]. apply Hx; [done|left].
Qed.

Section search.
Context (m : qmem Z) (h : Z) (F : list (area * list area)).
Context (HF : freeF m h F) (Hap : apart h (members F)).

Lemma head_size c : c ∈ F → FreeSize c.1.1 m = asize c.1 ∧ 0 < asize c.1 < 2 ^ 31 ∧ c.1.1 ≠ h.
Proof.
  intros Hc. destruct HF as (_ & Hcl & _). rewrite Forall_forall in Hcl.
  destruct (Hcl c Hc) as [E _]. destruct Hap as (_ & _ & Hp & _).
  destruct (Hp c.1 (head_member F c Hc)) as (? & ? & ? & ?).
  unfold FreeSize. rewrite E, s32_small by lia. done.
Qed.

Lemma search_fuel n : (n <= length F + 1)%nat → (n <= Pos.to_nat SFUEL)%nat.
Proof.
  intros Hn. destruct HF as (_ & _ & Hs).
  pose proof (sorted_length (2 ^ 31) _ Hs) as Hl. unfold sizes in Hl. rewrite length_fmap in Hl.
  assert (Z.of_nat (length F) <= Z.max 0 (2 ^ 31 - 1)).
  { apply Hl. intros ? (c & -> & Hc)%list_elem_of_fmap. by apply head_size. }
  unfold SFUEL. lia.
Qed.

Lemma search_smaller_loop blksz F0 F1 F2 q n :
  F = F0 ++ F1 ++ F2 → qnext m q = hd h (heads (F1 ++ F2)) →
  Forall (λ c, asize c.1 < blksz) F1 → Forall (λ c, blksz <= asize c.1) F2 →
  (length F1 < n)%nat →
  nloop n (search_smaller h blksz m) q = inr (hd h (heads F2)).
Proof.
  revert F0 q n. induction F1 as [|c F1 IH]; intros F0 q [|n] HE Hq H1 H2 Hn; try (simpl in Hn; lia); simpl nloop;
    unfold search_smaller at 1; rewrite Hq.
  - destruct F2 as [|c F2]; simpl; [by rewrite Z.eqb_refl|].
    destruct (head_size c) as (-> & ? & ?); [rewrite HE; set_solver|].
    rewrite Forall_cons in H2. by rewrite (proj2 (Z.eqb_neq _ _)), (proj2 (Z.leb_le _ _)) by naive_solver.
  - simpl. destruct (head_size c) as (-> & ? & ?); [rewrite HE; set_solver|].
    rewrite Forall_cons in H1. rewrite (proj2 (Z.eqb_neq _ _)), (proj2 (Z.leb_gt _ _)) by naive_solver.
    apply (IH (F0 ++ [c])); [by rewrite HE, <- app_assoc| |naive_solver|done|simpl in Hn; lia].
    destruct HF as (Hr & _). rewrite HE, !heads_app in Hr. apply ring_next in Hr. by rewrite heads_app.
Qed.

Lemma search_larger_loop blksz F1 Fa Fb n :
  F = F1 ++ Fa ++ Fb →
  Forall (λ c, asize c.1 < blksz) F1 → Forall (λ c, blksz <= asize c.1) (Fa ++ Fb) →
  (Forall (λ c, blksz < asize c.1) Fb) → (length Fa < n)%nat →
  nloop n (search_larger h blksz m) (hd h (heads Fb), default 0 (asize ∘ fst <$> head Fb))
    = inr (hd h (heads (Fa ++ Fb))).
Proof.
  revert Fb n. induction Fa as [|d Fa IH] using rev_ind; intros Fb [|n] HE H1 H2 H3 Hn; try (simpl in Hn; lia);
    simpl nloop; unfold search_larger at 1; pose proof (proj1 HF) as Hr; rewrite HE in Hr.
  - simpl in Hr. rewrite heads_app in Hr. rewrite (ring_prev _ _ _ _ Hr).
    destruct F1 as [|d F1 _] using rev_ind; simpl.
    + rewrite Z.eqb_refl. simpl in Hr. rewrite (ring_head _ _ _ Hr). destruct Fb as [|c Fb]; simpl.
      * by case_match.
      * rewrite Forall_cons in H3. by rewrite (proj2 (Z.leb_le _ _)) by naive_solver lia.
    + rewrite heads_snoc, last_snoc. simpl. destruct (head_size d) as (-> & ? & ?); [rewrite HE; set_solver|].
      rewrite Forall_app, Forall_singleton in H1. destruct H1 as [_ H1].
      rewrite (proj2 (Z.eqb_neq _ _)), (proj2 (Z.leb_le _ _)), (proj2 (Z.ltb_lt _ _)) by naive_solver lia.
      rewrite heads_snoc, <- app_assoc in Hr. by rewrite (ring_next _ _ _ _ _ Hr).
  - rewrite (app_assoc F1), heads_app, (app_assoc F1), heads_snoc in Hr.
    rewrite (ring_prev _ _ _ _ Hr), last_snoc. simpl.
    destruct (head_size d) as (-> & ? & ?); [rewrite HE; set_solver|].
    rewrite (proj2 (Z.eqb_neq _ _)) by naive_solver.
    assert (Hd : blksz <= asize d.1) by (rewrite Forall_forall in H2; apply H2; set_solver).
    rewrite <- app_assoc. simpl. destruct (Z.leb_spec (asize d.1) blksz).
    + rewrite (proj2 (Z.ltb_ge _ _)) by lia. f_equal.
      destruct Fa as [|e Fa]; [done|]. exfalso.
      assert (asize e.1 < asize d.1).
      { destruct HF as (_ & _ & Hs). rewrite HE, <- app_assoc, app_assoc in Hs.
        unfold sizes in Hs. rewrite fmap_app in Hs.
        apply StronglySorted_app in Hs as (Hs & _). apply Hs; [|left].
        apply list_elem_of_fmap. exists e. split; [done|set_solver]. }
      assert (blksz <= asize e.1) by (rewrite Forall_forall in H2; apply H2; left). lia.
    + apply (IH (d :: Fb)); [by rewrite HE, <- !app_assoc|done|by rewrite <- app_assoc in H2| |].
      * constructor; [done|done].
      * rewrite length_app in Hn. simpl in Hn. lia.
Qed.

(** Both loops find the smallest class that is large enough. *)
Lemma search_spec im blksz F1 F2 :
  freeque im = h → F = F1 ++ F2 →
  Forall (λ c, asize c.1 < blksz) F1 → Forall (λ c, blksz <= asize c.1) F2 →
  knl_searchFreeArea im blksz m = hd h (heads F2).
Proof.
  intros Hh HE H1 H2. unfold knl_searchFreeArea. rewrite Hh. case_match.
  - rewrite (ploop_enough (Datatypes.S (length F2)) _ _ _ (hd h (heads F2))); [done| |].
    + apply search_fuel. rewrite HE, length_app. lia.
    + pose proof (search_larger_loop blksz F1 F2 [] (Datatypes.S (length F2))) as Hl.
      rewrite app_nil_r in Hl. apply Hl; try done; lia.
  - rewrite (ploop_enough (Datatypes.S (length F1)) _ _ _ (hd h (heads F2))); [done| |].
    + apply search_fuel. rewrite HE, length_app. lia.
    + apply (search_smaller_loop blksz [] F1 F2); try done; [|lia].
      rewrite (ring_head _ _ _ (proj1 HF)). by rewrite HE.
Qed.
End search.

Lemma sizes_after F1 c F2 :
  StronglySorted Z.lt (sizes (F1 ++ c :: F2)) → Forall (λ d, asize c.1 < asize d.1) F2.
Proof.
  unfold sizes. rewrite fmap_app. intros (_ & _ & Hs)%StronglySorted_app.
  apply StronglySorted_inv in Hs as [_ Hs]. by apply (proj1 (Forall_fmap _ _ _)) in Hs.
Qed.

(** Splitting the classes at a size. *)
Lemma sorted_split blksz (F : list (area * list area)) :
  StronglySorted Z.lt (sizes F) →
  ∃ F1 F2, F = F1 ++ F2 ∧ Forall (λ c, asize c.1 < blksz) F1 ∧ Forall (λ c, blksz <= asize c.1) F2.
Proof.
  induction F as [|c F IH]; [by exists [], []|].
  change (sizes (c :: F)) with (asize c.1 :: sizes F). intros [Hs Hc]%StronglySorted_inv.
  unfold sizes in Hc. rewrite Forall_fmap in Hc. destruct (IH Hs) as (F1 & F2 & -> & H1 & H2).
  destruct (Z.lt_ge_cases (asize c.1) blksz).
  - exists (c :: F1), F2. by split_and!; [|constructor|].
  - exists [], (c :: F1 ++ F2). split_and!; [done|done|]. constructor; [done|].
    eapply Forall_impl; [exact Hc|]. simpl. intros d ?. lia.
Qed.

(** ** Registration *)

(** The stores of the two branches of [append_at]. *)
Definition add_same (fq f : Z) (m : qmem Z) : qmem Z :=
  let m := set_qnext (f + 8) (qnext m (fq + 8)) m in
  let m := set_qnext (fq + 8) (f + 8) m in
  let m := set_qprev (f + 8) (fq + 8) m in
  let m := if negb (qnext m (f + 8) =? NULL) then set_qprev (qnext m (f + 8)) (f + 8) m else m in
  set_qnext f NULL m.

Definition add_new (fq f size : Z) (m : qmem Z) : qmem Z :=
  let m := QueInsert f fq m in
  let m := set_qnext (f + 8) NULL m in
  set_qprev (f + 8) size m.

Lemma apart_self h S p : apart h S → p ∈ S → 0 < h ∧ 0 < p.1 ∧ p.1 ≠ h ∧ p.1 + 8 ≠ h.
Proof. intros (? & _ & Hp & _) Hin. destruct (Hp p Hin) as (? & ? & ? & ?). done. Qed.

Lemma apart_ne h S p q : apart h S → p ∈ S → q ∈ S → p ≠ q → p.1 ≠ q.1 ∧ p.1 + 8 ≠ q.1 ∧ q.1 + 8 ≠ p.1.
Proof.
  intros (_ & _ & _ & Hpq) Hp Hq Hne. destruct (Hpq p q Hp Hq) as [Hi ?]. destruct (Hpq q p Hq Hp) as [_ ?].
  split_and!; [|done|done]. intros ?. auto.
Qed.

(** [cells] computes the fields of a memory after stores to cells [lia] can tell
    apart. *)
Ltac cells :=
  unfold set_qnext, set_qprev; cbn [qnext qprev];
  repeat first [ rewrite fn_lookup_insert | rewrite fn_lookup_insert_ne by lia ].

(** The members of a class other than its head are in no ring. *)
Lemma listed_not_head F c d p : NoDup (members F) → c ∈ F → d ∈ F → p ∈ c.2 → p ≠ d.1.
Proof.
  induction F as [|e F IH]; [by rewrite elem_of_nil|].
  rewrite members_cons. intros [Hn (Hnd & Hd & HF)%NoDup_app]%NoDup_cons Hc%elem_of_cons Hdd%elem_of_cons Hp ->.
  assert (Hin : ∀ c, c ∈ F → ∀ p, p ∈ c.1 :: c.2 → p ∈ members F) by (intros; apply elem_of_members; eauto).
  destruct Hc as [->|Hc], Hdd as [->|Hdd].
  - apply Hn, elem_of_app. by left.
  - eapply Hd; [exact Hp|]. eapply Hin; [done|left].
  - apply Hn, elem_of_app. right. eapply Hin; [done|by right].
  - eapply IH; eauto.
Qed.

Section cells_of_classes.
Context (h : Z) (S : list area) (Hap : apart h S).

Lemma second_ne_ring F y p : (∀ q, q ∈ members F → q ∈ S) → y ∈ h :: heads F → p ∈ S → p.1 + 8 ≠ y.
Proof.
  intros HF [->|(d & Hd & ->)%elem_of_heads]%elem_of_cons Hp; [by eapply apart_self|].
  destruct Hap as (_ & _ & _ & Hpq). apply Hpq; [done|]. by apply HF, head_member.
Qed.

Lemma listed_ne_ring F y c p :
  NoDup (members F) → (∀ q, q ∈ members F → q ∈ S) → y ∈ h :: heads F → c ∈ F → p ∈ c.2 → p.1 ≠ y.
Proof.
  intros Hnd HF Hy Hc Hp.
  assert (HpS : p ∈ S) by (apply HF, elem_of_members; exists c; split; [done|by right]).
  apply elem_of_cons in Hy as [->|(d & Hd & ->)%elem_of_heads]; [by eapply apart_self|].
  eapply apart_ne; [done|done|by apply HF, head_member|]. by eapply listed_not_head.
Qed.

(** Classes keep when the second cells of their areas, and the first cells of the
    listed ones, are left alone. *)
Lemma classes_frame m m' F :
  (∀ p, p ∈ members F → qnext m' (p.1 + 8) = qnext m (p.1 + 8) ∧ qprev m' (p.1 + 8) = qprev m (p.1 + 8)) →
  (∀ c p, c ∈ F → p ∈ c.2 → qnext m' p.1 = qnext m p.1) →
  Forall (cls m) F → Forall (cls m') F.
Proof.
  intros H1 H2 Hc. rewrite Forall_forall in Hc |- *. intros c HcF.
  eapply cls_frame; [| |by apply Hc]; intros p Hp; [|eauto].
  apply H1, elem_of_members. eauto.
Qed.
End cells_of_classes.

(** A change inside one class: the other classes keep. *)
Lemma others_ok m m' F1 c c' F2 :
  NoDup (members (F1 ++ c :: F2)) → Forall (cls m) (F1 ++ c :: F2) →
  (∀ p, p ∈ members (F1 ++ c :: F2) → p ∉ c.1 :: c.2 →
     qnext m' (p.1 + 8) = qnext m (p.1 + 8) ∧ qprev m' (p.1 + 8) = qprev m (p.1 + 8)) →
  (∀ d p, d ∈ F1 ++ F2 → p ∈ d.2 → p ∈ members (F1 ++ c :: F2) → p ∉ c.1 :: c.2 → qnext m' p.1 = qnext m p.1) →
  cls m' c' → Forall (cls m') (F1 ++ c' :: F2).
Proof.
  intros Hnd Hc H1 H2 Hc'. rewrite members_app, members_cons in *.
  assert (Hdis : ∀ p, p ∈ members F1 ∨ p ∈ members F2 → p ∉ c.1 :: c.2).
  { intros p Hp Hin. rewrite app_comm_cons in Hnd. apply NoDup_app in Hnd as (_ & Hd1 & Hnd).
    apply NoDup_app in Hnd as (_ & Hd2 & _). destruct Hp as [Hp|Hp]; [|by apply (Hd2 p)].
    apply (Hd1 p Hp), elem_of_app. by left. }
  assert (Hall : ∀ p, p ∈ members F1 ∨ p ∈ members F2 → p ∈ members F1 ++ c.1 :: c.2 ++ members F2) by set_solver.
  assert (Hm : ∀ G d p, d ∈ G → p ∈ d.2 → p ∈ members G).
  { intros G d p Hd Hp. apply elem_of_members. exists d. split; [done|by right]. }
  apply Forall_app in Hc as [Hc1 [_ Hc2]%Forall_cons]. apply Forall_app. split; [|constructor; [done|]].
  - eapply classes_frame; [| |exact Hc1]; [intros p Hp; apply H1; auto|].
    intros d p Hd Hp. eapply H2; eauto. set_solver.
  - eapply classes_frame; [| |exact Hc2]; [intros p Hp; apply H1; auto|].
    intros d p Hd Hp. eapply H2; eauto. set_solver.
Qed.

Lemma chain_head m p cs : chain m p cs → qnext m p = default NULL ((λ c, c.1 + 8) <$> head cs).
Proof. destruct cs; simpl; naive_solver. Qed.

(** An area in front of the list of a class. *)
Lemma chain_add m g f cs h S :
  apart h S → NoDup (g :: f :: cs) → (∀ p, p ∈ g :: f :: cs → p ∈ S) →
  chain m (g.1 + 8) cs →
  chain (add_same g.1 f.1 m) (g.1 + 8) (f :: cs) ∧ qprev (add_same g.1 f.1 m) (g.1 + 8) = qprev m (g.1 + 8).
Proof.
  intros Hap [Hg [Hf Hnd]%NoDup_cons]%NoDup_cons HS Hch.
  destruct (apart_ne h S f g) as (? & ? & ?); [done|apply HS; set_solver|apply HS; set_solver|by intros ->; set_solver|].
  assert (HfS : f ∈ S) by (apply HS; set_solver). destruct (apart_self _ _ _ Hap HfS) as (? & ? & _).
  destruct cs as [|c cs]; simpl in Hch.
  - unfold add_same. cells. rewrite Hch. simpl. cells. split_and!; simpl; cells; done.
  - destruct Hch as (Hn & Hp & Hcn & Hch). unfold add_same. cells. rewrite Hn.
    destruct (apart_ne h S c g) as (? & ? & ?); [done|apply HS; set_solver|apply HS; set_solver|by intros ->; set_solver|].
    destruct (apart_ne h S c f) as (? & ? & ?); [done|apply HS; set_solver|apply HS; set_solver|by intros ->; set_solver|].
    assert (HcS : c ∈ S) by (apply HS; set_solver). destruct (apart_self _ _ _ Hap HcS) as (_ & ? & _).
    rewrite (proj2 (Z.eqb_neq _ _)) by (unfold NULL; lia). simpl. cells. split_and!; simpl; cells; try done.
    eapply chain_frame; [| |exact Hch]; cells; [done|]. intros d Hd.
    apply NoDup_cons in Hnd as [Hc _].
    destruct (apart_ne h S d g) as (? & ? & ?); [done|apply HS; set_solver|apply HS; set_solver|by intros ->; set_solver|].
    destruct (apart_ne h S d f) as (? & ? & ?); [done|apply HS; set_solver|apply HS; set_solver|by intros ->; set_solver|].
    destruct (apart_ne h S d c) as (? & ? & ?); [done|apply HS; set_solver|apply HS; set_solver|by intros ->; set_solver|].
    cells. done.
Qed.

Lemma next_cell_ne h S cs p :
  apart h S → (∀ q, q ∈ cs → q ∈ S) → p ∈ S → p ∉ cs →
  p.1 ≠ default NULL ((λ c : area, c.1 + 8) <$> head cs) ∧ p.1 + 8 ≠ default NULL ((λ c : area, c.1 + 8) <$> head cs).
Proof.
  intros Hap Hcs Hp Hn. destruct (apart_self _ _ _ Hap Hp) as (_ & ? & _).
  destruct cs as [|c cs]; simpl; [unfold NULL; lia|].
  destruct (apart_ne _ _ p c Hap Hp) as (? & ? & ?); [apply Hcs; left|intros ->; apply Hn; left|]. lia.
Qed.

Lemma ring_cell_ne h S F cs y :
  apart h S → (∀ q, q ∈ members F → q ∈ S) → (∀ q, q ∈ cs → q ∈ S) → y ∈ h :: heads F →
  y ≠ default NULL ((λ c : area, c.1 + 8) <$> head cs).
Proof.
  intros Hap Hsub Hcs Hy. destruct cs as [|c cs]; simpl.
  - apply elem_of_cons in Hy as [->|(d & Hd & ->)%elem_of_heads]; unfold NULL.
    + destruct Hap. lia.
    + destruct (apart_self h S d.1 Hap) as (? & ? & ?); [by apply Hsub, head_member|lia].
  - intros E. eapply (second_ne_ring h S Hap F y c); [done|done|apply Hcs; left|done].
Qed.

Lemma add_same_ok m h F1 g cs F2 f :
  freeF m h (F1 ++ (g, cs) :: F2) → apart h (f :: members (F1 ++ (g, cs) :: F2)) → asize f = asize g →
  freeF (add_same g.1 f.1 m) h (F1 ++ (g, f :: cs) :: F2) ∧
  untouched h (f :: members (F1 ++ (g, cs) :: F2)) m (add_same g.1 f.1 m).
Proof.
  intros (Hr & Hc & Hs) Hap Hsz. set (F := F1 ++ (g, cs) :: F2) in *.
  destruct (apart_cons _ _ _ Hap) as [Hap' HfF]. set (S := f :: members F) in *.
  assert (Hsub : ∀ q, q ∈ members F → q ∈ S) by (by right).
  assert (HgcF : ∀ p, p ∈ g :: cs → p ∈ members F).
  { intros p Hp. apply elem_of_members. exists (g, cs). split; [|done]. unfold F. set_solver. }
  assert (HfS : f ∈ S) by left. assert (HgS : g ∈ S) by (apply Hsub, HgcF; left).
  assert (Hcg : cls m (g, cs)) by (rewrite Forall_forall in Hc; apply Hc; unfold F; set_solver).
  destruct Hcg as (Hgs & Hch & Hcs). simpl in *. pose proof (chain_head _ _ _ Hch) as Hnx.
  assert (Hnd : NoDup (g :: cs)).
  { destruct Hap' as (_ & Hnd & _). unfold F in Hnd. rewrite members_app, members_cons, app_comm_cons in Hnd.
    apply NoDup_app in Hnd as (_ & _ & Hnd). by apply NoDup_app in Hnd as (Hnd & _). }
  assert (Hx : ∀ x, x ≠ f.1 → x ≠ f.1 + 8 → x ≠ g.1 + 8 → x ≠ qnext m (g.1 + 8) →
    qnext (add_same g.1 f.1 m) x = qnext m x ∧ qprev (add_same g.1 f.1 m) x = qprev m x).
  { destruct (apart_ne _ _ f g Hap HfS HgS) as (? & ? & ?); [intros ->; apply HfF, HgcF; left|].
    intros x ? ? ? ?. unfold add_same. cells. case_match; cells; done. }
  assert (Hcs' : ∀ q, q ∈ cs → q ∈ S) by (intros; by apply Hsub, HgcF; right).
  split; [split_and!|].
  - rewrite heads_app. change (heads ((g, f :: cs) :: F2)) with (heads ((g, cs) :: F2)). rewrite <- heads_app.
    eapply ring_frame; [|exact Hr]. intros x Hxh. apply Hx.
    + apply elem_of_cons in Hxh as [->|(d & Hd & ->)%elem_of_heads]; [destruct (apart_self h S f Hap HfS); lia|].
      eapply apart_ne; [exact Hap|by apply Hsub, head_member|done|].
      intros E. apply HfF. rewrite <- E. by apply head_member.
    + intros ->. by eapply (second_ne_ring h S Hap F _ f Hsub Hxh).
    + intros ->. by eapply (second_ne_ring h S Hap F _ g Hsub Hxh).
    + rewrite Hnx. apply (ring_cell_ne h S F cs x Hap Hsub Hcs' Hxh).
  - assert (Hfr : ∀ p, p ∈ members F → p ∉ g :: cs → ∀ x, x = p.1 ∨ x = p.1 + 8 →
      qnext (add_same g.1 f.1 m) x = qnext m x ∧ qprev (add_same g.1 f.1 m) x = qprev m x).
    { intros p Hp [Hpg Hpc]%not_elem_of_cons x Hxp.
      destruct (apart_ne _ _ p g Hap (Hsub _ Hp) HgS Hpg) as (? & ? & ?).
      destruct (apart_ne _ _ p f Hap (Hsub _ Hp) HfS) as (? & ? & ?); [by intros ->|].
      destruct (next_cell_ne h S cs p Hap Hcs' (Hsub _ Hp) Hpc).
      rewrite <- Hnx in *. destruct Hxp as [->| ->]; apply Hx; lia || done. }
    eapply others_ok; [apply Hap'|exact Hc| | |].
    + intros p Hp Hn. by apply (Hfr p Hp Hn); right.
    + intros d p _ _ Hp Hn. by apply (Hfr p Hp Hn); left.
    + destruct (chain_add m g f cs h S) as [H1 H2]; [done| | |done|].
      * rewrite NoDup_cons in Hnd |- *. rewrite NoDup_cons. destruct Hnd as [Hn1 Hn2].
        split_and!; [|intros Hin; apply HfF, HgcF; by right|done].
        rewrite not_elem_of_cons. split; [intros ->; apply HfF, HgcF; left|done].
      * intros p Hp. rewrite !elem_of_cons in Hp. destruct Hp as [->|[->|Hp]]; auto.
      * exact (conj (eq_trans H2 Hgs) (conj H1 (Forall_cons_2 _ _ _ Hsz Hcs))).
  - unfold sizes, F in *. rewrite fmap_app in *. done.
  - intros x Hx0 Hxh HxS. destruct (HxS f HfS), (HxS g HgS). apply Hx; try done.
    rewrite Hnx. destruct cs as [|c cs]; simpl; [done|]. apply HxS, Hcs'. left.
Qed.

(** A ring insertion or removal leaves the classes alone. *)
Lemma ring_cells (m : qmem Z) h F q : ring m h (heads F) → q ∈ h :: heads F →
  qprev m q ∈ h :: heads F ∧ qnext m q ∈ h :: heads F.
Proof. intros Hr Hq. destruct (ring_linked _ _ _ _ Hr Hq) as (? & ? & _). done. Qed.

Lemma hd_heads h F1 F2 : hd h (heads F2) ∈ h :: heads (F1 ++ F2).
Proof. rewrite heads_app. destruct F2; simpl; [left|]. right. apply elem_of_app. right. left. Qed.

Lemma untouched_ring h (S : list area) F x :
  (∀ q, q ∈ members F → q ∈ S) → x ≠ h → (∀ p, p ∈ S → x ≠ p.1 ∧ x ≠ p.1 + 8) → x ∉ h :: heads F.
Proof.
  intros Hsub Hh HS [->|(d & Hd & ->)%elem_of_heads]%elem_of_cons; [done|].
  destruct (HS d.1); [by apply Hsub, head_member|done].
Qed.

Lemma add_new_ok m h F1 F2 f :
  freeF m h (F1 ++ F2) → apart h (f :: members (F1 ++ F2)) →
  Forall (λ c, asize c.1 < asize f) F1 → Forall (λ c, asize f < asize c.1) F2 →
  freeF (add_new (hd h (heads F2)) f.1 (asize f) m) h (F1 ++ (f, []) :: F2) ∧
  untouched h (f :: members (F1 ++ F2)) m (add_new (hd h (heads F2)) f.1 (asize f) m).
Proof.
  intros (Hr & Hc & Hs) Hap H1 H2. set (F := F1 ++ F2) in *.
  destruct (apart_cons _ _ _ Hap) as [Hap' HfF]. set (S := f :: members F) in *.
  assert (Hsub : ∀ q, q ∈ members F → q ∈ S) by (by right).
  assert (HfS : f ∈ S) by left. destruct (apart_self _ _ _ Hap HfS) as (? & ? & ? & ?).
  set (q := hd h (heads F2)). assert (Hq : q ∈ h :: heads F) by apply hd_heads.
  destruct (ring_cells _ _ _ _ Hr Hq) as [Hpq _].
  assert (Hf1 : ∀ y, y ∈ h :: heads F → f.1 ≠ y).
  { intros y [->|(d & Hd & ->)%elem_of_heads]%elem_of_cons; [done|].
    eapply apart_ne; [exact Hap|done|by apply Hsub, head_member|]. intros E. apply HfF. rewrite E. by apply head_member. }
  assert (Hf2 : ∀ y, y ∈ h :: heads F → f.1 + 8 ≠ y) by (intros; by eapply (second_ne_ring h S Hap F)).
  assert (Hx : ∀ x, x ≠ f.1 → x ≠ f.1 + 8 → x ≠ q → x ≠ qprev m q →
    qnext (add_new q f.1 (asize f) m) x = qnext m x ∧ qprev (add_new q f.1 (asize f) m) x = qprev m x).
  { intros x ? ? ? ?. pose proof (Hf1 _ Hq). pose proof (Hf1 _ Hpq). unfold add_new. cells.
    rewrite QueInsert_next, QueInsert_prev by congruence. by rewrite !decide_False by congruence. }
  split; [split_and!|].
  - rewrite heads_app. change (heads ((f, []) :: F2)) with (f.1 :: heads F2).
    unfold F in Hr. rewrite heads_app in Hr.
    eapply (ring_frame (QueInsert f.1 q m)); [|apply ring_insert; [exact Hr|]].
    + intros x Hxh. assert (x ≠ f.1 + 8); [|unfold add_new; cells; done].
      intros ->. assert (Hin : f.1 + 8 = f.1 ∨ f.1 + 8 ∈ h :: heads F).
      { unfold F. rewrite heads_app. rewrite !elem_of_cons, !elem_of_app, elem_of_cons in *. tauto. }
      destruct Hin as [|Hin]; [lia|by apply (Hf2 _ Hin)].
    + rewrite <- heads_app. intros Hin. by apply (Hf1 _ Hin).
  - assert (Hfr : Forall (cls (add_new q f.1 (asize f) m)) F).
    { eapply classes_frame; [| |exact Hc].
      - intros p Hp. pose proof (Hsub _ Hp) as HpS.
        destruct (apart_ne _ _ p f Hap HpS HfS) as (? & ? & ?); [by intros ->|].
        apply Hx; [lia|lia|by eapply (second_ne_ring h S Hap F)|by eapply (second_ne_ring h S Hap F)].
      - intros c p HcF Hp. assert (HpF : p ∈ members F) by (apply elem_of_members; exists c; split; [done|by right]).
        destruct (apart_ne _ _ p f Hap (Hsub _ HpF) HfS) as (? & ? & ?); [by intros ->|].
        apply Hx; [lia|lia| |]; eapply (listed_ne_ring h S Hap F); try done; apply Hap'. }
    apply Forall_app in Hfr as [Hf1' Hf2']. apply Forall_app. split; [done|]. constructor; [|done].
    unfold add_new. split_and!; cbn [fst snd chain]; cells; done.
  - unfold sizes, F in *. rewrite fmap_app in *. apply StronglySorted_app in Hs as (Hs1 & Hs2 & Hs3).
    apply StronglySorted_app. split_and!; [|done|].
    + intros x1 x2 Hx1 [->|Hx2]%elem_of_cons; [|by apply Hs1].
      apply list_elem_of_fmap in Hx1 as (c & -> & Hc1). rewrite Forall_forall in H1. by apply H1.
    + constructor; [done|]. by apply Forall_fmap.
  - intros x Hx0 Hxh HxS. destruct (HxS f HfS).
    apply Hx; try done; intros ->; by eapply (untouched_ring h S F).
Qed.

(** ** Removal *)

Lemma head_in_ring m h F1 f cs F2 :
  freeF m h (F1 ++ (f, cs) :: F2) → apart h (members (F1 ++ (f, cs) :: F2)) → qnext m f.1 ≠ NULL.
Proof.
  intros (Hr & _) Hap. rewrite heads_app in Hr. change (heads ((f, cs) :: F2)) with (f.1 :: heads F2) in Hr.
  rewrite (ring_next _ _ _ _ _ Hr). destruct F2 as [|d F2]; simpl; unfold NULL; [destruct Hap; lia|].
  destruct (apart_self h _ d.1 Hap); [|lia]. apply head_member, elem_of_app. right. right. left.
Qed.

Lemma QueRemove_other (m : qmem Z) e x : x ≠ qprev m e → x ≠ qnext m e →
  qnext (QueRemove e m) x = qnext m x ∧ qprev (QueRemove e m) x = qprev m x.
Proof.
  intros ? ?. unfold QueRemove. case_decide; [done|]. unfold set_qprev, set_qnext; simpl.
  destruct (decide (qprev m e = e)) as [E|].
  - rewrite E in *. by rewrite fn_lookup_insert, !fn_lookup_insert_ne by congruence.
  - rewrite (fn_lookup_insert_ne _ (qprev m e) e) by done. by rewrite !fn_lookup_insert_ne by congruence.
Qed.

Lemma QueInsert_other (m : qmem Z) e q x : x ≠ e → x ≠ q → x ≠ qprev m q → q ≠ e → qprev m q ≠ e →
  qnext (QueInsert e q m) x = qnext m x ∧ qprev (QueInsert e q m) x = qprev m x.
Proof.
  intros. rewrite QueInsert_next, QueInsert_prev by congruence. by rewrite !decide_False by congruence.
Qed.

(** Taking the head of a class of one area out of the ring. *)
Lemma remove_single_ok m h F1 f F2 :
  freeF m h (F1 ++ (f, []) :: F2) → apart h (members (F1 ++ (f, []) :: F2)) →
  freeF (QueRemove f.1 m) h (F1 ++ F2) ∧
  untouched h (members (F1 ++ (f, []) :: F2)) m (QueRemove f.1 m) ∧
  qprev (QueRemove f.1 m) (f.1 + 8) = qprev m (f.1 + 8).
Proof.
  intros HF Hap. pose proof (head_in_ring _ _ _ _ _ _ HF Hap) as Hn0.
  destruct HF as (Hr & Hc & Hs). set (F := F1 ++ (f, []) :: F2) in *.
  assert (Hf : f.1 ∈ h :: heads F) by (right; apply elem_of_heads; exists (f, []); split; [unfold F; set_solver|done]).
  destruct (ring_cells _ _ _ _ Hr Hf) as [Hp Hn].
  assert (Hx := QueRemove_other m f.1).
  assert (Hsub : ∀ q, q ∈ members F → q ∈ members F) by done.
  split; [split_and!|].
  - rewrite heads_app. unfold F in Hr. rewrite heads_app in Hr. by apply ring_remove in Hr.
  - assert (Hfr : Forall (cls (QueRemove f.1 m)) F).
    { eapply classes_frame; [| |exact Hc].
      - intros p HpF. apply Hx; by eapply (second_ne_ring h (members F) Hap F).
      - intros c p HcF Hpc. apply Hx; eapply (listed_ne_ring h (members F) Hap F); try done; apply Hap. }
    unfold F in Hfr. rewrite Forall_app, Forall_cons in Hfr. apply Forall_app. naive_solver.
  - unfold sizes, F in *. rewrite fmap_app in *. apply StronglySorted_app in Hs as (Hs1 & Hs2 & Hs3).
    apply StronglySorted_inv in Hs3 as [Hs3 _]. apply StronglySorted_app. split_and!; [|done|done].
    intros x1 x2 ? ?. apply Hs1; [done|by right].
  - split; [intros x Hx0 Hxh HxS; apply Hx; intros ->; by eapply (untouched_ring h (members F) F)|].
    assert (HfF : f ∈ members F) by (apply (head_member F (f, [])), elem_of_app; right; left).
    apply Hx; by eapply (second_ne_ring h (members F) Hap F).
Qed.

(** The next area of the class takes the place of its head. *)
Definition promote (f : Z) (m : qmem Z) : qmem Z :=
  let m := QueInsert (qnext m (f + 8) - 8) f m in
  let m := set_qprev (qnext m (f + 8)) (qprev m (f + 8)) m in
  QueRemove f m.

Lemma promote_effect m h l1 f g l2 :
  let R := h :: l1 ++ f :: l2 in
  ring m h (l1 ++ f :: l2) → qnext m (f + 8) = g + 8 →
  g ∉ R → f + 8 ∉ R → g + 8 ∉ R → f + 8 ≠ g →
  ring (promote f m) h (l1 ++ g :: l2) ∧
  (∀ x, x ≠ g → x ≠ g + 8 → x ∉ R → qnext (promote f m) x = qnext m x ∧ qprev (promote f m) x = qprev m x) ∧
  qnext (promote f m) (g + 8) = qnext m (g + 8) ∧ qprev (promote f m) (g + 8) = qprev m (f + 8).
Proof.
  intros R Hr Hfg HgR HfR Hg2R Hne.
  assert (HfinR : f ∈ R) by (apply elem_of_cons; right; apply elem_of_app; right; left).
  assert (HpR : qprev m f ∈ R) by (by edestruct (ring_linked m h _ f Hr HfinR) as (_ & ? & _)).
  assert (Hfg1 : f ≠ g) by congruence.
  set (m1 := QueInsert g f m).
  assert (Hm1 : ring m1 h (l1 ++ g :: f :: l2)) by (apply (ring_insert m h l1 (f :: l2) g); done).
  assert (Ho1 : ∀ x, x ≠ g → x ∉ R → qnext m1 x = qnext m x ∧ qprev m1 x = qprev m x).
  { intros x ? Hx. apply QueInsert_other; [done|by intros ->|by intros ->|done|]. intros E. by rewrite E in HpR. }
  set (m2 := set_qprev (g + 8) (qprev m (f + 8)) m1).
  assert (Epr : promote f m = QueRemove f m2).
  { unfold promote. rewrite Hfg. replace (g + 8 - 8) with g by lia. cbv zeta. fold m1.
    destruct (Ho1 (f + 8)) as [-> ->]; [lia|done|]. by rewrite Hfg. }
  assert (Hm2 : ring m2 h ((l1 ++ [g]) ++ f :: l2)).
  { rewrite <- app_assoc. eapply ring_frame; [|exact Hm1]. intros x Hx. unfold m2. cells. split; [done|].
    assert (g + 8 ≠ x); [|by cells]. intros <-. assert (g + 8 ≠ g) by lia. unfold R in Hg2R. set_solver. }
  assert (Hp2 : qprev m2 f = g).
  { pose proof (ring_prev _ _ (l1 ++ [g]) (f :: l2) Hm2) as E. by rewrite last_snoc in E. }
  pose proof (ring_next _ _ _ _ _ Hm2) as Hn2.
  assert (Hn2R : qnext m2 f ∈ R).
  { rewrite Hn2. unfold R. destruct l2; simpl; [left|]. right. apply elem_of_app. right. right. left. }
  assert (Hx : ∀ x, x ≠ g → x ∉ R → qnext (promote f m) x = qnext m2 x ∧ qprev (promote f m) x = qprev m2 x).
  { intros x ? Hx. rewrite Epr. apply QueRemove_other; [by rewrite Hp2|by intros ->]. }
  split_and!.
  - rewrite Epr. apply ring_remove in Hm2. by rewrite <- app_assoc in Hm2.
  - intros x ? ? HxR. destruct (Hx x) as [-> ->]; [done|done|]. unfold m2. cells. by apply Ho1.
  - destruct (Hx (g + 8)) as [-> _]; [lia|done|]. unfold m2. cells. apply Ho1; [lia|done].
  - destruct (Hx (g + 8)) as [_ ->]; [lia|done|]. unfold m2. cells. done.
Qed.

Lemma remove_head_ok m h F1 f g cs F2 :
  freeF m h (F1 ++ (f, g :: cs) :: F2) → apart h (members (F1 ++ (f, g :: cs) :: F2)) →
  freeF (promote f.1 m) h (F1 ++ (g, cs) :: F2) ∧
  untouched h (members (F1 ++ (f, g :: cs) :: F2)) m (promote f.1 m) ∧
  qprev (promote f.1 m) (f.1 + 8) = qprev m (f.1 + 8).
Proof.
  intros (Hr & Hc & Hs) Hap. set (F := F1 ++ (f, g :: cs) :: F2) in *.
  assert (Hcf : (f, g :: cs) ∈ F) by (apply elem_of_app; right; left).
  assert (Hcg : cls m (f, g :: cs)) by (rewrite Forall_forall in Hc; by apply Hc).
  destruct Hcg as (Hfs & (Hfg & Hgp & Hgn & Hch) & [Hgs Hcs]%Forall_cons). simpl in Hfs, Hfg, Hgp, Hgn, Hch, Hgs.
  assert (HF : ∀ p, p ∈ f :: g :: cs → p ∈ members F) by (intros; apply elem_of_members; by exists (f, g :: cs)).
  assert (Hgr : ∀ p, p ∈ g :: cs → p.1 ∉ h :: heads F).
  { intros p Hp Hin. eapply (listed_ne_ring h (members F) Hap F p.1 (f, g :: cs) p); try done. apply Hap. }
  assert (H2r : ∀ p, p ∈ members F → p.1 + 8 ∉ h :: heads F).
  { intros p Hp Hin. by eapply (second_ne_ring h (members F) Hap F _ p (λ _ Hq, Hq) Hin). }
  assert (Hnd : NoDup (f :: g :: cs)).
  { destruct Hap as (_ & Hnd & _). unfold F in Hnd. rewrite members_app, members_cons, app_comm_cons in Hnd.
    apply NoDup_app in Hnd as (_ & _ & Hnd). by apply NoDup_app in Hnd as (Hnd & _). }
  assert (HR : heads F = heads F1 ++ f.1 :: heads F2) by (unfold F; by rewrite heads_app).
  rewrite HR in *.
  destruct (apart_ne h (members F) f g Hap) as (? & ? & ?); [apply HF; left|apply HF; right; left|by intros ->; apply NoDup_cons in Hnd; set_solver|].
  destruct (promote_effect m h (heads F1) f.1 g.1 (heads F2)) as (Hr' & Hx & Hn & Hp);
    [done|done|apply Hgr; left|apply H2r, HF; left|apply H2r, HF; right; left|done|].
  assert (Hgne : ∀ p, p ∈ members F → p ≠ g → p.1 ≠ g.1 ∧ p.1 + 8 ≠ g.1 ∧ g.1 + 8 ≠ p.1).
  { intros p Hp' Hpg. eapply apart_ne; [done|done|apply HF; right; left|done]. }
  split; [split_and!|].
  - by rewrite heads_app.
  - eapply others_ok; [apply Hap|exact Hc| | |].
    + intros p HpF Hpn. destruct (Hgne p HpF) as (? & ? & ?); [intros ->; apply Hpn; right; left|]. apply Hx; [lia|lia|by apply H2r].
    + intros d p Hd Hpd HpF Hpn. destruct (Hgne p HpF) as (? & ? & ?); [intros ->; apply Hpn; right; left|]. apply Hx; [lia|lia|].
      intros Hin. eapply (listed_ne_ring h (members F) Hap F p.1 d p); try done; [apply Hap|by rewrite HR|].
      unfold F. rewrite elem_of_app, elem_of_cons. apply elem_of_app in Hd. naive_solver.
    + assert (Hcs' : Forall (λ q, asize q = asize g) cs) by (eapply Forall_impl; [exact Hcs|]; simpl; intros; congruence).
      refine (conj (eq_trans Hp (eq_trans Hfs (eq_sym Hgs))) (conj _ Hcs')).
      eapply chain_frame; [exact Hn| |exact Hch]. intros c Hcc.
      assert (HcF : c ∈ members F) by (apply HF; by do 2 right).
      destruct (Hgne c HcF) as (? & ? & ?); [intros ->; by apply NoDup_cons in Hnd as [_ [? _]%NoDup_cons]|].
      destruct (Hx c.1) as [-> _]; [lia|lia|apply Hgr; by right|].
      destruct (Hx (c.1 + 8)) as [-> ->]; [lia|lia|by apply H2r|done].
  - unfold sizes, F in *. rewrite fmap_app in *. simpl in Hs |- *. by rewrite Hgs.
  - split.
    + intros x Hx0 Hxh HxS. destruct (HxS g); [apply HF; right; left|]. apply Hx; [done|done|].
      rewrite <- HR. by eapply (untouched_ring h (members F) F).
    + apply Hx; [lia|lia|]. apply H2r, HF. left.
Qed.

(** Taking an area out of the list of its class. *)
Definition unlist (f : Z) (m : qmem Z) : qmem Z :=
  let m := set_qnext (qprev m (f + 8)) (qnext m (f + 8)) m in
  if negb (qnext m (f + 8) =? NULL) then set_qprev (qnext m (f + 8)) (qprev m (f + 8)) m else m.

Lemma unlist_next f m x : f + 8 ≠ qprev m (f + 8) →
  qnext (unlist f m) x = if decide (qprev m (f + 8) = x) then qnext m (f + 8) else qnext m x.
Proof. intros ?. unfold unlist. cells. by case_match; cells. Qed.

Lemma unlist_prev f m x : f + 8 ≠ qprev m (f + 8) →
  qprev (unlist f m) x =
    if decide (qnext m (f + 8) = x ∧ x ≠ NULL) then qprev m (f + 8) else qprev m x.
Proof.
  intros ?. unfold unlist. cells. destruct (Z.eqb_spec (qnext m (f + 8)) NULL) as [->|]; simpl; cells.
  - by rewrite decide_False by naive_solver.
  - destruct (decide (qnext m (f + 8) = x)) as [<-|]; cells.
    + by rewrite decide_True.
    + by rewrite decide_False by naive_solver.
Qed.

(** The links around the area [f] of a list. *)
Lemma chain_links m p c1 f c2 :
  chain m p (c1 ++ f :: c2) →
  qprev m (f.1 + 8) = default p ((λ c, c.1 + 8) <$> last c1) ∧ qnext m f.1 = NULL ∧ chain m (f.1 + 8) c2.
Proof.
  revert p. induction c1 as [|c c1 IH]; intros p; simpl; [naive_solver|].
  intros (_ & _ & _ & Hch). destruct (IH _ Hch) as (-> & ? & ?). split_and!; [|done|done].
  rewrite last_cons. by destruct (last c1).
Qed.

Lemma chain_remove m h S g c1 f c2 :
  apart h S → NoDup (g :: c1 ++ f :: c2) → (∀ q, q ∈ g :: c1 ++ f :: c2 → q ∈ S) →
  chain m (g.1 + 8) (c1 ++ f :: c2) → chain (unlist f.1 m) (g.1 + 8) (c1 ++ c2).
Proof.
  intros Hap. revert g. induction c1 as [|c c1 IH]; intros g Hnd HS Hch.
  - simpl in *. destruct Hch as (Hgf & Hfg & Hfn & Hch). pose proof (chain_head _ _ _ Hch) as Hnx.
    apply NoDup_cons in Hnd as [Hg [Hf Hnd]%NoDup_cons].
    assert (Hne : ∀ p q, p ∈ g :: f :: c2 → q ∈ g :: f :: c2 → p ≠ q → p.1 ≠ q.1 ∧ p.1 + 8 ≠ q.1 ∧ q.1 + 8 ≠ p.1).
    { intros. eapply apart_ne; [done|by apply HS|by apply HS|done]. }
    destruct (Hne f g) as (? & ? & ?); [right; left|left|intros ->; apply Hg; left|].
    destruct c2 as [|c c2]; simpl in *.
    + rewrite unlist_next, Hfg by lia. by rewrite decide_True.
    + destruct Hch as (Hfc & Hcf & Hcn & Hch).
      assert (Hc0 : c.1 + 8 ≠ NULL) by (destruct (apart_self h S c Hap); [apply HS; set_solver|unfold NULL; lia]).
      destruct (Hne c g) as (? & ? & ?); [set_solver|left|by intros ->; apply Hg; right; left|].
      rewrite !unlist_next, unlist_prev, Hfg, Hfc by lia.
      rewrite !(decide_True (P := _ = _)), decide_True, decide_False by done. split_and!; try done.
      eapply chain_frame; [| |exact Hch].
      * rewrite unlist_next, Hfg by lia. by rewrite decide_False by lia.
      * intros d Hd. apply NoDup_cons in Hnd as [Hc Hnd].
        destruct (Hne d g) as (? & ? & ?); [set_solver|left|by intros ->; apply Hg; do 2 right|].
        destruct (Hne d c) as (? & ? & ?); [set_solver|set_solver|by intros ->|].
        rewrite !unlist_next, unlist_prev, Hfg, Hfc by lia. by rewrite !decide_False by lia.
  - simpl in *. destruct Hch as (Hgc & Hcg & Hcn & Hch).
    destruct (chain_links _ _ _ _ _ Hch) as (Hpf & Hfn & Hch2). pose proof (chain_head _ _ _ Hch2) as Hnx.
    apply NoDup_cons in Hnd as [Hg Hnd].
    assert (Hne : ∀ p q, p ∈ g :: c :: c1 ++ f :: c2 → q ∈ g :: c :: c1 ++ f :: c2 → p ≠ q →
      p.1 ≠ q.1 ∧ p.1 + 8 ≠ q.1 ∧ q.1 + 8 ≠ p.1).
    { intros. eapply apart_ne; [done|by apply HS|by apply HS|done]. }
    assert (Hpp : ∃ e, e ∈ c :: c1 ∧ qprev m (f.1 + 8) = e.1 + 8).
    { rewrite Hpf. destruct (last c1) as [e|] eqn:E; simpl; [|exists c; split; [left|done]].
      exists e. split; [|done]. right. by apply last_Some_elem_of. }
    destruct Hpp as (e & He & Hpe). clear Hpf.
    assert (Hel : e ∈ c :: c1 ++ f :: c2) by (rewrite app_comm_cons; apply elem_of_app; by left).
    assert (Hfl : f ∈ c :: c1 ++ f :: c2) by (right; apply elem_of_app; right; left).
    assert (Hfe : f ≠ e).
    { intros ->. rewrite app_comm_cons in Hnd. apply NoDup_app in Hnd as (_ & Hd & _). apply (Hd e He). left. }
    destruct (Hne f e) as (? & ? & ?); [by right|by right|done|].
    destruct (Hne e g) as (? & ? & ?); [by right|left|by intros ->|].
    rewrite !unlist_next, unlist_prev, Hpe, Hgc, Hcg, Hcn by lia. rewrite decide_False by lia.
    split_and!; [done| | |].
    + case_decide as Hd; [|done]. destruct Hd as [Hd Hd0]. rewrite Hnx in Hd. destruct c2 as [|d c2]; [done|].
      simpl in Hd.
      destruct (Hne d c) as (? & ? & ?); [do 2 right; apply elem_of_app; right; right; left|right; left| |lia].
      intros ->. apply NoDup_cons in Hnd as [Hc _]. apply Hc, elem_of_app. right. right. left.
    + rewrite decide_False; [done|]. destruct (decide (e = c)) as [->|]; [lia|].
      destruct (Hne e c) as (? & ? & ?); [by right|right; left|done|lia].
    + apply IH; [done| |done]. intros q Hq. apply HS. by right.
Qed.

Lemma remove_listed_ok m h F1 g c1 f c2 F2 :
  freeF m h (F1 ++ (g, c1 ++ f :: c2) :: F2) → apart h (members (F1 ++ (g, c1 ++ f :: c2) :: F2)) →
  freeF (unlist f.1 m) h (F1 ++ (g, c1 ++ c2) :: F2) ∧ qnext m f.1 = NULL ∧
  untouched h (members (F1 ++ (g, c1 ++ f :: c2) :: F2)) m (unlist f.1 m) ∧
  qprev (unlist f.1 m) (f.1 + 8) = qprev m (f.1 + 8).
Proof.
  intros (Hr & Hc & Hs) Hap. set (F := F1 ++ (g, c1 ++ f :: c2) :: F2) in *.
  assert (Hcf : (g, c1 ++ f :: c2) ∈ F) by (apply elem_of_app; right; left).
  assert (Hcg : cls m (g, c1 ++ f :: c2)) by (rewrite Forall_forall in Hc; by apply Hc).
  destruct Hcg as (Hgs & Hch & Hcs). simpl in Hgs, Hch, Hcs.
  assert (HF : ∀ p, p ∈ g :: c1 ++ f :: c2 → p ∈ members F) by (intros; apply elem_of_members; by eexists).
  assert (H2r : ∀ p, p ∈ members F → p.1 + 8 ∉ h :: heads F).
  { intros p Hp Hin. by eapply (second_ne_ring h (members F) Hap F _ p (λ _ Hq, Hq) Hin). }
  assert (Hnd : NoDup (g :: c1 ++ f :: c2)).
  { destruct Hap as (_ & Hnd & _). unfold F in Hnd. rewrite members_app, members_cons, app_comm_cons in Hnd.
    apply NoDup_app in Hnd as (_ & _ & Hnd). by apply NoDup_app in Hnd as (Hnd & _). }
  destruct (chain_links _ _ _ _ _ Hch) as (Hpf & Hfn & Hch2). pose proof (chain_head _ _ _ Hch2) as Hnx.
  assert (Hfl : f ∈ g :: c1 ++ f :: c2) by (right; apply elem_of_app; right; left).
  assert (Hpp : ∃ e, e ∈ g :: c1 ∧ qprev m (f.1 + 8) = e.1 + 8).
  { rewrite Hpf. destruct (last c1) as [e|] eqn:E; simpl; [|exists g; split; [left|done]].
    exists e. split; [|done]. right. by apply last_Some_elem_of. }
  destruct Hpp as (e & He & Hpe). clear Hpf.
  assert (Hel : e ∈ g :: c1 ++ f :: c2) by (rewrite app_comm_cons; apply elem_of_app; by left).
  assert (Hfe : f ≠ e).
  { intros ->. rewrite app_comm_cons in Hnd. apply NoDup_app in Hnd as (_ & Hd & _). apply (Hd e He). left. }
  assert (Hne : ∀ p q, p ∈ members F → q ∈ members F → p ≠ q → p.1 ≠ q.1 ∧ p.1 + 8 ≠ q.1 ∧ q.1 + 8 ≠ p.1).
  { intros. by eapply apart_ne. }
  destruct (Hne f e) as (? & ? & ?); [auto|auto|done|].
  assert (Hc2 : ∀ q, q ∈ c2 → q ∈ g :: c1 ++ f :: c2) by (intros; right; apply elem_of_app; right; by right).
  assert (Hcut : ∀ x, x ≠ e.1 + 8 → x ≠ qnext m (f.1 + 8) →
    qnext (unlist f.1 m) x = qnext m x ∧ qprev (unlist f.1 m) x = qprev m x).
  { intros x ? ?. rewrite unlist_next, unlist_prev, Hpe by lia. by rewrite !decide_False by naive_solver. }
  split; [split_and!|split; [done|]].
  - rewrite heads_app. change (heads ((g, c1 ++ c2) :: F2)) with (heads ((g, c1 ++ f :: c2) :: F2)). rewrite <- heads_app.
    eapply ring_frame; [|exact Hr]. intros x Hxh. apply Hcut.
    + intros ->. apply (H2r e); auto.
    + rewrite Hnx. apply (ring_cell_ne h (members F) F c2 x Hap (λ _ Hq, Hq)); [|done]. auto.
  - eapply others_ok; [apply Hap|exact Hc| | |].
    + intros p HpF Hpn. destruct (Hne p e) as (? & ? & ?); [done|auto|by intros ->; apply Hpn|].
      apply Hcut; [lia|]. rewrite Hnx. eapply (next_cell_ne h (members F)); [done|by auto|done|].
      intros Hin. apply Hpn. simpl. auto.
    + intros d p _ _ HpF Hpn. destruct (Hne p e) as (? & ? & ?); [done|auto|by intros ->; apply Hpn|].
      apply Hcut; [lia|]. rewrite Hnx. eapply (next_cell_ne h (members F)); [done|by auto|done|].
      intros Hin. apply Hpn. simpl. auto.
    + assert (Hg8 : qprev (unlist f.1 m) (g.1 + 8) = qprev m (g.1 + 8)).
      { rewrite unlist_prev by lia. rewrite decide_False; [done|]. intros [E _]. rewrite Hnx in E.
        destruct c2 as [|d c2]; simpl in E.
        - destruct (apart_self h (members F) g Hap); [apply HF; left|unfold NULL in *; lia].
        - destruct (Hne d g) as (? & ? & ?); [apply HF, Hc2; left|apply HF; left| |lia].
          intros ->. apply NoDup_cons in Hnd as [Hg _]. apply Hg, elem_of_app. right. right. left. }
      refine (conj (eq_trans Hg8 Hgs) (conj _ _)).
      * simpl. eapply chain_remove; [exact Hap|exact Hnd|done|exact Hch].
      * simpl. rewrite Forall_app, Forall_cons in Hcs. apply Forall_app. naive_solver.
  - unfold sizes, F in *. rewrite fmap_app in *. done.
  - split.
    + intros x Hx0 Hxh HxS. destruct (HxS e); [auto|]. apply Hcut; [done|].
      rewrite Hnx. destruct c2 as [|d c2]; simpl; [done|]. apply HxS. apply HF, Hc2. left.
    + apply Hcut; [lia|]. rewrite Hnx. eapply (next_cell_ne h (members F)); [done|by auto|by auto|].
      intros Hf2. apply NoDup_cons in Hnd as [_ Hnd]. apply NoDup_app in Hnd as (_ & _ & Hnd).
      by apply NoDup_cons in Hnd as [? _].
Qed.

(** ** What the routines do to the set of free areas *)

Section freeq_ops.
Context (im : IMACB).
Abbreviation h := (freeque im).

(** A member has the size of its class. *)
Lemma member_class m F p : freeF m h F → p ∈ members F → ∃ c, c ∈ F ∧ asize p = asize c.1.
Proof.
  intros (_ & Hc & _) (c & Hcf & Hp)%elem_of_members. exists c. split; [done|].
  rewrite Forall_forall in Hc. destruct (Hc c Hcf) as (_ & _ & Hcs). rewrite Forall_forall in Hcs.
  apply elem_of_cons in Hp as [->|Hp]; [done|]. by apply Hcs.
Qed.

(** The search is a best fit. *)
Lemma search_best m S blksz :
  freeq m h S → apart h S →
  (knl_searchFreeArea im blksz m = h ∧ Forall (λ p, asize p < blksz) S) ∨
  (∃ p, p ∈ S ∧ knl_searchFreeArea im blksz m = p.1 ∧ FreeSize p.1 m = asize p ∧ blksz <= asize p ∧
     Forall (λ q, blksz <= asize q → asize p <= asize q) S).
Proof.
  intros (F & HP & HF) Hap. pose proof Hap as HapF. rewrite <- HP in HapF.
  destruct (sorted_split blksz F) as (F1 & F2 & HE & H1 & H2); [apply HF|].
  rewrite (search_spec m h F HF HapF im blksz F1 F2 eq_refl HE H1 H2). rewrite Forall_forall in H1, H2.
  assert (HF1 : ∀ p, p ∈ S → (∃ c, c ∈ F1 ∧ asize p = asize c.1) ∨ (∃ c, c ∈ F2 ∧ asize p = asize c.1)).
  { intros p Hp. rewrite <- HP in Hp. destruct (member_class m F p HF Hp) as (c & Hc & E).
    rewrite HE in Hc. apply elem_of_app in Hc as [Hc|Hc]; eauto. }
  destruct F2 as [|d F2]; [left|right; exists d.1].
  - split; [done|]. apply Forall_forall. intros p Hp. destruct (HF1 p Hp) as [(c & Hc & ->)|(c & Hc & _)]; [by apply H1|set_solver].
  - assert (HdF : d ∈ F) by (rewrite HE; apply elem_of_app; right; left).
    split_and!; [by rewrite <- HP; apply head_member|done|by apply (head_size m h F HF HapF)|apply H2; left|].
    apply Forall_forall. intros p Hp Hsz. destruct (HF1 p Hp) as [(c & Hc & E)|(c & Hc & ->)].
    + specialize (H1 c Hc). simpl in H1. lia.
    + apply elem_of_cons in Hc as [->|Hc]; [done|]. destruct HF as (_ & _ & Hs). rewrite HE in Hs.
      pose proof (sizes_after _ _ _ Hs) as Hd. rewrite Forall_forall in Hd. specialize (Hd c Hc). simpl in Hd. lia.
Qed.

(** The last area of the ring is a largest one. *)
Lemma largest_free m S :
  freeq m h S → apart h S →
  isQueEmpty h m = bool_decide (S = []) ∧
  (S ≠ [] → ∃ p, p ∈ S ∧ FreeSize (qprev m h) m = asize p ∧ Forall (λ q, asize q <= asize p) S).
Proof.
  intros (F & HP & HF) Hap. pose proof Hap as HapF. rewrite <- HP in HapF. pose proof HF as (Hr & _ & Hs).
  unfold isQueEmpty. rewrite (ring_head _ _ _ Hr). split.
  - apply bool_decide_ext. destruct F as [|d F]; simpl.
    + split; [|done]. intros _. symmetry in HP. by apply Permutation_nil_r in HP.
    + destruct (head_size m h _ HF HapF d) as (_ & _ & ?); [left|]. split; [done|].
      intros ->. apply Permutation_nil_r in HP. done.
  - intros HS. destruct F as [|d F _] using rev_ind; [symmetry in HP; by apply Permutation_nil_r in HP|].
    pose proof (ring_prev m h (heads (F ++ [d])) []) as Hp. rewrite app_nil_r, heads_snoc, last_snoc in Hp.
    rewrite heads_snoc in Hr. simpl in Hp. rewrite (Hp Hr).
    destruct (head_size m h _ HF HapF d) as (-> & _); [apply elem_of_app; right; left|].
    exists d.1. split_and!; [|done|].
    + rewrite <- HP. apply head_member, elem_of_app. right. left.
    + rewrite <- HP. apply Forall_forall. intros q Hq. destruct (member_class _ _ _ HF Hq) as (e & He & ->).
      apply elem_of_app in He as [(F1 & F2 & ->)%list_elem_of_split| ->%list_elem_of_singleton]; [|done].
      rewrite <- app_assoc in Hs. pose proof (sizes_after F1 e (F2 ++ [d]) Hs) as Hf.
      rewrite Forall_app, Forall_singleton in Hf. lia.
Qed.

Lemma append_free_spec m aq f S :
  freeq m h S → apart h (f :: S) → aq ≠ h → (∀ p, p ∈ f :: S → aq ≠ p.1 ∧ aq ≠ p.1 + 8) → aq ≠ NULL →
  let m' := append_at im aq f.1 (asize f) m in
  freeq m' h (f :: S) ∧ untouched h (f :: S) (clrAreaFlag aq AREA_USE m) m'.
Proof.
  intros HS Hap Hah HaS Ha0. destruct (apart_cons _ _ _ Hap) as [Hap' HfS].
  destruct HS as (F & HP & HF). pose proof Hap' as HapF. rewrite <- HP in HapF.
  set (m1 := clrAreaFlag aq AREA_USE m).
  assert (HF1 : freeF m1 h F).
  { eapply freeF_frame; [|exact HF]. unfold m1, clrAreaFlag. intros x Hx.
    assert (aq ≠ x); [|by cells]. destruct Hx as [->|(p & Hp & Hx)]; [done|].
    destruct (HaS p); [right; by rewrite <- HP|]. naive_solver. }
  assert (HapfF : apart h (f :: members F)) by (by rewrite HP).
  destruct (sorted_split (asize f) F) as (F1 & F2 & HE & H1 & H2); [apply HF|].
  cbv zeta. unfold append_at. rewrite (search_spec m h F HF HapF im _ F1 F2 eq_refl HE H1 H2). fold m1.
  assert (Hnew : Forall (λ c, asize f < asize c.1) F2 →
    freeq (add_new (hd h (heads F2)) f.1 (asize f) m1) h (f :: S) ∧
    untouched h (f :: S) m1 (add_new (hd h (heads F2)) f.1 (asize f) m1)).
  { intros H3. rewrite HE in HF1, HapfF. destruct (add_new_ok m1 h F1 F2 f HF1 HapfF H1 H3) as [Hq Hu]. split.
    - eexists. split; [|exact Hq]. rewrite <- HP, HE, !members_app, members_cons. simpl. solve_Permutation.
    - by rewrite <- HP, HE. }
  destruct F2 as [|[g cs] F2]; simpl heads; cbn [hd].
  - rewrite Z.eqb_refl. cbn [negb andb]. by apply Hnew.
  - destruct (head_size m1 h F HF1 HapF (g, cs)) as (Hg & _ & Hgh); [rewrite HE; apply elem_of_app; right; left|].
    simpl in Hg, Hgh. rewrite Hg. rewrite (proj2 (Z.eqb_neq _ _)) by done. cbn [negb andb].
    apply Forall_cons in H2 as [Hgs H2]. simpl in Hgs. destruct (Z.eqb_spec (asize g) (asize f)) as [E|E].
    + rewrite HE in HF1, HapfF. destruct (add_same_ok m1 h F1 g cs F2 f HF1 HapfF) as [Hq Hu]; [done|]. split.
      * eexists. split; [|exact Hq]. rewrite <- HP, HE, !members_app, !members_cons. simpl. solve_Permutation.
      * by rewrite <- HP, HE.
    + apply Hnew. constructor; [simpl; lia|]. destruct HF as (_ & _ & Hs). rewrite HE in Hs.
      eapply Forall_impl; [exact (sizes_after _ _ _ Hs)|]. simpl. intros c ?. lia.
Qed.

Lemma remove_spec m S f :
  freeq m h S → apart h S → f ∈ S →
  ∃ S', S ≡ₚ f :: S' ∧ freeq (knl_removeFreeQue f.1 m) h S' ∧ untouched h S m (knl_removeFreeQue f.1 m) ∧
    FreeSize f.1 (knl_removeFreeQue f.1 m) = FreeSize f.1 m.
Proof.
  intros (F & HP & HF) Hap Hf. pose proof Hap as HapF. rewrite <- HP in HapF.
  rewrite <- HP in Hf. apply elem_of_members in Hf as ([g cs] & (F1 & F2 & HE)%list_elem_of_split & Hf).
  subst F. simpl in Hf.
  setoid_rewrite <- HP. apply elem_of_cons in Hf as [->|(c1 & c2 & ->)%list_elem_of_split].
  - pose proof (head_in_ring _ _ _ _ _ _ HF HapF) as Hn. unfold knl_removeFreeQue.
    rewrite (proj2 (Z.eqb_neq _ _)) by done.
    assert (Hch : chain m (g.1 + 8) cs).
    { destruct HF as (_ & Hc & _). rewrite Forall_app, Forall_cons in Hc. apply Hc. }
    destruct cs as [|c cs]; simpl in Hch.
    + rewrite Hch. cbn [negb Z.eqb NULL]. destruct (remove_single_ok _ _ _ _ _ HF HapF) as (Hq & Hm & Hfs).
      exists (members (F1 ++ F2)). split_and!; [|by exists (F1 ++ F2)|done|by unfold FreeSize; rewrite Hfs].
      rewrite !members_app, members_cons. simpl. solve_Permutation.
    + destruct (remove_head_ok _ _ _ _ _ _ _ HF HapF) as (Hq & Hm & Hfs). destruct Hch as (Hgc & _).
      assert (Hc0 : g.1 + 8 ≠ NULL ∧ c.1 + 8 ≠ NULL).
      { destruct (apart_self h _ g HapF), (apart_self h _ c HapF);
          try (apply elem_of_members; exists (g, c :: cs); split; [apply elem_of_app; right; left|]; simpl; set_solver).
        unfold NULL. lia. }
      rewrite Hgc, (proj2 (Z.eqb_neq _ _)) by apply Hc0. cbn [negb]. rewrite <- Hgc. fold (promote g.1 m).
      exists (members (F1 ++ (c, cs) :: F2)). split_and!; [|by exists (F1 ++ (c, cs) :: F2)|done|by unfold FreeSize; rewrite Hfs].
      rewrite !members_app, !members_cons. simpl. solve_Permutation.
  - destruct (remove_listed_ok _ _ _ _ _ _ _ _ HF HapF) as (Hq & Hn & Hm & Hfs).
    unfold knl_removeFreeQue. rewrite Hn, Z.eqb_refl. fold (unlist f.1 m).
    exists (members (F1 ++ (g, c1 ++ c2) :: F2)). split_and!; [|by exists (F1 ++ (g, c1 ++ c2) :: F2)|done|by unfold FreeSize; rewrite Hfs].
    rewrite !members_app, !members_cons. simpl. solve_Permutation.
Qed.
End freeq_ops.

(** The two search loops are the same search.  The comparison of the request with a
    quarter of the memory size only chooses the direction: with any two sizes recorded in
    the control block, [knl_searchFreeArea] returns the same area, a smallest one that is
    large enough, or the head of the free queue when there is none. *)
Theorem search_directions_agree (im im' : IMACB) (m : qmem Z) (S : list area) (blksz : Z) :
  freeq m (freeque im) S → apart (freeque im) S → imacb im' = imacb im →
  let q := knl_searchFreeArea im blksz m in
  knl_searchFreeArea im' blksz m = q ∧
  ((q = freeque im ∧ Forall (λ p, asize p < blksz) S) ∨
   (∃ p, p ∈ S ∧ q = p.1 ∧ blksz <= asize p ∧ Forall (λ r, blksz <= asize r → asize p <= asize r) S)).
Proof.
  intros Hq Hap E q. pose proof Hq as (F & HP & HF). pose proof Hap as HapF. rewrite <- HP in HapF.
  assert (Eh : freeque im' = freeque im) by (unfold freeque; by rewrite E).
  destruct (sorted_split blksz F) as (F1 & F2 & HE & H1 & H2); [apply HF|]. split.
  - unfold q. rewrite (search_spec m _ F HF HapF im blksz F1 F2 eq_refl HE H1 H2).
    by rewrite (search_spec m _ F HF HapF im' blksz F1 F2 Eh HE H1 H2).
  - destruct (search_best im m S blksz Hq Hap) as [?|(p & ? & ? & _ & ? & ?)]; [by left|right; by exists p].
Qed.

(** Two free areas, of 16 and of 40 bytes. *)
Definition ex_freeq : qmem Z :=
  let im := mkIMACB 100 0 in
  append_at im 500 508 40 (append_at im 600 608 16 (QueInit (freeque im) (Qmem (λ x, x) (λ x, x)))).

Lemma ex_freeq_ok : freeq ex_freeq 112 [(508, 548); (608, 624)] ∧ apart 112 [(508, 548); (608, 624)].
Proof.
  assert (Hap : apart 112 [(508, 548); (608, 624)]).
  { split_and!; [lia| | |].
    - apply NoDup_cons. split; [|apply NoDup_singleton]. intros [=]%list_elem_of_singleton.
    - intros p [->|[->|[]%elem_of_nil]%elem_of_cons]%elem_of_cons; unfold asize; simpl; lia.
    - intros p q [->|[->|[]%elem_of_nil]%elem_of_cons]%elem_of_cons
        [->|[->|[]%elem_of_nil]%elem_of_cons]%elem_of_cons; simpl; (split; [intros; try done; lia|lia]). }
  split; [|done]. destruct (apart_cons _ _ _ Hap) as [Hap1 _].
  assert (H1 : freeq (append_at (mkIMACB 100 0) 600 608 16 (QueInit 112 (Qmem (λ x, x) (λ x, x)))) 112 [(608, 624)]).
  { apply (append_free_spec (mkIMACB 100 0) _ 600 (608, 624) []); [|done|unfold freeque; simpl; lia| |unfold NULL; lia].
    - exists []. split; [done|]. split_and!; [|constructor|constructor]. split; [apply NoDup_singleton|].
      simpl. split_and!; done.
    - intros p [->|[]%elem_of_nil]%elem_of_cons. simpl. lia. }
  apply (append_free_spec (mkIMACB 100 0) _ 500 (508, 548) [(608, 624)]); [exact H1|done|unfold freeque; simpl; lia| |unfold NULL; lia].
  intros p [->|[->|[]%elem_of_nil]%elem_of_cons]%elem_of_cons; simpl; lia.
Qed.

Lemma search_directions_agree_witness :
  knl_searchFreeArea (mkIMACB 100 1000) 30 ex_freeq = 508 ∧ knl_searchFreeArea (mkIMACB 100 0) 30 ex_freeq = 508.
Proof.
  destruct ex_freeq_ok as [Hq Hap].
  destruct (search_directions_agree (mkIMACB 100 0) (mkIMACB 100 1000) ex_freeq _ 30 Hq Hap eq_refl) as [-> _].
  split; by vm_compute.
Defined.
