(* ===== verification/Heap.v ===== *)
(** * Heaps: the area queue together with the free queue

    A heap is a range of memory cut into areas.  The kernel's own heap and the
    variable-size memory pools share the layout: the areas follow each other with a
    header cell between them; they differ in where the first header is and in what
    ends the queue.  [hcfg] describes the layout, [heap_st c m A S] says that the
    memory [m] holds the areas [A] and that the free queue holds the areas [S].
    The lemmas say what each routine of FreeArea.v does to such a heap; Memory.v and
    MemPool.v put them together. *)
From S2P Require Import Prelude Config Queue Mem FreeArea.

(** ** Flags and masked links *)

Definition inuse (m : qmem Z) (x : Z) : bool := Z.odd (qprev m x).
Definition mask (m : qmem Z) : qmem Z := Qmem (qnext m) (λ x, Mask (qprev m x)).

Lemma Mask_half x : Mask x = 2 * (x / 2).
Proof.
  unfold Mask, AREA_MASK. apply Z.bits_inj'. intros n Hn. rewrite Z.land_spec, Z.lnot_spec by done.
  destruct (Z.eq_dec n 0) as [->|].
  - rewrite Z.testbit_even_0. by rewrite andb_false_r.
  - replace n with (Z.succ (n - 1)) by lia. rewrite Z.testbit_even_succ by lia.
    change (x / 2) with (x / 2 ^ 1). rewrite <- (Z.shiftr_div_pow2 x 1), Z.shiftr_spec by lia.
    replace (Z.testbit 1 (Z.succ (n - 1))) with false; [|by rewrite Z.bits_above_log2 by (simpl; lia)].
    by rewrite andb_true_r.
Qed.

Lemma odd_bit x : Z.odd x = Z.testbit x 0.
Proof. by rewrite Z.bit0_odd. Qed.

Lemma Mask_even x : Z.even x = true → Mask x = x.
Proof. intros [k ->]%Z.even_spec. rewrite Mask_half, (Z.mul_comm 2 k), Z.div_mul by lia. lia. Qed.

Lemma even_Mask x : Z.even (Mask x) = true.
Proof. rewrite Mask_half. apply Z.even_spec. by exists (x / 2). Qed.

Lemma chkAreaFlag_inuse q m : chkAreaFlag q AREA_USE m = inuse m q.
Proof.
  unfold chkAreaFlag, inuse, AREA_USE. rewrite (Z.land_ones _ 1) by lia. change (2 ^ 1) with 2.
  rewrite Zmod_odd. by destruct (Z.odd (qprev m q)).
Qed.

Ltac low_bit :=
  unfold Mask, Assign, AREA_MASK, AREA_USE; rewrite ?odd_bit;
  rewrite ?Z.land_spec, ?Z.lor_spec, ?Z.lnot_spec, ?Z.land_spec by lia.

Lemma odd_lor_1 x : Z.odd (Z.lor x AREA_USE) = true.
Proof. low_bit. apply orb_true_r. Qed.

Lemma odd_clr_1 x : Z.odd (Z.land x (Z.lnot AREA_USE)) = false.
Proof. low_bit. apply andb_false_r. Qed.

Lemma odd_Assign x y : Z.even y = true → Z.odd (Assign x y) = Z.odd x.
Proof.
  intros Hy. low_bit. assert (Z.testbit y 0 = false) as ->.
  { rewrite Z.bit0_odd, <- Z.negb_even, Hy. done. }
  change (Z.testbit 1 0) with true. by rewrite orb_false_r, andb_true_r.
Qed.

Lemma Mask_lor_1 x : Mask (Z.lor x AREA_USE) = Mask x.
Proof. unfold Mask, AREA_USE, AREA_MASK. bitwise. Qed.

Lemma Mask_clr_1 x : Mask (Z.land x (Z.lnot AREA_USE)) = Mask x.
Proof. unfold Mask, AREA_USE, AREA_MASK. bitwise. Qed.

Lemma Mask_Assign x y : Z.even y = true → Mask (Assign x y) = y.
Proof.
  intros Hy. rewrite <- (Mask_even y Hy) at 2. unfold Mask, Assign, AREA_MASK.
  apply Z.bits_inj'. intros n Hn. rewrite !Z.land_spec, Z.lor_spec, Z.land_spec, Z.lnot_spec by done.
  by destruct (Z.testbit x n), (Z.testbit 1 n), (Z.testbit y n).
Qed.

(** ** The area queue *)

(** A ring without a distinguished head. *)
Definition ringl (m : qmem Z) (l : list Z) : Prop :=
  match l with [] => False | x :: r => ring m x r end.

Lemma ringl_frame m m' l :
  (∀ x, x ∈ l → qnext m' x = qnext m x ∧ qprev m' x = qprev m x) → ringl m l → ringl m' l.
Proof. destruct l; simpl; [done|]. intros. by eapply ring_frame. Qed.

Lemma ringl_NoDup m l : ringl m l → NoDup l.
Proof. destruct l; simpl; [done|]. by intros [? _]. Qed.

(** The links around the node [p]. *)
Lemma ringl_links m l1 p l2 :
  ringl m (l1 ++ p :: l2) →
  qnext m p = hd (hd p l1) l2 ∧ qprev m (hd (hd p l1) l2) = p.
Proof.
  destruct l1 as [|x l1]; simpl; intros Hr.
  - rewrite (ring_head _ _ _ Hr). split; [done|]. by apply (ring_prev m p [] l2).
  - rewrite (ring_next _ _ _ _ _ Hr). split; [done|].
    rewrite (cons_middle p l1 l2), app_assoc in Hr. rewrite (ring_prev _ _ _ _ Hr). by rewrite last_snoc.
Qed.

Lemma ringl_insert m l1 p l2 e :
  ringl m (l1 ++ p :: l2) → e ∉ l1 ++ p :: l2 →
  ringl (QueInsert e (qnext m p) m) (l1 ++ p :: e :: l2).
Proof.
  intros Hr He. destruct (ringl_links _ _ _ _ Hr) as [-> _]. destruct l1 as [|x l1]; simpl in *.
  - by apply (ring_insert m p [] l2).
  - rewrite (cons_middle p l1 l2), app_assoc in Hr. apply (ring_insert m x (l1 ++ [p]) l2 e) in Hr.
    + by rewrite <- app_assoc in Hr.
    + by rewrite <- app_assoc.
Qed.

Lemma ringl_remove m l1 p e l2 :
  ringl m (l1 ++ p :: e :: l2) → ringl (QueRemove e m) (l1 ++ p :: l2).
Proof.
  destruct l1 as [|x l1]; simpl; intros Hr.
  - by apply (ring_remove m p [] e l2) in Hr.
  - rewrite (cons_middle p l1 (e :: l2)), app_assoc in Hr. apply ring_remove in Hr. by rewrite <- app_assoc in Hr.
Qed.

(** [knl_insertAreaQue] and [knl_removeAreaQue] are queue operations on the masked
    links, and keep the flags. *)
Lemma insertAreaQue_masked p e m x :
  p ≠ e → qnext m p ≠ e → Mask (qprev m (qnext m p)) = p → Z.even e = true →
  qnext (mask (knl_insertAreaQue p e m)) x = qnext (QueInsert e (qnext m p) (mask m)) x ∧
  qprev (mask (knl_insertAreaQue p e m)) x = qprev (QueInsert e (qnext m p) (mask m)) x ∧
  inuse (knl_insertAreaQue p e m) x = if decide (x = e) then false else inuse m x.
Proof.
  intros Hpe Hne Hp He. rewrite QueInsert_next, QueInsert_prev by (simpl; congruence).
  cbn [mask qnext qprev]. rewrite Hp. unfold knl_insertAreaQue, inuse. cbv zeta.
  unfold set_qnext, set_qprev. cbn [qnext qprev mask].
  rewrite (fn_lookup_insert_ne _ e p) by done. rewrite (fn_lookup_insert_ne _ e (qnext m p)) by done.
  split_and!.
  - destruct (decide (p = x)) as [->|]; upd_simpl; [done|]. destruct (decide (e = x)) as [->|]; by upd_simpl.
  - destruct (decide (qnext m p = x)) as [<-|]; upd_simpl; [by apply Mask_Assign|].
    destruct (decide (e = x)) as [->|]; upd_simpl; [|done].
    rewrite <- Hp. apply Mask_even, even_Mask.
  - destruct (decide (qnext m p = x)) as [<-|]; upd_simpl.
    + rewrite decide_False by done. by apply odd_Assign.
    + destruct (decide (x = e)) as [->|]; upd_simpl; [|done].
      rewrite <- Hp. rewrite <- Z.negb_even, even_Mask. done.
Qed.

Lemma insertAreaQue_other p e m x :
  p ≠ e → x ≠ p → x ≠ e → x ≠ qnext m p →
  qnext (knl_insertAreaQue p e m) x = qnext m x ∧ qprev (knl_insertAreaQue p e m) x = qprev m x.
Proof.
  intros Hpe Hp He Hn. unfold knl_insertAreaQue. cbv zeta. unfold set_qnext, set_qprev. cbn [qnext qprev].
  rewrite (fn_lookup_insert_ne _ e p) by done. by upd_simpl.
Qed.

Lemma Mask_set_flag q m x : Mask (qprev (setAreaFlag q AREA_USE m) x) = Mask (qprev m x).
Proof.
  unfold setAreaFlag. simpl. destruct (decide (q = x)) as [<-|]; upd_simpl; [apply Mask_lor_1|done].
Qed.

Lemma removeAreaQue_masked e m x :
  qnext m e ≠ e → Mask (qprev m e) ≠ e →
  qnext (mask (knl_removeAreaQue e m)) x = qnext (QueRemove e (mask m)) x ∧
  qprev (mask (knl_removeAreaQue e m)) x = qprev (QueRemove e (mask m)) x ∧
  inuse (knl_removeAreaQue e m) x = inuse m x.
Proof.
  intros Hn Hp. rewrite QueRemove_next, QueRemove_prev by done.
  unfold knl_removeAreaQue, inuse. cbv zeta. unfold set_qnext, set_qprev. cbn [mask qnext qprev].
  rewrite (fn_lookup_insert_ne _ (Mask (qprev m e)) e) by done. split_and!.
  - destruct (decide (Mask (qprev m e) = x)) as [<-|]; by upd_simpl.
  - destruct (decide (qnext m e = x)) as [<-|]; upd_simpl; [|done]. apply Mask_Assign, even_Mask.
  - destruct (decide (qnext m e = x)) as [<-|]; upd_simpl; [|done]. apply odd_Assign, even_Mask.
Qed.

(** ** Layout *)

(** The areas lie between [hc_top] and [hc_lim]; the header of an area is the cell in
    front of its body, but when [hc_in] is set the head of the area queue is the header
    of the first area.  [hc_end] ends the queue. *)
Record hcfg := Hcfg { hc_im : IMACB; hc_top : Z; hc_lim : Z; hc_end : Z; hc_in : bool }.

Definition hdr (c : hcfg) (lo : Z) : Z :=
  if hc_in c && (lo =? hc_top c) then areaque (hc_im c) else lo - 8.

Definition nodes (c : hcfg) (A : list area) : list Z :=
  (if hc_in c then [] else [areaque (hc_im c)]) ++ ((λ p, hdr c p.1) <$> A) ++ [hc_end c].

(** The cells of the control block are aligned to 2 bytes and outside of the range. *)
Record hcfg_ok (c : hcfg) : Prop := {
  hc_pos : 8 < hc_top c;
  hc_small : hc_lim c - hc_top c < 2 ^ 31;
  hc_max : hc_lim c + 8 <= 2 ^ 32;
  hc_even : Z.even (hc_top c) = true ∧ Z.even (areaque (hc_im c)) = true ∧ Z.even (hc_end c) = true;
  hc_ctl : 0 < imacb (hc_im c);
  hc_out : ∀ x, x = areaque (hc_im c) ∨ x = freeque (hc_im c) ∨ (hc_in c = true ∧ x = hc_end c) →
    x + 8 <= hc_top c - (if hc_in c then 0 else 8) ∨ hc_lim c + (if hc_in c then 0 else 8) <= x;
  hc_last : if hc_in c then freeque (hc_im c) < hc_end c else hc_end c = hc_lim c
}.

(** Areas one after the other, with room for a header between them. *)
Fixpoint seg (lo : Z) (A : list area) (e : Z) : Prop :=
  match A with
  | [] => lo = e
  | p :: A => p.1 = lo ∧ 16 <= asize p ∧ (8 | asize p) ∧ seg (p.2 + 8) A e
  end.

Lemma seg_app lo A1 A2 e : seg lo (A1 ++ A2) e ↔ ∃ x, seg lo A1 x ∧ seg x A2 e.
Proof.
  revert lo. induction A1 as [|p A1 IH]; intros lo; simpl; [naive_solver|].
  setoid_rewrite IH. naive_solver.
Qed.

Lemma seg_le lo A e : seg lo A e → lo <= e.
Proof.
  revert lo. induction A as [|p A IH]; intros lo; simpl; [lia|].
  unfold asize. intros (? & ? & _ & H). apply IH in H. lia.
Qed.

Lemma seg_in lo A e p : seg lo A e → p ∈ A → lo <= p.1 ∧ p.1 + 16 <= p.2 ∧ p.2 + 8 <= e ∧ (8 | asize p).
Proof.
  intros Hs (A1 & A2 & ->)%list_elem_of_split. apply seg_app in Hs as (x & H1 & H2).
  simpl in H2. destruct H2 as (? & ? & ? & H2). apply seg_le in H1, H2. unfold asize in *. split_and!; [lia|lia|lia|done].
Qed.

Lemma seg_aligned lo A e p : seg lo A e → p ∈ A → (8 | p.1 - lo).
Proof.
  intros Hs (A1 & A2 & ->)%list_elem_of_split. apply seg_app in Hs as (x & H1 & H2).
  simpl in H2. destruct H2 as (-> & _). clear A2. revert lo H1.
  induction A1 as [|q A1 IH]; intros lo; simpl.
  - intros ->. rewrite Z.sub_diag. apply Z.divide_0_r.
  - intros (E & _ & H8 & H). apply IH in H. unfold asize in H8.
    replace (x - lo) with ((x - (q.2 + 8)) + ((q.2 - q.1) + 8)) by lia.
    apply Z.divide_add_r; [done|]. apply Z.divide_add_r; [done|]. by exists 1.
Qed.

Lemma seg_order lo A1 p A2 e q :
  seg lo (A1 ++ p :: A2) e → (q ∈ A1 → q.2 + 8 <= p.1) ∧ (q ∈ A2 → p.2 + 8 <= q.1).
Proof.
  intros (x & H1 & H2)%seg_app. simpl in H2. destruct H2 as (<- & _ & _ & H2). split; intros Hq.
  - by apply (seg_in _ _ _ _ H1).
  - by apply (seg_in _ _ _ _ H2).
Qed.

Lemma seg_apart lo A e p q : seg lo A e → p ∈ A → q ∈ A → p ≠ q → p.2 + 8 <= q.1 ∨ q.2 + 8 <= p.1.
Proof.
  intros Hs (A1 & A2 & ->)%list_elem_of_split Hq Hne. destruct (seg_order _ _ _ _ _ q Hs) as [H1 H2].
  apply elem_of_app in Hq as [Hq|[->|Hq]%elem_of_cons]; [right; auto|done|left; auto].
Qed.

Lemma seg_NoDup lo A e : seg lo A e → NoDup A.
Proof.
  revert lo. induction A as [|p A IH]; intros lo; simpl; [constructor|].
  intros (? & ? & _ & H). apply NoDup_cons. split; [|by eapply IH].
  intros Hp. apply (seg_in _ _ _ _ H) in Hp. unfold asize in *. lia.
Qed.

Section layout.
Context (c : hcfg) (Hc : hcfg_ok c).
Abbreviation fqh := (freeque (hc_im c)).
Abbreviation aqh := (areaque (hc_im c)).
Abbreviation tiled A := (seg (hc_top c) A (hc_lim c + 8)).

(** The cells of the areas are cells of nothing else. *)
Lemma ctl_out x : x = aqh ∨ x = fqh ∨ (hc_in c = true ∧ x = hc_end c) →
  (x + 8 <= hc_top c ∨ hc_lim c <= x) ∧ (hc_in c = false → x + 8 <= hc_top c - 8 ∨ hc_lim c + 8 <= x).
Proof. intros Hx. pose proof (hc_out c Hc x Hx) as Ho. destruct (hc_in c); lia || (split; [lia|done]). Qed.

Lemma body_cells A p x : tiled A → p ∈ A → p.1 <= x < p.2 → x ≠ NULL ∧ x ≠ fqh ∧ x ≠ aqh ∧ x ≠ hc_end c.
Proof.
  intros Hs Hp Hx. destruct (seg_in _ _ _ _ Hs Hp) as (? & ? & ? & _). pose proof (hc_pos c Hc).
  destruct (ctl_out fqh) as [? _]; [tauto|]. destruct (ctl_out aqh) as [? _]; [tauto|].
  pose proof (hc_last c Hc) as Hl. destruct (hc_in c) eqn:E.
  - destruct (ctl_out (hc_end c)) as [? _]; [tauto|]. unfold NULL. lia.
  - unfold NULL. lia.
Qed.

Lemma hdr_body A p q x : tiled A → p ∈ A → q ∈ A → q.1 <= x < q.2 → hdr c p.1 ≠ x.
Proof.
  intros Hs Hp Hq Hx. destruct (body_cells A q x Hs Hq Hx) as (_ & _ & ? & _). unfold hdr. case_match; [done|].
  destruct (decide (p = q)) as [->|Hne]; [lia|].
  destruct (seg_apart _ _ _ p q Hs Hp Hq Hne), (seg_in _ _ _ _ Hs Hp) as (? & ? & ? & _); lia.
Qed.

Lemma hdr_ctl A p : tiled A → p ∈ A →
  hdr c p.1 ≠ NULL ∧ hdr c p.1 ≠ fqh ∧ hdr c p.1 ≠ hc_end c ∧ (hc_in c = false → hdr c p.1 ≠ aqh) ∧
  Z.even (hdr c p.1) = true.
Proof.
  intros Hs Hp. destruct (seg_in _ _ _ _ Hs Hp) as (? & ? & ? & _).
  destruct (ctl_out fqh) as [Hf1 Hf2]; [tauto|]. destruct (ctl_out aqh) as [Ha1 Ha2]; [tauto|].
  pose proof (hc_pos c Hc). pose proof (hc_ctl c Hc). pose proof (hc_last c Hc) as Hl.
  destruct (hc_even c Hc) as (He1 & He2 & He3). unfold hdr. destruct (hc_in c) eqn:E; simpl.
  - destruct (ctl_out (hc_end c)) as [He _]; [tauto|].
    destruct (Z.eqb_spec p.1 (hc_top c)); unfold freeque, areaque, NULL in *.
    + split_and!; lia || done.
    + assert (hc_top c + 24 <= p.1).
      { destruct A as [|q A]; [by apply elem_of_nil in Hp|]. simpl in Hs. destruct Hs as (? & ? & _ & Hs).
        apply elem_of_cons in Hp as [->|Hp]; [done|]. apply (seg_in _ _ _ _ Hs) in Hp. unfold asize in *. lia. }
      split_and!; try (lia || done). pose proof (seg_aligned _ _ _ _ Hs Hp) as [k Hk].
      replace (p.1 - 8) with (hc_top c + 2 * (4 * k - 4)) by lia.
      rewrite Z.even_add, He1, Z.even_mul. done.
  - split_and!; unfold NULL in *; try lia. pose proof (seg_aligned _ _ _ _ Hs Hp) as [k Hk].
    replace (p.1 - 8) with (hc_top c + 2 * (4 * k - 4)) by lia. rewrite Z.even_add, He1, Z.even_mul. done.
Qed.

Lemma nodes_split A1 p A2 :
  ∃ l1 l2, nodes c (A1 ++ p :: A2) = l1 ++ hdr c p.1 :: l2 ∧
    l2 = ((λ p, hdr c p.1) <$> A2) ++ [hc_end c] ∧
    l1 = (if hc_in c then [] else [aqh]) ++ ((λ p, hdr c p.1) <$> A1).
Proof.
  unfold nodes. rewrite fmap_app, <- !app_assoc. simpl. rewrite app_assoc. eauto.
Qed.

Lemma elem_of_nodes A x : x ∈ nodes c A ↔ (hc_in c = false ∧ x = aqh) ∨ (∃ p, p ∈ A ∧ x = hdr c p.1) ∨ x = hc_end c.
Proof.
  unfold nodes. rewrite !elem_of_app, list_elem_of_fmap, list_elem_of_singleton.
  destruct (hc_in c); [rewrite elem_of_nil|rewrite list_elem_of_singleton]; naive_solver.
Qed.

(** A cell of a body is no node of the area queue. *)
Lemma body_not_node A p x : tiled A → p ∈ A → p.1 <= x < p.2 → x ∉ nodes c A.
Proof.
  intros Hs Hp Hx. destruct (body_cells A p x Hs Hp Hx) as (_ & _ & ? & ?).
  rewrite elem_of_nodes. intros [[_ ?]|[(q & Hq & E)|?]]; [done| |done].
  by apply (hdr_body A q p x Hs Hq Hp Hx).
Qed.

Lemma fqh_not_node A : tiled A → fqh ∉ nodes c A.
Proof.
  intros Hs. rewrite elem_of_nodes. intros [[_ E]|[(q & Hq & E)|E]].
  - unfold freeque, areaque in E. lia.
  - destruct (hdr_ctl A q Hs Hq) as (_ & ? & _). congruence.
  - pose proof (hc_last c Hc) as Hl. destruct (hc_in c) eqn:Ei; [lia|].
    destruct (ctl_out fqh) as [_ Hf]; [tauto|]. specialize (Hf Ei). pose proof (seg_le _ _ _ Hs). lia.
Qed.

Lemma areas_apart A S : tiled A → NoDup S → (∀ p, p ∈ S → p ∈ A) → apart fqh S.
Proof.
  intros Hs Hnd HS. pose proof (hc_ctl c Hc) as Hctl. pose proof (hc_small c Hc).
  split_and!; [unfold freeque; lia|done| |].
  - intros p Hp. destruct (seg_in _ _ _ _ Hs (HS _ Hp)) as (? & ? & ? & _). pose proof (hc_pos c Hc).
    destruct (body_cells A p p.1 Hs (HS _ Hp)) as (_ & ? & _); [lia|].
    destruct (body_cells A p (p.1 + 8) Hs (HS _ Hp)) as (_ & ? & _); [lia|]. unfold asize. lia.
  - intros p q Hp Hq. destruct (seg_in _ _ _ _ Hs (HS _ Hp)) as (? & ? & ? & _).
    destruct (seg_in _ _ _ _ Hs (HS _ Hq)) as (? & ? & ? & _).
    destruct (decide (p = q)) as [->|Hne]; [split; [done|lia]|].
    destruct (seg_apart _ _ _ p q Hs (HS _ Hp) (HS _ Hq) Hne); (split; [intros; exfalso; lia|lia]).
Qed.

(** ** Heap states *)

Record heap_st (m : qmem Z) (A S : list area) : Prop := {
  st_seg : tiled A;
  st_ring : ringl (mask m) (nodes c A);
  st_end : inuse m (hc_end c) = true;
  st_head : hc_in c = false → inuse m aqh = true;
  st_nd : NoDup S;
  st_sub : ∀ p, p ∈ S → p ∈ A;
  st_free : freeq m fqh S
}.

(** The cells a heap operation does not write. *)
Definition outside (A S : list area) (x : Z) : Prop :=
  x ≠ NULL ∧ x ∉ nodes c A ∧ x ≠ fqh ∧ ∀ p, p ∈ S → x ≠ p.1 ∧ x ≠ p.1 + 8.

Definition kept (P : Z → Prop) (m m' : qmem Z) : Prop :=
  ∀ x, P x → qnext m' x = qnext m x ∧ qprev m' x = qprev m x.

Lemma body_outside (A S : list area) p x :
  tiled A → (∀ q, q ∈ S → q ∈ A) → p ∈ A → p ∉ S → p.1 <= x < p.2 → outside A S x.
Proof.
  intros Hs HS Hp Hn Hx. destruct (body_cells A p x Hs Hp Hx) as (? & ? & _).
  split_and!; [done|by eapply body_not_node|done|]. intros q Hq.
  destruct (seg_in _ _ _ _ Hs (HS _ Hq)) as (? & ? & _).
  destruct (seg_apart _ _ _ p q Hs Hp (HS _ Hq)); [by intros ->|lia|lia].
Qed.

Lemma node_not_free (A S : list area) x :
  tiled A → (∀ q, q ∈ S → q ∈ A) → x ∈ nodes c A → x ≠ fqh ∧ ∀ q, q ∈ S → x ≠ q.1 ∧ x ≠ q.1 + 8.
Proof.
  intros Hs HS Hx. split; [intros ->; by apply (fqh_not_node A)|]. intros q Hq.
  destruct (seg_in _ _ _ _ Hs (HS _ Hq)) as (? & ? & _).
  split; intros ->; (eapply (body_not_node A q); [done|by apply HS| |exact Hx]); lia.
Qed.

Lemma node_pos A x : tiled A → x ∈ nodes c A → x ≠ NULL.
Proof.
  intros Hs. rewrite elem_of_nodes. pose proof (hc_ctl c Hc). pose proof (hc_pos c Hc). unfold NULL.
  intros [[_ ->]|[(p & Hp & ->)| ->]]; [unfold areaque; lia|by apply (hdr_ctl A p Hs Hp)|].
  pose proof (hc_last c Hc) as Hl. pose proof (seg_le _ _ _ Hs). destruct (hc_in c); [unfold freeque in Hl; lia|lia].
Qed.

(** Changes of the nodes of the area queue keep the free queue, and the other way
    round. *)
Lemma nodes_keep_free (A S : list area) m m' :
  tiled A → (∀ p, p ∈ S → p ∈ A) → kept (λ x, x ∉ nodes c A) m m' → freeq m fqh S → freeq m' fqh S.
Proof.
  intros Hs HS Hk. apply freeq_frame. intros x Hx. apply Hk. intros Hin.
  destruct (node_not_free A S x Hs HS Hin) as [? Hq]. destruct Hx as [->|(p & Hp & Hx)]; [done|].
  destruct (Hq p Hp). naive_solver.
Qed.

Lemma mask_keep (l : list Z) m m' :
  (∀ x, x ∈ l → qnext m' x = qnext m x ∧ Mask (qprev m' x) = Mask (qprev m x)) →
  ringl (mask m) l → ringl (mask m') l.
Proof. intros Hk. apply ringl_frame. intros x Hx. simpl. by apply Hk. Qed.

Lemma hdr_node A p : p ∈ A → hdr c p.1 ∈ nodes c A.
Proof. intros Hp. apply elem_of_nodes. right. left. by exists p. Qed.

Lemma end_node A : hc_end c ∈ nodes c A.
Proof. apply elem_of_nodes. by do 2 right. Qed.

(** Marking an area. *)
Lemma set_flag_st m A S p :
  heap_st m A S → p ∈ A → heap_st (setAreaFlag (hdr c p.1) AREA_USE m) A S.
Proof.
  intros [Hs Hr He Hh Hnd HS Hf] Hp. destruct (hdr_ctl A p Hs Hp) as (_ & _ & Hne & Hnh & _).
  unfold setAreaFlag. split; try done.
  - eapply mask_keep; [|exact Hr]. intros x _. simpl. split; [done|].
    destruct (decide (hdr c p.1 = x)) as [<-|]; upd_simpl; [apply Mask_lor_1|done].
  - unfold inuse. simpl. by upd_simpl.
  - intros Hi. unfold inuse. simpl. rewrite fn_lookup_insert_ne by auto. by apply Hh.
  - eapply (nodes_keep_free A); [done|done| |exact Hf]. intros x Hx. simpl.
    assert (hdr c p.1 ≠ x); [|by upd_simpl]. intros <-. by apply Hx, hdr_node.
Qed.

Lemma clr_flag_st m A S p :
  heap_st m A S → p ∈ A → heap_st (clrAreaFlag (hdr c p.1) AREA_USE m) A S.
Proof.
  intros [Hs Hr He Hh Hnd HS Hf] Hp. destruct (hdr_ctl A p Hs Hp) as (_ & _ & Hne & Hnh & _).
  unfold clrAreaFlag. split; try done.
  - eapply mask_keep; [|exact Hr]. intros x _. simpl. split; [done|].
    destruct (decide (hdr c p.1 = x)) as [<-|]; upd_simpl; [apply Mask_clr_1|done].
  - unfold inuse. simpl. by upd_simpl.
  - intros Hi. unfold inuse. simpl. rewrite fn_lookup_insert_ne by auto. by apply Hh.
  - eapply (nodes_keep_free A); [done|done| |exact Hf]. intros x Hx. simpl.
    assert (hdr c p.1 ≠ x); [|by upd_simpl]. intros <-. by apply Hx, hdr_node.
Qed.

Lemma inuse_set q m x : inuse (setAreaFlag q AREA_USE m) x = if decide (q = x) then true else inuse m x.
Proof.
  unfold setAreaFlag, inuse. simpl. destruct (decide (q = x)) as [->|]; upd_simpl; [apply odd_lor_1|done].
Qed.

Lemma inuse_clr q m x : inuse (clrAreaFlag q AREA_USE m) x = if decide (q = x) then false else inuse m x.
Proof.
  unfold clrAreaFlag, inuse. simpl. destruct (decide (q = x)) as [->|]; upd_simpl; [apply odd_clr_1|done].
Qed.

(** Taking a free area out of the free queue. *)
Lemma remove_free_st m A S p :
  heap_st m A S → p ∈ S →
  ∃ S', S ≡ₚ p :: S' ∧ heap_st (knl_removeFreeQue p.1 m) A S' ∧
    kept (λ x, x ∈ nodes c A) m (knl_removeFreeQue p.1 m) ∧
    kept (outside A S) m (knl_removeFreeQue p.1 m) ∧
    FreeSize p.1 (knl_removeFreeQue p.1 m) = FreeSize p.1 m.
Proof.
  intros [Hs Hr He Hh Hnd HS Hf] Hp.
  destruct (remove_spec (hc_im c) m S p Hf (areas_apart A S Hs Hnd HS) Hp) as (S' & HP & Hf' & Hu & Hz).
  assert (Hk : kept (λ x, x ∈ nodes c A) m (knl_removeFreeQue p.1 m)).
  { intros x Hx. destruct (node_not_free A S x Hs HS Hx). apply Hu; [by eapply node_pos|done|done]. }
  exists S'. split_and!; [done| |done| |done].
  - split; try done.
    + eapply mask_keep; [|exact Hr]. intros x Hx. by destruct (Hk x Hx) as [-> ->].
    + unfold inuse. destruct (Hk (hc_end c)) as [_ ->]; [apply end_node|done].
    + intros Hi. unfold inuse. destruct (Hk aqh) as [_ ->]; [apply elem_of_nodes; by left|by apply Hh].
    + rewrite HP in Hnd. by apply NoDup_cons in Hnd as [_ ?].
    + intros q Hq. apply HS. rewrite HP. by right.
  - intros x (? & _ & ? & ?). by apply Hu.
Qed.

(** Entering an area into the free queue. *)
Lemma append_st m A S p :
  heap_st m A S → p ∈ A → p ∉ S →
  let m' := append_at (hc_im c) (hdr c p.1) p.1 (asize p) m in
  heap_st m' A (p :: S) ∧
  (∀ x, x ∈ nodes c A → qnext m' x = qnext m x ∧ inuse m' x = if decide (hdr c p.1 = x) then false else inuse m x) ∧
  kept (outside A (p :: S)) m m'.
Proof.
  intros Hst Hp HpS m'. pose proof (clr_flag_st _ _ _ _ Hst Hp) as Hst1.
  destruct Hst as [Hs Hr He Hh Hnd HS Hf].
  assert (Hnd' : NoDup (p :: S)) by (by apply NoDup_cons).
  assert (HS' : ∀ q, q ∈ p :: S → q ∈ A) by (intros q [->|Hq]%elem_of_cons; auto).
  destruct (hdr_ctl A p Hs Hp) as (H0 & Hfq & Hne & Hnh & _).
  destruct (append_free_spec (hc_im c) m (hdr c p.1) p S Hf (areas_apart A _ Hs Hnd' HS') Hfq) as [Hf' Hu]; [|done|].
  { intros q Hq. by apply (node_not_free A (p :: S) _ Hs HS' (hdr_node A p Hp)). }
  fold m' in Hf', Hu.
  assert (Hk : kept (λ x, x ∈ nodes c A) (clrAreaFlag (hdr c p.1) AREA_USE m) m').
  { intros x Hx. destruct (node_not_free A (p :: S) x Hs HS' Hx). apply Hu; [by eapply node_pos|done|done]. }
  destruct Hst1 as [_ Hr1 He1 Hh1 _ _ _]. split_and!.
  - split; try done.
    + eapply mask_keep; [|exact Hr1]. intros x Hx. by destruct (Hk x Hx) as [-> ->].
    + unfold inuse. destruct (Hk (hc_end c)) as [_ ->]; [apply end_node|done].
    + intros Hi. unfold inuse. destruct (Hk aqh) as [_ ->]; [apply elem_of_nodes; by left|by apply Hh1].
  - intros x Hx. destruct (Hk x Hx) as [Hn Hpr]. split; [by rewrite Hn|].
    unfold inuse at 1. rewrite Hpr. apply inuse_clr.
  - intros x (? & Hx & ? & ?). destruct (Hu x) as [-> ->]; [done|done|done|]. unfold clrAreaFlag. simpl.
    assert (hdr c p.1 ≠ x); [|by upd_simpl]. intros <-. by apply Hx, hdr_node.
Qed.

(** *** Neighbours *)

Definition next_node (A2 : list area) : Z := hd (hc_end c) ((λ p, hdr c p.1) <$> A2).

Lemma nodes_next A2 : ∃ l, ((λ p, hdr c p.1) <$> A2) ++ [hc_end c] = next_node A2 :: l.
Proof. unfold next_node. destruct A2; simpl; eauto. Qed.

Lemma area_next m A1 p A2 S :
  heap_st m (A1 ++ p :: A2) S → qnext m (hdr c p.1) = next_node A2 ∧ Mask (qprev m (next_node A2)) = hdr c p.1.
Proof.
  intros Hst. pose proof (st_ring _ _ _ Hst) as Hr.
  destruct (nodes_split A1 p A2) as (l1 & l2 & E & E2 & _). rewrite E in Hr.
  destruct (nodes_next A2) as [l El]. rewrite El in E2. rewrite E2 in Hr.
  by destruct (ringl_links _ _ _ _ Hr) as [Hn Hp].
Qed.

(** The node before an area: the header of the area before it, or a node in use. *)
Lemma area_prev m A1 p A2 S :
  heap_st m (A1 ++ p :: A2) S →
  match last A1 with
  | Some q => Mask (qprev m (hdr c p.1)) = hdr c q.1
  | None => inuse m (Mask (qprev m (hdr c p.1))) = true
  end.
Proof.
  intros Hst. destruct A1 as [|q A1 _] using rev_ind; simpl.
  - pose proof (st_ring _ _ _ Hst) as Hr. unfold nodes in Hr. simpl in Hr.
    destruct (hc_in c) eqn:Hi; simpl in Hr.
    + destruct Hr as [_ Hr]. rewrite <- (app_nil_r (_ ++ [hc_end c])) in Hr.
      pose proof (ring_prev (mask m) (hdr c p.1) (((λ p, hdr c p.1) <$> A2) ++ [hc_end c]) []) as Hp.
      rewrite last_snoc in Hp. simpl in Hp. rewrite Hp; [apply (st_end _ _ _ Hst)|].
      pose proof (st_ring _ _ _ Hst) as Hr'. unfold nodes in Hr'. rewrite Hi in Hr'. simpl in Hr'. by rewrite app_nil_r.
    + pose proof (ring_prev (mask m) aqh [] _ Hr) as Hp. simpl in Hp. rewrite Hp. by apply (st_head _ _ _ Hst).
  - rewrite last_snoc. rewrite <- app_assoc in Hst. destruct (area_next _ _ _ _ _ Hst) as [_ Hp]. exact Hp.
Qed.

Lemma hdr_after A1 p A2 q A3 : tiled (A1 ++ p :: A2 ++ q :: A3) → hdr c q.1 = q.1 - 8.
Proof.
  intros Hs. unfold hdr. destruct (Z.eqb_spec q.1 (hc_top c)) as [E|]; [|by rewrite andb_false_r].
  exfalso. destruct (seg_order _ A1 p (A2 ++ q :: A3) _ q Hs) as [_ Hq].
  destruct (seg_in _ _ _ p Hs) as (? & ? & _); [apply elem_of_app; right; left|].
  assert (p.2 + 8 <= q.1); [|lia]. apply Hq, elem_of_app. right. left.
Qed.

(** *** Splitting an area *)

Lemma seg_divide lo A1 p A2 e n :
  seg lo (A1 ++ p :: A2) e → 16 <= n → n + 24 <= asize p → (8 | n) →
  seg lo (A1 ++ (p.1, p.1 + n) :: (p.1 + n + 8, p.2) :: A2) e.
Proof.
  intros (x & H1 & H2)%seg_app ? ? Hn. apply seg_app. exists x. split; [done|].
  simpl in *. unfold asize in *. simpl. destruct H2 as (? & ? & H8 & ?). split_and!; try (lia || done).
  - by replace (p.1 + n - p.1) with n by lia.
  - replace (p.2 - (p.1 + n + 8)) with ((p.2 - p.1) - (n + 8)) by lia.
    apply Z.divide_sub_r; [done|]. apply Z.divide_add_r; [done|]. by exists 1.
Qed.

Lemma next_node_in A1 p A2 : next_node A2 ∈ nodes c (A1 ++ p :: A2).
Proof.
  destruct (nodes_split A1 p A2) as (l1 & l2 & -> & -> & _). destruct (nodes_next A2) as [l ->].
  apply elem_of_app. right. right. left.
Qed.

(** The nodes when the area [p] is one, and when it is two areas that meet at [e]. *)
Lemma divide_nodes A1 p A2 e :
  tiled (A1 ++ (p.1, e) :: (e + 8, p.2) :: A2) →
  ∃ l1 l2, nodes c (A1 ++ p :: A2) = l1 ++ hdr c p.1 :: l2 ∧
    nodes c (A1 ++ (p.1, e) :: (e + 8, p.2) :: A2) = l1 ++ hdr c p.1 :: e :: l2 ∧ next_node A2 ∈ l2.
Proof.
  intros Hs. destruct (nodes_split A1 p A2) as (l1 & l2 & -> & -> & ->). eexists _, _. split; [done|].
  split; [|destruct (nodes_next A2) as [l ->]; left].
  unfold nodes. rewrite fmap_app, <- !app_assoc. rewrite !fmap_cons. simpl.
  assert (hdr c (e + 8) = e) as ->; [|by rewrite <- ?app_assoc].
  pose proof (hdr_after A1 (p.1, e) [] (e + 8, p.2) A2 Hs) as E. simpl in E. lia.
Qed.

Lemma divide_elem (A1 : list area) p A2 q r1 r2 : q ∈ A1 ++ p :: A2 → q ≠ p → q ∈ A1 ++ r1 :: r2 :: A2.
Proof. rewrite !elem_of_app, !elem_of_cons. tauto. Qed.

Lemma divide_st m A1 p A2 S n :
  let A := A1 ++ p :: A2 in
  let A' := A1 ++ (p.1, p.1 + n) :: (p.1 + n + 8, p.2) :: A2 in
  let m' := knl_insertAreaQue (hdr c p.1) (p.1 + n) m in
  heap_st m A S → p ∉ S → 16 <= n → n + 24 <= asize p → (8 | n) →
  heap_st m' A' S ∧ (∀ x, inuse m' x = if decide (x = p.1 + n) then false else inuse m x) ∧
  kept (λ x, x ∉ nodes c A') m m'.
Proof.
  intros A A' m' Hst HpS H16 H24 H8. destruct (Hst) as [Hs Hr He Hh Hnd HS Hf].
  pose proof (seg_divide _ _ _ _ _ _ Hs H16 H24 H8) as Hs'.
  assert (HpA : p ∈ A) by (apply elem_of_app; right; left).
  destruct (seg_in _ _ _ _ Hs HpA) as (? & ? & ? & _). unfold asize in *.
  assert (Hb : p.1 <= p.1 + n < p.2) by lia.
  assert (Hen : p.1 + n ∉ nodes c A) by (by eapply body_not_node).
  destruct (hdr_ctl A p Hs HpA) as (_ & _ & _ & _ & Hev).
  destruct (area_next _ _ _ _ _ Hst) as [Hn Hp].
  pose proof (next_node_in A1 p A2) as Hnn.
  assert (Hee : Z.even (p.1 + n) = true).
  { destruct (seg_aligned _ _ _ _ Hs HpA) as [k Hk], H8 as [j ->]. destruct (hc_even c Hc) as [Ht _].
    replace (p.1 + j * 8) with (hc_top c + 2 * (4 * k + 4 * j)) by lia. by rewrite Z.even_add, Ht, Z.even_mul. }
  assert (Hm : ∀ x, _) by (intros x; exact (insertAreaQue_masked (hdr c p.1) (p.1 + n) m x
    (hdr_body A p p _ Hs HpA HpA Hb) ltac:(intros E; apply Hen; by rewrite <- E, Hn) ltac:(by rewrite Hn) Hee)).
  fold m' in Hm.
  pose proof (divide_nodes A1 p A2 (p.1 + n) Hs') as Hnodes. fold A A' in Hnodes.
  assert (Hsub : ∀ x, x ∈ nodes c A → x ∈ nodes c A').
  { destruct Hnodes as (l1 & l2 & -> & -> & _). intros x. rewrite !elem_of_app, !elem_of_cons. tauto. }
  assert (Hk : kept (λ x, x ∉ nodes c A') m m').
  { intros x Hx. assert (x ≠ p.1 + n ∧ x ≠ hdr c p.1 ∧ x ≠ next_node A2) as (? & ? & ?).
    { split_and!; intros ->; apply Hx; [|by apply Hsub, hdr_node|by apply Hsub].
      destruct Hnodes as (l1 & l2 & _ & -> & _). apply elem_of_app. right. right. left. }
    apply insertAreaQue_other; [by apply (hdr_body A p p)|done|done|by rewrite Hn]. }
  split_and!; [|apply Hm|done]. split; try done.
  - destruct Hnodes as (l1 & l2 & E & -> & _). rewrite E in Hr, Hen.
    eapply ringl_frame; [|by apply ringl_insert]. intros x _. split; apply Hm.
  - destruct (Hm (hc_end c)) as (_ & _ & ->). rewrite decide_False; [done|]. intros E. apply Hen. rewrite <- E. apply end_node.
  - intros Hi. destruct (Hm aqh) as (_ & _ & ->). rewrite decide_False; [by apply Hh|].
    intros E. apply Hen. rewrite <- E. apply elem_of_nodes. by left.
  - intros q Hq. eapply divide_elem; [by apply HS|by intros ->].
  - eapply (nodes_keep_free A'); [done| |done|done].
    intros q Hq. eapply divide_elem; [by apply HS|by intros ->].
Qed.

(** *** Joining two areas *)

Lemma join_st m A1 p q A2 S :
  let A := A1 ++ p :: q :: A2 in
  let A' := A1 ++ (p.1, q.2) :: A2 in
  let m' := knl_removeAreaQue (hdr c q.1) m in
  heap_st m A S → p ∉ S → q ∉ S →
  q.1 = p.2 + 8 ∧ heap_st m' A' S ∧ (∀ x, inuse m' x = inuse m x) ∧ kept (λ x, x ∉ nodes c A) m m'.
Proof.
  intros A A' m' Hst HpS HqS. destruct (Hst) as [Hs Hr He Hh Hnd HS Hf].
  assert (Hpq : q.1 = p.2 + 8 ∧ tiled A').
  { unfold A, A' in *. apply seg_app in Hs as (x & H1 & (? & ? & ? & ? & ? & ? & Hs)). split; [done|].
    apply seg_app. exists x. split; [done|]. simpl. unfold asize in *. simpl. split_and!; [done|lia| |done].
    replace (q.2 - p.1) with ((p.2 - p.1) + 8 + (q.2 - q.1)) by lia.
    apply Z.divide_add_r; [apply Z.divide_add_r; [done|by exists 1]|done]. }
  destruct Hpq as [Hq1 Hs']. split; [done|].
  assert (HA : A = A1 ++ (p.1, p.2) :: (p.2 + 8, q.2) :: A2).
  { unfold A. rewrite <- Hq1. by destruct p, q. }
  pose proof Hs as HsA. rewrite HA in HsA.
  destruct (divide_nodes A1 (p.1, q.2) A2 p.2 HsA) as (l1 & l2 & E' & E & Hnx).
  cbn [fst snd] in E, E'. rewrite <- HA in E. fold A' in E'.
  assert (Hhq : hdr c q.1 = p.2).
  { rewrite (hdr_after A1 p [] q A2 Hs). lia. }
  rewrite E in Hr. pose proof (ringl_NoDup _ _ Hr) as Hnl.
  apply NoDup_app in Hnl as (_ & _ & [Hn1 [Hn2 _]%NoDup_cons]%NoDup_cons).
  destruct (area_next _ A1 p (q :: A2) _ Hst) as [Hpn Hqp]. change (next_node (q :: A2)) with (hdr c q.1) in *.
  destruct (area_next m (A1 ++ [p]) q A2 S) as [Hqn _]; [by rewrite <- app_assoc|].
  subst m'. rewrite Hhq in *. set (m' := knl_removeAreaQue p.2 m).
  assert (Hm : ∀ x, _) by (intros x; exact (removeAreaQue_masked p.2 m x
    ltac:(rewrite Hqn; intros E2; by rewrite E2 in Hnx) ltac:(rewrite Hqp; intros E2; apply Hn1; rewrite E2; left))).
  fold m' in Hm.
  assert (Hk : kept (λ x, x ∉ nodes c A) m m').
  { intros x Hx. rewrite E in Hx. rewrite elem_of_app, !elem_of_cons in Hx.
    assert (hdr c p.1 ≠ x ∧ next_node A2 ≠ x) as [? ?] by (split; intros <-; tauto).
    unfold m', knl_removeAreaQue. cbv zeta. unfold set_qnext, set_qprev. cbn [qnext qprev]. rewrite Hqp.
    rewrite (fn_lookup_insert_ne _ (hdr c p.1) p.2), Hqn; [by upd_simpl|]. intros E2. apply Hn1. rewrite E2. left. }
  split_and!; [|apply Hm|done]. split; try done.
  - rewrite E'. eapply ringl_frame; [|by apply (ringl_remove (mask m) l1 (hdr c p.1) p.2 l2)].
    intros x _. split; apply Hm.
  - destruct (Hm (hc_end c)) as (_ & _ & ->). done.
  - intros Hi. destruct (Hm aqh) as (_ & _ & ->). by apply Hh.
  - intros r Hr'. specialize (HS r Hr'). unfold A, A' in *. rewrite elem_of_app, !elem_of_cons in HS.
    rewrite elem_of_app, elem_of_cons. destruct HS as [|[->|[->|]]]; [tauto|done|done|tauto].
  - eapply (nodes_keep_free A); done.
Qed.

(** ** Used and free areas *)

Definition sel (b : bool) (m : qmem Z) (A : list area) : list area :=
  filter (λ p, inuse m (hdr c p.1) = b) A.
Definition fl (m : qmem Z) (A : list area) : list bool := (λ p, inuse m (hdr c p.1)) <$> A.

(** No two neighbours are free. *)
Fixpoint nad (l : list bool) : Prop :=
  match l with
  | b :: l' => (b = false → head l' ≠ Some false) ∧ nad l'
  | [] => True
  end.

Lemma nad_app l1 l2 : nad (l1 ++ l2) ↔ nad l1 ∧ nad l2 ∧ (last l1 = Some false → head l2 ≠ Some false).
Proof.
  induction l1 as [|b l1 IH]; simpl; [naive_solver|].
  rewrite IH, last_cons. destruct l1 as [|b' l1]; simpl; [naive_solver|].
  destruct (last (b' :: l1)) eqn:E; [naive_solver|]. by apply last_None in E.
Qed.

(** The areas [A] are a heap: the free queue holds the areas not in use, and free
    neighbours have been merged. *)
Definition heap_ok (m : qmem Z) (A : list area) : Prop :=
  heap_st m A (sel false m A) ∧ nad (fl m A).

Lemma sel_app b m A1 A2 : sel b m (A1 ++ A2) = sel b m A1 ++ sel b m A2.
Proof. unfold sel. by rewrite filter_app. Qed.

Lemma sel_cons b m p A :
  sel b m (p :: A) = if decide (inuse m (hdr c p.1) = b) then p :: sel b m A else sel b m A.
Proof. unfold sel. by rewrite filter_cons. Qed.

Lemma fl_app m A1 A2 : fl m (A1 ++ A2) = fl m A1 ++ fl m A2.
Proof. apply fmap_app. Qed.

Lemma fl_cons m p A : fl m (p :: A) = inuse m (hdr c p.1) :: fl m A.
Proof. done. Qed.

Lemma elem_of_sel b m A p : p ∈ sel b m A ↔ inuse m (hdr c p.1) = b ∧ p ∈ A.
Proof. unfold sel. by rewrite list_elem_of_filter. Qed.

Lemma flags_ext m m' A :
  (∀ p, p ∈ A → inuse m' (hdr c p.1) = inuse m (hdr c p.1)) → fl m' A = fl m A ∧ ∀ b, sel b m' A = sel b m A.
Proof.
  intros H. split.
  - apply list_fmap_ext. intros i p Hp. apply H. by eapply list_elem_of_lookup_2.
  - intros b. induction A as [|p A IH]; [done|]. rewrite !sel_cons, H by left. rewrite IH; [done|].
    intros q Hq. apply H. by right.
Qed.

Lemma heap_st_perm m A S S' : S ≡ₚ S' → heap_st m A S → heap_st m A S'.
Proof.
  intros HP [? ? ? ? ? HS ?]. split; try done; [by rewrite <- HP| |by rewrite <- HP].
  intros p. rewrite <- HP. apply HS.
Qed.

Lemma hdr_inj m A S p q : heap_st m A S → p ∈ A → q ∈ A → hdr c p.1 = hdr c q.1 → p = q.
Proof.
  intros Hst (A1 & A2 & ->)%list_elem_of_split Hq E. pose proof (ringl_NoDup _ _ (st_ring _ _ _ Hst)) as Hnd.
  destruct (nodes_split A1 p A2) as (l1 & l2 & En & E2 & E1). rewrite En in Hnd.
  apply NoDup_app in Hnd as (_ & Hd & [Hn _]%NoDup_cons).
  apply elem_of_app in Hq as [Hq|[->|Hq]%elem_of_cons]; [|done|]; exfalso.
  - apply (Hd (hdr c q.1)); [|rewrite E; left]. rewrite E1. apply elem_of_app. right.
    apply list_elem_of_fmap. by exists q.
  - apply Hn. rewrite E, E2. apply elem_of_app. left. apply list_elem_of_fmap. by exists q.
Qed.

(** The cells of the used areas. *)
Definition in_blocks (m : qmem Z) (A : list area) (x : Z) : Prop := ∃ q, q ∈ sel true m A ∧ q.1 <= x < q.2.

Lemma kept_trans P m1 m2 m3 : kept P m1 m2 → kept P m2 m3 → kept P m1 m3.
Proof. intros H1 H2 x Hx. destruct (H2 x Hx) as [-> ->]. by apply H1. Qed.

Lemma kept_weaken (P P' : Z → Prop) m m' : (∀ x, P' x → P x) → kept P m m' → kept P' m m'.
Proof. intros HP H x Hx. apply H, HP, Hx. Qed.

(** ** Taking and returning areas *)

(** The common shape of [knl_Imalloc] and [knl_get_blk]; [append] registers the rest
    of a divided area. *)
Definition get_area (append : Z → qmem Z → qmem Z) (size : Z) (m : qmem Z) : Z * qmem Z :=
  let q := knl_searchFreeArea (hc_im c) size m in
  if q =? fqh then (NULL, m)
  else
    let m := knl_removeFreeQue q m in
    let aq := hdr c q in
    let m :=
      if MIN_FRAGMENT + 8 <=? u32 (FreeSize q m - size) then
        let aq2 := u32 (q + size) in
        let m := knl_insertAreaQue aq aq2 m in
        append aq2 m
      else m in
    (q, setAreaFlag aq AREA_USE m).

(** The common shape of [knl_Ifree] and [knl_rel_blk]; [body] is the body of a header. *)
Definition merge_after (aq : Z) (m : qmem Z) : qmem Z :=
  if negb (chkAreaFlag (qnext m aq) AREA_USE m) then
    let m := knl_removeFreeQue (qnext m aq + 8) m in
    knl_removeAreaQue (qnext m aq) m
  else m.

Definition merge_before (body : Z → Z) (aq : Z) (m : qmem Z) : Z * qmem Z :=
  if negb (chkAreaFlag (qprev m aq) AREA_USE m) then
    let aq := qprev m aq in
    let m := knl_removeFreeQue (body aq) m in
    (aq, knl_removeAreaQue (qnext m aq) m)
  else (aq, m).

Definition rel_area (body : Z → Z) (append : Z → qmem Z → qmem Z) (ptr : Z) (m : qmem Z) : qmem Z :=
  let aq := hdr c ptr in
  let m := clrAreaFlag aq AREA_USE m in
  let m := merge_after aq m in
  let '(aq, m) := merge_before body aq m in
  append aq m.

Lemma set_flag_kept A p m m' :
  p ∈ A → m' = setAreaFlag (hdr c p.1) AREA_USE m ∨ m' = clrAreaFlag (hdr c p.1) AREA_USE m →
  kept (λ x, x ∉ nodes c A) m m'.
Proof.
  intros Hp Hm x Hx. assert (hdr c p.1 ≠ x) by (intros <-; by apply Hx, hdr_node).
  destruct Hm as [->| ->]; unfold setAreaFlag, clrAreaFlag; simpl; by upd_simpl.
Qed.

(** The cells of used areas are outside of everything that is written. *)
Lemma blocks_outside m A A' S x :
  tiled A' → (∀ q, q ∈ S → q ∈ A') → (∀ q, q ∈ sel true m A → q ∈ A' ∧ q ∉ S) →
  in_blocks m A x → outside A' S x.
Proof.
  intros Hs HS HA (q & Hq & Hx). destruct (HA q Hq). by eapply body_outside.
Qed.

Lemma sel_mid b m A1 p A2 : inuse m (hdr c p.1) = b → sel b m (A1 ++ p :: A2) = sel b m A1 ++ p :: sel b m A2.
Proof. intros E. by rewrite sel_app, sel_cons, decide_True. Qed.

Lemma sel_mid_not b m A1 p A2 : inuse m (hdr c p.1) ≠ b → sel b m (A1 ++ p :: A2) = sel b m A1 ++ sel b m A2.
Proof. intros E. by rewrite sel_app, sel_cons, decide_False. Qed.

Lemma sel_disjoint m A p : p ∈ sel true m A → p ∉ sel false m A.
Proof. rewrite !elem_of_sel. intros [E _] [E' _]. congruence. Qed.

(** No free area is larger than the free areas there were. *)
Definition shrunk (m : qmem Z) (A : list area) (m' : qmem Z) (A' : list area) : Prop :=
  ∀ q', q' ∈ sel false m' A' → ∃ q, q ∈ sel false m A ∧ asize q' <= asize q.

(** An area that fits without a rest is marked as it is. *)
Lemma take_whole m A1 p A2 :
  let A := A1 ++ p :: A2 in
  heap_ok m A → inuse m (hdr c p.1) = false →
  let m' := setAreaFlag (hdr c p.1) AREA_USE (knl_removeFreeQue p.1 m) in
  heap_ok m' A ∧ sel true m' A ≡ₚ p :: sel true m A ∧ kept (in_blocks m A) m m' ∧ shrunk m A m' A.
Proof.
  intros A [Hst Hnad] Hp m'. assert (HpA : p ∈ A) by (apply elem_of_app; right; left).
  assert (HpS : p ∈ sel false m A) by (by apply elem_of_sel).
  destruct (remove_free_st m A _ p Hst HpS) as (S' & HP & Hst1 & Hk1 & Ho1 & _).
  pose proof (set_flag_st _ _ _ _ Hst1 HpA) as Hst2. fold m' in Hst2.
  assert (Hfl : ∀ q, q ∈ A → inuse m' (hdr c q.1) = if decide (hdr c p.1 = hdr c q.1) then true else inuse m (hdr c q.1)).
  { intros q Hq. unfold m'. rewrite inuse_set. case_decide; [done|]. unfold inuse.
    destruct (Hk1 (hdr c q.1)) as [_ ->]; [by apply hdr_node|done]. }
  assert (Hne : ∀ q, q ∈ A1 ++ A2 → q ∈ A ∧ hdr c p.1 ≠ hdr c q.1).
  { intros q Hq. assert (q ∈ A) by (unfold A; rewrite elem_of_app, elem_of_cons in *; tauto). split; [done|].
    intros E. pose proof (hdr_inj m A _ p q Hst HpA ltac:(done) E) as <-.
    pose proof (seg_NoDup _ _ _ (st_seg _ _ _ Hst)) as Hnd. by apply NoDup_mid in Hnd as [? _]. }
  assert (Hsame : ∀ q, q ∈ A1 ++ A2 → inuse m' (hdr c q.1) = inuse m (hdr c q.1)).
  { intros q Hq. destruct (Hne q Hq). by rewrite Hfl, decide_False. }
  destruct (flags_ext m m' A1) as [Hf1 Hs1]; [intros; apply Hsame, elem_of_app; by left|].
  destruct (flags_ext m m' A2) as [Hf2 Hs2]; [intros; apply Hsame, elem_of_app; by right|].
  assert (Hp' : inuse m' (hdr c p.1) = true) by (by rewrite Hfl, decide_True).
  unfold A in *. split_and!.
  - split.
    + eapply heap_st_perm; [|exact Hst2]. rewrite sel_mid_not, Hs1, Hs2 by congruence.
      rewrite sel_mid in HP by done. rewrite <- Permutation_middle in HP. by apply Permutation_cons_inv in HP.
    + rewrite fl_app, fl_cons in Hnad |- *. rewrite Hf1, Hf2, Hp'.
      rewrite nad_app in Hnad |- *. simpl in *. naive_solver.
  - rewrite sel_mid, Hs1, Hs2 by done. rewrite (sel_mid_not _ m) by congruence. by rewrite <- Permutation_middle.
  - eapply kept_trans.
    + eapply kept_weaken; [|exact Ho1]. intros x. apply blocks_outside; [exact (st_seg _ _ _ Hst)|exact (st_sub _ _ _ Hst)|].
      intros q Hq. split; [by apply elem_of_sel in Hq as [_ ?]|by apply sel_disjoint].
    + eapply kept_weaken; [|eapply set_flag_kept; [exact HpA|by left]].
      intros x (q & Hq & Hx). apply elem_of_sel in Hq as [_ Hq]. exact (body_not_node _ q x (st_seg _ _ _ Hst) Hq Hx).
  - intros q. rewrite (sel_mid_not _ m'), (sel_mid _ m), Hs1, Hs2 by congruence. intros Hq. exists q. split; [|lia].
    rewrite elem_of_app, elem_of_cons in *. tauto.
Qed.

(** [append] registers an area of any heap that is not the first one under [hc_in]. *)
Definition registers (append : Z → qmem Z → qmem Z) (P : area → Prop) : Prop :=
  ∀ m A S p, heap_st m A S → p ∈ A → P p →
    append (hdr c p.1) m = append_at (hc_im c) (hdr c p.1) p.1 (asize p) m.

Definition not_first (p : area) : Prop := hdr c p.1 = p.1 - 8.

(** The cells of the areas other than [p] that are not in [S]. *)
Definition in_others (A S : list area) (p : area) (x : Z) : Prop :=
  ∃ q, q ∈ A ∧ q ≠ p ∧ q ∉ S ∧ q.1 <= x < q.2.

(** Dividing an area that is in no queue, and registering the rest. *)
Lemma divide_register append m A1 p A2 S n :
  let A := A1 ++ p :: A2 in
  let r := (p.1 + n + 8, p.2) in
  let A' := A1 ++ (p.1, p.1 + n) :: r :: A2 in
  registers append not_first →
  heap_st m A S → p ∉ S → 16 <= n → n + 24 <= asize p → (8 | n) →
  let m' := append (p.1 + n) (knl_insertAreaQue (hdr c p.1) (p.1 + n) m) in
  heap_st m' A' (r :: S) ∧ inuse m' (hdr c r.1) = false ∧ hdr c r.1 ≠ hdr c p.1 ∧
  (∀ q, q ∈ A1 ++ A2 → inuse m' (hdr c q.1) = inuse m (hdr c q.1)) ∧ kept (in_others A S p) m m'.
Proof.
  intros A r A' Happ Hst HpS H16 H24 H8 m'. pose proof (st_seg _ _ _ Hst) as Hs.
  assert (HpA : p ∈ A) by (apply elem_of_app; right; left).
  destruct (divide_st m A1 p A2 S n Hst HpS H16 H24 H8) as (Hst2 & Hi2 & Hk2).
  set (m2 := knl_insertAreaQue (hdr c p.1) (p.1 + n) m) in *. fold A' in Hst2, Hk2.
  pose proof (st_seg _ _ _ Hst2) as Hs2.
  assert (HrA : r ∈ A') by (apply elem_of_app; right; right; left).
  assert (Hrh : hdr c r.1 = p.1 + n).
  { rewrite (hdr_after A1 (p.1, p.1 + n) [] r A2 Hs2). simpl. lia. }
  assert (HrnA : r ∉ A).
  { intros Hin. destruct (decide (r = p)) as [E|Hne]; [apply (f_equal fst) in E; simpl in E; lia|].
    destruct (seg_in _ _ _ p Hs HpA) as (? & ? & _).
    destruct (seg_apart _ _ _ r p Hs Hin HpA Hne) as [E|E]; simpl in E; unfold asize in *; lia. }
  assert (HrS : r ∉ S) by (intros Hin; by apply HrnA, (st_sub _ _ _ Hst)).
  assert (Happ' : m' = append_at (hc_im c) (hdr c r.1) r.1 (asize r) m2).
  { unfold m'. fold m2. rewrite <- Hrh at 1. apply (Happ m2 A' S); [done|done|].
    unfold not_first. rewrite Hrh. simpl. lia. }
  destruct (append_st m2 A' S r Hst2 HrA HrS) as (Hst3 & Hn3 & Ho3). rewrite <- Happ' in Hst3, Hn3, Ho3.
  split_and!; [done| | | |].
  - destruct (Hn3 (hdr c r.1)) as [_ ->]; [by apply hdr_node|]. by rewrite decide_True.
  - rewrite Hrh. intros E. apply (hdr_body A p p (p.1 + n) Hs HpA HpA); [unfold asize in *; lia|done].
  - intros q Hq. assert (q ∈ A') by (unfold A'; rewrite elem_of_app, !elem_of_cons in *; tauto).
    assert (hdr c r.1 ≠ hdr c q.1).
    { intros E. rewrite <- (hdr_inj m2 A' _ r q Hst2 HrA ltac:(done) E) in Hq. apply HrnA.
      unfold A. rewrite elem_of_app, elem_of_cons in *. tauto. }
    destruct (Hn3 (hdr c q.1)) as [_ ->]; [by apply hdr_node|].
    by rewrite decide_False, Hi2, decide_False by congruence.
  - assert (Hb : ∀ x, in_others A S p x → outside A' (r :: S) x).
    { intros x (q & Hq & Hqp & HqS & Hx). eapply (body_outside A' (r :: S) q); [done|apply (st_sub _ _ _ Hst3)| | |done].
      - by eapply divide_elem.
      - rewrite not_elem_of_cons. split; [by intros ->|done]. }
    eapply kept_trans; [eapply kept_weaken; [|exact Hk2]|eapply kept_weaken; [|exact Ho3]]; [|done].
    intros x Hx. by destruct (Hb x Hx) as (_ & ? & _).
Qed.

(** An area that leaves a rest is divided. *)
Lemma take_part append m A1 p A2 n :
  let A := A1 ++ p :: A2 in
  let A' := A1 ++ (p.1, p.1 + n) :: (p.1 + n + 8, p.2) :: A2 in
  registers append not_first →
  heap_ok m A → inuse m (hdr c p.1) = false → 16 <= n → n + 24 <= asize p → (8 | n) →
  let m' := setAreaFlag (hdr c p.1) AREA_USE
              (append (p.1 + n) (knl_insertAreaQue (hdr c p.1) (p.1 + n) (knl_removeFreeQue p.1 m))) in
  heap_ok m' A' ∧ sel true m' A' ≡ₚ (p.1, p.1 + n) :: sel true m A ∧ kept (in_blocks m A) m m' ∧ shrunk m A m' A'.
Proof.
  intros A A' Happ [Hst Hnad] Hp H16 H24 H8 m'. assert (HpA : p ∈ A) by (apply elem_of_app; right; left).
  assert (HpS : p ∈ sel false m A) by (by apply elem_of_sel).
  destruct (remove_free_st m A _ p Hst HpS) as (S' & HP & Hst1 & Hk1 & Ho1 & _).
  set (m1 := knl_removeFreeQue p.1 m) in *.
  assert (HpS' : p ∉ S').
  { pose proof (st_nd _ _ _ Hst) as Hnd. rewrite HP in Hnd. by apply NoDup_cons in Hnd as [? _]. }
  destruct (divide_register append m1 A1 p A2 S' n Happ Hst1 HpS' H16 H24 H8) as (Hst3 & Hr3 & Hne & Hq3 & Hk3).
  set (m3 := append (p.1 + n) (knl_insertAreaQue (hdr c p.1) (p.1 + n) m1)) in *. fold A' in Hst3.
  assert (HqA' : (p.1, p.1 + n) ∈ A') by (apply elem_of_app; right; left).
  pose proof (set_flag_st _ _ _ (p.1, p.1 + n) Hst3 HqA') as Hst4. simpl in Hst4. fold m' in Hst4.
  assert (Hsame : ∀ q, q ∈ A1 ++ A2 → inuse m' (hdr c q.1) = inuse m (hdr c q.1)).
  { intros q Hq. assert (q ∈ A) by (unfold A; rewrite elem_of_app, elem_of_cons in *; tauto).
    assert (hdr c p.1 ≠ hdr c q.1).
    { intros E. rewrite <- (hdr_inj m A _ p q Hst HpA ltac:(done) E) in Hq.
      pose proof (seg_NoDup _ _ _ (st_seg _ _ _ Hst)) as HndA. by apply NoDup_mid in HndA as [? _]. }
    unfold m'. rewrite inuse_set, decide_False, Hq3 by done. unfold inuse.
    destruct (Hk1 (hdr c q.1)) as [_ ->]; [by apply hdr_node|done]. }
  set (r := (p.1 + n + 8, p.2)) in *.
  assert (Hr' : inuse m' (hdr c r.1) = false) by (unfold m'; by rewrite inuse_set, decide_False).
  assert (Hp' : inuse m' (hdr c p.1) = true) by (unfold m'; by rewrite inuse_set, decide_True).
  destruct (flags_ext m m' A1) as [Hf1 Hs1]; [intros; apply Hsame, elem_of_app; by left|].
  destruct (flags_ext m m' A2) as [Hf2 Hs2]; [intros; apply Hsame, elem_of_app; by right|].
  unfold A, A' in *. split_and!.
  - split.
    + eapply heap_st_perm; [|exact Hst4]. rewrite (sel_mid_not _ m') by (simpl; congruence).
      rewrite sel_cons, decide_True, Hs1, Hs2 by done. rewrite <- Permutation_middle. f_equiv.
      rewrite sel_mid in HP by done. rewrite <- Permutation_middle in HP. by apply Permutation_cons_inv in HP.
    + rewrite fl_app, fl_cons in Hnad. rewrite fl_app, !fl_cons. rewrite Hf1, Hf2, Hr'. cbn [fst]. rewrite Hp'.
      rewrite nad_app in Hnad |- *. simpl in *. naive_solver.
  - rewrite (sel_mid true m') by done. rewrite sel_cons, decide_False by congruence.
    rewrite Hs1, Hs2, (sel_mid_not _ m) by congruence. by rewrite <- Permutation_middle.
  - assert (Hb : ∀ x, in_blocks m (A1 ++ p :: A2) x →
      outside (A1 ++ p :: A2) (sel false m (A1 ++ p :: A2)) x ∧ in_others (A1 ++ p :: A2) S' p x ∧
      ∃ q, q ∈ A1 ++ (p.1, p.1 + n) :: r :: A2 ∧ q.1 <= x < q.2).
    { intros x (q & Hq & Hx). pose proof (sel_disjoint _ _ _ Hq) as Hn. apply elem_of_sel in Hq as [Hu Hq].
      assert (Hqp : q ≠ p) by congruence. split_and!.
      - exact (body_outside _ _ q x (st_seg _ _ _ Hst) (st_sub _ _ _ Hst) Hq Hn Hx).
      - rewrite HP in Hn. apply not_elem_of_cons in Hn as [_ ?]. by exists q.
      - exists q. split; [by eapply divide_elem|done]. }
    eapply kept_trans; [eapply kept_trans; [eapply kept_weaken; [|exact Ho1]|eapply kept_weaken; [|exact Hk3]]|
      eapply kept_weaken; [|eapply set_flag_kept; [exact HqA'|by left]]]; intros x Hx; destruct (Hb x Hx) as (? & ? & q & Hq & Hqx);
      [done|done|]. exact (body_not_node _ q x (st_seg _ _ _ Hst3) Hq Hqx).
  - intros q. rewrite (sel_mid_not _ m') by (simpl; congruence). rewrite sel_cons, decide_True by done.
    rewrite (sel_mid _ m), Hs1, Hs2 by done. rewrite !elem_of_app, elem_of_cons. intros [Hq|[->|Hq]].
    + exists q. rewrite elem_of_app. split; [by left|lia].
    + exists p. rewrite elem_of_app, elem_of_cons. split; [by right; left|]. unfold asize. simpl. lia.
    + exists q. rewrite elem_of_app, elem_of_cons. split; [by right; right|lia].
Qed.

(** What a request for [n] bytes does: NULL when no free area is large enough;
    otherwise a block of [n] bytes, or up to 23 more, at the start of the smallest free
    area that is large enough.  The other blocks stay, with their contents, and no free
    area has grown. *)
Definition got (n : Z) (m : qmem Z) (A : list area) (r : Z * qmem Z) : Prop :=
  (r = (NULL, m) ∧ Forall (λ p, asize p < n) (sel false m A)) ∨
  (∃ p hi A', p ∈ sel false m A ∧ n <= asize p ∧ Forall (λ q, n <= asize q → asize p <= asize q) (sel false m A) ∧
    r.1 = p.1 ∧ hi <= p.2 ∧ n <= hi - p.1 < n + 24 ∧
    heap_ok r.2 A' ∧ sel true r.2 A' ≡ₚ (p.1, hi) :: sel true m A ∧ kept (in_blocks m A) m r.2 ∧
    shrunk m A r.2 A').

Lemma get_area_spec append m A n :
  registers append not_first → heap_ok m A → 16 <= n < 2 ^ 31 → (8 | n) → got n m A (get_area append n m).
Proof.
  intros Happ Hok Hn H8. destruct Hok as [Hst Hnad].
  destruct (search_best (hc_im c) m (sel false m A) n (st_free _ _ _ Hst)) as [[E HF]|(p & Hp & E & Hsz & Hle & HF)].
  { apply (areas_apart A); [apply Hst|apply Hst|apply Hst]. }
  - left. unfold get_area. rewrite E, Z.eqb_refl. done.
  - right. pose proof Hp as [Hu HpA]%elem_of_sel. destruct (seg_in _ _ _ _ (st_seg _ _ _ Hst) HpA) as (? & ? & ? & _).
    destruct (body_cells A p p.1 (st_seg _ _ _ Hst) HpA) as (_ & Hpf & _); [lia|].
    destruct (remove_free_st m A _ p Hst Hp) as (_ & _ & _ & _ & _ & Hz). rewrite Hsz in Hz.
    unfold get_area. rewrite E, (proj2 (Z.eqb_neq _ _)) by done. cbv zeta. rewrite Hz. unfold MIN_FRAGMENT.
    pose proof (hc_small c Hc). pose proof (hc_max c Hc). pose proof (hc_pos c Hc). unfold asize in *.
    rewrite u32_small by lia. apply list_elem_of_split in HpA as (A1 & A2 & ->).
    exists p. destruct (Z.leb_spec (16 + 8) (p.2 - p.1 - n)).
    + destruct (take_part append m A1 p A2 n Happ (conj Hst Hnad) Hu) as (Hk1 & Hk2 & Hk3 & Hk4); [lia|unfold asize; lia|done|].
      rewrite u32_small by lia. exists (p.1 + n). eexists. split_and!; [done|lia|done|done|lia|lia|lia|exact Hk1|exact Hk2|exact Hk3|exact Hk4].
    + destruct (take_whole m A1 p A2 (conj Hst Hnad) Hu) as (Hk1 & Hk2 & Hk3 & Hk4).
      exists p.2. eexists. split_and!; [done|lia|done|done|lia|lia|lia|exact Hk1| |exact Hk3|exact Hk4].
      rewrite <- surjective_pairing. exact Hk2.
Qed.

(** *** Returning an area *)

(** One merge: the free area [q] behind [p] is taken out of the free queue and joined
    to [p], which is in no queue. *)
Lemma absorb_st m A1 p q A2 S r :
  let A := A1 ++ p :: q :: A2 in
  let A' := A1 ++ (p.1, q.2) :: A2 in
  heap_st m A S → r ∈ S → (r = p ∧ q ∉ S) ∨ (r = q ∧ p ∉ S) →
  let m' := knl_removeAreaQue (hdr c q.1) (knl_removeFreeQue r.1 m) in
  ∃ S', S ≡ₚ r :: S' ∧ heap_st m' A' S' ∧
    (∀ x, x ∈ A → inuse m' (hdr c x.1) = inuse m (hdr c x.1)) ∧
    qnext (knl_removeFreeQue r.1 m) (hdr c p.1) = hdr c q.1 ∧
    kept (λ x, x ∉ nodes c A ∧ outside A S x) m m'.
Proof.
  intros A A' Hst Hr Hpq m'. destruct (remove_free_st m A S r Hst Hr) as (S' & HP & Hst1 & Hk1 & Ho1 & _).
  set (m1 := knl_removeFreeQue r.1 m) in *.
  assert (Hn : p ∉ S' ∧ q ∉ S').
  { pose proof (st_nd _ _ _ Hst) as Hnd. rewrite HP in Hnd. apply NoDup_cons in Hnd as [Hn _].
    destruct Hpq as [[-> Hq]|[-> Hp]]; [rewrite HP, not_elem_of_cons in Hq|rewrite HP, not_elem_of_cons in Hp]; tauto. }
  destruct (join_st m1 A1 p q A2 S' Hst1) as (_ & Hst2 & Hi2 & Hk2); [tauto|tauto|].
  exists S'. split_and!; [done|done| | |].
  - intros x Hx. unfold m'. rewrite Hi2. unfold inuse. destruct (Hk1 (hdr c x.1)) as [_ ->]; [by apply hdr_node|done].
  - by destruct (area_next m1 A1 p (q :: A2) S' Hst1) as [? _].
  - eapply kept_trans; [eapply kept_weaken; [|exact Ho1]|eapply kept_weaken; [|exact Hk2]]; naive_solver.
Qed.

(** The heap while the area [p] is being returned: [p] is marked free, but not yet in
    the free queue. *)
Definition returning (m : qmem Z) (A1 : list area) (p : area) (A2 : list area) : Prop :=
  inuse m (hdr c p.1) = false ∧ heap_st m (A1 ++ p :: A2) (sel false m A1 ++ sel false m A2).

Lemma returning_outside m A1 p A2 x :
  returning m A1 p A2 → in_blocks m (A1 ++ p :: A2) x →
  x ∉ nodes c (A1 ++ p :: A2) ∧ outside (A1 ++ p :: A2) (sel false m A1 ++ sel false m A2) x.
Proof.
  intros [_ Hst] (q & Hq & Hx). pose proof (sel_disjoint _ _ _ Hq) as Hn. apply elem_of_sel in Hq as [Hu Hq].
  split; [exact (body_not_node _ q x (st_seg _ _ _ Hst) Hq Hx)|].
  eapply (body_outside _ _ q); [apply Hst|apply Hst|done| |done].
  intros Hin. rewrite <- sel_app in Hin. apply elem_of_sel in Hin as [? _]. congruence.
Qed.

Lemma returning_notin m A1 p A2 : returning m A1 p A2 → p ∉ sel false m A1 ++ sel false m A2.
Proof.
  intros [_ Hst]. pose proof (seg_NoDup _ _ _ (st_seg _ _ _ Hst)) as Hnd. apply NoDup_mid in Hnd as [Hn _].
  rewrite <- sel_app. intros [_ ?]%elem_of_sel. done.
Qed.

(** The areas of [A] keep their flags. *)
Definition flags_kept (m m' : qmem Z) (A : list area) : Prop :=
  ∀ p, p ∈ A → inuse m' (hdr c p.1) = inuse m (hdr c p.1).

Lemma merge_after_ok m A1 p A2 :
  returning m A1 p A2 → nad (fl m A2) →
  let m' := merge_after (hdr c p.1) m in
  ∃ p' A2', p'.1 = p.1 ∧ returning m' A1 p' A2' ∧ flags_kept m m' A1 ∧
    sel true m' A2' = sel true m A2 ∧ nad (fl m' A2') ∧ head (fl m' A2') ≠ Some false ∧
    kept (in_blocks m (A1 ++ p :: A2)) m m'.
Proof.
  intros Hret Hnad m'. pose proof Hret as [Hp Hst]. pose proof (returning_notin _ _ _ _ Hret) as Hpn.
  destruct (area_next _ _ _ _ _ Hst) as [Hn _].
  unfold m', merge_after. rewrite chkAreaFlag_inuse, Hn.
  destruct A2 as [|q A2]; unfold next_node; simpl hd.
  - rewrite (st_end _ _ _ Hst). simpl. exists p, []. by split_and!.
  - destruct (inuse m (hdr c q.1)) eqn:Hq; simpl negb.
    + exists p, (q :: A2). split_and!; try done. by rewrite fl_cons, Hq.
    + cbv zeta. rewrite (hdr_after A1 p [] q A2 (st_seg _ _ _ Hst)). replace (q.1 - 8 + 8) with q.1 by lia.
      assert (HqS : q ∈ sel false m A1 ++ sel false m (q :: A2)).
      { apply elem_of_app. right. rewrite sel_cons, decide_True by done. left. }
      destruct (absorb_st m A1 p q A2 _ q Hst HqS (or_intror (conj eq_refl Hpn))) as (S' & HP & Hst' & Hi & -> & Hk).
      set (m2 := knl_removeAreaQue (hdr c q.1) (knl_removeFreeQue q.1 m)) in *.
      assert (Hi' : flags_kept m m2 (A1 ++ A2)).
      { intros x Hx. apply Hi. rewrite elem_of_app, !elem_of_cons in *. tauto. }
      destruct (flags_ext m m2 A1) as [Hf1 Hs1]; [intros; apply Hi', elem_of_app; by left|].
      destruct (flags_ext m m2 A2) as [Hf2 Hs2]; [intros; apply Hi', elem_of_app; by right|].
      exists (p.1, q.2), A2. rewrite fl_cons, Hq in Hnad. destruct Hnad as [Hh Hnad]. rewrite Hf2, Hs2.
      split_and!; [done| | | |done|auto|].
      * split; [simpl; rewrite Hi; [done|apply elem_of_app; right; left]|]. rewrite Hs1, Hs2.
        eapply heap_st_perm; [|exact Hst']. rewrite sel_cons, decide_True in HP by done.
        rewrite <- Permutation_middle in HP. by apply Permutation_cons_inv in HP.
      * intros x Hx. apply Hi', elem_of_app. by left.
      * by rewrite sel_cons, decide_False by congruence.
      * eapply kept_weaken; [|exact Hk]. intros x. by apply returning_outside.
Qed.

Lemma merge_before_ok body m A1 p A2 :
  (∀ q, q ∈ A1 → body (hdr c q.1) = q.1) →
  returning m A1 p A2 → nad (fl m A1) →
  let r := merge_before body (hdr c p.1) m in
  ∃ p' A1', r.1 = hdr c p'.1 ∧ returning r.2 A1' p' A2 ∧ flags_kept m r.2 A2 ∧
    sel true r.2 A1' = sel true m A1 ∧ nad (fl r.2 A1') ∧ last (fl r.2 A1') ≠ Some false ∧
    kept (in_blocks m (A1 ++ p :: A2)) m r.2.
Proof.
  intros Hbody Hret Hnad. pose proof Hret as [Hp Hst]. pose proof (returning_notin _ _ _ _ Hret) as Hpn.
  pose proof (area_prev _ _ _ _ _ Hst) as Hpr.
  assert (Hev : Mask (qprev m (hdr c p.1)) = qprev m (hdr c p.1)).
  { apply Mask_even. unfold inuse in Hp. by rewrite <- Z.negb_odd, Hp. }
  rewrite Hev in Hpr. unfold merge_before. rewrite chkAreaFlag_inuse.
  destruct A1 as [|q A1 _] using rev_ind; [|rewrite last_snoc in Hpr; rewrite Hpr].
  - simpl in Hpr. rewrite Hpr. simpl. exists p, []. by split_and!.
  - destruct (inuse m (hdr c q.1)) eqn:Hq; simpl negb.
    + exists p, (A1 ++ [q]). split_and!; try done. rewrite fl_app, fl_cons. simpl. by rewrite last_snoc, Hq.
    + cbv zeta. rewrite Hbody by (apply elem_of_app; right; left).
      rewrite fl_app, fl_cons, Hq in Hnad. apply nad_app in Hnad as (Hnad & _ & Hl).
      rewrite sel_app, sel_cons, decide_True in Hst, Hpn by done. rewrite <- !app_assoc in Hst. simpl in Hst.
      assert (HqS : q ∈ sel false m A1 ++ q :: sel false m A2) by (apply elem_of_app; right; left).
      assert (Hpn' : p ∉ sel false m A1 ++ q :: sel false m A2) by (by rewrite <- !app_assoc in Hpn).
      destruct (absorb_st m A1 q p A2 _ q Hst HqS (or_introl (conj eq_refl Hpn'))) as (S' & HP & Hst' & Hi & -> & Hk).
      set (m2 := knl_removeAreaQue (hdr c p.1) (knl_removeFreeQue q.1 m)) in *.
      assert (Hi' : flags_kept m m2 (A1 ++ A2)).
      { intros x Hx. apply Hi. rewrite elem_of_app, !elem_of_cons in *. tauto. }
      destruct (flags_ext m m2 A1) as [Hf1 Hs1]; [intros; apply Hi', elem_of_app; by left|].
      destruct (flags_ext m m2 A2) as [Hf2 Hs2]; [intros; apply Hi', elem_of_app; by right|].
      exists (q.1, p.2), A1. simpl fst. simpl snd. rewrite Hf1, Hs1.
      split_and!; [done| | | |done| |].
      * split; [simpl; rewrite Hi; [done|apply elem_of_app; right; left]|]. rewrite Hs1, Hs2.
        eapply heap_st_perm; [|exact Hst']. rewrite <- Permutation_middle in HP. by apply Permutation_cons_inv in HP.
      * intros x Hx. apply Hi', elem_of_app. by right.
      * rewrite sel_app, sel_cons, decide_False by congruence. by rewrite app_nil_r.
      * intros E. by apply (Hl E).
      * eapply kept_weaken; [|exact Hk]. intros x Hx. destruct (returning_outside _ _ _ _ _ Hret Hx) as [H1 H2].
        rewrite <- !app_assoc in H1, H2. split; [exact H1|].
        rewrite sel_app, (sel_cons _ _ q), decide_True in H2 by done. by rewrite <- !app_assoc in H2.
Qed.

(** Marking a used area free begins its return. *)
Lemma begin_return m A1 p A2 :
  heap_ok m (A1 ++ p :: A2) → inuse m (hdr c p.1) = true →
  let m' := clrAreaFlag (hdr c p.1) AREA_USE m in
  returning m' A1 p A2 ∧ fl m' A1 = fl m A1 ∧ fl m' A2 = fl m A2 ∧
  (∀ b, sel b m' A1 = sel b m A1) ∧ (∀ b, sel b m' A2 = sel b m A2).
Proof.
  intros [Hst Hnad] Hp m'. assert (HpA : p ∈ A1 ++ p :: A2) by (apply elem_of_app; right; left).
  assert (Hsame : flags_kept m m' (A1 ++ A2)).
  { intros q Hq. assert (q ∈ A1 ++ p :: A2) by (rewrite elem_of_app, ?elem_of_cons in *; tauto).
    unfold m'. rewrite inuse_clr, decide_False; [done|].
    intros E. rewrite <- (hdr_inj m _ _ p q Hst HpA ltac:(done) E) in Hq.
    pose proof (seg_NoDup _ _ _ (st_seg _ _ _ Hst)) as HndA. by apply NoDup_mid in HndA as [? _]. }
  destruct (flags_ext m m' A1) as [Hf1 Hs1]; [intros; apply Hsame, elem_of_app; by left|].
  destruct (flags_ext m m' A2) as [Hf2 Hs2]; [intros; apply Hsame, elem_of_app; by right|].
  split_and!; try done. split; [unfold m'; by rewrite inuse_clr, decide_True|]. rewrite Hs1, Hs2.
  rewrite <- (sel_mid_not false m A1 p A2) by congruence. by apply clr_flag_st.
Qed.

(** Registering the area ends its return. *)
Lemma end_return append m A1 p A2 :
  registers append (λ _, True) → returning m A1 p A2 →
  nad (fl m A1) → nad (fl m A2) → last (fl m A1) ≠ Some false → head (fl m A2) ≠ Some false →
  let m' := append (hdr c p.1) m in
  heap_ok m' (A1 ++ p :: A2) ∧ sel true m' (A1 ++ p :: A2) = sel true m A1 ++ sel true m A2 ∧
  kept (in_blocks m (A1 ++ p :: A2)) m m'.
Proof.
  intros Happ Hret Hn1 Hn2 Hl Hh m'. pose proof Hret as [Hp Hst]. pose proof (returning_notin _ _ _ _ Hret) as Hpn.
  assert (HpA : p ∈ A1 ++ p :: A2) by (apply elem_of_app; right; left).
  destruct (append_st m _ _ p Hst HpA Hpn) as (Hst' & Hi & Ho).
  assert (Happ' : m' = append_at (hc_im c) (hdr c p.1) p.1 (asize p) m) by (by eapply Happ).
  rewrite <- Happ' in Hst', Hi, Ho.
  assert (Hsame : flags_kept m m' (A1 ++ p :: A2)).
  { intros q Hq. destruct (Hi (hdr c q.1)) as [_ ->]; [by apply hdr_node|]. case_decide as E; [|done]. by rewrite <- E. }
  destruct (flags_ext m m' A1) as [Hf1 Hs1]; [intros; apply Hsame, elem_of_app; by left|].
  destruct (flags_ext m m' A2) as [Hf2 Hs2]; [intros; apply Hsame, elem_of_app; by right; right|].
  assert (Hp' : inuse m' (hdr c p.1) = false) by (by rewrite Hsame).
  split_and!.
  - split.
    + eapply heap_st_perm; [|exact Hst']. rewrite sel_mid, Hs1, Hs2 by done. apply Permutation_middle.
    + rewrite fl_app, fl_cons, Hf1, Hf2, Hp'. rewrite nad_app. simpl. naive_solver.
  - rewrite sel_mid_not, Hs1, Hs2 by congruence. done.
  - eapply kept_weaken; [|exact Ho]. intros x (q & Hq & Hx). pose proof (sel_disjoint _ _ _ Hq) as Hn.
    apply elem_of_sel in Hq as [Hu Hq]. eapply (body_outside _ _ q); [apply Hst'|apply Hst'|done| |done].
    rewrite not_elem_of_cons. split; [congruence|]. rewrite <- sel_app. intros [? _]%elem_of_sel. congruence.
Qed.

(** The return of a block: exactly that block goes, the others stay with their
    contents. *)
Definition gave_back (m : qmem Z) (A : list area) (p : area) (m' : qmem Z) : Prop :=
  ∃ A', heap_ok m' A' ∧ sel true m A ≡ₚ p :: sel true m' A' ∧
    kept (λ x, ∃ q, q ∈ sel true m A ∧ q ≠ p ∧ q.1 <= x < q.2) m m'.

Lemma rel_area_spec body append m A p :
  (∀ A q, tiled A → q ∈ A → body (hdr c q.1) = q.1) → registers append (λ _, True) →
  heap_ok m A → p ∈ sel true m A → gave_back m A p (rel_area body append p.1 m).
Proof.
  intros Hbody Happ Hok Hp. pose proof Hp as [Hu HpA]%elem_of_sel.
  apply list_elem_of_split in HpA as (A1 & A2 & ->). unfold rel_area. cbv zeta.
  destruct (begin_return m A1 p A2 Hok Hu) as (Hret & Hf1 & Hf2 & Hs1 & Hs2).
  set (m1 := clrAreaFlag (hdr c p.1) AREA_USE m) in *. destruct Hok as [Hst Hnad].
  rewrite fl_app, fl_cons, Hu in Hnad. apply nad_app in Hnad as (Hn1 & [_ Hn2] & _).
  rewrite <- Hf1 in Hn1. rewrite <- Hf2 in Hn2.
  destruct (merge_after_ok m1 A1 p A2 Hret Hn2) as (p2 & A2' & Ep2 & Hret2 & Hk2 & Hb2 & Hna2 & Hh2 & Ho2).
  set (m2 := merge_after (hdr c p.1) m1) in *. destruct (flags_ext m1 m2 A1 Hk2) as [Hf1' Hs1']. rewrite <- Hf1' in Hn1.
  rewrite <- Ep2.
  destruct (merge_before_ok body m2 A1 p2 A2') as (p3 & A1' & Ep3 & Hret3 & Hk3 & Hb3 & Hna3 & Hl3 & Ho3); [|done|done|].
  { intros q Hq. apply (Hbody (A1 ++ p2 :: A2')); [apply Hret2|]. apply elem_of_app. by left. }
  destruct (merge_before body (hdr c p2.1) m2) as [aq m3]. simpl in Ep3, Hret3, Hk3, Hb3, Hna3, Hl3, Ho3. subst aq.
  destruct (flags_ext m2 m3 A2' Hk3) as [Hf3 Hs3]. rewrite <- Hf3 in Hna2, Hh2.
  destruct (end_return append m3 A1' p3 A2' Happ Hret3 Hna3 Hna2 Hl3 Hh2) as (Hok4 & Hb4 & Ho4).
  set (m4 := append (hdr c p3.1) m3) in *. exists (A1' ++ p3 :: A2'). split_and!; [done| |].
  - rewrite Hb4, Hb3, Hs3, Hb2, Hs1', Hs1, Hs2, sel_mid by done. by rewrite <- Permutation_middle.
  - assert (Hin : ∀ x, (∃ q, q ∈ sel true m (A1 ++ p :: A2) ∧ q ≠ p ∧ q.1 <= x < q.2) →
      ∃ q, q ∈ sel true m A1 ++ sel true m A2 ∧ q.1 <= x < q.2).
    { intros x (q & Hq & Hne & Hx). exists q. split; [|done]. rewrite sel_mid, elem_of_app, elem_of_cons in Hq by done.
      rewrite elem_of_app. tauto. }
    assert (Hblk : ∀ m' B1 q B2 x, inuse m' (hdr c q.1) = false → sel true m' B1 = sel true m A1 →
      sel true m' B2 = sel true m A2 → (∃ q, q ∈ sel true m A1 ++ sel true m A2 ∧ q.1 <= x < q.2) →
      in_blocks m' (B1 ++ q :: B2) x).
    { intros m' B1 q B2 x Hq E1 E2 Hx. unfold in_blocks. rewrite sel_mid_not, E1, E2 by congruence. done. }
    eapply kept_trans; [|eapply kept_trans; [|eapply kept_trans]].
    + eapply kept_weaken; [|eapply (set_flag_kept (A1 ++ p :: A2) p); [apply elem_of_app; right; left|by right]].
      intros x (q & Hq & _ & Hx). apply elem_of_sel in Hq as [_ Hq]. exact (body_not_node _ q x (st_seg _ _ _ Hst) Hq Hx).
    + eapply kept_weaken; [|exact Ho2]. intros x Hx. eapply Hblk; [apply Hret|apply Hs1|apply Hs2|by apply Hin].
    + eapply kept_weaken; [|exact Ho3]. intros x Hx.
      eapply Hblk; [apply Hret2|by rewrite Hs1', Hs1|by rewrite Hb2, Hs2|by apply Hin].
    + eapply kept_weaken; [|exact Ho4]. intros x Hx.
      eapply Hblk; [apply Hret3|by rewrite Hb3, Hs1', Hs1|by rewrite Hs3, Hb2, Hs2|by apply Hin].
Qed.

(** ** What a heap promises *)

(** The blocks are apart, lie in the range, and start at multiples of 8 from its
    beginning. *)
Lemma areas_in_use_apart m A p q :
  heap_ok m A → p ∈ sel true m A → q ∈ sel true m A →
  hc_top c <= p.1 ∧ p.1 + 16 <= p.2 ∧ p.2 <= hc_lim c ∧ (8 | p.1 - hc_top c) ∧
  (p ≠ q → p.2 + 8 <= q.1 ∨ q.2 + 8 <= p.1).
Proof.
  intros [Hst _] [_ Hp]%elem_of_sel [_ Hq]%elem_of_sel. pose proof (st_seg _ _ _ Hst) as Hs.
  destruct (seg_in _ _ _ _ Hs Hp) as (? & ? & ? & _). split_and!; [lia|lia|lia|by eapply seg_aligned|].
  by apply (seg_apart _ _ _ p q Hs).
Qed.

(** When every block has been returned, the range is one free area again. *)
Lemma all_returned m A : hc_top c <= hc_lim c → heap_ok m A → sel true m A = [] → A = [(hc_top c, hc_lim c)].
Proof.
  intros Hlt [Hst Hnad] Hu. pose proof (st_seg _ _ _ Hst) as Hs.
  assert (Hf : ∀ p, p ∈ A → inuse m (hdr c p.1) = false).
  { intros p Hp. destruct (inuse m (hdr c p.1)) eqn:E; [|done].
    assert (Hin : p ∈ sel true m A) by (by apply elem_of_sel). rewrite Hu in Hin. by apply elem_of_nil in Hin. }
  destruct A as [|p [|q A]]; simpl in Hs.
  - lia.
  - destruct Hs as (? & _ & _ & ?). destruct p; simpl in *. repeat f_equal; lia.
  - exfalso. rewrite !fl_cons in Hnad. rewrite (Hf p), (Hf q) in Hnad by (set_solver). simpl in Hnad. naive_solver.
Qed.

(** Whatever the owners of the blocks store in them, the heap stays a heap. *)
Lemma block_writes_ok m m' A :
  heap_ok m A → kept (λ x, ¬ in_blocks m A x) m m' → heap_ok m' A ∧ ∀ b, sel b m' A = sel b m A.
Proof.
  intros [Hst Hnad] Hk. pose proof (st_seg _ _ _ Hst) as Hs.
  assert (Hn : ∀ x, x ∈ nodes c A → qnext m' x = qnext m x ∧ qprev m' x = qprev m x).
  { intros x Hx. apply Hk. intros (q & [_ Hq]%elem_of_sel & Hqx). by apply (body_not_node A q x Hs Hq Hqx). }
  assert (Hfl : flags_kept m m' A).
  { intros p Hp. unfold inuse. destruct (Hn (hdr c p.1)) as [_ ->]; [by apply hdr_node|done]. }
  destruct (flags_ext m m' A Hfl) as [Hf Hb]. split; [|done]. split; [|by rewrite Hf].
  destruct Hst as [_ Hr He Hh Hnd HS Hfr]. rewrite Hb. split; try done.
  - eapply mask_keep; [|exact Hr]. intros x Hx. by destruct (Hn x Hx) as [-> ->].
  - unfold inuse. destruct (Hn (hc_end c)) as [_ ->]; [apply end_node|done].
  - intros Hi. unfold inuse. destruct (Hn aqh) as [_ ->]; [apply elem_of_nodes; by left|by apply Hh].
  - eapply freeq_frame; [|exact Hfr]. intros x Hx. apply Hk. intros (q & Hq & Hqx).
    pose proof (sel_disjoint _ _ _ Hq) as Hqf. apply elem_of_sel in Hq as [_ Hq].
    destruct (body_outside A (sel false m A) q x Hs HS Hq Hqf Hqx) as (_ & _ & Hxf & Hxp).
    destruct Hx as [->|(p & Hp & Hx)]; [done|]. destruct (Hxp p Hp). naive_solver.
Qed.
End layout.
