(* ===== verification/Memory.v ===== *)
(** * The kernel's memory allocator: kernel/tkernel/memory.c

    [knl_Imalloc], [knl_Ifree], [knl_Icalloc], [knl_Irealloc] and [knl_init_Imalloc] on
    the memory of [QUEUE] cells; interrupts are disabled while the queues change, so
    each is one step.  The contents of the blocks are the byte memory of Mem.v.  The
    theorems instantiate Heap.v with the layout of the kernel's heap. *)
From S2P Require Import Prelude Config Queue Kernel Mem FreeArea Heap.

(* src: kernel/tkernel/memory.c 160-206 knl_Imalloc *)
Definition knl_Imalloc (im : IMACB) (size : Z) (m : qmem Z) : Z * qmem Z :=
  if size <=? 0 then (NULL, m)
  else
    let size := if size <? MIN_FRAGMENT then MIN_FRAGMENT else s32 (ROUND size) in
    let q := knl_searchFreeArea im size m in
    if q =? freeque im then (NULL, m)
    else
      let m := knl_removeFreeQue q m in
      let aq := q - 8 in
      let m :=
        if MIN_FRAGMENT + 8 <=? u32 (FreeSize q m - size) then
          let aq2 := u32 (aq + 8 + size) in
          let m := knl_insertAreaQue aq aq2 m in
          knl_appendFreeArea im aq2 m
        else m in
      let m := setAreaFlag aq AREA_USE m in
      (q, m).

(* src: kernel/tkernel/memory.c 261-287 knl_Ifree *)
Definition knl_Ifree (im : IMACB) (ptr : Z) (m : qmem Z) : qmem Z :=
  let aq := ptr - 8 in
  let m := clrAreaFlag aq AREA_USE m in
  let m :=
    if negb (chkAreaFlag (qnext m aq) AREA_USE m) then
      let m := knl_removeFreeQue (qnext m aq + 8) m in
      knl_removeAreaQue (qnext m aq) m
    else m in
  let '(aq, m) :=
    if negb (chkAreaFlag (qprev m aq) AREA_USE m) then
      let aq := qprev m aq in
      let m := knl_removeFreeQue (aq + 8) m in
      (aq, knl_removeAreaQue (qnext m aq) m)
    else (aq, m) in
  knl_appendFreeArea im aq m.

(** Allocation with the contents: [b] is the byte memory. *)
(* src: kernel/tkernel/memory.c 211-224 knl_Icalloc *)
Definition knl_Icalloc (im : IMACB) (nmemb size : Z) (m : qmem Z) (b : Z → Z) : Z * qmem Z * (Z → Z) :=
  let sz := s32 (nmemb * size) in
  let '(mem, m) := knl_Imalloc im sz m in
  if mem =? NULL then (NULL, m, b) else (mem, m, knl_memset mem 0 sz b).

(* src: kernel/tkernel/memory.c 230-255 knl_Irealloc *)
Definition knl_Irealloc (im : IMACB) (ptr size : Z) (m : qmem Z) (b : Z → Z) : Z * qmem Z * (Z → Z) :=
  let '(newptr, m) := if negb (size =? 0) then knl_Imalloc im size m else (NULL, m) in
  if negb (size =? 0) && (newptr =? NULL) then (NULL, m, b)
  else if negb (ptr =? NULL) then
    let b :=
      if negb (newptr =? NULL) then
        let oldsz := AreaSize (ptr - 8) m in
        knl_memcpy newptr ptr (if oldsz <? size then oldsz else size) b
      else b in
    (newptr, knl_Ifree im ptr m, b)
  else (newptr, m, b).

(* src: kernel/tkernel/memory.c 295-299 initIMACB *)
Definition initIMACB (im : IMACB) (m : qmem Z) : qmem Z :=
  let m := QueInit (areaque im) m in
  QueInit (freeque im) m.

(** [knl_lowmem_top] and [knl_lowmem_limit] are arguments; the results are the control
    block, the new [knl_lowmem_top] and the memory. *)
(* src: kernel/tkernel/memory.c 304-332 knl_init_Imalloc *)
Definition knl_init_Imalloc (lowmem_top lowmem_limit : Z) (m : qmem Z) : IMACB * Z * qmem Z :=
  let lowmem_top := Z.land (u32 (lowmem_top + 3)) (Z.lnot 3) in
  let imacb := lowmem_top in
  let lowmem_top := u32 (lowmem_top + 20) in
  let lowmem_top := Z.land (u32 (lowmem_top + 7)) (Z.lnot 7) in
  let top := lowmem_top in
  let im := mkIMACB imacb (s32 (u32 (lowmem_limit - lowmem_top - 16))) in
  let lowmem_top := lowmem_limit in
  let m := initIMACB im m in
  let end_ := top + memsz im + 8 in
  let m := knl_insertAreaQue (areaque im) end_ m in
  let m := knl_insertAreaQue (areaque im) top m in
  let m := setAreaFlag end_ AREA_USE m in
  let m := setAreaFlag (areaque im) AREA_USE m in
  (im, lowmem_top, knl_appendFreeArea im top m).

(** The allocator that the calls of Mem.v's [Allocator] reach: [knl_Imalloc] and [knl_Ifree] on the
    heap of the kernel; the size is a signed word. *)
Definition kernel_allocator (im : IMACB) : Allocator := {|
  Imalloc size k := let '(p, m) := knl_Imalloc im (s32 size) (k_heap k) in (p, set_k_heap m k);
  Ifree ptr k := set_k_heap (knl_Ifree im ptr (k_heap k)) k
|}.

(** ** The layout of the kernel's heap *)

(** The headers are in front of all areas; a header in use ends the queue. *)
Definition icfg (im : IMACB) (top lim : Z) : hcfg := Hcfg im top lim lim false.

(** The size [knl_Imalloc] looks for. *)
Definition request (size : Z) : Z := Z.max MIN_FRAGMENT (8 * ((size + 7) / 8)).

Lemma ROUND_spec sz : 0 <= sz <= MAX_ALLOCATE → ROUND sz = 8 * ((sz + 7) / 8).
Proof.
  change MAX_ALLOCATE with (2 ^ 31 - 8). intros ?. unfold ROUND, MEM_ROUNDSZ.
  rewrite (u32_small sz) by lia. rewrite u32_small by lia.
  change (8 - 1) with (Z.ones 3). change (Z.land (sz + Z.ones 3) (Z.lnot (Z.ones 3))) with (Z.land (sz + 7) (Z.lnot (Z.ones 3))).
  rewrite <- Z.ldiff_land, Z.ldiff_ones_r by lia. rewrite Z.shiftr_div_pow2, Z.shiftl_mul_pow2 by lia.
  change (2 ^ 3) with 8. lia.
Qed.

Lemma request_spec size : 0 < size <= MAX_ALLOCATE →
  (if size <? MIN_FRAGMENT then MIN_FRAGMENT else s32 (ROUND size)) = request size ∧
  16 <= request size < 2 ^ 31 ∧ (8 | request size) ∧ size <= request size ∧ (request size < size + 8 ∨ request size = 16).
Proof.
  intros Hs. pose proof (Z.div_mod (size + 7) 8). pose proof (Z.mod_pos_bound (size + 7) 8).
  unfold request, MIN_FRAGMENT. change MAX_ALLOCATE with (2 ^ 31 - 8) in Hs.
  assert (8 * ((size + 7) / 8) < 2 ^ 31).
  { assert ((size + 7) / 8 < 2 ^ 28); [|lia]. apply Z.div_lt_upper_bound; lia. }
  split_and!; try lia.
  - destruct (Z.ltb_spec size 16).
    + assert ((size + 7) / 8 < 3) by (apply Z.div_lt_upper_bound; lia). lia.
    + rewrite ROUND_spec by (change MAX_ALLOCATE with (2 ^ 31 - 8); lia). rewrite s32_small by lia.
      assert (2 <= (size + 7) / 8) by (apply Z.div_le_lower_bound; lia). lia.
  - apply Z.max_case_strong; intros; [by exists 2|]. apply Z.divide_factor_l.
Qed.

Section heap.
Context (im : IMACB) (top lim : Z).
Abbreviation c := (icfg im top lim).
Context (Hc : hcfg_ok c).

Lemma Imalloc_get size m : 0 < size <= MAX_ALLOCATE →
  knl_Imalloc im size m = get_area c (knl_appendFreeArea im) (request size) m.
Proof.
  intros Hs. destruct (request_spec size Hs) as [E _]. unfold knl_Imalloc.
  rewrite (proj2 (Z.leb_gt _ _)) by lia. cbv zeta. rewrite E. unfold get_area. cbv zeta.
  change (hc_im c) with im. generalize (knl_searchFreeArea im (request size) m). intros q.
  destruct (q =? freeque im); [reflexivity|]. change (hdr c q) with (q - 8).
  replace (q - 8 + 8 + request size) with (q + request size) by lia. reflexivity.
Qed.

Lemma Ifree_rel ptr m : knl_Ifree im ptr m = rel_area c (λ aq, aq + 8) (knl_appendFreeArea im) ptr m.
Proof. done. Qed.

Lemma append_registers P : registers c (knl_appendFreeArea im) P.
Proof.
  intros m A S p Hst Hp _. apply list_elem_of_split in Hp as (A1 & A2 & ->).
  destruct (area_next c m A1 p A2 S Hst) as [Hn _]. change (hdr c p.1) with (p.1 - 8) in *.
  unfold knl_appendFreeArea, AreaSize. rewrite Hn. replace (p.1 - 8 + 8) with p.1 by lia.
  enough (next_node c A2 = p.2) as -> by done.
  pose proof (st_seg _ _ _ _ Hst) as (x & _ & (_ & _ & _ & Hs))%seg_app.
  destruct A2 as [|q A2]; unfold next_node; simpl in *; [lia|]. unfold hdr. simpl. lia.
Qed.

Lemma Imalloc_ok size m A :
  heap_ok c m A → 0 < size <= MAX_ALLOCATE → got c (request size) m A (knl_Imalloc im size m).
Proof.
  intros Hok Hs. destruct (request_spec size Hs) as (_ & Hr & H8 & _). rewrite Imalloc_get by done.
  by apply get_area_spec; [|apply append_registers|..].
Qed.

Lemma Ifree_ok p m A :
  heap_ok c m A → p ∈ sel c true m A → gave_back c m A p (knl_Ifree im p.1 m).
Proof.
  intros Hok Hp. rewrite Ifree_rel. apply rel_area_spec; [done| |by apply append_registers|done|done].
  intros _ q _ _. change (q.1 - 8 + 8 = q.1). lia.
Qed.

(** The queues [knl_init_Imalloc] sets up. *)
Lemma init_queues m :
  let m1 := initIMACB im m in
  let m2 := knl_insertAreaQue (areaque im) lim m1 in
  let m3 := knl_insertAreaQue (areaque im) (top - 8) m2 in
  let m4 := setAreaFlag (areaque im) AREA_USE (setAreaFlag lim AREA_USE m3) in
  top + 16 <= lim → (8 | lim - top) →
  heap_st c m4 [(top, lim)] [] ∧ inuse m4 (top - 8) = false.
Proof.
  intros m1 m2 m3 m4 Hlt H8. destruct (hc_even c Hc) as (He1 & He2 & He3). simpl in He1, He2, He3.
  assert (Hs : seg top [(top, lim)] (lim + 8)) by (by split_and!; [|unfold asize; simpl; lia|..]).
  pose proof (fqh_not_node c Hc [(top, lim)] Hs) as Hfn. unfold nodes, hdr in Hfn. simpl in Hfn.
  rewrite !not_elem_of_cons in Hfn. destruct Hfn as (Hfa & Hft & Hfl & _).
  destruct (ctl_out c Hc (areaque im)) as [_ Ho]; [by left|]. specialize (Ho eq_refl). simpl in Ho.
  assert (Hev : Z.even (top - 8) = true) by (rewrite Z.even_sub, He1; done).
  assert (H1 : ringl (mask m1) [areaque im] ∧ ring m1 (freeque im) []).
  { unfold m1, initIMACB, QueInit, set_qnext, set_qprev. simpl. split; (split; [apply NoDup_singleton|]); simpl; upd_simpl; [|done].
    split_and!; [done| |done]. by apply Mask_even. }
  destruct H1 as [Hr1 Hf1]. pose proof (ringl_links _ [] _ [] Hr1) as [Hn1 Hp1].
  change (qnext m1 (areaque im) = areaque im) in Hn1. change (Mask (qprev m1 (areaque im)) = areaque im) in Hp1.
  assert (Hm2 : ∀ x, _) by (intros x; exact (insertAreaQue_masked (areaque im) lim m1 x ltac:(lia) ltac:(rewrite Hn1; lia) ltac:(rewrite Hn1; exact Hp1) He3)).
  assert (Hr2 : ringl (mask m2) [areaque im; lim]).
  { eapply ringl_frame; [|apply (ringl_insert _ [] _ [] lim Hr1); cbn [app]; rewrite list_elem_of_singleton; lia]. intros x _. split; apply Hm2. }
  pose proof (ringl_links _ [] _ [lim] Hr2) as [Hn2 Hp2].
  change (qnext m2 (areaque im) = lim) in Hn2. change (Mask (qprev m2 lim) = areaque im) in Hp2.
  assert (Hm3 : ∀ x, _) by (intros x; exact (insertAreaQue_masked (areaque im) (top - 8) m2 x ltac:(lia) ltac:(rewrite Hn2; lia) ltac:(rewrite Hn2; exact Hp2) Hev)).
  assert (Hr3 : ringl (mask m3) [areaque im; top - 8; lim]).
  { eapply ringl_frame; [|apply (ringl_insert _ [] _ [lim] (top - 8) Hr2); cbn [app]; rewrite !not_elem_of_cons; split_and!; [lia|lia|apply not_elem_of_nil]].
    intros x _. split; apply Hm3. }
  assert (Hf3 : ring m3 (freeque im) []).
  { eapply ring_frame; [|exact Hf1]. intros x ->%list_elem_of_singleton.
    unfold m3. destruct (insertAreaQue_other (areaque im) (top - 8) m2 (freeque im)) as [-> ->]; [lia|done|done|by rewrite Hn2|].
    unfold m2. destruct (insertAreaQue_other (areaque im) lim m1 (freeque im)) as [-> ->]; [lia|done|done|by rewrite Hn1|done]. }
  split; [split; try done|].
  - eapply (mask_keep [areaque im; top - 8; lim] m3); [|exact Hr3]. intros x _. split; [done|].
    unfold m4. by rewrite !Mask_set_flag.
  - unfold m4. rewrite !inuse_set. change (hc_end c) with lim.
    by rewrite (decide_True (P := lim = lim)); [case_decide|].
  - intros _. unfold m4. by rewrite inuse_set, decide_True.
  - constructor.
  - by intros p ?%elem_of_nil.
  - exists []. split; [done|]. split_and!; [|constructor|constructor].
    eapply ring_frame; [|exact Hf3]. intros x ->%list_elem_of_singleton. unfold m4, setAreaFlag. simpl. by upd_simpl.
  - unfold m4. rewrite !inuse_set, !decide_False by lia. unfold m3.
    destruct (Hm3 (top - 8)) as (_ & _ & ->). by rewrite decide_True.
Qed.
End heap.

(** ** Initialization *)

Lemma land_lnot_ones x n : 0 <= n → Z.land x (Z.lnot (Z.ones n)) = 2 ^ n * (x / 2 ^ n).
Proof. intros. rewrite <- Z.ldiff_land, Z.ldiff_ones_r, Z.shiftr_div_pow2, Z.shiftl_mul_pow2 by lia. lia. Qed.

Lemma align4 x : Z.land x (Z.lnot 3) = 4 * (x / 4).
Proof. exact (land_lnot_ones x 2 ltac:(lia)). Qed.

Lemma align8 x : Z.land x (Z.lnot 7) = 8 * (x / 8).
Proof. exact (land_lnot_ones x 3 ltac:(lia)). Qed.

(** The body of the first area: behind the control block and its header. *)
Definition heap_top (lowmem_top : Z) : Z := 8 * ((4 * ((lowmem_top + 3) / 4) + 20 + 7) / 8) + 8.

Lemma init_ok lowmem_top lowmem_limit m :
  0 < lowmem_top → lowmem_top + 64 <= lowmem_limit <= 2 ^ 31 → (8 | lowmem_limit) →
  let '(im, t, m') := knl_init_Imalloc lowmem_top lowmem_limit m in
  let top := heap_top lowmem_top in
  let c := icfg im top (lowmem_limit - 8) in
    t = lowmem_limit ∧ lowmem_top <= imacb im ∧ imacb im + 28 <= top <= lowmem_top + 38 ∧ (8 | top) ∧
    hcfg_ok c ∧ heap_ok c m' [(top, lowmem_limit - 8)] ∧ sel c true m' [(top, lowmem_limit - 8)] = [].
Proof.
  intros H0 Hl H8. unfold knl_init_Imalloc. cbv zeta.
  rewrite (u32_small (lowmem_top + 3)) by lia. rewrite align4, !align8. pose proof (Z.div_mod (lowmem_top + 3) 4). pose proof (Z.mod_pos_bound (lowmem_top + 3) 4).
  set (a1 := 4 * ((lowmem_top + 3) / 4)) in *.
  rewrite (u32_small (a1 + 20)), (u32_small (a1 + 20 + 7)) by lia. pose proof (Z.div_mod (a1 + 20 + 7) 8). pose proof (Z.mod_pos_bound (a1 + 20 + 7) 8).
  set (a3 := 8 * ((a1 + 20 + 7) / 8)) in *.
  rewrite (u32_small (lowmem_limit - a3 - 16)), s32_small by lia. cbn [memsz].
  set (im := mkIMACB a1 (lowmem_limit - a3 - 16)).
  replace (a3 + (lowmem_limit - a3 - 16) + 8) with (lowmem_limit - 8) by lia.
  change (heap_top lowmem_top) with (a3 + 8). set (c := icfg im (a3 + 8) (lowmem_limit - 8)).
  assert (Ha3 : (8 | a3)) by apply Z.divide_factor_l.
  assert (Hc : hcfg_ok c).
  { split; simpl; unfold areaque, freeque; simpl; try lia.
    - destruct H8 as [k ->]. split_and!; apply Z.even_spec.
      + exists (4 * ((a1 + 20 + 7) / 8) + 4). unfold a3. lia.
      + exists (2 * ((lowmem_top + 3) / 4) + 2). unfold a1. lia.
      + exists (4 * k - 4). lia.
  }
  assert (Hd : (8 | lowmem_limit - 8 - (a3 + 8))).
  { replace (lowmem_limit - 8 - (a3 + 8)) with (lowmem_limit - (a3 + 16)) by lia.
    apply Z.divide_sub_r; [done|]. apply Z.divide_add_r; [done|by exists 2]. }
  pose proof (init_queues im (a3 + 8) (lowmem_limit - 8) Hc m ltac:(lia) Hd) as Hst. cbv zeta in Hst.
  replace (a3 + 8 - 8) with a3 in Hst by lia. destruct Hst as [Hst Hfr].
  set (m4 := setAreaFlag (areaque im) AREA_USE _) in *.
  assert (Hr : returning c m4 [] (a3 + 8, lowmem_limit - 8) []).
  { split; [|exact Hst]. change (hdr c _) with (a3 + 8 - 8). by replace (a3 + 8 - 8) with a3 by lia. }
  destruct (end_return c Hc (knl_appendFreeArea im) m4 [] (a3 + 8, lowmem_limit - 8) []) as (Hok & Hsel & _);
    [by apply append_registers|exact Hr|exact I|exact I|by intros [=]|by intros [=]|].
  change (hdr c (a3 + 8, lowmem_limit - 8).1) with (a3 + 8 - 8) in *. replace (a3 + 8 - 8) with a3 in * by lia.
  split_and!; [done|simpl; lia|simpl; lia|lia|by apply Z.divide_add_r; [|exists 1]|done|exact Hok|exact Hsel].
Qed.

(** ** Properties *)

(** C27: A request to the kernel's heap of up to [MAX_ALLOCATE] (2^31 - 8) bytes.  For a size that
    is not positive [knl_Imalloc] returns NULL.  Otherwise it rounds the size up to a multiple of 8, at least 16; it
    returns NULL, and changes nothing, exactly when no free area is that large, and else
    the beginning of a smallest free area that is large enough: the heap stays well
    formed, its blocks are the old ones and the new one of the rounded size (or up to 23
    bytes more, when the rest would be too small for an area), and the contents of the
    old blocks are untouched. *)
Theorem knl_Imalloc_best_fit (im : IMACB) (top lim : Z) (m : qmem Z) (A : list area) (size : Z) :
  hcfg_ok (icfg im top lim) → heap_ok (icfg im top lim) m A → size <= MAX_ALLOCATE →
  (size <= 0 → knl_Imalloc im size m = (NULL, m)) ∧
  (0 < size → got (icfg im top lim) (request size) m A (knl_Imalloc im size m)).
Proof.
  intros Hc Hok Hmax. split; intros Hs; [|by apply Imalloc_ok].
  unfold knl_Imalloc. by rewrite (proj2 (Z.leb_le _ _)).
Qed.

(** The heap after the initialization with memory from 1000 to 2048. *)
Definition ex_init : IMACB * Z * qmem Z := knl_init_Imalloc 1000 2048 (Qmem (λ x, x) (λ x, x)).

Lemma ex_init_ok :
  hcfg_ok (icfg ex_init.1.1 1032 2040) ∧ heap_ok (icfg ex_init.1.1 1032 2040) ex_init.2 [(1032, 2040)].
Proof.
  pose proof (init_ok 1000 2048 (Qmem (λ x, x) (λ x, x)) ltac:(lia) ltac:(lia) ltac:(by exists 256)) as Hi.
  fold ex_init in Hi. destruct ex_init as [[im t] m]. by destruct Hi as (_ & _ & _ & _ & Hc & Hok & _).
Qed.

Lemma knl_Imalloc_best_fit_witness :
  got (icfg ex_init.1.1 1032 2040) 104 ex_init.2 [(1032, 2040)] (knl_Imalloc ex_init.1.1 100 ex_init.2) ∧
  (knl_Imalloc ex_init.1.1 100 ex_init.2).1 = 1032.
Proof.
  destruct ex_init_ok as [Hc Hok]. split; [|by vm_compute].
  exact (proj2 (knl_Imalloc_best_fit _ 1032 2040 _ _ 100 Hc Hok ltac:(by vm_compute)) ltac:(lia)).
Defined.

(** The return of a block of the kernel's heap: [knl_Ifree] gives back exactly that
    block; it merges it with the free areas next to it, so that again no two free areas
    are neighbours, and keeps the other blocks with their contents. *)
Theorem knl_Ifree_merges (im : IMACB) (top lim : Z) (m : qmem Z) (A : list area) (p : area) :
  hcfg_ok (icfg im top lim) → heap_ok (icfg im top lim) m A → p ∈ sel (icfg im top lim) true m A →
  gave_back (icfg im top lim) m A p (knl_Ifree im p.1 m).
Proof. intros Hc Hok Hp. by apply Ifree_ok. Qed.

(** The only block of the heap is returned. *)
Lemma knl_Ifree_merges_witness :
  let m := (knl_Imalloc ex_init.1.1 100 ex_init.2).2 in
  ∃ A p, p.1 = 1032 ∧ gave_back (icfg ex_init.1.1 1032 2040) m A p (knl_Ifree ex_init.1.1 1032 m).
Proof.
  intros m. destruct ex_init_ok as [Hc Hok].
  destruct (Imalloc_ok _ _ _ Hc 100 _ _ Hok) as [[E _]|(q & hi & A' & _ & _ & _ & Ep & _ & _ & Hok' & HP & _)]; [done| |].
  - apply (f_equal fst) in E. exfalso. revert E. by vm_compute.
  - fold m in Hok', HP. assert (Eq : q.1 = 1032) by (rewrite <- Ep; by vm_compute). rewrite Eq in HP.
    exists A', (1032, hi). split; [done|].
    apply (knl_Ifree_merges _ _ _ m A' (1032, hi) Hc Hok'). rewrite HP. left.
Defined.

(** The use of the heap: requests by the three functions that make them, returns of blocks, and
    stores of the owners of the blocks into them.  [B] are the blocks that have been handed
    out; [got_block] adds the one a request has returned. *)
Definition got_block (p : Z) (m : qmem Z) (B : list area) : list area :=
  if p =? NULL then B else (p, p + AreaSize (p - 8) m) :: B.

Inductive heap_run (t l : Z) : IMACB → qmem Z → list area → Prop :=
  | hr_init m0 im t' m : knl_init_Imalloc t l m0 = (im, t', m) → heap_run t l im m []
  | hr_alloc im m B size p m' :
      heap_run t l im m B → size <= MAX_ALLOCATE → knl_Imalloc im size m = (p, m') →
      heap_run t l im m' (got_block p m' B)
  | hr_calloc im m B nmemb size b p m' b' :
      heap_run t l im m B → s32 (nmemb * size) <= MAX_ALLOCATE → knl_Icalloc im nmemb size m b = (p, m', b') →
      heap_run t l im m' (got_block p m' B)
  | hr_realloc im m B1 p B2 size b q m' b' :
      heap_run t l im m (B1 ++ p :: B2) → size <= MAX_ALLOCATE → knl_Irealloc im p.1 size m b = (q, m', b') →
      heap_run t l im m'
        (if negb (size =? 0) && (q =? NULL) then B1 ++ p :: B2
         else got_block q (if size =? 0 then m else (knl_Imalloc im size m).2) (B1 ++ B2))
  | hr_free im m B1 p B2 :
      heap_run t l im m (B1 ++ p :: B2) → heap_run t l im (knl_Ifree im p.1 m) (B1 ++ B2)
  | hr_store im m m' B :
      heap_run t l im m B → kept (λ x, ∀ q, q ∈ B → ¬ q.1 <= x < q.2) m m' → heap_run t l im m' B.

Lemma got_size im top lim n m A p m' A' hi :
  heap_ok (icfg im top lim) m' A' → sel (icfg im top lim) true m' A' ≡ₚ (p, hi) :: sel (icfg im top lim) true m A →
  hcfg_ok (icfg im top lim) → n = p + AreaSize (p - 8) m' → n = hi.
Proof.
  intros [Hst _] HP Hc ->. assert (Hin : (p, hi) ∈ A').
  { assert ((p, hi) ∈ sel (icfg im top lim) true m' A') as [_ ?]%elem_of_sel by (rewrite HP; left). done. }
  apply list_elem_of_split in Hin as (A1 & A2 & ->).
  destruct (area_next _ m' A1 (p, hi) A2 _ Hst) as [Hn _]. change (hdr _ (p, hi).1) with (p - 8) in Hn.
  unfold AreaSize. rewrite Hn. pose proof (st_seg _ _ _ _ Hst) as (x & _ & (_ & _ & _ & Hs))%seg_app.
  destruct A2 as [|q A2]; unfold next_node; simpl in *; [lia|]. unfold hdr. simpl. lia.
Qed.

(** The blocks of a well-formed heap. *)
Definition blocks_of (im : IMACB) (t l : Z) (m : qmem Z) (B : list area) : Prop :=
  ∃ A, heap_ok (icfg im (heap_top t) (l - 8)) m A ∧ sel (icfg im (heap_top t) (l - 8)) true m A ≡ₚ B.

Lemma alloc_blocks im t l m B size :
  0 < heap_top t → hcfg_ok (icfg im (heap_top t) (l - 8)) → size <= MAX_ALLOCATE → blocks_of im t l m B →
  blocks_of im t l (knl_Imalloc im size m).2 (got_block (knl_Imalloc im size m).1 (knl_Imalloc im size m).2 B).
Proof.
  intros Ht Hc Hs (A & Hok & HP). destruct (Z.le_gt_cases size 0) as [Hz|Hz].
  { unfold knl_Imalloc. rewrite (proj2 (Z.leb_le _ _)) by done. by exists A. }
  destruct (Imalloc_ok im _ _ Hc size m A Hok ltac:(lia)) as [[Er _]|(q & hi & A' & Hq & _ & _ & Ep & _ & _ & Hok' & HP' & _)].
  { rewrite Er. by exists A. }
  exists A'. split; [done|]. unfold got_block. apply elem_of_sel in Hq as [_ Hq]. destruct Hok as [Hst _].
  destruct (seg_in _ _ _ _ (st_seg _ _ _ _ Hst) Hq) as (Hq1 & _). simpl in Hq1.
  rewrite Ep, (proj2 (Z.eqb_neq _ _)) by (unfold NULL; lia). rewrite HP', HP. f_equiv.
  by rewrite (got_size im _ _ _ m A q.1 _ A' hi Hok' HP' Hc eq_refl).
Qed.

Lemma free_blocks im t l m B1 p B2 :
  hcfg_ok (icfg im (heap_top t) (l - 8)) → blocks_of im t l m (B1 ++ p :: B2) →
  blocks_of im t l (knl_Ifree im p.1 m) (B1 ++ B2).
Proof.
  intros Hc (A & Hok & HP). destruct (Ifree_ok im _ _ Hc p m A Hok) as (A' & Hok' & HP' & _).
  { rewrite HP. apply elem_of_app. right. left. }
  exists A'. split; [done|]. rewrite HP' in HP. rewrite <- Permutation_middle in HP. by apply Permutation_cons_inv in HP.
Qed.

Lemma block_addr im t l m B p : 0 < heap_top t → blocks_of im t l m B → p ∈ B → p.1 ≠ NULL.
Proof.
  intros Ht (A & [Hst _] & HP) Hp. rewrite <- HP in Hp. apply elem_of_sel in Hp as [_ Hp].
  destruct (seg_in _ _ _ _ (st_seg _ _ _ _ Hst) Hp) as (Hq1 & _). simpl in Hq1. unfold NULL. lia.
Qed.

(** Getting a new block and giving back the old one. *)
Lemma realloc_blocks im t l m B1 p B2 size b q m' b' :
  0 < heap_top t → hcfg_ok (icfg im (heap_top t) (l - 8)) → size <= MAX_ALLOCATE →
  blocks_of im t l m (B1 ++ p :: B2) → knl_Irealloc im p.1 size m b = (q, m', b') →
  blocks_of im t l m'
    (if negb (size =? 0) && (q =? NULL) then B1 ++ p :: B2
     else got_block q (if size =? 0 then m else (knl_Imalloc im size m).2) (B1 ++ B2)).
Proof.
  intros Ht Hc Hs Hb. pose proof (block_addr im t l m _ p Ht Hb ltac:(set_solver)) as Hp.
  pose proof (alloc_blocks im t l m _ size Ht Hc Hs Hb) as Ha. unfold knl_Irealloc.
  rewrite (proj2 (Z.eqb_neq p.1 NULL) Hp). destruct (Z.eqb_spec size 0) as [->|Hz]; cbn [negb andb].
  - intros [= <- <- <-]. by apply free_blocks.
  - destruct (knl_Imalloc im size m) as [r m1]. cbn [fst snd] in *. unfold got_block in *.
    destruct (Z.eqb_spec r NULL) as [->|Hr]; intros [= <- <- <-]; [done|].
    rewrite (proj2 (Z.eqb_neq r NULL) Hr) in *. cbn [andb].
    apply (free_blocks im t l m1 ((r, r + AreaSize (r - 8) m1) :: B1) p B2 Hc Ha).
Qed.

Lemma Icalloc_Imalloc im nmemb size m b p m' b' :
  knl_Icalloc im nmemb size m b = (p, m', b') → knl_Imalloc im (s32 (nmemb * size)) m = (p, m').
Proof.
  unfold knl_Icalloc. destruct (knl_Imalloc _ _ _) as [r m1]. destruct (Z.eqb_spec r NULL) as [->|]; by intros [= <- <- _].
Qed.

Lemma heap_run_ok t l im m B :
  0 < t → t + 64 <= l <= 2 ^ 31 → (8 | l) → heap_run t l im m B →
  let c := icfg im (heap_top t) (l - 8) in
  t + 28 <= heap_top t <= t + 38 ∧ (8 | heap_top t) ∧ hcfg_ok c ∧ blocks_of im t l m B.
Proof.
  intros H0 Hl H8 Hrun.
  induction Hrun as [m0 im t' m E|im m B size p m' Hr IH Hs E|im m B nmemb size b p m' b' Hr IH Hs E%Icalloc_Imalloc
    |im m B1 p B2 size b q m' b' Hr IH Hs E|im m B1 p B2 Hr IH|im m m' B Hr IH Hk].
  1: { pose proof (init_ok t l m0 H0 Hl H8) as Hi. rewrite E in Hi.
    destruct Hi as (_ & ? & ? & ? & ? & ? & Hu). split_and!; [lia|lia|done|done|]. eexists. split; [done|]. by rewrite Hu. }
  all: destruct IH as (? & ? & Hc & Hb); (split_and!; [lia|lia|done|done|]).
  - pose proof (alloc_blocks im t l m B size ltac:(lia) Hc Hs Hb) as Ha. by rewrite E in Ha.
  - pose proof (alloc_blocks im t l m B _ ltac:(lia) Hc Hs Hb) as Ha. by rewrite E in Ha.
  - by eapply realloc_blocks; [lia|..].
  - by apply free_blocks.
  - destruct Hb as (A & Hok & HP). destruct (block_writes_ok _ Hc m m' A Hok) as [Hok' Hs].
    { eapply kept_weaken; [|exact Hk]. intros x Hx q Hq Hqx. apply Hx. exists q. by rewrite HP. }
    exists A. split; [done|]. by rewrite Hs.
Qed.

(** C26: Safety of the kernel's heap.  However blocks of up to [MAX_ALLOCATE] bytes are requested,
    with [knl_Imalloc], [knl_Icalloc] or [knl_Irealloc], returned, and written to by their
    owners, the blocks handed out lie in the memory the heap was
    given, start at multiples of 8 and do not overlap; no two free areas are neighbours;
    and when all blocks have been returned, one free area of the full size is left. *)
Theorem kernel_heap_safe (t l : Z) (im : IMACB) (m : qmem Z) (B : list area) :
  0 < t → t + 64 <= l <= 2 ^ 31 → (8 | l) → heap_run t l im m B →
  (∀ p, p ∈ B → t <= p.1 ∧ p.1 + 16 <= p.2 ∧ p.2 <= l ∧ (8 | p.1)) ∧
  (∀ p q, p ∈ B → q ∈ B → p ≠ q → p.2 <= q.1 ∨ q.2 <= p.1) ∧
  (∃ A, heap_ok (icfg im (heap_top t) (l - 8)) m A ∧ (B = [] → A = [(heap_top t, l - 8)])).
Proof.
  intros H0 Hl H8 Hrun. destruct (heap_run_ok t l im m B H0 Hl H8 Hrun) as (? & Ht8 & Hc & A & Hok & HP).
  split_and!.
  - intros p Hp. rewrite <- HP in Hp. destruct (areas_in_use_apart _ m A p p Hok Hp Hp) as (Hlo & ? & Hhi & Ha & _).
    simpl in Hlo, Hhi, Ha. split_and!; [lia|lia|lia|].
    replace p.1 with ((p.1 - heap_top t) + heap_top t) by lia. by apply Z.divide_add_r.
  - intros p q Hp Hq Hne. rewrite <- HP in Hp, Hq. destruct (areas_in_use_apart _ m A p q Hok Hp Hq) as (_ & _ & _ & _ & Hd).
    destruct (Hd Hne); lia.
  - exists A. split; [done|]. intros ->. apply (all_returned (icfg im (heap_top t) (l - 8)) Hc m); [simpl; lia|done|].
    by apply Permutation_nil_r in HP.
Qed.

(** Two requests, and the return of the first block. *)
Lemma kernel_heap_safe_witness :
  let im := ex_init.1.1 in
  let m1 := (knl_Imalloc im 100 ex_init.2).2 in
  let m2 := (knl_Imalloc im 50 m1).2 in
  (knl_Imalloc im 100 ex_init.2).1 = 1032 ∧ (knl_Imalloc im 50 m1).1 = 1144 ∧
  heap_run 1000 2048 im m2 [(1144, 1200); (1032, 1136)] ∧
  heap_run 1000 2048 im (knl_Ifree im 1032 m2) [(1144, 1200)] ∧
  (∃ A, heap_ok (icfg im (heap_top 1000) 2040) (knl_Ifree im 1032 m2) A).
Proof.
  intros im m1 m2.
  assert (Hr0 : heap_run 1000 2048 im ex_init.2 []).
  { apply (hr_init 1000 2048 (Qmem (λ x, x) (λ x, x)) im ex_init.1.2). unfold im, ex_init. by destruct (knl_init_Imalloc _ _ _) as [[? ?] ?]. }
  assert (E1 : (knl_Imalloc im 100 ex_init.2).1 = 1032) by (by vm_compute).
  assert (E2 : (knl_Imalloc im 50 m1).1 = 1144) by (by vm_compute).
  assert (S1 : AreaSize (1032 - 8) m1 = 104) by (by vm_compute).
  assert (S2 : AreaSize (1144 - 8) m2 = 56) by (by vm_compute).
  assert (Hr1 : heap_run 1000 2048 im m1 [(1032, 1136)]).
  { pose proof (hr_alloc 1000 2048 im ex_init.2 [] 100 1032 m1 Hr0 ltac:(by vm_compute)) as H1.
    unfold got_block in H1. rewrite S1 in H1. apply H1. rewrite <- E1. apply surjective_pairing. }
  assert (Hr2 : heap_run 1000 2048 im m2 [(1144, 1200); (1032, 1136)]).
  { pose proof (hr_alloc 1000 2048 im m1 [(1032, 1136)] 50 1144 m2 Hr1 ltac:(by vm_compute)) as H2.
    unfold got_block in H2. rewrite S2 in H2. apply H2. rewrite <- E2. apply surjective_pairing. }
  pose proof (hr_free 1000 2048 im m2 [(1144, 1200)] (1032, 1136) [] Hr2) as Hr3.
  split; [exact E1|]. split; [exact E2|]. split; [exact Hr2|]. split; [exact Hr3|].
  destruct (kernel_heap_safe 1000 2048 im _ _ ltac:(lia) ltac:(lia) ltac:(by exists 256) Hr3) as (_ & _ & A & Hok & _).
  exists A. exact Hok.
Defined.

(** Cleared allocation.  When the product of the two sizes is in the range of the
    allocator, [knl_Icalloc] gets a block for it as [knl_Imalloc] does, every one of its
    [nmemb * size] bytes is zero, whatever the alignment of its beginning and end, and no
    other byte of memory changes. *)
Theorem knl_Icalloc_zeroed (im : IMACB) (top lim : Z) (m : qmem Z) (A : list area) (nmemb size : Z) (b : Z → Z) :
  hcfg_ok (icfg im top lim) → heap_ok (icfg im top lim) m A → 0 < nmemb * size <= MAX_ALLOCATE →
  let '(p, m', b') := knl_Icalloc im nmemb size m b in
  got (icfg im top lim) (request (nmemb * size)) m A (p, m') ∧
  ∀ x, b' x = if decide (p ≠ NULL ∧ p <= x < p + nmemb * size) then 0 else b x.
Proof.
  intros Hc Hok Hs. unfold knl_Icalloc.
  rewrite s32_small by (change MAX_ALLOCATE with (2 ^ 31 - 8) in Hs; lia). cbv zeta.
  pose proof (Imalloc_ok im top lim Hc (nmemb * size) m A Hok Hs) as Hg.
  destruct (knl_Imalloc im (nmemb * size) m) as [p m'] eqn:E.
  destruct (Z.eqb_spec p NULL) as [->|Hp].
  - split; [exact Hg|]. intros x. by rewrite decide_False by naive_solver.
  - split; [exact Hg|]. intros x. rewrite memset_spec.
    destruct (decide (p <= x < p + nmemb * size)); [rewrite decide_True by done|rewrite decide_False by naive_solver]; done.
Qed.

Lemma knl_Icalloc_zeroed_witness :
  let '(p, m', b') := knl_Icalloc ex_init.1.1 3 7 ex_init.2 (λ _, 9) in
  p = 1032 ∧ b' 1031 = 9 ∧ b' 1052 = 0 ∧ b' 1053 = 9.
Proof.
  destruct ex_init_ok as [Hc Hok].
  pose proof (knl_Icalloc_zeroed ex_init.1.1 1032 2040 ex_init.2 _ 3 7 (λ _, 9) Hc Hok ltac:(by vm_compute)) as H.
  assert (E : (knl_Icalloc ex_init.1.1 3 7 ex_init.2 (λ _, 9)).1.1 = 1032) by (by vm_compute).
  destruct (knl_Icalloc ex_init.1.1 3 7 ex_init.2 (λ _, 9)) as [[p m'] b']. simpl in E. subst p.
  destruct H as [_ Hb]. split; [done|]. rewrite !Hb. split_and!; by vm_compute.
Defined.

(** Requests beyond the range are not refused.  For every size above [MAX_ALLOCATE] the rounding
    wraps to [- 2 ^ 31], so that any free area passes for large enough: when the heap has a
    free area, [knl_Imalloc] returns a smallest one, which is smaller than the request.
    [knl_Icalloc] does not check the product for overflow: when it wraps to a size in the
    range, the block it returns is more than 2 GiB shorter than the elements asked for. *)
Theorem oversized_requests (im : IMACB) (top lim : Z) (m : qmem Z) (A : list area) :
  let c := icfg im top lim in
  hcfg_ok c → heap_ok c m A →
  (∀ size, MAX_ALLOCATE < size < 2 ^ 31 → sel c false m A ≠ [] →
     ∃ p, p ∈ sel c false m A ∧ (knl_Imalloc im size m).1 = p.1 ∧ p.1 ≠ NULL ∧ asize p < size ∧
          Forall (λ q, asize p <= asize q) (sel c false m A)) ∧
  (∀ nmemb size b p m' b', 0 < s32 (nmemb * size) <= MAX_ALLOCATE → MAX_ALLOCATE < nmemb * size →
     knl_Icalloc im nmemb size m b = (p, m', b') → p ≠ NULL →
     ∃ hi A', heap_ok c m' A' ∧ (p, hi) ∈ sel c true m' A' ∧ hi - p < nmemb * size - 2 ^ 31).
Proof.
  intros c Hc Hok. pose proof Hok as [Hst _]. split.
  - intros size Hs Hne. change MAX_ALLOCATE with (2 ^ 31 - 8) in Hs.
    assert (Er : s32 (ROUND size) = - 2 ^ 31).
    { assert (E : ROUND size = 2 ^ 31); [|by rewrite E]. unfold ROUND, MEM_ROUNDSZ.
      rewrite (u32_small size), u32_small by lia. change (8 - 1) with (Z.ones 3).
      rewrite <- Z.ldiff_land, Z.ldiff_ones_r, Z.shiftr_div_pow2, Z.shiftl_mul_pow2 by lia.
      change (Z.ones 3) with 7. change (2 ^ 3) with 8.
      rewrite <- (Z.div_unique_pos (size + 7) 8 (2 ^ 28) (size + 7 - 2 ^ 31)); [done|lia|lia]. }
    unfold knl_Imalloc. rewrite (proj2 (Z.leb_gt _ _)), (proj2 (Z.ltb_ge _ _)) by (unfold MIN_FRAGMENT; lia).
    cbv zeta. rewrite Er.
    destruct (search_best im m (sel c false m A) (- 2 ^ 31) (st_free _ _ _ _ Hst)) as [[_ HF]|(p & Hp & Eq & _ & _ & HF)].
    { apply (areas_apart c Hc A); [apply Hst|apply Hst|apply Hst]. }
    { exfalso. destruct (sel c false m A) as [|p l] eqn:Es; [done|]. apply Forall_cons in HF as [HF _].
      assert (p ∈ sel c false m A) as [_ Hp]%elem_of_sel by (rewrite Es; left).
      destruct (seg_in _ _ _ _ (st_seg _ _ _ _ Hst) Hp) as (? & ? & _). unfold asize in HF. lia. }
    exists p. pose proof Hp as [_ HpA]%elem_of_sel. destruct (seg_in _ _ _ _ (st_seg _ _ _ _ Hst) HpA) as (Hlo & Hsz & Hhi & k & Hk).
    destruct (body_cells c Hc A p p.1 (st_seg _ _ _ _ Hst) HpA) as (_ & Hpf & _); [lia|].
    pose proof (hc_pos _ Hc). pose proof (hc_small _ Hc). simpl in *. rewrite Eq, (proj2 (Z.eqb_neq _ _)) by done.
    split; [done|]. split; [done|]. split; [unfold NULL; lia|]. split; [unfold asize in *; lia|].
    rewrite Forall_forall in HF |- *. intros q Hq. apply HF; [done|]. apply elem_of_sel in Hq as [_ Hq].
    destruct (seg_in _ _ _ _ (st_seg _ _ _ _ Hst) Hq) as (? & ? & _). unfold asize. lia.
  - intros nmemb size b p m' b' Hs Hover E%Icalloc_Imalloc Hp.
    destruct (Imalloc_ok im top lim Hc _ m A Hok Hs) as [[Er _]|(q & hi & A' & _ & _ & _ & Ep & _ & Hn & Hok' & HP' & _)].
    { rewrite E in Er. by injection Er. }
    rewrite E in Ep, Hok', HP'. simpl in Ep, Hok', HP'. subst p. exists hi, A'. split; [done|].
    split; [fold c in HP'; rewrite HP'; left|]. destruct (request_spec _ Hs) as (_ & _ & _ & _ & Hrs).
    change MAX_ALLOCATE with (2 ^ 31 - 8) in Hover, Hs. unfold s32 in *.
    pose proof (Z.div_mod (nmemb * size + 2 ^ 31) (2 ^ 32)). lia.
Qed.

(** A request of 4 bytes less than 2 GiB, and one for 2^28 + 1 elements of 16 bytes. *)
Lemma oversized_requests_witness :
  (∃ p, (knl_Imalloc ex_init.1.1 (2 ^ 31 - 4) ex_init.2).1 = p.1 ∧ p.1 ≠ NULL ∧ asize p < 2 ^ 31 - 4) ∧
  (∃ hi, hi - (knl_Icalloc ex_init.1.1 (2 ^ 28 + 1) 16 ex_init.2 (λ _, 9)).1.1 < 2 ^ 31 + 16).
Proof.
  destruct ex_init_ok as [Hc Hok]. destruct (oversized_requests _ _ _ _ _ Hc Hok) as [H1 H2]. split.
  - assert (Hn : length (sel (icfg ex_init.1.1 1032 2040) false ex_init.2 [(1032, 2040)]) = 1%nat) by (vm_compute; reflexivity).
    destruct (H1 (2 ^ 31 - 4) ltac:(split; by vm_compute)) as (p & _ & E & Hp & Hs & _).
    + intros E. by rewrite E in Hn.
    + exists p. split; [exact E|]. split; [exact Hp|exact Hs].
  - destruct (knl_Icalloc ex_init.1.1 (2 ^ 28 + 1) 16 ex_init.2 (λ _, 9)) as [[p m'] b'] eqn:E.
    destruct (H2 (2 ^ 28 + 1) 16 _ p m' b' ltac:(split; by vm_compute) ltac:(by vm_compute) E) as (hi & _ & _ & _ & Hh).
    + intros Hp. assert (Ep : (knl_Icalloc ex_init.1.1 (2 ^ 28 + 1) 16 ex_init.2 (λ _, 9)).1.1 = 1032) by (by vm_compute).
      rewrite E in Ep. by rewrite Hp in Ep.
    + exists hi. exact Hh.
Defined.
