(* ===== verification/MemPool.v ===== *)
(** * Variable-size memory pools: kernel/tkernel/mempool.h, kernel/tkernel/mempool.c

    A pool is a heap of its own (Heap.v) inside the buffer [mpl_mempool]: the head of
    its area queue is the header of the first area, and the cell [areaque_end] of the
    control block ends the queue.  The members of a control block from [mplsz] on are
    read as an [IMACB].  Tasks that ask for more than there is wait in [MPLQ i] and are
    served in the order of the queue. *)
From S2P Require Import Prelude Config Queue Kernel ReadyQueue KInv KCheck Task Timer Wait Mem.
From S2P Require Import FreeArea Heap Memory.

(* src: include/tk/syscall.h 352-360 T_CMPL *)
Record T_CMPL := mkT_CMPL { cmpl_exinf : Z; cmpl_mplatr : Z; cmpl_mplsz : Z; cmpl_bufptr : Z }.

(* src: include/tk/syscall.h 365-371 T_RMPL *)
Record T_RMPL := mkT_RMPL { rmpl_exinf : Z; rmpl_wtsk : Z; rmpl_frsz : Z; rmpl_maxsz : Z }.

(* src: kernel/tkernel/mempool.h 48-48 get_mplcb *)
Definition get_mplcb (id : Z) : Z := INDEX_MPL id.

(** The control block as an [IMACB]: [mplsz] is 20 bytes behind its beginning and
    [areaque_end] behind the two queue heads; a control block has 52 bytes. *)
Definition mpl_im (i : Z) (k : K) : IMACB := mkIMACB (k_mplcb_table k + 52 * i + 20) (mplsz (k_mpl k i)).
Definition areaque_end (im : IMACB) : Z := imacb im + 20.

(* src: kernel/tkernel/mempool.h 54-60 knl_MaxFreeSize *)
Definition knl_MaxFreeSize (im : IMACB) (m : qmem Z) : Z :=
  if isQueEmpty (freeque im) m then 0 else FreeSize (qprev m (freeque im)) m.

(* src: kernel/tkernel/mempool.c 35-52 knl_memorypool_initialize *)
Definition knl_memorypool_initialize (k : K) : Z * K :=
  if NUM_MPLID <? 1 then (E_SYS, k)
  else
    let k := upd_s (upd_q (QueInit FREE_MPL)) k in
    let k := foldl (λ k i,
      let k := upd_mpl i (set_mplid 0) k in
      upd_s (upd_q (QueInsert (MPLQ i) FREE_MPL)) k) k (seqZ 0 NUM_MPLID) in
    (E_OK, k).

(** ** Areas of a pool

    [pool] is [mplcb->mempool]. *)

(* src: kernel/tkernel/mempool.c 60-104 knl_appendFreeAreaBound *)
Definition knl_appendFreeAreaBound (im : IMACB) (pool aq : Z) (m : qmem Z) : qmem Z :=
  let top := if aq =? areaque im then pool else aq + 8 in
  let end_ := if qnext m aq =? areaque_end im then u32 (pool + memsz im) else qnext m aq in
  append_at im aq top (s32 (end_ - top)) m.

(* src: kernel/tkernel/mempool.c 111-144 knl_get_blk *)
Definition knl_get_blk (im : IMACB) (pool blksz : Z) (m : qmem Z) : Z * qmem Z :=
  let q := knl_searchFreeArea im blksz m in
  if q =? freeque im then (NULL, m)
  else
    let m := knl_removeFreeQue q m in
    let aq := if q =? pool then areaque im else q - 8 in
    let m :=
      if MIN_FRAGMENT + 8 <=? u32 (FreeSize q m - blksz) then
        let aq2 := u32 (q + blksz) in
        let m := knl_insertAreaQue aq aq2 m in
        if qnext m aq2 =? areaque_end im then knl_appendFreeAreaBound im pool aq2 m
        else knl_appendFreeArea im aq2 m
      else m in
    (q, setAreaFlag aq AREA_USE m).

(* src: kernel/tkernel/mempool.c 149-186 knl_rel_blk *)
Definition knl_rel_blk (im : IMACB) (pool blk : Z) (m : qmem Z) : Z * qmem Z :=
  let aq := if blk =? pool then areaque im else blk - 8 in
  if negb (chkAreaFlag aq AREA_USE m) then (E_PAR, m)
  else
    let m := clrAreaFlag aq AREA_USE m in
    let m :=
      if negb (chkAreaFlag (qnext m aq) AREA_USE m) then
        let m := knl_removeFreeQue (qnext m aq + 8) m in
        knl_removeAreaQue (qnext m aq) m
      else m in
    let '(aq, m) :=
      if negb (chkAreaFlag (qprev m aq) AREA_USE m) then
        let aq := qprev m aq in
        let fq := if aq =? areaque im then pool else aq + 8 in
        let m := knl_removeFreeQue fq m in
        (aq, knl_removeAreaQue (qnext m aq) m)
      else (aq, m) in
    (E_OK,
     if (aq =? areaque im) || (qnext m aq =? areaque_end im) then knl_appendFreeAreaBound im pool aq m
     else knl_appendFreeArea im aq m).

(** [knl_get_blk] on the pool of control block [i]. *)
Definition mpl_get_blk (i blksz : Z) (k : K) : Z * K :=
  let '(blk, m) := knl_get_blk (mpl_im i k) (mpl_mempool (k_mpl k i)) blksz (k_heap k) in
  (blk, set_k_heap m k).

(** The loop of [knl_mpl_wakeup]; every round takes a task out of the queue. *)
(* src: kernel/tkernel/mempool.c 200-215 knl_mpl_wakeup *)
Fixpoint mpl_wakeup_loop (fuel : nat) (mplcb : Z) (k : K) : K :=
  match fuel with
  | O => k
  | S fuel =>
      if isQueEmpty (MPLQ mplcb) (s_q (k_s k)) then k
      else
        let top := as_tcb (qnext (s_q (k_s k)) (MPLQ mplcb)) in
        let '(blksz, p_blk) := wi_mpl (t_winfo (s_tcb (k_s k) top)) in
        if knl_MaxFreeSize (mpl_im mplcb k) (k_heap k) <? blksz then k
        else
          let '(blk, k) := mpl_get_blk mplcb blksz k in
          let k := upd_mem (st32 p_blk blk) k in
          let k := upd_s (knl_wait_release_ok top) k in
          mpl_wakeup_loop fuel mplcb k
  end.

(* src: kernel/tkernel/mempool.c 194-216 knl_mpl_wakeup *)
Definition knl_mpl_wakeup (mplcb : Z) (k : K) : K := mpl_wakeup_loop QFUEL mplcb k.

(* src: kernel/tkernel/mempool.c 222-235 init_mempool *)
Definition init_mempool (im : IMACB) (pool : Z) (m : qmem Z) : qmem Z :=
  let m := QueInit (areaque im) m in
  let m := QueInit (freeque im) m in
  let m := knl_insertAreaQue (areaque im) (areaque_end im) m in
  let m := setAreaFlag (areaque_end im) AREA_USE m in
  knl_appendFreeAreaBound im pool (areaque im) m.

(** ** The calls *)

(* src: kernel/tkernel/mempool.c 243-250 VALID_MPLATR *)
Definition VALID_MPLATR : Z := Z.lor TA_TPRI (Z.lor TA_RNG3 TA_USERBUF).

(* src: kernel/tkernel/mempool.c 240-330 tk_cre_mpl *)
Definition tk_cre_mpl `{Allocator} (pk_cmpl : T_CMPL) (k : K) : Z * K :=
  if RSATR_ERR (cmpl_mplatr pk_cmpl) VALID_MPLATR then (E_RSATR, k)
  else if negb ((0 <? cmpl_mplsz pk_cmpl) && (cmpl_mplsz pk_cmpl <=? MAX_ALLOCATE)) then (E_PAR, k)
  else if in_ddsp (k_s k) then (E_CTX, k)
  else
    let mplsz := roundSize (cmpl_mplsz pk_cmpl) in
    let userbuf := has (cmpl_mplatr pk_cmpl) TA_USERBUF in
    if userbuf && negb (mplsz =? cmpl_mplsz pk_cmpl) then (E_PAR, k)
    else
      let '(pool, k) := if userbuf then (cmpl_bufptr pk_cmpl, k) else Imalloc (u32 mplsz) k in
      if negb userbuf && (pool =? NULL) then (E_NOMEM, k)
      else
        let '(ercd, k) :=
          match QueRemoveNext FREE_MPL (s_q (k_s k)) with
          | (None, q) => (E_LIMIT, upd_s (set_s_q q) k)
          | (Some node, q) =>
              let k := upd_s (set_s_q q) k in
              let mplcb := nd_idx node in
              let mplid := ID_MPL mplcb in
              let k := upd_s (upd_q (QueInit (MPLQ mplcb))) k in
              let k := upd_mpl mplcb (λ _, mkMPLCB mplid (cmpl_exinf pk_cmpl) (cmpl_mplatr pk_cmpl)
                                             mplsz pool) k in
              (mplid, upd_heap (init_mempool (mpl_im mplcb k) pool) k)
          end in
        (ercd, if (ercd <? E_OK) && negb userbuf then Ifree pool k else k).

(* src: kernel/tkernel/mempool.c 336-371 tk_del_mpl *)
Definition tk_del_mpl `{Allocator} (id : Z) (k : K) : Z * K :=
  if negb (CHK_MPLID id) then (E_ID, k)
  else if in_ddsp (k_s k) then (E_CTX, k)
  else
    let mplcb := get_mplcb id in
    if mplid (k_mpl k mplcb) =? 0 then (E_NOEXS, k)
    else
      let pool := mpl_mempool (k_mpl k mplcb) in
      let memattr := mplatr (k_mpl k mplcb) in
      let k := upd_s (knl_wait_delete (MPLQ mplcb)) k in
      let k := upd_s (upd_q (QueInsert (MPLQ mplcb) FREE_MPL)) k in
      let k := upd_mpl mplcb (set_mplid 0) k in
      (E_OK, if negb (has memattr TA_USERBUF) then Ifree pool k else k).

(* src: kernel/tkernel/mempool.c 378-391 mpl_chg_pri *)
Definition mpl_chg_pri (tcb oldpri : Z) (k : K) : K :=
  let mplcb := get_mplcb (t_wid (s_tcb (k_s k) tcb)) in
  let k := if 0 <=? oldpri then upd_s (knl_gcb_change_priority (gcb mplcb (k_mpl k mplcb)) tcb) k else k in
  knl_mpl_wakeup mplcb k.

(* src: kernel/tkernel/mempool.c 396-399 mpl_rel_wai *)
Definition mpl_rel_wai (tcb : Z) (k : K) : K := mpl_chg_pri tcb (-1) k.

(** The wait of the running task for a block. *)
(* src: kernel/tkernel/mempool.c 443-448 tk_get_mpl *)
Definition mpl_wait (mplcb blksz p_blk tmout : Z) (k : K) : Z * K :=
  let c := ctx (k_s k) in
  let cb := k_mpl k mplcb in
  let w := if has (mplatr cb) TA_TPRI then knl_wspec_mpl_tpri else knl_wspec_mpl_tfifo in
  let k := upd_s (upd_tcb c (set_wait w (WI_mpl blksz p_blk) c)) k in
  let k := upd_s (knl_gcb_make_wait (gcb mplcb cb) tmout) k in
  (s_ercd (k_s k) c, k).

(* src: kernel/tkernel/mempool.c 410-455 tk_get_mpl *)
Definition tk_get_mpl (id blksz p_blk tmout : Z) (k : K) : Z * K :=
  if negb (CHK_MPLID id) then (E_ID, k)
  else if negb ((0 <? blksz) && (blksz <=? MAX_ALLOCATE)) then (E_PAR, k)
  else if TMOUT_ERR tmout then (E_PAR, k)
  else if in_ddsp (k_s k) then (E_CTX, k)
  else
    let mplcb := get_mplcb id in
    let blksz := roundSize blksz in
    let cb := k_mpl k mplcb in
    let c := ctx (k_s k) in
    if mplid cb =? 0 then (E_NOEXS, k)
    else if mplsz cb <? blksz then (E_PAR, k)
    else if knl_gcb_top_of_wait_queue (gcb mplcb cb) c (k_s k) =? c then
      let '(blk, k) := mpl_get_blk mplcb blksz k in
      if negb (blk =? NULL) then (E_OK, upd_mem (st32 p_blk blk) k)
      else mpl_wait mplcb blksz p_blk tmout k
    else mpl_wait mplcb blksz p_blk tmout k.

(* src: kernel/tkernel/mempool.c 460-495 tk_rel_mpl *)
Definition tk_rel_mpl (id blk : Z) (k : K) : Z * K :=
  if negb (CHK_MPLID id) then (E_ID, k)
  else if in_ddsp (k_s k) then (E_CTX, k)
  else
    let mplcb := get_mplcb id in
    let cb := k_mpl k mplcb in
    if mplid cb =? 0 then (E_NOEXS, k)
    else if (blk <? mpl_mempool cb) || (u32 (mpl_mempool cb + mplsz cb) <? blk) then (E_PAR, k)
    else
      let '(ercd, m) := knl_rel_blk (mpl_im mplcb k) (mpl_mempool cb) blk (k_heap k) in
      let k := set_k_heap m k in
      if ercd <? E_OK then (ercd, k) else (ercd, knl_mpl_wakeup mplcb k).

(** The two nested loops that add up the free areas. *)
(* src: kernel/tkernel/mempool.c 519-526 FreeSize *)
Definition add_same (blksz : Z) (m : qmem Z) (st : Z * Z) : (Z * Z) + Z :=
  let '(q, frsz) := st in
  if q =? NULL then inr frsz else inl (qnext m q, s32 (frsz + blksz)).

(* src: kernel/tkernel/mempool.c 519-526 FreeSize *)
Definition add_class (im : IMACB) (m : qmem Z) (st : Z * Z) : (Z * Z) + Z :=
  let '(fq, frsz) := st in
  if fq =? freeque im then inr frsz
  else
    let blksz := FreeSize fq m in
    let frsz := s32 (frsz + blksz) in
    match ploop SFUEL (add_same blksz m) (qnext m (fq + 8), frsz) with
    | inr frsz => inl (qnext m fq, frsz)
    | inl (_, frsz) => inl (qnext m fq, frsz)
    end.

(* src: kernel/tkernel/mempool.c 519-526 tk_ref_mpl *)
Definition free_total (im : IMACB) (m : qmem Z) : Z :=
  match ploop SFUEL (add_class im m) (qnext m (freeque im), 0) with inr frsz => frsz | inl (_, frsz) => frsz end.

(* src: kernel/tkernel/mempool.c 514-529 tk_ref_mpl *)
Definition ref_mpl (mplcb : Z) (k : K) : Z * option T_RMPL :=
  let cb := k_mpl k mplcb in
  if mplid cb =? 0 then (E_NOEXS, None)
  else (E_OK, Some (mkT_RMPL (mpl_exinf cb) (knl_wait_tskid (MPLQ mplcb) (k_s k))
                      (free_total (mpl_im mplcb k) (k_heap k)) (knl_MaxFreeSize (mpl_im mplcb k) (k_heap k)))).

(* src: kernel/tkernel/mempool.c 501-533 tk_ref_mpl *)
Definition tk_ref_mpl (id : Z) (k : K) : Z * option T_RMPL :=
  if negb (CHK_MPLID id) then (E_ID, None)
  else if in_ddsp (k_s k) then (E_CTX, None)
  else ref_mpl (get_mplcb id) k.

(* src: kernel/tkernel/mempool.c 576-595 td_lst_mpl *)
Definition td_lst_mpl (nent : Z) (k : K) : Z * list Z :=
  td_lst (λ i, negb (mplid (k_mpl k i) =? 0)) ID_MPL NUM_MPLID nent.

(* src: kernel/tkernel/mempool.c 602-633 td_ref_mpl *)
Definition td_ref_mpl (id : Z) (k : K) : Z * option T_RMPL :=
  if negb (CHK_MPLID id) then (E_ID, None) else ref_mpl (get_mplcb id) k.

(* src: kernel/tkernel/mempool.c 640-665 td_mpl_que *)
Definition td_mpl_que (id nent : Z) (k : K) : Z * list Z :=
  if negb (CHK_MPLID id) then (E_ID, [])
  else
    let mplcb := get_mplcb id in
    if mplid (k_mpl k mplcb) =? 0 then (E_NOEXS, [])
    else td_que (MPLQ mplcb) nent (k_s k).

(** ** A pool is a heap *)

(** The head of the area queue is the first header; [areaque_end] ends the queue. *)
Definition pcfg (im : IMACB) (pool : Z) : hcfg := Hcfg im pool (pool + memsz im) (areaque_end im) true.

Section pool.
Context (im : IMACB) (pool : Z).
Abbreviation c := (pcfg im pool).
Context (Hc : hcfg_ok c).

(** The body of a header. *)
Definition body_of (aq : Z) : Z := if aq =? areaque im then pool else aq + 8.

Lemma ctl_outside x : x = areaque im ∨ x = freeque im ∨ x = areaque_end im →
  x + 8 <= pool ∨ pool + memsz im <= x.
Proof.
  intros Hx. pose proof (hc_out c Hc x) as H. simpl in H. destruct H; [|lia|lia].
  destruct Hx as [?|[?|?]]; auto.
Qed.

Lemma body_hdr (A : list area) p : seg (hc_top c) A (hc_lim c + 8) → p ∈ A → body_of (hdr c p.1) = p.1.
Proof.
  intros Hs Hp. destruct (seg_in _ _ _ _ Hs Hp) as (H1 & H2 & H3 & _). simpl in H1, H3.
  pose proof (ctl_outside (areaque im) ltac:(by left)) as Ha.
  unfold body_of, hdr. simpl. destruct (Z.eqb_spec p.1 pool) as [E|E]; [by rewrite Z.eqb_refl|].
  pose proof (seg_aligned _ _ _ _ Hs Hp) as [k Hk]. simpl in Hk.
  rewrite (proj2 (Z.eqb_neq _ _)) by lia. lia.
Qed.

(** Where the area [p] ends, by its successor in the queue. *)
Lemma next_end m A1 p A2 S : heap_st c m (A1 ++ p :: A2) S →
  if qnext m (hdr c p.1) =? areaque_end im then A2 = [] ∧ pool + memsz im = p.2
  else qnext m (hdr c p.1) = p.2.
Proof.
  intros Hst. pose proof (st_seg _ _ _ _ Hst) as Hs. destruct (area_next c _ _ _ _ _ Hst) as [-> _].
  pose proof Hs as (x & _ & (_ & _ & _ & Hs2))%seg_app. unfold next_node.
  destruct A2 as [|q A2]; simpl.
  - rewrite Z.eqb_refl. simpl in Hs2. split; [done|lia].
  - rewrite (hdr_after c A1 p [] q A2 Hs). simpl in Hs2. destruct Hs2 as [Hq _].
    destruct (seg_in _ _ _ q Hs) as (_ & H2 & H3 & _); [set_solver|]. simpl in H3.
    destruct (seg_in _ _ _ p Hs) as (H1 & H4 & _); [set_solver|]. simpl in H1.
    pose proof (ctl_outside (areaque_end im) ltac:(auto)).
    rewrite (proj2 (Z.eqb_neq _ _)) by lia. lia.
Qed.

Lemma bound_registers P : registers c (knl_appendFreeAreaBound im pool) P.
Proof.
  intros m A S p Hst Hp _. pose proof (body_hdr A p (st_seg _ _ _ _ Hst) Hp) as Hb. unfold body_of in Hb.
  destruct (seg_in _ _ _ _ (st_seg _ _ _ _ Hst) Hp) as (H1 & H2 & H3 & _). simpl in H1, H3.
  pose proof (hc_small c Hc) as H31. pose proof (hc_max c Hc). pose proof (hc_pos c Hc). simpl in *.
  apply list_elem_of_split in Hp as (A1 & A2 & ->). pose proof (next_end _ _ _ _ _ Hst) as Hn.
  unfold knl_appendFreeAreaBound. rewrite Hb.
  apply (f_equal (λ z, append_at im (hdr c p.1) p.1 z m)). unfold asize.
  destruct (qnext m (hdr c p.1) =? areaque_end im).
  - destruct Hn as [_ <-]. rewrite u32_small, s32_small by lia. lia.
  - rewrite Hn, s32_small by lia. lia.
Qed.

Lemma plain_registers m A S p : heap_st c m A S → p ∈ A → hdr c p.1 = p.1 - 8 →
  qnext m (hdr c p.1) ≠ areaque_end im →
  knl_appendFreeArea im (hdr c p.1) m = append_at im (hdr c p.1) p.1 (asize p) m.
Proof.
  intros Hst Hp Hh Hne. apply list_elem_of_split in Hp as (A1 & A2 & ->). pose proof (next_end _ _ _ _ _ Hst) as Hn.
  rewrite (proj2 (Z.eqb_neq _ _) Hne) in Hn. unfold knl_appendFreeArea, AreaSize. rewrite Hn, Hh.
  by replace (p.1 - 8 + 8) with p.1 by lia.
Qed.

(** The registrations of [knl_get_blk] and [knl_rel_blk]. *)
Definition append_rest (aq : Z) (m : qmem Z) : qmem Z :=
  if qnext m aq =? areaque_end im then knl_appendFreeAreaBound im pool aq m else knl_appendFreeArea im aq m.

Definition append_freed (aq : Z) (m : qmem Z) : qmem Z :=
  if (aq =? areaque im) || (qnext m aq =? areaque_end im) then knl_appendFreeAreaBound im pool aq m
  else knl_appendFreeArea im aq m.

Lemma rest_registers : registers c append_rest (not_first c).
Proof.
  intros m A S p Hst Hp Hh. unfold append_rest. destruct (Z.eqb_spec (qnext m (hdr c p.1)) (areaque_end im)).
  - by eapply (bound_registers (λ _, True)).
  - by eapply plain_registers.
Qed.

Lemma freed_registers : registers c append_freed (λ _, True).
Proof.
  intros m A S p Hst Hp _. unfold append_freed.
  destruct (Z.eqb_spec (hdr c p.1) (areaque im)) as [|Ha]; [by eapply (bound_registers (λ _, True))|].
  destruct (Z.eqb_spec (qnext m (hdr c p.1)) (areaque_end im)); [by eapply (bound_registers (λ _, True))|].
  eapply plain_registers; [done|done| |done]. unfold hdr in *. simpl in *. by destruct (p.1 =? pool).
Qed.

Lemma get_blk_ok n m A : heap_ok c m A → 16 <= n < 2 ^ 31 → (8 | n) → got c n m A (knl_get_blk im pool n m).
Proof. intros. apply (get_area_spec c Hc append_rest); [apply rest_registers|done..]. Qed.

Lemma rel_blk_eq blk m :
  knl_rel_blk im pool blk m =
    if inuse m (hdr c blk) then (E_OK, rel_area c body_of append_freed blk m) else (E_PAR, m).
Proof.
  unfold knl_rel_blk. cbv zeta. change (if blk =? pool then areaque im else blk - 8) with (hdr c blk).
  rewrite chkAreaFlag_inuse. destruct (inuse m (hdr c blk)); [|done]. cbn [negb]. unfold rel_area, merge_before, append_freed. cbv zeta.
  fold (merge_after (hdr c blk) (clrAreaFlag (hdr c blk) AREA_USE m)).
  generalize (merge_after (hdr c blk) (clrAreaFlag (hdr c blk) AREA_USE m)). intros m1.
  by destruct (negb (chkAreaFlag (qprev m1 (hdr c blk)) AREA_USE m1)).
Qed.

(** A block is given back; a free area is refused. *)
Lemma rel_blk_ok m A p : heap_ok c m A → p ∈ A →
  if inuse m (hdr c p.1)
  then ∃ m', knl_rel_blk im pool p.1 m = (E_OK, m') ∧ gave_back c m A p m'
  else knl_rel_blk im pool p.1 m = (E_PAR, m).
Proof.
  intros Hok Hp. rewrite rel_blk_eq. destruct (inuse m (hdr c p.1)) eqn:Hu; [|done].
  eexists. split; [done|]. apply (rel_area_spec c Hc); [apply body_hdr|apply freed_registers|done|].
  by apply elem_of_sel.
Qed.

(** The queues [init_mempool] sets up, before the pool is registered as a free area. *)
Lemma init_pool_queues m :
  let m1 := QueInit (freeque im) (QueInit (areaque im) m) in
  let m2 := knl_insertAreaQue (areaque im) (areaque_end im) m1 in
  let m3 := setAreaFlag (areaque_end im) AREA_USE m2 in
  16 <= memsz im → (8 | memsz im) →
  returning c m3 [] (pool, pool + memsz im) [].
Proof.
  intros m1 m2 m3 H16 H8. destruct (hc_even c Hc) as (He1 & He2 & He3). simpl in He1, He2, He3.
  assert (Hd : freeque im = areaque im + 8 ∧ areaque_end im = areaque im + 16) by (unfold freeque, areaque, areaque_end; lia).
  assert (Hh : hdr c pool = areaque im) by (unfold hdr; simpl; by rewrite Z.eqb_refl).
  assert (Hi : ∀ x, qnext m1 x = (if decide (x = freeque im) then x else if decide (x = areaque im) then x else qnext m x) ∧
                    qprev m1 x = (if decide (x = freeque im) then x else if decide (x = areaque im) then x else qprev m x)).
  { intros x. unfold m1. rewrite !QueInit_next, !QueInit_prev. by repeat case_decide; subst. }
  clearbody m1.
  assert (H1 : ringl (mask m1) [areaque im] ∧ ring m1 (freeque im) []).
  { destruct (Hi (areaque im)) as [Ea Eb], (Hi (freeque im)) as [Ec Ed].
    rewrite decide_False, decide_True in Ea, Eb by lia. rewrite decide_True in Ec, Ed by done.
    split; (split; [apply NoDup_singleton|]); simpl; rewrite ?Ea, ?Eb, ?Ec, ?Ed; [|done].
    split_and!; [done| |done]. by apply Mask_even. }
  destruct H1 as [Hr1 Hf1]. pose proof (ringl_links _ [] _ [] Hr1) as [Hn1 Hp1].
  change (qnext m1 (areaque im) = areaque im) in Hn1. change (Mask (qprev m1 (areaque im)) = areaque im) in Hp1.
  assert (Hm2 : ∀ x, _) by (intros x; exact (insertAreaQue_masked (areaque im) (areaque_end im) m1 x ltac:(lia) ltac:(rewrite Hn1; lia) ltac:(rewrite Hn1; exact Hp1) He3)).
  assert (Hr2 : ringl (mask m2) [areaque im; areaque_end im]).
  { eapply ringl_frame; [|apply (ringl_insert _ [] _ [] (areaque_end im) Hr1); cbn [app]; rewrite list_elem_of_singleton; lia]. intros x _. split; apply Hm2. }
  assert (Hf2 : ring m2 (freeque im) []).
  { eapply ring_frame; [|exact Hf1]. intros x ->%list_elem_of_singleton.
    apply (insertAreaQue_other (areaque im) (areaque_end im) m1 (freeque im)); [lia|lia|lia|rewrite Hn1; lia]. }
  unfold returning. cbn [fst]. split; [|split].
  - rewrite Hh. unfold m3. rewrite inuse_set, decide_False by lia. unfold m2.
    destruct (Hm2 (areaque im)) as (_ & _ & ->). rewrite decide_False by lia.
    unfold inuse. destruct (Hi (areaque im)) as [_ ->]. rewrite decide_False, decide_True by lia.
    by rewrite <- Z.negb_even, He2.
  - simpl. unfold asize. simpl. split_and!; [done|lia|by replace (pool + memsz im - pool) with (memsz im) by lia|done].
  - unfold nodes. simpl. rewrite Hh. eapply (mask_keep [areaque im; areaque_end im] m2); [|exact Hr2]. intros x _.
    split; [done|]. unfold m3. by rewrite Mask_set_flag.
  - unfold m3. rewrite inuse_set. by rewrite decide_True.
  - done.
  - constructor.
  - by intros p ?%elem_of_nil.
  - exists []. split; [done|]. split_and!; [|constructor|constructor].
    eapply ring_frame; [|exact Hf2]. intros x ->%list_elem_of_singleton. split; [done|].
    change (freeque (hc_im c)) with (freeque im). unfold m3, setAreaFlag. cbn [set_qprev qprev]. by rewrite fn_lookup_insert_ne by lia.
Qed.

(** A new pool is one free area. *)
Lemma init_mempool_ok m : 16 <= memsz im → (8 | memsz im) →
  let A := [(pool, pool + memsz im)] in
  heap_ok c (init_mempool im pool m) A ∧ sel c true (init_mempool im pool m) A = [].
Proof.
  intros H16 H8 A. pose proof (init_pool_queues m H16 H8) as Hret.
  destruct (end_return c Hc (knl_appendFreeAreaBound im pool) _ [] (pool, pool + memsz im) []
              (bound_registers _) Hret I I) as (Hok & Hs & _); [by intros [=]..|].
  assert (Hh : hdr c (pool, pool + memsz im).1 = areaque im) by (unfold hdr; simpl; by rewrite Z.eqb_refl).
  rewrite Hh in Hok, Hs. split; [exact Hok|exact Hs].
Qed.
End pool.

(** ** The sums tk_ref_mpl reports *)

Definition total (S : list area) : Z := foldr (λ p n, asize p + n) 0 S.

Lemma total_app S1 S2 : total (S1 ++ S2) = total S1 + total S2.
Proof. induction S1 as [|p S1 IH]; simpl; [done|]. lia. Qed.

Lemma total_perm S1 S2 : S1 ≡ₚ S2 → total S1 = total S2.
Proof. induction 1; simpl; lia. Qed.

Lemma total_length S : (∀ p, p ∈ S → 0 < asize p) → Z.of_nat (length S) <= total S.
Proof.
  induction S as [|p S IH]; simpl; [lia|]. intros H. assert (0 < asize p) by (apply H; left).
  assert (Z.of_nat (length S) <= total S) by (apply IH; intros; apply H; by right). lia.
Qed.

Lemma seg_total lo A e : seg lo A e → total A + 8 * Z.of_nat (length A) = e - lo ∧ ∀ p, p ∈ A → 0 < asize p.
Proof.
  revert lo. induction A as [|p A IH]; intros lo; simpl.
  - intros ->. split; [lia|]. by intros p ?%elem_of_nil.
  - intros (<- & ? & _ & Hs). destruct (IH _ Hs) as [E Hp]. unfold asize at 1. split; [lia|].
    intros q [->|Hq]%elem_of_cons; [lia|by apply Hp].
Qed.

Lemma total_sel c b m A : (∀ p, p ∈ A → 0 < asize p) → 0 <= total (sel c b m A) <= total A.
Proof.
  induction A as [|p A IH]; intros H; [done|]. rewrite sel_cons.
  assert (0 < asize p) by (apply H; left).
  assert (0 <= total (sel c b m A) <= total A) by (apply IH; intros; apply H; by right).
  case_decide; simpl; lia.
Qed.

Lemma nloop_S {S R : Type} n (f : S → S + R) s :
  nloop (Datatypes.S n) f s = match f s with inl s' => nloop n f s' | inr r => inr r end.
Proof. done. Qed.

Lemma add_same_loop blksz m p cs f :
  chain m p cs → Forall (λ g, asize g = blksz) cs → (∀ g, g ∈ cs → 0 < g.1 ∧ 0 < asize g) →
  0 <= f → f + total cs < 2 ^ 31 →
  nloop (S (length cs)) (add_same blksz m) (qnext m p, f) = inr (f + total cs).
Proof.
  revert p f. induction cs as [|g cs IH]; intros p f Hch Hsz Hpos Hf Ht.
  - simpl in Hch. simpl nloop. unfold add_same. rewrite Hch. simpl. f_equal. lia.
  - destruct Hch as (Hn & _ & _ & Hch). apply Forall_cons in Hsz as [Hg Hsz]. destruct (Hpos g) as [? ?]; [left|].
    destruct (total_sel (pcfg (mkIMACB 0 0) 0) true m cs) as [Ht0 Ht1]; [intros; apply Hpos; by right|].
    simpl total in Ht |- *. rewrite nloop_S. unfold add_same at 1. rewrite Hn, (proj2 (Z.eqb_neq _ _)) by (unfold NULL; lia).
    rewrite s32_small by lia. rewrite IH; [f_equal; lia|done|done| |lia|lia].
    intros; apply Hpos; by right.
Qed.

Section total.
Context (im : IMACB) (m : qmem Z) (F : list (area * list area)).
Abbreviation h := (freeque im).
Context (HF : freeF m h F) (Hap : apart h (members F)) (Ht : total (members F) < 2 ^ 31).

Lemma member_pos p : p ∈ members F → 0 < p.1 ∧ 0 < asize p.
Proof. intros Hp. destruct Hap as (_ & _ & H & _). destruct (H p Hp) as (? & [? _] & _). done. Qed.

Lemma total_part S1 S2 : members F = S1 ++ S2 → 0 <= total S1 ∧ 0 <= total S2 ∧ total S1 + total S2 < 2 ^ 31.
Proof.
  intros E. rewrite E, total_app in Ht.
  pose proof (total_length S1). pose proof (total_length S2).
  assert (∀ p, p ∈ S1 → 0 < asize p) by (intros; apply member_pos; rewrite E; apply elem_of_app; by left).
  assert (∀ p, p ∈ S2 → 0 < asize p) by (intros; apply member_pos; rewrite E; apply elem_of_app; by right).
  repeat match goal with H : _ → _ |- _ => specialize (H ltac:(done)) end. lia.
Qed.

Lemma add_class_loop F1 F2 :
  F = F1 ++ F2 →
  nloop (S (length F2)) (add_class im m) (hd h (heads F2), total (members F1)) = inr (total (members F)).
Proof.
  revert F1. induction F2 as [|d F2 IH]; intros F1 HE.
  - rewrite nloop_S. unfold add_class at 1. simpl hd. rewrite Z.eqb_refl. by rewrite HE, app_nil_r.
  - rewrite nloop_S. change (hd h (heads (d :: F2))) with d.1.1.
    destruct (head_size m h F HF Hap d) as (Hz & Hp & Hne); [rewrite HE; apply elem_of_app; right; left|].
    destruct HF as (Hr & Hcl & _). rewrite Forall_forall in Hcl.
    destruct (Hcl d) as (_ & Hch & Hcs); [rewrite HE; apply elem_of_app; right; left|].
    assert (HM : members F = (members F1 ++ [d.1] ++ d.2) ++ members F2) by (rewrite HE, members_app, members_cons; simpl; by rewrite <- app_assoc).
    destruct (total_part _ _ HM) as (_ & H2 & H12). rewrite !total_app in H12. simpl total in H12.
    destruct (total_part (members F1) (d.1 :: d.2 ++ members F2)) as (H1 & _); [by rewrite HM, <- !app_assoc|].
    assert (Hpos : ∀ g, g ∈ d.2 → 0 < g.1 ∧ 0 < asize g).
    { intros g Hg. apply member_pos. rewrite HM, !elem_of_app. auto. }
    pose proof (total_length d.2 (λ g Hg, proj2 (Hpos g Hg))) as Hl.
    unfold add_class at 1. rewrite (proj2 (Z.eqb_neq _ _)) by done. rewrite Hz, s32_small by lia. cbv zeta.
    rewrite (ploop_enough (S (length d.2)) _ _ _ (total (members F1) + asize d.1 + total d.2)).
    + assert (Hn : qnext m d.1.1 = hd h (heads F2)).
      { rewrite HE, heads_app in Hr. by apply ring_next in Hr. }
      assert (E : total (members F1) + asize d.1 + total d.2 = total (members (F1 ++ [d]))).
      { rewrite members_app, total_app, members_cons. simpl. rewrite app_nil_r. lia. }
      rewrite Hn, E. apply (IH (F1 ++ [d])). by rewrite HE, <- app_assoc.
    + unfold SFUEL. lia.
    + apply add_same_loop; [done|done|done|lia|lia].
Qed.

Lemma free_total_classes : free_total im m = total (members F).
Proof.
  unfold free_total. pose proof (proj1 HF) as Hr. rewrite (ring_head _ _ _ Hr).
  by rewrite (ploop_enough (S (length F)) _ _ _ (total (members F)));
    [|pose proof (search_fuel m h F HF Hap (S (length F))); lia|apply (add_class_loop []); done].
Qed.
End total.

Lemma free_total_spec im m S :
  freeq m (freeque im) S → apart (freeque im) S → total S < 2 ^ 31 → free_total im m = total S.
Proof.
  intros (F & HP & HF) Hap Ht. rewrite <- (total_perm _ _ HP) in *. apply free_total_classes; [done|by rewrite HP|done].
Qed.

(** ** The pool and its queue *)

Definition mpl_cfg (i : Z) (k : K) : hcfg := pcfg (mpl_im i k) (mpl_mempool (k_mpl k i)).
Definition need_of (k : K) (y : node) : Z := (wi_mpl (t_winfo (s_tcb (k_s k) (as_tcb y)))).1.
Definition dest_of (k : K) (y : node) : Z := (wi_mpl (t_winfo (s_tcb (k_s k) (as_tcb y)))).2.

(** The free areas and the blocks of pool [i]. *)
Definition free_areas (i : Z) (k : K) (A : list area) : list area := sel (mpl_cfg i k) false (k_heap k) A.
Definition pool_blocks (i : Z) (k : K) (A : list area) : list area := sel (mpl_cfg i k) true (k_heap k) A.

(** The first request of the queue does not fit. *)
Definition mpl_stable (need : node → Z) (S : list area) (l : list node) : Prop :=
  match l with [] => True | y :: _ => Forall (λ p, asize p < need y) S end.

(** Pool [i] is in use, consists of the areas [A], and the tasks [l] wait for it. *)
Record mpl_used (k : K) (Q : gmap node (list node)) (i : Z) (A : list area) (l : list node) : Prop := {
  mu_id : mplid (k_mpl k i) = ID_MPL i;
  mu_cfg : hcfg_ok (mpl_cfg i k);
  mu_heap : heap_ok (mpl_cfg i k) (k_heap k) A;
  mu_queue : Q !! MPLQ i = Some l;
  mu_need : ∀ y, y ∈ l → 16 <= need_of k y < 2 ^ 31 ∧ (8 | need_of k y);
  mu_stable : mpl_stable (need_of k) (free_areas i k A) l
}.

Lemma roundSize_request sz : 0 < sz <= MAX_ALLOCATE → roundSize sz = request sz.
Proof.
  intros Hs. destruct (request_spec sz Hs) as [<- _]. unfold roundSize.
  destruct (Z.ltb_spec sz MIN_FRAGMENT); [|done]. by vm_compute.
Qed.

Lemma heap_free_apart c m A : hcfg_ok c → heap_ok c m A →
  freeq m (freeque (hc_im c)) (sel c false m A) ∧ apart (freeque (hc_im c)) (sel c false m A).
Proof.
  intros Hc [Hst _]. split; [apply Hst|]. apply (areas_apart c Hc A); [apply Hst|apply Hst|apply Hst].
Qed.

(** [knl_MaxFreeSize] tells whether a request fits. *)
Lemma max_free_spec im pool m A : hcfg_ok (pcfg im pool) → heap_ok (pcfg im pool) m A →
  (∀ p, p ∈ sel (pcfg im pool) false m A → asize p <= knl_MaxFreeSize im m) ∧
  (knl_MaxFreeSize im m = 0 ∨ ∃ p, p ∈ sel (pcfg im pool) false m A ∧ asize p = knl_MaxFreeSize im m).
Proof.
  intros Hc Hok. destruct (heap_free_apart _ m A Hc Hok) as [Hf Hap].
  destruct (largest_free im m _ Hf Hap) as [He Hl]. unfold knl_MaxFreeSize. rewrite He.
  case_bool_decide as E.
  - split; [|by left]. rewrite E. by intros p ?%elem_of_nil.
  - destruct (Hl E) as (p & Hp & -> & HF). rewrite Forall_forall in HF. split; [done|]. right. by exists p.
Qed.

Lemma max_free_fits im pool m A n : hcfg_ok (pcfg im pool) → heap_ok (pcfg im pool) m A → 0 < n →
  if knl_MaxFreeSize im m <? n then Forall (λ p, asize p < n) (sel (pcfg im pool) false m A)
  else ∃ p, p ∈ sel (pcfg im pool) false m A ∧ n <= asize p.
Proof.
  intros Hc Hok Hn. destruct (max_free_spec im pool m A Hc Hok) as [Hle Hat].
  destruct (Z.ltb_spec (knl_MaxFreeSize im m) n).
  - apply Forall_forall. intros p Hp. specialize (Hle p Hp). lia.
  - destruct Hat as [E|(p & Hp & E)]; [lia|]. exists p. split; [done|lia].
Qed.

(** Only the scheduler, the bytes and the heap cells have changed. *)
Definition pool_only (k k' : K) : Prop := k' = set_k_mem (k_mem k') (set_k_heap (k_heap k') (set_k_s (k_s k') k)).

Lemma pool_only_trans k1 k2 k3 : pool_only k1 k2 → pool_only k2 k3 → pool_only k1 k3.
Proof. unfold pool_only, set_k_mem, set_k_heap, set_k_s. destruct k1, k2, k3. simpl. intros [= -> -> -> -> -> -> -> -> -> -> ->] [= -> -> -> -> -> -> -> -> -> -> ->]. done. Qed.

Lemma pool_only_refl k : pool_only k k.
Proof. unfold pool_only. by destruct k. Qed.

Lemma pool_only_cfg i k k' : pool_only k k' → mpl_cfg i k' = mpl_cfg i k ∧ mpl_im i k' = mpl_im i k ∧ k_mpl k' = k_mpl k.
Proof. intros ->. done. Qed.

(** Blocks [bs] for the tasks [rel]. *)
Definition served (k : K) (rel : list node) (bs : list area) : Prop :=
  Forall2 (λ y b, need_of k y <= asize b < need_of k y + 24) rel bs.
Definition stored_at (k : K) (rel : list node) (bs : list area) (m : Z → Z) : Z → Z :=
  foldl (λ m yb, st32 (dest_of k yb.1) yb.2.1 m) m (zip rel bs).

(** Granting the first request, for which there is a free area [p]. *)
Definition mpl_grant (i : Z) (y : node) (k : K) : K :=
  let '(blk, k') := mpl_get_blk i (need_of k y) k in
  upd_s (knl_wait_release_ok (as_tcb y)) (upd_mem (st32 (dest_of k y) blk) k').

(** A block for [n] bytes has been taken out of the free areas. *)
Record taken (k : K) (i : Z) (A : list area) (n : Z) (b : area) (k' : K) (A' : list area) : Prop := {
  ta_size : n <= asize b < n + 24;
  ta_heap : heap_ok (mpl_cfg i k) (k_heap k') A';
  ta_blocks : sel (mpl_cfg i k) true (k_heap k') A' ≡ₚ b :: pool_blocks i k A;
  ta_kept : kept (in_blocks (mpl_cfg i k) (k_heap k) A) (k_heap k) (k_heap k');
  ta_free : shrunk (mpl_cfg i k) (k_heap k) A (k_heap k') A'
}.

Lemma get_blk_taken i n k A :
  hcfg_ok (mpl_cfg i k) → heap_ok (mpl_cfg i k) (k_heap k) A → 16 <= n < 2 ^ 31 → (8 | n) →
  (mpl_get_blk i n k = (NULL, k) ∧ Forall (λ p, asize p < n) (free_areas i k A)) ∨
  (∃ p b A' m', p ∈ free_areas i k A ∧ n <= asize p ∧ mpl_get_blk i n k = (b.1, set_k_heap m' k) ∧ b.1 ≠ NULL ∧
     taken k i A n b (set_k_heap m' k) A').
Proof.
  intros Hc Hok Hn H8. unfold mpl_get_blk.
  destruct (get_blk_ok (mpl_im i k) _ Hc n (k_heap k) A Hok Hn H8)
    as [[-> HF]|(p & hi & A' & Hp & Hle & _ & Er & Hhi & Hsz & Hok' & HP & Hk & Hsh)].
  - left. split; [by destruct k|done].
  - right. destruct (knl_get_blk _ _ _ _) as [blk m']. simpl in Er, Hok', HP, Hk, Hsh. subst blk.
    exists p, (p.1, hi), A', m'. pose proof Hp as [_ HpA]%elem_of_sel.
    destruct (seg_in _ _ _ _ (st_seg _ _ _ _ (proj1 Hok)) HpA) as (Hlo & _). pose proof (hc_pos _ Hc).
    split_and!; [done|done|done| |].
    + unfold NULL. change (mpl_mempool (k_mpl k i)) with (hc_top (mpl_cfg i k)) in *. simpl. simpl in Hlo. simpl in H. lia.
    + constructor; try done.
Qed.

Lemma grant_spec i y l k Q A :
  kinv (k_s k) Q → Q !! MPLQ i = Some (y :: l) → hcfg_ok (mpl_cfg i k) → heap_ok (mpl_cfg i k) (k_heap k) A →
  16 <= need_of k y < 2 ^ 31 → (8 | need_of k y) →
  (knl_MaxFreeSize (mpl_im i k) (k_heap k) <? need_of k y) = false →
  ∃ b A' Q', taken k i A (need_of k y) b (mpl_grant i y k) A' ∧
    rel_post (MPLQ i) [y] E_OK (k_s k) (k_s (mpl_grant i y k)) Q Q' ∧ Q' !! MPLQ i = Some l ∧ y ∉ l ∧
    k_mem (mpl_grant i y k) = st32 (dest_of k y) b.1 (k_mem k) ∧ pool_only k (mpl_grant i y k) ∧
    (∀ z, t_winfo (s_tcb (k_s (mpl_grant i y k)) z) = t_winfo (s_tcb (k_s k) z)).
Proof.
  intros Hk HQ Hc Hok Hn H8 Hfit. pose proof (max_free_fits _ _ _ _ (need_of k y) Hc Hok ltac:(lia)) as Hm.
  rewrite Hfit in Hm. destruct Hm as (q & Hq & Hle).
  destruct (get_blk_taken i _ k A Hc Hok Hn H8) as [[_ HF]|(p & b & A' & m' & Hp & Hpn & E & _ & Ht)].
  { exfalso. rewrite Forall_forall in HF. specialize (HF q Hq). lia. }
  destruct (kinv_release_at (MPLQ i) [] l y E_OK (k_s k) Q Hk eq_refl HQ) as (Q' & _ & _ & Hr & HQ' & Hnin).
  unfold mpl_grant. rewrite E. exists b, A', Q'.
  assert (Hw : ∀ z, t_winfo (s_tcb (knl_wait_release_ok (as_tcb y) (k_s k)) z) = t_winfo (s_tcb (k_s k) z)).
  { intros z. exact (rp_tcb_field t_winfo _ _ _ _ _ _ _ z ltac:(done) Hr). }
  split_and!; [by destruct Ht|done|done|done|done|done|done].
Qed.

(** The result of [knl_mpl_wakeup]: the tasks [rel] at the front of the queue got the
    blocks [bs], and the first request that is left does not fit. *)
Record woken (k : K) (Q : gmap node (list node)) (i : Z) (A : list area) (l rel rest : list node)
    (bs : list area) (k' : K) (A' : list area) (Q' : gmap node (list node)) : Prop := {
  wo_split : l = rel ++ rest;
  wo_rel : rel_post (MPLQ i) rel E_OK (k_s k) (k_s k') Q Q';
  wo_queue : Q' !! MPLQ i = Some rest;
  wo_served : served k rel bs;
  wo_stored : k_mem k' = stored_at k rel bs (k_mem k);
  wo_heap : heap_ok (mpl_cfg i k) (k_heap k') A';
  wo_blocks : sel (mpl_cfg i k) true (k_heap k') A' ≡ₚ bs ++ pool_blocks i k A;
  wo_kept : kept (in_blocks (mpl_cfg i k) (k_heap k) A) (k_heap k) (k_heap k');
  wo_stable : mpl_stable (need_of k) (sel (mpl_cfg i k) false (k_heap k') A') rest;
  wo_only : pool_only k k'
}.

Lemma wakeup_loop_eq fuel i k Q y l :
  kinv (k_s k) Q → Q !! MPLQ i = Some (y :: l) →
  mpl_wakeup_loop (S fuel) i k =
    if knl_MaxFreeSize (mpl_im i k) (k_heap k) <? need_of k y then k else mpl_wakeup_loop fuel i (mpl_grant i y k).
Proof.
  intros Hk HQ. cbn [mpl_wakeup_loop]. rewrite (kinvx_empty _ _ _ _ _ _ Hk HQ), (kinvx_first _ _ _ _ _ _ Hk HQ).
  rewrite bool_decide_eq_false_2 by done. cbn [hd]. unfold mpl_grant, need_of, dest_of.
  destruct (wi_mpl _) as [n d]. cbn [fst snd]. destruct (_ <? n); [done|].
  by destruct (mpl_get_blk i n k) as [blk k'].
Qed.

Lemma wakeup_loop_spec fuel i l k Q A :
  kinv (k_s k) Q → Q !! MPLQ i = Some l → hcfg_ok (mpl_cfg i k) → heap_ok (mpl_cfg i k) (k_heap k) A →
  (∀ y, y ∈ l → 16 <= need_of k y < 2 ^ 31 ∧ (8 | need_of k y)) → (length l ≤ fuel)%nat →
  ∃ rel rest bs A' Q', woken k Q i A l rel rest bs (mpl_wakeup_loop fuel i k) A' Q'.
Proof.
  revert l k Q A. induction fuel as [|fuel IH]; intros l k Q A Hk HQ Hc Hok Hn Hf.
  { destruct l; [|simpl in Hf; lia]. exists [], [], [], A, Q. constructor; try done; [constructor|apply pool_only_refl]. }
  destruct l as [|y l].
  { cbn [mpl_wakeup_loop]. rewrite (kinvx_empty _ _ _ _ _ _ Hk HQ).
    exists [], [], [], A, Q. constructor; try done; [constructor|apply pool_only_refl]. }
  destruct (Hn y) as [Hny H8]; [left|]. rewrite (wakeup_loop_eq fuel i k Q y l Hk HQ).
  destruct (knl_MaxFreeSize (mpl_im i k) (k_heap k) <? need_of k y) eqn:Hfit.
  { pose proof (max_free_fits _ _ _ _ (need_of k y) Hc Hok ltac:(lia)) as Hm. rewrite Hfit in Hm.
    exists [], (y :: l), [], A, Q. constructor; try done; [constructor|apply pool_only_refl]. }
  destruct (grant_spec i y l k Q A Hk HQ Hc Hok Hny H8 Hfit) as (b & A1 & Q1 & [Hsz Hh Hb Hkp _] & Hr & HQ1 & Hnin & Hmem & Ho & Hw).
  set (k1 := mpl_grant i y k) in *. destruct (pool_only_cfg i _ _ Ho) as (Ec & _ & _).
  assert (Hneed : ∀ z, need_of k1 z = need_of k z) by (intros z; unfold need_of; by rewrite Hw).
  assert (Hdest : ∀ z, dest_of k1 z = dest_of k z) by (intros z; unfold dest_of; by rewrite Hw).
  destruct (IH l k1 Q1 A1) as (rel & rest & bs & A' & Q' & [-> Hrel HQ' Hsv Hst Hh' Hb' Hkp' Hstb Ho']).
  { apply Hr. } { done. } { by rewrite Ec. } { by rewrite Ec. }
  { intros z Hz. rewrite Hneed. apply Hn. by right. } { simpl in Hf. lia. }
  rewrite Ec in Hh', Hb', Hkp', Hstb. unfold pool_blocks in Hb'. rewrite Ec in Hb'.
  exists (y :: rel), rest, (b :: bs), A', Q'. constructor; try done.
  - apply (rel_post_app _ [y] _ _ _ _ _ _ _ _ Hr Hrel). intros z ->%list_elem_of_singleton Hz.
    apply Hnin, elem_of_app. by left.
  - constructor; [done|]. eapply Forall2_impl; [exact Hsv|]. intros z a. simpl. by rewrite Hneed.
  - rewrite Hst, Hmem. unfold stored_at. simpl. generalize (st32 (dest_of k y) b.1 (k_mem k)). clear -Hdest.
    generalize (zip rel bs). intros zs. induction zs as [|z zs IH]; intros m; simpl; [done|]. by rewrite Hdest, IH.
  - rewrite Hb'. rewrite Hb. simpl. by rewrite Permutation_middle.
  - eapply kept_trans; [exact Hkp|]. eapply kept_weaken; [|exact Hkp'].
    intros x (q & Hq & Hx). exists q. split; [|done]. rewrite Hb. by right.
  - unfold mpl_stable in *. destruct rest as [|z rest]; [done|]. by rewrite <- Hneed.
  - by eapply pool_only_trans.
Qed.

Lemma wakeup_spec i l k Q A :
  kinv (k_s k) Q → Q !! MPLQ i = Some l → hcfg_ok (mpl_cfg i k) → heap_ok (mpl_cfg i k) (k_heap k) A →
  (∀ y, y ∈ l → 16 <= need_of k y < 2 ^ 31 ∧ (8 | need_of k y)) →
  ∃ rel rest bs A' Q', woken k Q i A l rel rest bs (knl_mpl_wakeup i k) A' Q'.
Proof.
  intros Hk HQ Hc Hok Hn. apply (wakeup_loop_spec QFUEL i l k Q A); [done..|].
  by apply (length_wait_queue (k_s k) Q (MPLQ i) l).
Qed.

(** ** The properties of the calls *)

Lemma mpl_noexs k Q id A l :
  CHK_MPLID id = true → mpl_used k Q (get_mplcb id) A l → (mplid (k_mpl k (get_mplcb id)) =? 0) = false.
Proof.
  intros Hid Hu. rewrite (mu_id _ _ _ _ _ Hu). unfold get_mplcb. rewrite ID_INDEX_MPL.
  apply CHK_MPLID_range in Hid as [_ ?]. by apply Z.eqb_neq.
Qed.

Lemma mpl_used_frame k k' Q Q' i A l :
  mpl_cfg i k' = mpl_cfg i k → mplid (k_mpl k' i) = mplid (k_mpl k i) → k_heap k' = k_heap k → Q' !! MPLQ i = Some l →
  (∀ y, y ∈ l → need_of k' y = need_of k y) → mpl_used k Q i A l → mpl_used k' Q' i A l.
Proof.
  intros Ec Ei Eh HQ Hl []. constructor; rewrite ?Ec, ?Eh, ?Ei; try done.
  - intros y Hy. rewrite Hl by done. auto.
  - unfold free_areas, mpl_stable in *. rewrite Ec, Eh. destruct l; [done|]. rewrite Hl by left. done.
Qed.

(** C28: The return of a block to a variable-size memory pool.  The header of a free area
    is recognized: E_PAR, and nothing changes.  A block that is in use is given back,
    merged with the free areas next to it, and then the waiting tasks are served
    strictly in the order of the queue as long as the first request fits: each of them
    is released with E_OK, its own new block's address stored where it asked for it, a
    block at least as large as its request and not overlapping any other; no other
    block of the pool changes.  When the call ends, the first request still waiting is
    larger than every free area. *)
Theorem tk_rel_mpl_spec (k : K) (Q : gmap node (list node)) (id : Z) (A : list area) (l : list node) (p : area) :
  let i := get_mplcb id in
  kinv (k_s k) Q → in_ddsp (k_s k) = false → CHK_MPLID id = true → mpl_used k Q i A l → p ∈ A →
  if inuse (k_heap k) (hdr (mpl_cfg i k) p.1) then
    ∃ k' rel rest bs A' Q', tk_rel_mpl id p.1 k = (E_OK, k') ∧ l = rel ++ rest ∧
      rel_post (MPLQ i) rel E_OK (k_s k) (k_s k') Q Q' ∧ mpl_used k' Q' i A' rest ∧
      served k rel bs ∧ k_mem k' = stored_at k rel bs (k_mem k) ∧
      p :: pool_blocks i k' A' ≡ₚ bs ++ pool_blocks i k A ∧
      kept (λ x, ∃ q, q ∈ pool_blocks i k A ∧ q ≠ p ∧ q.1 <= x < q.2) (k_heap k) (k_heap k') ∧ pool_only k k'
  else tk_rel_mpl id p.1 k = (E_PAR, k).
Proof.
  intros i Hk Hdd Hid Hu Hp. pose proof (mpl_noexs _ _ _ _ _ Hid Hu) as Hne. fold i in Hne.
  pose proof Hu as [Hi Hc Hok HQ Hn Hst]. set (cb := k_mpl k i) in *.
  destruct (seg_in _ _ _ _ (st_seg _ _ _ _ (proj1 Hok)) Hp) as (H1 & H2 & H3 & _). simpl in H1, H3. fold cb in H1, H3.
  pose proof (hc_max _ Hc) as Hmax. simpl in Hmax. fold cb in Hmax. pose proof (hc_pos _ Hc) as Hpos. simpl in Hpos. fold cb in Hpos.
  assert (E : tk_rel_mpl id p.1 k =
    let '(ercd, m) := knl_rel_blk (mpl_im i k) (mpl_mempool cb) p.1 (k_heap k) in
    if ercd <? E_OK then (ercd, set_k_heap m k) else (ercd, knl_mpl_wakeup i (set_k_heap m k))).
  { unfold tk_rel_mpl. rewrite Hid, Hdd. cbn [negb]. fold i cb. rewrite Hne.
    rewrite (proj2 (Z.ltb_ge _ _)) by lia. rewrite (proj2 (Z.ltb_ge _ _)); [done|]. rewrite u32_small; lia. }
  rewrite E. pose proof (rel_blk_ok (mpl_im i k) (mpl_mempool cb) Hc (k_heap k) A p Hok Hp) as Hrel.
  change (pcfg (mpl_im i k) (mpl_mempool cb)) with (mpl_cfg i k) in Hrel.
  destruct (inuse (k_heap k) (hdr (mpl_cfg i k) p.1)).
  - destruct Hrel as (m1 & -> & A1 & Hok1 & HP & Hk1). change (E_OK <? E_OK) with false. cbv iota.
    set (k1 := set_k_heap m1 k). destruct (wakeup_spec i l k1 Q A1 Hk HQ Hc Hok1 Hn)
      as (rel & rest & bs & A' & Q' & [Hl Hr HQ' Hsv Hmem Hok' Hb Hkp Hstb Ho]).
    set (k' := knl_mpl_wakeup i k1) in *. destruct (pool_only_cfg i _ _ Ho) as (Ec & Ei & Em).
    exists k', rel, rest, bs, A', Q'. split_and!; try done.
    + constructor; rewrite ?Ec, ?Em; try done.
      * intros y Hy. assert (need_of k' y = need_of k y) as ->.
        { unfold need_of. by rewrite (rp_tcb_field t_winfo _ _ _ _ _ _ _ (as_tcb y) ltac:(done) Hr). }
        apply Hn. rewrite Hl. apply elem_of_app. by right.
      * unfold free_areas. rewrite Ec. unfold mpl_stable in *. destruct rest as [|y rest]; [done|].
        assert (need_of k' y = need_of k y) as ->; [|done].
        unfold need_of. by rewrite (rp_tcb_field t_winfo _ _ _ _ _ _ _ (as_tcb y) ltac:(done) Hr).
    + unfold pool_blocks at 1. rewrite Ec. change (mpl_cfg i k1) with (mpl_cfg i k). change (mpl_cfg i k1) with (mpl_cfg i k) in Hb. rewrite Hb.
      unfold pool_blocks at 2. rewrite HP. by rewrite Permutation_middle.
    + eapply kept_trans; [exact Hk1|]. eapply kept_weaken; [|exact Hkp]. intros x (q & Hq & Hqp & Hx). exists q. split; [|done].
      unfold pool_blocks in Hq. rewrite HP in Hq. apply elem_of_cons in Hq as [?|?]; done.
  - rewrite Hrel. by destruct k.
Qed.

(** A pool of 64 bytes at 8192, new and with one block of 40 bytes. *)
Definition ex_mpl_im : IMACB := mkIMACB 4116 64.
Definition ex_pool : qmem Z := init_mempool ex_mpl_im 8192 (Qmem (λ x, x) (λ x, x)).
Definition ex_pool40 : qmem Z := (knl_get_blk ex_mpl_im 8192 40 ex_pool).2.
Definition ex_mpl_k (m : qmem Z) (tasks : list TCB) (objs : list (node * list node)) : K :=
  set_k_heap m (upd_mpl 0 (λ _, mkMPLCB 1 0 0 64 8192) (ex_k (ex_sch tasks objs))).

Lemma ex_pool_cfg : hcfg_ok (pcfg ex_mpl_im 8192).
Proof. split; simpl; unfold areaque, freeque, areaque_end; simpl; try lia. Qed.

Lemma ex_pool_ok : heap_ok (pcfg ex_mpl_im 8192) ex_pool [(8192, 8256)].
Proof. apply (init_mempool_ok ex_mpl_im 8192 ex_pool_cfg); [simpl; lia|by exists 8]. Qed.

Lemma ex_pool40_ok : ∃ A hi, heap_ok (pcfg ex_mpl_im 8192) ex_pool40 A ∧
  sel (pcfg ex_mpl_im 8192) true ex_pool40 A ≡ₚ [(8192, hi)].
Proof.
  destruct (get_blk_ok ex_mpl_im 8192 ex_pool_cfg 40 ex_pool _ ex_pool_ok ltac:(lia) ltac:(by exists 5))
    as [[E _]|(p & hi & A' & _ & _ & _ & Ep & _ & _ & Hok & HP & _)].
  - apply (f_equal fst) in E. exfalso. revert E. by vm_compute.
  - exists A', hi. split; [exact Hok|]. assert (p.1 = 8192) as E by (rewrite <- Ep; by vm_compute). rewrite E in HP.
    destruct (init_mempool_ok ex_mpl_im 8192 ex_pool_cfg (Qmem (λ x, x) (λ x, x)) ltac:(simpl; lia) ltac:(by exists 8)) as [_ Hs].
    change (sel (pcfg ex_mpl_im 8192) true ex_pool [(8192, 8256)] = []) in Hs. by rewrite HP, Hs.
Qed.

(** Task 2 waits for 40 bytes; the block of 40 bytes is returned and goes to it. *)
Lemma tk_rel_mpl_spec_witness :
  let tasks := [ex_ready 3; ex_ready 5; ex_waits 2 4 knl_wspec_mpl_tfifo 1 (WI_mpl 40 500)] in
  let objs := [(TIMERQ, [TMEBT 2]); (MPLQ 0, [TSKQ 2]); (FREE_MPL, [MPLQ 1])] in
  let k := ex_mpl_k ex_pool40 tasks objs in
  ∃ k' rest A' Q', tk_rel_mpl 1 8192 k = (E_OK, k') ∧ mpl_used k' Q' 0 A' rest.
Proof.
  intros tasks objs k. destruct ex_pool40_ok as (A & hi & Hok & HP).
  assert (Hk : kinv (k_s k) (ex_Q tasks objs)) by (apply ex_kinv; by vm_compute).
  assert (Hp : (8192, hi) ∈ sel (pcfg ex_mpl_im 8192) true ex_pool40 A) by (rewrite HP; left).
  apply elem_of_sel in Hp as [Hu Hp].
  assert (Hmu : mpl_used k (ex_Q tasks objs) 0 A [TSKQ 2]).
  { constructor; [done|exact ex_pool_cfg|exact Hok|by vm_compute| |].
    - intros y ->%list_elem_of_singleton. assert (E : need_of k (TSKQ 2) = 40) by (by vm_compute). rewrite E. split; [lia|by exists 5].
    - pose proof (max_free_fits ex_mpl_im 8192 ex_pool40 A 40 ex_pool_cfg Hok ltac:(lia)) as Hf.
      assert (E : knl_MaxFreeSize ex_mpl_im ex_pool40 <? 40 = true) by (by vm_compute). rewrite E in Hf. exact Hf. }
  pose proof (tk_rel_mpl_spec k (ex_Q tasks objs) 1 A [TSKQ 2] (8192, hi) Hk ltac:(by vm_compute) eq_refl Hmu Hp) as H.
  cbv zeta in H. change (mpl_cfg (get_mplcb 1) k) with (pcfg ex_mpl_im 8192) in H. change (k_heap k) with ex_pool40 in H.
  rewrite Hu in H. destruct H as (k' & rel & rest & bs & A' & Q' & H1 & _ & _ & H2 & _).
  exists k', rest, A', Q'. split; [exact H1|exact H2].
Defined.

(** The running task goes to wait, or polls. *)
Lemma mpl_wait_spec k Q i A l n p_blk tmout :
  let cb := k_mpl k i in
  let r := mpl_wait i n p_blk tmout k in
  kinv (k_s k) Q → t_state (s_tcb (k_s k) (ctx (k_s k))) = TS_READY → mpl_used k Q i A l →
  16 <= n < 2 ^ 31 → (8 | n) →
  (first_in_line (mplatr cb) (k_s k) (ctx (k_s k)) l = true → Forall (λ p, asize p < n) (free_areas i k A)) →
  r.1 = E_TMOUT ∧ k_heap r.2 = k_heap k ∧
  if tmout =? TMO_POL then kinv (k_s r.2) Q ∧ mpl_used r.2 Q i A l
  else ∃ Q' w, wait_post (gcb i cb) w (WI_mpl n p_blk) l (k_s k) (k_s r.2) Q Q' ∧
               mpl_used r.2 Q' i A (wait_order (k_s k) (mplatr cb) (ctx (k_s k)) l).
Proof.
  intros cb r Hk Hrun Hu Hn Hn8 Hfree. pose proof Hu as [Hi Hc Hok HQ Hneed Hst]. set (c := ctx (k_s k)) in *.
  assert (Hwt : waiting (s_tcb (k_s k) c) = false) by (unfold waiting; by rewrite Hrun).
  set (w := if has (mplatr cb) TA_TPRI then knl_wspec_mpl_tpri else knl_wspec_mpl_tfifo).
  assert (Hne : ∀ y, y ∈ l → c ≠ as_tcb y) by (intros y; by apply (queued_ne_running _ Q (MPLQ i))).
  unfold r, mpl_wait. fold c cb w. cbv zeta. destruct (Z.eqb_spec tmout TMO_POL) as [->|Hp].
  - unfold upd_s, c. cbn [k_s set_k_s]. rewrite wait_on_poll. cbn [fst snd]. split_and!; [simpl; by upd_simpl|done| |].
    { eapply kinvx_ext; [..|by apply (kinv_set_wait w (WI_mpl n p_blk) (k_s k) Q)]; done. }
    apply (mpl_used_frame k _ Q Q); [done|done|done|done| |done].
    intros y Hy. unfold need_of. simpl. rewrite fn_lookup_insert_ne; [done|by apply Hne].
  - destruct (kinv_wait_on (gcb i cb) w (WI_mpl n p_blk) tmout (k_s k) Q l) as (Q' & Hw); try done.
    { change (objid (gcb i cb)) with (mplid (k_mpl k i)). rewrite Hi. unfold w, wait_home.
      by destruct (has (mplatr cb) TA_TPRI); rewrite INDEX_ID_MPL. }
    fold c in Hw. cbn [fst snd]. set (k' := upd_s _ (upd_s _ k)).
    change (knl_gcb_make_wait _ _ _) with (k_s k') in Hw.
    split_and!; [rewrite (wp_ercd _ _ _ _ _ _ _ _ Hw); fold c; by upd_simpl|done|].
    exists Q', w. split; [done|]. pose proof (wp_que _ _ _ _ _ _ _ _ Hw) as HQ'.
    assert (Hold : ∀ y, y ∈ l → need_of k' y = need_of k y).
    { intros y Hy. unfold need_of. rewrite (wp_tcb _ _ _ _ _ _ _ _ Hw), fn_lookup_insert_ne; [done|by apply Hne]. }
    assert (Hnew : need_of k' (TSKQ c) = n)
      by (unfold need_of; rewrite (wp_tcb _ _ _ _ _ _ _ _ Hw); by rewrite fn_lookup_insert).
    constructor; try done.
    + intros y [-> | Hy]%elem_of_wait_order; [by rewrite Hnew|]. rewrite Hold by done. by apply Hneed.
    + destruct (wait_order_head (mplatr cb) (k_s k) c l) as (y & l' & E & Hy). rewrite E. simpl.
      change (free_areas i k' A) with (free_areas i k A).
      destruct (first_in_line (mplatr cb) (k_s k) c l); [rewrite Hy, Hnew; by apply Hfree|].
      destruct l as [|z l]; [done|]. injection Hy as ->. rewrite Hold by left. done.
Qed.

(** C29: A request to a variable-size memory pool.  The size is rounded up to a multiple of
    8, at least 16.  A size larger than the pool is E_PAR.  If the task stands in front of
    the queue and a free area is large enough, it gets, with E_OK, a block of the
    rounded size (or up to 23 bytes more) that overlaps no other; the address is stored
    where it asked for it, and the other blocks keep their contents.  Otherwise a
    poll returns E_TMOUT and leaves the pool alone, and any other time-out puts the task
    into the queue in the order of the pool's attribute.  In all cases the first request
    that waits is larger than every free area. *)
Theorem tk_get_mpl_spec (k : K) (Q : gmap node (list node)) (id blksz p_blk tmout : Z) (A : list area) (l : list node) :
  let i := get_mplcb id in
  let cb := k_mpl k i in
  let n := request blksz in
  let r := tk_get_mpl id blksz p_blk tmout k in
  kinv (k_s k) Q → running (k_s k) → CHK_MPLID id = true → mpl_used k Q i A l →
  0 < blksz <= MAX_ALLOCATE → TMOUT_ERR tmout = false →
  if mplsz cb <? n then r = (E_PAR, k)
  else if first_in_line (mplatr cb) (k_s k) (ctx (k_s k)) l && existsb (λ p, n <=? asize p) (free_areas i k A) then
    ∃ b A' m, r = (E_OK, upd_mem (st32 p_blk b.1) (set_k_heap m k)) ∧
      taken k i A n b (set_k_heap m k) A' ∧ kinv (k_s r.2) Q ∧ mpl_used r.2 Q i A' l
  else r.1 = E_TMOUT ∧ k_heap r.2 = k_heap k ∧
    if tmout =? TMO_POL then kinv (k_s r.2) Q ∧ mpl_used r.2 Q i A l
    else ∃ Q' w, wait_post (gcb i cb) w (WI_mpl n p_blk) l (k_s k) (k_s r.2) Q Q' ∧
                 mpl_used r.2 Q' i A (wait_order (k_s k) (mplatr cb) (ctx (k_s k)) l).
Proof.
  intros i cb n r Hk [Hdd Hrun] Hid Hu Hb Htm. pose proof (mpl_noexs _ _ _ _ _ Hid Hu) as Hne. fold i cb in Hne.
  pose proof Hu as [Hi Hc Hok HQ Hn Hst]. set (c := ctx (k_s k)) in *.
  destruct (request_spec blksz Hb) as (_ & Hn16 & Hn8 & _). fold n in Hn16, Hn8.
  assert (Hwt : waiting (s_tcb (k_s k) c) = false) by (unfold waiting; by rewrite Hrun).
  assert (E : r = if mplsz cb <? n then (E_PAR, k)
    else if first_in_line (mplatr cb) (k_s k) c l then
      let '(blk, k1) := mpl_get_blk i n k in
      if negb (blk =? NULL) then (E_OK, upd_mem (st32 p_blk blk) k1) else mpl_wait i n p_blk tmout k1
    else mpl_wait i n p_blk tmout k).
  { unfold r, tk_get_mpl. rewrite Hid, Htm, Hdd. fold i cb c. rewrite Hne, roundSize_request by done. fold n.
    rewrite (proj2 (Z.ltb_lt _ _)), (proj2 (Z.leb_le _ _)) by lia. cbn [negb andb].
    change (gcb i cb) with (mkGCB (MPLQ i) (mplid cb) (mplatr cb)).
    by rewrite (top_of_wait_queue_spec (mkGCB (MPLQ i) (mplid cb) (mplatr cb)) (k_s k) Q l c Hk eq_refl HQ Hwt). }
  rewrite E. destruct (mplsz cb <? n); [done|]. clear E r.
  destruct (first_in_line (mplatr cb) (k_s k) c l) eqn:Hf; cbn [andb].
  2: { apply (mpl_wait_spec k Q i A l n p_blk tmout); try done. fold c cb. by rewrite Hf. }
  destruct (get_blk_taken i n k A Hc Hok Hn16 Hn8) as [[-> HF]|(p & b & A' & m & Hp & Hle & -> & Hb0 & Ht)].
  - rewrite Forall_forall in HF. destruct (existsb _ _) eqn:Hex.
    { apply existsb_exists in Hex as (q & Hq%list_elem_of_In & Hqn%Z.leb_le). specialize (HF q Hq). lia. }
    change (negb (NULL =? NULL)) with false. cbv iota.
    apply (mpl_wait_spec k Q i A l n p_blk tmout); try done. intros _. by apply Forall_forall.
  - assert (existsb (λ p, n <=? asize p) (free_areas i k A) = true) as ->.
    { apply existsb_exists. exists p. split; [by apply list_elem_of_In|by apply Z.leb_le]. }
    rewrite (proj2 (Z.eqb_neq _ _) Hb0). cbn [negb fst snd]. exists b, A', m. split_and!; [done|done|done|].
    destruct Ht as [? Hok' HP _ Hsh]. constructor; try done. unfold mpl_stable in *. destruct l as [|y l]; [done|].
    rewrite Forall_forall in Hst |- *. intros q' Hq'. destruct (Hsh q' Hq') as (q & Hq & Hqq).
    specialize (Hst q Hq). change (need_of (upd_mem _ _) y) with (need_of k y). simpl in *. lia.
Qed.

(** Nobody waits: the running task gets the whole pool of 64 bytes. *)
Lemma tk_get_mpl_spec_witness :
  let k := ex_mpl_k ex_pool [ex_ready 3] [(TIMERQ, []); (MPLQ 0, []); (FREE_MPL, [MPLQ 1])] in
  ∃ k' A', tk_get_mpl 1 50 500 TMO_POL k = (E_OK, k') ∧ mpl_used k' (ex_Q [ex_ready 3] [(TIMERQ, []); (MPLQ 0, []); (FREE_MPL, [MPLQ 1])]) 0 A' [].
Proof.
  intros k. set (Q := ex_Q _ _). assert (Hk : kinv (k_s k) Q) by (apply ex_kinv; by vm_compute).
  assert (Hmu : mpl_used k Q 0 [(8192, 8256)] []).
  { constructor; [done|exact ex_pool_cfg|exact ex_pool_ok|by vm_compute|by intros y ?%elem_of_nil|done]. }
  pose proof (tk_get_mpl_spec k Q 1 50 500 TMO_POL _ [] Hk ltac:(by vm_compute) eq_refl Hmu ltac:(by vm_compute) eq_refl) as H.
  cbv zeta in H. change (get_mplcb 1) with 0 in H.
  assert (E1 : mplsz (k_mpl k 0) <? request 50 = false) by (by vm_compute). rewrite E1 in H.
  assert (E2 : existsb (λ p, request 50 <=? asize p) (free_areas 0 k [(8192, 8256)]) = true) by (by vm_compute).
  rewrite E2 in H. destruct H as (b & A' & m & E & _ & _ & H).
  destruct (tk_get_mpl 1 50 500 TMO_POL k) as [r k'] eqn:Er. injection E as -> _. exists k', A'. split; [done|exact H].
Defined.

(** The state of a variable-size memory pool that tk_ref_mpl reports: the total of all
    free areas, however many of them have the same size, and the size of the largest
    one (0 when there is none), which is the largest request that does not have to wait. *)
Theorem tk_ref_mpl_spec (k : K) (Q : gmap node (list node)) (id : Z) (A : list area) (l : list node) :
  let i := get_mplcb id in
  kinv (k_s k) Q → in_ddsp (k_s k) = false → CHK_MPLID id = true → mpl_used k Q i A l →
  ∃ maxsz, tk_ref_mpl id k =
    (E_OK, Some (mkT_RMPL (mpl_exinf (k_mpl k i))
                   (match l with [] => 0 | y :: _ => t_tskid (s_tcb (k_s k) (as_tcb y)) end)
                   (total (free_areas i k A)) maxsz)) ∧
    (∀ p, p ∈ free_areas i k A → asize p <= maxsz) ∧
    (maxsz = 0 ∨ ∃ p, p ∈ free_areas i k A ∧ asize p = maxsz).
Proof.
  intros i Hk Hdd Hid Hu. pose proof (mpl_noexs _ _ _ _ _ Hid Hu) as Hne. fold i in Hne.
  destruct Hu as [Hi Hc Hok HQ _ _]. exists (knl_MaxFreeSize (mpl_im i k) (k_heap k)).
  split; [|by apply (max_free_spec (mpl_im i k) (mpl_mempool (k_mpl k i)))].
  unfold tk_ref_mpl, ref_mpl. rewrite Hid, Hdd. cbn [negb]. fold i. rewrite Hne.
  destruct (heap_free_apart _ _ A Hc Hok) as [Hf Hap].
  pose proof (st_seg _ _ _ _ (proj1 Hok)) as Hs. destruct (seg_total _ _ _ Hs) as [Ht Hpos].
  pose proof (total_sel (mpl_cfg i k) false (k_heap k) A Hpos) as Hsel. pose proof (hc_small _ Hc) as Hsm.
  assert (Hb : total (free_areas i k A) < 2 ^ 31).
  { unfold free_areas. destruct A as [|p A]; [by vm_compute|]. rewrite length_cons in Ht. lia. }
  rewrite (free_total_spec (mpl_im i k) (k_heap k) _ Hf Hap Hb).
  assert (Hw : knl_wait_tskid (MPLQ i) (k_s k) = match l with [] => 0 | y :: _ => t_tskid (s_tcb (k_s k) (as_tcb y)) end).
  { unfold knl_wait_tskid. rewrite (kinvx_empty _ _ _ _ _ _ Hk HQ), (kinvx_first _ _ _ _ _ _ Hk HQ). by destruct l. }
  by rewrite Hw.
Qed.

Lemma tk_ref_mpl_spec_witness :
  let k := ex_mpl_k ex_pool [ex_ready 3] [(TIMERQ, []); (MPLQ 0, []); (FREE_MPL, [MPLQ 1])] in
  ∃ maxsz, tk_ref_mpl 1 k = (E_OK, Some (mkT_RMPL 0 0 64 maxsz)).
Proof.
  intros k. set (Q := ex_Q [ex_ready 3] [(TIMERQ, []); (MPLQ 0, []); (FREE_MPL, [MPLQ 1])]).
  assert (Hk : kinv (k_s k) Q) by (apply ex_kinv; by vm_compute).
  assert (Hmu : mpl_used k Q 0 [(8192, 8256)] []).
  { constructor; [done|exact ex_pool_cfg|exact ex_pool_ok|by vm_compute|by intros y ?%elem_of_nil|done]. }
  destruct (tk_ref_mpl_spec k Q 1 _ [] Hk ltac:(by vm_compute) eq_refl Hmu) as (maxsz & H & _).
  exists maxsz. rewrite H. assert (E : total (free_areas (get_mplcb 1) k [(8192, 8256)]) = 64) by (by vm_compute).
  by rewrite E.
Defined.
