(* ===== verification/Rendezvous.v ===== *)
(** * Rendezvous: kernel/tkernel/rendezvous.h, kernel/tkernel/rendezvous.c

    A port has a queue of callers ([CALQ i]) and one of acceptors ([ACPQ i]).  A caller
    whose pattern meets that of an acceptor hands over its message and waits for the
    reply, outside of any queue, under a number that names it; tk_rpl_rdv with that
    number copies the reply and releases it, tk_fwd_por sends it on to another port.
    A message size that is written to the local variable of another task's call goes
    to its [s_rcvsz]. *)
From S2P Require Import Prelude Config Queue Kernel ReadyQueue KInv KCheck Task Timer Wait Mem.

(* src: include/tk/syscall.h 320-328 T_CPOR *)
Record T_CPOR := mkT_CPOR { cpor_exinf : Z; cpor_poratr : Z; cpor_maxcmsz : Z; cpor_maxrmsz : Z }.

(* src: include/tk/syscall.h 333-339 T_RPOR *)
Record T_RPOR := mkT_RPOR { rpor_exinf : Z; rpor_wtsk : Z; rpor_atsk : Z; rpor_maxcmsz : Z; rpor_maxrmsz : Z }.

(* src: kernel/tkernel/rendezvous.h 42-42 get_porcb *)
Definition get_porcb (id : Z) : Z := INDEX_POR id.

(* src: kernel/tkernel/rendezvous.h 46-46 RDVNO_SHIFT *)
Definition RDVNO_SHIFT : Z := 16.

(* src: kernel/tkernel/rendezvous.h 51-59 knl_gen_rdvno *)
Definition knl_gen_rdvno (tcb : Z) (s : SCH) : Z * SCH :=
  let rdvno := t_wrdvno (s_tcb s tcb) in
  (rdvno, upd_tcb tcb (λ t, set_t_wrdvno (s32 (t_wrdvno t + Z.shiftl 1 RDVNO_SHIFT)) t) s).

(* src: kernel/tkernel/rendezvous.h 64-67 knl_get_tskid_rdvno *)
Definition knl_get_tskid_rdvno (rdvno : Z) : Z := Z.land (u32 rdvno) (Z.shiftl 1 RDVNO_SHIFT - 1).

(* src: kernel/tkernel/rendezvous.h 72-76 CHECK_RDVNO *)
Definition RDVNO_ERR (rdvno : Z) : bool := negb (CHK_TSKID (knl_get_tskid_rdvno rdvno)).

(* src: kernel/tkernel/rendezvous.c 35-53 knl_rendezvous_initialize *)
Definition knl_rendezvous_initialize (k : K) : Z * K :=
  if NUM_PORID <? 1 then (E_SYS, k)
  else
    let k := upd_s (upd_q (QueInit FREE_POR)) k in
    let k := foldl (λ k i,
      let k := upd_por i (set_porid 0) k in
      upd_s (upd_q (QueInsert (CALQ i) FREE_POR)) k) k (seqZ 0 NUM_PORID) in
    (E_OK, k).

(* src: kernel/tkernel/rendezvous.c 59-65 cal_chg_pri *)
Definition cal_chg_pri (tcb oldpri : Z) (k : K) : K :=
  let porcb := get_porcb (t_wid (s_tcb (k_s k) tcb)) in
  upd_s (knl_gcb_change_priority (gcb porcb (k_por k porcb)) tcb) k.

(* src: kernel/tkernel/rendezvous.c 82-87 VALID_PORATR *)
Definition VALID_PORATR : Z := TA_TPRI.

(* src: kernel/tkernel/rendezvous.c 79-125 tk_cre_por *)
Definition tk_cre_por (pk_cpor : T_CPOR) (k : K) : Z * K :=
  if RSATR_ERR (cpor_poratr pk_cpor) VALID_PORATR then (E_RSATR, k)
  else if negb (0 <=? cpor_maxcmsz pk_cpor) then (E_PAR, k)
  else if negb (0 <=? cpor_maxrmsz pk_cpor) then (E_PAR, k)
  else if in_indp (k_s k) then (E_CTX, k)
  else
    match QueRemoveNext FREE_POR (s_q (k_s k)) with
    | (None, q) => (E_LIMIT, upd_s (set_s_q q) k)
    | (Some node, q) =>
        let k := upd_s (set_s_q q) k in
        let porcb := nd_idx node in
        let porid := ID_POR porcb in
        let k := upd_s (upd_q (QueInit (CALQ porcb))) k in
        let k := upd_s (upd_q (QueInit (ACPQ porcb))) k in
        let k := upd_por porcb (λ _, mkPORCB porid (cpor_exinf pk_cpor) (cpor_poratr pk_cpor)
                                       (cpor_maxcmsz pk_cpor) (cpor_maxrmsz pk_cpor)) k in
        (porid, k)
    end.

(* src: kernel/tkernel/rendezvous.c 131-156 tk_del_por *)
Definition tk_del_por (id : Z) (k : K) : Z * K :=
  if negb (CHK_PORID id) then (E_ID, k)
  else if in_indp (k_s k) then (E_CTX, k)
  else
    let porcb := get_porcb id in
    if porid (k_por k porcb) =? 0 then (E_NOEXS, k)
    else
      let k := upd_s (knl_wait_delete (CALQ porcb)) k in
      let k := upd_s (knl_wait_delete (ACPQ porcb)) k in
      let k := upd_s (upd_q (QueInsert (CALQ porcb) FREE_POR)) k in
      (E_OK, upd_por porcb (set_porid 0) k).

(** [*p_msgsz = sz], where the pointer is the local variable of a task's call. *)
Definition put_msgsz (p_msgsz : option Z) (sz : Z) (s : SCH) : SCH :=
  match p_msgsz with Some t => set_s_rcvsz (<[t := sz]> (s_rcvsz s)) s | None => s end.

(** The message is copied when its size is positive. *)
Definition copy_msg (dst src n : Z) (k : K) : K := if 0 <? n then upd_mem (knl_memcpy dst src n) k else k.

(** The loops over the acceptors and over the callers: the first task whose pattern has a
    bit in common with [ptn]. *)
(* src: kernel/tkernel/rendezvous.c 192-198 tk_cal_por *)
Definition find_acceptor (porcb ptn : Z) (s : SCH) : node :=
  que_find (λ q, let '(acpptn, _, _, _) := wi_acp (t_winfo (s_tcb s (as_tcb q))) in negb (Z.land ptn acpptn =? 0))
    QFUEL (s_q s) (ACPQ porcb) (qnext (s_q s) (ACPQ porcb)).

(* src: kernel/tkernel/rendezvous.c 269-275 tk_acp_por *)
Definition find_caller (porcb ptn : Z) (s : SCH) : node :=
  que_find (λ q, let '(calptn, _, _, _) := wi_cal (t_winfo (s_tcb s (as_tcb q))) in negb (Z.land ptn calptn =? 0))
    QFUEL (s_q s) (CALQ porcb) (qnext (s_q s) (CALQ porcb)).

(** The message of a call goes to the acceptor [tcb], which is released. *)
(* src: kernel/tkernel/rendezvous.c 202-207 tk_cal_por *)
Definition send_call (tcb rdvno msg cmsgsz : Z) (k : K) : K :=
  let '(_, amsg, p_rdvno, p_cmsgsz) := wi_acp (t_winfo (s_tcb (k_s k) tcb)) in
  let k := copy_msg amsg msg cmsgsz k in
  let k := upd_mem (st32 p_rdvno rdvno) k in
  let k := upd_s (put_msgsz p_cmsgsz cmsgsz) k in
  upd_s (knl_wait_release_ok tcb) k.

(** What tk_cal_por and tk_acp_por return when the running task [c] runs again. *)
(* src: kernel/tkernel/rendezvous.c 237-237 tk_cal_por *)
Definition rdv_result (c : Z) (k : K) : Z * K :=
  (if s_ercd (k_s k) c <? E_OK then s_ercd (k_s k) c else s_rcvsz (k_s k) c, k).

(* src: kernel/tkernel/rendezvous.c 162-238 tk_cal_por *)
Definition tk_cal_por (id calptn msg cmsgsz tmout : Z) (k : K) : Z * K :=
  if negb (CHK_PORID id) then (E_ID, k)
  else if calptn =? 0 then (E_PAR, k)
  else if negb (0 <=? cmsgsz) then (E_PAR, k)
  else if TMOUT_ERR tmout then (E_PAR, k)
  else if in_ddsp (k_s k) then (E_CTX, k)
  else
    let porcb := get_porcb id in
    let cb := k_por k porcb in
    let c := ctx (k_s k) in
    if porid cb =? 0 then (E_NOEXS, k)
    else if maxcmsz cb <? cmsgsz then (E_PAR, k)
    else
      let queue := find_acceptor porcb calptn (k_s k) in
      if negb (bool_decide (queue = ACPQ porcb)) then
        let '(rdvno, s) := knl_gen_rdvno c (k_s k) in
        let k := send_call (as_tcb queue) rdvno msg cmsgsz (set_k_s s k) in
        let k := upd_s (λ s, set_s_ercd (<[c := E_TMOUT]> (s_ercd s)) s) k in
        let k := upd_s (upd_tcb c (λ t, set_t_wid 0 (set_wait knl_wspec_rdv (WI_rdv rdvno msg (maxrmsz cb) (Some c)) c t))) k in
        let k := upd_s (knl_make_wait TMO_FEVR (poratr cb)) k in
        rdv_result c (upd_s (λ s, upd_q (QueInit (TSKQ (ctx s))) s) k)
      else
        let w := if has (poratr cb) TA_TPRI then knl_wspec_cal_tpri else knl_wspec_cal_tfifo in
        let k := upd_s (upd_tcb c (set_wait w (WI_cal calptn msg cmsgsz (Some c)) c)) k in
        rdv_result c (upd_s (knl_gcb_make_wait (gcb porcb cb) tmout) k).

(** A caller [tcb] becomes one that waits for the end of its rendezvous; its two wait
    factors share their words. *)
(* src: kernel/tkernel/rendezvous.c 289-292 tk_acp_por *)
Definition to_rdv (rdvno maxrmsz : Z) (t : TCB) : TCB :=
  let '(_, msg, _, p_rmsgsz) := wi_cal (t_winfo t) in
  set_t_winfo (WI_rdv rdvno msg maxrmsz p_rmsgsz) t.

(* src: kernel/tkernel/rendezvous.c 246-318 tk_acp_por *)
Definition tk_acp_por (id acpptn p_rdvno msg tmout : Z) (k : K) : Z * K :=
  if negb (CHK_PORID id) then (E_ID, k)
  else if acpptn =? 0 then (E_PAR, k)
  else if TMOUT_ERR tmout then (E_PAR, k)
  else if in_ddsp (k_s k) then (E_CTX, k)
  else
    let porcb := get_porcb id in
    let cb := k_por k porcb in
    let c := ctx (k_s k) in
    if porid cb =? 0 then (E_NOEXS, k)
    else
      let queue := find_caller porcb acpptn (k_s k) in
      if negb (bool_decide (queue = CALQ porcb)) then
        let tcb := as_tcb queue in
        let '(rdvno, s) := knl_gen_rdvno tcb (k_s k) in
        let k := upd_mem (st32 p_rdvno rdvno) (set_k_s s k) in
        let '(_, cmsg, cmsgsz, _) := wi_cal (t_winfo (s_tcb (k_s k) tcb)) in
        let k := copy_msg msg cmsg cmsgsz k in
        let k := upd_s (knl_wait_cancel tcb) k in
        let k := upd_s (upd_tcb tcb (λ t, to_rdv rdvno (maxrmsz cb) (set_t_wid 0 (set_t_wspec knl_wspec_rdv t)))) k in
        let k := upd_s (knl_timer_insert (TMEBT tcb) TMO_FEVR (CB_tmout tcb)) k in
        (cmsgsz, upd_s (upd_q (QueInit (TSKQ tcb))) k)
      else if negb (tmout =? TMO_POL) then
        let k := upd_s (λ s, set_s_ercd (<[c := E_TMOUT]> (s_ercd s)) s) k in
        let k := upd_s (upd_tcb c (λ t, set_t_wid id (set_wait knl_wspec_acp (WI_acp acpptn msg p_rdvno (Some c)) c t))) k in
        let k := upd_s (knl_make_wait tmout (poratr cb)) k in
        rdv_result c (upd_s (λ s, upd_q (QueInsert (TSKQ (ctx s)) (ACPQ porcb)) s) k)
      else (E_TMOUT, k).

(** The task a rendezvous number names waits for the end of that rendezvous. *)
Definition rdv_waits (caltcb rdvno : Z) (s : SCH) : bool :=
  has (t_state (s_tcb s caltcb)) TS_WAIT && bool_decide (t_wspec (s_tcb s caltcb) = knl_wspec_rdv) &&
  (let '(no, _, _, _) := wi_rdv (t_winfo (s_tcb s caltcb)) in rdvno =? no).

(* src: kernel/tkernel/rendezvous.c 324-420 tk_fwd_por *)
Definition tk_fwd_por (id calptn rdvno msg cmsgsz : Z) (k : K) : Z * K :=
  if negb (CHK_PORID id) then (E_ID, k)
  else if calptn =? 0 then (E_PAR, k)
  else if RDVNO_ERR rdvno then (E_OBJ, k)
  else if negb (0 <=? cmsgsz) then (E_PAR, k)
  else if in_indp (k_s k) then (E_CTX, k)
  else
    let porcb := get_porcb id in
    let cb := k_por k porcb in
    let caltcb := get_tcb (knl_get_tskid_rdvno rdvno) in
    let '(_, rmsg, rmax, p_rmsgsz) := wi_rdv (t_winfo (s_tcb (k_s k) caltcb)) in
    if porid cb =? 0 then (E_NOEXS, k)
    else if maxcmsz cb <? cmsgsz then (E_PAR, k)
    else if negb (rdv_waits caltcb rdvno (k_s k)) then (E_OBJ, k)
    else if rmax <? maxrmsz cb then (E_OBJ, k)
    else if rmax <? cmsgsz then (E_PAR, k)
    else
      let queue := find_acceptor porcb calptn (k_s k) in
      if negb (bool_decide (queue = ACPQ porcb)) then
        let '(new_rdvno, s) := knl_gen_rdvno caltcb (k_s k) in
        let k := send_call (as_tcb queue) new_rdvno msg cmsgsz (set_k_s s k) in
        (E_OK, upd_s (upd_tcb caltcb (to_rdv new_rdvno (maxrmsz cb))) k)
      else
        let w := if has (poratr cb) TA_TPRI then knl_wspec_cal_tpri else knl_wspec_cal_tfifo in
        let k := upd_s (upd_tcb caltcb (λ t,
                   set_t_winfo (WI_cal calptn rmsg cmsgsz p_rmsgsz) (set_t_wid id (set_t_wspec w t)))) k in
        let k := upd_s (knl_timer_insert (TMEBT caltcb) TMO_FEVR (CB_tmout caltcb)) k in
        let k := if has (poratr cb) TA_TPRI then upd_s (knl_queue_insert_tpri caltcb (CALQ porcb)) k
                 else upd_s (upd_q (QueInsert (TSKQ caltcb) (CALQ porcb))) k in
        (E_OK, copy_msg rmsg msg cmsgsz k).

(* src: kernel/tkernel/rendezvous.c 426-462 tk_rpl_rdv *)
Definition tk_rpl_rdv (rdvno msg rmsgsz : Z) (k : K) : Z * K :=
  if RDVNO_ERR rdvno then (E_OBJ, k)
  else if negb (0 <=? rmsgsz) then (E_PAR, k)
  else if in_indp (k_s k) then (E_CTX, k)
  else
    let caltcb := get_tcb (knl_get_tskid_rdvno rdvno) in
    let '(_, rmsg, rmax, p_rmsgsz) := wi_rdv (t_winfo (s_tcb (k_s k) caltcb)) in
    if negb (rdv_waits caltcb rdvno (k_s k)) then (E_OBJ, k)
    else if rmax <? rmsgsz then (E_PAR, k)
    else
      let k := copy_msg rmsg msg rmsgsz k in
      let k := upd_s (put_msgsz p_rmsgsz rmsgsz) k in
      (E_OK, upd_s (knl_wait_release_ok caltcb) k).

(* src: kernel/tkernel/rendezvous.c 478-486 tk_ref_por *)
Definition ref_por (porcb : Z) (k : K) : Z * option T_RPOR :=
  let cb := k_por k porcb in
  if porid cb =? 0 then (E_NOEXS, None)
  else (E_OK, Some (mkT_RPOR (por_exinf cb) (knl_wait_tskid (CALQ porcb) (k_s k))
                      (knl_wait_tskid (ACPQ porcb) (k_s k)) (maxcmsz cb) (maxrmsz cb))).

(* src: kernel/tkernel/rendezvous.c 468-490 tk_ref_por *)
Definition tk_ref_por (id : Z) (k : K) : Z * option T_RPOR :=
  if negb (CHK_PORID id) then (E_ID, None) else ref_por (get_porcb id) k.

(* src: kernel/tkernel/rendezvous.c 533-552 td_lst_por *)
Definition td_lst_por (nent : Z) (k : K) : Z * list Z :=
  td_lst (λ i, negb (porid (k_por k i) =? 0)) (λ i, porid (k_por k i)) NUM_PORID nent.

(* src: kernel/tkernel/rendezvous.c 559-581 td_ref_por *)
Definition td_ref_por (id : Z) (k : K) : Z * option T_RPOR :=
  if negb (CHK_PORID id) then (E_ID, None) else ref_por (get_porcb id) k.

(* src: kernel/tkernel/rendezvous.c 588-613 td_cal_que *)
Definition td_cal_que (id nent : Z) (k : K) : Z * list Z :=
  if negb (CHK_PORID id) then (E_ID, [])
  else
    let porcb := get_porcb id in
    if porid (k_por k porcb) =? 0 then (E_NOEXS, [])
    else td_que (CALQ porcb) nent (k_s k).

(* src: kernel/tkernel/rendezvous.c 620-645 td_acp_que *)
Definition td_acp_que (id nent : Z) (k : K) : Z * list Z :=
  if negb (CHK_PORID id) then (E_ID, [])
  else
    let porcb := get_porcb id in
    if porid (k_por k porcb) =? 0 then (E_NOEXS, [])
    else td_que (ACPQ porcb) nent (k_s k).

(** ** Rendezvous numbers *)

(** Task [t] after [n] rendezvous. *)
Definition gen_n (tcb : Z) (n : nat) (s : SCH) : SCH := Nat.iter n (λ s, (knl_gen_rdvno tcb s).2) s.

(** The lower half of a number is the task's ID. *)
Definition rdvno_ok (no tskid : Z) : Prop := u32 no mod 2 ^ 16 = tskid ∧ - 2 ^ 31 <= no < 2 ^ 31.

Lemma tskid_mod rdvno : knl_get_tskid_rdvno rdvno = u32 rdvno mod 2 ^ 16.
Proof. unfold knl_get_tskid_rdvno. change (Z.shiftl 1 RDVNO_SHIFT - 1) with (Z.ones 16). apply Z.land_ones. lia. Qed.

Lemma u32_s32 x : u32 (s32 x) = u32 x.
Proof.
  unfold u32, s32. replace x with (x + 2 ^ 31 - 2 ^ 31) at 2 by lia. by rewrite Zminus_mod_idemp_l.
Qed.

Lemma s32_s32_add x y : s32 (s32 x + y) = s32 (x + y).
Proof.
  unfold s32. f_equal. replace ((x + 2 ^ 31) mod 2 ^ 32 - 2 ^ 31 + y + 2 ^ 31) with ((x + 2 ^ 31) mod 2 ^ 32 + y) by lia.
  rewrite Zplus_mod_idemp_l. f_equal. lia.
Qed.

Lemma gen_n_no tcb n s : - 2 ^ 31 <= t_wrdvno (s_tcb s tcb) < 2 ^ 31 →
  t_wrdvno (s_tcb (gen_n tcb n s) tcb) = s32 (t_wrdvno (s_tcb s tcb) + Z.of_nat n * 2 ^ 16).
Proof.
  intros Hr. induction n as [|n IH]; [simpl; rewrite s32_small; lia|].
  change (gen_n tcb (S n) s) with (knl_gen_rdvno tcb (gen_n tcb n s)).2. unfold knl_gen_rdvno. cbn [snd].
  simpl. upd_simpl. simpl. rewrite IH, s32_s32_add. f_equal. change (Z.shiftl 1 RDVNO_SHIFT) with (2 ^ 16). lia.
Qed.

(** Rendezvous numbers.  Starting from the task's ID, however many rendezvous a task
    has entered, the next number names that task, and it is different from the numbers
    of its last 2^16 - 1 rendezvous; after exactly 2^16 of them the number comes back. *)
Theorem rendezvous_numbers (s : SCH) (tcb : Z) (n m : nat) :
  let no j := (knl_gen_rdvno tcb (gen_n tcb j s)).1 in
  rdvno_ok (t_wrdvno (s_tcb s tcb)) (ID_TSK tcb) → 0 <= tcb < NUM_TSKID →
  RDVNO_ERR (no n) = false ∧ get_tcb (knl_get_tskid_rdvno (no n)) = tcb ∧
  (no n = no m ↔ Z.of_nat n mod 2 ^ 16 = Z.of_nat m mod 2 ^ 16).
Proof.
  intros no [Hid Hr] Ht. set (w := t_wrdvno (s_tcb s tcb)) in *.
  assert (Hno : ∀ j, no j = s32 (w + Z.of_nat j * 2 ^ 16)) by (intros j; by apply gen_n_no).
  assert (Htsk : ∀ j, knl_get_tskid_rdvno (no j) = ID_TSK tcb).
  { intros j. rewrite tskid_mod, Hno, u32_s32. rewrite <- Hid. unfold u32.
    rewrite !Z.mod_mod_divide by (by exists (2 ^ 16)). by rewrite Z.mod_add. }
  split_and!.
  - unfold RDVNO_ERR. rewrite Htsk. unfold CHK_TSKID, ID_TSK, MIN_TSKID, NUM_TSKID in *.
    by rewrite (proj2 (Z.leb_le _ _)), (proj2 (Z.leb_le _ _)) by lia.
  - unfold get_tcb. rewrite Htsk. unfold INDEX_TSK, ID_TSK. lia.
  - rewrite !Hno. split; intros E.
    + apply (f_equal u32) in E. rewrite !u32_s32 in E. unfold u32 in E.
      apply (f_equal (λ x, (x - w) mod 2 ^ 32)) in E. rewrite !Zminus_mod_idemp_l in E.
      replace (w + Z.of_nat n * 2 ^ 16 - w) with (Z.of_nat n * 2 ^ 16) in E by lia.
      replace (w + Z.of_nat m * 2 ^ 16 - w) with (Z.of_nat m * 2 ^ 16) in E by lia.
      change (2 ^ 32) with (2 ^ 16 * 2 ^ 16) in E. rewrite !Z.mul_mod_distr_r in E by lia. lia.
    + unfold s32. f_equal. replace (w + Z.of_nat n * 2 ^ 16 + 2 ^ 31) with (w + 2 ^ 31 + Z.of_nat n * 2 ^ 16) by lia.
      replace (w + Z.of_nat m * 2 ^ 16 + 2 ^ 31) with (w + 2 ^ 31 + Z.of_nat m * 2 ^ 16) by lia.
      rewrite <- !(Zplus_mod_idemp_r (Z.of_nat _ * 2 ^ 16)). change (2 ^ 32) with (2 ^ 16 * 2 ^ 16).
      rewrite !Z.mul_mod_distr_r by lia. by rewrite E.
Qed.

Lemma rendezvous_numbers_witness :
  let s := upd_tcb 2 (set_t_wrdvno 3) (ex_sch [ex_ready 3; ex_ready 5; ex_ready 6] []) in
  let no j := (knl_gen_rdvno 2 (gen_n 2 j s)).1 in
  no 0%nat = 3 ∧ no 5%nat = 5 * 2 ^ 16 + 3 ∧ get_tcb (knl_get_tskid_rdvno (no 5%nat)) = 2 ∧ no 5%nat ≠ no 7%nat.
Proof.
  intros s no. destruct (rendezvous_numbers s 2 5 7) as (_ & H2 & H3); [by vm_compute|by vm_compute|].
  split_and!; [by vm_compute|by vm_compute|exact H2|]. intros E. apply H3 in E. revert E. by vm_compute.
Defined.

(** ** The end of a rendezvous *)

Lemma kinv_put_msgsz p sz s Q : kinv s Q → kinv (put_msgsz p sz s) Q.
Proof. intros Hk. unfold put_msgsz. destruct p; [by eapply kinvx_ext; [..|exact Hk]|done]. Qed.

Lemma rdv_waits_spec t rdvno s : rdv_waits t rdvno s = true →
  waiting (s_tcb s t) = true ∧ t_wspec (s_tcb s t) = knl_wspec_rdv.
Proof. unfold rdv_waits. intros [[? ?%bool_decide_eq_true]%andb_prop _]%andb_prop. done. Qed.

(** The reply to a rendezvous.  A number whose task is not waiting for the end of that
    very rendezvous is refused with E_OBJ, a reply longer than the caller allowed with
    E_PAR, and nothing changes.  Otherwise the caller, and nobody else, is released: its
    call returns the size of the reply, and its buffer holds the reply. *)
Theorem tk_rpl_rdv_spec (k : K) (Q : gmap node (list node)) (rdvno msg rmsgsz : Z) :
  let t := get_tcb (knl_get_tskid_rdvno rdvno) in
  let '(_, rmsg, rmax, p_rmsgsz) := wi_rdv (t_winfo (s_tcb (k_s k) t)) in
  let r := tk_rpl_rdv rdvno msg rmsgsz k in
  kinv (k_s k) Q → in_indp (k_s k) = false → RDVNO_ERR rdvno = false → 0 <= rmsgsz →
  p_rmsgsz = Some t → rmsg + rmsgsz <= msg ∨ msg + rmsgsz <= rmsg →
  if negb (rdv_waits t rdvno (k_s k)) then r = (E_OBJ, k)
  else if rmax <? rmsgsz then r = (E_PAR, k)
  else r.1 = E_OK ∧
    (∃ Q', rel_post (TSKQ t) [TSKQ t] E_OK (put_msgsz (Some t) rmsgsz (k_s k)) (k_s r.2) Q Q') ∧
    (rdv_result t r.2).1 = rmsgsz ∧ bytes rmsg rmsgsz (k_mem r.2) = bytes msg rmsgsz (k_mem k) ∧
    (∀ a, ¬ rmsg <= a < rmsg + rmsgsz → k_mem r.2 a = k_mem k a).
Proof.
  intros t. destruct (wi_rdv (t_winfo (s_tcb (k_s k) t))) as [[[no rmsg] rmax] p] eqn:Ewi.
  intros r Hk Hin Hno Hsz -> Hap.
  assert (E : r = if negb (rdv_waits t rdvno (k_s k)) then (E_OBJ, k) else if rmax <? rmsgsz then (E_PAR, k)
    else (E_OK, upd_s (knl_wait_release_ok t) (upd_s (put_msgsz (Some t) rmsgsz) (copy_msg rmsg msg rmsgsz k)))).
  { unfold r, tk_rpl_rdv. rewrite Hno, Hin, (proj2 (Z.leb_le _ _)) by lia. fold t. by rewrite Ewi. }
  clearbody r. subst r. destruct (rdv_waits t rdvno (k_s k)) eqn:Hw; [|done]. cbn [negb].
  destruct (rmax <? rmsgsz); [done|]. apply rdv_waits_spec in Hw as [Hw Hws].
  set (s1 := put_msgsz (Some t) rmsgsz (k_s k)).
  assert (Es : k_s (upd_s (put_msgsz (Some t) rmsgsz) (copy_msg rmsg msg rmsgsz k)) = s1)
    by (unfold copy_msg; by case_match).
  destruct (kinv_release_ercd t E_OK s1 Q) as (Q' & Hr & _); [by apply kinv_put_msgsz|done|].
  assert (Hh : wait_home (t_wspec (s_tcb s1 t)) (t_wid (s_tcb s1 t)) t = TSKQ t).
  { change (s_tcb s1) with (s_tcb (k_s k)). by rewrite Hws. }
  rewrite Hh in Hr. cbn [fst snd upd_s]. set (k1 := upd_s _ (copy_msg rmsg msg rmsgsz k)) in *.
  assert (Ek : k_s (upd_s (knl_wait_release_ok t) k1) = knl_wait_release_ok_ercd t E_OK s1) by (by rewrite <- Es).
  assert (Hmem : ∀ a, k_mem (copy_msg rmsg msg rmsgsz k) a = if decide (rmsg <= a < rmsg + rmsgsz) then k_mem k (msg + (a - rmsg)) else k_mem k a).
  { intros a. unfold copy_msg. destruct (Z.ltb_spec 0 rmsgsz); simpl; [by apply memcpy_spec; lia|]. by rewrite decide_False by lia. }
  split_and!; [done|exists Q'; by rewrite Ek| | |].
  - unfold rdv_result. cbn [fst]. rewrite Ek.
    rewrite (rp_ercd _ _ _ _ _ _ _ Hr), decide_True by left. change (E_OK <? E_OK) with false. cbv iota.
    rewrite (rp_rcvsz _ _ _ _ _ _ _ Hr). unfold s1. simpl. by upd_simpl.
  - apply bytes_ext. intros j Hj. change (k_mem (copy_msg rmsg msg rmsgsz k) (rmsg + j) = k_mem k (msg + j)).
    rewrite Hmem, decide_True by lia. f_equal. lia.
  - intros a Ha. change (k_mem (copy_msg rmsg msg rmsgsz k) a = k_mem k a). by rewrite Hmem, decide_False.
Qed.

(** Task 2 waits for the end of its rendezvous number 3; four bytes are replied. *)
Lemma tk_rpl_rdv_spec_witness :
  let tasks := [ex_ready 3; ex_ready 5; ex_waits 2 4 knl_wspec_rdv 0 (WI_rdv 3 700 16 (Some 2))] in
  let objs := [(TIMERQ, []); (TSKQ 2, []); (TMEBT 2, [])] in
  let k := set_k_mem (λ a, a mod 256) (ex_k (ex_sch tasks objs)) in
  let r := tk_rpl_rdv 3 900 4 k in
  r.1 = E_OK ∧ (rdv_result 2 r.2).1 = 4 ∧ bytes 700 4 (k_mem r.2) = [132; 133; 134; 135].
Proof.
  intros tasks objs k r.
  assert (Hk : kinv (k_s k) (ex_Q tasks objs)) by (apply ex_kinv; by vm_compute).
  pose proof (tk_rpl_rdv_spec k (ex_Q tasks objs) 3 900 4) as H. cbv zeta in H.
  assert (E : wi_rdv (t_winfo (s_tcb (k_s k) (get_tcb (knl_get_tskid_rdvno 3)))) = (3, 700, 16, Some 2)) by (by vm_compute).
  rewrite E in H. specialize (H Hk ltac:(by vm_compute) ltac:(by vm_compute) ltac:(lia) ltac:(by vm_compute) ltac:(lia)).
  assert (Ew : rdv_waits (get_tcb (knl_get_tskid_rdvno 3)) 3 (k_s k) = true) by (by vm_compute). rewrite Ew in H.
  destruct H as (H1 & _ & H2 & H3 & _). split_and!; [exact H1|exact H2|]. transitivity (bytes 900 4 (k_mem k)); [exact H3|by vm_compute].
Defined.

(** ** Accepting a call *)

(** Port [i] is in use; [lc] wait with a call, [la] to accept one. *)
Record por_used (k : K) (Q : gmap node (list node)) (i : Z) (lc la : list node) : Prop := {
  pu_id : porid (k_por k i) = ID_POR i;
  pu_cal : Q !! CALQ i = Some lc;
  pu_acp : Q !! ACPQ i = Some la
}.

Definition cal_ptn (s : SCH) (y : node) : Z := (wi_cal (t_winfo (s_tcb s (as_tcb y)))).1.1.1.
Definition acp_ptn (s : SCH) (y : node) : Z := (wi_acp (t_winfo (s_tcb s (as_tcb y)))).1.1.1.
Definition meets (ptn1 ptn2 : Z) : bool := negb (Z.land ptn1 ptn2 =? 0).

Lemma por_noexs k Q id lc la :
  CHK_PORID id = true → por_used k Q (get_porcb id) lc la → (porid (k_por k (get_porcb id)) =? 0) = false.
Proof.
  intros Hid Hu. rewrite (pu_id _ _ _ _ _ Hu). unfold get_porcb. rewrite ID_INDEX_POR.
  apply CHK_PORID_range in Hid as [_ ?]. by apply Z.eqb_neq.
Qed.

(** The loops find the first task in the queue whose pattern meets the one given. *)
Lemma find_caller_spec i ptn s Q l1 l2 :
  kinv s Q → Q !! CALQ i = Some (l1 ++ l2) → Forall (λ y, meets ptn (cal_ptn s y) = false) l1 →
  (∀ y l', l2 = y :: l' → meets ptn (cal_ptn s y) = true) → find_caller i ptn s = hd (CALQ i) l2.
Proof.
  intros Hk HQ H1 H2. unfold find_caller. rewrite (kinvx_first _ _ _ _ _ _ Hk HQ).
  apply (que_find_ring _ _ _ Q (CALQ i) []); [apply Hk|done| | |by apply (length_wait_queue s Q (CALQ i))].
  - eapply Forall_impl; [exact H1|]. intros y. unfold cal_ptn, meets. by destruct (wi_cal _) as [[[]]].
  - intros y l' E. specialize (H2 y l' E). revert H2. unfold cal_ptn, meets. by destruct (wi_cal _) as [[[]]].
Qed.

Lemma find_acceptor_spec i ptn s Q l1 l2 :
  kinv s Q → Q !! ACPQ i = Some (l1 ++ l2) → Forall (λ y, meets ptn (acp_ptn s y) = false) l1 →
  (∀ y l', l2 = y :: l' → meets ptn (acp_ptn s y) = true) → find_acceptor i ptn s = hd (ACPQ i) l2.
Proof.
  intros Hk HQ H1 H2. unfold find_acceptor. rewrite (kinvx_first _ _ _ _ _ _ Hk HQ).
  apply (que_find_ring _ _ _ Q (ACPQ i) []); [apply Hk|done| | |by apply (length_wait_queue s Q (ACPQ i))].
  - eapply Forall_impl; [exact H1|]. intros y. unfold acp_ptn, meets. by destruct (wi_acp _) as [[[]]].
  - intros y l' E. specialize (H2 y l' E). revert H2. unfold acp_ptn, meets. by destruct (wi_acp _) as [[[]]].
Qed.

(** The TCB of a caller whose call has been accepted under the number [no]. *)
Definition accepted (no maxr : Z) (tc : TCB) : TCB :=
  to_rdv no maxr (set_t_wid 0 (set_t_wspec knl_wspec_rdv
    (set_t_wrdvno (s32 (t_wrdvno tc + Z.shiftl 1 RDVNO_SHIFT)) tc))).

Lemma to_rdv_ok no maxr tc t : task_ok tc t → task_ok (to_rdv no maxr tc) t.
Proof. intros []. unfold to_rdv. destruct (wi_cal _) as [[[? ?] ?] ?]. by constructor. Qed.

Lemma to_rdv_fields no maxr tc : t_state (to_rdv no maxr tc) = t_state tc ∧ t_wspec (to_rdv no maxr tc) = t_wspec tc ∧
  t_wid (to_rdv no maxr tc) = t_wid tc.
Proof. unfold to_rdv. by destruct (wi_cal _) as [[[? ?] ?] ?]. Qed.

(** A caller leaves the call queue and waits for the end of its rendezvous, without a
    time-out. *)
Lemma accept_spec t no maxr s Q h :
  kinv s Q → waiting (s_tcb s t) = true → wait_home (t_wspec (s_tcb s t)) (t_wid (s_tcb s t)) t = h → h ≠ TSKQ t →
  let s1 := knl_wait_cancel t s in
  let s2 := upd_tcb t (λ tc, to_rdv no maxr (set_t_wid 0 (set_t_wspec knl_wspec_rdv tc))) s1 in
  let s' := upd_q (QueInit (TSKQ t)) (knl_timer_insert (TMEBT t) TMO_FEVR (CB_tmout t) s2) in
  ∃ Q', kinv s' Q' ∧ same_heads h Q Q' ∧ (∀ l1 l2, Q !! h = Some (l1 ++ TSKQ t :: l2) → Q' !! h = Some (l1 ++ l2)) ∧
    Q' !! TMEBT t = Some [] ∧
    s_tcb s' = <[t := to_rdv no maxr (set_t_wid 0 (set_t_wspec knl_wspec_rdv (s_tcb s t)))]> (s_tcb s) ∧ same_vars s s'.
Proof.
  intros Hk Hw Hh Hne s1 s2 s'. destruct (kinv_wait_cancel t s Q Hk Hw) as (Q1 & Hk1 & Hu & Hut & Hf & Hq & _).
  rewrite Hh in Hf, Hq. fold s1 in Hk1. set (f := λ tc, to_rdv no maxr (set_t_wid 0 (set_t_wspec knl_wspec_rdv tc))) in *.
  set (s3 := upd_q (QueInit (TMEBT t)) (upd_tmeb (TMEBT t) (set_tm_callback (CB_tmout t)) s2)).
  change s' with (upd_q (QueInit (TSKQ t)) s3).
  assert (Hk3 : kinvx true (Some t) s3 (<[TMEBT t := []]> Q1)).
  { apply kinvx_QueInit; [|apply loose_tmebt|done|done]. eapply kinvx_ext; [..|by apply (kinvx_upd_tcb true t f), Hk1]; done. }
  assert (Htcb : s_tcb s3 t = f (s_tcb s t)) by (simpl; by upd_simpl).
  destruct (to_rdv_fields no maxr (set_t_wid 0 (set_t_wspec knl_wspec_rdv (s_tcb s t)))) as (Est & Ews & Ewi).
  assert (Hk4 : kinv (upd_q (QueInit (TSKQ t)) s3) (<[TSKQ t := []]> (<[TMEBT t := []]> Q1))).
  { apply kinv_put_alone; rewrite ?Htcb; [done| | | | |].
    - intros h'. rewrite (in_ring_init_ne Q1 (TMEBT t) (TSKQ t)); [apply Hu|by apply unplaced_lookup|done].
    - right. exists []. rewrite lookup_insert_eq. split; [done|left].
    - unfold waiting, f. rewrite Est. exact Hw.
    - unfold f. by rewrite Ews.
    - apply to_rdv_ok. destruct (ki_task _ _ _ _ Hk t ltac:(done)). by constructor. }
  eexists. split_and!; [exact Hk4| | | | |].
  - intros h' Ho Hh'. destruct (obj_head_kind _ Ho) as [_ Hn]. destruct (Hn t) as (?&?&?).
    rewrite !lookup_insert_ne by done. by apply Hf.
  - intros l1 l2 HQ. assert (h ≠ TMEBT t). { rewrite <- Hh. unfold wait_home. by destruct (t_wspec (s_tcb s t)). }
    rewrite !lookup_insert_ne by done. by apply Hq.
  - by rewrite lookup_insert_ne, lookup_insert_eq.
  - done.
  - by constructor.
Qed.

Lemma copy_msg_s dst src n k : k_s (copy_msg dst src n k) = k_s k ∧ k_por (copy_msg dst src n k) = k_por k ∧
  k_mem (copy_msg dst src n k) = (if 0 <? n then knl_memcpy dst src n (k_mem k) else k_mem k).
Proof. unfold copy_msg. by case_match. Qed.

(** The running task, with [wi] as its wait information, joins the acceptors. *)
Definition acceptor (id : Z) (wi : WINFO) (c : Z) (tc : TCB) : TCB :=
  set_t_state TS_WAIT (set_t_wid id (set_wait knl_wspec_acp wi c tc)).

Lemma join_acceptors id wi tmout atr s Q la :
  let c := ctx s in
  let s1 := upd_tcb c (λ t, set_t_wid id (set_wait knl_wspec_acp wi c t)) (set_s_ercd (<[c := E_TMOUT]> (s_ercd s)) s) in
  let s2 := knl_make_wait tmout atr s1 in
  let s' := upd_q (QueInsert (TSKQ (ctx s2)) (ACPQ (get_porcb id))) s2 in
  kinv s Q → t_state (s_tcb s c) = TS_READY → Q !! ACPQ (get_porcb id) = Some la →
  ∃ Q', kinv s' Q' ∧ Q' !! ACPQ (get_porcb id) = Some (la ++ [TSKQ c]) ∧ same_heads (ACPQ (get_porcb id)) Q Q' ∧
    (∀ t, s_tcb s' t = (<[c := acceptor id wi c (s_tcb s c)]> (s_tcb s)) t) ∧ s_ercd s' c = E_TMOUT.
Proof.
  intros c s1 s2 s' Hk Hst HQ.
  assert (E1 : s_tcb s1 c = set_t_wid id (set_wait knl_wspec_acp wi c (s_tcb s c))) by (simpl; by upd_simpl).
  assert (Hk1 : kinv s1 Q).
  { apply kinv_upd_tcb; [by eapply kinvx_ext; [..|exact Hk]|unfold home; simpl; by rewrite Hst|done|].
    intros []. by constructor. }
  destruct (kinv_wait_enqueue false (ACPQ (get_porcb id)) tmout atr s1 Q la Hk1)
    as (Q' & Hk' & HQ' & Hh & Htcb & Hsame & Ec); [by change (ctx s1) with c; rewrite E1..|done|done|].
  change (ctx s1) with c in *. fold s2 in Hk', Htcb, Hsame, Ec. unfold s'. rewrite Ec.
  exists Q'. split_and!; [done|done|done| |].
  - intros t. rewrite Htcb, E1. unfold s1. simpl. by upd_case c t.
  - rewrite (sv_ercd _ _ Hsame). simpl. by upd_simpl.
Qed.

(** C30: Accepting a rendezvous.  The first task of the call queue whose pattern has a bit in
    common with the acceptor's is chosen, whoever waits in front of it: its message is
    copied, its size returned and its rendezvous number stored, and the caller leaves
    the call queue, without a time-out from now on, to wait for the end of the
    rendezvous of that number; the other callers keep their places.  With no such caller
    a poll is E_TMOUT and changes nothing; any other time-out puts the acceptor at the
    end of the accept queue. *)
Theorem tk_acp_por_spec (k : K) (Q : gmap node (list node)) (id acpptn p_rdvno msg tmout : Z) (lc la : list node) :
  let i := get_porcb id in
  let c := ctx (k_s k) in
  let maxr := maxrmsz (k_por k i) in
  let r := tk_acp_por id acpptn p_rdvno msg tmout k in
  kinv (k_s k) Q → running (k_s k) → CHK_PORID id = true → por_used k Q i lc la → acpptn ≠ 0 → TMOUT_ERR tmout = false →
  (∀ l1 t l2, lc = l1 ++ TSKQ t :: l2 → Forall (λ y, meets acpptn (cal_ptn (k_s k) y) = false) l1 →
    meets acpptn (cal_ptn (k_s k) (TSKQ t)) = true →
    let tc := s_tcb (k_s k) t in
    let no := t_wrdvno tc in
    let '(_, cmsg, cmsgsz, _) := wi_cal (t_winfo tc) in
    let m := st32 p_rdvno no (k_mem k) in
    r.1 = cmsgsz ∧ k_mem r.2 = (if 0 <? cmsgsz then knl_memcpy msg cmsg cmsgsz m else m) ∧
    (∃ Q', kinv (k_s r.2) Q' ∧ por_used r.2 Q' i (l1 ++ l2) la ∧ same_heads (CALQ i) Q Q' ∧ Q' !! TMEBT t = Some []) ∧
    (∀ t', s_tcb (k_s r.2) t' = (<[t := accepted no maxr tc]> (s_tcb (k_s k))) t') ∧ rdv_waits t no (k_s r.2) = true) ∧
  (Forall (λ y, meets acpptn (cal_ptn (k_s k) y) = false) lc →
    if tmout =? TMO_POL then r = (E_TMOUT, k)
    else r.1 = E_TMOUT ∧
      (∃ Q', kinv (k_s r.2) Q' ∧ por_used r.2 Q' i lc (la ++ [TSKQ c]) ∧ same_heads (ACPQ i) Q Q') ∧
      ∀ t', s_tcb (k_s r.2) t' = (<[c := acceptor id (WI_acp acpptn msg p_rdvno (Some c)) c (s_tcb (k_s k) c)]> (s_tcb (k_s k))) t').
Proof.
  intros i c maxr r Hk [Hdd Hrun] Hid Hu Hptn Htm. pose proof (por_noexs _ _ _ _ _ Hid Hu) as Hne. fold i in Hne.
  pose proof Hu as [Hpi HQc HQa].
  assert (Hr : r = tk_acp_por id acpptn p_rdvno msg tmout k) by done. unfold tk_acp_por in Hr.
  rewrite Hid, Htm, Hdd, (proj2 (Z.eqb_neq _ _) Hptn) in Hr. cbn [negb] in Hr. fold i c in Hr. rewrite Hne in Hr.
  cbv zeta in Hr. clearbody r. split.
  - intros l1 t l2 -> H1 H2 tc no.
    rewrite (find_caller_spec i acpptn (k_s k) Q l1 (TSKQ t :: l2) Hk HQc H1) in Hr by (intros ?? [= <- <-]; done).
    simpl hd in Hr. rewrite bool_decide_eq_false_2 in Hr by done. cbn [negb] in Hr. change (as_tcb (TSKQ t)) with t in Hr.
    unfold knl_gen_rdvno in Hr. fold tc no in Hr.
    set (s1 := upd_tcb t (λ t, set_t_wrdvno (s32 (t_wrdvno t + Z.shiftl 1 RDVNO_SHIFT)) t) (k_s k)) in Hr.
    assert (Et : s_tcb s1 t = set_t_wrdvno (s32 (no + Z.shiftl 1 RDVNO_SHIFT)) tc) by (unfold s1; simpl; by upd_simpl).
    change (k_s (upd_mem _ (set_k_s s1 k))) with s1 in Hr. rewrite Et in Hr. change (t_winfo (set_t_wrdvno _ tc)) with (t_winfo tc) in Hr.
    destruct (wi_cal (t_winfo tc)) as [[[ptn cmsg] cmsgsz] p]. intros m.
    set (k2 := copy_msg msg cmsg cmsgsz (upd_mem (st32 p_rdvno no) (set_k_s s1 k))) in Hr.
    destruct (copy_msg_s msg cmsg cmsgsz (upd_mem (st32 p_rdvno no) (set_k_s s1 k))) as (Es & Ep & Em). fold k2 in Es, Ep, Em.
    destruct (kinv_in_wait_queue _ _ _ (CALQ i) _ (TSKQ t) Hk eq_refl HQc) as (t0 & [= <-] & Hw & Hh);
      [apply elem_of_app; right; left|].
    assert (Hk1 : kinv s1 Q).
    { apply kinv_upd_tcb; [done|done|done|]. intros []. by constructor. }
    destruct (accept_spec t no maxr s1 Q (CALQ i) Hk1) as (Q' & Hk' & Hheads & Hq & Htm' & Htcb & _);
      [by rewrite Et|by rewrite Et|done|]. cbv zeta in Hk', Htcb.
    rewrite Hr. cbn [fst snd]. change (k_mem (upd_s _ (upd_s _ (upd_s _ (upd_s _ k2))))) with (k_mem k2).
    change (k_s (upd_s ?f (upd_s ?g (upd_s ?h (upd_s ?j k2))))) with (f (g (h (j (k_s k2))))). rewrite Es.
    change (k_s (upd_mem _ (set_k_s s1 k))) with s1. fold maxr.
    split_and!; [done|exact Em| | |].
    + exists Q'. split_and!; [exact Hk'| |done|done]. constructor.
      * change (porid (k_por k2 i) = ID_POR i). by rewrite Ep.
      * by apply Hq.
      * rewrite Hheads; done.
    + intros t'. rewrite Htcb, Et. unfold s1. simpl. fold tc no. by upd_case t t'.
    + unfold rdv_waits. rewrite Htcb, Et, fn_lookup_insert.
      destruct (to_rdv_fields no maxr (set_t_wid 0 (set_t_wspec knl_wspec_rdv (set_t_wrdvno (s32 (no + Z.shiftl 1 RDVNO_SHIFT)) tc))))
        as (-> & -> & _). rewrite bool_decide_eq_true_2 by done. unfold waiting in Hw. fold tc in Hw. simpl t_state. rewrite Hw.
      unfold to_rdv. simpl. destruct (wi_cal (t_winfo tc)) as [[[? ?] ?] ?]. simpl. by rewrite Z.eqb_refl.
  - intros HF. pose proof (find_caller_spec i acpptn (k_s k) Q lc [] Hk) as Hfc. rewrite app_nil_r in Hfc.
    rewrite (Hfc HQc HF) in Hr by done. simpl hd in Hr. rewrite bool_decide_eq_true_2 in Hr by done. cbn [negb] in Hr.
    destruct (tmout =? TMO_POL); [done|]. cbn [negb] in Hr. unfold rdv_result in Hr. rewrite Hr. cbn [fst snd].
    destruct (join_acceptors id (WI_acp acpptn msg p_rdvno (Some c)) tmout (poratr (k_por k i)) (k_s k) Q la Hk Hrun HQa)
      as (Q' & Hk' & HQ' & Hheads & Htcb & Herr). fold c i in Hk', HQ', Hheads, Htcb, Herr.
    match goal with |- context [k_s (upd_s ?f (upd_s ?g (upd_s ?h (upd_s ?j k))))] =>
      change (k_s (upd_s f (upd_s g (upd_s h (upd_s j k))))) with (f (g (h (j (k_s k))))) end.
    split_and!; [|exists Q'; split_and!; [exact Hk'| |exact Hheads]|exact Htcb].
    + cbv beta. rewrite Herr. done.
    + constructor; [done| |exact HQ']. rewrite Hheads; done.
Qed.

(** Tasks 3 and 2 call with the patterns 4 and 1; an acceptor of the pattern 3 takes the
    call of task 2, four bytes. *)
Lemma tk_acp_por_spec_witness :
  let tasks := [ex_ready 3; ex_ready 5; set_t_wrdvno 3 (ex_waits 2 4 knl_wspec_cal_tfifo 1 (WI_cal 1 500 4 (Some 2)));
                set_t_wrdvno 4 (ex_waits 3 4 knl_wspec_cal_tfifo 1 (WI_cal 4 600 4 (Some 3)))] in
  let objs := [(TIMERQ, [TMEBT 2; TMEBT 3]); (CALQ 0, [TSKQ 3; TSKQ 2]); (ACPQ 0, []); (FREE_POR, [CALQ 1])] in
  let k := upd_por 0 (λ _, mkPORCB 1 0 0 16 16) (set_k_mem (λ a, a mod 256) (ex_k (ex_sch tasks objs))) in
  let r := tk_acp_por 1 3 700 704 (-1) k in
  r.1 = 4 ∧ rdv_waits 2 3 (k_s r.2) = true ∧ bytes 700 8 (k_mem r.2) = [3; 0; 0; 0; 244; 245; 246; 247] ∧
  (∃ Q', kinv (k_s r.2) Q' ∧ Q' !! CALQ 0 = Some [TSKQ 3]).
Proof.
  intros tasks objs k r.
  assert (Hk : kinv (k_s k) (ex_Q tasks objs)) by (apply ex_kinv; by vm_compute).
  destruct (tk_acp_por_spec k (ex_Q tasks objs) 1 3 700 704 (-1) [TSKQ 3; TSKQ 2] [] Hk) as [H _];
    [by split; vm_compute|by vm_compute|by split; vm_compute|done|by vm_compute|].
  specialize (H [TSKQ 3] 2 [] eq_refl). cbv zeta in H.
  assert (E : wi_cal (t_winfo (s_tcb (k_s k) 2)) = (1, 500, 4, Some 2)) by (by vm_compute). rewrite E in H.
  destruct H as (H1 & Hm & (Q' & Hk' & [_ Hc _] & _) & _ & Hw); [repeat constructor; by vm_compute|by vm_compute|].
  split_and!; [exact H1|exact Hw| |by exists Q'].
  fold r in Hm. rewrite Hm. by vm_compute.
Defined.
