(* ===== verification/Klock.v ===== *)
(** * Object locks: kernel/tkernel/klock.h, kernel/tkernel/klock.c

    The lock of an object is a queue head whose [next] link is NULL while it is free.
    The task that holds a lock is [klocktsk] of the ready queue and runs before all
    others; the tasks that wait for it are out of the ready queue. *)
From S2P Require Import Prelude Config Queue Kernel ReadyQueue KInv Task Timer Wait.

(* src: kernel/tkernel/klock.h 26-29 knl_InitOBJLOCK *)
Definition knl_InitOBJLOCK (loc : node) (s : SCH) : SCH := upd_q (set_qnext loc NULLQ) s.

(* src: kernel/tkernel/klock.h 33-36 knl_isLockedOBJ *)
Definition knl_isLockedOBJ (loc : node) (s : SCH) : bool := negb (bool_decide (qnext (s_q s) loc = NULLQ)).

(** One round of the loop of [knl_LockOBJ]: [true] when the lock is got; with
    [false] the task waits for the lock, and the round is run again when the task
    runs again. *)
(* src: kernel/tkernel/klock.c 27-56 knl_LockOBJ *)
Definition knl_LockOBJ (loc : node) (s : SCH) : bool * SCH :=
  let c := ctx s in
  if t_klocked (s_tcb s c) then (true, s)
  else if bool_decide (qnext (s_q s) loc = NULLQ) then
    let s := upd_q (QueInit loc) s in
    let s := upd_tcb c (set_t_klocked true) s in
    (true, upd_rq (set_klocktsk (Some c)) s)
  else
    let s := knl_ready_queue_delete c s in
    let s := upd_tcb c (set_t_klockwait true) s in
    let s := upd_q (QueInsert (TSKQ c) loc) s in
    (false, set_s_schedtsk (knl_ready_queue_top s) s).

(* src: kernel/tkernel/klock.c 62-83 knl_UnlockOBJ *)
Definition knl_UnlockOBJ (loc : node) (s : SCH) : SCH :=
  let s := upd_tcb (ctx s) (set_t_klocked false) s in
  let s := upd_rq (set_klocktsk None) s in
  let s :=
    match QueRemoveNext loc (s_q s) with
    | (None, q) => upd_q (set_qnext loc NULLQ) (set_s_q q s)
    | (Some node, q) =>
        let tcb := as_tcb node in
        let s := set_s_q q s in
        let s := upd_tcb tcb (λ t, set_t_klocked true (set_t_klockwait false t)) s in
        knl_ready_queue_insert_top tcb s
    end in
  set_s_schedtsk (knl_ready_queue_top s) s.

(** ** A call under a lock

    Between [knl_LockOBJ] and [knl_UnlockOBJ] the running task is marked as holding the lock,
    and is [klocktsk] of the ready queue: [held c s sl] says that [sl] is [s] with these
    marks. *)
Definition hold_tcb (c : Z) (s : SCH) (f : Z → TCB) : Prop :=
  ∀ t, f t = if decide (t = c) then set_t_klocked true (s_tcb s t) else s_tcb s t.

Definition held (c : Z) (s sl : SCH) : Prop :=
  ∃ f, hold_tcb c s f ∧ sl = set_s_tcb f (set_s_rq (set_klocktsk (Some c) (s_rq s)) s).

(** The invariant reads the table of tasks entry by entry. *)
Lemma kinvx_ext_tcb b x s s' Q :
  s_q s' = s_q s → (∀ t, s_tcb s' t = s_tcb s t) → s_rq s' = s_rq s → s_schedtsk s' = s_schedtsk s →
  kinvx b x s Q → kinvx b x s' Q.
Proof. intros E1 E2 E3 E4 []. constructor; rewrite ?E1, ?E3, ?E4; try done; intros t; rewrite E2; auto. Qed.

Lemma lock_held loc s Q c :
  kinv s Q → s_ctxtsk s = Some c → unplaced Q loc → nd_kind loc = KLock → qnext (s_q s) loc = NULLQ →
  ∃ sl, knl_LockOBJ loc s = (true, sl) ∧ held c (upd_q (QueInit loc) s) sl ∧
    kinv (upd_q (QueInit loc) s) (<[loc := []]> Q).
Proof.
  intros Hk Hc Hu Hl Hn. assert (Ec : ctx s = c) by (unfold ctx; by rewrite Hc).
  destruct (tk_klock _ _ (ki_task _ _ _ _ Hk c ltac:(done))) as [_ Hkl].
  unfold knl_LockOBJ. rewrite Ec, Hkl, bool_decide_eq_true_2 by done. cbv zeta.
  eexists. split; [done|]. split.
  - eexists. split; [|reflexivity]. intros t. simpl. destruct (decide (t = c)) as [->|Hne]; by upd_simpl.
  - apply kinvx_QueInit; [done|apply loose_other; by rewrite Hl|by rewrite Hl|done].
Qed.

(** A node outside all rings may point anywhere. *)
Lemma kinvx_set_next b x s Q e v : kinvx b x s Q → unplaced Q e → kinvx b x (upd_q (set_qnext e v) s) Q.
Proof.
  intros [[Hr Hd] ???????] Hu. constructor; try done. split; [|done]. intros h l HQ.
  eapply ring_frame; [|by apply Hr]. intros y Hy. simpl. rewrite fn_lookup_insert_ne; [done|].
  intros ->. apply (Hu h). by exists l.
Qed.

Lemma unlock_held loc s sl Q c :
  kinv s Q → s_ctxtsk s = Some c → held c s sl → Q !! loc = Some [] → nd_kind loc = KLock →
  let s' := knl_UnlockOBJ loc sl in
  kinv s' (delete loc Q) ∧ (∀ t, s_tcb s' t = s_tcb s t) ∧ same_rest s s' ∧ qnext (s_q s') loc = NULLQ.
Proof.
  intros Hk Hc (f & Hf & ->) HQ Hl. assert (Ec : ctx s = c) by (unfold ctx; by rewrite Hc).
  destruct (kinvx_drop true None s Q Hk loc) as [Hk' Hu];
    [apply loose_other; by rewrite Hl|intros [[E _]|[->| ->]]; by rewrite ?E in Hl|by rewrite Hl|done|].
  unfold knl_UnlockOBJ. simpl. change (ctx (set_s_tcb _ _)) with (ctx s). rewrite Ec.
  rewrite (QueRemoveNext_empty _ _ _ (ki_qwf _ _ _ _ Hk) HQ).
  assert (Et : ∀ t, <[c := set_t_klocked false (f c)]> f t = s_tcb s t).
  { intros t. upd_case c t; rewrite Hf; [|by rewrite decide_False by congruence]. rewrite decide_True by done.
    destruct (tk_klock _ _ (ki_task _ _ _ _ Hk (ctx s) ltac:(done))) as [_ Hkl].
    destruct (s_tcb s (ctx s)). simpl in *. by rewrite Hkl. }
  assert (Er : set_klocktsk None (set_klocktsk (Some c) (s_rq s)) = s_rq s).
  { pose proof (ro_klock _ _ (ki_rdy _ _ _ _ Hk)) as Hkl. destruct (s_rq s). simpl in *. by rewrite Hkl. }
  pose proof (kinvx_set_next _ _ _ _ loc NULLQ Hk' Hu) as Hk2.
  split_and!; [|exact Et|by constructor|simpl; by upd_simpl].
  apply (kinvx_ext_tcb _ _ (upd_q (set_qnext loc NULLQ) s)); [done|exact Et|exact Er| |exact Hk2].
  simpl. rewrite (ki_sched _ _ _ _ Hk2 eq_refl : s_schedtsk s = _), <- (ready_top_spec _ _ _ _ Hk2).
  unfold knl_ready_queue_top. simpl. by rewrite (ro_klock _ _ (ki_rdy _ _ _ _ Hk)).
Qed.

(** Releasing another task does not see the marks. *)
Lemma held_release c t e s sl :
  c ≠ t → t_klocked (s_tcb s t) = false → held c s sl →
  held c (knl_wait_release_ok_ercd t e s) (knl_wait_release_ok_ercd t e sl).
Proof.
  intros Hne Hkl (f & Hf & ->). assert (Et : f t = s_tcb s t) by (rewrite Hf, decide_False by congruence; done).
  assert (Hst : ∀ st, hold_tcb c (upd_tcb t (set_t_state st) s) (<[t := set_t_state st (f t)]> f)).
  { intros st t'. simpl. rewrite Et. upd_case t t'; [by rewrite decide_False by congruence|apply Hf]. }
  unfold knl_wait_release_ok_ercd, knl_wait_release, knl_make_non_wait, knl_make_ready, knl_ready_queue_insert.
  simpl. rewrite Et. destruct (t_state (s_tcb s t) =? TS_WAIT); simpl; upd_simpl; rewrite ?Et; simpl.
  - rewrite Hkl. simpl. destruct (t_priority (s_tcb s t) <? top_priority (s_rq s));
      unfold write_wercd; simpl; upd_simpl; rewrite ?Et; simpl;
      (destruct (t_wercd (s_tcb s t)); exists (<[t := set_t_state TS_READY (f t)]> f);
         (split; [apply (Hst TS_READY)|reflexivity])).
  - unfold write_wercd; simpl; upd_simpl; rewrite ?Et; simpl.
    destruct (t_wercd (s_tcb s t)); exists (<[t := set_t_state TS_SUSPEND (f t)]> f);
      (split; [apply (Hst TS_SUSPEND)|reflexivity]).
Qed.

Lemma held_upd_q c g s sl : held c s sl → held c (upd_q g s) (upd_q g sl).
Proof. intros (f & Hf & ->). by exists f. Qed.

(** The lock [loc] is free: its link is NULL, and it is in no ring. *)
Record lock_free (loc : node) (s : SCH) (Q : gmap node (list node)) : Prop := {
  lf_next : qnext (s_q s) loc = NULLQ;
  lf_none : unplaced Q loc
}.

(** What a call that releases nobody leaves of the scheduler: everything but the links of
    nodes outside the rings. *)
Record quiet (s s' : SCH) (Q : gmap node (list node)) : Prop := {
  qt_kinv : kinv s' Q;
  qt_tcb : ∀ t, s_tcb s' t = s_tcb s t;
  qt_rest : same_rest s s'
}.

(** Lock, nothing, unlock. *)
Lemma locked_quiet loc s sl Q c :
  kinv s Q → s_ctxtsk s = Some c → unplaced Q loc → nd_kind loc = KLock →
  held c (upd_q (QueInit loc) s) sl → kinv (upd_q (QueInit loc) s) (<[loc := []]> Q) →
  quiet s (knl_UnlockOBJ loc sl) Q ∧ lock_free loc (knl_UnlockOBJ loc sl) Q.
Proof.
  intros Hk Hc Hu Hl Hh Hkl.
  destruct (unlock_held loc _ sl _ c Hkl Hc Hh (lookup_insert_eq _ _ _) Hl) as (K & T & R & N).
  rewrite delete_insert_id in K by (by apply unplaced_lookup).
  split; [constructor; [done..|]|by constructor]. etrans; [|exact R]. by constructor.
Qed.

(** Lock, the release of a task that waits in the queue [h], unlock. *)
Lemma locked_release loc h l1 y l2 s sl Q c e :
  kinv s Q → running s → s_ctxtsk s = Some c → unplaced Q loc → nd_kind loc = KLock → wait_head h = true →
  Q !! h = Some (l1 ++ y :: l2) →
  held c (upd_q (QueInit loc) s) sl → kinv (upd_q (QueInit loc) s) (<[loc := []]> Q) →
  let s' := knl_UnlockOBJ loc (knl_wait_release_ok_ercd (as_tcb y) e sl) in
  ∃ Q', rel_post h [y] e s s' Q Q' ∧ Q' !! h = Some (l1 ++ l2) ∧ lock_free loc s' Q' ∧ waiting (s_tcb s (as_tcb y)) = true.
Proof.
  intros Hk Hr Hc Hu Hl Hh HQ Hheld Hkl s'.
  assert (Hne : h ≠ loc) by (intros ->; unfold wait_head in Hh; by rewrite Hl in Hh).
  assert (HQl : <[loc := []]> Q !! h = Some (l1 ++ y :: l2)) by (by rewrite lookup_insert_ne).
  destruct (kinv_in_wait_queue _ _ _ _ _ y Hkl Hh HQl ltac:(set_solver)) as (t & -> & Hw & _).
  simpl in Hw. change (as_tcb (TSKQ t)) with t in *.
  destruct (kinv_release_at h l1 l2 _ e _ _ Hkl Hh HQl) as (Q1 & _ & _ & [K1 H1 C1 T1 E1 V1 M1] & HQ1 & _).
  change (as_tcb (TSKQ t)) with t in *.
  assert (Hct : c ≠ t).
  { intros ->. destruct Hr as [_ Hst]. unfold ctx in Hst. rewrite Hc in Hst. simpl in Hst. unfold waiting in Hw. by rewrite Hst in Hw. }
  assert (Hheld' : held c (knl_wait_release_ok_ercd t e (upd_q (QueInit loc) s)) (knl_wait_release_ok_ercd t e sl)).
  { apply held_release; [done| |done]. apply (ki_task _ _ _ _ Hkl t ltac:(done)). }
  assert (HQloc : Q1 !! loc = Some []).
  { rewrite H1; [apply lookup_insert_eq|unfold obj_head; by rewrite Hl|done]. }
  destruct (unlock_held loc _ _ _ c K1 ltac:(by rewrite (sc_ctxtsk _ _ C1)) Hheld' HQloc Hl) as (K2 & T2 & R2 & N2).
  unfold s'. exists (delete loc Q1). split_and!; [|by rewrite lookup_delete_ne| |done].
  - constructor; [done|..].
    + intros h' Ho Hn. destruct (decide (h' = loc)) as [->|]; [by rewrite lookup_delete_eq, unplaced_lookup|].
      rewrite lookup_delete_ne, H1, lookup_insert_ne by done. done.
    + etrans; [|apply R2]. etrans; [|exact C1]. by constructor.
    + intros t'. by rewrite T2, T1.
    + intros t'. by rewrite (sr_ercd _ _ R2), E1.
    + rewrite (sr_rcvsz _ _ R2). done.
    + rewrite (sr_tmeb _ _ R2). done.
  - constructor; [done|]. by eapply qwf_drop_unplaced, HQloc; apply K1.
Qed.
