(* ===== verification/Semaphore.v ===== *)
(** * Semaphores: kernel/tkernel/semaphore.h, kernel/tkernel/semaphore.c

    The number of a control block is its index in [knl_semcb_table]; block [i] is
    linked through [SEMQ i], in the free list while it is not in use. *)
From S2P Require Import Prelude Config Queue Kernel ReadyQueue KInv KCheck Task Timer Wait.

(* src: include/tk/syscall.h 199-206 T_CSEM *)
Record T_CSEM := mkT_CSEM { csem_exinf : Z; csem_sematr : Z; csem_isemcnt : Z; csem_maxsem : Z }.

(* src: include/tk/syscall.h 211-215 T_RSEM *)
Record T_RSEM := mkT_RSEM { rsem_exinf : Z; rsem_wtsk : Z; rsem_semcnt : Z }.

(* src: kernel/tkernel/semaphore.h 40-40 get_semcb *)
Definition get_semcb (id : Z) : Z := INDEX_SEM id.

(* src: kernel/tkernel/semaphore.c 33-51 knl_semaphore_initialize *)
Definition knl_semaphore_initialize (k : K) : Z * K :=
  if NUM_SEMID <? 1 then (E_SYS, k)
  else
    let k := upd_s (upd_q (QueInit FREE_SEM)) k in
    let k := foldl (λ k i,
      let k := upd_sem i (set_semid 0) k in
      upd_s (upd_q (QueInsert (SEMQ i) FREE_SEM)) k) k (seqZ 0 NUM_SEMID) in
    (E_OK, k).

(* src: kernel/tkernel/semaphore.c 60-66 VALID_SEMATR *)
Definition VALID_SEMATR : Z := Z.lor TA_TPRI TA_CNT.

(* src: kernel/tkernel/semaphore.c 57-103 tk_cre_sem *)
Definition tk_cre_sem (pk_csem : T_CSEM) (k : K) : Z * K :=
  if RSATR_ERR (csem_sematr pk_csem) VALID_SEMATR then (E_RSATR, k)
  else if negb (0 <=? csem_isemcnt pk_csem) then (E_PAR, k)
  else if negb (0 <? csem_maxsem pk_csem) then (E_PAR, k)
  else if negb (csem_isemcnt pk_csem <=? csem_maxsem pk_csem) then (E_PAR, k)
  else
    match QueRemoveNext FREE_SEM (s_q (k_s k)) with
    | (None, q) => (E_LIMIT, upd_s (set_s_q q) k)
    | (Some node, q) =>
        let k := upd_s (set_s_q q) k in
        let semcb := nd_idx node in
        let semid := ID_SEM semcb in
        let k := upd_s (upd_q (QueInit (SEMQ semcb))) k in
        let k := upd_sem semcb (λ _, mkSEMCB semid (csem_exinf pk_csem) (csem_sematr pk_csem)
                   (csem_isemcnt pk_csem) (csem_maxsem pk_csem)) k in
        (semid, k)
    end.

(* src: kernel/tkernel/semaphore.c 109-132 tk_del_sem *)
Definition tk_del_sem (id : Z) (k : K) : Z * K :=
  if negb (CHK_SEMID id) then (E_ID, k)
  else
    let semcb := get_semcb id in
    if semid (k_sem k semcb) =? 0 then (E_NOEXS, k)
    else
      let k := upd_s (knl_wait_delete (SEMQ semcb)) k in
      let k := upd_s (upd_q (QueInsert (SEMQ semcb) FREE_SEM)) k in
      let k := upd_sem semcb (set_semid 0) k in
      (E_OK, k).

(** The loop of [tk_sig_sem] from [queue]; the queue has at most NUM_TSKID tasks. *)
(* src: kernel/tkernel/semaphore.c 165-184 tk_sig_sem *)
Fixpoint sig_sem_loop (fuel : nat) (semcb : Z) (queue : node) (k : K) : K :=
  match fuel with
  | O => k
  | S fuel =>
      if decide (queue = SEMQ semcb) then k
      else
        let tcb := as_tcb queue in
        let queue := qnext (s_q (k_s k)) queue in
        if semcnt (k_sem k semcb) <? wi_sem_cnt (t_winfo (s_tcb (k_s k) tcb)) then
          if negb (has (sematr (k_sem k semcb)) TA_CNT) then k
          else sig_sem_loop fuel semcb queue k
        else
          let k := upd_s (knl_wait_release_ok tcb) k in
          let cnt := wi_sem_cnt (t_winfo (s_tcb (k_s k) tcb)) in
          let k := upd_sem semcb (λ cb, set_semcnt (semcnt cb - cnt) cb) k in
          if semcnt (k_sem k semcb) <=? 0 then k
          else sig_sem_loop fuel semcb queue k
  end.

(* src: kernel/tkernel/semaphore.c 138-190 tk_sig_sem *)
Definition tk_sig_sem (id cnt : Z) (k : K) : Z * K :=
  if negb (CHK_SEMID id) then (E_ID, k)
  else if negb (0 <? cnt) then (E_PAR, k)
  else
    let semcb := get_semcb id in
    if semid (k_sem k semcb) =? 0 then (E_NOEXS, k)
    else if maxsem (k_sem k semcb) - semcnt (k_sem k semcb) <? cnt then (E_QOVR, k)
    else
      let k := upd_sem semcb (λ cb, set_semcnt (semcnt cb + cnt) cb) k in
      (E_OK, sig_sem_loop QFUEL semcb (qnext (s_q (k_s k)) (SEMQ semcb)) k).

(** The loop of [sem_chg_pri]. *)
(* src: kernel/tkernel/semaphore.c 214-227 sem_chg_pri *)
Fixpoint sem_chg_loop (fuel : nat) (semcb : Z) (queue : node) (k : K) : K :=
  match fuel with
  | O => k
  | S fuel =>
      if decide (queue = SEMQ semcb) then k
      else
        let top := as_tcb queue in
        let queue := qnext (s_q (k_s k)) queue in
        if semcnt (k_sem k semcb) <? wi_sem_cnt (t_winfo (s_tcb (k_s k) top)) then k
        else
          let k := upd_s (knl_wait_release_ok top) k in
          let cnt := wi_sem_cnt (t_winfo (s_tcb (k_s k) top)) in
          let k := upd_sem semcb (λ cb, set_semcnt (semcnt cb - cnt) cb) k in
          sem_chg_loop fuel semcb queue k
  end.

(* src: kernel/tkernel/semaphore.c 195-228 sem_chg_pri *)
Definition sem_chg_pri (tcb oldpri : Z) (k : K) : K :=
  let semcb := get_semcb (t_wid (s_tcb (k_s k) tcb)) in
  let k := if 0 <=? oldpri then upd_s (knl_gcb_change_priority (gcb semcb (k_sem k semcb)) tcb) k else k in
  if has (sematr (k_sem k semcb)) TA_CNT then k
  else sem_chg_loop QFUEL semcb (qnext (s_q (k_s k)) (SEMQ semcb)) k.

(* src: kernel/tkernel/semaphore.c 233-236 sem_rel_wai *)
Definition sem_rel_wai (tcb : Z) (k : K) : K := sem_chg_pri tcb (-1) k.

(** The result of a call that waits is the variable [ercd] when the task runs again;
    it is E_TMOUT until the task is released. *)
(* src: kernel/tkernel/semaphore.c 247-290 tk_wai_sem *)
Definition tk_wai_sem (id cnt tmout : Z) (k : K) : Z * K :=
  if negb (CHK_SEMID id) then (E_ID, k)
  else if negb (0 <? cnt) then (E_PAR, k)
  else if TMOUT_ERR tmout then (E_PAR, k)
  else if in_ddsp (k_s k) then (E_CTX, k)
  else
    let semcb := get_semcb id in
    let c := ctx (k_s k) in
    if semid (k_sem k semcb) =? 0 then (E_NOEXS, k)
    else if maxsem (k_sem k semcb) <? cnt then (E_PAR, k)
    else if (has (sematr (k_sem k semcb)) TA_CNT
             || (knl_gcb_top_of_wait_queue (gcb semcb (k_sem k semcb)) c (k_s k) =? c))
            && (cnt <=? semcnt (k_sem k semcb)) then
      (E_OK, upd_sem semcb (λ cb, set_semcnt (semcnt cb - cnt) cb) k)
    else
      let w := if has (sematr (k_sem k semcb)) TA_TPRI then knl_wspec_sem_tpri else knl_wspec_sem_tfifo in
      let k := upd_s (upd_tcb c (λ t, set_t_winfo (WI_sem cnt) (set_t_wercd (Some c) (set_t_wspec w t)))) k in
      let k := upd_s (knl_gcb_make_wait (gcb semcb (k_sem k semcb)) tmout) k in
      (s_ercd (k_s k) c, k).

(* src: kernel/tkernel/semaphore.c 296-316 tk_ref_sem *)
Definition tk_ref_sem (id : Z) (k : K) : Z * option T_RSEM :=
  if negb (CHK_SEMID id) then (E_ID, None)
  else
    let semcb := get_semcb id in
    if semid (k_sem k semcb) =? 0 then (E_NOEXS, None)
    else (E_OK, Some (mkT_RSEM (sem_exinf (k_sem k semcb)) (knl_wait_tskid (SEMQ semcb) (k_s k))
                        (semcnt (k_sem k semcb)))).

(* src: kernel/tkernel/semaphore.c 359-378 td_lst_sem *)
Definition td_lst_sem (nent : Z) (k : K) : Z * list Z :=
  td_lst (λ i, negb (semid (k_sem k i) =? 0)) (λ i, semid (k_sem k i)) NUM_SEMID nent.

(* src: kernel/tkernel/semaphore.c 385-405 td_ref_sem *)
Definition td_ref_sem (id : Z) (k : K) : Z * option T_RSEM :=
  if negb (CHK_SEMID id) then (E_ID, None)
  else
    let semcb := get_semcb id in
    if semid (k_sem k semcb) =? 0 then (E_NOEXS, None)
    else (E_OK, Some (mkT_RSEM (sem_exinf (k_sem k semcb)) (knl_wait_tskid (SEMQ semcb) (k_s k))
                        (semcnt (k_sem k semcb)))).

(* src: kernel/tkernel/semaphore.c 412-437 td_sem_que *)
Definition td_sem_que (id nent : Z) (k : K) : Z * list Z :=
  if negb (CHK_SEMID id) then (E_ID, [])
  else
    let semcb := get_semcb id in
    if semid (k_sem k semcb) =? 0 then (E_NOEXS, [])
    else td_que (SEMQ semcb) nent (k_s k).

(** ** Specification

    What a signal does to the waiting requests: [need y] is the count task [y] waits
    for.  Without TA_CNT requests are granted from the head until one does not fit,
    with TA_CNT every request that fits the remaining count is granted. *)

Fixpoint sem_serve (any : bool) (need : node → Z) (cnt : Z) (l : list node) : list node * Z * list node :=
  match l with
  | [] => ([], cnt, [])
  | y :: l' =>
      if cnt <? need y then
        if any then let '(rel, cnt', rest) := sem_serve any need cnt l' in (rel, cnt', y :: rest)
        else ([], cnt, l)
      else if cnt - need y <=? 0 then ([y], cnt - need y, l')
      else let '(rel, cnt', rest) := sem_serve any need (cnt - need y) l' in (y :: rel, cnt', rest)
  end.

(** No request that could be granted is left waiting. *)
Definition sem_stable (any : bool) (need : node → Z) (cnt : Z) (l : list node) : Prop :=
  if any then Forall (λ y, cnt < need y) l
  else match l with [] => True | y :: _ => cnt < need y end.

Definition total (need : node → Z) (l : list node) : Z := foldr (λ y n, need y + n) 0 l.

Lemma sem_serve_ext any need need' cnt l :
  (∀ y, need y = need' y) → sem_serve any need cnt l = sem_serve any need' cnt l.
Proof.
  intros E. revert cnt. induction l as [|y l IH]; intros cnt; simpl; [done|]. by rewrite E, !IH.
Qed.

Lemma sem_serve_rel any need cnt l y : y ∈ (sem_serve any need cnt l).1.1 → y ∈ l.
Proof.
  revert cnt. induction l as [|x l IH]; intros cnt; simpl; [done|].
  destruct (cnt <? need x); [destruct any; [|set_solver]|destruct (cnt - need x <=? 0); [set_solver|]].
  - specialize (IH cnt). destruct (sem_serve true need cnt l) as [[??]?]. set_solver.
  - specialize (IH (cnt - need x)). destruct (sem_serve any need _ l) as [[??]?]. set_solver.
Qed.

Lemma sem_serve_spec any need cnt l :
  0 <= cnt → Forall (λ y, 0 < need y) l →
  let '(rel, cnt', rest) := sem_serve any need cnt l in
  0 <= cnt' ∧ cnt = cnt' + total need rel ∧ l ≡ₚ rel ++ rest ∧ rel `sublist_of` l ∧
  rest `sublist_of` l ∧ sem_stable any need cnt' rest.
Proof.
  intros Hc Hl. revert cnt Hc. induction Hl as [|y l Hy Hl IH]; intros cnt Hc; simpl.
  - split_and!; try done; [lia|by destruct any; simpl].
  - destruct (Z.ltb_spec cnt (need y)).
    + destruct any.
      * specialize (IH cnt Hc). destruct (sem_serve true need cnt l) as [[rel c'] rest].
        destruct IH as (? & -> & Hp & ? & ? & Hst). split_and!; try done.
        -- rewrite Hp. by rewrite Permutation_middle.
        -- by constructor.
        -- by constructor.
        -- constructor; [|done]. assert (0 <= total need rel); [|lia].
           assert (Forall (λ y, 0 < need y) rel) as Hr by (apply Forall_forall; intros z Hz; rewrite Forall_forall in Hl; apply Hl; rewrite Hp; set_solver).
           clear -Hr. induction Hr; simpl; [lia|]. unfold total in *; simpl in *; lia.
      * simpl. split_and!; try done; [lia|by apply sublist_nil_l].
    + destruct (Z.leb_spec (cnt - need y) 0).
      * simpl. split_and!; try done; [lia|lia|by apply sublist_skip, sublist_nil_l|by constructor|].
        assert (cnt - need y = 0) as -> by lia. destruct any; simpl; [done|]. by destruct Hl.
      * specialize (IH (cnt - need y) ltac:(lia)).
        destruct (sem_serve any need (cnt - need y) l) as [[rel c'] rest].
        destruct IH as (? & E & Hp & ? & ? & Hst). split_and!; try done.
        -- unfold total in *; simpl. lia.
        -- by rewrite Hp.
        -- by constructor.
        -- by constructor.
Qed.

(** ** The code implements the specification *)

(** Nothing but the scheduler part and the count of one semaphore changed. *)
Definition sem_only (i c : Z) (k k' : K) : Prop :=
  (∀ j, k_sem k' j = if decide (i = j) then set_semcnt c (k_sem k i) else k_sem k j) ∧
  k' = set_k_sem (k_sem k') (set_k_s (k_s k') k).

Lemma sem_only_refl i s k : sem_only i (semcnt (k_sem k i)) k (set_k_s s k).
Proof. split; [|done]. intros j. simpl. case_decide as E; [|done]. subst. by destruct (k_sem k j). Qed.

Lemma sem_only_trans i c c' k1 k2 k3 : sem_only i c k1 k2 → sem_only i c' k2 k3 → sem_only i c' k1 k3.
Proof.
  intros [E1 S1] [E2 S2]. split.
  - intros j. rewrite E2. case_decide; rewrite E1; [by rewrite decide_True|by rewrite decide_False].
  - clear E1 E2. destruct k1, k2, k3. unfold set_k_sem, set_k_s in *. simpl in *. congruence.
Qed.

Definition need_of (k : K) (y : node) : Z := wi_sem_cnt (t_winfo (s_tcb (k_s k) (as_tcb y))).

(** Granting the request of one task. *)
Definition sem_grant (i : Z) (y : node) (k : K) : K :=
  let k' := upd_s (knl_wait_release_ok (as_tcb y)) k in
  upd_sem i (λ cb, set_semcnt (semcnt cb - need_of k' y) cb) k'.

Lemma sem_grant_spec i l0 y l k Q :
  kinv (k_s k) Q → Q !! SEMQ i = Some (l0 ++ y :: l) →
  let k' := sem_grant i y k in
  ∃ Q', rel_post (SEMQ i) [y] E_OK (k_s k) (k_s k') Q Q' ∧ Q' !! SEMQ i = Some (l0 ++ l) ∧
    y ∉ l0 ++ l ∧ sem_only i (semcnt (k_sem k i) - need_of k y) k k' ∧ ∀ z, need_of k' z = need_of k z.
Proof.
  intros Hk HQ k'. destruct (kinv_release_at (SEMQ i) l0 l y E_OK (k_s k) Q Hk eq_refl HQ)
    as (Q' & _ & _ & Hr & HQ' & Hnin).
  assert (Hneed : ∀ z, need_of k' z = need_of k z).
  { intros z. unfold need_of. f_equal. by apply (rp_tcb_field t_winfo _ _ _ _ _ _ _ _ ltac:(done) Hr). }
  exists Q'. split_and!; try done. split; [|done]. intros j. rewrite <- Hneed. simpl.
  unfold insert, fn_insert. by case_decide.
Qed.

Lemma sig_sem_loop_eq fuel i y k :
  sig_sem_loop (S fuel) i y k =
    if decide (y = SEMQ i) then k
    else
      let next := qnext (s_q (k_s k)) y in
      if semcnt (k_sem k i) <? need_of k y then
        if negb (has (sematr (k_sem k i)) TA_CNT) then k else sig_sem_loop fuel i next k
      else
        let k' := sem_grant i y k in
        if semcnt (k_sem k' i) <=? 0 then k' else sig_sem_loop fuel i next k'.
Proof. done. Qed.

Lemma sig_sem_loop_spec i fuel l0 l k Q :
  kinv (k_s k) Q → Q !! SEMQ i = Some (l0 ++ l) → (length l ≤ fuel)%nat →
  let k' := sig_sem_loop fuel i (hd (SEMQ i) l) k in
  let '(rel, cnt, rest) := sem_serve (has (sematr (k_sem k i)) TA_CNT) (need_of k) (semcnt (k_sem k i)) l in
  ∃ Q', rel_post (SEMQ i) rel E_OK (k_s k) (k_s k') Q Q' ∧ Q' !! SEMQ i = Some (l0 ++ rest) ∧
    sem_only i cnt k k'.
Proof.
  revert l0 l k Q. induction fuel as [|fuel IH]; intros l0 l k Q Hk HQ Hf; cbv zeta.
  { destruct l; [|simpl in Hf; lia]. simpl. exists Q. split_and!; [by apply rel_post_nil|done|].
    by destruct k; apply sem_only_refl. }
  destruct l as [|y l]; simpl hd; rewrite sig_sem_loop_eq; cbv zeta.
  { rewrite decide_True by done. exists Q. split_and!; [by apply rel_post_nil|done|by destruct k; apply sem_only_refl]. }
  rewrite (decide_False _ _ (kinvx_head_ne _ _ _ _ _ _ _ _ Hk HQ)), (kinvx_next _ _ _ _ _ _ _ _ Hk HQ).
  simpl sem_serve. simpl in Hf. destruct (semcnt (k_sem k i) <? need_of k y) eqn:Hlt.
  - destruct (has (sematr (k_sem k i)) TA_CNT) eqn:Hany; simpl.
    + rewrite cons_middle, app_assoc in HQ. specialize (IH _ l k Q Hk HQ ltac:(lia)). cbv zeta in IH. rewrite Hany in IH.
      destruct (sem_serve true _ _ l) as [[rel c'] rest]. destruct IH as (Q' & ? & HQ' & ?).
      exists Q'. split_and!; [done| |done]. by rewrite HQ', <- app_assoc.
    + exists Q. split_and!; [by apply rel_post_nil|done|by destruct k; apply sem_only_refl].
  - destruct (sem_grant_spec i l0 y l k Q Hk HQ) as (Q1 & Hr1 & HQ1 & Hnin & Honly & Hneed).
    set (k1 := sem_grant i y k) in *.
    assert (Hc1 : semcnt (k_sem k1 i) = semcnt (k_sem k i) - need_of k y)
      by (rewrite (proj1 Honly); by rewrite decide_True).
    assert (Ha1 : sematr (k_sem k1 i) = sematr (k_sem k i))
      by (rewrite (proj1 Honly); by rewrite decide_True).
    rewrite Hc1. destruct (semcnt (k_sem k i) - need_of k y <=? 0); [by exists Q1|].
    specialize (IH l0 l k1 Q1 (rp_kinv _ _ _ _ _ _ _ Hr1) HQ1 ltac:(lia)). cbv zeta in IH.
    rewrite Hc1, Ha1, (sem_serve_ext _ _ _ _ _ Hneed) in IH.
    destruct (sem_serve _ (need_of k) _ l) as [[rel c'] rest] eqn:Es. destruct IH as (Q' & Hr2 & HQ' & Honly2).
    exists Q'. split_and!; [|done|by eapply sem_only_trans].
    apply (rel_post_app _ [y] _ _ _ _ _ _ _ _ Hr1 Hr2). intros z ->%list_elem_of_singleton Hz.
    apply Hnin, elem_of_app. right. pose proof (sem_serve_rel (has (sematr (k_sem k i)) TA_CNT)
      (need_of k) (semcnt (k_sem k i) - need_of k y) l y) as Hin. rewrite Es in Hin. by apply Hin.
Qed.

(** ** A semaphore in good order *)

Record sem_used (k : K) (Q : gmap node (list node)) (i : Z) (l : list node) : Prop := {
  su_id : semid (k_sem k i) = ID_SEM i;
  su_cnt : 0 <= semcnt (k_sem k i) <= maxsem (k_sem k i);
  su_max : maxsem (k_sem k i) <= INT_MAX;
  su_que : Q !! SEMQ i = Some l;
  su_need : ∀ y, y ∈ l → 0 < need_of k y <= maxsem (k_sem k i);
  su_stable : sem_stable (has (sematr (k_sem k i)) TA_CNT) (need_of k) (semcnt (k_sem k i)) l
}.

Lemma sem_stable_ext any need need' cnt l :
  (∀ y, need y = need' y) → sem_stable any need cnt l → sem_stable any need' cnt l.
Proof.
  intros E. unfold sem_stable. destruct any; [|destruct l; by rewrite ?E].
  intros Hl. eapply Forall_impl; [exact Hl|]. intros y. simpl. by rewrite E.
Qed.

Lemma ID_SEM_ne i : 0 <= i → ID_SEM i ≠ 0.
Proof. unfold ID_SEM, MIN_SEMID. lia. Qed.

Lemma need_of_rel h rel e s Q Q' k k' y :
  rel_post h rel e s (k_s k') Q Q' → s = k_s k → need_of k' y = need_of k y.
Proof.
  intros Hr ->. unfold need_of. f_equal. by apply (rp_tcb_field t_winfo _ _ _ _ _ _ _ _ ltac:(done) Hr).
Qed.

(** A signal, for the clients of semaphores. *)
Lemma tk_sig_sem_ok (k : K) (Q : gmap node (list node)) (id cnt : Z) (l : list node) :
  let i := get_semcb id in
  kinv (k_s k) Q → CHK_SEMID id = true → sem_used k Q i l →
  0 < cnt <= maxsem (k_sem k i) - semcnt (k_sem k i) →
  let '(rel, c, rest) :=
    sem_serve (has (sematr (k_sem k i)) TA_CNT) (need_of k) (semcnt (k_sem k i) + cnt) l in
  ∃ k' Q', tk_sig_sem id cnt k = (E_OK, k') ∧
    rel_post (SEMQ i) rel E_OK (k_s k) (k_s k') Q Q' ∧ sem_only i c k k' ∧
    l ≡ₚ rel ++ rest ∧ semcnt (k_sem k i) + cnt = c + total (need_of k) rel ∧
    sem_used k' Q' i rest.
Proof.
  intros i Hk Hid [Hi Hc Hm HQ Hn Hst] Hcnt.
  set (k1 := upd_sem i (λ cb, set_semcnt (semcnt cb + cnt) cb) k).
  assert (E1 : k_sem k1 i = set_semcnt (semcnt (k_sem k i) + cnt) (k_sem k i)) by (unfold k1; simpl; by upd_simpl).
  pose proof (sig_sem_loop_spec i QFUEL [] l k1 Q Hk HQ (length_wait_queue _ _ (SEMQ i) _ Hk eq_refl HQ)) as Hl.
  cbv zeta in Hl. rewrite E1 in Hl. simpl sematr in Hl. simpl semcnt in Hl.
  change (need_of k1) with (need_of k) in Hl.
  pose proof (sem_serve_spec (has (sematr (k_sem k i)) TA_CNT) (need_of k) (semcnt (k_sem k i) + cnt) l
    ltac:(lia)) as Hs.
  destruct (sem_serve _ _ _ l) as [[rel c] rest]. destruct Hl as (Q' & Hr & HQ' & Ho & Ho').
  destruct Hs as (Hc' & Hsum & Hp & _ & _ & Hst'); [apply Forall_forall; intros y Hy; by apply Hn|].
  assert (0 <= total (need_of k) rel).
  { assert (Forall (λ y, 0 < need_of k y) rel) as Hf.
    { apply Forall_forall. intros y Hy. apply Hn. rewrite Hp. apply elem_of_app. by left. }
    clear -Hf. induction Hf; simpl; unfold total in *; simpl in *; lia. }
  assert (Hi0 : 0 <= i).
  { unfold CHK_SEMID, MIN_SEMID in Hid. apply andb_prop in Hid as [?%Z.leb_le _].
    unfold i, get_semcb, INDEX_SEM, MIN_SEMID. lia. }
  set (k' := sig_sem_loop QFUEL i (hd (SEMQ i) l) k1) in *.
  assert (Ek : ∀ j, k_sem k' j = if decide (i = j) then set_semcnt c (k_sem k i) else k_sem k j).
  { intros j. rewrite Ho. case_decide; [by rewrite E1|]. unfold k1. simpl. by upd_simpl. }
  exists k', Q'. split_and!; [|done|split; [done|]|done|done|].
  - unfold tk_sig_sem. rewrite Hid. fold i. rewrite Hi.
    destruct (Z.eqb_spec (ID_SEM i) 0); [by apply ID_SEM_ne in Hi0|].
    destruct (Z.ltb_spec 0 cnt); [|lia]. destruct (Z.ltb_spec (maxsem (k_sem k i) - semcnt (k_sem k i)) cnt); [lia|].
    simpl negb. cbv iota zeta. fold k1. change (k_s k1) with (k_s k). by rewrite (kinvx_first _ _ _ _ _ _ Hk HQ).
  - rewrite Ho'. by destruct k.
  - assert (Hneed : ∀ y, need_of k' y = need_of k y) by (intros y; by eapply need_of_rel).
    constructor; rewrite ?Ek; rewrite ?decide_True by done; simpl; try done; [lia|..].
    + intros y Hy. rewrite Hneed. apply Hn. rewrite Hp. apply elem_of_app. by right.
    + eapply sem_stable_ext; [|exact Hst']. intros y. by rewrite Hneed.
Qed.

(** C5: Signalling a semaphore implements [sem_serve].  When the count fits, tk_sig_sem
    returns E_OK; exactly the tasks the specification grants, in queue order, are
    released with E_OK, the others stay queued in the same order, the remaining
    count is the old one plus [cnt] minus what was granted and stays between 0 and
    the maximum (so it never overflows), no request that could be granted is left
    waiting, and nothing else of the kernel's tables changes. *)
Theorem tk_sig_sem_refines (k : K) (Q : gmap node (list node)) (id cnt : Z) (l : list node) :
  let i := get_semcb id in
  kinv (k_s k) Q → CHK_SEMID id = true → sem_used k Q i l →
  0 < cnt <= maxsem (k_sem k i) - semcnt (k_sem k i) →
  let '(rel, c, rest) :=
    sem_serve (has (sematr (k_sem k i)) TA_CNT) (need_of k) (semcnt (k_sem k i) + cnt) l in
  ∃ k' Q', tk_sig_sem id cnt k = (E_OK, k') ∧
    rel_post (SEMQ i) rel E_OK (k_s k) (k_s k') Q Q' ∧ sem_only i c k k' ∧
    l ≡ₚ rel ++ rest ∧ semcnt (k_sem k i) + cnt = c + total (need_of k) rel ∧
    sem_used k' Q' i rest.
Proof. apply tk_sig_sem_ok. Qed.

Lemma tk_sig_sem_refines_witness :
  let tasks := [ex_ready 3; ex_ready 5; ex_waits 2 4 knl_wspec_sem_tfifo 1 (WI_sem 2)] in
  let objs := [(TIMERQ, [TMEBT 2]); (SEMQ 0, [TSKQ 2]); (FREE_SEM, [SEMQ 1])] in
  let k := upd_sem 0 (λ _, mkSEMCB 1 0 0 1 5) (ex_k (ex_sch tasks objs)) in
  ∃ k' Q', tk_sig_sem 1 3 k = (E_OK, k') ∧ sem_used k' Q' 0 [].
Proof.
  intros tasks objs k.
  assert (Hk : kinv (k_s k) (ex_Q tasks objs)) by (apply ex_kinv; by vm_compute).
  pose proof (tk_sig_sem_refines k (ex_Q tasks objs) 1 3 [TSKQ 2] Hk eq_refl) as H.
  assert (Hu : sem_used k (ex_Q tasks objs) 0 [TSKQ 2]).
  { constructor; [done|by vm_compute|by vm_compute|by vm_compute|
      intros y ->%list_elem_of_singleton; by vm_compute|by vm_compute]. }
  specialize (H Hu ltac:(by vm_compute)).
  assert (E : sem_serve (has (sematr (k_sem k (get_semcb 1))) TA_CNT) (need_of k)
    (semcnt (k_sem k (get_semcb 1)) + 3) [TSKQ 2] = ([TSKQ 2], 2, [])) by (by vm_compute).
  rewrite E in H. destruct H as (k' & Q' & H1 & _ & _ & _ & _ & H2). by exists k', Q'.
Defined.

(** ** Waiting on a semaphore *)

Lemma sem_stable_le any need cnt cnt' l : cnt' <= cnt → sem_stable any need cnt l → sem_stable any need cnt' l.
Proof.
  intros Hle. unfold sem_stable. destruct any; [|destruct l; [done|lia]].
  intros Hl. eapply Forall_impl; [exact Hl|]. intros y. simpl. lia.
Qed.

(** The running task takes its count from the front of the queue: it overtakes no one
    it should not. *)
Definition sem_first (any : bool) (atr : Z) (s : SCH) (c : Z) (l : list node) : bool :=
  any || first_in_line atr s c l.

Lemma sem_stable_enqueue any need need' cnt n atr s c l :
  sem_stable any need cnt l → (∀ y, y ∈ l → need' y = need y) → need' (TSKQ c) = n →
  (sem_first any atr s c l = true → cnt < n) →
  sem_stable any need' cnt (wait_order s atr c l).
Proof.
  intros Hst Hl Hc Hf. unfold wait_order, queued_at. destruct any; simpl in *.
  - assert (Forall (λ y, cnt < need' y) (TSKQ c :: l)) as Hall.
    { constructor; [rewrite Hc; auto|]. apply Forall_forall. intros y Hy. rewrite Hl by done.
      rewrite Forall_forall in Hst. by apply Hst. }
    destruct (has atr TA_TPRI); [by rewrite ins_before_Permutation|]. by rewrite Permutation_app_comm.
  - destruct (wait_order_head atr s c l) as (y & l' & E & Hy). unfold wait_order, queued_at in E. rewrite E.
    destruct (first_in_line atr s c l); [rewrite Hy, Hc; auto|].
    destruct l as [|z l]; [done|]. injection Hy as ->. rewrite Hl by left. done.
Qed.

Lemma sem_used_frame k k' Q Q' i l :
  k_sem k' i = k_sem k i → Q' !! SEMQ i = Some l → (∀ y, y ∈ l → need_of k' y = need_of k y) →
  sem_used k Q i l → sem_used k' Q' i l.
Proof.
  intros E HQ Hl []. constructor; rewrite ?E; try done.
  - intros y Hy. rewrite Hl by done. auto.
  - unfold sem_stable in *. destruct (has _ _).
    + rewrite Forall_forall in su_stable0 |- *. intros y Hy. rewrite Hl by done. auto.
    + destruct l; [done|]. rewrite Hl by left. done.
Qed.

(** A wait, for the clients of semaphores. *)
Lemma tk_wai_sem_ok (k : K) (Q : gmap node (list node)) (id cnt tmout : Z) (l : list node) :
  let i := get_semcb id in
  let cb := k_sem k i in
  let c := ctx (k_s k) in
  let any := has (sematr cb) TA_CNT in
  let k' := (tk_wai_sem id cnt tmout k).2 in
  let r := (tk_wai_sem id cnt tmout k).1 in
  kinv (k_s k) Q → running (k_s k) → CHK_SEMID id = true → sem_used k Q i l →
  0 < cnt <= maxsem cb → TMOUT_ERR tmout = false →
  if sem_first any (sematr cb) (k_s k) c l && (cnt <=? semcnt cb)
  then r = E_OK ∧ k' = upd_sem i (set_semcnt (semcnt cb - cnt)) k ∧ kinv (k_s k') Q ∧ sem_used k' Q i l
  else r = E_TMOUT ∧ k_sem k' = k_sem k ∧
    if tmout =? TMO_POL then kinv (k_s k') Q ∧ sem_used k' Q i l
    else ∃ Q' w, wait_post (gcb i cb) w (WI_sem cnt) l (k_s k) (k_s k') Q Q' ∧
                 sem_used k' Q' i (wait_order (k_s k) (sematr cb) c l).
Proof.
  intros i cb c any k' r Hk [Hdd Hrun] Hid Hu Hcnt Htm. pose proof Hu as [Hi Hc Hm HQ Hn Hst].
  assert (Hwt : waiting (s_tcb (k_s k) c) = false) by (unfold waiting, c; by rewrite Hrun).
  assert (Hi0 : 0 <= i).
  { unfold CHK_SEMID, MIN_SEMID in Hid. apply andb_prop in Hid as [?%Z.leb_le _].
    unfold i, get_semcb, INDEX_SEM, MIN_SEMID. lia. }
  assert (E : tk_wai_sem id cnt tmout k =
    if sem_first any (sematr cb) (k_s k) c l && (cnt <=? semcnt cb) then
      (E_OK, upd_sem i (λ cb, set_semcnt (semcnt cb - cnt) cb) k)
    else
      let w := if has (sematr cb) TA_TPRI then knl_wspec_sem_tpri else knl_wspec_sem_tfifo in
      let k' := upd_s (λ s, knl_gcb_make_wait (gcb i cb) tmout (upd_tcb c (set_wait w (WI_sem cnt) c) s)) k in
      (s_ercd (k_s k') c, k')).
  { unfold tk_wai_sem. rewrite Hid, Htm, Hdd. fold i. rewrite Hi. fold cb c.
    destruct (Z.ltb_spec 0 cnt); [|lia]. destruct (Z.eqb_spec (ID_SEM i) 0); [by apply ID_SEM_ne in Hi0|].
    destruct (Z.ltb_spec (maxsem cb) cnt); [lia|]. cbn [negb].
    change (gcb i cb) with (mkGCB (SEMQ i) (semid cb) (sematr cb)).
    rewrite (top_of_wait_queue_spec (mkGCB (SEMQ i) (semid cb) (sematr cb)) (k_s k) Q l c Hk eq_refl HQ Hwt). fold any. by destruct any. }
  unfold r, k'. rewrite E. clear E k' r.
  destruct (sem_first any (sematr cb) (k_s k) c l && (cnt <=? semcnt cb)) eqn:Hg.
  { apply andb_prop in Hg as [_ Hle%Z.leb_le]. cbn [fst snd]. split_and!; [done|done|done|].
    assert (E1 : k_sem (upd_sem i (λ cb, set_semcnt (semcnt cb - cnt) cb) k) i = set_semcnt (semcnt cb - cnt) cb)
      by (simpl; by upd_simpl).
    constructor; rewrite ?E1; simpl; try done; fold cb in Hc |- *; [lia|].
    eapply sem_stable_le; [|exact Hst]. fold cb. lia. }
  assert (Hneed' : sem_first any (sematr cb) (k_s k) c l = true → semcnt cb < cnt).
  { intros Hf. rewrite Hf in Hg. by apply Z.leb_gt in Hg. }
  set (w := if has (sematr cb) TA_TPRI then knl_wspec_sem_tpri else knl_wspec_sem_tfifo).
  assert (Hne : ∀ y, y ∈ l → c ≠ as_tcb y) by (intros y; by apply (queued_ne_running _ Q (SEMQ i))).
  cbv zeta. destruct (Z.eqb_spec tmout TMO_POL) as [->|Hp].
  - unfold upd_s, c. rewrite wait_on_poll. cbn [fst snd]. split_and!; [simpl; by upd_simpl|done| |].
    { eapply kinvx_ext; [..|by apply (kinv_set_wait w (WI_sem cnt) (k_s k) Q)]; done. }
    apply (sem_used_frame k _ Q Q); [done|done| |done].
    intros y Hy. unfold need_of. simpl. rewrite fn_lookup_insert_ne; [done|by apply Hne].
  - destruct (kinv_wait_on (gcb i cb) w (WI_sem cnt) tmout (k_s k) Q l) as (Q' & Hw); try done.
    { change (objid (gcb i cb)) with (semid (k_sem k i)). rewrite Hi. unfold w, wait_home.
      by destruct (has (sematr cb) TA_TPRI); rewrite INDEX_ID_SEM. }
    fold c in Hw. cbn [fst snd]. set (k' := upd_s _ k).
    change (knl_gcb_make_wait _ _ _) with (k_s k') in Hw.
    split_and!; [rewrite (wp_ercd _ _ _ _ _ _ _ _ Hw); fold c; by upd_simpl|done|].
    exists Q', w. split; [done|]. pose proof (wp_que _ _ _ _ _ _ _ _ Hw) as HQ'.
    assert (Hold : ∀ y, y ∈ l → need_of k' y = need_of k y).
    { intros y Hy. unfold need_of. rewrite (wp_tcb _ _ _ _ _ _ _ _ Hw), fn_lookup_insert_ne; [done|by apply Hne]. }
    assert (Hnew : need_of k' (TSKQ c) = cnt)
      by (unfold need_of; rewrite (wp_tcb _ _ _ _ _ _ _ _ Hw); by rewrite fn_lookup_insert).
    constructor; try done.
    + intros y [-> | Hy]%elem_of_wait_order; [by rewrite Hnew|]. rewrite Hold by done. by apply Hn.
    + by eapply sem_stable_enqueue.
Qed.

(** C6: Waiting on a semaphore.  The request is granted at once exactly when the count
    suffices and (without TA_CNT) nobody is queued before the task; then only the
    count changes, and it stays non-negative.  Otherwise a poll returns E_TMOUT and
    leaves the semaphore alone, and any other time-out puts the task into the queue,
    behind all waiting tasks (TA_TFIFO) or behind those of the same or a higher
    priority (TA_TPRI), with E_TMOUT as the result unless it is released.  In all
    cases no request that could be granted is left waiting. *)
Theorem tk_wai_sem_spec (k : K) (Q : gmap node (list node)) (id cnt tmout : Z) (l : list node) :
  let i := get_semcb id in
  let cb := k_sem k i in
  let c := ctx (k_s k) in
  let any := has (sematr cb) TA_CNT in
  let k' := (tk_wai_sem id cnt tmout k).2 in
  let r := (tk_wai_sem id cnt tmout k).1 in
  kinv (k_s k) Q → running (k_s k) → CHK_SEMID id = true → sem_used k Q i l →
  0 < cnt <= maxsem cb → TMOUT_ERR tmout = false →
  if sem_first any (sematr cb) (k_s k) c l && (cnt <=? semcnt cb)
  then r = E_OK ∧ k' = upd_sem i (set_semcnt (semcnt cb - cnt)) k ∧ kinv (k_s k') Q ∧ sem_used k' Q i l
  else r = E_TMOUT ∧ k_sem k' = k_sem k ∧
    if tmout =? TMO_POL then kinv (k_s k') Q ∧ sem_used k' Q i l
    else ∃ Q' w, wait_post (gcb i cb) w (WI_sem cnt) l (k_s k) (k_s k') Q Q' ∧
                 sem_used k' Q' i (wait_order (k_s k) (sematr cb) c l).
Proof. apply tk_wai_sem_ok. Qed.

Lemma tk_wai_sem_spec_witness :
  let tasks := [ex_ready 3; ex_ready 5; ex_waits 2 4 knl_wspec_sem_tfifo 1 (WI_sem 2)] in
  let objs := [(TIMERQ, [TMEBT 2]); (SEMQ 0, [TSKQ 2]); (FREE_SEM, [SEMQ 1])] in
  let k := upd_sem 0 (λ _, mkSEMCB 1 0 0 1 5) (ex_k (ex_sch tasks objs)) in
  let k' := (tk_wai_sem 1 1 10 k).2 in
  ∃ Q', kinv (k_s k') Q' ∧ Q' !! SEMQ 0 = Some [TSKQ 2; TSKQ 0].
Proof.
  intros tasks objs k k'.
  assert (Hk : kinv (k_s k) (ex_Q tasks objs)) by (apply ex_kinv; by vm_compute).
  assert (Hu : sem_used k (ex_Q tasks objs) 0 [TSKQ 2]).
  { constructor; [done|by vm_compute|by vm_compute|by vm_compute|
      intros y ->%list_elem_of_singleton; by vm_compute|by vm_compute]. }
  pose proof (tk_wai_sem_spec k (ex_Q tasks objs) 1 1 10 [TSKQ 2] Hk ltac:(by vm_compute) eq_refl Hu
    ltac:(by vm_compute) eq_refl) as H. cbv zeta in H.
  assert (E : sem_first (has (sematr (k_sem k (get_semcb 1))) TA_CNT) (sematr (k_sem k (get_semcb 1))) (k_s k)
    (ctx (k_s k)) [TSKQ 2] = false) by (by vm_compute).
  rewrite E in H. destruct H as (_ & _ & Q' & w & [Hk' HQ' _ _ _ _ _] & _). by exists Q'.
Defined.

(** ** Creating and deleting *)

Definition csem_ok (pk : T_CSEM) : bool :=
  negb (RSATR_ERR (csem_sematr pk) VALID_SEMATR) && (0 <=? csem_isemcnt pk) && (0 <? csem_maxsem pk) &&
  (csem_isemcnt pk <=? csem_maxsem pk).

(** Creating a semaphore.  A bad packet is E_RSATR or E_PAR and nothing changes; with
    no control block left the call is E_LIMIT and nothing changes.  Otherwise the first
    free block is taken out of the free list and is a semaphore with the given count
    that no task waits for, the call returns its ID, and no other semaphore changes. *)
Theorem tk_cre_sem_spec (k : K) (Q : gmap node (list node)) (pk : T_CSEM) (lf : list node) :
  kinv (k_s k) Q → Q !! FREE_SEM = Some lf → csem_maxsem pk <= INT_MAX →
  if csem_ok pk then
    match lf with
    | [] => tk_cre_sem pk k = (E_LIMIT, k)
    | y :: lf' =>
        let i := nd_idx y in
        let Q' := <[SEMQ i := []]> (<[FREE_SEM := lf']> Q) in
        ∃ k', tk_cre_sem pk k = (ID_SEM i, k') ∧ CHK_SEMID (ID_SEM i) = true ∧ kinv (k_s k') Q' ∧
          sem_used k' Q' i [] ∧ semcnt (k_sem k' i) = csem_isemcnt pk ∧
          ∀ j, j ≠ i → k_sem k' j = k_sem k j
    end
  else ∃ e, tk_cre_sem pk k = (e, k) ∧ (e = E_RSATR ∨ e = E_PAR).
Proof.
  intros Hk HQ Hmax. unfold tk_cre_sem, csem_ok. pose proof (ki_qwf _ _ _ _ Hk) as Hw.
  destruct (RSATR_ERR _ _); [by exists E_RSATR; auto|]. destruct (Z.leb_spec 0 (csem_isemcnt pk)); [|by exists E_PAR; auto].
  destruct (Z.ltb_spec 0 (csem_maxsem pk)); [|by exists E_PAR; auto].
  destruct (Z.leb_spec (csem_isemcnt pk) (csem_maxsem pk)); [|by exists E_PAR; auto]. cbn [negb andb].
  destruct lf as [|y lf'].
  - rewrite (QueRemoveNext_empty _ _ _ Hw HQ). f_equal. destruct k as [s]. by destruct s.
  - rewrite (QueRemoveNext_cons _ _ _ _ _ Hw HQ).
    destruct (kinv_take_block FREE_SEM y lf' _ Q Hk eq_refl HQ) as [Hk' He].
    destruct (free_elem FREE_SEM y eq_refl He) as (_ & _ & _ & _ & _ & Hi).
    assert (∃ i, y = SEMQ i) as [i ->].
    { exists (nd_idx y). unfold elem_ok, kind_ok in He. simpl in He. by destruct y as [[] i]. }
    simpl in Hi |- *. eexists. split; [done|]. split.
    { unfold CHK_SEMID, ID_SEM, MIN_SEMID. apply andb_true_intro. rewrite !Z.leb_le. lia. }
    split; [done|]. split.
    { constructor; simpl; upd_simpl; simpl; [done|done|done| |by intros ? []%not_elem_of_nil|].
      - by rewrite lookup_insert_eq.
      - unfold sem_stable. by destruct (has _ _). }
    simpl. upd_simpl. split; [done|]. intros j Hj. by rewrite fn_lookup_insert_ne.
Qed.

Lemma tk_cre_sem_spec_witness :
  let objs := [(TIMERQ, []); (FREE_SEM, [SEMQ 2; SEMQ 5])] in
  let k := ex_k (ex_sch [ex_ready 3] objs) in
  ∃ k' Q', tk_cre_sem (mkT_CSEM 0 TA_TPRI 1 5) k = (3, k') ∧ sem_used k' Q' 2 [].
Proof.
  intros objs k. assert (Hk : kinv (k_s k) (ex_Q [ex_ready 3] objs)) by (apply ex_kinv; by vm_compute).
  pose proof (tk_cre_sem_spec k _ (mkT_CSEM 0 TA_TPRI 1 5) [SEMQ 2; SEMQ 5] Hk ltac:(by vm_compute) ltac:(by vm_compute)) as H.
  change (csem_ok (mkT_CSEM 0 TA_TPRI 1 5)) with true in H. cbv iota zeta in H. change (nd_idx (SEMQ 2)) with 2 in H.
  destruct H as (k' & H1 & _ & _ & H2 & _). eexists k', _. split; [exact H1|exact H2].
Defined.

(** Deleting a semaphore.  Every task that waits for it is released with E_DLT, and no
    other task changes; the block is the last of the free list, and the ID means no
    semaphore any more: a second deletion is E_NOEXS. *)
Theorem tk_del_sem_spec (k : K) (Q : gmap node (list node)) (id : Z) (l lf : list node) :
  let i := get_semcb id in
  kinv (k_s k) Q → CHK_SEMID id = true → sem_used k Q i l → Q !! FREE_SEM = Some lf →
  ∃ k' Q', tk_del_sem id k = (E_OK, k') ∧ kinv (k_s k') Q' ∧
    Q' !! SEMQ i = None ∧ Q' !! FREE_SEM = Some (lf ++ [SEMQ i]) ∧ same_ctx (k_s k) (k_s k') ∧
    (∀ t, s_tcb (k_s k') t = if decide (TSKQ t ∈ l) then released (s_tcb (k_s k) t) else s_tcb (k_s k) t) ∧
    (∀ t, s_ercd (k_s k') t = if decide (TSKQ t ∈ l) then E_DLT else s_ercd (k_s k) t) ∧
    tk_del_sem id k' = (E_NOEXS, k').
Proof.
  intros i Hk Hid Hu HQf. pose proof (su_que _ _ _ _ Hu) as HQ.
  assert (Hi : 0 <= i < NUM_SEMID).
  { revert Hid. unfold i, get_semcb, CHK_SEMID, INDEX_SEM, MIN_SEMID. rewrite andb_true_iff, !Z.leb_le. lia. }
  assert (Hn0 : (semid (k_sem k i) =? 0) = false).
  { rewrite (su_id _ _ _ _ Hu). unfold ID_SEM, MIN_SEMID. apply Z.eqb_neq. lia. }
  destruct (kinv_wait_delete (SEMQ i) l _ Q Hk eq_refl HQ) as (Q1 & [K1 H1 C1 T1 E1 _ _] & HQ1).
  assert (He : elem_ok FREE_SEM (SEMQ i) = true).
  { unfold elem_ok, idx_ok. simpl. apply andb_true_intro. rewrite Z.leb_le, Z.ltb_lt. lia. }
  assert (HQf1 : Q1 !! FREE_SEM = Some lf) by (by rewrite H1).
  pose proof (kinv_free_block FREE_SEM (SEMQ i) lf _ Q1 K1 eq_refl HQf1 He HQ1) as K2.
  unfold tk_del_sem at 1. rewrite Hid. fold i. rewrite Hn0. cbn [negb].
  eexists _, _. split; [done|]. split; [exact K2|]. split_and!.
  - rewrite lookup_insert_ne by done. by rewrite lookup_delete_eq.
  - by rewrite lookup_insert_eq.
  - etrans; [exact C1|by constructor].
  - exact T1.
  - exact E1.
  - unfold tk_del_sem. rewrite Hid. fold i. simpl. by upd_simpl.
Qed.

Lemma tk_del_sem_spec_witness :
  let tasks := [ex_ready 3; ex_ready 5; ex_waits 2 4 knl_wspec_sem_tfifo 1 (WI_sem 2)] in
  let objs := [(TIMERQ, [TMEBT 2]); (SEMQ 0, [TSKQ 2]); (FREE_SEM, [SEMQ 1])] in
  let k := upd_sem 0 (λ _, mkSEMCB 1 0 0 1 5) (ex_k (ex_sch tasks objs)) in
  ∃ k' Q', tk_del_sem 1 k = (E_OK, k') ∧ kinv (k_s k') Q' ∧ s_ercd (k_s k') 2 = E_DLT ∧
    t_state (s_tcb (k_s k') 2) = TS_READY.
Proof.
  intros tasks objs k.
  assert (Hk : kinv (k_s k) (ex_Q tasks objs)) by (apply ex_kinv; by vm_compute).
  assert (Hu : sem_used k (ex_Q tasks objs) (get_semcb 1) [TSKQ 2]).
  { constructor; [done|by vm_compute|by vm_compute|by vm_compute|
      intros y ->%list_elem_of_singleton; by vm_compute|by vm_compute]. }
  destruct (tk_del_sem_spec k (ex_Q tasks objs) 1 [TSKQ 2] [SEMQ 1] Hk eq_refl Hu ltac:(by vm_compute))
    as (k' & Q' & H1 & Hk' & _ & _ & _ & H2 & H3 & _).
  exists k', Q'. split; [done|]. split; [exact Hk'|]. rewrite H3, H2. by vm_compute.
Defined.
