(* ===== verification/EventFlag.v ===== *)
(** * Event flags: kernel/tkernel/eventflag.h, kernel/tkernel/eventflag.c

    A waiting task is told the pattern it was released with through [p_flgptn], an
    address in memory. *)
From S2P Require Import Prelude Config Queue Kernel ReadyQueue KInv KCheck Task Timer Wait Mem.

(* src: include/tk/syscall.h 241-248 T_CFLG *)
Record T_CFLG := mkT_CFLG { cflg_exinf : Z; cflg_flgatr : Z; cflg_iflgptn : Z }.

(* src: include/tk/syscall.h 253-257 T_RFLG *)
Record T_RFLG := mkT_RFLG { rflg_exinf : Z; rflg_wtsk : Z; rflg_flgptn : Z }.

(* src: kernel/tkernel/eventflag.h 39-39 get_flgcb *)
Definition get_flgcb (id : Z) : Z := INDEX_FLG id.

(* src: kernel/tkernel/eventflag.h 45-52 knl_eventflag_cond *)
Definition knl_eventflag_cond (flgptn waiptn wfmode : Z) : bool :=
  if has wfmode TWF_ORW then negb (Z.land flgptn waiptn =? 0)
  else Z.land flgptn waiptn =? waiptn.

(* src: kernel/tkernel/eventflag.c 33-51 knl_eventflag_initialize *)
Definition knl_eventflag_initialize (k : K) : Z * K :=
  if NUM_FLGID <? 1 then (E_SYS, k)
  else
    let k := upd_s (upd_q (QueInit FREE_FLG)) k in
    let k := foldl (λ k i,
      let k := upd_flg i (set_flgid 0) k in
      upd_s (upd_q (QueInsert (FLGQ i) FREE_FLG)) k) k (seqZ 0 NUM_FLGID) in
    (E_OK, k).

Definition VALID_FLGATR : Z := Z.lor TA_TPRI TA_WMUL.

(* src: kernel/tkernel/eventflag.c 56-98 tk_cre_flg *)
Definition tk_cre_flg (pk_cflg : T_CFLG) (k : K) : Z * K :=
  if RSATR_ERR (cflg_flgatr pk_cflg) VALID_FLGATR then (E_RSATR, k)
  else
    match QueRemoveNext FREE_FLG (s_q (k_s k)) with
    | (None, q) => (E_LIMIT, upd_s (set_s_q q) k)
    | (Some node, q) =>
        let k := upd_s (set_s_q q) k in
        let flgcb := nd_idx node in
        let flgid := ID_FLG flgcb in
        let k := upd_s (upd_q (QueInit (FLGQ flgcb))) k in
        let k := upd_flg flgcb (λ _, mkFLGCB flgid (cflg_exinf pk_cflg) (cflg_flgatr pk_cflg)
                   (cflg_iflgptn pk_cflg)) k in
        (flgid, k)
    end.

(* src: kernel/tkernel/eventflag.c 104-127 tk_del_flg *)
Definition tk_del_flg (id : Z) (k : K) : Z * K :=
  if negb (CHK_FLGID id) then (E_ID, k)
  else
    let flgcb := get_flgcb id in
    if flgid (k_flg k flgcb) =? 0 then (E_NOEXS, k)
    else
      let k := upd_s (knl_wait_delete (FLGQ flgcb)) k in
      let k := upd_s (upd_q (QueInsert (FLGQ flgcb) FREE_FLG)) k in
      let k := upd_flg flgcb (set_flgid 0) k in
      (E_OK, k).

(** [a & ~b] on 32-bit words. *)
Definition andnot (a b : Z) : Z := Z.land a (Z.lnot b).

(** The loop of [tk_set_flg] from [queue]. *)
Fixpoint set_flg_loop (fuel : nat) (flgcb : Z) (queue : node) (k : K) : K :=
  match fuel with
  | O => k
  | S fuel =>
      if decide (queue = FLGQ flgcb) then k
      else
        let tcb := as_tcb queue in
        let queue := qnext (s_q (k_s k)) queue in
        let '(waiptn, wfmode, p_flgptn) := wi_flg (t_winfo (s_tcb (k_s k) tcb)) in
        if knl_eventflag_cond (flgptn (k_flg k flgcb)) waiptn wfmode then
          let k := upd_mem (st32 p_flgptn (flgptn (k_flg k flgcb))) k in
          let k := upd_s (knl_wait_release_ok tcb) k in
          let k := if has wfmode TWF_BITCLR
                   then upd_flg flgcb (λ cb, set_flgptn (andnot (flgptn cb) waiptn) cb) k else k in
          if has wfmode TWF_BITCLR && (flgptn (k_flg k flgcb) =? 0) then k
          else if has wfmode TWF_CLR then upd_flg flgcb (set_flgptn 0) k
          else set_flg_loop fuel flgcb queue k
        else set_flg_loop fuel flgcb queue k
  end.

(* src: kernel/tkernel/eventflag.c 133-186 tk_set_flg *)
Definition tk_set_flg (id setptn : Z) (k : K) : Z * K :=
  if negb (CHK_FLGID id) then (E_ID, k)
  else
    let flgcb := get_flgcb id in
    if flgid (k_flg k flgcb) =? 0 then (E_NOEXS, k)
    else
      let k := upd_flg flgcb (λ cb, set_flgptn (Z.lor (flgptn cb) setptn) cb) k in
      (E_OK, set_flg_loop QFUEL flgcb (qnext (s_q (k_s k)) (FLGQ flgcb)) k).

(* src: kernel/tkernel/eventflag.c 191-209 tk_clr_flg *)
Definition tk_clr_flg (id clrptn : Z) (k : K) : Z * K :=
  if negb (CHK_FLGID id) then (E_ID, k)
  else
    let flgcb := get_flgcb id in
    if flgid (k_flg k flgcb) =? 0 then (E_NOEXS, k)
    else (E_OK, upd_flg flgcb (λ cb, set_flgptn (Z.land (flgptn cb) clrptn) cb) k).

(* src: kernel/tkernel/eventflag.c 214-220 flg_chg_pri *)
Definition flg_chg_pri (tcb oldpri : Z) (k : K) : K :=
  let flgcb := get_flgcb (t_wid (s_tcb (k_s k) tcb)) in
  upd_s (knl_gcb_change_priority (gcb flgcb (k_flg k flgcb)) tcb) k.

(* src: kernel/tkernel/eventflag.c 231-281 tk_wai_flg *)
Definition tk_wai_flg (id waiptn wfmode p_flgptn tmout : Z) (k : K) : Z * K :=
  if negb (CHK_FLGID id) then (E_ID, k)
  else if waiptn =? 0 then (E_PAR, k)
  else if has wfmode (Z.lnot (Z.lor TWF_ORW (Z.lor TWF_CLR TWF_BITCLR))) then (E_PAR, k)
  else if TMOUT_ERR tmout then (E_PAR, k)
  else if in_ddsp (k_s k) then (E_CTX, k)
  else
    let flgcb := get_flgcb id in
    let cb := k_flg k flgcb in
    let c := ctx (k_s k) in
    if flgid cb =? 0 then (E_NOEXS, k)
    else if negb (has (flgatr cb) TA_WMUL) && negb (isQueEmpty (FLGQ flgcb) (s_q (k_s k))) then (E_OBJ, k)
    else if knl_eventflag_cond (flgptn cb) waiptn wfmode then
      let k := upd_mem (st32 p_flgptn (flgptn cb)) k in
      let k := if has wfmode TWF_BITCLR
               then upd_flg flgcb (λ cb, set_flgptn (andnot (flgptn cb) waiptn) cb) k else k in
      let k := if has wfmode TWF_CLR then upd_flg flgcb (set_flgptn 0) k else k in
      (E_OK, k)
    else
      let w := if has (flgatr cb) TA_TPRI then knl_wspec_flg_tpri else knl_wspec_flg_tfifo in
      let k := upd_s (upd_tcb c (set_wait w (WI_flg waiptn wfmode p_flgptn) c)) k in
      let k := upd_s (knl_gcb_make_wait (gcb flgcb (k_flg k flgcb)) tmout) k in
      (s_ercd (k_s k) c, k).

(* src: kernel/tkernel/eventflag.c 287-307 tk_ref_flg *)
Definition tk_ref_flg (id : Z) (k : K) : Z * option T_RFLG :=
  if negb (CHK_FLGID id) then (E_ID, None)
  else
    let flgcb := get_flgcb id in
    if flgid (k_flg k flgcb) =? 0 then (E_NOEXS, None)
    else (E_OK, Some (mkT_RFLG (flg_exinf (k_flg k flgcb)) (knl_wait_tskid (FLGQ flgcb) (k_s k))
                        (flgptn (k_flg k flgcb)))).

(* src: kernel/tkernel/eventflag.c 350-369 td_lst_flg *)
Definition td_lst_flg (nent : Z) (k : K) : Z * list Z :=
  td_lst (λ i, negb (flgid (k_flg k i) =? 0)) (λ i, flgid (k_flg k i)) NUM_FLGID nent.

(* src: kernel/tkernel/eventflag.c 376-396 td_ref_flg *)
Definition td_ref_flg (id : Z) (k : K) : Z * option T_RFLG :=
  if negb (CHK_FLGID id) then (E_ID, None)
  else
    let flgcb := get_flgcb id in
    if flgid (k_flg k flgcb) =? 0 then (E_NOEXS, None)
    else (E_OK, Some (mkT_RFLG (flg_exinf (k_flg k flgcb)) (knl_wait_tskid (FLGQ flgcb) (k_s k))
                        (flgptn (k_flg k flgcb)))).

(* src: kernel/tkernel/eventflag.c 403-428 td_flg_que *)
Definition td_flg_que (id nent : Z) (k : K) : Z * list Z :=
  if negb (CHK_FLGID id) then (E_ID, [])
  else
    let flgcb := get_flgcb id in
    if flgid (k_flg k flgcb) =? 0 then (E_NOEXS, [])
    else td_que (FLGQ flgcb) nent (k_s k).

(** ** Specification

    [req y] is the pattern and the mode task [y] waits with.  Setting the flag releases,
    in queue order, every task whose condition holds; a task that waits with TWF_CLR
    or TWF_BITCLR changes the pattern the tasks behind it see.  A released task is
    told the pattern it was released with. *)

Fixpoint flg_serve (req : node → Z * Z) (ptn : Z) (l : list node) : list (node * Z) * Z * list node :=
  match l with
  | [] => ([], ptn, [])
  | y :: l' =>
      let '(waiptn, wfmode) := req y in
      if knl_eventflag_cond ptn waiptn wfmode then
        let ptn' := if has wfmode TWF_BITCLR then andnot ptn waiptn else ptn in
        if has wfmode TWF_BITCLR && (ptn' =? 0) then ([(y, ptn)], ptn', l')
        else if has wfmode TWF_CLR then ([(y, ptn)], 0, l')
        else let '(rel, p, rest) := flg_serve req ptn' l' in ((y, ptn) :: rel, p, rest)
      else let '(rel, p, rest) := flg_serve req ptn l' in (rel, p, y :: rest)
  end.

(** No task that waits in [l] has its condition met. *)
Definition flg_stable (req : node → Z * Z) (ptn : Z) (l : list node) : Prop :=
  ∀ y, y ∈ l → knl_eventflag_cond ptn (req y).1 (req y).2 = false.

(** Clearing bits never makes a condition true. *)
Definition subptn (p q : Z) : Prop := Z.land p q = p.

Lemma subptn_refl p : subptn p p.
Proof. apply Z.land_diag. Qed.
Lemma subptn_0 p : subptn 0 p.
Proof. done. Qed.
Lemma subptn_andnot p w : subptn (andnot p w) p.
Proof. unfold subptn, andnot. bitwise. Qed.
Lemma subptn_trans p q r : subptn p q → subptn q r → subptn p r.
Proof. unfold subptn. intros <- <-. by rewrite <- !Z.land_assoc, Z.land_diag. Qed.

Lemma cond_mono p q w m : subptn p q → knl_eventflag_cond q w m = false → knl_eventflag_cond p w m = false.
Proof.
  intros Hs. unfold knl_eventflag_cond. destruct (has m TWF_ORW).
  - rewrite !negb_false_iff, !Z.eqb_eq. intros E. rewrite <- Hs, <- Z.land_assoc, E. apply Z.land_0_r.
  - rewrite !Z.eqb_neq. intros Hne E. apply Hne.
    transitivity (Z.land (Z.land p q) w); [|by rewrite Hs]. rewrite <- E at 1. bitwise.
Qed.

Lemma cond_0 w m : w ≠ 0 → knl_eventflag_cond 0 w m = false.
Proof.
  intros Hw. unfold knl_eventflag_cond. rewrite Z.land_0_l. destruct (has m TWF_ORW); [done|].
  by apply Z.eqb_neq.
Qed.

(** ** The code implements the specification *)

Definition req_of (k : K) (y : node) : Z * Z :=
  let '(waiptn, wfmode, _) := wi_flg (t_winfo (s_tcb (k_s k) (as_tcb y))) in (waiptn, wfmode).

Definition told_at (k : K) (y : node) : Z :=
  let '(_, _, p_flgptn) := wi_flg (t_winfo (s_tcb (k_s k) (as_tcb y))) in p_flgptn.

(** The released tasks' variables, written in the order of release. *)
Definition tell (addr : node → Z) (rel : list (node * Z)) (m : Z → Z) : Z → Z :=
  foldl (λ m '(y, p), st32 (addr y) p m) m rel.

Lemma flg_serve_ext req req' ptn l :
  (∀ y, req y = req' y) → flg_serve req ptn l = flg_serve req' ptn l.
Proof.
  intros E. revert ptn. induction l as [|y l IH]; intros ptn; simpl; [done|].
  rewrite E. destruct (req' y). by rewrite !IH.
Qed.

Lemma flg_serve_sub req ptn l y : y ∈ (flg_serve req ptn l).1.1.*1 → y ∈ l.
Proof.
  revert ptn. induction l as [|x l IH]; intros ptn; simpl; [done|]. destruct (req x) as [w m].
  assert (Hstep : ∀ p, y ∈ (flg_serve req p l).1.1.*1 → y ∈ x :: l) by (intros p Hy; right; by apply (IH p)).
  assert (Hone : ∀ p : Z, y ∈ [(x, p)].*1 → y ∈ x :: l) by (intros p ->%list_elem_of_singleton; left).
  destruct (knl_eventflag_cond ptn w m).
  - set (p1 := if has m TWF_BITCLR then andnot ptn w else ptn).
    destruct (has m TWF_BITCLR && (p1 =? 0)); [apply Hone|]. destruct (has m TWF_CLR); [apply Hone|].
    specialize (Hstep p1). destruct (flg_serve req p1 l) as [[??]?].
    simpl. intros [->|Hy]%elem_of_cons; [left|by apply Hstep].
  - specialize (Hstep ptn). by destruct (flg_serve req ptn l) as [[??]?].
Qed.

Lemma flg_serve_spec req ptn l :
  (∀ y, y ∈ l → (req y).1 ≠ 0) →
  let '(rel, ptn', rest) := flg_serve req ptn l in
  subptn ptn' ptn ∧ l ≡ₚ rel.*1 ++ rest ∧ rel.*1 `sublist_of` l ∧ rest `sublist_of` l ∧
  flg_stable req ptn' rest ∧
  ∀ y p, (y, p) ∈ rel → subptn p ptn ∧ knl_eventflag_cond p (req y).1 (req y).2 = true.
Proof.
  revert ptn. induction l as [|y l IH]; intros ptn Hn; simpl.
  { split_and!; try done; [apply subptn_refl|intros y []%not_elem_of_nil|intros y p []%not_elem_of_nil]. }
  destruct (req y) as [w m] eqn:Hy.
  assert (Hl : ∀ z, z ∈ l → (req z).1 ≠ 0) by (intros; apply Hn; by right).
  assert (Hyp : ∀ p, knl_eventflag_cond ptn w m = true → p = ptn →
    subptn p ptn ∧ knl_eventflag_cond p (req y).1 (req y).2 = true)
    by (intros p Hc ->; rewrite Hy; split; [apply subptn_refl|done]).
  assert (H0 : ∀ z, z ∈ l → knl_eventflag_cond 0 (req z).1 (req z).2 = false) by (intros z Hz; by apply cond_0, Hl).
  destruct (knl_eventflag_cond ptn w m) eqn:Hc.
  - set (ptn' := if has m TWF_BITCLR then andnot ptn w else ptn).
    assert (Hs : subptn ptn' ptn) by (unfold ptn'; destruct (has m TWF_BITCLR); [apply subptn_andnot|apply subptn_refl]).
    assert (Hone : ∀ z p, (z, p) ∈ [(y, ptn)] → subptn p ptn ∧ knl_eventflag_cond p (req z).1 (req z).2 = true)
      by (intros z p [= -> ->]%list_elem_of_singleton; by apply Hyp).
    destruct (has m TWF_BITCLR && (ptn' =? 0)) eqn:Hz; [|destruct (has m TWF_CLR)].
    + apply andb_prop in Hz as [_ Hz%Z.eqb_eq]. rewrite Hz. simpl. split_and!; try done;
        [by apply sublist_skip, sublist_nil_l|by constructor].
    + simpl. split_and!; try done; [by apply sublist_skip, sublist_nil_l|by constructor].
    + specialize (IH ptn' Hl). destruct (flg_serve req ptn' l) as [[rel p'] rest].
      destruct IH as (Hs' & Hp & ? & ? & Hst & Hrel). simpl. split_and!.
      * by eapply subptn_trans.
      * by rewrite Hp.
      * by constructor.
      * by constructor.
      * done.
      * intros z p [[= -> ->]|Hin]%elem_of_cons; [by apply Hyp|]. destruct (Hrel z p Hin). split; [|done].
        by eapply subptn_trans.
  - specialize (IH ptn Hl). destruct (flg_serve req ptn l) as [[rel p'] rest].
    destruct IH as (Hs' & Hp & ? & ? & Hst & Hrel). split_and!; [done| |by constructor|by constructor| |done].
    + rewrite Hp. by rewrite Permutation_middle.
    + intros z [->|Hz]%elem_of_cons; [rewrite Hy; by eapply cond_mono|by apply Hst].
Qed.

(** Nothing but the scheduler part, the pattern of one flag and the variables of the
    released tasks changed. *)
Definition flg_only (i p : Z) (rel : list (node * Z)) (k k' : K) : Prop :=
  (∀ j, k_flg k' j = if decide (i = j) then set_flgptn p (k_flg k i) else k_flg k j) ∧
  k_mem k' = tell (told_at k) rel (k_mem k) ∧
  k' = set_k_mem (k_mem k') (set_k_flg (k_flg k') (set_k_s (k_s k') k)).

Lemma flg_only_refl i k : flg_only i (flgptn (k_flg k i)) [] k k.
Proof.
  split_and!; [|done|by destruct k]. intros j. case_decide as E; [|done]. subst. by destruct (k_flg k j).
Qed.

Lemma tell_ext addr addr' rel m : (∀ y, addr y = addr' y) → tell addr rel m = tell addr' rel m.
Proof. intros E. unfold tell. apply foldl_ext_in. intros a [y p] _. by rewrite E. Qed.

Lemma flg_only_trans i p p' r1 r2 k1 k2 k3 :
  flg_only i p r1 k1 k2 → flg_only i p' r2 k2 k3 → (∀ y, told_at k2 y = told_at k1 y) →
  flg_only i p' (r1 ++ r2) k1 k3.
Proof.
  intros (E1 & M1 & S1) (E2 & M2 & S2) Ha. split_and!.
  - intros j. rewrite E2. case_decide; rewrite E1; [by rewrite decide_True|by rewrite decide_False].
  - rewrite M2, (tell_ext _ _ _ _ Ha), M1. unfold tell. by rewrite foldl_app.
  - clear E1 E2 M1 M2 Ha. destruct k1, k2, k3. unfold set_k_mem, set_k_flg, set_k_s in *. simpl in *. congruence.
Qed.

Definition flg_grant (i : Z) (y : node) (k : K) : K :=
  let k := upd_mem (st32 (told_at k y) (flgptn (k_flg k i))) k in
  let k' := upd_s (knl_wait_release_ok (as_tcb y)) k in
  if has (req_of k y).2 TWF_BITCLR
  then upd_flg i (λ cb, set_flgptn (andnot (flgptn cb) (req_of k y).1) cb) k' else k'.

Lemma flg_grant_spec i l0 y l k Q :
  kinv (k_s k) Q → Q !! FLGQ i = Some (l0 ++ y :: l) →
  let k' := flg_grant i y k in
  let ptn := flgptn (k_flg k i) in
  ∃ Q', rel_post (FLGQ i) [y] E_OK (k_s k) (k_s k') Q Q' ∧ Q' !! FLGQ i = Some (l0 ++ l) ∧
    y ∉ l0 ++ l ∧
    flg_only i (if has (req_of k y).2 TWF_BITCLR then andnot ptn (req_of k y).1 else ptn) [(y, ptn)] k k' ∧
    (∀ z, req_of k' z = req_of k z) ∧ (∀ z, told_at k' z = told_at k z).
Proof.
  intros Hk HQ k' ptn. destruct (kinv_release_at (FLGQ i) l0 l y E_OK (k_s k) Q Hk eq_refl HQ)
    as (Q' & _ & _ & Hr & HQ' & Hnin).
  assert (Es : k_s k' = knl_wait_release_ok (as_tcb y) (k_s k)) by (unfold k', flg_grant; by case_match).
  assert (Hwi : ∀ z, t_winfo (s_tcb (k_s k') z) = t_winfo (s_tcb (k_s k) z)).
  { intros z. rewrite Es. by apply (rp_tcb_field t_winfo _ _ _ _ _ _ _ _ ltac:(done) Hr). }
  exists Q'. rewrite Es. split_and!; try done.
  - unfold k', flg_grant. change (req_of (upd_mem _ k)) with (req_of k). split_and!.
    + intros j. destruct (has (req_of k y).2 TWF_BITCLR); simpl; upd_simpl.
      * unfold insert, fn_insert. by case_decide.
      * case_decide as E; [|done]. subst. unfold ptn. by destruct (k_flg k j).
    + by case_match.
    + by case_match.
  - intros z. unfold req_of. by rewrite Hwi.
  - intros z. unfold told_at. by rewrite Hwi.
Qed.

Lemma set_flg_loop_eq fuel i y k :
  set_flg_loop (S fuel) i y k =
    if decide (y = FLGQ i) then k
    else
      let next := qnext (s_q (k_s k)) y in
      if knl_eventflag_cond (flgptn (k_flg k i)) (req_of k y).1 (req_of k y).2 then
        let k' := flg_grant i y k in
        if has (req_of k y).2 TWF_BITCLR && (flgptn (k_flg k' i) =? 0) then k'
        else if has (req_of k y).2 TWF_CLR then upd_flg i (set_flgptn 0) k'
        else set_flg_loop fuel i next k'
      else set_flg_loop fuel i next k.
Proof.
  simpl set_flg_loop. unfold flg_grant, req_of, told_at. simpl.
  destruct (wi_flg (t_winfo (s_tcb (k_s k) (as_tcb y)))) as [[w m] a]. done.
Qed.

Lemma flg_only_clear i p rel k k' : flg_only i p rel k k' → flg_only i 0 rel k (upd_flg i (set_flgptn 0) k').
Proof.
  intros (E & M & S). split_and!.
  - intros j. simpl. unfold insert, fn_insert. rewrite !E. case_decide; [by rewrite decide_True|done].
  - done.
  - rewrite S. by destruct k.
Qed.

Lemma set_flg_loop_spec i fuel l0 l k Q :
  kinv (k_s k) Q → Q !! FLGQ i = Some (l0 ++ l) → (length l ≤ fuel)%nat →
  let k' := set_flg_loop fuel i (hd (FLGQ i) l) k in
  let '(rel, p, rest) := flg_serve (req_of k) (flgptn (k_flg k i)) l in
  ∃ Q', rel_post (FLGQ i) rel.*1 E_OK (k_s k) (k_s k') Q Q' ∧ Q' !! FLGQ i = Some (l0 ++ rest) ∧
    flg_only i p rel k k'.
Proof.
  revert l0 l k Q. induction fuel as [|fuel IH]; intros l0 l k Q Hk HQ Hf; cbv zeta.
  { destruct l; [|simpl in Hf; lia]. exists Q. split_and!; [by apply rel_post_nil|done|apply flg_only_refl]. }
  destruct l as [|y l]; simpl hd; rewrite set_flg_loop_eq; cbv zeta.
  { rewrite decide_True by done. exists Q. split_and!; [by apply rel_post_nil|done|apply flg_only_refl]. }
  rewrite (decide_False _ _ (kinvx_head_ne _ _ _ _ _ _ _ _ Hk HQ)), (kinvx_next _ _ _ _ _ _ _ _ Hk HQ).
  simpl flg_serve. simpl in Hf. destruct (req_of k y) as [w m] eqn:Hreq. simpl fst. simpl snd.
  destruct (knl_eventflag_cond (flgptn (k_flg k i)) w m) eqn:Hc.
  - destruct (flg_grant_spec i l0 y l k Q Hk HQ) as (Q1 & Hr1 & HQ1 & Hnin & Honly & Hreq1 & Htold).
    set (k1 := flg_grant i y k) in *. rewrite Hreq in Honly. simpl in Honly.
    set (p1 := if has m TWF_BITCLR then andnot (flgptn (k_flg k i)) w else flgptn (k_flg k i)) in *.
    assert (Hp1 : flgptn (k_flg k1 i) = p1) by (rewrite (proj1 Honly); by rewrite decide_True).
    rewrite Hp1. destruct (has m TWF_BITCLR && (p1 =? 0)); [by exists Q1|].
    destruct (has m TWF_CLR).
    { exists Q1. split_and!; [done|done|by eapply flg_only_clear]. }
    specialize (IH l0 l k1 Q1 (rp_kinv _ _ _ _ _ _ _ Hr1) HQ1 ltac:(lia)). cbv zeta in IH.
    rewrite Hp1, (flg_serve_ext _ _ _ _ Hreq1) in IH.
    destruct (flg_serve (req_of k) p1 l) as [[rel p'] rest] eqn:Es. destruct IH as (Q' & Hr2 & HQ' & Honly2).
    exists Q'. split_and!; [|done|by apply (flg_only_trans i p1 p' [(y, flgptn (k_flg k i))] rel k k1)].
    apply (rel_post_app _ [y] _ _ _ _ _ _ _ _ Hr1 Hr2). intros z ->%list_elem_of_singleton Hz.
    apply Hnin, elem_of_app. right. pose proof (flg_serve_sub (req_of k) p1 l) as Hsub. rewrite Es in Hsub. by apply Hsub.
  - rewrite cons_middle, app_assoc in HQ. specialize (IH _ l k Q Hk HQ ltac:(lia)). cbv zeta in IH.
    destruct (flg_serve (req_of k) _ l) as [[rel p'] rest]. destruct IH as (Q' & ? & HQ' & ?).
    exists Q'. split_and!; [done| |done]. by rewrite HQ', <- app_assoc.
Qed.

(** ** An event flag in good order *)

Lemma word_land x : 0 <= x < 2 ^ 32 ↔ subptn x (Z.ones 32).
Proof.
  unfold subptn. rewrite Z.land_ones by lia. split; intros H; [by apply Z.mod_small|].
  rewrite <- H. apply Z.mod_pos_bound. lia.
Qed.

Lemma word_sub p q : subptn p q → 0 <= q < 2 ^ 32 → 0 <= p < 2 ^ 32.
Proof. rewrite !word_land. apply subptn_trans. Qed.

Lemma word_lor p q : 0 <= p < 2 ^ 32 → 0 <= q < 2 ^ 32 → 0 <= Z.lor p q < 2 ^ 32.
Proof. rewrite !word_land. unfold subptn. intros Hp Hq. rewrite Z.land_lor_distr_l. congruence. Qed.

Record flg_used (k : K) (Q : gmap node (list node)) (i : Z) (l : list node) : Prop := {
  fu_id : flgid (k_flg k i) = ID_FLG i;
  fu_ptn : 0 <= flgptn (k_flg k i) < 2 ^ 32;
  fu_que : Q !! FLGQ i = Some l;
  fu_req : ∀ y, y ∈ l → (req_of k y).1 ≠ 0;
  fu_stable : flg_stable (req_of k) (flgptn (k_flg k i)) l;
  fu_wmul : has (flgatr (k_flg k i)) TA_WMUL = false → (length l ≤ 1)%nat
}.

Lemma flg_noexs id l k Q : CHK_FLGID id = true → flg_used k Q (get_flgcb id) l →
  (flgid (k_flg k (get_flgcb id)) =? 0) = false.
Proof.
  intros Hid Hu. apply Z.eqb_neq. rewrite (fu_id _ _ _ _ Hu). unfold get_flgcb. rewrite ID_INDEX_FLG.
  by apply CHK_FLGID_range.
Qed.

Lemma req_of_rel h rel e Q Q' k k' y :
  rel_post h rel e (k_s k) (k_s k') Q Q' → req_of k' y = req_of k y.
Proof.
  intros Hr. unfold req_of. by rewrite (rp_tcb_field t_winfo _ _ _ _ _ _ _ (as_tcb y) ltac:(done) Hr).
Qed.

(** C7: Setting bits of an event flag implements [flg_serve].  tk_set_flg returns E_OK;
    it releases with E_OK, in queue order, exactly the tasks the specification
    releases, each of which is told the pattern that met its condition (a
    sub-pattern of the old pattern with the set bits); the pattern left is the old
    one with the set bits, less what TWF_CLR and TWF_BITCLR clear; the other tasks
    stay queued in the same order and none of them has its condition met, so no
    wake-up is lost.  Nothing else in the kernel's tables changes. *)
Theorem tk_set_flg_refines (k : K) (Q : gmap node (list node)) (id setptn : Z) (l : list node) :
  let i := get_flgcb id in
  let ptn := Z.lor (flgptn (k_flg k i)) setptn in
  kinv (k_s k) Q → CHK_FLGID id = true → flg_used k Q i l → 0 <= setptn < 2 ^ 32 →
  let '(rel, p, rest) := flg_serve (req_of k) ptn l in
  ∃ k' Q', tk_set_flg id setptn k = (E_OK, k') ∧
    rel_post (FLGQ i) rel.*1 E_OK (k_s k) (k_s k') Q Q' ∧ flg_only i p rel k k' ∧
    l ≡ₚ rel.*1 ++ rest ∧ subptn p ptn ∧
    (∀ y q, (y, q) ∈ rel → subptn q ptn ∧ knl_eventflag_cond q (req_of k y).1 (req_of k y).2 = true) ∧
    flg_used k' Q' i rest.
Proof.
  intros i ptn Hk Hid Hu Hset. pose proof Hu as [Hi Hp HQ Hn Hst Hw].
  set (k1 := upd_flg i (λ cb, set_flgptn (Z.lor (flgptn cb) setptn) cb) k).
  assert (E1 : k_flg k1 i = set_flgptn ptn (k_flg k i)) by (unfold k1; simpl; by upd_simpl).
  pose proof (set_flg_loop_spec i QFUEL [] l k1 Q Hk HQ (length_wait_queue _ _ (FLGQ i) _ Hk eq_refl HQ)) as Hl.
  cbv zeta in Hl. rewrite E1 in Hl. change (req_of k1) with (req_of k) in Hl. simpl flgptn in Hl.
  pose proof (flg_serve_spec (req_of k) ptn l Hn) as Hs.
  destruct (flg_serve _ _ l) as [[rel p] rest]. destruct Hl as (Q' & Hr & HQ' & Ho & Hm & Ho').
  destruct Hs as (Hsub & Hperm & _ & Hsubl & Hst' & Hrel).
  set (k' := set_flg_loop QFUEL i (hd (FLGQ i) l) k1) in *.
  assert (Ek : ∀ j, k_flg k' j = if decide (i = j) then set_flgptn p (k_flg k i) else k_flg k j).
  { intros j. rewrite Ho. case_decide; [by rewrite E1|]. unfold k1. simpl. by upd_simpl. }
  exists k', Q'. split_and!; [|done|split_and!; [done|done|]|done|done|done|].
  - unfold tk_set_flg. rewrite Hid, (flg_noexs id l k Q Hid Hu). fold i. cbn [negb]. cbv zeta.
    fold k1. change (k_s k1) with (k_s k). by rewrite (kinvx_first _ _ _ _ _ _ Hk HQ).
  - rewrite Ho'. by destruct k.
  - constructor; rewrite ?Ek, ?decide_True by done; simpl; try done.
    + eapply word_sub; [exact Hsub|]. by apply word_lor.
    + intros y Hy. rewrite (req_of_rel _ _ _ _ _ _ _ y Hr). apply Hn. rewrite Hperm. apply elem_of_app. by right.
    + intros y Hy. rewrite (req_of_rel _ _ _ _ _ _ _ y Hr). by apply Hst'.
    + intros Ha. apply sublist_length in Hsubl. specialize (Hw Ha). lia.
Qed.

Lemma tk_set_flg_refines_witness :
  let tasks := [ex_ready 3; ex_waits 1 4 knl_wspec_flg_tfifo 1 (WI_flg 6 TWF_ORW 100);
                ex_waits 2 5 knl_wspec_flg_tfifo 1 (WI_flg 9 0 200)] in
  let objs := [(TIMERQ, [TMEBT 1; TMEBT 2]); (FLGQ 0, [TSKQ 1; TSKQ 2]); (FREE_FLG, [FLGQ 1])] in
  let k := upd_flg 0 (λ _, mkFLGCB 1 0 TA_WMUL 1) (ex_k (ex_sch tasks objs)) in
  ∃ k' Q', tk_set_flg 1 2 k = (E_OK, k') ∧ flg_used k' Q' 0 [TSKQ 2] ∧
    flg_only 0 3 [(TSKQ 1, 3)] k k'.
Proof.
  intros tasks objs k.
  assert (Hk : kinv (k_s k) (ex_Q tasks objs)) by (apply ex_kinv; by vm_compute).
  assert (Hu : flg_used k (ex_Q tasks objs) 0 [TSKQ 1; TSKQ 2]).
  { constructor; [done|by vm_compute|by vm_compute|..|done].
    - by intros y [->| ->%list_elem_of_singleton]%elem_of_cons; vm_compute.
    - by intros y [->| ->%list_elem_of_singleton]%elem_of_cons; vm_compute. }
  pose proof (tk_set_flg_refines k (ex_Q tasks objs) 1 2 _ Hk eq_refl Hu ltac:(lia)) as H. cbv zeta in H.
  assert (E : flg_serve (req_of k) (Z.lor (flgptn (k_flg k (get_flgcb 1))) 2) [TSKQ 1; TSKQ 2]
    = ([(TSKQ 1, 3)], 3, [TSKQ 2])) by (by vm_compute).
  rewrite E in H. destruct H as (k' & Q' & H1 & _ & H2 & _ & _ & _ & H3). by exists k', Q'.
Defined.

(** ** Waiting on an event flag *)

Lemma flg_used_frame k k' Q Q' i p l :
  k_flg k' i = set_flgptn p (k_flg k i) → subptn p (flgptn (k_flg k i)) → Q' !! FLGQ i = Some l →
  (∀ y, y ∈ l → req_of k' y = req_of k y) → flg_used k Q i l → flg_used k' Q' i l.
Proof.
  intros E Hs HQ Hl []. constructor; rewrite ?E; simpl; try done.
  - by eapply word_sub.
  - intros y Hy. rewrite Hl by done. auto.
  - intros y Hy. rewrite Hl by done. eapply cond_mono; [exact Hs|auto].
Qed.

(** The pattern after a wait that did not have to wait. *)
Definition flg_cleared (ptn waiptn wfmode : Z) : Z :=
  if has wfmode TWF_CLR then 0 else if has wfmode TWF_BITCLR then andnot ptn waiptn else ptn.

Lemma flg_cleared_sub ptn w m : subptn (flg_cleared ptn w m) ptn.
Proof.
  unfold flg_cleared. repeat case_match; [apply subptn_0|apply subptn_andnot|apply subptn_refl].
Qed.

(** C8: Waiting on an event flag.  Without TA_WMUL a second task is refused with
    E_OBJ.  Otherwise, when the condition holds, the task gets the pattern and E_OK at
    once and the pattern is cleared as the mode says; when it does not, a poll returns
    E_TMOUT and any other time-out queues the task in the order of the flag's
    attribute.  In all cases no task that waits has its condition met. *)
Theorem tk_wai_flg_spec (k : K) (Q : gmap node (list node)) (id waiptn wfmode p_flgptn tmout : Z) (l : list node) :
  let i := get_flgcb id in
  let cb := k_flg k i in
  let c := ctx (k_s k) in
  let k' := (tk_wai_flg id waiptn wfmode p_flgptn tmout k).2 in
  let r := (tk_wai_flg id waiptn wfmode p_flgptn tmout k).1 in
  kinv (k_s k) Q → running (k_s k) → CHK_FLGID id = true → flg_used k Q i l →
  waiptn ≠ 0 → has wfmode (Z.lnot (Z.lor TWF_ORW (Z.lor TWF_CLR TWF_BITCLR))) = false →
  TMOUT_ERR tmout = false →
  if negb (has (flgatr cb) TA_WMUL) && negb (bool_decide (l = [])) then r = E_OBJ ∧ k' = k
  else if knl_eventflag_cond (flgptn cb) waiptn wfmode then
    r = E_OK ∧ k_mem k' = st32 p_flgptn (flgptn cb) (k_mem k) ∧ k_s k' = k_s k ∧
    flgptn (k_flg k' i) = flg_cleared (flgptn cb) waiptn wfmode ∧ flg_used k' Q i l
  else r = E_TMOUT ∧ k_flg k' = k_flg k ∧
    if tmout =? TMO_POL then kinv (k_s k') Q ∧ flg_used k' Q i l
    else ∃ Q' w, wait_post (gcb i cb) w (WI_flg waiptn wfmode p_flgptn) l (k_s k) (k_s k') Q Q' ∧
                 flg_used k' Q' i (wait_order (k_s k) (flgatr cb) c l).
Proof.
  intros i cb c k' r Hk [Hdd Hrun] Hid Hu Hwp Hwf Htm. pose proof Hu as [Hi Hp HQ Hn Hst Hw].
  assert (Hwt : waiting (s_tcb (k_s k) c) = false) by (unfold waiting, c; by rewrite Hrun).
  set (w := if has (flgatr cb) TA_TPRI then knl_wspec_flg_tpri else knl_wspec_flg_tfifo).
  assert (E : tk_wai_flg id waiptn wfmode p_flgptn tmout k =
    if negb (has (flgatr cb) TA_WMUL) && negb (bool_decide (l = [])) then (E_OBJ, k)
    else if knl_eventflag_cond (flgptn cb) waiptn wfmode then
      let k := upd_mem (st32 p_flgptn (flgptn cb)) k in
      let k := if has wfmode TWF_BITCLR
               then upd_flg i (λ cb, set_flgptn (andnot (flgptn cb) waiptn) cb) k else k in
      let k := if has wfmode TWF_CLR then upd_flg i (set_flgptn 0) k else k in
      (E_OK, k)
    else
      let k' := upd_s (λ s, knl_gcb_make_wait (gcb i cb) tmout
                  (upd_tcb c (set_wait w (WI_flg waiptn wfmode p_flgptn) c) s)) k in
      (s_ercd (k_s k') c, k')).
  { unfold tk_wai_flg. rewrite Hid, Hwf, Htm, Hdd, (flg_noexs id l k Q Hid Hu). fold i.
    destruct (Z.eqb_spec waiptn 0); [done|]. cbn [negb]. cbv zeta.
    by rewrite (kinvx_empty _ _ _ _ _ _ Hk HQ). }
  unfold r, k'. rewrite E. clear E k' r.
  destruct (negb (has (flgatr cb) TA_WMUL) && negb (bool_decide (l = []))) eqn:Hg; [done|].
  destruct (knl_eventflag_cond (flgptn cb) waiptn wfmode) eqn:Hc.
  { cbv zeta. cbn [fst snd].
    set (k' := if has wfmode TWF_CLR then _ else _).
    assert (Es : k_s k' = k_s k) by (unfold k'; by repeat case_match).
    assert (Ef : k_flg k' i = set_flgptn (flg_cleared (flgptn cb) waiptn wfmode) cb).
    { unfold k', flg_cleared. destruct (has wfmode TWF_CLR), (has wfmode TWF_BITCLR); simpl; upd_simpl; try done.
      fold cb. by destruct cb. }
    split_and!; [done|unfold k'; by repeat case_match|done|by rewrite Ef|].
    apply (flg_used_frame k _ Q Q _ _ _ Ef); [apply flg_cleared_sub|done| |done].
    intros y _. unfold req_of. by rewrite Es. }
  assert (Hne : ∀ y, y ∈ l → c ≠ as_tcb y) by (intros y; by apply (queued_ne_running _ Q (FLGQ i))).
  cbv zeta. destruct (Z.eqb_spec tmout TMO_POL) as [->|Htp].
  - unfold upd_s, c. rewrite wait_on_poll. cbn [fst snd]. split_and!; [simpl; by upd_simpl|done| |].
    { eapply kinvx_ext; [..|by apply (kinv_set_wait w (WI_flg waiptn wfmode p_flgptn) (k_s k) Q)]; done. }
    apply (flg_used_frame k _ Q Q _ (flgptn cb)); [|apply subptn_refl|done| |done].
    + simpl. fold cb. by destruct cb.
    + intros y Hy. unfold req_of. simpl. rewrite fn_lookup_insert_ne; [done|by apply Hne].
  - destruct (kinv_wait_on (gcb i cb) w (WI_flg waiptn wfmode p_flgptn) tmout (k_s k) Q l) as (Q' & Hwp'); try done.
    { change (objid (gcb i cb)) with (flgid (k_flg k i)). rewrite Hi. unfold w, wait_home.
      by destruct (has (flgatr cb) TA_TPRI); rewrite INDEX_ID_FLG. }
    fold c in Hwp'. cbn [fst snd]. set (k' := upd_s _ k).
    change (knl_gcb_make_wait _ _ _) with (k_s k') in Hwp'.
    split_and!; [rewrite (wp_ercd _ _ _ _ _ _ _ _ Hwp'); fold c; by upd_simpl|done|].
    exists Q', w. split; [done|]. pose proof (wp_que _ _ _ _ _ _ _ _ Hwp') as HQ'.
    assert (Hold : ∀ y, y ∈ l → req_of k' y = req_of k y).
    { intros y Hy. unfold req_of. rewrite (wp_tcb _ _ _ _ _ _ _ _ Hwp'), fn_lookup_insert_ne; [done|by apply Hne]. }
    assert (Hnew : req_of k' (TSKQ c) = (waiptn, wfmode))
      by (unfold req_of; rewrite (wp_tcb _ _ _ _ _ _ _ _ Hwp'); by rewrite fn_lookup_insert).
    constructor; try done.
    + intros y [-> | Hy]%elem_of_wait_order; [by rewrite Hnew|]. rewrite Hold by done. by apply Hn.
    + intros y [-> | Hy]%elem_of_wait_order; [by rewrite Hnew|]. rewrite Hold by done. by apply Hst.
    + intros Ha. change (k_flg k' i) with cb in Ha. rewrite Ha in Hg. apply negb_false_iff, bool_decide_eq_true in Hg. subst l.
      unfold wait_order, queued_at. by case_match.
Qed.

Lemma tk_wai_flg_spec_witness :
  let tasks := [ex_ready 3; ex_ready 5; ex_waits 2 4 knl_wspec_flg_tpri 1 (WI_flg 9 0 200)] in
  let objs := [(TIMERQ, [TMEBT 2]); (FLGQ 0, [TSKQ 2]); (FREE_FLG, [FLGQ 1])] in
  let k := upd_flg 0 (λ _, mkFLGCB 1 0 (Z.lor TA_WMUL TA_TPRI) 1) (ex_k (ex_sch tasks objs)) in
  let k' := (tk_wai_flg 1 4 TWF_ORW 100 10 k).2 in
  ∃ Q', kinv (k_s k') Q' ∧ Q' !! FLGQ 0 = Some [TSKQ 0; TSKQ 2].
Proof.
  intros tasks objs k k'.
  assert (Hk : kinv (k_s k) (ex_Q tasks objs)) by (apply ex_kinv; by vm_compute).
  assert (Hu : flg_used k (ex_Q tasks objs) 0 [TSKQ 2]).
  { constructor; [done|by vm_compute|by vm_compute|..|done].
    - by intros y ->%list_elem_of_singleton; vm_compute.
    - by intros y ->%list_elem_of_singleton; vm_compute. }
  pose proof (tk_wai_flg_spec k (ex_Q tasks objs) 1 4 TWF_ORW 100 10 _ Hk ltac:(by vm_compute) eq_refl Hu
    ltac:(done) eq_refl eq_refl) as H. cbv zeta in H.
  change (negb (has (flgatr (k_flg k (get_flgcb 1))) TA_WMUL) && negb (bool_decide ([TSKQ 2] = [])))
    with false in H.
  change (knl_eventflag_cond (flgptn (k_flg k (get_flgcb 1))) 4 TWF_ORW) with false in H.
  destruct H as (_ & _ & Q' & w & [Hk' HQ' _ _ _ _ _] & _). by exists Q'.
Defined.
