(* ===== verification/Mailbox.v ===== *)
(** * Mailboxes: kernel/tkernel/mailbox.h, kernel/tkernel/mailbox.c

    Messages are areas of user memory; the queue of a mailbox is a singly linked list
    through their first words, from [mq_head.msgque[0]] of the control block. *)
From S2P Require Import Prelude Config Queue Kernel ReadyQueue KInv KCheck Task Timer Wait Mem.

(* src: include/tk/syscall.h 262-268 T_CMBX *)
Record T_CMBX := mkT_CMBX { cmbx_exinf : Z; cmbx_mbxatr : Z }.

(* src: include/tk/syscall.h 285-289 T_RMBX *)
Record T_RMBX := mkT_RMBX { rmbx_exinf : Z; rmbx_wtsk : Z; rmbx_pk_msg : Z }.

(* src: kernel/tkernel/mailbox.h 48-48 get_mbxcb *)
Definition get_mbxcb (id : Z) : Z := INDEX_MBX id.

(* src: kernel/tkernel/mailbox.h 53-53 headmsg *)
Definition headmsg (i : Z) (k : K) : Z := mbx_head (k_mbx k i).

(* src: kernel/tkernel/mailbox.h 58-58 nextmsg *)
Definition nextmsg (msg : Z) (m : Z → Z) : Z := ld32 m msg.

(** The member [msgpri] of a message with a priority. *)
(* src: include/tk/syscall.h 277-280 T_MSG_PRI *)
Definition msgpri (msg : Z) (m : Z → Z) : Z := s32 (ld32 m (msg + 4)).

(** [prevmsg] is [None] for the head in the control block. *)
Definition next_of (i : Z) (prevmsg : option Z) (k : K) : Z :=
  match prevmsg with None => headmsg i k | Some msg => nextmsg msg (k_mem k) end.

Definition set_next_of (i : Z) (prevmsg : option Z) (msg : Z) (k : K) : K :=
  match prevmsg with
  | None => upd_mbx i (set_mbx_head msg) k
  | Some prevmsg => upd_mem (st32 prevmsg msg) k
  end.

(** The loop of [knl_queue_insert_mpri]: [inr prevmsg] when it ends.  A list of
    different addresses has less than 2^32 messages. *)
(* src: kernel/tkernel/mailbox.h 68-73 knl_queue_insert_mpri *)
Definition mpri_step (i pk_msg : Z) (k : K) (prevmsg : option Z) : option Z + option Z :=
  let msg := next_of i prevmsg k in
  if msg =? NULL then inr prevmsg
  else if msgpri pk_msg (k_mem k) <? msgpri msg (k_mem k) then inr prevmsg
  else inl (Some msg).

(* src: kernel/tkernel/mailbox.h 63-76 knl_queue_insert_mpri *)
Definition knl_queue_insert_mpri (pk_msg i : Z) (k : K) : K :=
  match ploop (2 ^ 32)%positive (mpri_step i pk_msg k) None with
  | inl _ => k
  | inr prevmsg =>
      let k := upd_mem (st32 pk_msg (next_of i prevmsg k)) k in
      set_next_of i prevmsg pk_msg k
  end.

(* src: kernel/tkernel/mailbox.c 33-51 knl_mailbox_initialize *)
Definition knl_mailbox_initialize (k : K) : Z * K :=
  if NUM_MBXID <? 1 then (E_SYS, k)
  else
    let k := upd_s (upd_q (QueInit FREE_MBX)) k in
    let k := foldl (λ k i,
      let k := upd_mbx i (set_mbxid 0) k in
      upd_s (upd_q (QueInsert (MBXQ i) FREE_MBX)) k) k (seqZ 0 NUM_MBXID) in
    (E_OK, k).

Definition VALID_MBXATR : Z := Z.lor TA_MPRI TA_TPRI.

(** Creation leaves [mq_tail] as it is. *)
(* src: kernel/tkernel/mailbox.c 57-99 tk_cre_mbx *)
Definition tk_cre_mbx (pk_cmbx : T_CMBX) (k : K) : Z * K :=
  if RSATR_ERR (cmbx_mbxatr pk_cmbx) VALID_MBXATR then (E_RSATR, k)
  else
    match QueRemoveNext FREE_MBX (s_q (k_s k)) with
    | (None, q) => (E_LIMIT, upd_s (set_s_q q) k)
    | (Some node, q) =>
        let k := upd_s (set_s_q q) k in
        let mbxcb := nd_idx node in
        let mbxid := ID_MBX mbxcb in
        let k := upd_s (upd_q (QueInit (MBXQ mbxcb))) k in
        let k := upd_mbx mbxcb (λ cb, mkMBXCB mbxid (cmbx_exinf pk_cmbx) (cmbx_mbxatr pk_cmbx) NULL
                   (mbx_tail cb)) k in
        (mbxid, k)
    end.

(* src: kernel/tkernel/mailbox.c 105-128 tk_del_mbx *)
Definition tk_del_mbx (id : Z) (k : K) : Z * K :=
  if negb (CHK_MBXID id) then (E_ID, k)
  else
    let mbxcb := get_mbxcb id in
    if mbxid (k_mbx k mbxcb) =? 0 then (E_NOEXS, k)
    else
      let k := upd_s (knl_wait_delete (MBXQ mbxcb)) k in
      let k := upd_s (upd_q (QueInsert (MBXQ mbxcb) FREE_MBX)) k in
      let k := upd_mbx mbxcb (set_mbxid 0) k in
      (E_OK, k).

(* src: kernel/tkernel/mailbox.c 134-184 tk_snd_mbx *)
Definition tk_snd_mbx (id pk_msg : Z) (k : K) : Z * K :=
  if negb (CHK_MBXID id) then (E_ID, k)
  else
    let mbxcb := get_mbxcb id in
    if mbxid (k_mbx k mbxcb) =? 0 then (E_NOEXS, k)
    else
      let mpri := has (mbxatr (k_mbx k mbxcb)) TA_MPRI in
      if mpri && (msgpri pk_msg (k_mem k) <=? 0) then (E_PAR, k)
      else if negb (isQueEmpty (MBXQ mbxcb) (s_q (k_s k))) then
        let tcb := as_tcb (qnext (s_q (k_s k)) (MBXQ mbxcb)) in
        let k := upd_mem (st32 (wi_mbx (t_winfo (s_tcb (k_s k) tcb))) pk_msg) k in
        (E_OK, upd_s (knl_wait_release_ok tcb) k)
      else if mpri then (E_OK, knl_queue_insert_mpri pk_msg mbxcb k)
      else
        let k := upd_mem (st32 pk_msg NULL) k in
        let k := if headmsg mbxcb k =? NULL then upd_mbx mbxcb (set_mbx_head pk_msg) k
                 else upd_mem (st32 (mbx_tail (k_mbx k mbxcb)) pk_msg) k in
        (E_OK, upd_mbx mbxcb (set_mbx_tail pk_msg) k).

(* src: kernel/tkernel/mailbox.c 189-195 mbx_chg_pri *)
Definition mbx_chg_pri (tcb oldpri : Z) (k : K) : K :=
  let mbxcb := get_mbxcb (t_wid (s_tcb (k_s k) tcb)) in
  upd_s (knl_gcb_change_priority (gcb mbxcb (k_mbx k mbxcb)) tcb) k.

(* src: kernel/tkernel/mailbox.c 206-240 tk_rcv_mbx *)
Definition tk_rcv_mbx (id ppk_msg tmout : Z) (k : K) : Z * K :=
  if negb (CHK_MBXID id) then (E_ID, k)
  else if TMOUT_ERR tmout then (E_PAR, k)
  else if in_ddsp (k_s k) then (E_CTX, k)
  else
    let mbxcb := get_mbxcb id in
    let c := ctx (k_s k) in
    if mbxid (k_mbx k mbxcb) =? 0 then (E_NOEXS, k)
    else if negb (headmsg mbxcb k =? NULL) then
      let k := upd_mem (st32 ppk_msg (headmsg mbxcb k)) k in
      let k := upd_mbx mbxcb (set_mbx_head (nextmsg (ld32 (k_mem k) ppk_msg) (k_mem k))) k in
      (E_OK, k)
    else
      let w := if has (mbxatr (k_mbx k mbxcb)) TA_TPRI then knl_wspec_mbx_tpri else knl_wspec_mbx_tfifo in
      let k := upd_s (upd_tcb c (set_wait w (WI_mbx ppk_msg) c)) k in
      let k := upd_s (knl_gcb_make_wait (gcb mbxcb (k_mbx k mbxcb)) tmout) k in
      (s_ercd (k_s k) c, k).

(* src: kernel/tkernel/mailbox.c 246-266 tk_ref_mbx *)
Definition tk_ref_mbx (id : Z) (k : K) : Z * option T_RMBX :=
  if negb (CHK_MBXID id) then (E_ID, None)
  else
    let mbxcb := get_mbxcb id in
    if mbxid (k_mbx k mbxcb) =? 0 then (E_NOEXS, None)
    else (E_OK, Some (mkT_RMBX (mbx_exinf (k_mbx k mbxcb)) (knl_wait_tskid (MBXQ mbxcb) (k_s k))
                        (headmsg mbxcb k))).

(* src: kernel/tkernel/mailbox.c 309-328 td_lst_mbx *)
Definition td_lst_mbx (nent : Z) (k : K) : Z * list Z :=
  td_lst (λ i, negb (mbxid (k_mbx k i) =? 0)) (λ i, mbxid (k_mbx k i)) NUM_MBXID nent.

(* src: kernel/tkernel/mailbox.c 335-355 td_ref_mbx *)
Definition td_ref_mbx (id : Z) (k : K) : Z * option T_RMBX :=
  if negb (CHK_MBXID id) then (E_ID, None)
  else
    let mbxcb := get_mbxcb id in
    if mbxid (k_mbx k mbxcb) =? 0 then (E_NOEXS, None)
    else (E_OK, Some (mkT_RMBX (mbx_exinf (k_mbx k mbxcb)) (knl_wait_tskid (MBXQ mbxcb) (k_s k))
                        (headmsg mbxcb k))).

(* src: kernel/tkernel/mailbox.c 362-387 td_mbx_que *)
Definition td_mbx_que (id nent : Z) (k : K) : Z * list Z :=
  if negb (CHK_MBXID id) then (E_ID, [])
  else
    let mbxcb := get_mbxcb id in
    if mbxid (k_mbx k mbxcb) =? 0 then (E_NOEXS, [])
    else td_que (MBXQ mbxcb) nent (k_s k).

(** ** The message queue *)

(** The two words of a message, its link and its priority, are apart from those of
    another message. *)
Definition sep8 (x y : Z) : Prop := x + 8 <= y ∨ y + 8 <= x.

Fixpoint mwf (ms : list Z) : Prop :=
  match ms with
  | [] => True
  | x :: ms' => 0 < x <= 2 ^ 32 - 8 ∧ Forall (sep8 x) ms' ∧ mwf ms'
  end.

Lemma sep8_sym x y : sep8 x y → sep8 y x.
Proof. unfold sep8. lia. Qed.

Lemma mwf_range ms x : mwf ms → x ∈ ms → 0 < x <= 2 ^ 32 - 8.
Proof. induction ms as [|y ms IH]; simpl; [by intros _ ?%not_elem_of_nil|]. intros (? & _ & ?) [->|?]%elem_of_cons; auto. Qed.

Lemma mwf_sep ms y z : mwf ms → y ∈ ms → z ∈ ms → z ≠ y → sep8 y z.
Proof.
  induction ms as [|w ms IH]; [by intros _ ?%not_elem_of_nil|]. intros (_ & Hf & Hw). rewrite Forall_forall in Hf.
  rewrite !elem_of_cons. intros [->|Hy] [->|Hz] Hne; [done|by apply Hf|by apply sep8_sym, Hf|by apply IH].
Qed.

Lemma mwf_NoDup ms : mwf ms → NoDup ms.
Proof.
  induction ms as [|y ms IH]; simpl; [constructor|]. intros (_ & Hs & ?). constructor; [|auto].
  intros Hin. rewrite Forall_forall in Hs. specialize (Hs y Hin). unfold sep8 in Hs. lia.
Qed.

(** There are less than 2^32 messages. *)
Lemma mwf_length ms : mwf ms → Z.of_nat (length ms) < 2 ^ 32.
Proof.
  intros Hm. assert (Hsub : ms ⊆+ seqZ 0 (2 ^ 32 - 7)).
  { apply NoDup_submseteq; [by apply mwf_NoDup|]. intros x Hx. apply elem_of_seqZ.
    pose proof (mwf_range _ _ Hm Hx). lia. }
  apply submseteq_length in Hsub. rewrite length_seqZ in Hsub. lia.
Qed.

Lemma mwf_app l1 l2 : mwf (l1 ++ l2) ↔ mwf l1 ∧ mwf l2 ∧ Forall (λ x, Forall (sep8 x) l2) l1.
Proof.
  induction l1 as [|x l1 IH]; simpl.
  { split; [by intros|by intros (_ & ? & _)]. }
  rewrite IH, Forall_app, Forall_cons. tauto.
Qed.

Lemma mwf_insert l1 l2 x :
  mwf (l1 ++ l2) → 0 < x <= 2 ^ 32 - 8 → Forall (sep8 x) (l1 ++ l2) → mwf (l1 ++ x :: l2).
Proof.
  rewrite !mwf_app, Forall_app. intros (H1 & H2 & H12) Hx [Hx1 Hx2]. simpl.
  split; [done|]. split; [done|].
  rewrite Forall_forall in *. intros y Hy. constructor; [apply sep8_sym; auto|]. by apply H12.
Qed.

(** The link that leads to the part behind [l1]: the head or the last message of [l1]. *)
Definition link_at (l1 : list Z) : option Z := last l1.

Lemma next_of_split k i l1 l2 :
  mlist (k_mem k) (headmsg i k) (l1 ++ l2) → mlist (k_mem k) (next_of i (link_at l1) k) l2.
Proof.
  unfold link_at. destruct (decide (l1 = [])) as [->|Hne]; [done|].
  destruct (exists_last Hne) as (l & x & ->). rewrite last_snoc, <- app_assoc. simpl. apply mlist_split.
Qed.

Lemma link_after m h l y x l2 :
  mlist m h (l ++ y :: l2) → mlist m x (x :: l2) → 0 <= x < 2 ^ 32 →
  Forall (sep8 y) l → sep8 x y → Forall (sep8 y) l2 → mlist (st32 y x m) h (l ++ y :: x :: l2).
Proof.
  intros Hl Hx Hxr Hyl Hxy Hyl2. revert h Hl. induction Hyl as [|z l Hyz Hyl IH]; intros h; simpl.
  - intros [-> _]. destruct Hx as [_ Hx]. rewrite ld32_st32 by done.
    split; [done|]. split; [done|]. rewrite ld32_st32_ne by (unfold sep8 in Hxy; lia).
    apply mlist_frame; [|done]. eapply Forall_impl; [exact Hyl2|]. intros z. unfold sep8. lia.
  - intros [-> Hl]. split; [done|].
    rewrite ld32_st32_ne by (unfold sep8 in Hyz; lia). by apply IH.
Qed.

(** Linking [x] in behind [l1]. *)
Lemma link_in k i l1 x l2 :
  mlist (k_mem k) (headmsg i k) (l1 ++ l2) → mwf (l1 ++ l2) →
  0 < x <= 2 ^ 32 - 8 → Forall (sep8 x) (l1 ++ l2) →
  let k1 := upd_mem (st32 x (next_of i (link_at l1) k)) k in
  let k' := set_next_of i (link_at l1) x k1 in
  mlist (k_mem k') (headmsg i k') (l1 ++ x :: l2).
Proof.
  intros Hl Hw Hx Hs k1 k'.
  pose proof (next_of_split _ _ _ _ Hl) as Hl2.
  assert (Hf : ∀ ms, Forall (sep8 x) ms → Forall (λ y, x + 4 <= y ∨ y + 4 <= x) ms)
    by (intros ms Hms; eapply Forall_impl; [exact Hms|]; intros y; unfold sep8; lia).
  apply Forall_app in Hs as [Hs1 Hs2].
  assert (H2 : 0 <= next_of i (link_at l1) k < 2 ^ 32).
  { destruct l2 as [|y l2]; simpl in Hl2; [rewrite Hl2; unfold NULL; lia|]. destruct Hl2 as [-> _].
    apply mwf_app in Hw as (_ & [? _] & _). lia. }
  assert (Hxl2 : mlist (k_mem k1) x (x :: l2)).
  { split; [done|]. unfold k1. simpl. rewrite ld32_st32 by done. by apply mlist_frame; [apply Hf|]. }
  unfold link_at in *. destruct (decide (l1 = [])) as [->|Hne].
  { unfold k'. simpl. unfold headmsg. simpl. upd_simpl. exact Hxl2. }
  destruct (exists_last Hne) as (l & y & ->). unfold k'. rewrite last_snoc in *.
  change (mlist (st32 y x (k_mem k1)) (headmsg i k) ((l ++ [y]) ++ x :: l2)).
  rewrite <- app_assoc in *. simpl app in *. apply mwf_app in Hw as (Hwl & (Hy & Hyl2 & Hwl2) & Hly).
  apply Forall_app in Hs1 as [Hsl Hsy]. apply Forall_cons in Hsy as [Hxy _].
  apply link_after; [|done|lia| |done|done].
  - apply mlist_frame; [|done]. apply Hf. apply Forall_app. split; [done|]. by constructor.
  - rewrite Forall_forall in Hly |- *. intros z Hz. specialize (Hly z Hz). apply Forall_cons in Hly as [Hly _].
    by apply sep8_sym.
Qed.

Definition pri_stop (x : Z) (m : Z → Z) (y : Z) : bool := msgpri x m <? msgpri y m.

Lemma mpri_loop_spec k i x l1 l2 :
  mlist (k_mem k) (headmsg i k) (l1 ++ l2) → mwf (l1 ++ l2) →
  ∃ la lb, l2 = la ++ lb ∧ ins_before (pri_stop x (k_mem k)) x l2 = la ++ x :: lb ∧
    nloop (S (length l2)) (mpri_step i x k) (link_at l1) = inr (link_at (l1 ++ la)).
Proof.
  revert l1. induction l2 as [|y l2 IH]; intros l1 Hl Hw.
  - exists [], []. rewrite (app_nil_r l1). split_and!; [done|done|].
    pose proof (next_of_split k i l1 [] Hl) as E. simpl in E. simpl nloop. unfold mpri_step. by rewrite E.
  - pose proof (next_of_split k i l1 (y :: l2) Hl) as [E _].
    assert (Hy : 0 < y) by (apply (mwf_range (l1 ++ y :: l2) y Hw); set_solver).
    change (nloop (S (length (y :: l2))) (mpri_step i x k) (link_at l1)) with
      (match mpri_step i x k (link_at l1) with
       | inl s' => nloop (S (length l2)) (mpri_step i x k) s' | inr r => inr r end).
    unfold mpri_step at 1. rewrite E. destruct (Z.eqb_spec y NULL) as [E0|_]; [unfold NULL in E0; lia|].
    simpl ins_before. fold (pri_stop x (k_mem k) y). destruct (pri_stop x (k_mem k) y).
    + exists [], (y :: l2). by rewrite (app_nil_r l1).
    + rewrite cons_middle, app_assoc in Hl, Hw. destruct (IH (l1 ++ [y]) Hl Hw) as (la & lb & -> & Ei & El).
      exists (y :: la), lb. rewrite Ei. split_and!; [done|done|]. rewrite <- app_assoc in El. simpl in El.
      rewrite <- El. unfold link_at. by rewrite last_snoc.
Qed.

Lemma insert_mpri_spec k i x ms :
  mlist (k_mem k) (headmsg i k) ms → mwf ms → 0 < x <= 2 ^ 32 - 8 → Forall (sep8 x) ms →
  let k' := knl_queue_insert_mpri x i k in
  let ms' := ins_before (pri_stop x (k_mem k)) x ms in
  mlist (k_mem k') (headmsg i k') ms' ∧ mwf ms' ∧ k_s k' = k_s k ∧
  (∀ j, mbxid (k_mbx k' j) = mbxid (k_mbx k j) ∧ mbxatr (k_mbx k' j) = mbxatr (k_mbx k j)) ∧
  (∀ a, (∀ y, y ∈ x :: ms → a + 4 <= y ∨ y + 4 <= a) → ld32 (k_mem k') a = ld32 (k_mem k) a).
Proof.
  intros Hl Hw Hx Hs k' ms'. destruct (mpri_loop_spec k i x [] ms Hl Hw) as (la & lb & -> & Ei & El).
  pose proof (mwf_length _ Hw) as Hlen.
  assert (E : k' = set_next_of i (link_at la) x (upd_mem (st32 x (next_of i (link_at la) k)) k)).
  { assert (Ep : ploop (2 ^ 32)%positive (mpri_step i x k) None = inr (link_at la)).
    { apply (ploop_enough (S (length (la ++ lb)))); [|exact El].
      apply Nat2Z.inj_le. rewrite positive_nat_Z, Nat2Z.inj_succ.
      change (Z.pos (2 ^ 32)) with (2 ^ 32). lia. }
    unfold k', knl_queue_insert_mpri. by rewrite Ep. }
  unfold ms'. rewrite Ei, E. split_and!.
  - by apply link_in.
  - by apply mwf_insert.
  - by destruct (link_at la).
  - intros j. destruct (link_at la); [done|]. simpl. by destruct (decide (i = j)) as [<-|]; upd_simpl.
  - intros a Ha.
    assert (Hla : ∀ m, (∀ y, y ∈ x :: la → a + 4 <= y ∨ y + 4 <= a) →
      ld32 (k_mem (set_next_of i (link_at la) x (upd_mem (st32 x m) k))) a = ld32 (k_mem k) a).
    { intros m Ha'. destruct (Ha' x ltac:(left)); destruct (link_at la) as [y|] eqn:Ely; simpl;
        rewrite ?ld32_st32_ne; try lia; try done.
      all: specialize (Ha' y); assert (y ∈ la) by (unfold link_at in Ely; by apply last_Some_elem_of);
        rewrite elem_of_cons in Ha'; specialize (Ha' ltac:(auto)); lia. }
    apply Hla. intros y Hy. apply Ha. revert Hy. rewrite !elem_of_cons, elem_of_app. tauto.
Qed.

(** ** A mailbox in good order *)

Definition sorted_pri (m : Z → Z) : list Z → Prop := StronglySorted (λ a b, msgpri a m <= msgpri b m).

(** [l] waits for messages, [ms] are the queued messages. *)
Record mbx_used (k : K) (Q : gmap node (list node)) (i : Z) (l : list node) (ms : list Z) : Prop := {
  bu_id : mbxid (k_mbx k i) = ID_MBX i;
  bu_que : Q !! MBXQ i = Some l;
  bu_list : mlist (k_mem k) (headmsg i k) ms;
  bu_wf : mwf ms;
  bu_tail : has (mbxatr (k_mbx k i)) TA_MPRI = false → ms ≠ [] → last ms = Some (mbx_tail (k_mbx k i));
  bu_sorted : has (mbxatr (k_mbx k i)) TA_MPRI = true → sorted_pri (k_mem k) ms;
  bu_excl : l = [] ∨ ms = []
}.

Definition mbx_order (k : K) (i x : Z) (ms : list Z) : list Z :=
  if has (mbxatr (k_mbx k i)) TA_MPRI then ins_before (pri_stop x (k_mem k)) x ms else ms ++ [x].

Lemma mbx_noexs id k Q l ms : CHK_MBXID id = true → mbx_used k Q (get_mbxcb id) l ms →
  (mbxid (k_mbx k (get_mbxcb id)) =? 0) = false.
Proof.
  intros Hid Hu. apply Z.eqb_neq. rewrite (bu_id _ _ _ _ _ Hu). unfold get_mbxcb. rewrite ID_INDEX_MBX.
  by apply CHK_MBXID_range.
Qed.

Lemma sorted_pri_ext m m' ms :
  (∀ y, y ∈ ms → msgpri y m' = msgpri y m) → sorted_pri m ms → sorted_pri m' ms.
Proof.
  intros E. unfold sorted_pri. induction 1 as [|y l Hs IH Hall]; [constructor|]. constructor.
  - apply IH. intros. apply E. by right.
  - rewrite Forall_forall in Hall |- *. intros z Hz. rewrite !E by first [by left|by right]. auto.
Qed.

(** Appending a message to a mailbox in FIFO order. *)
Lemma append_spec k i x ms :
  mlist (k_mem k) (headmsg i k) ms → mwf ms → 0 < x <= 2 ^ 32 - 8 → Forall (sep8 x) ms →
  (ms ≠ [] → last ms = Some (mbx_tail (k_mbx k i))) →
  let k1 := upd_mem (st32 x NULL) k in
  let k2 := if headmsg i k1 =? NULL then upd_mbx i (set_mbx_head x) k1
            else upd_mem (st32 (mbx_tail (k_mbx k1 i)) x) k1 in
  let k' := upd_mbx i (set_mbx_tail x) k2 in
  mlist (k_mem k') (headmsg i k') (ms ++ [x]).
Proof.
  intros Hl Hw Hx Hs Ht k1 k2 k'.
  pose proof (link_in k i ms x [] ltac:(by rewrite app_nil_r) ltac:(by rewrite app_nil_r) Hx
    ltac:(by rewrite app_nil_r)) as H. cbv zeta in H.
  assert (E : next_of i (link_at ms) k = NULL)
    by (pose proof (next_of_split k i ms [] ltac:(by rewrite app_nil_r)) as E; exact E).
  rewrite E in H. fold k1 in H.
  assert (Ek : set_next_of i (link_at ms) x k1 = k2).
  { unfold k2. change (headmsg i k1) with (headmsg i k). destruct ms as [|y ms].
    - simpl in Hl. by rewrite Hl.
    - destruct Hl as [-> _]. destruct Hw as [Hy _]. destruct (Z.eqb_spec y NULL); [unfold NULL in *; lia|].
      unfold link_at. by rewrite Ht. }
  rewrite Ek in H. unfold k'. unfold headmsg in *. simpl. upd_simpl. exact H.
Qed.

Lemma mlist_head m h ms : mlist m h ms → mwf ms → h = match ms with [] => NULL | x :: _ => x end ∧
  (h =? NULL) = bool_decide (ms = []).
Proof.
  destruct ms as [|x ms]; simpl; [by intros ->|]. intros [-> _] [Hx _]. split; [done|].
  apply Z.eqb_neq. unfold NULL. lia.
Qed.

Lemma rel_mbx k k' Q Q' i y e l :
  mbx_used k Q i (y :: l) [] → rel_post (MBXQ i) [y] e (k_s k) (k_s k') Q Q' → Q' !! MBXQ i = Some l →
  k_mbx k' = k_mbx k → mbx_used k' Q' i l [].
Proof.
  intros [] _ HQ E. constructor; unfold headmsg in *; rewrite ?E; try done; [|by right].
  intros _. constructor.
Qed.

(** C31: Sending to a mailbox.  When tasks wait, the first of them is released with E_OK
    and gets the address of the message, and the queue of messages stays empty; when
    none waits the message is linked into the list in memory: behind all others
    (TA_MFIFO), or behind those whose priority value is not greater (TA_MPRI), so the
    list stays sorted by priority and first-in first-out within a priority.  In
    each case the list still ends in NULL, the links of the other messages are intact,
    and the walk to the place of insertion ends. *)
Theorem tk_snd_mbx_spec (k : K) (Q : gmap node (list node)) (id x : Z) (l : list node) (ms : list Z) :
  let i := get_mbxcb id in
  kinv (k_s k) Q → CHK_MBXID id = true → mbx_used k Q i l ms →
  (has (mbxatr (k_mbx k i)) TA_MPRI = true → 0 < msgpri x (k_mem k)) →
  0 < x <= 2 ^ 32 - 8 → Forall (sep8 x) ms →
  ∃ k' Q', tk_snd_mbx id x k = (E_OK, k') ∧
    match l with
    | y :: l' => rel_post (MBXQ i) [y] E_OK (k_s k) (k_s k') Q Q' ∧
        k_mem k' = st32 (wi_mbx (t_winfo (s_tcb (k_s k) (as_tcb y)))) x (k_mem k) ∧ mbx_used k' Q' i l' []
    | [] => k_s k' = k_s k ∧ Q' = Q ∧ mbx_used k' Q i [] (mbx_order k i x ms)
    end.
Proof.
  intros i Hk Hid Hu Hpri Hx Hs. pose proof Hu as [Hi HQ Hl Hw Ht Hso Hex].
  unfold tk_snd_mbx. rewrite Hid, (mbx_noexs id k Q l ms Hid Hu). fold i. cbn [negb]. cbv zeta.
  assert (E : has (mbxatr (k_mbx k i)) TA_MPRI && (msgpri x (k_mem k) <=? 0) = false).
  { destruct (has _ _); [|done]. apply Z.leb_gt. auto. }
  rewrite E, (kinvx_empty _ _ _ _ _ _ Hk HQ), (kinvx_first _ _ _ _ _ _ Hk HQ). clear E.
  destruct l as [|y l]; cbn [negb bool_decide decide_rel list_eq_nil_dec hd].
  - change (bool_decide (@nil node = [])) with true. cbn [negb]. unfold mbx_order.
    destruct (has (mbxatr (k_mbx k i)) TA_MPRI) eqn:Hm.
    + destruct (insert_mpri_spec k i x ms Hl Hw Hx Hs) as (Hl' & Hw' & Es & Ecb & Emem).
      set (k' := knl_queue_insert_mpri x i k) in *. destruct (Ecb i) as [Eid Eatr].
      exists k', Q. split_and!; [done|done|done|].
      constructor; rewrite ?Eid, ?Eatr; try done; [congruence| |by left].
      intros _. apply (sorted_pri_ext (k_mem k)).
      * intros y [->|Hy]%elem_of_ins_before; unfold msgpri; rewrite Emem; try done.
        -- intros z [->|Hz]%elem_of_cons; [lia|]. rewrite Forall_forall in Hs. specialize (Hs z Hz).
           unfold sep8 in Hs. lia.
        -- intros z Hz. destruct (decide (z = y)) as [->|Hne]; [lia|].
           assert (sep8 y z); [|unfold sep8 in *; lia].
           apply elem_of_cons in Hz as [-> |Hz]; [rewrite Forall_forall in Hs; by apply sep8_sym, Hs|].
           by apply (mwf_sep ms).
      * unfold sorted_pri. by apply (ins_before_sorted (λ y, msgpri y (k_mem k))), Hso.
    + set (k1 := upd_mem (st32 x NULL) k).
      set (k2 := if headmsg i k1 =? NULL then _ else _).
      assert (Es : k_s k2 = k_s k) by (unfold k2; by case_match).
      assert (Eid : mbxid (k_mbx k2 i) = mbxid (k_mbx k i) ∧ mbxatr (k_mbx k2 i) = mbxatr (k_mbx k i))
        by (unfold k2; case_match; simpl; by upd_simpl).
      eexists _, Q. split_and!; [done|done|done|].
      constructor; try done.
      * simpl. upd_simpl. simpl. by rewrite (proj1 Eid).
      * by apply append_spec; [..|auto].
      * apply mwf_insert; [by rewrite app_nil_r|done|by rewrite app_nil_r].
      * intros _ _. simpl. upd_simpl. simpl. by rewrite last_snoc.
      * simpl. upd_simpl. simpl. rewrite (proj2 Eid). congruence.
      * by left.
  - destruct Hex as [?| ->]; [done|]. change (bool_decide (y :: l = [])) with false. cbn [negb].
    set (k1 := upd_mem _ k).
    destruct (kinv_release_at (MBXQ i) [] l y E_OK (k_s k) Q Hk eq_refl HQ) as (Q' & _ & _ & Hr & HQ' & _).
    eexists _, Q'. split_and!; [done|done|done|].
    by apply (rel_mbx k _ Q Q' i y E_OK l).
Qed.

Lemma tk_snd_mbx_spec_witness :
  let k := upd_mbx 0 (λ _, mkMBXCB 1 0 TA_MPRI 0 0)
             (set_k_mem (λ a, if a =? 104 then 5 else 0)
               (ex_k (ex_sch [ex_ready 3] [(TIMERQ, []); (MBXQ 0, [])]))) in
  let Q := ex_Q [ex_ready 3] [(TIMERQ, []); (MBXQ 0, [])] in
  ∃ k', tk_snd_mbx 1 100 k = (E_OK, k') ∧ mbx_used k' Q 0 [] [100].
Proof.
  intros k Q.
  assert (Hk : kinv (k_s k) Q) by (apply ex_kinv; by vm_compute).
  assert (Hu : mbx_used k Q 0 [] []) by (constructor; [done|by vm_compute|done|done|done|by intros; constructor|by left]).
  destruct (tk_snd_mbx_spec k Q 1 100 [] [] Hk eq_refl Hu ltac:(intros _; by vm_compute) ltac:(lia)
    ltac:(constructor)) as (k' & Q' & H1 & _ & _ & H2). by exists k'.
Defined.

(** Receiving from a mailbox.  When there is a message its address is stored where
    the caller asked, it is unlinked, and the messages behind it stay in order; with
    no message a poll returns E_TMOUT, and any other time-out queues the task in the
    order of the mailbox's attribute.  Tasks never wait while there is a message. *)
Theorem tk_rcv_mbx_spec (k : K) (Q : gmap node (list node)) (id ppk tmout : Z) (l : list node) (ms : list Z) :
  let i := get_mbxcb id in
  let cb := k_mbx k i in
  let c := ctx (k_s k) in
  let k' := (tk_rcv_mbx id ppk tmout k).2 in
  let r := (tk_rcv_mbx id ppk tmout k).1 in
  kinv (k_s k) Q → running (k_s k) → CHK_MBXID id = true → mbx_used k Q i l ms →
  TMOUT_ERR tmout = false → Forall (λ y, ppk + 4 <= y ∨ y + 8 <= ppk) ms →
  match ms with
  | x :: ms' => r = E_OK ∧ ld32 (k_mem k') ppk = x ∧ k_s k' = k_s k ∧ mbx_used k' Q i l ms'
  | [] => r = E_TMOUT ∧
      if tmout =? TMO_POL then kinv (k_s k') Q ∧ mbx_used k' Q i l []
      else ∃ Q' w, wait_post (gcb i cb) w (WI_mbx ppk) l (k_s k) (k_s k') Q Q' ∧
                   mbx_used k' Q' i (wait_order (k_s k) (mbxatr cb) c l) []
  end.
Proof.
  intros i cb c k' r Hk [Hdd Hrun] Hid Hu Htm Hap. pose proof Hu as [Hi HQ Hl Hw Ht Hso Hex].
  destruct (mlist_head _ _ _ Hl Hw) as [Eh Eb].
  set (w := if has (mbxatr cb) TA_TPRI then knl_wspec_mbx_tpri else knl_wspec_mbx_tfifo).
  assert (E : tk_rcv_mbx id ppk tmout k =
    if negb (bool_decide (ms = [])) then
      let k := upd_mem (st32 ppk (headmsg i k)) k in
      (E_OK, upd_mbx i (set_mbx_head (nextmsg (ld32 (k_mem k) ppk) (k_mem k))) k)
    else
      let k' := upd_s (λ s, knl_gcb_make_wait (gcb i cb) tmout (upd_tcb c (set_wait w (WI_mbx ppk) c) s)) k in
      (s_ercd (k_s k') c, k')).
  { unfold tk_rcv_mbx. rewrite Hid, Htm, Hdd, (mbx_noexs id k Q l ms Hid Hu). fold i. cbn [negb]. cbv zeta.
    by rewrite Eb. }
  unfold r, k'. rewrite E. clear E r k'. destruct ms as [|x ms].
  - change (negb (bool_decide (@nil Z = []))) with false. cbv iota zeta. cbn [fst snd].
    destruct (Z.eqb_spec tmout TMO_POL) as [->|Htp].
    + unfold upd_s, c. rewrite wait_on_poll. split_and!; [simpl; by upd_simpl| |].
      { eapply kinvx_ext; [..|by apply (kinv_set_wait w (WI_mbx ppk) (k_s k) Q)]; done. }
      by constructor.
    + destruct (kinv_wait_on (gcb i cb) w (WI_mbx ppk) tmout (k_s k) Q l) as (Q' & Hwp); try done.
      { change (objid (gcb i cb)) with (mbxid (k_mbx k i)). rewrite Hi. unfold w, wait_home.
        by destruct (has (mbxatr cb) TA_TPRI); rewrite INDEX_ID_MBX. }
      fold c in Hwp. set (k' := upd_s _ k). change (knl_gcb_make_wait _ _ _) with (k_s k') in Hwp.
      split; [rewrite (wp_ercd _ _ _ _ _ _ _ _ Hwp); fold c; by upd_simpl|].
      exists Q', w. split; [done|]. pose proof (wp_que _ _ _ _ _ _ _ _ Hwp) as HQ'.
      constructor; try done. by right.
  - change (negb (bool_decide (x :: ms = []))) with true. cbv iota zeta. cbn [fst snd].
    destruct Hw as (Hx & Hsx & Hw). destruct Hl as [_ Hl]. rewrite Eh.
    assert (Ex : ld32 (st32 ppk x (k_mem k)) ppk = x) by (apply ld32_st32; lia).
    apply Forall_cons in Hap as [Hapx Hap].
    assert (En : nextmsg x (st32 ppk x (k_mem k)) = nextmsg x (k_mem k))
      by (unfold nextmsg; apply ld32_st32_ne; lia).
    split_and!; [done|simpl; exact Ex|done|].
    constructor; try done; simpl; upd_simpl; simpl.
    + exact Hi.
    + unfold headmsg. simpl. upd_simpl. simpl. rewrite Ex, En. apply mlist_frame; [|done].
      eapply Forall_impl; [exact Hap|]. intros y. simpl. lia.
    + intros Hm Hne. rewrite <- Ht by done. by destruct ms.
    + intros Hm. specialize (Hso Hm). apply StronglySorted_inv in Hso as [Hso _].
      apply (sorted_pri_ext (k_mem k)); [|done]. intros y Hy. unfold msgpri. rewrite ld32_st32_ne; [done|].
      rewrite Forall_forall in Hap. specialize (Hap y Hy). simpl in Hap. lia.
    + by destruct Hex as [->|?]; [left|].
Qed.

Lemma tk_rcv_mbx_spec_witness :
  let k := upd_mbx 0 (λ _, mkMBXCB 1 0 0 100 100)
             (ex_k (ex_sch [ex_ready 3] [(TIMERQ, []); (MBXQ 0, [])])) in
  let Q := ex_Q [ex_ready 3] [(TIMERQ, []); (MBXQ 0, [])] in
  (tk_rcv_mbx 1 200 TMO_FEVR k).1 = E_OK ∧ ld32 (k_mem (tk_rcv_mbx 1 200 TMO_FEVR k).2) 200 = 100.
Proof.
  intros k Q.
  assert (Hk : kinv (k_s k) Q) by (apply ex_kinv; by vm_compute).
  assert (Hu : mbx_used k Q 0 [] [100]).
  { constructor; [done|by vm_compute|by split|split_and!; [lia|lia|constructor|done]|done|done|by left]. }
  destruct (tk_rcv_mbx_spec k Q 1 200 TMO_FEVR [] [100] Hk ltac:(by vm_compute) eq_refl Hu eq_refl
    ltac:(repeat constructor; lia)) as (H1 & H2 & _). done.
Defined.
