(* ===== verification/MessageBuf.v ===== *)
(** * Message buffers: kernel/tkernel/messagebuf.h, kernel/tkernel/messagebuf.c

    The ring buffer of a message buffer is an area of memory at [mbf_buffer]; a
    message is stored as a word with its size followed by its bytes, rounded up to a
    multiple of four.  The send queue of block [i] is [SMBFQ i] (which also links the
    free list), the receive queue [RMBFQ i]. *)
From S2P Require Import Prelude Config Queue Kernel ReadyQueue KInv KCheck Task Timer Wait Mem.

(* src: include/tk/syscall.h 294-303 T_CMBF *)
Record T_CMBF := mkT_CMBF {
  cmbf_exinf : Z; cmbf_mbfatr : Z; cmbf_bufsz : Z; cmbf_maxmsz : Z; cmbf_bufptr : Z }.

(* src: include/tk/syscall.h 308-315 T_RMBF *)
Record T_RMBF := mkT_RMBF {
  rmbf_exinf : Z; rmbf_wtsk : Z; rmbf_stsk : Z; rmbf_msgsz : Z; rmbf_frbufsz : Z; rmbf_maxmsz : Z }.

(* src: kernel/tkernel/messagebuf.h 52-52 get_mbfcb *)
Definition get_mbfcb (id : Z) : Z := INDEX_MBF id.

(* src: kernel/tkernel/messagebuf.h 59-59 HEADERSZ *)
Definition HEADERSZ : Z := 4.

(* src: kernel/tkernel/messagebuf.h 61-62 ROUNDSZ *)
Definition ROUNDSZ (sz : Z) : Z := Z.land (u32 (u32 sz + 3)) (2 ^ 32 - 4).

(* src: kernel/tkernel/messagebuf.h 68-71 knl_mbf_free *)
Definition knl_mbf_free (cb : MBFCB) (msgsz : Z) : bool := u32 (HEADERSZ + u32 msgsz) <=? u32 (frbufsz cb).

(* src: kernel/tkernel/messagebuf.h 76-79 knl_mbf_empty *)
Definition knl_mbf_empty (cb : MBFCB) : bool := frbufsz cb =? bufsz cb.

(* src: kernel/tkernel/messagebuf.c 34-52 knl_messagebuffer_initialize *)
Definition knl_messagebuffer_initialize (k : K) : Z * K :=
  if NUM_MBFID <? 1 then (E_SYS, k)
  else
    let k := upd_s (upd_q (QueInit FREE_MBF)) k in
    let k := foldl (λ k i,
      let k := upd_mbf i (set_mbfid 0) k in
      upd_s (upd_q (QueInsert (SMBFQ i) FREE_MBF)) k) k (seqZ 0 NUM_MBFID) in
    (E_OK, k).

(* src: kernel/tkernel/messagebuf.c 59-86 knl_msg_to_mbf *)
Definition knl_msg_to_mbf (i msg msgsz : Z) (k : K) : K :=
  let tail := mbf_tail (k_mbf k i) in
  let buffer := mbf_buffer (k_mbf k i) in
  let k := upd_mbf i (λ cb, set_frbufsz (s32 (frbufsz cb - s32 (HEADERSZ + ROUNDSZ msgsz))) cb) k in
  let k := upd_mem (st32 (buffer + tail) (u32 msgsz)) k in
  let tail := tail + HEADERSZ in
  let tail := if bufsz (k_mbf k i) <=? tail then 0 else tail in
  let remsz := bufsz (k_mbf k i) - tail in
  let '(k, msg, msgsz, tail) :=
    if remsz <? msgsz
    then (upd_mem (knl_memcpy (buffer + tail) msg remsz) k, msg + remsz, msgsz - remsz, 0)
    else (k, msg, msgsz, tail) in
  let k := upd_mem (knl_memcpy (buffer + tail) msg msgsz) k in
  let tail := tail + ROUNDSZ msgsz in
  let tail := if bufsz (k_mbf k i) <=? tail then 0 else tail in
  upd_mbf i (set_mbf_tail tail) k.

(** The loop of [knl_mbf_wakeup]; every round releases a task. *)
(* src: kernel/tkernel/messagebuf.c 99-109 knl_mbf_wakeup *)
Fixpoint mbf_wakeup_loop (fuel : nat) (i : Z) (k : K) : K :=
  match fuel with
  | O => k
  | S fuel =>
      if isQueEmpty (SMBFQ i) (s_q (k_s k)) then k
      else
        let top := as_tcb (qnext (s_q (k_s k)) (SMBFQ i)) in
        let msgsz := (wi_smbf (t_winfo (s_tcb (k_s k) top))).2 in
        if negb (knl_mbf_free (k_mbf k i) msgsz) then k
        else
          let k := knl_msg_to_mbf i (wi_smbf (t_winfo (s_tcb (k_s k) top))).1 msgsz k in
          let k := upd_s (knl_wait_release_ok top) k in
          mbf_wakeup_loop fuel i k
  end.

(* src: kernel/tkernel/messagebuf.c 94-110 knl_mbf_wakeup *)
Definition knl_mbf_wakeup (i : Z) (k : K) : K := mbf_wakeup_loop QFUEL i k.

Definition VALID_MBFATR : Z := Z.lor TA_TPRI TA_USERBUF.

(** The bookkeeping part of [tk_cre_mbf], with the buffer at [msgbuf]. *)
(* src: kernel/tkernel/messagebuf.c 172-195 tk_cre_mbf *)
Definition cre_mbf_block (pk_cmbf : T_CMBF) (sz msgbuf : Z) (k : K) : Z * K :=
  match QueRemoveNext FREE_MBF (s_q (k_s k)) with
  | (None, q) => (E_LIMIT, upd_s (set_s_q q) k)
  | (Some node, q) =>
      let k := upd_s (set_s_q q) k in
      let mbfcb := nd_idx node in
      let mbfid := ID_MBF mbfcb in
      let k := upd_s (upd_q (QueInit (SMBFQ mbfcb))) k in
      let k := upd_s (upd_q (QueInit (RMBFQ mbfcb))) k in
      let k := upd_mbf mbfcb (λ _, mkMBFCB mbfid (cmbf_exinf pk_cmbf) (cmbf_mbfatr pk_cmbf) sz
                 (cmbf_maxmsz pk_cmbf) sz 0 0 msgbuf) k in
      (mbfid, k)
  end.

(* src: kernel/tkernel/messagebuf.c 116-205 tk_cre_mbf *)
Definition tk_cre_mbf `{Allocator} (pk_cmbf : T_CMBF) (k : K) : Z * K :=
  if RSATR_ERR (cmbf_mbfatr pk_cmbf) VALID_MBFATR then (E_RSATR, k)
  else if negb (0 <=? cmbf_bufsz pk_cmbf) then (E_PAR, k)
  else if negb (0 <? cmbf_maxmsz pk_cmbf) then (E_PAR, k)
  else
    let sz := s32 (ROUNDSZ (cmbf_bufsz pk_cmbf)) in
    let userbuf := has (cmbf_mbfatr pk_cmbf) TA_USERBUF in
    if (0 <? sz) && userbuf && negb (sz =? cmbf_bufsz pk_cmbf) then (E_PAR, k)
    else
      let '(msgbuf, k) :=
        if 0 <? sz then (if userbuf then (cmbf_bufptr pk_cmbf, k) else Imalloc (u32 sz) k)
        else (0, k) in
      if (0 <? sz) && negb userbuf && (msgbuf =? 0) then (E_NOMEM, k)
      else
        let '(ercd, k) := cre_mbf_block pk_cmbf sz msgbuf k in
        if (ercd <? E_OK) && negb (msgbuf =? 0) && negb userbuf then (ercd, Ifree msgbuf k)
        else (ercd, k).

(* src: kernel/tkernel/messagebuf.c 211-244 tk_del_mbf *)
Definition tk_del_mbf `{Allocator} (id : Z) (k : K) : Z * K :=
  if negb (CHK_MBFID id) then (E_ID, k)
  else
    let mbfcb := get_mbfcb id in
    if mbfid (k_mbf k mbfcb) =? 0 then (E_NOEXS, k)
    else
      let msgbuf := mbf_buffer (k_mbf k mbfcb) in
      let k := upd_s (knl_wait_delete (RMBFQ mbfcb)) k in
      let k := upd_s (knl_wait_delete (SMBFQ mbfcb)) k in
      let k := upd_s (upd_q (QueInsert (SMBFQ mbfcb) FREE_MBF)) k in
      let k := upd_mbf mbfcb (set_mbfid 0) k in
      if negb (msgbuf =? 0) && negb (has (mbfatr (k_mbf k mbfcb)) TA_USERBUF)
      then (E_OK, Ifree msgbuf k) else (E_OK, k).

(* src: kernel/tkernel/messagebuf.c 250-263 knl_mbf_chg_pri *)
Definition knl_mbf_chg_pri (tcb oldpri : Z) (k : K) : K :=
  let mbfcb := get_mbfcb (t_wid (s_tcb (k_s k) tcb)) in
  let k := if 0 <=? oldpri then upd_s (knl_gcb_change_priority (gcb mbfcb (k_mbf k mbfcb)) tcb) k else k in
  knl_mbf_wakeup mbfcb k.

(* src: kernel/tkernel/messagebuf.c 268-271 knl_mbf_rel_wai *)
Definition knl_mbf_rel_wai (tcb : Z) (k : K) : K := knl_mbf_chg_pri tcb (-1) k.

(* src: kernel/tkernel/messagebuf.c 282-336 tk_snd_mbf *)
Definition tk_snd_mbf (id msg msgsz tmout : Z) (k : K) : Z * K :=
  if negb (CHK_MBFID id) then (E_ID, k)
  else if negb (0 <? msgsz) then (E_PAR, k)
  else if TMOUT_ERR tmout then (E_PAR, k)
  else if negb (tmout =? TMO_POL) && in_ddsp (k_s k) then (E_CTX, k)
  else
    let mbfcb := get_mbfcb id in
    let c := ctx (k_s k) in
    if mbfid (k_mbf k mbfcb) =? 0 then (E_NOEXS, k)
    else if maxmsz (k_mbf k mbfcb) <? msgsz then (E_PAR, k)
    else if negb (isQueEmpty (RMBFQ mbfcb) (s_q (k_s k))) then
      let tcb := as_tcb (qnext (s_q (k_s k)) (RMBFQ mbfcb)) in
      let '(dst, p_msgsz) := wi_rmbf (t_winfo (s_tcb (k_s k) tcb)) in
      let k := upd_mem (knl_memcpy dst msg msgsz) k in
      let k := match p_msgsz with
               | Some t => upd_s (λ s, set_s_rcvsz (<[t := msgsz]> (s_rcvsz s)) s) k
               | None => k
               end in
      (E_OK, upd_s (knl_wait_release_ok tcb) k)
    else if (in_indp (k_s k) || (knl_gcb_top_of_wait_queue (gcb mbfcb (k_mbf k mbfcb)) c (k_s k) =? c))
            && knl_mbf_free (k_mbf k mbfcb) msgsz then
      (E_OK, knl_msg_to_mbf mbfcb msg msgsz k)
    else if negb (tmout =? TMO_POL) then
      let w := if has (mbfatr (k_mbf k mbfcb)) TA_TPRI then knl_wspec_smbf_tpri else knl_wspec_smbf_tfifo in
      let k := upd_s (upd_tcb c (set_wait w (WI_smbf msg msgsz) c)) k in
      let k := upd_s (knl_gcb_make_wait (gcb mbfcb (k_mbf k mbfcb)) tmout) k in
      (s_ercd (k_s k) c, k)
    else (E_TMOUT, k).

(* src: kernel/tkernel/messagebuf.c 345-375 knl_mbf_to_msg *)
Definition knl_mbf_to_msg (i msg : Z) (k : K) : Z * K :=
  let head := mbf_head (k_mbf k i) in
  let buffer := mbf_buffer (k_mbf k i) in
  let actsz := s32 (ld32 (k_mem k) (buffer + head)) in
  let msgsz := actsz in
  let k := upd_mbf i (λ cb, set_frbufsz (s32 (frbufsz cb + s32 (HEADERSZ + ROUNDSZ msgsz))) cb) k in
  let head := head + HEADERSZ in
  let head := if bufsz (k_mbf k i) <=? head then 0 else head in
  let remsz := bufsz (k_mbf k i) - head in
  let '(k, msg, msgsz, head) :=
    if remsz <? msgsz
    then (upd_mem (knl_memcpy msg (buffer + head) remsz) k, msg + remsz, msgsz - remsz, 0)
    else (k, msg, msgsz, head) in
  let k := upd_mem (knl_memcpy msg (buffer + head) msgsz) k in
  let head := head + ROUNDSZ msgsz in
  let head := if bufsz (k_mbf k i) <=? head then 0 else head in
  (actsz, upd_mbf i (set_mbf_head head) k).

(** The result of a call that waits is [ercd] if that is an error, and [rcvsz]
    otherwise, when the task runs again. *)
(* src: kernel/tkernel/messagebuf.c 380-431 tk_rcv_mbf *)
Definition tk_rcv_mbf (id msg tmout : Z) (k : K) : Z * K :=
  if negb (CHK_MBFID id) then (E_ID, k)
  else if TMOUT_ERR tmout then (E_PAR, k)
  else if in_ddsp (k_s k) then (E_CTX, k)
  else
    let mbfcb := get_mbfcb id in
    let c := ctx (k_s k) in
    if mbfid (k_mbf k mbfcb) =? 0 then (E_NOEXS, k)
    else if negb (knl_mbf_empty (k_mbf k mbfcb)) then
      let '(rcvsz, k) := knl_mbf_to_msg mbfcb msg k in
      (rcvsz, knl_mbf_wakeup mbfcb k)
    else if negb (isQueEmpty (SMBFQ mbfcb) (s_q (k_s k))) then
      let tcb := as_tcb (qnext (s_q (k_s k)) (SMBFQ mbfcb)) in
      let '(src, rcvsz) := wi_smbf (t_winfo (s_tcb (k_s k) tcb)) in
      let k := upd_mem (knl_memcpy msg src rcvsz) k in
      let k := upd_s (knl_wait_release_ok tcb) k in
      (rcvsz, knl_mbf_wakeup mbfcb k)
    else if negb (tmout =? TMO_POL) then
      let k := upd_s (λ s, set_s_ercd (<[c := E_TMOUT]> (s_ercd s)) s) k in
      let k := upd_s (upd_tcb c (λ t, set_t_wid id (set_wait knl_wspec_rmbf (WI_rmbf msg (Some c)) c t))) k in
      let k := upd_s (knl_make_wait tmout (mbfatr (k_mbf k mbfcb))) k in
      let k := upd_s (λ s, upd_q (QueInsert (TSKQ (ctx s)) (RMBFQ mbfcb)) s) k in
      (if s_ercd (k_s k) c <? E_OK then s_ercd (k_s k) c else s_rcvsz (k_s k) c, k)
    else (E_TMOUT, k).

(** The size of the next message, for the two calls that report it. *)
(* src: kernel/tkernel/messagebuf.c 454-463 tk_ref_mbf *)
Definition next_msgsz (i : Z) (k : K) : Z :=
  if negb (knl_mbf_empty (k_mbf k i)) then
    s32 (ld32 (k_mem k) (mbf_buffer (k_mbf k i) + mbf_head (k_mbf k i)))
  else if negb (isQueEmpty (SMBFQ i) (s_q (k_s k))) then
    (wi_smbf (t_winfo (s_tcb (k_s k) (as_tcb (qnext (s_q (k_s k)) (SMBFQ i)))))).2
  else 0.

(* src: kernel/tkernel/messagebuf.c 443-466 tk_ref_mbf *)
Definition ref_mbf (id : Z) (k : K) : Z * option T_RMBF :=
  if negb (CHK_MBFID id) then (E_ID, None)
  else
    let mbfcb := get_mbfcb id in
    if mbfid (k_mbf k mbfcb) =? 0 then (E_NOEXS, None)
    else (E_OK, Some (mkT_RMBF (mbf_exinf (k_mbf k mbfcb)) (knl_wait_tskid (RMBFQ mbfcb) (k_s k))
                        (knl_wait_tskid (SMBFQ mbfcb) (k_s k)) (next_msgsz mbfcb k)
                        (frbufsz (k_mbf k mbfcb)) (maxmsz (k_mbf k mbfcb)))).

(* src: kernel/tkernel/messagebuf.c 437-470 tk_ref_mbf *)
Definition tk_ref_mbf (id : Z) (k : K) : Z * option T_RMBF := ref_mbf id k.

(* src: kernel/tkernel/messagebuf.c 513-532 td_lst_mbf *)
Definition td_lst_mbf (nent : Z) (k : K) : Z * list Z :=
  td_lst (λ i, negb (mbfid (k_mbf k i) =? 0)) (λ i, mbfid (k_mbf k i)) NUM_MBFID nent.

(* src: kernel/tkernel/messagebuf.c 539-572 td_ref_mbf *)
Definition td_ref_mbf (id : Z) (k : K) : Z * option T_RMBF := ref_mbf id k.

(* src: kernel/tkernel/messagebuf.c 579-604 td_smbf_que *)
Definition td_smbf_que (id nent : Z) (k : K) : Z * list Z :=
  if negb (CHK_MBFID id) then (E_ID, [])
  else
    let mbfcb := get_mbfcb id in
    if mbfid (k_mbf k mbfcb) =? 0 then (E_NOEXS, [])
    else td_que (SMBFQ mbfcb) nent (k_s k).

(* src: kernel/tkernel/messagebuf.c 611-636 td_rmbf_que *)
Definition td_rmbf_que (id nent : Z) (k : K) : Z * list Z :=
  if negb (CHK_MBFID id) then (E_ID, [])
  else
    let mbfcb := get_mbfcb id in
    if mbfid (k_mbf k mbfcb) =? 0 then (E_NOEXS, [])
    else td_que (RMBFQ mbfcb) nent (k_s k).

(** ** The ring buffer *)

(** [rnd n] is [n] rounded up to a multiple of the header size. *)
Definition rnd (n : Z) : Z := 4 * ((n + 3) / 4).

Lemma rnd_bounds n : n <= rnd n < n + 4.
Proof. unfold rnd. pose proof (Z.div_mod (n + 3) 4). pose proof (Z.mod_pos_bound (n + 3) 4). lia. Qed.

Lemma rnd_le n c : n <= 4 * c → rnd n <= 4 * c.
Proof. intros. unfold rnd. pose proof (Z.div_mod (n + 3) 4). pose proof (Z.mod_pos_bound (n + 3) 4). lia. Qed.

Lemma rnd_sub n c : rnd (n - 4 * c) = rnd n - 4 * c.
Proof.
  unfold rnd. replace (n - 4 * c + 3) with (n + 3 + (- c) * 4) by lia. rewrite Z.div_add by lia. lia.
Qed.

Lemma ROUNDSZ_rnd n : 0 <= n < 2 ^ 31 → ROUNDSZ n = rnd n.
Proof.
  intros Hn. unfold ROUNDSZ. rewrite (u32_small n), u32_small by lia.
  rewrite land_words by lia. unfold rnd. lia.
Qed.

Lemma mod_plus p i B : 0 < B → (p + i) mod B = (p mod B + i) mod B.
Proof. intros. by rewrite Zplus_mod_idemp_l. Qed.

Lemma mod_inj p i j B : 0 < B → 0 <= i < B → 0 <= j < B → (p + i) mod B = (p + j) mod B → i = j.
Proof.
  intros HB Hi Hj E. pose proof (Z.div_mod (p + i) B ltac:(lia)). pose proof (Z.div_mod (p + j) B ltac:(lia)).
  assert ((p + i) / B = (p + j) / B); nia.
Qed.

(** Copying between a linear area and the ring, in one or two pieces. *)
Definition circ_in (buf B q a n : Z) (m : Z → Z) : Z → Z :=
  if B - q <? n then knl_memcpy (buf + 0) (a + (B - q)) (n - (B - q)) (knl_memcpy (buf + q) a (B - q) m)
  else knl_memcpy (buf + q) a n m.

Definition circ_out (buf B q a n : Z) (m : Z → Z) : Z → Z :=
  if B - q <? n then knl_memcpy (a + (B - q)) (buf + 0) (n - (B - q)) (knl_memcpy a (buf + q) (B - q) m)
  else knl_memcpy a (buf + q) n m.

Definition apart (a n buf B : Z) : Prop := a + n <= buf ∨ buf + B <= a.

Lemma wrap_pos B q i : 0 <= q < B → 0 <= i < B → (q + i) mod B = if q + i <? B then q + i else q + i - B.
Proof.
  intros. destruct (Z.ltb_spec (q + i) B); [by apply Z.mod_small; lia|].
  rewrite <- (Z.mod_add _ (-1)) by lia. rewrite Z.mod_small; lia.
Qed.

Lemma circ_in_spec buf B q a n m :
  0 <= q < B → 0 <= n <= B → apart a n buf B →
  (∀ i, 0 <= i < n → circ_in buf B q a n m (buf + (q + i) mod B) = m (a + i)) ∧
  (∀ x, (∀ i, 0 <= i < n → x ≠ buf + (q + i) mod B) → circ_in buf B q a n m x = m x).
Proof.
  intros Hq Hn Ha. unfold apart in Ha. unfold circ_in. destruct (Z.ltb_spec (B - q) n).
  - split.
    + intros i Hi. rewrite wrap_pos by lia. rewrite memcpy_spec by lia. destruct (Z.ltb_spec (q + i) B).
      * rewrite decide_False by lia. rewrite memcpy_spec by lia. rewrite decide_True by lia. f_equal. lia.
      * rewrite decide_True by lia. rewrite memcpy_spec by lia. rewrite decide_False by lia. f_equal. lia.
    + intros x Hx. rewrite memcpy_spec by lia. rewrite decide_False; [|].
      * rewrite memcpy_spec by lia. rewrite decide_False; [done|]. intros Hr.
        apply (Hx (x - buf - q)); [lia|]. rewrite wrap_pos by lia. destruct (Z.ltb_spec (q + (x - buf - q)) B); lia.
      * intros Hr. apply (Hx (x - buf + (B - q))); [lia|]. rewrite wrap_pos by lia.
        destruct (Z.ltb_spec (q + (x - buf + (B - q))) B); lia.
  - split.
    + intros i Hi. rewrite wrap_pos by lia. destruct (Z.ltb_spec (q + i) B); [|lia]. rewrite memcpy_spec by lia.
      rewrite decide_True by lia. f_equal. lia.
    + intros x Hx. rewrite memcpy_spec by lia. rewrite decide_False; [done|]. intros Hr.
      apply (Hx (x - buf - q)); [lia|]. rewrite wrap_pos by lia. destruct (Z.ltb_spec (q + (x - buf - q)) B); lia.
Qed.

Lemma circ_out_spec buf B q a n m :
  0 <= q < B → 0 <= n <= B → apart a n buf B →
  (∀ i, 0 <= i < n → circ_out buf B q a n m (a + i) = m (buf + (q + i) mod B)) ∧
  (∀ x, ¬ (a <= x < a + n) → circ_out buf B q a n m x = m x).
Proof.
  intros Hq Hn Ha. unfold apart in Ha. unfold circ_out. destruct (Z.ltb_spec (B - q) n).
  - split.
    + intros i Hi. rewrite wrap_pos by lia. rewrite memcpy_spec by lia. destruct (Z.ltb_spec (q + i) B).
      * rewrite decide_False by lia. rewrite memcpy_spec by lia. rewrite decide_True by lia. f_equal. lia.
      * rewrite decide_True by lia. rewrite memcpy_spec by lia. rewrite decide_False by lia. f_equal. lia.
    + intros x Hx. rewrite memcpy_spec by lia. rewrite decide_False by lia. rewrite memcpy_spec by lia.
      by rewrite decide_False by lia.
  - split.
    + intros i Hi. rewrite wrap_pos by lia. destruct (Z.ltb_spec (q + i) B); [|lia]. rewrite memcpy_spec by lia.
      rewrite decide_True by lia. f_equal. lia.
    + intros x Hx. rewrite memcpy_spec by lia. by rewrite decide_False by lia.
Qed.

(** The messages stored in the ring [buf, buf + B) from position [p] on; positions count
    on without wrapping, [p mod B] is the place in the ring. *)
Fixpoint stored (m : Z → Z) (buf B p : Z) (msgs : list (list Z)) : Prop :=
  match msgs with
  | [] => True
  | msg :: msgs' =>
      let n := Z.of_nat (length msg) in
      ld32 m (buf + p mod B) = n ∧
      (∀ i, 0 <= i < n → msg !! Z.to_nat i = Some (m (buf + (p + 4 + i) mod B))) ∧
      stored m buf B (p + 4 + rnd n) msgs'
  end.

Definition msg_room (msg : list Z) : Z := 4 + rnd (Z.of_nat (length msg)).
Definition used_room (msgs : list (list Z)) : Z := foldr (λ msg n, msg_room msg + n) 0 msgs.

Lemma used_room_app l1 l2 : used_room (l1 ++ l2) = used_room l1 + used_room l2.
Proof. induction l1 as [|msg l1 IH]; simpl; [done|]. unfold used_room in *. simpl. lia. Qed.

Lemma used_room_nonneg msgs : 0 <= used_room msgs.
Proof.
  induction msgs as [|msg msgs IH]; simpl; [done|]. unfold used_room, msg_room in *. simpl.
  pose proof (rnd_bounds (Z.of_nat (length msg))). lia.
Qed.

Lemma used_room_mod4 msgs : used_room msgs mod 4 = 0.
Proof.
  induction msgs as [|msg msgs IH]; [done|]. change (used_room (msg :: msgs)) with (msg_room msg + used_room msgs).
  unfold msg_room, rnd. rewrite Z.add_comm, (Z.add_comm 4), <- Z.mul_succ_r, (Z.mul_comm 4), Z.mod_add by lia. done.
Qed.

(** A header lies in one piece. *)
Lemma header_addr p B : 0 < B → p mod 4 = 0 → B mod 4 = 0 → 0 <= p mod B ∧ p mod B + 4 <= B.
Proof.
  intros HB Hp HB4. pose proof (Z.mod_pos_bound p B HB). split; [lia|].
  pose proof (Z.div_mod p B ltac:(lia)). pose proof (Z.div_mod p 4 ltac:(lia)). pose proof (Z.div_mod B 4 ltac:(lia)).
  set (x := p / B) in *. set (y := p / 4) in *. set (z := B / 4) in *.
  assert (p mod B = 4 * (y - z * x)) by lia. assert (p mod B < 4 * z) by lia. lia.
Qed.

Lemma ld32_ext m m' a : (∀ i, 0 <= i < 4 → m' (a + i) = m (a + i)) → ld32 m' a = ld32 m a.
Proof.
  intros E. unfold ld32. rewrite (E 1), (E 2), (E 3) by lia. by rewrite <- (Z.add_0_r a) at 1; rewrite (E 0), Z.add_0_r by lia.
Qed.

(** Messages are kept by writes outside of their room. *)
Lemma stored_frame m m' buf B p msgs :
  0 < B → B mod 4 = 0 → p mod 4 = 0 →
  (∀ j, 0 <= j < used_room msgs → m' (buf + (p + j) mod B) = m (buf + (p + j) mod B)) →
  stored m buf B p msgs → stored m' buf B p msgs.
Proof.
  intros HB HB4. revert p. induction msgs as [|msg msgs IH]; intros p Hp Hf; [done|].
  set (n := Z.of_nat (length msg)). cbn [stored]. fold n. intros (Hh & Hb & Hs).
  change (used_room (msg :: msgs)) with (msg_room msg + used_room msgs) in Hf.
  pose proof (used_room_nonneg msgs). pose proof (rnd_bounds n). unfold msg_room in Hf. fold n in Hf.
  assert (0 <= n) by lia.
  split_and!.
  - rewrite <- Hh. apply ld32_ext. intros i Hi.
    destruct (header_addr p B HB Hp HB4).
    replace (buf + p mod B + i) with (buf + (p + i) mod B); [apply Hf; lia|].
    rewrite mod_plus, Z.mod_small by lia. lia.
  - intros i Hi. rewrite Hb by done. f_equal. symmetry. replace (p + 4 + i) with (p + (4 + i)) by lia. apply Hf. lia.
  - apply IH; [|intros j Hj|done].
    + unfold rnd. replace (p + 4 + 4 * ((n + 3) / 4)) with (p + (1 + (n + 3) / 4) * 4) by lia. by rewrite Z.mod_add.
    + replace (p + 4 + rnd n + j) with (p + (4 + rnd n + j)) by lia. apply Hf. lia.
Qed.

Lemma stored_app m buf B p l1 l2 :
  stored m buf B p (l1 ++ l2) ↔ stored m buf B p l1 ∧ stored m buf B (p + used_room l1) l2.
Proof.
  revert p. induction l1 as [|msg l1 IH]; intros p; simpl; [by rewrite Z.add_0_r; naive_solver|].
  rewrite IH. unfold used_room, msg_room at 2. simpl.
  replace (p + 4 + rnd (Z.of_nat (length msg)) + foldr (λ msg n, msg_room msg + n) 0 l1)
    with (p + (4 + rnd (Z.of_nat (length msg)) + foldr (λ msg n, msg_room msg + n) 0 l1)) by lia.
  unfold msg_room. tauto.
Qed.

(** A message buffer that holds [msgs], the first one at position [p]. *)
Record mbf_holds (k : K) (i p : Z) (msgs : list (list Z)) : Prop := {
  mh_size : 0 < bufsz (k_mbf k i) < 2 ^ 31;
  mh_size4 : bufsz (k_mbf k i) mod 4 = 0;
  mh_pos4 : p mod 4 = 0;
  mh_room : used_room msgs <= bufsz (k_mbf k i);
  mh_len : ∀ msg, msg ∈ msgs → (0 < length msg)%nat;
  mh_free : frbufsz (k_mbf k i) = bufsz (k_mbf k i) - used_room msgs;
  mh_head : mbf_head (k_mbf k i) = p mod bufsz (k_mbf k i);
  mh_tail : mbf_tail (k_mbf k i) = (p + used_room msgs) mod bufsz (k_mbf k i);
  mh_stored : stored (k_mem k) (mbf_buffer (k_mbf k i)) (bufsz (k_mbf k i)) p msgs
}.

Lemma lookup_bytes a n m i : 0 <= i < n → bytes a n m !! Z.to_nat i = Some (m (a + i)).
Proof.
  intros Hi. unfold bytes. rewrite list_lookup_fmap, lookup_seqZ_lt by lia. simpl. do 2 f_equal. lia.
Qed.

(** The place of the bytes that follow a header at [p]. *)
Lemma after_header p B : 0 < B → p mod 4 = 0 → B mod 4 = 0 →
  (if B <=? p mod B + HEADERSZ then 0 else p mod B + HEADERSZ) = (p + 4) mod B.
Proof.
  intros HB Hp HB4. destruct (header_addr p B HB Hp HB4). unfold HEADERSZ.
  destruct (decide (B = 4)) as [->|].
  - assert (p mod 4 + 4 = 4) as -> by lia. replace (p + 4) with (p + 1 * 4) by lia. rewrite Z.mod_add by lia. done.
  - rewrite mod_plus, wrap_pos by (try lia; pose proof (Z.div_mod B 4); lia).
    destruct (Z.leb_spec B (p mod B + 4)), (Z.ltb_spec (p mod B + 4) B); lia.
Qed.

Lemma after_bytes q n B :
  0 <= q < B → 0 <= n → rnd n < B → B mod 4 = 0 → q mod 4 = 0 →
  let x := if B - q <? n then 0 + rnd (n - (B - q)) else q + rnd n in
  (if B <=? x then 0 else x) = (q + rnd n) mod B.
Proof.
  intros Hq Hn Hr HB4 Hq4 x. pose proof (rnd_bounds n).
  pose proof (Z.div_mod B 4 ltac:(lia)). pose proof (Z.div_mod q 4 ltac:(lia)).
  rewrite wrap_pos by lia. unfold x. destruct (Z.ltb_spec (B - q) n).
  - replace (B - q) with (4 * (B / 4 - q / 4)) by lia. rewrite rnd_sub.
    destruct (Z.ltb_spec (q + rnd n) B); [lia|].
    destruct (Z.leb_spec B (0 + (rnd n - 4 * (B / 4 - q / 4)))); lia.
  - assert (rnd n <= 4 * (B / 4 - q / 4)) by (apply rnd_le; lia).
    destruct (Z.leb_spec B (q + rnd n)), (Z.ltb_spec (q + rnd n) B); lia.
Qed.

Lemma msg_to_mbf_eq i msg n k :
  let cb := k_mbf k i in
  let B := bufsz cb in
  let q := if B <=? mbf_tail cb + HEADERSZ then 0 else mbf_tail cb + HEADERSZ in
  let x := if B - q <? n then 0 + ROUNDSZ (n - (B - q)) else q + ROUNDSZ n in
  let k' := knl_msg_to_mbf i msg n k in
  k_mem k' = circ_in (mbf_buffer cb) B q msg n (st32 (mbf_buffer cb + mbf_tail cb) (u32 n) (k_mem k)) ∧
  k_mbf k' i = set_mbf_tail (if B <=? x then 0 else x)
                 (set_frbufsz (s32 (frbufsz cb - s32 (HEADERSZ + ROUNDSZ n))) cb) ∧
  (∀ j, j ≠ i → k_mbf k' j = k_mbf k j) ∧ k' = set_k_mem (k_mem k') (set_k_mbf (k_mbf k') k).
Proof.
  intros cb B q x k'.
  assert (Ek : k' = set_k_mem (k_mem k') (set_k_mbf (k_mbf k') k))
    by (unfold k', knl_msg_to_mbf; cbv zeta; match goal with |- context [?a <? ?b] => destruct (a <? b) end; done).
  split_and!; [..|exact Ek]; clear Ek; unfold k', knl_msg_to_mbf; simpl; upd_simpl; simpl; fold cb; fold B q.
  all: unfold x, circ_in; destruct (B - q <? n); simpl; upd_simpl; simpl; fold cb; try done.
  all: intros j Hj; by upd_simpl.
Qed.

Lemma mbf_to_msg_eq i msg k :
  let cb := k_mbf k i in
  let B := bufsz cb in
  let n := s32 (ld32 (k_mem k) (mbf_buffer cb + mbf_head cb)) in
  let q := if B <=? mbf_head cb + HEADERSZ then 0 else mbf_head cb + HEADERSZ in
  let x := if B - q <? n then 0 + ROUNDSZ (n - (B - q)) else q + ROUNDSZ n in
  let k' := (knl_mbf_to_msg i msg k).2 in
  (knl_mbf_to_msg i msg k).1 = n ∧
  k_mem k' = circ_out (mbf_buffer cb) B q msg n (k_mem k) ∧
  k_mbf k' i = set_mbf_head (if B <=? x then 0 else x)
                 (set_frbufsz (s32 (frbufsz cb + s32 (HEADERSZ + ROUNDSZ n))) cb) ∧
  (∀ j, j ≠ i → k_mbf k' j = k_mbf k j) ∧ k' = set_k_mem (k_mem k') (set_k_mbf (k_mbf k') k).
Proof.
  intros cb B n q x k'.
  assert (Ek : k' = set_k_mem (k_mem k') (set_k_mbf (k_mbf k') k))
    by (unfold k', knl_mbf_to_msg; cbv zeta; match goal with |- context [?a <? ?b] => destruct (a <? b) end; done).
  split_and!; [..|exact Ek]; clear Ek; unfold k', knl_mbf_to_msg; simpl; upd_simpl; simpl; fold cb; fold B q n.
  all: unfold x, circ_out; destruct (B - q <? n); simpl; upd_simpl; simpl; fold cb; try done.
  all: intros j Hj; by upd_simpl.
Qed.

(** A message that fits the check of [knl_mbf_free] fits the ring: the free room is a
    multiple of the header size. *)
Lemma mbf_free_room k i p msgs n :
  mbf_holds k i p msgs → 0 < n < 2 ^ 31 → knl_mbf_free (k_mbf k i) n = true →
  used_room msgs + (4 + rnd n) <= bufsz (k_mbf k i).
Proof.
  intros [] Hn Hf. apply Z.leb_le in Hf. pose proof (used_room_nonneg msgs). pose proof (used_room_mod4 msgs).
  unfold HEADERSZ in Hf. rewrite (u32_small n), u32_small, u32_small in Hf by lia. rewrite mh_free0 in Hf.
  pose proof (Z.div_mod (bufsz (k_mbf k i)) 4 ltac:(lia)). pose proof (Z.div_mod (used_room msgs) 4 ltac:(lia)).
  assert (rnd n <= 4 * (bufsz (k_mbf k i) / 4 - used_room msgs / 4 - 1)); [apply rnd_le; lia|lia].
Qed.

Lemma ring_addr_ne p i j B : 0 < B → 0 <= i < j → j < i + B → (p + i) mod B ≠ (p + j) mod B.
Proof.
  intros HB Hi Hj E. replace (p + j) with (p + i + (j - i)) in E by lia.
  rewrite <- (Z.add_0_r (p + i)) in E at 1. apply mod_inj in E; lia.
Qed.

(** Storing a message appends it. *)
Lemma msg_to_mbf_holds k i p msgs a n :
  let cb := k_mbf k i in
  let k' := knl_msg_to_mbf i a n k in
  mbf_holds k i p msgs → 0 < n < 2 ^ 31 → knl_mbf_free cb n = true → apart a n (mbf_buffer cb) (bufsz cb) →
  mbf_holds k' i p (msgs ++ [bytes a n (k_mem k)]) ∧
  bufsz (k_mbf k' i) = bufsz cb ∧ mbf_buffer (k_mbf k' i) = mbf_buffer cb ∧
  (∀ x, ¬ (mbf_buffer cb <= x < mbf_buffer cb + bufsz cb) → k_mem k' x = k_mem k x).
Proof.
  intros cb k' Hm Hn Hfree Ha. pose proof (mbf_free_room _ _ _ _ _ Hm Hn Hfree) as Hroom. fold cb in Hroom.
  destruct (msg_to_mbf_eq i a n k) as (Emem & Ecb & _ & _). fold cb k' in Emem, Ecb.
  destruct Hm as [HB HB4 Hp Hr Hlen Hfr Hhd Htl Hst]. fold cb in HB, HB4, Hr, Hfr, Hhd, Htl, Hst.
  set (B := bufsz cb) in *. set (buf := mbf_buffer cb) in *. set (u := used_room msgs) in *.
  pose proof (used_room_nonneg msgs) as Hu. fold u in Hu. pose proof (rnd_bounds n) as Hrn.
  assert (Hpu : (p + u) mod 4 = 0) by (rewrite Zplus_mod, Hp; unfold u; by rewrite used_room_mod4).
  destruct (header_addr (p + u) B ltac:(lia) Hpu HB4) as [Hh0 Hh4].
  set (q := if B <=? mbf_tail cb + HEADERSZ then 0 else mbf_tail cb + HEADERSZ) in *.
  assert (Eq : q = (p + u + 4) mod B) by (unfold q; rewrite Htl; apply after_header; lia).
  assert (Hqr : 0 <= q < B) by (rewrite Eq; apply Z.mod_pos_bound; lia).
  assert (Hq4 : q mod 4 = 0).
  { destruct (header_addr (p + u + 4) B ltac:(lia) ltac:(rewrite Zplus_mod, Hpu; done) HB4) as [_ H].
    rewrite Eq. rewrite (Z.mod_eq (p + u + 4) B), (Z.div_mod B 4), HB4 by lia.
    replace (p + u + 4 - (4 * (B / 4) + 0) * ((p + u + 4) / (4 * (B / 4) + 0)))
      with (p + u + (1 - (B / 4) * ((p + u + 4) / (4 * (B / 4) + 0))) * 4) by lia. by rewrite Z.mod_add. }
  destruct (circ_in_spec buf B q a n (st32 (buf + mbf_tail cb) (u32 n) (k_mem k)) Hqr ltac:(lia) Ha) as [Hin Hout].
  assert (Hla : ∀ x, ¬ (buf <= x < buf + B) → st32 (buf + mbf_tail cb) (u32 n) (k_mem k) x = k_mem k x).
  { intros x Hx. unfold st32. rewrite Htl. by repeat rewrite fn_lookup_insert_ne by lia. }
  assert (Hother : ∀ x, ¬ (buf <= x < buf + B) → k_mem k' x = k_mem k x).
  { intros x Hx. rewrite Emem, Hout, Hla; [done|done|]. intros j Hj ->.
    pose proof (Z.mod_pos_bound (q + j) B). lia. }
  assert (Hkeep : ∀ j, 0 <= j < u → k_mem k' (buf + (p + j) mod B) = k_mem k (buf + (p + j) mod B)).
  { intros j Hj. rewrite Emem, Hout.
    - unfold st32. rewrite Htl.
      assert (∀ i, 0 <= i < 4 → buf + (p + u) mod B + i ≠ buf + (p + j) mod B) as Hne.
      { intros i' Hi' E. apply (ring_addr_ne p j (u + i') B ltac:(lia) ltac:(lia) ltac:(lia)).
        rewrite Z.add_assoc, (mod_plus (p + u) i'), (Z.mod_small (_ + i')) by lia. lia. }
      rewrite <- (Z.add_0_r (buf + (p + u) mod B)) at 4.
      by rewrite !fn_lookup_insert_ne by (apply Hne; lia).
    - intros i' Hi' E. apply (ring_addr_ne p j (u + 4 + i') B ltac:(lia) ltac:(lia) ltac:(lia)).
      replace (p + (u + 4 + i')) with (p + u + 4 + i') by lia. rewrite (mod_plus (p + u + 4)), <- Eq by lia. lia. }
  assert (Hlenb : Z.of_nat (length (bytes a n (k_mem k))) = n) by (rewrite length_bytes; lia).
  assert (Hroomb : used_room [bytes a n (k_mem k)] = 4 + rnd n)
    by (unfold used_room, msg_room; simpl; rewrite Hlenb; lia).
  split; [|rewrite Ecb; split_and!; done].
  constructor; rewrite ?Ecb; simpl; fold B buf; rewrite ?used_room_app, ?Hroomb; fold u; try done.
  - intros msg [Hmsg| ->%list_elem_of_singleton]%elem_of_app; [by apply Hlen|]. rewrite length_bytes; lia.
  - unfold HEADERSZ. rewrite ROUNDSZ_rnd, Hfr by lia. rewrite (s32_small (4 + rnd n)), s32_small; lia.
  - rewrite (ROUNDSZ_rnd n) by lia.
    assert (Ex : (if B - q <? n then 0 + ROUNDSZ (n - (B - q)) else q + rnd n) =
                 (if B - q <? n then 0 + rnd (n - (B - q)) else q + rnd n)).
    { destruct (Z.ltb_spec (B - q) n); [rewrite ROUNDSZ_rnd by lia|]; done. }
    rewrite Ex, after_bytes by lia. rewrite Eq, <- mod_plus by lia. f_equal. lia.
  - apply stored_app. fold u. split.
    + apply (stored_frame (k_mem k)); [lia|done|done| |done]. intros j Hj. by apply Hkeep.
    + cbn [stored]. rewrite Hlenb. split_and!; [| |done].
      * rewrite Emem. rewrite (ld32_ext (st32 (buf + mbf_tail cb) (u32 n) (k_mem k))).
        -- rewrite Htl, ld32_st32 by apply u32_range. apply u32_small. lia.
        -- intros j Hj. apply Hout. intros i' Hi' E.
           apply (ring_addr_ne (p + u) j (4 + i') B ltac:(lia) ltac:(lia) ltac:(lia)).
           rewrite Z.add_assoc, (mod_plus (p + u + 4)), <- Eq, (mod_plus (p + u) j), (Z.mod_small (_ + j)) by lia. lia.
      * intros j Hj. rewrite lookup_bytes by done. rewrite Emem.
        rewrite (mod_plus (p + u + 4)), <- Eq by lia. rewrite Hin by done. f_equal. symmetry. apply Hla.
        unfold apart in Ha. lia.
Qed.

(** Taking a message removes the first one. *)
Lemma mbf_to_msg_holds k i p msg msgs a :
  let cb := k_mbf k i in
  let n := Z.of_nat (length msg) in
  let k' := (knl_mbf_to_msg i a k).2 in
  mbf_holds k i p (msg :: msgs) → apart a n (mbf_buffer cb) (bufsz cb) →
  (knl_mbf_to_msg i a k).1 = n ∧ bytes a n (k_mem k') = msg ∧
  mbf_holds k' i (p + msg_room msg) msgs ∧
  (∀ x, ¬ (a <= x < a + n) → k_mem k' x = k_mem k x).
Proof.
  intros cb n k' Hm Ha. destruct (mbf_to_msg_eq i a k) as (En & Emem & Ecb & _ & _). fold cb k' in En, Emem, Ecb.
  destruct Hm as [HB HB4 Hp Hr Hlen Hfr Hhd Htl Hst]. fold cb in HB, HB4, Hr, Hfr, Hhd, Htl, Hst.
  set (B := bufsz cb) in *. set (buf := mbf_buffer cb) in *.
  change (used_room (msg :: msgs)) with (msg_room msg + used_room msgs) in Hr, Hfr, Htl.
  unfold msg_room in *. fold n in Hr, Hfr, Htl |- *.
  pose proof (used_room_nonneg msgs) as Hu. pose proof (rnd_bounds n) as Hrn.
  assert (Hn : 0 < n) by (specialize (Hlen msg ltac:(left)); lia).
  destruct Hst as (Hhdr & Hbytes & Hst). fold n in Hhdr, Hbytes, Hst.
  assert (E : s32 (ld32 (k_mem k) (buf + mbf_head cb)) = n) by (rewrite Hhd, Hhdr; apply s32_small; lia).
  rewrite E in En, Emem, Ecb.
  set (q := if B <=? mbf_head cb + HEADERSZ then 0 else mbf_head cb + HEADERSZ) in *.
  assert (Eq : q = (p + 4) mod B) by (unfold q; rewrite Hhd; apply after_header; lia).
  assert (Hqr : 0 <= q < B) by (rewrite Eq; apply Z.mod_pos_bound; lia).
  assert (Hq4 : q mod 4 = 0).
  { rewrite Eq. rewrite (Z.mod_eq (p + 4) B), (Z.div_mod B 4), HB4 by lia.
    replace (p + 4 - (4 * (B / 4) + 0) * ((p + 4) / (4 * (B / 4) + 0)))
      with (p + (1 - (B / 4) * ((p + 4) / (4 * (B / 4) + 0))) * 4) by lia. by rewrite Z.mod_add. }
  destruct (circ_out_spec buf B q a n (k_mem k) Hqr ltac:(lia) Ha) as [Hin Hout].
  assert (Hpr : (p + 4 + rnd n) mod 4 = 0).
  { unfold rnd. replace (p + 4 + 4 * ((n + 3) / 4)) with (p + (1 + (n + 3) / 4) * 4) by lia. by rewrite Z.mod_add. }
  split_and!; [done| | |].
  - apply list_eq. intros j. destruct (decide (Z.of_nat j < n)) as [Hj|Hj].
    + rewrite <- (Nat2Z.id j). rewrite lookup_bytes, Hbytes by lia. f_equal. rewrite Emem, Hin, Eq, <- mod_plus by lia.
      done.
    + rewrite !lookup_ge_None_2; [done|lia|]. rewrite length_bytes; lia.
  - replace (p + (4 + rnd n)) with (p + 4 + rnd n) by lia.
    constructor; rewrite ?Ecb; simpl; fold B buf; try done.
    + lia.
    + intros m Hm. apply Hlen. by right.
    + unfold HEADERSZ. rewrite ROUNDSZ_rnd, Hfr by lia. rewrite (s32_small (4 + rnd n)), s32_small; lia.
    + rewrite (ROUNDSZ_rnd n) by lia.
      assert (Ex : (if B - q <? n then 0 + ROUNDSZ (n - (B - q)) else q + rnd n) =
                   (if B - q <? n then 0 + rnd (n - (B - q)) else q + rnd n)).
      { destruct (Z.ltb_spec (B - q) n); [rewrite ROUNDSZ_rnd by lia|]; done. }
      rewrite Ex, after_bytes by lia. rewrite Eq, <- mod_plus by lia. done.
    + rewrite Htl. f_equal. lia.
    + apply (stored_frame (k_mem k)); [lia|done|done| |done]. intros j Hj. rewrite Emem. apply Hout.
      pose proof (Z.mod_pos_bound (p + 4 + rnd n + j) B). unfold apart in Ha. lia.
  - intros x Hx. rewrite Emem. by apply Hout.
Qed.

(** C13: The ring buffer of a message buffer is a queue of messages.  Storing a message
    that passes the check of knl_mbf_free appends exactly its bytes behind the messages
    that are there, wherever the ring wraps around and whatever the lengths, and leaves
    memory outside the ring alone; taking a message returns the length and exactly
    the bytes of the oldest one, and leaves the others in order; the free size is
    always the size of the ring less the room of the messages. *)
Theorem message_ring_fifo (k : K) (i p : Z) (msgs : list (list Z)) :
  let cb := k_mbf k i in
  mbf_holds k i p msgs →
  (∀ a n, 0 < n < 2 ^ 31 → knl_mbf_free cb n = true → apart a n (mbf_buffer cb) (bufsz cb) →
     let k' := knl_msg_to_mbf i a n k in
     mbf_holds k' i p (msgs ++ [bytes a n (k_mem k)]) ∧
     ∀ x, ¬ (mbf_buffer cb <= x < mbf_buffer cb + bufsz cb) → k_mem k' x = k_mem k x) ∧
  (∀ a msg msgs', msgs = msg :: msgs' →
     let n := Z.of_nat (length msg) in
     apart a n (mbf_buffer cb) (bufsz cb) →
     let k' := (knl_mbf_to_msg i a k).2 in
     (knl_mbf_to_msg i a k).1 = n ∧ bytes a n (k_mem k') = msg ∧ mbf_holds k' i (p + msg_room msg) msgs').
Proof.
  intros cb Hm. split.
  - intros a n Hn Hf Ha. destruct (msg_to_mbf_holds k i p msgs a n Hm Hn Hf Ha) as (H1 & _ & _ & H2). done.
  - intros a msg msgs' -> n Ha. destruct (mbf_to_msg_holds k i p msg msgs' a Hm Ha) as (H1 & H2 & H3 & _). done.
Qed.

(** Two messages through a ring of 16 bytes that wraps. *)
Lemma message_ring_fifo_witness :
  let k := set_k_mem (λ a, a) (upd_mbf 0 (λ _, mkMBFCB 1 0 0 16 8 16 12 12 1000) (ex_k (ex_sch [] []))) in
  let k1 := knl_msg_to_mbf 0 50 3 k in
  let k2 := (knl_mbf_to_msg 0 70 k1).2 in
  (knl_mbf_to_msg 0 70 k1).1 = 3 ∧ bytes 70 3 (k_mem k2) = [50; 51; 52] ∧ mbf_holds k2 0 20 [].
Proof.
  intros k k1 k2.
  assert (Hm : mbf_holds k 0 12 []) by (constructor; try done; intros msg []%not_elem_of_nil).
  destruct (message_ring_fifo k 0 12 [] Hm) as [H _].
  destruct (H 50 3 ltac:(lia) ltac:(by vm_compute) ltac:(left; by vm_compute)) as [Hm1 _]. simpl app in Hm1.
  change (bytes 50 3 (k_mem k)) with [50; 51; 52] in Hm1.
  destruct (message_ring_fifo k1 0 12 [[50; 51; 52]] Hm1) as [_ H'].
  apply (H' 70 [50; 51; 52] [] eq_refl). left. by vm_compute.
Defined.
