(* ===== verification/MemPoolFix.v ===== *)
(** * Fixed size memory pools: kernel/tkernel/mempfix.h, kernel/tkernel/mempfix.c

    Free blocks that have been used are chained through their first words from
    [freelist]; blocks never used yet lie above [unused].  Every call runs under the
    lock [MPFLOCK i] of its pool: its result is [None] when the task has to wait for
    the lock first. *)
From S2P Require Import Prelude Config Queue Kernel ReadyQueue KInv KCheck Task Timer Wait Mem Klock.

(* src: include/tk/syscall.h 376-385 T_CMPF *)
Record T_CMPF := mkT_CMPF {
  cmpf_exinf : Z; cmpf_mpfatr : Z; cmpf_mpfcnt : Z; cmpf_blfsz : Z; cmpf_bufptr : Z }.

(* src: include/tk/syscall.h 390-394 T_RMPF *)
Record T_RMPF := mkT_RMPF { rmpf_exinf : Z; rmpf_wtsk : Z; rmpf_frbcnt : Z }.

(* src: kernel/tkernel/mempfix.h 50-50 get_mpfcb *)
Definition get_mpfcb (id : Z) : Z := INDEX_MPF id.

(** MINSIZE is the size of a pointer. *)
(* src: kernel/tkernel/mempfix.h 53-54 MINSZ *)
Definition MINSZ (sz : Z) : Z := Z.land (u32 (u32 sz + 3)) (2 ^ 32 - 4).

(* src: kernel/tkernel/mempfix.h 59-62 knl_mempool_end *)
Definition knl_mempool_end (cb : MPFCB) : Z := u32 (mempool cb + mpfsz cb).

(* src: kernel/tkernel/mempfix.c 34-53 knl_fix_memorypool_initialize *)
Definition knl_fix_memorypool_initialize (k : K) : Z * K :=
  if NUM_MPFID <? 1 then (E_SYS, k)
  else
    let k := upd_s (upd_q (QueInit FREE_MPF)) k in
    let k := foldl (λ k i,
      let k := upd_mpf i (set_mpfid 0) k in
      let k := upd_s (knl_InitOBJLOCK (MPFLOCK i)) k in
      upd_s (upd_q (QueInsert (MPFQ i) FREE_MPF)) k) k (seqZ 0 NUM_MPFID) in
    (E_OK, k).

(* src: kernel/tkernel/mempfix.c 62-69 VALID_MPFATR *)
Definition VALID_MPFATR : Z := Z.lor TA_TPRI (Z.lor TA_RNG3 TA_USERBUF).

(** [with_lock loc body]: the body between [knl_LockOBJ] and [knl_UnlockOBJ]. *)
Definition with_lock {A : Type} (loc : node) (body : K → A * K) (k : K) : option A * K :=
  let '(klocked, s) := knl_LockOBJ loc (k_s k) in
  let k := set_k_s s k in
  if klocked then
    let '(a, k) := body k in
    (Some a, upd_s (knl_UnlockOBJ loc) k)
  else (None, k).

(* src: kernel/tkernel/mempfix.c 59-148 tk_cre_mpf *)
Definition tk_cre_mpf `{Allocator} (pk_cmpf : T_CMPF) (k : K) : option Z * K :=
  if RSATR_ERR (cmpf_mpfatr pk_cmpf) VALID_MPFATR then (Some E_RSATR, k)
  else if negb (0 <? cmpf_mpfcnt pk_cmpf) then (Some E_PAR, k)
  else if negb (0 <? cmpf_blfsz pk_cmpf) then (Some E_PAR, k)
  else if in_ddsp (k_s k) then (Some E_CTX, k)
  else
    let blksz := s32 (MINSZ (cmpf_blfsz pk_cmpf)) in
    let poolsz := s32 (blksz * cmpf_mpfcnt pk_cmpf) in
    let userbuf := has (cmpf_mpfatr pk_cmpf) TA_USERBUF in
    if userbuf && negb (blksz =? cmpf_blfsz pk_cmpf) then (Some E_PAR, k)
    else
      let '(pool, k) := if userbuf then (cmpf_bufptr pk_cmpf, k) else Imalloc (u32 poolsz) k in
      if negb userbuf && (pool =? 0) then (Some E_NOMEM, k)
      else
        match QueRemoveNext FREE_MPF (s_q (k_s k)) with
        | (None, q) =>
            let k := upd_s (set_s_q q) k in
            (Some E_LIMIT, if userbuf then k else Ifree pool k)
        | (Some node, q) =>
            let k := upd_s (set_s_q q) k in
            let mpfcb := nd_idx node in
            with_lock (MPFLOCK mpfcb) (λ k,
              let mpfid := ID_MPF mpfcb in
              let k := upd_s (upd_q (QueInit (MPFQ mpfcb))) k in
              let k := upd_mpf mpfcb (λ _, mkMPFCB mpfid (cmpf_exinf pk_cmpf) (cmpf_mpfatr pk_cmpf)
                         (cmpf_mpfcnt pk_cmpf) blksz poolsz (cmpf_mpfcnt pk_cmpf) pool pool 0) k in
              (mpfid, k)) k
        end.

(* src: kernel/tkernel/mempfix.c 154-191 tk_del_mpf *)
Definition tk_del_mpf `{Allocator} (id : Z) (k : K) : option Z * K :=
  if negb (CHK_MPFID id) then (Some E_ID, k)
  else if in_ddsp (k_s k) then (Some E_CTX, k)
  else
    let mpfcb := get_mpfcb id in
    let '(r, k) := with_lock (MPFLOCK mpfcb) (λ k,
      if mpfid (k_mpf k mpfcb) =? 0 then ((E_NOEXS, 0, 0), k)
      else
        let pool := mempool (k_mpf k mpfcb) in
        let memattr := mpfatr (k_mpf k mpfcb) in
        let k := upd_s (knl_wait_delete (MPFQ mpfcb)) k in
        let k := upd_s (upd_q (QueInsert (MPFQ mpfcb) FREE_MPF)) k in
        ((E_OK, pool, memattr), upd_mpf mpfcb (set_mpfid 0) k)) k in
    match r with
    | None => (None, k)
    | Some (ercd, pool, memattr) =>
        (Some ercd, if negb (pool =? 0) && negb (has memattr TA_USERBUF) then Ifree pool k else k)
    end.

(* src: kernel/tkernel/mempfix.c 197-203 knl_mpf_chg_pri *)
Definition knl_mpf_chg_pri (tcb oldpri : Z) (k : K) : K :=
  let mpfcb := get_mpfcb (t_wid (s_tcb (k_s k) tcb)) in
  upd_s (knl_gcb_change_priority (gcb mpfcb (k_mpf k mpfcb)) tcb) k.

(** Taking a block, when there is one. *)
(* src: kernel/tkernel/mempfix.c 236-245 tk_get_mpf *)
Definition mpf_take (mpfcb p_blf : Z) (k : K) : K :=
  let cb := k_mpf k mpfcb in
  let k :=
    if negb (freelist cb =? 0) then
      let free := freelist cb in
      let k := upd_mpf mpfcb (set_freelist (ld32 (k_mem k) free)) k in
      upd_mem (st32 p_blf free) k
    else
      let k := upd_mem (st32 p_blf (unused cb)) k in
      upd_mpf mpfcb (λ cb, set_unused (u32 (unused cb + blfsz cb)) cb) k in
  upd_mpf mpfcb (λ cb, set_frbcnt (frbcnt cb - 1) cb) k.

(** The part of [tk_get_mpf] that runs under the lock. *)
(* src: kernel/tkernel/mempfix.c 227-260 tk_get_mpf *)
Definition get_mpf_body (mpfcb p_blf tmout : Z) (k : K) : Z * K :=
  let cb := k_mpf k mpfcb in
  let c := ctx (k_s k) in
  if mpfid cb =? 0 then (E_NOEXS, k)
  else if frbcnt cb <=? 0 then
    let w := if has (mpfatr cb) TA_TPRI then knl_wspec_mpf_tpri else knl_wspec_mpf_tfifo in
    let k := upd_s (upd_tcb c (set_wait w (WI_mpf p_blf) c)) k in
    let k := upd_s (knl_gcb_make_wait (gcb mpfcb cb) tmout) k in
    (s_ercd (k_s k) c, k)
  else (E_OK, mpf_take mpfcb p_blf k).

(* src: kernel/tkernel/mempfix.c 214-266 tk_get_mpf *)
Definition tk_get_mpf (id p_blf tmout : Z) (k : K) : option Z * K :=
  if negb (CHK_MPFID id) then (Some E_ID, k)
  else if TMOUT_ERR tmout then (Some E_PAR, k)
  else if in_ddsp (k_s k) then (Some E_CTX, k)
  else
    let mpfcb := get_mpfcb id in
    with_lock (MPFLOCK mpfcb) (get_mpf_body mpfcb p_blf tmout) k.

(** The check of the returned address, and the part of [tk_rel_mpf] under the lock. *)
Definition blf_ok (cb : MPFCB) (blf : Z) : bool :=
  negb ((blf <? mempool cb) || (knl_mempool_end cb <=? blf)
        || negb (Z.rem (s32 (blf - mempool cb)) (blfsz cb) =? 0)).

(* src: kernel/tkernel/mempfix.c 284-310 tk_rel_mpf *)
Definition rel_mpf_body (mpfcb blf : Z) (k : K) : Z * K :=
  let cb := k_mpf k mpfcb in
  if mpfid cb =? 0 then (E_NOEXS, k)
  else if negb (blf_ok cb blf) then (E_PAR, k)
  else if negb (isQueEmpty (MPFQ mpfcb) (s_q (k_s k))) then
    let tcb := as_tcb (qnext (s_q (k_s k)) (MPFQ mpfcb)) in
    let k := upd_mem (st32 (wi_mpf (t_winfo (s_tcb (k_s k) tcb))) blf) k in
    (E_OK, upd_s (knl_wait_release_ok tcb) k)
  else
    let k := upd_mem (st32 blf (freelist cb)) k in
    (E_OK, upd_mpf mpfcb (λ cb, set_frbcnt (frbcnt cb + 1) (set_freelist blf cb)) k).

(* src: kernel/tkernel/mempfix.c 271-316 tk_rel_mpf *)
Definition tk_rel_mpf (id blf : Z) (k : K) : option Z * K :=
  if negb (CHK_MPFID id) then (Some E_ID, k)
  else if in_ddsp (k_s k) then (Some E_CTX, k)
  else
    let mpfcb := get_mpfcb id in
    with_lock (MPFLOCK mpfcb) (rel_mpf_body mpfcb blf) k.

(* src: kernel/tkernel/mempfix.c 322-345 tk_ref_mpf *)
Definition tk_ref_mpf (id : Z) (k : K) : option (Z * option T_RMPF) * K :=
  if negb (CHK_MPFID id) then (Some (E_ID, None), k)
  else if in_ddsp (k_s k) then (Some (E_CTX, None), k)
  else
    let mpfcb := get_mpfcb id in
    with_lock (MPFLOCK mpfcb) (λ k,
      let cb := k_mpf k mpfcb in
      if mpfid cb =? 0 then ((E_NOEXS, None), k)
      else ((E_OK, Some (mkT_RMPF (mpf_exinf cb) (knl_wait_tskid (MPFQ mpfcb) (k_s k)) (frbcnt cb))), k)) k.

(* src: kernel/tkernel/mempfix.c 388-407 td_lst_mpf *)
Definition td_lst_mpf (nent : Z) (k : K) : Z * list Z :=
  td_lst (λ i, negb (mpfid (k_mpf k i) =? 0)) ID_MPF NUM_MPFID nent.

(* src: kernel/tkernel/mempfix.c 414-436 td_ref_mpf *)
Definition td_ref_mpf (id : Z) (k : K) : Z * option T_RMPF :=
  if negb (CHK_MPFID id) then (E_ID, None)
  else
    let mpfcb := get_mpfcb id in
    let cb := k_mpf k mpfcb in
    if mpfid cb =? 0 then (E_NOEXS, None)
    else if knl_isLockedOBJ (MPFLOCK mpfcb) (k_s k) then (E_CTX, None)
    else (E_OK, Some (mkT_RMPF (mpf_exinf cb) (knl_wait_tskid (MPFQ mpfcb) (k_s k)) (frbcnt cb))).

(* src: kernel/tkernel/mempfix.c 443-468 td_mpf_que *)
Definition td_mpf_que (id nent : Z) (k : K) : Z * list Z :=
  if negb (CHK_MPFID id) then (E_ID, [])
  else
    let mpfcb := get_mpfcb id in
    if mpfid (k_mpf k mpfcb) =? 0 then (E_NOEXS, [])
    else td_que (MPFQ mpfcb) nent (k_s k).

(** ** The blocks of a pool *)

Definition blk (cb : MPFCB) (j : Z) : Z := mempool cb + j * blfsz cb.
Definition blocks (cb : MPFCB) (from n : Z) : list Z := blk cb <$> seqZ from n.

(** Pool [i]: the blocks [used] are allocated, [fl] are in the free list, and the blocks
    from number [u] on were never handed out. *)
Record mpf_pool (k : K) (i u : Z) (fl used : list Z) : Prop := {
  mp_blfsz : 4 <= blfsz (k_mpf k i);
  mp_size : mpfsz (k_mpf k i) = blfsz (k_mpf k i) * mpfcnt (k_mpf k i) ∧ mpfsz (k_mpf k i) < 2 ^ 31;
  mp_place : 0 < mempool (k_mpf k i) ∧ mempool (k_mpf k i) + mpfsz (k_mpf k i) < 2 ^ 32;
  mp_fresh : 0 <= u <= mpfcnt (k_mpf k i) ∧ unused (k_mpf k i) = blk (k_mpf k i) u;
  mp_list : mlist (k_mem k) (freelist (k_mpf k i)) fl;
  mp_all : used ++ fl ++ blocks (k_mpf k i) u (mpfcnt (k_mpf k i) - u) ≡ₚ blocks (k_mpf k i) 0 (mpfcnt (k_mpf k i));
  mp_count : frbcnt (k_mpf k i) = Z.of_nat (length fl) + (mpfcnt (k_mpf k i) - u)
}.

Lemma blk_inj cb j j' : 0 < blfsz cb → blk cb j = blk cb j' → j = j'.
Proof. unfold blk. nia. Qed.

Lemma NoDup_blocks cb from n : 0 < blfsz cb → NoDup (blocks cb from n).
Proof. intros Hb. unfold blocks. apply NoDup_fmap_2; [|apply NoDup_seqZ]. intros j j'. by apply blk_inj. Qed.

Lemma elem_of_blocks cb from n b : b ∈ blocks cb from n ↔ ∃ j, from <= j < from + n ∧ b = blk cb j.
Proof.
  unfold blocks. rewrite list_elem_of_fmap. split; intros (j & H); exists j; rewrite elem_of_seqZ in *; tauto.
Qed.

(** Different blocks do not overlap in their first words. *)
Lemma blocks_apart cb n b b' :
  4 <= blfsz cb → b ∈ blocks cb 0 n → b' ∈ blocks cb 0 n → b ≠ b' → b + 4 <= b' ∨ b' + 4 <= b.
Proof.
  intros Hb (j & _ & ->)%elem_of_blocks (j' & _ & ->)%elem_of_blocks Hne. unfold blk in *.
  assert (j ≠ j') by congruence. assert (j < j' ∨ j' < j) as [?|?] by lia; nia.
Qed.

Lemma blocks_cons cb u n : 0 < n → blocks cb u n = blk cb u :: blocks cb (u + 1) (n - 1).
Proof. intros. unfold blocks. rewrite seqZ_cons by lia. rewrite fmap_cons. repeat f_equal; lia. Qed.

(** The address check of [tk_rel_mpf] accepts exactly the blocks of the pool. *)
Lemma blf_ok_spec k i u fl used b :
  mpf_pool k i u fl used → 0 <= b < 2 ^ 32 →
  blf_ok (k_mpf k i) b = bool_decide (b ∈ blocks (k_mpf k i) 0 (mpfcnt (k_mpf k i))).
Proof.
  intros [Hb [Hs Hs2] [Hp Hp2] [Hu _] _ _ _] Hr. set (cb := k_mpf k i) in *.
  assert (0 <= mpfsz cb) by nia.
  unfold blf_ok, knl_mempool_end. rewrite u32_small by lia.
  destruct (Z.ltb_spec b (mempool cb)).
  { rewrite bool_decide_eq_false_2; [done|]. intros (j & Hj & ->)%elem_of_blocks. unfold blk in *. nia. }
  destruct (Z.leb_spec (mempool cb + mpfsz cb) b).
  { rewrite bool_decide_eq_false_2; [done|]. intros (j & Hj & ->)%elem_of_blocks. unfold blk in *. nia. }
  rewrite s32_small, Z.rem_mod_nonneg by lia. simpl.
  rewrite negb_involutive. destruct (Z.eqb_spec ((b - mempool cb) mod blfsz cb) 0) as [E|E].
  - rewrite bool_decide_eq_true_2; [done|]. apply elem_of_blocks. exists ((b - mempool cb) / blfsz cb).
    pose proof (Z.div_mod (b - mempool cb) (blfsz cb) ltac:(lia)). unfold blk. split; [|lia].
    split; [apply Z.div_pos; lia|]. nia.
  - rewrite bool_decide_eq_false_2; [done|]. intros (j & Hj & ->)%elem_of_blocks. apply E. unfold blk.
    replace (mempool cb + j * blfsz cb - mempool cb) with (j * blfsz cb) by lia. apply Z.mod_mul. lia.
Qed.

Lemma mpf_pool_ext k k' i u fl used :
  k_mpf k' i = k_mpf k i → k_mem k' = k_mem k → mpf_pool k i u fl used → mpf_pool k' i u fl used.
Proof. intros E1 E2 []. constructor; rewrite ?E1, ?E2; done. Qed.

Lemma mpf_pool_in k i u fl used b : mpf_pool k i u fl used → b ∈ used ∨ b ∈ fl →
  b ∈ blocks (k_mpf k i) 0 (mpfcnt (k_mpf k i)).
Proof. intros Hp Hb. rewrite <- (mp_all _ _ _ _ _ Hp), !elem_of_app. tauto. Qed.

Lemma mpf_pool_range k i u fl used b : mpf_pool k i u fl used →
  b ∈ blocks (k_mpf k i) 0 (mpfcnt (k_mpf k i)) → 0 < b < 2 ^ 32.
Proof.
  intros [Hb [Hs Hs2] [Hp Hp2] [Hu _] _ _ _] (j & Hj & ->)%elem_of_blocks. unfold blk in *. nia.
Qed.

Lemma mpf_take_spec k i u fl used p_blf :
  mpf_pool k i u fl used → 0 < frbcnt (k_mpf k i) →
  Forall (λ x, p_blf + 4 <= x ∨ x + 4 <= p_blf) fl →
  let k' := mpf_take i p_blf k in
  ∃ b u' fl', ld32 (k_mem k') p_blf = b ∧ b ∉ used ∧ mpf_pool k' i u' fl' (b :: used) ∧
    frbcnt (k_mpf k' i) = frbcnt (k_mpf k i) - 1 ∧ k_s k' = k_s k.
Proof.
  intros Hpool Hfr Hap k'. pose proof Hpool as [Hb [Hs Hs2] [Hp Hp2] [Hu Hun] Hl Hall Hcnt].
  set (cb := k_mpf k i) in *.
  assert (Hnd : NoDup (used ++ fl ++ blocks cb u (mpfcnt cb - u))) by (rewrite Hall; apply NoDup_blocks; lia).
  destruct fl as [|b fl].
  - (* a block never used before *)
    simpl in Hl, Hcnt, Hall, Hnd. rewrite blocks_cons in Hall, Hnd by lia.
    assert (E : freelist cb =? 0 = true) by (by rewrite Hl).
    assert (Hin : 0 < blk cb u < 2 ^ 32).
    { apply (mpf_pool_range k i u [] used); [done|]. fold cb. rewrite <- Hall. set_solver. }
    exists (blk cb u), (u + 1), []. unfold k', mpf_take. fold cb. rewrite E. simpl. fold cb. split_and!.
    + rewrite Hun. apply ld32_st32. lia.
    + apply NoDup_app in Hnd as (_ & Hd & _). intros Hi. apply (Hd _ Hi). left.
    + assert (Eu : u32 (unused cb + blfsz cb) = blk cb (u + 1)).
      { rewrite Hun. replace (blk cb u + blfsz cb) with (blk cb (u + 1)) by (unfold blk; lia).
        apply u32_small.
        assert ((u + 1) * blfsz cb <= mpfcnt cb * blfsz cb) by (apply Z.mul_le_mono_nonneg_r; lia).
        unfold blk in *. lia. }
      constructor; simpl; upd_simpl; simpl; fold cb; rewrite ?Eu; try done; [split; [lia|done]| |lia].
      change (blocks _ (u + 1) _) with (blocks cb (u + 1) (mpfcnt cb - (u + 1))). change (blocks _ 0 _) with (blocks cb 0 (mpfcnt cb)).
      rewrite <- Hall. replace (mpfcnt cb - (u + 1)) with (mpfcnt cb - u - 1) by lia. apply Permutation_middle.
    + upd_simpl. simpl. fold cb. done.
    + done.
  - (* the block at the head of the free list *)
    destruct Hl as [Hh Hl]. assert (Hbin : b ∈ blocks cb 0 (mpfcnt cb)) by (apply (mpf_pool_in k i u (b :: fl) used); [done|set_solver]).
    pose proof (mpf_pool_range _ _ _ _ _ b Hpool Hbin) as Hbr.
    apply Forall_cons in Hap as [Hapb Hap].
    assert (E : freelist cb =? 0 = false) by (rewrite Hh; apply Z.eqb_neq; lia).
    exists b, u, fl. unfold k', mpf_take. fold cb. rewrite E. simpl. fold cb. rewrite Hh. split_and!.
    + apply ld32_st32. lia.
    + apply NoDup_app in Hnd as (_ & Hd & _). intros Hi. apply (Hd _ Hi). left.
    + constructor; simpl; upd_simpl; simpl; fold cb; try done.
      * by apply mlist_frame.
      * change (b :: used ++ fl ++ blocks cb u (mpfcnt cb - u) ≡ₚ blocks cb 0 (mpfcnt cb)). rewrite <- Hall. simpl.
        by rewrite Permutation_middle.
      * simpl in Hcnt. lia.
    + upd_simpl. simpl. fold cb. done.
    + done.
Qed.

Lemma mpf_release_spec k i u fl used b used' :
  mpf_pool k i u fl used → used ≡ₚ b :: used' → mpfid (k_mpf k i) ≠ 0 →
  isQueEmpty (MPFQ i) (s_q (k_s k)) = true →
  ∃ k', rel_mpf_body i b k = (E_OK, k') ∧ mpf_pool k' i u (b :: fl) used' ∧
    frbcnt (k_mpf k' i) = frbcnt (k_mpf k i) + 1 ∧ k_s k' = k_s k.
Proof.
  intros Hpool Hus Hid Hq. pose proof Hpool as [Hb [Hs Hs2] [Hp Hp2] [Hu Hun] Hl Hall Hcnt].
  set (cb := k_mpf k i) in *.
  assert (Hbin : b ∈ blocks cb 0 (mpfcnt cb)) by (apply (mpf_pool_in k i u fl used); [done|rewrite Hus; set_solver]).
  pose proof (mpf_pool_range _ _ _ _ _ b Hpool Hbin) as Hbr.
  assert (Hnd : NoDup (used ++ fl ++ blocks cb u (mpfcnt cb - u))) by (rewrite Hall; apply NoDup_blocks; lia).
  assert (Eb : blf_ok cb b = true).
  { pose proof (blf_ok_spec k i u fl used b Hpool ltac:(lia)) as Eb. fold cb in Eb.
    rewrite Eb. by apply bool_decide_eq_true_2. }
  eexists. unfold rel_mpf_body. fold cb. rewrite (proj2 (Z.eqb_neq _ _) Hid), Eb, Hq.
  split_and!; [done| | |done].
  - constructor; simpl; upd_simpl; simpl; fold cb; try done.
    + rewrite ld32_st32.
      * split; [done|]. apply mlist_frame; [|done]. apply Forall_forall. intros x Hx.
        apply (blocks_apart cb (mpfcnt cb)); [done|done| |].
        -- apply (mpf_pool_in k i u fl used); [done|by right].
        -- intros <-. rewrite Hus in Hnd. simpl in Hnd. apply NoDup_cons in Hnd as [Hn _]. apply Hn.
           rewrite !elem_of_app. auto.
      * destruct fl as [|x fl]; [by rewrite Hl|]. destruct Hl as [-> _].
        assert (Hx : x ∈ blocks cb 0 (mpfcnt cb)) by (apply (mpf_pool_in k i u (x :: fl) used); [done|right; left]).
        pose proof (mpf_pool_range k i u (x :: fl) used x Hpool Hx). lia.
    + change (used' ++ b :: fl ++ blocks cb u (mpfcnt cb - u) ≡ₚ blocks cb 0 (mpfcnt cb)).
      rewrite <- Hall, Hus. simpl. by rewrite <- Permutation_middle.
    + lia.
  - simpl. upd_simpl. done.
Qed.

(** ** The calls, under the lock *)

Lemma k_s_upd_s g k : k_s (upd_s g k) = g (k_s k).
Proof. done. Qed.

Section calls.
Context (k : K) (Q : gmap node (list node)) (c id u : Z) (fl used : list Z).
Let i := get_mpfcb id.
Hypothesis Hk : kinv (k_s k) Q.
Hypothesis Hrun : running (k_s k).
Hypothesis Hc : s_ctxtsk (k_s k) = Some c.
Hypothesis Hlf : lock_free (MPFLOCK i) (k_s k) Q.
Hypothesis Hpool : mpf_pool k i u fl used.
Hypothesis Hid : mpfid (k_mpf k i) ≠ 0.

(** The lock is got, and the pool is found as it was. *)
Lemma locked_pool {A : Type} (body : K → A * K) : ∃ sl,
  let kl := set_k_s sl k in
  with_lock (MPFLOCK i) body k = (Some (body kl).1, upd_s (knl_UnlockOBJ (MPFLOCK i)) (body kl).2) ∧
  held c (upd_q (QueInit (MPFLOCK i)) (k_s k)) sl ∧
  kinv (upd_q (QueInit (MPFLOCK i)) (k_s k)) (<[MPFLOCK i := []]> Q) ∧ mpf_pool kl i u fl used ∧
  (∀ l, Q !! MPFQ i = Some l →
     isQueEmpty (MPFQ i) (s_q sl) = bool_decide (l = []) ∧ qnext (s_q sl) (MPFQ i) = hd (MPFQ i) l) ∧
  ∀ t, t_winfo (s_tcb sl t) = t_winfo (s_tcb (k_s k) t).
Proof.
  destruct Hlf as [Hn Hu].
  destruct (lock_held (MPFLOCK i) _ _ c Hk Hc Hu eq_refl Hn) as (sl & E & Hh & Hkl). exists sl. cbv zeta. split_and!.
  - unfold with_lock. rewrite E. by destruct (body (set_k_s sl k)).
  - done.
  - done.
  - by apply (mpf_pool_ext k).
  - intros l HQ. destruct Hh as (f & _ & ->). simpl.
    assert (HQ' : <[MPFLOCK i := []]> Q !! MPFQ i = Some l) by (by rewrite lookup_insert_ne).
    pose proof (ki_qwf _ _ _ _ Hkl) as Hw. split; [exact (qwf_isQueEmpty _ _ _ _ Hw HQ')|exact (qwf_head _ _ _ _ Hw HQ')].
  - intros t. destruct Hh as (f & Hf & ->). simpl. rewrite Hf. by case_decide.
Qed.

(** A free block is taken. *)
Lemma get_block p_blf tmout :
  CHK_MPFID id = true → TMOUT_ERR tmout = false → 0 < frbcnt (k_mpf k i) →
  Forall (λ x, p_blf + 4 <= x ∨ x + 4 <= p_blf) fl →
  ∃ k' b u' fl', tk_get_mpf id p_blf tmout k = (Some E_OK, k') ∧ ld32 (k_mem k') p_blf = b ∧ b ∉ used ∧
    mpf_pool k' i u' fl' (b :: used) ∧ frbcnt (k_mpf k' i) = frbcnt (k_mpf k i) - 1 ∧
    quiet (k_s k) (k_s k') Q ∧ lock_free (MPFLOCK i) (k_s k') Q.
Proof.
  intros Hchk Htm Hfr Hap. destruct (locked_pool (get_mpf_body i p_blf tmout)) as (sl & E & Hh & Hkl & Hp & _).
  destruct (mpf_take_spec _ _ _ _ _ p_blf Hp Hfr Hap) as (b & u' & fl' & Hb & Hn & Hp' & Hf & Es).
  destruct (locked_quiet (MPFLOCK i) _ sl _ c Hk Hc ltac:(apply Hlf) eq_refl Hh Hkl) as [Hq Hl].
  unfold tk_get_mpf. rewrite Hchk, Htm, (proj1 Hrun). cbn [negb]. fold i. rewrite E.
  unfold get_mpf_body. change (k_mpf (set_k_s sl k)) with (k_mpf k). rewrite (proj2 (Z.eqb_neq _ _) Hid).
  destruct (Z.leb_spec (frbcnt (k_mpf k i)) 0); [lia|]. cbn [fst snd].
  eexists _, b, u', fl'. split; [done|]. rewrite k_s_upd_s, Es. split_and!; try done. by eapply mpf_pool_ext; [..|exact Hp'].
Qed.

(** An allocated block is returned: to the free list, or to the first task that waits. *)
Lemma rel_block b used' l :
  CHK_MPFID id = true → used ≡ₚ b :: used' → Q !! MPFQ i = Some l →
  ∃ k', tk_rel_mpf id b k = (Some E_OK, k') ∧
    match l with
    | [] => mpf_pool k' i u (b :: fl) used' ∧ frbcnt (k_mpf k' i) = frbcnt (k_mpf k i) + 1 ∧
        quiet (k_s k) (k_s k') Q ∧ lock_free (MPFLOCK i) (k_s k') Q
    | y :: l' => let p_blf := wi_mpf (t_winfo (s_tcb (k_s k) (as_tcb y))) in
        Forall (λ x, p_blf + 4 <= x ∨ x + 4 <= p_blf) fl →
        ∃ Q', mpf_pool k' i u fl used ∧ ld32 (k_mem k') p_blf = b ∧
          rel_post (MPFQ i) [y] E_OK (k_s k) (k_s k') Q Q' ∧ Q' !! MPFQ i = Some l' ∧
          lock_free (MPFLOCK i) (k_s k') Q' ∧ waiting (s_tcb (k_s k) (as_tcb y)) = true
    end.
Proof.
  intros Hchk Hus HQ. destruct (locked_pool (rel_mpf_body i b)) as (sl & E & Hh & Hkl & Hp & Hw & Hwi).
  destruct (Hw _ HQ) as [He Hn].
  assert (Hbin : b ∈ blocks (k_mpf k i) 0 (mpfcnt (k_mpf k i))) by (apply (mpf_pool_in k i u fl used); [done|rewrite Hus; set_solver]).
  pose proof (mpf_pool_range _ _ _ _ _ b Hpool Hbin) as Hbr.
  unfold tk_rel_mpf. rewrite Hchk, (proj1 Hrun). cbn [negb]. fold i. rewrite E. destruct l as [|y l'].
  - destruct (mpf_release_spec _ i u fl used b used' Hp Hus Hid He) as (k1 & -> & Hp1 & Hf & Es).
    destruct (locked_quiet (MPFLOCK i) _ sl _ c Hk Hc ltac:(apply Hlf) eq_refl Hh Hkl) as [Hq Hl].
    cbn [fst snd]. eexists. split; [done|]. rewrite k_s_upd_s, Es. split_and!; try done. by eapply mpf_pool_ext; [..|exact Hp1].
  - pose proof (blf_ok_spec k i u fl used b Hpool ltac:(lia)) as Eb. rewrite bool_decide_eq_true_2 in Eb by done.
    unfold rel_mpf_body. change (k_mpf (set_k_s sl k)) with (k_mpf k). rewrite (proj2 (Z.eqb_neq _ _) Hid), Eb.
    simpl k_s. rewrite He, bool_decide_eq_false_2 by done. cbn [negb fst snd]. rewrite Hn. cbn [hd].
    eexists. split; [done|]. cbv zeta. intros Hap. rewrite k_s_upd_s.
    set (p_blf := wi_mpf (t_winfo (s_tcb (k_s k) (as_tcb y)))) in *.
    change (k_s (upd_s _ (upd_mem _ (set_k_s sl k)))) with (knl_wait_release_ok_ercd (as_tcb y) E_OK sl).
    change (k_mem (upd_s _ (upd_s _ (upd_mem ?g (set_k_s sl k))))) with (g (k_mem k)). rewrite Hwi. fold p_blf.
    destruct (locked_release (MPFLOCK i) (MPFQ i) [] y l' _ sl Q c E_OK Hk Hrun Hc ltac:(apply Hlf) eq_refl eq_refl HQ Hh Hkl)
      as (Q' & Hr & HQ' & Hl & Hwt).
    exists Q'. split_and!; try done; [|by apply ld32_st32; lia].
    destruct Hpool. constructor; try done. by apply mlist_frame.
Qed.

(** An address that is not the start of a block is refused. *)
Lemma rel_refused b :
  CHK_MPFID id = true → 0 <= b < 2 ^ 32 → b ∉ blocks (k_mpf k i) 0 (mpfcnt (k_mpf k i)) →
  ∃ k', tk_rel_mpf id b k = (Some E_PAR, k') ∧ mpf_pool k' i u fl used ∧ k_mem k' = k_mem k ∧
    quiet (k_s k) (k_s k') Q ∧ lock_free (MPFLOCK i) (k_s k') Q.
Proof.
  intros Hchk Hbr Hb. destruct (locked_pool (rel_mpf_body i b)) as (sl & E & Hh & Hkl & Hp & _).
  destruct (locked_quiet (MPFLOCK i) _ sl _ c Hk Hc ltac:(apply Hlf) eq_refl Hh Hkl) as [Hq Hl].
  unfold tk_rel_mpf. rewrite Hchk, (proj1 Hrun). cbn [negb]. fold i. rewrite E.
  pose proof (blf_ok_spec k i u fl used b Hpool Hbr) as Eb. rewrite bool_decide_eq_false_2 in Eb by done.
  unfold rel_mpf_body. change (k_mpf (set_k_s sl k)) with (k_mpf k). rewrite (proj2 (Z.eqb_neq _ _) Hid), Eb.
  cbn [negb fst snd]. eexists. split; [done|]. split_and!; try done. by apply (mpf_pool_ext k).
Qed.
End calls.

(** C25: The blocks of a fixed-size memory pool.  [mpf_pool k i u fl used] says that every
    block of the pool is allocated ([used]), in the free list ([fl]) or not handed out yet (from number [u]
    on), and exactly one of these.  The calls of a running task, which finds the lock of the pool free,
    keep it so.  tk_get_mpf on a pool with a free block returns E_OK, stores the address
    of a block that was not allocated, and makes it allocated; nobody is released.  tk_rel_mpf of an allocated
    block returns E_OK; when nobody waits the block is free again; otherwise the first task of the
    wait queue, and no other, is released with E_OK and leaves the queue, the address of the block is stored where this task asked
    for it, and the block stays allocated.  An address that is not the start of a block of
    the pool is refused with E_PAR, and nothing changes.  The free count follows; the lock is free again, and
    the scheduler is consistent.  The words in which addresses are stored are taken to be apart
    from the free blocks. *)
Theorem fixed_pool_blocks (k : K) (Q : gmap node (list node)) (c id u : Z) (fl used : list Z) (l : list node) :
  let i := get_mpfcb id in
  let all := blocks (k_mpf k i) 0 (mpfcnt (k_mpf k i)) in
  let apart p := Forall (λ x, p + 4 <= x ∨ x + 4 <= p) fl in
  kinv (k_s k) Q → running (k_s k) → s_ctxtsk (k_s k) = Some c → lock_free (MPFLOCK i) (k_s k) Q →
  mpf_pool k i u fl used → CHK_MPFID id = true → mpfid (k_mpf k i) ≠ 0 → Q !! MPFQ i = Some l →
  (∀ p_blf tmout, TMOUT_ERR tmout = false → 0 < frbcnt (k_mpf k i) → apart p_blf →
     ∃ k' b u' fl', tk_get_mpf id p_blf tmout k = (Some E_OK, k') ∧ ld32 (k_mem k') p_blf = b ∧ b ∉ used ∧
       mpf_pool k' i u' fl' (b :: used) ∧ frbcnt (k_mpf k' i) = frbcnt (k_mpf k i) - 1 ∧
       quiet (k_s k) (k_s k') Q ∧ lock_free (MPFLOCK i) (k_s k') Q) ∧
  (∀ b used', used ≡ₚ b :: used' →
     ∃ k', tk_rel_mpf id b k = (Some E_OK, k') ∧
       match l with
       | [] => mpf_pool k' i u (b :: fl) used' ∧ frbcnt (k_mpf k' i) = frbcnt (k_mpf k i) + 1 ∧
           quiet (k_s k) (k_s k') Q ∧ lock_free (MPFLOCK i) (k_s k') Q
       | y :: l' => let p_blf := wi_mpf (t_winfo (s_tcb (k_s k) (as_tcb y))) in
           apart p_blf →
           ∃ Q', mpf_pool k' i u fl used ∧ ld32 (k_mem k') p_blf = b ∧
             rel_post (MPFQ i) [y] E_OK (k_s k) (k_s k') Q Q' ∧ Q' !! MPFQ i = Some l' ∧
             lock_free (MPFLOCK i) (k_s k') Q' ∧ waiting (s_tcb (k_s k) (as_tcb y)) = true
       end) ∧
  (∀ b, 0 <= b < 2 ^ 32 → b ∉ all →
     ∃ k', tk_rel_mpf id b k = (Some E_PAR, k') ∧ mpf_pool k' i u fl used ∧ k_mem k' = k_mem k ∧
       quiet (k_s k) (k_s k') Q ∧ lock_free (MPFLOCK i) (k_s k') Q).
Proof.
  intros i all apart Hk Hrun Hc Hlf Hpool Hchk Hid HQ. split_and!; intros.
  - by apply (get_block k Q c id u fl used).
  - by apply (rel_block k Q c id u fl used).
  - by apply (rel_refused k Q c id u fl used).
Qed.

(** Task 1 waits for a block of pool 1, whose three blocks are allocated; the one at 1008
    is returned, and task 1 finds its address at 200. *)
Lemma fixed_pool_blocks_witness :
  let objs := [(TIMERQ, [TMEBT 1]); (MPFQ 0, [TSKQ 1])] in
  let tasks := [ex_ready 3; ex_waits 1 5 knl_wspec_mpf_tfifo 1 (WI_mpf 200)] in
  let k := upd_s (upd_q (set_qnext (MPFLOCK 0) NULLQ))
    (upd_mpf 0 (λ _, mkMPFCB 1 0 0 3 8 24 0 1000 1024 0) (ex_k (ex_sch tasks objs))) in
  ∃ k', tk_rel_mpf 1 1008 k = (Some E_OK, k') ∧ ld32 (k_mem k') 200 = 1008 ∧
    t_state (s_tcb (k_s k') 1) = TS_READY ∧ mpf_pool k' 0 3 [] [1000; 1008; 1016].
Proof.
  intros objs tasks k.
  assert (Hu : unplaced (ex_Q tasks objs) (MPFLOCK 0)) by (apply unplaced_b_spec; by vm_compute).
  assert (Hk : kinv (k_s k) (ex_Q tasks objs)) by (apply kinvx_set_next; [apply ex_kinv; by vm_compute|done]).
  assert (Hp : mpf_pool k 0 3 [] [1000; 1008; 1016]).
  { constructor; [by vm_compute|by vm_compute|by vm_compute|by vm_compute|done|done|done]. }
  destruct (fixed_pool_blocks k _ 0 1 3 [] _ [TSKQ 1] Hk ltac:(by vm_compute) eq_refl
    ltac:(constructor; [by vm_compute|exact Hu]) Hp eq_refl ltac:(done) ltac:(by vm_compute)) as (_ & H & _).
  destruct (H 1008 [1000; 1016] ltac:(apply perm_swap)) as (k' & E & H1).
  destruct (H1 ltac:(constructor)) as (Q' & Hp' & Hb & Hr & _).
  exists k'. split; [exact E|]. split; [exact Hb|]. split; [|exact Hp'].
  by rewrite (rp_tcb _ _ _ _ _ _ _ Hr).
Defined.

(** ** Creating a pool *)

(** The block size is rounded up to whole words. *)
Lemma MINSZ_round sz : 0 < sz <= 2 ^ 31 - 4 → MINSZ sz = 4 * ((sz + 3) / 4).
Proof.
  intros Hs. unfold MINSZ. rewrite (u32_small sz), u32_small by lia. apply land_words. lia.
Qed.

Definition cmpf_ok (pk : T_CMPF) : bool :=
  negb (RSATR_ERR (cmpf_mpfatr pk) VALID_MPFATR) && (0 <? cmpf_mpfcnt pk) && (0 <? cmpf_blfsz pk) &&
  negb (has (cmpf_mpfatr pk) TA_USERBUF && negb (MINSZ (cmpf_blfsz pk) =? cmpf_blfsz pk)).

(** Taking the first free block does not touch the link of a node outside the rings. *)
Lemma QueRemove_next_other (m : qmem node) Q (h e : node) l x :
  qwf m Q → Q !! h = Some (e :: l) → unplaced Q x → qnext (QueRemove e m) x = qnext m x.
Proof.
  intros Hw HQ Hu. destruct (qwf_ring _ _ _ _ Hw HQ) as [_ (Hn & Hp & _)].
  unfold QueRemove. case_decide; [done|]. simpl. rewrite Hp. rewrite fn_lookup_insert_ne; [done|].
  intros ->. apply (Hu x). exists (e :: l). by split; [|left].
Qed.

Section create.
Context `{Allocator}.

(** Creating a fixed-size memory pool.  A bad packet is an error and changes nothing.  Otherwise the
    memory comes from the caller (TA_USERBUF) or from the allocator; when the allocator has none the call is
    E_NOMEM; when no control block is left it is E_LIMIT, and memory taken from the allocator is given back.
    With a control block, memory that does not reach the end of the address space, and a size that does not overflow 31 bits,
    the call returns the ID of the first free block of the free list, which is a pool of
    [cmpf_mpfcnt] blocks, each of the requested size rounded up to whole words, none of which
    was handed out ([mpf_pool] with nothing used and an empty free list); nobody waits for it,
    its lock is free, and no task and no other pool is changed. *)
Theorem tk_cre_mpf_spec (k ka : K) (Q : gmap node (list node)) (c : Z) (pk : T_CMPF) (pool : Z) (lf : list node) :
  let n := cmpf_mpfcnt pk in
  let b := 4 * ((cmpf_blfsz pk + 3) / 4) in
  let userbuf := has (cmpf_mpfatr pk) TA_USERBUF in
  running (k_s k) → cmpf_blfsz pk <= 2 ^ 31 - 4 → b * n < 2 ^ 31 →
  (if userbuf then pool = cmpf_bufptr pk ∧ ka = k else Imalloc (b * n) k = (pool, ka)) →
  kinv (k_s ka) Q → s_ctxtsk (k_s ka) = Some c → Q !! FREE_MPF = Some lf →
  if negb (cmpf_ok pk) then ∃ e, tk_cre_mpf pk k = (Some e, k) ∧ (e = E_RSATR ∨ e = E_PAR)
  else if negb userbuf && (pool =? 0) then tk_cre_mpf pk k = (Some E_NOMEM, ka)
  else
    match lf with
    | [] => tk_cre_mpf pk k = (Some E_LIMIT, if userbuf then ka else Ifree pool ka)
    | y :: lf' =>
        let j := nd_idx y in
        lock_free (MPFLOCK j) (k_s ka) Q → 0 < pool → pool + b * n < 2 ^ 32 →
        ∃ k', tk_cre_mpf pk k = (Some (ID_MPF j), k') ∧ CHK_MPFID (ID_MPF j) = true ∧ y = MPFQ j ∧
          mpf_pool k' j 0 [] [] ∧ mpfid (k_mpf k' j) = ID_MPF j ∧ mpfcnt (k_mpf k' j) = n ∧
          blfsz (k_mpf k' j) = b ∧ mempool (k_mpf k' j) = pool ∧ frbcnt (k_mpf k' j) = n ∧
          (∀ j', j' ≠ j → k_mpf k' j' = k_mpf ka j') ∧
          quiet (k_s ka) (k_s k') (<[MPFQ j := []]> (<[FREE_MPF := lf']> Q)) ∧
          lock_free (MPFLOCK j) (k_s k') (<[MPFQ j := []]> (<[FREE_MPF := lf']> Q))
    end.
Proof.
  intros n b userbuf Hrun Hsz Hov Hmem Hk Hc HQ. unfold tk_cre_mpf, cmpf_ok. rewrite (proj1 Hrun).
  destruct (RSATR_ERR _ _); [by exists E_RSATR; auto|]. fold n. destruct (Z.ltb_spec 0 n); [|by exists E_PAR; auto].
  destruct (Z.ltb_spec 0 (cmpf_blfsz pk)); [|by exists E_PAR; auto]. fold userbuf. cbn [negb andb].
  assert (Eb : MINSZ (cmpf_blfsz pk) = b) by (by apply MINSZ_round).
  assert (Hb : cmpf_blfsz pk <= b < cmpf_blfsz pk + 4 ∧ b <= 2 ^ 31 - 4) by (unfold b; pose proof (Z.div_mod (cmpf_blfsz pk + 3) 4);
    pose proof (Z.mod_pos_bound (cmpf_blfsz pk + 3) 4); lia).
  rewrite Eb. rewrite (s32_small b) by lia. rewrite (s32_small (b * n)), (u32_small (b * n)) by nia. cbv zeta.
  destruct (userbuf && negb (b =? cmpf_blfsz pk)); [by exists E_PAR; auto|]. cbn [negb].
  assert (E : (if userbuf then (cmpf_bufptr pk, k) else Imalloc (b * n) k) = (pool, ka)).
  { destruct userbuf; [by destruct Hmem as [-> ->]|done]. }
  rewrite E. destruct (negb userbuf && (pool =? 0)); [done|]. pose proof (ki_qwf _ _ _ _ Hk) as Hw.
  destruct lf as [|y lf'].
  { rewrite (QueRemoveNext_empty _ _ _ Hw HQ). clear. destruct ka as [s0]. by destruct s0, userbuf. }
  rewrite (QueRemoveNext_cons _ _ _ _ _ Hw HQ). intros [Hln Hlu] Hp0 Hp1. set (j := nd_idx y) in *.
  destruct (kinvx_remove _ _ _ _ Hk FREE_MPF [] y lf') as [Hk1 Hu1]; [|done|done|].
  { apply loose_other; intros Ey; pose proof (ki_typed _ _ _ _ Hk _ _ y HQ ltac:(left)) as He; unfold elem_ok, kind_ok in He;
      by rewrite Ey in He. }
  simpl app in Hk1, Hu1. set (Q1 := <[FREE_MPF := lf']> Q) in *.
  assert (He : elem_ok FREE_MPF y = true) by (eapply (ki_typed _ _ _ _ Hk); [exact HQ|left]).
  destruct (free_elem FREE_MPF y eq_refl He) as (_ & _ & _ & _ & _ & Hi).
  assert (Ey : y = MPFQ j) by (unfold elem_ok, kind_ok in He; simpl in He; unfold j; by destruct y as [[] ?]).
  assert (Hl1 : unplaced Q1 (MPFLOCK j)).
  { intros h Hin. unfold Q1 in Hin. rewrite in_ring_insert, elem_of_cons in Hin. destruct Hin as [[_ [?|Hin]]|[_ Hin]]; [done| |by apply (Hlu h)].
    apply (Hlu FREE_MPF). exists (y :: lf'). split; [done|]. by right; right. }
  set (s1 := upd_q (QueRemove y) (k_s ka)) in *.
  assert (Hn1 : qnext (s_q s1) (MPFLOCK j) = NULLQ) by (simpl; by rewrite (QueRemove_next_other _ _ _ _ _ _ Hw HQ Hlu)).
  destruct (lock_held (MPFLOCK j) s1 Q1 c Hk1 Hc Hl1 eq_refl Hn1) as (sl & El & Hh & Hk2).
  unfold with_lock. change (k_s (upd_s (set_s_q (QueRemove y (s_q (k_s ka)))) ka)) with s1. rewrite El.
  assert (Hk3 : kinv (upd_q (QueInit (MPFQ j)) (upd_q (QueInit (MPFLOCK j)) s1)) (<[MPFQ j := []]> (<[MPFLOCK j := []]> Q1))).
  { apply kinvx_QueInit; [done|by apply loose_other|done|]. rewrite <- Ey. intros h Hin.
    rewrite in_ring_insert, elem_of_cons in Hin.
    destruct Hin as [[_ [Ey'|[]%not_elem_of_nil]]|[_ Hin]]; [by rewrite Ey in Ey'|by apply (Hu1 h)]. }
  destruct (unlock_held (MPFLOCK j) _ (upd_q (QueInit (MPFQ j)) sl) _ c Hk3 Hc (held_upd_q _ _ _ _ Hh)) as (K & T & R & N);
    [by rewrite lookup_insert_ne, lookup_insert_eq|done|].
  rewrite delete_insert_ne, delete_insert_id in K by (done || by apply unplaced_lookup).
  eexists. split; [done|]. simpl. upd_simpl. simpl. split_and!; try done.
  - unfold CHK_MPFID, ID_MPF, MIN_MPFID. apply andb_true_intro. rewrite !Z.leb_le. rewrite Ey in Hi. simpl in Hi. lia.
  - constructor; simpl; upd_simpl; simpl; try done.
    + nia.
    + unfold blk. simpl. lia.
    + by rewrite Z.sub_0_r.
    + lia.
  - intros j' Hj. by rewrite fn_lookup_insert_ne.
  - constructor; [done|exact T|]. etrans; [|exact R]. by constructor.
  - constructor; [done|]. intros h Hin. rewrite in_ring_insert, elem_of_cons in Hin.
    destruct Hin as [[_ [?|[]%not_elem_of_nil]]|[_ Hin]]; [congruence|by apply (Hl1 h)].
Qed.
End create.

(** The caller gives the memory at 1000; the block of pool 3 is the first free one. *)
Lemma tk_cre_mpf_spec_witness :
  let H : Allocator := {| Imalloc _ k := (0, k); Ifree _ k := k |} in
  let objs := [(TIMERQ, []); (FREE_MPF, [MPFQ 2; MPFQ 5])] in
  let k := upd_s (upd_q (set_qnext (MPFLOCK 2) NULLQ)) (ex_k (ex_sch [ex_ready 3] objs)) in
  let pk := mkT_CMPF 0 TA_USERBUF 3 8 1000 in
  ∃ k', tk_cre_mpf pk k = (Some 3, k') ∧ mpf_pool k' 2 0 [] [] ∧ frbcnt (k_mpf k' 2) = 3.
Proof.
  intros H objs k pk.
  assert (Hu : unplaced (ex_Q [ex_ready 3] objs) (MPFLOCK 2)) by (apply unplaced_b_spec; by vm_compute).
  assert (Hk : kinv (k_s k) (ex_Q [ex_ready 3] objs)) by (apply kinvx_set_next; [apply ex_kinv; by vm_compute|done]).
  pose proof (tk_cre_mpf_spec k k _ 0 pk 1000 [MPFQ 2; MPFQ 5] ltac:(by vm_compute) ltac:(done) ltac:(done)
    ltac:(done) Hk eq_refl ltac:(by vm_compute)) as Hs.
  destruct (Hs ltac:(constructor; [by vm_compute|exact Hu]) ltac:(done) ltac:(done))
    as (k' & E & _ & _ & Hp & _ & _ & _ & _ & Hf & _).
  by exists k'.
Defined.
