(* ===== verification/Mutex.v ===== *)
(** * Mutexes: kernel/tkernel/mutex.h, kernel/tkernel/mutex.c

    The mutexes a task holds are linked from [t_mtxlist] through [mtxlist].  Changing
    the priority of a task and reordering the mutex queue it waits in call each
    other; the functions that do so take the function that changes a priority as
    [chg], and [knl_change_task_priority] ties the knot. *)
From S2P Require Import Prelude Config Queue Kernel ReadyQueue KInv KCheck Task Timer Wait.
From S2P Require Import TaskSync MemPool Rendezvous Semaphore EventFlag Mailbox MessageBuf MemPoolFix.

(* src: include/tk/syscall.h 220-227 T_CMTX *)
Record T_CMTX := mkT_CMTX { cmtx_exinf : Z; cmtx_mtxatr : Z; cmtx_ceilpri : Z }.

(* src: include/tk/syscall.h 232-236 T_RMTX *)
Record T_RMTX := mkT_RMTX { rmtx_exinf : Z; rmtx_htsk : Z; rmtx_wtsk : Z }.

(* src: kernel/tkernel/mutex.h 43-43 get_mtxcb *)
Definition get_mtxcb (id : Z) : Z := INDEX_MTX id.

(* src: kernel/tkernel/mutex.h 49-49 mtx_waited *)
Definition mtx_waited (i : Z) (s : SCH) : bool := negb (isQueEmpty (MTXQ i) (s_q s)).

(* src: kernel/tkernel/mutex.h 54-54 mtx_head_pri *)
Definition mtx_head_pri (i : Z) (s : SCH) : Z := t_priority (s_tcb s (as_tcb (qnext (s_q s) (MTXQ i)))).

(** A list of held mutexes has at most NUM_MTXID members. *)
Definition MFUEL : nat := S (Z.to_nat NUM_MTXID).

(* src: kernel/tkernel/mutex.c 33-51 knl_mutex_initialize *)
Definition knl_mutex_initialize (k : K) : Z * K :=
  if NUM_MTXID <? 1 then (E_SYS, k)
  else
    let k := upd_s (upd_q (QueInit FREE_MTX)) k in
    let k := foldl (λ k i,
      let k := upd_mtx i (set_mtxid 0) k in
      upd_s (upd_q (QueInsert (MTXQ i) FREE_MTX)) k) k (seqZ 0 NUM_MTXID) in
    (E_OK, k).

(** [mtxatr & TA_CEILING]. *)
Definition mtx_kind (i : Z) (k : K) : Z := Z.land (mtxatr (k_mtx k i)) TA_CEILING.

(** The [switch] on the attribute of a held mutex; [pri] is the value it leaves when
    there is nothing to do. *)
Definition mtx_limit (i pri : Z) (k : K) : Z :=
  if mtx_kind i k =? TA_CEILING then ceilpri (k_mtx k i)
  else if mtx_kind i k =? TA_INHERIT then
    (if mtx_waited i (k_s k) then mtx_head_pri i (k_s k) else pri)
  else pri.

(** [*prev = mtx]: [prev] is the list head in the TCB or the link of a mutex. *)
Definition set_link (tcb : Z) (prev mtx : option Z) (k : K) : K :=
  match prev with
  | None => upd_s (upd_tcb tcb (set_t_mtxlist mtx)) k
  | Some i => upd_mtx i (set_mtxlist mtx) k
  end.

Definition get_link (tcb : Z) (prev : option Z) (k : K) : option Z :=
  match prev with
  | None => t_mtxlist (s_tcb (k_s k) tcb)
  | Some i => mtxlist (k_mtx k i)
  end.

(** The loop of [knl_release_mutex]: unlinks [rel] and computes the new priority. *)
(* src: kernel/tkernel/mutex.c 72-97 knl_release_mutex *)
Fixpoint release_loop (fuel : nat) (tcb : Z) (rel prev : option Z) (newpri pri : Z) (k : K) : Z * K :=
  match fuel with
  | O => (newpri, k)
  | S fuel =>
      match get_link tcb prev k with
      | None => (newpri, k)
      | Some mtxcb =>
          if decide (Some mtxcb = rel) then
            release_loop fuel tcb rel prev newpri pri (set_link tcb prev (mtxlist (k_mtx k mtxcb)) k)
          else
            let pri := mtx_limit mtxcb pri k in
            let newpri := if pri <? newpri then pri else newpri in
            release_loop fuel tcb rel (Some mtxcb) newpri pri k
      end
  end.

Definition release_mutex_with (chg : Z → Z → K → K) (tcb : Z) (relmtxcb : option Z) (k : K) : K :=
  let newpri := t_bpriority (s_tcb (k_s k) tcb) in
  let '(newpri, k) := release_loop MFUEL tcb relmtxcb None newpri newpri k in
  if negb (newpri =? t_priority (s_tcb (k_s k) tcb)) then chg tcb newpri k else k.

(** A mutex somebody waits for has an owner. *)
(* src: kernel/tkernel/mutex.c 306-328 mtx_chg_pri *)
Definition mtx_chg_pri_with (chg : Z → Z → K → K) (tcb oldpri : Z) (k : K) : K :=
  let mtxcb := get_mtxcb (t_wid (s_tcb (k_s k) tcb)) in
  let k := upd_s (knl_gcb_change_priority (gcb mtxcb (k_mtx k mtxcb)) tcb) k in
  if mtx_kind mtxcb k =? TA_INHERIT then
    match mtxtsk (k_mtx k mtxcb) with
    | None => k
    | Some owner =>
        let ownpri := t_priority (s_tcb (k_s k) owner) in
        if t_priority (s_tcb (k_s k) tcb) <? ownpri then chg owner (t_priority (s_tcb (k_s k) tcb)) k
        else if ownpri =? oldpri then release_mutex_with chg owner None k
        else k
    end
  else k.

(** The [chg_pri_hook] of the wait specifications. *)
(* src: kernel/tkernel/mutex.c 351-353 knl_wspec_mtx_inherit *)
Definition chg_pri_hook (chg : Z → Z → K → K) (w : wspec) : option (Z → Z → K → K) :=
  match w with
  | knl_wspec_sem_tpri => Some sem_chg_pri
  | knl_wspec_flg_tpri => Some flg_chg_pri
  | knl_wspec_mbx_tpri => Some mbx_chg_pri
  | knl_wspec_smbf_tpri => Some knl_mbf_chg_pri
  | knl_wspec_cal_tpri => Some cal_chg_pri
  | knl_wspec_mpl_tpri => Some mpl_chg_pri
  | knl_wspec_mpf_tpri => Some knl_mpf_chg_pri
  | knl_wspec_mtx_tpri | knl_wspec_mtx_inherit => Some (mtx_chg_pri_with chg)
  | _ => None
  end.

(** Priorities are passed on along a chain of owners that wait for each other's
    mutexes; [fuel] bounds its length. *)
Fixpoint change_task_priority (fuel : nat) (tcb priority : Z) (k : K) : K :=
  match fuel with
  | O => k
  | S fuel => knl_change_task_priority_with (chg_pri_hook (change_task_priority fuel)) tcb priority k
  end.

Definition PFUEL : nat := S (Z.to_nat (NUM_TSKID * NUM_TSKPRI)).

(* src: kernel/tkernel/task.c 144-169 knl_change_task_priority *)
Definition knl_change_task_priority (tcb priority : Z) (k : K) : K := change_task_priority PFUEL tcb priority k.

(* src: kernel/tkernel/mutex.c 61-103 knl_release_mutex *)
Definition knl_release_mutex (tcb : Z) (relmtxcb : option Z) (k : K) : K :=
  release_mutex_with knl_change_task_priority tcb relmtxcb k.

(* src: kernel/tkernel/mutex.h 59-59 reset_priority *)
Definition reset_priority (tcb : Z) (k : K) : K := knl_release_mutex tcb None k.

Definition mtx_chg_pri (tcb oldpri : Z) (k : K) : K := mtx_chg_pri_with knl_change_task_priority tcb oldpri k.

(** The head of the queue gets the mutex: part of [knl_signal_all_mutex] and of
    [tk_unl_mtx]. *)
(* src: kernel/tkernel/mutex.c 467-488 tk_unl_mtx *)
Definition mtx_hand_over (mtxcb : Z) (k : K) : K :=
  if mtx_waited mtxcb (k_s k) then
    let tcb := as_tcb (qnext (s_q (k_s k)) (MTXQ mtxcb)) in
    let k := upd_s (knl_wait_release_ok tcb) k in
    let k := upd_mtx mtxcb (λ cb, set_mtxlist (t_mtxlist (s_tcb (k_s k) tcb)) (set_mtxtsk (Some tcb) cb)) k in
    let k := upd_s (upd_tcb tcb (set_t_mtxlist (Some mtxcb))) k in
    if mtx_kind mtxcb k =? TA_CEILING then
      if ceilpri (k_mtx k mtxcb) <? t_priority (s_tcb (k_s k) tcb)
      then knl_change_task_priority tcb (ceilpri (k_mtx k mtxcb)) k else k
    else k
  else upd_mtx mtxcb (set_mtxtsk None) k.

(* src: kernel/tkernel/mutex.c 117-144 knl_signal_all_mutex *)
Fixpoint signal_all_loop (fuel : nat) (next_mtxcb : option Z) (k : K) : K :=
  match fuel with
  | O => k
  | S fuel =>
      match next_mtxcb with
      | None => k
      | Some mtxcb =>
          let next_mtxcb := mtxlist (k_mtx k mtxcb) in
          signal_all_loop fuel next_mtxcb (mtx_hand_over mtxcb k)
      end
  end.

(* src: kernel/tkernel/mutex.c 111-145 knl_signal_all_mutex *)
Definition knl_signal_all_mutex (tcb : Z) (k : K) : K :=
  signal_all_loop MFUEL (t_mtxlist (s_tcb (k_s k) tcb)) k.

(** The loop of [knl_chg_pri_mutex] over the held mutexes. *)
(* src: kernel/tkernel/mutex.c 179-199 knl_chg_pri_mutex *)
Fixpoint chg_pri_loop (fuel : nat) (mtx : option Z) (hi_pri low_pri pri : Z) (k : K) : Z * Z :=
  match fuel with
  | O => (hi_pri, low_pri)
  | S fuel =>
      match mtx with
      | None => (hi_pri, low_pri)
      | Some mtxcb =>
          let pri := mtx_limit mtxcb pri k in
          let low_pri :=
            if (mtx_kind mtxcb k =? TA_CEILING) && (low_pri <? pri) then pri else low_pri in
          let hi_pri := if pri <? hi_pri then pri else hi_pri in
          chg_pri_loop fuel (mtxlist (k_mtx k mtxcb)) hi_pri low_pri pri k
      end
  end.

(* src: kernel/tkernel/mutex.c 158-205 knl_chg_pri_mutex *)
Definition knl_chg_pri_mutex (tcb priority : Z) (k : K) : Z :=
  let tc := s_tcb (k_s k) tcb in
  let low_pri := int_priority MIN_TSKPRI in
  let low_pri :=
    if has (t_state tc) TS_WAIT && has (ws_tskwait (t_wspec tc)) TTW_MTX then
      let mtxcb := get_mtxcb (t_wid tc) in
      if (mtx_kind mtxcb k =? TA_CEILING) && (low_pri <? ceilpri (k_mtx k mtxcb))
      then ceilpri (k_mtx k mtxcb) else low_pri
    else low_pri in
  let '(hi_pri, low_pri) := chg_pri_loop MFUEL (t_mtxlist tc) priority low_pri priority k in
  if priority <? low_pri then E_ILUSE else hi_pri.

Definition VALID_MTXATR : Z := TA_CEILING.

(* src: kernel/tkernel/mutex.c 211-262 tk_cre_mtx *)
Definition tk_cre_mtx (pk_cmtx : T_CMTX) (k : K) : Z * K :=
  if RSATR_ERR (cmtx_mtxatr pk_cmtx) VALID_MTXATR then (E_RSATR, k)
  else
    let ceiling := Z.land (cmtx_mtxatr pk_cmtx) TA_CEILING =? TA_CEILING in
    if ceiling && negb (CHK_PRI (cmtx_ceilpri pk_cmtx)) then (E_PAR, k)
    else
      let ceil := if ceiling then int_priority (cmtx_ceilpri pk_cmtx) else 0 in
      match QueRemoveNext FREE_MTX (s_q (k_s k)) with
      | (None, q) => (E_LIMIT, upd_s (set_s_q q) k)
      | (Some node, q) =>
          let k := upd_s (set_s_q q) k in
          let mtxcb := nd_idx node in
          let mtxid := ID_MTX mtxcb in
          let k := upd_s (upd_q (QueInit (MTXQ mtxcb))) k in
          let k := upd_mtx mtxcb (λ _, mkMTXCB mtxid (cmtx_exinf pk_cmtx) (cmtx_mtxatr pk_cmtx)
                     (u8 ceil) None None) k in
          (mtxid, k)
      end.

(* src: kernel/tkernel/mutex.c 268-299 tk_del_mtx *)
Definition tk_del_mtx (id : Z) (k : K) : Z * K :=
  if negb (CHK_MTXID id) then (E_ID, k)
  else
    let mtxcb := get_mtxcb id in
    if mtxid (k_mtx k mtxcb) =? 0 then (E_NOEXS, k)
    else
      let k := match mtxtsk (k_mtx k mtxcb) with
               | Some owner => knl_release_mutex owner (Some mtxcb) k
               | None => k
               end in
      let k := upd_s (knl_wait_delete (MTXQ mtxcb)) k in
      let k := upd_s (upd_q (QueInsert (MTXQ mtxcb) FREE_MTX)) k in
      (E_OK, upd_mtx mtxcb (set_mtxid 0) k).

(* src: kernel/tkernel/mutex.c 333-346 mtx_rel_wai *)
Definition mtx_rel_wai (tcb : Z) (k : K) : K :=
  let mtxcb := get_mtxcb (t_wid (s_tcb (k_s k) tcb)) in
  match mtxtsk (k_mtx k mtxcb) with
  | None => k
  | Some owner =>
      if t_priority (s_tcb (k_s k) owner) =? t_priority (s_tcb (k_s k) tcb)
      then reset_priority owner k else k
  end.

(** The part of [tk_loc_mtx] for a mutex another task holds. *)
(* src: kernel/tkernel/mutex.c 405-430 tk_loc_mtx *)
Definition loc_mtx_wait (mtxcb owner tmout : Z) (k : K) : Z * K :=
  let c := ctx (k_s k) in
  let kind := mtx_kind mtxcb k in
  if tmout =? TMO_POL then (E_TMOUT, k)
  else
    let k :=
      if (kind =? TA_INHERIT) && (t_priority (s_tcb (k_s k) c) <? t_priority (s_tcb (k_s k) owner))
      then knl_change_task_priority owner (t_priority (s_tcb (k_s k) c)) k else k in
    let w := if kind =? TA_TFIFO then knl_wspec_mtx_tfifo
             else if kind =? TA_INHERIT then knl_wspec_mtx_inherit else knl_wspec_mtx_tpri in
    let k := upd_s (λ s, set_s_ercd (<[c := E_TMOUT]> (s_ercd s)) s) k in
    let k := upd_s (upd_tcb c (λ t,
               set_t_wid (mtxid (k_mtx k mtxcb)) (set_t_wercd (Some c) (set_t_wspec w t)))) k in
    let k := upd_s (knl_make_wait tmout (mtxatr (k_mtx k mtxcb))) k in
    let k := upd_s (λ s, if kind =? TA_TFIFO then upd_q (QueInsert (TSKQ (ctx s)) (MTXQ mtxcb)) s
                         else knl_queue_insert_tpri (ctx s) (MTXQ mtxcb) s) k in
    (s_ercd (k_s k) c, k).

(* src: kernel/tkernel/mutex.c 358-437 tk_loc_mtx *)
Definition tk_loc_mtx (id tmout : Z) (k : K) : Z * K :=
  if negb (CHK_MTXID id) then (E_ID, k)
  else if TMOUT_ERR tmout then (E_PAR, k)
  else if in_ddsp (k_s k) then (E_CTX, k)
  else
    let mtxcb := get_mtxcb id in
    let c := ctx (k_s k) in
    if mtxid (k_mtx k mtxcb) =? 0 then (E_NOEXS, k)
    else if bool_decide (mtxtsk (k_mtx k mtxcb) = s_ctxtsk (k_s k)) then (E_ILUSE, k)
    else
      let kind := mtx_kind mtxcb k in
      if (kind =? TA_CEILING) && (t_bpriority (s_tcb (k_s k) c) <? ceilpri (k_mtx k mtxcb)) then (E_ILUSE, k)
      else
        match mtxtsk (k_mtx k mtxcb) with
        | None =>
            let k := upd_mtx mtxcb (λ cb, set_mtxlist (t_mtxlist (s_tcb (k_s k) c)) (set_mtxtsk (Some c) cb)) k in
            let k := upd_s (upd_tcb c (set_t_mtxlist (Some mtxcb))) k in
            let k :=
              if (kind =? TA_CEILING) && (ceilpri (k_mtx k mtxcb) <? t_priority (s_tcb (k_s k) c))
              then knl_change_task_priority c (ceilpri (k_mtx k mtxcb)) k else k in
            (E_OK, k)
        | Some owner => loc_mtx_wait mtxcb owner tmout k
        end.

(* src: kernel/tkernel/mutex.c 442-494 tk_unl_mtx *)
Definition tk_unl_mtx (id : Z) (k : K) : Z * K :=
  if negb (CHK_MTXID id) then (E_ID, k)
  else if in_indp (k_s k) then (E_CTX, k)
  else
    let mtxcb := get_mtxcb id in
    let c := ctx (k_s k) in
    if mtxid (k_mtx k mtxcb) =? 0 then (E_NOEXS, k)
    else if bool_decide (mtxtsk (k_mtx k mtxcb) ≠ s_ctxtsk (k_s k)) then (E_ILUSE, k)
    else
      let k := knl_release_mutex c (Some mtxcb) k in
      (E_OK, mtx_hand_over mtxcb k).

(* src: kernel/tkernel/mutex.c 506-518 tk_ref_mtx *)
Definition ref_mtx (id : Z) (k : K) : Z * option T_RMTX :=
  if negb (CHK_MTXID id) then (E_ID, None)
  else
    let mtxcb := get_mtxcb id in
    let cb := k_mtx k mtxcb in
    if mtxid cb =? 0 then (E_NOEXS, None)
    else (E_OK, Some (mkT_RMTX (mtx_exinf cb)
      (match mtxtsk cb with Some t => t_tskid (s_tcb (k_s k) t) | None => 0 end)
      (knl_wait_tskid (MTXQ mtxcb) (k_s k)))).

(* src: kernel/tkernel/mutex.c 501-522 tk_ref_mtx *)
Definition tk_ref_mtx (id : Z) (k : K) : Z * option T_RMTX := ref_mtx id k.

(* src: kernel/tkernel/mutex.c 565-584 td_lst_mtx *)
Definition td_lst_mtx (nent : Z) (k : K) : Z * list Z :=
  td_lst (λ i, negb (mtxid (k_mtx k i) =? 0)) (λ i, mtxid (k_mtx k i)) NUM_MTXID nent.

(* src: kernel/tkernel/mutex.c 591-612 td_ref_mtx *)
Definition td_ref_mtx (id : Z) (k : K) : Z * option T_RMTX := ref_mtx id k.

(* src: kernel/tkernel/mutex.c 619-644 td_mtx_que *)
Definition td_mtx_que (id nent : Z) (k : K) : Z * list Z :=
  if negb (CHK_MTXID id) then (E_ID, [])
  else
    let mtxcb := get_mtxcb id in
    if mtxid (k_mtx k mtxcb) =? 0 then (E_NOEXS, [])
    else td_que (MTXQ mtxcb) nent (k_s k).

(** ** The mutexes of a task *)

(** [hl] are the mutexes linked from [h]. *)
Fixpoint mtx_chain (k : K) (h : option Z) (hl : list Z) : Prop :=
  match hl with
  | [] => h = None
  | x :: hl' => h = Some x ∧ mtx_chain k (mtxlist (k_mtx k x)) hl'
  end.

(** The priority a held mutex asks for, if it does. *)
Definition mtx_asks (k : K) (i : Z) : option Z :=
  if mtx_kind i k =? TA_CEILING then Some (ceilpri (k_mtx k i))
  else if (mtx_kind i k =? TA_INHERIT) && mtx_waited i (k_s k) then Some (mtx_head_pri i (k_s k))
  else None.

(** The highest of a base priority and what the held mutexes ask for. *)
Definition top_pri (k : K) (base : Z) (hl : list Z) : Z :=
  foldr (λ i p, match mtx_asks k i with Some q => Z.min q p | None => p end) base hl.

Lemma top_pri_min k b c hl : top_pri k (Z.min b c) hl = Z.min b (top_pri k c hl).
Proof. induction hl as [|i hl IH]; simpl; [done|]. rewrite IH. destruct (mtx_asks k i); lia. Qed.

Lemma mtx_limit_asks k i pri : mtx_limit i pri k = match mtx_asks k i with Some q => q | None => pri end.
Proof.
  unfold mtx_limit, mtx_asks. destruct (mtx_kind i k =? TA_CEILING), (mtx_kind i k =? TA_INHERIT); simpl; try done.
  by destruct (mtx_waited i (k_s k)).
Qed.

(** What the limits of the mutexes depend on. *)
Definition same_asks (k k' : K) : Prop := ∀ i, mtx_asks k' i = mtx_asks k i.

Lemma top_pri_same k k' b hl : same_asks k k' → top_pri k' b hl = top_pri k b hl.
Proof. intros E. induction hl as [|i hl IH]; simpl; [done|]. by rewrite E, IH. Qed.

Lemma same_asks_set_link tcb prev v k : same_asks k (set_link tcb prev v k).
Proof.
  intros i. destruct prev as [j|]; simpl.
  - unfold mtx_asks, mtx_kind. simpl. destruct (decide (j = i)) as [<-|]; upd_simpl; done.
  - unfold mtx_asks, mtx_kind, mtx_waited, mtx_head_pri. simpl.
    set (t := as_tcb _). by destruct (decide (tcb = t)) as [<-|]; upd_simpl.
Qed.

Lemma mtx_chain_frame k k' h hl :
  (∀ x, x ∈ hl → mtxlist (k_mtx k' x) = mtxlist (k_mtx k x)) → mtx_chain k h hl → mtx_chain k' h hl.
Proof.
  revert h. induction hl as [|x hl IH]; intros h E; simpl; [done|]. intros [-> Hc].
  split; [done|]. rewrite E by left. apply IH; [|done]. intros. apply E. by right.
Qed.

(** The loop when the mutex to release is not in the part still to be visited. *)
Lemma release_loop_stay fuel tcb rel prev newpri pri k hl :
  mtx_chain k (get_link tcb prev k) hl → (length hl < fuel)%nat → newpri <= pri →
  (∀ r, rel = Some r → r ∉ hl) →
  release_loop fuel tcb rel prev newpri pri k = (top_pri k newpri hl, k).
Proof.
  revert prev newpri pri hl. induction fuel as [|fuel IH]; intros prev newpri pri hl Hc Hf Hp Hr; [lia|].
  destruct hl as [|x hl]; simpl in Hc; cbn [release_loop].
  - by rewrite Hc.
  - destruct Hc as [-> Hc]. rewrite decide_False; [|intros <-; by apply (Hr x eq_refl); left].
    cbv zeta. rewrite mtx_limit_asks. simpl in Hf.
    rewrite (IH (Some x) _ _ hl); [|done|lia| |].
    + simpl. f_equal. destruct (mtx_asks k x) as [q|].
      * rewrite <- (top_pri_min k q). f_equal. destruct (Z.ltb_spec q newpri); lia.
      * destruct (Z.ltb_spec pri newpri); [lia|done].
    + destruct (mtx_asks k x) as [q|]; [destruct (Z.ltb_spec q newpri)|destruct (Z.ltb_spec pri newpri)]; lia.
    + intros r ->. specialize (Hr r eq_refl). set_solver.
Qed.

(** The loop up to the mutex to release. *)
Lemma release_loop_drop fuel tcb r prev newpri pri k h1 h2 :
  mtx_chain k (get_link tcb prev k) (h1 ++ r :: h2) → (length (h1 ++ r :: h2) < fuel)%nat → newpri <= pri →
  r ∉ h1 → r ∉ h2 → (∀ x, prev = Some x → x ≠ r) →
  let link := match last h1 with Some x => Some x | None => prev end in
  let k' := set_link tcb link (mtxlist (k_mtx k r)) k in
  (∀ x, link = Some x → x ∉ h2) →
  release_loop fuel tcb (Some r) prev newpri pri k = (top_pri k newpri (h1 ++ h2), k').
Proof.
  revert prev newpri pri h1. induction fuel as [|fuel IH]; intros prev newpri pri h1 Hc Hf Hp Hr1 Hr2 Hpr link k' Hl; [lia|].
  destruct h1 as [|x h1]; cbn [release_loop].
  - simpl in Hc, Hf. destruct Hc as [-> Hc]. rewrite decide_True by done. cbv zeta. simpl in k'.
    assert (El : get_link tcb prev k' = mtxlist (k_mtx k r)) by (unfold k'; destruct prev; simpl; by upd_simpl).
    change (set_link tcb prev (mtxlist (k_mtx k r)) k) with k'.
    rewrite (release_loop_stay fuel tcb (Some r) prev newpri pri k' h2); [|rewrite El|lia|done|].
    + by rewrite (top_pri_same k k' newpri h2) by apply same_asks_set_link.
    + apply (mtx_chain_frame k); [|done]. intros y Hy. unfold k'. destruct prev as [p|]; simpl; [|done].
      rewrite fn_lookup_insert_ne; [done|]. intros ->. by apply (Hl y).
    + by intros ? [= <-].
  - simpl in Hc, Hf. destruct Hc as [-> Hc]. apply not_elem_of_cons in Hr1 as [Hrx Hr1].
    rewrite decide_False by congruence. cbv zeta. rewrite mtx_limit_asks.
    assert (Elink : link = match last h1 with Some y => Some y | None => Some x end).
    { unfold link. destruct h1 as [|y h1]; [done|]. simpl. by destruct (last (y :: h1)) eqn:E; [|apply last_None in E]. }
    rewrite (IH (Some x) _ _ h1); [|done|lia| |done|done|congruence|by rewrite <- Elink].
    + simpl. unfold k'. rewrite Elink. f_equal. destruct (mtx_asks k x) as [q|].
      * rewrite <- (top_pri_min k q). f_equal. destruct (Z.ltb_spec q newpri); lia.
      * destruct (Z.ltb_spec pri newpri); [lia|done].
    + destruct (mtx_asks k x) as [q|]; [destruct (Z.ltb_spec q newpri)|destruct (Z.ltb_spec pri newpri)]; lia.
Qed.

(** ** The priority of a task that does not wait *)

Definition task_set_pri (t p : Z) (k k' : K) (Q Q' : gmap node (list node)) : Prop :=
  ∃ s', k' = set_k_s s' k ∧ task_post t (set_t_priority p (s_tcb (k_s k) t)) (k_s k) s' Q Q'.

Lemma change_priority_spec t p k Q :
  kinv (k_s k) Q → waiting (s_tcb (k_s k) t) = false → 0 <= p < NUM_TSKPRI →
  ∃ Q', task_set_pri t p k (knl_change_task_priority t p k) Q Q' ∧
    (t_state (s_tcb (k_s k) t) = TS_READY → ∃ l, Q' !! RDYQ p = Some (l ++ [TSKQ t])).
Proof.
  intros Hk Hw Hp. unfold knl_change_task_priority, PFUEL. simpl.
  unfold knl_change_task_priority_with. destruct (Z.eqb_spec (t_state (s_tcb (k_s k) t)) TS_READY) as [E|Hne].
  - destruct (kinv_change_ready_priority t _ Q p Hk E Hp) as (l1 & l2 & l & _ & _ & Hk' & Ht & Hr).
    eexists. split; [exists (change_ready_priority t p (k_s k)); split; [done|]|].
    + constructor; [exact Hk'| |by intros; rewrite Ht|done].
      intros h Hh. rewrite !lookup_insert_ne; [done|by intros <-|by intros <-].
    + intros _. exists l. by rewrite lookup_insert_eq.
  - simpl. upd_simpl. rewrite u8_small by done. unfold waiting in Hw. simpl. rewrite Hw.
    exists Q. split; [|done]. exists (upd_tcb t (set_t_priority p) (k_s k)). split; [done|].
    apply (task_post_upd t (set_t_priority p)); [done| |done|].
    + unfold home. simpl. by destruct (Z.eqb_spec (t_state (s_tcb (k_s k) t)) TS_READY).
    + apply task_ok_priority; [|done]. by apply Hk.
Qed.

(** ** Releasing a mutex *)

Lemma chain_set_link tcb r prev k h1 h2 :
  let k' := set_link tcb (match last h1 with Some x => Some x | None => prev end) (mtxlist (k_mtx k r)) k in
  mtx_chain k (get_link tcb prev k) (h1 ++ r :: h2) → NoDup (h1 ++ r :: h2) →
  (∀ x, prev = Some x → x ∉ h1 ++ r :: h2) → mtx_chain k' (get_link tcb prev k') (h1 ++ h2).
Proof.
  revert prev. induction h1 as [|x h1 IH]; intros prev k' Hc Hnd Hp; simpl in Hc.
  - destruct Hc as [_ Hc]. unfold k'. simpl. assert (El : get_link tcb prev k' = mtxlist (k_mtx k r))
      by (unfold k'; destruct prev; simpl; by upd_simpl).
    unfold k' in El. simpl in El. rewrite El. apply (mtx_chain_frame k); [|done]. intros y Hy.
    destruct prev as [p|]; simpl; [|done]. rewrite fn_lookup_insert_ne; [done|]. intros ->.
    apply (Hp y eq_refl). simpl. by right.
  - destruct Hc as [Hx Hc]. simpl in Hnd. apply NoDup_cons in Hnd as [Hxn Hnd].
    assert (Ek : k' = set_link tcb (match last h1 with Some y => Some y | None => Some x end) (mtxlist (k_mtx k r)) k).
    { unfold k'. destruct h1 as [|y h1]; [done|]. simpl. by destruct (last (y :: h1)) eqn:E; [|apply last_None in E]. }
    specialize (IH (Some x) Hc Hnd ltac:(intros ? [= <-]; done)). cbv zeta in IH. rewrite <- Ek in IH.
    simpl. split; [|done]. rewrite <- Hx, Ek. simpl in Hp. destruct prev as [p|]; simpl.
    + destruct (last h1) as [z|] eqn:El; simpl; rewrite fn_lookup_insert_ne; [done| |done|].
      * intros ->. apply (Hp p eq_refl). right. apply elem_of_app. left. apply last_Some in El as [l0 ->].
        apply elem_of_app. right. left.
      * intros ->. apply (Hp p eq_refl). left.
    + by destruct (last h1).
Qed.

Lemma set_link_frame tcb prev v k :
  let k' := set_link tcb prev v k in
  (∀ t, t ≠ tcb → s_tcb (k_s k') t = s_tcb (k_s k) t) ∧
  (∃ m, s_tcb (k_s k') tcb = set_t_mtxlist m (s_tcb (k_s k) tcb)) ∧
  (∀ i, Some i ≠ prev → k_mtx k' i = k_mtx k i) ∧ (∀ i, ∃ m, k_mtx k' i = set_mtxlist m (k_mtx k i)) ∧
  same_rest (k_s k) (k_s k') ∧ (∀ Q, kinv (k_s k) Q → kinv (k_s k') Q).
Proof.
  assert (Ht : ∀ tc, tc = set_t_mtxlist (t_mtxlist tc) tc) by (by intros []).
  assert (Hm : ∀ cb, cb = set_mtxlist (mtxlist cb) cb) by (by intros []).
  destruct prev as [p|]; simpl.
  - split_and!; [done|eauto| | |done|done]; intros i.
    + intros Hne. rewrite fn_lookup_insert_ne; [done|congruence].
    + destruct (decide (p = i)) as [->|]; upd_simpl; eauto.
  - split_and!; [|upd_simpl; eauto|done|eauto|by constructor|].
    + intros t Hne. by rewrite fn_lookup_insert_ne.
    + intros Q Hk. apply kinv_upd_tcb; [done..|]. intros []. by constructor.
Qed.

(** A mutex whose limit and queue can be read. *)
Definition mtx_wf (k : K) (Q : gmap node (list node)) (i : Z) : Prop :=
  0 <= ceilpri (k_mtx k i) < NUM_TSKPRI ∧ is_Some (Q !! MTXQ i).

Lemma mtx_asks_range k Q i q :
  kinv (k_s k) Q → mtx_wf k Q i → mtx_asks k i = Some q → 0 <= q < NUM_TSKPRI.
Proof.
  intros Hk [Hc [l HQ]]. unfold mtx_asks. case_match; [by intros [= <-]|].
  unfold mtx_waited, mtx_head_pri. rewrite (qwf_isQueEmpty _ _ _ _ (ki_qwf _ _ _ _ Hk) HQ).
  rewrite (qwf_head _ _ _ _ (ki_qwf _ _ _ _ Hk) HQ). destruct l as [|y l]; simpl; [by rewrite andb_false_r|].
  rewrite andb_true_r. case_match; [|done]. intros [= <-].
  destruct (kinv_in_wait_queue _ _ _ _ _ y Hk (eq_refl : wait_head (MTXQ i) = true) HQ ltac:(left)) as (t & -> & Hw & _). simpl.
  pose proof (ki_task _ _ _ _ Hk t ltac:(done)) as Hok. apply (tk_pri _ _ Hok). intros E.
  unfold waiting in Hw. by rewrite E in Hw.
Qed.

(** Task [t] holds the mutexes [hl], the last one locked first. *)
Record holds (k : K) (Q : gmap node (list node)) (t : Z) (hl : list Z) : Prop := {
  ho_chain : mtx_chain k (t_mtxlist (s_tcb (k_s k) t)) hl;
  ho_nodup : NoDup hl;
  ho_range : ∀ i, i ∈ hl → 0 <= i < NUM_MTXID;
  ho_owner : ∀ i, i ∈ hl → mtxtsk (k_mtx k i) = Some t;
  ho_wf : ∀ i, i ∈ hl → mtx_wf k Q i
}.

Lemma top_pri_range k Q b hl :
  kinv (k_s k) Q → (∀ i, i ∈ hl → mtx_wf k Q i) → 0 <= b < NUM_TSKPRI → 0 <= top_pri k b hl < NUM_TSKPRI.
Proof.
  intros Hk Hwf Hb. induction hl as [|i hl IH]; simpl; [done|].
  specialize (IH ltac:(intros; apply Hwf; by right)). destruct (mtx_asks k i) as [q|] eqn:E; [|done].
  pose proof (mtx_asks_range k Q i q Hk (Hwf i ltac:(left)) E). lia.
Qed.

Lemma holds_length k Q t hl : holds k Q t hl → (length hl < MFUEL)%nat.
Proof.
  intros [_ Hnd Hr _ _]. unfold MFUEL.
  enough (length hl ≤ length (seqZ 0 NUM_MTXID))%nat as Hle by (rewrite length_seqZ in Hle; lia).
  apply submseteq_length, NoDup_submseteq; [done|]. intros i Hi. apply elem_of_seqZ. by apply Hr in Hi.
Qed.

Record rel_mtx_post (c : Z) (hl' : list Z) (p : Z) (k k' : K) (Q Q' : gmap node (list node)) : Prop := {
  rm_kinv : kinv (k_s k') Q';
  rm_queues : same_queues Q Q';
  rm_tcb : ∀ t, t ≠ c → s_tcb (k_s k') t = s_tcb (k_s k) t;
  rm_c : ∃ m, s_tcb (k_s k') c = set_t_priority p (set_t_mtxlist m (s_tcb (k_s k) c));
  rm_chain : mtx_chain k' (t_mtxlist (s_tcb (k_s k') c)) hl';
  rm_mtx : ∀ i, i ∉ hl' → k_mtx k' i = k_mtx k i;
  rm_cb : ∀ i, ∃ m, k_mtx k' i = set_mtxlist m (k_mtx k i);
  rm_rest : same_rest (k_s k) (k_s k')
}.


(** The releasing task gets back the highest of its base priority and what the
    mutexes it still holds ask for. *)
Lemma release_mutex_spec c r h1 h2 k Q :
  kinv (k_s k) Q → t_state (s_tcb (k_s k) c) = TS_READY → holds k Q c (h1 ++ r :: h2) →
  ∃ Q', rel_mtx_post c (h1 ++ h2) (top_pri k (t_bpriority (s_tcb (k_s k) c)) (h1 ++ h2))
          k (knl_release_mutex c (Some r) k) Q Q'.
Proof.
  intros Hk Hst Hh. pose proof (holds_length _ _ _ _ Hh) as Hlen. destruct Hh as [Hc Hnd Hr Ho Hwf].
  set (b := t_bpriority (s_tcb (k_s k) c)). set (p := top_pri k b (h1 ++ h2)).
  pose proof (ki_task _ _ _ _ Hk c ltac:(done)) as Hok.
  assert (Hp : 0 <= p < NUM_TSKPRI).
  { apply (top_pri_range k Q); [done| |apply Hok; by rewrite Hst]. intros i Hi. apply Hwf. set_solver. }
  apply NoDup_app in Hnd as Hnd2. destruct Hnd2 as (_ & Hd & [Hr2 _]%NoDup_cons).
  assert (Hr1 : r ∉ h1) by (intros Hi; apply (Hd r Hi); left).
  set (k1 := set_link c (last h1) (mtxlist (k_mtx k r)) k).
  assert (Eloop : release_loop MFUEL c (Some r) None b b k = (p, k1)).
  { rewrite (release_loop_drop MFUEL c r None b b k h1 h2); [|done..|].
    - unfold k1. by destruct (last h1).
    - destruct (last h1) as [x|] eqn:El; [|done]. intros ? [= <-]. apply last_Some in El as [l0 ->].
      intros Hx. apply (Hd x); [apply elem_of_app; right; left|by right]. }
  pose proof (chain_set_link c r None k h1 h2 Hc Hnd ltac:(done)) as Hch. cbv zeta in Hch. simpl in Hch.
  assert (Ek1 : set_link c (match last h1 with Some x => Some x | None => None end) (mtxlist (k_mtx k r)) k = k1)
    by (unfold k1; by destruct (last h1)).
  rewrite Ek1 in Hch. destruct (set_link_frame c (last h1) (mtxlist (k_mtx k r)) k) as (F1 & (m & F2) & F3 & F4 & F5 & F6).
  fold k1 in F1, F2, F3, F4, F5, F6.
  unfold knl_release_mutex, release_mutex_with. fold b. rewrite Eloop.
  assert (Hn : ∀ i, i ∉ h1 ++ h2 → k_mtx k1 i = k_mtx k i).
  { intros i Hi. apply F3. intros E. symmetry in E. apply last_Some in E as [l0 ->]. apply Hi.
    apply elem_of_app. left. apply elem_of_app. right. left. }
  destruct (Z.eqb_spec p (t_priority (s_tcb (k_s k1) c))) as [Ep|Hne]; simpl.
  - exists Q. constructor; [by apply F6|done|done| |done|done|done|done].
    exists m. rewrite Ep, F2. by destruct (s_tcb (k_s k) c).
  - destruct (change_priority_spec c p k1 Q) as (Q' & (s' & Es & [T1 T2 T3 T4]) & _); [by apply F6| |done|].
    { unfold waiting. rewrite F2. simpl. by rewrite Hst. }
    rewrite Es. exists Q'. constructor; simpl; try done.
    + intros t Ht. rewrite T3, fn_lookup_insert_ne by congruence. by apply F1.
    + exists m. by rewrite T3, fn_lookup_insert, F2.
    + rewrite T3, fn_lookup_insert. by apply (mtx_chain_frame k1).
    + by etrans.
Qed.

(** ** Handing a mutex over *)

Definition ceiled (k : K) (r p : Z) : Z :=
  if mtx_kind r k =? TA_CEILING then Z.min (ceilpri (k_mtx k r)) p else p.

Record hand_over_post (r t : Z) (l : list node) (k k' : K) (Q Q' : gmap node (list node)) : Prop := {
  hp_kinv : kinv (k_s k') Q';
  hp_queue : Q' !! MTXQ r = Some l;
  hp_heads : same_heads (MTXQ r) Q Q';
  hp_tcb : ∀ t', t' ≠ t → s_tcb (k_s k') t' = s_tcb (k_s k) t';
  hp_t : s_tcb (k_s k') t =
    let tc := s_tcb (k_s k) t in set_t_priority (ceiled k r (t_priority tc)) (set_t_mtxlist (Some r) (released tc));
  hp_mtx : ∀ i, k_mtx k' i =
    (<[r := set_mtxlist (t_mtxlist (s_tcb (k_s k) t)) (set_mtxtsk (Some t) (k_mtx k r))]> (k_mtx k)) i;
  hp_ercd : s_ercd (k_s k') t = E_OK;
  hp_ctx : same_ctx (k_s k) (k_s k')
}.

Lemma same_queues_heads h Q Q' Q'' : same_heads h Q Q' → same_queues Q' Q'' → same_heads h Q Q''.
Proof. intros H1 H2 h' Ho Hne. destruct (obj_head_kind _ Ho) as [Hr _]. rewrite H2 by done. by apply H1. Qed.

Lemma hand_over_spec r y l k Q :
  kinv (k_s k) Q → Q !! MTXQ r = Some (y :: l) → 0 <= ceilpri (k_mtx k r) < NUM_TSKPRI →
  y = TSKQ (as_tcb y) ∧ waiting (s_tcb (k_s k) (as_tcb y)) = true ∧
  ∃ Q', hand_over_post r (as_tcb y) l k (mtx_hand_over r k) Q Q'.
Proof.
  intros Hk HQ Hcl. destruct (kinv_release_at (MTXQ r) [] l y E_OK _ Q Hk eq_refl HQ) as (Q1 & Ey & Hw & Hr & HQ1 & _).
  set (t := as_tcb y) in *. split; [done|]. split; [done|].
  unfold mtx_hand_over, mtx_waited. rewrite (qwf_isQueEmpty _ _ _ _ (ki_qwf _ _ _ _ Hk) HQ).
  rewrite (qwf_head _ _ _ _ (ki_qwf _ _ _ _ Hk) HQ). cbn [negb bool_decide hd]. simpl bool_decide. cbv iota. fold t.
  pose proof (rp_kinv _ _ _ _ _ _ _ Hr) as Hk1.
  change (knl_wait_release_ok_ercd t E_OK) with (knl_wait_release_ok t) in *.
  set (s1 := knl_wait_release_ok t (k_s k)) in *.
  assert (Et : s_tcb s1 t = released (s_tcb (k_s k) t)).
  { rewrite (rp_tcb _ _ _ _ _ _ _ Hr), decide_True; [done|]. rewrite Ey. left. }
  assert (En : ∀ t', t' ≠ t → s_tcb s1 t' = s_tcb (k_s k) t').
  { intros t' Hne. rewrite (rp_tcb _ _ _ _ _ _ _ Hr), decide_False; [done|]. rewrite Ey.
    intros [[=]|[]%not_elem_of_nil]%elem_of_cons. congruence. }
  assert (Ee : s_ercd s1 t = E_OK).
  { rewrite (rp_ercd _ _ _ _ _ _ _ Hr), decide_True; [done|]. rewrite Ey. left. }
  assert (Em : t_mtxlist (s_tcb s1 t) = t_mtxlist (s_tcb (k_s k) t)) by (by rewrite Et).
  set (k2 := upd_mtx r _ (upd_s _ k)). set (k3 := upd_s _ k2).
  assert (Hk3 : kinv (k_s k3) Q1).
  { apply kinv_upd_tcb; [exact Hk1|done|done|]. intros []. by constructor. }
  assert (E3 : s_tcb (k_s k3) t = set_t_mtxlist (Some r) (released (s_tcb (k_s k) t)))
    by (unfold k3; simpl; upd_simpl; fold s1; by rewrite Et).
  assert (Ekind : mtx_kind r k3 = mtx_kind r k) by (unfold k3, k2, mtx_kind; simpl; by upd_simpl).
  assert (Eceil : ceilpri (k_mtx k3 r) = ceilpri (k_mtx k r)) by (unfold k3, k2; simpl; by upd_simpl).
  assert (Hmtx : ∀ i, k_mtx k3 i =
    (<[r := set_mtxlist (t_mtxlist (s_tcb (k_s k) t)) (set_mtxtsk (Some t) (k_mtx k r))]> (k_mtx k)) i).
  { intros i. unfold k3, k2. simpl. fold s1. by rewrite Em. }
  assert (H3 : ceiled k r (t_priority (s_tcb (k_s k) t)) = t_priority (s_tcb (k_s k) t) →
    hand_over_post r t l k k3 Q Q1).
  { intros Ec. constructor; try done; [apply Hr|..].
    - intros t' Hne. unfold k3. simpl. rewrite fn_lookup_insert_ne by congruence. by apply En.
    - rewrite E3. cbv zeta. rewrite Ec. by destruct (s_tcb (k_s k) t).
    - etrans; [apply Hr|]. by constructor. }
  rewrite Ekind. unfold ceiled in H3. destruct (mtx_kind r k =? TA_CEILING) eqn:Ek; [|by exists Q1; apply H3].
  rewrite Eceil, E3. simpl t_priority. destruct (Z.ltb_spec (ceilpri (k_mtx k r)) (t_priority (s_tcb (k_s k) t)));
    [|exists Q1; apply H3; lia].
  clear H3. destruct (change_priority_spec t (ceilpri (k_mtx k r)) k3 Q1 Hk3) as (Q2 & (s2 & Es & [T1 T2 T3 T4]) & _); [|done|].
  { rewrite E3. unfold waiting, released. simpl. pose proof (ki_task _ _ _ _ Hk t ltac:(done)) as Hok.
    destruct (waiting_states _ _ Hok Hw) as [E|E]; by rewrite E. }
  exists Q2. rewrite Es. constructor; simpl; try done.
  - rewrite T2; [done|done].
  - eapply same_queues_heads; [apply Hr|done].
  - intros t' Hne. rewrite T3, fn_lookup_insert_ne by congruence. unfold k3. simpl.
    rewrite fn_lookup_insert_ne by congruence. by apply En.
  - rewrite T3, fn_lookup_insert, E3. unfold ceiled. rewrite Ek, Z.min_l by lia. done.
  - rewrite (sr_ercd _ _ T4). done.
  - etrans; [apply Hr|]. etrans; [|apply T4]. by constructor.
Qed.

(** A list of held mutexes after steps that change none of their blocks but the links. *)
Lemma holds_frame k k' Q Q' t hl :
  (∀ i, i ∈ hl → k_mtx k' i = k_mtx k i) → (∀ i, i ∈ hl → is_Some (Q' !! MTXQ i)) →
  t_mtxlist (s_tcb (k_s k') t) = t_mtxlist (s_tcb (k_s k) t) → holds k Q t hl → holds k' Q' t hl.
Proof.
  intros E HQ Et [Hc Hnd Hr Ho Hwf]. constructor; [|done|done|..].
  - rewrite Et. apply (mtx_chain_frame k); [|done]. intros i Hi. by rewrite E.
  - intros i Hi. rewrite E by done. by apply Ho.
  - intros i Hi. split; [|by apply HQ]. rewrite E by done. by apply Hwf.
Qed.

Lemma holds_release k k' Q Q' c r h1 h2 p :
  rel_mtx_post c (h1 ++ h2) p k k' Q Q' → holds k Q c (h1 ++ r :: h2) → holds k' Q' c (h1 ++ h2).
Proof.
  intros Hr [Hc Hnd Hrg Ho Hwf].
  assert (Hin : ∀ i, i ∈ h1 ++ h2 → i ∈ h1 ++ r :: h2) by (intros i; rewrite !elem_of_app, elem_of_cons; tauto).
  constructor; [apply Hr|by eapply NoDup_mid|auto|..]; intros i Hi; specialize (Hin i Hi);
    destruct (rm_cb _ _ _ _ _ _ _ Hr i) as [m E]; rewrite ?E.
  - by apply Ho.
  - destruct (Hwf i Hin) as [? ?]. split; [by rewrite E|]. by rewrite (rm_queues _ _ _ _ _ _ _ Hr).
Qed.

(** The new owner holds the mutex in front of those it held: [k1] is the state in which
    it is handed over, [k] the one before its old owner released it. *)
Lemma holds_take k k1 k' Q Q1 Q' r t c h l hl :
  hand_over_post r t l k1 k' Q1 Q' → same_queues Q Q1 → s_tcb (k_s k1) t = s_tcb (k_s k) t → t ≠ c →
  (∀ i, i ∉ h → k_mtx k1 i = k_mtx k i) → (∀ i, i ∈ r :: h → mtxtsk (k_mtx k i) = Some c) →
  0 <= r < NUM_MTXID → 0 <= ceilpri (k_mtx k1 r) < NUM_TSKPRI →
  holds k Q t hl → holds k' Q' t (r :: hl).
Proof.
  intros [P1 P2 P3 P4 P5 P6 P7 P8] Hq1 Et1 Htc M1 Ho Hr Hceil [Gc Gnd Gr Go Gw].
  assert (Hd : ∀ i, i ∈ hl → i ∉ r :: h)
    by (intros i Hi Hi'; pose proof (Go i Hi); pose proof (Ho i Hi'); congruence).
  assert (Hne : ∀ i, i ∈ hl → r ≠ i) by (intros i Hi <-; apply (Hd r Hi); left).
  assert (Ei : ∀ i, i ∈ hl → k_mtx k' i = k_mtx k i).
  { intros i Hi. rewrite P6, fn_lookup_insert_ne by auto. apply M1. intros Hi'. apply (Hd i Hi). by right. }
  constructor.
  - rewrite P5. simpl. split; [done|]. rewrite P6, fn_lookup_insert. simpl. rewrite Et1.
    apply (mtx_chain_frame k); [|done]. intros i Hi. by rewrite Ei.
  - apply NoDup_cons. split; [|done]. intros Hi. by apply (Hne r Hi).
  - intros i [->|Hi]%elem_of_cons; auto.
  - intros i [->|Hi]%elem_of_cons; [by rewrite P6, fn_lookup_insert|rewrite Ei; auto].
  - intros i [->|Hi]%elem_of_cons; (split; [|]).
    + by rewrite P6, fn_lookup_insert.
    + by rewrite P2.
    + rewrite Ei by done. by apply Gw.
    + rewrite P3; [|done|intros [= E]; by apply (Hne i Hi)]. rewrite Hq1 by done. by apply Gw.
Qed.

(** C9: Unlocking a mutex.  The running task no longer holds it and gets the highest of
    its base priority and the priorities the mutexes it still holds ask for (their
    ceilings, or the priorities of the tasks that wait for them).  If nobody waits,
    the mutex is free; otherwise the task at the head of the queue is released with
    E_OK and holds it, in front of the mutexes it held, raised to the ceiling if the
    mutex has one; the other waiting tasks keep their places and no other task
    changes. *)
Theorem tk_unl_mtx_spec (k : K) (Q : gmap node (list node)) (id : Z) (h1 h2 : list Z) (l : list node) :
  let c := ctx (k_s k) in
  let r := get_mtxcb id in
  kinv (k_s k) Q → in_indp (k_s k) = false → s_ctxtsk (k_s k) = Some c → t_state (s_tcb (k_s k) c) = TS_READY →
  CHK_MTXID id = true → mtxid (k_mtx k r) ≠ 0 → holds k Q c (h1 ++ r :: h2) → Q !! MTXQ r = Some l →
  ∃ k' Q', tk_unl_mtx id k = (E_OK, k') ∧ kinv (k_s k') Q' ∧ holds k' Q' c (h1 ++ h2) ∧
    t_priority (s_tcb (k_s k') c) = top_pri k (t_bpriority (s_tcb (k_s k) c)) (h1 ++ h2) ∧
    match l with
    | [] => mtxtsk (k_mtx k' r) = None ∧ ∀ t, t ≠ c → s_tcb (k_s k') t = s_tcb (k_s k) t
    | y :: l' =>
        let t := as_tcb y in
        y = TSKQ t ∧ Q' !! MTXQ r = Some l' ∧ s_ercd (k_s k') t = E_OK ∧
        (∀ hl, holds k Q t hl → holds k' Q' t (r :: hl)) ∧
        (let tc := s_tcb (k_s k) t in
         s_tcb (k_s k') t = set_t_priority (ceiled k r (t_priority tc)) (set_t_mtxlist (Some r) (released tc))) ∧
        ∀ t', t' ≠ c → t' ≠ t → s_tcb (k_s k') t' = s_tcb (k_s k) t'
    end.
Proof.
  intros c r Hk Hindp Hc Hst Hid Hex Hh HQ.
  assert (Hr : r ∈ h1 ++ r :: h2) by (apply elem_of_app; right; left).
  pose proof (ho_owner _ _ _ _ Hh r Hr) as Hown. destruct (ho_wf _ _ _ _ Hh r Hr) as [Hceil _].
  pose proof (ho_range _ _ _ _ Hh r Hr) as Hrg.
  assert (Hnr : r ∉ h1 ++ h2) by (eapply NoDup_mid; apply Hh).
  destruct (release_mutex_spec c r h1 h2 k Q Hk Hst Hh) as (Q1 & HR).
  unfold tk_unl_mtx. rewrite Hid, Hindp. fold r c. cbn [negb].
  destruct (Z.eqb_spec (mtxid (k_mtx k r)) 0) as [|_]; [done|].
  rewrite bool_decide_eq_false_2 by (intros Hne; apply Hne; congruence).
  pose proof (holds_release _ _ _ _ _ _ _ _ _ HR Hh) as Hh1.
  set (k1 := knl_release_mutex c (Some r) k) in *. destruct HR as [K1 Hq1 T1 [m Tc1] _ M1 CB1 R1].
  pose proof (M1 r Hnr) as Er. rewrite <- (Hq1 (MTXQ r) ltac:(done)) in HQ.
  destruct l as [|y l'].
  - eexists _, Q1. split; [done|]. unfold mtx_hand_over, mtx_waited.
    rewrite (qwf_isQueEmpty _ _ _ _ (ki_qwf _ _ _ _ K1) HQ). simpl. split; [done|]. split.
    { eapply (holds_frame k1); [|by intros i Hi; apply Hh1|done|done]. intros i Hi. simpl.
      rewrite fn_lookup_insert_ne; [done|congruence]. }
    rewrite Tc1. split; [done|]. by upd_simpl.
  - destruct (hand_over_spec r y l' k1 Q1 K1 HQ) as (Ey & Hw & Q2 & HP); [by rewrite Er|].
    set (t := as_tcb y) in *. pose proof HP as HP'.
    assert (Htc : t ≠ c). { intros E. rewrite E, Tc1 in Hw. unfold waiting in Hw. simpl in Hw. by rewrite Hst in Hw. }
    assert (Et1 : s_tcb (k_s k1) t = s_tcb (k_s k) t) by (by apply T1).
    destruct HP as [P1 P2 P3 P4 P5 P6 P7 P8]. eexists _, Q2. split; [done|]. split; [done|]. split; [|split].
    + eapply (holds_frame k1); [| |by rewrite P4|done]; intros i Hi.
      * rewrite P6, fn_lookup_insert_ne; [done|congruence].
      * rewrite P3; [by apply Hh1|done|congruence].
    + rewrite P4, Tc1 by congruence. done.
    + split_and!; [done|done|done| |unfold ceiled, mtx_kind in *; by rewrite P5, Et1, Er|].
      * intros hl. apply (holds_take k k1 _ Q Q1 _ r t c (h1 ++ h2) l'); try done; [|by rewrite Er].
        intros i Hi. apply (ho_owner _ _ _ _ Hh). by rewrite <- Permutation_middle.
      * intros t' H1 H2. rewrite P4 by done. by apply T1.
Qed.

(** ** The limits of a base priority *)

(** The lowest priority the ceilings of the mutexes [hl] (and [low]) allow. *)
Definition low_bound (k : K) (low : Z) (hl : list Z) : Z :=
  foldr (λ i p, if mtx_kind i k =? TA_CEILING then Z.max (ceilpri (k_mtx k i)) p else p) low hl.

(** The priority [p] is above the ceiling of one of the mutexes. *)
Definition exceeds (k : K) (p : Z) (hl : list Z) : bool :=
  existsb (λ i, (mtx_kind i k =? TA_CEILING) && (p <? ceilpri (k_mtx k i))) hl.

Lemma low_bound_exceeds k low p hl : low <= p → (p <? low_bound k low hl) = exceeds k p hl.
Proof.
  intros Hp. induction hl as [|i hl IH]; simpl; [by destruct (Z.ltb_spec p low); [lia|]|]. rewrite <- IH.
  destruct (mtx_kind i k =? TA_CEILING); [|done]. simpl. unfold low_bound. set (b := foldr _ _ _).
  destruct (Z.ltb_spec p (Z.max (ceilpri (k_mtx k i)) b)), (Z.ltb_spec p (ceilpri (k_mtx k i))), (Z.ltb_spec p b);
    try done; lia.
Qed.

Lemma low_bound_max k a low hl : low_bound k (Z.max a low) hl = Z.max a (low_bound k low hl).
Proof. induction hl as [|i hl IH]; simpl; [done|]. rewrite IH. destruct (_ =? _); lia. Qed.

Lemma chg_pri_loop_spec fuel mtx hi low pri k hl :
  mtx_chain k mtx hl → (length hl < fuel)%nat → hi <= pri →
  chg_pri_loop fuel mtx hi low pri k = (top_pri k hi hl, low_bound k low hl).
Proof.
  revert mtx hi low pri hl. induction fuel as [|fuel IH]; intros mtx hi low pri hl Hc Hf Hp; [lia|].
  destruct hl as [|x hl]; simpl in Hc; cbn [chg_pri_loop]; [by rewrite Hc|]. destruct Hc as [-> Hc]. simpl in Hf.
  cbv zeta. rewrite mtx_limit_asks. set (pri' := match mtx_asks k x with Some q => q | None => pri end).
  assert (Hhi : (if pri' <? hi then pri' else hi) = match mtx_asks k x with Some q => Z.min q hi | None => hi end).
  { unfold pri'. destruct (mtx_asks k x) as [q|]; [destruct (Z.ltb_spec q hi)|destruct (Z.ltb_spec pri hi)]; lia. }
  assert (Hlow : (if (mtx_kind x k =? TA_CEILING) && (low <? pri') then pri' else low) =
    if mtx_kind x k =? TA_CEILING then Z.max (ceilpri (k_mtx k x)) low else low).
  { unfold pri', mtx_asks. destruct (mtx_kind x k =? TA_CEILING); [|done]. simpl.
    destruct (Z.ltb_spec low (ceilpri (k_mtx k x))); lia. }
  rewrite Hhi, Hlow, (IH _ _ _ _ hl Hc); [|lia|rewrite <- Hhi; destruct (Z.ltb_spec pri' hi); lia].
  simpl. f_equal.
  - destruct (mtx_asks k x) as [q|]; [by rewrite top_pri_min|done].
  - destruct (mtx_kind x k =? TA_CEILING); [by rewrite low_bound_max|done].
Qed.

(** The priority a task gets when its base priority becomes [p], unless [p] is above a
    ceiling. *)
Lemma chg_pri_mutex_spec t p k Q hl :
  holds k Q t hl → waiting (s_tcb (k_s k) t) = false → 0 <= p →
  knl_chg_pri_mutex t p k = if exceeds k p hl then E_ILUSE else top_pri k p hl.
Proof.
  intros Hh Hw Hp. unfold knl_chg_pri_mutex. unfold waiting in Hw. rewrite Hw. simpl andb. cbv iota zeta.
  rewrite (chg_pri_loop_spec _ _ _ _ _ _ hl); [|apply Hh|by eapply holds_length|lia].
  rewrite low_bound_exceeds; [done|]. unfold int_priority, MIN_TSKPRI. lia.
Qed.

(** ** Locking *)

(** The ceiling of a mutex forbids it to the tasks of a higher base priority. *)
Definition too_high (k : K) (r c : Z) : bool :=
  (mtx_kind r k =? TA_CEILING) && (t_bpriority (s_tcb (k_s k) c) <? ceilpri (k_mtx k r)).

Definition mtx_wspec (kind : Z) : wspec :=
  if kind =? TA_TFIFO then knl_wspec_mtx_tfifo
  else if kind =? TA_INHERIT then knl_wspec_mtx_inherit else knl_wspec_mtx_tpri.

(** Priority inheritance: the owner [o] runs at least at the priority of task [c]. *)
Definition inherited (k : K) (r o c : Z) : Z :=
  let p := t_priority (s_tcb (k_s k) o) in
  if mtx_kind r k =? TA_INHERIT then Z.min (t_priority (s_tcb (k_s k) c)) p else p.

(** Waiting task [c] raises the priority of the owner. *)
Definition raises (r o c : Z) (k : K) : bool :=
  (mtx_kind r k =? TA_INHERIT) && (t_priority (s_tcb (k_s k) c) <? t_priority (s_tcb (k_s k) o)).

Lemma inherited_keeps r o c k : raises r o c k = false → inherited k r o c = t_priority (s_tcb (k_s k) o).
Proof. unfold raises, inherited. destruct (_ =? TA_INHERIT); [|done]. simpl. intros ?%Z.ltb_ge. lia. Qed.

Lemma inherit_spec r o c k Q :
  kinv (k_s k) Q → (raises r o c k = true → waiting (s_tcb (k_s k) o) = false) → t_state (s_tcb (k_s k) c) = TS_READY →
  let k' := if (mtx_kind r k =? TA_INHERIT) && (t_priority (s_tcb (k_s k) c) <? t_priority (s_tcb (k_s k) o))
            then knl_change_task_priority o (t_priority (s_tcb (k_s k) c)) k else k in
  ∃ Q', task_set_pri o (inherited k r o c) k k' Q Q'.
Proof.
  intros Hk Hw Hst k'.
  assert (Hstay : task_set_pri o (t_priority (s_tcb (k_s k) o)) k k Q Q).
  { exists (k_s k). split; [by destruct k|]. constructor; [done..| |done]. intros t. upd_case o t; [|done].
    by destruct (s_tcb (k_s k) t). }
  unfold k', inherited. unfold raises in Hw. destruct (_ =? TA_INHERIT); [|by exists Q]. simpl in Hw |- *.
  destruct (Z.ltb_spec (t_priority (s_tcb (k_s k) c)) (t_priority (s_tcb (k_s k) o))).
  - rewrite Z.min_l by lia. pose proof (ki_task _ _ _ _ Hk c ltac:(done)) as Hok.
    destruct (change_priority_spec o (t_priority (s_tcb (k_s k) c)) k Q Hk (Hw eq_refl)) as (Q' & Hp & _); [|by exists Q'].
    apply (tk_pri _ _ Hok). by rewrite Hst.
  - rewrite Z.min_r by lia. by exists Q.
Qed.

(** What waiting for a mutex did. *)
Record loc_wait_post (r o c : Z) (l : list node) (k k' : K) (Q Q' : gmap node (list node)) : Prop := {
  lw_kinv : kinv (k_s k') Q';
  lw_queue : Q' !! MTXQ r = Some (queued_at (negb (mtx_kind r k =? TA_TFIFO)) (k_s k) c l);
  lw_heads : same_heads (MTXQ r) Q Q';
  lw_c : t_state (s_tcb (k_s k') c) = TS_WAIT ∧ t_priority (s_tcb (k_s k') c) = t_priority (s_tcb (k_s k) c) ∧
         t_wspec (s_tcb (k_s k') c) = mtx_wspec (mtx_kind r k);
  lw_o : s_tcb (k_s k') o = set_t_priority (inherited k r o c) (s_tcb (k_s k) o);
  lw_tcb : ∀ t, t ≠ c → t ≠ o → s_tcb (k_s k') t = s_tcb (k_s k) t;
  lw_mtx : k_mtx k' = k_mtx k;
  lw_ctx : same_ctx (k_s k) (k_s k')
}.

Lemma loc_mtx_wait_spec k Q r o tmout l :
  let c := ctx (k_s k) in
  kinv (k_s k) Q → t_state (s_tcb (k_s k) c) = TS_READY →
  (raises r o c k = true → waiting (s_tcb (k_s k) o) = false) → o ≠ c →
  get_mtxcb (mtxid (k_mtx k r)) = r → Q !! MTXQ r = Some l → tmout ≠ TMO_POL →
  ∃ k' Q', loc_mtx_wait r o tmout k = (E_TMOUT, k') ∧ loc_wait_post r o c l k k' Q Q'.
Proof.
  intros c Hk Hst Hw Hoc Hid HQ Htm. destruct (inherit_spec r o c k Q Hk Hw Hst) as (Q1 & s1 & Es & [T1 T2 T3 T4]).
  unfold loc_mtx_wait. fold c. destruct (Z.eqb_spec tmout TMO_POL) as [|_]; [done|]. cbv zeta. rewrite Es.
  fold (mtx_wspec (mtx_kind r k)). set (w := mtx_wspec (mtx_kind r k)).
  assert (Ec1 : ctx s1 = c) by (unfold ctx; by rewrite (sc_ctxtsk _ _ (sr_ctx _ _ T4))).
  assert (Etc : s_tcb s1 c = s_tcb (k_s k) c) by (by rewrite T3, fn_lookup_insert_ne).
  change (k_mtx _ r) with (k_mtx k r). set (kind := mtx_kind r k) in *. simpl k_s.
  match goal with |- context [upd_tcb c ?f ?s] => set (f1 := f); set (s2 := upd_tcb c f1 s) end.
  assert (E2 : s_tcb s2 c = f1 (s_tcb (k_s k) c)) by (unfold s2; simpl; upd_simpl; by rewrite Etc).
  assert (Hk2 : kinv s2 Q1).
  { apply kinv_upd_tcb; simpl; [by eapply kinvx_ext; [..|exact T1]| |done|].
    - unfold home. simpl. by rewrite Etc, Hst.
    - intros []. by constructor. }
  assert (HQ1 : Q1 !! MTXQ r = Some l) by (by rewrite T2).
  destruct (kinv_wait_enqueue (negb (kind =? TA_TFIFO)) (MTXQ r) tmout (mtxatr (k_mtx k r)) s2 Q1 l Hk2)
    as (Q3 & Hk3 & HQ3 & Hh3 & Ht3 & Hs3 & Ec3); change (ctx s2) with (ctx s1); rewrite ?Ec1, ?E2; try done.
  { unfold f1, w, mtx_wspec. simpl. unfold get_mtxcb in Hid. rewrite <- Hid at 2. by repeat case_match. }
  change (ctx s2) with (ctx s1) in *. rewrite Ec1 in *. rewrite E2 in Ht3.
  set (s3 := if negb (kind =? TA_TFIFO) then _ else _) in Hk3, Ht3, Hs3.
  match goal with |- context [(s_ercd ?x c, ?kk)] => set (k' := kk); change (s_ercd x c) with (s_ercd (k_s k') c); assert (Ek' : k_s k' = s3) end.
  { unfold k'. simpl. fold s2. rewrite Ec3. unfold s3. by destruct (kind =? TA_TFIFO). }
  exists k', Q3. split.
  { f_equal. rewrite Ek', (sv_ercd _ _ Hs3). simpl. by upd_simpl. }
  constructor; rewrite ?Ek'; [done| | | | | |done|].
  - rewrite HQ3. f_equal. apply queued_at_ext; [|by eapply (kinv_queue_nodes (k_s k) Q (MTXQ r))]. intros t Ht.
    destruct (decide (t = c)) as [->|]; [by rewrite E2|].
    destruct (decide (t = o)) as [->|Hto].
    { destruct Ht as [|Ht]; [done|]. destruct (kinv_in_wait_queue _ _ _ (MTXQ r) _ _ Hk eq_refl HQ Ht) as (t & [= <-] & Hwo & _).
      unfold s2. simpl. rewrite fn_lookup_insert_ne, T3, fn_lookup_insert by congruence. simpl.
      apply inherited_keeps. destruct (raises r o c k); [|done]. by rewrite Hw in Hwo. }
    unfold s2. simpl. by rewrite fn_lookup_insert_ne, T3, fn_lookup_insert_ne by congruence.
  - intros h Ho Hne. destruct (obj_head_kind _ Ho) as [Hr _]. rewrite Hh3 by done. by apply T2.
  - by rewrite Ht3, fn_lookup_insert.
  - rewrite Ht3, fn_lookup_insert_ne by congruence. unfold s2. simpl.
    by rewrite fn_lookup_insert_ne, T3, fn_lookup_insert by congruence.
  - intros t H1 H2. rewrite Ht3, fn_lookup_insert_ne by congruence. unfold s2. simpl.
    by rewrite fn_lookup_insert_ne, T3, fn_lookup_insert_ne by congruence.
  - etrans; [apply T4|]. etrans; [|apply Hs3]. by constructor.
Qed.

(** The running task takes a mutex nobody holds. *)
Lemma loc_mtx_take k Q r c hl :
  let k1 := upd_mtx r (λ cb, set_mtxlist (t_mtxlist (s_tcb (k_s k) c)) (set_mtxtsk (Some c) cb)) k in
  let k2 := upd_s (upd_tcb c (set_t_mtxlist (Some r))) k1 in
  kinv (k_s k) Q → holds k Q c hl → mtxtsk (k_mtx k r) = None → 0 <= r < NUM_MTXID → mtx_wf k Q r →
  kinv (k_s k2) Q ∧ holds k2 Q c (r :: hl).
Proof.
  intros k1 k2 Hk [Hc Hnd Hr Ho Hwf] Hn Hrr Hwr.
  assert (Hne : ∀ i, i ∈ hl → r ≠ i) by (intros i Hi <-; rewrite Ho in Hn by done; done).
  assert (Ei : ∀ i, i ∈ hl → k_mtx k2 i = k_mtx k i).
  { intros i Hi. unfold k2, k1. simpl. by rewrite fn_lookup_insert_ne by auto. }
  split.
  { apply kinv_upd_tcb; [done..|]. intros []. by constructor. }
  constructor.
  - unfold k2. simpl. upd_simpl. simpl. split; [done|]. apply (mtx_chain_frame k); [|done].
    intros i Hi. change (mtxlist (k_mtx k2 i) = mtxlist (k_mtx k i)). by rewrite Ei.
  - apply NoDup_cons. split; [|done]. intros Hi. by apply (Hne r Hi).
  - intros i [->|Hi]%elem_of_cons; auto.
  - intros i [->|Hi]%elem_of_cons; [unfold k2, k1; simpl; by upd_simpl|rewrite Ei; auto].
  - intros i [->|Hi]%elem_of_cons; (split; [|]).
    + unfold k2, k1. simpl. upd_simpl. apply Hwr.
    + apply Hwr.
    + rewrite Ei by done. by apply Hwf.
    + by apply Hwf.
Qed.

(** C10: Locking a mutex.  Locking a mutex one holds, or one whose ceiling is below one's
    base priority, is E_ILUSE.  A free mutex is taken: the running task holds it, in
    front of those it held, and runs at least at its ceiling.  A mutex another task
    holds is E_TMOUT for a poll; any other time-out puts the running task in the
    queue of the mutex (in priority order unless the mutex is TA_TFIFO), and with
    TA_INHERIT the owner then has at least its priority.  Left out is one case: an owner of a
    TA_INHERIT mutex that is of lower priority than the running task and itself waits. *)
Theorem tk_loc_mtx_spec (k : K) (Q : gmap node (list node)) (id tmout : Z) (l : list node) (hl : list Z) :
  let c := ctx (k_s k) in
  let r := get_mtxcb id in
  kinv (k_s k) Q → running (k_s k) → s_ctxtsk (k_s k) = Some c → CHK_MTXID id = true → TMOUT_ERR tmout = false →
  mtxid (k_mtx k r) = id → holds k Q c hl → 0 <= ceilpri (k_mtx k r) < NUM_TSKPRI → Q !! MTXQ r = Some l →
  match mtxtsk (k_mtx k r) with
  | None =>
      if too_high k r c then tk_loc_mtx id tmout k = (E_ILUSE, k)
      else ∃ k' Q', tk_loc_mtx id tmout k = (E_OK, k') ∧ kinv (k_s k') Q' ∧ holds k' Q' c (r :: hl) ∧
             t_priority (s_tcb (k_s k') c) = ceiled k r (t_priority (s_tcb (k_s k) c)) ∧
             ∀ t, t ≠ c → s_tcb (k_s k') t = s_tcb (k_s k) t
  | Some o =>
      if bool_decide (o = c) || too_high k r c then tk_loc_mtx id tmout k = (E_ILUSE, k)
      else if tmout =? TMO_POL then tk_loc_mtx id tmout k = (E_TMOUT, k)
      else (raises r o c k = true → waiting (s_tcb (k_s k) o) = false) →
           ∃ k' Q', tk_loc_mtx id tmout k = (E_TMOUT, k') ∧ loc_wait_post r o c l k k' Q Q'
  end.
Proof.
  intros c r Hk [Hdds Hst] Hc Hid Htm Hmid Hh Hceil HQ.
  assert (Hid0 : mtxid (k_mtx k r) ≠ 0).
  { rewrite Hmid. intros E. rewrite E in Hid. done. }
  assert (Hrr : 0 <= r < NUM_MTXID).
  { revert Hid. unfold r, get_mtxcb, CHK_MTXID, INDEX_MTX. rewrite andb_true_iff, !Z.leb_le.
    unfold MIN_MTXID. lia. }
  unfold tk_loc_mtx. rewrite Hid, Htm, Hdds. fold r c. cbn [negb].
  destruct (Z.eqb_spec (mtxid (k_mtx k r)) 0) as [|_]; [done|]. rewrite Hc. fold (too_high k r c).
  destruct (mtxtsk (k_mtx k r)) as [o|] eqn:Eo.
  - destruct (decide (o = c)) as [->|Hne]; [by rewrite !bool_decide_eq_true_2|].
    rewrite (bool_decide_eq_false_2 (o = c)), (bool_decide_eq_false_2 (Some o = Some c)) by congruence. simpl orb.
    destruct (too_high k r c); [done|]. destruct (Z.eqb_spec tmout TMO_POL) as [->|Hpol]; [done|].
    intros Hw. apply loc_mtx_wait_spec; try done. by rewrite Hmid.
  - rewrite bool_decide_eq_false_2 by done. destruct (too_high k r c); [done|].
    destruct (loc_mtx_take k Q r c hl Hk Hh Eo Hrr) as [Hk2 Hh2]; [by split; [|eexists]|].
    set (k2 := upd_s _ _) in *.
    assert (Ecl : ceilpri (k_mtx k2 r) = ceilpri (k_mtx k r)) by (unfold k2; simpl; by upd_simpl).
    assert (E2 : s_tcb (k_s k2) c = set_t_mtxlist (Some r) (s_tcb (k_s k) c)) by (unfold k2; simpl; by upd_simpl).
    assert (T2 : ∀ t, t ≠ c → s_tcb (k_s k2) t = s_tcb (k_s k) t)
      by (intros t Ht; unfold k2; simpl; by rewrite fn_lookup_insert_ne).
    rewrite Ecl, E2. simpl t_priority. unfold ceiled.
    destruct (mtx_kind r k =? TA_CEILING); simpl andb; cbv iota;
      [|exists k2, Q; by rewrite E2].
    destruct (Z.ltb_spec (ceilpri (k_mtx k r)) (t_priority (s_tcb (k_s k) c)));
      [|exists k2, Q; rewrite E2, Z.min_r by lia; done].
    destruct (change_priority_spec c (ceilpri (k_mtx k r)) k2 Q Hk2) as (Q3 & (s3 & Es & [T3 T4 T5 T6]) & _); [|done|].
    { rewrite E2. unfold waiting. simpl. fold c in Hst. by rewrite Hst. }
    exists (set_k_s s3 k2), Q3. rewrite Es. split_and!; [done|done| | |].
    + eapply (holds_frame k2 _ Q); [done| |by simpl; rewrite T5, fn_lookup_insert|done].
      intros i Hi. rewrite T4 by done. by apply Hh2.
    + simpl. rewrite T5, fn_lookup_insert, Z.min_l by lia. done.
    + intros t Ht. simpl. rewrite T5, fn_lookup_insert_ne by congruence. by apply T2.
Qed.

(** Task 0 (priority 5) holds mutexes 1 (a ceiling of 2) and 2; task 1 waits for mutex 1. *)
Lemma tk_unl_mtx_spec_witness :
  let t0 := set_t_mtxlist (Some 1) (set_t_priority 2 (ex_ready 5)) in
  let tasks := [t0; ex_waits 1 7 knl_wspec_mtx_tpri 1 WI_none] in
  let objs := [(TIMERQ, [TMEBT 1]); (MTXQ 0, [TSKQ 1]); (MTXQ 1, [])] in
  let k := upd_mtx 0 (λ _, mkMTXCB 1 0 TA_CEILING 2 (Some 0) None)
            (upd_mtx 1 (λ _, mkMTXCB 2 0 TA_TFIFO 0 (Some 0) (Some 0)) (ex_k (ex_sch tasks objs))) in
  ∃ k' Q', tk_unl_mtx 1 k = (E_OK, k') ∧ holds k' Q' 0 [1] ∧ holds k' Q' 1 [0] ∧
    t_priority (s_tcb (k_s k') 0) = 5 ∧ t_priority (s_tcb (k_s k') 1) = 2.
Proof.
  intros t0 tasks objs k. assert (Hk : kinv (k_s k) (ex_Q tasks objs)) by (apply ex_kinv; by vm_compute).
  assert (Hh : holds k (ex_Q tasks objs) 0 ([1] ++ get_mtxcb 1 :: [])).
  { constructor; [by vm_compute|by apply (bool_decide_unpack _); vm_compute|..];
      intros i [->|[->|[]%not_elem_of_nil]%elem_of_cons]%elem_of_cons; try (by vm_compute);
      split; [by vm_compute|by eexists; vm_compute|by vm_compute|by eexists; vm_compute]. }
  assert (Hh1 : holds k (ex_Q tasks objs) 1 []).
  { constructor; [by vm_compute|constructor|..]; intros i []%not_elem_of_nil. }
  destruct (tk_unl_mtx_spec k (ex_Q tasks objs) 1 [1] [] [TSKQ 1] Hk eq_refl eq_refl eq_refl eq_refl
    ltac:(by vm_compute) Hh ltac:(by vm_compute)) as (k' & Q' & H1 & _ & H2 & H3 & _ & _ & _ & H4 & H5 & _).
  exists k', Q'. split; [done|]. split; [done|]. split; [by apply H4|].
  change (ctx (k_s k)) with 0 in H3. rewrite H3. split; [by vm_compute|].
  change (as_tcb (TSKQ 1)) with 1 in H5. rewrite H5. by vm_compute.
Defined.

(** Task 0 (priority 3) asks for the inheritance mutex that task 1 (priority 5) holds. *)
Lemma tk_loc_mtx_spec_witness :
  let tasks := [ex_ready 3; set_t_mtxlist (Some 0) (ex_ready 5)] in
  let objs := [(TIMERQ, []); (MTXQ 0, [])] in
  let k := upd_mtx 0 (λ _, mkMTXCB 1 0 TA_INHERIT 0 (Some 1) None) (ex_k (ex_sch tasks objs)) in
  ∃ k' (Q' : gmap node (list node)), tk_loc_mtx 1 100 k = (E_TMOUT, k') ∧ Q' !! MTXQ 0 = Some [TSKQ 0] ∧
    t_priority (s_tcb (k_s k') 1) = 3.
Proof.
  intros tasks objs k. assert (Hk : kinv (k_s k) (ex_Q tasks objs)) by (apply ex_kinv; by vm_compute).
  assert (Hh : holds k (ex_Q tasks objs) 0 []).
  { constructor; [by vm_compute|constructor|..]; intros i []%not_elem_of_nil. }
  destruct (tk_loc_mtx_spec k (ex_Q tasks objs) 1 100 [] [] Hk ltac:(by split; vm_compute) eq_refl eq_refl
    ltac:(by vm_compute) ltac:(by vm_compute) Hh ltac:(by vm_compute) ltac:(by vm_compute) ltac:(by vm_compute))
    as (k' & Q' & H1 & [_ H2 _ _ H3 _ _ _]).
  change (get_mtxcb 1) with 0 in H2. exists k', Q'. split; [done|]. split; [by rewrite H2; vm_compute|]. rewrite H3. by vm_compute.
Defined.
