(* ===== verification/Hooks.v ===== *)
(** * Releases that run a hook: kernel/tkernel/wait.c

    The [rel_wai_hook] of the wait specifications and the two routines of wait.c that
    call it: when a task leaves a queue without its request being granted, the tasks
    behind it may get what it was waiting for. *)
From S2P Require Import Prelude Config Queue Kernel ReadyQueue KInv KCheck Task Timer Wait.
From S2P Require Import MemPool Semaphore MessageBuf Mutex.

(* src: kernel/tkernel/winfo.h 136-142 rel_wai_hook *)
Definition rel_wai_hook (w : wspec) : option (Z → K → K) :=
  match w with
  | knl_wspec_sem_tfifo | knl_wspec_sem_tpri => Some sem_rel_wai
  | knl_wspec_smbf_tfifo | knl_wspec_smbf_tpri => Some knl_mbf_rel_wai
  | knl_wspec_mpl_tfifo | knl_wspec_mpl_tpri => Some mpl_rel_wai
  | knl_wspec_mtx_inherit => Some mtx_rel_wai
  | _ => None
  end.

(* src: kernel/tkernel/wait.c 37-39 knl_wait_release_ng *)
Definition run_rel_wai_hook (tcb : Z) (k : K) : K :=
  match rel_wai_hook (t_wspec (s_tcb (k_s k) tcb)) with
  | Some hook => hook tcb k
  | None => k
  end.

(* src: kernel/tkernel/wait.c 34-41 knl_wait_release_ng *)
Definition knl_wait_release_ng (tcb ercd : Z) (k : K) : K :=
  let k := upd_s (knl_wait_release tcb) k in
  let k := run_rel_wai_hook tcb k in
  upd_s (write_wercd tcb ercd) k.

(* src: kernel/tkernel/wait.c 43-50 knl_wait_release_tmout *)
Definition knl_wait_release_tmout (tcb : Z) (k : K) : K :=
  let k := upd_s (upd_q (QueRemove (TSKQ tcb))) k in
  let k := upd_s (knl_make_non_wait tcb) k in
  run_rel_wai_hook tcb k.
