(* ===== verification/TaskManage.v ===== *)
(** * Task management: kernel/tkernel/task_manage.c *)
From S2P Require Import Prelude Config Queue Kernel ReadyQueue KInv KCheck Task Timer Wait Mem.
From S2P Require Import TaskSync Mutex Hooks.

(* src: include/tk/syscall.h 169-179 T_CTSK *)
Record T_CTSK := mkT_CTSK {
  ctsk_exinf : Z; ctsk_tskatr : Z; ctsk_task : Z; ctsk_itskpri : Z; ctsk_stksz : Z; ctsk_bufptr : Z }.

(* src: include/tk/syscall.h 184-193 T_RTSK *)
Record T_RTSK := mkT_RTSK {
  rtsk_exinf : Z; rtsk_tskpri : Z; rtsk_tskbpri : Z; rtsk_tskstat : Z; rtsk_tskwait : Z; rtsk_wid : Z;
  rtsk_wupcnt : Z; rtsk_suscnt : Z }.

(** The three fields only td_ref_tsk reports. *)
(* src: include/tk/dbgspt.h 158-170 TD_RTSK *)
Record TD_RTSK := mkTD_RTSK { tdr_rtsk : T_RTSK; tdr_task : Z; tdr_stksz : Z; tdr_istack : Z }.

(* src: include/tk/dbgspt.h 175-180 TD_ITSK *)
Record TD_ITSK := mkTD_ITSK { itsk_stime : Z; itsk_utime : Z }.

Definition VALID_TSKATR : Z := Z.lor TA_HLNG (Z.lor TA_RNG3 (Z.lor TA_USERBUF TA_COPS)).

(** Taking a TCB and filling it in: [stack] is the lowest address of the stack area. *)
(* src: kernel/tkernel/task_manage.c 74-102 tk_cre_tsk *)
Definition cre_tsk_block (pk_ctsk : T_CTSK) (sstksz stack : Z) (k : K) : Z * K :=
  match QueRemoveNext FREE_TCB (s_q (k_s k)) with
  | (None, q) => (E_LIMIT, upd_s (set_s_q q) k)
  | (Some node, q) =>
      let k := upd_s (set_s_q q) k in
      let tcb := as_tcb node in
      let k := upd_s (upd_tcb tcb (λ t,
        let t := set_t_exinf (ctsk_exinf pk_ctsk) t in
        let t := set_t_tskatr (ctsk_tskatr pk_ctsk) t in
        let t := set_t_task (ctsk_task pk_ctsk) t in
        let t := set_t_ipriority (u8 (int_priority (ctsk_itskpri pk_ctsk))) t in
        let t := set_t_sstksz sstksz t in
        let t := set_t_isstack (u32 (stack + sstksz)) t in
        let t := set_t_isysmode 1 t in
        set_t_sysmode 1 t)) k in
      let k := upd_s (knl_make_dormant tcb) k in
      (t_tskid (s_tcb (k_s k) tcb), k)
  end.

(* src: kernel/tkernel/task_manage.c 29-114 tk_cre_tsk *)
Definition tk_cre_tsk `{Allocator} (pk_ctsk : T_CTSK) (k : K) : Z * K :=
  if RSATR_ERR (ctsk_tskatr pk_ctsk) VALID_TSKATR then (E_RSATR, k)
  else if negb (0 <=? ctsk_stksz pk_ctsk) then (E_PAR, k)
  else if negb (CHK_PRI (ctsk_itskpri pk_ctsk)) then (E_PAR, k)
  else
    let userbuf := has (ctsk_tskatr pk_ctsk) TA_USERBUF in
    if userbuf && negb (MIN_SYS_STACK_SIZE <=? ctsk_stksz pk_ctsk) then (E_PAR, k)
    else
      let sstksz := if userbuf then ctsk_stksz pk_ctsk
                    else Z.quot (s32 (s32 (ctsk_stksz pk_ctsk + DEFAULT_SYS_STKSZ) + 7)) 8 * 8 in
      let '(stack, k) := if userbuf then (ctsk_bufptr pk_ctsk, k) else Imalloc (u32 sstksz) k in
      if negb userbuf && (stack =? 0) then (E_NOMEM, k)
      else
        let '(ercd, k) := cre_tsk_block pk_ctsk sstksz stack k in
        if (ercd <? E_OK) && negb userbuf then (ercd, Ifree stack k) else (ercd, k).

(* src: kernel/tkernel/task_manage.c 120-134 knl_del_tsk *)
Definition knl_del_tsk `{Allocator} (tcb : Z) (k : K) : K :=
  let tc := s_tcb (k_s k) tcb in
  let k := if has (t_tskatr tc) TA_USERBUF then k else Ifree (u32 (t_isstack tc - t_sstksz tc)) k in
  let k := upd_s (upd_q (QueInsert (TSKQ tcb) FREE_TCB)) k in
  upd_s (upd_tcb tcb (set_t_state TS_NONEXIST)) k.

(* src: kernel/tkernel/task_manage.c 140-161 tk_del_tsk *)
Definition tk_del_tsk `{Allocator} (tskid : Z) (k : K) : Z * K :=
  match CHECK_TSKID tskid (k_s k) with
  | Some ercd => (ercd, k)
  | None =>
      let tcb := get_tcb tskid in
      let state := t_state (s_tcb (k_s k) tcb) in
      if negb (state =? TS_DORMANT) then (if state =? TS_NONEXIST then E_NOEXS else E_OBJ, k)
      else (E_OK, knl_del_tsk tcb k)
  end.

(* src: kernel/tkernel/task_manage.c 169-191 tk_sta_tsk *)
Definition tk_sta_tsk (tskid stacd : Z) (s : SCH) : Z * SCH :=
  match CHECK_TSKID tskid s with
  | Some ercd => (ercd, s)
  | None =>
      let tcb := get_tcb tskid in
      let state := t_state (s_tcb s tcb) in
      if negb (state =? TS_DORMANT) then (if state =? TS_NONEXIST then E_NOEXS else E_OBJ, s)
      else
        let s := knl_setup_stacd tcb stacd s in
        (E_OK, knl_make_ready tcb s)
  end.

(* src: kernel/tkernel/task_manage.c 197-218 knl_ter_tsk *)
Definition knl_ter_tsk (tcb : Z) (k : K) : K :=
  let state := t_state (s_tcb (k_s k) tcb) in
  let k :=
    if state =? TS_READY then upd_s (knl_make_non_ready tcb) k
    else if has state TS_WAIT then run_rel_wai_hook tcb (upd_s (knl_wait_cancel tcb) k)
    else k in
  let k := knl_signal_all_mutex tcb k in
  upd_s (knl_cleanup_context tcb) k.

(** The part of [knl_force_dispatch] before the next task is loaded. *)
(* src: kernel/sysdepend/cpu/core/riscv_esp/cpu_cntl.c 120-138 knl_force_dispatch *)
Definition knl_force_dispatch (s : SCH) : SCH :=
  let s := set_s_ctxtsk None s in
  let s := set_s_dispatch_disabled 0 s in
  let s := set_s_taskindp 0 s in
  set_s_masked false s.

(** [None] when the call never returns and never switches: in a task-independent
    part it prints a message and loops. *)
(* src: kernel/tkernel/task_manage.c 224-257 tk_ext_tsk *)
Definition tk_ext_tsk (k : K) : option K :=
  if in_indp (k_s k) then None
  else
    let c := ctx (k_s k) in
    let k := knl_ter_tsk c k in
    let k := upd_s (knl_make_dormant c) k in
    Some (upd_s knl_force_dispatch k).

(** In a task-independent part the call returns without effect. *)
(* src: kernel/tkernel/task_manage.c 264-285 tk_exd_tsk *)
Definition tk_exd_tsk `{Allocator} (k : K) : K :=
  if in_indp (k_s k) then k
  else
    let c := ctx (k_s k) in
    let k := knl_ter_tsk c k in
    let k := knl_del_tsk c k in
    upd_s knl_force_dispatch k.

(* src: kernel/tkernel/task_manage.c 292-321 tk_ter_tsk *)
Definition tk_ter_tsk (tskid : Z) (k : K) : Z * K :=
  match CHECK_TSKID tskid (k_s k) with
  | Some ercd => (ercd, k)
  | None =>
      let tcb := get_tcb tskid in
      let state := t_state (s_tcb (k_s k) tcb) in
      if negb (knl_task_alive state) then (if state =? TS_NONEXIST then E_NOEXS else E_OBJ, k)
      else if t_klocked (s_tcb (k_s k) tcb) then (E_OBJ, k)
      else
        let k := knl_ter_tsk tcb k in
        (E_OK, upd_s (knl_make_dormant tcb) k)
  end.

(* src: kernel/tkernel/task_manage.c 330-375 tk_chg_pri *)
Definition tk_chg_pri (tskid tskpri : Z) (k : K) : Z * K :=
  match CHECK_TSKID_SELF tskid (k_s k) with
  | Some ercd => (ercd, k)
  | None =>
      if negb (tskpri =? TPRI_INI) && negb (CHK_PRI tskpri) then (E_PAR, k)
      else
        let tcb := get_tcb_self tskid (k_s k) in
        let tc := s_tcb (k_s k) tcb in
        if t_state tc =? TS_NONEXIST then (E_NOEXS, k)
        else
          let priority := if tskpri =? TPRI_INI then t_ipriority tc else int_priority tskpri in
          let ercd := knl_chg_pri_mutex tcb priority k in
          if ercd <? E_OK then (ercd, k)
          else
            let k := upd_s (upd_tcb tcb (set_t_bpriority (u8 priority))) k in
            (E_OK, knl_change_task_priority tcb ercd k)
  end.

(* src: kernel/tkernel/task_manage.c 382-399 tk_rot_rdq *)
Definition tk_rot_rdq (tskpri : Z) (s : SCH) : Z * SCH :=
  if negb (tskpri =? TPRI_RUN) && negb (CHK_PRI tskpri) then (E_PAR, s)
  else if tskpri =? TPRI_RUN then
    if in_indp s then (E_OK, knl_rotate_ready_queue_run s)
    else (E_OK, knl_rotate_ready_queue (t_priority (s_tcb s (ctx s))) s)
  else (E_OK, knl_rotate_ready_queue (int_priority tskpri) s).

(* src: kernel/tkernel/task_manage.c 408-411 tk_get_tid *)
Definition tk_get_tid (s : SCH) : Z :=
  match s_ctxtsk s with None => 0 | Some t => t_tskid (s_tcb s t) end.

(** The report both tk_ref_tsk and td_ref_tsk make. *)
(* src: kernel/tkernel/task_manage.c 431-448 tk_ref_tsk *)
Definition ref_tsk (tcb : Z) (s : SCH) : T_RTSK :=
  let tc := s_tcb s tcb in
  let state := t_state tc in
  let tskstat := if (state =? TS_READY) && bool_decide (Some tcb = s_ctxtsk s) then TTS_RUN
                 else Z.shiftl state 1 in
  let '(tskwait, wid) := if has state TS_WAIT then (ws_tskwait (t_wspec tc), t_wid tc) else (0, 0) in
  mkT_RTSK (t_exinf tc) (ext_tskpri (t_priority tc)) (ext_tskpri (t_bpriority tc)) tskstat tskwait wid
    (t_wupcnt tc) (t_suscnt tc).

(* src: kernel/tkernel/task_manage.c 418-453 tk_ref_tsk *)
Definition tk_ref_tsk (tskid : Z) (s : SCH) : Z * option T_RTSK :=
  match CHECK_TSKID_SELF tskid s with
  | Some ercd => (ercd, None)
  | None =>
      let tcb := get_tcb_self tskid s in
      if t_state (s_tcb s tcb) =? TS_NONEXIST then (E_NOEXS, None)
      else (E_OK, Some (ref_tsk tcb s))
  end.

(* src: kernel/tkernel/task_manage.c 463-483 tk_rel_wai *)
Definition tk_rel_wai (tskid : Z) (k : K) : Z * K :=
  match CHECK_TSKID tskid (k_s k) with
  | Some ercd => (ercd, k)
  | None =>
      let tcb := get_tcb tskid in
      let state := t_state (s_tcb (k_s k) tcb) in
      if negb (has state TS_WAIT) then (if state =? TS_NONEXIST then E_NOEXS else E_OBJ, k)
      else (E_OK, knl_wait_release_ng tcb E_RLWAI k)
  end.

(* src: kernel/tkernel/task_manage.c 526-545 td_lst_tsk *)
Definition td_lst_tsk (nent : Z) (s : SCH) : Z * list Z :=
  td_lst (λ i, negb (t_state (s_tcb s i) =? TS_NONEXIST)) (λ i, t_tskid (s_tcb s i)) NUM_TSKID nent.

(* src: kernel/tkernel/task_manage.c 552-591 td_ref_tsk *)
Definition td_ref_tsk (tskid : Z) (s : SCH) : Z * option TD_RTSK :=
  match CHECK_TSKID_SELF tskid s with
  | Some ercd => (ercd, None)
  | None =>
      let tcb := get_tcb_self tskid s in
      let tc := s_tcb s tcb in
      if t_state tc =? TS_NONEXIST then (E_NOEXS, None)
      else (E_OK, Some (mkTD_RTSK (ref_tsk tcb s) (t_task tc) (t_sstksz tc) (t_isstack tc)))
  end.

(* src: kernel/tkernel/task_manage.c 598-621 td_inf_tsk *)
Definition td_inf_tsk (tskid : Z) (clr : bool) (s : SCH) : Z * option TD_ITSK * SCH :=
  match CHECK_TSKID_SELF tskid s with
  | Some ercd => (ercd, None, s)
  | None =>
      let tcb := get_tcb_self tskid s in
      let tc := s_tcb s tcb in
      if t_state tc =? TS_NONEXIST then (E_NOEXS, None, s)
      else
        let s := if clr then upd_tcb tcb (λ t, set_t_utime 0 (set_t_stime 0 t)) s else s in
        (E_OK, Some (mkTD_ITSK (t_stime tc) (t_utime tc)), s)
  end.

(** ** Priorities *)

(** The priority tk_chg_pri asks for. *)
Definition asked_pri (tskpri : Z) (tc : TCB) : Z :=
  if tskpri =? TPRI_INI then t_ipriority tc else int_priority tskpri.

Lemma asked_pri_range tskpri tc t :
  task_ok tc t → t_state tc ≠ TS_NONEXIST → (tskpri =? TPRI_INI) || CHK_PRI tskpri = true →
  0 <= asked_pri tskpri tc < NUM_TSKPRI.
Proof.
  intros Hok Hne Hp. unfold asked_pri. destruct (tskpri =? TPRI_INI); [by apply Hok|]. simpl in Hp. revert Hp.
  unfold CHK_PRI, int_priority, NUM_TSKPRI. rewrite andb_true_iff, !Z.leb_le. unfold MIN_TSKPRI, MAX_TSKPRI. lia.
Qed.

(** Changing the priority of a task that does not wait.  The request is E_ILUSE, and
    changes nothing, when it lies above the ceiling of a mutex the task holds.
    Otherwise it becomes the base priority, the priority is the highest of it and what
    the held mutexes ask for, a ready task goes behind the tasks of its new priority,
    no other task changes, and the scheduled task is the top ready task. *)
Theorem tk_chg_pri_spec (k : K) (Q : gmap node (list node)) (tskid tskpri : Z) (hl : list Z) :
  let t := get_tcb_self tskid (k_s k) in
  let tc := s_tcb (k_s k) t in
  let p := asked_pri tskpri tc in
  kinv (k_s k) Q → CHECK_TSKID_SELF tskid (k_s k) = None → (tskpri =? TPRI_INI) || CHK_PRI tskpri = true →
  t_state tc ≠ TS_NONEXIST → waiting tc = false → holds k Q t hl →
  if exceeds k p hl then tk_chg_pri tskid tskpri k = (E_ILUSE, k)
  else ∃ k' Q', tk_chg_pri tskid tskpri k = (E_OK, k') ∧ kinv (k_s k') Q' ∧ sched_ok (k_s k') Q' ∧
         (∀ t', s_tcb (k_s k') t' =
                (<[t := set_t_priority (top_pri k p hl) (set_t_bpriority p tc)]> (s_tcb (k_s k))) t') ∧
         (t_state tc = TS_READY → ∃ l, Q' !! RDYQ (top_pri k p hl) = Some (l ++ [TSKQ t])).
Proof.
  intros t tc p Hk Hc Hp Hne Hw Hh. pose proof (ki_task _ _ _ _ Hk t ltac:(done)) as Hok. fold tc in Hok.
  pose proof (asked_pri_range _ _ _ Hok Hne Hp) as Hr. fold p in Hr.
  pose proof (top_pri_range k Q p hl Hk (ho_wf _ _ _ _ Hh) Hr) as Ht.
  unfold tk_chg_pri. rewrite Hc. rewrite <- negb_orb, Hp. cbn [negb]. fold t tc. cbv zeta. fold (asked_pri tskpri tc). fold p.
  destruct (Z.eqb_spec (t_state tc) TS_NONEXIST) as [|_]; [done|].
  rewrite (chg_pri_mutex_spec t p k Q hl Hh Hw) by lia. destruct (exceeds k p hl); [done|].
  destruct (Z.ltb_spec (top_pri k p hl) E_OK) as [Hlt|_]; [unfold E_OK in Hlt; lia|]. rewrite u8_small by done.
  set (k1 := upd_s (upd_tcb t (set_t_bpriority p)) k).
  assert (Hk1 : kinv (k_s k1) Q) by (apply kinv_upd_tcb; [done..|]; intros []; by constructor).
  assert (E1 : s_tcb (k_s k1) t = set_t_bpriority p tc) by (unfold k1; simpl; by upd_simpl).
  destruct (change_priority_spec t (top_pri k p hl) k1 Q Hk1) as (Q' & (s' & Es & [T1 T2 T3 T4]) & Hq);
    [by rewrite E1|done|]. rewrite E1 in *.
  eexists _, Q'. rewrite Es. split; [done|]. simpl. split; [done|]. split; [by apply kinv_sched_ok|]. split; [|done].
  intros t'. rewrite T3. unfold k1. simpl. by upd_case t t'.
Qed.

(** Task 1 holds mutex 1, with a ceiling of 2. *)
Lemma tk_chg_pri_spec_witness :
  let tasks := [ex_ready 3; set_t_mtxlist (Some 0) (set_t_priority 2 (ex_ready 5)); ex_ready 7] in
  let objs := [(TIMERQ, []); (MTXQ 0, [])] in
  let k := upd_mtx 0 (λ _, mkMTXCB 1 0 TA_CEILING 2 (Some 1) None) (ex_k (ex_sch tasks objs)) in
  tk_chg_pri 2 2 k = (E_ILUSE, k) ∧
  ∃ k' Q', tk_chg_pri 2 10 k = (E_OK, k') ∧ kinv (k_s k') Q' ∧ t_bpriority (s_tcb (k_s k') 1) = 9 ∧
    t_priority (s_tcb (k_s k') 1) = 2.
Proof.
  intros tasks objs k. assert (Hk : kinv (k_s k) (ex_Q tasks objs)) by (apply ex_kinv; by vm_compute).
  assert (Hh : holds k (ex_Q tasks objs) 1 [0]).
  { constructor; [by vm_compute|by apply (bool_decide_unpack _); vm_compute|..];
      intros i [->|[]%not_elem_of_nil]%elem_of_cons; try (by vm_compute);
      split; [by vm_compute|by eexists; vm_compute]. }
  pose proof (tk_chg_pri_spec k (ex_Q tasks objs) 2 2 [0] Hk eq_refl eq_refl ltac:(by vm_compute)
    ltac:(by vm_compute) Hh) as H1.
  pose proof (tk_chg_pri_spec k (ex_Q tasks objs) 2 10 [0] Hk eq_refl eq_refl ltac:(by vm_compute)
    ltac:(by vm_compute) Hh) as H2. cbv zeta in H1, H2.
  replace (exceeds k _ [0]) with true in H1 by (by vm_compute).
  replace (exceeds k _ [0]) with false in H2 by (by vm_compute).
  split; [exact H1|]. destruct H2 as (k' & Q' & E & Hk' & _ & Ht & _). exists k', Q'.
  split; [exact E|]. split; [exact Hk'|]. change (get_tcb_self 2 (k_s k)) with 1 in Ht. rewrite Ht. by vm_compute.
Defined.

(** ** Starting a task *)

(** What the entry of the task finds: its start code and its extended information. *)
Definition started (stacd : Z) (tc : TCB) : TCB :=
  set_t_tskctxb (set_cx_a1 (u32 (t_exinf tc)) (set_cx_a0 (u32 stacd) (t_tskctxb tc))) tc.

Lemma task_ok_started stacd tc t :
  task_ok tc t → t_state tc = TS_DORMANT → task_ok (set_t_state TS_READY (started stacd tc)) t.
Proof.
  intros [] E. rewrite E in *. constructor; simpl; intros; auto; try done; [set_solver|].
  rewrite tk_sus_iff by done. split; intros [?|?]; done.
Qed.

Lemma sta_tsk_post s Q tskid stacd :
  let t := get_tcb tskid in
  let tc := s_tcb s t in
  kinv s Q → CHECK_TSKID tskid s = None → t_state tc = TS_DORMANT →
  ∃ s' l, tk_sta_tsk tskid stacd s = (E_OK, s') ∧ Q !! RDYQ (t_priority tc) = Some l ∧
    task_post t (set_t_state TS_READY (started stacd tc)) s s' Q (<[RDYQ (t_priority tc) := l ++ [TSKQ t]]> Q).
Proof.
  intros t tc Hk Hc E. pose proof (ki_task _ _ _ _ Hk t ltac:(done)) as Hok. fold tc in Hok.
  unfold tk_sta_tsk. rewrite Hc. fold t tc. rewrite E. cbn [Z.eqb negb]. unfold TS_DORMANT at 1. simpl negb. cbv iota zeta.
  destruct (kinv_enter_ready t (started stacd) s Q Hk) as (l & HQ & Hp);
    [unfold home, waiting; fold tc; by rewrite E|unfold waiting; fold tc; by rewrite E|by apply task_ok_started|].
  eexists _, l. split; [done|]. by split.
Qed.

(** Starting a task.  A dormant task becomes ready behind the tasks of its priority,
    its entry gets the start code and the extended information, no other task and no
    other queue changes, and the scheduled task is the top ready task; a task that is
    not dormant is E_OBJ, one that does not exist E_NOEXS, and nothing changes. *)
Theorem tk_sta_tsk_spec (s : SCH) (Q : gmap node (list node)) (tskid stacd : Z) :
  let t := get_tcb tskid in
  let tc := s_tcb s t in
  kinv s Q → CHECK_TSKID tskid s = None →
  if t_state tc =? TS_DORMANT then
    ∃ s' l, tk_sta_tsk tskid stacd s = (E_OK, s') ∧ Q !! RDYQ (t_priority tc) = Some l ∧
      let Q' := <[RDYQ (t_priority tc) := l ++ [TSKQ t]]> Q in
      kinv s' Q' ∧ sched_ok s' Q' ∧
      ∀ t', s_tcb s' t' = (<[t := set_t_state TS_READY (started stacd tc)]> (s_tcb s)) t'
  else tk_sta_tsk tskid stacd s = (if t_state tc =? TS_NONEXIST then E_NOEXS else E_OBJ, s).
Proof.
  intros t tc Hk Hc. destruct (Z.eqb_spec (t_state tc) TS_DORMANT) as [E|Hne].
  - destruct (sta_tsk_post s Q tskid stacd Hk Hc E) as (s' & l & H1 & H2 & [K' _ T' _]).
    exists s', l. split; [done|]. split; [done|]. split; [done|]. split; [by apply kinv_sched_ok|done].
  - unfold tk_sta_tsk. rewrite Hc. fold t tc. by destruct (Z.eqb_spec (t_state tc) TS_DORMANT).
Qed.

Lemma tk_sta_tsk_spec_witness :
  let tasks := [ex_ready 3; set_t_state TS_DORMANT (ex_ready 1)] in
  let s := ex_sch tasks [(TIMERQ, [])] in
  ∃ s' Q', tk_sta_tsk 2 7 s = (E_OK, s') ∧ kinv s' Q' ∧ cx_a0 (t_tskctxb (s_tcb s' 1)) = 7.
Proof.
  intros tasks s. assert (Hk : kinv s (ex_Q tasks [(TIMERQ, [])])) by (apply ex_kinv; by vm_compute).
  pose proof (tk_sta_tsk_spec s _ 2 7 Hk eq_refl) as H. cbv zeta in H.
  replace (t_state (s_tcb s (get_tcb 2)) =? TS_DORMANT) with true in H by (by vm_compute).
  destruct H as (s' & l & H1 & _ & Hk' & _ & Ht). eexists s', _. split; [done|]. split; [exact Hk'|].
  change (get_tcb 2) with 1 in Ht. rewrite Ht. by vm_compute.
Defined.

(** ** Rotating a ready queue *)

Lemma rotate_tcb p s : s_tcb (knl_rotate_ready_queue p s) = s_tcb s.
Proof. unfold knl_rotate_ready_queue, knl_reschedule, knl_ready_queue_rotate. repeat case_match; done. Qed.

(** Rotating the tasks of a priority.  The first task of the priority goes behind the
    others, no task and no other queue changes, and the scheduled task is the top ready
    task, so that a rotation of the priority of the running task passes the processor
    on. *)
Theorem tk_rot_rdq_spec (s : SCH) (Q : gmap node (list node)) (tskpri : Z) :
  let p := int_priority tskpri in
  kinv s Q → CHK_PRI tskpri = true →
  ∃ s' l, tk_rot_rdq tskpri s = (E_OK, s') ∧ Q !! RDYQ p = Some l ∧
    kinv s' (<[RDYQ p := rotated l]> Q) ∧ s_tcb s' = s_tcb s ∧
    sched_ok s' (<[RDYQ p := rotated l]> Q) ∧
    (∀ x y l', l = TSKQ x :: TSKQ y :: l' → s_schedtsk s = Some x → s_schedtsk s' = Some y).
Proof.
  intros p Hk Hp. assert (Hr : 0 <= p < NUM_TSKPRI).
  { revert Hp. unfold p, CHK_PRI, int_priority, NUM_TSKPRI. rewrite andb_true_iff, !Z.leb_le.
    unfold MIN_TSKPRI, MAX_TSKPRI. lia. }
  assert (Hz : tskpri ≠ TPRI_RUN). { unfold p, int_priority, MIN_TSKPRI in Hr. unfold TPRI_RUN. lia. }
  destruct (kinv_rdyq _ _ _ _ p Hk Hr) as [l HQ]. pose proof (kinv_rotate s Q p l Hk Hr HQ) as Hk'.
  exists (knl_rotate_ready_queue p s), l. unfold tk_rot_rdq. rewrite Hp, andb_false_r.
  destruct (Z.eqb_spec tskpri TPRI_RUN); [done|]. split; [done|]. split; [done|]. split; [done|].
  split; [apply rotate_tcb|]. split; [by apply kinv_sched_ok|]. intros x y l' -> Hx.
  assert (Hlen : ∀ z, z ∈ [TSKQ x; TSKQ y] → t_state (s_tcb s (as_tcb z)) = TS_READY ∧ t_priority (s_tcb s (as_tcb z)) = p).
  { intros z Hz'. destruct (kinv_in_rdyq _ _ _ _ _ z Hk HQ) as (t & -> & H1 & H2); [set_solver|done]. }
  destruct (Hlen (TSKQ x) ltac:(left)) as [_ Hpx]. destruct (Hlen (TSKQ y) ltac:(right; left)) as [Hsy Hpy].
  simpl in Hpx, Hpy, Hsy. pose proof (kinv_sched_ok _ _ Hk) as Hs. unfold sched_ok in Hs. rewrite Hx in Hs.
  destruct Hs as (_ & Hmin & _). pose proof (kinv_sched_ok _ _ Hk') as Hs'. unfold sched_ok in Hs'.
  destruct (s_schedtsk (knl_rotate_ready_queue p s)) as [z|] eqn:Ez; rewrite rotate_tcb in Hs' || (unfold top_ready in Hs'; rewrite rotate_tcb in Hs').
  - destruct Hs' as (Hsz & Hminz & lz & HQz). specialize (Hmin z Hsz). specialize (Hminz y Hsy).
    assert (Epz : t_priority (s_tcb s z) = p) by lia. rewrite Epz, lookup_insert_eq in HQz. simpl in HQz. by simplify_eq.
  - by destruct (Hs' y).
Qed.

Lemma tk_rot_rdq_spec_witness :
  let s := ex_sch [ex_ready 3; ex_ready 3] [(TIMERQ, [])] in
  s_schedtsk s = Some 0 ∧ s_schedtsk (tk_rot_rdq 4 s).2 = Some 1.
Proof.
  intros s. assert (Hk : kinv s (ex_Q [ex_ready 3; ex_ready 3] [(TIMERQ, [])])) by (apply ex_kinv; by vm_compute).
  split; [by vm_compute|].
  destruct (tk_rot_rdq_spec s _ 4 Hk ltac:(by vm_compute)) as (s' & l & -> & HQ & _ & _ & _ & H).
  apply (H 0 1 []); [|by vm_compute]. change (int_priority 4) with 3 in HQ.
  assert (ex_Q [ex_ready 3; ex_ready 3] [(TIMERQ, [])] !! RDYQ 3 = Some [TSKQ 0; TSKQ 1]) as E by (by vm_compute).
  rewrite E in HQ. by injection HQ.
Defined.
