(* ===== verification/System.v ===== *)
(** * The running system: cpu_cntl.c, cpu_status.h, cpuctl.c, and the calls as steps

    The state of the scheduler with the state of the CPU around it: the nesting of
    interrupts, the latched dispatch interrupt and the interrupt state of the task.  A
    step is a system call of the running task, a change of its interrupt state, the
    entry of an interrupt, a system call of an interrupt handler, or the end of an
    interrupt, where the dispatcher switches tasks.

    [y_mie] and [y_level] belong to the interrupted task while a handler runs; nested
    interrupts may enter a handler at any moment. *)
From S2P Require Import Prelude Config Queue Kernel ReadyQueue KInv KCheck Task Timer Wait Mem.
From S2P Require Import Mutex Hooks TaskSync TaskManage.

(* src: include/tk/sysdepend/cpu/core/riscv_esp/syslib.h 52-52 INTLEVEL_DI *)
Definition INTLEVEL_DI : Z := 4.

(** [y_loop t] is [Some mie] while task [t] is inside the loop of [knl_dispatch];
    [mie] is the interrupt state its critical section goes back to. *)
(* src: kernel/sysdepend/cpu/core/riscv_esp/cpu_cntl.c 49-50 knl_taskindp *)
Record SYS := mkSYS {
  y_s : SCH;
  y_isr_nest : Z;
  y_intr0 : bool;
  y_mie : bool;
  y_level : Z;
  y_loop : Z → option bool
}.

Definition set_y_s (s : SCH) (y : SYS) : SYS := mkSYS s (y_isr_nest y) (y_intr0 y) (y_mie y) (y_level y) (y_loop y).
Definition set_y_intr0 (b : bool) (y : SYS) : SYS := mkSYS (y_s y) (y_isr_nest y) b (y_mie y) (y_level y) (y_loop y).
Definition set_y_isr_nest (n : Z) (y : SYS) : SYS := mkSYS (y_s y) n (y_intr0 y) (y_mie y) (y_level y) (y_loop y).
Definition set_y_loop (l : Z → option bool) (y : SYS) : SYS :=
  mkSYS (y_s y) (y_isr_nest y) (y_intr0 y) (y_mie y) (y_level y) l.

(* src: kernel/sysdepend/cpu/core/riscv_esp/cpu_status.h 74-77 knl_is_cpu_int_masked *)
Definition knl_is_cpu_int_masked (y : SYS) : bool := negb (y_mie y) || (INTLEVEL_DI <=? y_level y).

(* src: kernel/sysdepend/cpu/core/riscv_esp/cpu_status.h 87-90 knl_is_dispatch_masked *)
Definition knl_is_dispatch_masked (y : SYS) : bool := negb (y_mie y) || (INTLEVEL_EI <? y_level y).

(* src: kernel/sysdepend/cpu/core/riscv_esp/cpu_status.h 98-99 in_loc *)
Definition in_loc (y : SYS) : bool := knl_is_cpu_int_masked y || in_indp (y_s y).

(** The interrupt state of the CPU, and what the scheduler reads of it. *)
Definition set_cpu (mie : bool) (level : Z) (y : SYS) : SYS :=
  let y := mkSYS (y_s y) (y_isr_nest y) (y_intr0 y) mie level (y_loop y) in
  set_y_s (set_s_masked (knl_is_dispatch_masked y) (y_s y)) y.

(** [mie] is the state the caller restores after the loop. *)
(* src: kernel/sysdepend/cpu/core/riscv_esp/cpu_cntl.c 87-108 knl_dispatch *)
Definition knl_dispatch (mie : bool) (y : SYS) : SYS :=
  if 0 <? s_taskindp (y_s y) then y
  else match s_schedtsk (y_s y) with
       | None => set_cpu true INTLEVEL_EI (set_y_loop (<[ctx (y_s y) := Some mie]> (y_loop y)) y)
       | Some _ => set_y_intr0 true y
       end.

(** The end of a round of the loop that finds [knl_schedtsk] set. *)
Definition loop_end (mie : bool) (y : SYS) : SYS :=
  let y := set_y_loop (<[ctx (y_s y) := None]> (y_loop y)) y in
  set_cpu mie (y_level y) (set_y_intr0 true y).

(** [BEGIN_CRITICAL_SECTION; ... END_CRITICAL_SECTION] around the body of a call. *)
(* src: kernel/sysdepend/cpu/core/riscv_esp/cpu_status.h 35-40 END_CRITICAL_SECTION *)
Definition critical (body : SCH → SCH) (y : SYS) : SYS :=
  let y := set_y_s (body (y_s y)) y in
  if bool_decide (s_ctxtsk (y_s y) ≠ s_schedtsk (y_s y)) && (s_dispatch_disabled (y_s y) =? 0)
  then knl_dispatch (y_mie y) y else y.

(* src: kernel/tkernel/cpuctl.c 29-36 tk_dis_dsp *)
Definition tk_dis_dsp (y : SYS) : Z * SYS :=
  if in_loc y then (E_CTX, y)
  else (E_OK, set_y_s (set_s_dispatch_disabled DDS_DISABLE (y_s y)) y).

(** [knl_dispatch] is called outside a critical section: after its loop interrupts
    stay disabled. *)
(* src: kernel/tkernel/cpuctl.c 45-55 tk_ena_dsp *)
Definition tk_ena_dsp (y : SYS) : Z * SYS :=
  if in_loc y then (E_CTX, y)
  else
    let y := set_y_s (set_s_dispatch_disabled DDS_ENABLE (y_s y)) y in
    (E_OK, if bool_decide (s_ctxtsk (y_s y) ≠ s_schedtsk (y_s y)) then knl_dispatch false y else y).

(* src: components/freertos_shim/shim_stubs.c 55-75 rtos_int_enter *)
Definition rtos_int_enter (y : SYS) : SYS :=
  let y := set_y_s (set_s_taskindp (s_taskindp (y_s y) + 1) (y_s y)) y in
  set_y_isr_nest (y_isr_nest y + 1) y.

(** The entry of the dispatch interrupt and its handler. *)
(* src: kernel/sysdepend/cpu/core/riscv_esp/interrupt.c 83-90 dispatch_isr *)
Definition dispatch_isr (y : SYS) : SYS := set_y_intr0 false (rtos_int_enter y).

(** Saving and restoring the threshold around a switch; the stack pointers are the
    contexts of the tasks themselves. *)
Definition switch_to (next : Z) (y : SYS) : SYS :=
  let y := match s_ctxtsk (y_s y) with
           | Some t => set_y_s (upd_tcb t (λ tc, set_t_tskctxb (set_cx_intlevel (y_level y) (t_tskctxb tc)) tc) (y_s y)) y
           | None => y
           end in
  let y := set_y_s (set_s_ctxtsk (Some next) (y_s y)) y in
  set_cpu true (cx_intlevel (t_tskctxb (s_tcb (y_s y) next))) y.

(* src: kernel/sysdepend/cpu/core/riscv_esp/cpu_cntl.c 168-214 __wrap_rtos_int_exit *)
Definition rtos_int_exit (y : SYS) : SYS :=
  let y := set_y_s (set_s_taskindp (s_taskindp (y_s y) - 1) (y_s y)) y in
  let y := set_y_isr_nest (y_isr_nest y - 1) y in
  if negb (y_isr_nest y =? 0) then y
  else if negb (s_taskindp (y_s y) =? 0) then y
  else if negb (s_dispatch_disabled (y_s y) =? 0) then y
  else if bool_decide (s_ctxtsk (y_s y) = s_schedtsk (y_s y)) then y
  else match s_schedtsk (y_s y) with
       | None => y
       | Some next => switch_to next y
       end.

(** The system as [knl_force_dispatch] leaves it at the end of the start-up. *)
(* src: kernel/sysdepend/cpu/core/riscv_esp/cpu_cntl.c 120-138 knl_force_dispatch *)
Definition boot (s : SCH) : SYS := mkSYS (knl_force_dispatch s) 0 true true INTLEVEL_EI (λ _, None).

(** ** What a system call does to the scheduler *)

Record call_post (s s' : SCH) : Prop := {
  cp_kinv : ∃ Q', kinv s' Q';
  cp_ctx : same_ctx s s';
  cp_live : ∀ t, t_state (s_tcb s t) ≠ TS_NONEXIST → t_state (s_tcb s' t) ≠ TS_NONEXIST
}.

(** What a call may rely on: the running task exists, and it is ready when the call
    may make it wait. *)
Record call_pre (s : SCH) (Q : gmap node (list node)) : Prop := {
  pr_kinv : kinv s Q;
  pr_live : ∀ c, s_ctxtsk s = Some c → t_state (s_tcb s c) ≠ TS_NONEXIST;
  pr_ready : in_ddsp s = false → t_state (s_tcb s (ctx s)) = TS_READY
}.

Definition ready_mono (s s' : SCH) : Prop :=
  ∀ t, t_state (s_tcb s t) = TS_READY → t_state (s_tcb s' t) = TS_READY.

(** A body that keeps the scheduler well formed, and one that, called where there is no
    running task to make wait, keeps every ready task ready. *)
Class KeepsKernel (f : SCH → SCH) : Prop := keeps_kernel : ∀ s Q, call_pre s Q → call_post s (f s).
Class KeepsReady (f : SCH → SCH) : Prop :=
  keeps_ready : ∀ s Q, call_pre s Q → in_indp s = true → ready_mono s (f s).

Lemma call_post_refl s Q : kinv s Q → call_post s s.
Proof. intros Hk. constructor; [by exists Q|done|done]. Qed.

Lemma task_post_call t tc s s' Q Q' :
  task_post t tc s s' Q Q' → (t_state (s_tcb s t) ≠ TS_NONEXIST → t_state tc ≠ TS_NONEXIST) → call_post s s'.
Proof.
  intros [Hk _ Ht Hr] Hl. constructor; [by exists Q'|apply Hr|]. intros t' Hne. rewrite Ht. upd_case t t'; auto.
Qed.

Lemma task_post_ready t tc s s' Q Q' :
  task_post t tc s s' Q Q' → (t_state (s_tcb s t) = TS_READY → t_state tc = TS_READY) → ready_mono s s'.
Proof. intros [_ _ Ht _] Hl t' Hr. rewrite Ht. upd_case t t'; auto. Qed.

(** Each call, on every argument and every outcome: the scheduler after it and, where
    it applies, [ready_mono]. *)
Definition ok_call (s s' : SCH) (mono : bool) : Prop := call_post s s' ∧ (mono = true → ready_mono s s').

Lemma ok_call_refl s Q b : kinv s Q → ok_call s s b.
Proof. intros Hk. split; [by eapply call_post_refl|]. by intros _ t. Qed.

Lemma ok_call_task t tc s s' Q Q' b :
  task_post t tc s s' Q Q' → (t_state (s_tcb s t) ≠ TS_NONEXIST → t_state tc ≠ TS_NONEXIST) →
  (b = true → t_state (s_tcb s t) = TS_READY → t_state tc = TS_READY) → ok_call s s' b.
Proof.
  intros Hp H1 H2. split; [by eapply task_post_call|]. intros Hb. by eapply task_post_ready; [|apply H2].
Qed.

Lemma sus_call id s Q : call_pre s Q → ok_call s (tk_sus_tsk id s).2 false.
Proof.
  intros [Hk _ _]. pose proof (ki_task _ _ _ _ Hk (get_tcb id) ltac:(done)) as Hok.
  destruct (CHECK_TSKID id s) eqn:Hc; [unfold tk_sus_tsk; rewrite Hc; by eapply ok_call_refl|].
  destruct (knl_task_alive (t_state (s_tcb s (get_tcb id)))) eqn:Ha;
    [|unfold tk_sus_tsk; rewrite Hc, Ha; by eapply ok_call_refl].
  assert (Hne : t_state (s_tcb s (get_tcb id)) ≠ TS_NONEXIST) by (intros E; by rewrite E in Ha).
  destruct (bool_decide (Some (get_tcb id) = s_ctxtsk s) && (DDS_DISABLE <=? s_dispatch_disabled s)) eqn:Hd;
    [unfold tk_sus_tsk; rewrite Hc, Ha, Hd; by eapply ok_call_refl|].
  pose proof (tk_sus _ _ Hok Hne).
  destruct (Z.eqb_spec (t_suscnt (s_tcb s (get_tcb id))) INT_MAX) as [E|].
  - unfold tk_sus_tsk. rewrite Hc, Ha, Hd, E. simpl. by eapply ok_call_refl.
  - destruct (tk_sus_tsk_post s Q id Hk Hc Ha Hd) as (s' & Q' & -> & Hp); [lia|].
    eapply ok_call_task; [exact Hp| |done]. intros _.
    destruct (suspended_state _ _ Hok Ha) as [E|E]; by rewrite E.
Qed.

Lemma resumed_live n tc : t_state tc ≠ TS_NONEXIST → t_state (resumed n tc) ≠ TS_NONEXIST.
Proof. unfold resumed. simpl. destruct (n =? 0); simpl; [|done]. by do 2 (destruct (_ =? _); [done|]). Qed.

Lemma not_suspended tc t :
  task_ok tc t → t_state tc ≠ TS_NONEXIST →
  (t_state tc =? TS_DORMANT) || (t_state tc =? TS_READY) || (t_state tc =? TS_WAIT) = false →
  t_state tc = TS_SUSPEND ∨ t_state tc = TS_WAITSUS.
Proof.
  intros [Hst _] Hne Hb. rewrite !elem_of_cons, elem_of_nil in Hst.
  destruct Hst as [E|[E|[E|[E|[E|[E|[]]]]]]]; rewrite E in *; try done; auto.
Qed.

Lemma rsm_call id s Q b : call_pre s Q → ok_call s (tk_rsm_tsk id s).2 b.
Proof.
  intros [Hk _ _]. pose proof (ki_task _ _ _ _ Hk (get_tcb id) ltac:(done)) as Hok.
  destruct (CHECK_TSKID id s) eqn:Hc; [unfold tk_rsm_tsk; rewrite Hc; by eapply ok_call_refl|].
  destruct (Z.eqb_spec (t_state (s_tcb s (get_tcb id))) TS_NONEXIST) as [E|Hne];
    [unfold tk_rsm_tsk; rewrite Hc, E; by eapply ok_call_refl|].
  destruct ((t_state (s_tcb s (get_tcb id)) =? TS_DORMANT) || (t_state (s_tcb s (get_tcb id)) =? TS_READY)
    || (t_state (s_tcb s (get_tcb id)) =? TS_WAIT)) eqn:Hb.
  - unfold tk_rsm_tsk. rewrite Hc. destruct (Z.eqb_spec (t_state (s_tcb s (get_tcb id))) TS_NONEXIST); [done|].
    rewrite Hb. by eapply ok_call_refl.
  - pose proof (not_suspended _ _ Hok Hne Hb) as Hst.
    destruct (tk_rsm_tsk_post s Q id Hk Hc Hst) as (s' & Q' & -> & Hp).
    eapply ok_call_task; [exact Hp|apply resumed_live|]. intros _ E. by destruct Hst as [E'|E']; rewrite E' in E.
Qed.

Lemma frsm_call id s Q b : call_pre s Q → ok_call s (tk_frsm_tsk id s).2 b.
Proof.
  intros [Hk _ _]. pose proof (ki_task _ _ _ _ Hk (get_tcb id) ltac:(done)) as Hok.
  destruct (CHECK_TSKID id s) eqn:Hc; [unfold tk_frsm_tsk; rewrite Hc; by eapply ok_call_refl|].
  destruct (Z.eqb_spec (t_state (s_tcb s (get_tcb id))) TS_NONEXIST) as [E|Hne];
    [unfold tk_frsm_tsk; rewrite Hc, E; by eapply ok_call_refl|].
  destruct ((t_state (s_tcb s (get_tcb id)) =? TS_DORMANT) || (t_state (s_tcb s (get_tcb id)) =? TS_READY)
    || (t_state (s_tcb s (get_tcb id)) =? TS_WAIT)) eqn:Hb.
  - unfold tk_frsm_tsk. rewrite Hc. destruct (Z.eqb_spec (t_state (s_tcb s (get_tcb id))) TS_NONEXIST); [done|].
    rewrite Hb. by eapply ok_call_refl.
  - pose proof (not_suspended _ _ Hok Hne Hb) as Hst.
    destruct (tk_frsm_tsk_post s Q id Hk Hc Hst) as (s' & Q' & -> & Hp).
    eapply ok_call_task; [exact Hp|apply resumed_live|]. intros _ E. by destruct Hst as [E'|E']; rewrite E' in E.
Qed.

Lemma released_state tc : t_state (released tc) = TS_READY ∨ t_state (released tc) = TS_SUSPEND.
Proof. unfold released. simpl. destruct (t_state tc =? TS_WAIT); auto. Qed.

Lemma ok_call_release h rel e s s' Q Q' b :
  rel_post h rel e s s' Q Q' → (∀ y, y ∈ rel → waiting (s_tcb s (as_tcb y)) = true) → ok_call s s' b.
Proof.
  intros Hr Hw. split; [constructor|].
  - exists Q'. apply Hr.
  - apply Hr.
  - intros t Ht. rewrite (rp_tcb _ _ _ _ _ _ _ Hr). case_decide; [|done].
    destruct (released_state (s_tcb s t)) as [E|E]; by rewrite E.
  - intros _ t Ht. rewrite (rp_tcb _ _ _ _ _ _ _ Hr). case_decide as Hd; [|done].
    specialize (Hw _ Hd). unfold waiting in Hw. simpl in Hw. by rewrite Ht in Hw.
Qed.

(** A change of the wake-up count. *)
Lemma ok_call_wup f n t s Q b :
  kinv s Q → f (s_tcb s t) = set_t_wupcnt n (s_tcb s t) → (t_state (s_tcb s t) ≠ TS_NONEXIST → 0 <= n <= INT_MAX) →
  ok_call s (upd_tcb t f s) b.
Proof.
  intros Hk Hf Hn. pose proof (ki_task _ _ _ _ Hk t ltac:(done)) as [].
  eapply ok_call_task; [apply (task_post_upd t f s Q); [done|by rewrite Hf..|rewrite Hf; by constructor]|by rewrite Hf..].
Qed.

Lemma wup_call id s Q b : call_pre s Q → ok_call s (tk_wup_tsk id s).2 b.
Proof.
  intros [Hk _ _]. pose proof (ki_task _ _ _ _ Hk (get_tcb id) ltac:(done)) as Hok.
  unfold tk_wup_tsk. destruct (CHECK_TSKID id s); [by eapply ok_call_refl|]. cbv zeta.
  set (t := get_tcb id) in *. destruct (knl_task_alive _) eqn:Ha; simpl negb; cbv iota; [|by eapply ok_call_refl].
  destruct (has (t_state (s_tcb s t)) TS_WAIT && _) eqn:Hw; cbv iota.
  - apply andb_prop in Hw as [Hw _].
    destruct (kinv_release_ercd t E_OK s Q Hk Hw) as (Q' & Hr & _). eapply ok_call_release; [exact Hr|].
    by intros y ->%list_elem_of_singleton.
  - destruct (Z.eqb_spec (t_wupcnt (s_tcb s t)) INT_MAX); [by eapply ok_call_refl|].
    eapply ok_call_wup; [done|done|]. intros Hne. pose proof (tk_wup _ _ Hok Hne). lia.
Qed.

Lemma can_wup_call id s Q b : call_pre s Q → ok_call s (tk_can_wup id s).2 b.
Proof.
  intros [Hk _ _]. unfold tk_can_wup. destruct (CHECK_TSKID_SELF id s); [by eapply ok_call_refl|]. cbv zeta.
  repeat case_match; try by eapply ok_call_refl. by eapply ok_call_wup.
Qed.

Lemma in_indp_ddsp s : in_indp s = true → in_ddsp s = true.
Proof. intros E. unfold in_ddsp. by rewrite E, orb_true_r. Qed.

Lemma ok_call_alone w tmout e s Q :
  w = knl_wspec_slp ∨ w = knl_wspec_dly → call_pre s Q → in_ddsp s = false →
  ok_call s (wait_alone w (knl_make_wait tmout 0) (set_s_ercd e s)) false.
Proof.
  intros Hw [Hk _ Hr] Hd. destruct (kinv_wait_alone w tmout (set_s_ercd e s) Q Hw) as (Q' & [H1 _ _ H4 H5]);
    [by apply kinv_set_ercd|by apply Hr|]. split; [|done]. constructor; [by exists Q'|by etrans; [|apply H5]|].
  intros t Ht. rewrite H4. change (ctx (set_s_ercd e s)) with (ctx s). by upd_case (ctx s) t.
Qed.

Lemma slp_call tmout s Q : call_pre s Q → ok_call s (tk_slp_tsk tmout s).2 (in_ddsp s).
Proof.
  intros Hp. pose proof (pr_kinv _ _ Hp) as Hk. unfold tk_slp_tsk.
  destruct (TMOUT_ERR tmout); [by eapply ok_call_refl|]. destruct (in_ddsp s) eqn:Hd; [by eapply ok_call_refl|].
  cbv zeta. pose proof (ki_task _ _ _ _ Hk (ctx s) ltac:(done)) as Hok. pose proof (pr_ready _ _ Hp Hd) as Hst.
  assert (Hne : t_state (s_tcb s (ctx s)) ≠ TS_NONEXIST) by (by rewrite Hst). pose proof (tk_wup _ _ Hok Hne).
  destruct (Z.ltb_spec 0 (t_wupcnt (s_tcb s (ctx s)))); [eapply ok_call_wup; [done|done|intros; lia]|].
  destruct (negb (tmout =? TMO_POL)); [|by eapply ok_call_refl]. eapply ok_call_alone; eauto.
Qed.

Lemma dly_call dlytim s Q : call_pre s Q → ok_call s (tk_dly_tsk dlytim s).2 (in_ddsp s).
Proof.
  intros Hp. pose proof (pr_kinv _ _ Hp) as Hk. unfold tk_dly_tsk.
  destruct (RELTIM_ERR dlytim); [by eapply ok_call_refl|]. destruct (in_ddsp s) eqn:Hd; [by eapply ok_call_refl|].
  destruct (Z.ltb_spec 0 dlytim); [|by eapply ok_call_refl]. cbv zeta. cbn [snd].
  assert (E : wait_alone knl_wspec_dly (knl_make_wait_reltim dlytim 0) (set_s_ercd (<[ctx s := E_OK]> (s_ercd s)) s) =
    wait_alone knl_wspec_dly (knl_make_wait dlytim 0) (set_s_ercd (<[ctx s := E_OK]> (s_ercd s)) s)).
  { unfold wait_alone. by rewrite make_wait_reltim_eq by (unfold TMO_FEVR; lia). }
  rewrite E. eapply ok_call_alone; eauto.
Qed.

Lemma sta_call id stacd s Q b : call_pre s Q → ok_call s (tk_sta_tsk id stacd s).2 b.
Proof.
  intros [Hk _ _]. destruct (CHECK_TSKID id s) eqn:Hc; [unfold tk_sta_tsk; rewrite Hc; by eapply ok_call_refl|].
  destruct (Z.eqb_spec (t_state (s_tcb s (get_tcb id))) TS_DORMANT) as [E|Hne].
  - destruct (sta_tsk_post s Q id stacd Hk Hc E) as (s' & l & -> & _ & Hp). by eapply ok_call_task; [exact Hp|..].
  - unfold tk_sta_tsk. rewrite Hc. destruct (Z.eqb_spec (t_state (s_tcb s (get_tcb id))) TS_DORMANT); [done|].
    by eapply ok_call_refl.
Qed.

Lemma same_rest_rotate p s : same_rest s (knl_rotate_ready_queue p s).
Proof.
  unfold knl_rotate_ready_queue. etrans; [|apply same_rest_reschedule].
  unfold knl_ready_queue_rotate. repeat case_match; by constructor.
Qed.

Lemma rotate_call p s Q b : kinv s Q → 0 <= p < NUM_TSKPRI → ok_call s (knl_rotate_ready_queue p s) b.
Proof.
  intros Hk Hp. destruct (kinv_rdyq _ _ _ _ p Hk Hp) as [l HQ].
  pose proof (kinv_rotate s Q p l Hk Hp HQ) as Hk'. pose proof (same_rest_rotate p s) as Hr.
  pose proof (rotate_tcb p s) as E.
  split; [constructor; [by eexists|apply Hr|by rewrite E]|]. intros _ t. by rewrite E.
Qed.

Lemma rot_call p s Q b : call_pre s Q → ok_call s (tk_rot_rdq p s).2 b.
Proof.
  intros [Hk Hl _]. unfold tk_rot_rdq. destruct (_ && _) eqn:Hp; [by eapply ok_call_refl|].
  destruct (Z.eqb_spec p TPRI_RUN); [destruct (in_indp s) eqn:Hi|]; cbn [snd].
  - unfold knl_rotate_ready_queue_run. destruct (s_schedtsk s) as [t|] eqn:Es; [|by eapply ok_call_refl].
    apply (rotate_call (top_priority (s_rq s)) s Q b Hk).
    pose proof (ro_top _ _ (ki_rdy _ _ _ _ Hk)). pose proof (ki_sched _ _ _ _ Hk eq_refl) as Hs.
    unfold rdy_head in Hs. destruct (Z.eqb_spec (top_priority (s_rq s)) NUM_TSKPRI); [congruence|lia].
  - eapply rotate_call; [done|]. unfold in_indp in Hi. apply orb_false_elim in Hi as [_ Hi%bool_decide_eq_false].
    destruct (s_ctxtsk s) as [c|] eqn:Ec; [|done]. unfold ctx. rewrite Ec.
    apply (ki_task _ _ _ _ Hk c ltac:(done)). by apply Hl.
  - eapply rotate_call; [done|]. simpl in Hp. apply negb_false_iff in Hp. revert Hp.
    unfold CHK_PRI, int_priority, NUM_TSKPRI. rewrite andb_true_iff, !Z.leb_le. unfold MIN_TSKPRI, MAX_TSKPRI. lia.
Qed.

(** ** The calls of the step relation *)

Inductive call :=
  | c_sta_tsk (tskid stacd : Z) | c_rot_rdq (tskpri : Z)
  | c_sus_tsk (tskid : Z) | c_rsm_tsk (tskid : Z) | c_frsm_tsk (tskid : Z)
  | c_slp_tsk (tmout : Z) | c_wup_tsk (tskid : Z) | c_can_wup (tskid : Z) | c_dly_tsk (dlytim : Z).

Definition run (c : call) (s : SCH) : Z * SCH :=
  match c with
  | c_sta_tsk tskid stacd => tk_sta_tsk tskid stacd s
  | c_rot_rdq tskpri => tk_rot_rdq tskpri s
  | c_sus_tsk tskid => tk_sus_tsk tskid s
  | c_rsm_tsk tskid => tk_rsm_tsk tskid s
  | c_frsm_tsk tskid => tk_frsm_tsk tskid s
  | c_slp_tsk tmout => tk_slp_tsk tmout s
  | c_wup_tsk tskid => tk_wup_tsk tskid s
  | c_can_wup tskid => tk_can_wup tskid s
  | c_dly_tsk dlytim => tk_dly_tsk dlytim s
  end.

Definition body (c : call) (s : SCH) : SCH := (run c s).2.

(** The calls a handler makes here: all but the suspension of a task. *)
Definition for_handler (c : call) : bool := match c with c_sus_tsk _ => false | _ => true end.

Lemma run_call c s Q : call_pre s Q → ok_call s (body c s) (in_ddsp s && for_handler c).
Proof.
  intros Hp. unfold body. destruct c; cbn [run for_handler]; rewrite ?andb_true_r, ?andb_false_r;
    eauto using sta_call, rot_call, sus_call, rsm_call, frsm_call, slp_call, wup_call, can_wup_call, dly_call.
Qed.

#[export] Instance run_keeps_kernel c : KeepsKernel (body c).
Proof. intros s Q Hp. by apply (run_call c s Q). Qed.

Lemma run_keeps_ready c : for_handler c = true → KeepsReady (body c).
Proof.
  intros Hc s Q Hp Hi. apply (run_call c s Q Hp). by rewrite (in_indp_ddsp _ Hi), Hc.
Qed.

(** ** Steps *)

Definition looping (y : SYS) : bool :=
  match s_ctxtsk (y_s y) with Some c => bool_decide (y_loop y c ≠ None) | None => false end.

(** The running task executes: no handler runs, it is not in the loop of the
    dispatcher, and no dispatch interrupt is about to fire. *)
Definition task_runs (y : SYS) : Prop :=
  y_isr_nest y = 0 ∧ is_Some (s_ctxtsk (y_s y)) ∧ looping y = false ∧
  y_intr0 y && negb (knl_is_dispatch_masked y) = false.

Inductive step : SYS → SYS → Prop :=
  | step_call c y : task_runs y → step y (critical (body c) y)
  | step_dis_dsp y : task_runs y → step y (tk_dis_dsp y).2
  | step_ena_dsp y : task_runs y → step y (tk_ena_dsp y).2
  | step_int mie y : task_runs y → step y (set_cpu mie (y_level y) y)
  | step_level level y : task_runs y → step y (set_cpu (y_mie y) level y)
  | step_enter y : 0 <= y_isr_nest y → (y_isr_nest y = 0 → y_mie y = true) → step y (rtos_int_enter y)
  | step_dispatch y : y_intr0 y = true → 0 <= y_isr_nest y →
      (y_isr_nest y = 0 → knl_is_dispatch_masked y = false) → step y (dispatch_isr y)
  | step_handler c y : 0 < y_isr_nest y → for_handler c = true → step y (critical (body c) y)
  | step_exit y : 0 < y_isr_nest y → step y (rtos_int_exit y)
  | step_loop_end c mie y : y_isr_nest y = 0 → s_ctxtsk (y_s y) = Some c → y_loop y c = Some mie →
      s_schedtsk (y_s y) ≠ None → step y (loop_end mie y).

(** ** The invariant of the running system *)

Record sys_ok (y : SYS) : Prop := {
  so_kinv : ∃ Q, kinv (y_s y) Q;
  so_live : ∀ c, s_ctxtsk (y_s y) = Some c → t_state (s_tcb (y_s y) c) ≠ TS_NONEXIST;
  so_masked : s_masked (y_s y) = knl_is_dispatch_masked y;
  so_nest : 0 <= y_isr_nest y ∧ s_taskindp (y_s y) = y_isr_nest y;
  so_dispatch : y_isr_nest y = 0 → s_dispatch_disabled (y_s y) = 0 →
    s_ctxtsk (y_s y) = s_schedtsk (y_s y) ∨ y_intr0 y = true ∨ looping y = true;
  so_none : s_schedtsk (y_s y) = None → s_dispatch_disabled (y_s y) ≠ 0 ∨ looping y = true
}.

(** Where the running task executes with dispatching allowed, it is the one the
    scheduler chose, and it is the top ready task. *)
Lemma sys_ok_running y :
  sys_ok y → task_runs y → in_ddsp (y_s y) = false →
  ∃ Q t, kinv (y_s y) Q ∧ s_ctxtsk (y_s y) = Some t ∧ s_schedtsk (y_s y) = Some t ∧ top_ready (y_s y) Q t.
Proof.
  intros [[Q Hk] _ Hm _ Hd Hn] (Hi & [c Hc] & Hl & Hp) Hdd.
  unfold in_ddsp in Hdd. apply orb_false_elim in Hdd as [[Hdis _]%orb_false_elim Hmask].
  apply negb_false_iff, Z.eqb_eq in Hdis. rewrite <- Hm, Hmask in Hp. simpl in Hp. rewrite andb_true_r in Hp.
  destruct (Hd Hi Hdis) as [E|[E|E]]; [|congruence..].
  exists Q, c. split; [done|]. split; [done|]. rewrite <- E. split; [done|].
  pose proof (kinv_sched_ok _ _ Hk) as Hs. unfold sched_ok in Hs. by rewrite <- E, Hc in Hs.
Qed.

Lemma sys_ok_call_pre y : sys_ok y → (0 < y_isr_nest y ∨ task_runs y) → ∃ Q, call_pre (y_s y) Q.
Proof.
  intros Hy Hor. pose proof Hy as [[Q Hk] Hl _ [_ Hn] _ _]. exists Q. constructor; [done|done|]. intros Hdd.
  destruct Hor as [Hi|Ht].
  - unfold in_ddsp, in_indp in Hdd. rewrite Hn in Hdd. destruct (Z.ltb_spec 0 (y_isr_nest y)); [|lia].
    by rewrite orb_true_r in Hdd.
  - destruct (sys_ok_running y Hy Ht Hdd) as (Q' & t & _ & Hc & _ & Hr & _). unfold ctx. by rewrite Hc.
Qed.

Lemma no_ready s Q : kinv s Q → s_schedtsk s = None ↔ ∀ t, t_state (s_tcb s t) ≠ TS_READY.
Proof.
  intros Hk. pose proof (kinv_sched_ok _ _ Hk) as Hs. unfold sched_ok in Hs.
  destruct (s_schedtsk s) as [t|]; [|done]. split; [done|]. intros Hn. by destruct (Hn t), Hs.
Qed.

Lemma looping_frame y y' :
  s_ctxtsk (y_s y') = s_ctxtsk (y_s y) → y_loop y' = y_loop y → looping y' = looping y.
Proof. intros E1 E2. unfold looping. by rewrite E1, E2. Qed.

(** What the end of a critical section leaves to do. *)
Lemma dispatch_ok mie y :
  (∃ Q, kinv (y_s y) Q) → (∀ c, s_ctxtsk (y_s y) = Some c → t_state (s_tcb (y_s y) c) ≠ TS_NONEXIST) →
  s_masked (y_s y) = knl_is_dispatch_masked y → y_isr_nest y = 0 → s_taskindp (y_s y) = 0 →
  is_Some (s_ctxtsk (y_s y)) → s_dispatch_disabled (y_s y) = 0 → sys_ok (knl_dispatch mie y).
Proof.
  intros [Q Hk] Hl Hm Hi Hn [c Hc] Hd. unfold knl_dispatch. rewrite Hn. simpl.
  destruct (s_schedtsk (y_s y)) as [t|] eqn:Es.
  - constructor; simpl; try done; [by exists Q|lia|auto|congruence].
  - assert (El : looping (set_cpu true INTLEVEL_EI (set_y_loop (<[ctx (y_s y) := Some mie]> (y_loop y)) y)) = true).
    { unfold looping. simpl. rewrite Hc. unfold ctx. rewrite Hc. simpl. by upd_simpl. }
    constructor; simpl; try done; [|lia|auto|auto].
    exists Q. by eapply kinvx_ext; [..|exact Hk].
Qed.

Lemma critical_task_ok f y : KeepsKernel f → sys_ok y → task_runs y → sys_ok (critical f y).
Proof.
  intros Hf Hy Ht. destruct (sys_ok_call_pre y Hy (or_intror Ht)) as [Q Hp].
  destruct (Hf _ _ Hp) as [[Q' Hk'] [E1 E2 E3 E4 _ _] Hlive]. destruct Hy as [_ Hl Hm [Hi0 Hn] Hd Hnone].
  destruct Ht as (Hi & [c Hc] & Hlp & _). unfold critical. cbv zeta. simpl y_s.
  assert (Hl' : ∀ c, s_ctxtsk (f (y_s y)) = Some c → t_state (s_tcb (f (y_s y)) c) ≠ TS_NONEXIST).
  { intros t Et. rewrite E1 in Et. by apply Hlive, Hl. }
  destruct (_ && _) eqn:Hb.
  - apply andb_prop in Hb as [_ Hb%Z.eqb_eq]. apply dispatch_ok; simpl; try done; [by exists Q'|by rewrite E4|congruence|].
    rewrite E1. by eexists.
  - apply andb_false_iff in Hb. constructor; simpl; try done; [by exists Q'|by rewrite E4|by rewrite E3|..].
    + intros _ Hd0. destruct Hb as [Hb|Hb]; [|by rewrite Hd0 in Hb]. left.
      by apply bool_decide_eq_false, dec_stable in Hb.
    + intros Hnone'. left. intros Hd0. destruct Hb as [Hb|Hb]; [|by rewrite Hd0 in Hb].
      apply bool_decide_eq_false, dec_stable in Hb. congruence.
Qed.

Lemma critical_handler_ok f y :
  KeepsKernel f → KeepsReady f → sys_ok y → 0 < y_isr_nest y → sys_ok (critical f y).
Proof.
  intros Hf Hr Hy Hi. destruct (sys_ok_call_pre y Hy (or_introl Hi)) as [Q Hp].
  pose proof (pr_kinv _ _ Hp) as Hk.
  assert (Hin : in_indp (y_s y) = true).
  { unfold in_indp. rewrite (proj2 (so_nest _ Hy)). by destruct (Z.ltb_spec 0 (y_isr_nest y)); [|lia]. }
  pose proof (Hr _ _ Hp Hin) as Hmono. destruct (Hf _ _ Hp) as [[Q' Hk'] [E1 E2 E3 E4 _ _] Hlive].
  destruct Hy as [_ Hl Hm [Hi0 Hn] Hd Hnone].
  assert (Hy' : sys_ok (set_y_s (f (y_s y)) y)).
  { constructor; simpl; try done; [by exists Q'| |by rewrite E4|by rewrite E3|lia|].
    - intros t Et. rewrite E1 in Et. by apply Hlive, Hl.
    - intros Hs. rewrite E2, (looping_frame y) by done. apply Hnone. apply (no_ready _ _ Hk). intros t Ht.
      by apply (proj1 (no_ready _ _ Hk') Hs t), Hmono. }
  unfold critical. cbv zeta. case_match; [|done]. unfold knl_dispatch. simpl.
  rewrite E3, Hn. by destruct (Z.ltb_spec 0 (y_isr_nest y)); [|lia].
Qed.

Lemma set_cpu_ok mie level y : sys_ok y → sys_ok (set_cpu mie level y).
Proof.
  intros [[Q Hk] Hl Hm Hi Hd Hn]. constructor; simpl; try done. exists Q. by eapply kinvx_ext; [..|exact Hk].
Qed.

Lemma set_dispatch_ok d y :
  sys_ok y → task_runs y → d ≠ 0 ∨ s_dispatch_disabled (y_s y) = 0 →
  sys_ok (set_y_s (set_s_dispatch_disabled d (y_s y)) y).
Proof.
  intros [[Q Hk] Hl Hm Hi Hd Hn] (_ & _ & Hlp & _) Hor. constructor; simpl; try done.
  - exists Q. by eapply kinvx_ext; [..|exact Hk].
  - intros Hi0 Hd0. destruct Hor as [|Hor]; [done|]. by apply Hd.
  - intros Hs. destruct (Hn Hs) as [Hd0|E]; [|by right]. destruct Hor as [|]; [by left|done].
Qed.

Lemma ena_dsp_ok y : sys_ok y → task_runs y → sys_ok (tk_ena_dsp y).2.
Proof.
  intros Hy Ht. unfold tk_ena_dsp. destruct (in_loc y); [done|]. cbn [snd]. set (y' := set_y_s _ y).
  destruct Hy as [[Q Hk] Hl Hm [Hi0 Hn] Hd Hnone]. destruct Ht as (Hi & [c Hc] & Hlp & _).
  assert (Hk' : kinv (y_s y') Q) by (by eapply kinvx_ext; [..|exact Hk]).
  case_bool_decide as Hne.
  - apply dispatch_ok; simpl; try done; [by exists Q|first [congruence|by eexists]..].
  - constructor; simpl; try done; [by exists Q|by left|].
    intros Hs. simpl in Hne. congruence.
Qed.

Lemma enter_ok b y :
  sys_ok y → (b = true → y_intr0 y = true) →
  sys_ok (set_y_intr0 b (rtos_int_enter y)).
Proof.
  intros [[Q Hk] Hl Hm [Hi0 Hn] Hd Hnone] Hb. constructor; simpl; try done; [|lia|lia].
  exists Q. by eapply kinvx_ext; [..|exact Hk].
Qed.

Lemma switch_ok next y Q :
  kinv (y_s y) Q → s_schedtsk (y_s y) = Some next → y_isr_nest y = 0 → s_taskindp (y_s y) = 0 →
  sys_ok (switch_to next y).
Proof.
  intros Hk Hs Hi Hn. pose proof (kinv_sched_ok _ _ Hk) as Hso. unfold sched_ok in Hso. rewrite Hs in Hso.
  destruct Hso as [Hst _]. unfold switch_to. set (y1 := match s_ctxtsk (y_s y) with Some _ => _ | None => _ end).
  assert (H1 : kinv (y_s y1) Q ∧ s_schedtsk (y_s y1) = Some next ∧ y_isr_nest y1 = 0 ∧ s_taskindp (y_s y1) = 0 ∧
    t_state (s_tcb (y_s y1) next) = TS_READY).
  { unfold y1. destruct (s_ctxtsk (y_s y)) as [c|]; [|done]. split_and!; simpl; try done.
    - apply kinv_upd_tcb; [done..|]. intros []. by constructor.
    - by upd_case c next. }
  clearbody y1. destruct H1 as (K1 & S1 & I1 & N1 & T1). constructor; simpl; try done.
  - exists Q. by eapply kinvx_ext; [..|exact K1].
  - intros c [= <-]. by rewrite T1.
  - by rewrite I1.
  - by left.
  - congruence.
Qed.

Lemma exit_ok y : sys_ok y → 0 < y_isr_nest y → sys_ok (rtos_int_exit y).
Proof.
  intros [[Q Hk] Hl Hm [_ Hn] Hd Hnone] Hi. unfold rtos_int_exit.
  set (y1 := set_y_isr_nest _ _). cbv zeta.
  assert (K1 : kinv (y_s y1) Q) by (by eapply kinvx_ext; [..|exact Hk]).
  assert (Hbase : (y_isr_nest y1 = 0 → s_dispatch_disabled (y_s y1) = 0 →
    s_ctxtsk (y_s y1) = s_schedtsk (y_s y1) ∨ y_intr0 y1 = true ∨ looping y1 = true) → sys_ok y1).
  { intros Hd1. constructor; try done; [by exists Q|]. simpl. rewrite Hn. lia. }
  destruct (Z.eqb_spec (y_isr_nest y1) 0) as [E|]; cbn [negb]; [|by apply Hbase].
  assert (E2 : s_taskindp (y_s y1) = 0) by (simpl in E |- *; lia). rewrite E2. cbn [negb Z.eqb].
  destruct (Z.eqb_spec (s_dispatch_disabled (y_s y1)) 0) as [E3|]; cbn [negb]; [|by apply Hbase].
  case_bool_decide as Hc; [by apply Hbase; auto|].
  destruct (s_schedtsk (y_s y1)) as [next|] eqn:Es; [by eapply switch_ok|].
  apply Hbase. intros _ _. destruct (Hnone Es) as [|]; [done|]. by right; right.
Qed.

Lemma loop_end_ok c mie y :
  sys_ok y → s_ctxtsk (y_s y) = Some c → s_schedtsk (y_s y) ≠ None → sys_ok (loop_end mie y).
Proof.
  intros [[Q Hk] Hl Hm Hi Hd Hnone] Hc Hs. unfold loop_end. apply set_cpu_ok.
  constructor; simpl; try done; [by exists Q|auto].
Qed.

Lemma step_ok y y' : step y y' → sys_ok y → sys_ok y'.
Proof.
  intros Hst Hy. destruct Hst.
  - by apply critical_task_ok; [apply run_keeps_kernel|..].
  - unfold tk_dis_dsp. destruct (in_loc y); [done|]. by apply set_dispatch_ok; [..|left].
  - by apply ena_dsp_ok.
  - by apply set_cpu_ok.
  - by apply set_cpu_ok.
  - apply (enter_ok (y_intr0 y)) in Hy; [|done]. by destruct y.
  - by apply enter_ok.
  - by apply critical_handler_ok; [apply run_keeps_kernel|apply run_keeps_ready|..].
  - by apply exit_ok.
  - by eapply loop_end_ok.
Qed.

Lemma boot_ok s Q : kinv s Q → s_schedtsk s ≠ None → sys_ok (boot s).
Proof.
  intros Hk Hs. constructor; simpl; try done; [exists Q; by eapply kinvx_ext; [..|exact Hk]|auto].
Qed.

Definition reachable (s : SCH) (y : SYS) : Prop := rtc step (boot s) y.

Lemma reachable_ok s y Q : kinv s Q → s_schedtsk s ≠ None → reachable s y → sys_ok y.
Proof.
  intros Hk Hs Hr. pose proof (boot_ok s Q Hk Hs) as H0. unfold reachable in Hr.
  induction Hr as [|y1 y2 y3 Hst _ IH]; [done|]. by apply IH, (step_ok y1).
Qed.

(** C1: The invariant of the running system.  The runs considered start at the start-up and
    are made of: the nine calls tk_sta_tsk, tk_rot_rdq, tk_sus_tsk, tk_rsm_tsk, tk_frsm_tsk,
    tk_slp_tsk, tk_wup_tsk, tk_can_wup and tk_dly_tsk of the running task, its tk_dis_dsp and
    tk_ena_dsp, its changes of the interrupt state, nested interrupts, the same nine calls
    but tk_sus_tsk made by their handlers, and task switches; no task is created, exits or
    is terminated, no object is used and no time passes.  In every state such a run
    reaches, the rings, the ready queue, its bitmap and [knl_schedtsk] agree with the
    states of the tasks, [knl_taskindp] counts the nested interrupts, and a switch that
    is due is under way: the running task is the scheduled one, or the dispatch interrupt
    is latched, or the task is in the loop of the dispatcher. *)
Theorem reachable_sys_ok (s : SCH) (Q : gmap node (list node)) (y : SYS) :
  kinv s Q → s_schedtsk s ≠ None → reachable s y →
  (∃ Q', kinv (y_s y) Q' ∧ sched_ok (y_s y) Q') ∧
  0 <= y_isr_nest y ∧ s_taskindp (y_s y) = y_isr_nest y ∧
  (y_isr_nest y = 0 → s_dispatch_disabled (y_s y) = 0 →
   s_ctxtsk (y_s y) = s_schedtsk (y_s y) ∨ y_intr0 y = true ∨ looping y = true).
Proof.
  intros Hk Hs Hr. destruct (reachable_ok s y Q Hk Hs Hr) as [[Q' Hk'] _ _ [H1 H2] H3 _].
  split; [exists Q'; split; [done|by apply kinv_sched_ok]|auto].
Qed.

(** Two ready tasks: the first is switched to and goes to sleep, and the switch to the
    second is due. *)
Definition ex_y0 : SYS := rtos_int_exit (dispatch_isr (boot (ex_sch [ex_ready 3; ex_ready 5] [(TIMERQ, [])]))).
Definition ex_y1 : SYS := critical (body (c_slp_tsk 100)) ex_y0.

Lemma ex_reachable_0 : reachable (ex_sch [ex_ready 3; ex_ready 5] [(TIMERQ, [])]) ex_y0.
Proof.
  eapply rtc_l; [apply step_dispatch; by vm_compute|]. apply rtc_once, step_exit. by vm_compute.
Qed.

Lemma ex_reachable_1 : reachable (ex_sch [ex_ready 3; ex_ready 5] [(TIMERQ, [])]) ex_y1.
Proof.
  eapply rtc_r; [apply ex_reachable_0|]. apply step_call.
  split_and!; [by vm_compute|by eexists; vm_compute|by vm_compute|by vm_compute].
Qed.

Lemma reachable_sys_ok_witness :
  (∃ Q', kinv (y_s ex_y1) Q' ∧ sched_ok (y_s ex_y1) Q') ∧
  s_ctxtsk (y_s ex_y1) = Some 0 ∧ s_schedtsk (y_s ex_y1) = Some 1 ∧ y_intr0 ex_y1 = true.
Proof.
  set (tasks := [ex_ready 3; ex_ready 5]). set (s := ex_sch tasks [(TIMERQ, [])]).
  assert (Hk : kinv s (ex_Q tasks [(TIMERQ, [])])) by (apply ex_kinv; by vm_compute).
  destruct (reachable_sys_ok s _ ex_y1 Hk ltac:(by vm_compute) ex_reachable_1) as (H & _).
  split; [exact H|]. split_and!; by vm_compute.
Defined.

(** C2: The task that runs.  In the runs made of the calls tk_sta_tsk, tk_rot_rdq, tk_sus_tsk,
    tk_rsm_tsk, tk_frsm_tsk, tk_slp_tsk, tk_wup_tsk, tk_can_wup and tk_dly_tsk, tk_dis_dsp
    and tk_ena_dsp of the running task, changes of its interrupt state, nested
    interrupts whose handlers make the same nine calls but tk_sus_tsk (they neither suspend
    nor terminate a task: [suspended_task_runs_on] shows what a suspension does), and task
    switches: wherever a task executes and dispatching is neither disabled nor masked, it
    is ready, no ready task has a higher priority, and it is the first of its priority in
    the ready queue. *)
Theorem running_task_is_top (s : SCH) (Q : gmap node (list node)) (y : SYS) :
  kinv s Q → s_schedtsk s ≠ None → reachable s y → task_runs y → in_ddsp (y_s y) = false →
  ∃ Q' t, s_ctxtsk (y_s y) = Some t ∧ kinv (y_s y) Q' ∧ top_ready (y_s y) Q' t.
Proof.
  intros Hk Hs Hr Ht Hd. destruct (sys_ok_running y (reachable_ok s y Q Hk Hs Hr) Ht Hd) as (Q' & t & H1 & H2 & _ & H3).
  by exists Q', t.
Qed.

Lemma running_task_is_top_witness :
  let y := rtos_int_exit (dispatch_isr ex_y1) in
  ∃ Q', kinv (y_s y) Q' ∧ top_ready (y_s y) Q' 1.
Proof.
  intros y. set (tasks := [ex_ready 3; ex_ready 5]). set (s := ex_sch tasks [(TIMERQ, [])]).
  assert (Hk : kinv s (ex_Q tasks [(TIMERQ, [])])) by (apply ex_kinv; by vm_compute).
  assert (Hr : reachable s y).
  { eapply rtc_r; [eapply rtc_r; [apply ex_reachable_1|apply step_dispatch; by vm_compute]|].
    apply step_exit. by vm_compute. }
  destruct (running_task_is_top s _ y Hk ltac:(by vm_compute) Hr) as (Q' & t & H1 & H2 & H3).
  - split_and!; [by vm_compute|by eexists; vm_compute|by vm_compute|by vm_compute].
  - by vm_compute.
  - assert (E : s_ctxtsk (y_s y) = Some 1) by (by vm_compute). clear Hr. clearbody y. rewrite E in H1.
    injection H1 as <-. exists Q'. split; assumption.
Defined.

(** ** What the assumption on the handlers excludes *)

(** C36: A handler that suspends the only ready task.  In any reachable state in which one
    handler runs on top of a task that is not in the loop of the dispatcher, with dispatching enabled and
    no dispatch interrupt about to fire, and in which this task is the only ready one: tk_sus_tsk of the handler on
    the task returns E_OK, and after the end of the interrupt no task is ready, [knl_schedtsk]
    is NULL, no switch was made, and the task goes on executing although its state is TS_SUSPEND. *)
Theorem suspended_task_runs_on (s : SCH) (Q : gmap node (list node)) (y : SYS) (t : Z) :
  kinv s Q → s_schedtsk s ≠ None → reachable s y →
  y_isr_nest y = 1 → s_dispatch_disabled (y_s y) = 0 → looping y = false →
  y_intr0 y && negb (knl_is_dispatch_masked y) = false →
  s_ctxtsk (y_s y) = Some t → (∀ t', t_state (s_tcb (y_s y) t') = TS_READY ↔ t' = t) →
  let c := c_sus_tsk (ID_TSK t) in
  let y' := rtos_int_exit (critical (body c) y) in
  (run c (y_s y)).1 = E_OK ∧ (∀ t', t_state (s_tcb (y_s y') t') ≠ TS_READY) ∧ s_schedtsk (y_s y') = None ∧
  task_runs y' ∧ s_ctxtsk (y_s y') = Some t ∧ t_state (s_tcb (y_s y') t) = TS_SUSPEND.
Proof.
  intros Hk Hs Hr Hi Hd Hl Hp Hc Hready c y'.
  destruct (reachable_ok s y Q Hk Hs Hr) as [[Q1 Hk1] _ Hm [_ Hn] _ _].
  pose proof (proj2 (Hready t) eq_refl) as Hst. pose proof (ki_task _ _ _ _ Hk1 t ltac:(done)) as Hok.
  assert (Hlive : t_state (s_tcb (y_s y) t) ≠ TS_NONEXIST) by (by rewrite Hst).
  pose proof (tk_range _ _ Hok Hlive) as Ht.
  assert (Hsus : t_suscnt (s_tcb (y_s y) t) = 0).
  { pose proof (tk_sus _ _ Hok Hlive). destruct (tk_sus_iff _ _ Hok Hlive) as [Hx _].
    destruct (decide (0 < t_suscnt (s_tcb (y_s y) t))) as [H0|]; [|lia]. by destruct (Hx H0) as [E|E]; rewrite Hst in E. }
  assert (Eg : get_tcb (ID_TSK t) = t) by (unfold get_tcb, INDEX_TSK, ID_TSK; lia).
  destruct (tk_sus_tsk_post (y_s y) Q1 (ID_TSK t) Hk1) as (s1 & Q2 & E & [K1 _ T1 R1]); rewrite ?Eg in *.
  { unfold CHECK_TSKID. assert (CHK_TSKID (ID_TSK t) = true) as ->.
    { unfold CHK_TSKID, ID_TSK. apply andb_true_intro. rewrite !Z.leb_le. unfold MIN_TSKID. lia. }
    destruct (Z.eqb_spec (ID_TSK t) TSK_SELF); [|by rewrite andb_false_r]. unfold ID_TSK, MIN_TSKID, TSK_SELF in *. lia. }
  { by rewrite Hst. }
  { by rewrite Hd, andb_false_r. }
  { rewrite Hsus. by vm_compute. }
  destruct (sr_ctx _ _ R1) as [C1 C2 C3 C4 _ _].
  assert (Est : ∀ t', t_state (s_tcb s1 t') = if decide (t' = t) then TS_SUSPEND else t_state (s_tcb (y_s y) t')).
  { intros t'. rewrite T1. destruct (decide (t' = t)) as [->|]; upd_simpl; [|done]. unfold suspended. by rewrite Hst. }
  assert (Hnr : ∀ t', t_state (s_tcb s1 t') ≠ TS_READY).
  { intros t'. rewrite Est. case_decide; [done|]. by rewrite Hready. }
  pose proof (proj2 (no_ready _ _ K1) Hnr) as Hnone.
  assert (Ey : y' = set_y_isr_nest 0 (set_y_s (set_s_taskindp 0 s1) y)).
  { unfold y', critical, c, body. cbn [run]. rewrite E. cbn [snd]. cbv zeta. simpl y_s. rewrite C1, Hc, Hnone, C2, Hd.
    rewrite bool_decide_eq_true_2 by done. cbn [andb Z.eqb]. unfold knl_dispatch. simpl y_s. rewrite C3, Hn, Hi. simpl.
    unfold rtos_int_exit. simpl. rewrite Hi, C3, Hn, Hi. simpl. rewrite C2, Hd. simpl. rewrite C1, Hc, Hnone.
    by rewrite bool_decide_eq_false_2. }
  rewrite Ey. split_and!; simpl; [unfold c; cbn [run]; by rewrite E|exact Hnr|done| |by rewrite C1|].
  - split_and!; [done|simpl; rewrite C1; by eexists| |done]. rewrite <- Hl. apply looping_frame; [exact C1|done].
  - by rewrite Est, decide_True.
Qed.

(** One task is ready and runs; a handler interrupts it. *)
Definition ex_y2 : SYS := rtos_int_enter (rtos_int_exit (dispatch_isr (boot (ex_sch [ex_ready 3] [(TIMERQ, [])])))).

Lemma suspended_task_runs_on_witness :
  let y' := rtos_int_exit (critical (body (c_sus_tsk 1)) ex_y2) in
  task_runs y' ∧ t_state (s_tcb (y_s y') 0) = TS_SUSPEND.
Proof.
  set (s := ex_sch [ex_ready 3] [(TIMERQ, [])]).
  assert (Hk : kinv s (ex_Q [ex_ready 3] [(TIMERQ, [])])) by (apply ex_kinv; by vm_compute).
  assert (Hr : reachable s ex_y2).
  { eapply rtc_l; [apply step_dispatch; by vm_compute|]. eapply rtc_l; [apply step_exit; by vm_compute|].
    apply rtc_once, step_enter; by vm_compute. }
  assert (Hready : ∀ t', t_state (s_tcb (y_s ex_y2) t') = TS_READY ↔ t' = 0).
  { intros t'. split; [|intros ->; by vm_compute]. intros E. destruct (decide (0 <= t' < NUM_TSKID)) as [Ht|Ht].
    - assert (Hall : forallb (λ t, negb (t_state (s_tcb (y_s ex_y2) t) =? TS_READY) || (t =? 0)) (seqZ 0 NUM_TSKID) = true)
        by (by vm_compute).
      rewrite forallb_forall in Hall. specialize (Hall t' ltac:(by apply list_elem_of_In, elem_of_seqZ)).
      rewrite E in Hall. by apply Z.eqb_eq in Hall.
    - exfalso. apply Ht. destruct (reachable_ok s ex_y2 _ Hk ltac:(by vm_compute) Hr) as [[Q' Hk'] _ _ _ _ _].
      apply (ki_task _ _ _ _ Hk' t' ltac:(done)). by rewrite E. }
  destruct (suspended_task_runs_on s _ ex_y2 0 Hk ltac:(by vm_compute) Hr ltac:(by vm_compute) ltac:(by vm_compute)
    ltac:(by vm_compute) ltac:(by vm_compute) ltac:(by vm_compute) Hready) as (_ & _ & _ & H1 & _ & H2).
  split; [exact H1|exact H2].
Defined.

(** A task that suspends itself by its ID with interrupts disabled is not refused; it
    goes on executing until it enables them. *)
Example suspends_itself_masked :
  let s := ex_sch [ex_ready 3; ex_ready 5] [(TIMERQ, [])] in
  let y0 := set_cpu false INTLEVEL_EI (rtos_int_exit (dispatch_isr (boot s))) in
  let y := critical (body (c_sus_tsk 1)) y0 in
  (run (c_sus_tsk 1) (y_s y0)).1 = E_OK ∧ task_runs y ∧ t_state (s_tcb (y_s y) 0) = TS_SUSPEND.
Proof.
  intros s y0 y. split; [by vm_compute|]. split; [|by vm_compute].
  split_and!; [by vm_compute|by eexists; vm_compute|by vm_compute|by vm_compute].
Qed.
