(* ===== verification/TimeCalls.v ===== *)
(** * Time management: kernel/tkernel/time_calls.c, and the timer interrupt of timer.c

    System time, cyclic handlers, alarm handlers and the interrupt handler that runs
    the due timer events.  The handlers a user registers are code outside the kernel:
    they are the method of [UserHandlers]. *)
From S2P Require Import Prelude Config Queue Kernel ReadyQueue KInv KCheck Task Timer Wait.
From S2P Require Import Mem Semaphore MessageBuf Mutex Hooks.

(** The call of [hdr] with argument [exinf]: what a user's handler does to the kernel. *)
Class UserHandlers := {
  CallUserHandlerP1 : Z → Z → K → K
}.

(* src: include/tk/syscall.h 399-408 T_CCYC *)
Record T_CCYC := mkT_CCYC {
  ccyc_exinf : Z; ccyc_cycatr : Z; ccyc_cychdr : Z; ccyc_cyctim : Z; ccyc_cycphs : Z
}.

(* src: include/tk/syscall.h 413-417 T_RCYC *)
Record T_RCYC := mkT_RCYC { rcyc_exinf : Z; rcyc_lfttim : Z; rcyc_cycstat : Z }.

(* src: include/tk/syscall.h 422-429 T_CALM *)
Record T_CALM := mkT_CALM { calm_exinf : Z; calm_almatr : Z; calm_almhdr : Z }.

(* src: include/tk/syscall.h 434-438 T_RALM *)
Record T_RALM := mkT_RALM { ralm_exinf : Z; ralm_lfttim : Z; ralm_almstat : Z }.

(** ** System time *)

(* src: kernel/tkernel/time_calls.h 22-22 DIFF_TRON_UTC *)
Definition DIFF_TRON_UTC : Z := 473385600000.

(* src: kernel/knlinc/longlong.h 30-30 ll_add *)
Definition ll_add (a b : Z) : Z := s64 (a + b).
(* src: kernel/knlinc/longlong.h 31-31 ll_sub *)
Definition ll_sub (a b : Z) : Z := s64 (a - b).

(* src: kernel/tkernel/time_calls.c 36-45 tk_set_utc *)
Definition tk_set_utc (pk_tim : Z * Z) (s : SCH) : Z * SCH :=
  if negb (0 <=? pk_tim.1) then (E_PAR, s)
  else (E_OK, set_s_real_time_ofs (ll_sub (knl_toLSYSTIM pk_tim) (s_current_time s)) s).

(* src: kernel/tkernel/time_calls.c 52-59 tk_get_utc *)
Definition tk_get_utc (s : SCH) : Z * (Z * Z) :=
  (E_OK, knl_toSYSTIM (ll_add (s_current_time s) (s_real_time_ofs s))).

(* src: kernel/tkernel/time_calls.c 66-78 tk_set_tim *)
Definition tk_set_tim (pk_tim : Z * Z) (s : SCH) : Z * SCH :=
  if negb (0 <=? pk_tim.1) then (E_PAR, s)
  else
    let utc_time := ll_add (knl_toLSYSTIM pk_tim) DIFF_TRON_UTC in
    (E_OK, set_s_real_time_ofs (ll_sub utc_time (s_current_time s)) s).

(* src: kernel/tkernel/time_calls.c 85-96 tk_get_tim *)
Definition tk_get_tim (s : SCH) : Z * (Z * Z) :=
  let utc_time := ll_add (s_current_time s) (s_real_time_ofs s) in
  (E_OK, knl_toSYSTIM (ll_sub utc_time DIFF_TRON_UTC)).

(* src: kernel/tkernel/time_calls.c 103-110 tk_get_otm *)
Definition tk_get_otm (s : SCH) : Z * (Z * Z) := (E_OK, knl_toSYSTIM (s_current_time s)).

(** The debugger's calls also return what the hardware timer reads, [nsec]. *)
(* src: kernel/tkernel/time_calls.c 118-126 td_get_tim *)
Definition td_get_tim (nsec : Z) (s : SCH) : Z * (Z * Z) * Z :=
  (E_OK, knl_toSYSTIM (ll_add (s_current_time s) (s_real_time_ofs s)), nsec).

(* src: kernel/tkernel/time_calls.c 133-141 td_get_otm *)
Definition td_get_otm (nsec : Z) (s : SCH) : Z * (Z * Z) * Z :=
  (E_OK, knl_toSYSTIM (s_current_time s), nsec).

(** ** Cyclic handlers *)

(* src: kernel/tkernel/time_calls.h 42-42 get_cyccb *)
Definition get_cyccb (id : Z) : Z := INDEX_CYC id.

(** The arithmetic of [knl_cyc_next_time], on a time of the last start [t], a cycle
    [c] and the current time [cur]. *)
Definition cyc_next (cur t c : Z) : Z :=
  let tm := u32 (t + c) in
  if knl_abstim_reached cur tm then u32 ((u32 (cur - t) / c + 1) * c + t) else tm.

(* src: kernel/tkernel/time_calls.h 48-61 knl_cyc_next_time *)
Definition knl_cyc_next_time (cyccb : Z) (k : K) : Z :=
  let cur := lltoul (s_current_time (k_s k)) in
  cyc_next cur (tm_time (s_tmeb (k_s k) (TMEBC cyccb))) (cyctim (k_cyc k cyccb)).

(* src: kernel/tkernel/time_calls.h 68-71 knl_cyc_timer_insert *)
Definition knl_cyc_timer_insert (cyccb tm : Z) (k : K) : K :=
  upd_s (knl_timer_insert_abs (TMEBC cyccb) tm (CB_cyc cyccb)) k.

(* src: kernel/tkernel/time_calls.c 161-179 knl_cyclichandler_initialize *)
Definition knl_cyclichandler_initialize (k : K) : Z * K :=
  if NUM_CYCID <? 1 then (E_SYS, k)
  else
    let k := upd_s (upd_q (QueInit FREE_CYC)) k in
    (E_OK, foldl (λ k i,
        let k := upd_cyc i (set_cychdr NULL) k in
        upd_s (upd_q (QueInsert (CYCQ i) FREE_CYC)) k) k (seqZ 0 NUM_CYCID)).

(** [x++] on [knl_taskindp], around a handler called from a system call. *)
(* src: kernel/sysdepend/cpu/core/riscv_esp/cpu_status.h 60-61 knl_EnterTaskIndependent *)
Definition in_task_independent (f : K → K) (k : K) : K :=
  let k := upd_s (λ s, set_s_taskindp (s_taskindp s + 1) s) k in
  let k := f k in
  upd_s (λ s, set_s_taskindp (s_taskindp s - 1) s) k.

Section handlers.
Context `{UserHandlers}.

(* src: kernel/tkernel/time_calls.c 185-194 knl_call_cychdr *)
Definition knl_call_cychdr (cyccb : Z) (k : K) : K :=
  let k := knl_cyc_timer_insert cyccb (knl_cyc_next_time cyccb k) k in
  CallUserHandlerP1 (cyc_exinf (k_cyc k cyccb)) (cychdr (k_cyc k cyccb)) k.

(* src: kernel/tkernel/time_calls.c 199-209 knl_immediate_call_cychdr *)
Definition knl_immediate_call_cychdr (cyccb : Z) (k : K) : K :=
  let k := knl_cyc_timer_insert cyccb (knl_cyc_next_time cyccb k) k in
  in_task_independent
    (λ k, CallUserHandlerP1 (cyc_exinf (k_cyc k cyccb)) (cychdr (k_cyc k cyccb)) k) k.

(* src: kernel/tkernel/time_calls.c 217-224 VALID_CYCATR *)
Definition VALID_CYCATR : Z := Z.lor TA_HLNG (Z.lor TA_STA TA_PHS).

(* src: kernel/tkernel/time_calls.c 214-284 tk_cre_cyc *)
Definition tk_cre_cyc (pk_ccyc : T_CCYC) (k : K) : Z * K :=
  if RSATR_ERR (ccyc_cycatr pk_ccyc) VALID_CYCATR then (E_RSATR, k)
  else if ccyc_cychdr pk_ccyc =? NULL then (E_PAR, k)
  else if negb (0 <? ccyc_cyctim pk_ccyc) then (E_PAR, k)
  else if RELTIM_ERR (ccyc_cyctim pk_ccyc) then (E_PAR, k)
  else
    match QueRemoveNext FREE_CYC (s_q (k_s k)) with
    | (None, q) => (E_LIMIT, upd_s (set_s_q q) k)
    | (Some node, q) =>
        let k := upd_s (set_s_q q) k in
        let cyccb := nd_idx node in
        let k := upd_cyc cyccb (λ cb, mkCYCCB (ccyc_exinf pk_ccyc) (ccyc_cycatr pk_ccyc)
                   (ccyc_cychdr pk_ccyc) (cycstat cb) (ccyc_cyctim pk_ccyc)) k in
        let tm := u32 (lltoul (s_current_time (k_s k)) + ccyc_cycphs pk_ccyc + TIMER_PERIOD) in
        let k :=
          if has (ccyc_cycatr pk_ccyc) TA_STA then
            let k := upd_cyc cyccb (set_cycstat TCYC_STA) k in
            if ccyc_cycphs pk_ccyc =? 0 then
              let k := upd_s (upd_tmeb (TMEBC cyccb) (set_tm_time tm)) k in
              knl_immediate_call_cychdr cyccb k
            else knl_cyc_timer_insert cyccb tm k
          else
            let k := upd_cyc cyccb (set_cycstat TCYC_STP) k in
            upd_s (upd_tmeb (TMEBC cyccb) (set_tm_time tm)) k in
        (ID_CYC cyccb, k)
    end.
End handlers.

(* src: kernel/tkernel/time_calls.c 290-315 tk_del_cyc *)
Definition tk_del_cyc (id : Z) (k : K) : Z * K :=
  if negb (CHK_CYCID id) then (E_ID, k)
  else
    let cyccb := get_cyccb id in
    if cychdr (k_cyc k cyccb) =? NULL then (E_NOEXS, k)
    else
      let k := if has (cycstat (k_cyc k cyccb)) TCYC_STA then upd_s (knl_timer_delete (TMEBC cyccb)) k else k in
      let k := upd_s (upd_q (QueInsert (CYCQ cyccb) FREE_CYC)) k in
      (E_OK, upd_cyc cyccb (set_cychdr NULL) k).

(* src: kernel/tkernel/time_calls.c 322-372 tk_sta_cyc *)
Definition tk_sta_cyc (id : Z) (k : K) : Z * K :=
  if negb (CHK_CYCID id) then (E_ID, k)
  else
    let cyccb := get_cyccb id in
    if cychdr (k_cyc k cyccb) =? NULL then (E_NOEXS, k)
    else
      let cur := lltoul (s_current_time (k_s k)) in
      let k :=
        if has (cycatr (k_cyc k cyccb)) TA_PHS then
          if negb (has (cycstat (k_cyc k cyccb)) TCYC_STA) then
            let tm := tm_time (s_tmeb (k_s k) (TMEBC cyccb)) in
            let tm := if knl_abstim_reached cur tm then knl_cyc_next_time cyccb k else tm in
            knl_cyc_timer_insert cyccb tm k
          else k
        else
          let k := if has (cycstat (k_cyc k cyccb)) TCYC_STA
                   then upd_s (knl_timer_delete (TMEBC cyccb)) k else k in
          let tm := u32 (cur + cyctim (k_cyc k cyccb) + TIMER_PERIOD) in
          knl_cyc_timer_insert cyccb tm k in
      (E_OK, upd_cyc cyccb (λ cb, set_cycstat (Z.lor (cycstat cb) TCYC_STA) cb) k).

(* src: kernel/tkernel/time_calls.c 379-401 tk_stp_cyc *)
Definition tk_stp_cyc (id : Z) (k : K) : Z * K :=
  if negb (CHK_CYCID id) then (E_ID, k)
  else
    let cyccb := get_cyccb id in
    if cychdr (k_cyc k cyccb) =? NULL then (E_NOEXS, k)
    else
      let k := if has (cycstat (k_cyc k cyccb)) TCYC_STA then upd_s (knl_timer_delete (TMEBC cyccb)) k else k in
      (E_OK, upd_cyc cyccb (λ cb, set_cycstat (Z.land (cycstat cb) (Z.lnot TCYC_STA)) cb) k).

(** The time left until [tm], as the [ref] calls report it. *)
(* src: kernel/tkernel/time_calls.c 429-434 tk_ref_cyc *)
Definition lfttim (cur tm : Z) : Z :=
  if knl_abstim_reached (u32 (cur + TIMER_PERIOD)) tm then 0 else u32 (tm - (cur + TIMER_PERIOD)).

(* src: kernel/tkernel/time_calls.c 408-443 tk_ref_cyc *)
Definition tk_ref_cyc (id : Z) (k : K) : Z * option T_RCYC :=
  if negb (CHK_CYCID id) then (E_ID, None)
  else
    let cyccb := get_cyccb id in
    if cychdr (k_cyc k cyccb) =? NULL then (E_NOEXS, None)
    else
      let tm := tm_time (s_tmeb (k_s k) (TMEBC cyccb)) in
      let cur := lltoul (s_current_time (k_s k)) in
      let tm :=
        if negb (has (cycstat (k_cyc k cyccb)) TCYC_STA) then
          if knl_abstim_reached cur tm then knl_cyc_next_time cyccb k else tm
        else tm in
      (E_OK, Some (mkT_RCYC (cyc_exinf (k_cyc k cyccb)) (lfttim cur tm) (cycstat (k_cyc k cyccb)))).

(* src: kernel/tkernel/time_calls.c 482-502 td_lst_cyc *)
Definition td_lst_cyc (nent : Z) (k : K) : Z * list Z :=
  td_lst (λ i, negb (cychdr (k_cyc k i) =? NULL)) ID_CYC NUM_CYCID nent.

(* src: kernel/tkernel/time_calls.c 509-544 td_ref_cyc *)
Definition td_ref_cyc (id : Z) (k : K) : Z * option T_RCYC :=
  if negb (CHK_CYCID id) then (E_ID, None)
  else
    let cyccb := get_cyccb id in
    if cychdr (k_cyc k cyccb) =? NULL then (E_NOEXS, None)
    else
      let tm := tm_time (s_tmeb (k_s k) (TMEBC cyccb)) in
      let cur := lltoul (s_current_time (k_s k)) in
      let tm :=
        if negb (has (cycstat (k_cyc k cyccb)) TCYC_STA) then
          if knl_abstim_reached cur tm then knl_cyc_next_time cyccb k else tm
        else tm in
      (E_OK, Some (mkT_RCYC (cyc_exinf (k_cyc k cyccb)) (lltoul (lfttim cur tm)) (cycstat (k_cyc k cyccb)))).

(** ** Alarm handlers *)

(* src: kernel/tkernel/time_calls.h 92-92 get_almcb *)
Definition get_almcb (id : Z) : Z := INDEX_ALM id.

(* src: kernel/tkernel/time_calls.h 99-108 knl_alm_timer_insert *)
Definition knl_alm_timer_insert (almcb reltim : Z) (k : K) : K :=
  let tm := u32 (lltoul (s_current_time (k_s k)) + reltim + TIMER_PERIOD) in
  upd_s (knl_timer_insert_abs (TMEBA almcb) tm (CB_alm almcb)) k.

(* src: kernel/tkernel/time_calls.c 564-582 knl_alarmhandler_initialize *)
Definition knl_alarmhandler_initialize (k : K) : Z * K :=
  if NUM_ALMID <? 1 then (E_SYS, k)
  else
    let k := upd_s (upd_q (QueInit FREE_ALM)) k in
    (E_OK, foldl (λ k i,
        let k := upd_alm i (set_almhdr NULL) k in
        upd_s (upd_q (QueInsert (ALMQ i) FREE_ALM)) k) k (seqZ 0 NUM_ALMID)).

(* src: kernel/tkernel/time_calls.c 605-610 VALID_ALMATR *)
Definition VALID_ALMATR : Z := TA_HLNG.

(* src: kernel/tkernel/time_calls.c 602-643 tk_cre_alm *)
Definition tk_cre_alm (pk_calm : T_CALM) (k : K) : Z * K :=
  if RSATR_ERR (calm_almatr pk_calm) VALID_ALMATR then (E_RSATR, k)
  else if calm_almhdr pk_calm =? NULL then (E_PAR, k)
  else
    match QueRemoveNext FREE_ALM (s_q (k_s k)) with
    | (None, q) => (E_LIMIT, upd_s (set_s_q q) k)
    | (Some node, q) =>
        let k := upd_s (set_s_q q) k in
        let almcb := nd_idx node in
        let k := upd_alm almcb (λ _, mkALMCB (calm_exinf pk_calm) (calm_almatr pk_calm)
                   (calm_almhdr pk_calm) TALM_STP) k in
        (ID_ALM almcb, k)
    end.

(* src: kernel/tkernel/time_calls.c 649-674 tk_del_alm *)
Definition tk_del_alm (id : Z) (k : K) : Z * K :=
  if negb (CHK_ALMID id) then (E_ID, k)
  else
    let almcb := get_almcb id in
    if almhdr (k_alm k almcb) =? NULL then (E_NOEXS, k)
    else
      let k := if has (almstat (k_alm k almcb)) TALM_STA then upd_s (knl_timer_delete (TMEBA almcb)) k else k in
      let k := upd_s (upd_q (QueInsert (ALMQ almcb) FREE_ALM)) k in
      (E_OK, upd_alm almcb (set_almhdr NULL) k).

Definition almstat_stop (cb : ALMCB) : ALMCB := set_almstat (Z.land (almstat cb) (Z.lnot TALM_STA)) cb.

Section alarm.
Context `{UserHandlers}.

(* src: kernel/tkernel/time_calls.c 588-596 knl_call_almhdr *)
Definition knl_call_almhdr (almcb : Z) (k : K) : K :=
  let k := upd_alm almcb almstat_stop k in
  CallUserHandlerP1 (alm_exinf (k_alm k almcb)) (almhdr (k_alm k almcb)) k.

(* src: kernel/tkernel/time_calls.c 680-689 knl_immediate_call_almhdr *)
Definition knl_immediate_call_almhdr (almcb : Z) (k : K) : K :=
  let k := upd_alm almcb almstat_stop k in
  in_task_independent
    (λ k, CallUserHandlerP1 (alm_exinf (k_alm k almcb)) (almhdr (k_alm k almcb)) k) k.

(* src: kernel/tkernel/time_calls.c 694-728 tk_sta_alm *)
Definition tk_sta_alm (id almtim : Z) (k : K) : Z * K :=
  if negb (CHK_ALMID id) then (E_ID, k)
  else if RELTIM_ERR almtim then (E_PAR, k)
  else
    let almcb := get_almcb id in
    if almhdr (k_alm k almcb) =? NULL then (E_NOEXS, k)
    else
      let k := if has (almstat (k_alm k almcb)) TALM_STA then upd_s (knl_timer_delete (TMEBA almcb)) k else k in
      let k :=
        if 0 <? almtim then
          let k := knl_alm_timer_insert almcb almtim k in
          upd_alm almcb (λ cb, set_almstat (Z.lor (almstat cb) TALM_STA) cb) k
        else knl_immediate_call_almhdr almcb k in
      (E_OK, k).
End alarm.

(* src: kernel/tkernel/time_calls.c 734-756 tk_stp_alm *)
Definition tk_stp_alm (id : Z) (k : K) : Z * K :=
  if negb (CHK_ALMID id) then (E_ID, k)
  else
    let almcb := get_almcb id in
    if almhdr (k_alm k almcb) =? NULL then (E_NOEXS, k)
    else if has (almstat (k_alm k almcb)) TALM_STA then
      let k := upd_s (knl_timer_delete (TMEBA almcb)) k in
      (E_OK, upd_alm almcb almstat_stop k)
    else (E_OK, k).

(* src: kernel/tkernel/time_calls.c 763-797 tk_ref_alm *)
Definition tk_ref_alm (id : Z) (k : K) : Z * option T_RALM :=
  if negb (CHK_ALMID id) then (E_ID, None)
  else
    let almcb := get_almcb id in
    if almhdr (k_alm k almcb) =? NULL then (E_NOEXS, None)
    else
      let cur := lltoul (s_current_time (k_s k)) in
      let tm := if has (almstat (k_alm k almcb)) TALM_STA
                then lfttim cur (tm_time (s_tmeb (k_s k) (TMEBA almcb))) else 0 in
      (E_OK, Some (mkT_RALM (alm_exinf (k_alm k almcb)) tm (almstat (k_alm k almcb)))).

(* src: kernel/tkernel/time_calls.c 836-856 td_lst_alm *)
Definition td_lst_alm (nent : Z) (k : K) : Z * list Z :=
  td_lst (λ i, negb (almhdr (k_alm k i) =? NULL)) ID_ALM NUM_ALMID nent.

(* src: kernel/tkernel/time_calls.c 863-897 td_ref_alm *)
Definition td_ref_alm (id : Z) (k : K) : Z * option T_RALM :=
  if negb (CHK_ALMID id) then (E_ID, None)
  else
    let almcb := get_almcb id in
    if almhdr (k_alm k almcb) =? NULL then (E_NOEXS, None)
    else
      let cur := lltoul (s_current_time (k_s k)) in
      let tm := if has (almstat (k_alm k almcb)) TALM_STA
                then lfttim cur (tm_time (s_tmeb (k_s k) (TMEBA almcb))) else 0 in
      (E_OK, Some (mkT_RALM (alm_exinf (k_alm k almcb)) tm (almstat (k_alm k almcb)))).

(** ** The timer interrupt *)

Section timer_interrupt.
Context `{UserHandlers}.

(** The call of [event->callback] with [event->arg]. *)
(* src: kernel/tkernel/timer.c 177-179 knl_timer_handler *)
Definition run_callback (cb : CBACK) (k : K) : K :=
  match cb with
  | CB_NULL => k
  | CB_tmout tcb => knl_wait_release_tmout tcb k
  | CB_cyc cyccb => knl_call_cychdr cyccb k
  | CB_alm almcb => knl_call_almhdr almcb k
  end.

(** The first event of the queue, when it is due at [cur]. *)
(* src: kernel/tkernel/timer.c 169-174 knl_timer_handler *)
Definition due_event (cur : Z) (k : K) : option node :=
  let q := s_q (k_s k) in
  if isQueEmpty TIMERQ q then None
  else
    let event := qnext q TIMERQ in
    if negb (knl_abstim_reached cur (tm_time (s_tmeb (k_s k) event))) then None else Some event.

(** The while loop; [None] when it does not end within [fuel] events. *)
(* src: kernel/tkernel/timer.c 169-180 knl_timer_handler *)
Fixpoint timer_loop (fuel : nat) (cur : Z) (k : K) : option K :=
  match due_event cur k with
  | None => Some k
  | Some event =>
      match fuel with
      | O => None
      | S fuel =>
          let k := upd_s (upd_q (QueRemove event)) k in
          timer_loop fuel cur (run_callback (tm_callback (s_tmeb (k_s k) event)) k)
      end
  end.

Definition count_time (s : SCH) : SCH :=
  match s_ctxtsk s with
  | None => s
  | Some c =>
      if 0 <? t_sysmode (s_tcb s c)
      then upd_tcb c (λ tc, set_t_stime (u32 (t_stime tc + TIMER_PERIOD)) tc) s
      else upd_tcb c (λ tc, set_t_utime (u32 (t_utime tc + TIMER_PERIOD)) tc) s
  end.

(* src: kernel/tkernel/timer.c 146-185 knl_timer_handler *)
Definition knl_timer_handler (fuel : nat) (k : K) : option K :=
  let k := upd_s (λ s, set_s_current_time (ll_add (s_current_time s) TIMER_PERIOD) s) k in
  let cur := lltoul (s_current_time (k_s k)) in
  let k := upd_s count_time k in
  timer_loop fuel cur k.
End timer_interrupt.

(** ** The system clock *)

Lemma s64_range x : - 2 ^ 63 <= s64 x < 2 ^ 63.
Proof. unfold s64. pose proof (Z.mod_pos_bound (x + 2 ^ 63) (2 ^ 64)). lia. Qed.

Lemma s64_cong x : ∃ q, s64 x = x + q * 2 ^ 64.
Proof.
  unfold s64. exists (- ((x + 2 ^ 63) / 2 ^ 64)). pose proof (Z.div_mod (x + 2 ^ 63) (2 ^ 64)). lia.
Qed.

Lemma s64_shift x q : s64 (x + q * 2 ^ 64) = s64 x.
Proof.
  unfold s64. replace (x + q * 2 ^ 64 + 2 ^ 63) with (x + 2 ^ 63 + q * 2 ^ 64) by lia.
  by rewrite Z.mod_add by lia.
Qed.

Lemma ll_add_sub a b : ll_add b (ll_sub a b) = s64 a.
Proof.
  unfold ll_add, ll_sub. destruct (s64_cong (a - b)) as [q ->].
  replace (b + (a - b + q * 2 ^ 64)) with (a + q * 2 ^ 64) by lia. apply s64_shift.
Qed.

(** A SYSTIM: a signed high and an unsigned low word. *)
Definition systim_ok (t : Z * Z) : Prop := - 2 ^ 31 <= t.1 < 2 ^ 31 ∧ 0 <= t.2 < 2 ^ 32.

Definition systim_val (t : Z * Z) : Z := t.1 * 2 ^ 32 + t.2.

Lemma toLSYSTIM_val t : systim_ok t → knl_toLSYSTIM t = systim_val t.
Proof.
  intros [H1 H2]. unfold knl_toLSYSTIM, systim_val. rewrite Z.shiftl_mul_pow2 by lia.
  rewrite s64_small by lia.
  rewrite <- Z.add_lor_land.
  assert (Z.land (t.1 * 2 ^ 32) t.2 = 0) as ->; [|lia].
  apply Z.bits_inj'. intros n Hn. rewrite Z.land_spec, Z.bits_0.
  destruct (Z.lt_ge_cases n 32); [by rewrite Z.mul_pow2_bits_low|].
  destruct (decide (t.2 = 0)) as [-> |]; [by rewrite Z.bits_0, andb_false_r|].
  rewrite (Z.bits_above_log2 t.2 n); [by rewrite andb_false_r|lia|].
  assert (Z.log2 t.2 < 32); [|lia]. by apply Z.log2_lt_pow2; lia.
Qed.

Lemma toSYSTIM_val x : - 2 ^ 63 <= x < 2 ^ 63 →
  systim_ok (knl_toSYSTIM x) ∧ systim_val (knl_toSYSTIM x) = x.
Proof.
  intros Hx. unfold knl_toSYSTIM. rewrite Z.shiftr_div_pow2 by lia.
  pose proof (Z.div_mod x (2 ^ 32)). pose proof (u32_range x) as Hu.
  assert (- 2 ^ 31 <= x / 2 ^ 32 < 2 ^ 31) as Hd.
  { split; [apply Z.div_le_lower_bound; lia|apply Z.div_lt_upper_bound; lia]. }
  rewrite s32_small by lia. split; [done|]. unfold systim_val. simpl. unfold u32. lia.
Qed.

Definition advance (d : Z) (s : SCH) : SCH := set_s_current_time (s_current_time s + d) s.

Lemma clock_after_set T d s :
  0 <= T → 0 <= d → T + d < 2 ^ 63 →
  let s' := advance d (set_s_real_time_ofs (ll_sub T (s_current_time s)) s) in
  ll_add (s_current_time s') (s_real_time_ofs s') = T + d.
Proof.
  intros HT Hd Hlt. simpl. unfold ll_add, ll_sub. destruct (s64_cong (T - s_current_time s)) as [q ->].
  replace (s_current_time s + d + (T - s_current_time s + q * 2 ^ 64)) with (T + d + q * 2 ^ 64) by lia.
  rewrite s64_shift. apply s64_small. lia.
Qed.

(** The system clock keeps the time it was set to.  [d] milliseconds after
    tk_set_utc set a time, tk_get_utc returns that time plus [d], whatever the operating
    time of the kernel and the old setting; after tk_set_tim, tk_get_tim does, and
    tk_get_utc then returns the same instant on the UTC scale.  A negative time is
    refused with E_PAR and changes nothing. *)
Theorem clock_set_get (t : Z * Z) (d : Z) (s : SCH) :
  systim_ok t → 0 <= d → systim_val t + DIFF_TRON_UTC + d < 2 ^ 63 →
  if 0 <=? t.1 then
    (let s' := advance d (tk_set_utc t s).2 in
     (tk_set_utc t s).1 = E_OK ∧ systim_ok (tk_get_utc s').2 ∧ systim_val (tk_get_utc s').2 = systim_val t + d) ∧
    (let s' := advance d (tk_set_tim t s).2 in
     (tk_set_tim t s).1 = E_OK ∧ systim_ok (tk_get_tim s').2 ∧ systim_val (tk_get_tim s').2 = systim_val t + d ∧
     systim_val (tk_get_utc s').2 = systim_val t + d + DIFF_TRON_UTC)
  else tk_set_utc t s = (E_PAR, s) ∧ tk_set_tim t s = (E_PAR, s).
Proof.
  intros Hok Hd Hlt. unfold tk_set_utc, tk_set_tim.
  destruct (Z.leb_spec 0 t.1) as [H0|H0]; [|done]. cbn [negb fst snd].
  assert (Hv : 0 <= systim_val t) by (destruct Hok; unfold systim_val; lia).
  assert (HD : DIFF_TRON_UTC = 473385600000) by done.
  rewrite toLSYSTIM_val by done. split.
  - unfold tk_get_utc. rewrite clock_after_set by lia. cbn [snd].
    destruct (toSYSTIM_val (systim_val t + d)) as [? ->]; [lia|]. done.
  - unfold tk_get_tim, tk_get_utc. assert (E : ll_add (systim_val t) DIFF_TRON_UTC = systim_val t + DIFF_TRON_UTC)
      by (apply s64_small; lia).
    rewrite E, clock_after_set by lia. cbn [snd].
    replace (ll_sub (systim_val t + DIFF_TRON_UTC + d) DIFF_TRON_UTC) with (systim_val t + d)
      by (unfold ll_sub; rewrite s64_small; lia).
    destruct (toSYSTIM_val (systim_val t + d)) as [? ->]; [lia|].
    destruct (toSYSTIM_val (systim_val t + DIFF_TRON_UTC + d)) as [_ ->]; [lia|]. split_and!; try done. lia.
Qed.

Lemma clock_set_get_witness :
  let s := ex_sch [] [] in
  systim_val (tk_get_utc (advance 5 (tk_set_utc (1, 7) s).2)).2 = 2 ^ 32 + 12.
Proof.
  intros s. destruct (clock_set_get (1, 7) 5 s) as [(_ & _ & H) _]; [by split|lia|by vm_compute|].
  rewrite H. done.
Defined.

(** ** Cyclic start times *)

(** The next start of a cyclic handler.  With the last start at (real) time [t], the
    cycle [c] and the current time [cur], within the range of the 32-bit clock,
    knl_cyc_next_time is the clock value of the earliest [t + m * c] after [cur]: starts
    stay on the grid of the cycle, a late handler skips the starts it missed, and the
    next start is never in the past, although all arithmetic wraps at 2^32. *)
Theorem cyc_next_time_spec (k : K) (cyccb t cur : Z) :
  let c := cyctim (k_cyc k cyccb) in
  lltoul (s_current_time (k_s k)) = u32 cur →
  tm_time (s_tmeb (k_s k) (TMEBC cyccb)) = u32 t →
  0 < c < 2 ^ 31 → cur - 2 ^ 31 < t + c <= cur + 2 ^ 31 →
  ∃ m, 0 < m ∧ knl_cyc_next_time cyccb k = u32 (t + m * c) ∧ cur < t + m * c ∧
    ∀ m', 0 < m' < m → t + m' * c <= cur.
Proof.
  intros c Hcur Ht Hc Hr. unfold knl_cyc_next_time. rewrite Hcur, Ht. fold c. unfold cyc_next.
  rewrite u32_add_l, abstim_reached_spec by done.
  destruct (Z.leb_spec (t + c) cur) as [Hle|Hgt].
  - exists ((cur - t) / c + 1).
    pose proof (Z.div_mod (cur - t) c ltac:(lia)) as Hdm. pose proof (Z.mod_pos_bound (cur - t) c ltac:(lia)).
    assert (0 <= (cur - t) / c) by (apply Z.div_pos; lia).
    split_and!; [lia| |nia|].
    + rewrite u32_sub_l, u32_sub_r, u32_add_r. rewrite (u32_small (cur - t)) by lia. f_equal. lia.
    + intros m' Hm'. nia.
  - exists 1. split_and!; [lia|f_equal; lia|lia|]. intros. lia.
Qed.

Lemma cyc_next_time_spec_witness :
  let k := upd_cyc 0 (λ _, mkCYCCB 0 0 1 1 100) (ex_k (set_s_current_time 50 (ex_sch [] []))) in
  let k := upd_s (upd_tmeb (TMEBC 0) (set_tm_time (2 ^ 32 - 170))) k in
  ∃ m, knl_cyc_next_time 0 k = u32 (-170 + m * 100) ∧ 50 < -170 + m * 100.
Proof.
  intros k k'. destruct (cyc_next_time_spec k' 0 (-170) 50) as (m & _ & H1 & H2 & _);
    [by vm_compute|by vm_compute|by vm_compute|by vm_compute|]. by exists m.
Defined.

(** ** Time-outs *)

Section time_outs.
Context `{UserHandlers}.

(** [y] is the timer event of a task whose time is over at [cur]; its wait has no
    [rel_wai_hook]. *)
Definition times_out (cur : Z) (s : SCH) (y : node) : Prop :=
  ∃ t, y = TMEBT t ∧ tm_callback (s_tmeb s y) = CB_tmout t ∧ knl_abstim_reached cur (tm_time (s_tmeb s y)) = true ∧
       rel_wai_hook (t_wspec (s_tcb s t)) = None.

(** What has happened when the tasks of the events [l] timed out. *)
Record timeout_post (l : list node) (s s' : SCH) (Q Q' : gmap node (list node)) : Prop := {
  to_kinv : kinv s' Q';
  to_tcb : ∀ t, s_tcb s' t = if decide (TMEBT t ∈ l) then released (s_tcb s t) else s_tcb s t;
  to_rest : same_rest s s'
}.

Lemma queued_event_waits s Q t l :
  kinv s Q → Q !! TIMERQ = Some l → TMEBT t ∈ l → waiting (s_tcb s t) = true.
Proof.
  intros Hk HQ Hin. pose proof (ki_tmeb _ _ _ _ Hk t ltac:(done)) as Ht. unfold tmeb_placed in Ht.
  destruct (waiting _); [done|]. exfalso. apply (Ht TIMERQ). exists l. split; [done|by right].
Qed.

(** The callback of a task's event is the release of the task. *)
Lemma time_out_step k Q t l :
  kinv (k_s k) Q → Q !! TIMERQ = Some (TMEBT t :: l) → rel_wai_hook (t_wspec (s_tcb (k_s k) t)) = None →
  ∃ s' Q', run_callback (CB_tmout t) (upd_s (upd_q (QueRemove (TMEBT t))) k) = set_k_s s' k ∧
    timeout_post [TMEBT t] (k_s k) s' Q Q' ∧ Q' !! TIMERQ = Some l.
Proof.
  intros Hk HQ Hh. pose proof (queued_event_waits _ _ t _ Hk HQ ltac:(left)) as Hw.
  destruct (kinv_wait_release t _ Q Hk Hw) as (Q' & Hk' & Ht & Hr & _ & _ & Hti).
  exists (knl_wait_release t (k_s k)), Q'. split; [|split; [|by apply (Hti [] l)]].
  - simpl. unfold knl_wait_release_tmout.
    change (run_rel_wai_hook t (set_k_s (knl_wait_release t (k_s k)) k) = set_k_s (knl_wait_release t (k_s k)) k).
    unfold run_rel_wai_hook. change (s_tcb (k_s (set_k_s ?s k))) with (s_tcb s). rewrite Ht, fn_lookup_insert.
    unfold released. simpl. by rewrite Hh.
  - constructor; [done| |done]. intros t'. rewrite Ht. upd_case t t'; [by rewrite decide_True by left|].
    rewrite decide_False; [done|]. intros [[=]|[]%not_elem_of_nil]%elem_of_cons. congruence.
Qed.

Lemma timer_loop_spec cur l1 : ∀ fuel k Q l2,
  kinv (k_s k) Q → Q !! TIMERQ = Some (l1 ++ l2) → Forall (times_out cur (k_s k)) l1 →
  match l2 with [] => True | y :: _ => knl_abstim_reached cur (tm_time (s_tmeb (k_s k) y)) = false end →
  (length l1 ≤ fuel)%nat →
  ∃ s' Q', timer_loop fuel cur k = Some (set_k_s s' k) ∧ timeout_post l1 (k_s k) s' Q Q' ∧ Q' !! TIMERQ = Some l2.
Proof.
  induction l1 as [|y l1 IH]; intros fuel k Q l2 Hk HQ Hl1 Hl2 Hf; pose proof (ki_qwf _ _ _ _ Hk) as Hw.
  - exists (k_s k), Q. split; [|split; [by constructor|done]].
    assert (due_event cur k = None) as E; [|destruct fuel; simpl; rewrite E; by destruct k].
    unfold due_event. rewrite (qwf_isQueEmpty _ _ _ _ Hw HQ), (qwf_head _ _ _ _ Hw HQ).
    destruct l2 as [|z l2]; simpl; [done|]. by rewrite Hl2.
  - apply Forall_cons in Hl1 as [(t & -> & Hcb & Hdue & Hh) Hl1]. simpl in HQ, Hf. destruct fuel as [|fuel]; [lia|].
    assert (due_event cur k = Some (TMEBT t)) as E.
    { unfold due_event. rewrite (qwf_isQueEmpty _ _ _ _ Hw HQ), (qwf_head _ _ _ _ Hw HQ). simpl. by rewrite Hdue. }
    simpl. rewrite E. change (s_tmeb (upd_q (QueRemove (TMEBT t)) (k_s k))) with (s_tmeb (k_s k)). rewrite Hcb.
    destruct (time_out_step k Q t (l1 ++ l2) Hk HQ Hh) as (s1 & Q1 & -> & [K1 T1 R1] & HQ1).
    assert (Hnd : TMEBT t ∉ l1).
    { assert (NoDup (TMEBT t :: l1 ++ l2)) as [Hn _]%NoDup_cons by (eapply qwf_NoDup; [exact Hw|exact HQ]).
      intros Hi. apply Hn, elem_of_app. by left. }
    destruct (IH fuel (set_k_s s1 k) Q1 l2 K1 HQ1) as (s2 & Q2 & E2 & [K2 T2 R2] & HQ2); [| |lia|].
    + apply Forall_forall. intros z Hz. rewrite Forall_forall in Hl1.
      destruct (Hl1 z Hz) as (t' & -> & ?). exists t'. simpl. rewrite (sr_tmeb _ _ R1), T1.
      rewrite decide_False; [done|]. intros [[= ->]|[]%not_elem_of_nil]%elem_of_cons. done.
    + destruct l2; [done|]. simpl. by rewrite (sr_tmeb _ _ R1).
    + exists s2, Q2. rewrite E2. split; [by destruct k|]. split; [|done]. constructor; [done| |by etrans].
      intros t'. rewrite T2. simpl. rewrite T1. destruct (decide (t' = t)) as [->|Hne].
      * by rewrite decide_False, !decide_True by (done || left).
      * rewrite (decide_False (P := TMEBT t' ∈ [TMEBT t])); [|intros [[=]|[]%not_elem_of_nil]%elem_of_cons; congruence].
        destruct (decide (TMEBT t' ∈ l1)) as [Hi|Hi]; [by rewrite decide_True by (by right)|].
        rewrite decide_False; [done|]. intros [[=]|]%elem_of_cons; [congruence|done].
Qed.

(** Counting the time of the running task changes nothing the scheduler reads. *)
Lemma count_time_spec s Q :
  kinv s Q → kinv (count_time s) Q ∧ s_tmeb (count_time s) = s_tmeb s ∧ same_rest s (count_time s) ∧
  ∀ t, t_state (s_tcb (count_time s) t) = t_state (s_tcb s t) ∧ t_wspec (s_tcb (count_time s) t) = t_wspec (s_tcb s t) ∧
       t_priority (s_tcb (count_time s) t) = t_priority (s_tcb s t).
Proof.
  intros Hk. unfold count_time. destruct (s_ctxtsk s) as [c|]; [|done].
  destruct (0 <? t_sysmode (s_tcb s c)); (split; [apply kinv_upd_tcb; [done..|]; intros []; by constructor|]);
    (split; [done|]); (split; [by constructor|]); intros t; simpl; by upd_case c t.
Qed.

(** C11: The timer interrupt, when the due events at the head of the timer queue are time-outs of
    tasks whose wait has no release hook (sleeping and delayed tasks, those that wait for an
    event flag, a mailbox, a message to receive, a block of a fixed-size pool, a rendezvous or
    a mutex without inheritance; not those that wait for a semaphore, to send a message, for
    a block of a variable-size pool or for a mutex with inheritance, where a release may let
    other tasks go on).  The handler ends, with the clock one period further; exactly these
    tasks are released (to ready, or to suspended), their results stay the ones their calls
    prepared, the other events stay queued, and the task to run is again the top ready
    task. *)
Theorem timer_handler_expires (k : K) (Q : gmap node (list node)) (l1 l2 : list node) :
  let now := ll_add (s_current_time (k_s k)) TIMER_PERIOD in
  let cur := lltoul now in
  kinv (k_s k) Q → Q !! TIMERQ = Some (l1 ++ l2) → Forall (times_out cur (k_s k)) l1 →
  match l2 with [] => True | y :: _ => knl_abstim_reached cur (tm_time (s_tmeb (k_s k) y)) = false end →
  ∃ k' Q', knl_timer_handler TFUEL k = Some k' ∧ kinv (k_s k') Q' ∧ sched_ok (k_s k') Q' ∧
    Q' !! TIMERQ = Some l2 ∧ s_current_time (k_s k') = now ∧ s_ercd (k_s k') = s_ercd (k_s k) ∧
    ∀ t, t_state (s_tcb (k_s k') t) =
         if decide (TMEBT t ∈ l1) then (if t_state (s_tcb (k_s k) t) =? TS_WAIT then TS_READY else TS_SUSPEND)
         else t_state (s_tcb (k_s k) t).
Proof.
  intros now cur Hk HQ Hl1 Hl2. set (s0 := set_s_current_time now (k_s k)).
  assert (Hk0 : kinv s0 Q) by (by eapply kinvx_ext; [..|exact Hk]).
  destruct (count_time_spec s0 Q Hk0) as (Hk1 & Em & Hr1 & Hf). set (s1 := count_time s0) in *.
  destruct (timer_loop_spec cur l1 TFUEL (set_k_s s1 k) Q l2 Hk1 HQ) as (s' & Q' & E & [K' T' R'] & HQ').
  - eapply Forall_impl; [exact Hl1|]. intros y (t & -> & H1 & H2 & H3). exists t. simpl.
    rewrite Em. destruct (Hf t) as (_ & -> & _). done.
  - simpl. by rewrite Em.
  - assert (length (l1 ++ l2) ≤ TFUEL)%nat as Hle by (etrans; [by eapply kinvx_length_timer|unfold TFUEL; lia]).
    rewrite length_app in Hle. lia.
  - exists (set_k_s s' (set_k_s s1 k)), Q'. split; [exact E|]. split; [done|].
    split; [by apply kinv_sched_ok|]. split; [done|]. simpl in R' |- *.
    split; [rewrite (sc_time _ _ (sr_ctx _ _ R')), (sc_time _ _ (sr_ctx _ _ Hr1)); done|].
    split; [by rewrite (sr_ercd _ _ R'), (sr_ercd _ _ Hr1)|].
    intros t. rewrite T'. simpl. destruct (Hf t) as (Ef & _ & _). change (s_tcb s0 t) with (s_tcb (k_s k) t) in Ef.
    case_decide; [|done]. unfold released. simpl. by rewrite Ef.
Qed.
End time_outs.

(** Tasks 1 and 2 sleep; only task 1's time is over at the next tick. *)
Lemma timer_handler_expires_witness :
  let tasks := [ex_ready 3; ex_waits 1 2 knl_wspec_slp 0 WI_none; ex_waits 2 2 knl_wspec_slp 0 WI_none] in
  let objs := [(TIMERQ, [TMEBT 1; TMEBT 2]); (TSKQ 1, []); (TSKQ 2, [])] in
  let s := upd_tmeb (TMEBT 1) (λ _, mkTMEB 100 (CB_tmout 1)) (upd_tmeb (TMEBT 2) (λ _, mkTMEB 200 (CB_tmout 2))
             (set_s_current_time 99 (ex_sch tasks objs))) in
  let h := Build_UserHandlers (λ _ _ k, k) in
  ∃ k' (Q' : gmap node (list node)), knl_timer_handler TFUEL (ex_k s) = Some k' ∧ Q' !! TIMERQ = Some [TMEBT 2] ∧
    t_state (s_tcb (k_s k') 1) = TS_READY ∧ t_state (s_tcb (k_s k') 2) = TS_WAIT.
Proof.
  intros tasks objs s h.
  assert (Hk : kinv (k_s (ex_k s)) (ex_Q tasks objs)).
  { eapply kinvx_ext; [..|apply (ex_kinv tasks objs)]; [done..|by vm_compute]. }
  destruct (timer_handler_expires (ex_k s) _ [TMEBT 1] [TMEBT 2] Hk) as (k' & Q' & H1 & _ & _ & H2 & _ & _ & H3).
  - by vm_compute.
  - apply Forall_singleton. exists 1. by vm_compute.
  - by vm_compute.
  - exists k', Q'. split; [done|]. split; [done|]. rewrite !H3. by vm_compute.
Defined.
