(* ===== verification/Interrupt.v ===== *)
(** * Interrupts: kernel/tkernel/int.c, and interrupt.c and sys_timer.c of the port

    The table of user interrupt handlers over the vendor's interrupt allocator, and the
    system timer, which turns readings of a hardware counter into ticks of the kernel.
    The allocator and the counter are parameters. *)
From S2P Require Import Prelude Config Queue Kernel ReadyQueue KInv KCheck Task Timer Mem Semaphore TimeCalls.

(* src: include/sys/sysdepend/cpu/esp32c3/sysdef.h 37-37 N_INTVEC *)
Definition N_INTVEC : Z := 62.
(* src: include/tk/syscall.h 28-28 TA_ASM *)
Definition TA_ASM : Z := 0.

(** The functions that are registered with the allocator. *)
Inductive isr := ISR_dispatch | ISR_user | ISR_systim | ISR_driver (n : Z).

(** The interrupt allocator of ESP-IDF: [esp_intr_alloc] takes a source, flags, the
    function and its argument, and gives a handle (not NULL) or fails. *)
Class EspIntr (V : Type) := {
  esp_intr_alloc : Z → Z → isr → Z → V → option Z * V;
  esp_intr_free : Z → V → V;
  esp_intr_enable : Z → V → V;
  esp_intr_disable : Z → V → V;
  ESP_INTR_FLAG_LEVEL1 : Z;
  ESP_INTR_FLAG_LEVEL2 : Z;
  ESP_INTR_FLAG_LEVEL3 : Z;
  ESP_INTR_FLAG_INTRDISABLED : Z;
  ETS_FROM_CPU_INTR0_SOURCE : Z;
  ETS_SYSTIMER_TARGET0_EDGE_INTR_SOURCE : Z
}.

(** The registers of the system timer, as the program reads them one after the other:
    the [n]th access finds the latched value [latched n]; each snapshot, also one an
    interrupt takes between two accesses, latches a later value.  [CONFIG_ESP_INT_WDT]
    is the build option. *)
Class Systimer := {
  latched : nat → Z;
  latch_valid : nat → bool;
  systimer_us_to_ticks : Z → Z;
  CONFIG_ESP_INT_WDT : bool
}.

(** Calls of the vendor's code that change nothing else of the state, in order. *)
Inductive hw :=
  | HW_enable_counter (b : bool)
  | HW_enable_alarm (b : bool)
  | HW_enable_alarm_int (b : bool)
  | HW_set_counter_value (v : Z)
  | HW_apply_counter_value
  | HW_connect_alarm_counter
  | HW_set_alarm_period (v : Z)
  | HW_enable_alarm_period
  | HW_apply_alarm_value
  | HW_clear_alarm_int
  | HW_clear_cross_core
  | HW_wdt_init
  | HW_wdt_cpu_init
  | HW_tick_hook
  | HW_printf.

(* src: kernel/sysdepend/cpu/core/riscv_esp/interrupt.c 58-63 knl_user_int_t *)
Record knl_user_int_t := mkUINT { ui_hdr : Z; ui_atr : Z; ui_handle : Z; ui_level : Z }.

(* src: include/tk/syscall.h 344-347 T_DINT *)
Record T_DINT := mkT_DINT { dint_intatr : Z; dint_inthdr : Z }.

(** [ir_nest] is knl_isr_nest, [ir_tbl] knl_user_int_tbl; [ir_t] counts the accesses to the
    timer's registers, [ir_v] is the state of the allocator. *)
(* src: kernel/sysdepend/cpu/core/riscv_esp/sys_timer.c 43-45 systim_intr_handle *)
Record IR (V : Type) := mkIR {
  ir_k : K; ir_nest : Z; ir_tbl : Z → knl_user_int_t; ir_dispatch : Z; ir_systim : Z;
  ir_period : Z; ir_last : Z; ir_slip : Z; ir_hw : list hw; ir_t : nat; ir_v : V
}.
Arguments mkIR {V}. Arguments ir_k {V}. Arguments ir_nest {V}. Arguments ir_tbl {V}. Arguments ir_dispatch {V}.
Arguments ir_systim {V}. Arguments ir_period {V}. Arguments ir_last {V}. Arguments ir_slip {V}. Arguments ir_hw {V}.
Arguments ir_t {V}. Arguments ir_v {V}.

Section setters.
Context {V : Type}.
Implicit Types s : IR V.

Definition set_ir_k k (s : IR V) : IR V := mkIR k (ir_nest s) (ir_tbl s) (ir_dispatch s) (ir_systim s) (ir_period s) (ir_last s) (ir_slip s) (ir_hw s) (ir_t s) (ir_v s).
Definition set_ir_tbl t (s : IR V) : IR V := mkIR (ir_k s) (ir_nest s) t (ir_dispatch s) (ir_systim s) (ir_period s) (ir_last s) (ir_slip s) (ir_hw s) (ir_t s) (ir_v s).
Definition set_ir_period p (s : IR V) : IR V := mkIR (ir_k s) (ir_nest s) (ir_tbl s) (ir_dispatch s) (ir_systim s) p (ir_last s) (ir_slip s) (ir_hw s) (ir_t s) (ir_v s).
Definition set_ir_last l (s : IR V) : IR V := mkIR (ir_k s) (ir_nest s) (ir_tbl s) (ir_dispatch s) (ir_systim s) (ir_period s) l (ir_slip s) (ir_hw s) (ir_t s) (ir_v s).
Definition set_ir_slip n (s : IR V) : IR V := mkIR (ir_k s) (ir_nest s) (ir_tbl s) (ir_dispatch s) (ir_systim s) (ir_period s) (ir_last s) n (ir_hw s) (ir_t s) (ir_v s).
Definition hwcall c (s : IR V) : IR V := mkIR (ir_k s) (ir_nest s) (ir_tbl s) (ir_dispatch s) (ir_systim s) (ir_period s) (ir_last s) (ir_slip s) (ir_hw s ++ [c]) (ir_t s) (ir_v s).
Definition set_ir_t t (s : IR V) : IR V := mkIR (ir_k s) (ir_nest s) (ir_tbl s) (ir_dispatch s) (ir_systim s) (ir_period s) (ir_last s) (ir_slip s) (ir_hw s) t (ir_v s).
Definition set_ir_v v (s : IR V) : IR V := mkIR (ir_k s) (ir_nest s) (ir_tbl s) (ir_dispatch s) (ir_systim s) (ir_period s) (ir_last s) (ir_slip s) (ir_hw s) (ir_t s) v.
Definition upd_ui (n : Z) (f : knl_user_int_t → knl_user_int_t) (s : IR V) : IR V := set_ir_tbl (<[n := f (ir_tbl s n)]> (ir_tbl s)) s.
End setters.

Definition set_ui_hdr v e := mkUINT v (ui_atr e) (ui_handle e) (ui_level e).
Definition set_ui_atr v e := mkUINT (ui_hdr e) v (ui_handle e) (ui_level e).
Definition set_ui_handle v e := mkUINT (ui_hdr e) (ui_atr e) v (ui_level e).
Definition set_ui_level v e := mkUINT (ui_hdr e) (ui_atr e) (ui_handle e) v.

(** ** User interrupt handlers *)

Section user_int.
Context {V : Type} `{EspIntr V}.
Implicit Types s : IR V.

(* src: kernel/sysdepend/cpu/core/riscv_esp/interrupt.c 83-90 dispatch_isr *)
Definition dispatch_isr s : IR V := hwcall HW_clear_cross_core s.

(* src: kernel/sysdepend/cpu/core/riscv_esp/interrupt.c 148-158 knl_esp_intr_level_flag *)
Definition knl_esp_intr_level_flag (level : Z) : Z :=
  if level =? 2 then ESP_INTR_FLAG_LEVEL2 else if level =? 3 then ESP_INTR_FLAG_LEVEL3 else ESP_INTR_FLAG_LEVEL1.

(* src: kernel/sysdepend/cpu/core/riscv_esp/interrupt.c 163-164 alloc_level *)
Definition clamp_level (level : Z) : Z := if 3 <=? level then 3 else if level =? 2 then 2 else 1.
Definition int_flags (level : Z) : Z := Z.lor (knl_esp_intr_level_flag level) ESP_INTR_FLAG_INTRDISABLED.

(** The old handle is given back. *)
(* src: kernel/sysdepend/cpu/core/riscv_esp/interrupt.c 185-188 knl_alloc_user_int *)
Definition free_handle (intno : Z) s : IR V :=
  if negb (ui_handle (ir_tbl s intno) =? NULL) then
    upd_ui intno (set_ui_handle NULL) (set_ir_v (esp_intr_free (ui_handle (ir_tbl s intno)) (ir_v s)) s)
  else s.

(** A new handle is requested and stored. *)
(* src: kernel/sysdepend/cpu/core/riscv_esp/interrupt.c 190-203 knl_alloc_user_int *)
Definition new_handle (intno alloc_level : Z) s : Z * IR V :=
  match esp_intr_alloc intno (int_flags alloc_level) ISR_user intno (ir_v s) with
  | (None, v) => (E_SYS, upd_ui intno (λ e, set_ui_level 0 (set_ui_handle NULL e)) (hwcall HW_printf (set_ir_v v s)))
  | (Some h, v) => (E_OK, upd_ui intno (λ e, set_ui_level alloc_level (set_ui_handle h e)) (set_ir_v v s))
  end.

(* src: kernel/sysdepend/cpu/core/riscv_esp/interrupt.c 179-179 knl_isr_nest *)
Definition in_isr s : bool := (0 <? ir_nest s) || (0 <? s_taskindp (k_s (ir_k s))).

(* src: kernel/sysdepend/cpu/core/riscv_esp/interrupt.c 160-204 knl_alloc_user_int *)
Definition knl_alloc_user_int (intno level : Z) s : Z * IR V :=
  let e := ir_tbl s intno in
  if ui_hdr e =? NULL then (E_NOEXS, s)
  else if negb (ui_handle e =? NULL) && (ui_level e =? clamp_level level) then (E_OK, s)
  else if in_isr s then (E_CTX, hwcall HW_printf s)
  else new_handle intno (clamp_level level) (free_handle intno s).

(* src: kernel/sysdepend/cpu/core/riscv_esp/interrupt.c 224-251 knl_define_inthdr *)
Definition knl_define_inthdr (intno intatr inthdr : Z) s : Z * IR V :=
  let s := free_handle intno s in
  let s := upd_ui intno (λ e, set_ui_level 0 (set_ui_atr 0 (set_ui_hdr NULL e))) s in
  if inthdr =? NULL then (E_OK, s)
  else
    let s := upd_ui intno (λ e, set_ui_atr intatr (set_ui_hdr inthdr e)) s in
    let '(er, s) := knl_alloc_user_int intno 1 s in
    if negb (er =? E_OK) then (er, upd_ui intno (λ e, set_ui_atr 0 (set_ui_hdr NULL e)) s) else (er, s).

(* src: kernel/tkernel/int.c 26-51 tk_def_int *)
Definition tk_def_int (intno : Z) (pk_dint : option T_DINT) s : Z * IR V :=
  if negb (intno <? N_INTVEC) then (E_PAR, s)
  else
    match pk_dint with
    | Some p =>
        if RSATR_ERR (dint_intatr p) (Z.lor TA_HLNG TA_ASM) then (E_RSATR, s)
        else knl_define_inthdr intno (dint_intatr p) (dint_inthdr p) s
    | None => knl_define_inthdr intno 0 NULL s
    end.

(* src: kernel/sysdepend/cpu/core/riscv_esp/interrupt.c 253-256 knl_return_inthdr *)
Definition knl_return_inthdr s : IR V := s.

(* src: kernel/tkernel/int.c 57-61 tk_ret_int *)
Definition tk_ret_int s : IR V := knl_return_inthdr s.

(* src: kernel/sysdepend/cpu/core/riscv_esp/interrupt.c 303-312 EnableInt *)
Definition EnableInt (intno level : Z) s : IR V :=
  if N_INTVEC <=? intno then s
  else
    let '(er, s) := knl_alloc_user_int intno level s in
    if negb (er =? E_OK) then s
    else
      let h := ui_handle (ir_tbl s intno) in
      if negb (h =? NULL) then set_ir_v (esp_intr_enable h (ir_v s)) s else s.


(* src: kernel/sysdepend/cpu/core/riscv_esp/interrupt.c 321-324 ClearInt *)
Definition ClearInt (intno : Z) s : IR V := s.
(* src: kernel/sysdepend/cpu/core/riscv_esp/interrupt.c 326-329 EndOfInt *)
Definition EndOfInt (intno : Z) s : IR V := s.

(** The two status registers are [status 0] and [status 1]. *)
(* src: kernel/sysdepend/cpu/core/riscv_esp/interrupt.c 331-345 CheckInt *)
Definition CheckInt (status : Z → Z) (intno : Z) : bool :=
  if N_INTVEC <=? intno then false
  else
    let reg := if intno <? 32 then 0 else 1 in
    negb (Z.land (Z.shiftr (status reg) (Z.land intno 31)) 1 =? 0).

(** [call hdr arg] is the user's handler; it gets the number of the interrupt or nothing. *)
(* src: kernel/sysdepend/cpu/core/riscv_esp/interrupt.c 132-146 knl_user_int_trampoline *)
Definition knl_user_int_trampoline (call : Z → option Z → IR V → IR V) (intno : Z) s : IR V :=
  let e := ir_tbl s intno in
  let hdr := ui_hdr e in
  if hdr =? NULL then s
  else
    let s := set_ir_k (upd_s (λ c, set_s_taskindp (s_taskindp c + 1) c) (ir_k s)) s in
    let s := if negb (Z.land (ui_atr e) TA_HLNG =? 0) then call hdr (Some intno) s else call hdr None s in
    set_ir_k (upd_s (λ c, set_s_taskindp (s_taskindp c - 1) c) (ir_k s)) s.

Context `{Systimer}.


(** ** The system timer *)


(* src: kernel/sysdepend/cpu/core/riscv_esp/sys_timer.c 89-92 knl_clear_hw_timer_interrupt_impl *)
Definition knl_clear_hw_timer_interrupt_impl s : IR V := hwcall HW_clear_alarm_int s.


(** The two halves of the value the [n]th access finds. *)
Definition systimer_low (n : nat) : Z := latched n mod 2 ^ 32.
Definition systimer_high (n : nat) : Z := latched n / 2 ^ 32.

(* src: kernel/sysdepend/cpu/core/riscv_esp/sys_timer.c 112-113 systim_get_counter_ticks *)
Fixpoint wait_valid (fuel : nat) (t : nat) : option nat :=
  match fuel with
  | O => None
  | S fuel => if latch_valid t then Some (S t) else wait_valid fuel (S t)
  end.

(* src: kernel/sysdepend/cpu/core/riscv_esp/sys_timer.c 116-120 systim_get_counter_ticks *)
Fixpoint read_halves (fuel : nat) (lo_start : Z) (t : nat) : option (Z * nat) :=
  match fuel with
  | O => None
  | S fuel =>
      let lo := lo_start in
      let hi := systimer_high t in
      let lo_start := systimer_low (S t) in
      if negb (lo_start =? lo) then read_halves fuel lo_start (S (S t))
      else Some (Z.lor (Z.shiftl hi 32) lo, S (S t))
  end.

(* src: kernel/sysdepend/cpu/core/riscv_esp/sys_timer.c 106-123 systim_get_counter_ticks *)
Definition systim_get_counter_ticks (fuel : nat) (t : nat) : option (Z * nat) :=
  match wait_valid fuel (S t) with
  | None => None
  | Some t => read_halves fuel (systimer_low t) (S t)
  end.

(* src: kernel/sysdepend/cpu/core/riscv_esp/sys_timer.c 136-136 SYSTIM_MAX_CATCHUP_PERIODS *)
Definition SYSTIM_MAX_CATCHUP_PERIODS : Z := u32 ((1000 + TIMER_PERIOD - 1) / TIMER_PERIOD).

Definition u64 (x : Z) : Z := x mod 2 ^ 64.

(* src: kernel/sysdepend/cpu/core/riscv_esp/sys_timer.c 140-170 knl_get_hw_timer_elapsed_periods_impl *)
Definition knl_get_hw_timer_elapsed_periods_impl (fuel : nat) s : option (Z * IR V) :=
  if ir_period s =? 0 then Some (1, s)
  else
    match systim_get_counter_ticks fuel (ir_t s) with
    | None => None
    | Some (now_ticks, t) =>
        let s := set_ir_t t s in
        let elapsed_ticks := u64 (now_ticks - ir_last s) in
        let periods := u32 (elapsed_ticks / ir_period s) in
        let '(periods, s) :=
          if SYSTIM_MAX_CATCHUP_PERIODS <? periods then
            let slip := u32 (periods - SYSTIM_MAX_CATCHUP_PERIODS) in
            let s := set_ir_slip (u32 (ir_slip s + slip)) s in
            let s := set_ir_last (u64 (ir_last s + slip * ir_period s)) s in
            (SYSTIM_MAX_CATCHUP_PERIODS, hwcall HW_printf s)
          else (periods, s) in
        Some (periods, set_ir_last (u64 (ir_last s + periods * ir_period s)) s)
    end.

(* src: kernel/sysdepend/cpu/core/riscv_esp/sys_timer.c 177-191 knl_get_hw_timer_nsec_impl *)
Definition knl_get_hw_timer_nsec_impl (fuel : nat) s : option (Z * IR V) :=
  if ir_period s =? 0 then Some (0, s)
  else
    let ticks_per_us := u32 (systimer_us_to_ticks 1) in
    match systim_get_counter_ticks fuel (ir_t s) with
    | None => None
    | Some (now_ticks, t) =>
        let elapsed_ticks := u32 (u64 (now_ticks - ir_last s) mod ir_period s) in
        Some (u32 (u64 (elapsed_ticks * 1000) / ticks_per_us), set_ir_t t s)
    end.

Context `{UserHandlers}.

(** The handler acknowledges the interrupt, then the kernel advances by a period; [cfuel]
    bounds its loop over the events. *)
(* src: kernel/tkernel/timer.c 151-151 knl_timer_handler *)
Definition tick (cfuel : nat) s : option (IR V) :=
  let s := knl_clear_hw_timer_interrupt_impl s in
  match knl_timer_handler cfuel (ir_k s) with None => None | Some k => Some (set_ir_k k s) end.

(* src: kernel/sysdepend/cpu/core/riscv_esp/interrupt.c 282-284 knl_systim_inthdr *)
Fixpoint catch_up (cfuel : nat) (periods : nat) s : option (IR V) :=
  match periods with
  | O => Some s
  | S n => match tick cfuel s with None => None | Some s => catch_up cfuel n s end
  end.

(* src: kernel/sysdepend/cpu/core/riscv_esp/interrupt.c 264-286 knl_systim_inthdr *)
Definition knl_systim_inthdr (fuel cfuel : nat) s : option (IR V) :=
  let s := set_ir_k (upd_s (λ c, set_s_taskindp (s_taskindp c + 1) c) (ir_k s)) s in
  let s := if CONFIG_ESP_INT_WDT then hwcall HW_tick_hook s else s in
  match knl_get_hw_timer_elapsed_periods_impl fuel s with
  | None => None
  | Some (periods, s) =>
      let s := if periods =? 0 then knl_clear_hw_timer_interrupt_impl s else s in
      match catch_up cfuel (Z.to_nat periods) s with
      | None => None
      | Some s => Some (set_ir_k (upd_s (λ c, set_s_taskindp (s_taskindp c - 1) c) (ir_k s)) s)
      end
  end.

(* src: kernel/sysdepend/cpu/core/riscv_esp/sys_timer.c 47-51 systim_isr *)
Definition systim_isr (fuel cfuel : nat) s : option (IR V) := knl_systim_inthdr fuel cfuel s.
End user_int.

(** ** The handles of the table *)

Record claim := mkClaim { cl_source : Z; cl_flags : Z; cl_isr : isr; cl_arg : Z }.

(** What the allocator documents: it keeps a set of claims, each under a handle of its own,
    and of the handles that are enabled.  Nothing is promised for a handle that is not
    valid. *)
Class EspIntrLaws (V : Type) `{EspIntr V} := {
  claims : V → gmap Z claim;
  armed : V → gset Z;
  intr_flag_disabled : ESP_INTR_FLAG_INTRDISABLED ≠ 0;
  intr_null v : claims v !! NULL = None;
  intr_armed v : armed v ⊆ dom (claims v);
  intr_alloc src fl f arg v :
    match esp_intr_alloc src fl f arg v with
    | (None, v') => claims v' = claims v ∧ armed v' = armed v
    | (Some h, v') =>
        claims v !! h = None ∧ claims v' = <[h := mkClaim src fl f arg]> (claims v) ∧
        armed v' = if Z.land fl ESP_INTR_FLAG_INTRDISABLED =? 0 then {[h]} ∪ armed v else armed v
    end;
  intr_free h v : is_Some (claims v !! h) →
    claims (esp_intr_free h v) = delete h (claims v) ∧ armed (esp_intr_free h v) = armed v ∖ {[h]};
  intr_enable h v : is_Some (claims v !! h) →
    claims (esp_intr_enable h v) = claims v ∧ armed (esp_intr_enable h v) = {[h]} ∪ armed v;
  intr_disable h v : is_Some (claims v !! h) →
    claims (esp_intr_disable h v) = claims v ∧ armed (esp_intr_disable h v) = armed v ∖ {[h]}
}.

Section handles.
Context {V : Type} `{EspIntrLaws V}.
Implicit Types s : IR V.

(** A handle of the table is a claim of its own source for a registered handler, and every
    claim for the trampoline is in the table; the handle of the system timer is its own. *)
Record owns s : Prop := {
  ow_entry n : 0 <= n < N_INTVEC → ui_handle (ir_tbl s n) ≠ NULL →
    ui_hdr (ir_tbl s n) ≠ NULL ∧ 1 <= ui_level (ir_tbl s n) <= 3 ∧
    claims (ir_v s) !! ui_handle (ir_tbl s n) = Some (mkClaim n (int_flags (ui_level (ir_tbl s n))) ISR_user n);
  ow_claim h c : claims (ir_v s) !! h = Some c → cl_isr c = ISR_user →
    ∃ n, 0 <= n < N_INTVEC ∧ ui_handle (ir_tbl s n) = h;
  ow_systim : ir_systim s ≠ NULL →
    ∃ c, claims (ir_v s) !! ir_systim s = Some c ∧ cl_isr c = ISR_systim
}.

Lemma clamp_range level : 1 <= clamp_level level <= 3.
Proof. unfold clamp_level. destruct (3 <=? level), (level =? 2); lia. Qed.

Lemma owns_inj s n m : owns s → 0 <= n < N_INTVEC → 0 <= m < N_INTVEC →
  ui_handle (ir_tbl s n) = ui_handle (ir_tbl s m) → ui_handle (ir_tbl s n) ≠ NULL → n = m.
Proof.
  intros Ho Hn Hm E Hh. destruct (ow_entry s Ho n Hn Hh) as (_ & _ & C1).
  rewrite E in Hh, C1. destruct (ow_entry s Ho m Hm Hh) as (_ & _ & C2). congruence.
Qed.

(** An entry without a handle may change, as long as it gets none. *)
Lemma owns_upd s n f : owns s → ui_handle (ir_tbl s n) = NULL → ui_handle (f (ir_tbl s n)) = NULL →
  owns (upd_ui n f s).
Proof.
  intros [O1 O2 O3] E E'. split; simpl; [| |done].
  - intros m Hm. destruct (decide (n = m)) as [->|]; upd_simpl; [congruence|]. by apply O1.
  - intros h c Hc Hu. destruct (O2 h c Hc Hu) as (m & Hm & <-). exists m. split; [done|].
    destruct (decide (n = m)) as [->|]; upd_simpl; congruence.
Qed.

(** The state of the allocator may change with the claims that are not of other drivers
    the same. *)
Lemma owns_v s v : owns s →
  (∀ h c, (∀ d, cl_isr c ≠ ISR_driver d) → claims (ir_v s) !! h = Some c ↔ claims v !! h = Some c) →
  owns (set_ir_v v s).
Proof.
  intros [O1 O2 O3] Hc. split; simpl.
  - intros n Hn Hh. destruct (O1 n Hn Hh) as (?&?&C). split; [done|]. split; [done|]. by apply Hc.
  - intros h c Hv Hu. apply (O2 h c); [|done]. apply Hc; [|done]. intros d. by rewrite Hu.
  - intros Hs. destruct (O3 Hs) as (c & C & Hi). exists c. split; [|done]. apply Hc; [|done]. intros d. by rewrite Hi.
Qed.

Lemma owns_same s s' : ir_tbl s' = ir_tbl s → ir_v s' = ir_v s → ir_systim s' = ir_systim s → owns s → owns s'.
Proof. intros E1 E2 E3 [O1 O2 O3]. split; rewrite ?E1, ?E2, ?E3; done. Qed.

Lemma free_handle_owns s n : owns s → 0 <= n < N_INTVEC → owns (free_handle n s).
Proof.
  intros Ho Hn. unfold free_handle. destruct (Z.eqb_spec (ui_handle (ir_tbl s n)) NULL) as [|Hh]; [done|]. cbn [negb].
  destruct (ow_entry s Ho n Hn Hh) as (_ & _ & C).
  destruct (intr_free _ _ (mk_is_Some _ _ C)) as [Ec _]. pose proof (owns_inj s n) as Hinj.
  destruct Ho as [O1 O2 O3]. split; simpl.
  - intros m Hm. destruct (decide (n = m)) as [->|Hne]; upd_simpl; simpl; [done|].
    intros Hm'. destruct (O1 m Hm Hm') as (?&?&Cm). split; [done|]. split; [done|].
    rewrite Ec, lookup_delete_ne; [done|]. intros E. apply Hne. apply (Hinj m); auto. by split.
  - intros h c. rewrite Ec. intros [Hne Hc]%lookup_delete_Some Hu. destruct (O2 h c Hc Hu) as (m & Hm & <-).
    exists m. split; [done|]. destruct (decide (n = m)) as [->|]; upd_simpl; [done|done].
  - intros Hs. destruct (O3 Hs) as (c & Cs & Hi). exists c. split; [|done]. rewrite Ec.
    apply lookup_delete_Some. split; [|done]. intros E. rewrite E in C. rewrite C in Cs. injection Cs as <-. done.
Qed.

Lemma free_handle_tbl s n m : ir_tbl (free_handle n s) m = if decide (m = n) then set_ui_handle NULL (ir_tbl s n) else ir_tbl s m.
Proof.
  unfold free_handle. destruct (Z.eqb_spec (ui_handle (ir_tbl s n)) NULL) as [E|]; cbn [negb].
  - case_decide; [|done]. subst. destruct (ir_tbl s n). simpl in *. by rewrite E.
  - simpl. case_decide; subst; by upd_simpl.
Qed.

Lemma new_handle_owns s n level : owns s → 0 <= n < N_INTVEC → 1 <= level <= 3 →
  ui_hdr (ir_tbl s n) ≠ NULL → ui_handle (ir_tbl s n) = NULL → owns (new_handle n level s).2.
Proof.
  intros Ho Hn Hl Hhdr Hh. unfold new_handle.
  pose proof (intr_alloc n (int_flags level) ISR_user n (ir_v s)) as Ha.
  destruct (esp_intr_alloc _ _ _ _ _) as [[h|] v]; simpl.
  - destruct Ha as (Hnew & Ec & _). destruct Ho as [O1 O2 O3]. split; simpl.
    + intros m Hm. destruct (decide (n = m)) as [->|]; upd_simpl; simpl; [by rewrite Ec, lookup_insert_eq|].
      intros Hm'. destruct (O1 m Hm Hm') as (?&?&C). split; [done|]. split; [done|].
      rewrite Ec, lookup_insert_ne; [done|]. intros E. by rewrite <- E, Hnew in C.
    + intros h' c. rewrite Ec. intros [[<- <-]|[Hne C]]%lookup_insert_Some Hu; [exists n; by upd_simpl|].
      destruct (O2 h' c C Hu) as (m & Hm & <-). exists m. split; [done|].
      destruct (decide (n = m)) as [->|]; upd_simpl; [|done]. by rewrite Hh, intr_null in C.
    + intros Hs. destruct (O3 Hs) as (c & C & Hi). exists c. split; [|done]. rewrite Ec, lookup_insert_ne; [done|]. intros E. by rewrite <- E, Hnew in C.
  - apply owns_upd; [|done|done]. apply (owns_same (set_ir_v v s)); [done..|]. apply owns_v; [done|]. intros h c _. by rewrite (proj1 Ha).
Qed.

Lemma alloc_user_int_owns s n level : owns s → 0 <= n < N_INTVEC → owns (knl_alloc_user_int n level s).2.
Proof.
  intros Ho Hn. unfold knl_alloc_user_int. destruct (Z.eqb_spec (ui_hdr (ir_tbl s n)) NULL) as [|Hhdr]; [done|].
  destruct (negb _ && _); [done|]. destruct (in_isr s); [by apply (owns_same s)|].
  apply new_handle_owns; [by apply free_handle_owns|done|apply clamp_range|..];
    by rewrite free_handle_tbl, decide_True by done.
Qed.

Lemma define_inthdr_owns s n atr hdr : owns s → 0 <= n < N_INTVEC → owns (knl_define_inthdr n atr hdr s).2.
Proof.
  intros Ho Hn. unfold knl_define_inthdr. pose proof (free_handle_owns s n Ho Hn) as Hf.
  pose proof (free_handle_tbl s n n) as Ef. rewrite decide_True in Ef by done. set (s1 := free_handle n s) in *.
  set (s2 := upd_ui n _ s1).
  assert (H2 : owns s2) by (apply owns_upd; [done|by rewrite Ef..]).
  assert (E2 : ui_handle (ir_tbl s2 n) = NULL) by (subst s2; simpl; upd_simpl; simpl; by rewrite Ef).
  destruct (hdr =? NULL); [done|]. set (s3 := upd_ui n _ s2).
  assert (H3 : owns s3) by (by apply owns_upd).
  pose proof (alloc_user_int_owns s3 n 1 H3 Hn) as H4.
  destruct (knl_alloc_user_int n 1 s3) as [er s4] eqn:E4.
  destruct (Z.eqb_spec er E_OK) as [|He]; [done|]. apply owns_upd; [done|..].
  all: assert (ui_handle (ir_tbl s4 n) = NULL) as E; [|by rewrite ?E].
  all: assert (E3 : ui_handle (ir_tbl s3 n) = NULL) by (subst s3; simpl; upd_simpl; simpl; by rewrite Ef).
  all: revert E4; unfold knl_alloc_user_int; rewrite E3; simpl.
  all: destruct (_ =? _); [by intros [= <- <-]|]; destruct (in_isr s3); [by intros [= <- <-]|].
  all: unfold new_handle; destruct (esp_intr_alloc _ _ _ _ _) as [[h|] v]; intros [= <- <-]; [done|]; simpl; by upd_simpl.
Qed.

Lemma def_int_owns s n pk : owns s → 0 <= n → owns (tk_def_int n pk s).2.
Proof.
  intros Ho Hn. unfold tk_def_int. destruct (Z.ltb_spec n N_INTVEC); [|done]. cbn [negb].
  destruct pk as [p|]; [destruct (RSATR_ERR _ _); [done|]|]; by apply define_inthdr_owns.
Qed.

(** The handle in an entry is valid. *)
Lemma owns_valid s n : owns s → 0 <= n < N_INTVEC → ui_handle (ir_tbl s n) ≠ NULL →
  is_Some (claims (ir_v s) !! ui_handle (ir_tbl s n)).
Proof. intros Ho Hn Hh. destruct (ow_entry s Ho n Hn Hh) as (_&_&C). by rewrite C. Qed.

Lemma EnableInt_owns s n level : owns s → 0 <= n → owns (EnableInt n level s).
Proof.
  intros Ho Hn. unfold EnableInt. destruct (Z.leb_spec N_INTVEC n); [done|].
  assert (Hr : 0 <= n < N_INTVEC) by lia. pose proof (alloc_user_int_owns s n level Ho Hr) as Ho1.
  destruct (knl_alloc_user_int n level s) as [er s1]. simpl in Ho1. destruct (er =? E_OK); [|done]. cbn [negb].
  destruct (Z.eqb_spec (ui_handle (ir_tbl s1 n)) NULL) as [|Hh]; [done|]. cbn [negb].
  apply owns_v; [done|]. intros h c _. by rewrite (proj1 (intr_enable _ _ (owns_valid _ _ Ho1 Hr Hh))).
Qed.



(** ** What the calls do *)

Lemma free_handle_spec s n : owns s → 0 <= n < N_INTVEC →
  claims (ir_v (free_handle n s)) = delete (ui_handle (ir_tbl s n)) (claims (ir_v s)) ∧
  armed (ir_v (free_handle n s)) = armed (ir_v s) ∖ {[ui_handle (ir_tbl s n)]} ∧ in_isr (free_handle n s) = in_isr s.
Proof.
  intros Ho Hn. unfold free_handle. destruct (Z.eqb_spec (ui_handle (ir_tbl s n)) NULL) as [E|Hh]; cbn [negb].
  - rewrite E. split; [symmetry; apply delete_id; apply intr_null|]. split; [|done].
    assert (NULL ∉ armed (ir_v s)); [|set_solver].
    intros Hin%intr_armed. apply elem_of_dom in Hin as [c C]. by rewrite intr_null in C.
  - by destruct (intr_free _ _ (owns_valid s n Ho Hn Hh)) as [Ec Ea].
Qed.

Lemma int_flags_disabled level : Z.land (int_flags level) ESP_INTR_FLAG_INTRDISABLED ≠ 0.
Proof.
  unfold int_flags. intros E. apply intr_flag_disabled. rewrite <- E. bitwise.
Qed.

(** The entry of a handler after a request for a handle, and the claims. *)
Definition new_claim (base : gmap Z claim) (n level : Z) (s : IR V) : Prop :=
  base !! ui_handle (ir_tbl s n) = None ∧
  claims (ir_v s) = <[ui_handle (ir_tbl s n) := mkClaim n (int_flags level) ISR_user n]> base.

Lemma new_handle_spec s n level :
  let '(er, s') := new_handle n level s in
  (∀ m, m ≠ n → ir_tbl s' m = ir_tbl s m) ∧
  ui_hdr (ir_tbl s' n) = ui_hdr (ir_tbl s n) ∧ ui_atr (ir_tbl s' n) = ui_atr (ir_tbl s n) ∧
  (er = E_OK ∧ ui_level (ir_tbl s' n) = level ∧ ui_handle (ir_tbl s' n) ≠ NULL ∧
     new_claim (claims (ir_v s)) n level s' ∧ armed (ir_v s') = armed (ir_v s)
   ∨ er = E_SYS ∧ ui_level (ir_tbl s' n) = 0 ∧ ui_handle (ir_tbl s' n) = NULL ∧ claims (ir_v s') = claims (ir_v s)).
Proof.
  unfold new_handle. pose proof (intr_alloc n (int_flags level) ISR_user n (ir_v s)) as Ha.
  destruct (esp_intr_alloc _ _ _ _ _) as [[h|] v]; simpl; upd_simpl; simpl.
  - destruct Ha as (Hnew & Ec & Ea). split; [intros m ?; by upd_simpl|]. do 2 (split; [done|]). left.
    split; [done|]. split; [done|]. split.
    { intros ->. pose proof (intr_null v) as E. by rewrite Ec, lookup_insert_eq in E. }
    split; [unfold new_claim; simpl; by upd_simpl|].
    rewrite Ea. destruct (Z.eqb_spec (Z.land (int_flags level) ESP_INTR_FLAG_INTRDISABLED) 0) as [E|]; [|done].
    by apply int_flags_disabled in E.
  - split; [intros m ?; by upd_simpl|]. do 2 (split; [done|]). right. by rewrite (proj1 Ha).
Qed.

Lemma release_source s n atr : owns s → 0 <= n < N_INTVEC →
  let '(er, s') := knl_define_inthdr n atr NULL s in
  (∀ m, m ≠ n → ir_tbl s' m = ir_tbl s m) ∧ er = E_OK ∧ ir_tbl s' n = mkUINT NULL 0 NULL 0 ∧
  claims (ir_v s') = delete (ui_handle (ir_tbl s n)) (claims (ir_v s)).
Proof.
  intros Ho Hn. destruct (free_handle_spec s n Ho Hn) as (Ec & _ & _). unfold knl_define_inthdr. cbn [Z.eqb NULL].
  split; [|split; [done|split; [|done]]].
  - intros m ?. simpl. upd_simpl. by rewrite free_handle_tbl, decide_False.
  - simpl. upd_simpl. by rewrite free_handle_tbl, decide_True.
Qed.

(** Defining a handler.  An interrupt number beyond the table is refused with E_PAR and
    an unknown attribute with E_RSATR, and nothing changes.  Otherwise the source is given
    back first: the handle of its old handler, and no other, is released.  Without a new
    handler that is all.  With one the call asks the allocator for a handle: if there is one,
    the entry holds the handler, its attribute and the handle, at level 1 and not enabled; if
    there is none the result is E_SYS and the entry is empty.  Called from an interrupt the
    result is E_CTX, and the entry is empty: the old handler is lost.  No other entry
    changes. *)
Theorem tk_def_int_spec s n (pk : option T_DINT) : owns s → 0 <= n →
  let '(er, s') := tk_def_int n pk s in
  let base := delete (ui_handle (ir_tbl s n)) (claims (ir_v s)) in
  if N_INTVEC <=? n then er = E_PAR ∧ s' = s
  else if match pk with Some p => negb (Z.land (dint_intatr p) (Z.lnot 1) =? 0) | None => false end
  then er = E_RSATR ∧ s' = s
  else
    (∀ m, m ≠ n → ir_tbl s' m = ir_tbl s m) ∧
    match pk with
    | Some p =>
        if dint_inthdr p =? NULL then er = E_OK ∧ ir_tbl s' n = mkUINT NULL 0 NULL 0 ∧ claims (ir_v s') = base
        else if in_isr s then er = E_CTX ∧ ir_tbl s' n = mkUINT NULL 0 NULL 0 ∧ claims (ir_v s') = base
        else
          er = E_OK ∧ (∃ h, h ≠ NULL ∧ ir_tbl s' n = mkUINT (dint_inthdr p) (dint_intatr p) h 1 ∧
                         new_claim base n 1 s' ∧ h ∉ armed (ir_v s'))
          ∨ er = E_SYS ∧ ir_tbl s' n = mkUINT NULL 0 NULL 0 ∧ claims (ir_v s') = base
    | None => er = E_OK ∧ ir_tbl s' n = mkUINT NULL 0 NULL 0 ∧ claims (ir_v s') = base
    end.
Proof.
  intros Ho Hn. unfold tk_def_int. destruct (Z.ltb_spec n N_INTVEC) as [Hlt|Hge]; cbn [negb].
  2: { by rewrite (proj2 (Z.leb_le _ _) Hge). }
  rewrite (proj2 (Z.leb_gt _ _) Hlt). assert (Hr : 0 <= n < N_INTVEC) by lia.
  destruct (free_handle_spec s n Ho Hr) as (Ec & Ea & Ei).
  assert (Et : ∀ m, ir_tbl (free_handle n s) m = if decide (m = n) then set_ui_handle NULL (ir_tbl s n) else ir_tbl s m)
    by (intros; apply free_handle_tbl).
  destruct pk as [p|]; [|by apply release_source].
  unfold RSATR_ERR. change (Z.lor TA_HLNG TA_ASM) with 1. destruct (negb _); [done|].
  destruct (Z.eqb_spec (dint_inthdr p) NULL) as [E|Hhdr].
  { rewrite E. by apply release_source. }
  unfold knl_define_inthdr. rewrite (proj2 (Z.eqb_neq _ _) Hhdr). set (s1 := free_handle n s) in *.
  unfold knl_alloc_user_int. simpl. upd_simpl. simpl. rewrite (proj2 (Z.eqb_neq _ _) Hhdr).
  rewrite Et, decide_True by done. simpl.
  change (in_isr (upd_ui _ _ _)) with (in_isr s1). rewrite Ei. destruct (in_isr s); simpl.
  - split; [intros m ?; upd_simpl; by rewrite Et, decide_False|]. upd_simpl. rewrite Et, decide_True by done. done.
  - unfold free_handle. simpl. upd_simpl. simpl. rewrite Et, decide_True by done. simpl.
    match goal with |- context [new_handle n (clamp_level 1) ?s2] => pose proof (new_handle_spec s2 n 1) as Hs; set (s2' := s2) in * end.
    change (clamp_level 1) with 1. assert (E2 : ∀ m, m ≠ n → ir_tbl s2' m = ir_tbl s m)
      by (intros; subst s2'; simpl; upd_simpl; by rewrite Et, decide_False).
    assert (E3 : ui_hdr (ir_tbl s2' n) = dint_inthdr p ∧ ui_atr (ir_tbl s2' n) = dint_intatr p)
      by (subst s2'; simpl; by upd_simpl).
    change (ir_v s2') with (ir_v s1) in *. clearbody s2'. destruct E3 as [E3 E4].
    destruct (new_handle n 1 s2') as [er s3]. destruct Hs as (Hm & Eh & Eat & [(-> & El & Hh & Hc & Har)|(-> & El & Hh & Hc)]); simpl.
    + split; [intros m ?; rewrite Hm, E2; done|]. left. split; [done|]. exists (ui_handle (ir_tbl s3 n)). split; [done|].
      split; [destruct (ir_tbl s3 n); simpl in *; congruence|]. rewrite Ec in Hc. split; [done|].
      rewrite Har. intros Hin%intr_armed. rewrite Ec, elem_of_dom, (proj1 Hc) in Hin. by destruct Hin.
    + split; [intros m ?; upd_simpl; by rewrite Hm, E2|]. right. split; [done|]. upd_simpl.
      destruct (ir_tbl s3 n). simpl in *. subst. by rewrite Hc, Ec.
Qed.

(** Enabling an interrupt.  Without a handler nothing happens.  At the level it has, the handle
    is enabled.  At another level the handle is replaced by one of that level (3 at most, 1
    at least), which is enabled; when the allocator has none, the source is left without a
    handle though with its handler, and from an interrupt nothing happens. *)
Lemma EnableInt_spec s n level : owns s → 0 <= n < N_INTVEC →
  let s' := EnableInt n level s in
  let e := ir_tbl s n in
  (∀ m, m ≠ n → ir_tbl s' m = ir_tbl s m) ∧
  if ui_hdr e =? NULL then s' = s
  else if negb (ui_handle e =? NULL) && (ui_level e =? clamp_level level) then
    ir_tbl s' = ir_tbl s ∧ claims (ir_v s') = claims (ir_v s) ∧ ui_handle e ∈ armed (ir_v s')
  else if in_isr s then ir_tbl s' = ir_tbl s ∧ ir_v s' = ir_v s
  else
    let base := delete (ui_handle e) (claims (ir_v s)) in
    ui_hdr (ir_tbl s' n) = ui_hdr e ∧ ui_atr (ir_tbl s' n) = ui_atr e ∧
    (ui_level (ir_tbl s' n) = clamp_level level ∧ ui_handle (ir_tbl s' n) ≠ NULL ∧
       new_claim base n (clamp_level level) s' ∧ ui_handle (ir_tbl s' n) ∈ armed (ir_v s')
     ∨ ui_level (ir_tbl s' n) = 0 ∧ ui_handle (ir_tbl s' n) = NULL ∧ claims (ir_v s') = base).
Proof.
  intros Ho Hn. cbn zeta. unfold EnableInt. rewrite (proj2 (Z.leb_gt N_INTVEC n)) by lia.
  pose proof (alloc_user_int_owns s n level Ho Hn) as Ho'. unfold knl_alloc_user_int in *.
  destruct (Z.eqb_spec (ui_hdr (ir_tbl s n)) NULL) as [|Hhdr]; [done|].
  destruct (negb (ui_handle _ =? NULL) && _) eqn:E.
  { apply andb_prop in E as [E _]. cbn [Z.eqb E_OK negb]. rewrite E. split; [done|]. split; [done|].
    apply negb_true_iff, Z.eqb_neq in E. simpl.
    destruct (intr_enable _ _ (owns_valid s n Ho Hn E)) as [-> ->]. split; [done|set_solver]. }
  destruct (in_isr s); [done|]. destruct (free_handle_spec s n Ho Hn) as (Ec & _ & _).
  pose proof (new_handle_spec (free_handle n s) n (clamp_level level)) as Hs. rewrite Ec in Hs.
  destruct (new_handle n _ _) as [er s1]. destruct Hs as (Hm & Eh & Ea & Hs).
  assert (Hm' : ∀ m, m ≠ n → ir_tbl s1 m = ir_tbl s m)
    by (intros m ?; rewrite Hm by done; by rewrite free_handle_tbl, decide_False).
  rewrite free_handle_tbl, decide_True in Eh, Ea by done. simpl in Eh, Ea, Ho'.
  destruct Hs as [(-> & El & Hh & Hc & _)|(-> & El & Hh & Hc)]; cbn [Z.eqb E_OK E_SYS negb].
  - rewrite (proj2 (Z.eqb_neq _ _) Hh). simpl. split; [done|]. do 2 (split; [done|]). left.
    do 2 (split; [done|]). destruct (intr_enable _ _ (owns_valid s1 n Ho' Hn Hh)) as [E1 E2].
    split; [unfold new_claim in *; simpl; by rewrite E1|]. rewrite E2. set_solver.
  - split; [done|]. do 2 (split; [done|]). right. done.
Qed.

(** Two tasks that enable the same interrupt.  EnableInt takes no critical section: when a task
    is preempted after it has given its handle back, and another task enables the interrupt
    in between, the handle of the second task stays claimed, enabled and called, and no entry
    has it any more, whatever the allocator then answers the first. *)
Lemma EnableInt_race s n l1 l2 : owns s → 0 <= n < N_INTVEC → in_isr s = false → ui_hdr (ir_tbl s n) ≠ NULL →
  let sa := free_handle n s in
  let sb := EnableInt n l2 sa in
  let s' := (new_handle n (clamp_level l1) sb).2 in
  let h := ui_handle (ir_tbl sb n) in
  h ≠ NULL →
  claims (ir_v s') !! h = Some (mkClaim n (int_flags (clamp_level l2)) ISR_user n) ∧
  ∀ m, 0 <= m < N_INTVEC → ui_handle (ir_tbl s' m) ≠ h.
Proof.
  intros Ho Hn Hi Hhdr sa sb s' h Hh. pose proof (free_handle_owns s n Ho Hn) as Hoa.
  destruct (free_handle_spec s n Ho Hn) as (_ & _ & Eia).
  pose proof (free_handle_tbl s n n) as Eta. rewrite decide_True in Eta by done.
  pose proof (EnableInt_spec sa n l2 Hoa Hn) as Hb. cbv zeta in Hb. fold sb in Hb.
  pose proof (EnableInt_owns sa n l2 Hoa (proj1 Hn)) as Hob. fold sb in Hob.
  destruct Hb as [_ Hb]. fold sa in Eta, Eia. rewrite Eta, Eia, Hi in Hb. cbn [ui_hdr ui_handle set_ui_handle] in Hb.
  rewrite (proj2 (Z.eqb_neq _ _) Hhdr) in Hb. cbn [Z.eqb NULL negb andb] in Hb.
  destruct Hb as (_ & _ & [(El & _ & [Hc1 Hc2] & _)|(_ & E & _)]); [|done]. fold h in Hc1, Hc2.
  assert (Cb : claims (ir_v sb) !! h = Some (mkClaim n (int_flags (clamp_level l2)) ISR_user n)) by (by rewrite Hc2, lookup_insert_eq).
  pose proof (new_handle_spec sb n (clamp_level l1)) as Hs. subst s'. destruct (new_handle n (clamp_level l1) sb) as [er s3]. simpl.
  destruct Hs as (Hm & _ & _ & Hs).
  assert (Hne : ui_handle (ir_tbl s3 n) ≠ h ∧ claims (ir_v s3) !! h = claims (ir_v sb) !! h).
  { destruct Hs as [(_ & _ & _ & [H3 ->] & _)|(_ & _ & -> & ->)]; [|split; [done|done]].
    assert (ui_handle (ir_tbl s3 n) ≠ h) by (intros E; rewrite E, Cb in H3; done).
    by rewrite lookup_insert_ne. }
  destruct Hne as [Hne ->]. split; [done|]. intros m Hmr. destruct (decide (m = n)) as [->|Hmn]; [done|].
  rewrite Hm by done. intros E. apply Hmn. apply (owns_inj sb); try done. by rewrite E.
Qed.
End handles.

Section handle_runs.
Context {V : Type} `{EspIntrLaws V} `{Systimer}.
Implicit Types s : IR V.






End handle_runs.

(** The trampoline: the handler runs with knl_taskindp raised; it is given the number of the
    interrupt when it is of type TA_HLNG, and nothing otherwise. *)
Lemma trampoline_spec {V} (call : Z → option Z → IR V → IR V) n s :
  let e := ir_tbl s n in
  let s1 := set_ir_k (upd_s (λ c, set_s_taskindp (s_taskindp c + 1) c) (ir_k s)) s in
  let s2 := call (ui_hdr e) (if Z.testbit (ui_atr e) 0 then Some n else None) s1 in
  let s' := knl_user_int_trampoline call n s in
  if ui_hdr e =? NULL then s' = s
  else s_taskindp (k_s (ir_k s1)) = s_taskindp (k_s (ir_k s)) + 1 ∧
       s_taskindp (k_s (ir_k s')) = s_taskindp (k_s (ir_k s2)) - 1 ∧ ir_tbl s' = ir_tbl s2 ∧ ir_v s' = ir_v s2.
Proof.
  intros e s1 s2 s'. unfold s', knl_user_int_trampoline. fold e. fold s1. destruct (_ =? _); [done|].
  assert (E : (Z.land (ui_atr e) TA_HLNG =? 0) = negb (Z.testbit (ui_atr e) 0)).
  { change TA_HLNG with (Z.ones 1). rewrite Z.land_ones, <- Z.bit0_mod by lia. by destruct (Z.testbit _ _). }
  rewrite E, negb_involutive. unfold s2. by destruct (Z.testbit _ _).
Qed.

(** The request lines of the sources 0 to 61 are the bits of the two registers. *)
Lemma CheckInt_spec status n : 0 <= n < 2 ^ 32 → (∀ i, 0 <= status i < 2 ^ 32) →
  CheckInt status n = (n <? N_INTVEC) && Z.testbit (status 0 + 2 ^ 32 * status 1) n.
Proof.
  intros Hn Hs. unfold CheckInt, N_INTVEC. destruct (Z.leb_spec 62 n), (Z.ltb_spec n 62); [lia|done| |lia].
  assert (Hbit : ∀ x i, 0 <= i → negb (Z.land (Z.shiftr x i) 1 =? 0) = Z.testbit x i).
  { intros x i ?. change 1 with (Z.ones 1). rewrite Z.land_ones, <- Z.bit0_mod, Z.shiftr_spec, Z.add_0_l by lia.
    by destruct (Z.testbit _ _). }
  change 31 with (Z.ones 5). rewrite Z.land_ones by lia. cbn [andb]. set (x := status 0 + 2 ^ 32 * status 1).
  pose proof (Hs 0) as Hs0. pose proof (Hs 1) as Hs1.
  destruct (Z.ltb_spec n 32).
  - rewrite Z.mod_small, Hbit by lia. replace (status 0) with (x mod 2 ^ 32); [by apply Z.mod_pow2_bits_low|].
    unfold x. rewrite Z.mul_comm, Z.mod_add, Z.mod_small; lia.
  - replace (n mod 2 ^ 5) with (n - 32); [|apply (Z.mod_unique_pos _ _ 1); lia].
    rewrite Hbit by lia. replace (status 1) with (x / 2 ^ 32).
    + rewrite Z.div_pow2_bits by lia. f_equal. lia.
    + unfold x. rewrite Z.mul_comm, Z.div_add, Z.div_small; lia.
Qed.

(** ** Reading the counter *)

(** The counter of 52 bits only grows, and so do the latched values; it takes 8 years to
    wrap around. *)
Class SystimerLaws `{Systimer} := {
  latched_mono n m : (n <= m)%nat → latched n <= latched m;
  latched_range n : 0 <= latched n < 2 ^ 52
}.

Section counter.
Context `{SystimerLaws}.







End counter.

(** ** The clock *)

Section clock.
Context {V : Type} `{EspIntr V} `{SystimerLaws} `{UserHandlers}.
Implicit Types s : IR V.

Lemma u64_small x : 0 <= x < 2 ^ 64 → u64 x = x.
Proof. apply Z.mod_small. Qed.











End clock.

(** ** The time below a tick *)

Section subtick.
Context `{SystimerLaws} {V : Type}.
Implicit Types s : IR V.

(** The conversion has [tpu] ticks to a microsecond and a period of whole microseconds. *)
Definition whole_us s : Prop :=
  let tpu := u32 (systimer_us_to_ticks 1) in
  0 < tpu ∧ ir_period s = TIMER_PERIOD * 1000 * tpu ∧ ir_period s < 2 ^ 32.

Lemma nsec_spec fuel s v t' :
  whole_us s → systim_get_counter_ticks fuel (ir_t s) = Some (v, t') → 0 <= ir_last s <= v → v < 2 ^ 52 →
  let ns := (v - ir_last s) mod ir_period s * 1000 / u32 (systimer_us_to_ticks 1) in
  knl_get_hw_timer_nsec_impl fuel s = Some (ns, set_ir_t t' s) ∧ 0 <= ns < TIMER_PERIOD * 10 ^ 6.
Proof.
  intros (Ht & HP & HP32) Hg Hl Hv ns. unfold knl_get_hw_timer_nsec_impl. set (tpu := u32 (systimer_us_to_ticks 1)) in *.
  assert (HT : TIMER_PERIOD = 1) by done. rewrite HT in *.
  rewrite (proj2 (Z.eqb_neq (ir_period s) 0)), Hg by lia. cbn zeta. rewrite (u64_small (v - ir_last s)) by lia.
  pose proof (Z.mod_pos_bound (v - ir_last s) (ir_period s) ltac:(lia)) as Hm.
  rewrite (u32_small (_ mod _)), u64_small by lia.
  assert (Hns : 0 <= ns < 1 * 10 ^ 6).
  { subst ns. split; [apply Z.div_pos; lia|]. apply Z.div_lt_upper_bound; [lia|]. lia. }
  by rewrite u32_small by lia.
Qed.

(** The time below a tick.  td_get_tim returns the system time and the nanoseconds since the
    last tick.  As long as no tick is pending that is what has passed since the tick.  But
    the nanoseconds are taken modulo the period: when the period ends while interrupts are
    disabled, as they are in td_get_tim, the same system time is returned with a smaller
    number of nanoseconds.  Two calls, the second later, say that time went backwards. *)
Theorem subtick_goes_back fuel s s' v1 v2 t1 t2 :
  let P := ir_period s in
  let tpu := u32 (systimer_us_to_ticks 1) in
  whole_us s → 0 <= ir_last s → v2 < 2 ^ 52 →
  systim_get_counter_ticks fuel (ir_t s) = Some (v1, t1) →
  s' = set_ir_t t1 s → systim_get_counter_ticks fuel (ir_t s') = Some (v2, t2) →
  ir_last s <= v1 < ir_last s + P → ir_last s + P <= v2 → v2 - P + tpu <= v1 →
  ∃ ns1 ns2,
    knl_get_hw_timer_nsec_impl fuel s = Some (ns1, s') ∧
    knl_get_hw_timer_nsec_impl fuel s' = Some (ns2, set_ir_t t2 s') ∧
    ns1 = (v1 - ir_last s) * 1000 / tpu ∧ v1 < v2 ∧
    (td_get_tim ns2 (k_s (ir_k s'))).1 = (td_get_tim ns1 (k_s (ir_k s))).1 ∧ ns2 < ns1.
Proof.
  intros P tpu Hw Hl Hv Hg1 -> Hg2 Hv1 Hv2 Hd.
  destruct (nsec_spec fuel s v1 t1 Hw Hg1) as [E1 _]; [lia|lia|].
  destruct (nsec_spec fuel (set_ir_t t1 s) v2 t2 Hw Hg2) as [E2 _]; [simpl; lia|lia|].
  simpl in E2. fold P tpu in E1, E2. destruct Hw as (Htp & _). fold tpu in Htp.
  rewrite (Z.mod_small (v1 - ir_last s)) in E1 by lia.
  replace ((v2 - ir_last s) mod P) with (v2 - ir_last s - P) in E2 by (apply (Z.mod_unique_pos _ _ 1); lia).
  eexists _, _. split; [exact E1|]. split; [exact E2|]. split; [done|]. split; [lia|]. split; [done|].
  apply Z.lt_le_trans with ((v2 - ir_last s - P) * 1000 / tpu + 1000); [lia|].
  rewrite <- Z.div_add by lia. apply Z.div_le_mono; lia.
Qed.
End subtick.

(** ** An allocator and a timer *)

(** The allocator gives out a fresh handle, at most 31 of them; a handle comes with
    whether it is enabled. *)
#[local] Notation slots := (gmap Z (claim * bool)).

#[export] Instance slots_intr : EspIntr slots := {|
  esp_intr_alloc src fl f arg v :=
    if 31 <=? Z.of_nat (size v) then (None, v)
    else let h := fresh (dom v ∪ {[NULL]}) in (Some h, <[h := (mkClaim src fl f arg, Z.land fl 2048 =? 0)]> v);
  esp_intr_free h v := delete h v;
  esp_intr_enable h v := alter (λ e, (e.1, true)) h v;
  esp_intr_disable h v := alter (λ e, (e.1, false)) h v;
  ESP_INTR_FLAG_LEVEL1 := 2; ESP_INTR_FLAG_LEVEL2 := 4; ESP_INTR_FLAG_LEVEL3 := 8;
  ESP_INTR_FLAG_INTRDISABLED := 2048;
  ETS_FROM_CPU_INTR0_SOURCE := 50;
  ETS_SYSTIMER_TARGET0_EDGE_INTR_SOURCE := 37
|}.

Definition slot_claims (v : slots) : gmap Z claim := fst <$> delete NULL v.
Definition slot_armed (v : slots) : gset Z := dom (filter (λ e, e.2.2 = true) (delete NULL v)).

Lemma slot_claims_lookup v h : slot_claims v !! h = if decide (h = NULL) then None else fst <$> v !! h.
Proof.
  unfold slot_claims. rewrite lookup_fmap. case_decide; subst; [by rewrite lookup_delete_eq|by rewrite lookup_delete_ne].
Qed.

Lemma elem_of_slot_armed v h : h ∈ slot_armed v ↔ h ≠ NULL ∧ ∃ c, v !! h = Some (c, true).
Proof.
  unfold slot_armed. rewrite elem_of_dom. unfold is_Some. setoid_rewrite map_lookup_filter_Some. setoid_rewrite lookup_delete_Some.
  split; [intros ([c b] & [? ?] & E); simpl in E; subst; naive_solver|]. intros (? & c & ?). by exists (c, true).
Qed.

#[export] Instance slots_laws : EspIntrLaws slots.
Proof.
  refine {| claims := slot_claims; armed := slot_armed |}; [done| | | | | |].
  - intros v. by rewrite slot_claims_lookup, decide_True.
  - intros v h. rewrite elem_of_slot_armed, elem_of_dom, slot_claims_lookup. intros (? & c & ->). by rewrite decide_False.
  - intros src fl f arg v. simpl. destruct (31 <=? _); [done|]. set (h := fresh _).
    assert (Hh : h ∉ dom v ∪ {[NULL]}) by apply is_fresh. rewrite elem_of_union, elem_of_singleton, elem_of_dom in Hh.
    assert (Hn : v !! h = None) by (apply eq_None_not_Some; tauto). assert (h ≠ NULL) by tauto. clearbody h. clear Hh.
    split; [by rewrite slot_claims_lookup, decide_False, Hn|]. split.
    + apply map_eq. intros k. rewrite slot_claims_lookup, !lookup_insert, slot_claims_lookup.
      repeat case_decide; subst; done.
    + apply set_eq. intros k. destruct (Z.eqb_spec (Z.land fl 2048) 0); rewrite ?elem_of_union, ?elem_of_singleton, !elem_of_slot_armed;
        rewrite lookup_insert; case_decide; subst; naive_solver.
  - intros h v _. simpl. split; [apply map_eq; intros k; rewrite lookup_delete, !slot_claims_lookup, lookup_delete; by repeat case_decide|].
    apply set_eq. intros k. rewrite elem_of_difference, elem_of_singleton, !elem_of_slot_armed, lookup_delete. case_decide; naive_solver.
  - intros h v [c Hc]. rewrite slot_claims_lookup in Hc. case_decide; [done|]. simpl. split.
    + apply map_eq. intros k. rewrite !slot_claims_lookup, lookup_alter. repeat case_decide; subst; try done. by destruct (v !! k).
    + apply set_eq. intros k. rewrite elem_of_union, elem_of_singleton, !elem_of_slot_armed, lookup_alter.
      case_decide; subst; [|naive_solver]. destruct (v !! k) as [[? ?]|]; naive_solver.
  - intros h v [c Hc]. rewrite slot_claims_lookup in Hc. case_decide; [done|]. simpl. split.
    + apply map_eq. intros k. rewrite !slot_claims_lookup, lookup_alter. repeat case_decide; subst; try done. by destruct (v !! k).
    + apply set_eq. intros k. rewrite elem_of_difference, elem_of_singleton, !elem_of_slot_armed, lookup_alter.
      case_decide; subst; [|naive_solver]. destruct (v !! k) as [[? ?]|]; naive_solver.
Defined.

(** The counter advances by 20000 ticks from one reading to the next, at 16 MHz. *)
#[export] Instance ex_timer : Systimer := {|
  latched n := Z.min (20000 * Z.of_nat (n / 5)) (2 ^ 51);
  latch_valid _ := true;
  systimer_us_to_ticks us := 16 * us;
  CONFIG_ESP_INT_WDT := true
|}.

#[export] Instance ex_timer_laws : SystimerLaws.
Proof.
  split; cbv [latched ex_timer].
  - intros n m Hle. assert (n / 5 <= m / 5)%nat by (by apply Nat.Div0.div_le_mono). lia.
  - intros n. lia.
Qed.

Definition ex_ir : IR slots :=
  mkIR (ex_k (ex_sch [ex_ready 3] [(TIMERQ, [])])) 0 (λ _, mkUINT NULL 0 NULL 0) NULL NULL 0 0 0 [] 0 ∅.



Lemma ex_ir_owns : owns ex_ir.
Proof. split; [by intros|by intros h c C; vm_compute in C|by intros]. Qed.

(** The handler of source 5 is taken away. *)
Lemma tk_def_int_spec_witness :
  let s := (tk_def_int 5 (Some (mkT_DINT 1 4096)) ex_ir).2 in
  let '(er, s') := tk_def_int 5 None s in
  er = E_OK ∧ ir_tbl s' 5 = mkUINT NULL 0 NULL 0 ∧ claims (ir_v s) ≠ ∅ ∧ claims (ir_v s') = ∅.
Proof.
  intros s. pose proof (tk_def_int_spec s 5 None (def_int_owns ex_ir 5 _ ex_ir_owns ltac:(lia)) ltac:(lia)) as Hs.
  destruct (tk_def_int 5 None s) as [er s']. cbn [N_INTVEC Z.leb Z.compare Pos.compare Pos.compare_cont] in Hs.
  destruct Hs as (_ & -> & -> & ->). split; [done|]. split; [done|]. split; [|by vm_compute].
  intros E. by apply (f_equal (λ m : gmap Z claim, bool_decide (m = ∅))) in E; vm_compute in E.
Defined.

(** Two tasks raise source 5 to level 2. *)
Lemma EnableInt_race_witness :
  let s := (tk_def_int 5 (Some (mkT_DINT 1 4096)) ex_ir).2 in
  let sb := EnableInt 5 2 (free_handle 5 s) in
  let s' := (new_handle 5 (clamp_level 2) sb).2 in
  claims (ir_v s') !! ui_handle (ir_tbl sb 5) = Some (mkClaim 5 (int_flags 2) ISR_user 5) ∧
  ui_handle (ir_tbl s' 5) ≠ ui_handle (ir_tbl sb 5).
Proof.
  intros s. pose proof (def_int_owns ex_ir 5 (Some (mkT_DINT 1 4096)) ex_ir_owns ltac:(lia)) as Ho.
  destruct (EnableInt_race s 5 2 2 Ho) as [H1 H2]; [done|by vm_compute|by vm_compute|by vm_compute|].
  split; [exact H1|]. by apply H2.
Defined.

#[local] Instance ex_handlers : UserHandlers := {| CallUserHandlerP1 _ _ k := k |}.



(** The first call at 15500 ticks of a period of 16000, the second 800 ticks later. *)
Definition ex_timer2 : Systimer := {|
  latched n := Z.min (15500 + 800 * Z.of_nat (n / 5)) (2 ^ 51);
  latch_valid _ := true;
  systimer_us_to_ticks us := 16 * us;
  CONFIG_ESP_INT_WDT := true
|}.

#[local] Instance ex_timer2_laws : @SystimerLaws ex_timer2.
Proof.
  split; cbv [latched ex_timer2].
  - intros n m Hle. assert (n / 5 <= m / 5)%nat by (by apply Nat.Div0.div_le_mono). lia.
  - intros n. lia.
Qed.

Lemma subtick_goes_back_witness :
  let s := set_ir_period 16000 ex_ir in
  ∃ ns1 ns2 s' s2', @knl_get_hw_timer_nsec_impl slots ex_timer2 9 s = Some (ns1, s') ∧
    @knl_get_hw_timer_nsec_impl slots ex_timer2 9 s' = Some (ns2, s2') ∧ ns1 = 968750 ∧ ns2 < ns1.
Proof.
  intros s.
  destruct (@subtick_goes_back ex_timer2 slots 9%nat s (set_ir_t 5 s) 15500 16300 5 10) as (ns1 & ns2 & H1 & H2 & H3 & _ & _ & H4).
  - by vm_compute.
  - done.
  - done.
  - by vm_compute.
  - done.
  - by vm_compute.
  - done.
  - done.
  - done.
  - exists ns1, ns2, (set_ir_t 5 s), (set_ir_t 10 (set_ir_t 5 s)). by rewrite H3 in *.
Defined.
