(* ===== verification/Startup.v ===== *)
(** * The start-up: kernel/tkernel/tkinit.c and kernel/sysinit/sysinit.c

    The initialization of the memory allocator (Memory.v), the routines that initialize the
    tables of all objects, the start of the clock, and the creation of the initial task.  The theorem takes them from memory that holds nothing
    (the links have any value, the control blocks are the zeros of the BSS) to the
    invariant of the running system.  The FreeRTOS layer runs [knl_init_object] before
    main, so that the one in main does nothing ([ShimPort.knl_init_object]); objects that
    the C library creates in between are not in the theorem. *)
From S2P Require Import Prelude Config Queue Kernel ReadyQueue KInv KCheck Task Timer Wait Mem.
From S2P Require Import TaskSync Semaphore EventFlag Mailbox MessageBuf MemPoolFix MemPool Mutex Rendezvous Klock.
From S2P Require Import TaskManage TimeCalls FreeArea Heap Memory System.

(** The parameters of the initial task; the board redefines the priority and the size of the stack. *)
(* src: include/sys/inittask.h 25-25 INITTASK_EXINF *)
Definition INITTASK_EXINF : Z := 0.
(* src: include/sys/inittask.h 32-32 INITTASK_TSKATR *)
Definition INITTASK_TSKATR : Z := Z.lor TA_HLNG TA_RNG0.
(* src: kernel/sysdepend/iote_esp32c3_mini/sys/inittask.h 24-25 INITTASK_ITSKPRI *)
Definition INITTASK_ITSKPRI : Z := 10.
(* src: kernel/sysdepend/iote_esp32c3_mini/sys/inittask.h 27-28 INITTASK_STKSZ *)
Definition INITTASK_STKSZ : Z := 8 * 1024.
(* src: include/sys/inittask.h 33-33 INITTASK_STACK *)
Definition INITTASK_STACK : Z := NULL.
(* src: kernel/inittask/inittask.c 36-47 knl_init_ctsk *)
Definition knl_init_ctsk (init_task_main : Z) : T_CTSK :=
  mkT_CTSK INITTASK_EXINF INITTASK_TSKATR init_task_main INITTASK_ITSKPRI INITTASK_STKSZ INITTASK_STACK.

(** The routines one after the other, until one fails. *)
(* src: kernel/tkernel/tkinit.c 29-30 knl_init_object *)
Fixpoint run_init (fs : list (K → Z * K)) (k : K) : Z * K :=
  match fs with
  | [] => (E_OK, k)
  | f :: fs => let '(ercd, k) := f k in if ercd <? E_OK then (ercd, k) else run_init fs k
  end.

(* src: kernel/tkernel/tkinit.c 25-74 knl_init_object *)
Definition knl_init_object : K → Z * K :=
  run_init [λ k, let '(ercd, s) := knl_task_initialize (k_s k) in (ercd, set_k_s s k);
            knl_semaphore_initialize; knl_eventflag_initialize; knl_mailbox_initialize;
            knl_messagebuffer_initialize; knl_rendezvous_initialize; knl_mutex_initialize;
            knl_memorypool_initialize; knl_fix_memorypool_initialize;
            knl_cyclichandler_initialize; knl_alarmhandler_initialize].

(** From [knl_init_object] to [knl_force_dispatch] ([System.boot]); without a result the
    code stays in its last loop. *)
(* src: kernel/sysinit/sysinit.c 64-91 main *)
Definition start_kernel `{Allocator} (init_task_main : Z) (k : K) : option K :=
  let '(ercd, k) := knl_init_object k in
  if ercd <? E_OK then None
  else
    let '(ercd, s) := knl_timer_startup (k_s k) in
    let k := set_k_s s k in
    if ercd <? E_OK then None
    else
      let '(ercd, k) := tk_cre_tsk (knl_init_ctsk init_task_main) k in
      if E_OK <=? ercd then
        let '(ercd, s) := tk_sta_tsk ercd 0 (k_s k) in
        if E_OK <=? ercd then Some (set_k_s s k) else None
      else None.

(** The whole of main, without the initialization of the hardware between the heap and the kernel
    objects ([knl_init_device], [knl_init_interrupt]). *)
(* src: kernel/sysinit/sysinit.c 41-91 main *)
Definition knl_main (lowmem_top lowmem_limit init_task_main : Z) (k : K) : option K :=
  let '(imacb, _, m) := knl_init_Imalloc lowmem_top lowmem_limit (k_heap k) in
  start_kernel (H := kernel_allocator imacb) init_task_main (set_k_heap m k).

(** ** The rings of the start-up *)

(** The memory holds the rings [Q], made of nodes of the kinds [ks]. *)
Record built (ks : list kind) (m : qmem node) (Q : gmap node (list node)) : Prop := {
  bu_qwf : qwf m Q;
  bu_typed : ∀ h l y, Q !! h = Some l → y ∈ l → elem_ok h y = true;
  bu_kinds : ∀ x h, in_ring Q x h → nd_kind x ∈ ks;
  bu_heads : ∀ h l, Q !! h = Some l → nd_kind h ≠ KTsk
}.

Lemma built_empty m : built [] m ∅.
Proof. constructor; [split|..]; try done; intros x h; [intros h'|]; by intros (? & ? & _). Qed.

Lemma built_unplaced ks m Q x : built ks m Q → nd_kind x ∉ ks → unplaced Q x.
Proof. intros Hb Hx h Hin. by apply Hx, (bu_kinds _ _ _ Hb _ h). Qed.

Lemma built_more ks ks' m Q : built ks m Q → ks ⊆ ks' → built ks' m Q.
Proof. intros [] Hs. constructor; try done. eauto. Qed.

Lemma built_QueInit ks m Q h : built ks m Q → unplaced Q h → nd_kind h ∈ ks → nd_kind h ≠ KTsk →
  built ks (QueInit h m) (<[h := []]> Q).
Proof.
  intros [Hw Ht Hk Hh] Hu Hin Hne. constructor.
  - by apply qwf_init.
  - intros h' l y [[<- <-]|[_ HQ]]%lookup_insert_Some Hy; [set_solver|by eapply Ht].
  - intros x h' [[_ Hx]|[_ Hx]]%in_ring_insert; [|by eapply Hk]. by apply list_elem_of_singleton in Hx as ->.
  - intros h' l [[<- _]|[_ HQ]]%lookup_insert_Some; [done|by eapply Hh].
Qed.

Lemma built_insert ks m Q h l e : built ks m Q → Q !! h = Some l → unplaced Q e → elem_ok h e = true →
  nd_kind e ∈ ks → built ks (QueInsert e h m) (<[h := l ++ [e]]> Q).
Proof.
  intros [Hw Ht Hk Hh] HQ Hu He Hin. constructor.
  - rewrite <- (app_nil_r l) in HQ. apply (qwf_insert m Q h l [] e); done.
  - intros h' l' y [[<- <-]|[_ HQ']]%lookup_insert_Some Hy; [|by eapply Ht].
    apply elem_of_app in Hy as [Hy|Hy%list_elem_of_singleton]; [by eapply Ht|by subst y].
  - intros x h' [[-> Hx]|[_ Hx]]%in_ring_insert; [|by eapply Hk].
    apply elem_of_cons in Hx as [->|Hx]; [by eapply Hk, in_ring_head|].
    apply elem_of_app in Hx as [Hx|Hx%list_elem_of_singleton]; [by eapply Hk, in_ring_elem|by subst x].
  - intros h' l' [[<- _]|[_ HQ']]%lookup_insert_Some; by eapply Hh.
Qed.

(** The link of a node that is in no ring. *)
Lemma built_set_next ks m Q e v : built ks m Q → unplaced Q e → built ks (set_qnext e v m) Q.
Proof.
  intros [[Hr Hd] Ht Hk Hh] Hu. constructor; try done. split; [|done]. intros h l HQ.
  eapply ring_frame; [|by apply Hr]. intros x Hx. simpl. rewrite fn_lookup_insert_ne; [done|].
  intros ->. apply (Hu h). by exists l.
Qed.

(** A free list: the head, then the nodes in order; [g] is what else a round does. *)
Lemma built_free_list ks m Q kh kx n (g : Z → qmem node → qmem node) :
  built ks m Q → kh ∉ ks → kx ∉ ks → kh ≠ kx → kh ≠ KTsk → 0 <= n →
  (∀ i, 0 <= i < n → elem_ok (Nd kh 0) (Nd kx i) = true) →
  (∀ i m Q, built (kh :: kx :: ks) m Q → built (kh :: kx :: ks) (g i m) Q) →
  built (kh :: kx :: ks) (foldl (λ m i, QueInsert (Nd kx i) (Nd kh 0) (g i m)) (QueInit (Nd kh 0) m) (seqZ 0 n))
    (<[Nd kh 0 := Nd kx <$> seqZ 0 n]> Q).
Proof.
  intros Hb Hh Hx Hne Htsk Hn Hok Hg.
  assert (Hall : ∀ j, (j <= Z.to_nat n)%nat →
    built (kh :: kx :: ks) (foldl (λ m i, QueInsert (Nd kx i) (Nd kh 0) (g i m)) (QueInit (Nd kh 0) m) (seqZ 0 (Z.of_nat j)))
      (<[Nd kh 0 := Nd kx <$> seqZ 0 (Z.of_nat j)]> Q)).
  { induction j as [|j IH]; intros Hj.
    - apply built_QueInit; [eapply built_more; [done|set_solver]|by eapply built_unplaced|left|done].
    - rewrite seqZ_S, foldl_app, fmap_app, Z.add_0_l. simpl.
      rewrite <- (insert_insert_eq Q (Nd kh 0) _ (Nd kx <$> seqZ 0 (Z.of_nat j))).
      apply built_insert; [by apply Hg, IH; lia|by rewrite lookup_insert_eq| |apply Hok; lia|by right; left].
      intros h' [[_ Hin]|[_ Hin]]%in_ring_insert.
      + apply elem_of_cons in Hin as [[= E _]|Hin]; [done|].
        apply list_elem_of_fmap in Hin as (i & [= <-] & Hi%elem_of_seqZ). lia.
      + exact (built_unplaced ks m Q (Nd kx (Z.of_nat j)) Hb Hx h' Hin). }
  replace n with (Z.of_nat (Z.to_nat n)) at 1 2 by lia. apply Hall. lia.
Qed.

(** ** The initialization of the objects *)

(** [f] succeeds, adds rings of nodes of the kinds [ks] and changes nothing else of the
    scheduler's state. *)
Definition makes (f : K → Z * K) (ks : list kind) (put : gmap node (list node) → gmap node (list node)) : Prop :=
  ∀ ks0 k Q, built ks0 (s_q (k_s k)) Q → (∀ x, x ∈ ks → x ∉ ks0) →
  ∃ k' m', f k = (E_OK, k') ∧ k_s k' = set_s_q m' (k_s k) ∧ built (ks ++ ks0) m' (put Q).

Definition free_list (kh kx : kind) (n : Z) : gmap node (list node) → gmap node (list node) :=
  insert (Nd kh 0) (Nd kx <$> seqZ 0 n).

Lemma makes_nothing : makes (run_init []) [] id.
Proof. intros ks0 k Q Hb _. exists k, (s_q (k_s k)). split_and!; [done|by destruct (k_s k)|done]. Qed.

Lemma makes_then f fs ks1 put1 ks2 put2 : makes f ks1 put1 → makes (run_init fs) ks2 put2 →
  (∀ x, x ∈ ks2 → x ∉ ks1) → makes (run_init (f :: fs)) (ks2 ++ ks1) (λ Q, put2 (put1 Q)).
Proof.
  intros H1 H2 Hd ks0 k Q Hb Hn. destruct (H1 ks0 k Q Hb) as (k1 & m1 & E1 & Es1 & Hb1); [set_solver|].
  destruct (H2 (ks1 ++ ks0) k1 (put1 Q)) as (k2 & m2 & E2 & Es2 & Hb2); [by rewrite Es1|set_solver|].
  exists k2, m2. simpl. rewrite E1. simpl. rewrite E2, Es2, Es1. rewrite <- app_assoc. by split_and!.
Qed.

Lemma init_loop (F : K → Z → K) (G : Z → qmem node → qmem node) l k :
  (∀ k i, k_s (F k i) = upd_q (G i) (k_s k)) →
  k_s (foldl F k l) = set_s_q (foldl (λ m i, G i m) (s_q (k_s k)) l) (k_s k).
Proof.
  intros HF. revert k. induction l as [|i l IH]; intros k; simpl; [by destruct (k_s k)|].
  rewrite IH, HF. unfold upd_q. by destruct (k_s k).
Qed.

Lemma makes_free_list f kh kx n (F : K → Z → K) (g : Z → qmem node → qmem node) (ks : list kind) :
  (∀ k, f k = (E_OK, foldl F (upd_s (upd_q (QueInit (Nd kh 0))) k) (seqZ 0 n))) →
  (∀ k i, k_s (F k i) = upd_q (λ m, QueInsert (Nd kx i) (Nd kh 0) (g i m)) (k_s k)) →
  (∀ ks0 i m Q, (∀ x, x ∈ ks → x ∉ ks0) → built (kh :: kx :: ks0) m Q → built (kh :: kx :: ks0) (g i m) Q) →
  kh ≠ kx → kh ≠ KTsk → 0 <= n → kind_ok (Nd kh 0) (Nd kx 0) = true → kind_num kx = n →
  makes f (kh :: kx :: ks) (free_list kh kx n).
Proof.
  intros Hf HF Hg Hne Htsk Hn Hok Hnum ks0 k Q Hb Hd. eexists.
  exists (foldl (λ m i, QueInsert (Nd kx i) (Nd kh 0) (g i m)) (QueInit (Nd kh 0) (s_q (k_s k))) (seqZ 0 n)).
  split; [apply Hf|]. split; [rewrite (init_loop F _ _ _ HF); simpl; by destruct (k_s k)|].
  eapply built_more; [apply built_free_list; try done|].
  - apply Hd. left.
  - apply Hd. right; left.
  - intros i Hi. unfold elem_ok. apply andb_true_iff. split; [exact Hok|].
    unfold idx_ok. simpl. rewrite Hnum. apply andb_true_iff. rewrite Z.leb_le, Z.ltb_lt. lia.
  - intros i m Q' Hb'. apply Hg; [|done]. intros x Hx. apply Hd. by do 2 right.
  - set_solver.
Qed.

Ltac free_list F :=
  apply (makes_free_list _ _ _ _ F (λ _ m, m) []);
  [reflexivity|reflexivity|done|done|done|by vm_compute|reflexivity|reflexivity].

Lemma makes_sem : makes knl_semaphore_initialize [KFreeSem; KSem] (free_list KFreeSem KSem NUM_SEMID).
Proof. free_list (λ k i, upd_s (upd_q (QueInsert (SEMQ i) FREE_SEM)) (upd_sem i (set_semid 0) k)). Qed.
Lemma makes_flg : makes knl_eventflag_initialize [KFreeFlg; KFlg] (free_list KFreeFlg KFlg NUM_FLGID).
Proof. free_list (λ k i, upd_s (upd_q (QueInsert (FLGQ i) FREE_FLG)) (upd_flg i (set_flgid 0) k)). Qed.
Lemma makes_mbx : makes knl_mailbox_initialize [KFreeMbx; KMbx] (free_list KFreeMbx KMbx NUM_MBXID).
Proof. free_list (λ k i, upd_s (upd_q (QueInsert (MBXQ i) FREE_MBX)) (upd_mbx i (set_mbxid 0) k)). Qed.
Lemma makes_mbf : makes knl_messagebuffer_initialize [KFreeMbf; KSmbf] (free_list KFreeMbf KSmbf NUM_MBFID).
Proof. free_list (λ k i, upd_s (upd_q (QueInsert (SMBFQ i) FREE_MBF)) (upd_mbf i (set_mbfid 0) k)). Qed.
Lemma makes_por : makes knl_rendezvous_initialize [KFreePor; KCal] (free_list KFreePor KCal NUM_PORID).
Proof. free_list (λ k i, upd_s (upd_q (QueInsert (CALQ i) FREE_POR)) (upd_por i (set_porid 0) k)). Qed.
Lemma makes_mtx : makes knl_mutex_initialize [KFreeMtx; KMtx] (free_list KFreeMtx KMtx NUM_MTXID).
Proof. free_list (λ k i, upd_s (upd_q (QueInsert (MTXQ i) FREE_MTX)) (upd_mtx i (set_mtxid 0) k)). Qed.
Lemma makes_mpl : makes knl_memorypool_initialize [KFreeMpl; KMpl] (free_list KFreeMpl KMpl NUM_MPLID).
Proof. free_list (λ k i, upd_s (upd_q (QueInsert (MPLQ i) FREE_MPL)) (upd_mpl i (set_mplid 0) k)). Qed.
Lemma makes_cyc : makes knl_cyclichandler_initialize [KFreeCyc; KCyc] (free_list KFreeCyc KCyc NUM_CYCID).
Proof. free_list (λ k i, upd_s (upd_q (QueInsert (CYCQ i) FREE_CYC)) (upd_cyc i (set_cychdr NULL) k)). Qed.
Lemma makes_alm : makes knl_alarmhandler_initialize [KFreeAlm; KAlm] (free_list KFreeAlm KAlm NUM_ALMID).
Proof. free_list (λ k i, upd_s (upd_q (QueInsert (ALMQ i) FREE_ALM)) (upd_alm i (set_almhdr NULL) k)). Qed.

(** A round for a fixed-size pool also clears the link of its lock. *)
Lemma makes_mpf : makes knl_fix_memorypool_initialize [KFreeMpf; KMpf; KLock] (free_list KFreeMpf KMpf NUM_MPFID).
Proof.
  apply (makes_free_list _ _ _ _
    (λ k i, upd_s (upd_q (QueInsert (MPFQ i) FREE_MPF)) (upd_s (knl_InitOBJLOCK (MPFLOCK i)) (upd_mpf i (set_mpfid 0) k)))
    (λ i m, set_qnext (MPFLOCK i) NULLQ m) [KLock]);
    [reflexivity|reflexivity| |done|done|by vm_compute|reflexivity|reflexivity].
  intros ks0 i m Q Hd Hb. eapply built_set_next, built_unplaced; [done..|]. simpl.
  specialize (Hd KLock). set_solver.
Qed.

(** ** The tables of tasks *)

(** The rings of the ready queues. *)
Definition rdy_rings : gmap node (list node) := foldl (λ Q i, <[RDYQ i := []]> Q) ∅ (seqZ 0 NUM_TSKPRI).
Lemma rdy_rings_built n m :
  built [KRdy] (foldl (λ m i, QueInit (RDYQ i) m) m (seqZ 0 (Z.of_nat n)))
    (foldl (λ Q i, <[RDYQ i := []]> Q) ∅ (seqZ 0 (Z.of_nat n))) ∧
  ∀ h l, (foldl (λ Q i, <[RDYQ i := []]> Q) (∅ : gmap node (list node)) (seqZ 0 (Z.of_nat n))) !! h = Some l ↔
    l = [] ∧ nd_kind h = KRdy ∧ 0 <= nd_idx h < Z.of_nat n.
Proof.
  induction n as [|n [IHb IHl]].
  - split; [eapply built_more; [apply built_empty|set_solver]|]. intros h l. simpl. split; [done|lia].
  - rewrite seqZ_S, !foldl_app, Z.add_0_l. simpl. split.
    + apply built_QueInit; [done| |by left|done]. intros h (l & HQ & Hin). apply IHl in HQ as (-> & Hk & Hi).
      apply list_elem_of_singleton in Hin. subst h. simpl in *. lia.
    + intros h l. rewrite lookup_insert_Some, IHl. destruct h as [kd i]. simpl. split.
      * intros [[[= <- <-] <-]|[_ (? & ? & ?)]]; split_and!; try done; lia.
      * intros (-> & -> & Hi). destruct (decide (i = Z.of_nat n)) as [->|Hne]; [by left|]. right.
        split; [congruence|]. split_and!; try done; lia.
Qed.

Lemma rdy_rings_lookup h l : rdy_rings !! h = Some l ↔ l = [] ∧ nd_kind h = KRdy ∧ 0 <= nd_idx h < NUM_TSKPRI.
Proof.
  destruct (rdy_rings_built (Z.to_nat NUM_TSKPRI) (Qmem (λ x, x) (λ x, x))) as [_ Hl]. specialize (Hl h l).
  rewrite Z2Nat.id in Hl by done. exact Hl.
Qed.

Lemma rdy_built m : built [KRdy] (foldl (λ m i, QueInit (RDYQ i) m) m (seqZ 0 NUM_TSKPRI)) rdy_rings.
Proof.
  destruct (rdy_rings_built (Z.to_nat NUM_TSKPRI) m) as [Hb _]. rewrite Z2Nat.id in Hb by done. exact Hb.
Qed.

Lemma foldl_upd_q (F : Z → qmem node → qmem node) l s :
  foldl (λ s i, upd_q (F i) s) s l = set_s_q (foldl (λ m i, F i m) (s_q s) l) s.
Proof. revert s. induction l as [|i l IH]; intros s; simpl; [by destruct s|]. by rewrite IH. Qed.

Lemma init_tcbs (f : Z → TCB → TCB) l : NoDup l → ∀ s,
  let s' := foldl (λ s i, upd_q (QueInsert (TSKQ i) FREE_TCB) (upd_tcb i (f i) s)) s l in
  s_q s' = foldl (λ m i, QueInsert (TSKQ i) FREE_TCB m) (s_q s) l ∧
  (∀ t, s_tcb s' t = if decide (t ∈ l) then f t (s_tcb s t) else s_tcb s t) ∧
  s_rq s' = s_rq s ∧ s_ctxtsk s' = s_ctxtsk s ∧ s_schedtsk s' = s_schedtsk s.
Proof.
  induction 1 as [|i l Hi Hnd IH]; intros s; simpl.
  { by split_and!. }
  destruct (IH (upd_q (QueInsert (TSKQ i) FREE_TCB) (upd_tcb i (f i) s))) as (H1 & H2 & H3 & H4 & H5).
  split_and!; try done. intros t. rewrite H2. simpl. upd_case i t.
  - by rewrite decide_False, decide_True by set_solver.
  - destruct (decide (t ∈ l)); [by rewrite decide_True by set_solver|]. by rewrite decide_False by set_solver.
Qed.

Definition reset (t : Z) (tc : TCB) : TCB := set_t_wrdvno (ID_TSK t) (set_t_state TS_NONEXIST (set_t_tskid (ID_TSK t) tc)).

Lemma task_initialize_spec s : ∃ s',
  knl_task_initialize s = (E_OK, s') ∧
  built [KFreeTcb; KTsk; KRdy] (s_q s') (free_list KFreeTcb KTsk NUM_TSKID rdy_rings) ∧
  (∀ t, s_tcb s' t = if decide (0 <= t < NUM_TSKID) then reset t (s_tcb s t) else s_tcb s t) ∧
  s_rq s' = mkRDYQUE NUM_TSKPRI 0 None ∧ s_ctxtsk s' = None ∧ s_schedtsk s' = None.
Proof.
  unfold knl_task_initialize, knl_ready_queue_initialize. rewrite (foldl_upd_q (λ i, QueInit (RDYQ i))).
  set (s1 := upd_q (QueInit FREE_TCB) _).
  destruct (init_tcbs reset (seqZ 0 NUM_TSKID) (NoDup_seqZ 0 NUM_TSKID) s1) as (H1 & H2 & H3 & H4 & H5).
  exists (foldl (λ s i, upd_q (QueInsert (TSKQ i) FREE_TCB) (upd_tcb i (reset i) s)) s1 (seqZ 0 NUM_TSKID)).
  split; [reflexivity|]. split_and!; [|intros t|by rewrite H3|by rewrite H4|by rewrite H5].
  - assert (Hq : s_q s1 = QueInit FREE_TCB (foldl (λ m i, QueInit (RDYQ i) m) (s_q s) (seqZ 0 NUM_TSKPRI))) by reflexivity.
    rewrite H1, Hq.
    apply (built_free_list [KRdy] _ rdy_rings KFreeTcb KTsk NUM_TSKID (λ _ m, m) (rdy_built _)).
    1-2: intros Hin%list_elem_of_singleton; discriminate. 1-3: discriminate. 2: auto.
    intros i Hi. unfold elem_ok, idx_ok. simpl. apply andb_true_iff. rewrite Z.leb_le, Z.ltb_lt. exact Hi.
  - rewrite H2. simpl. destruct (decide (t ∈ seqZ 0 NUM_TSKID)) as [Hin|Hin]; rewrite elem_of_seqZ in Hin.
    + by rewrite decide_True by lia.
    + by rewrite decide_False by lia.
Qed.

Ltac other_kinds := apply Forall_forall; apply (bool_decide_unpack _); vm_compute; exact I.

Lemma makes_objects :
  makes (run_init [knl_semaphore_initialize; knl_eventflag_initialize; knl_mailbox_initialize;
           knl_messagebuffer_initialize; knl_rendezvous_initialize; knl_mutex_initialize;
           knl_memorypool_initialize; knl_fix_memorypool_initialize;
           knl_cyclichandler_initialize; knl_alarmhandler_initialize])
    [KFreeAlm; KAlm; KFreeCyc; KCyc; KFreeMpf; KMpf; KLock; KFreeMpl; KMpl; KFreeMtx; KMtx; KFreePor; KCal;
     KFreeMbf; KSmbf; KFreeMbx; KMbx; KFreeFlg; KFlg; KFreeSem; KSem]
    (λ Q, free_list KFreeAlm KAlm NUM_ALMID (free_list KFreeCyc KCyc NUM_CYCID
      (free_list KFreeMpf KMpf NUM_MPFID (free_list KFreeMpl KMpl NUM_MPLID (free_list KFreeMtx KMtx NUM_MTXID
      (free_list KFreePor KCal NUM_PORID (free_list KFreeMbf KSmbf NUM_MBFID (free_list KFreeMbx KMbx NUM_MBXID
      (free_list KFreeFlg KFlg NUM_FLGID (free_list KFreeSem KSem NUM_SEMID Q)))))))))).
Proof.
  pose proof makes_nothing as H. apply (makes_then _ _ _ _ _ _ makes_alm) in H; [|other_kinds].
  apply (makes_then _ _ _ _ _ _ makes_cyc) in H; [|other_kinds]. apply (makes_then _ _ _ _ _ _ makes_mpf) in H; [|other_kinds].
  apply (makes_then _ _ _ _ _ _ makes_mpl) in H; [|other_kinds]. apply (makes_then _ _ _ _ _ _ makes_mtx) in H; [|other_kinds].
  apply (makes_then _ _ _ _ _ _ makes_por) in H; [|other_kinds]. apply (makes_then _ _ _ _ _ _ makes_mbf) in H; [|other_kinds].
  apply (makes_then _ _ _ _ _ _ makes_mbx) in H; [|other_kinds]. apply (makes_then _ _ _ _ _ _ makes_flg) in H; [|other_kinds].
  apply (makes_then _ _ _ _ _ _ makes_sem) in H; [|other_kinds]. exact H.
Qed.

(** The first rings, before the timer queue is one of them. *)
Definition object_rings : gmap node (list node) :=
  free_list KFreeAlm KAlm NUM_ALMID (free_list KFreeCyc KCyc NUM_CYCID
    (free_list KFreeMpf KMpf NUM_MPFID (free_list KFreeMpl KMpl NUM_MPLID (free_list KFreeMtx KMtx NUM_MTXID
    (free_list KFreePor KCal NUM_PORID (free_list KFreeMbf KSmbf NUM_MBFID (free_list KFreeMbx KMbx NUM_MBXID
    (free_list KFreeFlg KFlg NUM_FLGID (free_list KFreeSem KSem NUM_SEMID
    (free_list KFreeTcb KTsk NUM_TSKID rdy_rings)))))))))).

Definition object_kinds : list kind :=
  [KFreeAlm; KAlm; KFreeCyc; KCyc; KFreeMpf; KMpf; KLock; KFreeMpl; KMpl; KFreeMtx; KMtx; KFreePor; KCal;
   KFreeMbf; KSmbf; KFreeMbx; KMbx; KFreeFlg; KFlg; KFreeSem; KSem; KFreeTcb; KTsk; KRdy].

Lemma init_object_spec k : ∃ k' m,
  knl_init_object k = (E_OK, k') ∧ k_s k' = set_s_q m (knl_task_initialize (k_s k)).2 ∧ built object_kinds m object_rings.
Proof.
  destruct (task_initialize_spec (k_s k)) as (s1 & E1 & Hb1 & _).
  destruct (makes_objects [KFreeTcb; KTsk; KRdy] (set_k_s s1 k) _ Hb1) as (k' & m & E & Es & Hb).
  { other_kinds. }
  exists k', m. rewrite E1. split; [|by split].
  unfold knl_init_object. cbn [run_init]. cbn [run_init] in E. rewrite E1. exact E.
Qed.

Lemma object_rings_rdy p : 0 <= p < NUM_TSKPRI → object_rings !! RDYQ p = Some [].
Proof.
  intros Hp. unfold object_rings, free_list. do 11 (rewrite lookup_insert_ne by discriminate). by apply rdy_rings_lookup.
Qed.

Lemma object_rings_tcb : object_rings !! FREE_TCB = Some (TSKQ <$> seqZ 0 NUM_TSKID).
Proof. unfold object_rings, free_list. do 10 (rewrite lookup_insert_ne by discriminate). apply lookup_insert_eq. Qed.

(** The control blocks of the BSS: no task, no lock. *)
Definition no_tasks (s : SCH) : Prop :=
  ∀ t, t_state (s_tcb s t) = TS_NONEXIST ∧ t_klockwait (s_tcb s t) = false ∧ t_klocked (s_tcb s t) = false.

Lemma startup_kinv k : no_tasks (k_s k) → ∃ k1 s1,
  knl_init_object k = (E_OK, k1) ∧ knl_timer_startup (k_s k1) = (E_OK, s1) ∧
  kinv s1 (<[TIMERQ := []]> object_rings) ∧ s_schedtsk s1 = None ∧ s_ctxtsk s1 = None ∧
  ∀ t, t_state (s_tcb s1 t) = TS_NONEXIST.
Proof.
  intros Hno. destruct (init_object_spec k) as (k1 & m & E & Es & Hb).
  destruct (task_initialize_spec (k_s k)) as (s0 & E0 & _ & Htcb & Hrq & Hctx & Hsch). rewrite E0 in Es. simpl in Es.
  assert (Hb' : built (KTimer :: object_kinds) (QueInit TIMERQ m) (<[TIMERQ := []]> object_rings)).
  { apply built_QueInit; [eapply built_more; [exact Hb|set_solver]| |by left|done].
    eapply built_unplaced; [exact Hb|]. apply (bool_decide_unpack _). by vm_compute. }
  assert (Hst : ∀ t, t_state (s_tcb s0 t) = TS_NONEXIST ∧ t_klockwait (s_tcb s0 t) = false ∧ t_klocked (s_tcb s0 t) = false ∧
            (0 <= t < NUM_TSKID → t_tskid (s_tcb s0 t) = ID_TSK t)).
  { intros t. rewrite Htcb. destruct (Hno t) as (H1 & H2 & H3). by case_decide. }
  assert (Hr : ∀ p, 0 <= p < NUM_TSKPRI → (<[TIMERQ := []]> object_rings) !! RDYQ p = Some []).
  { intros p Hp. rewrite lookup_insert_ne by discriminate. by apply object_rings_rdy. }
  assert (Hf : (<[TIMERQ := []]> object_rings) !! FREE_TCB = Some (TSKQ <$> seqZ 0 NUM_TSKID)).
  { rewrite lookup_insert_ne by discriminate. apply object_rings_tcb. }
  assert (Ht : (<[TIMERQ := []]> object_rings) !! TIMERQ = Some []) by apply lookup_insert_eq.
  revert Hb' Hr Hf Ht. generalize (<[TIMERQ := []]> object_rings). intros Q Hb' Hr Hf Ht.
  exists k1, (upd_q (QueInit TIMERQ) (set_s_current_time 0 (set_s_real_time_ofs 0 (k_s k1)))).
  split; [exact E|]. split; [reflexivity|]. rewrite Es. clear E Es E0 Hb.
  split; [|split_and!; [exact Hsch|exact Hctx|intros t; apply Hst]].
  constructor; simpl.
  - apply Hb'.
  - apply Hb'.
  - intros h [[Hk Hi]|[->| ->]].
    + destruct h as [kd i]. simpl in *. subst kd. by rewrite Hr.
    + by rewrite Ht.
    + by rewrite Hf.
  - rewrite Hrq. constructor; simpl; try done.
    intros p Hp. by rewrite Z.bits_0, Hr by done.
  - intros _. by rewrite Hrq, Hsch.
  - intros t _. unfold home. destruct (Hst t) as (-> & _). simpl.
    destruct (idx_ok (TSKQ t)) eqn:Hi; simpl.
    + eapply in_ring_elem; [exact Hf|]. apply list_elem_of_fmap_2, elem_of_seqZ.
      unfold idx_ok in Hi. simpl in Hi. apply andb_true_iff in Hi as [?%Z.leb_le ?%Z.ltb_lt]. lia.
    + intros h (l & HQ & Hin). apply elem_of_cons in Hin as [<-|Hin].
      * by apply (bu_heads _ _ _ Hb' _ _ HQ).
      * pose proof (bu_typed _ _ _ Hb' _ _ _ HQ Hin) as Hty. unfold elem_ok in Hty. by rewrite Hi, andb_false_r in Hty.
  - intros t _. unfold tmeb_placed, waiting. destruct (Hst t) as (-> & _). simpl.
    eapply built_unplaced; [exact Hb'|]. apply (bool_decide_unpack _). by vm_compute.
  - intros t _. destruct (Hst t) as (H1 & H2 & H3 & H4). constructor; unfold waiting; rewrite ?H1; try done. by left.
Qed.

(** ** No object exists yet *)

Record no_objects (k : K) : Prop := {
  no_sem : ∀ i, 0 <= i < NUM_SEMID → semid (k_sem k i) = 0;
  no_flg : ∀ i, 0 <= i < NUM_FLGID → flgid (k_flg k i) = 0;
  no_mbx : ∀ i, 0 <= i < NUM_MBXID → mbxid (k_mbx k i) = 0;
  no_mbf : ∀ i, 0 <= i < NUM_MBFID → mbfid (k_mbf k i) = 0;
  no_por : ∀ i, 0 <= i < NUM_PORID → porid (k_por k i) = 0;
  no_mtx : ∀ i, 0 <= i < NUM_MTXID → mtxid (k_mtx k i) = 0;
  no_mpl : ∀ i, 0 <= i < NUM_MPLID → mplid (k_mpl k i) = 0;
  no_mpf : ∀ i, 0 <= i < NUM_MPFID → mpfid (k_mpf k i) = 0;
  no_cyc : ∀ i, 0 <= i < NUM_CYCID → cychdr (k_cyc k i) = NULL;
  no_alm : ∀ i, 0 <= i < NUM_ALMID → almhdr (k_alm k i) = NULL
}.

(** Of the tables of objects, [f] clears entry by entry the one [T] reads. *)
Definition clears {A : Type} (f : K → Z * K) (T : K → Z → A) (P : A → Prop) (n : Z) : Prop :=
  ∀ k i, 0 <= i < n → P (T (f k).2 i).
Definition spares {A : Type} (T : K → Z → A) (f : K → Z * K) : Prop := ∀ k, T (f k).2 = T k.

Lemma foldl_spares {A : Type} (T : K → Z → A) (F : K → Z → K) l k :
  (∀ k i, T (F k i) = T k) → T (foldl F k l) = T k.
Proof. intros HF. revert k. induction l as [|i l IH]; intros k; simpl; [done|]. by rewrite IH. Qed.

Lemma foldl_clears {A : Type} (T : K → Z → A) (g : A → A) (P : A → Prop) (F : K → Z → K) n k i :
  (∀ k i, T (F k i) = <[i := g (T k i)]> (T k)) → (∀ x, P (g x)) → 0 <= i < n → P (T (foldl F k (seqZ 0 n)) i).
Proof.
  intros HF HP Hi. assert (Hall : ∀ l k, i ∈ l ∨ P (T k i) → P (T (foldl F k l) i)).
  { induction l as [|j l IH]; intros k' Hl; simpl; [by destruct Hl as [?%not_elem_of_nil|]|].
    apply IH. rewrite HF. upd_case j i; [by right|]. destruct Hl as [Hl|]; [|by right]. left.
    apply elem_of_cons in Hl as [->|]; done. }
  apply Hall. left. apply elem_of_seqZ. lia.
Qed.

(** What a routine early in the list clears is spared by those behind it. *)
Lemma run_init_clears {A : Type} (T : K → Z → A) P n fs1 f fs2 k k' :
  clears f T P n → Forall (spares T) fs2 → run_init (fs1 ++ f :: fs2) k = (E_OK, k') → ∀ i, 0 <= i < n → P (T k' i).
Proof.
  intros Hf H2. revert k. induction fs1 as [|f1 fs1 IH]; intros k; simpl.
  - destruct (f k) as [e k1] eqn:E. destruct (Z.ltb_spec e E_OK); [intros [= -> _]; unfold E_OK in *; lia|]. intros Hr.
    assert (Hs : T k' = T k1).
    { clear E. revert k1 Hr. induction H2 as [|f2 fs2 Hf2 H2 IH2]; intros k1; simpl; [by intros [= ->]|].
      destruct (f2 k1) as [e2 k2] eqn:E2. destruct (Z.ltb_spec e2 E_OK); [intros [= -> _]; unfold E_OK in *; lia|].
      intros Hr. rewrite (IH2 _ Hr). specialize (Hf2 k1). by rewrite E2 in Hf2. }
    intros i Hi. rewrite Hs. specialize (Hf k i Hi). by rewrite E in Hf.
  - destruct (f1 k) as [e k1]. destruct (Z.ltb_spec e E_OK); [intros [= -> _]; unfold E_OK in *; lia|]. apply IH.
Qed.

(** The routine [f] for the table [T] is the member with [before] routines in front. *)
Ltac cleared T g P before behind :=
  lazymatch goal with
  | E : run_init _ _ = (E_OK, _) |- _ =>
      refine (run_init_clears T P _ before _ behind _ _ _ _ E);
      [ let i := fresh in let Hi := fresh in intros ? i Hi; refine (foldl_clears T g P _ _ _ i _ _ Hi); [reflexivity|done]
      | repeat first [apply Forall_nil_2 | apply Forall_cons_2];
        intros ?; refine (foldl_spares T _ _ _ _); reflexivity ]
  end.

Lemma init_no_objects k k' : knl_init_object k = (E_OK, k') → no_objects k'.
Proof.
  unfold knl_init_object. intros E. set (f0 := λ k, let '(ercd, s) := knl_task_initialize (k_s k) in (ercd, set_k_s s k)) in E.
  pose (f1 := knl_semaphore_initialize).
  pose (f2 := knl_eventflag_initialize).
  pose (f3 := knl_mailbox_initialize).
  pose (f4 := knl_messagebuffer_initialize).
  pose (f5 := knl_rendezvous_initialize).
  pose (f6 := knl_mutex_initialize).
  pose (f7 := knl_memorypool_initialize).
  pose (f8 := knl_fix_memorypool_initialize).
  pose (f9 := knl_cyclichandler_initialize).
  pose (f10 := knl_alarmhandler_initialize).
  constructor.
  - cleared k_sem (set_semid 0) (λ c, semid c = 0) [f0] [f2; f3; f4; f5; f6; f7; f8; f9; f10].
  - cleared k_flg (set_flgid 0) (λ c, flgid c = 0) [f0; f1] [f3; f4; f5; f6; f7; f8; f9; f10].
  - cleared k_mbx (set_mbxid 0) (λ c, mbxid c = 0) [f0; f1; f2] [f4; f5; f6; f7; f8; f9; f10].
  - cleared k_mbf (set_mbfid 0) (λ c, mbfid c = 0) [f0; f1; f2; f3] [f5; f6; f7; f8; f9; f10].
  - cleared k_por (set_porid 0) (λ c, porid c = 0) [f0; f1; f2; f3; f4] [f6; f7; f8; f9; f10].
  - cleared k_mtx (set_mtxid 0) (λ c, mtxid c = 0) [f0; f1; f2; f3; f4; f5] [f7; f8; f9; f10].
  - cleared k_mpl (set_mplid 0) (λ c, mplid c = 0) [f0; f1; f2; f3; f4; f5; f6] [f8; f9; f10].
  - cleared k_mpf (set_mpfid 0) (λ c, mpfid c = 0) [f0; f1; f2; f3; f4; f5; f6; f7] [f9; f10].
  - cleared k_cyc (set_cychdr NULL) (λ c, cychdr c = NULL) [f0; f1; f2; f3; f4; f5; f6; f7; f8] [f10].
  - cleared k_alm (set_almhdr NULL) (λ c, almhdr c = NULL) [f0; f1; f2; f3; f4; f5; f6; f7; f8; f9] (@nil (K → Z * K)).
Qed.

(** The heap is not touched. *)
Lemma init_spares_heap k k' : knl_init_object k = (E_OK, k') → k_heap k' = k_heap k.
Proof.
  unfold knl_init_object. set (fs := [_; _; _; _; _; _; _; _; _; _; _]).
  assert (Hs : Forall (spares (λ k (_ : Z), k_heap k)) fs).
  { unfold fs. apply Forall_cons. split; [intros k0; by destruct (knl_task_initialize (k_s k0))|].
    repeat first [apply Forall_nil_2 | apply Forall_cons_2]; intros ?;
      refine (foldl_spares (λ k (_ : Z), k_heap k) _ _ _ _); reflexivity. }
  clearbody fs. revert k. induction Hs as [|f fs Hf _ IH]; intros k; simpl; [by intros [= ->]|].
  destruct (f k) as [e k1] eqn:E. destruct (Z.ltb_spec e E_OK); [intros [= -> _]; unfold E_OK in *; lia|].
  intros Hr. rewrite (IH _ Hr). pose proof (Hf k) as Hk. rewrite E in Hk. exact (f_equal (λ g, g 0) Hk).
Qed.

(** ** The initial task *)

(** A task in the list of free TCBs does not exist. *)
Lemma free_tcb_unused s Q t l1 l2 : kinv s Q → Q !! FREE_TCB = Some (l1 ++ TSKQ t :: l2) → t_state (s_tcb s t) = TS_NONEXIST.
Proof.
  intros Hk HQ. pose proof (ki_home _ _ _ _ Hk t ltac:(done)) as Hh.
  assert (Hin : in_ring Q (TSKQ t) FREE_TCB) by (eapply in_ring_elem; [exact HQ|set_solver]).
  unfold home in Hh. destruct (Z.eqb_spec (t_state (s_tcb s t)) TS_READY).
  { pose proof (qwf_disjoint _ _ _ _ _ (ki_qwf _ _ _ _ Hk) Hin Hh) as E. discriminate. }
  destruct (Z.eqb_spec (t_state (s_tcb s t)) TS_NONEXIST); [done|]. destruct (waiting (s_tcb s t)).
  - pose proof (qwf_disjoint _ _ _ _ _ (ki_qwf _ _ _ _ Hk) Hin Hh) as E. by destruct (t_wspec (s_tcb s t)).
  - by apply Hh in Hin.
Qed.

(** Taking the first free TCB: the task is dormant and has its priority; no other task
    changes. *)
Lemma cre_tsk_block_spec pk sstksz stack k Q t l :
  kinv (k_s k) Q → Q !! FREE_TCB = Some (TSKQ t :: l) → CHK_PRI (ctsk_itskpri pk) = true →
  ∃ k', cre_tsk_block pk sstksz stack k = (ID_TSK t, k') ∧ 0 <= t < NUM_TSKID ∧
    kinv (k_s k') (<[FREE_TCB := l]> Q) ∧ same_rest (k_s k) (k_s k') ∧
    t_state (s_tcb (k_s k') t) = TS_DORMANT ∧ t_priority (s_tcb (k_s k') t) = int_priority (ctsk_itskpri pk) ∧
    (∀ t', t' ≠ t → s_tcb (k_s k') t' = s_tcb (k_s k) t') ∧ (no_objects k → no_objects k') ∧ k_heap k' = k_heap k.
Proof.
  intros Hk HQ Hp. pose proof (free_tcb_unused _ _ t [] l Hk HQ) as Hst.
  pose proof (ki_tmeb _ _ _ _ Hk t ltac:(done)) as Hut. unfold tmeb_placed, waiting in Hut. rewrite Hst in Hut. simpl in Hut.
  pose proof (ki_task _ _ _ _ Hk t ltac:(done)) as Hok.
  assert (Hty : elem_ok FREE_TCB (TSKQ t) = true) by (eapply (ki_typed _ _ _ _ Hk); [exact HQ|left]).
  assert (Ht : 0 <= t < NUM_TSKID).
  { unfold elem_ok, idx_ok in Hty. simpl in Hty. apply andb_true_iff in Hty. rewrite Z.leb_le, Z.ltb_lt in Hty. exact Hty. }
  destruct (kinvx_remove true (Some t) _ _ (kinvx_take _ t _ _ Hk) FREE_TCB [] (TSKQ t) l) as [Hk1 Hu]; [by apply loose_tskq|done|exact HQ|].
  assert (Hpri : u8 (int_priority (ctsk_itskpri pk)) = int_priority (ctsk_itskpri pk) ∧
                 0 <= int_priority (ctsk_itskpri pk) < NUM_TSKPRI).
  { revert Hp. unfold CHK_PRI. rewrite andb_true_iff, !Z.leb_le. unfold MAX_TSKPRI, MIN_TSKPRI, int_priority, NUM_TSKPRI, CNF_MAX_TSKPRI.
    intros ?. split; [apply u8_small; unfold NUM_TSKPRI, CNF_MAX_TSKPRI, MIN_TSKPRI in *; lia|unfold MIN_TSKPRI in *; lia]. }
  destruct Hpri as [Hu8 Hpri].
  unfold cre_tsk_block. rewrite (QueRemoveNext_cons _ _ _ _ _ (ki_qwf _ _ _ _ Hk) HQ). cbv zeta.
  set (s1 := upd_q (QueRemove (TSKQ t)) (k_s k)) in *. unfold knl_make_dormant, knl_setup_context, as_tcb. cbn [nd_idx].
  eexists. split; [f_equal; simpl; rewrite !fn_lookup_insert; simpl; by apply (tk_tskid _ _ Hok)|].
  split; [exact Ht|]. split; [|split; [by constructor|split; [|split; [|split; [|split]]]]].
  - apply (kinvx_put true t); simpl.
    + apply (kinvx_upd_tcb true t), (kinvx_upd_tcb true t), (kinvx_upd_tcb true t). exact Hk1.
    + rewrite !fn_lookup_insert. exact Hu.
    + rewrite !fn_lookup_insert. unfold tmeb_placed, waiting. simpl. intros h [[_ Hin]|[_ Hin]]%in_ring_insert; [|by apply (Hut h)].
      apply (Hut FREE_TCB). eapply in_ring_elem; [exact HQ|]. apply elem_of_cons in Hin as [E|Hin]; [discriminate|by right].
    + rewrite !fn_lookup_insert. constructor; unfold waiting; simpl; rewrite ?Hu8; try done.
      * by do 5 right; left.
      * apply (tk_tskid _ _ Hok).
      * intros _. split; [lia|]. by intros [?|?].
  - simpl. by rewrite !fn_lookup_insert.
  - simpl. rewrite !fn_lookup_insert. simpl. exact Hu8.
  - intros t' Hne. simpl. by rewrite !fn_lookup_insert_ne by congruence.
  - by intros []; constructor.
  - done.
Qed.

(** ** From the BSS to the running system *)

(** The stack of the initial task. *)
Definition init_stksz : Z := Z.quot (s32 (s32 (8 * 1024 + DEFAULT_SYS_STKSZ) + 7)) 8 * 8.

(** The start with an allocator that has a stack, in every state with the heap of [k]. *)
Lemma start_kernel_ok `{Allocator} (init_task_main : Z) (k : K) :
  no_tasks (k_s k) →
  (∀ k0, k_heap k0 = k_heap k → (Imalloc (u32 init_stksz) k0).1 ≠ 0 ∧
    (Imalloc (u32 init_stksz) k0).2 = set_k_heap (k_heap (Imalloc (u32 init_stksz) k0).2) k0) →
  ∃ k' k0 Q, start_kernel init_task_main k = Some k' ∧ kinv (k_s k') Q ∧ no_objects k' ∧
    k_heap k0 = k_heap k ∧ k_heap k' = k_heap (Imalloc (u32 init_stksz) k0).2 ∧
    s_schedtsk (k_s k') = Some 0 ∧
    (∀ t, t_state (s_tcb (k_s k') t) = if decide (t = 0) then TS_READY else TS_NONEXIST) ∧
    Q !! RDYQ (int_priority INITTASK_ITSKPRI) = Some [TSKQ 0] ∧ Q !! FREE_TCB = Some (TSKQ <$> seqZ 1 (NUM_TSKID - 1)) ∧
    Q !! TIMERQ = Some [] ∧ Q !! FREE_SEM = Some (SEMQ <$> seqZ 0 NUM_SEMID).
Proof.
  intros Hno Ha. destruct (startup_kinv k Hno) as (k1 & s1 & E1 & E2 & Hk1 & Hsch & Hctx & Hst).
  pose proof (init_no_objects _ _ E1) as Hobj.
  assert (Hrings : ∀ p, 0 <= p < NUM_TSKPRI → (<[TIMERQ := []]> object_rings) !! RDYQ p = Some []).
  { intros p Hp. rewrite lookup_insert_ne by discriminate. by apply object_rings_rdy. }
  assert (Htcb : (<[TIMERQ := []]> object_rings) !! FREE_TCB = Some (TSKQ 0 :: (TSKQ <$> seqZ 1 (NUM_TSKID - 1)))).
  { rewrite lookup_insert_ne by discriminate. rewrite object_rings_tcb. by rewrite seqZ_cons by done. }
  assert (Htm : (<[TIMERQ := []]> object_rings) !! TIMERQ = Some []) by apply lookup_insert_eq.
  assert (Hsem : (<[TIMERQ := []]> object_rings) !! FREE_SEM = Some (SEMQ <$> seqZ 0 NUM_SEMID)).
  { rewrite lookup_insert_ne by discriminate. unfold object_rings, free_list.
    do 9 (rewrite lookup_insert_ne by discriminate). apply lookup_insert_eq. }
  revert Hk1 Hrings Htcb Htm Hsem. generalize (<[TIMERQ := []]> object_rings). intros Q Hk1 Hrings Htcb Htm Hsem.
  set (k2 := set_k_s s1 k1). pose proof (init_spares_heap _ _ E1) as Hheap. destruct (Ha k2 Hheap) as [Hnz Hmem].
  destruct (Imalloc (u32 init_stksz) k2) as [stack k3] eqn:Em. simpl in Hnz, Hmem.
  destruct (cre_tsk_block_spec (knl_init_ctsk init_task_main) init_stksz stack k3 Q 0 (TSKQ <$> seqZ 1 (NUM_TSKID - 1)))
    as (k4 & Ec & _ & Hk4 & _ & Hd & Hp & Hoth & Hno4 & Hh4); [by rewrite Hmem|done|done|].
  assert (Hcre : tk_cre_tsk (knl_init_ctsk init_task_main) k2 = (1, k4)).
  { unfold tk_cre_tsk. change (has (ctsk_tskatr (knl_init_ctsk init_task_main)) TA_USERBUF) with false. cbn [andb negb].
    change (RSATR_ERR _ _) with false. change (negb (0 <=? _)) with false. change (negb (CHK_PRI _)) with false. cbv iota zeta.
    change (Z.quot _ 8 * 8) with init_stksz. rewrite Em, (proj2 (Z.eqb_neq stack 0) Hnz). rewrite Ec. done. }
  assert (Hchk : CHECK_TSKID 1 (k_s k4) = None) by (unfold CHECK_TSKID; by rewrite andb_false_r).
  destruct (sta_tsk_post (k_s k4) _ 1 0 Hk4 Hchk Hd) as (s5 & l & Es & HQ & [Hk5 _ Ht5 _]).
  change (get_tcb 1) with 0 in *. rewrite Hp in HQ, Hk5. change (ctsk_itskpri (knl_init_ctsk init_task_main)) with 10 in *.
  assert (l = []) as ->.
  { rewrite lookup_insert_ne in HQ by discriminate. rewrite Hrings in HQ by done. by injection HQ. }
  assert (Hmain : start_kernel init_task_main k = Some (set_k_s s5 k4)).
  { unfold start_kernel. rewrite E1. cbn [Z.ltb]. change (E_OK <? E_OK) with false. cbv iota.
    rewrite E2. change (E_OK <? E_OK) with false. cbv iota zeta. fold k2. rewrite Hcre. change (E_OK <=? 1) with true. cbv iota.
    rewrite Es. done. }
  set (Q' := <[RDYQ (int_priority 10) := [] ++ [TSKQ 0]]> (<[FREE_TCB := TSKQ <$> seqZ 1 (NUM_TSKID - 1)]> Q)) in *.
  assert (Hat : Q' !! RDYQ (int_priority 10) = Some [TSKQ 0]) by apply lookup_insert_eq.
  assert (Hother : ∀ p, 0 <= p < NUM_TSKPRI → p ≠ int_priority 10 → Q' !! RDYQ p = Some []).
  { intros p Hp' Hne. unfold Q'. rewrite lookup_insert_ne by congruence. rewrite lookup_insert_ne by discriminate. by apply Hrings. }
  assert (Hs5 : s_schedtsk s5 = Some 0).
  { rewrite (ki_sched _ _ _ _ Hk5 eq_refl). destruct (ki_rdy _ _ _ _ Hk5) as [_ Htop Hbelow Hatt _].
    set (top := top_priority (s_rq s5)) in *. destruct (decide (top = int_priority 10)) as [->|Hne].
    - unfold rdy_head. rewrite Hat. done.
    - exfalso. destruct (decide (top < NUM_TSKPRI)) as [Hlt|Hge].
      + by apply (Hatt Hlt), Hother; [lia|].
      + specialize (Hbelow (int_priority 10)). rewrite Hat in Hbelow. discriminate Hbelow.
        unfold NUM_TSKPRI, CNF_MAX_TSKPRI, int_priority, MIN_TSKPRI in *. lia. }
  exists (set_k_s s5 k4), k2, Q'. split; [exact Hmain|]. split; [exact Hk5|].
  split; [|split; [exact Hheap|split; [by rewrite Em|split; [exact Hs5|split]]]].
  - enough (no_objects k4) as [] by (by constructor). apply Hno4. rewrite Hmem. destruct Hobj. by constructor.
  - intros t. simpl. rewrite Ht5. upd_case 0 t; [done|]. rewrite decide_False by congruence.
    rewrite Hoth by congruence. rewrite Hmem. simpl. apply Hst.
  - split; [exact Hat|]. unfold Q'. rewrite !(lookup_insert_ne _ (RDYQ _)) by discriminate.
    rewrite lookup_insert_eq. rewrite !(lookup_insert_ne _ FREE_TCB) by discriminate. split_and!; [done|exact Htm|exact Hsem].
Qed.

(** The heap that [knl_init_Imalloc] makes has room for the stack. *)
Lemma stack_of_heap im top lim m k0 :
  hcfg_ok (icfg im top lim) → heap_ok (icfg im top lim) m [(top, lim)] → sel (icfg im top lim) true m [(top, lim)] = [] →
  0 < top → top + init_stksz <= lim → k_heap k0 = m →
  let r := Imalloc (Allocator := kernel_allocator im) (u32 init_stksz) k0 in
  r.1 = top ∧ r.2 = set_k_heap (k_heap r.2) k0 ∧
  ∃ A hi, heap_ok (icfg im top lim) (k_heap r.2) A ∧ sel (icfg im top lim) true (k_heap r.2) A = [(top, hi)] ∧ init_stksz <= hi - top.
Proof.
  intros Hc Hok Hused Htop Hroom Hm. unfold Imalloc, kernel_allocator. rewrite Hm.
  change (s32 (u32 init_stksz)) with init_stksz.
  assert (Hmax : 0 < init_stksz <= MAX_ALLOCATE) by (by vm_compute).
  pose proof (Imalloc_ok _ _ _ Hc init_stksz m [(top, lim)] Hok Hmax) as Hg.
  change (request init_stksz) with init_stksz in Hg.
  destruct (knl_Imalloc im init_stksz m) as [p m'] eqn:E. cbv zeta. simpl.
  assert (Hfree : (top, lim) ∈ sel (icfg im top lim) false m [(top, lim)]).
  { apply elem_of_sel. split; [|by left]. destruct (inuse m _) eqn:Ei; [|done]. exfalso.
    assert ((top, lim) ∈ sel (icfg im top lim) true m [(top, lim)]) as Hin by (by apply elem_of_sel; split; [|left]).
    rewrite Hused in Hin. by apply not_elem_of_nil in Hin. }
  destruct Hg as [[_ Hnone]|(q & hi & A' & Hq & _ & _ & Ep & _ & Hsz & Hok' & HP & _)].
  - exfalso. rewrite Forall_forall in Hnone. specialize (Hnone _ Hfree). unfold asize in Hnone. simpl in Hnone. lia.
  - apply elem_of_sel in Hq as [_ ->%list_elem_of_singleton]. simpl in *.
    rewrite Hused in HP. apply Permutation_singleton_r in HP. split; [done|]. split; [done|].
    exists A', hi. split_and!; [done|done|lia].
Qed.

(** C3: The start-up.  From links of any value and control blocks that hold no task, and low memory
    from [t] to [l] with room for the stack of the initial task: the initialization of the
    heap and of the kernel succeeds; every table of objects is empty, and the blocks of the tasks and of
    the semaphores are in their free lists, in order; the stack is the only block of the heap, and the
    heap is well formed; the initial task is the first block, ready in
    the queue of its priority and chosen to run; no other task exists; the scheduler is
    consistent.  So it is in every state that the step relation of System.v reaches from
    there: tk_sta_tsk, tk_rot_rdq, tk_sus_tsk, tk_rsm_tsk, tk_frsm_tsk, tk_slp_tsk, tk_wup_tsk, tk_can_wup, tk_dly_tsk and
    the control of dispatching and interrupts by the running task, the same calls without tk_sus_tsk by interrupt
    handlers, and task switches. *)
Theorem startup_ok (t l init_task_main : Z) (k : K) :
  no_tasks (k_s k) → 0 < t → l <= 2 ^ 31 → (8 | l) → heap_top t + init_stksz + 8 <= l →
  ∃ k' Q im A hi, knl_main t l init_task_main k = Some k' ∧ kinv (k_s k') Q ∧ no_objects k' ∧
    heap_ok (icfg im (heap_top t) (l - 8)) (k_heap k') A ∧
    sel (icfg im (heap_top t) (l - 8)) true (k_heap k') A = [(heap_top t, hi)] ∧ init_stksz <= hi - heap_top t ∧
    s_schedtsk (k_s k') = Some 0 ∧
    (∀ t, t_state (s_tcb (k_s k') t) = if decide (t = 0) then TS_READY else TS_NONEXIST) ∧
    Q !! RDYQ (int_priority INITTASK_ITSKPRI) = Some [TSKQ 0] ∧ Q !! FREE_TCB = Some (TSKQ <$> seqZ 1 (NUM_TSKID - 1)) ∧
    Q !! TIMERQ = Some [] ∧ Q !! FREE_SEM = Some (SEMQ <$> seqZ 0 NUM_SEMID) ∧
    ∀ y, reachable (k_s k') y → sys_ok y.
Proof.
  intros Hno Ht Hl H8 Hroom. unfold knl_main.
  assert (Htop : t <= heap_top t).
  { unfold heap_top. pose proof (Z.div_mod (t + 3) 4). pose proof (Z.mod_pos_bound (t + 3) 4). set (a := 4 * ((t + 3) / 4)) in *.
    pose proof (Z.div_mod (a + 20 + 7) 8). pose proof (Z.mod_pos_bound (a + 20 + 7) 8). lia. }
  assert (Hst : init_stksz = 8192 + DEFAULT_SYS_STKSZ) by done. assert (0 <= DEFAULT_SYS_STKSZ) by (by vm_compute).
  pose proof (init_ok t l (k_heap k) Ht ltac:(lia) H8) as Hi.
  destruct (knl_init_Imalloc t l (k_heap k)) as [[im t'] m] eqn:Ei. destruct Hi as (_ & _ & _ & _ & Hc & Hok & Hused).
  assert (Hstack := λ k0, stack_of_heap im _ _ m k0 Hc Hok Hused ltac:(lia) ltac:(lia)).
  destruct (start_kernel_ok (H := kernel_allocator im) init_task_main (set_k_heap m k) Hno) as (k' & k0 & Q & E & Hk & Hobj & Hh0 & Hh & Hs & Hr).
  { intros k0 Hk0. destruct (Hstack k0 Hk0) as (Hp & Hm & _). split; [rewrite Hp; lia|exact Hm]. }
  destruct (Hstack k0 Hh0) as (_ & _ & A & hi & Hok' & Hsel & Hsz). rewrite <- Hh in Hok', Hsel.
  destruct Hr as (H1 & H2 & H3 & H4 & H5).
  exists k', Q, im, A, hi. split_and!; try done.
  intros y. apply (reachable_ok (k_s k') y Q Hk). by rewrite Hs.
Qed.

(** Links and ready queue of any value; 16 KiB of memory at 0x3FC90000. *)
Lemma startup_ok_witness :
  let m := Qmem (λ x : node, x) (λ x : node, TIMERQ) in
  let k := ex_k (mkSCH m (λ _, tcb0) (mkRDYQUE 0 7 (Some 3)) (Some 5) (Some 6) 1 0 false (λ _, mkTMEB 0 CB_NULL) 0 0 (λ _, 0) (λ _, 0)) in
  ∃ k' Q, knl_main 0x3FC90000 0x3FC94000 0x42000000 k = Some k' ∧ kinv (k_s k') Q ∧ s_schedtsk (k_s k') = Some 0.
Proof.
  intros m k. assert (Hno : no_tasks (k_s k)) by (intros t; split; [reflexivity|split; reflexivity]).
  destruct (startup_ok 0x3FC90000 0x3FC94000 0x42000000 k Hno ltac:(done) ltac:(done) ltac:(by exists (0x3FC94000 / 8)) ltac:(by vm_compute))
    as (k' & Q & im & A & hi & H1 & H2 & _ & _ & _ & _ & H3 & _). exists k', Q.
  split; [exact H1|]. split; [exact H2|exact H3].
Defined.
