(* ===== verification/Prog.v ===== *)
(** * Code that runs on tasks

    The layers above the system calls (lib/libtk, components/freertos_shim) are code of
    tasks: other tasks and interrupts run between their steps, and a step may be a
    system call that waits.  A [prog S A] is such code over the state [S] with result
    [A]: a [Step] is what happens at once (a section with interrupts disabled, a
    system call), a [Loop] repeats its body until that yields a value.  [next] executes
    one step of it, so that programs of several tasks can be interleaved; [exec]
    runs a program alone. *)
From S2P Require Import Prelude Config Queue Kernel ReadyQueue KInv.

Inductive prog (S A : Type) : Type :=
  | Ret (a : A)
  | Step {X : Type} (f : S → X * S) (k : X → prog S A)
  | Loop {B : Type} (body : prog S (option B)) (k : B → prog S A).
Arguments Ret {S A} a.
Arguments Step {S A X} f k.
Arguments Loop {S A B} body k.

Section prog.
Context {S : Type}.

Fixpoint bind {A B : Type} (p : prog S A) (g : A → prog S B) : prog S B :=
  match p with
  | Ret a => g a
  | Step f k => Step f (λ x, bind (k x) g)
  | Loop body k => Loop body (λ b, bind (k b) g)
  end.

(** One round of a loop: [None] is another round. *)
Definition again {A B : Type} (body : prog S (option B)) (k : B → prog S A) (o : option B) : prog S A :=
  match o with Some b => k b | None => Loop body k end.

Definition next {A : Type} (p : prog S A) (s : S) : prog S A * S :=
  match p with
  | Ret a => (Ret a, s)
  | Step f k => let '(x, s) := f s in (k x, s)
  | Loop body k => (bind body (again body k), s)
  end.

Fixpoint exec {A : Type} (fuel : nat) (p : prog S A) (s : S) : option (A * S) :=
  match p with
  | Ret a => Some (a, s)
  | _ => match fuel with O => None | Datatypes.S fuel => let '(p, s) := next p s in exec fuel p s end
  end.

Fixpoint steps {A : Type} (n : nat) (p : prog S A) (s : S) : prog S A * S :=
  match n with O => (p, s) | Datatypes.S n => let '(p, s) := next p s in steps n p s end.

Definition step {X : Type} (f : S → X * S) : prog S X := Step f Ret.
Definition modify (f : S → S) : prog S unit := step (λ s, (tt, f s)).
Definition gets {X : Type} (f : S → X) : prog S X := step (λ s, (f s, s)).
Definition while_true {B : Type} (body : prog S (option B)) : prog S B := Loop body Ret.

(** [p] finishes from [s] with [a] in [s'] when nothing runs in between. *)
Definition yields {A : Type} (p : prog S A) (s : S) (a : A) (s' : S) : Prop := ∃ n, exec n p s = Some (a, s').

Lemma exec_more {A : Type} n m (p : prog S A) s r : (n <= m)%nat → exec n p s = Some r → exec m p s = Some r.
Proof.
  revert m p s. induction n as [|n IH]; intros m p s Hle H.
  - destruct p; [|done..]. by destruct m.
  - destruct m as [|m]; [lia|]. destruct p; [done|..]; simpl in *.
    + destruct (f s). apply IH; [lia|done].
    + apply IH; [lia|done].
Qed.

Lemma yields_inj {A : Type} (p : prog S A) s a b s1 s2 : yields p s a s1 → yields p s b s2 → a = b ∧ s1 = s2.
Proof.
  intros [n Hn] [m Hm]. destruct (Nat.le_ge_cases n m) as [Hle|Hle].
  - rewrite (exec_more _ _ _ _ _ Hle Hn) in Hm. by injection Hm as <- <-.
  - rewrite (exec_more _ _ _ _ _ Hle Hm) in Hn. by injection Hn as -> ->.
Qed.

Lemma yields_ret {A : Type} (a : A) s : yields (Ret a) s a s.
Proof. by exists O. Qed.

Lemma yields_step {A X : Type} (f : S → X * S) (k : X → prog S A) s x s1 a s' :
  f s = (x, s1) → yields (k x) s1 a s' → yields (Step f k) s a s'.
Proof. intros E [n Hn]. exists (Datatypes.S n). simpl. by rewrite E. Qed.

(** Two programs are the same when they are so at every continuation. *)
Inductive same_prog {A : Type} : prog S A → prog S A → Prop :=
  | same_ret a : same_prog (Ret a) (Ret a)
  | same_step {X : Type} (f : S → X * S) k k' : (∀ x, same_prog (k x) (k' x)) → same_prog (Step f k) (Step f k')
  | same_loop {B : Type} (body : prog S (option B)) k k' :
      (∀ b, same_prog (k b) (k' b)) → same_prog (Loop body k) (Loop body k').

#[export] Instance same_prog_refl {A : Type} : Reflexive (@same_prog A).
Proof. intros p. induction p; by constructor. Qed.

Lemma bind_same {A B : Type} (p p' : prog S A) (g g' : A → prog S B) :
  same_prog p p' → (∀ a, same_prog (g a) (g' a)) → same_prog (bind p g) (bind p' g').
Proof. intros Hp Hg. induction Hp; simpl; [apply Hg|by constructor..]. Qed.

Lemma bind_assoc {A B C : Type} (p : prog S A) (g : A → prog S B) (h : B → prog S C) :
  same_prog (bind p (λ a, bind (g a) h)) (bind (bind p g) h).
Proof. induction p; simpl; [done|by constructor..]. Qed.

Lemma next_same {A : Type} (p p' : prog S A) s :
  same_prog p p' → (next p s).2 = (next p' s).2 ∧ same_prog (next p s).1 (next p' s).1.
Proof.
  intros [a|X f k k' Hk|B body k k' Hk]; simpl; [done|destruct (f s); split; [done|apply Hk]|]. split; [done|].
  apply bind_same; [done|]. intros [b|]; simpl; [apply Hk|]. apply (same_loop body k k' Hk).
Qed.

Lemma exec_same {A : Type} n (p p' : prog S A) s : same_prog p p' → exec n p s = exec n p' s.
Proof.
  revert p p' s. induction n as [|n IH]; intros p p' s Hp; [by destruct Hp|].
  destruct (next_same p p' s Hp) as [E Hn]. revert E Hn. destruct Hp as [a|X f k k' Hk|B body k k' Hk]; [done|..]; simpl.
  - destruct (f s) as [x s1]. intros _ Hn. by apply IH.
  - intros _ Hn. by apply IH.
Qed.

Lemma yields_bind {A B : Type} (p : prog S A) (g : A → prog S B) s a s1 b s' :
  yields p s a s1 → yields (g a) s1 b s' → yields (bind p g) s b s'.
Proof.
  intros [n Hn] Hg. revert p s Hn. induction n as [|n IH]; intros p s Hn; destruct p as [x|X f k|C body k]; simpl in *;
    try (injection Hn as -> ->; exact Hg); [done..| |].
  - destruct (f s) as [x s2] eqn:E. eapply yields_step; [exact E|]. by apply IH.
  - destruct (IH _ _ Hn) as [m Hm]. exists (Datatypes.S m). simpl. rewrite <- Hm.
    rewrite <- (exec_same m _ _ s (bind_assoc body (again body k) g)). apply exec_same, bind_same; [done|].
    by intros [c|].
Qed.

(** A loop whose body yields a value is over; one whose body yields none starts anew. *)
Lemma yields_loop {A B : Type} (body : prog S (option B)) (k : B → prog S A) s o s1 a s' :
  yields body s o s1 → yields (again body k o) s1 a s' → yields (Loop body k) s a s'.
Proof.
  intros Hb Hk. destruct (yields_bind _ _ _ _ _ _ _ Hb Hk) as [n Hn]. by exists (Datatypes.S n).
Qed.
End prog.

(** The state of such code contains that of the kernel. *)
Class HasKernel (S : Type) := {
  the_k : S → K;
  set_the_k : K → S → S;
  the_k_set k s : the_k (set_the_k k s) = k
}.

Section sys.
Context {S : Type} `{HasKernel S}.

Definition self (s : S) : Z := ctx (k_s (the_k s)).

(** A system call.  When it leaves the task waiting, its result is the variable [ercd]
    of the task at the time it runs again. *)
Definition sys (f : S → K → Z * K) : prog S Z :=
  Step (λ s, let '(r, k) := f s (the_k s) in
             ((r, waiting (s_tcb (k_s k) (ctx (k_s k)))), set_the_k k s))
       (λ '(r, w), if w then gets (λ s, s_ercd (k_s (the_k s)) (self s)) else Ret r).

(** A call that never waits. *)
Definition sys_now (f : S → K → Z * K) : prog S Z :=
  step (λ s, let '(r, k) := f s (the_k s) in (r, set_the_k k s)).
End sys.

Declare Scope prog_scope.
Delimit Scope prog_scope with prog.
Notation "x <-- p ;; q" := (bind p (λ x, q)) (at level 100, p at next level, right associativity) : prog_scope.
Notation "p ;;; q" := (bind p (λ _, q)) (at level 100, right associativity) : prog_scope.

Lemma yields_now {S : Type} `{HasKernel S} {A : Type} f (g : Z → prog S A) s a s' :
  yields (g (f s (the_k s)).1) (set_the_k (f s (the_k s)).2 s) a s' → yields (bind (sys_now f) g) s a s'.
Proof. intros Hg. eapply yields_step; [|exact Hg]. by destruct (f s (the_k s)). Qed.

(** ** Code on a part of the state *)

Section zoom.
Context {S T : Type} (get : T → S) (set : S → T → T).

Fixpoint zoom {A : Type} (p : prog S A) : prog T A :=
  match p with
  | Ret a => Ret a
  | Step f k => Step (λ t, let '(x, s) := f (get t) in (x, set s t)) (λ x, zoom (k x))
  | Loop body k => Loop (zoom body) (λ b, zoom (k b))
  end.

Lemma zoom_bind {A B : Type} (p : prog S A) (g : A → prog S B) :
  same_prog (zoom (bind p g)) (bind (zoom p) (λ a, zoom (g a))).
Proof. induction p; simpl; [done|by constructor..]. Qed.

Hypothesis get_set : ∀ s t, get (set s t) = s.
Hypothesis set_set : ∀ s s' t, set s' (set s t) = set s' t.
Hypothesis set_get : ∀ t, set (get t) t = t.

Lemma yields_zoom {A : Type} (p : prog S A) t a s' : yields p (get t) a s' → yields (zoom p) t a (set s' t).
Proof.
  intros [n Hn]. exists n. revert p t Hn. induction n as [|n IH]; intros p t Hn; destruct p as [x|X f k|B body k]; simpl in *;
    try (injection Hn as -> <-; by rewrite set_get); [done..| |].
  - destruct (f (get t)) as [x s]. rewrite <- (set_set s s' t). apply IH. by rewrite get_set.
  - rewrite <- (IH _ t Hn), (exec_same n _ _ t (zoom_bind body (again body k))). apply exec_same, bind_same; [done|].
    by intros [b|].
Qed.
End zoom.
