(* ===== verification/Threads.v ===== *)
(** * Tasks that run interleaved, and semaphores of unit requests

    A pool gives every task the program it still has to execute.  A step of the pool is
    one step of the program of any task that is ready: the schedules of the kernel are
    among these.  The second part is the contract of a kernel semaphore for clients that
    wait for and signal one unit at a time ([unit_sem]); the layers above prove their
    protocols against it. *)
From S2P Require Import Prelude Config Queue Kernel ReadyQueue KInv KCheck Task Timer Wait.
From S2P Require Import Semaphore Prog.

(** ** Interleaving *)

Section pool.
Context {S : Type} `{HasKernel S} {A : Type}.

(** Task [t] runs. *)
Definition run_as (t : Z) (s : S) : S :=
  set_the_k (upd_s (set_s_ctxtsk (Some t)) (the_k s)) s.

Definition is_ready (t : Z) (s : S) : Prop := t_state (s_tcb (k_s (the_k s)) t) = TS_READY.

Inductive pool_step : (Z → prog S A) * S → (Z → prog S A) * S → Prop :=
  | pool_step_task t P s p s' :
      is_ready t s → next (P t) (run_as t s) = (p, s') → pool_step (P, s) (<[t := p]> P, s').

Inductive pool_reaches (x : (Z → prog S A) * S) : (Z → prog S A) * S → Prop :=
  | pool_refl : pool_reaches x x
  | pool_trans y z : pool_reaches x y → pool_step y z → pool_reaches x z.

Lemma pool_reaches_app x y z : pool_reaches x y → pool_reaches y z → pool_reaches x z.
Proof. intros Hxy. induction 1; [done|]. by eapply pool_trans. Qed.

(** The steps of the tasks [l] one after the other. *)
Fixpoint schedule (l : list Z) (x : (Z → prog S A) * S) : option ((Z → prog S A) * S) :=
  match l with
  | [] => Some x
  | t :: l =>
      if t_state (s_tcb (k_s (the_k x.2)) t) =? TS_READY then
        let y := next (x.1 t) (run_as t x.2) in schedule l (<[t := y.1]> x.1, y.2)
      else None
  end.

Lemma schedule_reaches l x y : schedule l x = Some y → pool_reaches x y.
Proof.
  revert x. induction l as [|t l IH]; intros [P s]; simpl; [intros [= <-]; constructor|].
  destruct (Z.eqb_spec (t_state (s_tcb (k_s (the_k s)) t)) TS_READY) as [Hr|]; [|done]. intros E.
  eapply pool_reaches_app; [|by apply IH]. eapply pool_trans; [constructor|].
  constructor; [exact Hr|]. by destruct (next _ _).
Qed.
End pool.

(** ** How many tasks are somewhere *)

Definition how_many (f : Z → bool) : Z := Z.of_nat (length (filter (λ t, f t = true) (seqZ 0 NUM_TSKID))).

Definition b2z (b : bool) : Z := if b then 1 else 0.

Lemma how_many_ext f g : (∀ t, 0 <= t < NUM_TSKID → f t = g t) → how_many f = how_many g.
Proof.
  intros E. unfold how_many. do 2 f_equal. assert (∀ t, t ∈ seqZ 0 NUM_TSKID → f t = g t) as E' by (intros t Ht%elem_of_seqZ; apply E; lia).
  clear E. induction (seqZ 0 NUM_TSKID) as [|x l IH]; [done|]. rewrite !filter_cons, E' by left.
  rewrite IH by (intros; apply E'; by right). done.
Qed.

(** Changing the place of one task. *)
Lemma how_many_upd f g t : 0 <= t < NUM_TSKID → (∀ u, u ≠ t → g u = f u) → how_many g = how_many f - b2z (f t) + b2z (g t).
Proof.
  intros Ht E. unfold how_many. assert (Hin : t ∈ seqZ 0 NUM_TSKID) by (apply elem_of_seqZ; lia).
  assert (Hnd : NoDup (seqZ 0 NUM_TSKID)) by apply NoDup_seqZ.
  apply list_elem_of_split in Hin as (l1 & l2 & El). rewrite El in *.
  apply NoDup_app in Hnd as (_ & Hd & [Hn2 _]%NoDup_cons).
  assert (Hn1 : t ∉ l1) by (intros Hi; apply (Hd t Hi); left).
  assert (Hf : ∀ l : list Z, t ∉ l → filter (λ u, g u = true) l = filter (λ u, f u = true) l).
  { intros l Hl. induction l as [|x l IH]; [done|]. rewrite !filter_cons, (E x) by (intros ->; apply Hl; left).
    rewrite IH by (intros Hi; apply Hl; by right). done. }
  rewrite !filter_app, !filter_cons, !length_app, (Hf l1 Hn1), (Hf l2 Hn2).
  destruct (f t), (g t); simpl; lia.
Qed.

Lemma how_many_none f : (∀ t, 0 <= t < NUM_TSKID → f t = false) → how_many f = 0.
Proof.
  intros E. rewrite (how_many_ext f (λ _, false) E). unfold how_many.
  assert (filter (λ _ : Z, false = true) (seqZ 0 NUM_TSKID) = []) as ->; [|done].
  induction (seqZ 0 NUM_TSKID); [done|]. by rewrite filter_cons_False by done.
Qed.

Lemma how_many_pos f t : 0 <= t < NUM_TSKID → f t = true → 0 < how_many f.
Proof.
  intros Ht Hf. unfold how_many. assert (t ∈ filter (λ t, f t = true) (seqZ 0 NUM_TSKID)) as Hi.
  { apply list_elem_of_filter. split; [done|]. apply elem_of_seqZ. lia. }
  destruct (filter _ _); [by apply not_elem_of_nil in Hi|simpl; lia].
Qed.

Lemma how_many_ge f : 0 <= how_many f.
Proof. unfold how_many. lia. Qed.

Lemma how_many_le f : how_many f <= NUM_TSKID.
Proof.
  unfold how_many. pose proof (length_filter (λ t, f t = true) (seqZ 0 NUM_TSKID)) as H. rewrite length_seqZ in H.
  assert (0 <= NUM_TSKID) by done. lia.
Qed.

Lemma how_many_mono f g : (∀ t, f t = true → g t = true) → how_many f <= how_many g.
Proof.
  intros E. unfold how_many. induction (seqZ 0 NUM_TSKID) as [|x l IH]; [done|]. rewrite !filter_cons.
  pose proof (E x). destruct (f x), (g x); simpl; try lia.
Qed.

(** Moving one task from one place to another. *)
Lemma how_many_move {P : Type} (F : P → bool) (ph : Z → P) t p : 0 <= t < NUM_TSKID →
  how_many (λ u, F (<[t := p]> ph u)) = how_many (λ u, F (ph u)) - b2z (F (ph t)) + b2z (F p).
Proof.
  intros Ht. rewrite (how_many_upd (λ u, F (ph u)) (λ u, F (<[t := p]> ph u)) t Ht); [by rewrite fn_lookup_insert|].
  intros u Hne. by rewrite fn_lookup_insert_ne by congruence.
Qed.

Lemma how_many_ex f : 0 < how_many f → ∃ t, 0 <= t < NUM_TSKID ∧ f t = true.
Proof.
  unfold how_many. destruct (filter (λ t, f t = true) (seqZ 0 NUM_TSKID)) as [|t l] eqn:E; simpl; [lia|]. intros _.
  assert (t ∈ filter (λ t, f t = true) (seqZ 0 NUM_TSKID)) as Hi by (rewrite E; left).
  apply list_elem_of_filter in Hi as [Hf Hi%elem_of_seqZ]. exists t. split; [lia|done].
Qed.

Lemma how_many_two f t u : 0 <= t < NUM_TSKID → 0 <= u < NUM_TSKID → f t = true → f u = true → t ≠ u → 2 <= how_many f.
Proof.
  intros Ht Hu Hft Hfu Hne. rewrite (how_many_upd (λ x, f x && negb (bool_decide (x = t))) f t Ht).
  - rewrite bool_decide_eq_true_2, andb_false_r, Hft by done. simpl.
    pose proof (how_many_pos (λ x, f x && negb (bool_decide (x = t))) u Hu) as Hp. simpl in Hp.
    rewrite Hfu, bool_decide_eq_false_2 in Hp by done. specialize (Hp eq_refl). lia.
  - intros x Hx. by rewrite bool_decide_eq_false_2, andb_true_r.
Qed.

(** ** Semaphores of unit requests *)

(** Dispatching is possible whichever task runs. *)
Definition undisturbed (s : SCH) : Prop :=
  s_dispatch_disabled s = 0 ∧ s_taskindp s <= 0 ∧ s_masked s = false.

(** Semaphore [id] has the count [n], at most [m]; the tasks [W] wait for one of it,
    the first in [W] first. *)
Record unit_sem (k : K) (id m n : Z) (W : list Z) : Prop := {
  us_kinv : ∃ Q, kinv (k_s k) Q ∧ sem_used k Q (get_semcb id) (TSKQ <$> W);
  us_id : CHK_SEMID id = true;
  us_any : has (sematr (k_sem k (get_semcb id))) TA_CNT = false;
  us_max : maxsem (k_sem k (get_semcb id)) = m;
  us_count : semcnt (k_sem k (get_semcb id)) = n;
  us_need : ∀ t, t ∈ W → wi_sem_cnt (t_winfo (s_tcb (k_s k) t)) = 1;
  us_quiet : undisturbed (k_s k)
}.

Lemma unit_sem_range k id m n W : unit_sem k id m n W → 0 <= n <= m.
Proof. intros [(Q & _ & Hu) _ _ <- <- _ _]. apply Hu. Qed.

(** Nobody waits while there is something to take. *)
Lemma unit_sem_zero k id m n W t : unit_sem k id m n W → t ∈ W → n = 0.
Proof.
  intros [(Q & _ & Hu) _ Ha _ <- Hn _] Ht. pose proof (su_cnt _ _ _ _ Hu). pose proof (su_stable _ _ _ _ Hu) as Hst.
  rewrite Ha in Hst. destruct W as [|u W]; [by apply not_elem_of_nil in Ht|]. simpl in Hst.
  unfold need_of in Hst. simpl in Hst. rewrite Hn in Hst by left. lia.
Qed.

Lemma unit_sem_waits k id m n W t : unit_sem k id m n W → t ∈ W →
  waiting (s_tcb (k_s k) t) = true ∧ 0 <= t < NUM_TSKID.
Proof.
  intros [(Q & Hk & Hu) _ _ _ _ _ _] Ht.
  destruct (kinv_in_wait_queue true (k_s k) Q (SEMQ (get_semcb id)) (TSKQ <$> W) (TSKQ t) Hk eq_refl (su_que _ _ _ _ Hu))
    as (t' & [= <-] & Hw & _); [by apply list_elem_of_fmap_2|]. split; [done|].
  pose proof (ki_task _ _ _ _ Hk t ltac:(done)) as Hr. apply (tk_range _ _ Hr). unfold waiting in Hw. by intros E; rewrite E in Hw.
Qed.

Lemma unit_sem_nodup k id m n W : unit_sem k id m n W → NoDup W.
Proof.
  intros [(Q & Hk & Hu) _ _ _ _ _ _]. eapply (NoDup_fmap_1 TSKQ), (qwf_NoDup (s_q (k_s k)) Q); [apply Hk|apply Hu].
Qed.

(** The task that runs does not matter. *)
Lemma unit_sem_ctx k id m n W c : unit_sem k id m n W → unit_sem (upd_s (set_s_ctxtsk c) k) id m n W.
Proof.
  intros [(Q & Hk & Hu) H1 H2 H3 H4 H5 H6]. constructor; try done. exists Q. split.
  - by eapply kinvx_ext; [..|exact Hk].
  - destruct Hu. by constructor.
Qed.

Lemma same_ctx_quiet s s' : same_ctx s s' → undisturbed s → undisturbed s'.
Proof. intros [? E1 E2 E3 _ _] (H1 & H2 & H3). unfold undisturbed. by rewrite E1, E2, E3. Qed.

Lemma released_need tc : wi_sem_cnt (t_winfo (released tc)) = wi_sem_cnt (t_winfo tc).
Proof. done. Qed.

(** Signalling one unit: the first waiting task gets it, or the count grows. *)
Lemma unit_signal k id m n W : unit_sem k id m n W → n < m →
  let k' := (tk_sig_sem id 1 k).2 in
  match W with
  | [] => unit_sem k' id m (n + 1) [] ∧ ∀ u, s_tcb (k_s k') u = s_tcb (k_s k) u
  | t :: W' => unit_sem k' id m n W' ∧
      ∀ u, s_tcb (k_s k') u = if decide (u = t) then released (s_tcb (k_s k) t) else s_tcb (k_s k) u
  end.
Proof.
  intros Hs Hlt k'. pose proof Hs as [(Q & Hk & Hu) Hid Ha Hm Hn Hneed Hq]. pose proof (unit_sem_range _ _ _ _ _ Hs).
  pose proof (tk_sig_sem_ok k Q id 1 (TSKQ <$> W) Hk Hid Hu ltac:(lia)) as H1. rewrite Ha, Hn in H1.
  destruct W as [|t W]; simpl in H1.
  - destruct H1 as (k2 & Q2 & E & [HK Hh Hc Ht _ _ _] & [Hcb _] & _ & _ & Hu2). unfold k'. rewrite E. simpl.
    specialize (Hcb (get_semcb id)). rewrite decide_True in Hcb by done.
    split; [|intros u; rewrite Ht; by rewrite decide_False by (apply not_elem_of_nil)].
    constructor; rewrite ?Hcb; try done; [by exists Q2|by intros u ?%not_elem_of_nil|by eapply same_ctx_quiet].
  - pose proof (unit_sem_zero _ _ _ _ _ t Hs ltac:(left)) as ->. unfold need_of at 1 2 in H1. simpl in H1.
    rewrite (Hneed t) in H1 by left. simpl in H1.
    destruct H1 as (k2 & Q2 & E & [HK Hh Hc Ht _ _ _] & [Hcb _] & _ & _ & Hu2). unfold k'. rewrite E. simpl.
    specialize (Hcb (get_semcb id)). rewrite decide_True in Hcb by done.
    assert (Ht' : ∀ u, s_tcb (k_s k2) u = if decide (u = t) then released (s_tcb (k_s k) t) else s_tcb (k_s k) u).
    { intros u. rewrite Ht. destruct (decide (u = t)) as [->|Hne].
      - by rewrite decide_True by left.
      - rewrite decide_False; [done|]. intros [= ->]%list_elem_of_singleton. done. }
    split; [|done]. constructor; rewrite ?Hcb; try done; [by exists Q2|unfold need_of; simpl; rewrite Hneed by left; lia| |by eapply same_ctx_quiet].
    intros u Hin. rewrite Ht'. destruct (decide _) as [->|]; [rewrite released_need|]; apply Hneed; [left|by right].
Qed.

Lemma wait_order_perm s atr c l : wait_order s atr c l ≡ₚ TSKQ c :: l.
Proof.
  unfold wait_order, queued_at. destruct (has atr TA_TPRI); [apply ins_before_Permutation|by rewrite Permutation_app_comm].
Qed.

(** Waiting for one unit, for as long as it takes. *)
Lemma unit_wait k id m n W : unit_sem k id m n W → 0 < m → running (k_s k) →
  let c := ctx (k_s k) in
  let k' := (tk_wai_sem id 1 TMO_FEVR k).2 in
  ctx (k_s k') = c ∧
  if 1 <=? n then unit_sem k' id m (n - 1) [] ∧ W = [] ∧ (∀ u, s_tcb (k_s k') u = s_tcb (k_s k) u)
  else ∃ W', W' ≡ₚ c :: W ∧ unit_sem k' id m n W' ∧ t_state (s_tcb (k_s k') c) = TS_WAIT ∧
      (∀ u, u ≠ c → s_tcb (k_s k') u = s_tcb (k_s k) u).
Proof.
  intros Hs Hm0 Hr c k'. pose proof Hs as [(Q & Hk & Hu) Hid Ha Hm Hn Hneed Hq].
  pose proof (unit_sem_range _ _ _ _ _ Hs).
  pose proof (tk_wai_sem_ok k Q id 1 TMO_FEVR (TSKQ <$> W) Hk Hr Hid Hu ltac:(lia) eq_refl) as H1. cbv zeta in H1.
  fold k' in H1. rewrite Ha, Hn in H1. unfold sem_first in H1. simpl orb in H1.
  destruct (Z.leb_spec 1 n) as [Hle|Hlt].
  - destruct W as [|t W]; [|pose proof (unit_sem_zero _ _ _ _ _ t Hs ltac:(left)); lia]. simpl in H1.
    destruct H1 as (_ & E & Hk' & Hu'). split; [by rewrite E|]. split; [|by rewrite E].
    assert (Ecb : k_sem k' (get_semcb id) = set_semcnt (n - 1) (k_sem k (get_semcb id)))
      by (rewrite E; simpl; by upd_simpl).
    constructor; rewrite ?Ecb; try done; [by exists Q|by intros u ?%not_elem_of_nil|by rewrite E].
  - rewrite andb_false_r in H1. destruct H1 as (_ & Ek & Q2 & w & [HK Hwq _ Ht _ Hc _] & Hu2).
    split; [unfold c, ctx; by rewrite (sc_ctxtsk _ _ Hc)|].
    assert (Hw : ∃ W', wait_order (k_s k) (sematr (k_sem k (get_semcb id))) c (TSKQ <$> W) = TSKQ <$> W' ∧ W' ≡ₚ c :: W).
    { pose proof (wait_order_perm (k_s k) (sematr (k_sem k (get_semcb id))) c (TSKQ <$> W)) as Hp.
      change (TSKQ c :: (TSKQ <$> W)) with (TSKQ <$> (c :: W)) in Hp.
      apply Permutation_map_inv in Hp as (W' & E & Hp). by exists W'. }
    destruct Hw as (W' & Ew & Hp). exists W'. split; [done|]. fold c in Ht, Hu2. rewrite Ew in Hu2.
    split; [|split; [by rewrite Ht, fn_lookup_insert|intros u Hne; rewrite Ht; by rewrite fn_lookup_insert_ne by congruence]].
    constructor; rewrite ?Ek; try done; [by exists Q2| |by eapply same_ctx_quiet].
    intros u Hin. rewrite Ht. rewrite Hp in Hin. apply elem_of_cons in Hin as [Eu|Hin]; [rewrite Eu; by rewrite fn_lookup_insert|].
    destruct (decide (c = u)) as [Ecu|]; [rewrite <- Ecu; by rewrite fn_lookup_insert|]. rewrite fn_lookup_insert_ne by done. by apply Hneed.
Qed.

Lemma unit_sem_ready k id m n W t : unit_sem k id m n W → t_state (s_tcb (k_s k) t) = TS_READY → 0 <= t < NUM_TSKID.
Proof.
  intros [(Q & Hk & _) _ _ _ _ _ _] Ht. apply (tk_range _ _ (ki_task _ _ _ _ Hk t ltac:(done))). by rewrite Ht.
Qed.
