(* ===== verification/FastLock.v ===== *)
(** * Fast locks: lib/libtk/fastlock.c and fastmlock.c

    A [FastLock] counts the tasks that hold it or want it and falls back on a semaphore
    only when there is more than one; a [FastMLock] is 32 locks over a word of bits and an
    event flag.  Both are code of tasks ([Prog]): the sections between DI and EI are
    single steps, a system call is another one.  The theorems are about any number of
    tasks that lock and unlock over and over, interleaved in every possible way: at most
    one is inside, and a task that waits for the lock is never left behind. *)
From S2P Require Import Prelude Config Queue Kernel ReadyQueue KInv KCheck Task Timer Wait.
From S2P Require Import Semaphore EventFlag Prog Threads.

(* src: include/tk/syslib.h 84-88 FastLock *)
Record FastLock := mkFastLock { fl_cnt : Z; fl_id : Z; fl_name : Z }.
Definition set_fl_cnt (v : Z) (r : FastLock) : FastLock := mkFastLock v (fl_id r) (fl_name r).
Definition set_fl_id (v : Z) (r : FastLock) : FastLock := mkFastLock (fl_cnt r) v (fl_name r).

(* src: include/tk/syslib.h 103-108 FastMLock *)
Record FastMLock := mkFastMLock { ml_flg : Z; ml_wai : Z; ml_id : Z; ml_name : Z }.
Definition set_ml_flg (v : Z) (r : FastMLock) : FastMLock := mkFastMLock v (ml_wai r) (ml_id r) (ml_name r).
Definition set_ml_wai (v : Z) (r : FastMLock) : FastMLock := mkFastMLock (ml_flg r) v (ml_id r) (ml_name r).
Definition set_ml_id (v : Z) (r : FastMLock) : FastMLock := mkFastMLock (ml_flg r) (ml_wai r) v (ml_name r).

(** The kernel, the locks by their addresses, and a variable of the clients. *)
Record LIB := mkLIB { lb_k : K; lb_fast : Z → FastLock; lb_multi : Z → FastMLock; lb_user : Z }.
Definition set_lb_k (v : K) (r : LIB) : LIB := mkLIB v (lb_fast r) (lb_multi r) (lb_user r).
Definition set_lb_user (v : Z) (r : LIB) : LIB := mkLIB (lb_k r) (lb_fast r) (lb_multi r) v.
Definition upd_fast (l : Z) (f : FastLock → FastLock) (s : LIB) : LIB :=
  mkLIB (lb_k s) (<[l := f (lb_fast s l)]> (lb_fast s)) (lb_multi s) (lb_user s).
Definition upd_multi (l : Z) (f : FastMLock → FastMLock) (s : LIB) : LIB :=
  mkLIB (lb_k s) (lb_fast s) (<[l := f (lb_multi s l)]> (lb_multi s)) (lb_user s).

#[export] Instance lib_kernel : HasKernel LIB := {| the_k := lb_k; set_the_k := set_lb_k; the_k_set _ _ := eq_refl |}.

Open Scope prog_scope.

(** ** fastlock.c *)

(* src: lib/libtk/fastlock.c 32-40 Inc *)
Definition Inc (lock : Z) : prog LIB Z :=
  step (λ s, let c := s32 (fl_cnt (lb_fast s lock) + 1) in (c, upd_fast lock (set_fl_cnt c) s)).

(* src: lib/libtk/fastlock.c 41-49 Dec *)
Definition Dec (lock : Z) : prog LIB Z :=
  step (λ s, let c := fl_cnt (lb_fast s lock) in (c, upd_fast lock (set_fl_cnt (s32 (c - 1))) s)).

(* src: lib/libtk/fastlock.c 54-59 Lock *)
Definition Lock (lock : Z) : prog LIB unit :=
  c <-- Inc lock ;;
  if 0 <? c then sys (λ s, tk_wai_sem (fl_id (lb_fast s lock)) 1 TMO_FEVR) ;;; Ret tt else Ret tt.

(* src: lib/libtk/fastlock.c 64-69 Unlock *)
Definition Unlock (lock : Z) : prog LIB unit :=
  c <-- Dec lock ;;
  if 0 <? c then sys_now (λ s, tk_sig_sem (fl_id (lb_fast s lock)) 1) ;;; Ret tt else Ret tt.

(* src: include/tk/syslib.h 177-183 SetOBJNAME *)
Definition OBJNAME (b0 b1 b2 b3 : Z) : Z := b0 + 0x100 * b1 + 0x10000 * b2 + 0x1000000 * b3.

(* src: lib/libtk/fastlock.c 74-94 CreateLock *)
Definition CreateLock (lock name : Z) : prog LIB Z :=
  ercd <-- sys_now (λ _, tk_cre_sem (mkT_CSEM (OBJNAME 0x46 0x4C 0x4F 0x43) TA_TPRI 0 1)) ;;
  if ercd <? E_OK then Ret ercd
  else modify (upd_fast lock (λ _, mkFastLock (-1) ercd name)) ;;; Ret E_OK.

(* src: lib/libtk/fastlock.c 99-105 DeleteLock *)
Definition DeleteLock (lock : Z) : prog LIB unit :=
  id <-- gets (λ s, fl_id (lb_fast s lock)) ;;
  (if 0 <? id then sys_now (λ _, tk_del_sem id) ;;; Ret tt else Ret tt) ;;;
  modify (upd_fast lock (set_fl_id 0)).

(** ** fastmlock.c *)

(* src: lib/libtk/fastmlock.c 32-39 INC *)
Definition INC (lock : Z) : prog LIB unit :=
  modify (upd_multi lock (λ m, set_ml_wai (s32 (ml_wai m + 1)) m)).
(* src: lib/libtk/fastmlock.c 41-48 DEC *)
Definition DEC (lock : Z) : prog LIB unit :=
  modify (upd_multi lock (λ m, set_ml_wai (s32 (ml_wai m - 1)) m)).
(* src: lib/libtk/fastmlock.c 50-61 BTS *)
Definition BTS (lock no : Z) : prog LIB Z :=
  let bm := u32 (Z.shiftl 1 no) in
  step (λ s, (Z.land (ml_flg (lb_multi s lock)) bm, upd_multi lock (λ m, set_ml_flg (Z.lor (ml_flg m) bm) m) s)).
(* src: lib/libtk/fastmlock.c 63-70 BR *)
Definition BR (lock no : Z) : prog LIB unit :=
  modify (upd_multi lock (λ m, set_ml_flg (Z.land (ml_flg m) (Z.lnot (u32 (Z.shiftl 1 no)))) m)).

(** [flg] is the address of the local variable of that name. *)
(* src: lib/libtk/fastmlock.c 77-98 MLockTmo *)
Definition MLockTmo (lock no tmo flg : Z) : prog LIB Z :=
  let ptn := u32 (Z.shiftl 1 no) in
  INC lock ;;;
  ercd <-- while_true (
    b <-- BTS lock no ;;
    if b =? 0 then Ret (Some E_OK)
    else
      ercd <-- sys (λ s, tk_wai_flg (ml_id (lb_multi s lock)) ptn (Z.lor TWF_ORW TWF_BITCLR) flg tmo) ;;
      Ret (if ercd <? E_OK then Some ercd else None)) ;;
  DEC lock ;;; Ret ercd.

(* src: lib/libtk/fastmlock.c 104-107 MLock *)
Definition MLock (lock no flg : Z) : prog LIB Z := MLockTmo lock no TMO_FEVR flg.

(* src: lib/libtk/fastmlock.c 113-122 MUnlock *)
Definition MUnlock (lock no : Z) : prog LIB Z :=
  let ptn := u32 (Z.shiftl 1 no) in
  BR lock no ;;;
  wai <-- gets (λ s, ml_wai (lb_multi s lock)) ;;
  if wai =? 0 then Ret E_OK
  else sys_now (λ s, tk_set_flg (ml_id (lb_multi s lock)) ptn).

(* src: lib/libtk/fastmlock.c 127-146 CreateMLock *)
Definition CreateMLock (lock name : Z) : prog LIB Z :=
  ercd <-- sys_now (λ _, tk_cre_flg (mkT_CFLG (OBJNAME 0x4D 0x4C 0x4F 0x43) (Z.lor TA_TPRI TA_WMUL) 0)) ;;
  modify (upd_multi lock (set_ml_id ercd)) ;;;
  if ercd <? E_OK then Ret ercd
  else modify (upd_multi lock (λ m, mkFastMLock 0 0 (ml_id m) name)) ;;; Ret E_OK.

(* src: lib/libtk/fastmlock.c 151-167 DeleteMLock *)
Definition DeleteMLock (lock : Z) : prog LIB Z :=
  id <-- gets (λ s, ml_id (lb_multi s lock)) ;;
  if id <=? 0 then Ret E_PAR
  else
    ercd <-- sys_now (λ _, tk_del_flg id) ;;
    if ercd <? E_OK then Ret ercd
    else modify (upd_multi lock (set_ml_id 0)) ;;; Ret E_OK.

(** ** Tasks that use a fast lock *)

Section clients.
Context (lock : Z).

Definition enter (s : LIB) : LIB := set_lb_user (lb_user s + 1) s.
Definition leave (s : LIB) : LIB := set_lb_user (lb_user s - 1) s.

(** Over and over: lock, be inside, unlock.  [lb_user] counts the tasks inside. *)
Definition client_round : prog LIB (option unit) :=
  Lock lock ;;; modify enter ;;; modify leave ;;; Unlock lock ;;; Ret None.
Definition client : prog LIB unit := while_true client_round.

(** Where a client is, and what is left of its program there. *)
Inductive phase := Idle | Start | Pre | Asleep | Woken | Entering | Inside | Leaving | Sig.
#[export] Instance phase_dec : EqDecision phase := ltac:(solve_decision).

Definition prog_of (p : phase) : prog LIB unit :=
  let anew := again client_round Ret in
  match p with
  | Idle => client
  | Start => bind client_round anew
  | Pre => bind ((sys (λ s, tk_wai_sem (fl_id (lb_fast s lock)) 1 TMO_FEVR) ;;; Ret tt) ;;; modify enter ;;; modify leave ;;; Unlock lock ;;; Ret None) anew
  | Asleep | Woken => bind (gets (λ s, s_ercd (k_s (lb_k s)) (self s)) ;;; modify enter ;;; modify leave ;;; Unlock lock ;;; Ret None) anew
  | Entering => bind (modify enter ;;; modify leave ;;; Unlock lock ;;; Ret None) anew
  | Inside => bind (modify leave ;;; Unlock lock ;;; Ret None) anew
  | Leaving => bind (Unlock lock ;;; Ret None) anew
  | Sig => bind (sys_now (λ s, tk_sig_sem (fl_id (lb_fast s lock)) 1) ;;; Ret None) anew
  end.

(** Between [Inc] and [Dec]; allowed to enter, or about to hand that on. *)
Definition counted (p : phase) : bool :=
  match p with Pre | Asleep | Woken | Entering | Inside | Leaving => true | _ => false end.
Definition token (p : phase) : bool :=
  match p with Woken | Entering | Inside | Leaving | Sig => true | _ => false end.
Definition inside (p : phase) : bool := match p with Inside => true | _ => false end.

(** [R] are the tasks that take part. *)
Record locks_ok (R : Z → Prop) (id : Z) (ph : Z → phase) (n : Z) (W : list Z) (P : Z → prog LIB unit) (s : LIB) : Prop := {
  lo_prog : ∀ t, P t = prog_of (ph t);
  lo_id : fl_id (lb_fast s lock) = id;
  lo_cnt : fl_cnt (lb_fast s lock) = how_many (λ t, counted (ph t)) - 1;
  lo_sem : unit_sem (lb_k s) id 1 n W;
  lo_token : how_many (λ t, token (ph t)) + n = if fl_cnt (lb_fast s lock) =? -1 then 0 else 1;
  lo_asleep : ∀ t, t ∈ W ↔ ph t = Asleep;
  lo_user : lb_user s = how_many (λ t, inside (ph t));
  lo_wait : ∀ t, ph t = Asleep → t_state (s_tcb (k_s (lb_k s)) t) = TS_WAIT;
  lo_ready : ∀ t, ph t ≠ Asleep → (is_ready t s ↔ R t);
  lo_part : ∀ t, ph t ≠ Idle → R t
}.

Lemma next_idle s : next (prog_of Idle) s = (prog_of Start, s).
Proof. reflexivity. Qed.
Lemma next_start s : let c := s32 (fl_cnt (lb_fast s lock) + 1) in
  next (prog_of Start) s = (prog_of (if 0 <? c then Pre else Entering), upd_fast lock (set_fl_cnt c) s).
Proof. intros c. unfold c. simpl. by destruct (0 <? _). Qed.
Lemma next_pre s : let '(r, k) := tk_wai_sem (fl_id (lb_fast s lock)) 1 TMO_FEVR (lb_k s) in
  next (prog_of Pre) s = (prog_of (if waiting (s_tcb (k_s k) (ctx (k_s k))) then Asleep else Entering), set_lb_k k s).
Proof. simpl. destruct (tk_wai_sem _ _ _ _) as [r k]. by destruct (waiting _). Qed.
Lemma next_woken s : next (prog_of Woken) s = (prog_of Entering, s).
Proof. reflexivity. Qed.
Lemma next_entering s : next (prog_of Entering) s = (prog_of Inside, enter s).
Proof. reflexivity. Qed.
Lemma next_inside s : next (prog_of Inside) s = (prog_of Leaving, leave s).
Proof. reflexivity. Qed.
Lemma next_leaving s : let c := fl_cnt (lb_fast s lock) in
  next (prog_of Leaving) s = (prog_of (if 0 <? c then Sig else Idle), upd_fast lock (set_fl_cnt (s32 (c - 1))) s).
Proof. intros c. simpl. fold c. by destruct (0 <? c). Qed.
Lemma next_sig s :
  next (prog_of Sig) s = (prog_of Idle, set_lb_k (tk_sig_sem (fl_id (lb_fast s lock)) 1 (lb_k s)).2 s).
Proof. simpl. by destruct (tk_sig_sem _ _ _). Qed.

Arguments prog_of : simpl never.

Lemma locks_ok_run R id ph n W P s t : locks_ok R id ph n W P s → locks_ok R id ph n W P (run_as t s).
Proof. intros []. constructor; try done. by apply unit_sem_ctx. Qed.

(** A task moves; the queue of the semaphore stays as it is. *)
Lemma locks_ok_move R id ph n n' W P s s' t p :
  locks_ok R id ph n W P s → is_ready t s → p ≠ Asleep →
  unit_sem (lb_k s') id 1 n' W → (∀ u, s_tcb (k_s (lb_k s')) u = s_tcb (k_s (lb_k s)) u) →
  fl_id (lb_fast s' lock) = fl_id (lb_fast s lock) →
  fl_cnt (lb_fast s' lock) = fl_cnt (lb_fast s lock) - b2z (counted (ph t)) + b2z (counted p) →
  lb_user s' = lb_user s - b2z (inside (ph t)) + b2z (inside p) →
  how_many (λ u, token (ph u)) - b2z (token (ph t)) + b2z (token p) + n' =
    (if fl_cnt (lb_fast s' lock) =? -1 then 0 else 1) →
  locks_ok R id (<[t := p]> ph) n' W (<[t := prog_of p]> P) s'.
Proof.
  intros Hs Hr Hp Hsem Htcb Hid Hcnt Huser Htok. pose proof (unit_sem_ready _ _ _ _ _ t (lo_sem _ _ _ _ _ _ _ Hs) Hr) as Ht.
  assert (Hph : ph t ≠ Asleep) by (intros E; apply (lo_wait _ _ _ _ _ _ _ Hs) in E; unfold is_ready in Hr; simpl in Hr; by rewrite E in Hr).
  pose proof (proj1 (lo_ready _ _ _ _ _ _ _ Hs t Hph) Hr) as HR. destruct Hs.
  constructor; try done.
  - intros u. destruct (decide (t = u)) as [->|]; by upd_simpl.
  - congruence.
  - rewrite how_many_move by done. lia.
  - rewrite how_many_move by done. done.
  - intros u. rewrite lo_asleep0. destruct (decide (t = u)) as [->|]; upd_simpl; naive_solver.
  - rewrite how_many_move by done. lia.
  - intros u. rewrite Htcb. destruct (decide (t = u)) as [->|]; upd_simpl; naive_solver.
  - intros u. unfold is_ready in *. simpl in *. rewrite Htcb. destruct (decide (t = u)) as [->|]; upd_simpl; naive_solver.
  - intros u. destruct (decide (t = u)) as [->|]; upd_simpl; naive_solver.
Qed.

(** How far a task that may enter is from handing that on. *)
Definition rank (p : phase) : nat :=
  match p with Woken => 5 | Entering => 4 | Inside => 3 | Leaving => 2 | Sig => 1 | _ => 0 end.

(** The task [t] gets nearer to handing the lock on, or does it. *)
Definition hands_on (t : Z) (ph : Z → phase) (W : list Z) (ph' : Z → phase) (W' : list Z) : Prop :=
  token (ph t) = true → W ≠ [] →
  (token (ph' t) = true ∧ W' = W ∧ (rank (ph' t) < rank (ph t))%nat) ∨ ∃ u, W = u :: W' ∧ ph' u = Woken.

Lemma counted_bound R id ph n W P s : locks_ok R id ph n W P s → -1 <= fl_cnt (lb_fast s lock) <= NUM_TSKID - 1.
Proof.
  intros Hs. rewrite (lo_cnt _ _ _ _ _ _ _ Hs). pose proof (how_many_ge (λ t, counted (ph t))).
  pose proof (how_many_le (λ t, counted (ph t))). lia.
Qed.

(** The running task goes to sleep. *)
Lemma locks_ok_sleep R id ph n W W' P s k' t :
  locks_ok R id ph n W P s → is_ready t s → ph t = Pre → 0 <= t < NUM_TSKID →
  W' ≡ₚ t :: W → unit_sem k' id 1 n W' → t_state (s_tcb (k_s k') t) = TS_WAIT →
  (∀ u, u ≠ t → s_tcb (k_s k') u = s_tcb (k_s (lb_k s)) u) →
  locks_ok R id (<[t := Asleep]> ph) n W' (<[t := prog_of Asleep]> P) (set_lb_k k' s).
Proof.
  intros Hs Hr Eph Ht Hp Hsem Hst Htcb.
  assert (HR : R t) by (apply (lo_ready _ _ _ _ _ _ _ Hs); [by rewrite Eph|done]). destruct Hs. constructor; try done.
  - intros u. destruct (decide (t = u)) as [->|]; by upd_simpl.
  - rewrite how_many_move, Eph by done. simpl in *. lia.
  - rewrite how_many_move, Eph by done. simpl in *. lia.
  - intros u. rewrite Hp, elem_of_cons, lo_asleep0. destruct (decide (t = u)) as [->|]; upd_simpl; naive_solver.
  - rewrite how_many_move, Eph by done. simpl in *. lia.
  - intros u. destruct (decide (t = u)) as [<-|Hne]; upd_simpl; [done|]. simpl. rewrite Htcb by done. apply lo_wait0.
  - intros u. destruct (decide (t = u)) as [<-|Hne]; upd_simpl; [done|]. unfold is_ready. simpl. rewrite Htcb by done.
    apply lo_ready0.
  - intros u. destruct (decide (t = u)) as [<-|Hne]; upd_simpl; naive_solver.
Qed.

(** The running task wakes the first one that sleeps. *)
Lemma locks_ok_wake R id ph W P s k' t u :
  locks_ok R id ph 0 (u :: W) P s → is_ready t s → ph t = Sig → 0 <= t < NUM_TSKID → unit_sem k' id 1 0 W →
  (∀ v, s_tcb (k_s k') v = if decide (v = u) then released (s_tcb (k_s (lb_k s)) u) else s_tcb (k_s (lb_k s)) v) →
  locks_ok R id (<[u := Woken]> (<[t := Idle]> ph)) 0 W (<[t := client]> P) (set_lb_k k' s).
Proof.
  intros Hs Hr Eph Ht Hsem Htcb. pose proof (unit_sem_nodup _ _ _ _ _ (lo_sem _ _ _ _ _ _ _ Hs)) as [Hnu _]%NoDup_cons.
  assert (HR : R t) by (apply (lo_ready _ _ _ _ _ _ _ Hs); [by rewrite Eph|done]).
  assert (Hu : ph u = Asleep) by (apply (lo_asleep _ _ _ _ _ _ _ Hs); left).
  pose proof (lo_part _ _ _ _ _ _ _ Hs u ltac:(by rewrite Hu)) as HRu. pose proof (lo_wait _ _ _ _ _ _ _ Hs u Hu) as Hwu.
  assert (Hur : 0 <= u < NUM_TSKID) by (apply (unit_sem_waits _ _ _ _ _ _ (lo_sem _ _ _ _ _ _ _ Hs)); left).
  assert (t ≠ u) by congruence. destruct Hs. constructor; try done.
  - intros v. destruct (decide (u = v)) as [<-|]; upd_simpl; [by rewrite lo_prog0, Hu|].
    destruct (decide (t = v)) as [<-|]; by upd_simpl.
  - rewrite !how_many_move by done. upd_simpl. rewrite Eph, Hu. simpl in *. lia.
  - rewrite !how_many_move by done. upd_simpl. rewrite Eph, Hu. simpl in *. lia.
  - intros v. specialize (lo_asleep0 v). rewrite elem_of_cons in lo_asleep0.
    destruct (decide (u = v)) as [<-|Hne]; upd_simpl; [by split|]. destruct (decide (t = v)) as [<-|]; upd_simpl.
    + split; [|done]. intros Hin. rewrite Eph in lo_asleep0. discriminate (proj1 lo_asleep0 (or_intror Hin)).
    + rewrite <- lo_asleep0. split; [by right|]. intros [->|]; done.
  - rewrite !how_many_move by done. upd_simpl. rewrite Eph, Hu. simpl in *. lia.
  - intros v. destruct (decide (u = v)) as [<-|]; upd_simpl; [done|]. simpl. rewrite Htcb, decide_False by done.
    destruct (decide (t = v)) as [<-|]; upd_simpl; [done|]. apply lo_wait0.
  - intros v. unfold is_ready in *. simpl in *. rewrite Htcb. destruct (decide (u = v)) as [<-|]; upd_simpl.
    + rewrite decide_True by done. unfold released. simpl. by rewrite Hwu.
    + rewrite decide_False by done. destruct (decide (t = v)) as [<-|]; upd_simpl; [done|]. apply lo_ready0.
  - intros v. destruct (decide (u = v)) as [<-|]; upd_simpl; [done|]. destruct (decide (t = v)) as [<-|]; upd_simpl; [done|]. apply lo_part0.
Qed.

Ltac lock_arith :=
  repeat match goal with
         | H : context [?a =? -1] |- _ => destruct (Z.eqb_spec a (-1))
         | |- context [?a =? -1] => destruct (Z.eqb_spec a (-1))
         end; lia.

Lemma lock_step R id ph n W P s t : locks_ok R id ph n W P s → s_ctxtsk (k_s (lb_k s)) = Some t → is_ready t s →
  let x := next (P t) s in
  ∃ ph' n' W', locks_ok R id ph' n' W' (<[t := x.1]> P) x.2 ∧ hands_on t ph W ph' W'.
Proof.
  intros Hs Hc Hr x. pose proof (counted_bound _ _ _ _ _ _ _ Hs) as Hb. assert (NUM_TSKID < 1000) as Hnum by done.
  pose proof (unit_sem_ready _ _ _ _ _ t (lo_sem _ _ _ _ _ _ _ Hs) Hr) as Ht.
  pose proof (lo_cnt _ _ _ _ _ _ _ Hs) as Hcnt. pose proof (lo_token _ _ _ _ _ _ _ Hs) as Htok.
  pose proof (unit_sem_range _ _ _ _ _ (lo_sem _ _ _ _ _ _ _ Hs)) as Hn.
  pose proof (how_many_ge (λ t, token (ph t))) as Hge.
  assert (E1 : token (ph t) = true → 1 <= how_many (λ u, token (ph u))).
  { intros Etok. pose proof (how_many_pos (λ u, token (ph u)) t Ht Etok). lia. }
  assert (E2 : counted (ph t) = true → 0 <= fl_cnt (lb_fast s lock)).
  { intros Ecnt. pose proof (how_many_pos (λ u, counted (ph u)) t Ht Ecnt). lia. }
  unfold x. rewrite (lo_prog _ _ _ _ _ _ _ Hs). unfold hands_on. clear x.
  destruct (ph t) eqn:Eph; simpl token in *; simpl counted in *; simpl rank.
  - exists (<[t := Start]> ph), n, W. split; [|done]. rewrite next_idle.
    apply (locks_ok_move _ _ _ _ _ _ _ _ _ _ _ Hs Hr); rewrite ?Eph; try done; simpl; try lia. exact (lo_sem _ _ _ _ _ _ _ Hs).
  - rewrite next_start, s32_small by lia. simpl.
    exists (<[t := if 0 <? fl_cnt (lb_fast s lock) + 1 then Pre else Entering]> ph), n, W. split; [|done].
    apply (locks_ok_move _ _ _ _ _ _ _ _ _ _ _ Hs Hr); rewrite ?Eph; simpl; upd_simpl; simpl; try exact (lo_sem _ _ _ _ _ _ _ Hs);
      destruct (Z.ltb_spec 0 (fl_cnt (lb_fast s lock) + 1)); simpl; try done; lock_arith.
  - assert (Hrun : running (k_s (lb_k s))).
    { destruct (us_quiet _ _ _ _ _ (lo_sem _ _ _ _ _ _ _ Hs)) as (Q1 & Q2 & Q3). split; [|unfold ctx; by rewrite Hc].
      unfold in_ddsp, in_indp. rewrite Q1, Q3. rewrite Hc. destruct (Z.ltb_spec 0 (s_taskindp (k_s (lb_k s)))); [lia|done]. }
    pose proof (unit_wait _ _ _ _ _ (lo_sem _ _ _ _ _ _ _ Hs) ltac:(lia) Hrun) as Hw. cbv zeta in Hw.
    pose proof (next_pre s) as Hx. rewrite (lo_id _ _ _ _ _ _ _ Hs) in Hx.
    destruct (tk_wai_sem id 1 TMO_FEVR (lb_k s)) as [r k'] eqn:E. simpl in Hw. rewrite Hx. simpl.
    destruct Hw as [Hc' Hw]. assert (Ec : ctx (k_s (lb_k s)) = t) by (unfold ctx; by rewrite Hc). rewrite Hc', Ec in *.
    destruct (Z.leb_spec 1 n) as [Hle|Hlt].
    + destruct Hw as (Hsem & -> & Htcb). rewrite Htcb. unfold waiting. rewrite (Hr : t_state (s_tcb (k_s (lb_k s)) t) = TS_READY). simpl.
      exists (<[t := Entering]> ph), (n - 1), []. split; [|done].
      apply (locks_ok_move _ _ _ _ _ _ _ _ _ _ _ Hs Hr); rewrite ?Eph; try done; simpl; lock_arith.
    + destruct Hw as (W' & Hp & Hsem & Hst & Htcb). unfold waiting. rewrite Hst. simpl.
      exists (<[t := Asleep]> ph), n, W'. split; [|done]. by eapply locks_ok_sleep.
  - exfalso. pose proof (lo_wait _ _ _ _ _ _ _ Hs t Eph) as E. unfold is_ready in Hr. simpl in Hr. by rewrite E in Hr.
  - exists (<[t := Entering]> ph), n, W. rewrite next_woken. split; [|intros _ _; left; by upd_simpl; simpl; auto with arith].
    apply (locks_ok_move _ _ _ _ _ _ _ _ _ _ _ Hs Hr); rewrite ?Eph; try done; simpl; try exact (lo_sem _ _ _ _ _ _ _ Hs); lock_arith.
  - exists (<[t := Inside]> ph), n, W. rewrite next_entering. split; [|intros _ _; left; by upd_simpl; simpl; auto with arith].
    apply (locks_ok_move _ _ _ _ _ _ _ _ _ _ _ Hs Hr); rewrite ?Eph; try done; simpl; try exact (lo_sem _ _ _ _ _ _ _ Hs); lock_arith.
  - exists (<[t := Leaving]> ph), n, W. rewrite next_inside. split; [|intros _ _; left; by upd_simpl; simpl; auto with arith].
    apply (locks_ok_move _ _ _ _ _ _ _ _ _ _ _ Hs Hr); rewrite ?Eph; try done; simpl; try exact (lo_sem _ _ _ _ _ _ _ Hs); lock_arith.
  - rewrite next_leaving, s32_small by lia. simpl.
    exists (<[t := if 0 <? fl_cnt (lb_fast s lock) then Sig else Idle]> ph), n, W. split.
    + apply (locks_ok_move _ _ _ _ _ _ _ _ _ _ _ Hs Hr); rewrite ?Eph; simpl; upd_simpl; simpl; try exact (lo_sem _ _ _ _ _ _ _ Hs);
        destruct (Z.ltb_spec 0 (fl_cnt (lb_fast s lock))); simpl; try done; lock_arith.
    + intros _ HW. left. upd_simpl. destruct W as [|u W]; [done|].
      assert (Hu : ph u = Asleep) by (apply (lo_asleep _ _ _ _ _ _ _ Hs); left).
      assert (2 <= how_many (λ v, counted (ph v))).
      { apply (how_many_two _ t u); [done| |by rewrite Eph|by rewrite Hu|congruence].
        by apply (unit_sem_waits _ _ _ _ _ _ (lo_sem _ _ _ _ _ _ _ Hs)); left. }
      destruct (Z.ltb_spec 0 (fl_cnt (lb_fast s lock))); [|lia]. simpl. auto with arith.
  - rewrite next_sig. rewrite (lo_id _ _ _ _ _ _ _ Hs). simpl.
    assert (n = 0) as -> by lock_arith.
    pose proof (unit_signal _ _ _ _ _ (lo_sem _ _ _ _ _ _ _ Hs) ltac:(lia)) as Hw. cbv zeta in Hw. destruct W as [|u W].
    + destruct Hw as [Hsem Htcb]. exists (<[t := Idle]> ph), 1, []. split; [|done].
      apply (locks_ok_move _ _ _ _ _ _ _ _ _ _ _ Hs Hr); rewrite ?Eph; try done; simpl; lock_arith.
    + destruct Hw as [Hsem Htcb]. exists (<[u := Woken]> (<[t := Idle]> ph)), 0, W. split; [by eapply locks_ok_wake|].
      intros _ _. right. exists u. by rewrite fn_lookup_insert.
Qed.

Lemma pool_lock_step R id ph n W P s x : locks_ok R id ph n W P s → pool_step (P, s) x →
  ∃ ph' n' W', locks_ok R id ph' n' W' x.1 x.2.
Proof.
  intros Hs Hx. inversion Hx as [t ? ? p s' Hr E]; subst.
  destruct (lock_step R id ph n W P (run_as t s) t) as (ph' & n' & W' & Hs' & _); [by apply locks_ok_run|done|done|].
  rewrite E in Hs'. by exists ph', n', W'.
Qed.

Lemma pool_lock_reaches R id ph n W x y : locks_ok R id ph n W x.1 x.2 → pool_reaches x y →
  ∃ ph' n' W', locks_ok R id ph' n' W' y.1 y.2.
Proof.
  intros Hx. induction 1 as [|y z _ (ph' & n' & W' & Hy) Hz]; [by eexists _, _, _|]. destruct y as [P s].
  by eapply pool_lock_step.
Qed.

(** While a task sleeps there is one that may enter or is about to hand that on. *)
Lemma lock_token R id ph n W P s : locks_ok R id ph n W P s → W ≠ [] → ∃ u, token (ph u) = true ∧ is_ready u s.
Proof.
  intros Hs HW. destruct W as [|t W]; [done|].
  pose proof (unit_sem_zero _ _ _ _ _ t (lo_sem _ _ _ _ _ _ _ Hs) ltac:(left)) as ->.
  destruct (unit_sem_waits _ _ _ _ _ t (lo_sem _ _ _ _ _ _ _ Hs) ltac:(left)) as [_ Ht].
  assert (Eph : ph t = Asleep) by (apply (lo_asleep _ _ _ _ _ _ _ Hs); left).
  pose proof (how_many_pos (λ v, counted (ph v)) t Ht) as Hc. cbv beta in Hc. rewrite Eph in Hc. specialize (Hc eq_refl).
  pose proof (lo_cnt _ _ _ _ _ _ _ Hs). pose proof (lo_token _ _ _ _ _ _ _ Hs) as Htok.
  destruct (how_many_ex (λ v, token (ph v))) as (u & _ & Hu); [lock_arith|]. exists u. split; [done|].
  apply (lo_ready _ _ _ _ _ _ _ Hs u); [intros E; by rewrite E in Hu|].
  apply (lo_part _ _ _ _ _ _ _ Hs). intros E. by rewrite E in Hu.
Qed.

(** Running the tasks that may enter until [t] is awake. *)
Lemma lock_wakes R id (m : nat) : ∀ ph n W P s t u, locks_ok R id ph n W P s → t ∈ W → token (ph u) = true → is_ready u s →
  (6 * length W + rank (ph u) < m)%nat → ∃ y, pool_reaches (P, s) y ∧ is_ready t y.2.
Proof.
  induction m as [|m IH]; intros ph n W P s t u Hs Ht Hu Hr Hm; [lia|].
  destruct (lock_step R id ph n W P (run_as u s) u) as (ph' & n' & W' & Hs' & Hh); [by apply locks_ok_run|done|done|].
  assert (Hstep : pool_reaches (P, s) (<[u := (next (P u) (run_as u s)).1]> P, (next (P u) (run_as u s)).2)).
  { eapply pool_trans; [constructor|]. constructor; [done|]. by destruct (next _ _). }
  destruct (next (P u) (run_as u s)) as [p s']. simpl in *.
  assert (Hgo : ∀ v, t ∈ W' → token (ph' v) = true → is_ready v s' → (6 * length W' + rank (ph' v) < m)%nat →
    ∃ y, pool_reaches (P, s) y ∧ is_ready t y.2).
  { intros v Ht' Hv Hrv Hlt. destruct (IH _ _ _ _ _ t v Hs' Ht' Hv Hrv Hlt) as (y & Hy & Hry).
    exists y. split; [by eapply pool_reaches_app|done]. }
  destruct Hh as [(Htok & -> & Hlt)|(v & -> & Hv)]; [done|by intros ->; apply not_elem_of_nil in Ht|..].
  - apply (Hgo u); [done|done| |lia]. apply (lo_ready _ _ _ _ _ _ _ Hs' u); [intros E; by rewrite E in Htok|].
    apply (lo_part _ _ _ _ _ _ _ Hs'). intros E. by rewrite E in Htok.
  - assert (Hrv : is_ready v s').
    { apply (lo_ready _ _ _ _ _ _ _ Hs' v); [by rewrite Hv|]. apply (lo_part _ _ _ _ _ _ _ Hs'). by rewrite Hv. }
    apply elem_of_cons in Ht as [->|Ht]; [by exists (<[u := p]> P, s')|].
    apply (Hgo v); [done|by rewrite Hv|done|]. rewrite Hv. simpl in *. lia.
Qed.

(** A lock as [CreateLock] leaves it. *)
Record fresh_lock (id : Z) (s : LIB) : Prop := {
  fr_id : fl_id (lb_fast s lock) = id;
  fr_cnt : fl_cnt (lb_fast s lock) = -1;
  fr_sem : unit_sem (lb_k s) id 1 0 [];
  fr_user : lb_user s = 0
}.

Lemma fresh_locks_ok id s : fresh_lock id s →
  locks_ok (λ t, is_ready t s) id (λ _, Idle) 0 [] (λ _, client) s.
Proof.
  intros [H1 H2 H3 H4]. constructor; rewrite ?H2, ?how_many_none; try done. intros t. split; [by intros ?%not_elem_of_nil|done].
Qed.
End clients.

(** C14: Mutual exclusion of the fast lock, for any number of tasks.  The tasks of a pool
    lock, enter, leave and unlock over and over, and are interleaved in any way, at
    every point outside the sections with interrupts disabled and the system calls: at
    no time more than one of them is inside. *)
Theorem fast_lock_excludes (lock id : Z) (s : LIB) (x : (Z → prog LIB unit) * LIB) :
  fresh_lock lock id s → pool_reaches (λ _, client lock, s) x → 0 <= lb_user x.2 <= 1.
Proof.
  intros Hs%fresh_locks_ok Hx. destruct (pool_lock_reaches lock _ _ _ _ _ (λ _, client lock, s) x Hs Hx) as (ph & n & W & Ho).
  rewrite (lo_user _ _ _ _ _ _ _ _ Ho). pose proof (how_many_ge (λ t, inside (ph t))).
  pose proof (how_many_mono (λ t, inside (ph t)) (λ t, token (ph t))) as Hle.
  specialize (Hle ltac:(intros t; cbv beta; by destruct (ph t))).
  pose proof (lo_token _ _ _ _ _ _ _ _ Ho). pose proof (unit_sem_range _ _ _ _ _ (lo_sem _ _ _ _ _ _ _ _ Ho)).
  destruct (fl_cnt _ =? -1); lia.
Qed.

(** C15: No wake-up of a fast lock is lost.  Whatever the tasks of a pool have done so far
    with a lock they all use, a task that sleeps in it can be made ready again by steps
    of the others alone: there never is a state in which tasks sleep and none of
    those awake will signal the semaphore. *)
Theorem fast_lock_serves (lock id : Z) (s : LIB) (x : (Z → prog LIB unit) * LIB) (t : Z) :
  fresh_lock lock id s → is_ready t s → pool_reaches (λ _, client lock, s) x →
  ∃ y, pool_reaches x y ∧ is_ready t y.2.
Proof.
  intros Hs%fresh_locks_ok Ht Hx. destruct (pool_lock_reaches lock _ _ _ _ _ (λ _, client lock, s) x Hs Hx) as (ph & n & W & Ho).
  destruct (decide (ph t = Asleep)) as [E|E]; [|exists x; split; [constructor|by apply (lo_ready _ _ _ _ _ _ _ _ Ho)]].
  apply (lo_asleep _ _ _ _ _ _ _ _ Ho) in E. destruct x as [P s'].
  destruct (lock_token lock _ _ _ _ _ _ _ Ho) as (u & Hu & Hr); [by intros ->; apply not_elem_of_nil in E|].
  by eapply lock_wakes; [..|apply Nat.lt_succ_diag_r].
Qed.

(** Two tasks, a lock at address 8192 with the semaphore 1. *)
Definition ex_lib : LIB :=
  let k := upd_sem 0 (λ _, mkSEMCB 1 0 TA_TPRI 0 1)
             (ex_k (ex_sch [ex_ready 3; ex_ready 5] [(TIMERQ, []); (SEMQ 0, []); (FREE_SEM, [SEMQ 1])])) in
  mkLIB k (λ _, mkFastLock (-1) 1 0) (λ _, mkFastMLock 0 0 0 0) 0.

Lemma ex_lib_fresh : fresh_lock 8192 1 ex_lib.
Proof.
  constructor; try done. constructor; [|by vm_compute..|by intros t ?%not_elem_of_nil|by vm_compute].
  eexists. split; [apply ex_kinv; by vm_compute|].
  constructor; [by vm_compute..|by intros y ?%not_elem_of_nil|by vm_compute].
Qed.

(** Task 0 is inside while task 1 goes to sleep. *)
Definition ex_pool : option ((Z → prog LIB unit) * LIB) :=
  schedule [0; 0; 1; 1; 1; 0] (λ _, client 8192, ex_lib).

Lemma ex_pool_reaches x : ex_pool = Some x → pool_reaches (λ _, client 8192, ex_lib) x.
Proof. apply schedule_reaches. Qed.

Lemma fast_lock_excludes_witness : ∃ x, ex_pool = Some x ∧ lb_user x.2 = 1 ∧ 0 <= lb_user x.2 <= 1.
Proof.
  assert (lb_user <$> (snd <$> ex_pool) = Some 1) as Hu by (by vm_compute).
  destruct ex_pool as [x|] eqn:E; [|done]. exists x. split; [done|]. split.
  - by injection Hu.
  - apply (fast_lock_excludes 8192 1 ex_lib x ex_lib_fresh). exact (ex_pool_reaches x E).
Defined.

Lemma fast_lock_serves_witness : ∃ x y, ex_pool = Some x ∧ ¬ is_ready 1 x.2 ∧ pool_reaches x y ∧ is_ready 1 y.2.
Proof.
  assert ((λ x, t_state (s_tcb (k_s (lb_k x.2)) 1)) <$> ex_pool = Some TS_WAIT) as Hu by (by vm_compute).
  destruct ex_pool as [x|] eqn:E; [|done].
  destruct (fast_lock_serves 8192 1 ex_lib x 1 ex_lib_fresh) as (y & H1 & H2); [by vm_compute|exact (ex_pool_reaches x E)|].
  exists x, y. split; [done|]. split; [|split; [exact H1|exact H2]].
  injection Hu as Hu. unfold is_ready. simpl. by rewrite Hu.
Defined.

(** ** A multi-lock nobody uses *)

Definition set_multi (M : Z → FastMLock) (s : LIB) : LIB := mkLIB (lb_k s) (lb_fast s) M (lb_user s).

(** Nobody wants the lock, and its bits are [bits]. *)
Definition mlock_is (lock bits : Z) (s : LIB) : Prop := ml_wai (lb_multi s lock) = 0 ∧ ml_flg (lb_multi s lock) = bits.

Lemma yields_MLock lock no flg s bits : mlock_is lock bits s → Z.land bits (u32 (Z.shiftl 1 no)) = 0 →
  ∃ M, yields (MLock lock no flg) s E_OK (set_multi M s) ∧
    mlock_is lock (Z.lor bits (u32 (Z.shiftl 1 no))) (set_multi M s).
Proof.
  intros [Hw Hf] Hb. unfold MLock, MLockTmo. set (bm := u32 (Z.shiftl 1 no)) in *.
  eexists. split.
  - assert (Eb : Z.land (ml_flg (<[lock := set_ml_wai (s32 (ml_wai (lb_multi s lock) + 1)) (lb_multi s lock)]>
      (lb_multi s) lock)) bm = 0) by (rewrite fn_lookup_insert; simpl; by rewrite Hf).
    exists 5%nat. simpl. fold bm. rewrite Eb. simpl. reflexivity.
  - unfold mlock_is, upd_multi. simpl. rewrite !fn_lookup_insert. simpl. by rewrite Hw, Hf.
Qed.

Lemma yields_MUnlock lock no s bits : mlock_is lock bits s →
  ∃ M, yields (MUnlock lock no) s E_OK (set_multi M s) ∧
    mlock_is lock (Z.land bits (Z.lnot (u32 (Z.shiftl 1 no)))) (set_multi M s).
Proof.
  intros [Hw Hf]. unfold MUnlock. eexists. split.
  - assert (Ew : ml_wai (<[lock := set_ml_flg (Z.land (ml_flg (lb_multi s lock)) (Z.lnot (u32 (Z.shiftl 1 no)))) (lb_multi s lock)]>
      (lb_multi s) lock) = 0) by (rewrite fn_lookup_insert; exact Hw).
    exists 5%nat. simpl. rewrite Ew. reflexivity.
  - unfold mlock_is, upd_multi. simpl. rewrite !fn_lookup_insert. simpl. by rewrite Hw, Hf.
Qed.
