(* ===== verification/Device.v ===== *)
(** * Device registration: kernel/tkernel/device.c, device.h, sysmgr.h

    The device manager keeps three tables: the registered devices, the opened devices and
    the requests under way.  Its calls are code of tasks; what happens between [LockDM]
    and [UnlockDM], bits of the fast multi-lock [knl_DevMgrLock], is a single step, and so is
    every other section with interrupts disabled.  The functions of a driver are a parameter
    ([Drivers]): the drivers register them as function pointers, and they may wait.  A
    C string is the list of its characters before the terminating zero. *)
From S2P Require Import Prelude Config Queue Kernel ReadyQueue KInv KCheck Task Timer Wait.
From S2P Require Import Mem Semaphore EventFlag Prog Threads FastLock.
#[local] Open Scope prog_scope.

(* src: include/tk/errno.h 87-87 E_OACV *)
Definition E_OACV : Z := -27.
(* src: include/tk/errno.h 101-101 E_BUSY *)
Definition E_BUSY : Z := -65.

(* src: config/config.h 60-60 CNF_MAX_REGDEV *)
Definition MAX_REGDEV : Z := 8.
(* src: config/config.h 61-61 CNF_MAX_OPNDEV *)
Definition MAX_OPNDEV : Z := 16.
(* src: config/config.h 62-62 CNF_MAX_REQDEV *)
Definition MAX_REQDEV : Z := 16.
(* src: include/tk/syscall.h 486-486 L_DEVNM *)
Definition L_DEVNM : Z := 8.
(* src: kernel/tkernel/device.h 37-37 MAX_UNIT *)
Definition MAX_UNIT : Z := 255.
(* src: include/tk/syscall.h 502-502 TD_DEVTYPE *)
Definition TD_DEVTYPE : Z := 0x00f0.
(* src: include/tk/syscall.h 506-506 TDK_DISK *)
Definition TDK_DISK : Z := 0x0010.
(* src: include/tk/syscall.h 520-520 TD_READ *)
Definition TD_READ : Z := 0x0001.
(* src: include/tk/syscall.h 521-521 TD_WRITE *)
Definition TD_WRITE : Z := 0x0002.
(* src: include/tk/syscall.h 522-522 TD_UPDATE *)
Definition TD_UPDATE : Z := 0x0003.
(* src: include/tk/syscall.h 523-523 TD_EXCL *)
Definition TD_EXCL : Z := 0x0100.
(* src: include/tk/syscall.h 524-524 TD_WEXCL *)
Definition TD_WEXCL : Z := 0x0200.
(* src: include/tk/syscall.h 525-525 TD_REXCL *)
Definition TD_REXCL : Z := 0x0400.
(* src: include/tk/syscall.h 530-530 TD_EJECT *)
Definition TD_EJECT : Z := 0x0001.
(* src: include/tk/syscall.h 655-655 TDA_OPENREQ *)
Definition TDA_OPENREQ : Z := 0x0001.

(** ** State *)

(** The queues of the device manager: the heads of the free and used queues, the members
    of the control blocks, and the null pointer. *)
Inductive dkind :=
  | KUsedDev | KFreeDev | KFreeOpn | KFreeReq | KResOpen | KNull
  | KDevQ | KOpenq | KOpnQ | KResq | KRequestq | KReqQ.
Record dnode := Dn { dn_kind : dkind; dn_idx : Z }.

#[export] Instance dkind_dec : EqDecision dkind := ltac:(solve_decision).
#[export] Instance dnode_dec : EqDecision dnode := ltac:(solve_decision).
Definition dkind_num (k : dkind) : nat :=
  match k with
  | KUsedDev => 0 | KFreeDev => 1 | KFreeOpn => 2 | KFreeReq => 3 | KResOpen => 4 | KNull => 5
  | KDevQ => 6 | KOpenq => 7 | KOpnQ => 8 | KResq => 9 | KRequestq => 10 | KReqQ => 11
  end.
#[export] Instance dkind_countable : Countable dkind.
Proof.
  refine (inj_countable' dkind_num (λ n, nth n [KUsedDev; KFreeDev; KFreeOpn; KFreeReq; KResOpen; KNull;
    KDevQ; KOpenq; KOpnQ; KResq; KRequestq; KReqQ] KNull) _). by intros [].
Defined.
#[export] Instance dnode_countable : Countable dnode.
Proof. refine (inj_countable' (λ n, (dn_kind n, dn_idx n)) (λ p, Dn p.1 p.2) _). by intros []. Defined.

Abbreviation UsedDevCB := (Dn KUsedDev 0).
Abbreviation FreeDevCB := (Dn KFreeDev 0).
Abbreviation FreeOpnCB := (Dn KFreeOpn 0).
Abbreviation FreeReqCB := (Dn KFreeReq 0).
Abbreviation RESOPENQ := (Dn KResOpen 0).
Abbreviation DNULL := (Dn KNull 0).
Abbreviation DEVQ := (Dn KDevQ).
Abbreviation OPENQ := (Dn KOpenq).
Abbreviation OPNQ := (Dn KOpnQ).
Abbreviation RESQ := (Dn KResq).
Abbreviation REQUESTQ := (Dn KRequestq).
Abbreviation REQQ := (Dn KReqQ).

(* src: include/tk/syscall.h 623-635 T_DDEV *)
Record T_DDEV := mkT_DDEV {
  dd_exinf : Z; dd_drvatr : Z; dd_devatr : Z; dd_nsub : Z; dd_blksz : Z; dd_openfn : Z;
  dd_closefn : Z; dd_execfn : Z; dd_waitfn : Z; dd_abortfn : Z; dd_eventfn : Z
}.

(** [rq_next] is the request block of the next packet. *)
(* src: include/tk/syscall.h 669-680 T_DEVREQ *)
Record T_DEVREQ := mkT_DEVREQ {
  rq_next : option Z; rq_exinf : Z; rq_devid : Z; rq_cmd : Z; rq_abort : bool; rq_start : Z;
  rq_size : Z; rq_buf : Z; rq_asize : Z; rq_error : Z
}.

(* src: kernel/tkernel/sysmgr.h 49-54 DevCB *)
Record DevCB := mkDevCB { dc_devnm : list Z; dc_ddev : T_DDEV }.
Definition set_dc_devnm (v : list Z) (r : DevCB) : DevCB := mkDevCB v (dc_ddev r).
Definition set_dc_ddev (v : T_DDEV) (r : DevCB) : DevCB := mkDevCB (dc_devnm r) v.

(* src: kernel/tkernel/sysmgr.h 68-86 OpnCB *)
Record OpnCB := mkOpnCB {
  oc_resid : Z; oc_devcb : Z; oc_unitno : Z; oc_omode : Z; oc_waitone : Z; oc_waireqlst : Z;
  oc_nwaireq : Z; oc_abort_tskid : Z; oc_abort_cnt : Z; oc_abort_semid : Z
}.
Definition set_oc_resid (v : Z) (r : OpnCB) : OpnCB := mkOpnCB v (oc_devcb r) (oc_unitno r) (oc_omode r) (oc_waitone r) (oc_waireqlst r) (oc_nwaireq r) (oc_abort_tskid r) (oc_abort_cnt r) (oc_abort_semid r).
Definition set_oc_waitone (v : Z) (r : OpnCB) : OpnCB := mkOpnCB (oc_resid r) (oc_devcb r) (oc_unitno r) (oc_omode r) v (oc_waireqlst r) (oc_nwaireq r) (oc_abort_tskid r) (oc_abort_cnt r) (oc_abort_semid r).
Definition set_oc_wait (lst n : Z) (r : OpnCB) : OpnCB := mkOpnCB (oc_resid r) (oc_devcb r) (oc_unitno r) (oc_omode r) (oc_waitone r) lst n (oc_abort_tskid r) (oc_abort_cnt r) (oc_abort_semid r).
Definition set_oc_abort_tskid (v : Z) (r : OpnCB) : OpnCB := mkOpnCB (oc_resid r) (oc_devcb r) (oc_unitno r) (oc_omode r) (oc_waitone r) (oc_waireqlst r) (oc_nwaireq r) v (oc_abort_cnt r) (oc_abort_semid r).
Definition set_oc_abort_cnt (v : Z) (r : OpnCB) : OpnCB := mkOpnCB (oc_resid r) (oc_devcb r) (oc_unitno r) (oc_omode r) (oc_waitone r) (oc_waireqlst r) (oc_nwaireq r) (oc_abort_tskid r) v (oc_abort_semid r).
Definition set_oc_abort_semid (v : Z) (r : OpnCB) : OpnCB := mkOpnCB (oc_resid r) (oc_devcb r) (oc_unitno r) (oc_omode r) (oc_waitone r) (oc_waireqlst r) (oc_nwaireq r) (oc_abort_tskid r) (oc_abort_cnt r) v.

(* src: kernel/tkernel/sysmgr.h 93-98 ReqCB *)
Record ReqCB := mkReqCB { rc_opncb : option Z; rc_tskid : Z; rc_req : T_DEVREQ }.
Definition set_rc_opncb (v : option Z) (r : ReqCB) : ReqCB := mkReqCB v (rc_tskid r) (rc_req r).
Definition set_rc_tskid (v : Z) (r : ReqCB) : ReqCB := mkReqCB (rc_opncb r) v (rc_req r).
Definition set_rc_req (v : T_DEVREQ) (r : ReqCB) : ReqCB := mkReqCB (rc_opncb r) (rc_tskid r) v.
Definition set_rq_next (v : option Z) (r : T_DEVREQ) : T_DEVREQ := mkT_DEVREQ v (rq_exinf r) (rq_devid r) (rq_cmd r) (rq_abort r) (rq_start r) (rq_size r) (rq_buf r) (rq_asize r) (rq_error r).
Definition set_rq_abort (v : bool) (r : T_DEVREQ) : T_DEVREQ := mkT_DEVREQ (rq_next r) (rq_exinf r) (rq_devid r) (rq_cmd r) v (rq_start r) (rq_size r) (rq_buf r) (rq_asize r) (rq_error r).

(** The state of the device manager; [dv_lib] holds the kernel and [knl_DevMgrLock],
    [dv_dissus] is that of [knl_resource_control_block]. *)
Record DEV := mkDEV {
  dv_lib : LIB; dv_q : qmem dnode; dv_devcb : Z → DevCB; dv_opncb : Z → OpnCB; dv_reqcb : Z → ReqCB;
  dv_dissus : Z; dv_DisSusCnt : Z; dv_evtmbfid : Z
}.
Definition set_dv_lib (v : LIB) (r : DEV) : DEV := mkDEV v (dv_q r) (dv_devcb r) (dv_opncb r) (dv_reqcb r) (dv_dissus r) (dv_DisSusCnt r) (dv_evtmbfid r).
Definition set_dv_q (v : qmem dnode) (r : DEV) : DEV := mkDEV (dv_lib r) v (dv_devcb r) (dv_opncb r) (dv_reqcb r) (dv_dissus r) (dv_DisSusCnt r) (dv_evtmbfid r).
Definition upd_dq (f : qmem dnode → qmem dnode) (r : DEV) : DEV := set_dv_q (f (dv_q r)) r.
Definition upd_devcb (i : Z) (f : DevCB → DevCB) (r : DEV) : DEV := mkDEV (dv_lib r) (dv_q r) (<[i := f (dv_devcb r i)]> (dv_devcb r)) (dv_opncb r) (dv_reqcb r) (dv_dissus r) (dv_DisSusCnt r) (dv_evtmbfid r).
Definition upd_opncb (i : Z) (f : OpnCB → OpnCB) (r : DEV) : DEV := mkDEV (dv_lib r) (dv_q r) (dv_devcb r) (<[i := f (dv_opncb r i)]> (dv_opncb r)) (dv_reqcb r) (dv_dissus r) (dv_DisSusCnt r) (dv_evtmbfid r).
Definition upd_reqcb (i : Z) (f : ReqCB → ReqCB) (r : DEV) : DEV := mkDEV (dv_lib r) (dv_q r) (dv_devcb r) (dv_opncb r) (<[i := f (dv_reqcb r i)]> (dv_reqcb r)) (dv_dissus r) (dv_DisSusCnt r) (dv_evtmbfid r).
Definition set_dissus (c n : Z) (r : DEV) : DEV := mkDEV (dv_lib r) (dv_q r) (dv_devcb r) (dv_opncb r) (dv_reqcb r) c n (dv_evtmbfid r).
Definition set_dv_evtmbfid (v : Z) (r : DEV) : DEV := mkDEV (dv_lib r) (dv_q r) (dv_devcb r) (dv_opncb r) (dv_reqcb r) (dv_dissus r) (dv_DisSusCnt r) v.

Definition dv_k (s : DEV) : K := lb_k (dv_lib s).
Definition upd_dk (f : K → K) (s : DEV) : DEV := set_dv_lib (set_lb_k (f (dv_k s)) (dv_lib s)) s.
#[export] Instance dev_kernel : HasKernel DEV :=
  {| the_k := dv_k; set_the_k k s := set_dv_lib (set_lb_k k (dv_lib s)) s; the_k_set _ _ := eq_refl |}.

(** ** The locks *)

Definition on_lib {A : Type} : prog LIB A → prog DEV A := zoom dv_lib set_dv_lib.

Section device.

(** The address of [knl_DevMgrLock], and of the local variable [flg] of [MLockTmo]. *)
Context (lock flg : Z).

(* src: kernel/tkernel/sysmgr.h 37-37 LockDM *)
Definition LockDM : prog DEV Z := on_lib (MLock lock 0 flg).
(* src: kernel/tkernel/sysmgr.h 38-38 UnlockDM *)
Definition UnlockDM : prog DEV Z := on_lib (MUnlock lock 0).
(* src: kernel/tkernel/sysmgr.h 43-43 LockREG *)
Definition LockREG : prog DEV Z := on_lib (MLock lock 1 flg).
(* src: kernel/tkernel/sysmgr.h 44-44 UnlockREG *)
Definition UnlockREG : prog DEV Z := on_lib (MUnlock lock 1).

(** What a call does in the section it holds the lock for. *)
Definition under_DM {X : Type} (f : DEV → X * DEV) : prog DEV X :=
  LockDM ;;; x <-- step f ;; UnlockDM ;;; Ret x.
Definition under_REG {X : Type} (p : prog DEV X) : prog DEV X :=
  LockREG ;;; x <-- p ;; UnlockREG ;;; Ret x.

(** ** The registration table *)

(* src: kernel/tkernel/sysmgr.h 60-60 DID *)
Definition DID (devcb : Z) : Z := Z.shiftl (devcb + 1) 8.
(* src: kernel/tkernel/sysmgr.h 61-61 DEVID *)
Definition DEVID (devcb unitno : Z) : Z := DID devcb + unitno.
(* src: kernel/tkernel/sysmgr.h 62-62 DEVCB *)
Definition DEVCB (devid : Z) : Z := Z.shiftr devid 8 - 1.
(* src: kernel/tkernel/sysmgr.h 63-63 UNITNO *)
Definition UNITNO (devid : Z) : Z := Z.land devid 0xff.

(* src: kernel/tkernel/device.h 42-49 knl_check_devid *)
Definition knl_check_devid (devid : Z) : Z :=
  let devid := Z.shiftr devid 8 in
  if (devid <? 1) || (MAX_REGDEV <? devid) then E_ID else E_OK.

(* src: kernel/tkernel/device.c 44-58 knl_searchDevCB *)
Definition knl_searchDevCB (devnm : list Z) (s : DEV) : option Z :=
  let q := que_find (λ q, bool_decide (dc_devnm (dv_devcb s (dn_idx q)) = devnm)) (S (Z.to_nat MAX_REGDEV))
             (dv_q s) UsedDevCB (qnext (dv_q s) UsedDevCB) in
  if decide (q = UsedDevCB) then None else Some (dn_idx q).

(* src: kernel/tkernel/device.c 63-78 newDevCB *)
Definition newDevCB (devnm : list Z) (s : DEV) : option Z * DEV :=
  match QueRemoveNext FreeDevCB (dv_q s) with
  | (None, q) => (None, set_dv_q q s)
  | (Some node, q) =>
      let s := set_dv_q q s in
      let devcb := dn_idx node in
      let s := upd_devcb devcb (set_dc_devnm devnm) s in
      let s := upd_dq (QueInit (OPENQ devcb)) s in
      (Some devcb, upd_dq (QueInsert (DEVQ devcb) UsedDevCB) s)
  end.

(* src: kernel/tkernel/device.c 83-88 delDevCB *)
Definition delDevCB (devcb : Z) (s : DEV) : DEV :=
  let s := upd_dq (QueRemove (DEVQ devcb)) s in
  let s := upd_dq (QueInsert (DEVQ devcb) FreeDevCB) s in
  upd_devcb devcb (set_dc_devnm []) s.

(** The length a logical device name may have. *)
(* src: kernel/tkernel/device.c 113-123 tk_def_dev *)
Definition lognm_len (devnm : list Z) (nsub : Z) : Z :=
  let len := Z.of_nat (length devnm) in
  let len := if 0 <? nsub then len + 1 else len in
  let len := if 10 <? nsub then len + 1 else len in
  if 100 <? nsub then len + 1 else len.

(* src: kernel/tkernel/device.c 93-178 tk_def_dev *)
Definition tk_def_dev (devnm : list Z) (pk_ddev : option T_DDEV) (pk_idev : Z) : prog DEV Z :=
  let len := Z.of_nat (length devnm) in
  under_REG (
    if (len =? 0) || (L_DEVNM <? len) then Ret E_PAR
    else if match pk_ddev with
            | Some d => (dd_nsub d <? 0) || (MAX_UNIT <? dd_nsub d) || (L_DEVNM <? lognm_len devnm (dd_nsub d))
            | None => false
            end then Ret E_PAR
    else under_DM (λ s,
      let '(devcb, s) := match knl_searchDevCB devnm s with
                         | Some devcb => (Some devcb, s)
                         | None => match pk_ddev with Some _ => newDevCB devnm s | None => (None, s) end
                         end in
      match devcb, pk_ddev with
      | None, None => (E_NOEXS, s)
      | None, Some _ => (E_LIMIT, s)
      | Some devcb, Some ddev =>
          let s := upd_devcb devcb (set_dc_ddev ddev) s in
          let s := if pk_idev =? NULL then s else upd_dk (upd_mem (st32 pk_idev (dv_evtmbfid s))) s in
          (DID devcb, s)
      | Some devcb, None =>
          if negb (isQueEmpty (OPENQ devcb) (dv_q s)) then (E_BUSY, s)
          else (DID devcb, delDevCB devcb s)
      end)).

(* src: kernel/tkernel/device.c 183-190 tk_ref_idv *)
Definition tk_ref_idv (pk_idev : Z) : prog DEV Z :=
  under_DM (λ s, (E_OK, upd_dk (upd_mem (st32 pk_idev (dv_evtmbfid s))) s)).

(** ** Device names *)

(* src: kernel/tkernel/device.c 206-206 knl_phydevnm *)
Definition is_digit (c : Z) : bool := (0x30 <=? c) && (c <=? 0x39).

(** The physical name, and the unit number from the digits behind it.  The name is copied
    as far as it goes; the buffers of the callers have room for L_DEVNM characters. *)
(* src: kernel/tkernel/device.c 200-224 knl_phydevnm *)
Fixpoint knl_phydevnm (ldevnm : list Z) : list Z * Z :=
  match ldevnm with
  | [] => ([], 0)
  | c :: rest =>
      if is_digit c then
        let unitno := foldl (λ unitno c, s32 (unitno * 10 + (c - 0x30))) 0 ldevnm in
        ([], s32 (unitno + 1))
      else let '(pdevnm, unitno) := knl_phydevnm rest in (c :: pdevnm, unitno)
  end.

(** The digits of a number, by the do-while loop; eleven are enough for an INT. *)
(* src: kernel/tkernel/device.c 243-246 logdevnm *)
Fixpoint unit_digits (fuel : nat) (unitno : Z) (cp : list Z) : list Z :=
  match fuel with
  | O => cp
  | S fuel =>
      let cp := 0x30 + unitno mod 10 :: cp in
      let unitno := unitno / 10 in
      if unitno =? 0 then cp else unit_digits fuel unitno cp
  end.

(* src: kernel/tkernel/device.c 231-249 logdevnm *)
Definition logdevnm (pdevnm : list Z) (unitno : Z) : list Z :=
  if 0 <? unitno then pdevnm ++ unit_digits 11 (unitno - 1) [] else pdevnm.

(** Storing a C string, and [knl_strncpy]. *)
Fixpoint st_str (a : Z) (l : list Z) (m : Z → Z) : Z → Z :=
  match l with [] => <[a := 0]> m | c :: l => st_str (a + 1) l (<[a := c]> m) end.
(* src: kernel/tstdlib/string.c 103-120 knl_strncpy *)
Fixpoint st_strn (n : nat) (a : Z) (l : list Z) (m : Z → Z) : Z → Z :=
  match n with
  | O => m
  | S n => st_strn n (a + 1) (tail l) (<[a := default 0 (head l)]> m)
  end.

(* src: kernel/tkernel/device.c 254-282 tk_get_dev *)
Definition tk_get_dev (devid devnm : Z) : prog DEV Z :=
  let ercd := knl_check_devid devid in
  if ercd <? E_OK then Ret ercd
  else under_DM (λ s,
    let devcb := DEVCB devid in
    let cb := dv_devcb s devcb in
    if bool_decide (dc_devnm cb = []) || (dd_nsub (dc_ddev cb) <? UNITNO devid) then (E_NOEXS, s)
    else (DID devcb, upd_dk (upd_mem (st_str devnm (logdevnm (dc_devnm cb) (UNITNO devid)))) s)).

(* src: include/tk/syscall.h 544-550 T_RDEV *)
Definition put_rdev (pk_rdev : Z) (d : T_DDEV) (subno : Z) (s : DEV) : DEV :=
  if pk_rdev =? NULL then s
  else upd_dk (upd_mem (λ m, st32 (pk_rdev + 12) (u32 subno) (st32 (pk_rdev + 8) (u32 (dd_nsub d))
                               (st32 (pk_rdev + 4) (u32 (dd_blksz d)) (st32 pk_rdev (dd_devatr d) m))))) s.

(* src: kernel/tkernel/device.c 287-318 tk_ref_dev *)
Definition tk_ref_dev (devnm : list Z) (pk_rdev : Z) : prog DEV Z :=
  let '(pdevnm, unitno) := knl_phydevnm devnm in
  under_DM (λ s,
    match knl_searchDevCB pdevnm s with
    | None => (E_NOEXS, s)
    | Some devcb =>
        let d := dc_ddev (dv_devcb s devcb) in
        if dd_nsub d <? unitno then (E_NOEXS, s)
        else (DEVID devcb unitno, put_rdev pk_rdev d unitno s)
    end).

(* src: kernel/tkernel/device.h 57-57 DD *)
Definition DD (opncb : Z) : Z := opncb + 1.
(* src: kernel/tkernel/device.h 58-58 OPNCB *)
Definition OPNCB (dd : Z) : Z := dd - 1.

(** The open block of a descriptor, or an error. *)
(* src: kernel/tkernel/deviceio.c 55-75 knl_check_devdesc *)
Definition knl_check_devdesc (dd mode : Z) (s : DEV) : Z + Z :=
  if (dd <? 1) || (MAX_OPNDEV <? dd) then inl E_ID
  else
    let opncb := OPNCB dd in
    if oc_resid (dv_opncb s opncb) =? 0 then inl E_ID
    else if negb (mode =? 0) && (Z.land (oc_omode (dv_opncb s opncb)) mode =? 0) then inl E_OACV
    else inr opncb.

(* src: kernel/tkernel/device.c 323-354 tk_oref_dev *)
Definition tk_oref_dev (dd pk_rdev : Z) : prog DEV Z :=
  under_DM (λ s,
    match knl_check_devdesc dd 0 s with
    | inl ercd => (ercd, s)
    | inr opncb =>
        let devcb := oc_devcb (dv_opncb s opncb) in
        let unitno := oc_unitno (dv_opncb s opncb) in
        (DEVID devcb unitno, put_rdev pk_rdev (dc_ddev (dv_devcb s devcb)) unitno s)
    end).

(** The loop of [tk_lst_dev] over the registered devices; an entry has 20 bytes. *)
(* src: kernel/tkernel/device.c 374-384 tk_lst_dev *)
Fixpoint lst_dev_loop (fuel : nat) (q : dnode) (start end_ n pk_ldev : Z) (s : DEV) : Z * DEV :=
  match fuel with
  | O => (n, s)
  | S fuel =>
      if decide (q = UsedDevCB) then (n, s)
      else
        let next := qnext (dv_q s) q in
        if (start <=? n) && (n <? end_) then
          let cb := dv_devcb s (dn_idx q) in
          let d := dc_ddev cb in
          let s := upd_dk (upd_mem (λ m, st_strn 8 (pk_ldev + 12) (dc_devnm cb) (st32 (pk_ldev + 8) (u32 (dd_nsub d))
                     (st32 (pk_ldev + 4) (u32 (dd_blksz d)) (st32 pk_ldev (dd_devatr d) m))))) s in
          lst_dev_loop fuel next start end_ (n + 1) (pk_ldev + 20) s
        else lst_dev_loop fuel next start end_ (n + 1) pk_ldev s
  end.

(* src: kernel/tkernel/device.c 359-397 tk_lst_dev *)
Definition tk_lst_dev (pk_ldev start ndev : Z) : prog DEV Z :=
  if (start <? 0) || (ndev <? 0) then Ret E_PAR
  else
    n <-- under_DM (λ s, lst_dev_loop (S (Z.to_nat MAX_REGDEV)) (qnext (dv_q s) UsedDevCB) start (s32 (start + ndev)) 0 pk_ldev s) ;;
    Ret (if n <=? start then E_NOEXS else n - start).
End device.

(** ** Names of devices *)

Definition plain (name : list Z) : Prop := Forall (λ c, is_digit c = false) name.

(** The number the digits [l] stand for, after [n]. *)
Definition number_of (n : Z) (l : list Z) : Z := foldl (λ n c, n * 10 + (c - 0x30)) n l.

Lemma number_of_le n l : 0 <= n → Forall (λ c, is_digit c = true) l → n <= number_of n l.
Proof.
  intros Hn Hl. revert n Hn. induction Hl as [|c l Hc Hl IH]; intros n Hn; simpl; [lia|].
  unfold is_digit in Hc. apply andb_prop in Hc as [?%Z.leb_le ?%Z.leb_le].
  specialize (IH (n * 10 + (c - 0x30)) ltac:(lia)). unfold number_of in *. lia.
Qed.

Lemma number_s32 n l : 0 <= n → Forall (λ c, is_digit c = true) l → number_of n l < 2 ^ 31 →
  foldl (λ n c, s32 (n * 10 + (c - 0x30))) n l = number_of n l.
Proof.
  intros Hn Hl. revert n Hn. induction Hl as [|c l Hc Hl IH]; intros n Hn Hb; simpl in *; [done|].
  unfold is_digit in Hc. apply andb_prop in Hc as [?%Z.leb_le ?%Z.leb_le].
  pose proof (number_of_le (n * 10 + (c - 0x30)) l ltac:(lia) Hl). rewrite s32_small by lia. apply IH; [lia|done].
Qed.

(** The digits that the loop puts in front of [cp]. *)
Lemma unit_digits_spec fuel n cp : 0 <= n < 10 ^ Z.of_nat fuel → (0 < fuel)%nat →
  ∃ l, unit_digits fuel n cp = l ++ cp ∧ Forall (λ c, is_digit c = true) l ∧ l ≠ [] ∧
    (∀ m, 0 <= m → number_of m l = m * 10 ^ Z.of_nat (length l) + n) ∧
    (n < 10 → length l = 1%nat) ∧ (n < 100 → (length l <= 2)%nat) ∧ (n < 1000 → (length l <= 3)%nat).
Proof.
  revert n cp. induction fuel as [|fuel IH]; intros n cp Hn Hf; [lia|]. simpl.
  assert (Hd : is_digit (48 + n mod 10) = true).
  { unfold is_digit. apply andb_true_intro. rewrite !Z.leb_le. pose proof (Z.mod_pos_bound n 10). lia. }
  pose proof (Z.div_mod n 10 ltac:(lia)) as Hdm. pose proof (Z.mod_pos_bound n 10 ltac:(lia)). destruct (Z.eqb_spec (n / 10) 0) as [E|E].
  - exists [48 + n mod 10]. split; [done|]. split; [by constructor|]. split; [done|]. split; [|simpl; lia].
    intros m Hm. unfold number_of. simpl. lia.
  - assert (0 < n / 10) by (pose proof (Z.div_pos n 10); lia).
    destruct fuel as [|fuel]; [change (10 ^ Z.of_nat 1) with 10 in Hn; rewrite Z.div_small in E; lia|].
    destruct (IH (n / 10) (48 + n mod 10 :: cp)) as (l & -> & Hl & Hne & Hv & L1 & L2 & L3); [|lia|].
    { split; [lia|]. apply Z.div_lt_upper_bound; [lia|].
      replace (10 * 10 ^ Z.of_nat (S fuel)) with (10 ^ Z.of_nat (S (S fuel))); [lia|].
      rewrite (Nat2Z.inj_succ (S fuel)), Z.pow_succ_r; lia. }
    exists (l ++ [48 + n mod 10]). rewrite <- app_assoc. split; [done|]. split; [by apply Forall_app; split; [|constructor]|].
    split; [by destruct l|]. split.
    + intros m Hm. unfold number_of in *. rewrite foldl_app. simpl. rewrite (Hv m Hm), length_app. simpl.
      rewrite Nat2Z.inj_add, Z.pow_add_r by lia. change (10 ^ Z.of_nat 1) with 10. lia.
    + rewrite length_app. simpl. split; [lia|]. split; intros Hb.
      * rewrite L1; [lia|]. apply Z.div_lt_upper_bound; lia.
      * assert (n / 10 < 100) by (apply Z.div_lt_upper_bound; lia). specialize (L2 ltac:(lia)). lia.
Qed.

Lemma phydevnm_plain name rest : plain name →
  knl_phydevnm (name ++ rest) = let '(p, u) := knl_phydevnm rest in (name ++ p, u).
Proof.
  induction 1 as [|c name Hc Hn IH]; simpl; [by destruct (knl_phydevnm rest)|].
  rewrite Hc, IH. by destruct (knl_phydevnm rest).
Qed.

Lemma phydevnm_digits l : l ≠ [] → Forall (λ c, is_digit c = true) l → number_of 0 l < 2 ^ 31 - 1 →
  knl_phydevnm l = ([], number_of 0 l + 1).
Proof.
  intros Hne Hl Hb. pose proof (number_of_le 0 l ltac:(lia) Hl). pose proof (number_s32 0 l ltac:(lia) Hl ltac:(lia)) as E.
  destruct l as [|c l]; [done|]. simpl in *. rewrite (Forall_inv Hl), E. by rewrite s32_small by lia.
Qed.

(** C20: Logical device names.  The logical name of a unit of a device whose name has no digit
    is taken apart into that name and that unit again, for every unit number of 32 bits;
    when [tk_def_dev] accepts a name with [nsub] subunits, the logical names of all of them
    have room in the L_DEVNM characters of a device name.  A registered name with a digit
    in it is never found: [knl_phydevnm], through which every open goes, does not yield it. *)
Theorem device_names (name : list Z) (unitno nsub : Z) :
  0 <= unitno < 2 ^ 31 →
  (plain name → knl_phydevnm (logdevnm name unitno) = (name, unitno)) ∧
  (unitno <= nsub → nsub <= MAX_UNIT → lognm_len name nsub <= L_DEVNM →
   Z.of_nat (length (logdevnm name unitno)) <= L_DEVNM) ∧
  (¬ plain name → ∀ l, (knl_phydevnm l).1 ≠ name).
Proof.
  intros Hu. split; [|split].
  - intros Hp. unfold logdevnm. destruct (Z.ltb_spec 0 unitno).
    + destruct (unit_digits_spec 11 (unitno - 1) []) as (l & -> & Hl & Hne & Hv & _); [|lia|].
      { change (10 ^ Z.of_nat 11) with 100000000000. lia. }
      rewrite app_nil_r. specialize (Hv 0 ltac:(lia)). simpl in Hv.
      rewrite (phydevnm_plain name l Hp), phydevnm_digits by (done || lia). rewrite app_nil_r. f_equal. lia.
    + rewrite <- (app_nil_r name) at 1. rewrite (phydevnm_plain name [] Hp). simpl. rewrite app_nil_r. f_equal. lia.
  - unfold logdevnm, lognm_len, L_DEVNM, MAX_UNIT. intros Hle Hns. destruct (Z.ltb_spec 0 unitno).
    + destruct (unit_digits_spec 11 (unitno - 1) []) as (l & -> & _ & _ & _ & L1 & L2 & L3); [|lia|].
      { change (10 ^ Z.of_nat 11) with 100000000000. lia. }
      rewrite app_nil_r, length_app. destruct (Z.ltb_spec 0 nsub); [|lia].
      destruct (Z.ltb_spec 10 nsub), (Z.ltb_spec 100 nsub); lia.
    + destruct (0 <? nsub), (10 <? nsub), (100 <? nsub); lia.
  - intros Hd l E. apply Hd. rewrite <- E. clear. induction l as [|c l IH]; simpl; [constructor|].
    destruct (is_digit c) eqn:Hc; simpl; [constructor|]. destruct (knl_phydevnm l). simpl in *. by constructor.
Qed.

Lemma device_names_witness :
  let hda := [0x68; 0x64; 0x61] in
  logdevnm hda 12 = hda ++ [0x31; 0x31] ∧ knl_phydevnm (logdevnm hda 12) = (hda, 12).
Proof.
  intros hda. split; [by vm_compute|]. apply (device_names hda 12 12); [lia|]. repeat constructor.
Defined.
