(* ===== verification/DeviceIO.v ===== *)
(** * Device input and output: kernel/tkernel/deviceio.c, and the calls of device.c that
    reach a driver

    A device is opened, which gives a descriptor; requests are started on it and waited
    for.  The functions of the drivers run outside the lock of the device manager, except
    for the abort functions; other tasks may call the device manager meanwhile. *)
From S2P Require Import Prelude Config Queue Kernel ReadyQueue KInv KCheck Task Timer Wait.
From S2P Require Import Mem Semaphore EventFlag TaskManage Prog Threads FastLock Device.
#[local] Open Scope prog_scope.

(* src: include/tk/syscall.h 535-535 TD_SUSPEND *)
Definition TD_SUSPEND : Z := 0x0001.
(* src: include/tk/syscall.h 536-536 TD_DISSUS *)
Definition TD_DISSUS : Z := 0x0002.
(* src: include/tk/syscall.h 537-537 TD_ENASUS *)
Definition TD_ENASUS : Z := 0x0003.
(* src: include/tk/syscall.h 538-538 TD_CHECK *)
Definition TD_CHECK : Z := 0x0004.
(* src: include/tk/syscall.h 539-539 TD_FORCE *)
Definition TD_FORCE : Z := 0x8000.
(* src: include/tk/syscall.h 685-685 TDC_READ *)
Definition TDC_READ : Z := 1.
(* src: include/tk/syscall.h 686-686 TDC_WRITE *)
Definition TDC_WRITE : Z := 2.
(* src: include/tk/syscall.h 691-691 TDV_SUSPEND *)
Definition TDV_SUSPEND : Z := -1.
(* src: include/tk/syscall.h 692-692 TDV_RESUME *)
Definition TDV_RESUME : Z := -2.

(** The functions of the drivers, by their addresses.  A request packet is named by its
    request block. *)
(* src: kernel/tkernel/sysmgr.h 112-117 OPNFN *)
Class Drivers := {
  openfn : Z → Z → Z → Z → prog DEV Z;
  abortfn : Z → Z → Z → Z → Z → prog DEV Z;
  waitfn : Z → Z → Z → Z → Z → prog DEV Z;
  eventfn : Z → Z → Z → Z → prog DEV Z;
  closefn : Z → Z → Z → Z → prog DEV Z;
  execfn : Z → Z → Z → Z → prog DEV Z
}.

Section deviceio.
Context `{Drivers} (lock flg : Z).
Notation LockDM := (LockDM lock flg).
Notation UnlockDM := (UnlockDM lock).
Notation under_DM := (under_DM lock flg).

(** [knl_ctxtsk->sysmode++], the function of the driver, [knl_ctxtsk->sysmode--]. *)
Definition add_sysmode (n : Z) (s : DEV) : DEV :=
  upd_dk (upd_s (λ k, upd_tcb (ctx k) (λ t, set_t_sysmode (t_sysmode t + n) t) k)) s.
(* src: kernel/tkernel/device.h 90-96 knl_call_abortfn *)
Definition call_driver (p : prog DEV Z) : prog DEV Z :=
  modify (add_sysmode 1) ;;; ercd <-- p ;; modify (add_sysmode (-1)) ;;; Ret ercd.

(* src: kernel/tkernel/device.c 404-448 tk_evt_dev *)
Definition tk_evt_dev (devid evttyp evtinf : Z) : prog DEV Z :=
  let ercd := knl_check_devid devid in
  if ercd <? E_OK then Ret ercd
  else if evttyp <? 0 then Ret E_PAR
  else
    r <-- under_DM (λ s,
      let cb := dv_devcb s (DEVCB devid) in
      (if bool_decide (dc_devnm cb = []) || (dd_nsub (dc_ddev cb) <? UNITNO devid) then None
       else Some (dc_ddev cb), s)) ;;
    match r with
    | None => Ret E_NOEXS
    | Some d => call_driver (eventfn (dd_eventfn d) evttyp evtinf (dd_exinf d))
    end.

(** ** Open and close *)

(* src: kernel/tkernel/deviceio.c 37-50 knl_GetResCB *)
Definition knl_GetResCB : prog DEV unit :=
  under_DM (λ s, (tt, if decide (qnext (dv_q s) RESOPENQ = DNULL) then upd_dq (QueInit RESOPENQ) s else s)).

(* src: kernel/tkernel/deviceio.c 80-89 knl_delOpnCB *)
Definition knl_delOpnCB (opncb : Z) (free : bool) (s : DEV) : DEV :=
  let s := upd_dq (QueRemove (OPNQ opncb)) s in
  let s := upd_dq (QueRemove (RESQ opncb)) s in
  let s := if free then upd_dq (QueInsert (OPNQ opncb) FreeOpnCB) s else s in
  upd_opncb opncb (set_oc_resid 0) s.

(* src: kernel/tkernel/deviceio.c 94-100 knl_delReqCB *)
Definition knl_delReqCB (reqcb : Z) (s : DEV) : DEV :=
  let s := upd_dq (QueRemove (REQQ reqcb)) s in
  let s := upd_dq (QueInsert (REQQ reqcb) FreeReqCB) s in
  upd_reqcb reqcb (set_rc_opncb None) s.

Definition OFUEL : nat := S (Z.to_nat MAX_OPNDEV).
Definition RFUEL : nat := S (Z.to_nat MAX_REQDEV).

(* src: kernel/tkernel/deviceio.c 107-117 knl_chkopen *)
Definition knl_chkopen (devcb unitno : Z) (s : DEV) : bool :=
  let q := que_find (λ q, oc_unitno (dv_opncb s (dn_idx q)) =? unitno) OFUEL (dv_q s)
             (OPENQ devcb) (qnext (dv_q s) (OPENQ devcb)) in
  bool_decide (q ≠ OPENQ devcb).

(* src: kernel/tkernel/deviceio.c 120-125 knl_pk_csem_DM *)
Definition knl_pk_csem_DM : T_CSEM := mkT_CSEM NULL TA_TFIFO 0 1.

(* src: kernel/tkernel/deviceio.c 130-155 newOpnCB *)
Definition newOpnCB (devcb unitno omode : Z) (s : DEV) : option Z * DEV :=
  match QueRemoveNext FreeOpnCB (dv_q s) with
  | (None, q) => (None, set_dv_q q s)
  | (Some node, q) =>
      let s := set_dv_q q s in
      let opncb := dn_idx node in
      let s := upd_dq (QueInsert (OPNQ opncb) (OPENQ devcb)) s in
      let s := upd_dq (QueInsert (RESQ opncb) RESOPENQ) s in
      let s := upd_opncb opncb (λ o, mkOpnCB (oc_resid o) devcb unitno omode (oc_waitone o) (oc_waireqlst o)
                 (oc_nwaireq o) (oc_abort_tskid o) (oc_abort_cnt o) (oc_abort_semid o)) s in
      let s := upd_dq (QueInit (REQUESTQ opncb)) s in
      let s := upd_opncb opncb (λ o, mkOpnCB 0 devcb unitno omode 0 (oc_waireqlst o) 0 0
                 (oc_abort_cnt o) (oc_abort_semid o)) s in
      (Some opncb, s)
  end.

(** The counts of [chkopenmode]: opened for reading, for writing, and kept from both. *)
(* src: kernel/tkernel/deviceio.c 172-189 chkopenmode *)
Fixpoint open_modes (fuel : nat) (devcb unitno : Z) (q : dnode) (n : Z * Z * Z * Z) (s : DEV) : Z * Z * Z * Z :=
  match fuel with
  | O => n
  | S fuel =>
      if decide (q = OPENQ devcb) then n
      else
        let o := dv_opncb s (dn_idx q) in
        let '(read, write, rexcl, wexcl) := n in
        let n := if (unitno =? 0) || (oc_unitno o =? 0) || (oc_unitno o =? unitno) then
                   (if has (oc_omode o) TD_READ then read + 1 else read,
                    if has (oc_omode o) TD_WRITE then write + 1 else write,
                    if has (oc_omode o) (Z.lor TD_EXCL TD_REXCL) then rexcl + 1 else rexcl,
                    if has (oc_omode o) (Z.lor TD_EXCL TD_WEXCL) then wexcl + 1 else wexcl)
                 else n in
        open_modes fuel devcb unitno (qnext (dv_q s) q) n s
  end.

(* src: kernel/tkernel/deviceio.c 160-206 chkopenmode *)
Definition chkopenmode (devcb unitno omode : Z) (s : DEV) : Z :=
  if negb (has omode TD_UPDATE) then E_PAR
  else
    let '(read, write, rexcl, wexcl) :=
      open_modes OFUEL devcb unitno (qnext (dv_q s) (OPENQ devcb)) (0, 0, 0, 0) s in
    if has omode (Z.lor TD_EXCL TD_REXCL) && (0 <? read) then E_BUSY
    else if has omode (Z.lor TD_EXCL TD_WEXCL) && (0 <? write) then E_BUSY
    else if has omode TD_READ && (0 <? rexcl) then E_BUSY
    else if has omode TD_WRITE && (0 <? wexcl) then E_BUSY
    else E_OK.

(** The section of [tk_opn_dev] that takes an open block: an error, or the block, the
    function to call (NULL for none) and its [exinf]. *)
(* src: kernel/tkernel/deviceio.c 234-269 tk_opn_dev *)
Definition take_opncb (pdevnm : list Z) (unitno omode : Z) (s : DEV) : (Z + Z * Z * Z * Z) * DEV :=
  match knl_searchDevCB pdevnm s with
  | None => (inl E_NOEXS, s)
  | Some devcb =>
      let d := dc_ddev (dv_devcb s devcb) in
      if dd_nsub d <? unitno then (inl E_NOEXS, s)
      else
        let ercd := chkopenmode devcb unitno omode s in
        if ercd <? E_OK then (inl ercd, s)
        else
          let fn := if knl_chkopen devcb unitno s && negb (has (dd_drvatr d) TDA_OPENREQ) then NULL else dd_openfn d in
          match newOpnCB devcb unitno omode s with
          | (None, s) => (inl E_LIMIT, s)
          | (Some opncb, s) =>
              let '(semid, k) := tk_cre_sem knl_pk_csem_DM (dv_k s) in
              let s := upd_dk (λ _, k) s in
              if semid <? E_OK then (inl E_SYS, knl_delOpnCB opncb true s)
              else (inr (opncb, fn, DEVID devcb unitno, dd_exinf d), upd_opncb opncb (set_oc_abort_semid semid) s)
          end
  end.

(* src: kernel/tkernel/deviceio.c 211-301 tk_opn_dev *)
Definition tk_opn_dev (devnm : list Z) (omode : Z) : prog DEV Z :=
  let '(pdevnm, unitno) := knl_phydevnm devnm in
  knl_GetResCB ;;;
  r <-- under_DM (take_opncb pdevnm unitno omode) ;;
  match r with
  | inl ercd => Ret ercd
  | inr (opncb, fn, devid, exinf) =>
      ercd <-- (if fn =? NULL then Ret E_OK else call_driver (openfn fn devid omode exinf)) ;;
      if ercd <? E_OK then
        under_DM (λ s,
          let s := upd_dk (λ k, (tk_del_sem (oc_abort_semid (dv_opncb s opncb)) k).2) s in
          (ercd, knl_delOpnCB opncb true s))
      else under_DM (λ s, (DD opncb, upd_opncb opncb (set_oc_resid 1) s))
  end.

(** One request under way is aborted. *)
(* src: kernel/tkernel/deviceio.c 343-359 abort_allrequest *)
Definition abort_request (opncb reqcb fn exinf : Z) : prog DEV unit :=
  tskid <-- gets (λ s, rc_tskid (dv_reqcb s reqcb)) ;;
  if tskid =? 0 then Ret tt
  else
    modify (upd_reqcb reqcb (λ r, set_rc_req (set_rq_abort true (rc_req r)) r)) ;;;
    call_driver (abortfn fn tskid reqcb 1 exinf) ;;;
    modify (upd_opncb opncb (λ o, set_oc_abort_cnt (oc_abort_cnt o + 1) o)).

(* src: kernel/tkernel/deviceio.c 342-360 abort_allrequest *)
Fixpoint abort_loop (fuel : nat) (opncb fn exinf : Z) (q : dnode) : prog DEV unit :=
  match fuel with
  | O => Ret tt
  | S fuel =>
      if decide (q = REQUESTQ opncb) then Ret tt
      else
        abort_request opncb (dn_idx q) fn exinf ;;;
        q <-- gets (λ s, qnext (dv_q s) q) ;;
        abort_loop fuel opncb fn exinf q
  end.

(* src: kernel/tkernel/deviceio.c 306-394 abort_allrequest *)
Definition abort_allrequest (opncb : Z) : prog DEV unit :=
  LockDM ;;;
  d <-- gets (λ s, dc_ddev (dv_devcb s (oc_devcb (dv_opncb s opncb)))) ;;
  modify (λ s, upd_opncb opncb (λ o, set_oc_abort_cnt 0 (set_oc_abort_tskid (tk_get_tid (k_s (dv_k s))) o)) s) ;;;
  nwaireq <-- gets (λ s, oc_nwaireq (dv_opncb s opncb)) ;;
  (if 0 <? nwaireq then
     reqcb <-- gets (λ s, oc_waireqlst (dv_opncb s opncb)) ;;
     tskid <-- gets (λ s, rc_tskid (dv_reqcb s reqcb)) ;;
     call_driver (abortfn (dd_abortfn d) tskid reqcb nwaireq (dd_exinf d)) ;;;
     modify (upd_opncb opncb (λ o, set_oc_abort_cnt (oc_abort_cnt o + 1) o))
   else
     q <-- gets (λ s, qnext (dv_q s) (REQUESTQ opncb)) ;;
     abort_loop RFUEL opncb (dd_abortfn d) (dd_exinf d) q) ;;;
  UnlockDM ;;;
  cnt <-- gets (λ s, oc_abort_cnt (dv_opncb s opncb)) ;;
  (if 0 <? cnt then sys (λ s, tk_wai_sem (oc_abort_semid (dv_opncb s opncb)) 1 TMO_FEVR) ;;; Ret tt else Ret tt) ;;;
  modify (upd_opncb opncb (set_oc_abort_tskid 0)) ;;;
  LockDM ;;;
  while_true (
    reqcb <-- step (λ s,
      if isQueEmpty (REQUESTQ opncb) (dv_q s) then (None, s)
      else
        let reqcb := dn_idx (qnext (dv_q s) (REQUESTQ opncb)) in
        (Some reqcb, upd_reqcb reqcb (λ r, set_rc_req (set_rq_abort true (rc_req r)) r) s)) ;;
    match reqcb with
    | None => Ret (Some tt)
    | Some reqcb =>
        UnlockDM ;;;
        call_driver (waitfn (dd_waitfn d) reqcb 1 TMO_FEVR (dd_exinf d)) ;;;
        LockDM ;;;
        modify (knl_delReqCB reqcb) ;;;
        Ret None
    end) ;;;
  UnlockDM ;;; Ret tt.

(** The section of [knl_close_device] that takes the block out of the queues: the function of
    the driver to call (NULL for none) and its arguments. *)
(* src: kernel/tkernel/deviceio.c 411-432 knl_close_device *)
Definition drop_opncb (opncb option : Z) (s : DEV) : (Z * Z * Z * Z) * DEV :=
  let devcb := oc_devcb (dv_opncb s opncb) in
  let unitno := oc_unitno (dv_opncb s opncb) in
  let d := dc_ddev (dv_devcb s devcb) in
  let s := upd_dk (λ k, (tk_del_sem (oc_abort_semid (dv_opncb s opncb)) k).2) s in
  let s := knl_delOpnCB opncb false s in
  let '(fn, option) :=
    if knl_chkopen devcb unitno s
    then (if negb (has (dd_drvatr d) TDA_OPENREQ) then NULL else dd_closefn d, Z.land option (Z.lnot TD_EJECT))
    else (dd_closefn d, option) in
  ((fn, DEVID devcb unitno, option, dd_exinf d), s).

(* src: kernel/tkernel/deviceio.c 399-452 knl_close_device *)
Definition knl_close_device (opncb option : Z) : prog DEV Z :=
  abort_allrequest opncb ;;;
  r <-- under_DM (drop_opncb opncb option) ;;
  let '(fn, devid, option, exinf) := r in
  ercd <-- (if fn =? NULL then Ret E_OK else call_driver (closefn fn devid option exinf)) ;;
  under_DM (λ s, (tt, upd_dq (QueInsert (OPNQ opncb) FreeOpnCB) s)) ;;;
  Ret ercd.

(* src: kernel/tkernel/deviceio.c 457-479 tk_cls_dev *)
Definition tk_cls_dev (dd option : Z) : prog DEV Z :=
  r <-- under_DM (λ s,
    match knl_check_devdesc dd 0 s with
    | inl ercd => (inl ercd, s)
    | inr opncb => (inr opncb, upd_opncb opncb (set_oc_resid 0) s)
    end) ;;
  match r with
  | inl ercd => Ret ercd
  | inr opncb => knl_close_device opncb option
  end.

(** ** Requests *)

(* src: kernel/tkernel/device.h 63-63 REQID *)
Definition REQID (reqcb : Z) : Z := reqcb + 1.
(* src: kernel/tkernel/device.h 64-64 REQCB *)
Definition REQCB (reqid : Z) : Z := reqid - 1.

(* src: kernel/tkernel/deviceio.c 486-502 newReqCB *)
Definition newReqCB (opncb : Z) (s : DEV) : option Z * DEV :=
  match QueRemoveNext FreeReqCB (dv_q s) with
  | (None, q) => (None, set_dv_q q s)
  | (Some node, q) =>
      let s := set_dv_q q s in
      let reqcb := dn_idx node in
      let s := upd_dq (QueInsert (REQQ reqcb) (REQUESTQ opncb)) s in
      (Some reqcb, upd_reqcb reqcb (set_rc_opncb (Some opncb)) s)
  end.

(** A call that was waited for by a close tells it that it is through. *)
(* src: kernel/tkernel/deviceio.c 573-575 knl_request *)
Definition tell_aborter (opncb : Z) (s : DEV) : DEV :=
  if 0 <? oc_abort_tskid (dv_opncb s opncb) then
    let cnt := oc_abort_cnt (dv_opncb s opncb) - 1 in
    let s := upd_opncb opncb (set_oc_abort_cnt cnt) s in
    if cnt =? 0 then upd_dk (λ k, (tk_sig_sem (oc_abort_semid (dv_opncb s opncb)) 1 k).2) s else s
  else s.

(** The section of [knl_request] that sets up the request. *)
(* src: kernel/tkernel/deviceio.c 519-553 knl_request *)
Definition start_request (dd start buf size cmd : Z) (s : DEV) : (Z + Z * Z * Z * Z) * DEV :=
  let m := if (start <=? - 0x00010000) && (- 0x7fffffff <=? start) then 0
           else if cmd =? TDC_READ then TD_READ else TD_WRITE in
  match knl_check_devdesc dd m s with
  | inl ercd => (inl ercd, s)
  | inr opncb =>
      let devcb := oc_devcb (dv_opncb s opncb) in
      let d := dc_ddev (dv_devcb s devcb) in
      match newReqCB opncb s with
      | (None, s) => (inl E_LIMIT, s)
      | (Some reqcb, s) =>
          let req := mkT_DEVREQ None 0 (DEVID devcb (oc_unitno (dv_opncb s opncb))) cmd false start size buf 0 0 in
          let s := upd_reqcb reqcb (λ r, set_rc_tskid (tk_get_tid (k_s (dv_k s))) (set_rc_req req r)) s in
          (inr (opncb, reqcb, dd_execfn d, dd_exinf d), s)
      end
  end.

(* src: kernel/tkernel/deviceio.c 507-590 knl_request *)
Definition knl_request (dd start buf size tmout cmd : Z) : prog DEV Z :=
  r <-- under_DM (start_request dd start buf size cmd) ;;
  match r with
  | inl ercd => Ret ercd
  | inr (opncb, reqcb, fn, exinf) =>
      ercd <-- call_driver (execfn fn reqcb tmout exinf) ;;
      under_DM (λ s,
        let s := upd_reqcb reqcb (set_rc_tskid 0) s in
        let s := tell_aborter opncb s in
        if ercd <? E_OK then (ercd, knl_delReqCB reqcb s) else (REQID reqcb, s))
  end.

(* src: kernel/tkernel/deviceio.c 595-602 tk_rea_dev *)
Definition tk_rea_dev (dd start buf size tmout : Z) : prog DEV Z := knl_request dd start buf size tmout TDC_READ.
(* src: kernel/tkernel/deviceio.c 630-637 tk_wri_dev *)
Definition tk_wri_dev (dd start buf size tmout : Z) : prog DEV Z := knl_request dd start buf size tmout TDC_WRITE.

(* src: kernel/tkernel/deviceio.c 665-678 knl_check_reqid *)
Definition knl_check_reqid (reqid opncb : Z) (s : DEV) : option Z :=
  if (reqid <? 1) || (MAX_REQDEV <? reqid) then None
  else if decide (rc_opncb (dv_reqcb s (REQCB reqid)) = Some opncb) then Some (REQCB reqid) else None.

(** The list of all requests of [opncb], from [reqcb] on: their number, and the links. *)
(* src: kernel/tkernel/deviceio.c 721-730 tk_wai_dev *)
Fixpoint wait_list (fuel : nat) (opncb tskid reqcb nreq : Z) (s : DEV) : Z * DEV :=
  match fuel with
  | O => (nreq, s)
  | S fuel =>
      let s := upd_reqcb reqcb (set_rc_tskid tskid) s in
      let q := qnext (dv_q s) (REQQ reqcb) in
      if decide (q = REQUESTQ opncb) then
        (nreq, upd_reqcb reqcb (λ r, set_rc_req (set_rq_next None (rc_req r)) r) s)
      else
        let s := upd_reqcb reqcb (λ r, set_rc_req (set_rq_next (Some (dn_idx q)) (rc_req r)) r) s in
        wait_list fuel opncb tskid (dn_idx q) (nreq + 1) s
  end.

(** The section of [tk_wai_dev] that makes the list to wait for: its head and length. *)
(* src: kernel/tkernel/deviceio.c 699-754 tk_wai_dev *)
Definition start_wait (dd reqid tskid : Z) (s : DEV) : (Z + Z * Z * Z * Z * Z) * DEV :=
  match knl_check_devdesc dd 0 s with
  | inl ercd => (inl ercd, s)
  | inr opncb =>
      let d := dc_ddev (dv_devcb s (oc_devcb (dv_opncb s opncb))) in
      if reqid =? 0 then
        if (0 <? oc_nwaireq (dv_opncb s opncb)) || (0 <? oc_waitone (dv_opncb s opncb)) then (inl E_OBJ, s)
        else if isQueEmpty (REQUESTQ opncb) (dv_q s) then (inl E_NOEXS, s)
        else
          let first := dn_idx (qnext (dv_q s) (REQUESTQ opncb)) in
          let '(nreq, s) := wait_list RFUEL opncb tskid first 1 s in
          (inr (opncb, first, nreq, dd_waitfn d, dd_exinf d), upd_opncb opncb (set_oc_wait first nreq) s)
      else
        match knl_check_reqid reqid opncb s with
        | None => (inl E_ID, s)
        | Some reqcb =>
            if (0 <? oc_nwaireq (dv_opncb s opncb)) || (0 <? rc_tskid (dv_reqcb s reqcb)) then (inl E_OBJ, s)
            else
              let s := upd_reqcb reqcb (λ r, set_rc_tskid tskid (set_rc_req (set_rq_next None (rc_req r)) r)) s in
              let s := upd_opncb opncb (λ o, set_oc_waitone ((oc_waitone o + 1) mod 65536) o) s in
              (inr (opncb, reqcb, 1, dd_waitfn d, dd_exinf d), s)
        end
  end.

(** The loop over the packets waited for: the request that is done, and its results. *)
(* src: kernel/tkernel/deviceio.c 790-799 tk_wai_dev *)
Fixpoint get_result (fuel : nat) (devreq : option Z) (reqno reqid asize ioer : Z) (s : DEV) : Z * DEV :=
  match fuel, devreq with
  | S fuel, Some reqcb =>
      let r := rc_req (dv_reqcb s reqcb) in
      let '(reqid, s) :=
        if reqno =? 0
        then (REQID reqcb, upd_dk (upd_mem (λ m, st32 ioer (u32 (rq_error r)) (st32 asize (u32 (rq_asize r)) m))) s)
        else (reqid, s) in
      let s := upd_reqcb reqcb (set_rc_tskid 0) s in
      get_result fuel (rq_next r) (reqno - 1) reqid asize ioer s
  | _, _ => (reqid, s)
  end.

(* src: kernel/tkernel/deviceio.c 683-815 tk_wai_dev *)
Definition tk_wai_dev (dd reqid asize ioer tmout : Z) : prog DEV Z :=
  tskid <-- gets (λ s, tk_get_tid (k_s (dv_k s))) ;;
  r <-- under_DM (start_wait dd reqid tskid) ;;
  match r with
  | inl ercd => Ret ercd
  | inr (opncb, devreq, nreq, fn, exinf) =>
      reqno <-- call_driver (waitfn fn devreq nreq tmout exinf) ;;
      let ercd := if reqno <? E_OK then reqno else E_OK in
      let ercd := if nreq <=? reqno then E_SYS else ercd in
      under_DM (λ s,
        let s := if reqid =? 0 then upd_opncb opncb (λ o, set_oc_wait (oc_waireqlst o) 0 o) s
                 else upd_opncb opncb (λ o, set_oc_waitone ((oc_waitone o - 1) mod 65536) o) s in
        let s := tell_aborter opncb s in
        let '(reqid, s) := get_result RFUEL (Some devreq) reqno reqid asize ioer s in
        if ercd <? E_OK then (ercd, s) else (reqid, knl_delReqCB (REQCB reqid) s))
  end.

(** [ioercd] is the address of the local variable of that name. *)
(* src: kernel/tkernel/deviceio.c 607-625 tk_srea_dev *)
Definition tk_srea_dev (dd start buf size asize ioercd : Z) : prog DEV Z :=
  ercd <-- tk_rea_dev dd start buf size TMO_FEVR ;;
  if ercd <? E_OK then Ret ercd
  else
    ercd <-- tk_wai_dev dd ercd asize ioercd TMO_FEVR ;;
    if ercd <? E_OK then Ret ercd else gets (λ s, s32 (ld32 (k_mem (dv_k s)) ioercd)).

(* src: kernel/tkernel/deviceio.c 642-660 tk_swri_dev *)
Definition tk_swri_dev (dd start buf size asize ioercd : Z) : prog DEV Z :=
  ercd <-- tk_wri_dev dd start buf size TMO_FEVR ;;
  if ercd <? E_OK then Ret ercd
  else
    ercd <-- tk_wai_dev dd ercd asize ioercd TMO_FEVR ;;
    if ercd <? E_OK then Ret ercd else gets (λ s, s32 (ld32 (k_mem (dv_k s)) ioercd)).

(** ** Suspension *)

(** The loop over the registered devices; they do not change meanwhile, because
    registration is locked. *)
(* src: kernel/tkernel/deviceio.c 833-851 sendevt_alldevice *)
Fixpoint sendevt_loop (fuel : nat) (evttyp : Z) (disk : bool) (q : dnode) (ercd : Z) : prog DEV Z :=
  match fuel with
  | O => Ret ercd
  | S fuel =>
      if decide (q = UsedDevCB) then Ret ercd
      else
        d <-- gets (λ s, dc_ddev (dv_devcb s (dn_idx q))) ;;
        ercd <-- (if Bool.eqb disk (Z.land (dd_devatr d) TD_DEVTYPE =? TDK_DISK)
                  then call_driver (eventfn (dd_eventfn d) evttyp NULL (dd_exinf d)) else Ret ercd) ;;
        q <-- gets (λ s, qnext (dv_q s) q) ;;
        sendevt_loop fuel evttyp disk q ercd
  end.

(* src: kernel/tkernel/deviceio.c 825-854 sendevt_alldevice *)
Definition sendevt_alldevice (evttyp : Z) (disk : bool) : prog DEV Z :=
  q <-- gets (λ s, qnext (dv_q s) UsedDevCB) ;;
  sendevt_loop (S (Z.to_nat MAX_REGDEV)) evttyp disk q E_OK.

(* src: kernel/tkernel/deviceio.c 859-897 do_suspend *)
Definition do_suspend : prog DEV Z :=
  under_REG lock flg (
    sendevt_alldevice TDV_SUSPEND false ;;;
    sendevt_alldevice TDV_SUSPEND true ;;;
    LockDM ;;;
    UnlockDM ;;;
    sendevt_alldevice TDV_RESUME true ;;;
    sendevt_alldevice TDV_RESUME false).

(* src: kernel/tkernel/device.h 77-77 MAX_DISSUS *)
Definition MAX_DISSUS : Z := INT_MAX.

(** The switch over [mode]: an error, or whether to suspend. *)
(* src: kernel/tkernel/deviceio.c 917-947 tk_sus_dev *)
Definition sus_mode (mode : Z) (s : DEV) : (Z + bool) * DEV :=
  let c := dv_dissus s in
  let n := dv_DisSusCnt s in
  let m := Z.land mode 0xf in
  if m =? TD_SUSPEND then
    if (0 <? n) && negb (has mode TD_FORCE) then (inl E_BUSY, s) else (inr true, s)
  else if m =? TD_DISSUS then
    if MAX_DISSUS <=? n then (inl E_QOVR, s) else (inr false, set_dissus (c + 1) (n + 1) s)
  else if m =? TD_ENASUS then
    (inr false, if 0 <? c then set_dissus (c - 1) (n - 1) s else s)
  else if m =? TD_CHECK then (inr false, s)
  else (inl E_PAR, s).

(* src: kernel/tkernel/deviceio.c 902-965 tk_sus_dev *)
Definition tk_sus_dev (mode : Z) : prog DEV Z :=
  knl_GetResCB ;;;
  r <-- under_DM (sus_mode mode) ;;
  match r with
  | inl ercd => Ret ercd
  | inr suspend =>
      ercd <-- (if suspend : bool then do_suspend else Ret E_OK) ;;
      if ercd <? E_OK then Ret ercd else gets dv_DisSusCnt
  end.

(** ** Start and end *)

(* src: kernel/tkernel/deviceio.c 972-983 knl_devmgr_startup *)
Definition knl_devmgr_startup : prog DEV unit :=
  under_DM (λ s, (tt, set_dissus 0 (dv_DisSusCnt s) (upd_dq (QueInit RESOPENQ) s))).

(* src: kernel/tkernel/deviceio.c 988-1020 knl_devmgr_cleanup *)
Definition knl_devmgr_cleanup : prog DEV unit :=
  next <-- gets (λ s, qnext (dv_q s) RESOPENQ) ;;
  if decide (next = DNULL) then Ret tt
  else
    LockDM ;;;
    modify (λ s, set_dissus 0 (dv_DisSusCnt s - dv_dissus s) s) ;;;
    while_true (
      opncb <-- step (λ s,
        if isQueEmpty RESOPENQ (dv_q s) then (None, s)
        else
          let opncb := dn_idx (qnext (dv_q s) RESOPENQ) in
          (Some opncb, upd_opncb opncb (set_oc_resid 0) s)) ;;
      match opncb with
      | None => Ret (Some tt)
      | Some opncb => UnlockDM ;;; knl_close_device opncb 0 ;;; LockDM ;;; Ret None
      end) ;;;
    UnlockDM ;;; Ret tt.

(* src: kernel/tkernel/deviceio.c 1025-1042 knl_initDevIO *)
Definition knl_initDevIO (s : DEV) : Z * DEV :=
  let s := upd_dq (QueInit FreeOpnCB) s in
  let s := foldl (λ s i, upd_dq (QueInsert (OPNQ i) FreeOpnCB) (upd_opncb i (set_oc_resid 0) s)) s (seqZ 0 MAX_OPNDEV) in
  let s := upd_dq (QueInit FreeReqCB) s in
  (E_OK, foldl (λ s i, upd_dq (QueInsert (REQQ i) FreeReqCB) (upd_reqcb i (set_rc_opncb None) s)) s (seqZ 0 MAX_REQDEV)).

(* src: kernel/tkernel/deviceio.c 1047-1050 knl_finishDevIO *)
Definition knl_finishDevIO : Z := E_OK.

(* src: kernel/tkernel/device.c 455-471 initDevCB *)
Definition initDevCB (s : DEV) : Z * DEV :=
  let s := upd_dq (QueInit UsedDevCB) s in
  let s := upd_dq (QueInit FreeDevCB) s in
  (E_OK, foldl (λ s i, upd_devcb i (set_dc_devnm []) (upd_dq (QueInsert (DEVQ i) FreeDevCB) s)) s (seqZ 0 MAX_REGDEV)).

(** There is no message buffer for event notification: DEVT_MBFSZ0 is negative. *)
(* src: kernel/tkernel/device.c 493-496 initIDev *)
Definition initIDev (s : DEV) : Z * DEV := (E_OK, set_dv_evtmbfid E_OK s).
(* src: kernel/tkernel/device.c 547-562 delIDev *)
Definition delIDev : Z := E_OK.

(* src: kernel/tkernel/device.c 567-583 knl_finish_devmgr *)
Definition knl_finish_devmgr : prog DEV Z :=
  knl_devmgr_cleanup ;;;
  let ercd := delIDev in
  let ercd := knl_finishDevIO in
  on_lib (DeleteMLock lock) ;;;
  Ret ercd.

(* src: kernel/tkernel/device.c 507-542 knl_initialize_devmgr *)
Definition knl_initialize_devmgr (name : Z) : prog DEV Z :=
  ercd <-- on_lib (CreateMLock lock name) ;;
  if ercd <? E_OK then knl_finish_devmgr ;;; Ret ercd
  else
    ercd <-- step initDevCB ;;
    if ercd <? E_OK then knl_finish_devmgr ;;; Ret ercd
    else
      ercd <-- step knl_initDevIO ;;
      if ercd <? E_OK then knl_finish_devmgr ;;; Ret ercd
      else
        ercd <-- step initIDev ;;
        if ercd <? E_OK then knl_finish_devmgr ;;; Ret ercd
        else knl_devmgr_startup ;;; Ret E_OK.
End deviceio.

(** ** Compatible open modes *)

(** Two openings concern a common unit; unit 0 is the whole device. *)
Definition overlap (u v : Z) : bool := (u =? 0) || (v =? 0) || (v =? u).

(** One of two openings excludes what the other does. *)
Definition excludes (m m' : Z) : bool :=
  has m (Z.lor TD_EXCL TD_REXCL) && has m' TD_READ || has m (Z.lor TD_EXCL TD_WEXCL) && has m' TD_WRITE.
Definition clash (u m u' m' : Z) : bool := overlap u u' && (excludes m m' || excludes m' m).

Definition clashes (u m : Z) (s : DEV) (y : dnode) : bool :=
  clash u m (oc_unitno (dv_opncb s (dn_idx y))) (oc_omode (dv_opncb s (dn_idx y))).

Definition count_mode (unitno : Z) (s : DEV) (n : Z * Z * Z * Z) (y : dnode) : Z * Z * Z * Z :=
  let o := dv_opncb s (dn_idx y) in
  let '(read, write, rexcl, wexcl) := n in
  if overlap unitno (oc_unitno o) then
    (if has (oc_omode o) TD_READ then read + 1 else read,
     if has (oc_omode o) TD_WRITE then write + 1 else write,
     if has (oc_omode o) (Z.lor TD_EXCL TD_REXCL) then rexcl + 1 else rexcl,
     if has (oc_omode o) (Z.lor TD_EXCL TD_WEXCL) then wexcl + 1 else wexcl)
  else n.

Lemma open_modes_fold s Q devcb unitno l1 l2 fuel n :
  qwf (dv_q s) Q → Q !! OPENQ devcb = Some (l1 ++ l2) → (length l2 < fuel)%nat →
  open_modes fuel devcb unitno (hd (OPENQ devcb) l2) n s = foldl (count_mode unitno s) n l2.
Proof.
  intros Hw. revert l1 fuel n. induction l2 as [|y l2 IH]; intros l1 fuel n HQ Hf; (destruct fuel as [|fuel]; [simpl in Hf; lia|]); simpl.
  - by rewrite decide_True.
  - assert (y ≠ OPENQ devcb).
    { intros ->. destruct (qwf_ring _ _ _ _ Hw HQ) as [[Hn _]%NoDup_cons _]. apply Hn, elem_of_app. right. left. }
    rewrite decide_False by done. rewrite (qwf_next _ _ _ l1 y l2 Hw HQ). destruct n as [[[r w] re] we].
    rewrite (IH (l1 ++ [y])); [done|by rewrite <- app_assoc|simpl in Hf; lia].
Qed.

Lemma count_modes_pos unitno s l r w re we : 0 <= r → 0 <= w → 0 <= re → 0 <= we →
  let '(r', w', re', we') := foldl (count_mode unitno s) (r, w, re, we) l in
  let some m := existsb (λ y, overlap unitno (oc_unitno (dv_opncb s (dn_idx y))) && has (oc_omode (dv_opncb s (dn_idx y))) m) l in
  (0 <? r') = (0 <? r) || some TD_READ ∧ (0 <? w') = (0 <? w) || some TD_WRITE ∧
  (0 <? re') = (0 <? re) || some (Z.lor TD_EXCL TD_REXCL) ∧ (0 <? we') = (0 <? we) || some (Z.lor TD_EXCL TD_WEXCL).
Proof.
  revert r w re we. induction l as [|y l IH]; intros r w re we Hr Hw Hre Hwe; [cbn; by rewrite !orb_false_r|].
  cbn [foldl]. unfold count_mode at 2. set (o := dv_opncb s (dn_idx y)). destruct (overlap unitno (oc_unitno o)) eqn:Eo.
  - assert (Hinc : ∀ b : bool, ∀ n, 0 <= n → 0 <= if b then n + 1 else n) by (intros [] n; lia).
    assert (Hb : ∀ b : bool, ∀ n x, 0 <= n → (0 <? (if b then n + 1 else n)) || x = (0 <? n) || (b || x)).
    { intros [] n x Hn; [|done]. destruct (Z.ltb_spec 0 (n + 1)); [|lia]. by rewrite orb_true_r. }
    specialize (IH _ _ _ _ (Hinc (has (oc_omode o) TD_READ) r Hr) (Hinc (has (oc_omode o) TD_WRITE) w Hw)
      (Hinc (has (oc_omode o) (Z.lor TD_EXCL TD_REXCL)) re Hre) (Hinc (has (oc_omode o) (Z.lor TD_EXCL TD_WEXCL)) we Hwe)).
    destruct (foldl _ _ l) as [[[r' w'] re'] we']. cbv beta zeta in *. destruct IH as (-> & -> & -> & ->).
    cbn [existsb]. fold o. rewrite Eo. cbn [andb]. by rewrite !Hb.
  - specialize (IH r w re we Hr Hw Hre Hwe). destruct (foldl _ _ l) as [[[r' w'] re'] we']. cbv beta zeta in *.
    destruct IH as (-> & -> & -> & ->). cbn [existsb]. fold o. by rewrite Eo.
Qed.

Lemma existsb_and_or {A : Type} (f : A → bool) (g : A → bool) (a : bool) l :
  existsb (λ y, f y && (a && g y)) l = a && existsb (λ y, f y && g y) l.
Proof. induction l as [|y l IH]; simpl; [by rewrite andb_false_r|]. rewrite IH. by destruct a, (f y). Qed.

Lemma existsb_orb {A : Type} (f g : A → bool) l : existsb (λ y, f y || g y) l = existsb f l || existsb g l.
Proof. induction l as [|y l IH]; simpl; [done|]. rewrite IH. by destruct (f y), (g y), (existsb f l). Qed.

Lemma existsb_ext {A : Type} (f g : A → bool) l : (∀ y, f y = g y) → existsb f l = existsb g l.
Proof. intros E. induction l as [|y l IH]; simpl; [done|]. by rewrite E, IH. Qed.

Lemma clashes_split u m s l :
  existsb (clashes u m s) l =
  let some n := existsb (λ y, overlap u (oc_unitno (dv_opncb s (dn_idx y))) && has (oc_omode (dv_opncb s (dn_idx y))) n) l in
  has m (Z.lor TD_EXCL TD_REXCL) && some TD_READ || has m (Z.lor TD_EXCL TD_WEXCL) && some TD_WRITE ||
  has m TD_READ && some (Z.lor TD_EXCL TD_REXCL) || has m TD_WRITE && some (Z.lor TD_EXCL TD_WEXCL).
Proof.
  cbv beta zeta. rewrite <- !existsb_and_or, <- !existsb_orb. apply existsb_ext. intros y. unfold clashes, clash, excludes.
  repeat match goal with |- context [has ?a ?b] => destruct (has a b) end; by destruct (overlap _ _).
Qed.

(** The check by counts is the check for an opening in the queue that clashes. *)
Lemma chkopenmode_ok s Q devcb unitno omode l :
  qwf (dv_q s) Q → Q !! OPENQ devcb = Some l → Z.of_nat (length l) <= MAX_OPNDEV →
  chkopenmode devcb unitno omode s =
    if negb (has omode TD_UPDATE) then E_PAR
    else if existsb (clashes unitno omode s) l then E_BUSY else E_OK.
Proof.
  intros Hw HQ Hlen. unfold chkopenmode. destruct (has omode TD_UPDATE); [|done]. cbn [negb].
  rewrite (qwf_head _ _ _ _ Hw HQ). rewrite (open_modes_fold s Q devcb unitno [] l) by (done || (unfold OFUEL, MAX_OPNDEV in *; lia)).
  pose proof (count_modes_pos unitno s l 0 0 0 0 ltac:(done) ltac:(done) ltac:(done) ltac:(done)) as Hc.
  destruct (foldl _ _ l) as [[[r w] re] we]. cbv beta zeta in Hc. destruct Hc as (-> & -> & -> & ->). cbn [Z.ltb Z.compare orb].
  rewrite clashes_split. cbv beta zeta. by repeat destruct (_ && _).
Qed.

(** ** Sections under the lock *)

Definition dev_multi (M : Z → FastMLock) (s : DEV) : DEV := set_dv_lib (set_multi M (dv_lib s)) s.

(** The multi-lock of the device manager is free. *)
Definition dm_free (lock : Z) (s : DEV) : Prop := mlock_is lock 0 (dv_lib s).

Lemma yields_on_lib {A : Type} (p : prog LIB A) s a l :
  yields p (dv_lib s) a l → yields (on_lib p) s a (set_dv_lib l s).
Proof. apply (yields_zoom dv_lib set_dv_lib); [done..|by intros []]. Qed.

(** ** The drivers

    A driver has its own state: its locks, and what it keeps in memory.  [R] is what holds of
    it between its functions; the device manager changes neither. *)
Definition same_mem (s s' : DEV) : Prop :=
  lb_fast (dv_lib s') = lb_fast (dv_lib s) ∧ k_mem (dv_k s') = k_mem (dv_k s).
Definition driver_state (R : DEV → Prop) : Prop := ∀ s s', same_mem s s' → R s → R s'.

(** A function of a driver leaves the blocks of the device manager, the semaphores and the rings of the
    kernel alone, and gives the lock of the device manager back if it takes it. *)
Record driver_frame (lock : Z) (s s' : DEV) : Prop := {
  df_q : dv_q s' = dv_q s;
  df_devcb : dv_devcb s' = dv_devcb s;
  df_opncb : dv_opncb s' = dv_opncb s;
  df_k : ∀ Qk, kinv (k_s (dv_k s)) Qk → kinv (k_s (dv_k s')) Qk;
  df_sem : k_sem (dv_k s') = k_sem (dv_k s);
  df_lock : dm_free lock s → dm_free lock s'
}.

(** The functions [p] of the drivers return, when their state is as [R] says, and [R] holds again. *)
Definition drivers_return (lock : Z) (R : DEV → Prop) (p : Z → Z → Z → Z → prog DEV Z) : Prop :=
  ∀ fn a b c s, R s → ∃ r s', yields (p fn a b c) s r s' ∧ driver_frame lock s s' ∧ R s'.

#[export] Instance same_mem_preorder : PreOrder same_mem.
Proof. split; [by intros s|]. intros s1 s2 s3 [E1 E2] [F1 F2]. split; congruence. Qed.

(** [tk_cre_sem] and [tk_del_sem] in memory and on the other semaphores. *)
Lemma cre_sem_mem pk k : k_mem (tk_cre_sem pk k).2 = k_mem k.
Proof. unfold tk_cre_sem. do 4 (destruct (_ : bool); [done|]). by destruct (QueRemoveNext _ _) as [[?|] ?]. Qed.

Lemma del_sem_mem id k : k_mem (tk_del_sem id k).2 = k_mem k ∧
  ∀ m, m ≠ get_semcb id → k_sem (tk_del_sem id k).2 m = k_sem k m.
Proof.
  unfold tk_del_sem. do 2 (destruct (_ : bool); [done|]). split; [done|]. intros m Hm. simpl. by upd_simpl.
Qed.

(** What the section does does not depend on the lock. *)
Lemma yields_under_DM {X : Type} lock flg (f : DEV → X * DEV) s x s1 :
  dm_free lock s → (∀ M, f (dev_multi M s) = (x, dev_multi M s1)) →
  ∃ M, yields (under_DM lock flg f) s x (dev_multi M s1) ∧ dm_free lock (dev_multi M s1).
Proof.
  intros Hl Hf. destruct (yields_MLock lock 0 flg (dv_lib s) 0 Hl eq_refl) as (M1 & Hy1 & Hl1).
  pose proof Hl1 as [Hw1 Hf1]. assert (Hl2 : mlock_is lock 1 (dv_lib (dev_multi M1 s1))) by done.
  destruct (yields_MUnlock lock 0 (dv_lib (dev_multi M1 s1)) 1 Hl2) as (M2 & Hy2 & Hl3).
  exists M2. split; [|done]. unfold under_DM. eapply yields_bind; [by apply yields_on_lib|].
  eapply yields_step; [apply (Hf M1)|]. eapply yields_bind; [by apply yields_on_lib|]. apply yields_ret.
Qed.

(** ** Walking the queues *)

Section walk.
Context (stop : dnode → bool).

Fixpoint from_first (l : list dnode) : list dnode :=
  match l with [] => [] | y :: l' => if stop y then l else from_first l' end.

Lemma from_first_spec l : ∃ l1, l = l1 ++ from_first l ∧ Forall (λ y, stop y = false) l1 ∧
  (∀ y l', from_first l = y :: l' → stop y = true).
Proof.
  induction l as [|y l (l1 & E & H1 & H2)]; [by exists []|]. simpl. destruct (stop y) eqn:Ey.
  - exists []. split; [done|]. split; [done|]. by intros ? ? [= <- _].
  - exists (y :: l1). split; [by rewrite E at 1|]. split; [by constructor|done].
Qed.

Lemma que_find_first fuel m Q h l : qwf m Q → Q !! h = Some l → (length l <= fuel)%nat →
  que_find stop fuel m h (qnext m h) = hd h (from_first l).
Proof.
  intros Hw HQ Hf. destruct (from_first_spec l) as (l1 & E & H1 & H2). rewrite (qwf_head _ _ _ _ Hw HQ).
  rewrite E at 1. apply (que_find_ring stop fuel m Q h []); [done|by rewrite E in HQ|done|done|by rewrite <- E].
Qed.
End walk.

(** A queue of different blocks of a table is as long as the table at most. *)
Lemma length_blocks (kd : dkind) n l : NoDup l → (∀ y, y ∈ l → ∃ i, y = Dn kd i ∧ 0 <= i < n) → Z.of_nat (length l) <= Z.max 0 n.
Proof.
  intros Hnd Hl. assert (length l <= length (Dn kd <$> seqZ 0 n))%nat as Hle.
  { apply submseteq_length, NoDup_submseteq; [done|]. intros y Hy. destruct (Hl y Hy) as (i & -> & Hi).
    apply list_elem_of_fmap_2, elem_of_seqZ. lia. }
  rewrite length_fmap, length_seqZ in Hle. lia.
Qed.

(** ** The invariant of the device manager *)

Definition dname (s : DEV) (y : dnode) : list Z := dc_devnm (dv_devcb s (dn_idx y)).

(** The openings [l] of the device [i]. *)
Record opened (s : DEV) (i : Z) (l : list dnode) : Prop := {
  op_block : ∀ y, y ∈ l → ∃ j, y = OPNQ j ∧ 0 <= j < MAX_OPNDEV;
  op_dev : ∀ j, OPNQ j ∈ l → oc_devcb (dv_opncb s j) = i;
  op_clash : ∀ j j', OPNQ j ∈ l → OPNQ j' ∈ l → j ≠ j' →
    clash (oc_unitno (dv_opncb s j)) (oc_omode (dv_opncb s j)) (oc_unitno (dv_opncb s j')) (oc_omode (dv_opncb s j')) = false
}.

Record dev_ok (Q : gmap dnode (list dnode)) (s : DEV) (lu lf lr : list dnode) : Prop := {
  dk_qwf : qwf (dv_q s) Q;
  dk_used : Q !! UsedDevCB = Some lu;
  dk_used_block : ∀ y, y ∈ lu → ∃ i, y = DEVQ i ∧ 0 <= i < MAX_REGDEV;
  dk_free : Q !! FreeOpnCB = Some lf;
  dk_free_block : ∀ y, y ∈ lf → ∃ j, y = OPNQ j ∧ 0 <= j < MAX_OPNDEV ∧ unplaced Q (RESQ j) ∧
    (unplaced Q (REQUESTQ j) ∨ Q !! REQUESTQ j = Some []);
  dk_res : Q !! RESOPENQ = Some lr;
  dk_res_block : ∀ y, y ∈ lr → ∃ j, y = RESQ j;
  dk_opened : ∀ i, DEVQ i ∈ lu → ∃ l, Q !! OPENQ i = Some l ∧ opened s i l
}.

Lemma dev_ok_multi Q s lu lf lr M : dev_ok Q s lu lf lr → dev_ok Q (dev_multi M s) lu lf lr.
Proof.
  intros []. constructor; try done. intros i Hi. destruct (dk_opened0 i Hi) as (l & HQ & []). exists l. split; [done|]. by constructor.
Qed.

(** The registered device of that name. *)
Lemma searchDevCB_spec Q s lu lf lr name : dev_ok Q s lu lf lr →
  match knl_searchDevCB name s with
  | None => ∀ y, y ∈ lu → dname s y ≠ name
  | Some i => DEVQ i ∈ lu ∧ dname s (DEVQ i) = name
  end.
Proof.
  intros Hd. pose proof (dk_qwf _ _ _ _ _ Hd) as Hw. pose proof (dk_used _ _ _ _ _ Hd) as HQ. unfold knl_searchDevCB.
  pose proof (length_blocks KDevQ MAX_REGDEV lu (qwf_NoDup _ _ _ _ Hw HQ) (dk_used_block _ _ _ _ _ Hd)) as Hlen.
  rewrite (que_find_first _ _ _ Q UsedDevCB lu Hw HQ) by (unfold MAX_REGDEV in *; lia).
  set (stop := λ q, bool_decide _). destruct (from_first_spec stop lu) as (l1 & E & H1 & H2).
  destruct (from_first stop lu) as [|y l2] eqn:El; cbn [hd].
  - rewrite decide_True by done. intros y Hy En. rewrite app_nil_r in E. subst l1.
    rewrite Forall_forall in H1. specialize (H1 y Hy). unfold stop in H1. by apply bool_decide_eq_false in H1.
  - assert (Hy : y ∈ lu) by (rewrite E; apply elem_of_app; right; left). specialize (H2 y l2 eq_refl).
    unfold stop in H2. apply bool_decide_eq_true in H2. destruct (dk_used_block _ _ _ _ _ Hd y Hy) as (i & -> & _).
    rewrite decide_False by done. by simpl.
Qed.

(** ** Taking and freeing open blocks *)

Lemma unplaced_insert (Q : gmap dnode (list dnode)) h l e :
  unplaced Q e → e ≠ h → e ∉ l → unplaced (<[h := l]> Q) e.
Proof. intros He Hne Hl h'. rewrite in_ring_insert, elem_of_cons. intros [[-> [?|?]]|[_ Hin]]; [done..|by apply (He h')]. Qed.

Lemma unplaced_not_in (Q : gmap dnode (list dnode)) h l e : unplaced Q e → Q !! h = Some l → e ∉ l.
Proof. intros He HQ Hin. apply (He h). by eapply in_ring_elem. Qed.

Lemma qwf_reinit m (Q : gmap dnode (list dnode)) e :
  qwf m Q → unplaced Q e ∨ Q !! e = Some [] → qwf (QueInit e m) (<[e := []]> Q).
Proof.
  intros Hw [He|He]; [by apply qwf_init|]. rewrite <- insert_delete_eq. apply qwf_init; [by apply qwf_drop|by eapply qwf_drop_unplaced].
Qed.

Lemma opened_ext s s' i l : (∀ j, OPNQ j ∈ l → oc_devcb (dv_opncb s' j) = oc_devcb (dv_opncb s j) ∧
    oc_unitno (dv_opncb s' j) = oc_unitno (dv_opncb s j) ∧ oc_omode (dv_opncb s' j) = oc_omode (dv_opncb s j)) →
  opened s i l → opened s' i l.
Proof.
  intros E [H1 H2 H3]. constructor; [done| |].
  - intros j Hj. destruct (E j Hj) as (-> & _). by apply H2.
  - intros j j' Hj Hj' Hne. destruct (E j Hj) as (_ & -> & ->), (E j' Hj') as (_ & -> & ->). by apply H3.
Qed.

Lemma clash_sym u m u' m' : clash u m u' m' = clash u' m' u m.
Proof.
  unfold clash, overlap. rewrite (orb_comm (excludes m m')), (orb_comm (u =? 0)), (Z.eqb_sym u' u). done.
Qed.

(** The kinds of the members tell the queues apart. *)
Lemma block_kind kd (n : Z) (l : list dnode) y : (∀ y, y ∈ l → ∃ j, y = Dn kd j ∧ 0 <= j < n) → dn_kind y ≠ kd → y ∉ l.
Proof. intros Hl Hy Hin. by destruct (Hl y Hin) as (j & -> & _). Qed.

Lemma take_opened Q s lu lf lr i l : dev_ok Q s lu lf lr → DEVQ i ∈ lu → Q !! OPENQ i = Some l → opened s i l.
Proof. intros Hd Hi HQl. destruct (dk_opened _ _ _ _ _ Hd i Hi) as (l' & HQ & Ho). rewrite HQl in HQ. by injection HQ as <-. Qed.

Lemma clashes_false u m s l j : existsb (clashes u m s) l = false → OPNQ j ∈ l →
  clash u m (oc_unitno (dv_opncb s j)) (oc_omode (dv_opncb s j)) = false.
Proof.
  intros Hc Hin. destruct (clash _ _ _ _) eqn:E; [|done].
  rewrite <- Hc. symmetry. apply existsb_exists. exists (OPNQ j). by rewrite <- list_elem_of_In.
Qed.

(** An opening that clashes with none is added. *)
Lemma opened_add s s' i l j : opened s i l → OPNQ j ∉ l → 0 <= j < MAX_OPNDEV →
  (∀ j', j' ≠ j → dv_opncb s' j' = dv_opncb s j') → oc_devcb (dv_opncb s' j) = i →
  existsb (clashes (oc_unitno (dv_opncb s' j)) (oc_omode (dv_opncb s' j)) s) l = false →
  opened s' i (l ++ [OPNQ j]).
Proof.
  intros [H1 H2 H3] Hj Hb E Ed Hc.
  assert (Hne : ∀ k, OPNQ k ∈ l → k ≠ j) by (intros k Hk ->; done).
  constructor.
  - intros y [Hy|Hy]%elem_of_app; [by apply H1|]. apply list_elem_of_singleton in Hy as ->. by exists j.
  - intros k [Hk|Hk]%elem_of_app; [rewrite E by (by apply Hne); by apply H2|]. by apply list_elem_of_singleton in Hk as [= ->].
  - intros k k' [Hk|Hk]%elem_of_app [Hk'|Hk']%elem_of_app Hkk.
    + rewrite !E by (by apply Hne). by apply H3.
    + apply list_elem_of_singleton in Hk' as [= ->]. rewrite clash_sym, (E k) by done. by apply (clashes_false _ _ _ l).
    + apply list_elem_of_singleton in Hk as [= ->]. rewrite (E k') by done. by apply (clashes_false _ _ _ l).
    + apply list_elem_of_singleton in Hk as [= ->]. by apply list_elem_of_singleton in Hk' as [= ->].
Qed.

Lemma newOpnCB_none Q s lu lr i unitno omode : dev_ok Q s lu [] lr → newOpnCB i unitno omode s = (None, s).
Proof. intros Hd. unfold newOpnCB. rewrite (QueRemoveNext_empty _ Q) by apply Hd. by destruct s. Qed.

(** The rings when the block [j], first of the free ones, is opened for the device [i]. *)
Definition take_rings (Q : gmap dnode (list dnode)) (i j : Z) (l lf lr : list dnode) : gmap dnode (list dnode) :=
  <[REQUESTQ j := []]> (<[RESOPENQ := lr ++ [RESQ j]]> (<[OPENQ i := l ++ [OPNQ j]]> (<[FreeOpnCB := lf]> Q))).

Lemma take_rings_ne Q i j l lf lr h :
  h ≠ REQUESTQ j → h ≠ RESOPENQ → h ≠ OPENQ i → h ≠ FreeOpnCB → take_rings Q i j l lf lr !! h = Q !! h.
Proof. intros ????. unfold take_rings. by rewrite !lookup_insert_ne by congruence. Qed.

Lemma take_rings_unplaced Q s lu lf lr i j l e : dev_ok Q s lu (OPNQ j :: lf) lr → DEVQ i ∈ lu → Q !! OPENQ i = Some l →
  dn_kind e ≠ KOpnQ → dn_kind e ≠ KOpenq → dn_kind e ≠ KFreeOpn → unplaced Q e →
  unplaced (<[OPENQ i := l ++ [OPNQ j]]> (<[FreeOpnCB := lf]> Q)) e.
Proof.
  intros Hd Hi HQl K1 K2 K3 He. pose proof (take_opened _ _ _ _ _ _ _ Hd Hi HQl) as Ho.
  apply unplaced_insert; [|by intros ->|].
  - apply unplaced_insert; [done|by intros ->|]. apply (block_kind KOpnQ MAX_OPNDEV); [|done].
    intros y Hy. destruct (dk_free_block _ _ _ _ _ Hd y ltac:(by right)) as (j' & ? & ? & _). by exists j'.
  - rewrite elem_of_app, list_elem_of_singleton. intros [Hin| ->]; [|done]. destruct (op_block _ _ _ Ho e Hin) as (? & -> & _). done.
Qed.

Lemma take_rings_request Q s lu lf lr i j l j' : dev_ok Q s lu (OPNQ j :: lf) lr → DEVQ i ∈ lu → Q !! OPENQ i = Some l →
  unplaced Q (REQUESTQ j') ∨ Q !! REQUESTQ j' = Some [] →
  let Q3 := <[RESOPENQ := lr ++ [RESQ j]]> (<[OPENQ i := l ++ [OPNQ j]]> (<[FreeOpnCB := lf]> Q)) in
  unplaced Q3 (REQUESTQ j') ∨ Q3 !! REQUESTQ j' = Some [].
Proof.
  intros Hd Hi HQl [Hu|HQ'] Q3; [left|right].
  - apply unplaced_insert; [by eapply take_rings_unplaced|done|]. rewrite elem_of_app, list_elem_of_singleton. intros [Hin|]; [|done].
    by destruct (dk_res_block _ _ _ _ _ Hd _ Hin).
  - unfold Q3. by rewrite !lookup_insert_ne by done.
Qed.

Lemma take_rings_qwf Q s lu lf lr i j l : dev_ok Q s lu (OPNQ j :: lf) lr → DEVQ i ∈ lu → Q !! OPENQ i = Some l →
  qwf (QueInit (REQUESTQ j) (QueInsert (RESQ j) RESOPENQ (QueInsert (OPNQ j) (OPENQ i) (QueRemove (OPNQ j) (dv_q s)))))
    (take_rings Q i j l lf lr) ∧ OPNQ j ∉ lf ∧ (∀ i' l', Q !! OPENQ i' = Some l' → OPNQ j ∉ l').
Proof.
  intros Hd Hi HQl. pose proof (dk_qwf _ _ _ _ _ Hd) as Hw. pose proof (dk_free _ _ _ _ _ Hd) as HQf.
  destruct (dk_free_block _ _ _ _ _ Hd (OPNQ j) ltac:(left)) as (? & [= <-] & Hj & Hur & Hreq).
  set (Q1 := <[FreeOpnCB := lf]> Q). assert (Hw1 : qwf (QueRemove (OPNQ j) (dv_q s)) Q1) by exact (qwf_remove _ _ _ [] _ _ Hw HQf).
  assert (Hu1 : unplaced Q1 (OPNQ j)) by exact (qwf_remove_unplaced _ _ _ [] _ _ Hw HQf).
  split; [|split; [by apply NoDup_cons, (qwf_NoDup _ _ _ _ Hw HQf)|]].
  - assert (HQ1l : Q1 !! OPENQ i = Some (l ++ [])) by (unfold Q1; rewrite lookup_insert_ne, app_nil_r by done; done).
    pose proof (qwf_insert _ _ _ _ _ _ Hw1 HQ1l Hu1) as Hw2. cbn [hd] in Hw2.
    assert (HQ2r : <[OPENQ i := l ++ [OPNQ j]]> Q1 !! RESOPENQ = Some (lr ++ [])).
    { unfold Q1. rewrite !lookup_insert_ne, app_nil_r by done. apply Hd. }
    pose proof (qwf_insert _ _ _ _ _ _ Hw2 HQ2r (take_rings_unplaced _ _ _ _ _ _ _ _ (RESQ j) Hd Hi HQl ltac:(done) ltac:(done) ltac:(done) Hur)) as Hw3.
    exact (qwf_reinit _ _ _ Hw3 (take_rings_request _ _ _ _ _ _ _ _ _ Hd Hi HQl Hreq)).
  - intros i' l' HQ' Hin. apply (Hu1 (OPENQ i')), (in_ring_elem _ _ l'); [|done]. unfold Q1. by rewrite lookup_insert_ne.
Qed.

Lemma newOpnCB_spec Q s lu lr i l unitno omode y lf :
  dev_ok Q s lu (y :: lf) lr → DEVQ i ∈ lu → Q !! OPENQ i = Some l → existsb (clashes unitno omode s) l = false →
  ∃ j s', let Q' := take_rings Q i j l lf lr in
    y = OPNQ j ∧ 0 <= j < MAX_OPNDEV ∧ newOpnCB i unitno omode s = (Some j, s') ∧
    dev_ok Q' s' lu lf (lr ++ [RESQ j]) ∧
    oc_devcb (dv_opncb s' j) = i ∧ oc_unitno (dv_opncb s' j) = unitno ∧ oc_omode (dv_opncb s' j) = omode ∧
    oc_nwaireq (dv_opncb s' j) = 0 ∧ oc_resid (dv_opncb s' j) = 0 ∧
    (∀ j', j' ≠ j → dv_opncb s' j' = dv_opncb s j') ∧ dv_devcb s' = dv_devcb s ∧ dv_lib s' = dv_lib s ∧ dv_k s' = dv_k s.
Proof.
  intros Hd Hi HQl Hc. pose proof (take_opened _ _ _ _ _ _ _ Hd Hi HQl) as Ho.
  destruct (dk_free_block _ _ _ _ _ Hd y ltac:(left)) as (j & -> & Hj & Hur & Hreq).
  destruct (take_rings_qwf _ _ _ _ _ _ _ _ Hd Hi HQl) as (Hw4 & Hnj & Hol). set (Q' := take_rings Q i j l lf lr) in *.
  eexists j, _. fold Q'. cbv zeta. split; [done|]. split; [done|]. split.
  { unfold newOpnCB. by rewrite (QueRemoveNext_cons _ _ _ _ _ (dk_qwf _ _ _ _ _ Hd) (dk_free _ _ _ _ _ Hd)). }
  split; [|simpl; upd_simpl; split_and!; try done; intros j' Hj'; by upd_simpl].
  constructor; simpl.
  - exact Hw4.
  - unfold Q'. rewrite take_rings_ne by done. apply Hd.
  - apply Hd.
  - unfold Q', take_rings. do 3 (rewrite lookup_insert_ne by done). by rewrite lookup_insert_eq.
  - intros y Hy. destruct (dk_free_block _ _ _ _ _ Hd y ltac:(by right)) as (j' & -> & Hj' & Hur' & Hreq').
    assert (j' ≠ j) by (intros ->; done). exists j'. split; [done|]. split; [done|]. split.
    + apply unplaced_insert; [|done|by apply not_elem_of_nil]. apply unplaced_insert; [by eapply take_rings_unplaced|done|].
      rewrite elem_of_app, list_elem_of_singleton. intros [Hin|[=]]; [|done]. by eapply (unplaced_not_in Q RESOPENQ lr); [|apply Hd|].
    + destruct (take_rings_request _ _ _ _ _ _ _ _ _ Hd Hi HQl Hreq') as [Hu|HQ'];
        [left; by apply unplaced_insert; [|congruence|apply not_elem_of_nil]|right].
      unfold Q', take_rings. by rewrite lookup_insert_ne by congruence.
  - unfold Q', take_rings. rewrite lookup_insert_ne by done. by rewrite lookup_insert_eq.
  - intros y. rewrite elem_of_app, list_elem_of_singleton. intros [Hin| ->]; [by apply (dk_res_block _ _ _ _ _ Hd)|by exists j].
  - intros i' Hi'. destruct (decide (i' = i)) as [->|Hne].
    + exists (l ++ [OPNQ j]). split; [unfold Q', take_rings; do 2 (rewrite lookup_insert_ne by done); by rewrite lookup_insert_eq|].
      apply (opened_add s); [done|by apply (Hol i)|done|intros j' Hj'; simpl; by upd_simpl|simpl; by upd_simpl|simpl; by upd_simpl].
    + destruct (dk_opened _ _ _ _ _ Hd i' Hi') as (l' & HQ' & Ho'). exists l'.
      split; [by unfold Q'; rewrite take_rings_ne by congruence|]. apply (opened_ext s); [|done]. intros j' Hj'.
      assert (j' ≠ j) by (intros ->; by apply (Hol i' l')). simpl; by upd_simpl.
Qed.

Lemma unplaced_remove (Q : gmap dnode (list dnode)) h l1 x l2 e :
  Q !! h = Some (l1 ++ x :: l2) → unplaced Q e → unplaced (<[h := l1 ++ l2]> Q) e.
Proof.
  intros HQ He. apply unplaced_insert; [done| |].
  - intros ->. apply (He h). eexists. split; [done|by left].
  - pose proof (unplaced_not_in _ _ _ _ He HQ) as Hn. set_solver.
Qed.

Lemma opened_remove s i l1 x l2 : opened s i (l1 ++ x :: l2) → opened s i (l1 ++ l2).
Proof.
  intros [H1 H2 H3]. assert (E : ∀ y, y ∈ l1 ++ l2 → y ∈ l1 ++ x :: l2) by set_solver.
  constructor; [intros y Hy; by apply H1, E|intros j Hj; by apply H2, E|intros j j' Hj Hj'; by apply H3; apply E].
Qed.

Definition drop_rings (Q : gmap dnode (list dnode)) (i : Z) (l lr : list dnode) : gmap dnode (list dnode) :=
  <[RESOPENQ := lr]> (<[OPENQ i := l]> Q).
Definition free_rings (Q : gmap dnode (list dnode)) (i j : Z) (l lf lr : list dnode) : gmap dnode (list dnode) :=
  <[FreeOpnCB := lf ++ [OPNQ j]]> (drop_rings Q i l lr).

Lemma drop_rings_ne Q i l lr h : h ≠ RESOPENQ → h ≠ OPENQ i → drop_rings Q i l lr !! h = Q !! h.
Proof. intros ??. unfold drop_rings. by rewrite !lookup_insert_ne by congruence. Qed.
Lemma free_rings_ne Q i j l lf lr h :
  h ≠ RESOPENQ → h ≠ OPENQ i → h ≠ FreeOpnCB → free_rings Q i j l lf lr !! h = Q !! h.
Proof. intros ???. unfold free_rings. by rewrite lookup_insert_ne, drop_rings_ne by congruence. Qed.

Lemma delOpnCB_opened i l j free s : opened s i l → opened (knl_delOpnCB j free s) i l.
Proof.
  apply opened_ext. intros k _. unfold knl_delOpnCB. destruct free; simpl; destruct (decide (k = j)) as [->|]; by upd_simpl.
Qed.

(** An open block leaves the queues. *)
Lemma delOpnCB_drop Q s lu lf r1 r2 i j l1 l2 :
  dev_ok Q s lu lf (r1 ++ RESQ j :: r2) → DEVQ i ∈ lu → Q !! OPENQ i = Some (l1 ++ OPNQ j :: l2) →
  let Q' := drop_rings Q i (l1 ++ l2) (r1 ++ r2) in
  dev_ok Q' (knl_delOpnCB j false s) lu lf (r1 ++ r2) ∧ unplaced Q' (OPNQ j) ∧ unplaced Q' (RESQ j).
Proof.
  intros Hd Hi HQl. pose proof (dk_qwf _ _ _ _ _ Hd) as Hw. pose proof (take_opened _ _ _ _ _ _ _ Hd Hi HQl) as Ho.
  pose proof (qwf_remove _ _ _ _ _ _ Hw HQl) as Hw1. pose proof (qwf_remove_unplaced _ _ _ _ _ _ Hw HQl) as Hu1.
  assert (HQ1 : <[OPENQ i := l1 ++ l2]> Q !! RESOPENQ = Some (r1 ++ RESQ j :: r2)) by (rewrite lookup_insert_ne by done; apply Hd).
  pose proof (qwf_remove _ _ _ _ _ _ Hw1 HQ1) as Hw2. pose proof (qwf_remove_unplaced _ _ _ _ _ _ Hw1 HQ1) as Hu2.
  assert (Hun : ∀ e, unplaced Q e → unplaced (drop_rings Q i (l1 ++ l2) (r1 ++ r2)) e).
  { intros e He. by apply (unplaced_remove _ _ _ _ _ _ HQ1), (unplaced_remove _ _ _ _ _ _ HQl). }
  intros Q'. split; [|split; [by apply (unplaced_remove _ _ _ _ _ _ HQ1)|done]]. constructor.
  - exact Hw2.
  - unfold Q'. rewrite drop_rings_ne by done. apply Hd.
  - apply Hd.
  - unfold Q'. rewrite drop_rings_ne by done. apply Hd.
  - intros y Hin. destruct (dk_free_block _ _ _ _ _ Hd y Hin) as (k & -> & Hk & Hur & Hreq). exists k. split; [done|]. split; [done|].
    split; [by apply Hun|]. destruct Hreq as [Hu|HQk]; [left; by apply Hun|right; unfold Q'; by rewrite drop_rings_ne].
  - unfold Q', drop_rings. by rewrite lookup_insert_eq.
  - intros y Hy. apply (dk_res_block _ _ _ _ _ Hd). set_solver.
  - intros i' Hi'. destruct (decide (i' = i)) as [->|Hne].
    + exists (l1 ++ l2). split; [unfold Q', drop_rings; rewrite lookup_insert_ne by done; by rewrite lookup_insert_eq|].
      by apply delOpnCB_opened, (opened_remove _ _ _ (OPNQ j)).
    + destruct (dk_opened _ _ _ _ _ Hd i' Hi') as (l' & HQ' & Ho'). exists l'.
      split; [by unfold Q'; rewrite drop_rings_ne by congruence|by apply delOpnCB_opened].
Qed.

(** A block in no queue becomes free. *)
Lemma free_OpnCB Q s lu lf lr j :
  dev_ok Q s lu lf lr → unplaced Q (OPNQ j) → unplaced Q (RESQ j) → Q !! REQUESTQ j = Some [] → 0 <= j < MAX_OPNDEV →
  dev_ok (<[FreeOpnCB := lf ++ [OPNQ j]]> Q) (upd_dq (QueInsert (OPNQ j) FreeOpnCB) s) lu (lf ++ [OPNQ j]) lr.
Proof.
  intros Hd Hu Hur Hrq Hb.
  assert (HQ : Q !! FreeOpnCB = Some (lf ++ [])) by (rewrite app_nil_r; apply Hd).
  pose proof (qwf_insert _ _ _ _ _ _ (dk_qwf _ _ _ _ _ Hd) HQ Hu) as Hw. set (Q' := <[FreeOpnCB := lf ++ [OPNQ j]]> Q) in *.
  assert (Hun : ∀ e, unplaced Q e → dn_kind e ≠ KOpnQ → unplaced Q' e).
  { intros e He Hk. apply unplaced_insert; [done| |].
    - intros ->. apply (He FreeOpnCB). eexists. split; [exact HQ|by left].
    - rewrite elem_of_app, list_elem_of_singleton. intros [Hin| ->]; [|done].
      by destruct (dk_free_block _ _ _ _ _ Hd _ Hin) as (? & -> & _). }
  constructor; [exact Hw|..].
  - unfold Q'. rewrite lookup_insert_ne by done. apply Hd.
  - apply Hd.
  - unfold Q'. by rewrite lookup_insert_eq.
  - intros y. rewrite elem_of_app, list_elem_of_singleton. intros [Hin| ->].
    + destruct (dk_free_block _ _ _ _ _ Hd y Hin) as (k & -> & Hk & Hur' & Hreq). exists k. split; [done|]. split; [done|].
      split; [by apply Hun|]. destruct Hreq as [?|?]; [left; by apply Hun|right; unfold Q'; by rewrite lookup_insert_ne].
    + exists j. split; [done|]. split; [done|]. split; [by apply Hun|right]. unfold Q'. by rewrite lookup_insert_ne.
  - unfold Q'. rewrite lookup_insert_ne by done. apply Hd.
  - apply Hd.
  - intros i' Hi'. destruct (dk_opened _ _ _ _ _ Hd i' Hi') as (l' & HQ' & Ho'). exists l'.
    split; [by unfold Q'; rewrite lookup_insert_ne|by apply (opened_ext s)].
Qed.

(** An open block without requests is given back. *)
Lemma knl_delOpnCB_spec Q s lu lf r1 r2 i j l1 l2 :
  dev_ok Q s lu lf (r1 ++ RESQ j :: r2) → DEVQ i ∈ lu → Q !! OPENQ i = Some (l1 ++ OPNQ j :: l2) →
  Q !! REQUESTQ j = Some [] →
  dev_ok (free_rings Q i j (l1 ++ l2) lf (r1 ++ r2)) (knl_delOpnCB j true s) lu (lf ++ [OPNQ j]) (r1 ++ r2).
Proof.
  intros Hd Hi HQl Hrq. destruct (delOpnCB_drop _ _ _ _ _ _ _ _ _ _ Hd Hi HQl) as (Hd' & Hu & Hur).
  destruct (op_block _ _ _ (take_opened _ _ _ _ _ _ _ Hd Hi HQl) (OPNQ j) ltac:(set_solver)) as (? & [= <-] & Hb).
  apply (free_OpnCB _ (knl_delOpnCB j false s)); [done..| |done]. by rewrite drop_rings_ne.
Qed.

(** ** Opening a device *)

(** The device manager and the kernel below it. *)
Record dm_inv (lock : Z) (Qk : gmap node (list node)) (ls : list node) (Q : gmap dnode (list dnode)) (s : DEV)
    (lu lf lr : list dnode) : Prop := {
  di_k : kinv (k_s (dv_k s)) Qk;
  di_sem : Qk !! FREE_SEM = Some ls;
  di_dev : dev_ok Q s lu lf lr;
  di_lock : dm_free lock s
}.

Lemma dm_inv_multi lock Qk ls Q s lu lf lr M :
  dm_inv lock Qk ls Q s lu lf lr → dm_free lock (dev_multi M s) → dm_inv lock Qk ls Q (dev_multi M s) lu lf lr.
Proof. intros [] Hl. constructor; try done. by apply dev_ok_multi. Qed.

(** The parts of the state the invariant of the device manager reads. *)
Lemma dev_ok_ext Q s s' lu lf lr :
  dv_q s' = dv_q s → (∀ j, oc_devcb (dv_opncb s' j) = oc_devcb (dv_opncb s j) ∧
    oc_unitno (dv_opncb s' j) = oc_unitno (dv_opncb s j) ∧ oc_omode (dv_opncb s' j) = oc_omode (dv_opncb s j)) →
  dev_ok Q s lu lf lr → dev_ok Q s' lu lf lr.
Proof.
  intros E Eo []. constructor; try done; [by rewrite E|]. intros i Hi. destruct (dk_opened0 i Hi) as (l & HQ & Ho).
  exists l. split; [done|]. by apply (opened_ext s).
Qed.

(** Nothing is open that was not, and nothing is closed: the same open blocks and the same
    semaphores are free, and the others have not changed. *)
Definition not_opened (lock : Z) (ls : list node) (Q : gmap dnode (list dnode)) (s : DEV) (lu lf lr : list dnode) (s' : DEV) : Prop :=
  ∃ Qk ls' Q' lf', dm_inv lock Qk ls' Q' s' lu lf' lr ∧ lf' ≡ₚ lf ∧ (∀ i, DEVQ i ∈ lu → Q' !! OPENQ i = Q !! OPENQ i) ∧
    (∀ j, OPNQ j ∉ lf → dv_opncb s' j = dv_opncb s j) ∧ dv_devcb s' = dv_devcb s ∧
    ls' ≡ₚ ls ∧ (∀ m, SEMQ m ∉ ls → k_sem (dv_k s') m = k_sem (dv_k s) m).

Lemma not_opened_refl lock Qk ls Q s lu lf lr : dm_inv lock Qk ls Q s lu lf lr → not_opened lock ls Q s lu lf lr s.
Proof. intros Hi. by exists Qk, ls, Q, lf. Qed.

Lemma not_opened_multi lock ls Q s lu lf lr s' M :
  not_opened lock ls Q s lu lf lr s' → dm_free lock (dev_multi M s') → not_opened lock ls Q s lu lf lr (dev_multi M s').
Proof. intros (Qk & ls' & Q' & lf' & Hi & H) Hl. exists Qk, ls', Q', lf'. split; [by apply dm_inv_multi|done]. Qed.

(** Whether some opening in the queue is for the unit. *)
Lemma knl_chkopen_ok s Q i unitno l :
  qwf (dv_q s) Q → Q !! OPENQ i = Some l → Z.of_nat (length l) <= MAX_OPNDEV →
  knl_chkopen i unitno s = existsb (λ y, oc_unitno (dv_opncb s (dn_idx y)) =? unitno) l.
Proof.
  intros Hw HQ Hlen. unfold knl_chkopen. rewrite (que_find_first _ _ _ Q (OPENQ i) l Hw HQ) by (unfold OFUEL, MAX_OPNDEV in *; lia).
  set (stop := λ q, _). change (existsb _ l) with (existsb stop l).
  assert (Hh : OPENQ i ∉ l) by (destruct (qwf_ring _ _ _ _ Hw HQ) as [Hnd _]; by apply NoDup_cons in Hnd as []).
  clear HQ Hlen. induction l as [|y l IH]; cbn; [by rewrite bool_decide_eq_false_2 by auto|].
  destruct (stop y) eqn:E; simpl.
  - rewrite bool_decide_eq_true_2; [done|]. intros ->. apply Hh. left.
  - apply IH. intros Hin. apply Hh. by right.
Qed.

Lemma opened_length Q s lu lf lr i l : dev_ok Q s lu lf lr → DEVQ i ∈ lu → Q !! OPENQ i = Some l → Z.of_nat (length l) <= MAX_OPNDEV.
Proof.
  intros Hd Hi HQ. pose proof (take_opened _ _ _ _ _ _ _ Hd Hi HQ) as Ho.
  pose proof (length_blocks KOpnQ MAX_OPNDEV l (qwf_NoDup _ _ _ _ (dk_qwf _ _ _ _ _ Hd) HQ) (op_block _ _ _ Ho)). unfold MAX_OPNDEV in *. lia.
Qed.

Lemma take_opncb_multi name unitno omode M s :
  take_opncb name unitno omode (dev_multi M s) =
    ((take_opncb name unitno omode s).1, dev_multi M (take_opncb name unitno omode s).2).
Proof.
  unfold take_opncb. change (knl_searchDevCB name (dev_multi M s)) with (knl_searchDevCB name s).
  destruct (knl_searchDevCB name s) as [i|]; [|done]. change (dv_devcb (dev_multi M s)) with (dv_devcb s). cbv zeta.
  destruct (_ <? unitno); [done|]. change (chkopenmode i unitno omode (dev_multi M s)) with (chkopenmode i unitno omode s).
  destruct (chkopenmode i unitno omode s <? E_OK); [done|].
  change (knl_chkopen i unitno (dev_multi M s)) with (knl_chkopen i unitno s).
  unfold newOpnCB. change (dv_q (dev_multi M s)) with (dv_q s). destruct (QueRemoveNext FreeOpnCB (dv_q s)) as [[y|] q]; [|done].
  repeat match goal with |- context [tk_cre_sem knl_pk_csem_DM (dv_k ?s0)] => progress change (dv_k s0) with (dv_k s) end.
  destruct (tk_cre_sem knl_pk_csem_DM (dv_k s)) as [semid k]. by destruct (semid <? E_OK).
Qed.

(** The block [j], first of the free ones, has been opened for the unit of the device [i], with
    the first of the free semaphores [ls0]. *)
Record is_open (lock : Z) (ls0 : list node) (Q : gmap dnode (list dnode)) (s : DEV) (lu lf lr : list dnode) (i j : Z) (l : list dnode)
    (unitno omode : Z) (Qk : gmap node (list node)) (ls : list node) (s' : DEV) : Prop := {
  io_inv : dm_inv lock Qk ls (take_rings Q i j l lf lr) s' lu lf (lr ++ [RESQ j]);
  io_dev : oc_devcb (dv_opncb s' j) = i;
  io_unitno : oc_unitno (dv_opncb s' j) = unitno;
  io_omode : oc_omode (dv_opncb s' j) = omode;
  io_semid : CHK_SEMID (oc_abort_semid (dv_opncb s' j)) = true;
  io_sem : sem_used (dv_k s') Qk (get_semcb (oc_abort_semid (dv_opncb s' j))) [];
  io_taken : ls0 = SEMQ (get_semcb (oc_abort_semid (dv_opncb s' j))) :: ls;
  io_sems : ∀ m, SEMQ m ∉ ls0 → k_sem (dv_k s') m = k_sem (dv_k s) m;
  io_other : ∀ j', j' ≠ j → dv_opncb s' j' = dv_opncb s j';
  io_devcb : dv_devcb s' = dv_devcb s
}.

Lemma is_open_frame lock ls0 Q s lu lf lr i j l unitno omode Qk ls s1 s2 :
  dv_q s2 = dv_q s1 → kinv (k_s (dv_k s2)) Qk → (∀ m, k_sem (dv_k s2) m = k_sem (dv_k s1) m) →
  dm_free lock s2 → dv_devcb s2 = dv_devcb s1 → (∀ j', j' ≠ j → dv_opncb s2 j' = dv_opncb s1 j') →
  (∃ r, dv_opncb s2 j = set_oc_resid r (dv_opncb s1 j)) →
  is_open lock ls0 Q s lu lf lr i j l unitno omode Qk ls s1 → is_open lock ls0 Q s lu lf lr i j l unitno omode Qk ls s2.
Proof.
  intros Eq Hk Es Hl Ed Eo (r & Er) [[] ? ? ? ? ? ? ? ? ?]. constructor; rewrite ?Er, ?Ed; try done.
  - constructor; try done. apply (dev_ok_ext _ s1); [done| |done].
    intros j'. destruct (decide (j' = j)) as [->|]; [by rewrite Er|by rewrite Eo].
  - apply (sem_used_frame (dv_k s1) _ Qk); [apply Es|by eapply su_que|by intros y Hy%elem_of_nil|done].
  - intros m Hm. by rewrite Es, io_sems0.
  - intros j' Hj'. by rewrite Eo, io_other0.
Qed.

(** The rings when an opened block is given back. *)
Lemma give_back Q s s' lu lf lr i j l :
  dev_ok Q s lu (OPNQ j :: lf) lr → DEVQ i ∈ lu → Q !! OPENQ i = Some l →
  dev_ok (take_rings Q i j l lf lr) s' lu lf (lr ++ [RESQ j]) →
  ∃ Q', dev_ok Q' (knl_delOpnCB j true s') lu (lf ++ [OPNQ j]) lr ∧ ∀ i', Q' !! OPENQ i' = Q !! OPENQ i'.
Proof.
  intros Hd Hi HQ Hd'. set (Qt := take_rings Q i j l lf lr) in *.
  assert (Hl : Qt !! OPENQ i = Some (l ++ OPNQ j :: [])).
  { unfold Qt, take_rings. do 2 (rewrite lookup_insert_ne by done). by rewrite lookup_insert_eq. }
  assert (Hr : Qt !! REQUESTQ j = Some []) by (unfold Qt, take_rings; by rewrite lookup_insert_eq).
  pose proof (knl_delOpnCB_spec Qt s' lu lf lr [] i j l [] Hd' Hi Hl Hr) as H. rewrite !app_nil_r in H.
  eexists. split; [exact H|]. intros i'. destruct (decide (i' = i)) as [->|].
  - unfold free_rings, drop_rings. do 2 (rewrite lookup_insert_ne by done). by rewrite lookup_insert_eq.
  - rewrite free_rings_ne by congruence. unfold Qt. by rewrite take_rings_ne by congruence.
Qed.

Lemma delOpnCB_other j s j' : j' ≠ j → dv_opncb (knl_delOpnCB j true s) j' = dv_opncb s j'.
Proof. intros. unfold knl_delOpnCB. simpl. by upd_simpl. Qed.

(** What [tk_opn_dev] does when the driver refuses. *)
Lemma open_undone lock ls0 Q s lu lf lr i j l unitno omode Qk ls s' :
  dev_ok Q s lu (OPNQ j :: lf) lr → DEVQ i ∈ lu → Q !! OPENQ i = Some l →
  is_open lock ls0 Q s lu lf lr i j l unitno omode Qk ls s' →
  not_opened lock ls0 Q s lu (OPNQ j :: lf) lr
    (knl_delOpnCB j true (upd_dk (λ k, (tk_del_sem (oc_abort_semid (dv_opncb s' j)) k).2) s')).
Proof.
  intros Hd Hi HQ [[Hk Hs Hd' Hl] ? ? ? Hid Hu Ht Hse Ho Hc].
  destruct (del_sem_mem (oc_abort_semid (dv_opncb s' j)) (dv_k s')) as [_ Hoth].
  destruct (tk_del_sem_spec _ _ _ _ _ Hk Hid Hu Hs) as (k' & Qk' & E & Hk' & _ & Hs' & _).
  set (s1 := upd_dk _ s'). assert (Ek : dv_k s1 = k').
  { change (dv_k s1) with (tk_del_sem (oc_abort_semid (dv_opncb s' j)) (dv_k s')).2. by rewrite E. }
  destruct (give_back Q s s1 lu lf lr i j l Hd Hi HQ) as (Q' & Hq & HQ'); [by apply (dev_ok_ext _ s')|].
  eexists Qk', _, Q', (lf ++ [OPNQ j]). split; [constructor; [by rewrite <- Ek in Hk'|exact Hs'|exact Hq|exact Hl]|].
  split; [by rewrite Permutation_app_comm|]. split; [done|]. split; [|split; [done|split]].
  - intros j' Hj'. rewrite delOpnCB_other by (intros ->; apply Hj'; left). apply Ho. intros ->. apply Hj'. left.
  - rewrite Ht. by rewrite Permutation_app_comm.
  - intros m Hm. rewrite <- (Hse m Hm). apply Hoth. intros ->. apply Hm. rewrite Ht. left.
Qed.

(** The error an opening of the unit of the device [i] ends with before its driver is asked. *)
Definition open_check (i unitno omode : Z) (l lf : list dnode) (ls : list node) (s : DEV) : Z :=
  if dd_nsub (dc_ddev (dv_devcb s i)) <? unitno then E_NOEXS
  else if negb (has omode TD_UPDATE) then E_PAR
  else if existsb (clashes unitno omode s) l then E_BUSY
  else if bool_decide (lf = []) then E_LIMIT
  else if bool_decide (ls = []) then E_SYS
  else E_OK.

(** The function of the driver to ask, NULL for none. *)
Definition open_asks (i unitno : Z) (l : list dnode) (s : DEV) : Z :=
  let d := dc_ddev (dv_devcb s i) in
  if existsb (λ y, oc_unitno (dv_opncb s (dn_idx y)) =? unitno) l && negb (has (dd_drvatr d) TDA_OPENREQ) then NULL
  else dd_openfn d.

Lemma take_opncb_spec lock Qk ls Q s lu lf lr name unitno omode i l :
  dm_inv lock Qk ls Q s lu lf lr → knl_searchDevCB name s = Some i → Q !! OPENQ i = Some l →
  let e := open_check i unitno omode l lf ls s in
  let '(r, s') := take_opncb name unitno omode s in
  same_mem s s' ∧
  if e <? E_OK then r = inl e ∧ not_opened lock ls Q s lu lf lr s'
  else ∃ j lf', lf = OPNQ j :: lf' ∧ 0 <= j < MAX_OPNDEV ∧
    r = inr (j, open_asks i unitno l s, DEVID i unitno, dd_exinf (dc_ddev (dv_devcb s i))) ∧
    ∃ Qk' ls', is_open lock ls Q s lu lf' lr i j l unitno omode Qk' ls' s'.
Proof.
  intros Hinv Es HQ e. pose proof (not_opened_refl _ _ _ _ _ _ _ _ Hinv) as Hno. destruct Hinv as [Hk Hs Hd Hl].
  pose proof (searchDevCB_spec _ _ _ _ _ name Hd) as Hse. rewrite Es in Hse. destruct Hse as [Hi _].
  pose proof (opened_length _ _ _ _ _ _ _ Hd Hi HQ) as Hlen.
  unfold e, open_check, take_opncb. rewrite Es. cbv zeta. assert (Hmm : same_mem s s) by done. destruct (_ <? unitno); [done|].
  rewrite (chkopenmode_ok s Q i unitno omode l (dk_qwf _ _ _ _ _ Hd) HQ Hlen). destruct (negb (has omode TD_UPDATE)); [done|].
  destruct (existsb (clashes unitno omode s) l) eqn:Ec; [done|]. change (E_OK <? E_OK) with false. cbv iota.
  destruct lf as [|y lf]; [by rewrite (newOpnCB_none Q s lu lr)|].
  destruct (newOpnCB_spec Q s lu lr i l unitno omode y lf Hd Hi HQ Ec) as
    (j & s1 & -> & Hj & E1 & Hd1 & F1 & F2 & F3 & F4 & F5 & Fo & Fd & Fl & Fk).
  rewrite E1, (knl_chkopen_ok s Q i unitno l (dk_qwf _ _ _ _ _ Hd) HQ Hlen), Fk.
  pose proof (tk_cre_sem_spec (dv_k s) Qk knl_pk_csem_DM ls Hk Hs ltac:(by vm_compute)) as Hc.
  change (csem_ok knl_pk_csem_DM) with true in Hc. cbv iota in Hc. destruct ls as [|z ls].
  - rewrite Hc. change (E_LIMIT <? E_OK) with true. cbn [bool_decide decide_rel].
    split; [split; [simpl; by rewrite Fl|done]|]. split; [done|].
    set (s2 := upd_dk _ s1). destruct (give_back Q s s2 lu lf lr i j l Hd Hi HQ) as (Q' & Hq & HQ'); [by apply (dev_ok_ext _ s1)|].
    exists Qk, [], Q', (lf ++ [OPNQ j]). split; [constructor; [exact Hk|done|exact Hq|]|].
    + unfold dm_free, mlock_is in *. change (dv_lib (knl_delOpnCB j true s2)) with (set_lb_k (dv_k s) (dv_lib s1)). by rewrite Fl.
    + split; [by rewrite Permutation_app_comm|]. split; [done|]. split; [|split; [exact Fd|done]].
      intros j' Hj'. rewrite delOpnCB_other by (intros ->; apply Hj'; left). apply Fo. intros ->. apply Hj'. left.
  - assert (Ez : z = SEMQ (nd_idx z)).
    { pose proof (ki_typed _ _ _ _ Hk _ _ z Hs ltac:(left)) as He. unfold elem_ok, kind_ok in He. simpl in He. by destruct z as [[] ?]. }
    pose proof (cre_sem_mem knl_pk_csem_DM (dv_k s)) as Hm.
    cbv zeta in Hc. destruct Hc as (k' & E2 & Hid & Hk' & Hu & _ & Hsem). rewrite E2 in Hm |- *. simpl in Hm.
    assert (Hz : 0 < ID_SEM (nd_idx z)).
    { revert Hid. unfold CHK_SEMID, MIN_SEMID. rewrite andb_true_iff, !Z.leb_le. lia. }
    change (ID_SEM (nd_idx z) <? E_OK) with (ID_SEM (nd_idx z) <? 0).
    destruct (Z.ltb_spec (ID_SEM (nd_idx z)) 0); [lia|]. change (E_OK <? E_OK) with false. cbv iota.
    split; [split; [simpl; by rewrite Fl|exact Hm]|].
    assert (Eg : get_semcb (ID_SEM (nd_idx z)) = nd_idx z) by (unfold get_semcb, ID_SEM, INDEX_SEM; lia).
    exists j, lf. split; [done|]. split; [done|]. split; [done|]. eexists _, ls. constructor; simpl; upd_simpl; simpl; rewrite ?Eg; try done.
    + constructor; [exact Hk'|by rewrite lookup_insert_ne, lookup_insert_eq| |by unfold dm_free, mlock_is in *; simpl; rewrite Fl].
      apply (dev_ok_ext _ s1); [done| |done]. intros j'. simpl. destruct (decide (j' = j)) as [->|]; by upd_simpl.
    + by rewrite <- Ez.
    + intros m Hm'. apply Hsem. intros ->. apply Hm'. rewrite <- Ez. left.
    + intros j' Hj'. upd_simpl. by apply Fo.
Qed.

(** The queue of the open blocks is there since the start. *)
Lemma knl_GetResCB_ok lock flg Qk ls Q s lu lf lr :
  dm_inv lock Qk ls Q s lu lf lr →
  ∃ M, yields (knl_GetResCB lock flg) s tt (dev_multi M s) ∧ dm_free lock (dev_multi M s).
Proof.
  intros [_ _ Hd Hl]. apply yields_under_DM; [done|]. intros M. rewrite decide_False; [done|].
  change (dv_q (dev_multi M s)) with (dv_q s). rewrite (qwf_head _ _ _ _ (dk_qwf _ _ _ _ _ Hd) (dk_res _ _ _ _ _ Hd)).
  destruct lr as [|y lr]; [done|]. cbn [hd]. intros ->. by destruct (dk_res_block _ _ _ _ _ Hd DNULL ltac:(left)) as (? & ?).
Qed.

Section opening.
Context `{Drivers} (lock flg : Z).

Context (R : DEV → Prop).
Hypothesis HR : driver_state R.
Hypothesis Hopen : drivers_return lock R openfn.

Lemma kinv_add_sysmode n s Qk : kinv (k_s (dv_k s)) Qk → kinv (k_s (dv_k (add_sysmode n s))) Qk.
Proof. intros Hk. unfold add_sysmode. simpl. apply kinv_upd_tcb; [done|done|done|]. by intros []. Qed.

(** The call of a function of a driver, NULL for none. *)
Lemma call_returns p fn a b c s :
  drivers_return lock R p → R s → ∃ r s' s1, yields (if fn =? NULL then Ret E_OK else call_driver (p fn a b c)) s r s' ∧
    R s' ∧ driver_frame lock s s' ∧
    if fn =? NULL then r = E_OK else yields (p fn a b c) (add_sysmode 1 s) r s1.
Proof.
  intros Hp Hr. destruct (fn =? NULL).
  { exists E_OK, s, s. split; [apply yields_ret|]. by do 2 (split; [done|]). }
  destruct (Hp fn a b c (add_sysmode 1 s)) as (r & s1 & Hy & [E1 E2 E3 E4 E5 E6] & Hr1); [by apply (HR s)|].
  exists r, (add_sysmode (-1) s1), s1. split; [|split; [by apply (HR s1)|split; [|done]]].
  - unfold call_driver. eapply yields_step; [reflexivity|]. eapply yields_bind; [exact Hy|].
    eapply yields_step; [reflexivity|]. apply yields_ret.
  - constructor; [exact E1|exact E2|exact E3| |exact E5|exact E6].
    intros Qk Hk. by apply kinv_add_sysmode, E4, kinv_add_sysmode.
Qed.

Lemma is_open_driver ls0 Q s lu lf lr i j l unitno m Qk ls s1 s2 :
  driver_frame lock s1 s2 → is_open lock ls0 Q s lu lf lr i j l unitno m Qk ls s1 →
  is_open lock ls0 Q s lu lf lr i j l unitno m Qk ls s2.
Proof.
  intros [E1 E2 E3 E4 E5 E6] Ho. destruct (io_inv _ _ _ _ _ _ _ _ _ _ _ _ _ _ _ Ho) as [Hk _ _ Hl].
  apply (is_open_frame _ _ _ s _ _ _ i j l unitno m Qk ls s1); try done.
  - by apply E4.
  - intros n. by rewrite E5.
  - by apply E6.
  - intros j' _. by rewrite E3.
  - exists (oc_resid (dv_opncb s1 j)). rewrite E3. by destruct (dv_opncb s1 j).
Qed.

(** The steps of [tk_opn_dev]. *)
Lemma open_steps devnm omode s s1 x s2 r s' :
  yields (knl_GetResCB lock flg) s tt s1 →
  yields (under_DM lock flg (take_opncb (knl_phydevnm devnm).1 (knl_phydevnm devnm).2 omode)) s1 x s2 →
  yields (match x with
    | inl ercd => Ret ercd
    | inr (opncb, fn, devid, exinf) =>
        ercd <-- (if fn =? NULL then Ret E_OK else call_driver (openfn fn devid omode exinf)) ;;
        if ercd <? E_OK then
          under_DM lock flg (λ s,
            let s := upd_dk (λ k, (tk_del_sem (oc_abort_semid (dv_opncb s opncb)) k).2) s in
            (ercd, knl_delOpnCB opncb true s))
        else under_DM lock flg (λ s, (DD opncb, upd_opncb opncb (set_oc_resid 1) s))
    end) s2 r s' →
  yields (tk_opn_dev lock flg devnm omode) s r s'.
Proof.
  intros H1 H2 H3. unfold tk_opn_dev. rewrite (surjective_pairing (knl_phydevnm devnm)).
  eapply yields_bind; [exact H1|]. eapply yields_bind; [exact H2|exact H3].
Qed.

Lemma desc_valid j s : 0 <= j < MAX_OPNDEV → knl_check_devdesc (DD j) 0 (upd_opncb j (set_oc_resid 1) s) = inr j.
Proof.
  intros Hj. unfold knl_check_devdesc, DD, OPNCB. replace (j + 1 - 1) with j by lia.
  destruct (Z.ltb_spec (j + 1) 1); [lia|]. destruct (Z.ltb_spec MAX_OPNDEV (j + 1)); [lia|]. simpl. by upd_simpl.
Qed.

(** What follows when the block is taken: the driver is asked, and the opening is undone or valid. *)
Lemma open_finish fn devid omode exinf ls0 Q s lu lf lr i j l unitno Qk ls s1 :
  dev_ok Q s lu (OPNQ j :: lf) lr → DEVQ i ∈ lu → Q !! OPENQ i = Some l → 0 <= j < MAX_OPNDEV →
  is_open lock ls0 Q s lu lf lr i j l unitno omode Qk ls s1 → R s1 →
  ∃ a s2 r s', (if fn =? NULL then a = E_OK else yields (openfn fn devid omode exinf) (add_sysmode 1 s1) a s2) ∧
    yields (ercd <-- (if fn =? NULL then Ret E_OK else call_driver (openfn fn devid omode exinf)) ;;
        if ercd <? E_OK then
          under_DM lock flg (λ s,
            let s := upd_dk (λ k, (tk_del_sem (oc_abort_semid (dv_opncb s j)) k).2) s in
            (ercd, knl_delOpnCB j true s))
        else under_DM lock flg (λ s, (DD j, upd_opncb j (set_oc_resid 1) s))) s1 r s' ∧ R s' ∧
    if a <? E_OK then r = a ∧ not_opened lock ls0 Q s lu (OPNQ j :: lf) lr s'
    else r = DD j ∧ knl_check_devdesc r 0 s' = inr j ∧ ∃ Qk' ls', is_open lock ls0 Q s lu lf lr i j l unitno omode Qk' ls' s'.
Proof.
  intros Hd Hi HQ Hj Ho Hr1.
  destruct (call_returns openfn fn devid omode exinf s1 Hopen Hr1) as (a & s2 & s3 & Hy3 & Hr2 & Hf & Ha).
  pose proof (is_open_driver _ _ _ _ _ _ _ _ _ _ _ _ _ _ _ Hf Ho) as Ho2.
  pose proof (di_lock _ _ _ _ _ _ _ _ (io_inv _ _ _ _ _ _ _ _ _ _ _ _ _ _ _ Ho2)) as Hl2.
  exists a, s3. destruct (a <? E_OK) eqn:Ea.
  - set (sd := knl_delOpnCB j true (upd_dk (λ k, (tk_del_sem (oc_abort_semid (dv_opncb s2 j)) k).2) s2)).
    destruct (yields_under_DM lock flg (λ s0,
        let s1 := upd_dk (λ k, (tk_del_sem (oc_abort_semid (dv_opncb s0 j)) k).2) s0 in (a, knl_delOpnCB j true s1)) s2 a
        sd Hl2 ltac:(reflexivity)) as (M3 & Hy4 & Hl4).
    exists a. eexists. split; [exact Ha|]. split; [eapply yields_bind; [exact Hy3|]; rewrite Ea; exact Hy4|].
    split; [apply (HR s2); [|done]; split; [done|apply (del_sem_mem (oc_abort_semid (dv_opncb s2 j)))]|].
    split; [done|]. apply not_opened_multi; [|done]. by apply (open_undone _ _ _ _ _ _ _ i j l unitno omode Qk ls).
  - destruct (yields_under_DM lock flg (λ s0, (DD j, upd_opncb j (set_oc_resid 1) s0)) s2 (DD j)
        (upd_opncb j (set_oc_resid 1) s2) Hl2 ltac:(reflexivity)) as (M3 & Hy4 & Hl4).
    exists (DD j). eexists. split; [exact Ha|]. split; [eapply yields_bind; [exact Hy3|]; rewrite Ea; exact Hy4|].
    split; [by apply (HR s2)|]. split; [done|]. split; [exact (desc_valid j s2 Hj)|].
    exists Qk, ls. apply (is_open_frame _ _ _ _ _ _ _ _ _ _ _ _ _ _ s2); try done; [apply Ho2|intros j' Hj'|exists 1]; simpl; by upd_simpl.
Qed.

(** C18: Opening a device, when no other task comes in between.  [tk_opn_dev] takes the name apart, and
    returns.  It refuses a device
    that is not registered or lacks the unit (E_NOEXS), a mode that neither reads nor
    writes (E_PAR), a mode that clashes with an opening there is of a common unit (E_BUSY:
    one of the two excludes what the other does), and an opening for which there is no
    block or semaphore left (E_LIMIT, E_SYS); else it asks the driver when the unit is not
    open yet or the driver wants every opening, and refuses with its answer [a] when that is an error.
    Whenever it refuses, nothing is opened, nothing is closed, the free open blocks and the free semaphores
    are the same as before, and the others have not changed.  Otherwise the descriptor is valid, the opening is the last of the queue of the
    device with its unit, its mode and the first of the free semaphores, and no other opening changes.  The openings
    of every device stay free of clashes, and the queues well formed.

    The functions of the drivers are any that return when the locks and the memory of the drivers are as [R]
    says, leave them so, and leave the blocks of the device manager and the rings and semaphores of the kernel alone;
    a function that runs under a FastLock of its driver, as those of the simple drivers do, is one
    ([locked_driver], the witness). *)
Theorem tk_opn_dev_spec (Qk : gmap node (list node)) (ls : list node)
    (Q : gmap dnode (list dnode)) (s : DEV) (lu lf lr : list dnode) (devnm : list Z) (omode : Z) :
  dm_inv lock Qk ls Q s lu lf lr → R s →
  let name := (knl_phydevnm devnm).1 in
  let unitno := (knl_phydevnm devnm).2 in
  ∃ r s', yields (tk_opn_dev lock flg devnm omode) s r s' ∧ R s' ∧
    match knl_searchDevCB name s with
    | None => r = E_NOEXS ∧ not_opened lock ls Q s lu lf lr s'
    | Some i => ∃ l, Q !! OPENQ i = Some l ∧
        let e := open_check i unitno omode l lf ls s in
        let fn := open_asks i unitno l s in
        if e <? E_OK then r = e ∧ not_opened lock ls Q s lu lf lr s'
        else ∃ j lf' Qk1 ls1 s1 a s2, lf = OPNQ j :: lf' ∧ is_open lock ls Q s lu lf' lr i j l unitno omode Qk1 ls1 s1 ∧ R s1 ∧
          (if fn =? NULL then a = E_OK
           else yields (openfn fn (DEVID i unitno) omode (dd_exinf (dc_ddev (dv_devcb s i)))) (add_sysmode 1 s1) a s2) ∧
          if a <? E_OK then r = a ∧ not_opened lock ls Q s lu lf lr s'
          else r = DD j ∧ knl_check_devdesc r 0 s' = inr j ∧
            ∃ Qk' ls', is_open lock ls Q s lu lf' lr i j l unitno omode Qk' ls' s'
    end.
Proof.
  intros Hinv Hr name unitno.
  destruct (knl_GetResCB_ok lock flg _ _ _ _ _ _ _ Hinv) as (M1 & Hy1 & Hl1).
  pose proof (dm_inv_multi _ _ _ _ _ _ _ _ _ Hinv Hl1) as Hinv1.
  assert (Hx : ∀ x s2, take_opncb name unitno omode s = (x, s2) → ∃ M, yields (under_DM lock flg (take_opncb name unitno omode))
      (dev_multi M1 s) x (dev_multi M s2) ∧ dm_free lock (dev_multi M s2)).
  { intros x s2 E. apply (yields_under_DM lock flg _ (dev_multi M1 s) x s2 Hl1). intros M.
    change (dev_multi M (dev_multi M1 s)) with (dev_multi M s). by rewrite take_opncb_multi, E. }
  destruct (knl_searchDevCB name s) as [i|] eqn:Es.
  - pose proof (searchDevCB_spec _ _ _ _ _ name (di_dev _ _ _ _ _ _ _ _ Hinv)) as Hi. rewrite Es in Hi. destruct Hi as [Hi _].
    destruct (dk_opened _ _ _ _ _ (di_dev _ _ _ _ _ _ _ _ Hinv) i Hi) as (l & HQ & _).
    pose proof (take_opncb_spec _ _ _ _ _ _ _ _ name unitno omode i l Hinv Es HQ) as Ht. cbv zeta in Ht.
    destruct (take_opncb name unitno omode s) as [x s1] eqn:Et. cbv beta iota in Ht. destruct (Hx _ _ eq_refl) as (M2 & Hy2 & Hl2).
    destruct Ht as [Hmem Ht]. assert (Hr1 : R (dev_multi M2 s1)) by (by apply (HR s)).
    destruct (open_check i unitno omode l lf ls s <? E_OK) eqn:Ee.
    + destruct Ht as [-> Hno]. do 2 eexists. split; [eapply open_steps; [exact Hy1|exact Hy2|apply yields_ret]|].
      split; [done|]. exists l. split; [done|]. cbv zeta. rewrite Ee. split; [done|]. by apply not_opened_multi.
    + destruct Ht as (j & lf' & -> & Hj & -> & Qk' & ls' & Ho).
      apply (is_open_frame _ _ _ _ _ _ _ _ _ _ _ _ _ _ _ (dev_multi M2 s1)) in Ho; [|done|apply Ho|done..|exists (oc_resid (dv_opncb s1 j)); simpl; by destruct (dv_opncb s1 j)].
      destruct (open_finish (open_asks i unitno l s) (DEVID i unitno) omode (dd_exinf (dc_ddev (dv_devcb s i)))
        _ _ _ _ _ _ _ _ _ _ _ _ _ (di_dev _ _ _ _ _ _ _ _ Hinv) Hi HQ Hj Ho Hr1) as (a & s2 & r & s' & Ha & Hy & Hr' & Hres).
      exists r, s'. split; [eapply open_steps; [exact Hy1|exact Hy2|exact Hy]|]. split; [done|].
      exists l. split; [done|]. cbv zeta. rewrite Ee. exists j, lf', Qk', ls', (dev_multi M2 s1), a, s2. by do 4 (split; [done|]).
  - assert (Et : take_opncb name unitno omode s = (inl E_NOEXS, s)) by (unfold take_opncb; by rewrite Es).
    destruct (Hx _ _ Et) as (M2 & Hy2 & Hl2). do 2 eexists. split; [eapply open_steps; [exact Hy1|exact Hy2|apply yields_ret]|].
    split; [by apply (HR s)|]. split; [done|]. apply not_opened_multi; [|done]. by apply (not_opened_refl _ Qk ls).
Qed.
End opening.

(** ** Drivers under a lock

    [locked a p]: the function [p] under the FastLock at [a], as the functions msdi_openfn and
    msdi_closefn of the simple drivers (Msdi.v) run those of a driver.  Where nobody holds the lock it returns when
    [p] does, and the lock is free again. *)
Definition locked (a : Z) (p : prog DEV Z) : prog DEV Z :=
  on_lib (Lock a) ;;; r <-- p ;; on_lib (Unlock a) ;;; Ret r.

Definition lock_is_free (a : Z) (s : DEV) : Prop := fl_cnt (lb_fast (dv_lib s) a) = -1.

Lemma lock_is_driver_state a : driver_state (lock_is_free a).
Proof. intros s s' [E _] Hs. unfold lock_is_free. by rewrite E. Qed.

Lemma locked_yields a (p : prog DEV Z) g s r :
  lock_is_free a s →
  (let s1 := set_dv_lib (upd_fast a (set_fl_cnt 0) (dv_lib s)) s in yields p s1 r (upd_dk (upd_mem g) s1)) →
  ∃ s', yields (locked a p) s r s' ∧ lock_is_free a s' ∧ ∀ lock, driver_frame lock s s'.
Proof.
  intros Hs Hy. cbv zeta in Hy. set (s1 := set_dv_lib (upd_fast a (set_fl_cnt 0) (dv_lib s)) s) in *.
  set (s2 := upd_dk (upd_mem g) s1) in *. exists (set_dv_lib (upd_fast a (set_fl_cnt (-1)) (dv_lib s2)) s2). split; [|split].
  - assert (Hl : yields (Lock a) (dv_lib s) tt (upd_fast a (set_fl_cnt 0) (dv_lib s))).
    { eapply yields_step; [unfold lock_is_free in Hs; rewrite Hs; reflexivity|]. apply yields_ret. }
    assert (Hu : yields (Unlock a) (dv_lib s2) tt (upd_fast a (set_fl_cnt (-1)) (dv_lib s2))).
    { eapply yields_step; [simpl; rewrite fn_lookup_insert; reflexivity|]. apply yields_ret. }
    unfold locked. eapply yields_bind; [apply yields_on_lib, Hl|]. eapply yields_bind; [exact Hy|].
    eapply yields_bind; [apply yields_on_lib, Hu|]. apply yields_ret.
  - unfold lock_is_free. simpl. by upd_simpl.
  - by constructor.
Qed.

Lemma locked_driver lock a (p : Z → Z → Z → Z → prog DEV Z) :
  (∀ fn x y z s, ∃ r g, yields (p fn x y z) s r (upd_dk (upd_mem g) s)) →
  drivers_return lock (lock_is_free a) (λ fn x y z, locked a (p fn x y z)).
Proof.
  intros Hp fn x y z s Hs. destruct (Hp fn x y z (set_dv_lib (upd_fast a (set_fl_cnt 0) (dv_lib s)) s)) as (r & g & Hy).
  destruct (locked_yields a _ g s r Hs Hy) as (s' & H1 & H2 & H3). by exists r, s'.
Qed.

(** The device "hda" has three units and is open for reading; the block 1 is free.  Its driver opens
    and closes under the lock at 0x800. *)
#[local] Instance quiet_drivers : Drivers :=
  {| openfn _ _ _ _ := locked 0x800 (Ret E_OK); abortfn _ _ _ _ _ := Ret E_OK; waitfn _ _ _ _ _ := Ret 0;
     eventfn _ _ _ _ := Ret E_OK; closefn _ _ _ _ := locked 0x800 (Ret E_OK); execfn _ _ _ _ := Ret E_OK |}.

Lemma quiet_answer (s : DEV) : yields (Ret E_OK) s E_OK (upd_dk (upd_mem (λ m, m)) s).
Proof. replace (upd_dk _ s) with s; [apply yields_ret|]. destruct s as [[[]]]. reflexivity. Qed.

Lemma quiet_returns lock : drivers_return lock (lock_is_free 0x800) (λ _ _ _ _, locked 0x800 (Ret E_OK)).
Proof.
  apply (locked_driver lock 0x800 (λ _ _ _ _, Ret E_OK)). intros _ _ _ _ s. exists E_OK, (λ m, m). apply quiet_answer.
Qed.

Lemma quiet_ok s a s' : lock_is_free 0x800 s → yields (locked 0x800 (Ret E_OK)) s a s' → a = E_OK.
Proof.
  intros Hs Hy. destruct (locked_yields 0x800 (Ret E_OK) (λ m, m) s E_OK Hs (quiet_answer _)) as (s2 & Hy2 & _).
  by destruct (yields_inj _ _ _ _ _ _ Hy Hy2).
Qed.

Definition hda : list Z := [0x68; 0x64; 0x61].
Definition ex_dev_rings : list (dnode * list dnode) :=
  [(UsedDevCB, [DEVQ 0]); (FreeOpnCB, [OPNQ 1]); (RESOPENQ, [RESQ 0]); (OPENQ 0, [OPNQ 0]); (REQUESTQ 0, [])].
Definition ex_dev (objs : list (node * list node)) : DEV :=
  mkDEV (mkLIB (ex_k (ex_sch [ex_ready 3] objs)) (λ _, mkFastLock (-1) 0 0) (λ _, mkFastMLock 0 0 1 0) 0)
    (links DNULL ex_dev_rings) (λ _, mkDevCB hda (mkT_DDEV 0 0 0 2 512 0x100 0x200 0x300 0x400 0x500 0x600))
    (λ _, mkOpnCB 1 0 0 TD_READ 0 0 0 0 0 0) (λ _, mkReqCB None 0 (mkT_DEVREQ None 0 0 0 false 0 0 0 0 0)) 0 0 0.

Lemma ex_dev_ok objs : dev_ok (list_to_map ex_dev_rings) (ex_dev objs) [DEVQ 0] [OPNQ 1] [RESQ 0].
Proof.
  constructor.
  - change (dv_q (ex_dev objs)) with (links DNULL ex_dev_rings). apply qwf_b_spec. by vm_compute.
  - by vm_compute.
  - intros y ->%list_elem_of_singleton. by exists 0.
  - by vm_compute.
  - intros y ->%list_elem_of_singleton. exists 1. split; [done|]. split; [done|].
    split; [|left]; apply unplaced_b_spec; by vm_compute.
  - by vm_compute.
  - intros y ->%list_elem_of_singleton. by exists 0.
  - intros i [= ->]%list_elem_of_singleton. exists [OPNQ 0]. split; [by vm_compute|]. constructor.
    + intros y ->%list_elem_of_singleton. by exists 0.
    + by intros j [= ->]%list_elem_of_singleton.
    + by intros j j' [= ->]%list_elem_of_singleton [= ->]%list_elem_of_singleton.
Qed.

Lemma ex_dev_inv :
  let objs := [(TIMERQ, []); (FREE_SEM, [SEMQ 2; SEMQ 5])] in
  dm_inv 0 (ex_Q [ex_ready 3] objs) [SEMQ 2; SEMQ 5] (list_to_map ex_dev_rings) (ex_dev objs) [DEVQ 0] [OPNQ 1] [RESQ 0].
Proof. intros objs. constructor; [by apply ex_kinv; vm_compute|by vm_compute|apply ex_dev_ok|by split]. Qed.

(** Unit 2 can be opened for reading and writing, but not so that others are kept out. *)
Lemma tk_opn_dev_spec_witness :
  let objs := [(TIMERQ, []); (FREE_SEM, [SEMQ 2; SEMQ 5])] in
  (∃ s', yields (tk_opn_dev 0 1 (hda ++ [0x31]) TD_UPDATE) (ex_dev objs) 2 s' ∧ knl_check_devdesc 2 0 s' = inr 1) ∧
  ∃ s', yields (tk_opn_dev 0 1 (hda ++ [0x31]) (Z.lor TD_UPDATE TD_EXCL)) (ex_dev objs) E_BUSY s' ∧
    not_opened 0 [SEMQ 2; SEMQ 5] (list_to_map ex_dev_rings) (ex_dev objs) [DEVQ 0] [OPNQ 1] [RESQ 0] s'.
Proof.
  intros objs. pose proof (lock_is_driver_state 0x800) as HR. pose proof (quiet_returns 0) as Ha.
  assert (Hr : lock_is_free 0x800 (ex_dev objs)) by done.
  pose proof (tk_opn_dev_spec 0 1 _ HR Ha _ _ _ _ _ _ _ (hda ++ [0x31]) TD_UPDATE ex_dev_inv Hr) as H1.
  pose proof (tk_opn_dev_spec 0 1 _ HR Ha _ _ _ _ _ _ _ (hda ++ [0x31]) (Z.lor TD_UPDATE TD_EXCL) ex_dev_inv Hr) as H2.
  change (knl_phydevnm (hda ++ [0x31])) with (hda, 2) in H1, H2. cbn [fst snd] in H1, H2.
  assert (E : knl_searchDevCB hda (ex_dev objs) = Some 0) by (by vm_compute).
  split.
  - destruct H1 as (r & s' & Hy & _ & H1). exists s'. revert H1. replace (knl_searchDevCB _ _) with (Some 0) by done. intros (l & HQ & H1).
    injection HQ as <-. destruct H1 as (j & lf' & Qk1 & ls1 & s1 & a & s2 & [= <- <-] & _ & Hr1 & Hasked & H1).
    apply quiet_ok in Hasked as ->; [|exact Hr1].
    destruct H1 as (-> & Hc & _). by split.
  - destruct H2 as (r & s' & Hy & _ & H2). exists s'. revert H2. replace (knl_searchDevCB _ _) with (Some 0) by done. intros (l & HQ & H2).
    injection HQ as <-. destruct H2 as [-> Hn]. by split.
Defined.

(** ** Closing a device *)

Section closing.
Context `{Drivers} (lock flg : Z).

Lemma yields_LockDM s : dm_free lock s →
  ∃ M, yields (LockDM lock flg) s E_OK (dev_multi M s) ∧ mlock_is lock 1 (dv_lib (dev_multi M s)).
Proof.
  intros Hl. destruct (yields_MLock lock 0 flg (dv_lib s) 0 Hl eq_refl) as (M & Hy & Hl1). exists M. by split; [apply yields_on_lib|].
Qed.

Lemma yields_UnlockDM s : mlock_is lock 1 (dv_lib s) →
  ∃ M, yields (UnlockDM lock) s E_OK (dev_multi M s) ∧ dm_free lock (dev_multi M s).
Proof.
  intros Hl. destruct (yields_MUnlock lock 0 (dv_lib s) 1 Hl) as (M & Hy & Hl1). exists M. by split; [apply yields_on_lib|].
Qed.

(** The mark of the task that closes. *)
Definition closing_task (j : Z) (s : DEV) : DEV :=
  upd_opncb j (λ o, set_oc_abort_cnt 0 (set_oc_abort_tskid (tk_get_tid (k_s (dv_k s))) o)) s.

(** With no request under way there is nothing to abort. *)
Lemma abort_none Q s j :
  dm_free lock s → qwf (dv_q s) Q → Q !! REQUESTQ j = Some [] → oc_nwaireq (dv_opncb s j) = 0 →
  ∃ M, let s' := dev_multi M (upd_opncb j (set_oc_abort_tskid 0) (closing_task j s)) in
    yields (abort_allrequest lock flg j) s tt s' ∧ dm_free lock s'.
Proof.
  intros Hl Hw HQ Hn. pose proof (qwf_head _ _ _ _ Hw HQ) as Hq. cbn [hd] in Hq.
  destruct (yields_LockDM s Hl) as (M1 & Hy1 & Hl1). set (s1 := closing_task j (dev_multi M1 s)).
  destruct (yields_UnlockDM s1 Hl1) as (M2 & Hy2 & Hl2). set (s2 := upd_opncb j (set_oc_abort_tskid 0) (dev_multi M2 s1)).
  destruct (yields_LockDM s2 Hl2) as (M3 & Hy3 & Hl3).
  destruct (yields_UnlockDM (dev_multi M3 s2) Hl3) as (M4 & Hy4 & Hl4). exists M4. split; [|exact Hl4].
  unfold abort_allrequest. eapply yields_bind; [exact Hy1|]. eapply yields_step; [reflexivity|]. eapply yields_step; [reflexivity|].
  eapply yields_step; [reflexivity|]. change (oc_nwaireq _) with (oc_nwaireq (dv_opncb s1 j)).
  replace (oc_nwaireq (dv_opncb s1 j)) with 0 by (unfold s1; simpl; by upd_simpl). cbn [Z.ltb Z.compare].
  eapply (yields_bind _ _ s1 tt s1).
  { eapply yields_step; [reflexivity|]. change (qnext _ _) with (qnext (dv_q s) (REQUESTQ j)). rewrite Hq.
    unfold RFUEL. cbn [abort_loop]. rewrite decide_True by done. apply yields_ret. }
  eapply yields_bind; [exact Hy2|]. eapply yields_step; [reflexivity|].
  replace (oc_abort_cnt (dv_opncb (dev_multi M2 s1) j)) with 0 by (unfold s1; simpl; by upd_simpl). cbn [Z.ltb Z.compare].
  eapply yields_bind; [apply yields_ret|]. eapply yields_step; [reflexivity|]. eapply yields_bind; [exact Hy3|].
  eapply (yields_bind _ _ (dev_multi M3 s2) tt (dev_multi M3 s2)).
  { apply (yields_loop _ _ _ (Some tt) (dev_multi M3 s2)); [|apply yields_ret].
    apply (yields_step _ _ _ None (dev_multi M3 s2)); [|apply yields_ret].
    unfold isQueEmpty. change (dv_q (dev_multi M3 s2)) with (dv_q s). rewrite Hq. by rewrite bool_decide_eq_true_2. }
  eapply yields_bind; [exact Hy4|]. apply yields_ret.
Qed.
End closing.

(** The block [j] is open for the device [i], no request is under way and no task waits on
    its semaphore. *)
Record open_at (s : DEV) (Qk : gmap node (list node)) (Q : gmap dnode (list dnode)) (lu lr : list dnode) (j i : Z)
    (l1 l2 r1 r2 : list dnode) : Prop := {
  oa_dev : DEVQ i ∈ lu;
  oa_que : Q !! OPENQ i = Some (l1 ++ OPNQ j :: l2);
  oa_res : lr = r1 ++ RESQ j :: r2;
  oa_req : Q !! REQUESTQ j = Some [];
  oa_nwaireq : oc_nwaireq (dv_opncb s j) = 0;
  oa_semid : CHK_SEMID (oc_abort_semid (dv_opncb s j)) = true;
  oa_sem : sem_used (dv_k s) Qk (get_semcb (oc_abort_semid (dv_opncb s j))) []
}.

(** Whether the unit of the block [j] stays open without it. *)
Definition still_open (j : Z) (l : list dnode) (s : DEV) : bool :=
  existsb (λ y, oc_unitno (dv_opncb s (dn_idx y)) =? oc_unitno (dv_opncb s j)) l.

Lemma existsb_in {A : Type} (f g : A → bool) l : (∀ y, y ∈ l → f y = g y) → existsb f l = existsb g l.
Proof. intros E. induction l as [|y l IH]; [done|]. simpl. rewrite E by left. rewrite IH; [done|]. intros z Hz. apply E. by right. Qed.

Section closing_calls.
Context `{Drivers} (lock flg : Z) (R : DEV → Prop).
Hypothesis HR : driver_state R.
Hypothesis Hclose : drivers_return lock R closefn.

(** The call of the driver, and the rings, after the block has left the queues. *)
Lemma drop_opncb_ok Qk ls Q s lu lf lr j i l1 l2 r1 r2 option :
  dm_inv lock Qk ls Q s lu lf lr → open_at s Qk Q lu lr j i l1 l2 r1 r2 →
  let d := dc_ddev (dv_devcb s i) in
  let still := still_open j (l1 ++ l2) s in
  let fn := if still && negb (has (dd_drvatr d) TDA_OPENREQ) then NULL else dd_closefn d in
  let Q' := drop_rings Q i (l1 ++ l2) (r1 ++ r2) in
  let option' := if still then Z.land option (Z.lnot TD_EJECT) else option in
  let sem := get_semcb (oc_abort_semid (dv_opncb s j)) in
  ∃ s' Qk', (∀ M, drop_opncb j option (dev_multi M s) =
      ((fn, DEVID i (oc_unitno (dv_opncb s j)), option', dd_exinf d), dev_multi M s')) ∧
    dm_inv lock Qk' (ls ++ [SEMQ sem]) Q' s' lu lf (r1 ++ r2) ∧ unplaced Q' (OPNQ j) ∧ unplaced Q' (RESQ j) ∧
    oc_resid (dv_opncb s' j) = 0 ∧ (∀ j', j' ≠ j → dv_opncb s' j' = dv_opncb s j') ∧ dv_devcb s' = dv_devcb s ∧
    same_mem s s' ∧ (∀ m, m ≠ sem → k_sem (dv_k s') m = k_sem (dv_k s) m).
Proof.
  intros [Hk Hs Hd Hl] [Hi HQ -> Hrq Hn Hid Hu] d still fn Q' option' sem.
  destruct (del_sem_mem (oc_abort_semid (dv_opncb s j)) (dv_k s)) as [Hmem Hsem].
  destruct (tk_del_sem_spec _ _ _ _ _ Hk Hid Hu Hs) as (k' & Qk' & E & Hk' & _ & Hs' & _).
  set (s1 := upd_dk (λ k, (tk_del_sem (oc_abort_semid (dv_opncb s j)) k).2) s).
  assert (Ek : dv_k s1 = k').
  { change (dv_k s1) with (tk_del_sem (oc_abort_semid (dv_opncb s j)) (dv_k s)).2. by rewrite E. }
  assert (Hd1 : dev_ok Q s1 lu lf (r1 ++ RESQ j :: r2)) by (by apply (dev_ok_ext _ s)).
  destruct (delOpnCB_drop _ _ _ _ _ _ _ _ _ _ Hd1 Hi HQ) as (Hd' & Hu1 & Hu2). fold Q' in Hd', Hu1, Hu2.
  set (s2 := knl_delOpnCB j false s1) in *.
  assert (HQ' : Q' !! OPENQ i = Some (l1 ++ l2)).
  { unfold Q', drop_rings. rewrite lookup_insert_ne by done. by rewrite lookup_insert_eq. }
  assert (Ei : oc_devcb (dv_opncb s j) = i) by (apply (take_opened _ _ _ _ _ _ _ Hd Hi HQ); set_solver).
  assert (Ho : ∀ j', j' ≠ j → dv_opncb s2 j' = dv_opncb s j') by (intros j' Hj'; unfold s2, knl_delOpnCB; simpl; by upd_simpl).
  assert (Es : knl_chkopen i (oc_unitno (dv_opncb s j)) s2 = still).
  { rewrite (knl_chkopen_ok _ Q' i _ (l1 ++ l2) (dk_qwf _ _ _ _ _ Hd') HQ' (opened_length _ _ _ _ _ _ _ Hd' Hi HQ')).
    apply existsb_in. intros y Hy. destruct (op_block _ _ _ (take_opened _ _ _ _ _ _ _ Hd' Hi HQ') y Hy) as (k & -> & _).
    cbv beta. change (dn_idx (OPNQ k)) with k. rewrite Ho; [done|]. intros ->. apply (Hu1 (OPENQ i)). by eapply in_ring_elem. }
  exists s2, Qk'. split.
  - intros M. unfold drop_opncb. change (dv_opncb (dev_multi M s)) with (dv_opncb s). change (dv_devcb (dev_multi M s)) with (dv_devcb s).
    rewrite Ei. cbv zeta. change (knl_chkopen i _ _) with (knl_chkopen i (oc_unitno (dv_opncb s j)) s2). rewrite Es.
    unfold fn, option', d. by destruct still, (has _ _).
  - split; [constructor; [by rewrite <- Ek in Hk'|exact Hs'|exact Hd'|exact Hl]|]. split; [done|]. split; [done|].
    split; [unfold s2, knl_delOpnCB; simpl; by upd_simpl|]. split; [done|]. split; [done|]. by split.
Qed.

(** A function of a driver leaves the invariant of the device manager. *)
Lemma dm_inv_driver Qk ls Q s s' lu lf lr :
  driver_frame lock s s' → dm_inv lock Qk ls Q s lu lf lr → dm_inv lock Qk ls Q s' lu lf lr.
Proof.
  intros [E1 E2 E3 E4 E5 E6] [Hk Hs Hd Hl]. constructor; [by apply E4|done| |by apply E6].
  apply (dev_ok_ext Q s); [done| |done]. intros j. by rewrite E3.
Qed.

Lemma closing_open_at s Qk Q lu lr j i l1 l2 r1 r2 M :
  open_at s Qk Q lu lr j i l1 l2 r1 r2 →
  open_at (dev_multi M (upd_opncb j (set_oc_abort_tskid 0) (closing_task j (upd_opncb j (set_oc_resid 0) s)))) Qk Q lu lr j i l1 l2 r1 r2.
Proof.
  intros []. constructor; simpl; upd_simpl; try done.

Qed.

Lemma check_devdesc_inr dd s j : knl_check_devdesc dd 0 s = inr j →
  OPNCB dd = j ∧ ∀ s', oc_resid (dv_opncb s' j) = 0 → knl_check_devdesc dd 0 s' = inl E_ID.
Proof.
  unfold knl_check_devdesc. destruct (_ || _); [done|]. destruct (oc_resid _ =? 0); [done|]. intros [= <-]. split; [done|].
  intros s' E. by rewrite E.
Qed.

(** After the descriptor has been made invalid. *)
Lemma close_rest Qk ls Q s lu lf lr j i l1 l2 r1 r2 option :
  dm_inv lock Qk ls Q s lu lf lr → R s → open_at s Qk Q lu lr j i l1 l2 r1 r2 →
  let d := dc_ddev (dv_devcb s i) in
  let still := still_open j (l1 ++ l2) s in
  let fn := if still && negb (has (dd_drvatr d) TDA_OPENREQ) then NULL else dd_closefn d in
  let option' := if still then Z.land option (Z.lnot TD_EJECT) else option in
  let sem := get_semcb (oc_abort_semid (dv_opncb s j)) in
  ∃ s' Qk' r s1 s2, yields (
      r <-- under_DM lock flg (drop_opncb j option) ;;
      let '(fn, devid, option, exinf) := r in
      ercd <-- (if fn =? NULL then Ret E_OK else call_driver (closefn fn devid option exinf)) ;;
      under_DM lock flg (λ s, (tt, upd_dq (QueInsert (OPNQ j) FreeOpnCB) s)) ;;;
      Ret ercd) s r s' ∧ R s1 ∧
    dm_inv lock Qk' (ls ++ [SEMQ sem]) (drop_rings Q i (l1 ++ l2) (r1 ++ r2)) s1 lu lf (r1 ++ r2) ∧
    (if fn =? NULL then r = E_OK
     else yields (closefn fn (DEVID i (oc_unitno (dv_opncb s j))) option' (dd_exinf d)) (add_sysmode 1 s1) r s2) ∧ R s' ∧
    dm_inv lock Qk' (ls ++ [SEMQ sem]) (free_rings Q i j (l1 ++ l2) lf (r1 ++ r2)) s' lu (lf ++ [OPNQ j]) (r1 ++ r2) ∧
    (∀ m, m ≠ sem → k_sem (dv_k s') m = k_sem (dv_k s) m) ∧
    oc_resid (dv_opncb s' j) = 0 ∧ (∀ j', j' ≠ j → dv_opncb s' j' = dv_opncb s j') ∧ dv_devcb s' = dv_devcb s.
Proof.
  intros Hinv Hr Ho d still fn option' sem.
  destruct (op_block _ _ _ (take_opened _ _ _ _ _ _ _ (di_dev _ _ _ _ _ _ _ _ Hinv) (oa_dev _ _ _ _ _ _ _ _ _ _ _ Ho)
    (oa_que _ _ _ _ _ _ _ _ _ _ _ Ho)) (OPNQ j) ltac:(set_solver)) as (? & [= <-] & Hb).
  destruct (drop_opncb_ok _ _ _ _ _ _ _ _ _ _ _ _ _ option Hinv Ho) as (s1 & Qk' & E & Hinv1 & Hu & Hur & Hr0 & Hoth & Hdc & Hmem & Hsem).
  destruct (yields_under_DM lock flg _ s _ s1 (di_lock _ _ _ _ _ _ _ _ Hinv) E) as (M1 & Hy1 & Hl1).
  pose proof (dm_inv_multi _ _ _ _ _ _ _ _ _ Hinv1 Hl1) as Hinv1'. fold d still fn option' in Hy1. fold sem in Hinv1', Hsem.
  assert (HR1 : R (dev_multi M1 s1)) by (by apply (HR s)).
  destruct (call_returns lock R HR closefn fn (DEVID i (oc_unitno (dv_opncb s j))) option' (dd_exinf d) _ Hclose HR1)
    as (r & s2 & s3 & Hy2 & HR2 & Hf & Hasked).
  destruct (dm_inv_driver _ _ _ _ _ _ _ _ Hf Hinv1') as [Hk2 Hs2 Hd2 Hl2]. destruct Hf as [_ Ed2 Eo2 _ Es2 _].
  destruct (yields_under_DM lock flg (λ s, (tt, upd_dq (QueInsert (OPNQ j) FreeOpnCB) s)) s2 tt
    (upd_dq (QueInsert (OPNQ j) FreeOpnCB) s2) Hl2 ltac:(reflexivity)) as (M3 & Hy3 & Hl3).
  eexists _, Qk', r, (dev_multi M1 s1), s3. split.
  { eapply yields_bind; [exact Hy1|]. cbv beta iota. eapply yields_bind; [exact Hy2|]. eapply yields_bind; [exact Hy3|]. apply yields_ret. }
  split; [exact HR1|]. split; [exact Hinv1'|]. split; [exact Hasked|]. split; [by apply (HR s2)|].
  split; [|split; [intros m Hm; rewrite <- (Hsem m Hm); exact (f_equal (λ f, f m) Es2)|simpl; rewrite Eo2, Ed2; done]].
  constructor; [exact Hk2|exact Hs2| |exact Hl3]. apply dev_ok_multi, free_OpnCB; [exact Hd2|exact Hu|exact Hur| |exact Hb].
  rewrite drop_rings_ne by done. apply Ho.
Qed.

(** C19: Closing a device, when no other task comes in between.  A descriptor that is not valid is refused with E_ID, and nothing
    changes.  Otherwise, for an opening without requests under way, [tk_cls_dev] returns:
    it asks the driver unless the unit stays open and the driver wants only the last
    closing; TD_EJECT reaches it only with the last closing of the unit.  The call returns
    the answer of the driver, and whatever that is, the opening is gone from the queues,
    its block is the last of the free blocks and its semaphore the last of the free semaphores, the other
    semaphores have not changed, the descriptor is not valid any more, and
    no other opening changes.  When the driver is asked the opening is out of the queues already and its semaphore is
    free, and only its block is not.  The functions of the drivers are as for tk_opn_dev: any that return
    when the locks and the memory of the drivers are as [R] says, also under a FastLock. *)
Theorem tk_cls_dev_spec (Qk : gmap node (list node)) (ls : list node)
    (Q : gmap dnode (list dnode)) (s : DEV) (lu lf lr : list dnode) (dd option : Z) :
  dm_inv lock Qk ls Q s lu lf lr → R s →
  match knl_check_devdesc dd 0 s with
  | inl e => ∃ M, yields (tk_cls_dev lock flg dd option) s e (dev_multi M s) ∧ dm_free lock (dev_multi M s) ∧ e = E_ID
  | inr j => ∀ i l1 l2 r1 r2, open_at s Qk Q lu lr j i l1 l2 r1 r2 →
      let d := dc_ddev (dv_devcb s i) in
      let still := still_open j (l1 ++ l2) s in
      let fn := if still && negb (has (dd_drvatr d) TDA_OPENREQ) then NULL else dd_closefn d in
      let option' := if still then Z.land option (Z.lnot TD_EJECT) else option in
      let sem := get_semcb (oc_abort_semid (dv_opncb s j)) in
      ∃ s' Qk' r s1 s2, yields (tk_cls_dev lock flg dd option) s r s' ∧ R s1 ∧
        dm_inv lock Qk' (ls ++ [SEMQ sem]) (drop_rings Q i (l1 ++ l2) (r1 ++ r2)) s1 lu lf (r1 ++ r2) ∧
        (if fn =? NULL then r = E_OK
         else yields (closefn fn (DEVID i (oc_unitno (dv_opncb s j))) option' (dd_exinf d)) (add_sysmode 1 s1) r s2) ∧ R s' ∧
        dm_inv lock Qk' (ls ++ [SEMQ sem]) (free_rings Q i j (l1 ++ l2) lf (r1 ++ r2)) s' lu (lf ++ [OPNQ j]) (r1 ++ r2) ∧
        (∀ m, m ≠ sem → k_sem (dv_k s') m = k_sem (dv_k s) m) ∧
        knl_check_devdesc dd 0 s' = inl E_ID ∧ (∀ j', j' ≠ j → dv_opncb s' j' = dv_opncb s j') ∧ dv_devcb s' = dv_devcb s
  end.
Proof.
  intros Hinv HRs. pose proof (di_lock _ _ _ _ _ _ _ _ Hinv) as Hl.
  set (F := λ s, match knl_check_devdesc dd 0 s with
                 | inl ercd => (inl ercd, s)
                 | inr opncb => (@inr Z Z opncb, upd_opncb opncb (set_oc_resid 0) s) end).
  assert (HF : ∀ M, F (dev_multi M s) = ((F s).1, dev_multi M (F s).2)).
  { intros M. unfold F. change (knl_check_devdesc dd 0 (dev_multi M s)) with (knl_check_devdesc dd 0 s).
    by destruct (knl_check_devdesc dd 0 s). }
  destruct (yields_under_DM lock flg F s _ _ Hl HF) as (M1 & Hy1 & Hl1). revert Hy1 Hl1. unfold F at 2 3 4.
  destruct (knl_check_devdesc dd 0 s) as [e|j] eqn:Ec; cbv beta iota delta [fst snd]; intros Hy1 Hl1.
  - exists M1. split; [unfold tk_cls_dev; eapply yields_bind; [exact Hy1|apply yields_ret]|]. split; [done|].
    revert Ec. unfold knl_check_devdesc. destruct (_ || _); [by intros [= <-]|]. destruct (_ =? 0); by intros [= <-].
  - intros i l1 l2 r1 r2 Ho. set (still := still_open j (l1 ++ l2) s). destruct (check_devdesc_inr _ _ _ Ec) as [Ed Hgone].
    set (s1 := dev_multi M1 (upd_opncb j (set_oc_resid 0) s)) in *.
    destruct (abort_none lock flg Q s1 j Hl1 (dk_qwf _ _ _ _ _ (di_dev _ _ _ _ _ _ _ _ Hinv)) (oa_req _ _ _ _ _ _ _ _ _ _ _ Ho))
      as (M2 & Hy2 & Hl2); [simpl; upd_simpl; apply Ho|].
    set (s2 := dev_multi M2 _) in Hy2, Hl2. assert (Ho2 : open_at s2 Qk Q lu lr j i l1 l2 r1 r2) by exact (closing_open_at s Qk Q lu lr j i l1 l2 r1 r2 M2 Ho).
    assert (Hoth : ∀ j', j' ≠ j → dv_opncb s2 j' = dv_opncb s j') by (intros j' Hj'; simpl; by upd_simpl).
    assert (Eu : ∀ j', oc_unitno (dv_opncb s2 j') = oc_unitno (dv_opncb s j')).
    { intros j'. destruct (decide (j' = j)) as [->|]; [simpl; by upd_simpl|by rewrite Hoth]. }
    assert (Es : still_open j (l1 ++ l2) s2 = still) by (apply existsb_ext; intros y; by rewrite !Eu).
    assert (Hinv2 : dm_inv lock Qk ls Q s2 lu lf lr).
    { destruct Hinv. constructor; [done|done| |done]. apply (dev_ok_ext _ s); [done| |done]. intros j'.
      destruct (decide (j' = j)) as [->|]; [simpl; by upd_simpl|by rewrite Hoth]. }
    assert (Hsem : oc_abort_semid (dv_opncb s2 j) = oc_abort_semid (dv_opncb s j)) by (simpl; by upd_simpl).
    destruct (close_rest Qk ls Q s2 lu lf lr j i l1 l2 r1 r2 option Hinv2 ltac:(by apply (HR s)) Ho2)
      as (s' & Qk' & r & sa & sb & Hy3 & HRa & Ha1 & Hasked & HR' & Hinv' & Hse & Hr & Hoth' & Hdc).
    cbv zeta in Hy3, Hasked. rewrite Es, Eu in Hasked. rewrite Hsem in Ha1, Hinv', Hse. exists s', Qk', r, sa, sb.
    split; [|do 5 (split; [done|]); split; [done|split; [by apply Hgone|split; [intros j' Hj'; by rewrite Hoth', Hoth|done]]]].
    unfold tk_cls_dev. eapply yields_bind; [exact Hy1|]. unfold knl_close_device. eapply yields_bind; [exact Hy2|exact Hy3].
Qed.
End closing_calls.

Lemma tk_cls_dev_spec_witness :
  let objs := [(TIMERQ, []); (SEMQ 0, []); (FREE_SEM, [SEMQ 2])] in
  let s := upd_opncb 0 (set_oc_abort_semid 1) (upd_dk (upd_sem 0 (λ _, mkSEMCB 1 0 0 0 1)) (ex_dev objs)) in
  ∃ s', yields (tk_cls_dev 0 1 1 0) s E_OK s' ∧ knl_check_devdesc 1 0 s' = inl E_ID.
Proof.
  intros objs s.
  assert (Hi : dm_inv 0 (ex_Q [ex_ready 3] objs) [SEMQ 2] (list_to_map ex_dev_rings) s [DEVQ 0] [OPNQ 1] [RESQ 0]).
  { constructor; [|by vm_compute| |by split].
    - change (k_s (dv_k s)) with (ex_sch [ex_ready 3] objs). apply ex_kinv. by vm_compute.
    - apply (dev_ok_ext _ (ex_dev objs)); [done| |apply ex_dev_ok]. intros j. unfold s. simpl.
      destruct (decide (j = 0)) as [->|]; by upd_simpl. }
  pose proof (tk_cls_dev_spec 0 1 _ (lock_is_driver_state 0x800) (quiet_returns 0) _ _ _ _ _ _ _ 1 0 Hi ltac:(done)) as H.
  change (knl_check_devdesc 1 0 s) with (inr 0 : Z + Z) in H. cbv iota in H.
  destruct (H 0 [] [] [] []) as (s' & Qk' & r & s1 & s2 & Hy & Hr1 & _ & Hasked & _ & _ & _ & Hc & _).
  - constructor; [by left|by vm_compute|reflexivity|by vm_compute|reflexivity|reflexivity|].
    change (get_semcb _) with 0. constructor; [reflexivity|done|done|by vm_compute|by intros y Hy%elem_of_nil|done].
  - apply quiet_ok in Hasked as ->; [|exact Hr1]. exists s'. by split.
Defined.
