(* ===== verification/Monitor.v ===== *)
(** * The monitor: lib/libtm/libtm.c and lib/libtm/libtm_printf.c

    Characters to and from the console, and formatted output to the console or to memory.
    The serial line is a list of the bytes sent and of those still to be received; a
    format is the list of its characters before the terminating zero, [strings] gives the
    characters of the string at an address, and the arguments are 32-bit words. *)
From S2P Require Import Prelude.

(** A value of the type H. *)
Definition s16 (x : Z) : Z := (x + 2 ^ 15) mod 2 ^ 16 - 2 ^ 15.

(* src: lib/libtm/libtm.h 21-21 CHR_CR *)
Definition CHR_CR : Z := 0x0D.
(* src: lib/libtm/libtm.h 22-22 CHR_ETX *)
Definition CHR_ETX : Z := 0x03.
(* src: lib/libtm/libtm.h 23-23 CHR_LF *)
Definition CHR_LF : Z := 0x0A.

(** The serial line: what was sent, and what is still to come; and the memory. *)
Record TM := mkTM { tm_sent : list Z; tm_input : list Z; tm_mem : Z → Z }.
Definition tm_snd_dat (l : list Z) (s : TM) : TM := mkTM (tm_sent s ++ l) (tm_input s) (tm_mem s).

(** ** Characters *)

(** The call waits for a byte; there is none to wait for at the end of the input. *)
(* src: lib/libtm/libtm.c 37-47 tm_getchar *)
Definition tm_getchar (s : TM) : option (Z * TM) :=
  match tm_input s with
  | [] => None
  | p :: l => Some (p, mkTM (tm_sent s) l (tm_mem s))
  end.

(* src: lib/libtm/libtm.c 83-97 tm_putchar *)
Definition tm_putchar (c : Z) (s : TM) : TM :=
  let buf := u8 c in
  let s := if buf =? CHR_LF then tm_snd_dat [CHR_CR] s else s in
  tm_snd_dat [buf] s.

(* src: lib/libtm/libtm.c 103-115 tm_putstring *)
Definition tm_putstring (l : list Z) (s : TM) : TM := foldl (λ s c, tm_putchar c s) s l.

(** The loop of [tm_getline] at [p]; [len] characters have been read. *)
(* src: lib/libtm/libtm.c 61-74 tm_getline *)
Fixpoint getline_loop (input : list Z) (p len : Z) (s : TM) : option (Z * TM) :=
  match input with
  | [] => None
  | c :: input =>
      let s := mkTM (tm_sent s) input (<[p := c]> (tm_mem s)) in
      let s := tm_snd_dat [c] s in
      if c =? CHR_CR then
        let s := tm_snd_dat [CHR_LF] s in
        Some (len, mkTM (tm_sent s) (tm_input s) (<[p := 0]> (tm_mem s)))
      else if c =? CHR_ETX then Some (-1, mkTM (tm_sent s) (tm_input s) (<[p := 0]> (tm_mem s)))
      else getline_loop input (p + 1) (len + 1) s
  end.

(* src: lib/libtm/libtm.c 53-77 tm_getline *)
Definition tm_getline (buff : Z) (s : TM) : option (Z * TM) := getline_loop (tm_input s) buff 0 s.

(** ** Numbers *)

(* src: lib/libtm/libtm_printf.c 50-50 outint *)
Definition digits : list Z :=
  [0x30; 0x31; 0x32; 0x33; 0x34; 0x35; 0x36; 0x37; 0x38; 0x39; 0x61; 0x62; 0x63; 0x64; 0x65; 0x66;
   0x30; 0x31; 0x32; 0x33; 0x34; 0x35; 0x36; 0x37; 0x38; 0x39; 0x41; 0x42; 0x43; 0x44; 0x45; 0x46].
Definition digit (i : Z) : Z := default 0 (digits !! Z.to_nat i).

(** The loop of [outint]: the digits of [val] in front of [ep]. *)
(* src: lib/libtm/libtm_printf.c 54-57 outint *)
Fixpoint outint_loop (fuel : nat) (val base caps : Z) (ep : list Z) : list Z :=
  match fuel with
  | O => ep
  | S fuel =>
      if base <=? val then outint_loop fuel (val / base) base caps (digit (val mod base + caps) :: ep)
      else digit (val + caps) :: ep
  end.

(** 32 digits are enough for a word, because the base is at least 2. *)
(* src: lib/libtm/libtm_printf.c 48-59 outint *)
Definition outint (val base : Z) : list Z :=
  outint_loop 32 val (Z.land base 0x3F) (Z.shiftr (Z.land base 0x40) 2) [].

(** ** Formats *)

(* src: lib/libtm/libtm_printf.c 66-66 MAX_DIGITS *)
Definition MAX_DIGITS : Z := 14.
(* src: lib/libtm/libtm_printf.c 73-73 F_LEFT *)
Definition F_LEFT : Z := 0x01.
(* src: lib/libtm/libtm_printf.c 74-74 F_PLUS *)
Definition F_PLUS : Z := 0x02.
(* src: lib/libtm/libtm_printf.c 75-75 F_SPACE *)
Definition F_SPACE : Z := 0x04.
(* src: lib/libtm/libtm_printf.c 76-76 F_PREFIX *)
Definition F_PREFIX : Z := 0x08.
(* src: lib/libtm/libtm_printf.c 77-77 F_ZERO *)
Definition F_ZERO : Z := 0x10.

(** The next character of a format; the zero after the last. *)
Definition next_char (fmt : list Z) : Z * list Z :=
  match fmt with [] => (0, []) | c :: fmt => (c, fmt) end.
Definition va_arg (ap : list Z) : Z * list Z :=
  match ap with [] => (0, []) | a :: ap => (a, ap) end.

(** The flags from the character [c] on, and the first character that is none. *)
(* src: lib/libtm/libtm_printf.c 92-102 tm_vsprintf *)
Fixpoint get_flags (flg : Z) (fmt : list Z) : Z * Z * list Z :=
  match fmt with
  | [] => (flg, 0, [])
  | c :: fmt =>
      if c =? 0x2D then get_flags (Z.lor flg F_LEFT) fmt
      else if c =? 0x2B then get_flags (Z.lor flg F_PLUS) fmt
      else if c =? 0x20 then get_flags (Z.lor flg F_SPACE) fmt
      else if c =? 0x23 then get_flags (Z.lor flg F_PREFIX) fmt
      else if c =? 0x30 then get_flags (Z.lor flg F_ZERO) fmt
      else (flg, c, fmt)
  end.

Definition is_dec (c : Z) : bool := (0x30 <=? c) && (c <=? 0x39).

(** The number the digits from [c] on stand for, after [n]. *)
(* src: lib/libtm/libtm_printf.c 113-114 tm_vsprintf *)
Fixpoint get_num (n c : Z) (fmt : list Z) : Z * Z * list Z :=
  if is_dec c then
    let n := s16 (n * 10 + c - 0x30) in
    match fmt with [] => (n, 0, []) | c :: fmt => get_num n c fmt end
  else (n, c, fmt).

(** What stands between [%] and the conversion character. *)
Record spec := mkSpec { sp_flg : Z; sp_wid : Z; sp_prec : Z; sp_qual : Z; sp_c : Z }.

(* src: lib/libtm/libtm_printf.c 104-115 tm_vsprintf *)
Definition get_width (flg c : Z) (fmt ap : list Z) : Z * Z * Z * list Z * list Z :=
  if c =? 0x2A then
    let '(a, ap) := va_arg ap in
    let wid := s16 a in
    let '(c, fmt) := next_char fmt in
    if wid <? 0 then (Z.lor flg F_LEFT, s16 (- wid), c, fmt, ap) else (flg, wid, c, fmt, ap)
  else
    let '(wid, c, fmt) := get_num 0 c fmt in
    (flg, wid, c, fmt, ap).

(* src: lib/libtm/libtm_printf.c 117-130 tm_vsprintf *)
Definition get_prec (flg c : Z) (fmt ap : list Z) : Z * Z * Z * list Z * list Z :=
  if c =? 0x2E then
    let flg' := Z.land flg (Z.lnot F_ZERO) in
    let '(c, fmt) := next_char fmt in
    if c =? 0x2A then
      let '(a, ap) := va_arg ap in
      let prec := if s16 a <? 0 then 0 else s16 a in
      let '(c, fmt) := next_char fmt in
      (flg', prec, c, fmt, ap)
    else
      let '(prec, c, fmt) := get_num 0 c fmt in
      (flg', prec, c, fmt, ap)
  else (flg, -1, c, fmt, ap).

(* src: lib/libtm/libtm_printf.c 92-137 tm_vsprintf *)
Definition get_spec (fmt ap : list Z) : spec * list Z * list Z :=
  let '(flg, c, fmt) := get_flags 0 fmt in
  let '(flg, wid, c, fmt, ap) := get_width flg c fmt ap in
  let '(flg, prec, c, fmt, ap) := get_prec flg c fmt ap in
  let '(qual, (c, fmt)) := if (c =? 0x68) || (c =? 0x6C) then (c, next_char fmt) else (0, (c, fmt)) in
  (mkSpec flg wid prec qual c, fmt, ap).

(** The digits to print, the sign (0 for none), the base and its marks, and the width left. *)
(* src: lib/libtm/libtm_printf.c 151-188 tm_vsprintf *)
Definition number_item (sp : spec) (a : Z) : list Z * Z * Z * Z :=
  let c := sp_c sp in
  let dec := (c =? 0x69) || (c =? 0x64) in
  let v := if sp_qual sp =? 0x68 then (if dec then u32 (s16 a) else a mod 2 ^ 16) else u32 a in
  let '(v, sign, base, wid) :=
    if dec then
      let '(v, sign) :=
        if s32 v <? 0 then (u32 (- s32 v), 0x2D)
        else if negb (Z.land (sp_flg sp) F_PLUS =? 0) then (v, 0x2B)
        else if negb (Z.land (sp_flg sp) F_SPACE =? 0) then (v, 0x20)
        else (v, 0) in
      (v, sign, 10, if sign =? 0 then sp_wid sp else s16 (sp_wid sp - 1))
    else if c =? 0x75 then (v, 0, 10, sp_wid sp)
    else
      let base := if c =? 0x58 then 10 + 0x40 + 8 - 2 else if c =? 0x78 then 10 + 8 - 2 else 10 - 2 in
      if negb (Z.land (sp_flg sp) F_PREFIX =? 0) && negb (v =? 0)
      then (v, 0, Z.lor base 0x80, s16 (sp_wid sp - (if base =? 8 then 1 else 2)))
      else (v, 0, base, sp_wid sp) in
  (if (v =? 0) && (sp_prec sp =? 0) then [] else outint v base, sign, base, wid).

(* src: lib/libtm/libtm_printf.c 192-199 tm_vsprintf *)
Definition pointer_item (sp : spec) (a : Z) : list Z * Z * Z * Z :=
  let v := u32 a in
  let '(base, wid) := if v =? 0 then (10, sp_wid sp) else (Z.lor 16 0x80, s16 (sp_wid sp - 2)) in
  (outint v base, 0, base, wid).

(** The characters of the string the loop passes, and the precision it leaves. *)
(* src: lib/libtm/libtm_printf.c 205-205 tm_vsprintf *)
Fixpoint str_loop (l : list Z) (prec : Z) : list Z * Z :=
  let prec := s16 (prec - 1) in
  match l with
  | [] => ([], prec)
  | c :: l => if prec <? 0 then ([], prec) else let '(l, prec) := str_loop l prec in (c :: l, prec)
  end.

(** ** Output *)

Section output.

(** The characters of the string at an address, and the output function. *)
Context {S : Type} (strings : Z → list Z) (ostr : list Z → S → S).

(** The loop over [--wid]; it may start below zero, where it ends at once or wraps. *)
(* src: lib/libtm/libtm_printf.c 228-228 tm_vsprintf *)
Fixpoint pad_loop (fuel : nat) (ch wid : Z) (s : S) : Z * S :=
  match fuel with
  | O => (wid, s)
  | Datatypes.S fuel =>
      let wid := s16 (wid - 1) in
      if wid <? 0 then (wid, s) else pad_loop fuel ch wid (ostr [ch] s)
  end.
Definition pad (ch wid : Z) (s : S) : Z * S := pad_loop (Datatypes.S (Datatypes.S (Z.to_nat (s16 (wid - 1))))) ch wid s.

(** What follows when the item is known: spaces, sign, prefix, zeros, item, spaces. *)
(* src: lib/libtm/libtm_printf.c 222-257 tm_vsprintf *)
Definition put_item (flg prec wid sign base : Z) (item : list Z) (s : S) : S :=
  let n := s16 (Z.of_nat (length item)) in
  let prec := s16 (prec - n) in
  let n := if 0 <? prec then s16 (n + prec) else n in
  let wid := s16 (wid - n) in
  let '(wid, s) := if Z.land flg (Z.lor F_LEFT F_ZERO) =? 0 then pad 0x20 wid s else (wid, s) in
  let s := if sign =? 0 then s else ostr [sign] s in
  let s :=
    if Z.land base 0x80 =? 0 then s
    else
      let s := ostr [0x30] s in
      if Z.land base 0x10 =? 0 then s else ostr [if Z.land base 0x40 =? 0 then 0x78 else 0x58] s in
  let '(n, wid) :=
    if (prec <=? 0) && (Z.land flg (Z.lor F_LEFT F_ZERO) =? F_ZERO) then (wid, 0) else (prec, wid) in
  let s := (pad 0x30 n s).2 in
  let s := ostr item s in
  (pad 0x20 wid s).2.

(** One conversion: the text that is to be output as it stands, the format and the
    arguments that are left, and the state. *)
(* src: lib/libtm/libtm_printf.c 91-257 tm_vsprintf *)
Definition put_conv (fmt ap : list Z) (s : S) : list Z * list Z * list Z * S :=
  let '(sp, fmt, ap) := get_spec fmt ap in
  let c := sp_c sp in
  if (c =? 0x69) || (c =? 0x64) || (c =? 0x75) || (c =? 0x58) || (c =? 0x78) || (c =? 0x6F) then
    let '(a, ap) := va_arg ap in
    let '(item, sign, base, wid) := number_item sp a in
    ([], fmt, ap, put_item (sp_flg sp) (sp_prec sp) wid sign base item s)
  else if c =? 0x70 then
    let '(a, ap) := va_arg ap in
    let '(item, sign, base, wid) := pointer_item sp a in
    ([], fmt, ap, put_item (sp_flg sp) (sp_prec sp) wid sign base item s)
  else if c =? 0x73 then
    let '(a, ap) := va_arg ap in
    let '(item, prec) := if sp_prec sp <? 0 then (strings a, sp_prec sp) else str_loop (strings a) (sp_prec sp) in
    ([], fmt, ap, put_item (sp_flg sp) prec (sp_wid sp) 0 10 item s)
  else if c =? 0x63 then
    let '(a, ap) := va_arg ap in
    ([], fmt, ap, put_item (sp_flg sp) 0 (sp_wid sp) 0 10 [u8 a] s)
  else if c =? 0 then ([], fmt, ap, s)
  else ([c], fmt, ap, s).

(** The loop of [tm_vsprintf]; [fixed] is the text from [fms] on.  A round takes a character of
    the format at least, so that one round more than the characters is enough. *)
(* src: lib/libtm/libtm_printf.c 79-263 tm_vsprintf *)
Fixpoint vsprintf_loop (fuel : nat) (fixed fmt ap : list Z) (s : S) : S :=
  match fuel with
  | O => s
  | Datatypes.S fuel =>
      match fmt with
      | [] => if decide (fixed = []) then s else ostr fixed s
      | c :: fmt =>
          if negb (c =? 0x25) then vsprintf_loop fuel (fixed ++ [c]) fmt ap s
          else
            let s := if decide (fixed = []) then s else ostr fixed s in
            let '(fixed, fmt, ap, s) := put_conv fmt ap s in
            vsprintf_loop fuel fixed fmt ap s
      end
  end.

(* src: lib/libtm/libtm_printf.c 64-268 tm_vsprintf *)
Definition tm_vsprintf (fmt ap : list Z) (s : S) : S := vsprintf_loop (Datatypes.S (length fmt)) [] fmt ap s.
End output.

(** ** To the console and to memory *)

(** [par->len] is an H. *)
(* src: lib/libtm/libtm_printf.c 273-279 out_cons *)
Definition out_cons (l : list Z) (p : Z * TM) : Z * TM :=
  (s16 (p.1 + Z.of_nat (length l)), foldl (λ s c, tm_putchar c s) p.2 l).

(* src: lib/libtm/libtm_printf.c 301-323 tm_printf *)
Definition tm_printf (strings : Z → list Z) (format ap : list Z) (s : TM) : Z * TM :=
  tm_vsprintf strings out_cons format ap (0, s).

(** The length, the pointer and the memory. *)
(* src: lib/libtm/libtm_printf.c 328-332 out_buf *)
Definition out_buf (l : list Z) (p : Z * Z * (Z → Z)) : Z * Z * (Z → Z) :=
  let '(len, bufp, m) := p in
  (s16 (len + Z.of_nat (length l)), bufp + Z.of_nat (length l), (foldl (λ '(m, a) c, (<[a := c]> m, a + 1)) (m, bufp) l).1).

(* src: lib/libtm/libtm_printf.c 334-346 tm_sprintf *)
Definition tm_sprintf (strings : Z → list Z) (str : Z) (format ap : list Z) (m : Z → Z) : Z * (Z → Z) :=
  let '(len, bufp, m) := tm_vsprintf strings out_buf format ap (0, str, m) in
  (len, <[str + len := 0]> m).

(** ** The output functions only see the text *)

Section text.
Context (strings : Z → list Z).

(** Two output functions that correspond under [h]. *)
Section related.
Context {S T : Type} (o1 : list Z → S → S) (o2 : list Z → T → T) (h : S → T) (Hh : ∀ l s, h (o1 l s) = o2 l (h s)).

Lemma pad_loop_related fuel ch wid s :
  (pad_loop o2 fuel ch wid (h s)) = let '(w, s') := pad_loop o1 fuel ch wid s in (w, h s').
Proof using Hh.
  revert wid s. induction fuel as [|fuel IH]; intros wid s; [done|]. simpl. destruct (s16 (wid - 1) <? 0); [done|].
  rewrite <- Hh. apply IH.
Qed.

Lemma put_item_related flg prec wid sign base item s :
  put_item o2 flg prec wid sign base item (h s) = h (put_item o1 flg prec wid sign base item s).
Proof using Hh.
  assert (Hp : ∀ ch w s, (pad o2 ch w (h s)).2 = h (pad o1 ch w s).2).
  { intros ch w s'. unfold pad. rewrite pad_loop_related. by destruct (pad_loop o1 _ ch w s'). }
  unfold put_item. cbv zeta. set (n := s16 (Z.of_nat (length item))). set (p := s16 (prec - n)).
  set (w := s16 (wid - _)). unfold pad at 1 4. rewrite pad_loop_related. destruct (pad_loop o1 _ 32 w s) as [w1 s1].
  destruct (Z.land flg _ =? 0), (sign =? 0), (Z.land base 0x80 =? 0), (Z.land base 0x10 =? 0), ((p <=? 0) && _);
    rewrite <- ?Hh, ?Hp, <- ?Hh, ?Hp; done.
Qed.

Lemma put_conv_related fmt ap s :
  put_conv strings o2 fmt ap (h s) =
    let '(fixed, fmt, ap, s') := put_conv strings o1 fmt ap s in (fixed, fmt, ap, h s').
Proof using Hh.
  unfold put_conv. destruct (get_spec fmt ap) as [[sp fmt'] ap']. cbv zeta. destruct (va_arg ap') as [a ap''].
  destruct (_ || _).
  { destruct (number_item sp a) as [[[item sign] base] wid]. by rewrite put_item_related. }
  destruct (_ =? 0x70).
  { destruct (pointer_item sp a) as [[[item sign] base] wid]. by rewrite put_item_related. }
  destruct (_ =? 0x73).
  { destruct (if sp_prec sp <? 0 then _ else _) as [item prec]. by rewrite put_item_related. }
  destruct (_ =? 0x63); [by rewrite put_item_related|]. by destruct (_ =? 0).
Qed.

Lemma vsprintf_related fmt ap s : tm_vsprintf strings o2 fmt ap (h s) = h (tm_vsprintf strings o1 fmt ap s).
Proof using Hh.
  unfold tm_vsprintf. generalize (Datatypes.S (length fmt)). generalize (@nil Z). intros fixed fuel. revert fixed fmt ap s.
  induction fuel as [|fuel IH]; intros fixed fmt ap s; [done|]. simpl. destruct fmt as [|c fmt].
  - by destruct (decide (fixed = [])).
  - destruct (c =? 0x25); cbn [negb]; [|apply IH].
    replace (if decide (fixed = []) then h s else o2 fixed (h s)) with (h (if decide (fixed = []) then s else o1 fixed s))
      by (by destruct (decide (fixed = []))).
    rewrite put_conv_related. destruct (put_conv strings o1 fmt ap _) as [[[fixed' fmt'] ap'] s']. apply IH.
Qed.
End related.

(** The text of a format and its arguments. *)
Definition put_text (l t : list Z) : list Z := t ++ l.
Definition text (fmt ap : list Z) : list Z := tm_vsprintf strings put_text fmt ap [].
End text.

Lemma s16_small x : - 2 ^ 15 <= x < 2 ^ 15 → s16 x = x.
Proof. intros ?. unfold s16. rewrite Z.mod_small; lia. Qed.

Lemma s16_add_l x y : s16 (s16 x + y) = s16 (x + y).
Proof.
  unfold s16. f_equal. replace ((x + 2 ^ 15) `mod` 2 ^ 16 - 2 ^ 15 + y + 2 ^ 15) with ((x + 2 ^ 15) `mod` 2 ^ 16 + y) by lia.
  rewrite Zplus_mod_idemp_l. f_equal. lia.
Qed.

(** What a text leaves in memory from [a] on. *)
Fixpoint write_text (l : list Z) (a : Z) (m : Z → Z) : Z → Z :=
  match l with [] => m | c :: l => write_text l (a + 1) (<[a := c]> m) end.

Lemma write_text_app l l' a m :
  write_text (l ++ l') a m = write_text l' (a + Z.of_nat (length l)) (write_text l a m).
Proof.
  revert a m. induction l as [|c l IH]; intros a m; simpl; [by rewrite Z.add_0_r|]. rewrite IH. f_equal. lia.
Qed.

Lemma out_buf_loop l a m :
  foldl (λ '(m, a) c, (<[a := c]> m, a + 1)) (m, a) l = (write_text l a m, a + Z.of_nat (length l)).
Proof. revert a m. induction l as [|c l IH]; intros a m; simpl; [by rewrite Z.add_0_r|]. rewrite IH. f_equal. lia. Qed.

Lemma write_text_spec l a m x :
  write_text l a m x = if decide (a <= x < a + Z.of_nat (length l)) then default 0 (l !! Z.to_nat (x - a)) else m x.
Proof.
  revert a m. induction l as [|c l IH]; intros a m; simpl; [by rewrite decide_False by lia|]. rewrite IH.
  destruct (decide (x = a)) as [->|].
  - rewrite decide_False by lia. rewrite decide_True by lia. rewrite Z.sub_diag. simpl. by rewrite fn_lookup_insert.
  - rewrite fn_lookup_insert_ne by done.
    destruct (decide (a + 1 <= x < a + 1 + Z.of_nat (length l))); [rewrite decide_True by lia|by rewrite decide_False by lia].
    replace (Z.to_nat (x - a)) with (S (Z.to_nat (x - (a + 1)))) by lia. done.
Qed.

(** [tm_sprintf] stores the text, and a zero where its 16-bit length says. *)
Lemma sprintf_text strings str fmt ap m :
  let t := text strings fmt ap in
  let len := s16 (Z.of_nat (length t)) in
  tm_sprintf strings str fmt ap m = (len, <[str + len := 0]> (write_text t str m)).
Proof.
  intros t len. unfold tm_sprintf.
  set (h := λ t, (s16 (Z.of_nat (length t)), str + Z.of_nat (length t), write_text t str m)).
  replace (0, str, m) with (h []) by (unfold h; simpl; rewrite Z.add_0_r; done).
  rewrite (vsprintf_related strings put_text out_buf h); [done|].
  intros l t'. unfold h, out_buf, put_text. rewrite out_buf_loop, write_text_app, length_app, Nat2Z.inj_add, s16_add_l. cbn [fst].
  f_equal. f_equal. lia.
Qed.

(** The console puts a carriage return before a line feed. *)
Definition crlf (c : Z) : list Z := if u8 c =? CHR_LF then [CHR_CR; u8 c] else [u8 c].

Lemma printf_text strings fmt ap s :
  let t := text strings fmt ap in
  tm_printf strings fmt ap s = (s16 (Z.of_nat (length t)), mkTM (tm_sent s ++ (t ≫= crlf)) (tm_input s) (tm_mem s)).
Proof.
  intros t. unfold tm_printf.
  set (h := λ t, (s16 (Z.of_nat (length t)), mkTM (tm_sent s ++ (t ≫= crlf)) (tm_input s) (tm_mem s))).
  replace (0, s) with (h []) by (unfold h; simpl; rewrite app_nil_r; by destruct s).
  rewrite (vsprintf_related strings put_text out_cons h); [done|].
  intros l t'. unfold h, out_cons, put_text. cbn [fst snd]. rewrite length_app, Nat2Z.inj_add, s16_add_l. f_equal.
  rewrite bind_app, app_assoc. generalize (tm_sent s ++ (t' ≫= crlf)). clear. induction l as [|c l IH]; intros out; [by rewrite app_nil_r|].
  rewrite bind_cons, app_assoc, IH. cbn [foldl]. f_equal. unfold crlf, tm_putchar, tm_snd_dat. destruct (u8 c =? CHR_LF); simpl; by rewrite <- ?app_assoc.
Qed.

(** ** Numerals *)

Definition digit_value (c : Z) : Z := if c <=? 0x39 then c - 0x30 else if 0x61 <=? c then c - 87 else c - 55.
Definition value_from (base n : Z) (l : list Z) : Z := foldl (λ n c, n * base + digit_value c) n l.

(** The numeral of [v]: digits below the base, without a leading zero, and of that value. *)
Record numeral (base caps v : Z) (l : list Z) : Prop := {
  nm_digits : ∀ c, c ∈ l → ∃ i, 0 <= i < base ∧ c = digit (i + caps);
  nm_value : value_from base 0 l = v;
  nm_head : ∀ c l', l = c :: l' → digit_value c = 0 → l' = []
}.

Lemma digit_value_digit i caps : 0 <= i < 16 → caps = 0 ∨ caps = 16 → digit_value (digit (i + caps)) = i.
Proof.
  intros Hi Hc. assert (Hall : forallb (λ i, (digit_value (digit (i + 0)) =? i) && (digit_value (digit (i + 16)) =? i)) (seqZ 0 16) = true) by reflexivity.
  rewrite forallb_forall in Hall. specialize (Hall i). rewrite <- list_elem_of_In, elem_of_seqZ, andb_true_iff, !Z.eqb_eq in Hall.
  destruct (Hall ltac:(lia)). by destruct Hc as [-> | ->].
Qed.

Lemma value_from_app base n l l' : value_from base n (l ++ l') = value_from base (value_from base n l) l'.
Proof. apply foldl_app. Qed.

Section numerals.
Context (base caps : Z) (Hb : 2 <= base <= 16) (Hc : caps = 0 ∨ caps = 16).

Lemma outint_loop_spec fuel v ep : 0 <= v < base ^ Z.of_nat fuel → (0 < fuel)%nat →
  ∃ l, outint_loop fuel v base caps ep = l ++ ep ∧ l ≠ [] ∧ (∀ c, c ∈ l → ∃ i, 0 <= i < base ∧ c = digit (i + caps)) ∧
    (∀ n, value_from base n l = n * base ^ Z.of_nat (length l) + v) ∧
    (∀ c l', l = c :: l' → digit_value c = 0 → l' = []) ∧
    (∀ k, (0 < k)%nat → v < base ^ Z.of_nat k → (length l <= k)%nat).
Proof using Hb Hc.
  revert v ep. induction fuel as [|fuel IH]; intros v ep Hv Hf; [lia|]. simpl. destruct (Z.leb_spec base v) as [Hle|Hlt].
  - pose proof (Z.div_mod v base ltac:(lia)) as Hdm. pose proof (Z.mod_pos_bound v base ltac:(lia)) as Hm.
    assert (Hd : 0 < v / base) by (apply Z.div_str_pos; lia).
    assert (Hdiv : ∀ k, v < base ^ Z.of_nat (S k) → v / base < base ^ Z.of_nat k).
    { intros k Hk. apply Z.div_lt_upper_bound; [lia|]. rewrite Nat2Z.inj_succ, Z.pow_succ_r in Hk by lia. lia. }
    destruct fuel as [|fuel]; [rewrite Z.pow_1_r in Hv; lia|].
    destruct (IH (v / base) (digit (v mod base + caps) :: ep) ltac:(split; [lia|apply Hdiv, Hv]) ltac:(lia))
      as (l & -> & Hne & Hl & Hval & Hhd & Hlen).
    exists (l ++ [digit (v mod base + caps)]). rewrite <- app_assoc. split; [done|]. split; [by destruct l|]. split.
    { intros c [Hin|Hin]%elem_of_app; [by apply Hl|]. apply list_elem_of_singleton in Hin as ->. by exists (v mod base). }
    split.
    { intros n. rewrite value_from_app, Hval, length_app, Nat2Z.inj_add, Z.pow_add_r by lia. cbn [length value_from foldl].
      rewrite digit_value_digit by (first [exact Hc|lia]). change (Z.of_nat 1) with 1. rewrite Z.pow_1_r. lia. }
    split.
    { intros c l' E E0. destruct l as [|d l]; [done|]. injection E as <- <-. exfalso.
      pose proof (Hhd d l eq_refl E0) as ->. specialize (Hval 0). unfold value_from in Hval. cbn [foldl] in Hval. lia. }
    intros k Hk Hvk. rewrite length_app. destruct k as [|k]; [lia|]. destruct k as [|k]; [rewrite Z.pow_1_r in Hvk; lia|].
    specialize (Hlen (S k) ltac:(lia) (Hdiv _ Hvk)). simpl. lia.
  - exists [digit (v + caps)]. split; [done|]. split; [done|]. split; [intros c Hin; apply list_elem_of_singleton in Hin as ->; exists v; split; [lia|done]|].
    split; [|split; [by intros c l' [= _ <-]|intros k Hk _; simpl; lia]].
    intros n. cbn [value_from foldl length]. rewrite digit_value_digit by (first [exact Hc|lia]). change (Z.of_nat 1) with 1. rewrite Z.pow_1_r. lia.
Qed.
End numerals.

Lemma value_from_mono base n l : 0 <= base → 0 <= n → (∀ c, c ∈ l → 0 <= digit_value c) → n * base ^ Z.of_nat (length l) <= value_from base n l.
Proof.
  intros Hb. revert n. induction l as [|c l IH]; intros n Hn Hl; [simpl; lia|].
  assert (Hc : 0 <= digit_value c) by (apply Hl; left). cbn [length]. rewrite Nat2Z.inj_succ, Z.pow_succ_r by lia.
  etransitivity; [|apply (IH (n * base + digit_value c)); [nia|intros c' Hin; apply Hl; by right]].
  pose proof (Z.pow_nonneg base (Z.of_nat (length l)) Hb). nia.
Qed.

(** The numeral of zero is one zero; no other numeral starts with a zero. *)
Lemma numeral_zero base l : 2 <= base <= 16 → l ≠ [] → numeral base 0 0 l → l = [0x30].
Proof.
  intros Hb Hne [Hd Hv Hh]. destruct l as [|c l]; [done|]. destruct (Hd c ltac:(left)) as (i & Hi & ->).
  assert (Hnn : ∀ c, c ∈ digit (i + 0) :: l → 0 <= digit_value c).
  { intros c (j & Hj & ->)%Hd. rewrite digit_value_digit; (auto || lia). }
  assert (E : digit_value (digit (i + 0)) = i) by (apply digit_value_digit; (auto || lia)).
  pose proof (value_from_mono base i l ltac:(lia) ltac:(lia) ltac:(intros; apply Hnn; by right)) as Hm.
  unfold value_from in Hv, Hm. cbn [foldl] in Hv. rewrite E in Hv. change (0 * base + i) with i in Hv. rewrite Hv in Hm.
  pose proof (Z.pow_pos_nonneg base (Z.of_nat (length l)) ltac:(lia) ltac:(lia)). assert (i = 0) as -> by nia.
  by rewrite (Hh _ _ eq_refl E).
Qed.

Lemma numeral_head base caps v l : numeral base caps v l → v ≠ 0 → head l ≠ Some 0x30.
Proof.
  intros [_ Hv Hh] Hne E. destruct l as [|c l]; [done|]. injection E as ->. rewrite (Hh _ _ eq_refl eq_refl) in Hv. by apply Hne.
Qed.

(** The digits fit the [MAX_DIGITS] bytes of [cbuf]. *)
Lemma outint_spec base v : 0 <= v < 2 ^ 32 →
  let b := Z.land base 0x3F in
  let caps := Z.shiftr (Z.land base 0x40) 2 in
  8 <= b <= 16 → caps = 0 ∨ caps = 16 →
  numeral b caps v (outint v base) ∧ outint v base ≠ [] ∧ Z.of_nat (length (outint v base)) <= 11.
Proof.
  intros Hv b caps Hb Hc. unfold outint. fold b caps.
  assert (Hpow : ∀ k, 0 <= k → 2 ^ (3 * k) <= b ^ k).
  { intros k Hk. rewrite Z.pow_mul_r by lia. apply Z.pow_le_mono_l. lia. }
  destruct (outint_loop_spec b caps ltac:(lia) Hc 32 v []) as (l & E & Hne & Hl & Hval & Hhd & Hlen); [|lia|].
  - split; [lia|]. pose proof (Hpow (Z.of_nat 32) ltac:(lia)). change (3 * Z.of_nat 32) with 96 in *.
    assert (2 ^ 32 < 2 ^ 96) by reflexivity. lia.
  - rewrite E, app_nil_r. split; [|split; [done|]].
    + constructor; [done|by rewrite Hval|done].
    + specialize (Hlen 11%nat ltac:(lia)). pose proof (Hpow (Z.of_nat 11) ltac:(lia)). change (3 * Z.of_nat 11) with 33 in *.
      assert (2 ^ 32 < 2 ^ 33) by reflexivity. lia.
Qed.

(** ** The layout of an item *)

Abbreviation len l := (Z.of_nat (length l)).

(** The item with the zeros its precision asks for, behind [head]; what the width leaves is
    filled with spaces on the right, with zeros behind [head], or with spaces on the left. *)
Definition layout (flg prec wid : Z) (head item : list Z) : list Z :=
  let body := replicate (Z.to_nat (prec - len item)) 0x30 ++ item in
  let room := Z.to_nat (wid - len head - len body) in
  if negb (Z.land flg F_LEFT =? 0) then head ++ body ++ replicate room 0x20
  else if negb (Z.land flg F_ZERO =? 0) && (prec <? 0) then head ++ replicate room 0x30 ++ body
  else replicate room 0x20 ++ head ++ body.

Definition sign_text (sign : Z) : list Z := if sign =? 0 then [] else [sign].
Definition base_prefix (base : Z) : list Z :=
  if Z.land base 0x80 =? 0 then []
  else 0x30 :: (if Z.land base 0x10 =? 0 then [] else [if Z.land base 0x40 =? 0 then 0x78 else 0x58]).

Lemma pad_text ch wid t : - 2 ^ 15 < wid < 2 ^ 15 →
  pad put_text ch wid t = (Z.min (wid - 1) (-1), t ++ replicate (Z.to_nat wid) ch).
Proof.
  intros Hw. unfold pad. rewrite s16_small by lia. remember (S (S (Z.to_nat (wid - 1)))) as fuel eqn:Ef.
  assert (Hf : Z.max 1 (wid + 1) <= Z.of_nat fuel) by lia. clear Ef. revert wid t Hw Hf.
  induction fuel as [|fuel IH]; intros wid t Hw Hf; [lia|]. simpl. rewrite s16_small by lia.
  destruct (Z.ltb_spec (wid - 1) 0).
  - replace (Z.to_nat wid) with 0%nat by lia. simpl. rewrite app_nil_r. f_equal. lia.
  - rewrite IH by lia. unfold put_text. rewrite <- app_assoc. f_equal; [lia|]. f_equal.
    replace (Z.to_nat wid) with (S (Z.to_nat (wid - 1))) by lia. done.
Qed.

Lemma flags_cases flg : 0 <= flg < 32 →
  (Z.land flg (Z.lor F_LEFT F_ZERO) =? 0) = (Z.land flg F_LEFT =? 0) && (Z.land flg F_ZERO =? 0) ∧
  (Z.land flg (Z.lor F_LEFT F_ZERO) =? F_ZERO) = (Z.land flg F_LEFT =? 0) && negb (Z.land flg F_ZERO =? 0).
Proof.
  intros Hf.
  assert (Hall : forallb (λ flg,
    Bool.eqb (Z.land flg (Z.lor F_LEFT F_ZERO) =? 0) ((Z.land flg F_LEFT =? 0) && (Z.land flg F_ZERO =? 0)) &&
    Bool.eqb (Z.land flg (Z.lor F_LEFT F_ZERO) =? F_ZERO) ((Z.land flg F_LEFT =? 0) && negb (Z.land flg F_ZERO =? 0))) (seqZ 0 32) = true)
    by reflexivity.
  rewrite forallb_forall in Hall. specialize (Hall flg). rewrite <- list_elem_of_In, elem_of_seqZ, andb_true_iff, !Bool.eqb_true_iff in Hall.
  apply Hall. lia.
Qed.

Lemma put_item_text flg prec wid sign base item t :
  let head := sign_text sign ++ base_prefix base in
  0 <= flg < 32 → (0 <= prec → Z.land flg F_ZERO = 0) → -1 <= prec <= 2 ^ 14 → len item <= 2 ^ 14 → 0 <= wid <= 2 ^ 14 →
  put_item put_text flg prec (wid - len head) sign base item t = t ++ layout flg prec wid head item.
Proof.
  intros head Hflg Hz Hp Hi Hw. destruct (flags_cases flg Hflg) as [E1 E2].
  assert (Hh : len head <= 3).
  { unfold head, sign_text, base_prefix. destruct (sign =? 0), (Z.land base 0x80 =? 0), (Z.land base 0x10 =? 0); simpl; lia. }
  assert (Hsign : ∀ t, (if sign =? 0 then t else put_text [sign] t) = t ++ sign_text sign).
  { intros t'. unfold sign_text. destruct (sign =? 0); [by rewrite app_nil_r|done]. }
  assert (Hbase : ∀ t, (if Z.land base 0x80 =? 0 then t else
      if Z.land base 0x10 =? 0 then put_text [0x30] t
      else put_text [if Z.land base 0x40 =? 0 then 0x78 else 0x58] (put_text [0x30] t)) = t ++ base_prefix base).
  { intros t'. unfold base_prefix, put_text. destruct (Z.land base 0x80 =? 0); [by rewrite app_nil_r|].
    destruct (Z.land base 0x10 =? 0); [done|]. by rewrite <- app_assoc. }
  unfold put_item. cbv zeta. rewrite (s16_small (len item)), (s16_small (prec - len item)) by lia.
  set (zs := Z.max 0 (prec - len item)).
  replace (if 0 <? prec - len item then s16 (len item + (prec - len item)) else len item) with (len item + zs)
    by (unfold zs; destruct (Z.ltb_spec 0 (prec - len item)); [rewrite s16_small|]; lia).
  set (w := wid - len head - (len item + zs)). assert (Hwb : - 2 ^ 15 < w < 2 ^ 15) by (unfold w, zs; lia).
  rewrite (s16_small w) by lia.
  assert (Hbody : len (replicate (Z.to_nat (prec - len item)) 0x30 ++ item) = len item + zs).
  { rewrite length_app, length_replicate. unfold zs. lia. }
  assert (Hpre : ∀ b : bool, ∀ t : list Z, (if b then pad put_text 0x20 w t else (w, t)) =
    (if b then Z.min (w - 1) (-1) else w, t ++ if b then replicate (Z.to_nat w) 0x20 else [])).
  { intros [] t'; [by rewrite pad_text by lia|by rewrite app_nil_r]. }
  rewrite Hpre, Hsign, Hbase. cbv iota. unfold layout. rewrite Hbody. fold w. rewrite E1, E2.
  destruct (Z.land flg F_LEFT =? 0) eqn:EL; cbn [andb negb].
  - destruct (Z.land flg F_ZERO =? 0) eqn:EZ; cbn [andb negb].
    + rewrite andb_false_r. cbv iota. rewrite !pad_text by lia. cbn [snd]. unfold put_text, head.
      replace (Z.to_nat (Z.min (w - 1) (-1))) with 0%nat by lia. simpl. by rewrite ?app_nil_r, <- ?app_assoc.
    + assert (Hp0 : prec < 0) by (destruct (Z.lt_ge_cases prec 0); [done|]; rewrite (Hz ltac:(lia)) in EZ; done).
      rewrite (proj2 (Z.leb_le (prec - len item) 0)) by lia. rewrite (proj2 (Z.ltb_lt prec 0)) by lia. cbn [andb].
      rewrite !pad_text by lia. cbn [snd]. unfold put_text, head. rewrite ?app_nil_r.
      replace (Z.to_nat (prec - len item)) with 0%nat by lia. simpl. by rewrite ?app_nil_r, <- ?app_assoc.
  - rewrite andb_false_r. cbv iota. rewrite !pad_text by lia. cbn [snd]. unfold put_text, head. by rewrite ?app_nil_r, <- !app_assoc.
Qed.

(** ** What a specification yields *)

Lemma get_flags_range flg fmt : 0 <= flg < 32 → 0 <= (get_flags flg fmt).1.1 < 32.
Proof.
  revert flg. induction fmt as [|c fmt IH]; intros flg Hf; [done|]. simpl.
  assert (Hor : ∀ f, 0 <= f < 32 → 0 <= Z.lor flg f < 32).
  { intros f Hf'. split; [apply Z.lor_nonneg; lia|]. destruct (Z.eq_dec (Z.lor flg f) 0) as [->|Hne]; [lia|].
    change 32 with (2 ^ 5). apply Z.log2_lt_pow2; [pose proof (proj2 (Z.lor_nonneg flg f) ltac:(lia)); lia|].
    rewrite Z.log2_lor by lia. apply Z.max_lub_lt; apply Z.le_lt_trans with (Z.log2 31); try (apply Z.log2_le_mono; lia); done. }
  repeat match goal with |- context [if ?b then _ else _] => destruct b end; try done; apply IH, Hor; unfold F_LEFT, F_PLUS, F_SPACE, F_PREFIX, F_ZERO; lia.
Qed.

Lemma get_num_range n c fmt : - 2 ^ 15 <= n < 2 ^ 15 → - 2 ^ 15 <= (get_num n c fmt).1.1 < 2 ^ 15.
Proof.
  assert (Hs : ∀ x, - 2 ^ 15 <= s16 x < 2 ^ 15) by (intros x; unfold s16; pose proof (Z.mod_pos_bound (x + 2 ^ 15) (2 ^ 16)); lia).
  revert n c. induction fmt as [|c' fmt IH]; intros n c Hn; simpl; destruct (is_dec c); try done; [apply Hs|apply IH, Hs].
Qed.

(** The flags are five bits; zeros pad only where no precision is given. *)
Lemma get_spec_flags fmt ap : let sp := (get_spec fmt ap).1.1 in
  0 <= sp_flg sp < 32 ∧ (0 <= sp_prec sp → Z.land (sp_flg sp) F_ZERO = 0).
Proof.
  unfold get_spec. pose proof (get_flags_range 0 fmt ltac:(lia)) as Hf. destruct (get_flags 0 fmt) as [[flg c] fmt1]. cbn [fst] in Hf.
  assert (Hw : ∀ c fmt1, 0 <= (get_width flg c fmt1 ap).1.1.1.1 < 32).
  { clear c fmt1. intros c fmt1. unfold get_width. destruct (c =? 0x2A).
    - destruct (va_arg ap) as [a ap1], (next_char fmt1) as [c1 fmt2]. destruct (s16 a <? 0); [|done]. cbn [fst]. split; [apply Z.lor_nonneg; unfold F_LEFT; lia|].
      assert (Hall : forallb (λ f, Z.lor f F_LEFT <? 32) (seqZ 0 32) = true) by reflexivity.
      rewrite forallb_forall in Hall. apply Z.ltb_lt, Hall, list_elem_of_In, elem_of_seqZ. lia.
    - by destruct (get_num 0 c fmt1) as [[wid c1] fmt2]. }
  specialize (Hw c fmt1). destruct (get_width flg c fmt1 ap) as [[[[flg1 wid] c1] fmt2] ap1]. cbn [fst] in Hw.
  assert (Hclear : 0 <= Z.land flg1 (Z.lnot F_ZERO) < 32 ∧ Z.land (Z.land flg1 (Z.lnot F_ZERO)) F_ZERO = 0).
  { assert (Hall : forallb (λ f, (0 <=? Z.land f (Z.lnot F_ZERO)) && (Z.land f (Z.lnot F_ZERO) <? 32)) (seqZ 0 32) = true) by reflexivity.
    rewrite forallb_forall in Hall. specialize (Hall flg1). rewrite <- list_elem_of_In, elem_of_seqZ, andb_true_iff, Z.leb_le, Z.ltb_lt in Hall.
    split; [apply Hall; lia|]. by rewrite <- Z.land_assoc, (Z.land_comm (Z.lnot F_ZERO)), Z.land_lnot_diag, Z.land_0_r. }
  unfold get_prec. destruct (c1 =? 0x2E).
  - destruct (next_char fmt2) as [c2 fmt3]. destruct (c2 =? 0x2A).
    + destruct (va_arg ap1) as [a ap2], (next_char fmt3) as [c3 fmt4]. destruct (if _ || _ then _ else _) as [qual [c4 fmt5]]. cbn. split; [lia|]. intros _. apply Hclear.
    + destruct (get_num 0 c2 fmt3) as [[prec c3] fmt4]. destruct (if _ || _ then _ else _) as [qual [c4 fmt5]]. cbn. split; [lia|]. intros _. apply Hclear.
  - destruct (if _ || _ then _ else _) as [qual [c4 fmt5]]. cbn. split; [lia|]. lia.
Qed.

(** ** Numbers *)

Definition is_number (c : Z) : bool :=
  (c =? 0x69) || (c =? 0x64) || (c =? 0x75) || (c =? 0x58) || (c =? 0x78) || (c =? 0x6F).
Definition is_signed (c : Z) : bool := (c =? 0x69) || (c =? 0x64).

(** The number the argument stands for. *)
Definition arg_value (sp : spec) (a : Z) : Z :=
  if is_signed (sp_c sp) then (if sp_qual sp =? 0x68 then s16 a else s32 a)
  else if sp_qual sp =? 0x68 then a mod 2 ^ 16 else u32 a.
Definition conv_base (c : Z) : Z := if (c =? 0x58) || (c =? 0x78) then 16 else if c =? 0x6F then 8 else 10.
Definition conv_caps (c : Z) : Z := if c =? 0x58 then 16 else 0.
Definition conv_sign (sp : spec) (z : Z) : list Z :=
  if negb (is_signed (sp_c sp)) then []
  else if z <? 0 then [0x2D]
  else if negb (Z.land (sp_flg sp) F_PLUS =? 0) then [0x2B]
  else if negb (Z.land (sp_flg sp) F_SPACE =? 0) then [0x20]
  else [].
Definition conv_prefix (sp : spec) (z : Z) : list Z :=
  if (Z.land (sp_flg sp) F_PREFIX =? 0) || (z =? 0) then []
  else if sp_c sp =? 0x58 then [0x30; 0x58]
  else if sp_c sp =? 0x78 then [0x30; 0x78]
  else if sp_c sp =? 0x6F then [0x30] else [].

Lemma s16_range x : - 2 ^ 15 <= s16 x < 2 ^ 15.
Proof. unfold s16. pose proof (Z.mod_pos_bound (x + 2 ^ 15) (2 ^ 16)). lia. Qed.
Lemma s32_u32 x : s32 (u32 x) = s32 x.
Proof. unfold s32, u32. by rewrite Zplus_mod_idemp_l. Qed.

(** The magnitude of a signed argument. *)
Lemma magnitude v z : s32 v = z → (if s32 v <? 0 then u32 (- s32 v) else u32 v) = Z.abs z.
Proof.
  intros <-. pose proof (s32_range v). destruct (Z.ltb_spec (s32 v) 0).
  - rewrite u32_small by lia. lia.
  - rewrite Z.abs_eq by lia. unfold s32, u32 in *.
    rewrite <- (Z.mod_small ((v + 2 ^ 31) mod 2 ^ 32 - 2 ^ 31) (2 ^ 32)) by lia.
    rewrite Zminus_mod_idemp_l. f_equal. lia.
Qed.

Lemma Z_abs_eqb z : (Z.abs z =? 0) = (z =? 0).
Proof. destruct (Z.eqb_spec (Z.abs z) 0), (Z.eqb_spec z 0); lia || done. Qed.

Lemma number_item_spec sp a : is_number (sp_c sp) = true → 0 <= sp_wid sp < 2 ^ 15 →
  let z := arg_value sp a in
  ∃ sign base, number_item sp a =
      (if (z =? 0) && (sp_prec sp =? 0) then [] else outint (Z.abs z) base, sign, base,
       sp_wid sp - len (conv_sign sp z ++ conv_prefix sp z)) ∧
    sign_text sign = conv_sign sp z ∧ base_prefix base = conv_prefix sp z ∧ 0 <= Z.abs z < 2 ^ 32 ∧
    Z.land base 0x3F = conv_base (sp_c sp) ∧ Z.shiftr (Z.land base 0x40) 2 = conv_caps (sp_c sp).
Proof.
  intros Hc Hw z. assert (Hz : 0 <= Z.abs z < 2 ^ 32).
  { unfold z, arg_value. pose proof (s16_range a). pose proof (s32_range a). pose proof (u32_range a). pose proof (Z.mod_pos_bound a (2 ^ 16)).
    destruct (is_signed _), (_ =? 0x68); lia. }
  unfold number_item. change ((sp_c sp =? 105) || (sp_c sp =? 100)) with (is_signed (sp_c sp)).
  assert (Hnum : conv_prefix sp z = [] → sp_c sp ≠ 0x58 → sp_c sp ≠ 0x78 → sp_c sp ≠ 0x6F → 
    base_prefix 10 = conv_prefix sp z ∧ Z.land 10 0x3F = conv_base (sp_c sp) ∧ Z.shiftr (Z.land 10 0x40) 2 = conv_caps (sp_c sp)).
  { intros -> E1 E2 E3. unfold conv_base, conv_caps. by rewrite !(proj2 (Z.eqb_neq _ _)) by done. }
  destruct (is_signed (sp_c sp)) eqn:Es.
  - set (v := if sp_qual sp =? 0x68 then u32 (s16 a) else u32 a).
    assert (Hv : s32 v = z).
    { unfold v, z, arg_value. rewrite Es. pose proof (s16_range a). destruct (sp_qual sp =? 0x68); rewrite s32_u32; [|done].
      rewrite s32_small; lia. }
    pose proof (magnitude v z Hv) as Hm. replace (u32 v) with v in Hm by (unfold v; destruct (_ =? 0x68); by rewrite u32_idemp).
    assert (Hp : conv_prefix sp z = []).
    { unfold conv_prefix. unfold is_signed in Es. destruct ((Z.land (sp_flg sp) F_PREFIX =? 0) || (z =? 0)); [done|]. destruct (Z.eqb_spec (sp_c sp) 0x58) as [E|]; [by rewrite E in Es|].
      destruct (Z.eqb_spec (sp_c sp) 0x78) as [E|]; [by rewrite E in Es|]. destruct (Z.eqb_spec (sp_c sp) 0x6F) as [E|]; [by rewrite E in Es|done]. }
    destruct Hnum as (N1 & N2 & N3); [done|intros E; by rewrite E in Es..|].
    unfold conv_sign. rewrite Es, Hp, Hv in *. cbn [negb]. destruct (z <? 0) eqn:Ez.
    + exists 0x2D, 10. rewrite Hm. rewrite s16_small by lia. rewrite Z_abs_eqb. split_and!; done || lia.
    + destruct (negb (Z.land (sp_flg sp) F_PLUS =? 0)).
      { exists 0x2B, 10. rewrite Hm, s16_small, Z_abs_eqb by lia. split_and!; done || lia. }
      destruct (negb (Z.land (sp_flg sp) F_SPACE =? 0)).
      { exists 0x20, 10. rewrite Hm, s16_small, Z_abs_eqb by lia. split_and!; done || lia. }
      exists 0, 10. rewrite Hm, Z_abs_eqb. split_and!; try (done || lia). simpl. by rewrite Z.sub_0_r.
  - set (v := if sp_qual sp =? 0x68 then a mod 2 ^ 16 else u32 a).
    assert (Hv : v = z) by (unfold z, arg_value; by rewrite Es).
    assert (Hz0 : 0 <= z) by (rewrite <- Hv; unfold v; pose proof (u32_range a); pose proof (Z.mod_pos_bound a (2 ^ 16)); destruct (_ =? 0x68); lia).
    rewrite (Z.abs_eq z) in * by done. unfold conv_sign. rewrite Es, Hv. cbn [negb app].
    unfold is_number, is_signed in Hc, Es. unfold conv_prefix, conv_base, conv_caps.
    destruct (Z.eqb_spec (sp_c sp) 0x75) as [E|].
    { exists 0, 10. rewrite E. simpl. destruct ((Z.land (sp_flg sp) F_PREFIX =? 0) || (z =? 0));
        change (len []) with 0; by rewrite Z.sub_0_r. }
    assert (sp_c sp = 0x58 ∨ sp_c sp = 0x78 ∨ sp_c sp = 0x6F) as Hx.
    { destruct (Z.eqb_spec (sp_c sp) 0x58); [auto|]. destruct (Z.eqb_spec (sp_c sp) 0x78); [auto|]. destruct (Z.eqb_spec (sp_c sp) 0x6F); [auto|].
      by destruct (sp_c sp =? 0x69), (sp_c sp =? 0x64). }
    set (b := if sp_c sp =? 0x58 then 10 + 0x40 + 8 - 2 else if sp_c sp =? 0x78 then 10 + 8 - 2 else 10 - 2).
    exists 0, (if (Z.land (sp_flg sp) F_PREFIX =? 0) || (z =? 0) then b else Z.lor b 0x80).
    destruct (Z.land (sp_flg sp) F_PREFIX =? 0) eqn:Ef; cbn [orb negb andb]; [|destruct (z =? 0) eqn:Ez; cbn [orb negb andb]].
    + change (len []) with 0. rewrite Z.sub_0_r, ?Ez. unfold b. destruct Hx as [->|[->| ->]]; split_and!; done || lia.
    + change (len []) with 0. rewrite Z.sub_0_r, ?Ez. unfold b. destruct Hx as [->|[->| ->]]; split_and!; done || lia.
    + rewrite ?Ez. unfold b. destruct Hx as [->|[->| ->]]; (split; [cbn [Z.eqb Pos.eqb length]; rewrite s16_small by (simpl; lia); done|split_and!; done || lia]).
Qed.

(** ** The theorems *)

Lemma conv_base_caps c : 8 <= conv_base c <= 16 ∧ (conv_caps c = 0 ∨ conv_caps c = 16).
Proof. unfold conv_base, conv_caps. destruct (_ || _), (c =? 0x6F), (c =? 0x58); split; (lia || auto). Qed.

Lemma put_conv_number (strings : Z → list Z) (fmt ap rest ap' t : list Z) (sp : spec) (a : Z) :
  get_spec fmt ap = (sp, rest, a :: ap') → is_number (sp_c sp) = true →
  0 <= sp_wid sp <= 2 ^ 14 → -1 <= sp_prec sp <= 2 ^ 14 →
  let z := arg_value sp a in
  ∃ ds, put_conv strings put_text fmt ap t =
      ([], rest, ap', t ++ layout (sp_flg sp) (sp_prec sp) (sp_wid sp) (conv_sign sp z ++ conv_prefix sp z) ds) ∧
    (if (z =? 0) && (sp_prec sp =? 0) then ds = []
     else ds ≠ [] ∧ numeral (conv_base (sp_c sp)) (conv_caps (sp_c sp)) (Z.abs z) ds) ∧
    len ds <= 11 ∧ len ds <= MAX_DIGITS.
Proof.
  intros E Hc Hw Hp z. pose proof (get_spec_flags fmt ap) as Hf. rewrite E in Hf. cbn [fst] in Hf. destruct Hf as [Hf Hz].
  destruct (number_item_spec sp a Hc ltac:(lia)) as (sign & base & En & Es & Eb & Hr & E1 & E2). fold z in En, Es, Eb, Hr.
  destruct (conv_base_caps (sp_c sp)) as [Hb Hcp]. rewrite <- E1 in Hb. rewrite <- E2 in Hcp.
  destruct (outint_spec base (Z.abs z) Hr Hb Hcp) as (Hn & Hne & Hl). rewrite E1, E2 in Hn.
  exists (if (z =? 0) && (sp_prec sp =? 0) then [] else outint (Z.abs z) base). split; [|destruct (_ && _); unfold MAX_DIGITS; simpl; split_and!; done || lia].
  unfold put_conv. rewrite E. cbv zeta. fold (is_number (sp_c sp)). rewrite Hc. cbn [va_arg]. rewrite En, <- Es, <- Eb.
  rewrite put_item_text; [done|done|done|done| |done]. destruct (_ && _); [done|lia].
Qed.

(** ** What the C standard asks of a number *)

(** The conversion is %o with the flag #. *)
Definition alt_octal (sp : spec) : bool := negb (Z.land (sp_flg sp) F_PREFIX =? 0) && (sp_c sp =? 0x6F).

(** The digits of a number: the numeral [ds], with zeros up to the precision; "#" with %o
    adds a zero only where the first digit is not one. *)
Definition c_digits (sp : spec) (ds : list Z) : list Z :=
  let l := replicate (Z.to_nat (sp_prec sp - len ds)) 0x30 ++ ds in
  if alt_octal sp && negb (bool_decide (head l = Some 0x30)) then 0x30 :: l else l.

(** What fprintf prints of the value [z] with the numeral [ds] (ISO C, 7.21.6.1): the sign or
    "0x" in front of the digits, filled to the width with spaces on the right (flag -), with
    zeros behind the sign or "0x" (flag 0, where no precision is given), or with spaces on
    the left. *)
Definition c_number (sp : spec) (z : Z) (ds : list Z) : list Z :=
  let hd := conv_sign sp z ++ (if sp_c sp =? 0x6F then [] else conv_prefix sp z) in
  let l := c_digits sp ds in
  let room := Z.to_nat (sp_wid sp - len hd - len l) in
  if negb (Z.land (sp_flg sp) F_LEFT =? 0) then hd ++ l ++ replicate room 0x20
  else if negb (Z.land (sp_flg sp) F_ZERO =? 0) && (sp_prec sp <? 0) then hd ++ replicate room 0x30 ++ l
  else replicate room 0x20 ++ hd ++ l.

(** [sp] with one more digit of precision. *)
Definition more_precise (sp : spec) : spec := mkSpec (sp_flg sp) (sp_wid sp) (sp_prec sp + 1) (sp_qual sp) (sp_c sp).

Lemma layout_c_number sp z ds : alt_octal sp = false →
  layout (sp_flg sp) (sp_prec sp) (sp_wid sp) (conv_sign sp z ++ conv_prefix sp z) ds = c_number sp z ds.
Proof.
  intros Ha. unfold layout, c_number, c_digits. rewrite Ha. cbn [andb].
  replace (if sp_c sp =? 0x6F then [] else conv_prefix sp z) with (conv_prefix sp z); [done|].
  unfold alt_octal in Ha. unfold conv_prefix. destruct (Z.land (sp_flg sp) F_PREFIX =? 0); [by destruct (_ =? 0x6F)|].
  cbn in Ha. rewrite Ha. done.
Qed.

Lemma alt_octal_prefix sp z : alt_octal sp = true →
  sp_c sp = 0x6F ∧ conv_sign sp z = [] ∧ conv_prefix sp z = if z =? 0 then [] else [0x30].
Proof.
  unfold alt_octal, conv_sign, conv_prefix, is_signed. rewrite andb_true_iff, negb_true_iff.
  intros [-> ->%Z.eqb_eq]. by destruct (z =? 0).
Qed.

Lemma replicate_snoc_cons {A} n (x : A) l : replicate n x ++ x :: l = x :: replicate n x ++ l.
Proof. induction n as [|n IH]; simpl; [done|by rewrite IH]. Qed.

(** Zero: the code prints no digit where C prints one, with the precision 0. *)
Lemma layout_octal_zero sp ds : alt_octal sp = true → (sp_prec sp = 0 → ds = []) → (sp_prec sp ≠ 0 → ds = [0x30]) →
  (0 <= sp_prec sp → Z.land (sp_flg sp) F_ZERO = 0) → 0 <= sp_wid sp →
  layout (sp_flg sp) (sp_prec sp) (sp_wid sp) (conv_sign sp 0 ++ conv_prefix sp 0) ds =
    if sp_prec sp =? 0 then replicate (Z.to_nat (sp_wid sp)) 0x20 else c_number sp 0 ds.
Proof.
  intros Ha H0 H1 Hz Hw. destruct (alt_octal_prefix sp 0 Ha) as (Ec & Es & Ep). rewrite Es, Ep. cbn [Z.eqb app].
  destruct (Z.eqb_spec (sp_prec sp) 0) as [E|E].
  - rewrite H0 by done. unfold layout. rewrite E, Hz by lia. cbn [Z.eqb negb andb app length Z.to_nat Z.sub replicate].
    change (Z.to_nat (0 - len [])) with 0%nat. cbn [replicate app length]. rewrite !Z.sub_0_r, ?app_nil_r. by destruct (negb _).
  - rewrite H1 by done. unfold layout, c_number, c_digits. rewrite Ha, Es, Ec. cbn [Z.eqb Pos.eqb app andb].
    rewrite bool_decide_eq_true_2; [done|]. by destruct (Z.to_nat _).
Qed.

(** Otherwise: the 0 the code prints besides the zeros of the precision is one digit more. *)
Lemma layout_octal sp z ds : alt_octal sp = true → z ≠ 0 → ds ≠ [] → head ds ≠ Some 0x30 →
  (0 <= sp_prec sp → Z.land (sp_flg sp) F_ZERO = 0) →
  layout (sp_flg sp) (sp_prec sp) (sp_wid sp) (conv_sign sp z ++ conv_prefix sp z) ds =
    c_number (if len ds <? sp_prec sp then more_precise sp else sp) z ds.
Proof.
  intros Ha Hne Hds Hhd Hz. destruct (alt_octal_prefix sp z Ha) as (Ec & Es & Ep).
  assert (Ha' : alt_octal (more_precise sp) = true) by done.
  assert (Es' : conv_sign (more_precise sp) z = []) by done.
  rewrite Es, Ep, (proj2 (Z.eqb_neq z 0)) by done. cbn [app]. unfold layout, c_number, c_digits.
  destruct (Z.ltb_spec (len ds) (sp_prec sp)) as [Hl|Hl].
  - rewrite Ha', Es', Hz by lia. cbn [more_precise sp_flg sp_prec sp_wid sp_c Z.eqb negb andb]. rewrite Hz, Ec by lia. cbn [Z.eqb Pos.eqb app negb andb].
    replace (Z.to_nat (sp_prec sp + 1 - len ds)) with (S (Z.to_nat (sp_prec sp - len ds))) by lia. cbn [replicate app].
    rewrite bool_decide_eq_true_2 by done. cbn [negb length]. change (len []) with 0.
    replace (Z.to_nat (sp_wid sp - Z.of_nat 1 - _)) with (Z.to_nat (sp_wid sp - 0 - Z.of_nat (S (length (replicate (Z.to_nat (sp_prec sp - len ds)) 0x30 ++ ds))))) by lia.
    by destruct (negb _).
  - replace (Z.to_nat (sp_prec sp - len ds)) with 0%nat by lia. rewrite Ha, Es, Ec. cbn [replicate app Z.eqb Pos.eqb length andb].
    rewrite bool_decide_eq_false_2 by done. cbn [negb length]. change (len []) with 0.
    replace (Z.to_nat (sp_wid sp - Z.of_nat 1 - _)) with (Z.to_nat (sp_wid sp - 0 - Z.of_nat (S (length ds)))) by lia.
    destruct (negb _); [done|]. destruct (negb _ && _); [|done]. by rewrite replicate_snoc_cons.
Qed.

(** C21: The conversions of numbers.  With the flags, width and precision (up to 16384) as
    [get_spec] reads them from the format, %d, %i, %u, %x and %X print exactly what the C
    standard asks ([c_number]), and so does %o, but for two cases of the flag #: where the
    precision already puts a zero in front the code prints one zero more (as C does for
    the precision one greater), and for zero with the precision 0 it prints no digit at
    all.  The numeral has only digits of the base, no leading zero and the value of the
    argument (a short one with the qualifier h), and it fits the buffer the digits are put
    together in; for zero with the precision 0 there is none.  [get_spec] itself departs
    from C in one case: a negative precision given by * counts as 0, not as absent. *)
Theorem printf_number (strings : Z → list Z) (fmt ap rest ap' t : list Z) (sp : spec) (a : Z) :
  get_spec fmt ap = (sp, rest, a :: ap') → is_number (sp_c sp) = true →
  0 <= sp_wid sp <= 2 ^ 14 → -1 <= sp_prec sp <= 2 ^ 14 →
  let z := arg_value sp a in
  ∃ ds, put_conv strings put_text fmt ap t = ([], rest, ap', t ++
      (if alt_octal sp && (z =? 0) && (sp_prec sp =? 0) then replicate (Z.to_nat (sp_wid sp)) 0x20
       else if alt_octal sp && negb (z =? 0) && (len ds <? sp_prec sp) then c_number (more_precise sp) z ds
       else c_number sp z ds)) ∧
    (if (z =? 0) && (sp_prec sp =? 0) then ds = []
     else ds ≠ [] ∧ numeral (conv_base (sp_c sp)) (conv_caps (sp_c sp)) (Z.abs z) ds) ∧
    len ds <= 11 ∧ len ds <= MAX_DIGITS.
Proof.
  intros E Hc Hw Hp z. pose proof (get_spec_flags fmt ap) as Hf. rewrite E in Hf. destruct Hf as [_ Hz]. cbn [fst] in Hz.
  destruct (put_conv_number strings fmt ap rest ap' t sp a E Hc Hw Hp) as (ds & -> & Hn & Hl). fold z in Hn |- *.
  exists ds. split; [|done]. do 2 f_equal. destruct (alt_octal sp) eqn:Ha; [|cbn [andb]; by apply layout_c_number].
  assert (Ec : conv_base (sp_c sp) = 8 ∧ conv_caps (sp_c sp) = 0) by (by destruct (alt_octal_prefix sp z Ha) as (-> & _)).
  destruct Ec as [Eb Ecp]. rewrite Eb, Ecp in Hn. destruct (Z.eqb_spec z 0) as [->|Hne]; cbn [negb andb] in *.
  - apply layout_octal_zero; [done| | |done|lia].
    + intros E0. by rewrite E0 in Hn.
    + intros E0. rewrite (proj2 (Z.eqb_neq _ _) E0) in Hn. destruct Hn. by apply (numeral_zero 8); [lia|..].
  - destruct Hn as [Hds Hn]. rewrite layout_octal; [by destruct (_ <? _)|done..| |done]. apply (numeral_head 8 0 _ _ Hn). lia.
Qed.

Lemma printf_number_witness :
  ∃ ds, put_conv (λ _, []) put_text [0x2D; 0x36; 0x64] [u32 (-42)] [] =
    ([], [], [], c_number (mkSpec F_LEFT 6 (-1) 0 0x64) (-42) ds) ∧ len ds <= MAX_DIGITS.
Proof.
  destruct (printf_number (λ _, []) [0x2D; 0x36; 0x64] [u32 (-42)] [] [] [] (mkSpec F_LEFT 6 (-1) 0 0x64) (u32 (-42))
    eq_refl eq_refl ltac:(split; reflexivity || done) ltac:(split; reflexivity || done)) as (ds & E & _ & _ & Hl).
  exists ds. split; [|exact Hl]. rewrite E. reflexivity.
Defined.

(** The memory holds [l] from [a] on. *)
Definition bytes_at (m : Z → Z) (a : Z) (l : list Z) : Prop := ∀ i c, l !! i = Some c → m (a + Z.of_nat i) = c.

Lemma write_text_at l a m x : ¬ a <= x < a + len l → bytes_at (<[x := 0]> (write_text l a m)) a l.
Proof.
  intros Hx i c Hi. pose proof (lookup_lt_Some _ _ _ Hi). rewrite fn_lookup_insert_ne by lia. rewrite write_text_spec, decide_True by lia.
  replace (a + Z.of_nat i - a) with (Z.of_nat i) by lia. by rewrite Nat2Z.id, Hi.
Qed.

Lemma write_ended l a m : bytes_at (<[a + len l := 0]> (write_text l a m)) a (l ++ [0]).
Proof.
  intros i c [Hi|[Hi Hc]]%lookup_app_Some; [apply (write_text_at l a m (a + len l)); [lia|done]|].
  destruct (i - length l)%nat eqn:E; [|done]. injection Hc as <-. replace (a + Z.of_nat i) with (a + len l) by lia.
  apply fn_lookup_insert.
Qed.

Lemma write_ended_out l a m x : x < a ∨ a + len l < x → (<[a + len l := 0]> (write_text l a m)) x = m x.
Proof. intros Hx. rewrite fn_lookup_insert_ne by lia. rewrite write_text_spec. by rewrite decide_False by lia. Qed.

(** C32: Formatted output to memory.  [tm_sprintf] stores the text of the format at [str] and
    returns its length.  Up to 32767 characters the text is followed by a zero, and
    nothing else in memory changes.  The length is counted in 16 bits: from 32768 to 65535
    characters the call returns a negative number, and the zero that should end the text
    is written in front of the buffer. *)
Theorem tm_sprintf_spec (strings : Z → list Z) (str : Z) (fmt ap : list Z) (m : Z → Z) :
  let t := text strings fmt ap in
  let '(r, m') := tm_sprintf strings str fmt ap m in
  (len t < 2 ^ 15 → r = len t ∧ bytes_at m' str (t ++ [0]) ∧ (∀ x, x < str ∨ str + len t < x → m' x = m x)) ∧
  (2 ^ 15 <= len t < 2 ^ 16 → r = len t - 2 ^ 16 ∧ r < 0 ∧ bytes_at m' str t ∧ m' (str + r) = 0).
Proof.
  intros t. rewrite (sprintf_text strings str fmt ap m). fold t. cbv beta iota zeta. split.
  - intros Ht. rewrite s16_small by lia. split; [done|]. split; [apply write_ended|intros x; apply write_ended_out].
  - intros Ht. assert (E : s16 (len t) = len t - 2 ^ 16).
    { unfold s16. replace (len t + 2 ^ 15) with (len t - 2 ^ 15 + 1 * 2 ^ 16) by lia. rewrite Z.mod_add by lia. rewrite Z.mod_small; lia. }
    rewrite E. split; [done|]. split; [lia|]. split; [apply write_text_at; lia|apply fn_lookup_insert].
Qed.

Lemma tm_sprintf_spec_witness : bytes_at (tm_sprintf (λ _, []) 100 [0x41; 0x42] [] (λ _, 7)).2 100 [0x41; 0x42; 0].
Proof.
  pose proof (tm_sprintf_spec (λ _, []) 100 [0x41; 0x42] [] (λ _, 7)) as H.
  destruct (tm_sprintf (λ _, []) 100 [0x41; 0x42] [] (λ _, 7)) as [r m'].
  change (text (λ _, []) [0x41; 0x42] []) with [0x41; 0x42] in H. destruct H as [H _]. apply H. reflexivity.
Defined.

Lemma put_string flg prec l t : flg = 0 → -1 <= prec <= 2 ^ 14 → len l <= 2 ^ 14 →
  put_item put_text flg prec 0 0 10 l t = t ++ replicate (Z.to_nat (prec - len l)) 0x30 ++ l.
Proof.
  intros -> Hp Hl. pose proof (put_item_text 0 prec 0 0 10 l t ltac:(lia) ltac:(done) Hp Hl ltac:(lia)) as E.
  change (0 - len (sign_text 0 ++ base_prefix 10)) with 0 in E. rewrite E. unfold layout. cbn [sign_text base_prefix Z.eqb].
  change (Z.land 0 F_LEFT) with 0. change (Z.land 0 F_ZERO) with 0. change (Z.land 10 0x80) with 0. cbn -[Z.sub Z.of_nat].
  rewrite length_app. by replace (Z.to_nat (0 - _ - _)) with 0%nat by lia.
Qed.

(** C34: The precision of a string.  %.Ns prints the first N characters of a string that has as
    many, as it should; of a shorter string of n characters it prints N - 1 - 2n zeros in
    front of the string when that is positive: what the loop leaves of the precision is
    taken for the precision of a number. *)
Theorem precision_of_a_string (strings : Z → list Z) (fmt ap rest ap' t : list Z) (p a : Z) :
  get_spec fmt ap = (mkSpec 0 0 p 0 0x73, rest, a :: ap') → 0 <= p <= 2 ^ 14 →
  put_conv strings put_text fmt ap t = ([], rest, ap', t ++
    (if p <=? len (strings a) then take (Z.to_nat p) (strings a)
     else replicate (Z.to_nat (p - 1 - 2 * len (strings a))) 0x30 ++ strings a)).
Proof.
  intros E Hp. unfold put_conv. rewrite E. cbv zeta. cbn [sp_c sp_prec sp_wid sp_flg va_arg].
  change ((0x73 =? 0x69) || (0x73 =? 0x64) || (0x73 =? 0x75) || (0x73 =? 0x58) || (0x73 =? 0x78) || (0x73 =? 0x6F)) with false.
  change (0x73 =? 0x70) with false. change (0x73 =? 0x73) with true. cbv iota. rewrite (proj2 (Z.ltb_ge p 0)) by lia.
  assert (Hl : ∀ l p, 0 <= p <= 2 ^ 14 → str_loop l p =
    if p <=? len l then (take (Z.to_nat p) l, -1) else (l, p - 1 - len l)).
  { clear. induction l as [|c l IH]; intros p Hp; cbn [str_loop]; rewrite s16_small by lia.
    - change (len []) with 0. destruct (Z.leb_spec p 0); [by replace p with 0 by lia|by rewrite Z.sub_0_r].
    - destruct (Z.ltb_spec (p - 1) 0).
      + rewrite (proj2 (Z.leb_le p _)) by lia. by replace p with 0 by lia.
      + rewrite IH by lia. cbn [length]. rewrite Nat2Z.inj_succ. destruct (Z.leb_spec (p - 1) (len l)).
        * rewrite (proj2 (Z.leb_le p _)) by lia. replace (Z.to_nat p) with (S (Z.to_nat (p - 1))) by lia. done.
        * rewrite (proj2 (Z.leb_gt p _)) by lia. f_equal. lia. }
  rewrite Hl by done. destruct (Z.leb_spec p (len (strings a))) as [Hle|Hgt].
  - rewrite put_string; [|done|lia|rewrite length_take; lia]. by replace (Z.to_nat (-1 - _)) with 0%nat by lia.
  - rewrite put_string by (done || lia).
    by replace (p - 1 - len (strings a) - len (strings a)) with (p - 1 - 2 * len (strings a)) by lia.
Qed.

Lemma precision_of_a_string_witness :
  put_conv (λ _, [0x61; 0x62]) put_text [0x2E; 0x38; 0x73] [1] [] = ([], [], [], [0x30; 0x30; 0x30; 0x61; 0x62]).
Proof.
  rewrite (precision_of_a_string (λ _, [0x61; 0x62]) [0x2E; 0x38; 0x73] [1] [] [] [] 8 1); [reflexivity|reflexivity|split; discriminate].
Defined.

(** The number a decimal numeral with an optional minus sign stands for. *)
Definition read_decimal (l : list Z) : Z :=
  match l with c :: l' => if c =? 0x2D then - value_from 10 0 l' else value_from 10 0 l | [] => 0 end.

Lemma text_decimal strings v : ∃ l, text strings [0x25; 0x64] [v] = l ∧ read_decimal l = s32 v ∧ 0 < len l <= 12.
Proof.
  destruct (put_conv_number strings [0x64] [v] [] [] [] (mkSpec 0 0 (-1) 0 0x64) v eq_refl eq_refl) as (ds & E & Hd & Hl & _); [done..|].
  eexists. split; [reflexivity|]. unfold text, tm_vsprintf. cbn [length vsprintf_loop]. change (negb (0x25 =? 0x25)) with false. cbv iota.
  rewrite decide_True by done. rewrite E. cbn [vsprintf_loop]. rewrite decide_True by done. cbn [sp_flg sp_prec sp_wid sp_c] in *.
  change (arg_value (mkSpec 0 0 (-1) 0 0x64) v) with (s32 v) in *. change (conv_base 0x64) with 10 in Hd. change (conv_caps 0x64) with 0 in Hd.
  rewrite andb_false_r in Hd. destruct Hd as [Hne [Hdig Hval _]].
  assert (Es : conv_sign (mkSpec 0 0 (-1) 0 0x64) (s32 v) = if s32 v <? 0 then [0x2D] else []) by done.
  assert (Ep : conv_prefix (mkSpec 0 0 (-1) 0 0x64) (s32 v) = []) by done. rewrite Es, Ep, app_nil_r.
  set (head := if s32 v <? 0 then [0x2D] else []). unfold layout. change (Z.land 0 F_LEFT) with 0. change (Z.land 0 F_ZERO) with 0.
  cbn [negb Z.eqb andb]. replace (Z.to_nat (-1 - len ds)) with 0%nat by lia. cbn [replicate app].
  replace (Z.to_nat (0 - _ - _)) with 0%nat by lia. cbn [replicate app]. unfold head. destruct (Z.ltb_spec (s32 v) 0).
  - simpl. split; [|lia]. rewrite Hval. lia.
  - cbn [app]. destruct ds as [|c ds]; [done|]. cbn [read_decimal]. destruct (Z.eqb_spec c 0x2D) as [->|].
    + destruct (Hdig 0x2D ltac:(left)) as (i & Hi & Ei). assert (Hall : forallb (λ i, negb (digit (i + 0) =? 0x2D)) (seqZ 0 10) = true) by reflexivity.
      rewrite forallb_forall in Hall. specialize (Hall i). rewrite <- list_elem_of_In, elem_of_seqZ, <- Ei in Hall. by discriminate Hall.
    + split; [|simpl in *; lia]. rewrite Hval. lia.
Qed.

(** C22: Printing and reading back.  For every 32-bit word [v], [tm_sprintf] with "%d" leaves at
    [str] a decimal numeral that reads back as the signed value of [v], ended by a zero;
    it returns the length of the numeral and writes no more than 13 bytes. *)
Theorem sprintf_decimal (strings : Z → list Z) (str v : Z) (m : Z → Z) :
  ∃ l m', tm_sprintf strings str [0x25; 0x64] [v] m = (len l, m') ∧ bytes_at m' str (l ++ [0]) ∧
    read_decimal l = s32 v ∧ len l <= 12 ∧ ∀ x, x < str ∨ str + len l < x → m' x = m x.
Proof.
  destruct (text_decimal strings v) as (l & E & Hr & Hl). eexists l, _.
  rewrite (sprintf_text strings str [0x25; 0x64] [v] m), E. rewrite s16_small by lia. split; [reflexivity|].
  split; [apply write_ended|]. split; [done|]. split; [lia|]. intros x Hx. apply write_ended_out. lia.
Qed.
