(* ===== verification/Msdi.v ===== *)
(** * The interface of simple drivers: device/common/drvif/msdrvif.c

    A driver registers a few functions; the functions the device manager calls take the
    lock of the device, call those of the driver and release the lock, so that the driver
    serves one request at a time.  The functions of a driver are named by their addresses
    and are a parameter, as is the state [T] of the drivers. *)
From S2P Require Import Prelude Config Queue Kernel ReadyQueue KInv Mem Prog FastLock Device DeviceIO.
#[local] Open Scope prog_scope.

(* src: include/tk/syscall.h 567-567 TDN_EVENT *)
Definition TDN_EVENT : Z := -1.

Definition set_rq_asize (v : Z) (r : T_DEVREQ) : T_DEVREQ := mkT_DEVREQ (rq_next r) (rq_exinf r) (rq_devid r) (rq_cmd r) (rq_abort r) (rq_start r) (rq_size r) (rq_buf r) v (rq_error r).
Definition set_rq_error (v : Z) (r : T_DEVREQ) : T_DEVREQ := mkT_DEVREQ (rq_next r) (rq_exinf r) (rq_devid r) (rq_cmd r) (rq_abort r) (rq_start r) (rq_size r) (rq_buf r) (rq_asize r) v.

(* src: device/common/drvif/msdrvif.h 29-42 T_DMSDI *)
Record T_DMSDI := mkT_DMSDI {
  dm_exinf : Z; dm_devnm : list Z; dm_drvatr : Z; dm_devatr : Z; dm_nsub : Z; dm_blksz : Z;
  dm_openfn : Z; dm_closefn : Z; dm_readfn : Z; dm_writefn : Z; dm_eventfn : Z
}.

(** The lock is at an address behind that of the structure. *)
(* src: device/common/drvif/msdrvif.h 44-48 S_MSDI *)
Record T_MSDI := mkT_MSDI { sm_devid : Z; sm_dmsdi : T_DMSDI }.
Definition set_sm_devid (v : Z) (m : T_MSDI) : T_MSDI := mkT_MSDI v (sm_dmsdi m).
Definition msdi_lock (msdi : Z) : Z := msdi + 4.
Definition msdi_size : Z := 68.

Record MSD (T : Type) := mkMSD { ms_dev : DEV; ms_sdi : Z → T_MSDI; ms_drv : T }.
Arguments mkMSD {T}. Arguments ms_dev {T}. Arguments ms_sdi {T}. Arguments ms_drv {T}.

(** The functions of the drivers. *)
(* src: device/common/drvif/msdrvif.h 37-41 T_DMSDI *)
Class SimpleDrivers (T : Type) := {
  sd_openfn : Z → Z → Z → Z → prog (MSD T) Z;
  sd_closefn : Z → Z → Z → Z → prog (MSD T) Z;
  sd_iofn : Z → T_DEVREQ → Z → prog (MSD T) (Z * T_DEVREQ);
  sd_eventfn : Z → Z → Z → Z → prog (MSD T) Z
}.

Section msdi.
Context {T : Type} `{SimpleDrivers T}.

Definition set_ms_dev (d : DEV) (s : MSD T) : MSD T := mkMSD d (ms_sdi s) (ms_drv s).
Definition upd_sdi (msdi : Z) (f : T_MSDI → T_MSDI) (s : MSD T) : MSD T :=
  mkMSD (ms_dev s) (<[msdi := f (ms_sdi s msdi)]> (ms_sdi s)) (ms_drv s).
Definition ms_lib (s : MSD T) : LIB := dv_lib (ms_dev s).
Definition set_ms_lib (l : LIB) (s : MSD T) : MSD T := set_ms_dev (set_dv_lib l (ms_dev s)) s.
#[export] Instance msd_kernel : HasKernel (MSD T) :=
  {| the_k s := dv_k (ms_dev s); set_the_k k s := set_ms_lib (set_lb_k k (ms_lib s)) s; the_k_set _ _ := eq_refl |}.
Definition on_dev {A : Type} : prog DEV A → prog (MSD T) A := zoom ms_dev set_ms_dev.
Definition on_locks {A : Type} : prog LIB A → prog (MSD T) A := zoom ms_lib set_ms_lib.
Definition the_dmsdi (msdi : Z) (s : MSD T) : T_DMSDI := sm_dmsdi (ms_sdi s msdi).

(* src: device/common/drvif/msdrvif.c 29-30 LockMSDI *)
Definition under_lock {A : Type} (msdi : Z) (p : prog (MSD T) A) : prog (MSD T) A :=
  on_locks (Lock (msdi_lock msdi)) ;;; x <-- p ;; on_locks (Unlock (msdi_lock msdi)) ;;; Ret x.

(* src: device/common/drvif/msdrvif.c 40-51 msdi_openfn *)
Definition msdi_openfn (devid omode msdi : Z) : prog (MSD T) Z :=
  d <-- gets (the_dmsdi msdi) ;;
  if dm_openfn d =? NULL then Ret E_OK else under_lock msdi (sd_openfn (dm_openfn d) devid omode msdi).

(* src: device/common/drvif/msdrvif.c 56-67 msdi_closefn *)
Definition msdi_closefn (devid option msdi : Z) : prog (MSD T) Z :=
  d <-- gets (the_dmsdi msdi) ;;
  if dm_closefn d =? NULL then Ret E_OK else under_lock msdi (sd_closefn (dm_closefn d) devid option msdi).

(** The packet comes back changed. *)
(* src: device/common/drvif/msdrvif.c 72-89 msdi_execfn *)
Definition msdi_execfn (req : T_DEVREQ) (tmout msdi : Z) : prog (MSD T) (Z * T_DEVREQ) :=
  d <-- gets (the_dmsdi msdi) ;;
  let fp := if rq_cmd req =? TDC_READ then dm_readfn d else dm_writefn d in
  if fp =? NULL then Ret (E_NOSPT, req)
  else if (0 <=? rq_start req) && (dm_blksz d <=? 0) then Ret (E_NOSPT, req)
  else
    r <-- under_lock msdi (sd_iofn fp req msdi) ;;
    Ret (E_OK, set_rq_error r.1 r.2).

(* src: device/common/drvif/msdrvif.c 94-97 msdi_waitfn *)
Definition msdi_waitfn (nreq tmout msdi : Z) : Z := 0.
(* src: device/common/drvif/msdrvif.c 102-105 msdi_abortfn *)
Definition msdi_abortfn (tskid nreq msdi : Z) : Z := E_OK.

(* src: device/common/drvif/msdrvif.c 110-121 msdi_eventfn *)
Definition msdi_eventfn (evttyp evtinf msdi : Z) : prog (MSD T) Z :=
  d <-- gets (the_dmsdi msdi) ;;
  if dm_eventfn d =? NULL then Ret E_OK else under_lock msdi (sd_eventfn (dm_eventfn d) evttyp evtinf msdi).

(** ** Registration *)

(** The addresses of the functions above, of the device manager's lock, and of a variable
    of [MLockTmo]. *)
Context (fn_open fn_close fn_exec fn_wait fn_abort fn_event lock flg : Z).
Context `{Allocator}.

(* src: lib/libtk/kmalloc.c 39-42 Kmalloc *)
Definition Kmalloc (size : Z) : prog (MSD T) Z := sys_now (λ _, Imalloc size).
(* src: lib/libtk/kmalloc.c 54-57 Kfree *)
Definition Kfree (a : Z) : prog (MSD T) Z := sys_now (λ _ k, (E_OK, Ifree a k)).

(** The result and [msdi] for the caller's pointer.  [devnm] is the address of the name in
    the caller's structure. *)
(* src: device/common/drvif/msdrvif.c 131-179 msdi_def_dev *)
Definition msdi_def_dev (dmsdi : T_DMSDI) (devnm idev : Z) : prog (MSD T) (Z * option Z) :=
  msdi <-- Kmalloc msdi_size ;;
  if msdi =? NULL then Ret (E_NOMEM, None)
  else
    modify (upd_sdi msdi (λ m, mkT_MSDI (sm_devid m) dmsdi)) ;;;
    err <-- on_locks (CreateLock (msdi_lock msdi) devnm) ;;
    if err <? E_OK then Kfree msdi ;;; Ret (err, None)
    else
      let ddev := mkT_DDEV msdi (dm_drvatr dmsdi) (dm_devatr dmsdi) (dm_nsub dmsdi) (dm_blksz dmsdi)
                    fn_open fn_close fn_exec fn_wait fn_abort fn_event in
      err <-- on_dev (tk_def_dev lock flg (dm_devnm dmsdi) (Some ddev) idev) ;;
      if err <? E_OK then
        on_locks (DeleteLock (msdi_lock msdi)) ;;; Kfree msdi ;;; Ret (err, None)
      else
        modify (upd_sdi msdi (set_sm_devid err)) ;;; Ret (E_OK, Some msdi).

(* src: device/common/drvif/msdrvif.c 184-196 msdi_del_dev *)
Definition msdi_del_dev (msdi : Z) : prog (MSD T) Z :=
  d <-- gets (the_dmsdi msdi) ;;
  err <-- on_dev (tk_def_dev lock flg (dm_devnm d) None NULL) ;;
  if E_OK <? err then
    on_locks (DeleteLock (msdi_lock msdi)) ;;; Kfree msdi ;;; Ret E_OK
  else Ret err.

(** ** One request at a time *)

(** Nobody holds the lock of the device, or wants it. *)
Definition lock_count (msdi : Z) (s : MSD T) : Z := fl_cnt (lb_fast (ms_lib s) (msdi_lock msdi)).
Definition counted_lock (msdi n : Z) (s : MSD T) : MSD T :=
  set_ms_lib (upd_fast (msdi_lock msdi) (set_fl_cnt n) (ms_lib s)) s.

Lemma yields_on_locks {A : Type} (p : prog LIB A) s a l :
  yields p (ms_lib s) a l → yields (on_locks p) s a (set_ms_lib l s).
Proof. apply (yields_zoom ms_lib set_ms_lib); [done..|by intros [[] ? ?]]. Qed.

(** What runs under the lock finds it held, and it is free afterwards when nobody came in
    between. *)
Lemma yields_under_lock {A : Type} msdi (p : prog (MSD T) A) s a s' :
  lock_count msdi s = -1 → yields p (counted_lock msdi 0 s) a s' → lock_count msdi s' = 0 →
  yields (under_lock msdi p) s a (counted_lock msdi (-1) s').
Proof.
  intros Hc Hp Hc'. unfold under_lock.
  assert (Hl : yields (Lock (msdi_lock msdi)) (ms_lib s) tt (upd_fast (msdi_lock msdi) (set_fl_cnt 0) (ms_lib s))).
  { eapply yields_step; [unfold lock_count in Hc; rewrite Hc; reflexivity|]. apply yields_ret. }
  assert (Hu : yields (Unlock (msdi_lock msdi)) (ms_lib s') tt (upd_fast (msdi_lock msdi) (set_fl_cnt (-1)) (ms_lib s'))).
  { eapply yields_step; [unfold lock_count in Hc'; rewrite Hc'; reflexivity|]. apply yields_ret. }
  eapply yields_bind; [apply yields_on_locks, Hl|]. eapply yields_bind; [exact Hp|].
  eapply yields_bind; [apply yields_on_locks, Hu|]. apply yields_ret.
Qed.

(** A request.  Without a function for it, or for device specific data of a device that has no
    blocks, it is E_NOSPT; otherwise the driver's function runs with the lock held, its
    result is left in the packet, and the request succeeds. *)
Lemma msdi_execfn_spec msdi req tmout s err req' s' :
  let d := the_dmsdi msdi s in
  let fp := if rq_cmd req =? TDC_READ then dm_readfn d else dm_writefn d in
  lock_count msdi s = -1 →
  yields (sd_iofn fp req msdi) (counted_lock msdi 0 s) (err, req') s' → lock_count msdi s' = 0 →
  if (fp =? NULL) || ((0 <=? rq_start req) && (dm_blksz d <=? 0)) then
    yields (msdi_execfn req tmout msdi) s (E_NOSPT, req) s
  else yields (msdi_execfn req tmout msdi) s (E_OK, set_rq_error err req') (counted_lock msdi (-1) s').
Proof.
  intros d fp Hc Hp Hc'.
  assert (E : ∀ r s2, yields (if fp =? NULL then Ret (E_NOSPT, req)
      else if (0 <=? rq_start req) && (dm_blksz d <=? 0) then Ret (E_NOSPT, req)
      else r <-- under_lock msdi (sd_iofn fp req msdi) ;; Ret (E_OK, set_rq_error r.1 r.2)) s r s2 →
      yields (msdi_execfn req tmout msdi) s r s2) by (intros r s2 Hy; eapply yields_step; [reflexivity|exact Hy]).
  destruct (fp =? NULL) eqn:E1; simpl; [apply E, yields_ret|].
  destruct ((0 <=? rq_start req) && (dm_blksz d <=? 0)) eqn:E2; simpl; [apply E, yields_ret|].
  apply E. eapply yields_bind; [by apply (yields_under_lock _ _ _ (err, req') s')|]. apply yields_ret.
Qed.

(** A registration that finds no memory changes nothing. *)
Lemma msdi_def_dev_no_memory dmsdi devnm idev s k :
  Imalloc msdi_size (dv_k (ms_dev s)) = (NULL, k) →
  yields (msdi_def_dev dmsdi devnm idev) s (E_NOMEM, None) (set_the_k k s).
Proof. intros E. apply yields_now. change (the_k s) with (dv_k (ms_dev s)). rewrite E. apply yields_ret. Qed.
End msdi.
