(* ===== verification/Serial.v ===== *)
(** * The serial driver: device/ser

    The two ring buffers between the tasks that read and write and the interrupt handler
    (ser.c), the handler and the control of the UART (sysdepend/esp32c3/ser_esp32c3.c).
    The registers of the UART are the vendor's: a parameter, whose behaviour the theorems
    take as the laws [UartLaws].  What a task does while the interrupt of the UART is
    disabled is one step, as is the handler. *)
From S2P Require Import Prelude Config Queue Kernel ReadyQueue KInv KCheck Task Timer Wait.
From S2P Require Import TaskSync Mem TaskManage Prog Device Msdi.
#[local] Open Scope prog_scope.

(* src: device/ser/ser_cnf.h 24-24 DEVCONF_SER_BUFFSIZE *)
Definition DEVCONF_SER_BUFFSIZE : Z := 50.
(* src: device/include/dev_ser.h 31-31 TDN_SER_MODE *)
Definition TDN_SER_MODE : Z := -100.
(* src: device/include/dev_ser.h 32-32 TDN_SER_SPEED *)
Definition TDN_SER_SPEED : Z := -101.
(* src: device/include/dev_ser.h 33-33 TDN_SER_SNDTMO *)
Definition TDN_SER_SNDTMO : Z := -102.
(* src: device/include/dev_ser.h 34-34 TDN_SER_RCVTMO *)
Definition TDN_SER_RCVTMO : Z := -103.
(* src: device/include/dev_ser.h 35-35 TDN_SER_COMERR *)
Definition TDN_SER_COMERR : Z := -104.
(* src: device/include/dev_ser.h 36-36 TDN_SER_BREAK *)
Definition TDN_SER_BREAK : Z := -105.
(* src: device/include/dev_ser.h 40-40 DEV_SER_ERR_ROVR *)
Definition DEV_SER_ERR_ROVR : Z := 0x80.
(* src: device/ser/sysdepend/esp32c3/ser_mode_sysdep.h 52-52 DEV_SER_ERR_PE *)
Definition DEV_SER_ERR_PE : Z := 0x01.
(* src: device/ser/sysdepend/esp32c3/ser_mode_sysdep.h 53-53 DEV_SER_ERR_FE *)
Definition DEV_SER_ERR_FE : Z := 0x02.
(* src: device/ser/sysdepend/esp32c3/ser_mode_sysdep.h 55-55 DEV_SER_ERR_OE *)
Definition DEV_SER_ERR_OE : Z := 0x08.

(** The registers of a UART, through the vendor's routines and constants.  The routines
    that set up the communication are one: [uart_setup] of the number of data bits, stop
    bits, the parity and the speed. *)
Class Uart (U : Type) := {
  UART_INTR_RXFIFO_FULL : Z; UART_INTR_RXFIFO_TOUT : Z; UART_INTR_TXFIFO_EMPTY : Z;
  UART_INTR_PARITY_ERR : Z; UART_INTR_FRAM_ERR : Z; UART_INTR_RXFIFO_OVF : Z; UART_LL_INTR_MASK : Z;
  uart_ll_get_intsts_mask : U → Z;
  uart_ll_clr_intsts_mask : Z → U → U;
  uart_ll_ena_intr_mask : Z → U → U;
  uart_ll_disable_intr_mask : Z → U → U;
  uart_ll_get_rxfifo_len : U → Z;
  uart_ll_read_rxfifo : U → Z * U;
  uart_ll_get_txfifo_len : U → Z;
  uart_ll_write_txfifo : Z → U → U;
  uart_ll_tx_break : Z → U → U;
  uart_ll_set_loop_back : bool → U → U;
  uart_ll_rxfifo_rst : U → U;
  uart_ll_txfifo_rst : U → U;
  uart_ll_set_rxfifo_full_thr : Z → U → U;
  uart_ll_set_txfifo_empty_thr : Z → U → U;
  uart_setup : Z → Z → Z → Z → U → U
}.

(** ** The state *)

(* src: device/ser/ser.h 38-43 T_SER_BUFF *)
Record T_SER_BUFF := mkBuff { sb_top : Z; sb_tail : Z; sb_wait_tskid : Z; sb_data : Z → Z }.
Definition set_sb_wait (v : Z) (b : T_SER_BUFF) : T_SER_BUFF := mkBuff (sb_top b) (sb_tail b) v (sb_data b).
Definition set_sb_tail (v : Z) (b : T_SER_BUFF) : T_SER_BUFF := mkBuff (sb_top b) v (sb_wait_tskid b) (sb_data b).

(* src: device/ser/ser.h 45-48 buff_init *)
Definition buff_init (b : T_SER_BUFF) : T_SER_BUFF := mkBuff 0 0 0 (sb_data b).

(** The interrupt numbers and the priority are constants of the unit. *)
(* src: device/ser/ser.h 53-74 T_SER_DCB *)
Record T_SER_DCB := mkDCB {
  sd_omode : Z; sd_evtmbfid : Z; sd_com_mode : Z; sd_com_speed : Z; sd_com_error : Z;
  sd_snd_tmo : Z; sd_rcv_tmo : Z; sd_snd : T_SER_BUFF; sd_rcv : T_SER_BUFF
}.
Definition set_sd_omode (v : Z) (d : T_SER_DCB) := mkDCB v (sd_evtmbfid d) (sd_com_mode d) (sd_com_speed d) (sd_com_error d) (sd_snd_tmo d) (sd_rcv_tmo d) (sd_snd d) (sd_rcv d).
Definition set_sd_evtmbfid (v : Z) (d : T_SER_DCB) := mkDCB (sd_omode d) v (sd_com_mode d) (sd_com_speed d) (sd_com_error d) (sd_snd_tmo d) (sd_rcv_tmo d) (sd_snd d) (sd_rcv d).
Definition set_sd_com_mode (v : Z) (d : T_SER_DCB) := mkDCB (sd_omode d) (sd_evtmbfid d) v (sd_com_speed d) (sd_com_error d) (sd_snd_tmo d) (sd_rcv_tmo d) (sd_snd d) (sd_rcv d).
Definition set_sd_com_speed (v : Z) (d : T_SER_DCB) := mkDCB (sd_omode d) (sd_evtmbfid d) (sd_com_mode d) v (sd_com_error d) (sd_snd_tmo d) (sd_rcv_tmo d) (sd_snd d) (sd_rcv d).
Definition set_sd_com_error (v : Z) (d : T_SER_DCB) := mkDCB (sd_omode d) (sd_evtmbfid d) (sd_com_mode d) (sd_com_speed d) v (sd_snd_tmo d) (sd_rcv_tmo d) (sd_snd d) (sd_rcv d).
Definition set_sd_snd_tmo (v : Z) (d : T_SER_DCB) := mkDCB (sd_omode d) (sd_evtmbfid d) (sd_com_mode d) (sd_com_speed d) (sd_com_error d) v (sd_rcv_tmo d) (sd_snd d) (sd_rcv d).
Definition set_sd_rcv_tmo (v : Z) (d : T_SER_DCB) := mkDCB (sd_omode d) (sd_evtmbfid d) (sd_com_mode d) (sd_com_speed d) (sd_com_error d) (sd_snd_tmo d) v (sd_snd d) (sd_rcv d).
Definition upd_snd (f : T_SER_BUFF → T_SER_BUFF) (d : T_SER_DCB) := mkDCB (sd_omode d) (sd_evtmbfid d) (sd_com_mode d) (sd_com_speed d) (sd_com_error d) (sd_snd_tmo d) (sd_rcv_tmo d) (f (sd_snd d)) (sd_rcv d).
Definition upd_rcv (f : T_SER_BUFF → T_SER_BUFF) (d : T_SER_DCB) := mkDCB (sd_omode d) (sd_evtmbfid d) (sd_com_mode d) (sd_com_speed d) (sd_com_error d) (sd_snd_tmo d) (sd_rcv_tmo d) (sd_snd d) (f (sd_rcv d)).

(** [se_ll] holds mode and speed until the start; [se_int] says whether the interrupt of the
    unit is enabled. *)
(* src: device/ser/sysdepend/esp32c3/ser_esp32c3.c 82-87 T_DEV_SER_LLDEVCB *)
Record SER (U : Type) := mkSER { se_k : K; se_cb : Z → T_SER_DCB; se_hw : Z → U; se_ll : Z → Z * Z; se_int : Z → bool }.
Arguments mkSER {U}. Arguments se_k {U}. Arguments se_cb {U}. Arguments se_hw {U}. Arguments se_ll {U}. Arguments se_int {U}.

Section ser.
Context {U : Type} `{Uart U}.

Definition set_se_k (k : K) (s : SER U) : SER U := mkSER k (se_cb s) (se_hw s) (se_ll s) (se_int s).
Definition upd_cb (unit : Z) (f : T_SER_DCB → T_SER_DCB) (s : SER U) : SER U :=
  mkSER (se_k s) (<[unit := f (se_cb s unit)]> (se_cb s)) (se_hw s) (se_ll s) (se_int s).
Definition upd_hw (unit : Z) (f : U → U) (s : SER U) : SER U :=
  mkSER (se_k s) (se_cb s) (<[unit := f (se_hw s unit)]> (se_hw s)) (se_ll s) (se_int s).
Definition set_ll (unit : Z) (v : Z * Z) (s : SER U) : SER U :=
  mkSER (se_k s) (se_cb s) (se_hw s) (<[unit := v]> (se_ll s)) (se_int s).
Definition set_int (unit : Z) (v : bool) (s : SER U) : SER U :=
  mkSER (se_k s) (se_cb s) (se_hw s) (se_ll s) (<[unit := v]> (se_int s)).
#[export] Instance ser_kernel : HasKernel (SER U) :=
  {| the_k := se_k; set_the_k := set_se_k; the_k_set _ _ := eq_refl |}.

Definition wup_waiter (tskid : Z) (s : SER U) : SER U :=
  if tskid =? 0 then s else set_se_k (upd_s (λ k, (tk_wup_tsk tskid k).2) (se_k s)) s.

(** ** Called by the interrupt handler *)

(* src: device/ser/ser.c 46-63 dev_ser_get_snddat *)
Definition dev_ser_get_snddat (unit : Z) (s : SER U) : option Z * SER U :=
  let p_buff := sd_snd (se_cb s unit) in
  if negb (sb_top p_buff =? sb_tail p_buff) then
    let data := sb_data p_buff (sb_tail p_buff) in
    let tail := sb_tail p_buff + 1 in
    let s := upd_cb unit (upd_snd (set_sb_tail (if DEVCONF_SER_BUFFSIZE <=? tail then 0 else tail))) s in
    let s := wup_waiter (sb_wait_tskid p_buff) s in
    (Some data, upd_cb unit (upd_snd (set_sb_wait 0)) s)
  else (None, s).

(* src: device/ser/ser.c 87-90 dev_ser_notify_err *)
Definition dev_ser_notify_err (unit err : Z) (s : SER U) : SER U :=
  upd_cb unit (λ d, set_sd_com_error (Z.lor (sd_com_error d) err) d) s.

(** A byte goes into the buffer. *)
(* src: device/ser/ser.c 74-75 dev_ser_notify_rcv *)
Definition buff_put (data next : Z) (b : T_SER_BUFF) : T_SER_BUFF :=
  mkBuff next (sb_tail b) (sb_wait_tskid b) (<[sb_top b := data]> (sb_data b)).
Definition next_index (i : Z) : Z := if DEVCONF_SER_BUFFSIZE <=? i + 1 then 0 else i + 1.

(* src: device/ser/ser.c 65-85 dev_ser_notify_rcv *)
Definition dev_ser_notify_rcv (unit data : Z) (s : SER U) : SER U :=
  let p_buff := sd_rcv (se_cb s unit) in
  let next := next_index (sb_top p_buff) in
  let s :=
    if negb (next =? sb_tail p_buff) then upd_cb unit (upd_rcv (buff_put (u8 data) next)) s
    else dev_ser_notify_err unit DEV_SER_ERR_ROVR s in
  let s := wup_waiter (sb_wait_tskid p_buff) s in
  upd_cb unit (upd_rcv (set_sb_wait 0)) s.

(** ** The control of the UART *)

(* src: device/ser/ser.h 92-100 T_LLD_SER_CMD *)
Inductive T_LLD_SER_CMD :=
  LLD_SER_MODE | LLD_SER_SPEED | LLD_SER_START | LLD_SER_STOP | LLD_SER_SEND | LLD_SER_BREAK | LLD_SER_INTCTL.

(* src: device/ser/sysdepend/esp32c3/ser_esp32c3.c 92-92 RX_INTR_MASK *)
Definition RX_INTR_MASK : Z := Z.lor UART_INTR_RXFIFO_FULL UART_INTR_RXFIFO_TOUT.
(* src: device/ser/sysdepend/esp32c3/ser_esp32c3.c 93-93 ERR_INTR_MASK *)
Definition ERR_INTR_MASK : Z := Z.lor (Z.lor UART_INTR_PARITY_ERR UART_INTR_FRAM_ERR) UART_INTR_RXFIFO_OVF.

(* src: device/ser/sysdepend/esp32c3/ser_esp32c3.c 147-187 start_com *)
Definition start_com (unit mode speed : Z) : SER U → SER U :=
  upd_hw unit (λ hw,
    let wl := match Z.land mode 0x03 with 0x03 => 5 | 0x02 => 6 | 0x01 => 7 | _ => 8 end in
    let stop := if Z.land mode 0x04 =? 0 then 1 else 2 in
    let par := match Z.land mode 0x18 with 0x08 => 1 | 0x10 => 2 | _ => 0 end in
    let hw := uart_setup wl stop par speed hw in
    let hw := uart_ll_set_loop_back false hw in
    let hw := uart_ll_txfifo_rst (uart_ll_rxfifo_rst hw) in
    let hw := uart_ll_set_txfifo_empty_thr 0 (uart_ll_set_rxfifo_full_thr 1 hw) in
    uart_ll_ena_intr_mask (Z.lor RX_INTR_MASK ERR_INTR_MASK) (uart_ll_clr_intsts_mask UART_LL_INTR_MASK hw)).

(* src: device/ser/sysdepend/esp32c3/ser_esp32c3.c 189-195 stop_com *)
Definition stop_com (unit : Z) : SER U → SER U :=
  upd_hw unit (λ hw, uart_ll_set_loop_back false (uart_ll_clr_intsts_mask UART_LL_INTR_MASK
    (uart_ll_disable_intr_mask UART_LL_INTR_MASK hw))).

(* src: device/ser/sysdepend/esp32c3/ser_esp32c3.c 200-243 dev_ser_llctl *)
Definition dev_ser_llctl (unit : Z) (cmd : T_LLD_SER_CMD) (parm : Z) (s : SER U) : Z * SER U :=
  match cmd with
  | LLD_SER_MODE => (E_OK, set_ll unit (parm, (se_ll s unit).2) s)
  | LLD_SER_SPEED => (E_OK, set_ll unit ((se_ll s unit).1, parm) s)
  | LLD_SER_START => (E_OK, set_int unit true (start_com unit (se_ll s unit).1 (se_ll s unit).2 s))
  | LLD_SER_STOP => (E_OK, stop_com unit (set_int unit false s))
  | LLD_SER_SEND =>
      if 0 <? uart_ll_get_txfifo_len (se_hw s unit) then
        (E_OK, upd_hw unit (λ hw, uart_ll_ena_intr_mask UART_INTR_TXFIFO_EMPTY (uart_ll_write_txfifo (u8 parm) hw)) s)
      else (E_BUSY, s)
  | LLD_SER_BREAK => (E_OK, upd_hw unit (uart_ll_tx_break (if parm =? 0 then 0 else 1)) s)
  | LLD_SER_INTCTL => (E_OK, s)
  end.

(** The bytes of the receive FIFO; each round takes one. *)
(* src: device/ser/sysdepend/esp32c3/ser_esp32c3.c 112-116 uart_inthdr *)
Fixpoint rx_loop (fuel : nat) (unit : Z) (s : SER U) : SER U :=
  match fuel with
  | O => s
  | S fuel =>
      if 0 <? uart_ll_get_rxfifo_len (se_hw s unit) then
        let '(b, hw) := uart_ll_read_rxfifo (se_hw s unit) in
        rx_loop fuel unit (dev_ser_notify_rcv unit b (upd_hw unit (λ _, hw) s))
      else s
  end.

(** The bytes of the send buffer, as long as the FIFO has room. *)
(* src: device/ser/sysdepend/esp32c3/ser_esp32c3.c 121-125 uart_inthdr *)
Fixpoint tx_loop (fuel : nat) (unit : Z) (s : SER U) : SER U :=
  match fuel with
  | O => s
  | S fuel =>
      if 0 <? uart_ll_get_txfifo_len (se_hw s unit) then
        match dev_ser_get_snddat unit s with
        | (Some data, s) => tx_loop fuel unit (upd_hw unit (uart_ll_write_txfifo (u8 data)) s)
        | (None, s) => s
        end
      else s
  end.

(** The handler of unit 0, the only one. *)
(* src: device/ser/sysdepend/esp32c3/ser_esp32c3.c 100-141 uart_inthdr *)
Definition uart_inthdr (s : SER U) : SER U :=
  let unit := 0 in
  let sts := uart_ll_get_intsts_mask (se_hw s unit) in
  let s := if Z.land sts RX_INTR_MASK =? 0 then s
           else rx_loop (Z.to_nat (uart_ll_get_rxfifo_len (se_hw s unit))) unit s in
  let s := if Z.land sts UART_INTR_TXFIFO_EMPTY =? 0 then s
           else upd_hw unit (uart_ll_disable_intr_mask UART_INTR_TXFIFO_EMPTY) (tx_loop (Z.to_nat DEVCONF_SER_BUFFSIZE) unit s) in
  let s :=
    if Z.land sts ERR_INTR_MASK =? 0 then s
    else
      let err := Z.lor (Z.lor (if Z.land sts UART_INTR_PARITY_ERR =? 0 then 0 else DEV_SER_ERR_PE)
                              (if Z.land sts UART_INTR_FRAM_ERR =? 0 then 0 else DEV_SER_ERR_FE))
                       (if Z.land sts UART_INTR_RXFIFO_OVF =? 0 then 0 else DEV_SER_ERR_OE) in
      dev_ser_notify_err unit err s in
  upd_hw unit (uart_ll_clr_intsts_mask sts) s.

(** ** Attributes *)

(** [req->asize], or an error. *)
(* src: device/ser/ser.c 96-115 set_atr_size *)
Definition set_atr_size (req : T_DEVREQ) : Z + T_DEVREQ :=
  let start := rq_start req in
  if start =? TDN_EVENT then inr (set_rq_asize 4 req)
  else if (start =? TDN_SER_MODE) || (start =? TDN_SER_SPEED) || (start =? TDN_SER_COMERR) then inr (set_rq_asize 4 req)
  else if (start =? TDN_SER_SNDTMO) || (start =? TDN_SER_RCVTMO) then inr (set_rq_asize 4 req)
  else inl E_PAR.

Definition put_word (a v : Z) (s : SER U) : SER U := set_se_k (upd_mem (st32 a (u32 v)) (se_k s)) s.
Definition get_word (a : Z) (s : SER U) : Z := ld32 (k_mem (se_k s)) a.

(* src: device/ser/ser.c 117-155 read_atr *)
Definition read_atr (unit : Z) (req : T_DEVREQ) (s : SER U) : Z * T_DEVREQ * SER U :=
  match set_atr_size req with
  | inl err => (err, req, s)
  | inr req =>
      if rq_size req =? 0 then (E_OK, req, s)
      else
        let d := se_cb s unit in
        let start := rq_start req in
        let buf := rq_buf req in
        if start =? TDN_EVENT then (E_OK, req, put_word buf (sd_evtmbfid d) s)
        else if start =? TDN_SER_MODE then (E_OK, req, put_word buf (sd_com_mode d) s)
        else if start =? TDN_SER_SPEED then (E_OK, req, put_word buf (sd_com_speed d) s)
        else if start =? TDN_SER_SNDTMO then (E_OK, req, put_word buf (sd_snd_tmo d) s)
        else if start =? TDN_SER_RCVTMO then (E_OK, req, put_word buf (sd_rcv_tmo d) s)
        else if start =? TDN_SER_COMERR then
          (E_OK, req, upd_cb unit (set_sd_com_error 0) (put_word buf (sd_com_error d) s))
        else (E_PAR, req, s)
  end.

(* src: device/ser/ser.c 157-191 write_atr *)
Definition write_atr (unit : Z) (req : T_DEVREQ) (s : SER U) : Z * T_DEVREQ * SER U :=
  match set_atr_size req with
  | inl err => (err, req, s)
  | inr req =>
      if rq_size req =? 0 then (E_OK, req, s)
      else
        let start := rq_start req in
        let v := get_word (rq_buf req) s in
        if start =? TDN_EVENT then (E_OK, req, upd_cb unit (set_sd_evtmbfid (s32 v)) s)
        else if start =? TDN_SER_MODE then
          let '(err, s) := dev_ser_llctl unit LLD_SER_MODE v (upd_cb unit (set_sd_com_mode v) s) in (err, req, s)
        else if start =? TDN_SER_SPEED then
          let '(err, s) := dev_ser_llctl unit LLD_SER_SPEED v (upd_cb unit (set_sd_com_speed v) s) in (err, req, s)
        else if start =? TDN_SER_SNDTMO then (E_OK, req, upd_cb unit (set_sd_snd_tmo (s32 v)) s)
        else if start =? TDN_SER_RCVTMO then (E_OK, req, upd_cb unit (set_sd_rcv_tmo (s32 v)) s)
        else if start =? TDN_SER_BREAK then
          let '(err, s) := dev_ser_llctl unit LLD_SER_BREAK v s in (err, req, s)
        else (E_PAR, req, s)
  end.
(** ** Data *)

(** One round of [read_data] with the receive interrupt disabled: a byte for [pd], or the
    task is noted as the one that waits.  [tail] is the local variable of that name. *)
(* src: device/ser/ser.c 213-222 read_data *)
Definition read_section (unit tail pd : Z) (s : SER U) : option Z * SER U :=
  let p_buff := sd_rcv (se_cb s unit) in
  if negb (sb_top p_buff =? tail) then
    let s := set_se_k (upd_mem (<[pd := sb_data p_buff tail]>) (se_k s)) s in
    let tail := next_index tail in
    (Some tail, set_int unit true (upd_cb unit (upd_rcv (set_sb_tail tail)) s))
  else (None, set_int unit true (upd_cb unit (upd_rcv (set_sb_wait (tk_get_tid (k_s (se_k s))))) s)).

(** A byte, however long the task sleeps for it. *)
(* src: device/ser/ser.c 212-226 read_data *)
Definition read_byte (unit tail pd : Z) : prog (SER U) (Z + Z) :=
  while_true (
    r <-- step (read_section unit tail pd) ;;
    match r with
    | Some tail => Ret (Some (inr tail))
    | None =>
        err <-- sys (λ s k, let '(r, k') := tk_slp_tsk (sd_rcv_tmo (se_cb s unit)) (k_s k) in (r, set_k_s k' k)) ;;
        Ret (if err =? E_OK then None else Some (inl err))
    end).

(** The loop over the bytes asked for: the error, and how many are left. *)
(* src: device/ser/ser.c 212-226 read_data *)
Fixpoint read_loop (n : nat) (unit tail pd : Z) : prog (SER U) (Z * Z) :=
  match n with
  | O => Ret (E_OK, 0)
  | S n' =>
      r <-- read_byte unit tail pd ;;
      match r with
      | inr tail => read_loop n' unit tail (pd + 1)
      | inl err => Ret (err, Z.of_nat n)
      end
  end.

(* src: device/ser/ser.c 197-239 read_data *)
Definition read_data (unit : Z) (req : T_DEVREQ) : prog (SER U) (Z * T_DEVREQ) :=
  tail <-- gets (λ s, sb_tail (sd_rcv (se_cb s unit))) ;;
  if negb (rq_size req =? 0) then
    r <-- read_loop (Z.to_nat (u32 (rq_size req))) unit tail (rq_buf req) ;;
    Ret (r.1, set_rq_asize (rq_size req - r.2) req)
  else
    rsize <-- gets (λ s, let b := sd_rcv (se_cb s unit) in sb_top b - sb_tail b) ;;
    Ret (E_OK, set_rq_asize (if rsize <? 0 then rsize + DEVCONF_SER_BUFFSIZE else rsize) req).

(** One round of [write_data] with the send interrupt disabled: whether the byte was taken. *)
(* src: device/ser/ser.c 257-276 write_data *)
Definition write_section (unit b : Z) (s : SER U) : bool * SER U :=
  let p_buff := sd_snd (se_cb s unit) in
  let next := next_index (sb_top p_buff) in
  let s := set_int unit false s in
  let '(r, s) :=
    if negb (next =? sb_tail p_buff) then
      let '(err, s) := if sb_top p_buff =? sb_tail p_buff then dev_ser_llctl unit LLD_SER_SEND b s else (E_BUSY, s) in
      (true, if err =? E_OK then s else upd_cb unit (upd_snd (buff_put b next)) s)
    else (false, upd_cb unit (upd_snd (set_sb_wait (tk_get_tid (k_s (se_k s))))) s) in
  (r, set_int unit true s).

(* src: device/ser/ser.c 256-280 write_data *)
Definition write_byte (unit pd : Z) : prog (SER U) Z :=
  while_true (
    r <-- step (λ s, write_section unit (k_mem (se_k s) pd) s) ;;
    if r : bool then Ret (Some E_OK)
    else
      err <-- sys (λ s k, let '(r, k') := tk_slp_tsk (sd_snd_tmo (se_cb s unit)) (k_s k) in (r, set_k_s k' k)) ;;
      Ret (if err =? E_OK then None else Some err)).

(* src: device/ser/ser.c 256-280 write_data *)
Fixpoint write_loop (n : nat) (unit pd : Z) : prog (SER U) (Z * Z) :=
  match n with
  | O => Ret (E_OK, 0)
  | S n' => err <-- write_byte unit pd ;; if err =? E_OK then write_loop n' unit (pd + 1) else Ret (err, Z.of_nat n)
  end.

(* src: device/ser/ser.c 241-293 write_data *)
Definition write_data (unit : Z) (req : T_DEVREQ) : prog (SER U) (Z * T_DEVREQ) :=
  if negb (rq_size req =? 0) then
    r <-- write_loop (Z.to_nat (u32 (rq_size req))) unit (rq_buf req) ;;
    Ret (r.1, set_rq_asize (rq_size req - r.2) req)
  else
    ssize <-- step (λ s, (let b := sd_snd (se_cb s unit) in sb_top b - sb_tail b, set_int unit true s)) ;;
    let ssize := if ssize <? 0 then ssize + DEVCONF_SER_BUFFSIZE else ssize in
    Ret (E_OK, set_rq_asize (DEVCONF_SER_BUFFSIZE - ssize) req).

(** ** The functions the device manager calls *)

(* src: device/ser/ser.c 301-316 dev_ser_openfn *)
Definition dev_ser_openfn (unit omode : Z) : prog (SER U) Z :=
  modify (upd_cb unit (λ d, upd_rcv buff_init (upd_snd buff_init (set_sd_omode omode d)))) ;;;
  step (dev_ser_llctl unit LLD_SER_START 0).

(* src: device/ser/ser.c 321-332 dev_ser_closefn *)
Definition dev_ser_closefn (unit option : Z) : prog (SER U) Z := step (dev_ser_llctl unit LLD_SER_STOP 0).

(* src: device/ser/ser.c 337-355 dev_ser_readfn *)
Definition dev_ser_readfn (unit : Z) (req : T_DEVREQ) : prog (SER U) (Z * T_DEVREQ) :=
  if 0 <=? rq_start req then
    omode <-- gets (λ s, sd_omode (se_cb s unit)) ;;
    if negb (Z.land omode TD_READ =? 0) then read_data unit req else Ret (E_OACV, req)
  else step (λ s, read_atr unit req s).

(* src: device/ser/ser.c 360-378 dev_ser_writefn *)
Definition dev_ser_writefn (unit : Z) (req : T_DEVREQ) : prog (SER U) (Z * T_DEVREQ) :=
  if 0 <=? rq_start req then
    omode <-- gets (λ s, sd_omode (se_cb s unit)) ;;
    if negb (Z.land omode TD_WRITE =? 0) then write_data unit req else Ret (E_OACV, req)
  else step (λ s, write_atr unit req s).

(* src: device/ser/ser.c 383-386 dev_ser_eventfn *)
Definition dev_ser_eventfn (unit evttyp evtinf : Z) : Z := E_NOSPT.

(** ** What a buffer holds *)

(** The bytes of a buffer, the oldest first. *)
Definition contents (b : T_SER_BUFF) : list Z :=
  map (λ i, sb_data b ((sb_tail b + i) mod DEVCONF_SER_BUFFSIZE)) (seqZ 0 ((sb_top b - sb_tail b) mod DEVCONF_SER_BUFFSIZE)).
Definition buff_ok (b : T_SER_BUFF) : Prop :=
  0 <= sb_top b < DEVCONF_SER_BUFFSIZE ∧ 0 <= sb_tail b < DEVCONF_SER_BUFFSIZE.

Lemma next_index_mod i : 0 <= i < DEVCONF_SER_BUFFSIZE → next_index i = (i + 1) mod DEVCONF_SER_BUFFSIZE.
Proof.
  unfold next_index, DEVCONF_SER_BUFFSIZE. intros Hi. destruct (Z.leb_spec 50 (i + 1)).
  - by replace (i + 1) with 50 by lia.
  - by rewrite Z.mod_small by lia.
Qed.

Lemma next_index_range i : 0 <= i < DEVCONF_SER_BUFFSIZE → 0 <= next_index i < DEVCONF_SER_BUFFSIZE.
Proof. unfold next_index, DEVCONF_SER_BUFFSIZE. intros Hi. destruct (Z.leb_spec 50 (i + 1)); lia. Qed.

Lemma length_contents b : Z.of_nat (length (contents b)) = (sb_top b - sb_tail b) mod DEVCONF_SER_BUFFSIZE.
Proof.
  unfold contents. rewrite length_map, length_seqZ.
  pose proof (Z.mod_pos_bound (sb_top b - sb_tail b) DEVCONF_SER_BUFFSIZE eq_refl). lia.
Qed.

Lemma used_bytes b : buff_ok b → (sb_top b - sb_tail b) mod DEVCONF_SER_BUFFSIZE =
  if sb_top b - sb_tail b <? 0 then sb_top b - sb_tail b + DEVCONF_SER_BUFFSIZE else sb_top b - sb_tail b.
Proof.
  unfold buff_ok, DEVCONF_SER_BUFFSIZE. intros [??]. destruct (Z.ltb_spec (sb_top b - sb_tail b) 0).
  - rewrite <- (Z.mod_add _ 1) by lia. rewrite Z.mod_small by lia. lia.
  - by rewrite Z.mod_small by lia.
Qed.

Lemma contents_nil b : buff_ok b → sb_top b = sb_tail b ↔ contents b = [].
Proof.
  intros Hb. pose proof (length_contents b) as Hl. rewrite used_bytes in Hl by done. destruct Hb as [H1 H2].
  unfold DEVCONF_SER_BUFFSIZE in *. split.
  - intros E. apply length_zero_iff_nil. rewrite E, Z.sub_diag in Hl. simpl in Hl. lia.
  - intros E. rewrite E in Hl. simpl in Hl. destruct (Z.ltb_spec (sb_top b - sb_tail b) 0); lia.
Qed.

Lemma contents_put b v : buff_ok b → next_index (sb_top b) ≠ sb_tail b →
  contents (buff_put v (next_index (sb_top b)) b) = contents b ++ [v] ∧ buff_ok (buff_put v (next_index (sb_top b)) b).
Proof.
  intros Hb Hf. split; [|by split; [apply next_index_range|]; apply Hb].
  set (n := (sb_top b - sb_tail b) mod DEVCONF_SER_BUFFSIZE). pose proof (used_bytes b Hb) as Hu. fold n in Hu.
  assert (Hn : (next_index (sb_top b) - sb_tail b) mod DEVCONF_SER_BUFFSIZE = n + 1).
  { rewrite next_index_mod, Zminus_mod_idemp_l by apply Hb.
    replace (sb_top b + 1 - sb_tail b) with (sb_top b - sb_tail b + 1) by lia. rewrite <- Zplus_mod_idemp_l. fold n.
    assert (n ≠ 49).
    { unfold next_index, buff_ok, DEVCONF_SER_BUFFSIZE in *.
      destruct (Z.leb_spec 50 (sb_top b + 1)), (Z.ltb_spec (sb_top b - sb_tail b) 0); lia. }
    pose proof (Z.mod_pos_bound (sb_top b - sb_tail b) DEVCONF_SER_BUFFSIZE eq_refl) as Hr. fold n in Hr.
    unfold DEVCONF_SER_BUFFSIZE in *. rewrite Z.mod_small; lia. }
  pose proof (Z.mod_pos_bound (sb_top b - sb_tail b) DEVCONF_SER_BUFFSIZE eq_refl) as Hr. fold n in Hr.
  unfold contents at 1. simpl. rewrite Hn, seqZ_app, map_app by lia. simpl.
  assert (Hat : ∀ i, 0 <= i < DEVCONF_SER_BUFFSIZE → (sb_tail b + i) mod DEVCONF_SER_BUFFSIZE = sb_top b ↔ i = n).
  { intros i Hi. assert (Ht : sb_top b = (sb_tail b + n) mod DEVCONF_SER_BUFFSIZE).
    { unfold n. rewrite Zplus_mod_idemp_r. replace (sb_tail b + (sb_top b - sb_tail b)) with (sb_top b) by lia.
      symmetry. apply Z.mod_small, Hb. }
    rewrite Ht at 1. split; [|by intros ->]. intros E. unfold DEVCONF_SER_BUFFSIZE in *.
    pose proof (Z.div_mod (sb_tail b + i) 50). pose proof (Z.div_mod (sb_tail b + n) 50). lia. }
  f_equal.
  - unfold contents. apply map_ext_in. intros i Hi. apply list_elem_of_In, elem_of_seqZ in Hi.
    rewrite fn_lookup_insert_ne; [done|]. intros E. symmetry in E. apply Hat in E; lia.
  - simpl. f_equal. rewrite !Z.add_0_l, (proj2 (Hat n Hr) eq_refl). by rewrite fn_lookup_insert.
Qed.

Lemma contents_take b : buff_ok b → sb_top b ≠ sb_tail b →
  contents b = sb_data b (sb_tail b) :: contents (set_sb_tail (next_index (sb_tail b)) b) ∧
  buff_ok (set_sb_tail (next_index (sb_tail b)) b).
Proof.
  intros Hb Hne. split; [|split; simpl; [apply Hb|apply next_index_range, Hb]].
  unfold contents. simpl. set (n := (sb_top b - sb_tail b) mod DEVCONF_SER_BUFFSIZE).
  pose proof (used_bytes b Hb) as Hu. fold n in Hu.
  pose proof (Z.mod_pos_bound (sb_top b - sb_tail b) DEVCONF_SER_BUFFSIZE eq_refl) as Hr. fold n in Hr.
  assert (Hp : 0 < n) by (destruct (Z.ltb_spec (sb_top b - sb_tail b) 0); unfold buff_ok, DEVCONF_SER_BUFFSIZE in *; lia).
  replace ((sb_top b - next_index (sb_tail b)) mod DEVCONF_SER_BUFFSIZE) with (n - 1).
  2: { rewrite next_index_mod, Zminus_mod_idemp_r by apply Hb.
       replace (sb_top b - (sb_tail b + 1)) with (sb_top b - sb_tail b - 1) by lia. rewrite <- Zminus_mod_idemp_l. fold n.
       unfold DEVCONF_SER_BUFFSIZE in *. symmetry. apply Z.mod_small. lia. }
  rewrite seqZ_cons by lia. simpl. f_equal.
  - rewrite Z.add_0_r. f_equal. apply Z.mod_small, Hb.
  - change (Z.succ 0) with (1 + 0). replace (n - 1) with (Z.pred n) by lia. rewrite <- (fmap_add_seqZ 1 0 (Z.pred n)). unfold fmap. change (list_fmap Z Z) with (@map Z Z). rewrite map_map.
    apply map_ext_in. intros i Hi. f_equal. rewrite next_index_mod, Zplus_mod_idemp_l by apply Hb. f_equal. lia.
Qed.

(** ** The steps of the driver *)

(** What matters of a UART: the bytes it was given to send, the room of its send FIFO, whether
    its event "send FIFO empty" is enabled, the bytes received that nobody took yet. *)
Record uview := mkView { v_sent : list Z; v_room : Z; v_armed : bool; v_pending : list Z }.

(** The documented behaviour of the vendor's routines.  [moves u u' l]: by itself the UART goes
    from [u] to [u'] and receives [l].  The send FIFO is larger than the driver's buffer, and
    with the threshold 0 the event comes when it is empty. *)
Class UartLaws := {
  uv : U → uview;
  moves : U → U → list Z → Prop;
  len_tx u : uart_ll_get_txfifo_len u = v_room (uv u);
  len_rx u : uart_ll_get_rxfifo_len u = Z.of_nat (length (v_pending (uv u)));
  write_tx b u : 0 < v_room (uv u) →
    uv (uart_ll_write_txfifo b u) = mkView (v_sent (uv u) ++ [b]) (v_room (uv u) - 1) (v_armed (uv u)) (v_pending (uv u));
  ena_tx u : uv (uart_ll_ena_intr_mask UART_INTR_TXFIFO_EMPTY u) = mkView (v_sent (uv u)) (v_room (uv u)) true (v_pending (uv u));
  dis_tx u : uv (uart_ll_disable_intr_mask UART_INTR_TXFIFO_EMPTY u) = mkView (v_sent (uv u)) (v_room (uv u)) false (v_pending (uv u));
  clr_sts sts u : uv (uart_ll_clr_intsts_mask sts u) = uv u;
  read_rx u b l : v_pending (uv u) = b :: l →
    0 <= b < 256 ∧ (uart_ll_read_rxfifo u).1 = b ∧
    uv (uart_ll_read_rxfifo u).2 = mkView (v_sent (uv u)) (v_room (uv u)) (v_armed (uv u)) l;
  empty_tx u : Z.land (uart_ll_get_intsts_mask u) UART_INTR_TXFIFO_EMPTY ≠ 0 → DEVCONF_SER_BUFFSIZE <= v_room (uv u);
  moves_view u u' l : moves u u' l →
    v_sent (uv u') = v_sent (uv u) ∧ v_room (uv u) <= v_room (uv u') ∧ v_armed (uv u') = v_armed (uv u) ∧
    v_pending (uv u') = v_pending (uv u) ++ l
}.

(** The bytes the writers handed over, the bytes the readers took, the bytes that arrived,
    and whether the handler ever left an overflow of the receive buffer to report. *)
Record history := mkH { h_written : list Z; h_taken : list Z; h_come : list Z; h_lost : bool }.

Definition overflow (s : SER U) : bool := Z.testbit (sd_com_error (se_cb s 0)) 7.

Context {UL : UartLaws}.

(** A round of [write_data] or [read_data] with the interrupt disabled, an attribute, the
    handler, the UART, and whatever the kernel and the tasks do elsewhere. *)
Inductive ser_step : SER U * history → SER U * history → Prop :=
  | step_write b s h : 0 <= b < 256 →
      ser_step (s, h) ((write_section 0 b s).2,
        if (write_section 0 b s).1 then mkH (h_written h ++ [b]) (h_taken h) (h_come h) (h_lost h) else h)
  | step_read pd s h r s' : read_section 0 (sb_tail (sd_rcv (se_cb s 0))) pd s = (r, s') →
      ser_step (s, h) (s',
        if r is Some _ then mkH (h_written h) (h_taken h ++ [k_mem (se_k s') pd]) (h_come h) (h_lost h) else h)
  | step_read_atr req s h : ser_step (s, h) ((read_atr 0 req s).2, h)
  | step_write_atr req s h : ser_step (s, h) ((write_atr 0 req s).2, h)
  | step_handler s h : se_int s 0 = true →
      ser_step (s, h) (uart_inthdr s, mkH (h_written h) (h_taken h) (h_come h) (h_lost h || overflow (uart_inthdr s)))
  | step_uart u l s h : moves (se_hw s 0) u l →
      ser_step (s, h) (upd_hw 0 (λ _, u) s, mkH (h_written h) (h_taken h) (h_come h ++ l) (h_lost h))
  | step_kernel k s h : ser_step (s, h) (set_se_k k s, h).

(** Right after the device was opened. *)
Record opened_serial (s : SER U) : Prop := {
  os_snd : sb_top (sd_snd (se_cb s 0)) = 0 ∧ sb_tail (sd_snd (se_cb s 0)) = 0;
  os_rcv : sb_top (sd_rcv (se_cb s 0)) = 0 ∧ sb_tail (sd_rcv (se_cb s 0)) = 0;
  os_sent : v_sent (uv (se_hw s 0)) = [];
  os_room : 0 < v_room (uv (se_hw s 0));
  os_pending : v_pending (uv (se_hw s 0)) = []
}.

Record ser_ok (s : SER U) (h : history) : Prop := {
  so_snd : buff_ok (sd_snd (se_cb s 0));
  so_rcv : buff_ok (sd_rcv (se_cb s 0));
  so_bytes : Forall (λ b, 0 <= b < 256) (contents (sd_snd (se_cb s 0)));
  so_sent : v_sent (uv (se_hw s 0)) ++ contents (sd_snd (se_cb s 0)) = h_written h;
  so_armed : v_armed (uv (se_hw s 0)) = false → contents (sd_snd (se_cb s 0)) = [] ∧ 0 < v_room (uv (se_hw s 0));
  so_taken : sublist (h_taken h ++ contents (sd_rcv (se_cb s 0)) ++ v_pending (uv (se_hw s 0))) (h_come h);
  so_all : h_lost h = false →
    h_taken h ++ contents (sd_rcv (se_cb s 0)) ++ v_pending (uv (se_hw s 0)) = h_come h
}.

(** *** The handler *)

Lemma wup_waiter_frame t s :
  se_cb (wup_waiter t s) = se_cb s ∧ se_hw (wup_waiter t s) = se_hw s ∧ se_int (wup_waiter t s) = se_int s.
Proof. unfold wup_waiter. by destruct (t =? 0). Qed.

#[local] Arguments Z.testbit : simpl never.
Ltac ser_simpl :=
  repeat (rewrite ?(proj1 (wup_waiter_frame _ _)), ?(proj1 (proj2 (wup_waiter_frame _ _))); simpl; rewrite ?fn_lookup_insert); simpl.

(** A byte leaves the send buffer; the rest is as it was. *)
Lemma get_snddat_spec s : buff_ok (sd_snd (se_cb s 0)) →
  se_hw (dev_ser_get_snddat 0 s).2 = se_hw s ∧
  sd_rcv (se_cb (dev_ser_get_snddat 0 s).2 0) = sd_rcv (se_cb s 0) ∧
  sd_com_error (se_cb (dev_ser_get_snddat 0 s).2 0) = sd_com_error (se_cb s 0) ∧
  buff_ok (sd_snd (se_cb (dev_ser_get_snddat 0 s).2 0)) ∧
  match (dev_ser_get_snddat 0 s).1 with
  | Some b => contents (sd_snd (se_cb s 0)) = b :: contents (sd_snd (se_cb (dev_ser_get_snddat 0 s).2 0))
  | None => contents (sd_snd (se_cb s 0)) = [] ∧ (dev_ser_get_snddat 0 s).2 = s
  end.
Proof.
  intros Hb. unfold dev_ser_get_snddat. destruct (Z.eqb_spec (sb_top (sd_snd (se_cb s 0))) (sb_tail (sd_snd (se_cb s 0)))) as [E|E]; simpl.
  - split_and!; try done. by apply contents_nil.
  - destruct (contents_take _ Hb E) as [Hc Hok]. ser_simpl. by split_and!.
Qed.

Lemma u8_byte x : 0 <= x < 256 → u8 x = x.
Proof. intros ?. unfold u8. rewrite Z.mod_small; lia. Qed.

(** The rounds end because the buffer is empty: the FIFO has room for all of it. *)
Lemma tx_loop_spec n s :
  buff_ok (sd_snd (se_cb s 0)) → Forall (λ b, 0 <= b < 256) (contents (sd_snd (se_cb s 0))) →
  (length (contents (sd_snd (se_cb s 0))) < n)%nat →
  Z.of_nat (length (contents (sd_snd (se_cb s 0)))) < v_room (uv (se_hw s 0)) →
  let s' := tx_loop n 0 s in
  uv (se_hw s' 0) = mkView (v_sent (uv (se_hw s 0)) ++ contents (sd_snd (se_cb s 0)))
    (v_room (uv (se_hw s 0)) - Z.of_nat (length (contents (sd_snd (se_cb s 0)))))
    (v_armed (uv (se_hw s 0))) (v_pending (uv (se_hw s 0))) ∧
  contents (sd_snd (se_cb s' 0)) = [] ∧ buff_ok (sd_snd (se_cb s' 0)) ∧
  sd_rcv (se_cb s' 0) = sd_rcv (se_cb s 0) ∧ sd_com_error (se_cb s' 0) = sd_com_error (se_cb s 0).
Proof.
  revert s. induction n as [|n IH]; intros s Hb Hbytes Hn Hroom; [lia|]. simpl.
  rewrite len_tx. rewrite (proj2 (Z.ltb_lt _ _)) by lia.
  destruct (get_snddat_spec s Hb) as (Ehw & Ercv & Eerr & Hb' & Hr).
  destruct (dev_ser_get_snddat 0 s) as [[b|] s1]; simpl in *.
  - rewrite Hr in Hbytes, Hn, Hroom. apply Forall_cons in Hbytes as [Hbyte Hbytes]. simpl in Hn, Hroom.
    assert (Hw : uv (se_hw (upd_hw 0 (uart_ll_write_txfifo (u8 b)) s1) 0) =
      mkView (v_sent (uv (se_hw s 0)) ++ [b]) (v_room (uv (se_hw s 0)) - 1) (v_armed (uv (se_hw s 0))) (v_pending (uv (se_hw s 0)))).
    { ser_simpl. rewrite Ehw, u8_byte by done. apply write_tx. lia. }
    destruct (IH (upd_hw 0 (uart_ll_write_txfifo (u8 b)) s1)) as (H1 & H2 & H3 & H4 & H5); [done|done|simpl; lia|rewrite Hw; simpl; lia|].
    rewrite H1, Hw. simpl. split_and!; [|done|done|by rewrite H4|by rewrite H5].
    rewrite Hr, <- app_assoc. simpl. f_equal. lia.
  - destruct Hr as [Hc ->]. rewrite Hc. simpl. split_and!; try done. rewrite app_nil_r, Z.sub_0_r. by destruct (uv (se_hw s 0)).
Qed.

(** A byte that arrived enters the receive buffer, or the overflow is noted. *)
Lemma notify_rcv_spec b s : 0 <= b < 256 → buff_ok (sd_rcv (se_cb s 0)) →
  let s' := dev_ser_notify_rcv 0 b s in
  se_hw s' = se_hw s ∧ sd_snd (se_cb s' 0) = sd_snd (se_cb s 0) ∧ buff_ok (sd_rcv (se_cb s' 0)) ∧
  (overflow s = true → overflow s' = true) ∧
  (contents (sd_rcv (se_cb s' 0)) = contents (sd_rcv (se_cb s 0)) ++ [b] ∨
   contents (sd_rcv (se_cb s' 0)) = contents (sd_rcv (se_cb s 0)) ∧ overflow s' = true).
Proof.
  intros Hbyte Hb. unfold dev_ser_notify_rcv, dev_ser_notify_err, overflow.
  destruct (Z.eqb_spec (next_index (sb_top (sd_rcv (se_cb s 0)))) (sb_tail (sd_rcv (se_cb s 0)))) as [E|E]; simpl; ser_simpl.
  - split_and!; [done..| |right; split; [done|]]; rewrite Z.lor_spec; intros; by rewrite orb_true_r.
  - rewrite u8_byte by done. destruct (contents_put _ b Hb E) as [Hc Hok]. split_and!; [done..|]. by left.
Qed.

(** The rounds take all that is pending. *)
Lemma rx_loop_spec n s : buff_ok (sd_rcv (se_cb s 0)) → length (v_pending (uv (se_hw s 0))) = n →
  let s' := rx_loop n 0 s in
  uv (se_hw s' 0) = mkView (v_sent (uv (se_hw s 0))) (v_room (uv (se_hw s 0))) (v_armed (uv (se_hw s 0))) [] ∧
  sd_snd (se_cb s' 0) = sd_snd (se_cb s 0) ∧ buff_ok (sd_rcv (se_cb s' 0)) ∧
  (overflow s = true → overflow s' = true) ∧
  ∃ kept, contents (sd_rcv (se_cb s' 0)) = contents (sd_rcv (se_cb s 0)) ++ kept ∧
    sublist kept (v_pending (uv (se_hw s 0))) ∧ (overflow s' = false → kept = v_pending (uv (se_hw s 0))).
Proof.
  revert s. induction n as [|n IH]; intros s Hb Hn; simpl.
  - apply length_zero_iff_nil in Hn. split_and!; [rewrite <- Hn; by destruct (uv (se_hw s 0))|done..|].
    exists []. by rewrite app_nil_r, Hn.
  - destruct (v_pending (uv (se_hw s 0))) as [|b l] eqn:Ep; [done|].
    rewrite len_rx, Ep. simpl. destruct (read_rx _ _ _ Ep) as (Hbyte & Eb & Eu).
    destruct (uart_ll_read_rxfifo (se_hw s 0)) as [b' u] eqn:Er. simpl in Eb, Eu. subst b'.
    set (s0 := upd_hw 0 (λ _, u) s). assert (E0 : se_hw s0 0 = u) by (unfold s0; ser_simpl; done).
    destruct (notify_rcv_spec b s0 Hbyte Hb) as (Ehw & Esnd & Hb1 & Ho1 & Hc1). set (s1 := dev_ser_notify_rcv 0 b s0) in *.
    assert (E1 : uv (se_hw s1 0) = mkView (v_sent (uv (se_hw s 0))) (v_room (uv (se_hw s 0))) (v_armed (uv (se_hw s 0))) l)
      by (rewrite Ehw, E0; exact Eu).
    destruct (IH s1 Hb1) as (H1 & H2 & H3 & H4 & kept & H5 & H6 & H7); [rewrite E1; simpl in *; lia|].
    rewrite E1 in H1, H6, H7. simpl in H1, H6, H7.
    split_and!; [done|by rewrite H2|done|intros Ho; by apply H4, Ho1|]. rewrite H5. destruct Hc1 as [-> | [-> Ho]].
    + exists (b :: kept). rewrite <- app_assoc. split_and!; [done|by apply sublist_skip|intros Ho'; by rewrite H7].
    + exists kept. split_and!; [done|by apply sublist_cons|]. intros Ho'. by rewrite (H4 Ho) in Ho'.
Qed.

(** What was sent and what waits to be sent make up what was written; what waits is sent
    in time. *)
Definition sending (s : SER U) (written : list Z) : Prop :=
  buff_ok (sd_snd (se_cb s 0)) ∧ Forall (λ b, 0 <= b < 256) (contents (sd_snd (se_cb s 0))) ∧
  v_sent (uv (se_hw s 0)) ++ contents (sd_snd (se_cb s 0)) = written ∧
  (v_armed (uv (se_hw s 0)) = false → contents (sd_snd (se_cb s 0)) = [] ∧ 0 < v_room (uv (se_hw s 0))).

(** What was received and not taken. *)
Definition received (s : SER U) : list Z := contents (sd_rcv (se_cb s 0)) ++ v_pending (uv (se_hw s 0)).

Lemma ser_ok_intro s h : sending s (h_written h) → buff_ok (sd_rcv (se_cb s 0)) →
  sublist (h_taken h ++ received s) (h_come h) → (h_lost h = false → h_taken h ++ received s = h_come h) → ser_ok s h.
Proof. intros (H1 & H2 & H3 & H4) Hb Ht Ha. by constructor. Qed.

Lemma ser_ok_sending s h : ser_ok s h → sending s (h_written h).
Proof. by intros []. Qed.

(** The part of the handler for the bytes that came. *)
Lemma handler_rx sts s w : sending s w → buff_ok (sd_rcv (se_cb s 0)) →
  let s' := if Z.land sts RX_INTR_MASK =? 0 then s else rx_loop (Z.to_nat (uart_ll_get_rxfifo_len (se_hw s 0))) 0 s in
  sending s' w ∧ buff_ok (sd_rcv (se_cb s' 0)) ∧ v_room (uv (se_hw s' 0)) = v_room (uv (se_hw s 0)) ∧
  ∃ l, received s' = contents (sd_rcv (se_cb s 0)) ++ l ∧ sublist l (v_pending (uv (se_hw s 0))) ∧
    (overflow s' = false → l = v_pending (uv (se_hw s 0))).
Proof.
  intros Hs Hb s'. subst s'. destruct (Z.land sts RX_INTR_MASK =? 0).
  { split; [exact Hs|]. split; [exact Hb|]. split; [done|]. by exists (v_pending (uv (se_hw s 0))). }
  rewrite len_rx, Nat2Z.id.
  destruct (rx_loop_spec _ s Hb eq_refl) as (H1 & H2 & H3 & _ & kept & H5 & H6 & H7).
  unfold sending, received. rewrite H1, H2. split; [exact Hs|]. split; [done|]. split; [done|].
  exists kept. simpl. by rewrite app_nil_r.
Qed.

(** The part for the bytes to send. *)
Lemma handler_tx sts s w : sending s w →
  (Z.land sts UART_INTR_TXFIFO_EMPTY ≠ 0 → DEVCONF_SER_BUFFSIZE <= v_room (uv (se_hw s 0))) →
  let s' := if Z.land sts UART_INTR_TXFIFO_EMPTY =? 0 then s
            else upd_hw 0 (uart_ll_disable_intr_mask UART_INTR_TXFIFO_EMPTY) (tx_loop (Z.to_nat DEVCONF_SER_BUFFSIZE) 0 s) in
  sending s' w ∧ sd_rcv (se_cb s' 0) = sd_rcv (se_cb s 0) ∧ received s' = received s ∧ overflow s' = overflow s.
Proof.
  intros (Hb & Hbytes & Hsent & Harm) Hroom s'. subst s'. destruct (Z.eqb_spec (Z.land sts UART_INTR_TXFIFO_EMPTY) 0) as [E|E].
  { done. }
  specialize (Hroom E). pose proof (length_contents (sd_snd (se_cb s 0))) as Hl.
  pose proof (Z.mod_pos_bound (sb_top (sd_snd (se_cb s 0)) - sb_tail (sd_snd (se_cb s 0))) DEVCONF_SER_BUFFSIZE eq_refl) as Hr.
  destruct (tx_loop_spec (Z.to_nat DEVCONF_SER_BUFFSIZE) s) as (H1 & H2 & H3 & H4 & H5); [done|done|lia|lia|].
  set (s1 := tx_loop _ 0 s) in *. unfold sending, received, overflow. ser_simpl. rewrite dis_tx, H1, H2, H4, H5. simpl.
  split; [|done]. split; [done|]. split; [done|]. split; [by rewrite app_nil_r|]. intros _. split; [done|lia].
Qed.

Lemma handler_ok s h : ser_ok s h →
  ser_ok (uart_inthdr s) (mkH (h_written h) (h_taken h) (h_come h) (h_lost h || overflow (uart_inthdr s))).
Proof.
  intros Hok. pose proof (ser_ok_sending s h Hok) as Hs.
  unfold uart_inthdr. set (sts := uart_ll_get_intsts_mask (se_hw s 0)).
  destruct (handler_rx sts s _ Hs (so_rcv s h Hok)) as (Hs1 & Hb1 & Hroom & l & Hl & Hsub & Hall). revert Hs1 Hb1 Hroom Hl Hall.
  set (s1 := if _ =? 0 then s else _). intros Hs1 Hb1 Hroom Hl Hall.
  destruct (handler_tx sts s1 _ Hs1) as (Hs2 & Hb2 & Hr2 & Ho2).
  { intros E. rewrite Hroom. by apply empty_tx. }
  revert Hs2 Hb2 Hr2 Ho2. set (s2 := if _ =? 0 then s1 else _). intros Hs2 Hb2 Hr2 Ho2.
  set (s3 := if _ =? 0 then s2 else _).
  assert (H3 : se_hw s3 = se_hw s2 ∧ sd_snd (se_cb s3 0) = sd_snd (se_cb s2 0) ∧ sd_rcv (se_cb s3 0) = sd_rcv (se_cb s2 0) ∧
    (overflow s3 = false → overflow s2 = false)).
  { unfold s3. destruct (Z.land sts ERR_INTR_MASK =? 0); [done|]. unfold dev_ser_notify_err, overflow. ser_simpl.
    split_and!; [done..|]. rewrite Z.lor_spec. by intros [? _]%orb_false_iff. }
  destruct H3 as (Ehw & Esnd & Ercv & Ho3). set (s4 := upd_hw _ _ s3).
  assert (E4 : uv (se_hw s4 0) = uv (se_hw s2 0)) by (unfold s4; ser_simpl; by rewrite clr_sts, Ehw).
  assert (Hr4 : received s4 = contents (sd_rcv (se_cb s 0)) ++ l).
  { rewrite <- Hl, <- Hr2. unfold received. rewrite E4. change (se_cb s4) with (se_cb s3). by rewrite Ercv. }
  assert (Ho4 : overflow s4 = false → l = v_pending (uv (se_hw s 0))) by (intros Ho; by apply Hall; rewrite <- Ho2; apply Ho3).
  apply ser_ok_intro; simpl.
  - unfold sending. rewrite E4. change (se_cb s4) with (se_cb s3). rewrite Esnd. exact Hs2.
  - change (se_cb s4) with (se_cb s3). by rewrite Ercv, Hb2.
  - rewrite Hr4. etrans; [|apply (so_taken s h Hok)]. by apply sublist_app, sublist_app.
  - intros [Hlost Ho]%orb_false_iff. rewrite Hr4, (Ho4 Ho). by apply (so_all s h Hok).
Qed.

(** *** The rounds of the tasks *)

Lemma write_section_ok b s h : 0 <= b < 256 → ser_ok s h →
  ser_ok (write_section 0 b s).2
    (if (write_section 0 b s).1 then mkH (h_written h ++ [b]) (h_taken h) (h_come h) (h_lost h) else h).
Proof.
  intros Hbyte Hok. pose proof Hok as [Hb Hr Hbytes Hsent Harm Htaken Hall]. unfold write_section.
  destruct (Z.eqb_spec (next_index (sb_top (sd_snd (se_cb s 0)))) (sb_tail (sd_snd (se_cb s 0)))) as [En|En]; simpl.
  { apply ser_ok_intro; unfold sending, received; simpl; rewrite ?fn_lookup_insert; done. }
  destruct (contents_put _ b Hb En) as [Hc Hb'].
  assert (Hput : ser_ok (upd_cb 0 (upd_snd (buff_put b (next_index (sb_top (sd_snd (se_cb s 0)))))) s)
                   (mkH (h_written h ++ [b]) (h_taken h) (h_come h) (h_lost h)) ∨
                 contents (sd_snd (se_cb s 0)) = [] ∧ 0 < v_room (uv (se_hw s 0))).
  { destruct (v_armed (uv (se_hw s 0))) eqn:Ea; [left|right; by apply Harm].
    apply ser_ok_intro; unfold sending, received; simpl; rewrite ?fn_lookup_insert; [|done..].
    simpl. rewrite Hc, app_assoc, Hsent. split; [exact Hb'|]. split; [apply Forall_app; split; [done|by constructor]|]. split; [done|]. by rewrite Ea. }
  destruct (Z.eqb_spec (sb_top (sd_snd (se_cb s 0))) (sb_tail (sd_snd (se_cb s 0)))) as [Et|Et]; simpl.
  - rewrite len_tx. apply contents_nil in Et; [|done]. destruct (Z.ltb_spec 0 (v_room (uv (se_hw s 0)))) as [Hroom|Hroom]; simpl.
    + apply ser_ok_intro; unfold sending, received; simpl; rewrite ?fn_lookup_insert, ?ena_tx, ?write_tx by done; simpl; [|done..].
      rewrite u8_byte by done. rewrite Et, app_nil_r in *. rewrite Hsent. split; [exact Hb|]. by split_and!.
    + destruct Hput as [[H1 H2 H3 H4 H5 H6 H7]|[_ ?]]; [by constructor|lia].
  - destruct Hput as [[H1 H2 H3 H4 H5 H6 H7]|[Hnil _]]; [by constructor|]. by apply contents_nil in Hnil.
Qed.

Lemma read_section_ok pd s h r s' : ser_ok s h → read_section 0 (sb_tail (sd_rcv (se_cb s 0))) pd s = (r, s') →
  ser_ok s' (if r is Some _ then mkH (h_written h) (h_taken h ++ [k_mem (se_k s') pd]) (h_come h) (h_lost h) else h).
Proof.
  intros [Hb Hr Hbytes Hsent Harm Htaken Hall]. unfold read_section.
  destruct (Z.eqb_spec (sb_top (sd_rcv (se_cb s 0))) (sb_tail (sd_rcv (se_cb s 0)))) as [E|E]; simpl; intros [= <- <-];
    apply ser_ok_intro; unfold sending, received; simpl; rewrite ?fn_lookup_insert; simpl; try done.
  all: destruct (contents_take _ Hr E) as [Hc Hr']; rewrite Hc in Htaken, Hall; rewrite <- ?app_assoc; done.
Qed.

(** The break has no size: it is refused before it is looked at. *)
Lemma atr_start req req' : set_atr_size req = inr req' →
  rq_start req' = rq_start req ∧ (rq_start req' =? TDN_SER_BREAK) = false.
Proof.
  unfold set_atr_size. intros E. destruct (Z.eqb_spec (rq_start req) TDN_SER_BREAK) as [Eb|Eb].
  - by rewrite Eb in E.
  - assert (Hs : rq_start req' = rq_start req).
    { destruct (_ =? _); [by injection E as <-|]. destruct (_ || _ || _); [by injection E as <-|].
      destruct (_ || _); [by injection E as <-|done]. }
    rewrite Hs. split; [done|]. by apply Z.eqb_neq.
Qed.

Lemma atr_frame req s :
  (se_hw (read_atr 0 req s).2 = se_hw s ∧ sd_snd (se_cb (read_atr 0 req s).2 0) = sd_snd (se_cb s 0) ∧
   sd_rcv (se_cb (read_atr 0 req s).2 0) = sd_rcv (se_cb s 0)) ∧
  (se_hw (write_atr 0 req s).2 = se_hw s ∧ sd_snd (se_cb (write_atr 0 req s).2 0) = sd_snd (se_cb s 0) ∧
   sd_rcv (se_cb (write_atr 0 req s).2 0) = sd_rcv (se_cb s 0)).
Proof.
  unfold read_atr, write_atr. pose proof (atr_start req) as Hst. destruct (set_atr_size req) as [|req']; [done|].
  destruct (Hst req' eq_refl) as [_ ->]. destruct (rq_size req' =? 0); [done|].
  split; repeat (destruct (_ =? _); [simpl; rewrite ?fn_lookup_insert; done|]); done.
Qed.

Lemma atr_ok s s' h : se_hw s' = se_hw s ∧ sd_snd (se_cb s' 0) = sd_snd (se_cb s 0) ∧ sd_rcv (se_cb s' 0) = sd_rcv (se_cb s 0) →
  ser_ok s h → ser_ok s' h.
Proof. intros (E1 & E2 & E3) []. constructor; by rewrite ?E1, ?E2, ?E3. Qed.

Lemma ser_step_ok x y : ser_step x y → ser_ok x.1 x.2 → ser_ok y.1 y.2.
Proof.
  intros [b s h Hb|pd s h r s' E|req s h|req s h|s h _|u l s h Hm|k s h] Hok; simpl in *.
  - by apply write_section_ok.
  - by eapply read_section_ok.
  - by apply (atr_ok s), Hok; apply atr_frame.
  - by apply (atr_ok s), Hok; apply atr_frame.
  - by apply handler_ok.
  - destruct (moves_view _ _ _ Hm) as (E1 & E2 & E3 & E4). destruct Hok as [Hb Hr Hbytes Hsent Harm Htaken Hall].
    apply ser_ok_intro; unfold sending, received; simpl; rewrite ?fn_lookup_insert; [|done|..].
    + rewrite E1, E3. split; [exact Hb|]. split; [done|]. split; [done|]. intros Ha. destruct (Harm Ha). split; [done|lia].
    + rewrite E4, !app_assoc. rewrite <- (app_assoc (h_taken h)). by apply sublist_app.
    + rewrite E4, !app_assoc. rewrite <- (app_assoc (h_taken h)). intros Ha. by rewrite Hall.
  - by destruct Hok; constructor.
Qed.

Lemma opened_serial_ok s : opened_serial s → ser_ok s (mkH [] [] [] false).
Proof.
  intros [[S1 S2] [R1 R2] Hs Hroom Hp].
  assert (Hn : ∀ b, sb_top b = 0 → sb_tail b = 0 → buff_ok b ∧ contents b = []).
  { intros b E1 E2. assert (buff_ok b) by (by unfold buff_ok; rewrite E1, E2). split; [done|]. apply contents_nil; [done|]. by rewrite E1. }
  destruct (Hn _ S1 S2) as [Hb1 E1], (Hn _ R1 R2) as [Hb2 E2].
  apply ser_ok_intro; unfold sending, received; rewrite ?E1, ?E2, ?Hs, ?Hp; simpl; [|done..]. split; [exact Hb1|]. by split_and!.
Qed.

(** C23: once the device is open, whatever the order of writers, readers, attributes, the
    interrupt handler and the UART itself: the bytes given to the UART and those in the send
    buffer are exactly the bytes written, in order, and while the send buffer holds bytes the
    event that empties it is enabled, so they are not stranded; the bytes the readers took,
    those in the receive buffer and those in the UART are the bytes that arrived in order,
    some of them lost only if the driver noted DEV_SER_ERR_ROVR. *)
Theorem serial_in_order s0 s h : opened_serial s0 → rtc ser_step (s0, mkH [] [] [] false) (s, h) →
  v_sent (uv (se_hw s 0)) ++ contents (sd_snd (se_cb s 0)) = h_written h ∧
  (contents (sd_snd (se_cb s 0)) ≠ [] → v_armed (uv (se_hw s 0)) = true) ∧
  sublist (h_taken h ++ contents (sd_rcv (se_cb s 0)) ++ v_pending (uv (se_hw s 0))) (h_come h) ∧
  (h_lost h = false → h_taken h ++ contents (sd_rcv (se_cb s 0)) ++ v_pending (uv (se_hw s 0)) = h_come h).
Proof.
  intros Ho Hr. assert (Hall : ∀ x, rtc ser_step (s0, mkH [] [] [] false) x → ser_ok x.1 x.2).
  { apply rtc_ind_r; [by apply opened_serial_ok|]. intros x y _ Hxy. by apply ser_step_ok. }
  pose proof (Hall _ Hr) as Hok. simpl in Hok.
  destruct Hok as [_ _ _ Hs Ha Ht Hl]. split_and!; try done.
  intros Hne. destruct (v_armed _); [done|]. by destruct (Ha eq_refl).
Qed.

(** ** Reading *)

(** The running task polls: its reads do not wait, and no wake-up of it is pending. *)
Record polls (unit : Z) (s : SER U) : Prop := {
  po_tmo : sd_rcv_tmo (se_cb s unit) = TMO_POL;
  po_ddsp : in_ddsp (k_s (se_k s)) = false;
  po_wup : t_wupcnt (s_tcb (k_s (se_k s)) (ctx (k_s (se_k s)))) = 0;
  po_runs : waiting (s_tcb (k_s (se_k s)) (ctx (k_s (se_k s)))) = false
}.

(** [m] bytes were taken from the receive buffer into the memory at [pd]. *)
Record got (unit pd : Z) (m : nat) (s s' : SER U) : Prop := {
  got_ok : buff_ok (sd_rcv (se_cb s' unit));
  got_rest : contents (sd_rcv (se_cb s' unit)) = drop m (contents (sd_rcv (se_cb s unit)));
  got_bytes : ∀ j x, (j < m)%nat → contents (sd_rcv (se_cb s unit)) !! j = Some x → k_mem (se_k s') (pd + Z.of_nat j) = x;
  got_mem : ∀ a, ¬ (pd <= a < pd + Z.of_nat m) → k_mem (se_k s') a = k_mem (se_k s) a;
  got_kernel : k_s (se_k s') = k_s (se_k s);
  got_hw : se_hw s' = se_hw s ∧ sd_snd (se_cb s' unit) = sd_snd (se_cb s unit);
  got_tmo : sd_rcv_tmo (se_cb s' unit) = sd_rcv_tmo (se_cb s unit)
}.

Lemma read_byte_some unit pd s : buff_ok (sd_rcv (se_cb s unit)) → contents (sd_rcv (se_cb s unit)) ≠ [] →
  ∃ s', yields (read_byte unit (sb_tail (sd_rcv (se_cb s unit))) pd) s (inr (sb_tail (sd_rcv (se_cb s' unit)))) s' ∧
    got unit pd 1 s s' ∧ sb_wait_tskid (sd_rcv (se_cb s' unit)) = sb_wait_tskid (sd_rcv (se_cb s unit)).
Proof.
  intros Hb Hne. set (b := sd_rcv (se_cb s unit)) in *.
  assert (E : sb_top b ≠ sb_tail b) by (intros E; by apply Hne, contents_nil).
  destruct (contents_take b Hb E) as [Hc Hok].
  set (s1 := set_int unit true (upd_cb unit (upd_rcv (set_sb_tail (next_index (sb_tail b))))
    (set_se_k (upd_mem (<[pd := sb_data b (sb_tail b)]>) (se_k s)) s))).
  assert (E1 : sd_rcv (se_cb s1 unit) = set_sb_tail (next_index (sb_tail b)) b) by (unfold s1; ser_simpl; done).
  exists s1. split; [|split; [|by rewrite E1]].
  - apply (yields_loop _ _ _ (Some (inr (sb_tail (sd_rcv (se_cb s1 unit))))) s1); [|apply yields_ret].
    eapply (yields_step _ _ _ (Some (next_index (sb_tail b))) s1).
    + unfold read_section. fold b. by rewrite (proj2 (Z.eqb_neq _ _) E).
    + rewrite E1. apply yields_ret.
  - constructor; rewrite ?E1; fold b.
    + done.
    + by rewrite Hc.
    + intros [|j] x Hj; [|lia]. rewrite Hc. simpl. intros [= <-]. rewrite Z.add_0_r. by rewrite fn_lookup_insert.
    + intros a Ha. simpl. apply fn_lookup_insert_ne. lia.
    + done.
    + split; [done|]. unfold s1. by ser_simpl.
    + unfold s1. by ser_simpl.
Qed.

Lemma read_byte_none unit pd s : buff_ok (sd_rcv (se_cb s unit)) → contents (sd_rcv (se_cb s unit)) = [] → polls unit s →
  ∃ s', yields (read_byte unit (sb_tail (sd_rcv (se_cb s unit))) pd) s (inl E_TMOUT) s' ∧
    got unit pd 0 s s' ∧ sb_wait_tskid (sd_rcv (se_cb s' unit)) = tk_get_tid (k_s (se_k s)).
Proof.
  intros Hb Hn [Htmo Hd Hw Hr]. set (b := sd_rcv (se_cb s unit)) in *. apply contents_nil in Hn; [|done].
  set (s1 := set_int unit true (upd_cb unit (upd_rcv (set_sb_wait (tk_get_tid (k_s (se_k s))))) s)).
  assert (E1 : sd_rcv (se_cb s1 unit) = set_sb_wait (tk_get_tid (k_s (se_k s))) b) by (unfold s1; ser_simpl; done).
  assert (Et : sd_rcv_tmo (se_cb s1 unit) = TMO_POL) by (unfold s1; ser_simpl; exact Htmo).
  exists s1. split; [|split; [|by rewrite E1]].
  - apply (yields_loop _ _ _ (Some (inl E_TMOUT)) s1); [|apply yields_ret].
    eapply (yields_step _ _ _ None s1).
    + unfold read_section. fold b. by rewrite Hn, Z.eqb_refl.
    + eapply (yields_step _ _ _ (E_TMOUT, false) s1); [|apply yields_ret].
      rewrite Et. change (the_k s1) with (se_k s). unfold tk_slp_tsk. simpl. rewrite Hd, Hw. simpl.
      rewrite Hr. unfold s1, set_int, upd_cb, set_se_k. simpl. by destruct (se_k s).
  - constructor; rewrite ?E1; fold b; try done.
    + intros j x Hj. lia.
    + split; [done|]. unfold s1. by ser_simpl.
    + by rewrite Et.
Qed.

Lemma polls_got unit pd m s s' : got unit pd m s s' → polls unit s → polls unit s'.
Proof. intros [] []. constructor; congruence. Qed.

Lemma got_trans unit pd m s s1 s2 : got unit pd 1 s s1 → got unit (pd + 1) m s1 s2 → got unit pd (S m) s s2.
Proof.
  intros G1 G2. constructor.
  - apply (got_ok _ _ _ _ _ G2).
  - rewrite (got_rest _ _ _ _ _ G2), (got_rest _ _ _ _ _ G1), drop_drop. done.
  - intros j x Hj Hx. destruct j as [|j].
    + rewrite (got_mem _ _ _ _ _ G2) by lia. apply (got_bytes _ _ _ _ _ G1); [lia|done].
    + replace (pd + Z.of_nat (S j)) with (pd + 1 + Z.of_nat j) by lia. apply (got_bytes _ _ _ _ _ G2); [lia|].
      by rewrite (got_rest _ _ _ _ _ G1), lookup_drop.
  - intros a Ha. rewrite (got_mem _ _ _ _ _ G2), (got_mem _ _ _ _ _ G1) by lia. done.
  - by rewrite (got_kernel _ _ _ _ _ G2), (got_kernel _ _ _ _ _ G1).
  - destruct (got_hw _ _ _ _ _ G2) as [-> ->]. apply (got_hw _ _ _ _ _ G1).
  - by rewrite (got_tmo _ _ _ _ _ G2), (got_tmo _ _ _ _ _ G1).
Qed.

(** [n] bytes asked for: as many as there are, and the poll's error when there are too few;
    then the task stays noted as the one that waits. *)
Lemma read_loop_spec unit n : ∀ s pd, buff_ok (sd_rcv (se_cb s unit)) → polls unit s →
  let len := length (contents (sd_rcv (se_cb s unit))) in
  ∃ s', yields (read_loop n unit (sb_tail (sd_rcv (se_cb s unit))) pd) s
          (if bool_decide (n <= len)%nat then (E_OK, 0) else (E_TMOUT, Z.of_nat (n - len))) s' ∧
    got unit pd (n `min` len) s s' ∧
    (¬ (n <= len)%nat → sb_wait_tskid (sd_rcv (se_cb s' unit)) = tk_get_tid (k_s (se_k s))).
Proof.
  induction n as [|n IH]; intros s pd Hb Hp len; cbn [read_loop].
  - exists s. rewrite bool_decide_true by lia. split; [apply yields_ret|]. split; [|lia].
    by constructor; try done; intros j; lia.
  - destruct (decide (contents (sd_rcv (se_cb s unit)) = [])) as [En|En].
    + destruct (read_byte_none unit pd s Hb En Hp) as (s' & Hy & Hg & Hw). exists s'. subst len. rewrite En. cbn [length].
      rewrite bool_decide_false, Nat.sub_0_r, Nat.min_0_r by lia.
      split; [apply (yields_bind _ _ _ (inl E_TMOUT) s'); [exact Hy|apply yields_ret]|]. by split.
    + destruct (read_byte_some unit pd s Hb En) as (s1 & Hy & Hg & _).
      destruct (IH s1 (pd + 1) (got_ok _ _ _ _ _ Hg) (polls_got _ _ _ _ _ Hg Hp)) as (s2 & Hy2 & Hg2 & Hw2).
      assert (El : len = S (length (contents (sd_rcv (se_cb s1 unit))))).
      { subst len. rewrite (got_rest _ _ _ _ _ Hg), length_drop. destruct (contents _); [done|simpl; lia]. }
      rewrite El. set (l1 := length (contents (sd_rcv (se_cb s1 unit)))) in *.
      exists s2. split; [|split].
      * apply (yields_bind _ _ _ (inr (sb_tail (sd_rcv (se_cb s1 unit)))) s1); [exact Hy|].
        rewrite (bool_decide_ext _ (n <= l1)%nat) by lia. exact Hy2.
      * simpl. by apply (got_trans _ _ _ _ s1).
      * intros Hle. rewrite <- (got_kernel _ _ _ _ _ Hg). apply Hw2. lia.
Qed.

(** C24: A task that polls and reads [size] bytes (device specific data, open for reading)
    gets the bytes of the receive buffer in the order they came, as many as there are up to
    [size], at the addresses from [buf] on and nowhere else; [asize] is their number.  When
    they are too few the call fails with E_TMOUT, and the task, which does not sleep, stays
    the one the next byte wakes up. *)
Theorem dev_ser_readfn_spec unit req s :
  let rcv := contents (sd_rcv (se_cb s unit)) in
  let m := Z.min (rq_size req) (Z.of_nat (length rcv)) in
  buff_ok (sd_rcv (se_cb s unit)) → polls unit s → 0 <= rq_start req → 0 < rq_size req < 2 ^ 31 →
  Z.land (sd_omode (se_cb s unit)) TD_READ ≠ 0 →
  ∃ s', yields (dev_ser_readfn unit req) s
          (if rq_size req <=? Z.of_nat (length rcv) then E_OK else E_TMOUT, set_rq_asize m req) s' ∧
    contents (sd_rcv (se_cb s' unit)) = drop (Z.to_nat m) rcv ∧
    (∀ j x, rcv !! j = Some x → Z.of_nat j < m → k_mem (se_k s') (rq_buf req + Z.of_nat j) = x) ∧
    (∀ a, ¬ (rq_buf req <= a < rq_buf req + m) → k_mem (se_k s') a = k_mem (se_k s) a) ∧
    k_s (se_k s') = k_s (se_k s) ∧
    (Z.of_nat (length rcv) < rq_size req → sb_wait_tskid (sd_rcv (se_cb s' unit)) = tk_get_tid (k_s (se_k s))).
Proof.
  intros rcv m Hb Hp Hst Hsz Ho. set (n := Z.to_nat (rq_size req)).
  destruct (read_loop_spec unit n s (rq_buf req) Hb Hp) as (s' & Hy & Hg & Hw). fold rcv in Hy, Hg, Hw.
  assert (Em : (n `min` length rcv)%nat = Z.to_nat m) by lia. rewrite Em in Hg.
  exists s'. split; [|split; [|split; [|split; [|split]]]].
  - unfold dev_ser_readfn. rewrite (proj2 (Z.leb_le _ _) Hst). eapply yields_step; [reflexivity|].
    rewrite (proj2 (Z.eqb_neq _ _) Ho). eapply yields_step; [reflexivity|].
    rewrite (proj2 (Z.eqb_neq _ _)) by lia. cbn [negb]. rewrite u32_small by lia.
    eapply yields_bind; [exact Hy|].
    destruct (Z.leb_spec (rq_size req) (Z.of_nat (length rcv))) as [Hle|Hle].
    + rewrite bool_decide_true by lia. replace m with (rq_size req - 0) by lia. apply yields_ret.
    + rewrite bool_decide_false by lia. replace m with (rq_size req - Z.of_nat (n - length rcv)) by lia. apply yields_ret.
  - apply (got_rest _ _ _ _ _ Hg).
  - intros j x Hx Hj. apply (got_bytes _ _ _ _ _ Hg); [lia|done].
  - intros a Ha. apply (got_mem _ _ _ _ _ Hg). lia.
  - apply (got_kernel _ _ _ _ _ Hg).
  - intros Hlt. apply Hw. lia.
Qed.

(** C33: Asked for zero bytes, reading reports how many can be read; writing reports one more
    than can be written: where it reports one, no byte is taken and the writer would sleep. *)
Theorem serial_counts unit req s :
  let rcv := contents (sd_rcv (se_cb s unit)) in
  let snd := contents (sd_snd (se_cb s unit)) in
  let room := DEVCONF_SER_BUFFSIZE - Z.of_nat (length snd) in
  buff_ok (sd_rcv (se_cb s unit)) → buff_ok (sd_snd (se_cb s unit)) → rq_size req = 0 →
  yields (read_data unit req) s (E_OK, set_rq_asize (Z.of_nat (length rcv)) req) s ∧
  yields (write_data unit req) s (E_OK, set_rq_asize room req) (set_int unit true s) ∧
  1 <= room ∧ ∀ b, (write_section unit b s).1 = bool_decide (1 < room).
Proof.
  intros rcv snd room Hr Hs Hz. pose proof (length_contents (sd_rcv (se_cb s unit))) as El.
  pose proof (length_contents (sd_snd (se_cb s unit))) as Es. rewrite used_bytes in El, Es by done. fold rcv in El. fold snd in Es.
  split; [|split; [|split]].
  - unfold read_data. eapply yields_step; [reflexivity|]. rewrite Hz. simpl. eapply yields_step; [reflexivity|].
    rewrite El. apply yields_ret.
  - unfold write_data, room. rewrite Hz. simpl. eapply yields_step; [reflexivity|]. rewrite Es. apply yields_ret.
  - unfold room. rewrite Es. unfold buff_ok, DEVCONF_SER_BUFFSIZE in *. destruct (Z.ltb_spec (sb_top (sd_snd (se_cb s unit)) - sb_tail (sd_snd (se_cb s unit))) 0); lia.
  - intros b. assert (Ef : (next_index (sb_top (sd_snd (se_cb s unit))) =? sb_tail (sd_snd (se_cb s unit))) = negb (bool_decide (1 < room))).
    { unfold room. rewrite Es. unfold next_index, buff_ok, DEVCONF_SER_BUFFSIZE in *.
      destruct (Z.ltb_spec (sb_top (sd_snd (se_cb s unit)) - sb_tail (sd_snd (se_cb s unit))) 0),
        (Z.leb_spec 50 (sb_top (sd_snd (se_cb s unit)) + 1)); case_bool_decide; cbn [negb];
        first [apply Z.eqb_eq; lia | apply Z.eqb_neq; lia]. }
    unfold write_section. rewrite Ef, negb_involutive. destruct (bool_decide (1 < room)); [|done].
    by destruct (sb_top _ =? sb_tail _); [destruct (dev_ser_llctl _ _ _ _)|].
Qed.
End ser.
Arguments UartLaws U {_}.

(** ** A UART that keeps the laws *)

Record fifo_uart := mkFU { fu_sent : list Z; fu_room : Z; fu_armed : bool; fu_in : list Z }.

#[export] Instance fifo_uart_regs : Uart fifo_uart := {|
  UART_INTR_RXFIFO_FULL := 0x01; UART_INTR_TXFIFO_EMPTY := 0x02; UART_INTR_PARITY_ERR := 0x04;
  UART_INTR_FRAM_ERR := 0x08; UART_INTR_RXFIFO_OVF := 0x10; UART_INTR_RXFIFO_TOUT := 0x100; UART_LL_INTR_MASK := 0x7ffff;
  uart_ll_get_intsts_mask u :=
    (if bool_decide (fu_in u = []) then 0 else 1) + (if fu_armed u && (128 <=? fu_room u) then 2 else 0);
  uart_ll_clr_intsts_mask _ u := u;
  uart_ll_ena_intr_mask m u := mkFU (fu_sent u) (fu_room u) (fu_armed u || Z.testbit m 1) (fu_in u);
  uart_ll_disable_intr_mask m u := mkFU (fu_sent u) (fu_room u) (fu_armed u && negb (Z.testbit m 1)) (fu_in u);
  uart_ll_get_rxfifo_len u := Z.of_nat (length (fu_in u));
  uart_ll_read_rxfifo u :=
    match fu_in u with [] => (0, u) | b :: l => (u8 b, mkFU (fu_sent u) (fu_room u) (fu_armed u) l) end;
  uart_ll_get_txfifo_len u := fu_room u;
  uart_ll_write_txfifo b u := mkFU (fu_sent u ++ [b]) (fu_room u - 1) (fu_armed u) (fu_in u);
  uart_ll_tx_break _ u := u;
  uart_ll_set_loop_back _ u := u;
  uart_ll_rxfifo_rst u := mkFU (fu_sent u) (fu_room u) (fu_armed u) [];
  uart_ll_txfifo_rst u := mkFU (fu_sent u) 128 (fu_armed u) (fu_in u);
  uart_ll_set_rxfifo_full_thr _ u := u;
  uart_ll_set_txfifo_empty_thr _ u := u;
  uart_setup _ _ _ _ u := u
|}.

Program Definition fifo_uart_laws : UartLaws fifo_uart := {|
  uv u := mkView (fu_sent u) (fu_room u) (fu_armed u) (map u8 (fu_in u));
  moves u u' l := ∃ n k, 0 <= n ∧ l = map u8 k ∧ u' = mkFU (fu_sent u) (fu_room u + n) (fu_armed u) (fu_in u ++ k)
|}.
Next Obligation. done. Qed.
Next Obligation. intros u. simpl. by rewrite length_map. Qed.
Next Obligation. done. Qed.
Next Obligation. intros u. simpl. by rewrite orb_true_r. Qed.
Next Obligation. intros u. simpl. by rewrite andb_false_r. Qed.
Next Obligation. done. Qed.
Next Obligation.
  intros u b l. simpl. destruct (fu_in u) as [|b' l']; [done|]. intros [= <- <-].
  split; [|done]. unfold u8. apply Z.mod_pos_bound. lia.
Qed.
Next Obligation.
  intros u. simpl. case_bool_decide; destruct (fu_armed u); simpl; try done; destruct (Z.leb_spec 128 (fu_room u)); try done;
    unfold DEVCONF_SER_BUFFSIZE; lia.
Qed.
Next Obligation.
  intros u u' l (n & k & Hn & -> & ->). simpl. rewrite map_app. split_and!; try done. lia.
Qed.
#[export] Existing Instance fifo_uart_laws.

Definition ex_serial (rcv : T_SER_BUFF) : SER fifo_uart :=
  mkSER (ex_k (ex_sch [ex_ready 3; ex_ready 5] [(TIMERQ, [])]))
    (λ _, mkDCB TD_UPDATE 0 0 0 0 (-1) TMO_POL (mkBuff 0 0 0 (λ _, 0)) rcv) (λ _, mkFU [] 128 false [])
    (λ _, (0, 0)) (λ _, true).

(** A byte is written, another arrives, the handler runs. *)
Lemma serial_in_order_witness :
  let s0 := ex_serial (mkBuff 0 0 0 (λ _, 0)) in
  let s1 := (write_section 0 0x41 s0).2 in
  let s2 := upd_hw 0 (λ _, mkFU [0x41] 128 true [7]) s1 in
  let s3 := uart_inthdr s2 in
  v_sent (uv (se_hw s3 0)) ++ contents (sd_snd (se_cb s3 0)) = [0x41] ∧
  contents (sd_rcv (se_cb s3 0)) ++ v_pending (uv (se_hw s3 0)) = [7].
Proof.
  intros s0 s1 s2 s3.
  assert (Ho : opened_serial s0) by (by constructor).
  assert (Hr : rtc ser_step (s0, mkH [] [] [] false) (uart_inthdr s2, mkH [0x41] [] [7] false)).
  { eapply rtc_l; [exact (step_write 0x41 s0 (mkH [] [] [] false) ltac:(lia))|]. change ((write_section 0 65 s0).1) with true. cbv iota.
    eapply rtc_l; [apply (step_uart (mkFU [0x41] 128 true [7]) [7]); exists 1, [7]; split; [lia|by vm_compute]|].
    eapply rtc_l; [|apply rtc_refl]. exact (step_handler s2 (mkH [0x41] [] [7] false) eq_refl). }
  destruct (serial_in_order s0 _ _ Ho Hr) as (H1 & _ & _ & H3). by split; [exact H1|apply H3].
Defined.

Lemma dev_ser_readfn_spec_witness :
  let s := ex_serial (mkBuff 1 48 0 (λ i, i + 60)) in
  let req := mkT_DEVREQ None 0 1 1 false 0 5 1000 0 0 in
  ∃ s', yields (dev_ser_readfn 0 req) s (E_TMOUT, set_rq_asize 3 req) s' ∧
    k_mem (se_k s') 1000 = 108 ∧ k_mem (se_k s') 1001 = 109 ∧ k_mem (se_k s') 1002 = 60 ∧
    sb_wait_tskid (sd_rcv (se_cb s' 0)) = 1.
Proof.
  intros s req.
  assert (Hb : buff_ok (sd_rcv (se_cb s 0))) by (split; split; reflexivity || (simpl; lia)).
  assert (Hp : polls 0 s) by (constructor; reflexivity).
  destruct (dev_ser_readfn_spec 0 req s Hb Hp) as (s' & Hy & _ & Hm & _ & _ & Hw); [simpl; lia..|by vm_compute|].
  exists s'. split; [exact Hy|]. split; [|split; [|split]].
  - apply (Hm 0%nat 108); vm_compute; reflexivity.
  - apply (Hm 1%nat 109); vm_compute; reflexivity.
  - apply (Hm 2%nat 60); vm_compute; reflexivity.
  - apply Hw. vm_compute. reflexivity.
Defined.

Lemma serial_counts_witness :
  let s := ex_serial (mkBuff 1 48 0 (λ i, i + 60)) in
  let req := mkT_DEVREQ None 0 1 1 false 0 0 1000 0 0 in
  yields (read_data 0 req) s (E_OK, set_rq_asize 3 req) s ∧
  ∃ s', yields (write_data 0 req) s (E_OK, set_rq_asize 50 req) s'.
Proof.
  intros s req. destruct (serial_counts 0 req s) as (H1 & H2 & _); [split; simpl; unfold DEVCONF_SER_BUFFSIZE; lia..|reflexivity|].
  split; [exact H1|]. eexists. exact H2.
Defined.
