(* ===== verification/Adc.v ===== *)
(** * The A/D converter: device/adc

    The functions the device manager calls (adc.c) and the conversions of a range of channels
    (sysdepend/esp32c3/adc_esp32c3.c).  One conversion is the vendor's: a parameter. *)
From S2P Require Import Prelude Config Queue Kernel Mem Device Msdi.

(* src: include/tk/errno.h 99-99 E_IO *)
Definition E_IO : Z := -57.
(* src: device/adc/sysdepend/esp32c3/adc_sysdep.h 31-31 ADC_CH_NUM *)
Definition ADC_CH_NUM : Z := 5.

(** The one-shot converter: selecting a channel, and a conversion, which may fail. *)
Class AdcHal (A : Type) := {
  adc_oneshot_hal_setup : Z → A → A;
  adc_oneshot_hal_convert : A → option Z * A
}.

(* src: device/adc/adc.h 38-44 T_ADC_DCB *)
Record T_ADC_DCB := mkADCB { ac_omode : Z; ac_evtmbfid : Z }.

(* src: device/adc/sysdepend/esp32c3/adc_esp32c3.c 42-42 ll_hal *)
Record ADC (A : Type) := mkADC { ad_k : K; ad_cb : Z → T_ADC_DCB; ad_hal : Z → A }.
Arguments mkADC {A}. Arguments ad_k {A}. Arguments ad_cb {A}. Arguments ad_hal {A}.

(* src: device/adc/adc.h 55-60 T_LLD_ADC_CMD *)
Inductive T_LLD_ADC_CMD := LLD_ADC_OPEN | LLD_ADC_CLOSE | LLD_ADC_READ | LLD_ADC_RSIZE.

Section adc.
Context {A : Type} `{AdcHal A}.

Definition set_ad_k (k : K) (s : ADC A) : ADC A := mkADC k (ad_cb s) (ad_hal s).
Definition upd_acb (unit : Z) (f : T_ADC_DCB → T_ADC_DCB) (s : ADC A) : ADC A :=
  mkADC (ad_k s) (<[unit := f (ad_cb s unit)]> (ad_cb s)) (ad_hal s).
Definition set_hal (unit : Z) (a : A) (s : ADC A) : ADC A := mkADC (ad_k s) (ad_cb s) (<[unit := a]> (ad_hal s)).

(* src: device/adc/sysdepend/esp32c3/adc_esp32c3.c 54-63 adc_convert_one *)
Definition adc_convert_one (unit channel out : Z) (s : ADC A) : Z * ADC A :=
  match adc_oneshot_hal_convert (adc_oneshot_hal_setup channel (ad_hal s unit)) with
  | (None, a) => (E_IO, set_hal unit a s)
  | (Some raw, a) => (E_OK, set_ad_k (upd_mem (st32 out (u32 raw)) (ad_k s)) (set_hal unit a s))
  end.

(** The loop over the channels; [n] rounds are left. *)
(* src: device/adc/sysdepend/esp32c3/adc_esp32c3.c 71-75 adc_read_block *)
Fixpoint convert_loop (n : nat) (unit start i size buf : Z) (s : ADC A) : Z * ADC A :=
  match n with
  | O => (size, s)
  | S n =>
      let '(er, s) := adc_convert_one unit (start + i) (buf + 4 * i) s in
      if er =? E_OK then convert_loop n unit start (i + 1) size buf s else (er, s)
  end.

(** The sum wraps around as an int. *)
(* src: device/adc/sysdepend/esp32c3/adc_esp32c3.c 65-76 adc_read_block *)
Definition adc_read_block (unit start size buf : Z) (s : ADC A) : Z * ADC A :=
  if (start <? 0) || (ADC_CH_NUM <=? start) then (E_PAR, s)
  else if (size <=? 0) || (ADC_CH_NUM <? s32 (start + size)) then (E_PAR, s)
  else if buf =? NULL then (E_PAR, s)
  else convert_loop (Z.to_nat size) unit start 0 size buf s.

(* src: device/adc/sysdepend/esp32c3/adc_esp32c3.c 81-98 dev_adc_llctl *)
Definition dev_adc_llctl (unit : Z) (cmd : T_LLD_ADC_CMD) (p1 p2 pp : Z) (s : ADC A) : Z * ADC A :=
  match cmd with
  | LLD_ADC_OPEN | LLD_ADC_CLOSE => (E_OK, s)
  | LLD_ADC_READ => adc_read_block unit (s32 p1) (s32 p2) pp s
  | LLD_ADC_RSIZE => let rem := s32 (ADC_CH_NUM - s32 p1) in (if rem <? 0 then 0 else rem, s)
  end.

(** A size is compared with that of an ID as an unsigned number. *)
(* src: device/adc/adc.c 46-66 read_atr *)
Definition read_atr (unit : Z) (req : T_DEVREQ) (s : ADC A) : Z * T_DEVREQ * ADC A :=
  if rq_start req =? TDN_EVENT then
    if 4 <=? u32 (rq_size req) then
      (E_OK, set_rq_asize 4 req, set_ad_k (upd_mem (st32 (rq_buf req) (u32 (ac_evtmbfid (ad_cb s unit)))) (ad_k s)) s)
    else if negb (rq_size req =? 0) then (E_PAR, req, s)
    else (E_OK, set_rq_asize 4 req, s)
  else (E_PAR, req, s).

(* src: device/adc/adc.c 69-89 write_atr *)
Definition write_atr (unit : Z) (req : T_DEVREQ) (s : ADC A) : Z * T_DEVREQ * ADC A :=
  if rq_start req =? TDN_EVENT then
    if 4 <=? u32 (rq_size req) then
      (E_OK, set_rq_asize 4 req, upd_acb unit (λ c, mkADCB (ac_omode c) (s32 (ld32 (k_mem (ad_k s)) (rq_buf req)))) s)
    else if negb (rq_size req =? 0) then (E_PAR, req, s)
    else (E_OK, set_rq_asize 4 req, s)
  else (E_PAR, req, s).

(* src: device/adc/adc.c 94-112 read_data *)
Definition read_data (unit : Z) (req : T_DEVREQ) (s : ADC A) : Z * T_DEVREQ * ADC A :=
  if negb (rq_size req =? 0) then
    let '(rtn, s) := dev_adc_llctl unit LLD_ADC_READ (u32 (rq_start req)) (u32 (rq_size req)) (rq_buf req) s in
    if 0 <? rtn then (if negb (rq_size req =? rtn) then E_IO else E_OK, set_rq_asize rtn req, s)
    else (rtn, req, s)
  else
    let '(rsize, s) := dev_adc_llctl unit LLD_ADC_RSIZE (u32 (rq_start req)) 0 0 s in
    (E_OK, set_rq_asize rsize req, s).

(* src: device/adc/adc.c 121-133 dev_adc_openfn *)
Definition dev_adc_openfn (unit omode : Z) (s : ADC A) : Z * ADC A :=
  dev_adc_llctl unit LLD_ADC_OPEN 0 0 0 (upd_acb unit (λ c, mkADCB omode (ac_evtmbfid c)) s).

(* src: device/adc/adc.c 138-149 dev_adc_closefn *)
Definition dev_adc_closefn (unit option : Z) (s : ADC A) : Z * ADC A := dev_adc_llctl unit LLD_ADC_CLOSE 0 0 0 s.

(* src: device/adc/adc.c 154-172 dev_adc_readfn *)
Definition dev_adc_readfn (unit : Z) (req : T_DEVREQ) (s : ADC A) : Z * T_DEVREQ * ADC A :=
  if 0 <=? rq_start req then
    if negb (Z.land (ac_omode (ad_cb s unit)) TD_READ =? 0) then read_data unit req s else (E_OACV, req, s)
  else read_atr unit req s.

(* src: device/adc/adc.c 177-191 dev_adc_writefn *)
Definition dev_adc_writefn (unit : Z) (req : T_DEVREQ) (s : ADC A) : Z * T_DEVREQ * ADC A :=
  if 0 <=? rq_start req then (E_PAR, req, s) else write_atr unit req s.

(* src: device/adc/adc.c 196-199 dev_adc_eventfn *)
Definition dev_adc_eventfn (unit evttyp evtinf : Z) : Z := E_NOSPT.

(** ** What a read converts *)

(** The samples of [n] channels from [ch] on, up to the first failure, and whether there
    was none. *)
Fixpoint samples (n : nat) (ch : Z) (a : A) : list Z * bool * A :=
  match n with
  | O => ([], true, a)
  | S n =>
      match adc_oneshot_hal_convert (adc_oneshot_hal_setup ch a) with
      | (None, a) => ([], false, a)
      | (Some raw, a) => let '(l, ok, a) := samples n (ch + 1) a in (u32 raw :: l, ok, a)
      end
  end.

Lemma convert_loop_spec n : ∀ unit start i size buf s,
  let '(r, s') := convert_loop n unit start i size buf s in
  let '(l, ok, a) := samples n (start + i) (ad_hal s unit) in
  r = (if ok : bool then size else E_IO) ∧ ad_hal s' unit = a ∧ ad_cb s' = ad_cb s ∧ k_s (ad_k s') = k_s (ad_k s) ∧
  (length l <= n)%nat ∧
  (∀ j x, l !! j = Some x → ld32 (k_mem (ad_k s')) (buf + 4 * (i + Z.of_nat j)) = x) ∧
  (∀ b, ¬ (buf + 4 * i <= b < buf + 4 * (i + Z.of_nat n)) → k_mem (ad_k s') b = k_mem (ad_k s) b).
Proof.
  induction n as [|n IH]; intros unit start i size buf s; cbn [convert_loop samples]; [done|].
  unfold adc_convert_one. destruct (adc_oneshot_hal_convert _) as [[raw|] a]; simpl.
  - set (s1 := set_ad_k _ _). specialize (IH unit start (i + 1) size buf s1).
    destruct (convert_loop n unit start (i + 1) size buf s1) as [r s'].
    replace (ad_hal s1 unit) with a in IH by (unfold s1; simpl; by rewrite fn_lookup_insert).
    replace (start + i + 1) with (start + (i + 1)) by lia.
    destruct (samples n (start + (i + 1)) a) as [[l ok] a']. destruct IH as (Hr & Hh & Hcb & Hk & Hl & Hget & Hout).
    split_and!; [done|done|done|done|simpl; lia| |].
    + intros [|j] x Hx; simpl in Hx.
      * injection Hx as <-. rewrite Z.add_0_r.
        assert (E : ld32 (k_mem (ad_k s')) (buf + 4 * i) = ld32 (k_mem (ad_k s1)) (buf + 4 * i)).
        { unfold ld32. by rewrite !Hout by lia. }
        rewrite E. unfold s1. simpl. apply ld32_st32, Z.mod_pos_bound. lia.
      * replace (i + Z.of_nat (S j)) with (i + 1 + Z.of_nat j) by lia. by apply Hget.
    + intros b Hb. rewrite Hout by lia. unfold s1. simpl. unfold st32. by rewrite !fn_lookup_insert_ne by lia.
  - split_and!; try done; [by rewrite fn_lookup_insert|lia].
Qed.

(** A read of the converter.  It is refused unless the device is open for reading, the channels
    exist and there is memory; without a size it reports how many channels there are from
    [start] on.  Otherwise the channels are converted in order into the words from [buf] on,
    and nothing else is written: all of them, or those before the first failure, which is
    E_IO. *)
Lemma adc_readfn_spec unit req s :
  0 <= rq_start req < 2 ^ 31 → 0 <= rq_size req < 2 ^ 31 - ADC_CH_NUM →
  let start := rq_start req in
  let size := rq_size req in
  let buf := rq_buf req in
  let '(err, req', s') := dev_adc_readfn unit req s in
  if Z.land (ac_omode (ad_cb s unit)) TD_READ =? 0 then (err, req', s') = (E_OACV, req, s)
  else if size =? 0 then (err, req', s') = (E_OK, set_rq_asize (Z.max 0 (ADC_CH_NUM - start)) req, s)
  else if (ADC_CH_NUM <=? start) || (ADC_CH_NUM <? start + size) || (buf =? NULL) then (err, req', s') = (E_PAR, req, s)
  else
    let '(l, ok, a) := samples (Z.to_nat size) start (ad_hal s unit) in
    (err, req') = (if ok : bool then (E_OK, set_rq_asize size req) else (E_IO, req)) ∧
    ad_hal s' unit = a ∧ ad_cb s' = ad_cb s ∧ k_s (ad_k s') = k_s (ad_k s) ∧
    (∀ j x, l !! j = Some x → ld32 (k_mem (ad_k s')) (buf + 4 * Z.of_nat j) = x) ∧
    (∀ b, ¬ (buf <= b < buf + 4 * size) → k_mem (ad_k s') b = k_mem (ad_k s) b).
Proof.
  intros Hst Hsz start size buf. unfold dev_adc_readfn, read_data. fold start size buf.
  assert (Hs : s32 (u32 start) = start) by (unfold start, ADC_CH_NUM in *; rewrite u32_small, s32_small; lia).
  assert (Hz : s32 (u32 size) = size) by (unfold size, ADC_CH_NUM in *; rewrite u32_small, s32_small; lia).
  rewrite (proj2 (Z.leb_le _ _)) by apply Hst. destruct (Z.land _ _ =? 0); simpl; [done|].
  destruct (Z.eqb_spec size 0) as [E|E]; simpl.
  { rewrite Hs, s32_small by (unfold start, ADC_CH_NUM in *; lia). destruct (Z.ltb_spec (ADC_CH_NUM - start) 0).
    - by rewrite Z.max_l by lia.
    - by rewrite Z.max_r by lia. }
  rewrite Hs, Hz. unfold adc_read_block. rewrite (proj2 (Z.ltb_ge start 0)) by apply Hst. simpl.
  destruct (Z.leb_spec ADC_CH_NUM start) as [H5|H5]; simpl; [done|].
  rewrite (proj2 (Z.leb_gt size 0)), s32_small by (unfold start, size, ADC_CH_NUM in *; lia). simpl.
  destruct (ADC_CH_NUM <? start + size); simpl; [done|]. destruct (buf =? NULL); simpl; [done|].
  pose proof (convert_loop_spec (Z.to_nat size) unit start 0 size buf s) as Hc.
  destruct (convert_loop _ unit start 0 size buf s) as [r s']. rewrite Z.add_0_r in Hc.
  destruct (samples (Z.to_nat size) start (ad_hal s unit)) as [[l ok] a]. destruct Hc as (-> & Hh & Hcb & Hk & _ & Hget & Hout).
  assert (Hm : ∀ b, ¬ (buf <= b < buf + 4 * size) → k_mem (ad_k s') b = k_mem (ad_k s) b).
  { intros b Hb. apply Hout. unfold size in *. lia. }
  destruct ok; simpl.
  - rewrite (proj2 (Z.ltb_lt 0 size)), Z.eqb_refl by (unfold size in *; lia). by split_and!.
  - by split_and!.
Qed.
End adc.
