(* ===== verification/Shim.v ===== *)
(** * The FreeRTOS layer: components/freertos_shim/include/freertos/shim_internal.h

    The objects of the layer and its state.  A handle is the address of an object; an
    object starts with a tag that tells which structure it is.  [SHIM] holds the kernel,
    the objects by address, the task table of shim_task.c, the variables of
    shim_port.c and the interrupt enable bit; the heap of ESP-IDF (heap_caps) is a
    parameter.  Names of tasks and timers, which are only printed, are left out. *)
From S2P Require Import Prelude Config Queue Kernel ReadyQueue KInv Mem Prog.

(** ** Conversions *)

(* src: components/freertos_shim/include/freertos/shim_internal.h 37-37 CFG_WIFI_PRI_BASE *)
Definition CFG_WIFI_PRI_BASE : Z := 25.

(* src: components/freertos_shim/include/freertos/shim_internal.h 39-45 shim_prio_to_tk *)
Definition shim_prio_to_tk (fr : Z) : Z :=
  let p := s32 (CFG_WIFI_PRI_BASE - s32 fr) in
  let p := if p <? 1 then 1 else p in
  if 32 <? p then 32 else p.

(* src: components/freertos_shim/include/freertos/shim_internal.h 69-69 SHIM_MAX_DELAY *)
Definition SHIM_MAX_DELAY : Z := 0xffffffff.

(* src: components/freertos_shim/include/freertos/shim_internal.h 71-76 shim_tmo *)
Definition shim_tmo (ticks : Z) : Z :=
  if ticks =? SHIM_MAX_DELAY then TMO_FEVR else if ticks =? 0 then TMO_POL else s32 ticks.

(* src: components/freertos_shim/include/freertos/FreeRTOS.h 30-30 pdFALSE *)
Definition pdFALSE : Z := 0.
(* src: components/freertos_shim/include/freertos/FreeRTOS.h 31-31 pdTRUE *)
Definition pdTRUE : Z := 1.
Definition pd (b : bool) : Z := if b then pdTRUE else pdFALSE.

(** ** Objects *)

(* src: components/freertos_shim/include/freertos/shim_internal.h 84-84 SHIM_TAG_QUEUE *)
Definition SHIM_TAG_QUEUE : Z := 0x51554555.
(* src: components/freertos_shim/include/freertos/shim_internal.h 85-85 SHIM_TAG_SEM_BIN *)
Definition SHIM_TAG_SEM_BIN : Z := 0x53454D42.
(* src: components/freertos_shim/include/freertos/shim_internal.h 86-86 SHIM_TAG_SEM_CNT *)
Definition SHIM_TAG_SEM_CNT : Z := 0x53454D43.
(* src: components/freertos_shim/include/freertos/shim_internal.h 87-87 SHIM_TAG_MUTEX *)
Definition SHIM_TAG_MUTEX : Z := 0x4D555458.
(* src: components/freertos_shim/include/freertos/shim_internal.h 88-88 SHIM_TAG_RMUTEX *)
Definition SHIM_TAG_RMUTEX : Z := 0x524D5458.
(* src: components/freertos_shim/include/freertos/shim_internal.h 89-89 SHIM_TAG_TIMER *)
Definition SHIM_TAG_TIMER : Z := 0x54494D52.
(* src: components/freertos_shim/include/freertos/shim_internal.h 90-90 SHIM_TAG_EVTGRP *)
Definition SHIM_TAG_EVTGRP : Z := 0x45564752.

(* src: components/freertos_shim/include/freertos/shim_internal.h 96-99 shim_hdr_t *)
Record shim_hdr_t := mkHdr { hd_tag : Z; hd_is_static : bool }.
Definition set_hd_tag (v : Z) (r : shim_hdr_t) : shim_hdr_t := mkHdr v (hd_is_static r).
Definition set_hd_is_static (v : bool) (r : shim_hdr_t) : shim_hdr_t := mkHdr (hd_tag r) v.

(* src: components/freertos_shim/include/freertos/shim_internal.h 106-115 shim_queue_t *)
Record shim_queue_t := mkShimQueue { qu_item_sz : Z; qu_cap : Z; qu_head : Z; qu_tail : Z; qu_data : Z; qu_nonempty : Z; qu_nonfull : Z }.
Definition set_qu_item_sz (v : Z) (r : shim_queue_t) : shim_queue_t := mkShimQueue v (qu_cap r) (qu_head r) (qu_tail r) (qu_data r) (qu_nonempty r) (qu_nonfull r).
Definition set_qu_cap (v : Z) (r : shim_queue_t) : shim_queue_t := mkShimQueue (qu_item_sz r) v (qu_head r) (qu_tail r) (qu_data r) (qu_nonempty r) (qu_nonfull r).
Definition set_qu_head (v : Z) (r : shim_queue_t) : shim_queue_t := mkShimQueue (qu_item_sz r) (qu_cap r) v (qu_tail r) (qu_data r) (qu_nonempty r) (qu_nonfull r).
Definition set_qu_tail (v : Z) (r : shim_queue_t) : shim_queue_t := mkShimQueue (qu_item_sz r) (qu_cap r) (qu_head r) v (qu_data r) (qu_nonempty r) (qu_nonfull r).
Definition set_qu_data (v : Z) (r : shim_queue_t) : shim_queue_t := mkShimQueue (qu_item_sz r) (qu_cap r) (qu_head r) (qu_tail r) v (qu_nonempty r) (qu_nonfull r).
Definition set_qu_nonempty (v : Z) (r : shim_queue_t) : shim_queue_t := mkShimQueue (qu_item_sz r) (qu_cap r) (qu_head r) (qu_tail r) (qu_data r) v (qu_nonfull r).
Definition set_qu_nonfull (v : Z) (r : shim_queue_t) : shim_queue_t := mkShimQueue (qu_item_sz r) (qu_cap r) (qu_head r) (qu_tail r) (qu_data r) (qu_nonempty r) v.

(* src: components/freertos_shim/include/freertos/shim_internal.h 123-128 shim_sem_t *)
Record shim_sem_t := mkShimSem { se_cnt : Z; se_max_cnt : Z; se_sem_id : Z }.
Definition set_se_cnt (v : Z) (r : shim_sem_t) : shim_sem_t := mkShimSem v (se_max_cnt r) (se_sem_id r).
Definition set_se_max_cnt (v : Z) (r : shim_sem_t) : shim_sem_t := mkShimSem (se_cnt r) v (se_sem_id r).
Definition set_se_sem_id (v : Z) (r : shim_sem_t) : shim_sem_t := mkShimSem (se_cnt r) (se_max_cnt r) v.

(* src: components/freertos_shim/include/freertos/shim_internal.h 137-142 shim_rmutex_t *)
Record shim_rmutex_t := mkShimRmutex { rm_mtx_id : Z; rm_owner_task : Z; rm_depth : Z }.
Definition set_rm_mtx_id (v : Z) (r : shim_rmutex_t) : shim_rmutex_t := mkShimRmutex v (rm_owner_task r) (rm_depth r).
Definition set_rm_owner_task (v : Z) (r : shim_rmutex_t) : shim_rmutex_t := mkShimRmutex (rm_mtx_id r) v (rm_depth r).
Definition set_rm_depth (v : Z) (r : shim_rmutex_t) : shim_rmutex_t := mkShimRmutex (rm_mtx_id r) (rm_owner_task r) v.

(* src: components/freertos_shim/include/freertos/shim_internal.h 146-155 shim_task_t *)
Record shim_task_t := mkShimTask { ta_tsk_id : Z; ta_notify_sem : Z; ta_notify_val : Z; ta_stack : Z; ta_stack_sz : Z; ta_tls : Z }.
Definition set_ta_tsk_id (v : Z) (r : shim_task_t) : shim_task_t := mkShimTask v (ta_notify_sem r) (ta_notify_val r) (ta_stack r) (ta_stack_sz r) (ta_tls r).
Definition set_ta_notify_sem (v : Z) (r : shim_task_t) : shim_task_t := mkShimTask (ta_tsk_id r) v (ta_notify_val r) (ta_stack r) (ta_stack_sz r) (ta_tls r).
Definition set_ta_notify_val (v : Z) (r : shim_task_t) : shim_task_t := mkShimTask (ta_tsk_id r) (ta_notify_sem r) v (ta_stack r) (ta_stack_sz r) (ta_tls r).
Definition set_ta_stack (v : Z) (r : shim_task_t) : shim_task_t := mkShimTask (ta_tsk_id r) (ta_notify_sem r) (ta_notify_val r) v (ta_stack_sz r) (ta_tls r).
Definition set_ta_stack_sz (v : Z) (r : shim_task_t) : shim_task_t := mkShimTask (ta_tsk_id r) (ta_notify_sem r) (ta_notify_val r) (ta_stack r) v (ta_tls r).
Definition set_ta_tls (v : Z) (r : shim_task_t) : shim_task_t := mkShimTask (ta_tsk_id r) (ta_notify_sem r) (ta_notify_val r) (ta_stack r) (ta_stack_sz r) v.

(* src: components/freertos_shim/include/freertos/shim_internal.h 167-177 shim_timer_t *)
Record shim_timer_t := mkShimTimer { ti_alm_id : Z; ti_cyc_id : Z; ti_period_ms : Z; ti_auto_reload : bool; ti_active : bool; ti_timer_id : Z; ti_callback : Z }.
Definition set_ti_alm_id (v : Z) (r : shim_timer_t) : shim_timer_t := mkShimTimer v (ti_cyc_id r) (ti_period_ms r) (ti_auto_reload r) (ti_active r) (ti_timer_id r) (ti_callback r).
Definition set_ti_cyc_id (v : Z) (r : shim_timer_t) : shim_timer_t := mkShimTimer (ti_alm_id r) v (ti_period_ms r) (ti_auto_reload r) (ti_active r) (ti_timer_id r) (ti_callback r).
Definition set_ti_period_ms (v : Z) (r : shim_timer_t) : shim_timer_t := mkShimTimer (ti_alm_id r) (ti_cyc_id r) v (ti_auto_reload r) (ti_active r) (ti_timer_id r) (ti_callback r).
Definition set_ti_auto_reload (v : bool) (r : shim_timer_t) : shim_timer_t := mkShimTimer (ti_alm_id r) (ti_cyc_id r) (ti_period_ms r) v (ti_active r) (ti_timer_id r) (ti_callback r).
Definition set_ti_active (v : bool) (r : shim_timer_t) : shim_timer_t := mkShimTimer (ti_alm_id r) (ti_cyc_id r) (ti_period_ms r) (ti_auto_reload r) v (ti_timer_id r) (ti_callback r).
Definition set_ti_timer_id (v : Z) (r : shim_timer_t) : shim_timer_t := mkShimTimer (ti_alm_id r) (ti_cyc_id r) (ti_period_ms r) (ti_auto_reload r) (ti_active r) v (ti_callback r).
Definition set_ti_callback (v : Z) (r : shim_timer_t) : shim_timer_t := mkShimTimer (ti_alm_id r) (ti_cyc_id r) (ti_period_ms r) (ti_auto_reload r) (ti_active r) (ti_timer_id r) v.

(** What the memory at an address holds: the header, and the members after it as each of
    the structures reads them.  A [shim_mutex_t] and an event group are a header and
    one ID ([so_id]). *)
(* src: components/freertos_shim/include/freertos/shim_internal.h 131-134 shim_mutex_t *)
Record shim_obj := mkShimObj {
  so_hdr : shim_hdr_t; so_queue : shim_queue_t; so_sem : shim_sem_t; so_rmutex : shim_rmutex_t;
  so_id : Z; so_timer : shim_timer_t }.

Definition set_so_hdr (v : shim_hdr_t) (r : shim_obj) : shim_obj := mkShimObj v (so_queue r) (so_sem r) (so_rmutex r) (so_id r) (so_timer r).
Definition set_so_queue (v : shim_queue_t) (r : shim_obj) : shim_obj := mkShimObj (so_hdr r) v (so_sem r) (so_rmutex r) (so_id r) (so_timer r).
Definition set_so_sem (v : shim_sem_t) (r : shim_obj) : shim_obj := mkShimObj (so_hdr r) (so_queue r) v (so_rmutex r) (so_id r) (so_timer r).
Definition set_so_rmutex (v : shim_rmutex_t) (r : shim_obj) : shim_obj := mkShimObj (so_hdr r) (so_queue r) (so_sem r) v (so_id r) (so_timer r).
Definition set_so_id (v : Z) (r : shim_obj) : shim_obj := mkShimObj (so_hdr r) (so_queue r) (so_sem r) (so_rmutex r) v (so_timer r).
Definition set_so_timer (v : shim_timer_t) (r : shim_obj) : shim_obj := mkShimObj (so_hdr r) (so_queue r) (so_sem r) (so_rmutex r) (so_id r) v.

(** ** The state *)

(** The heap of ESP-IDF: an address or NULL. *)
Class HeapCaps := {
  heap_st : Type;
  heap_caps_malloc : Z → heap_st → Z * heap_st;
  heap_caps_free : Z → heap_st → heap_st
}.

Section state.
Context `{HeapCaps}.

Record SHIM := mkSHIM {
  sh_k : K;
  sh_mie : bool;
  sh_obj : Z → shim_obj;
  sh_tasks : Z → shim_task_t;
  sh_tls_fallback : Z;
  sh_cs_depth : Z;
  sh_cs_saved : bool;
  sh_sl_depth : Z;
  sh_sl_saved : bool;
  sh_ready : bool;
  sh_heap : heap_st
}.

Definition set_sh_k (v : K) (r : SHIM) : SHIM := mkSHIM v (sh_mie r) (sh_obj r) (sh_tasks r) (sh_tls_fallback r) (sh_cs_depth r) (sh_cs_saved r) (sh_sl_depth r) (sh_sl_saved r) (sh_ready r) (sh_heap r).
Definition set_sh_mie (v : bool) (r : SHIM) : SHIM := mkSHIM (sh_k r) v (sh_obj r) (sh_tasks r) (sh_tls_fallback r) (sh_cs_depth r) (sh_cs_saved r) (sh_sl_depth r) (sh_sl_saved r) (sh_ready r) (sh_heap r).
Definition set_sh_obj (v : Z → shim_obj) (r : SHIM) : SHIM := mkSHIM (sh_k r) (sh_mie r) v (sh_tasks r) (sh_tls_fallback r) (sh_cs_depth r) (sh_cs_saved r) (sh_sl_depth r) (sh_sl_saved r) (sh_ready r) (sh_heap r).
Definition set_sh_tasks (v : Z → shim_task_t) (r : SHIM) : SHIM := mkSHIM (sh_k r) (sh_mie r) (sh_obj r) v (sh_tls_fallback r) (sh_cs_depth r) (sh_cs_saved r) (sh_sl_depth r) (sh_sl_saved r) (sh_ready r) (sh_heap r).
Definition set_sh_tls_fallback (v : Z) (r : SHIM) : SHIM := mkSHIM (sh_k r) (sh_mie r) (sh_obj r) (sh_tasks r) v (sh_cs_depth r) (sh_cs_saved r) (sh_sl_depth r) (sh_sl_saved r) (sh_ready r) (sh_heap r).
Definition set_sh_cs_depth (v : Z) (r : SHIM) : SHIM := mkSHIM (sh_k r) (sh_mie r) (sh_obj r) (sh_tasks r) (sh_tls_fallback r) v (sh_cs_saved r) (sh_sl_depth r) (sh_sl_saved r) (sh_ready r) (sh_heap r).
Definition set_sh_cs_saved (v : bool) (r : SHIM) : SHIM := mkSHIM (sh_k r) (sh_mie r) (sh_obj r) (sh_tasks r) (sh_tls_fallback r) (sh_cs_depth r) v (sh_sl_depth r) (sh_sl_saved r) (sh_ready r) (sh_heap r).
Definition set_sh_sl_depth (v : Z) (r : SHIM) : SHIM := mkSHIM (sh_k r) (sh_mie r) (sh_obj r) (sh_tasks r) (sh_tls_fallback r) (sh_cs_depth r) (sh_cs_saved r) v (sh_sl_saved r) (sh_ready r) (sh_heap r).
Definition set_sh_sl_saved (v : bool) (r : SHIM) : SHIM := mkSHIM (sh_k r) (sh_mie r) (sh_obj r) (sh_tasks r) (sh_tls_fallback r) (sh_cs_depth r) (sh_cs_saved r) (sh_sl_depth r) v (sh_ready r) (sh_heap r).
Definition set_sh_ready (v : bool) (r : SHIM) : SHIM := mkSHIM (sh_k r) (sh_mie r) (sh_obj r) (sh_tasks r) (sh_tls_fallback r) (sh_cs_depth r) (sh_cs_saved r) (sh_sl_depth r) (sh_sl_saved r) v (sh_heap r).
Definition set_sh_heap (v : heap_st) (r : SHIM) : SHIM := mkSHIM (sh_k r) (sh_mie r) (sh_obj r) (sh_tasks r) (sh_tls_fallback r) (sh_cs_depth r) (sh_cs_saved r) (sh_sl_depth r) (sh_sl_saved r) (sh_ready r) v.

#[export] Instance shim_kernel : HasKernel SHIM := {| the_k := sh_k; set_the_k := set_sh_k; the_k_set _ _ := eq_refl |}.

Definition upd_k (f : K → K) (s : SHIM) : SHIM := set_sh_k (f (sh_k s)) s.
Definition upd_obj (h : Z) (f : shim_obj → shim_obj) (s : SHIM) : SHIM := set_sh_obj (<[h := f (sh_obj s h)]> (sh_obj s)) s.
Definition upd_queue (h : Z) (f : shim_queue_t → shim_queue_t) : SHIM → SHIM := upd_obj h (λ o, set_so_queue (f (so_queue o)) o).
Definition upd_ssem (h : Z) (f : shim_sem_t → shim_sem_t) : SHIM → SHIM := upd_obj h (λ o, set_so_sem (f (so_sem o)) o).
Definition upd_rmutex (h : Z) (f : shim_rmutex_t → shim_rmutex_t) : SHIM → SHIM := upd_obj h (λ o, set_so_rmutex (f (so_rmutex o)) o).
Definition upd_timer (h : Z) (f : shim_timer_t → shim_timer_t) : SHIM → SHIM := upd_obj h (λ o, set_so_timer (f (so_timer o)) o).
Definition upd_task (i : Z) (f : shim_task_t → shim_task_t) (s : SHIM) : SHIM := set_sh_tasks (<[i := f (sh_tasks s i)]> (sh_tasks s)) s.

Definition the_queue (h : Z) (s : SHIM) : shim_queue_t := so_queue (sh_obj s h).
Definition the_sem (h : Z) (s : SHIM) : shim_sem_t := so_sem (sh_obj s h).
Definition the_rmutex (h : Z) (s : SHIM) : shim_rmutex_t := so_rmutex (sh_obj s h).
Definition the_timer (h : Z) (s : SHIM) : shim_timer_t := so_timer (sh_obj s h).
Definition the_tag (h : Z) (s : SHIM) : Z := hd_tag (so_hdr (sh_obj s h)).

(* src: components/freertos_shim/include/freertos/shim_internal.h 208-214 shim_in_ddsp *)
Definition shim_in_ddsp (s : SHIM) : bool :=
  let k := k_s (sh_k s) in
  negb (sh_mie s) || negb (s_taskindp k =? 0) || negb (s_dispatch_disabled k =? 0) || bool_decide (s_ctxtsk k = None).

(** [heap_caps_malloc] and [heap_caps_free] as steps. *)
Definition caps_malloc (sz : Z) : prog SHIM Z :=
  step (λ s, let '(p, h) := heap_caps_malloc sz (sh_heap s) in (p, set_sh_heap h s)).
Definition caps_free (p : Z) : prog SHIM unit := modify (λ s, set_sh_heap (heap_caps_free p (sh_heap s)) s).
End state.

(** ** Examples *)

(** A heap that hands out one block after the other. *)
Definition ex_heap : HeapCaps := {| heap_st := Z; heap_caps_malloc sz p := (p, p + sz); heap_caps_free _ p := p |}.

(** No objects yet; interrupts are enabled. *)
Definition ex_shim (k : K) : @SHIM ex_heap :=
  mkSHIM (H := ex_heap) k true (λ _, mkShimObj (mkHdr 0 false) (mkShimQueue 0 0 0 0 0 0 0) (mkShimSem 0 0 0) (mkShimRmutex 0 0 0) 0
    (mkShimTimer 0 0 0 false false 0 0)) (λ _, mkShimTask 0 0 0 0 0 0) 0 0 false 0 false true 0.

(** A switch to the task the kernel has selected. *)
Definition dispatch `{HeapCaps} : SHIM → SHIM := upd_k (upd_s (λ s, set_s_ctxtsk (s_schedtsk s) s)).
