(* ===== verification/ShimQueue.v ===== *)
(** * Queues, semaphores and mutexes of the FreeRTOS layer: components/freertos_shim/shim_queue.c

    A queue is a ring buffer whose [head] and [tail] decide what is in it; two kernel
    semaphores only wake tasks that wait for an item or for space.  A semaphore is a
    counter with a kernel semaphore in the same role.  A mutex is a kernel mutex with
    an owner and a depth.  The sections between DI and EI are single steps; every
    other access is a step of its own.  What the functions write to
    [pxHigherPriorityTaskWoken], always pdFALSE, is left out. *)
From S2P Require Import Prelude Config Queue Kernel ReadyQueue KInv KCheck Task Mem.
From S2P Require Import TaskManage Semaphore Mutex Prog Shim.
#[local] Open Scope prog_scope.

(* src: components/freertos_shim/include/freertos/queue.h 9-9 queueSEND_TO_BACK *)
Definition queueSEND_TO_BACK : Z := 0.
(* src: components/freertos_shim/include/freertos/queue.h 11-11 queueOVERWRITE *)
Definition queueOVERWRITE : Z := 2.
(* src: components/freertos_shim/include/freertos/queue.h 14-14 queueQUEUE_TYPE_BASE *)
Definition queueQUEUE_TYPE_BASE : Z := 0.
(* src: components/freertos_shim/include/freertos/queue.h 15-15 queueQUEUE_TYPE_MUTEX *)
Definition queueQUEUE_TYPE_MUTEX : Z := 1.
(* src: components/freertos_shim/include/freertos/queue.h 16-16 queueQUEUE_TYPE_COUNTING_SEMAPHORE *)
Definition queueQUEUE_TYPE_COUNTING_SEMAPHORE : Z := 2.
(* src: components/freertos_shim/include/freertos/queue.h 17-17 queueQUEUE_TYPE_BINARY_SEMAPHORE *)
Definition queueQUEUE_TYPE_BINARY_SEMAPHORE : Z := 3.
(* src: components/freertos_shim/include/freertos/queue.h 18-18 queueQUEUE_TYPE_RECURSIVE_MUTEX *)
Definition queueQUEUE_TYPE_RECURSIVE_MUTEX : Z := 4.

(** The sizes of the structures. *)
Definition sizeof_queue : Z := 36.
Definition sizeof_sem : Z := 20.
Definition sizeof_rmutex : Z := 20.

Section queue.
Context `{HeapCaps}.

(** ** Creation and deletion *)

(* src: components/freertos_shim/shim_queue.c 18-23 alloc_handle *)
Definition alloc_handle (sz tag : Z) : prog SHIM Z :=
  h <-- caps_malloc sz ;;
  if h =? NULL then Ret h
  else modify (upd_obj h (set_so_hdr (mkHdr tag false))) ;;; Ret h.

(* src: components/freertos_shim/shim_queue.c 25-31 init_static_handle *)
Definition init_static_handle (buf tag : Z) : prog SHIM Z :=
  modify (upd_obj buf (set_so_hdr (mkHdr tag true))) ;;; Ret buf.

(* src: components/freertos_shim/shim_queue.c 61-64 rbuf_alloc *)
Definition rbuf_alloc (sz : Z) : prog SHIM Z := caps_malloc sz.

(* src: components/freertos_shim/shim_queue.c 66-69 rbuf_free *)
Definition rbuf_free (blk : Z) : prog SHIM unit := caps_free blk.

Definition del_sem (id : SHIM → Z) : prog SHIM unit := sys_now (λ s, tk_del_sem (id s)) ;;; Ret tt.
Definition skip : prog SHIM unit := Ret tt.

(* src: components/freertos_shim/shim_queue.c 87-107 queue_init *)
Definition queue_init (p len item_sz : Z) : prog SHIM Z :=
  modify (upd_queue p (λ q, set_qu_tail 0 (set_qu_head 0 (set_qu_cap len (set_qu_item_sz item_sz q))))) ;;;
  d <-- rbuf_alloc (u32 (len * item_sz)) ;;
  modify (upd_queue p (set_qu_data d)) ;;;
  if d =? NULL then Ret (-1)
  else
    ne <-- sys_now (λ _, tk_cre_sem (mkT_CSEM 0 TA_TFIFO 0 (s32 len))) ;;
    modify (upd_queue p (set_qu_nonempty ne)) ;;;
    nf <-- sys_now (λ _, tk_cre_sem (mkT_CSEM 0 TA_TFIFO (s32 len) (s32 len))) ;;
    modify (upd_queue p (set_qu_nonfull nf)) ;;;
    if (ne <=? 0) || (nf <=? 0) then
      rbuf_free d ;;;
      modify (upd_queue p (set_qu_data NULL)) ;;;
      (if 0 <? ne then del_sem (λ _, ne) else skip) ;;;
      (if 0 <? nf then del_sem (λ _, nf) else skip) ;;;
      Ret (-1)
    else Ret 0.

(* src: components/freertos_shim/shim_queue.c 157-166 sem_init *)
Definition sem_init (p max_cnt init_cnt : Z) : prog SHIM Z :=
  modify (upd_ssem p (λ q, set_se_max_cnt max_cnt (set_se_cnt init_cnt q))) ;;;
  id <-- sys_now (λ _, tk_cre_sem (mkT_CSEM 0 TA_TFIFO 0 max_cnt)) ;;
  modify (upd_ssem p (set_se_sem_id id)) ;;;
  Ret (if 0 <? id then 0 else -1).

(** The kernel mutex behind a mutex handle. *)
(* src: components/freertos_shim/shim_queue.c 206-207 __wrap_xQueueGenericCreate *)
Definition mutex_init (rm : Z) : prog SHIM Z :=
  id <-- sys_now (λ _, tk_cre_mtx (mkT_CMTX 0 (Z.lor TA_TFIFO TA_INHERIT) 0)) ;;
  modify (upd_rmutex rm (λ _, mkShimRmutex id 0 0)) ;;;
  Ret id.

(** [init] of the object behind a new handle; the handle is given back when it fails. *)
Definition create (sz tag : Z) (init : Z → prog SHIM Z) (failed : Z → bool) : prog SHIM Z :=
  p <-- alloc_handle sz tag ;;
  if p =? NULL then Ret NULL
  else
    r <-- init p ;;
    if failed r then caps_free p ;;; Ret NULL else Ret p.

Definition create_static (buf tag : Z) (init : Z → prog SHIM Z) (failed : Z → bool) : prog SHIM Z :=
  p <-- init_static_handle buf tag ;;
  r <-- init p ;;
  Ret (if failed r then NULL else p).

Definition neg (r : Z) : bool := r <? 0.
Definition not_pos (r : Z) : bool := r <=? 0.

(* src: components/freertos_shim/shim_queue.c 171-225 __wrap_xQueueGenericCreate *)
Definition xQueueGenericCreate (len item_sz type : Z) : prog SHIM Z :=
  if (type =? queueQUEUE_TYPE_BASE) && negb (item_sz =? 0) then
    create sizeof_queue SHIM_TAG_QUEUE (λ p, queue_init p len item_sz) neg
  else if (type =? queueQUEUE_TYPE_BASE) || (type =? queueQUEUE_TYPE_BINARY_SEMAPHORE) then
    create sizeof_sem SHIM_TAG_SEM_BIN (λ p, sem_init p 1 0) neg
  else if type =? queueQUEUE_TYPE_COUNTING_SEMAPHORE then
    create sizeof_sem SHIM_TAG_SEM_CNT (λ p, sem_init p (s32 len) (s32 item_sz)) neg
  else if (type =? queueQUEUE_TYPE_MUTEX) || (type =? queueQUEUE_TYPE_RECURSIVE_MUTEX) then
    create sizeof_rmutex SHIM_TAG_RMUTEX mutex_init not_pos
  else Ret NULL.

(* src: components/freertos_shim/shim_queue.c 144-147 __wrap_xQueueCreateCountingSemaphore *)
Definition xQueueCreateCountingSemaphore (max init : Z) : prog SHIM Z :=
  xQueueGenericCreate max init queueQUEUE_TYPE_COUNTING_SEMAPHORE.

(* src: components/freertos_shim/shim_queue.c 619-622 __wrap_xQueueCreateMutex *)
Definition xQueueCreateMutex (type : Z) : prog SHIM Z := xQueueGenericCreate 1 0 type.

(* src: components/freertos_shim/shim_queue.c 624-640 __wrap_xQueueCreateMutexStatic *)
Definition xQueueCreateMutexStatic (type sq : Z) : prog SHIM Z :=
  if sq =? NULL then xQueueCreateMutex type else create_static sq SHIM_TAG_RMUTEX mutex_init not_pos.

(* src: components/freertos_shim/shim_queue.c 227-257 __wrap_xQueueGenericCreateStatic *)
Definition xQueueGenericCreateStatic (len item_sz sq type : Z) : prog SHIM Z :=
  if sq =? NULL then xQueueGenericCreate len item_sz type
  else if (type =? queueQUEUE_TYPE_BASE) && negb (item_sz =? 0) then
    create_static sq SHIM_TAG_QUEUE (λ p, queue_init p len item_sz) neg
  else if (type =? queueQUEUE_TYPE_BASE) || (type =? queueQUEUE_TYPE_BINARY_SEMAPHORE) then
    create_static sq SHIM_TAG_SEM_BIN (λ p, sem_init p 1 0) neg
  else if type =? queueQUEUE_TYPE_COUNTING_SEMAPHORE then
    create_static sq SHIM_TAG_SEM_CNT (λ p, sem_init p (s32 len) (s32 item_sz)) neg
  else if (type =? queueQUEUE_TYPE_MUTEX) || (type =? queueQUEUE_TYPE_RECURSIVE_MUTEX) then
    xQueueCreateMutexStatic type sq
  else xQueueGenericCreate len item_sz type.

(* src: components/freertos_shim/shim_queue.c 149-152 __wrap_xQueueCreateCountingSemaphoreStatic *)
Definition xQueueCreateCountingSemaphoreStatic (max init sq : Z) : prog SHIM Z :=
  xQueueGenericCreateStatic max init sq queueQUEUE_TYPE_COUNTING_SEMAPHORE.

(* src: components/freertos_shim/shim_queue.c 262-282 __wrap_vQueueDelete *)
Definition vQueueDelete (q : Z) : prog SHIM unit :=
  if q =? NULL then skip
  else
    is_static <-- gets (λ s, hd_is_static (so_hdr (sh_obj s q))) ;;
    tag <-- gets (the_tag q) ;;
    (if tag =? SHIM_TAG_QUEUE then
       p <-- gets (the_queue q) ;;
       (if 0 <? qu_nonempty p then del_sem (λ _, qu_nonempty p) else skip) ;;;
       (if 0 <? qu_nonfull p then del_sem (λ _, qu_nonfull p) else skip) ;;;
       (if negb (qu_data p =? NULL) then rbuf_free (qu_data p) else skip)
     else if (tag =? SHIM_TAG_SEM_BIN) || (tag =? SHIM_TAG_SEM_CNT) then
       del_sem (λ s, se_sem_id (the_sem q s))
     else if tag =? SHIM_TAG_MUTEX then
       sys_now (λ s, tk_del_mtx (so_id (sh_obj s q))) ;;; skip
     else if tag =? SHIM_TAG_RMUTEX then
       sys_now (λ s, tk_del_mtx (rm_mtx_id (the_rmutex q s))) ;;; skip
     else skip) ;;;
    if negb is_static then caps_free q else skip.
End queue.

Section queue_ops.
Context `{HeapCaps}.

(** ** The ring buffer *)

(** [(i + 1) % cap] in 32 bits. *)
Definition ring_next (cap i : Z) : Z := u32 (i + 1) mod cap.

(** The address of the item at index [i]. *)
Definition slot (q : shim_queue_t) (i : Z) : Z := qu_data q + u32 (i * qu_item_sz q).

(** The section of [queue_push] with interrupts disabled. *)
(* src: components/freertos_shim/shim_queue.c 114-122 queue_push *)
Definition ring_push (p item : Z) (overwrite : bool) (s : SHIM) : bool * SHIM :=
  let q := the_queue p s in
  let full := ring_next (qu_cap q) (qu_tail q) =? qu_head q in
  if full && negb overwrite then (false, s)
  else
    let s := if full then upd_queue p (λ q, set_qu_head (ring_next (qu_cap q) (qu_head q)) q) s else s in
    let s := upd_k (upd_mem (knl_memcpy (slot q (qu_tail q)) item (qu_item_sz q))) s in
    (true, upd_queue p (λ q, set_qu_tail (ring_next (qu_cap q) (qu_tail q)) q) s).

(* src: components/freertos_shim/shim_queue.c 110-126 queue_push *)
Definition queue_push (p item : Z) (overwrite : bool) : prog SHIM Z :=
  pushed <-- step (ring_push p item overwrite) ;;
  if negb pushed then Ret pdFALSE
  else sys_now (λ s, tk_sig_sem (qu_nonempty (the_queue p s)) 1) ;;; Ret pdTRUE.

(** Copying the item at the head. *)
(* src: components/freertos_shim/shim_queue.c 133-134 queue_pop *)
Definition ring_peek (p buf : Z) (s : SHIM) : bool * SHIM :=
  let q := the_queue p s in
  if qu_head q =? qu_tail q then (false, s)
  else (true, if buf =? NULL then s else upd_k (upd_mem (knl_memcpy buf (slot q (qu_head q)) (qu_item_sz q))) s).

(** The section of [queue_pop] with interrupts disabled. *)
(* src: components/freertos_shim/shim_queue.c 133-135 queue_pop *)
Definition ring_pop (p buf : Z) (s : SHIM) : bool * SHIM :=
  let '(found, s) := ring_peek p buf s in
  (found, if found then upd_queue p (λ q, set_qu_head (ring_next (qu_cap q) (qu_head q)) q) s else s).

(* src: components/freertos_shim/shim_queue.c 129-139 queue_pop *)
Definition queue_pop (p buf : Z) : prog SHIM Z :=
  popped <-- step (ring_pop p buf) ;;
  if negb popped then Ret pdFALSE
  else sys_now (λ s, tk_sig_sem (qu_nonfull (the_queue p s)) 1) ;;; Ret pdTRUE.

(** Try [attempt]; as long as it fails, wait for a notification of the semaphore. *)
(* src: components/freertos_shim/shim_queue.c 321-326 __wrap_xQueueGenericSend *)
Definition until (attempt : prog SHIM Z) (sem : SHIM → Z) (tmo : Z) : prog SHIM Z :=
  while_true (
    r <-- attempt ;;
    if r =? pdTRUE then Ret (Some pdTRUE)
    else
      er <-- sys (λ s, tk_wai_sem (sem s) 1 tmo) ;;
      Ret (if negb (er =? E_OK) then Some pdFALSE else None)).

Definition nonempty_of (p : Z) (s : SHIM) : Z := qu_nonempty (the_queue p s).
Definition nonfull_of (p : Z) (s : SHIM) : Z := qu_nonfull (the_queue p s).
Definition sem_of (p : Z) (s : SHIM) : Z := se_sem_id (the_sem p s).

(** ** Giving *)

(* src: components/freertos_shim/shim_queue.c 291-300 sem_give *)
Definition sem_give (p : Z) : prog SHIM Z :=
  given <-- step (λ s,
    let m := the_sem p s in
    if se_max_cnt m <=? se_cnt m then (false, s) else (true, upd_ssem p (set_se_cnt (s32 (se_cnt m + 1))) s)) ;;
  if negb given then Ret pdFALSE else sys_now (λ s, tk_sig_sem (sem_of p s) 1) ;;; Ret pdTRUE.

(** [xQueueGiveMutexRecursive] of a handle with the tag SHIM_TAG_RMUTEX. *)
(* src: components/freertos_shim/shim_queue.c 652-658 __wrap_xQueueGiveMutexRecursive *)
Definition give_rmutex (p : Z) : prog SHIM Z :=
  depth <-- gets (λ s, rm_depth (the_rmutex p s)) ;;
  if depth <=? 0 then Ret pdFALSE
  else
    depth <-- step (λ s, let d := s32 (rm_depth (the_rmutex p s) - 1) in (d, upd_rmutex p (set_rm_depth d) s)) ;;
    if depth =? 0 then
      modify (upd_rmutex p (set_rm_owner_task 0)) ;;;
      sys_now (λ s, tk_unl_mtx (rm_mtx_id (the_rmutex p s))) ;;; Ret pdTRUE
    else Ret pdTRUE.

(** SEND_TO_FRONT is handled as SEND_TO_BACK. *)
(* src: components/freertos_shim/shim_queue.c 305-339 __wrap_xQueueGenericSend *)
Definition xQueueGenericSend (q item ticks copy_pos : Z) : prog SHIM Z :=
  if q =? NULL then Ret pdFALSE
  else
    tag <-- gets (the_tag q) ;;
    if tag =? SHIM_TAG_QUEUE then
      ddsp <-- gets shim_in_ddsp ;;
      if (copy_pos =? queueOVERWRITE) || ddsp || (ticks =? 0) then queue_push q item (copy_pos =? queueOVERWRITE)
      else until (queue_push q item false) (nonfull_of q) (shim_tmo ticks)
    else if (tag =? SHIM_TAG_SEM_BIN) || (tag =? SHIM_TAG_SEM_CNT) then sem_give q
    else if tag =? SHIM_TAG_MUTEX then
      r <-- sys_now (λ s, tk_unl_mtx (so_id (sh_obj s q))) ;; Ret (pd (r =? E_OK))
    else if tag =? SHIM_TAG_RMUTEX then give_rmutex q
    else Ret pdFALSE.

(* src: components/freertos_shim/shim_queue.c 647-661 __wrap_xQueueGiveMutexRecursive *)
Definition xQueueGiveMutexRecursive (q : Z) : prog SHIM Z :=
  if q =? NULL then Ret pdFALSE
  else
    tag <-- gets (the_tag q) ;;
    if tag =? SHIM_TAG_RMUTEX then give_rmutex q else xQueueGenericSend q NULL 0 queueSEND_TO_BACK.

(* src: components/freertos_shim/shim_queue.c 344-361 __wrap_xQueueGenericSendFromISR *)
Definition xQueueGenericSendFromISR (q item copy_pos : Z) : prog SHIM Z :=
  if q =? NULL then Ret pdFALSE
  else
    tag <-- gets (the_tag q) ;;
    if tag =? SHIM_TAG_QUEUE then queue_push q item (copy_pos =? queueOVERWRITE)
    else if (tag =? SHIM_TAG_SEM_BIN) || (tag =? SHIM_TAG_SEM_CNT) then sem_give q
    else Ret pdFALSE.

(* src: components/freertos_shim/shim_queue.c 500-504 __wrap_xQueueGiveFromISR *)
Definition xQueueGiveFromISR (q : Z) : prog SHIM Z := xQueueGenericSendFromISR q NULL queueSEND_TO_BACK.

(** ** Taking *)

(** [if (s->cnt > 0) s->cnt--] with interrupts disabled. *)
(* src: components/freertos_shim/shim_queue.c 465-465 __wrap_xQueueSemaphoreTake *)
Definition sem_take (p : Z) (s : SHIM) : bool * SHIM :=
  let m := the_sem p s in
  if 0 <? se_cnt m then (true, upd_ssem p (set_se_cnt (s32 (se_cnt m - 1))) s) else (false, s).

(** The semaphore and mutex cases of [xQueueSemaphoreTake]. *)
(* src: components/freertos_shim/shim_queue.c 443-468 __wrap_xQueueSemaphoreTake *)
Definition take_sem (p ticks : Z) : prog SHIM Z :=
  taken <-- step (sem_take p) ;;
  if taken : bool then sys (λ s, tk_wai_sem (sem_of p s) 1 TMO_POL) ;;; Ret pdTRUE
  else
    let tmo := shim_tmo ticks in
    if tmo =? TMO_POL then Ret pdFALSE
    else while_true (
      er <-- sys (λ s, tk_wai_sem (sem_of p s) 1 tmo) ;;
      if negb (er =? E_OK) then Ret (Some pdFALSE)
      else taken <-- step (sem_take p) ;; Ret (if taken : bool then Some pdTRUE else None)).

(* src: components/freertos_shim/shim_queue.c 475-480 __wrap_xQueueSemaphoreTake *)
Definition take_rmutex (p ticks : Z) : prog SHIM Z :=
  cur <-- gets (λ s, tk_get_tid (k_s (sh_k s))) ;;
  owner <-- gets (λ s, rm_owner_task (the_rmutex p s)) ;;
  if owner =? cur then
    modify (upd_rmutex p (λ m, set_rm_depth (s32 (rm_depth m + 1)) m)) ;;; Ret pdTRUE
  else
    er <-- sys (λ s, tk_loc_mtx (rm_mtx_id (the_rmutex p s)) (shim_tmo ticks)) ;;
    if er =? E_OK then
      modify (upd_rmutex p (set_rm_owner_task cur)) ;;;
      modify (upd_rmutex p (set_rm_depth 1)) ;;; Ret pdTRUE
    else Ret pdFALSE.

(** Values that are tags, not addresses. *)
Definition is_tag (q : Z) : bool :=
  bool_decide (q ∈ [SHIM_TAG_QUEUE; SHIM_TAG_SEM_BIN; SHIM_TAG_SEM_CNT; SHIM_TAG_MUTEX; SHIM_TAG_RMUTEX;
                    SHIM_TAG_TIMER; SHIM_TAG_EVTGRP]).

(** An item of a queue is taken into a local buffer, which is not kept. *)
(* src: components/freertos_shim/shim_queue.c 428-498 __wrap_xQueueSemaphoreTake *)
Definition xQueueSemaphoreTake (q ticks : Z) : prog SHIM Z :=
  if q =? NULL then Ret pdFALSE
  else if is_tag (u32 q) then Ret pdFALSE
  else
    tag <-- gets (the_tag q) ;;
    if (tag =? SHIM_TAG_SEM_BIN) || (tag =? SHIM_TAG_SEM_CNT) then take_sem q ticks
    else if tag =? SHIM_TAG_MUTEX then
      er <-- sys (λ s, tk_loc_mtx (so_id (sh_obj s q)) (shim_tmo ticks)) ;; Ret (pd (er =? E_OK))
    else if tag =? SHIM_TAG_RMUTEX then take_rmutex q ticks
    else if tag =? SHIM_TAG_QUEUE then
      ddsp <-- gets shim_in_ddsp ;;
      if ddsp || (ticks =? 0) then queue_pop q NULL else until (queue_pop q NULL) (nonempty_of q) (shim_tmo ticks)
    else Ret pdFALSE.

(* src: components/freertos_shim/shim_queue.c 366-386 __wrap_xQueueReceive *)
Definition xQueueReceive (q buf ticks : Z) : prog SHIM Z :=
  if q =? NULL then Ret pdFALSE
  else
    tag <-- gets (the_tag q) ;;
    if tag =? SHIM_TAG_QUEUE then
      ddsp <-- gets shim_in_ddsp ;;
      if ddsp || (ticks =? 0) then queue_pop q buf else until (queue_pop q buf) (nonempty_of q) (shim_tmo ticks)
    else xQueueSemaphoreTake q ticks.

(* src: components/freertos_shim/shim_queue.c 395-419 __wrap_xQueueReceiveFromISR *)
Definition xQueueReceiveFromISR (q buf : Z) : prog SHIM Z :=
  if q =? NULL then Ret pdFALSE
  else
    tag <-- gets (the_tag q) ;;
    if tag =? SHIM_TAG_QUEUE then queue_pop q buf
    else if (tag =? SHIM_TAG_SEM_BIN) || (tag =? SHIM_TAG_SEM_CNT) then
      taken <-- step (sem_take q) ;; Ret (pd taken)
    else Ret pdFALSE.

(* src: components/freertos_shim/shim_queue.c 642-645 __wrap_xQueueTakeMutexRecursive *)
Definition xQueueTakeMutexRecursive (q ticks : Z) : prog SHIM Z := xQueueSemaphoreTake q ticks.

(** ** Looking *)

(* src: components/freertos_shim/shim_queue.c 509-540 __wrap_xQueuePeek *)
Definition xQueuePeek (q buf ticks : Z) : prog SHIM Z :=
  if q =? NULL then Ret pdFALSE
  else
    tag <-- gets (the_tag q) ;;
    if negb (tag =? SHIM_TAG_QUEUE) then Ret pdFALSE
    else
      ddsp <-- gets shim_in_ddsp ;;
      if ddsp || (ticks =? 0) then r <-- step (ring_peek q buf) ;; Ret (pd r)
      else while_true (
        r <-- step (ring_peek q buf) ;;
        if r : bool then sys_now (λ s, tk_sig_sem (nonempty_of q s) 1) ;;; Ret (Some pdTRUE)
        else
          er <-- sys (λ s, tk_wai_sem (nonempty_of q s) 1 (shim_tmo ticks)) ;;
          Ret (if negb (er =? E_OK) then Some pdFALSE else None)).

(* src: components/freertos_shim/shim_queue.c 542-552 __wrap_xQueuePeekFromISR *)
Definition xQueuePeekFromISR (q buf : Z) : prog SHIM Z :=
  if q =? NULL then Ret pdFALSE
  else
    tag <-- gets (the_tag q) ;;
    if negb (tag =? SHIM_TAG_QUEUE) then Ret pdFALSE else r <-- step (ring_peek q buf) ;; Ret (pd r).

(* src: components/freertos_shim/shim_queue.c 557-569 __wrap_uxQueueMessagesWaiting *)
Definition uxQueueMessagesWaiting (q : Z) : prog SHIM Z :=
  if q =? NULL then Ret 0
  else
    tag <-- gets (the_tag q) ;;
    if tag =? SHIM_TAG_QUEUE then
      t <-- gets (λ s, qu_tail (the_queue q s)) ;;
      hd <-- gets (λ s, qu_head (the_queue q s)) ;;
      cap <-- gets (λ s, qu_cap (the_queue q s)) ;;
      Ret (if hd <=? t then u32 (t - hd) else u32 (cap - hd + t))
    else if (tag =? SHIM_TAG_SEM_BIN) || (tag =? SHIM_TAG_SEM_CNT) then gets (λ s, u32 (se_cnt (the_sem q s)))
    else Ret 0.

(* src: components/freertos_shim/shim_queue.c 571-574 __wrap_uxQueueMessagesWaitingFromISR *)
Definition uxQueueMessagesWaitingFromISR (q : Z) : prog SHIM Z := uxQueueMessagesWaiting q.

(* src: components/freertos_shim/shim_queue.c 576-586 __wrap_uxQueueSpacesAvailable *)
Definition uxQueueSpacesAvailable (q : Z) : prog SHIM Z :=
  if q =? NULL then Ret 0
  else
    tag <-- gets (the_tag q) ;;
    if tag =? SHIM_TAG_QUEUE then
      used <-- uxQueueMessagesWaiting q ;;
      cap <-- gets (λ s, qu_cap (the_queue q s)) ;;
      Ret (if used <? cap then u32 (cap - used - 1) else 0)
    else Ret 1.

(* src: components/freertos_shim/shim_queue.c 588-600 __wrap_xQueueReset *)
Definition xQueueReset (q : Z) : prog SHIM Z :=
  if q =? NULL then Ret pdTRUE
  else
    tag <-- gets (the_tag q) ;;
    if tag =? SHIM_TAG_QUEUE then modify (upd_queue q (λ p, set_qu_head 0 (set_qu_tail 0 p))) ;;; Ret pdTRUE
    else Ret pdTRUE.

(* src: components/freertos_shim/shim_queue.c 603-614 __wrap_xQueueIsQueueEmptyFromISR *)
Definition xQueueIsQueueEmptyFromISR (q : Z) : prog SHIM Z :=
  if q =? NULL then Ret pdTRUE
  else
    tag <-- gets (the_tag q) ;;
    if tag =? SHIM_TAG_QUEUE then gets (λ s, pd (qu_head (the_queue q s) =? qu_tail (the_queue q s)))
    else if (tag =? SHIM_TAG_SEM_BIN) || (tag =? SHIM_TAG_SEM_CNT) then gets (λ s, pd (se_cnt (the_sem q s) =? 0))
    else Ret pdTRUE.
End queue_ops.

(** ** A queue is a bounded FIFO *)

Lemma mod_up c x : 0 < c → 0 <= x < 2 * c → x mod c = if decide (x < c) then x else x - c.
Proof.
  intros Hc Hx. case_decide; [apply Z.mod_small; lia|].
  rewrite <- (Z.mod_small (x - c) c) by lia. rewrite <- (Z_mod_plus_full (x - c) 1 c). f_equal. lia.
Qed.

Lemma mod_down c x : 0 < c → - c <= x < c → x mod c = if decide (0 <= x) then x else x + c.
Proof.
  intros Hc Hx. case_decide; [apply Z.mod_small; lia|].
  rewrite <- (Z.mod_small (x + c) c) by lia. rewrite <- (Z_mod_plus_full x 1 c). f_equal. lia.
Qed.

(** The buffer of [q] in [m] holds [items], each as its bytes. *)
Record ring_of (q : shim_queue_t) (m : Z → Z) (items : list (list Z)) : Prop := {
  rg_cap : 0 < qu_cap q < 2 ^ 32;
  rg_size : 0 <= qu_item_sz q ∧ qu_cap q * qu_item_sz q < 2 ^ 32;
  rg_head : 0 <= qu_head q < qu_cap q;
  rg_tail : 0 <= qu_tail q < qu_cap q;
  rg_len : Z.of_nat (length items) = (qu_tail q - qu_head q) mod qu_cap q;
  rg_item : ∀ j x, items !! j = Some x →
    x = bytes (slot q ((qu_head q + Z.of_nat j) mod qu_cap q)) (qu_item_sz q) m
}.

(** An area of the size of an item that is not in the buffer. *)
Definition outside (q : shim_queue_t) (a : Z) : Prop :=
  a + qu_item_sz q <= qu_data q ∨ qu_data q + qu_cap q * qu_item_sz q <= a.

Lemma slot_eq q i : 0 <= qu_item_sz q ∧ qu_cap q * qu_item_sz q < 2 ^ 32 → 0 <= i < qu_cap q →
  slot q i = qu_data q + i * qu_item_sz q ∧ 0 <= i * qu_item_sz q ∧ i * qu_item_sz q + qu_item_sz q <= qu_cap q * qu_item_sz q.
Proof.
  intros [Hs Hc] Hi. assert (0 <= i * qu_item_sz q ∧ i * qu_item_sz q + qu_item_sz q <= qu_cap q * qu_item_sz q) as [H1 H2] by nia.
  split_and!; [|done|done]. unfold slot. f_equal. unfold u32. apply Z.mod_small.
  destruct (Z.eq_dec (qu_item_sz q) 0) as [E|E]; [rewrite E, Z.mul_0_r; lia|lia].
Qed.

Lemma slots_apart q i j : 0 <= qu_item_sz q ∧ qu_cap q * qu_item_sz q < 2 ^ 32 →
  0 <= i < qu_cap q → 0 <= j < qu_cap q → i ≠ j →
  slot q i + qu_item_sz q <= slot q j ∨ slot q j + qu_item_sz q <= slot q i.
Proof.
  intros Hs Hi Hj Hne. destruct (slot_eq q i Hs Hi) as [-> _], (slot_eq q j Hs Hj) as [-> _].
  destruct (Z.lt_total i j) as [?|[?|?]]; [left|done|right]; nia.
Qed.

Lemma slot_outside q a i : 0 <= qu_item_sz q ∧ qu_cap q * qu_item_sz q < 2 ^ 32 → 0 <= i < qu_cap q → outside q a →
  slot q i + qu_item_sz q <= a ∨ a + qu_item_sz q <= slot q i.
Proof. intros Hs Hi Ho. destruct (slot_eq q i Hs Hi) as (-> & ? & ?). unfold outside in Ho. lia. Qed.

Lemma ring_next_eq cap i : 0 < cap < 2 ^ 32 → 0 <= i < cap → ring_next cap i = if decide (i + 1 < cap) then i + 1 else 0.
Proof.
  intros Hc Hi. unfold ring_next, u32. rewrite (Z.mod_small (i + 1) (2 ^ 32)) by lia. rewrite mod_up by lia.
  repeat case_decide; lia.
Qed.

(** The buffer is full when it holds one item less than its capacity. *)
Lemma ring_full q m items : ring_of q m items →
  (ring_next (qu_cap q) (qu_tail q) =? qu_head q) = bool_decide (Z.of_nat (length items) = qu_cap q - 1).
Proof.
  intros [Hc Hs Hh Ht Hl _]. rewrite ring_next_eq by lia. rewrite mod_down in Hl by lia.
  apply eq_bool_prop_intro. rewrite bool_decide_spec, Is_true_true, Z.eqb_eq. repeat case_decide; lia.
Qed.

Lemma ring_empty q m items : ring_of q m items → (qu_head q =? qu_tail q) = bool_decide (items = []).
Proof.
  intros [Hc Hs Hh Ht Hl _]. rewrite mod_down in Hl by lia.
  apply eq_bool_prop_intro. rewrite bool_decide_spec, Is_true_true, Z.eqb_eq.
  destruct items; simpl in Hl; case_decide; split; try done; lia.
Qed.

Lemma ring_length q m items : ring_of q m items → Z.of_nat (length items) <= qu_cap q - 1.
Proof. intros [Hc Hs Hh Ht Hl _]. rewrite Hl. pose proof (Z.mod_pos_bound (qu_tail q - qu_head q) (qu_cap q) ltac:(lia)). lia. Qed.

(** Taking the first item out. *)
Lemma ring_advance q m x items : ring_of q m (x :: items) →
  ring_of (set_qu_head (ring_next (qu_cap q) (qu_head q)) q) m items.
Proof.
  intros Hr. pose proof (ring_length _ _ _ Hr) as Hle. destruct Hr as [Hc Hs Hh Ht Hl Hi]. simpl in Hle.
  assert (Hl0 := Hl). rewrite mod_down in Hl0 by lia.
  assert (Hn : 0 <= ring_next (qu_cap q) (qu_head q) < qu_cap q) by (rewrite ring_next_eq by lia; repeat case_decide; lia).
  constructor; simpl in *; [done|done|done|done| |].
  - rewrite mod_down by lia. rewrite ring_next_eq by lia. repeat case_decide; lia.
  - intros j y Hj. rewrite (Hi (S j) y Hj).
    assert (Z.of_nat j < Z.of_nat (length items)) by (apply lookup_lt_Some in Hj; lia).
    assert ((qu_head q + Z.of_nat (S j)) mod qu_cap q = (ring_next (qu_cap q) (qu_head q) + Z.of_nat j) mod qu_cap q) as ->; [|done].
    rewrite !mod_up by lia. rewrite ring_next_eq by lia. clear Hn. repeat case_decide; lia.
Qed.

(** Storing an item in the free slot at [tail]. *)
Lemma ring_store q m items item : ring_of q m items → outside q item → Z.of_nat (length items) < qu_cap q - 1 →
  ring_of (set_qu_tail (ring_next (qu_cap q) (qu_tail q)) q)
    (knl_memcpy (slot q (qu_tail q)) item (qu_item_sz q) m) (items ++ [bytes item (qu_item_sz q) m]).
Proof.
  intros [Hc Hs Hh Ht Hl Hi] Ho Hlt. assert (Hl0 := Hl). rewrite mod_down in Hl0 by lia.
  pose proof (slot_outside _ _ _ Hs Ht Ho) as Hso.
  assert (Hn : 0 <= ring_next (qu_cap q) (qu_tail q) < qu_cap q) by (rewrite ring_next_eq by lia; repeat case_decide; lia).
  constructor; simpl; [done|done|done|done| |].
  - rewrite length_app. simpl. rewrite mod_down by lia. rewrite ring_next_eq by lia. repeat case_decide; lia.
  - intros j y Hj. change (slot (set_qu_tail _ q)) with (slot q).
    assert (Hj0 : 0 <= Z.of_nat j < qu_cap q).
    { apply lookup_lt_Some in Hj. rewrite length_app in Hj. simpl in Hj. lia. }
    pose proof (Z.mod_pos_bound (qu_head q + Z.of_nat j) (qu_cap q) ltac:(lia)) as Hm.
    apply lookup_app_Some in Hj as [Hj|[Hge Hj]].
    + apply Hi in Hj as Hy. apply lookup_lt_Some in Hj. rewrite bytes_memcpy_ne; [done|lia|].
      apply slots_apart; [done|done|done|]. rewrite mod_up by lia. repeat case_decide; lia.
    + apply list_lookup_singleton_Some in Hj as [Hj <-]. assert (Z.of_nat j = Z.of_nat (length items)) as -> by lia.
      assert ((qu_head q + Z.of_nat (length items)) mod qu_cap q = qu_tail q) as ->.
      { rewrite mod_up by lia. repeat case_decide; lia. }
      rewrite bytes_memcpy by lia. done.
Qed.

(** Writing elsewhere keeps the items. *)
Lemma ring_of_frame q m m' items :
  (∀ i, 0 <= i < qu_cap q → bytes (slot q i) (qu_item_sz q) m' = bytes (slot q i) (qu_item_sz q) m) →
  ring_of q m items → ring_of q m' items.
Proof.
  intros Hm [Hc Hs Hh Ht Hl Hi]. constructor; try done. intros j x Hj. rewrite (Hi j x Hj). symmetry. apply Hm.
  apply Z.mod_pos_bound. lia.
Qed.

(** Signalling changes the kernel's state but no memory. *)
Lemma sig_sem_loop_mem fuel i y k : k_mem (sig_sem_loop fuel i y k) = k_mem k.
Proof.
  revert y k. induction fuel as [|fuel IH]; intros y k; [done|]. rewrite sig_sem_loop_eq. cbv zeta.
  repeat case_match; try done; by rewrite IH.
Qed.

Lemma tk_sig_sem_mem id cnt k : k_mem (tk_sig_sem id cnt k).2 = k_mem k.
Proof. unfold tk_sig_sem. repeat case_match; try done. cbn [snd]. by rewrite sig_sem_loop_mem. Qed.

Section fifo.
Context `{HeapCaps}.

(** The calls that do not wait. *)
Inductive queue_op :=
  | op_send (item copy_pos : Z) | op_recv (buf : Z) | op_peek (buf : Z)
  | op_reset | op_waiting | op_spaces | op_is_empty.

Definition run_op (q : Z) (op : queue_op) : prog SHIM Z :=
  match op with
  | op_send item copy_pos => xQueueGenericSendFromISR q item copy_pos
  | op_recv buf => xQueueReceiveFromISR q buf
  | op_peek buf => xQueuePeekFromISR q buf
  | op_reset => xQueueReset q
  | op_waiting => uxQueueMessagesWaiting q
  | op_spaces => uxQueueSpacesAvailable q
  | op_is_empty => xQueueIsQueueEmptyFromISR q
  end.

(** A FIFO for [n] items; [x] is the item that is sent. *)
Definition fifo (n : Z) (x : list Z) (op : queue_op) (items : list (list Z)) : Z * list (list Z) :=
  let len := Z.of_nat (length items) in
  match op with
  | op_send _ copy_pos =>
      if len <? n then (pdTRUE, items ++ [x])
      else if copy_pos =? queueOVERWRITE then (pdTRUE, tail items ++ [x]) else (pdFALSE, items)
  | op_recv _ => (pd (negb (bool_decide (items = []))), tail items)
  | op_peek _ => (pd (negb (bool_decide (items = []))), items)
  | op_reset => (pdTRUE, [])
  | op_waiting => (len, items)
  | op_spaces => (n - len, items)
  | op_is_empty => (pd (bool_decide (items = [])), items)
  end.

(** The buffer an operation reads or writes. *)
Definition op_buf (op : queue_op) : option Z :=
  match op with op_send b _ | op_recv b | op_peek b => Some b | _ => None end.

(** The queue at handle [q] holds [items]. *)
Definition is_queue (q : Z) (s : SHIM) (items : list (list Z)) : Prop :=
  the_tag q s = SHIM_TAG_QUEUE ∧ ring_of (the_queue q s) (k_mem (sh_k s)) items.

Lemma is_queue_sig q id s items :
  is_queue q s items → is_queue q (set_sh_k (tk_sig_sem id 1 (sh_k s)).2 s) items.
Proof. intros [Ht Hr]. split; [done|]. simpl. by rewrite tk_sig_sem_mem. Qed.

(** The sections with interrupts disabled. *)
Lemma ring_push_spec q item ow s items :
  is_queue q s items → outside (the_queue q s) item → 2 <= qu_cap (the_queue q s) →
  let x := bytes item (qu_item_sz (the_queue q s)) (k_mem (sh_k s)) in
  let r := ring_push q item ow s in
  if Z.of_nat (length items) <? qu_cap (the_queue q s) - 1 then r.1 = true ∧ is_queue q r.2 (items ++ [x])
  else if ow then r.1 = true ∧ is_queue q r.2 (tail items ++ [x]) else r = (false, s).
Proof.
  intros [Ht Hr] Ho Hc x r. assert (Er : r = ring_push q item ow s) by done. unfold ring_push in Er.
  rewrite (ring_full _ _ _ Hr) in Er. pose proof (ring_length _ _ _ Hr) as Hlen.
  destruct (Z.ltb_spec (Z.of_nat (length items)) (qu_cap (the_queue q s) - 1)) as [Hlt|Hge].
  - rewrite bool_decide_eq_false_2 in Er by lia. cbn [andb negb] in Er. rewrite Er. cbn [fst snd]. split; [done|].
    pose proof (ring_store _ _ _ item Hr Ho Hlt) as Hs. unfold is_queue, the_tag, the_queue, upd_k, upd_queue, upd_obj in *.
    simpl in *. rewrite !fn_lookup_insert. split; [exact Ht|exact Hs].
  - rewrite bool_decide_eq_true_2 in Er by lia. destruct ow; [|done]. cbn [andb negb] in Er. rewrite Er. cbn [fst snd].
    split; [done|]. destruct items as [|x0 items]; [simpl in Hge; lia|]. simpl tail.
    pose proof (ring_advance _ _ _ _ Hr) as Ha. simpl in Hge, Hlen.
    pose proof (ring_store _ _ _ item Ha Ho ltac:(simpl; lia)) as Hs.
    unfold is_queue, the_tag, the_queue, upd_k, upd_queue, upd_obj in *. simpl in *. rewrite !fn_lookup_insert. simpl. split; [exact Ht|exact Hs].
Qed.

Lemma ring_peek_spec q buf s items :
  is_queue q s items → buf = NULL ∨ outside (the_queue q s) buf →
  let r := ring_peek q buf s in
  r.1 = negb (bool_decide (items = [])) ∧ is_queue q r.2 items ∧ the_queue q r.2 = the_queue q s ∧
  (∀ x l, items = x :: l → buf ≠ NULL → bytes buf (qu_item_sz (the_queue q s)) (k_mem (sh_k r.2)) = x).
Proof.
  intros [Ht Hr] Ho r. assert (Er : r = ring_peek q buf s) by done. unfold ring_peek in Er.
  rewrite (ring_empty _ _ _ Hr) in Er. destruct items as [|x l].
  { rewrite bool_decide_eq_true_2 in Er by done. rewrite Er. by split_and!. }
  rewrite bool_decide_eq_false_2 in Er |- * by done. rewrite Er. cbn [fst snd negb]. clear Er r.
  destruct (Z.eqb_spec buf NULL) as [->|Hb]; [by split_and!|]. destruct Ho as [?|Ho]; [done|].
  split_and!; [done| |done|].
  - split; [done|]. change (the_queue q (upd_k _ s)) with (the_queue q s). simpl. eapply ring_of_frame; [|exact Hr]. intros i Hi.
    pose proof (slot_outside _ _ _ (rg_size _ _ _ Hr) (rg_head _ _ _ Hr) Ho).
    pose proof (slot_outside _ _ _ (rg_size _ _ _ Hr) Hi Ho). apply bytes_memcpy_ne; lia.
  - intros x' l' [= <- <-] _. pose proof (rg_item _ _ _ Hr 0%nat x eq_refl) as Hx.
    rewrite Z.add_0_r, Z.mod_small in Hx by apply (rg_head _ _ _ Hr). rewrite Hx. simpl. apply bytes_memcpy.
    pose proof (slot_outside _ _ _ (rg_size _ _ _ Hr) (rg_head _ _ _ Hr) Ho). lia.
Qed.

Lemma ring_pop_spec q buf s items :
  is_queue q s items → buf = NULL ∨ outside (the_queue q s) buf →
  let r := ring_pop q buf s in
  r.1 = negb (bool_decide (items = [])) ∧ is_queue q r.2 (tail items) ∧
  (∀ x l, items = x :: l → buf ≠ NULL → bytes buf (qu_item_sz (the_queue q s)) (k_mem (sh_k r.2)) = x).
Proof.
  intros Hq Ho r. destruct (ring_peek_spec q buf s items Hq Ho) as (E1 & [Ht Hr] & _ & Hb).
  unfold r, ring_pop. destruct (ring_peek q buf s) as [b s1]. cbn [fst snd] in *. subst b.
  destruct items as [|x l].
  - rewrite bool_decide_eq_true_2 by done. by split_and!.
  - rewrite bool_decide_eq_false_2 by done. cbn [negb fst snd]. split_and!; [done| |exact Hb].
    apply ring_advance in Hr. unfold is_queue, the_tag, the_queue, upd_queue, upd_obj in *. simpl.
    rewrite !fn_lookup_insert. by split.
Qed.

(** The calls, one by one. *)
Lemma send_spec q item cp s items :
  let qu := the_queue q s in
  let x := bytes item (qu_item_sz qu) (k_mem (sh_k s)) in
  let '(r, items') := fifo (qu_cap qu - 1) x (op_send item cp) items in
  (q =? NULL) = false → is_queue q s items → outside qu item → 2 <= qu_cap qu →
  ∃ s', yields (xQueueGenericSendFromISR q item cp) s r s' ∧ is_queue q s' items'.
Proof.
  intros qu x. destruct (fifo _ x (op_send item cp) items) as [r items'] eqn:Ef. intros Hq Hi Ho Hc.
  pose proof (ring_push_spec q item (cp =? queueOVERWRITE) s items Hi Ho Hc) as Hp. cbv zeta in Hp. fold qu x in Hp.
  unfold xQueueGenericSendFromISR. rewrite Hq. simpl in Ef.
  assert (Hok : ∀ b s1, ring_push q item (cp =? queueOVERWRITE) s = (b, s1) → is_queue q s1 items' → r = pd b →
    ∃ s', yields (queue_push q item (cp =? queueOVERWRITE)) s r s' ∧ is_queue q s' items').
  { intros b s1 E Hs1 ->. unfold queue_push. destruct b; (eexists; split; [eapply yields_step; [exact E|]|]).
    - cbn [bind negb]. apply yields_now, yields_ret.
    - by apply is_queue_sig.
    - apply yields_ret.
    - done. }
  assert (∃ s', yields (queue_push q item (cp =? queueOVERWRITE)) s r s' ∧ is_queue q s' items') as (s' & Hs & ?).
  { destruct (ring_push q item (cp =? queueOVERWRITE) s) as [b s1]. cbn [fst snd] in Hp.
    destruct (Z.of_nat (length items) <? qu_cap qu - 1); [|destruct (cp =? queueOVERWRITE)]; injection Ef as <- <-.
    - destruct Hp as [-> ?]. by eapply Hok.
    - destruct Hp as [-> ?]. by eapply Hok.
    - injection Hp as -> ->. by eapply Hok. }
  exists s'. split; [|done]. eapply yields_step; [done|]. cbn [bind]. by rewrite (proj1 Hi), Z.eqb_refl.
Qed.

Lemma receive_spec q b s items :
  (q =? NULL) = false → is_queue q s items → b ≠ NULL → outside (the_queue q s) b →
  ∃ s', yields (xQueueReceiveFromISR q b) s (pd (negb (bool_decide (items = [])))) s' ∧ is_queue q s' (tail items) ∧
    ∀ y l, items = y :: l → bytes b (qu_item_sz (the_queue q s)) (k_mem (sh_k s')) = y.
Proof.
  intros Hq Hi Hbn Ho. destruct (ring_pop_spec q b s items Hi (or_intror Ho)) as (E & Hs1 & Hby).
  unfold xQueueReceiveFromISR. rewrite Hq. destruct (ring_pop q b s) as [found s1] eqn:Ep. cbn [fst snd] in *. subst found.
  exists (if bool_decide (items = []) then s1 else set_sh_k (tk_sig_sem (nonfull_of q s1) 1 (sh_k s1)).2 s1). split_and!.
  - eapply yields_step; [done|]. cbn [bind]. rewrite (proj1 Hi), Z.eqb_refl. unfold queue_pop.
    eapply yields_step; [exact Ep|]. cbn [bind]. destruct (bool_decide (items = [])); [apply yields_ret|].
    cbn [negb]. apply yields_now, yields_ret.
  - case_match; [done|]. by apply is_queue_sig.
  - intros y l El. rewrite <- (Hby y l El Hbn). case_match; [done|]. simpl. by rewrite tk_sig_sem_mem.
Qed.

Lemma peek_spec q b s items :
  (q =? NULL) = false → is_queue q s items → b ≠ NULL → outside (the_queue q s) b →
  ∃ s', yields (xQueuePeekFromISR q b) s (pd (negb (bool_decide (items = [])))) s' ∧ is_queue q s' items ∧
    ∀ y l, items = y :: l → bytes b (qu_item_sz (the_queue q s)) (k_mem (sh_k s')) = y.
Proof.
  intros Hq Hi Hbn Ho. destruct (ring_peek_spec q b s items Hi (or_intror Ho)) as (E & Hs1 & _ & Hby).
  unfold xQueuePeekFromISR. rewrite Hq. destruct (ring_peek q b s) as [found s1] eqn:Ep. cbn [fst snd] in *. subst found.
  exists s1. split_and!; [|done|].
  - eapply yields_step; [done|]. cbn [bind]. rewrite (proj1 Hi), Z.eqb_refl. eapply yields_step; [exact Ep|]. apply yields_ret.
  - intros y l El. by rewrite <- (Hby y l El Hbn).
Qed.

Lemma reset_spec q s items : (q =? NULL) = false → is_queue q s items →
  ∃ s', yields (xQueueReset q) s pdTRUE s' ∧ is_queue q s' [].
Proof.
  intros Hq [Ht Hr]. unfold xQueueReset. rewrite Hq. eexists. split.
  - eapply yields_step; [done|]. cbn [bind]. rewrite Ht, Z.eqb_refl. eapply yields_step; [done|]. apply yields_ret.
  - destruct Hr as [H1 H2 H3 H4 _ _]. unfold is_queue, the_tag, the_queue, upd_queue, upd_obj in *. simpl.
    rewrite fn_lookup_insert. split; [exact Ht|]. constructor; simpl; [done|done|lia|lia|by rewrite Z.mod_0_l by lia|done].
Qed.

Lemma waiting_spec q s items : (q =? NULL) = false → is_queue q s items →
  yields (uxQueueMessagesWaiting q) s (Z.of_nat (length items)) s.
Proof.
  intros Hq [Ht Hr]. unfold uxQueueMessagesWaiting. rewrite Hq. eapply yields_step; [done|]. cbn [bind]. rewrite Ht, Z.eqb_refl.
  do 3 (eapply yields_step; [done|]; cbn [bind]). set (qu := the_queue q s) in *.
  assert (Z.of_nat (length items) =
    if qu_head qu <=? qu_tail qu then u32 (qu_tail qu - qu_head qu) else u32 (qu_cap qu - qu_head qu + qu_tail qu)) as ->;
    [|apply yields_ret].
  destruct Hr as [Hc _ Hh Ht' Hl _]. rewrite Hl, mod_down by lia. unfold u32.
  destruct (Z.leb_spec (qu_head qu) (qu_tail qu)); rewrite Z.mod_small by lia; case_decide; lia.
Qed.

Lemma spaces_spec q s items : (q =? NULL) = false → is_queue q s items →
  yields (uxQueueSpacesAvailable q) s (qu_cap (the_queue q s) - 1 - Z.of_nat (length items)) s.
Proof.
  intros Hq Hi. pose proof Hi as [Ht Hr]. unfold uxQueueSpacesAvailable. rewrite Hq.
  eapply yields_step; [done|]. cbn [bind]. rewrite Ht, Z.eqb_refl. eapply yields_bind; [by apply waiting_spec|].
  eapply yields_step; [done|]. cbn [bind]. set (qu := the_queue q s) in *.
  pose proof (ring_length _ _ _ Hr). pose proof (rg_cap _ _ _ Hr).
  destruct (Z.ltb_spec (Z.of_nat (length items)) (qu_cap qu)); [|lia].
  replace (u32 (qu_cap qu - Z.of_nat (length items) - 1)) with (qu_cap qu - 1 - Z.of_nat (length items)); [apply yields_ret|].
  unfold u32. rewrite Z.mod_small; lia.
Qed.

Lemma is_empty_spec q s items : (q =? NULL) = false → is_queue q s items →
  yields (xQueueIsQueueEmptyFromISR q) s (pd (bool_decide (items = []))) s.
Proof.
  intros Hq [Ht Hr]. unfold xQueueIsQueueEmptyFromISR. rewrite Hq. eapply yields_step; [done|]. cbn [bind].
  rewrite Ht, Z.eqb_refl. eapply yields_step; [done|]. rewrite (ring_empty _ _ _ Hr). apply yields_ret.
Qed.

(** C16: A queue is a bounded FIFO, for [cap - 1] items.  The calls that do not wait give the
    results of the FIFO and leave its items in the ring buffer: a send appends the item
    when there is room and is refused (or, overwriting, drops the oldest item)
    when not, a receive takes out the oldest item and a peek leaves it, both copying
    its bytes, and the number of items and of free places is told right. *)
Theorem queue_bounded_fifo (s : SHIM) (q : Z) (items : list (list Z)) (op : queue_op) :
  let qu := the_queue q s in
  let x := match op with op_send item _ => bytes item (qu_item_sz qu) (k_mem (sh_k s)) | _ => [] end in
  let '(r, items') := fifo (qu_cap qu - 1) x op items in
  q ≠ NULL → is_queue q s items → 2 <= qu_cap qu →
  (∀ b, op_buf op = Some b → b ≠ NULL ∧ outside qu b) →
  ∃ s', yields (run_op q op) s r s' ∧ is_queue q s' items' ∧
    match op with
    | op_recv b | op_peek b => ∀ y l, items = y :: l → bytes b (qu_item_sz qu) (k_mem (sh_k s')) = y
    | _ => True
    end.
Proof.
  intros qu x. destruct (fifo (qu_cap qu - 1) x op items) as [r items'] eqn:Ef. intros Hq%Z.eqb_neq Hi Hc Hb.
  destruct op as [item cp|b|b| | | | ]; simpl run_op; simpl in Ef; try injection Ef as <- <-.
  - pose proof (send_spec q item cp s items) as H1. cbv zeta in H1. fold qu x in H1. simpl fifo in H1. rewrite Ef in H1.
    destruct H1 as (s' & ? & ?); [done|done|by apply Hb|done|by exists s'].
  - apply receive_spec; [done|done|by apply Hb..].
  - apply peek_spec; [done|done|by apply Hb..].
  - destruct (reset_spec q s items Hq Hi) as (s' & ? & ?). by exists s'.
  - exists s. split; [by apply waiting_spec|done].
  - exists s. split; [by apply spaces_spec|done].
  - exists s. split; [by apply is_empty_spec|done].
Qed.
End fifo.

Section one.
Context `{HeapCaps}.

(** C39: A queue created for one item holds none.  The ring buffer keeps one of its [cap]
    slots free, so with [cap = 1] a send is refused although the queue is empty, and
    an overwriting send (xQueueOverwrite, the mailbox use of a queue of length one)
    reports success and drops the item: the next receive finds nothing. *)
Theorem queue_of_one_item (s : SHIM) (q b : Z) (items : list (list Z)) :
  q ≠ NULL → is_queue q s items → qu_cap (the_queue q s) = 1 →
  items = [] ∧
  ∀ item,
    yields (xQueueGenericSend q item 0 queueSEND_TO_BACK) s pdFALSE s ∧
    ∃ s', yields (xQueueGenericSend q item 0 queueOVERWRITE) s pdTRUE s' ∧ yields (xQueueReceive q b 0) s' pdFALSE s'.
Proof.
  intros Hq%Z.eqb_neq Hi Hc. pose proof Hi as [Ht Hr]. pose proof (ring_length _ _ _ Hr) as Hlen.
  assert (items = []) as -> by (destruct items; [done|simpl in Hlen; lia]). split; [done|]. intros item.
  pose proof (ring_full _ _ _ Hr) as Hf. rewrite Hc in Hf. simpl in Hf.
  assert (Hsend : ∀ cp r s', yields (queue_push q item (cp =? queueOVERWRITE)) s r s' →
    yields (xQueueGenericSend q item 0 cp) s r s').
  { intros cp r s' Hy. unfold xQueueGenericSend. rewrite Hq. eapply yields_step; [done|]. cbn [bind].
    rewrite Ht, Z.eqb_refl. eapply yields_step; [done|]. cbn [bind]. by rewrite Z.eqb_refl, !orb_true_r. }
  split.
  - apply Hsend. eapply yields_step; [unfold ring_push; rewrite Hc, Hf; reflexivity|]. apply yields_ret.
  - set (s1 := (ring_push q item true s).2).
    assert (Es : ring_push q item true s = (true, s1)) by (unfold s1, ring_push; by rewrite Hc, Hf).
    assert (Et : the_tag q s1 = SHIM_TAG_QUEUE).
    { unfold s1, ring_push. rewrite Hc, Hf. cbn [andb negb fst snd].
      unfold the_tag, upd_k, upd_queue, upd_obj in *. simpl. by rewrite !fn_lookup_insert. }
    assert (Eq : qu_head (the_queue q s1) = qu_tail (the_queue q s1)).
    { unfold s1, ring_push. rewrite Hc, Hf. cbn [andb negb fst snd].
      unfold the_queue, upd_k, upd_queue, upd_obj in *. simpl. rewrite !fn_lookup_insert. simpl. rewrite Hc.
      unfold ring_next. by rewrite !Z.mod_1_r. }
    exists (set_sh_k (tk_sig_sem (nonempty_of q s1) 1 (sh_k s1)).2 s1). split.
    + apply Hsend. eapply yields_step; [exact Es|]. cbn [bind negb]. apply yields_now, yields_ret.
    + unfold xQueueReceive. rewrite Hq. eapply yields_step; [done|]. cbn [bind]. unfold the_tag in *. simpl. rewrite Et, Z.eqb_refl.
      eapply yields_step; [done|]. cbn [bind]. rewrite orb_true_r.
      eapply (yields_step _ _ _ false); [|apply yields_ret]. unfold ring_pop, ring_peek.
      change (the_queue q (set_sh_k _ s1)) with (the_queue q s1). by rewrite Eq, Z.eqb_refl.
Qed.
End one.

(** ** Examples *)

(** A queue of [cap] items of [sz] bytes at 4000, with its buffer at 5000. *)
Definition ex_queue (cap sz head tail : Z) : @SHIM ex_heap :=
  let k := set_k_mem (λ a, a mod 256) (ex_k (ex_sch [ex_ready 3; ex_ready 5] [(TIMERQ, [])])) in
  upd_obj 4000 (λ o, set_so_queue (mkShimQueue sz cap head tail 5000 1 2) (set_so_hdr (mkHdr SHIM_TAG_QUEUE false) o)) (ex_shim k).

Lemma ex_is_queue cap sz : 0 < cap < 2 ^ 32 → 0 <= sz ∧ cap * sz < 2 ^ 32 → is_queue 4000 (ex_queue cap sz 0 0) [].
Proof. intros Hc Hs. split; [done|]. constructor; simpl; [done|done|lia|lia|by rewrite Z.mod_0_l by lia|done]. Qed.

Lemma queue_of_one_item_witness :
  let s := ex_queue 1 4 0 0 in
  yields (xQueueGenericSend 4000 700 0 queueSEND_TO_BACK) s pdFALSE s.
Proof.
  intros s. destruct (queue_of_one_item s 4000 700 []) as [_ H];
    [done|by apply ex_is_queue; lia|done|]. apply (H 700).
Defined.

Lemma queue_bounded_fifo_witness :
  let s := ex_queue 3 4 0 0 in
  ∃ s', yields (run_op 4000 (op_send 700 queueSEND_TO_BACK)) s pdTRUE s' ∧ is_queue 4000 s' [[188; 189; 190; 191]].
Proof.
  intros s. pose proof (queue_bounded_fifo s 4000 [] (op_send 700 queueSEND_TO_BACK)) as H. cbv iota beta zeta in H.
  assert (E : fifo (qu_cap (the_queue 4000 s) - 1) (bytes 700 (qu_item_sz (the_queue 4000 s)) (k_mem (sh_k s)))
    (op_send 700 queueSEND_TO_BACK) [] = (pdTRUE, [[188; 189; 190; 191]])) by (by vm_compute).
  rewrite E in H. destruct H as (s' & H1 & H2 & _); [done|by apply ex_is_queue; lia|done| |by exists s'].
  intros b [= <-]. split; [done|]. left. by vm_compute.
Defined.

(** ** Mutexes *)

Section rmutex.
Context `{HeapCaps}.

(** C40: A mutex can be given by a task that does not hold it.  The owner is not compared
    with the caller: while another task holds the kernel mutex once, the call reports
    success and forgets the owner, although the kernel refuses the unlock and the
    mutex stays locked; after that the holder itself, whatever the kernel does
    meanwhile, can no longer give the mutex back. *)
Theorem mutex_given_by_another_task (s : SHIM) (q : Z) :
  let rm := the_rmutex q s in
  let k := sh_k s in
  q ≠ NULL → the_tag q s = SHIM_TAG_RMUTEX → rm_depth rm = 1 → CHK_MTXID (rm_mtx_id rm) = true →
  in_indp (k_s k) = false → mtxid (k_mtx k (get_mtxcb (rm_mtx_id rm))) ≠ 0 →
  mtxtsk (k_mtx k (get_mtxcb (rm_mtx_id rm))) ≠ s_ctxtsk (k_s k) →
  ∃ s1, yields (xQueueGiveMutexRecursive q) s pdTRUE s1 ∧ sh_k s1 = k ∧
    rm_owner_task (the_rmutex q s1) = 0 ∧ rm_depth (the_rmutex q s1) = 0 ∧
    ∀ k2, yields (xQueueGiveMutexRecursive q) (set_sh_k k2 s1) pdFALSE (set_sh_k k2 s1).
Proof.
  intros rm k Hq%Z.eqb_neq Ht Hd Hid Hin Hne%Z.eqb_neq Ho.
  set (s1 := upd_rmutex q (set_rm_owner_task 0) (upd_rmutex q (set_rm_depth 0) s)).
  assert (Erm : the_rmutex q s1 = mkShimRmutex (rm_mtx_id rm) 0 0).
  { unfold s1, the_rmutex, upd_rmutex, upd_obj. simpl. by rewrite !fn_lookup_insert. }
  assert (Et : the_tag q s1 = SHIM_TAG_RMUTEX).
  { unfold s1, the_tag, upd_rmutex, upd_obj. simpl. rewrite !fn_lookup_insert. exact Ht. }
  assert (Eu : tk_unl_mtx (rm_mtx_id rm) k = (E_ILUSE, k)).
  { unfold tk_unl_mtx. rewrite Hid, Hin, Hne. simpl. by rewrite bool_decide_eq_true_2. }
  assert (Es1 : set_sh_k k s1 = s1) by done.
  exists s1. rewrite Erm. split_and!; [|done..|].
  - unfold xQueueGiveMutexRecursive. rewrite Hq. eapply yields_step; [done|]. cbn [bind]. rewrite Ht, Z.eqb_refl.
    unfold give_rmutex. eapply yields_step; [done|]. cbn [bind]. fold rm. rewrite Hd. simpl (_ <=? _). cbv iota.
    eapply yields_step; [reflexivity|]. cbn [bind]. fold rm. rewrite Hd. simpl (s32 _ =? _). cbv iota.
    eapply yields_step; [reflexivity|]. cbn [bind]. apply yields_now. change (s32 (1 - 1)) with 0. fold s1.
    change (the_k s1) with k. rewrite Erm. cbn [rm_mtx_id]. rewrite Eu. cbn [snd]. change (set_the_k k s1) with s1. apply yields_ret.
  - intros k2. unfold xQueueGiveMutexRecursive. rewrite Hq. eapply yields_step; [done|]. cbn [bind].
    change (the_tag q (set_sh_k k2 s1)) with (the_tag q s1). rewrite Et, Z.eqb_refl.
    unfold give_rmutex. eapply yields_step; [done|]. cbn [bind].
    change (the_rmutex q (set_sh_k k2 s1)) with (the_rmutex q s1). rewrite Erm. apply yields_ret.
Qed.
End rmutex.

(** Task 0 gives the mutex 1, which task 1 holds. *)
Definition ex_rmutex : @SHIM ex_heap :=
  let s := ex_queue 1 4 0 0 in
  let s := upd_obj 4000 (λ o, set_so_rmutex (mkShimRmutex 1 2 1) (set_so_hdr (mkHdr SHIM_TAG_RMUTEX false) o)) s in
  upd_k (upd_mtx 0 (λ _, mkMTXCB 1 0 TA_INHERIT 0 (Some 1) None)) s.

Lemma mutex_given_by_another_task_witness :
  ∃ s1, yields (xQueueGiveMutexRecursive 4000) ex_rmutex pdTRUE s1 ∧
    yields (xQueueGiveMutexRecursive 4000) (set_sh_k (sh_k ex_rmutex) s1) pdFALSE (set_sh_k (sh_k ex_rmutex) s1).
Proof.
  destruct (mutex_given_by_another_task ex_rmutex 4000) as (s1 & H1 & _ & _ & _ & H2);
    [done|done|done|done|done|done|done|]. exists s1. split; [exact H1|apply H2].
Defined.
