(* ===== verification/ShimEvtGrp.v ===== *)
(** * Event groups of the FreeRTOS layer: components/freertos_shim/shim_evtgrp.c

    An event group is an event flag of the kernel.  [xEventGroupWaitBits] passes the
    address of its variable [result], on the stack of the calling task, to tk_wai_flg:
    it is the parameter [res].  The variable [rflg] of the functions that read the
    pattern keeps indeterminate contents when tk_ref_flg fails; they are 0 here. *)
From S2P Require Import Prelude Config Queue Kernel ReadyQueue KInv KCheck Task Mem.
From S2P Require Import TaskSync EventFlag Prog Shim.
#[local] Open Scope prog_scope.

Definition sizeof_evtgrp : Z := 12.

Section evtgrp.
Context `{HeapCaps}.

Definition flg_of (eg : Z) (s : SHIM) : Z := so_id (sh_obj s eg).

(** [tk_ref_flg(p->flg_id, &rflg)], and the pattern it stores. *)
Definition ref_flg (eg : Z) (s : SHIM) : Z * Z :=
  let '(er, r) := tk_ref_flg (flg_of eg s) (sh_k s) in
  (er, match r with Some rflg => rflg_flgptn rflg | None => 0 end).

(* src: components/freertos_shim/shim_evtgrp.c 18-28 __wrap_xEventGroupCreate *)
Definition xEventGroupCreate : prog SHIM Z :=
  eg <-- caps_malloc sizeof_evtgrp ;;
  if eg =? NULL then Ret NULL
  else
    modify (upd_obj eg (λ o, set_so_hdr (set_hd_tag SHIM_TAG_EVTGRP (so_hdr o)) o)) ;;;
    id <-- sys_now (λ _, tk_cre_flg (mkT_CFLG 0 (Z.lor TA_TFIFO TA_WMUL) 0)) ;;
    modify (upd_obj eg (set_so_id id)) ;;;
    if id <=? 0 then caps_free eg ;;; Ret NULL else Ret eg.

(* src: components/freertos_shim/shim_evtgrp.c 30-34 __wrap_xEventGroupCreateStatic *)
Definition xEventGroupCreateStatic (static_eg : Z) : prog SHIM Z := xEventGroupCreate.

(* src: components/freertos_shim/shim_evtgrp.c 36-42 __wrap_vEventGroupDelete *)
Definition vEventGroupDelete (eg : Z) : prog SHIM unit :=
  if eg =? NULL then Ret tt else sys_now (λ s, tk_del_flg (flg_of eg s)) ;;; caps_free eg.

(* src: components/freertos_shim/shim_evtgrp.c 44-53 __wrap_xEventGroupSetBits *)
Definition xEventGroupSetBits (eg bits : Z) : prog SHIM Z :=
  if eg =? NULL then Ret 0
  else sys_now (λ s, tk_set_flg (flg_of eg s) bits) ;;; gets (λ s, (ref_flg eg s).2).

(* src: components/freertos_shim/shim_evtgrp.c 55-63 __wrap_xEventGroupSetBitsFromISR *)
Definition xEventGroupSetBitsFromISR (eg bits : Z) : prog SHIM Z :=
  if eg =? NULL then Ret pdFALSE
  else er <-- sys_now (λ s, tk_set_flg (flg_of eg s) bits) ;; Ret (pd (er =? E_OK)).

(* src: components/freertos_shim/shim_evtgrp.c 65-74 __wrap_xEventGroupClearBits *)
Definition xEventGroupClearBits (eg bits : Z) : prog SHIM Z :=
  if eg =? NULL then Ret 0
  else
    before <-- gets (λ s, (ref_flg eg s).2) ;;
    sys_now (λ s, tk_clr_flg (flg_of eg s) (u32 (Z.lnot bits))) ;;; Ret before.

(* src: components/freertos_shim/shim_evtgrp.c 76-82 __wrap_xEventGroupClearBitsFromISR *)
Definition xEventGroupClearBitsFromISR (eg bits : Z) : prog SHIM Z :=
  if eg =? NULL then Ret pdFALSE
  else sys_now (λ s, tk_clr_flg (flg_of eg s) (u32 (Z.lnot bits))) ;;; Ret pdTRUE.

(* src: components/freertos_shim/shim_evtgrp.c 84-102 __wrap_xEventGroupWaitBits *)
Definition xEventGroupWaitBits (eg bits : Z) (clr_on_exit wait_all : bool) (ticks res : Z) : prog SHIM Z :=
  if eg =? NULL then Ret 0
  else
    modify (upd_k (upd_mem (st32 res 0))) ;;;
    er <-- sys (λ s, tk_wai_flg (flg_of eg s) bits (if wait_all then TWF_ANDW else TWF_ORW) res (shim_tmo ticks)) ;;
    result <-- gets (λ s, ld32 (k_mem (sh_k s)) res) ;;
    (if (er =? E_OK) && clr_on_exit
     then sys_now (λ s, tk_clr_flg (flg_of eg s) (u32 (Z.lnot result))) ;;; Ret result
     else Ret result).

(* src: components/freertos_shim/shim_evtgrp.c 104-111 __wrap_xEventGroupGetBits *)
Definition xEventGroupGetBits (eg : Z) : prog SHIM Z :=
  if eg =? NULL then Ret 0
  else gets (λ s, let '(er, ptn) := ref_flg eg s in if negb (er =? E_OK) then 0 else ptn).

(* src: components/freertos_shim/shim_evtgrp.c 113-116 __wrap_xEventGroupGetBitsFromISR *)
Definition xEventGroupGetBitsFromISR (eg : Z) : prog SHIM Z := xEventGroupGetBits eg.

(* src: components/freertos_shim/shim_evtgrp.c 118-123 __wrap_xEventGroupSync *)
Definition xEventGroupSync (eg set wait ticks res : Z) : prog SHIM Z :=
  xEventGroupSetBits eg set ;;; xEventGroupWaitBits eg wait true true ticks res.
End evtgrp.

(** ** Waiting clears more than the bits waited for *)

Section clear.
Context `{HeapCaps}.

Lemma land_compl p : 0 <= p < 2 ^ 32 → Z.land p (u32 (Z.lnot p)) = 0.
Proof.
  intros Hp. unfold u32. rewrite <- Z.land_ones by lia. rewrite (Z.land_comm (Z.lnot p)), Z.land_assoc.
  replace (Z.land p (Z.ones 32)) with p by (rewrite Z.land_ones, Z.mod_small by lia; done).
  apply Z.land_lnot_diag.
Qed.

(** C37: Waiting with [clr_on_exit] clears the whole event group.  When the bits are there
    already, xEventGroupWaitBits returns the pattern [p] of the group and then clears
    the complement of its result, so that no bit is left, not only the bits the task
    waited for: an event that was set meanwhile for another task is lost. *)
Theorem wait_bits_clears_the_group (s : SHIM) (eg bits ticks res : Z) (wait_all : bool) :
  let id := flg_of eg s in
  let cb := k_flg (sh_k s) (get_flgcb id) in
  let mode := if wait_all then TWF_ANDW else TWF_ORW in
  eg ≠ NULL → CHK_FLGID id = true → flgid cb ≠ 0 → has (flgatr cb) TA_WMUL = true → bits ≠ 0 →
  in_ddsp (k_s (sh_k s)) = false → TMOUT_ERR (shim_tmo ticks) = false →
  waiting (s_tcb (k_s (sh_k s)) (ctx (k_s (sh_k s)))) = false →
  0 <= flgptn cb < 2 ^ 32 → knl_eventflag_cond (flgptn cb) bits mode = true →
  ∃ s', yields (xEventGroupWaitBits eg bits true wait_all ticks res) s (flgptn cb) s' ∧
    flgptn (k_flg (sh_k s') (get_flgcb id)) = 0.
Proof.
  intros id cb mode Hq%Z.eqb_neq Hid Hne%Z.eqb_neq Hm Hb%Z.eqb_neq Hd Ht Hw Hp Hc.
  set (k1 := upd_mem (st32 res (flgptn cb)) (upd_mem (st32 res 0) (sh_k s))).
  assert (Ew : tk_wai_flg id bits mode res (shim_tmo ticks) (upd_mem (st32 res 0) (sh_k s)) = (E_OK, k1)).
  { unfold tk_wai_flg. rewrite Hid, Hb, Ht. change (k_s (upd_mem _ (sh_k s))) with (k_s (sh_k s)). rewrite Hd.
    change (k_flg (upd_mem _ (sh_k s))) with (k_flg (sh_k s)). fold cb. rewrite Hne, Hm, Hc. unfold mode. by destruct wait_all. }
  assert (Ec : tk_clr_flg id (u32 (Z.lnot (flgptn cb))) k1 = (E_OK, upd_flg (get_flgcb id) (set_flgptn 0) k1)).
  { unfold tk_clr_flg. rewrite Hid. change (k_flg k1) with (k_flg (sh_k s)). fold cb. rewrite Hne. cbn [negb].
    f_equal. unfold upd_flg. change (k_flg k1) with (k_flg (sh_k s)). fold cb. by rewrite land_compl. }
  exists (set_sh_k (upd_flg (get_flgcb id) (set_flgptn 0) k1) s). split.
  - unfold xEventGroupWaitBits. rewrite Hq. eapply yields_step; [reflexivity|]. cbn [bind].
    eapply yields_step. { cbv beta. change (flg_of eg (upd_k _ s)) with id. fold mode. change (the_k (upd_k ?f s)) with (f (sh_k s)).
      rewrite Ew. reflexivity. }
    cbn [bind]. change (k_s k1) with (k_s (sh_k s)). rewrite Hw. cbn [bind]. eapply yields_step; [reflexivity|]. cbn [bind].
    change (k_mem (sh_k (set_the_k k1 _))) with (st32 res (flgptn cb) (st32 res 0 (k_mem (sh_k s)))).
    rewrite ld32_st32 by done. simpl (_ && _). cbv iota.
    apply yields_now. change (flg_of eg (set_the_k k1 _)) with id. change (the_k (set_the_k k1 _)) with k1. rewrite Ec. apply yields_ret.
  - simpl. by upd_simpl.
Qed.
End clear.

(** Task 0 waits for bit 0 of the event group at 4000, whose pattern is 5. *)
Definition ex_group (ptn : Z) (tasks : list TCB) : @SHIM ex_heap :=
  upd_obj 4000 (set_so_id 1)
    (ex_shim (upd_flg 0 (λ _, mkFLGCB 1 0 TA_WMUL ptn) (ex_k (ex_sch tasks [(TIMERQ, []); (FLGQ 0, [])])))).

Lemma wait_bits_clears_the_group_witness :
  ∃ s', yields (xEventGroupWaitBits 4000 1 true false 10 8000) (ex_group 5 [ex_ready 3]) 5 s' ∧
    flgptn (k_flg (sh_k s') 0) = 0.
Proof.
  apply (wait_bits_clears_the_group (ex_group 5 [ex_ready 3]) 4000 1 10 8000 false);
    first [done|by vm_compute].
Defined.

(** ** Synchronization strands a task *)

(** Task 0, of the higher priority, reaches the synchronization point first and waits;
    task 1 sets the last bit, and task 0 goes on at once, since it has the higher
    priority, until it sleeps.  [sync_run] is this course of events: each switch is
    the one the kernel asks for. *)
Definition sync_run : Z * @SHIM ex_heap :=
  let s := ex_group 0 [ex_ready 3; ex_ready 5] in
  let sync0 := xEventGroupSync (H := ex_heap) 4000 2 3 0xffffffff 8000 in
  let sync1 := xEventGroupSync (H := ex_heap) 4000 1 3 0xffffffff 9000 in
  let '(sync0, s) := steps 4 sync0 s in
  let s := dispatch s in
  let '(sync1, s) := steps 1 sync1 s in
  let s := dispatch s in
  match exec 10 sync0 s with
  | Some (r, s) =>
      let s := dispatch (upd_k (upd_s (λ s, (tk_slp_tsk TMO_FEVR s).2)) s) in
      (r, (steps 3 sync1 s).2)
  | None => (-1, s)
  end.

(** xEventGroupSync leaves a task waiting although all bits were set.  Setting the bits
    and waiting for them are separate calls: the task of the higher priority is released
    with all the bits and clears them before the task that set the last one gets to wait,
    which then waits, without a time-out, for bits nobody will set again. *)
Theorem sync_strands_a_task :
  let '(r, s) := sync_run in
  r = 3 ∧ flgptn (k_flg (sh_k s) 0) = 0 ∧ t_state (s_tcb (k_s (sh_k s)) 1) = TS_WAIT ∧
  qnext (s_q (k_s (sh_k s))) (FLGQ 0) = TSKQ 1 ∧ isQueEmpty TIMERQ (s_q (k_s (sh_k s))) = true ∧
  s_ctxtsk (k_s (sh_k s)) = Some 1.
Proof. by vm_compute. Qed.
