(* ===== verification/ShimTask.v ===== *)
(** * Tasks of the FreeRTOS layer: components/freertos_shim/shim_task.c

    The task table maps kernel tasks to handles; a handle is the address of an entry,
    here its index, and NULL is [None].  Every entry has a semaphore for the task's
    notifications.  Names, the printed messages and the parameter [core] are left out. *)
From S2P Require Import Prelude Config Queue Kernel ReadyQueue KInv KCheck Task Mem.
From S2P Require Import TaskSync TaskManage Semaphore TimeCalls Prog Shim.
#[local] Open Scope prog_scope.

(* src: components/freertos_shim/shim_task.c 11-11 SHIM_TASK_MAX *)
Definition SHIM_TASK_MAX : Z := 48.
(* src: components/freertos_shim/include/freertos/shim_internal.h 145-145 SHIM_TLS_MAX *)
Definition SHIM_TLS_MAX : Z := 1.
(* src: components/freertos_shim/include/freertos/task.h 13-13 eSetBits *)
Definition eSetBits : Z := 1.
(* src: components/freertos_shim/include/freertos/task.h 15-15 eSetValueWithOverwrite *)
Definition eSetValueWithOverwrite : Z := 3.

(** The mark an unused stack is filled with. *)
Definition STACK_MARK : Z := 0xA5A5A5A5.

(** A call on the scheduler part of the kernel. *)
Definition on_s (f : SCH → Z * SCH) (k : K) : Z * K := let '(r, s) := f (k_s k) in (r, set_k_s s k).

Section task.
Context `{HeapCaps} `{Allocator}.

(** The first entry with the task ID [id]. *)
Definition find_entry (id : Z) (s : SHIM) : option Z :=
  head (filter (λ i, ta_tsk_id (sh_tasks s i) = id) (seqZ 0 SHIM_TASK_MAX)).

(* src: components/freertos_shim/shim_task.c 15-24 alloc_task_entry *)
Definition alloc_task_entry : prog SHIM (option Z) := gets (find_entry 0).

(* src: components/freertos_shim/shim_task.c 26-31 find_by_tk_id *)
Definition find_by_tk_id (id : Z) : prog SHIM (option Z) := gets (find_entry id).

(* src: components/freertos_shim/shim_task.c 33-36 find_by_handle *)
Definition find_by_handle (h : option Z) : option Z := h.

Definition del_sem_now (id : Z) : prog SHIM unit := sys_now (λ _, tk_del_sem id) ;;; Ret tt.
Definition cur_tid (s : SHIM) : Z := tk_get_tid (k_s (sh_k s)).

(** The result and what is stored in [*out]: nothing when the call fails. *)
(* src: components/freertos_shim/shim_task.c 44-132 __wrap_xTaskCreatePinnedToCore *)
Definition xTaskCreatePinnedToCore (fn stack_words param prio : Z) : prog SHIM (Z * option Z) :=
  entry <-- alloc_task_entry ;;
  match entry with
  | None => Ret (pdFALSE, None)
  | Some entry =>
      notify_sem <-- sys_now (λ _, tk_cre_sem (mkT_CSEM 0 TA_TFIFO 0 1)) ;;
      if notify_sem <=? 0 then Ret (pdFALSE, None)
      else
        let stack_sz := s32 (s32 stack_words + 2048) in
        stack <-- caps_malloc (u32 stack_sz) ;;
        (if negb (stack =? NULL)
         then modify (upd_k (upd_mem (fill_words stack STACK_MARK (Z.quot stack_sz 4)))) else Ret tt) ;;;
        if stack =? NULL then del_sem_now notify_sem ;;; Ret (pdFALSE, None)
        else
          tsk_id <-- sys_now (λ _, tk_cre_tsk
            (mkT_CTSK 0 (Z.lor TA_HLNG TA_USERBUF) fn (shim_prio_to_tk prio) stack_sz stack)) ;;
          if tsk_id <=? 0 then caps_free stack ;;; del_sem_now notify_sem ;;; Ret (pdFALSE, None)
          else
            modify (upd_task entry (λ e,
              mkShimTask tsk_id notify_sem (ta_notify_val e) stack (u32 stack_sz) (ta_tls e))) ;;;
            er <-- sys_now (λ _, on_s (tk_sta_tsk tsk_id param)) ;;
            if negb (er =? E_OK) then
              sys_now (λ _, tk_del_tsk tsk_id) ;;;
              del_sem_now notify_sem ;;;
              modify (upd_task entry (set_ta_tsk_id 0)) ;;; Ret (pdFALSE, None)
            else Ret (pdTRUE, Some entry)
  end.

(* src: components/freertos_shim/shim_task.c 134-138 __wrap_xTaskCreate *)
Definition xTaskCreate (fn stack_words param prio : Z) : prog SHIM (Z * option Z) :=
  xTaskCreatePinnedToCore fn stack_words param prio.

(** Where tk_ext_tsk does not return, the rest is never executed. *)
(* src: components/freertos_shim/shim_task.c 140-156 __wrap_vTaskDelete *)
Definition vTaskDelete (h : option Z) : prog SHIM unit :=
  match h with
  | None => modify (upd_k (λ k, default k (tk_ext_tsk k)))
  | Some h =>
      id <-- gets (λ s, ta_tsk_id (sh_tasks s h)) ;;
      if id =? 0 then Ret tt
      else
        sys_now (λ s, tk_ter_tsk (ta_tsk_id (sh_tasks s h))) ;;;
        sys_now (λ s, tk_del_tsk (ta_tsk_id (sh_tasks s h))) ;;;
        sys_now (λ s, tk_del_sem (ta_notify_sem (sh_tasks s h))) ;;;
        stack <-- gets (λ s, ta_stack (sh_tasks s h)) ;;
        (if negb (stack =? NULL) then caps_free stack ;;; modify (upd_task h (set_ta_stack NULL)) else Ret tt) ;;;
        modify (upd_task h (λ e, set_ta_notify_sem 0 (set_ta_tsk_id 0 e)))
  end.

(** ** Time *)

(** [tk_get_tim(&t)], and [t.lo]. *)
Definition tim_lo (s : SHIM) : Z := (tk_get_tim (k_s (sh_k s))).2.2.

(* src: components/freertos_shim/shim_task.c 161-165 __wrap_vTaskDelay *)
Definition vTaskDelay (ticks : Z) : prog SHIM unit :=
  if ticks =? 0 then Ret tt else sys (λ _, on_s (tk_dly_tsk ticks)) ;;; Ret tt.

(** The result is the new value of [*prev]. *)
(* src: components/freertos_shim/shim_task.c 167-175 __wrap_vTaskDelayUntil *)
Definition vTaskDelayUntil (prev incr : Z) : prog SHIM Z :=
  now <-- gets tim_lo ;;
  let next := u32 (prev + incr) in
  (if 0 <? s32 (next - now) then sys (λ _, on_s (tk_dly_tsk (u32 (next - now)))) ;;; Ret tt else Ret tt) ;;;
  Ret next.

(* src: components/freertos_shim/shim_task.c 177-182 __wrap_xTaskGetTickCount *)
Definition xTaskGetTickCount : prog SHIM Z := gets tim_lo.

(* src: components/freertos_shim/shim_task.c 184-187 __wrap_xTaskGetTickCountFromISR *)
Definition xTaskGetTickCountFromISR : prog SHIM Z := xTaskGetTickCount.

(** ** Information about tasks *)

(* src: components/freertos_shim/shim_task.c 192-197 __wrap_xTaskGetCurrentTaskHandle *)
Definition xTaskGetCurrentTaskHandle : prog SHIM (option Z) := gets (λ s, find_entry (cur_tid s) s).

(* src: components/freertos_shim/shim_task.c 211-219 __wrap_vTaskPrioritySet *)
Definition vTaskPrioritySet (h : option Z) (prio : Z) : prog SHIM unit :=
  match h with
  | None => Ret tt
  | Some h =>
      id <-- gets (λ s, ta_tsk_id (sh_tasks s h)) ;;
      if id =? 0 then Ret tt
      else
        er <-- gets (λ s, (tk_ref_tsk (ta_tsk_id (sh_tasks s h)) (k_s (sh_k s))).1) ;;
        if negb (er =? E_OK) then Ret tt
        else sys_now (λ s, tk_chg_pri (ta_tsk_id (sh_tasks s h)) (shim_prio_to_tk prio)) ;;; Ret tt
  end.

(** The scan of a stack from word [i]. *)
(* src: components/freertos_shim/shim_task.c 227-228 stack_free_bytes *)
Fixpoint unused_words (n : nat) (m : Z → Z) (w i : Z) : Z :=
  match n with
  | O => i
  | S n => if ld32 m (w + 4 * i) =? STACK_MARK then unused_words n m w (i + 1) else i
  end.

(* src: components/freertos_shim/shim_task.c 223-230 stack_free_bytes *)
Definition stack_free_bytes (e : shim_task_t) (m : Z → Z) : Z :=
  if (ta_stack e =? NULL) || (ta_stack_sz e =? 0) then 0
  else u32 (unused_words (Z.to_nat (ta_stack_sz e / 4)) m (ta_stack e) 0 * 4).

(** The entry of [h], or of the running task when [h] is NULL. *)
Definition entry_of (h : option Z) (s : SHIM) : option Z :=
  match h with Some h => Some h | None => find_entry (cur_tid s) s end.

(* src: components/freertos_shim/shim_task.c 232-237 __wrap_uxTaskGetStackHighWaterMark *)
Definition uxTaskGetStackHighWaterMark (h : option Z) : prog SHIM Z :=
  e <-- gets (entry_of h) ;;
  match e with None => Ret 0 | Some e => gets (λ s, stack_free_bytes (sh_tasks s e) (k_mem (sh_k s))) end.

(** ** Notifications *)

Definition notify_sem_of (e : Z) (s : SHIM) : Z := ta_notify_sem (sh_tasks s e).

(** Storing the value of a notification with interrupts disabled. *)
(* src: components/freertos_shim/shim_task.c 268-275 notify_signal *)
Definition store_notify_val (e val act : Z) : prog SHIM unit :=
  if act =? eSetBits then modify (upd_task e (λ t, set_ta_notify_val (Z.lor (ta_notify_val t) val) t))
  else if act =? eSetValueWithOverwrite then modify (upd_task e (set_ta_notify_val val))
  else Ret tt.

(** [if (!e || e->notify_sem == 0) return r;] before [body]. *)
Definition with_entry {A : Type} (e : option Z) (r : A) (body : Z → prog SHIM A) : prog SHIM A :=
  match e with
  | None => Ret r
  | Some e => id <-- gets (notify_sem_of e) ;; if id =? 0 then Ret r else body e
  end.

Definition signal_entry (e : Z) : prog SHIM Z := sys_now (λ s, tk_sig_sem (notify_sem_of e s) 1).

(* src: components/freertos_shim/shim_task.c 265-279 notify_signal *)
Definition notify_signal (e : option Z) (val act : Z) : prog SHIM Z :=
  with_entry e pdFALSE (λ e,
    store_notify_val e val act ;;;
    er <-- signal_entry e ;; Ret (pd (er =? E_OK))).

(* src: components/freertos_shim/shim_task.c 281-286 __wrap_xTaskNotifyGive *)
Definition xTaskNotifyGive (h : option Z) : prog SHIM Z :=
  with_entry (find_by_handle h) pdFALSE (λ e, er <-- signal_entry e ;; Ret (pd (er =? E_OK))).

(* src: components/freertos_shim/shim_task.c 288-294 __wrap_xTaskNotifyGiveFromISR *)
Definition xTaskNotifyGiveFromISR (h : option Z) : prog SHIM unit :=
  with_entry (find_by_handle h) tt (λ e, signal_entry e ;;; Ret tt).

(* src: components/freertos_shim/shim_task.c 296-308 __wrap_ulTaskNotifyTake *)
Definition ulTaskNotifyTake (clear_on_exit : bool) (ticks : Z) : prog SHIM Z :=
  cur <-- gets cur_tid ;;
  e <-- find_by_tk_id cur ;;
  with_entry e 0 (λ e,
    er <-- sys (λ s, tk_wai_sem (notify_sem_of e s) 1 (shim_tmo ticks)) ;;
    if negb (er =? E_OK) then Ret 0
    else
      v <-- step (λ s, (ta_notify_val (sh_tasks s e),
                        if clear_on_exit then upd_task e (set_ta_notify_val 0) s else s)) ;;
      Ret (if negb (v =? 0) then v else 1)).

(* src: components/freertos_shim/shim_task.c 310-313 __wrap_xTaskNotify *)
Definition xTaskNotify (h : option Z) (val act : Z) : prog SHIM Z := notify_signal (find_by_handle h) val act.

(* src: components/freertos_shim/shim_task.c 315-332 __wrap_xTaskNotifyFromISR *)
Definition xTaskNotifyFromISR (h : option Z) (val act : Z) : prog SHIM Z :=
  with_entry (find_by_handle h) pdFALSE (λ e,
    store_notify_val e val act ;;; signal_entry e ;;; Ret pdTRUE).

(** The result and what is stored in [*pval]. *)
(* src: components/freertos_shim/shim_task.c 334-353 __wrap_xTaskNotifyWait *)
Definition xTaskNotifyWait (clr_entry clr_exit ticks : Z) : prog SHIM (Z * option Z) :=
  cur <-- gets cur_tid ;;
  e <-- find_by_tk_id cur ;;
  with_entry e (pdFALSE, None) (λ e,
    (if negb (clr_entry =? 0)
     then modify (upd_task e (λ t, set_ta_notify_val (Z.land (ta_notify_val t) (u32 (Z.lnot clr_entry))) t)) else Ret tt) ;;;
    er <-- sys (λ s, tk_wai_sem (notify_sem_of e s) 1 (shim_tmo ticks)) ;;
    if negb (er =? E_OK) then Ret (pdFALSE, None)
    else
      v <-- step (λ s, let v := ta_notify_val (sh_tasks s e) in
                       (v, upd_task e (set_ta_notify_val (Z.land v (u32 (Z.lnot clr_exit)))) s)) ;;
      Ret (pdTRUE, Some v)).

(* src: components/freertos_shim/shim_task.c 362-366 __wrap_ulTaskGenericNotifyTake *)
Definition ulTaskGenericNotifyTake (idx : Z) (clr : bool) (ticks : Z) : prog SHIM Z := ulTaskNotifyTake clr ticks.

(* src: components/freertos_shim/shim_task.c 368-373 __wrap_xTaskGenericNotify *)
Definition xTaskGenericNotify (h : option Z) (idx val act : Z) : prog SHIM Z := notify_signal (find_by_handle h) val act.

(* src: components/freertos_shim/shim_task.c 375-380 __wrap_xTaskGenericNotifyFromISR *)
Definition xTaskGenericNotifyFromISR (h : option Z) (idx val act : Z) : prog SHIM Z := xTaskNotifyFromISR h val act.

(* src: components/freertos_shim/shim_task.c 382-386 __wrap_vTaskGenericNotifyGiveFromISR *)
Definition vTaskGenericNotifyGiveFromISR (h : option Z) (idx : Z) : prog SHIM unit := xTaskNotifyGiveFromISR h.

(* src: components/freertos_shim/shim_task.c 388-393 __wrap_xTaskGenericNotifyWait *)
Definition xTaskGenericNotifyWait (idx clr_entry clr_exit ticks : Z) : prog SHIM (Z * option Z) :=
  xTaskNotifyWait clr_entry clr_exit ticks.

(** ** Thread-local storage *)

(* src: components/freertos_shim/shim_task.c 416-421 __wrap_pvTaskGetThreadLocalStoragePointer *)
Definition pvTaskGetThreadLocalStoragePointer (task : option Z) (idx : Z) : prog SHIM Z :=
  if SHIM_TLS_MAX <=? u32 idx then Ret NULL
  else
    e <-- gets (entry_of task) ;;
    gets (λ s, match e with Some e => ta_tls (sh_tasks s e) | None => sh_tls_fallback s end).

(* src: components/freertos_shim/shim_task.c 423-429 __wrap_vTaskSetThreadLocalStoragePointer *)
Definition vTaskSetThreadLocalStoragePointer (task : option Z) (idx val : Z) : prog SHIM unit :=
  if SHIM_TLS_MAX <=? u32 idx then Ret tt
  else
    e <-- gets (entry_of task) ;;
    modify (λ s, match e with Some e => upd_task e (set_ta_tls val) s | None => set_sh_tls_fallback val s end).

(* src: components/freertos_shim/shim_task.c 434-440 __wrap_vTaskSetThreadLocalStoragePointerAndDelCallback *)
Definition vTaskSetThreadLocalStoragePointerAndDelCallback (task : option Z) (idx val : Z) : prog SHIM unit :=
  vTaskSetThreadLocalStoragePointer task idx val.
End task.
