(* ===== verification/ShimTimer.v ===== *)
(** * Software timers of the FreeRTOS layer: components/freertos_shim/shim_timer.c

    A timer with auto-reload is a cyclic handler of the kernel, a one-shot timer an
    alarm handler.  The callbacks are code outside the layer: the method of
    [TimerCallbacks]; the addresses of the two trampolines are parameters.  Names and
    the unused waiting times of the calls are left out. *)
From S2P Require Import Prelude Config Queue Kernel ReadyQueue KInv KCheck Task Timer Mem.
From S2P Require Import TimeCalls Prog Shim.
#[local] Open Scope prog_scope.

(** The call of [callback] with the handle of the timer. *)
Class TimerCallbacks `{HeapCaps} := { CallTimerCallback : Z → Z → SHIM → SHIM }.

Definition sizeof_timer : Z := 48.

Section handlers.
Context `{TimerCallbacks}.

(* src: components/freertos_shim/shim_timer.c 27-32 alm_handler *)
Definition alm_handler (alm_id exinf : Z) (s : SHIM) : SHIM :=
  let t := the_timer exinf s in
  if negb (exinf =? NULL) && negb (ti_callback t =? NULL) && ti_active t
  then CallTimerCallback (ti_callback t) exinf s else s.

(* src: components/freertos_shim/shim_timer.c 37-42 cyc_handler *)
Definition cyc_handler (cyc_id exinf : Z) (s : SHIM) : SHIM :=
  let t := the_timer exinf s in
  if negb (exinf =? NULL) && negb (ti_callback t =? NULL) && ti_active t
  then CallTimerCallback (ti_callback t) exinf s else s.
End handlers.

Section timer.
Context `{HeapCaps} `{UserHandlers} (cyc_handler_at alm_handler_at : Z).

(** The memory comes from heap_caps_calloc: all members are 0 at first. *)
(* src: components/freertos_shim/shim_timer.c 47-82 __wrap_xTimerCreate *)
Definition xTimerCreate (period : Z) (auto_reload : bool) (timer_id cb : Z) : prog SHIM Z :=
  t <-- caps_malloc sizeof_timer ;;
  if t =? NULL then Ret NULL
  else
    let period_ms := if 0 <? period then period else 1 in
    modify (upd_obj t (λ o, set_so_timer (mkShimTimer 0 0 period_ms auto_reload false timer_id cb)
                              (set_so_hdr (mkHdr SHIM_TAG_TIMER false) o))) ;;;
    if auto_reload then
      id <-- sys_now (λ _, tk_cre_cyc (mkT_CCYC t TA_HLNG cyc_handler_at period_ms period_ms)) ;;
      modify (upd_timer t (set_ti_cyc_id id)) ;;;
      if id <=? 0 then caps_free t ;;; Ret NULL else Ret t
    else
      id <-- sys_now (λ _, tk_cre_alm (mkT_CALM t TA_HLNG alm_handler_at)) ;;
      modify (upd_timer t (set_ti_alm_id id)) ;;;
      if id <=? 0 then caps_free t ;;; Ret NULL else Ret t.

(* src: components/freertos_shim/shim_timer.c 84-90 __wrap_xTimerCreateStatic *)
Definition xTimerCreateStatic (period : Z) (auto_reload : bool) (timer_id cb static_timer : Z) : prog SHIM Z :=
  xTimerCreate period auto_reload timer_id cb.

(* src: components/freertos_shim/shim_timer.c 95-105 __wrap_xTimerStart *)
Definition xTimerStart (t : Z) : prog SHIM Z :=
  if t =? NULL then Ret pdFALSE
  else
    modify (upd_timer t (set_ti_active true)) ;;;
    auto_reload <-- gets (λ s, ti_auto_reload (the_timer t s)) ;;
    er <-- (if auto_reload : bool then sys_now (λ s, tk_sta_cyc (ti_cyc_id (the_timer t s)))
            else sys_now (λ s, tk_sta_alm (ti_alm_id (the_timer t s)) (ti_period_ms (the_timer t s)))) ;;
    Ret (pd (er =? E_OK)).

(* src: components/freertos_shim/shim_timer.c 107-117 __wrap_xTimerStop *)
Definition xTimerStop (t : Z) : prog SHIM Z :=
  if t =? NULL then Ret pdFALSE
  else
    modify (upd_timer t (set_ti_active false)) ;;;
    auto_reload <-- gets (λ s, ti_auto_reload (the_timer t s)) ;;
    er <-- (if auto_reload : bool then sys_now (λ s, tk_stp_cyc (ti_cyc_id (the_timer t s)))
            else sys_now (λ s, tk_stp_alm (ti_alm_id (the_timer t s)))) ;;
    Ret (pd (er =? E_OK)).

(* src: components/freertos_shim/shim_timer.c 119-125 __wrap_xTimerReset *)
Definition xTimerReset (t : Z) : prog SHIM Z :=
  if t =? NULL then Ret pdFALSE else xTimerStop t ;;; xTimerStart t.

(* src: components/freertos_shim/shim_timer.c 127-137 __wrap_xTimerChangePeriod *)
Definition xTimerChangePeriod (t new_period : Z) : prog SHIM Z :=
  if t =? NULL then Ret pdFALSE
  else
    was_active <-- gets (λ s, ti_active (the_timer t s)) ;;
    xTimerStop t ;;;
    modify (upd_timer t (set_ti_period_ms (if 0 <? new_period then new_period else 1))) ;;;
    if was_active : bool then xTimerStart t else Ret pdTRUE.

(* src: components/freertos_shim/shim_timer.c 139-148 __wrap_xTimerDelete *)
Definition xTimerDelete (t : Z) : prog SHIM Z :=
  if t =? NULL then Ret pdFALSE
  else
    xTimerStop t ;;;
    p <-- gets (the_timer t) ;;
    (if ti_auto_reload p && (0 <? ti_cyc_id p) then sys_now (λ _, tk_del_cyc (ti_cyc_id p)) ;;; Ret tt else Ret tt) ;;;
    (if negb (ti_auto_reload p) && (0 <? ti_alm_id p) then sys_now (λ _, tk_del_alm (ti_alm_id p)) ;;; Ret tt else Ret tt) ;;;
    caps_free t ;;; Ret pdTRUE.

(* src: components/freertos_shim/shim_timer.c 150-154 __wrap_xTimerIsTimerActive *)
Definition xTimerIsTimerActive (t : Z) : prog SHIM Z :=
  if t =? NULL then Ret pdFALSE else gets (λ s, pd (ti_active (the_timer t s))).

(* src: components/freertos_shim/shim_timer.c 163-167 __wrap_xTimerStartFromISR *)
Definition xTimerStartFromISR (t : Z) : prog SHIM Z := xTimerStart t.
(* src: components/freertos_shim/shim_timer.c 168-172 __wrap_xTimerStopFromISR *)
Definition xTimerStopFromISR (t : Z) : prog SHIM Z := xTimerStop t.
(* src: components/freertos_shim/shim_timer.c 173-177 __wrap_xTimerResetFromISR *)
Definition xTimerResetFromISR (t : Z) : prog SHIM Z := xTimerReset t.
(* src: components/freertos_shim/shim_timer.c 178-182 __wrap_xTimerChangePeriodFromISR *)
Definition xTimerChangePeriodFromISR (t p : Z) : prog SHIM Z := xTimerChangePeriod t p.

(* src: components/freertos_shim/shim_timer.c 187-191 __wrap_pvTimerGetTimerID *)
Definition pvTimerGetTimerID (t : Z) : prog SHIM Z :=
  if t =? NULL then Ret NULL else gets (λ s, ti_timer_id (the_timer t s)).
(* src: components/freertos_shim/shim_timer.c 192-196 __wrap_vTimerSetTimerID *)
Definition vTimerSetTimerID (t id : Z) : prog SHIM unit :=
  if t =? NULL then Ret tt else modify (upd_timer t (set_ti_timer_id id)).
(* src: components/freertos_shim/shim_timer.c 202-206 __wrap_xTimerGetPeriod *)
Definition xTimerGetPeriod (t : Z) : prog SHIM Z :=
  if t =? NULL then Ret 0 else gets (λ s, ti_period_ms (the_timer t s)).
End timer.

Section change_period.
Context `{HeapCaps} `{UserHandlers}.

(** A call on the cyclic handler of the timer, within a program. *)
Lemma yields_call {A : Type} f (g : Z → prog SHIM A) (s : SHIM) r k a s' :
  f s (sh_k s) = (r, k) → yields (g r) (set_sh_k k s) a s' → yields (bind (sys_now f) g) s a s'.
Proof. intros E Hy. apply yields_now. change (the_k s) with (sh_k s). by rewrite E. Qed.

(** Changing the period of a running timer with auto-reload changes nothing but the
    number xTimerGetPeriod reports: the cyclic handler behind it keeps the interval it
    was created with, and the next expiry is one old period from now. *)
Theorem change_period_keeps_the_interval (s : SHIM) (t p : Z) :
  let tm := the_timer t s in
  let i := get_cyccb (ti_cyc_id tm) in
  let cb := k_cyc (sh_k s) i in
  t ≠ NULL → ti_auto_reload tm = true → ti_active tm = true → 0 < p →
  CHK_CYCID (ti_cyc_id tm) = true → cychdr cb ≠ NULL → has (cycatr cb) TA_PHS = false → has (cycstat cb) TCYC_STA = true →
  ∃ s', yields (xTimerChangePeriod t p) s pdTRUE s' ∧
    ti_period_ms (the_timer t s') = p ∧ ti_active (the_timer t s') = true ∧
    cyctim (k_cyc (sh_k s') i) = cyctim cb ∧
    tm_time (s_tmeb (k_s (sh_k s')) (TMEBC i)) = u32 (lltoul (s_current_time (k_s (sh_k s))) + cyctim cb + TIMER_PERIOD).
Proof.
  intros tm i cb Ht%Z.eqb_neq Ha Hact Hp Hid Hh%Z.eqb_neq Hph Hst.
  set (k1 := (tk_stp_cyc (ti_cyc_id tm) (sh_k s)).2). set (k2 := (tk_sta_cyc (ti_cyc_id tm) k1).2).
  assert (E1 : tk_stp_cyc (ti_cyc_id tm) (sh_k s) = (E_OK, k1)).
  { unfold k1, tk_stp_cyc. rewrite Hid. fold i cb. by rewrite Hh. }
  assert (Ecb1 : k_cyc k1 i = set_cycstat (Z.land (cycstat cb) (Z.lnot TCYC_STA)) cb).
  { unfold k1, tk_stp_cyc. rewrite Hid. fold i cb. rewrite Hh, Hst. simpl. fold cb. by upd_simpl. }
  assert (Et1 : s_current_time (k_s k1) = s_current_time (k_s (sh_k s))).
  { unfold k1, tk_stp_cyc. rewrite Hid. fold i cb. by rewrite Hh, Hst. }
  assert (Hst1 : has (cycstat (k_cyc k1 i)) TCYC_STA = false).
  { rewrite Ecb1. simpl. unfold has. by rewrite <- Z.land_assoc, (Z.land_comm _ TCYC_STA), Z.land_lnot_diag, Z.land_0_r. }
  assert (E2 : tk_sta_cyc (ti_cyc_id tm) k1 = (E_OK, k2)).
  { unfold k2, tk_sta_cyc. rewrite Hid. fold i. rewrite Ecb1. simpl cychdr. by rewrite Hh. }
  assert (Ek2 : k2 = upd_cyc i (λ cb, set_cycstat (Z.lor (cycstat cb) TCYC_STA) cb)
    (knl_cyc_timer_insert i (u32 (lltoul (s_current_time (k_s k1)) + cyctim cb + TIMER_PERIOD)) k1)).
  { unfold k2, tk_sta_cyc. rewrite Hid. fold i. rewrite Hst1, Ecb1. simpl cychdr. simpl cycatr. simpl cyctim. by rewrite Hh, Hph. }
  set (s1 := upd_timer t (set_ti_active false) s). set (s2 := set_sh_k k1 s1).
  set (s3 := upd_timer t (set_ti_period_ms p) s2). set (s4 := upd_timer t (set_ti_active true) s3).
  assert (Etm : ∀ f x, the_timer t (upd_timer t f x) = f (the_timer t x)).
  { intros f x. unfold the_timer, upd_timer, upd_obj. simpl. by rewrite fn_lookup_insert. }
  assert (T1 : the_timer t s1 = set_ti_active false tm) by (apply Etm).
  assert (T4 : the_timer t s4 = set_ti_active true (set_ti_period_ms p (set_ti_active false tm))).
  { unfold s4. rewrite Etm. unfold s3. rewrite Etm. change (the_timer t s2) with (the_timer t s1). by rewrite T1. }
  exists (set_sh_k k2 s4). split_and!.
  - unfold xTimerChangePeriod. rewrite Ht. eapply yields_step; [done|]. cbn [bind]. fold tm. rewrite Hact.
    unfold xTimerStop, xTimerStart. rewrite Ht. eapply yields_step; [done|]. cbn [bind]. fold s1.
    eapply yields_step; [done|]. cbn [bind]. rewrite T1. simpl ti_auto_reload. rewrite Ha. cbn [bind].
    eapply (yields_call _ _ s1 E_OK k1); [by rewrite T1|]. cbn [bind]. fold s2.
    eapply yields_step; [done|]. cbn [bind]. rewrite (proj2 (Z.ltb_lt 0 p)) by done. fold s3.
    eapply yields_step; [done|]. cbn [bind]. fold s4. eapply yields_step; [done|]. cbn [bind]. rewrite T4. simpl ti_auto_reload. rewrite Ha.
    eapply (yields_call _ _ s4 E_OK k2); [by rewrite T4|]. apply yields_ret.
  - change (the_timer t (set_sh_k k2 s4)) with (the_timer t s4). by rewrite T4.
  - change (the_timer t (set_sh_k k2 s4)) with (the_timer t s4). by rewrite T4.
  - change (sh_k (set_sh_k k2 s4)) with k2. rewrite Ek2. simpl. upd_simpl. by rewrite Ecb1.
  - change (sh_k (set_sh_k k2 s4)) with k2. rewrite Ek2, Et1. simpl. by upd_simpl.
Qed.
End change_period.

(** The timer at 4000 is the cyclic handler 1 with an interval of 10, which is started. *)
Definition ex_timer : @SHIM ex_heap :=
  let k := ex_k (ex_sch [ex_ready 3] [(TIMERQ, [TMEBC 0])]) in
  upd_timer 4000 (λ _, mkShimTimer 0 1 10 true true 0 0)
    (ex_shim (upd_cyc 0 (λ _, mkCYCCB 4000 TA_HLNG 9000 TCYC_STA 10) k)).

Lemma change_period_keeps_the_interval_witness :
  let U := {| CallUserHandlerP1 _ _ k := k |} in
  ∃ s', yields (xTimerChangePeriod (H0 := U) 4000 50) ex_timer pdTRUE s' ∧
    ti_period_ms (the_timer 4000 s') = 50 ∧ cyctim (k_cyc (sh_k s') 0) = 10.
Proof.
  intros U. destruct (change_period_keeps_the_interval (H0 := U) ex_timer 4000 50) as (s' & H1 & H2 & _ & H3 & _);
    [done|by vm_compute|by vm_compute|done|by vm_compute|by vm_compute|by vm_compute|by vm_compute|].
  exists s'. split_and!; [exact H1|exact H2|exact H3].
Defined.
