(* ===== verification/ShimPort.v ===== *)
(** * Critical sections of the FreeRTOS layer: components/freertos_shim/shim_port.c

    Critical sections and spinlocks are sections with interrupts disabled; each kind
    counts its nesting and keeps the interrupt state from before the outermost one.
    Each function is one step, since it runs with interrupts disabled.  The functions
    that end a section say whether they call knl_dispatch (System.v). *)
From S2P Require Import Prelude Config Queue Kernel ReadyQueue KInv KCheck Task Mem.
From S2P Require Import Prog Shim.
#[local] Open Scope prog_scope.

(** A [portMUX_TYPE] is the words [owner] and [count] at its address. *)
(* src: components/freertos_shim/include/freertos/FreeRTOS.h 44-44 portMUX_FREE_VAL *)
Definition portMUX_FREE_VAL : Z := 0xB33FEEFF.

Section port.
Context `{HeapCaps} (spi_flash_cache_enabled : SHIM → bool).

(** The interrupt enable bit, as disint and enaint of lib/libtk change it: enaint only
    ever sets it. *)
(* src: lib/libtk/sysdepend/cpu/core/riscv_esp/int_riscv.c 40-45 enaint *)
Definition enaint (prev : bool) (s : SHIM) : SHIM := if prev then set_sh_mie true s else s.

(* src: components/freertos_shim/shim_port.c 35-41 __wrap_vPortEnterCritical *)
Definition vPortEnterCritical : prog SHIM unit :=
  modify (λ s,
    let old := sh_mie s in
    let s := set_sh_mie false s in
    let s := if sh_cs_depth s =? 0 then set_sh_cs_saved old s else s in
    set_sh_cs_depth (sh_cs_depth s + 1) s).

(* src: components/freertos_shim/shim_port.c 59-69 shim_yield_if_needed *)
Definition shim_yield_if_needed (saved : bool) (s : SHIM) : bool :=
  let k := k_s (sh_k s) in
  saved && (s_dispatch_disabled k =? 0) && (s_taskindp k =? 0) && bool_decide (s_ctxtsk k ≠ None) &&
  bool_decide (s_schedtsk k ≠ None) && bool_decide (s_ctxtsk k ≠ s_schedtsk k) && spi_flash_cache_enabled s.

(* src: components/freertos_shim/shim_port.c 71-78 __wrap_vPortExitCritical *)
Definition vPortExitCritical : prog SHIM bool :=
  step (λ s,
    let s := set_sh_cs_depth (sh_cs_depth s - 1) s in
    if sh_cs_depth s <=? 0 then
      let s := enaint (sh_cs_saved s) (set_sh_cs_depth 0 s) in
      (shim_yield_if_needed (sh_cs_saved s) s, s)
    else (false, s)).

(* src: components/freertos_shim/shim_port.c 80-83 __wrap_vPortEnterCriticalFromISR *)
Definition vPortEnterCriticalFromISR : prog SHIM unit := vPortEnterCritical.
(* src: components/freertos_shim/shim_port.c 85-88 __wrap_vPortExitCriticalFromISR *)
Definition vPortExitCriticalFromISR : prog SHIM bool := vPortExitCritical.

(* src: components/freertos_shim/shim_port.c 115-119 __wrap_spinlock_initialize *)
Definition spinlock_initialize (mux : Z) : prog SHIM unit :=
  modify (upd_k (upd_mem (st32 mux portMUX_FREE_VAL))) ;;; modify (upd_k (upd_mem (st32 (mux + 4) 0))).

Definition mux_count (mux : Z) (s : SHIM) : Z := ld32 (k_mem (sh_k s)) (mux + 4).
Definition set_mux_count (mux n : Z) (s : SHIM) : SHIM := upd_k (upd_mem (st32 (mux + 4) (u32 n))) s.

(* src: components/freertos_shim/shim_port.c 121-128 __wrap_spinlock_acquire *)
Definition spinlock_acquire (mux : Z) : prog SHIM unit :=
  modify (λ s,
    let old := sh_mie s in
    let s := set_sh_mie false s in
    let s := if sh_sl_depth s =? 0 then set_sh_sl_saved old s else s in
    let s := set_sh_sl_depth (sh_sl_depth s + 1) s in
    set_mux_count mux (mux_count mux s + 1) s).

(* src: components/freertos_shim/shim_port.c 130-140 __wrap_spinlock_release *)
Definition spinlock_release (mux : Z) : prog SHIM bool :=
  step (λ s,
    if 0 <? mux_count mux s then
      let s := set_mux_count mux (mux_count mux s - 1) s in
      let s := set_sh_sl_depth (sh_sl_depth s - 1) s in
      if sh_sl_depth s <=? 0 then
        let s := enaint (sh_sl_saved s) (set_sh_sl_depth 0 s) in
        (shim_yield_if_needed (sh_sl_saved s) s, s)
      else (false, s)
    else (false, s)).

(** The heap functions of FreeRTOS. *)
(* src: components/freertos_shim/shim_port.c 145-145 __wrap_pvPortMalloc *)
Definition pvPortMalloc (sz : Z) : prog SHIM Z := caps_malloc sz.
(* src: components/freertos_shim/shim_port.c 146-146 __wrap_vPortFree *)
Definition vPortFree (p : Z) : prog SHIM unit := caps_free p.

(** The initialization of the kernel's tables, at most once. *)
(* src: components/freertos_shim/shim_port.c 184-189 __wrap_knl_init_object *)
Definition knl_init_object (real : K → Z * K) : prog SHIM Z :=
  ready <-- gets sh_ready ;;
  if ready : bool then Ret E_OK else modify (set_sh_ready true) ;;; sys_now (λ _, real).

(** ** Sections nest *)

(** The sections a piece of code enters and leaves: critical sections, which are all the
    same, and spinlocks, each with its address.  The nesting is counted for each kind. *)
Inductive section := critical_section | spinlock (mux : Z).
#[local] Instance section_eq_dec : EqDecision section.
Proof. solve_decision. Defined.

Inductive section_kind := Critical | Spin.
#[local] Instance section_kind_eq_dec : EqDecision section_kind.
Proof. solve_decision. Defined.

Definition kind_of (c : section) : section_kind := match c with critical_section => Critical | spinlock _ => Spin end.

Definition enter (c : section) : prog SHIM unit :=
  match c with critical_section => vPortEnterCritical | spinlock mux => spinlock_acquire mux end.
Definition leave (c : section) : prog SHIM bool :=
  match c with critical_section => vPortExitCritical | spinlock mux => spinlock_release mux end.

Definition count {A : Type} `{EqDecision A} (c : A) (l : list A) : Z := Z.of_nat (length (filter (λ d, d = c) l)).

(** What the running code does: entering ([true]) or leaving a section; leaving is only
    possible for the innermost one. *)
Definition run_sections : list (bool * section) → prog SHIM unit :=
  foldr (λ '(b, c) p, if b : bool then enter c ;;; p else leave c ;;; p) (Ret tt).

Fixpoint stack_after (l : list section) (ops : list (bool * section)) : option (list section) :=
  match ops with
  | [] => Some l
  | (true, c) :: ops => stack_after (c :: l) ops
  | (false, c) :: ops => match l with d :: l => if decide (c = d) then stack_after l ops else None | [] => None end
  end.

Definition saved (k : section_kind) (s : SHIM) : bool :=
  match k with Critical => sh_cs_saved s | Spin => sh_sl_saved s end.
Definition depth (k : section_kind) (s : SHIM) : Z :=
  match k with Critical => sh_cs_depth s | Spin => sh_sl_depth s end.

(** The spinlocks of a program: objects of two words, which do not overlap. *)
Definition apart (locks : list Z) : Prop := ∀ a b, a ∈ locks → b ∈ locks → a ≠ b → a + 8 <= b ∨ b + 8 <= a.
Definition uses (locks : list Z) (c : section) : Prop := match c with critical_section => True | spinlock mux => mux ∈ locks end.

(** Inside the sections [l], the innermost first, entered with the interrupt state [m]. *)
Record inside (locks : list Z) (m : bool) (l : list section) (s : SHIM) : Prop := {
  in_mie : sh_mie s = match l with [] => m | _ => false end;
  in_depth : ∀ k, depth k s = count k (kind_of <$> l);
  in_mux : ∀ mux, mux ∈ locks → mux_count mux s = count (spinlock mux) l;
  in_saved : ∀ k, 0 < count k (kind_of <$> l) → saved k s = if decide (last (kind_of <$> l) = Some k) then m else false
}.

Lemma count_cons {A : Type} `{EqDecision A} (c d : A) l :
  count c (d :: l) = if decide (d = c) then count c l + 1 else count c l.
Proof. unfold count. rewrite filter_cons. case_decide; simpl; [lia|done]. Qed.

Lemma count_nonneg {A : Type} `{EqDecision A} (c : A) l : 0 <= count c l.
Proof. unfold count. lia. Qed.

Lemma count_length {A : Type} `{EqDecision A} (c : A) l : count c l <= Z.of_nat (length l).
Proof. unfold count. pose proof (length_filter (λ d, d = c) l). lia. Qed.

Lemma last_count {A : Type} `{EqDecision A} (c : A) l : last l = Some c → 0 < count c l.
Proof.
  intros [l' ->]%last_Some. unfold count. rewrite filter_app, length_app, filter_cons, decide_True by done. simpl. lia.
Qed.

Lemma mux_count_set mux n s : 0 <= n < 2 ^ 32 → mux_count mux (set_mux_count mux n s) = n.
Proof. intros Hn. unfold mux_count, set_mux_count. simpl. unfold u32. rewrite Z.mod_small by done. by apply ld32_st32. Qed.

Lemma mux_count_set_ne mux mux' n s :
  mux + 8 <= mux' ∨ mux' + 8 <= mux → mux_count mux' (set_mux_count mux n s) = mux_count mux' s.
Proof. intros Hn. unfold mux_count, set_mux_count. simpl. apply ld32_st32_ne. lia. Qed.

(** The count of the spinlock is set; those of the others stay. *)
Lemma mux_counts locks mux n (f : Z → Z) s :
  apart locks → mux ∈ locks → 0 <= n < 2 ^ 32 → (∀ mux', mux' ∈ locks → mux_count mux' s = f mux') →
  ∀ mux', mux' ∈ locks → mux_count mux' (set_mux_count mux n s) = if decide (mux = mux') then n else f mux'.
Proof.
  intros Ha Hx Hn Hf mux' Hx'. case_decide as E; [subst mux'; by apply mux_count_set|].
  rewrite mux_count_set_ne by (by apply Ha). by apply Hf.
Qed.

Lemma if_saved_cs (b v : bool) s : (if b then set_sh_cs_saved v (set_sh_mie false s) else set_sh_mie false s) =
  set_sh_cs_saved (if b then v else sh_cs_saved s) (set_sh_mie false s).
Proof. destruct b; [done|by destruct s]. Qed.
Lemma if_saved_sl (b v : bool) s : (if b then set_sh_sl_saved v (set_sh_mie false s) else set_sh_mie false s) =
  set_sh_sl_saved (if b then v else sh_sl_saved s) (set_sh_mie false s).
Proof. destruct b; [done|by destruct s]. Qed.

(** The interrupt state an outermost section of a kind saves. *)
Lemma saved_enter locks m c l s : inside locks m l s → let kl := kind_of <$> l in
  ∀ k, 0 < count k (kind_of c :: kl) →
  (if decide (kind_of c = k ∧ count k kl = 0) then sh_mie s else saved k s) =
  if decide (last (kind_of c :: kl) = Some k) then m else false.
Proof.
  intros [Hm Hd Hx Hs] kl k Hc. rewrite count_cons in Hc. subst kl. destruct l as [|e l].
  - change (count k (kind_of <$> [])) with 0 in *. destruct (decide (kind_of c = k)) as [->|]; [|simpl in Hc; lia].
    rewrite decide_True by done. by rewrite decide_True by done.
  - rewrite fmap_cons in *. rewrite last_cons_cons.
    destruct (decide (kind_of c = k ∧ count k (kind_of e :: (kind_of <$> l)) = 0)) as [[<- E]|E].
    + rewrite Hm, decide_False; [done|]. intros ?%last_count. lia.
    + apply (Hs k). pose proof (count_nonneg k (kind_of e :: (kind_of <$> l))).
      destruct (decide (kind_of c = k)) as [Ek|]; [|done].
      destruct (decide (count k (kind_of e :: (kind_of <$> l)) = 0)); [by destruct E|lia].
Qed.

(** The step that enters a section, and the one that leaves the innermost. *)
Lemma enter_inside locks m c l s : apart locks → uses locks c → inside locks m l s → Z.of_nat (length l) < 2 ^ 31 →
  ∃ s', yields (enter c) s tt s' ∧ inside locks m (c :: l) s'.
Proof.
  intros Ha Hu Hi Hl. pose proof (saved_enter locks m c l s Hi) as Hsv. cbv zeta in Hsv. destruct Hi as [Hm Hd Hx Hs].
  pose proof (Hd Critical) as Hdc. pose proof (Hd Spin) as Hds. simpl in Hdc, Hds.
  destruct c as [|mux]; (eexists; split; [eapply yields_step; [reflexivity|apply yields_ret]|]);
    cbv zeta; change (sh_cs_depth (set_sh_mie false s)) with (sh_cs_depth s);
    change (sh_sl_depth (set_sh_mie false s)) with (sh_sl_depth s).
  - rewrite if_saved_cs, Hdc. constructor; [done| | |].
    + intros []; rewrite fmap_cons, count_cons; simpl; [by rewrite Hdc|done].
    + intros mux Hmux. rewrite count_cons. simpl. by apply Hx.
    + intros k. rewrite fmap_cons. intros Hc. rewrite <- (Hsv k Hc). destruct k; [|done]. unfold saved; simpl sh_cs_saved.
      destruct (Z.eqb_spec (count Critical (kind_of <$> l)) 0); [by rewrite decide_True|by rewrite decide_False by naive_solver].
  - rewrite if_saved_sl, Hds. constructor; [done| | |].
    + intros []; rewrite fmap_cons, count_cons; simpl; [done|by rewrite Hds].
    + intros mux' Hmux'. rewrite count_cons.
      change (mux_count mux (set_sh_sl_depth _ _)) with (mux_count mux s). simpl in Hu. rewrite (Hx mux Hu).
      pose proof (count_length (spinlock mux) l). pose proof (count_nonneg (spinlock mux) l).
      rewrite (mux_counts locks mux _ (λ mux', count (spinlock mux') l)); try done; [|lia].
      destruct (decide (mux = mux')) as [->|]; [by rewrite decide_True|by rewrite decide_False by congruence].
    + intros k. rewrite fmap_cons. intros Hc. rewrite <- (Hsv k Hc). destruct k; [done|]. unfold saved; simpl sh_sl_saved.
      destruct (Z.eqb_spec (count Spin (kind_of <$> l)) 0); [by rewrite decide_True|by rewrite decide_False by naive_solver].
Qed.

Lemma saved_leave locks m c l s : inside locks m (c :: l) s → let kl := kind_of <$> l in
  (∀ k, 0 < count k kl → saved k s = if decide (last kl = Some k) then m else false) ∧
  (count (kind_of c) kl = 0 → saved (kind_of c) s = match l with [] => m | _ => false end) ∧
  (0 < count (kind_of c) kl → match l with [] => m | _ => false end = false).
Proof.
  intros [Hm Hd Hx Hs] kl. rewrite fmap_cons in Hs. fold kl in Hs. split_and!.
  - intros k Hc. rewrite Hs by (rewrite count_cons; case_decide; lia). unfold kl in *. destruct l; [done|].
    rewrite fmap_cons. by rewrite last_cons_cons.
  - intros E. rewrite Hs by (rewrite count_cons, decide_True by done; lia). unfold kl in *. destruct l as [|e l]; [by rewrite decide_True|].
    rewrite fmap_cons in *. rewrite last_cons_cons, decide_False; [done|]. intros ?%last_count. lia.
  - by destruct l.
Qed.

Lemma leave_inside locks m c l s : apart locks → uses locks c → inside locks m (c :: l) s → Z.of_nat (length l) < 2 ^ 31 →
  ∃ s' b, yields (leave c) s b s' ∧ inside locks m l s'.
Proof.
  intros Ha Hu Hi Hl. destruct (saved_leave locks m c l s Hi) as (Hsv & Hout & Hin). destruct Hi as [Hm Hd Hx Hs].
  pose proof (Hd Critical) as Hdc. pose proof (Hd Spin) as Hds. simpl in Hm.
  change (depth Critical s) with (sh_cs_depth s) in Hdc. change (depth Spin s) with (sh_sl_depth s) in Hds.
  pose proof (count_nonneg (kind_of c) (kind_of <$> l)) as Hc0. rewrite fmap_cons, count_cons in Hdc, Hds.
  destruct c as [|mux]; cbn [kind_of saved] in *.
  - rewrite decide_True in Hdc by done. rewrite decide_False in Hds by done.
    set (n := count Critical (kind_of <$> l)) in *. set (s1 := set_sh_cs_depth n s).
    set (s' := if n =? 0 then enaint (sh_cs_saved s) s1 else s1).
    assert (Es : ∃ b, yields vPortExitCritical s b s').
    { unfold s'. destruct (Z.eqb_spec n 0) as [E|E]; eexists;
        (eapply yields_step; [|apply yields_ret]); cbv zeta; unfold s1; simpl sh_cs_depth; rewrite Hdc, Z.add_simpl_r.
      - rewrite E. reflexivity.
      - destruct (Z.leb_spec n 0); [lia|]. reflexivity. }
    destruct Es as [b Es]. exists s', b. split; [exact Es|].
    assert (Hx' : ∀ mux, mux ∈ locks → mux_count mux s = count (spinlock mux) l).
    { intros mux Hmux. by rewrite (Hx mux Hmux), count_cons. }
    unfold s', enaint. destruct (Z.eqb_spec n 0) as [E|E].
    + rewrite (Hout E). constructor.
      * destruct l; [destruct m|]; simpl; congruence.
      * intros []; unfold s1; (destruct l; [destruct m|]); simpl; try done; by apply Hds.
      * intros mux Hmux. rewrite <- (Hx' mux Hmux). by (destruct l; [destruct m|]).
      * intros k Hc. rewrite <- (Hsv k Hc). by destruct k; (destruct l; [destruct m|]).
    + constructor; [by rewrite Hin by lia|by intros []|done|]. intros k Hc. rewrite <- (Hsv k Hc). by destruct k.
  - rewrite decide_False in Hdc by done. rewrite decide_True in Hds by done.
    set (n := count Spin (kind_of <$> l)) in *. set (q := count (spinlock mux) l).
    pose proof (count_length (spinlock mux) l). pose proof (count_nonneg (spinlock mux) l). fold q in H, H0.
    assert (Hq : mux_count mux s = q + 1) by (by rewrite (Hx mux Hu), count_cons, decide_True).
    set (s1 := set_sh_sl_depth n (set_mux_count mux q s)).
    set (s' := if n =? 0 then enaint (sh_sl_saved s) s1 else s1).
    assert (Hmx : ∀ mux', mux' ∈ locks → mux_count mux' s1 = count (spinlock mux') l).
    { intros mux' Hmux'. change (mux_count mux' s1) with (mux_count mux' (set_mux_count mux q s)).
      rewrite (mux_counts locks mux q (λ mux', count (spinlock mux') (spinlock mux :: l))); try done; [|lia].
      rewrite count_cons. destruct (decide (mux = mux')) as [->|]; [done|by rewrite decide_False by congruence]. }
    assert (Es : ∃ b, yields (spinlock_release mux) s b s').
    { unfold s'. destruct (Z.eqb_spec n 0) as [E|E]; eexists;
        (eapply yields_step; [|apply yields_ret]); cbv zeta; rewrite Hq, (proj2 (Z.ltb_lt 0 (q + 1))) by lia;
        rewrite Z.add_simpl_r; simpl sh_sl_depth; rewrite Hds, Z.add_simpl_r; fold s1.
      - unfold s1. rewrite !E. reflexivity.
      - destruct (Z.leb_spec n 0); [lia|]. reflexivity. }
    destruct Es as [b Es]. exists s', b. split; [exact Es|]. unfold s', enaint.
    destruct (Z.eqb_spec n 0) as [E|E].
    + rewrite (Hout E). constructor.
      * destruct l; [destruct m|]; simpl; congruence.
      * intros []; unfold s1; (destruct l; [destruct m|]); simpl; try done; by apply Hdc.
      * intros mux' Hmux'. rewrite <- (Hmx mux' Hmux'). by (destruct l; [destruct m|]).
      * intros k Hc. rewrite <- (Hsv k Hc). by destruct k; (destruct l; [destruct m|]).
    + constructor; [by rewrite Hin by lia|by intros []|done|]. intros k Hc. rewrite <- (Hsv k Hc). by destruct k.
Qed.

(** C17: Critical sections and spinlocks nest.  Code that leaves the sections it has entered
    in the opposite order runs with interrupts disabled while it is in one, however
    critical sections and any number of different spinlocks are mixed, and has the interrupt state it
    started with when it has left all of them.  The count in each spinlock is the number of
    times it is held.  The spinlocks are objects of eight bytes that do not overlap. *)
Theorem sections_nest (s : SHIM) (locks : list Z) (m : bool) (l l' : list section) (ops : list (bool * section)) :
  apart locks → Forall (λ '(_, c), uses locks c) ops →
  inside locks m l s → stack_after l ops = Some l' → Z.of_nat (length l + length ops) < 2 ^ 31 →
  ∃ s', yields (run_sections ops) s tt s' ∧ inside locks m l' s' ∧
    sh_mie s' = (if decide (l' = []) then m else false) ∧
    ∀ mux, mux ∈ locks → mux_count mux s' = count (spinlock mux) l'.
Proof.
  intros Ha. assert (Hend : ∀ s l', inside locks m l' s → sh_mie s = (if decide (l' = []) then m else false) ∧
    ∀ mux, mux ∈ locks → mux_count mux s = count (spinlock mux) l').
  { intros s0 l0 Hi. split; [|apply Hi]. rewrite (in_mie _ _ _ _ Hi). by destruct l0. }
  revert s l. induction ops as [|[b c] ops IH]; intros s l Hu Hi; simpl.
  - intros [= ->] _. exists s. split_and!; [apply yields_ret|done|by apply Hend..].
  - apply Forall_cons in Hu as [Hu1 Hu]. intros Hst Hl. destruct b.
    + destruct (enter_inside locks m c l s Ha Hu1 Hi) as (s1 & Hy & Hi1); [lia|].
      destruct (IH s1 (c :: l) Hu Hi1 Hst) as (s2 & Hy2 & ?); [simpl; lia|]. exists s2. split; [|done]. by eapply yields_bind.
    + destruct l as [|d l]; [done|]. case_decide as E; [|done]. subst d.
      destruct (leave_inside locks m c l s Ha Hu1 Hi) as (s1 & r & Hy & Hi1); [simpl in Hl; lia|].
      destruct (IH s1 l Hu Hi1 Hst) as (s2 & Hy2 & ?); [simpl in Hl; lia|]. exists s2. split; [|done]. by eapply yields_bind.
Qed.
End port.

(** Two spinlocks, the first of them taken twice, inside a critical section. *)
Lemma sections_nest_witness :
  let s := ex_shim (ex_k (ex_sch [ex_ready 3] [(TIMERQ, [])])) in
  let a := spinlock 4000 in let b := spinlock 4008 in
  ∃ s', yields (run_sections (λ _, true)
    [(true, critical_section); (true, a); (true, b); (true, a); (false, a); (false, b); (false, a); (false, critical_section)])
    s tt s' ∧ sh_mie s' = true.
Proof.
  intros s a b. destruct (sections_nest (λ _, true) s [4000; 4008] true [] []
    [(true, critical_section); (true, a); (true, b); (true, a); (false, a); (false, b); (false, a); (false, critical_section)])
    as (s' & H1 & _ & H2 & _); [| | |by vm_compute|done|exists s'; split; [exact H1|exact H2]].
  - intros x y. rewrite !elem_of_cons, !elem_of_nil. lia.
  - repeat constructor; simpl; set_solver.
  - constructor; [done|by intros []|intros mux; rewrite !elem_of_cons, elem_of_nil; intros [->|[->|[]]]; by vm_compute|by intros []].
Defined.
